(* ===== verification/_CoqProject ===== *)
-Q . S2P
Prelude.v
CamTypes.v
StreamOffset.v
CamQueue.v
Env.v
DevName.v
Handles.v
Threads.v
Stream.v
StreamProps.v
StreamFsm.v
SuperBuf.v
SuperBufProps.v
Channel.v
ChannelProps.v
Camera.v
Sock.v
Interface.v
DemoCamera.v
LockSpec.v
CameraProps.v
CameraEvents.v
Discovery.v
Mailbox.v
QomxCore.v
QomxProps.v
JpegQueue.v
JpegExif.v
JpegData.v
JpegBase.v
Jpeg.v
JpegDec.v
JpegMgr.v
JpegDecIntf.v
JpegIds.v
JpegInv.v
JpegTotal.v
JpegDecTotal.v
JpegOps.v
JpegProps.v
JpegDemo.v
JpegDecProps.v
JpegDecSeq.v
JpegDecDemo.v
HalSm.v
HalSmProps.v
HalQueue.v
HalApi.v
HalApiProps.v
BtHci.v
Rome.v
RomeProps.v
RomeNvm.v
RomeInit.v
RomeDemo.v
CText.v
PsFile.v
PsProps.v
Ar3k.v
Ar3kProps.v
Ar3kDemo.v
BtSys.v
Userial.v
Vendor.v
VendorOp.v
VendorProps.v
VendorOpen.v
VendorRome.v
VendorDemo.v
