(* ===== verification/Prelude.v ===== *)
(** * Verification of the HDX device libraries

    The repository is the Android device tree of the Kindle Fire HDX.  Its own
    C code is mostly the camera stack under [src/camera]: the library
    between the camera HAL and the kernel driver
    ([QCamera2/stack/mm-camera-interface]), the JPEG libraries above the OMX
    encoder and decoder ([QCamera2/stack/mm-jpeg-interface]), and the OMX core
    ([mm-image-codec/qomx_core]), with the state machine of the camera HAL
    ([QCamera2/HAL/QCameraStateMachine.cpp]) on top; then the vendor library of
    the bluetooth controllers under [src/bluetooth/libbt-vendor].  This
    development models these and proves what makes them correct.

    ** The program

    A camera has channels; a channel ([mm_camera_channel.c]) has up to four
    streams ([mm_camera_stream.c]); a stream is a device file that delivers
    frames of one kind into buffers of the client.  A poll thread per channel
    ([mm_camera_thread.c]) watches the streams.  A frame taken from the kernel
    goes to the stream's own command thread, which calls the callbacks
    registered for the stream, and, in a bundling channel, to the channel's
    command thread, which matches the frames of all streams by frame index
    into super buffers, and from there through the callback thread to the
    application.  A buffer goes back to the kernel when its last holder
    returns it.  The camera object ([mm_camera.c]) has the channel table, a
    control device, a domain socket to the camera server, and a poll and an
    event thread of its own.  Clients reach it through the entry points of
    [mm_camera_interface.c], which find the object of a handle and move from
    the global mutex to that of the camera and on to that of the channel.
    Queues are doubly linked rings ([cam_list.h], [cam_queue.h]).

    The JPEG library ([mm_jpeg.c], [mm_jpeg_interface.c]) has up to eight
    clients with ten sessions each.  A session owns a component of the OMX
    core ([qomx_core.c]), which loads the library of the component while it
    has instances.  Jobs wait in a queue ([mm_jpeg_queue.c]); a job manager
    thread, woken by a semaphore, gives one job at a time to the component of
    its session; callbacks of the component finish the job, call the client
    and wake the manager.  Metadata of the frame becomes entries of an EXIF
    table ([mm_jpeg_exif.c]).  The decoder ([mm_jpegdec.c],
    [mm_jpegdec_interface.c]) is a second library with an object of the same
    type, the same clients, queues and manager; its sessions learn the size of
    the image from the component while a job runs, and set up the output port
    only then.

    The framework calls the camera through the HAL.  An entry point
    ([QCamera2HWI.cpp]) queues a request and waits for its answer; a thread
    takes requests and, when there are none, events of the libraries below, and
    handles each in the function of the current state
    ([QCameraStateMachine.cpp]), which calls the methods of the hardware
    interface object and hands the answer to the caller.

    The vendor library brings a bluetooth controller up over a serial line.
    For a Rome controller ([hw_rome.c]) it asks for the version, changes the
    speed, sends the patch and the configuration file of that version in
    segments, each a vendor command that is answered by events the file's
    header chooses, and resets the controller.  For an AR3K controller
    ([hw_ar3k.c]) it parses text files into a table of configuration entries
    and sends these, a patch and an address in PS commands.  Events are read
    by [read_hci_event] of [hci_uart.c], whose other functions set up the port.
    The bluetooth stack calls the library through [bt_vendor_qcom.c]: it
    switches the controller by a radio switch that it shares with a second
    client, the count of clients being a system property, opens the transport
    (which runs the initialisation of the controller and then connects to a
    filter process, or opens two shared memory channels, [hci_smd.c]), closes it
    and recovers from failures.  Properties also connect it to the daemon that
    starts the third kind of controller ([hardware.c]).

    ** The files

    - Prelude: machine integers, alignment, the monad of stateful code, the
      predicate [keeps] (what code leaves alone) with its hint database.
    - CamTypes: the types of [cam_types.h] and [cam_intf.h] that are used.
    - StreamOffset: the frame layouts, [mm_stream_calc_offset] and the seven
      functions it calls, on 32-bit integers.
    - CamQueue: [cam_list.h] and [cam_queue.h] on a heap of nodes with next and
      prev pointers.
    - Env: the outside world.  System calls, the server on the domain socket,
      the memory table of the client and its callbacks are a class [Env] of
      functions of the history of everything that happened; every outside call
      is appended to the history.  The control helpers of [mm_camera.c].
    - DevName: the names of devices and sockets that are printed and scanned.
    - Handles: handle generation and decoding.
    - Threads: [mm_camera_thread.c], poll threads and command threads.
    - Stream: [mm_camera_stream.c], the stream object [mm_stream_t] and one
      definition per function, the state machine [mm_stream_fsm_fn] included.
    - StreamProps, StreamFsm: theorems about streams.
    - SuperBuf: the super buffer queue of [mm_camera_channel.c], written
      against a class [SuperbufOps] of channel operations.
    - SuperBufProps: the laws [SuperbufLaws] of that interface, the invariant
      of the queue, an abstract queue and the theorems.
    - Channel: the rest of [mm_camera_channel.c], the channel object
      [mm_channel_t] with its streams, its instance of [SuperbufOps] and the
      state machine [mm_channel_fsm_fn].
    - ChannelProps: the instance of [SuperbufLaws] and the theorems.
    - Camera: [mm_camera.c], the camera object [mm_camera_obj_t], and
      [mm_camera_sock.c].  The state [iworld] is what one thread works on: the
      global control structure, the heap of camera objects, the mutexes that
      the thread holds, the history.
    - Sock: the messages of [mm_camera_sock.c] on the bytes of the control
      message that carries a descriptor; the kernel is a class [SockEnv] with
      the laws [SockLaws].
    - Interface: [mm_camera_interface.c], the entry points, [camera_open] and
      the device discovery.
    - DemoCamera: a phone with one camera, on which theorems are tried.
    - LockSpec: the entry points against a specification without locks.
    - CameraProps: opening and closing, descriptors and reference counts.
    - CameraEvents: the callback table and the delivery of server events.
    - Discovery: the device discovery against a list of media devices.
    - Mailbox: [mm_camera_util_sendmsg] and the mailbox [evt_rcvd] as a step
      relation of concurrent threads.
    - QomxCore, QomxProps: [qomx_core.c]; the dynamic linker and the component
      libraries are a class [OmxEnv] of functions of the history.  The
      registry against a table of instance counts.
    - JpegQueue: [mm_jpeg_queue.c] and the loops of [mm_jpeg.c] that remove a
      job, on the heap of CamQueue, against lists.
    - JpegExif: [mm_jpeg_exif.c] with the blocks that the entries own.
    - JpegData: the types of the JPEG libraries, the state [jworld] (the object
      with its clients, sessions and queues, the OMX core, the heap, the
      history), and the class [JpegEnv] of the components, the memory and the
      ION driver.
    - JpegBase: [mm_jpeg_inlines.h], queues, and the callbacks of both libraries.
    - Jpeg, JpegMgr: the sessions of [mm_jpeg.c]; the job manager, the clients,
      [mm_jpeg_interface.c] and [mm_jpeg_ionbuf.c].
    - JpegDec, JpegDecIntf: the sessions of [mm_jpegdec.c]; its clients and
      [mm_jpegdec_interface.c].
    - JpegIds: identifiers of jobs, crop rectangles.
    - JpegInv: the invariant of a JPEG library, kept by every callback; the
      class [Codec] says which of the two it is.
    - JpegTotal, JpegDecTotal: the functions on a session of the encoder and of
      the decoder end and keep the invariant.
    - JpegOps: queues, turns of the manager and tables of clients, for both.
    - JpegProps, JpegDecProps: the same for the entry points, and the theorems.
    - JpegDecSeq: a decoding job call by call.
    - JpegDemo, JpegDecDemo: an encoder and a decoder on which the theorems are
      tried, and runs that end badly.
    - HalSm: the state functions of [QCameraStateMachine.cpp]; the methods of
      the hardware interface object are a class [HwiEnv].
    - HalSmProps: the state against a machine that follows the calls, and the
      answers to requests.
    - HalQueue: [QCameraQueue.cpp] on the heap of CamQueue, against lists.
    - HalApi, HalApiProps: the entry points of [QCamera2HWI.cpp] and the thread
      of the state machine as a step relation, and that calls return.
    - BtHci: the serial line: [do_write] of [hw_rome.c] and [read_hci_event] of
      [hci_uart.c], on the descriptor they are given.  The lines behind the
      descriptors, the files and the allocator are a class [BtEnv] of functions
      of the history.
    - Rome: the rest of [hw_rome.c] on the state [rworld], its global variables
      and the history; the descriptor that its functions pass on is the class
      [LineFd].
    - RomeProps: what is done as a list of bytes to descriptors and of calls
      ([sent]); events from the line, the segments of a file and of a patch.
    - RomeNvm: configuration files, and the download of both files.
    - RomeInit: the initialisation sequence, and that it fails with a controller
      that sends no event.
    - RomeDemo: a controller on which the theorems are tried, and runs that end
      badly.
    - CText: the functions of the C library on text that are used: strings in
      arrays, [fgets], [strtol], hexadecimal printing.
    - PsFile, PsProps: the parser of PS files of [hw_ar3k.c] and its round trip;
      lines are read into an array that keeps what earlier lines left in it.
    - Ar3k, Ar3kProps, Ar3kDemo: the rest of [hw_ar3k.c], its initialisation
      sequence, and concrete runs.
    - BtSys: descriptors and system properties; the system is a class [SysEnv]
      over [BtEnv], the options of the build a class [BuildCfg].
    - Userial: the port functions of [hci_uart.c] with the bits of [termios].
    - Vendor: [hardware.c], [hci_smd.c] and the power control of
      [bt_vendor_qcom.c], on the globals of the library ([vworld]).
    - VendorOp: its entry points.  The controller code of Rome and Ar3k runs on
      its own globals inside [vworld] and on the one history ([on_rome],
      [on_ar3k]).
    - VendorProps: rates, the clients of the radio switch, the daemon.
    - VendorOpen: descriptors of an open and a close; the address.
    - VendorRome: the open of a Rome transport from end to end, everything it
      does in order, from the theorems of RomeInit; what it leaves open.
    - VendorDemo: a device on which the theorems are tried, and runs that fail.

    ** How the code is modelled

    A function of the source is a definition of the same name.  Stateful code
    is a function from a state to [Some] result and state, or to [None] for an
    execution that follows a null or freed pointer, leaves an array, or waits
    for ever; so a theorem that says a call is [Some _] also says that none of
    these happen.  A stream operation runs on [sworld] (the stream, the poll
    thread, the channel's command thread, the history), a channel operation on
    [cworld].  Steps of different threads are atomic where the code holds a
    lock; the interleavings that matter for buffers are a step relation
    ([own_step] of StreamProps), and those of the mailbox and of the calls of
    the HAL others ([step] of Mailbox and of HalApi), with each mutex operation
    a step of its own.  A call of the
    JPEG library and a turn of its job manager are atomic up to the callbacks
    of components: these come in any number and order wherever the caller
    waits or calls a component without the session's mutex ([deliver] and
    [cond_wait] of JpegBase), and between calls.  Joining a thread runs it to the
    end of its queue.  Integers have the width of the source; unsigned arithmetic wraps,
    signed arithmetic is given its wrapped value and the theorems carry the
    bounds under which nothing wraps.

    Loops of the source that end by a property of the data take fuel.  The
    fuel used is the number of elements of the queue the loop consumes
    ([que_len] of Channel, the length of the command queue in Threads), and
    the theorems prove that it is enough: running out is [None].  The device
    discovery takes as fuel the number of turns of its two loops, which the
    number of devices and of entities bounds.  [mm_jpeg_jobmgr_thread] takes
    the number of turns the thread makes before its exit command; the removal
    of the jobs of a session takes one turn more than the queue is long.  The
    loops over the serial line have no bound in the source: the number of bytes
    in front of a packet, and of events inside another, is the parameter [junk]
    of Rome, and the theorems say how large it has to be.  The two waits of the
    vendor interface that have no bound (the search of the radio switch, the
    download of the other client) take a number of turns; the ones that have a
    bound in the source are written with it.

    ** What the theorems show

    - Frame layouts: for the formats of preview, postview, snapshot and fed
      reprocess streams (and for Venus video with the macros as documented), up
      to 8192 pixels a side, the planes fit into the frame without overlap and
      hold the image at its offsets, with no overflow; the result is an error
      exactly for unsupported types.
    - Queues: the pointer code refines a FIFO list; that of the HAL a list open
      at both ends.
    - Threads: registration keeps the watched table in step; a poll iteration
      calls exactly the callbacks that are due; stopping a command thread
      processes everything that was queued.
    - Streams: every event in every state runs to its end and follows the
      transition table; a buffer is never in the kernel and in someone's hands
      at the same time, under all interleavings of frames, callbacks, the
      channel and clients.
    - Super buffers: the matching refines an abstract queue, in which what the
      allocator answers decides whether a super buffer is started; of the
      buffers whose metadata is accepted it loses and duplicates none; it hands
      out only complete super buffers of one frame and keeps its bounds.
    - Channels: the channel meets the laws the queue asks for; a captured
      buffer whose metadata is accepted is in exactly one place after it was
      handled; starting is all or
      nothing, metadata first; stopping restores every stream.
    - Cameras: every entry point behaves as its specification without locks
      and gives up every mutex it took; any sequence of opens and closes
      counts references and leaks no descriptor; an event of the server
      reaches every registered callback; a message on the domain socket is
      received as it was sent, with its descriptor; of concurrent threads that map
      buffers each gets the answer to its own request, and gets it; the
      discovery finds every camera when they fit its table.
    - OMX core: when instances can be created, any sequence of requests behaves
      as a table of instances, a library is loaded exactly while it has one.
    - JPEG: any sequence of calls, turns and callbacks returns and keeps the
      object well formed; without aborts and closes no job waits while the
      encoder is free, and the first is taken first; an EXIF table gives back all its memory; the removal of jobs
      refines the list operation; a job identifier leads to its session; crop
      rectangles stay in the image but for the rounding.  Clients are assumed
      to use identifiers they were given and indices inside their tables
      ([may] of JpegProps), components to complete their commands
      ([components_answer] of JpegTotal), libraries that load to create
      instances ([libraries_ok] of QomxProps).
    - JPEG decoder: the same invariant for sequences in which a session is
      destroyed without jobs and a client closed without sessions ([dec_may] of
      JpegDecProps); a job on a component that answers in time makes exactly
      the calls of the protocol in their order, and its client is called once,
      when the buffer is filled.
    - HAL: every sequence of requests and events is handled to its end, calls
      the hardware interface only where a call is in place, and keeps the state
      true to what was called; every request is answered once, but for one;
      with one calling thread every call returns, and with its own answer; with
      two, whatever they ask, the answer of one can be lost.
    - Bluetooth: an event is read from the line as it was sent, whatever the
      pieces it comes in, when no indicator is in front of it; the
      initialisation of a Rome controller that answers
      as expected sends, on its descriptor, exactly the requests and the files of its version, the
      address of this device in its place, and takes every event and no more;
      the same for an AR3K controller from the text of its files on, whose PS
      files are parsed back to the entries they print.  Opening the transport
      does this on the serial port, closes it, starts the filter and hands out
      its channel, and the whole sequence of calls and bytes is given; where the
      controller is initialised already or sends no event, it ends whatever
      fails, with a descriptor left open exactly on success.  The requests to
      switch the controller follow a machine that counts clients, and the radio
      is on exactly while the count is not 0, as long as no call fails.
    - Deviations: a failed cache operation and refused metadata lose a buffer,
      a failed start leaves its threads, the plane sizes of video frames
      without Venus are wrong, unhandled events are answered with success,
      deleting an active channel overwrites it while its threads run;
      aborting the running JPEG job leaves the waiting ones unattended, a
      component that cannot be created leaves a registry entry that points
      into a closed library, flushing a JPEG queue reads freed memory, closing
      a JPEG handle twice frees the library under another client, job
      identifiers repeat; destroying a decoding session leaves its jobs in the
      queues and the library stuck, a component that reports its port settings
      early makes the decoder wait for ever; with two threads that call the HAL
      an answer may be lost, a face registered while a snapshot is prepared is
      not answered; two short writes of a bluetooth command garble it, a
      missing configuration file is not reported, patch files and labels are
      copied beyond their buffers, PS entries of odd or large length overflow,
      the address of an AR3K patch loses a digit; a failed open closes a
      descriptor twice, a controller behind the shared memory channels cannot
      be switched off, a client that comes too early is not counted.

    ** What is not modelled

    The clients of the radio switch
    are modelled one request after the other.  The release of the JPEG job
    manager is modelled and only evaluated on examples.  Stopping a
    bundling channel is modelled but only proved for channels without super
    buffers.  The C++ HAL below its state machine (channels, post processing,
    parameters; on libraries of Android that are not part of the repository),
    the test programs, the first generation stack (disabled in its makefile)
    and the vendored wireless drivers are left out.
    Memory sharing is modelled where it carries a claim (a buffer reference
    names a buffer of the stream that owns it); pixel data is not. *)

From Stdlib Require Import ZArith Lia.
From stdpp Require Import base sets list list_numbers numbers option.

#[global] Open Scope Z_scope.

(** ** Machine integers

    The code runs on a 32-bit ARM target (armeabi-v7a): [int] and [int32_t]
    are 32-bit two's complement, [uint32_t] is modular.  Signed overflow is
    undefined in C; the functions below give the wrapped value, and the
    theorems that use them carry the bounds under which nothing wraps. *)

Declare Scope cam_scope.
Delimit Scope cam_scope with cam.
#[global] Open Scope cam_scope.

Definition u8 (z : Z) : Z := z mod 2 ^ 8.
Definition u16 (z : Z) : Z := z mod 2 ^ 16.
Definition u32 (z : Z) : Z := z mod 2 ^ 32.
Definition i8 (z : Z) : Z := (z + 2 ^ 7) mod 2 ^ 8 - 2 ^ 7.
Definition i32 (z : Z) : Z := (z + 2 ^ 31) mod 2 ^ 32 - 2 ^ 31.

Notation "a +i b" := (i32 (a + b)) (at level 50, left associativity) : cam_scope.
Notation "a -i b" := (i32 (a - b)) (at level 50, left associativity) : cam_scope.
Notation "a *i b" := (i32 (a * b)) (at level 40, left associativity) : cam_scope.
Notation "a /i b" := (i32 (Z.quot a b)) (at level 40, left associativity) : cam_scope.
Notation "a +u b" := (u32 (a + b)) (at level 50, left associativity) : cam_scope.
Notation "a -u b" := (u32 (a - b)) (at level 50, left associativity) : cam_scope.

Definition i32_range (z : Z) : Prop := - 2 ^ 31 <= z < 2 ^ 31.
Definition u32_range (z : Z) : Prop := 0 <= z < 2 ^ 32.
Definition u8_range (z : Z) : Prop := 0 <= z < 2 ^ 8.

Lemma i32_id z : i32_range z -> i32 z = z.
Proof.
  unfold i32_range, i32. intros H. change (2 ^ 32) with (2 * 2 ^ 31).
  rewrite Z.mod_small; lia.
Qed.

Lemma u32_id z : u32_range z -> u32 z = z.
Proof. intros H. apply Z.mod_small, H. Qed.

Lemma u8_id z : u8_range z -> u8 z = z.
Proof. intros H. apply Z.mod_small, H. Qed.

Lemma u32_bound z : u32_range (u32 z).
Proof. apply Z.mod_pos_bound. lia. Qed.

Lemma u8_bound z : u8_range (u8 z).
Proof. apply Z.mod_pos_bound. lia. Qed.

Lemma i32_bound z : i32_range (i32 z).
Proof.
  unfold i32_range, i32. pose proof (Z.mod_pos_bound (z + 2 ^ 31) (2 ^ 32)). lia.
Qed.

(** ** Alignment to a multiple *)

Definition align_up (size p : Z) : Z := (size + p - 1) / p * p.

Lemma align_up_ge size p : 0 < p -> size <= align_up size p.
Proof.
  intros Hp. unfold align_up.
  pose proof (Z_div_mod_eq_full (size + p - 1) p).
  pose proof (Z.mod_pos_bound (size + p - 1) p Hp). lia.
Qed.

Lemma align_up_lt size p : 0 < p -> align_up size p < size + p.
Proof.
  intros Hp. unfold align_up.
  pose proof (Z_div_mod_eq_full (size + p - 1) p).
  pose proof (Z.mod_pos_bound (size + p - 1) p Hp). lia.
Qed.

Lemma align_up_divide size p : (p | align_up size p).
Proof. exists ((size + p - 1) / p). reflexivity. Qed.

(** Two alignments are in order when their arguments are. *)
Lemma align_up_mono a b p : 0 < p -> a <= b -> align_up a p <= align_up b p.
Proof.
  intros Hp Hab. unfold align_up. apply Z.mul_le_mono_nonneg_r; [lia|].
  apply Z.div_le_mono; lia.
Qed.

(** The least multiple: any multiple of [p] at or above [size] is at or
    above [align_up size p]. *)
Lemma align_up_least size p m : 0 < p -> (p | m) -> size <= m -> align_up size p <= m.
Proof.
  intros Hp [q ->] Hm. unfold align_up.
  apply Z.mul_le_mono_nonneg_r; [lia|].
  assert ((size + p - 1) / p < q + 1); [|lia].
  apply Z.div_lt_upper_bound; lia.
Qed.

(** Clearing the low [k] bits of a number. *)
Lemma land_lnot_ones x k : 0 <= k -> Z.land x (Z.lnot (2 ^ k - 1)) = x / 2 ^ k * 2 ^ k.
Proof.
  intros Hk. rewrite <- Z.ldiff_land.
  replace (2 ^ k - 1) with (Z.ones k) by (rewrite Z.ones_equiv; lia).
  rewrite Z.ldiff_ones_r by lia.
  rewrite Z.shiftl_mul_pow2, Z.shiftr_div_pow2 by lia. reflexivity.
Qed.

(** ** Effects

    Stateful code is a function from a state to a result and a new state.
    [None] is an execution that dereferences a null or freed pointer, indexes
    an array out of its bounds, or blocks for ever. *)

Definition M (W A : Type) : Type := W -> option (A * W).

#[export] Instance M_ret W : MRet (M W) := fun A x w => Some (x, w).
#[export] Instance M_bind W : MBind (M W) := fun A B f m w =>
  match m w with Some (x, w') => f x w' | None => None end.

Section Monad.
Context {W : Type}.

Definition get : M W W := fun w => Some (w, w).
Definition gets {A} (f : W -> A) : M W A := fun w => Some (f w, w).
Definition modify (f : W -> W) : M W unit := fun w => Some (tt, f w).

(** A value read through a pointer that must be valid. *)
Definition deref {A} (x : option A) : M W A := fun w => match x with Some a => Some (a, w) | None => None end.

(** An execution with no result. *)
Definition stuck {A} : M W A := fun _ => None.

(** Runs code on a component of the state. *)
Definition zoom {V A} (g : W -> V) (s : V -> W -> W) (m : M V A) : M W A := fun w =>
  match m (g w) with Some (x, v) => Some (x, s v w) | None => None end.

(** [for (i = 0; i < n; i++) body(i)], leaving at the first result that is
    not to be continued from. *)
Fixpoint for_until {A} (l : list nat) (stop : A -> bool) (init : A) (body : nat -> M W A) : M W A :=
  match l with
  | [] => mret init
  | i :: l => r ← body i; if stop r then mret r else for_until l stop r body
  end.

Fixpoint for_each {A} (l : list A) (body : A -> M W unit) : M W unit :=
  match l with
  | [] => mret tt
  | x :: l => body x;; for_each l body
  end.

(** Total correctness: from a state in [P] the code runs to an end in [Q]. *)
Definition triple {A} (P : W -> Prop) (m : M W A) (Q : A -> W -> Prop) : Prop :=
  forall w, P w -> exists x w', m w = Some (x, w') /\ Q x w'.

Lemma triple_ret {A} (x : A) (P : W -> Prop) (Q : A -> W -> Prop) :
  (forall w, P w -> Q x w) -> triple P (mret x) Q.
Proof. intros H w Hw. exists x, w. auto. Qed.

Lemma triple_bind {A B} (P : W -> Prop) (m : M W A) (R : A -> W -> Prop) (f : A -> M W B) Q :
  triple P m R -> (forall x, triple (R x) (f x) Q) -> triple P (m ≫= f) Q.
Proof.
  intros Hm Hf w Hw. destruct (Hm w Hw) as (x & w1 & E & Hr).
  destruct (Hf x w1 Hr) as (y & w2 & E2 & Hq). exists y, w2.
  unfold mbind, M_bind. by rewrite E.
Qed.

Lemma triple_conseq {A} (P P' : W -> Prop) (m : M W A) (Q Q' : A -> W -> Prop) :
  triple P' m Q' -> (forall w, P w -> P' w) -> (forall x w, Q' x w -> Q x w) -> triple P m Q.
Proof. intros H HP HQ w Hw. destruct (H w (HP w Hw)) as (x & w' & ? & ?). eauto. Qed.

Lemma triple_for_each {A} (l : list A) (body : A -> M W unit) (I : W -> Prop) :
  (forall x, x ∈ l -> triple I (body x) (fun _ => I)) -> triple I (for_each l body) (fun _ => I).
Proof.
  induction l as [|x l IH]; intros H; [by apply triple_ret|]. simpl.
  eapply triple_bind; [apply H; set_solver|]. intros []. apply IH. intros; apply H; set_solver.
Qed.

End Monad.

Lemma bind_run {W A B} (m : M W A) (f : A -> M W B) w a w1 :
  m w = Some (a, w1) -> (m ≫= f) w = f a w1.
Proof. unfold mbind, M_bind. by intros ->. Qed.

Lemma bind_ret_inv {W A B} (m : M W A) (b r : B) w w1 :
  (m ≫= fun _ => mret b) w = Some (r, w1) -> r = b.
Proof. unfold mbind, M_bind, mret, M_ret. destruct (m w) as [[]|]; [|done]. by intros [= <- _]. Qed.

Lemma zoom_run {W V A} (g : W -> V) s (m : M V A) w x v :
  m (g w) = Some (x, v) -> zoom g s m w = Some (x, s v w).
Proof. unfold zoom. by intros ->. Qed.

(** ** What code leaves alone

    [keeps g m]: whenever [m] ends, the part [g] of the state is as it was. *)

Create HintDb keeps.

Section Keeps.
Context {W B : Type} (g : W -> B).

Definition keeps {A} (m : M W A) : Prop := forall w r w', m w = Some (r, w') -> g w' = g w.

Lemma keeps_ret {A} (x : A) : keeps (mret x).
Proof. by intros w r w' [= _ <-]. Qed.
Lemma keeps_get : keeps get.
Proof. by intros w r w' [= _ <-]. Qed.
Lemma keeps_gets {A} (f : W -> A) : keeps (gets f).
Proof. by intros w r w' [= _ <-]. Qed.
Lemma keeps_stuck {A} : keeps (@stuck W A).
Proof. by intros w r w'. Qed.
Lemma keeps_deref {A} (x : option A) : keeps (deref x).
Proof. intros w r w'. unfold deref. destruct x; [|done]. by intros [= _ <-]. Qed.
Lemma keeps_modify f : (forall w, g (f w) = g w) -> keeps (modify f).
Proof. intros H w r w' [= _ <-]. apply H. Qed.
Lemma keeps_zoom {V A} (gv : W -> V) s (m : M V A) :
  (forall v w, g (s v w) = g w) -> keeps (zoom gv s m).
Proof. intros H w r w'. unfold zoom. destruct (m (gv w)) as [[]|]; [|done]. intros [= _ <-]. apply H. Qed.
Lemma keeps_bind {A C} (m : M W A) (f : A -> M W C) :
  keeps m -> (forall x, keeps (f x)) -> keeps (m ≫= f).
Proof.
  intros Hm Hf w r w'. unfold mbind, M_bind. destruct (m w) as [[x w1]|] eqn:E1; [|done].
  intros E2. rewrite (Hf _ _ _ _ E2). eauto.
Qed.
Lemma keeps_for_each {A} (l : list A) body : (forall x, keeps (body x)) -> keeps (for_each l body).
Proof.
  intros H. induction l as [|x l IH]; [apply keeps_ret|]. simpl. apply keeps_bind; [apply H|]. intros _. apply IH.
Qed.
Lemma keeps_for_until {A} (l : list nat) stop (init : A) body :
  (forall x, keeps (body x)) -> keeps (for_until l stop init body).
Proof.
  intros H. revert init. induction l as [|x l IH]; intros init; [apply keeps_ret|]. simpl.
  apply keeps_bind; [apply H|]. intros r. destruct (stop r); [apply keeps_ret|apply IH].
Qed.
Lemma keeps_if {A} (b : bool) (m1 m2 : M W A) : keeps m1 -> keeps m2 -> keeps (if b then m1 else m2).
Proof. by destruct b. Qed.
End Keeps.

#[export] Hint Resolve keeps_ret keeps_get keeps_gets keeps_stuck keeps_deref keeps_bind
  keeps_for_each keeps_for_until keeps_if : keeps.

(** Goes through code of these shapes; the database supplies the operations
    that are already known. *)
Ltac keeps_solve :=
  repeat first
    [ match goal with |- forall _, _ => intros ? end
    | assumption
    | solve [auto with keeps nocore]
    | apply keeps_bind
    | apply keeps_for_each
    | apply keeps_for_until
    | apply keeps_modify; intros; reflexivity
    | apply keeps_zoom; intros; reflexivity
    | match goal with
      | |- keeps _ (match ?x with _ => _ end) => destruct x
      | |- keeps _ (let '(_, _) := ?x in _) => destruct x
      end ].

(** Runs the monadic operations of a goal. *)
Ltac unM := unfold mbind, M_bind, mret, M_ret, get, gets, modify, zoom, deref, stuck in *; simpl in *.

(** ** Closing tactics *)

(** Destructs the [if]s and [match]es of the goal with their equations. *)
Ltac split_match :=
  repeat match goal with
         | |- context [match ?x with _ => _ end] =>
             lazymatch x with
             | context [match _ with _ => _ end] => fail
             | _ => destruct x eqn:?
             end
         end.
