(* ===== verification/CamTypes.v ===== *)
(** * Data of the camera interface

    The enums and structs of [common/cam_types.h], [common/cam_intf.h] and
    [common/mm_camera_interface.h] that the stream and channel code reads.
    Fields the modelled code never reads (timestamps of capabilities, crop
    rectangles, denoise settings and the like) are left out of the records. *)

From stdpp Require Import base list numbers.
From S2P Require Import Prelude.

(** ** Limits *)

Definition MAX_STREAM_NUM_IN_BUNDLE : nat := 4.
Definition CAM_MAX_NUM_BUFS_PER_STREAM : Z := 24.
Definition MM_CAMERA_MAX_NUM_FRAMES : Z := CAM_MAX_NUM_BUFS_PER_STREAM.

(** ** Image formats and stream types *)

Inductive cam_format_t : Set :=
| CAM_FORMAT_JPEG
| CAM_FORMAT_YUV_420_NV12
| CAM_FORMAT_YUV_420_NV21
| CAM_FORMAT_YUV_420_NV21_ADRENO
| CAM_FORMAT_YUV_420_YV12
| CAM_FORMAT_YUV_422_NV16
| CAM_FORMAT_YUV_422_NV61
| CAM_FORMAT_YUV_420_NV12_VENUS
| CAM_FORMAT_YUV_RAW_8BIT_YUYV
| CAM_FORMAT_YUV_RAW_8BIT_YVYU
| CAM_FORMAT_YUV_RAW_8BIT_UYVY
| CAM_FORMAT_YUV_RAW_8BIT_VYUY
| CAM_FORMAT_BAYER_QCOM_RAW_8BPP_GBRG
| CAM_FORMAT_BAYER_QCOM_RAW_8BPP_GRBG
| CAM_FORMAT_BAYER_QCOM_RAW_8BPP_RGGB
| CAM_FORMAT_BAYER_QCOM_RAW_8BPP_BGGR
| CAM_FORMAT_BAYER_QCOM_RAW_10BPP_GBRG
| CAM_FORMAT_BAYER_QCOM_RAW_10BPP_GRBG
| CAM_FORMAT_BAYER_QCOM_RAW_10BPP_RGGB
| CAM_FORMAT_BAYER_QCOM_RAW_10BPP_BGGR
| CAM_FORMAT_BAYER_QCOM_RAW_12BPP_GBRG
| CAM_FORMAT_BAYER_QCOM_RAW_12BPP_GRBG
| CAM_FORMAT_BAYER_QCOM_RAW_12BPP_RGGB
| CAM_FORMAT_BAYER_QCOM_RAW_12BPP_BGGR
| CAM_FORMAT_BAYER_MIPI_RAW_8BPP_GBRG
| CAM_FORMAT_BAYER_MIPI_RAW_8BPP_GRBG
| CAM_FORMAT_BAYER_MIPI_RAW_8BPP_RGGB
| CAM_FORMAT_BAYER_MIPI_RAW_8BPP_BGGR
| CAM_FORMAT_BAYER_MIPI_RAW_10BPP_GBRG
| CAM_FORMAT_BAYER_MIPI_RAW_10BPP_GRBG
| CAM_FORMAT_BAYER_MIPI_RAW_10BPP_RGGB
| CAM_FORMAT_BAYER_MIPI_RAW_10BPP_BGGR
| CAM_FORMAT_BAYER_MIPI_RAW_12BPP_GBRG
| CAM_FORMAT_BAYER_MIPI_RAW_12BPP_GRBG
| CAM_FORMAT_BAYER_MIPI_RAW_12BPP_RGGB
| CAM_FORMAT_BAYER_MIPI_RAW_12BPP_BGGR
| CAM_FORMAT_BAYER_IDEAL_RAW_QCOM_8BPP_GBRG
| CAM_FORMAT_BAYER_IDEAL_RAW_QCOM_8BPP_GRBG
| CAM_FORMAT_BAYER_IDEAL_RAW_QCOM_8BPP_RGGB
| CAM_FORMAT_BAYER_IDEAL_RAW_QCOM_8BPP_BGGR
| CAM_FORMAT_BAYER_IDEAL_RAW_QCOM_10BPP_GBRG
| CAM_FORMAT_BAYER_IDEAL_RAW_QCOM_10BPP_GRBG
| CAM_FORMAT_BAYER_IDEAL_RAW_QCOM_10BPP_RGGB
| CAM_FORMAT_BAYER_IDEAL_RAW_QCOM_10BPP_BGGR
| CAM_FORMAT_BAYER_IDEAL_RAW_QCOM_12BPP_GBRG
| CAM_FORMAT_BAYER_IDEAL_RAW_QCOM_12BPP_GRBG
| CAM_FORMAT_BAYER_IDEAL_RAW_QCOM_12BPP_RGGB
| CAM_FORMAT_BAYER_IDEAL_RAW_QCOM_12BPP_BGGR
| CAM_FORMAT_BAYER_IDEAL_RAW_MIPI_8BPP_GBRG
| CAM_FORMAT_BAYER_IDEAL_RAW_MIPI_8BPP_GRBG
| CAM_FORMAT_BAYER_IDEAL_RAW_MIPI_8BPP_RGGB
| CAM_FORMAT_BAYER_IDEAL_RAW_MIPI_8BPP_BGGR
| CAM_FORMAT_BAYER_IDEAL_RAW_MIPI_10BPP_GBRG
| CAM_FORMAT_BAYER_IDEAL_RAW_MIPI_10BPP_GRBG
| CAM_FORMAT_BAYER_IDEAL_RAW_MIPI_10BPP_RGGB
| CAM_FORMAT_BAYER_IDEAL_RAW_MIPI_10BPP_BGGR
| CAM_FORMAT_BAYER_IDEAL_RAW_MIPI_12BPP_GBRG
| CAM_FORMAT_BAYER_IDEAL_RAW_MIPI_12BPP_GRBG
| CAM_FORMAT_BAYER_IDEAL_RAW_MIPI_12BPP_RGGB
| CAM_FORMAT_BAYER_IDEAL_RAW_MIPI_12BPP_BGGR
| CAM_FORMAT_BAYER_IDEAL_RAW_PLAIN8_8BPP_GBRG
| CAM_FORMAT_BAYER_IDEAL_RAW_PLAIN8_8BPP_GRBG
| CAM_FORMAT_BAYER_IDEAL_RAW_PLAIN8_8BPP_RGGB
| CAM_FORMAT_BAYER_IDEAL_RAW_PLAIN8_8BPP_BGGR
| CAM_FORMAT_BAYER_IDEAL_RAW_PLAIN16_8BPP_GBRG
| CAM_FORMAT_BAYER_IDEAL_RAW_PLAIN16_8BPP_GRBG
| CAM_FORMAT_BAYER_IDEAL_RAW_PLAIN16_8BPP_RGGB
| CAM_FORMAT_BAYER_IDEAL_RAW_PLAIN16_8BPP_BGGR
| CAM_FORMAT_BAYER_IDEAL_RAW_PLAIN16_10BPP_GBRG
| CAM_FORMAT_BAYER_IDEAL_RAW_PLAIN16_10BPP_GRBG
| CAM_FORMAT_BAYER_IDEAL_RAW_PLAIN16_10BPP_RGGB
| CAM_FORMAT_BAYER_IDEAL_RAW_PLAIN16_10BPP_BGGR
| CAM_FORMAT_BAYER_IDEAL_RAW_PLAIN16_12BPP_GBRG
| CAM_FORMAT_BAYER_IDEAL_RAW_PLAIN16_12BPP_GRBG
| CAM_FORMAT_BAYER_IDEAL_RAW_PLAIN16_12BPP_RGGB
| CAM_FORMAT_BAYER_IDEAL_RAW_PLAIN16_12BPP_BGGR
| CAM_FORMAT_JPEG_RAW_8BIT
| CAM_FORMAT_META_RAW_8BIT
| CAM_FORMAT_MAX.

#[export] Instance cam_format_eq_dec : EqDecision cam_format_t.
Proof. solve_decision. Defined.

Inductive cam_stream_type_t : Set :=
| CAM_STREAM_TYPE_DEFAULT
| CAM_STREAM_TYPE_PREVIEW
| CAM_STREAM_TYPE_POSTVIEW
| CAM_STREAM_TYPE_SNAPSHOT
| CAM_STREAM_TYPE_VIDEO
| CAM_STREAM_TYPE_IMPL_DEFINED
| CAM_STREAM_TYPE_YUV
| CAM_STREAM_TYPE_METADATA
| CAM_STREAM_TYPE_RAW
| CAM_STREAM_TYPE_OFFLINE_PROC
| CAM_STREAM_TYPE_MAX.

#[export] Instance cam_stream_type_eq_dec : EqDecision cam_stream_type_t.
Proof. solve_decision. Defined.

(** ** Padding *)

Definition CAM_PAD_TO_2 : Z := 2.
Definition CAM_PAD_TO_8 : Z := 8.
Definition CAM_PAD_TO_16 : Z := 16.
Definition CAM_PAD_TO_32 : Z := 32.
Definition CAM_PAD_TO_64 : Z := 64.
Definition CAM_PAD_TO_2K : Z := 2048.
Definition CAM_PAD_TO_4K : Z := 4096.

(** ** Frame geometry *)

Record cam_dimension_t := { width : Z; height : Z }.

Record cam_padding_info_t :=
  { width_padding : Z; height_padding : Z; plane_padding : Z }.

(** One plane of a multi-planar frame. *)
Record cam_mp_len_offset_t := {
  mp_len : Z;
  mp_offset : Z;
  mp_offset_x : Z;
  mp_offset_y : Z;
  mp_stride : Z;
  mp_scanline : Z;
  mp_width : Z;
  mp_height : Z
}.

(** The [mp] member of the union; [sp] is not used by the modelled code. *)
Record cam_frame_len_offset_t := {
  num_planes : Z;
  mp : list cam_mp_len_offset_t;
  frame_len : Z
}.

Definition zero_plane : cam_mp_len_offset_t :=
  {| mp_len := 0; mp_offset := 0; mp_offset_x := 0; mp_offset_y := 0;
     mp_stride := 0; mp_scanline := 0; mp_width := 0; mp_height := 0 |}.

(** [VIDEO_MAX_PLANES] of [linux/videodev2.h]. *)
Definition VIDEO_MAX_PLANES : nat := 8.

Definition zero_frame : cam_frame_len_offset_t :=
  {| num_planes := 0; mp := replicate VIDEO_MAX_PLANES zero_plane; frame_len := 0 |}.

(** A frame record as C declares it has all its plane slots. *)
Definition frame_wf (f : cam_frame_len_offset_t) : Prop :=
  length (mp f) = VIDEO_MAX_PLANES.

(** ** Post-processing configuration *)

Inductive cam_rotation_t : Set := ROTATE_0 | ROTATE_90 | ROTATE_180 | ROTATE_270.

#[export] Instance cam_rotation_eq_dec : EqDecision cam_rotation_t.
Proof. solve_decision. Defined.

Definition CAM_QCOM_FEATURE_ROTATION : Z := Z.shiftl 1 3.

Record cam_pp_feature_config_t := { feature_mask : Z; rotation : cam_rotation_t }.

(** [cam_stream_reproc_config_t]: the union is read only under its tag. *)
Inductive cam_stream_reproc_config_t :=
| CAM_ONLINE_REPROCESS_TYPE (input_stream_type : cam_stream_type_t)
| CAM_OFFLINE_REPROCESS_TYPE (input_buf_planes : cam_frame_len_offset_t).

Record cam_stream_info_t := {
  stream_svr_id : Z;
  stream_type : cam_stream_type_t;
  fmt : cam_format_t;
  dim : cam_dimension_t;
  buf_planes : cam_frame_len_offset_t;
  pp_config : cam_pp_feature_config_t;
  reprocess_config : cam_stream_reproc_config_t
}.

Definition with_buf_planes (i : cam_stream_info_t) (p : cam_frame_len_offset_t) :
  cam_stream_info_t :=
  {| stream_svr_id := stream_svr_id i; stream_type := stream_type i; fmt := fmt i;
     dim := dim i; buf_planes := p; pp_config := pp_config i;
     reprocess_config := reprocess_config i |}.

Definition with_svr_id (i : cam_stream_info_t) (id : Z) : cam_stream_info_t :=
  {| stream_svr_id := id; stream_type := stream_type i; fmt := fmt i;
     dim := dim i; buf_planes := buf_planes i; pp_config := pp_config i;
     reprocess_config := reprocess_config i |}.
