(* ===== verification/StreamOffset.v ===== *)
(** * Frame layout: the [mm_stream_calc_offset_*] functions

    Models the plane geometry computed by
    [camera/QCamera2/stack/mm-camera-interface/src/mm_camera_stream.c] for each
    stream type and image format, at 32-bit width, and proves that every
    layout the code accepts is large enough for the image it describes.

    [buf_planes] is an in/out argument in C; here it is passed in and the
    updated value returned beside the status code, so a branch that writes
    only some fields keeps the others. *)

From Stdlib Require Import Lia.
From stdpp Require Import base list numbers.
From S2P Require Import Prelude CamTypes.

(** ** [PAD_TO_SIZE]

    The macro is [((size + padding - 1) & ~(padding - 1))].  Its arithmetic is
    done in [int] when both arguments are [int] (an enum constant is one) and
    in [uint32_t] when either is unsigned. *)

Definition PAD_TO_SIZE (size padding : Z) : Z :=
  Z.land (size +i padding -i 1) (Z.lnot (padding -i 1)).

Definition PAD_TO_SIZE_U (size padding : Z) : Z :=
  Z.land (size +u padding -u 1) (u32 (Z.lnot (padding -u 1))).

(** ** Plane writers *)

Definition set_plane (i : nat) (p : cam_mp_len_offset_t)
    (bp : cam_frame_len_offset_t) : cam_frame_len_offset_t :=
  {| num_planes := num_planes bp; mp := <[i := p]> (mp bp); frame_len := frame_len bp |}.

Definition set_num_planes (n : Z) (bp : cam_frame_len_offset_t) : cam_frame_len_offset_t :=
  {| num_planes := n; mp := mp bp; frame_len := frame_len bp |}.

Definition set_frame_len (n : Z) (bp : cam_frame_len_offset_t) : cam_frame_len_offset_t :=
  {| num_planes := num_planes bp; mp := mp bp; frame_len := n |}.

Definition plane (len offset offset_x offset_y stride scanline w h : Z) :
  cam_mp_len_offset_t :=
  {| mp_len := len; mp_offset := offset; mp_offset_x := offset_x;
     mp_offset_y := offset_y; mp_stride := stride; mp_scanline := scanline;
     mp_width := w; mp_height := h |}.

(** The macros of [media/msm_media_info.h], a kernel header that is not part
    of the repository: they exist when the build defines [VENUS_PRESENT]. *)
Record venus_macros := {
  VENUS_Y_STRIDE : Z -> Z;
  VENUS_Y_SCANLINES : Z -> Z;
  VENUS_UV_STRIDE : Z -> Z;
  VENUS_UV_SCANLINES : Z -> Z;
  VENUS_BUFFER_SIZE : Z -> Z -> Z
}.

Section Offsets.

(** [VENUS_PRESENT] (with its macros) and [USE_A_FAMILY] are build options. *)
Context (venus : option venus_macros) (USE_A_FAMILY : bool).

(** ** Preview streams *)

Definition preview_nv12 (d : cam_dimension_t) (bp : cam_frame_len_offset_t) :
  cam_frame_len_offset_t :=
  let stride := PAD_TO_SIZE (width d) CAM_PAD_TO_16 in
  let scanline := PAD_TO_SIZE (height d) CAM_PAD_TO_2 in
  let p0 := plane (u32 (stride *i scanline)) 0 0 0 stride scanline (width d) (height d) in
  let stride := PAD_TO_SIZE (width d) CAM_PAD_TO_16 in
  let scanline := PAD_TO_SIZE (height d /i 2) CAM_PAD_TO_2 in
  let p1 := plane (u32 (stride *i scanline)) 0 0 0 stride scanline (width d) (height d /i 2) in
  set_frame_len (PAD_TO_SIZE_U (mp_len p0 +u mp_len p1) CAM_PAD_TO_4K)
    (set_plane 1 p1 (set_plane 0 p0 (set_num_planes 2 bp))).

Definition preview_nv21_adreno (d : cam_dimension_t) (bp : cam_frame_len_offset_t) :
  cam_frame_len_offset_t :=
  let stride := PAD_TO_SIZE (width d) CAM_PAD_TO_32 in
  let scanline := PAD_TO_SIZE (height d) CAM_PAD_TO_32 in
  let p0 := plane (u32 (PAD_TO_SIZE (stride *i scanline) CAM_PAD_TO_4K)) 0 0 0
                  stride scanline (width d) (height d) in
  let stride := PAD_TO_SIZE (width d /i 2) CAM_PAD_TO_32 *i 2 in
  let scanline := PAD_TO_SIZE (height d /i 2) CAM_PAD_TO_32 in
  let p1 := plane (u32 (PAD_TO_SIZE (stride *i scanline) CAM_PAD_TO_4K)) 0 0 0
                  stride scanline (width d) (height d /i 2) in
  set_frame_len (PAD_TO_SIZE_U (mp_len p0 +u mp_len p1) CAM_PAD_TO_4K)
    (set_plane 1 p1 (set_plane 0 p0 (set_num_planes 2 bp))).

Definition preview_yv12 (d : cam_dimension_t) (bp : cam_frame_len_offset_t) :
  cam_frame_len_offset_t :=
  let stride := PAD_TO_SIZE (width d) CAM_PAD_TO_16 in
  let scanline := PAD_TO_SIZE (height d) CAM_PAD_TO_2 in
  let p0 := plane (u32 (stride *i scanline)) 0 0 0 stride scanline (width d) (height d) in
  let stride := PAD_TO_SIZE (stride /i 2) CAM_PAD_TO_16 in
  let scanline := scanline /i 2 in
  let p1 := plane (u32 (stride *i scanline)) 0 0 0 stride scanline
                  (width d /i 2) (height d /i 2) in
  let p2 := plane (u32 (stride *i scanline)) 0 0 0 stride scanline
                  (width d /i 2) (height d /i 2) in
  set_frame_len (PAD_TO_SIZE_U (mp_len p0 +u mp_len p1 +u mp_len p2) CAM_PAD_TO_4K)
    (set_plane 2 p2 (set_plane 1 p1 (set_plane 0 p0 (set_num_planes 3 bp)))).

Definition preview_nv16 (d : cam_dimension_t) (bp : cam_frame_len_offset_t) :
  cam_frame_len_offset_t :=
  let stride := PAD_TO_SIZE (width d) CAM_PAD_TO_16 in
  let scanline := height d in
  let p0 := plane (u32 (stride *i scanline)) 0 0 0 stride scanline (width d) (height d) in
  let p1 := plane (u32 (stride *i scanline)) 0 0 0 stride scanline (width d) (height d) in
  set_frame_len (PAD_TO_SIZE_U (mp_len p0 +u mp_len p1) CAM_PAD_TO_4K)
    (set_plane 1 p1 (set_plane 0 p0 (set_num_planes 2 bp))).

(** The block under [VENUS_PRESENT], the same in the preview, postview and
    video functions. *)
Definition venus_nv12 (v : venus_macros) (d : cam_dimension_t)
    (bp : cam_frame_len_offset_t) : cam_frame_len_offset_t :=
  let stride := i32 (VENUS_Y_STRIDE v (width d)) in
  let scanline := i32 (VENUS_Y_SCANLINES v (height d)) in
  let flen := u32 (VENUS_BUFFER_SIZE v (width d) (height d)) in
  let p0 := plane (u32 (stride *i scanline)) 0 0 0 stride scanline (width d) (height d) in
  let stride := i32 (VENUS_UV_STRIDE v (width d)) in
  let scanline := i32 (VENUS_UV_SCANLINES v (height d)) in
  let p1 := plane (flen -u mp_len p0) 0 0 0 stride scanline (width d) (height d) in
  set_plane 1 p1 (set_plane 0 p0 (set_num_planes 2 (set_frame_len flen bp))).

Definition mm_stream_calc_offset_preview (f : cam_format_t) (d : cam_dimension_t)
    (bp : cam_frame_len_offset_t) : Z * cam_frame_len_offset_t :=
  match f with
  | CAM_FORMAT_YUV_420_NV12 | CAM_FORMAT_YUV_420_NV21 => (0, preview_nv12 d bp)
  | CAM_FORMAT_YUV_420_NV21_ADRENO => (0, preview_nv21_adreno d bp)
  | CAM_FORMAT_YUV_420_YV12 => (0, preview_yv12 d bp)
  | CAM_FORMAT_YUV_422_NV16 | CAM_FORMAT_YUV_422_NV61 => (0, preview_nv16 d bp)
  | CAM_FORMAT_YUV_420_NV12_VENUS =>
      match venus with
      | Some v => (0, venus_nv12 v d bp)
      | None => (-1, bp)
      end
  | _ => (-1, bp)
  end.

(** ** Postview streams *)

Definition post_view_nv12 (d : cam_dimension_t) (bp : cam_frame_len_offset_t) :
  cam_frame_len_offset_t :=
  let stride := PAD_TO_SIZE (width d) CAM_PAD_TO_64 in
  let scanline := PAD_TO_SIZE (height d) CAM_PAD_TO_64 in
  let p0 := plane (u32 (stride *i scanline)) 0 0 0 stride scanline (width d) (height d) in
  let stride := PAD_TO_SIZE (width d) CAM_PAD_TO_64 in
  let scanline := PAD_TO_SIZE (height d /i 2) CAM_PAD_TO_64 in
  let p1 := plane (u32 (stride *i scanline)) 0 0 0 stride scanline (width d) (height d /i 2) in
  set_frame_len (PAD_TO_SIZE_U (mp_len p0 +u mp_len p1) CAM_PAD_TO_4K)
    (set_plane 1 p1 (set_plane 0 p0 (set_num_planes 2 bp))).

(** The other formats repeat the statements of the preview function. *)
Definition mm_stream_calc_offset_post_view (f : cam_format_t) (d : cam_dimension_t)
    (bp : cam_frame_len_offset_t) : Z * cam_frame_len_offset_t :=
  match f with
  | CAM_FORMAT_YUV_420_NV12 | CAM_FORMAT_YUV_420_NV21 => (0, post_view_nv12 d bp)
  | CAM_FORMAT_YUV_420_NV21_ADRENO => (0, preview_nv21_adreno d bp)
  | CAM_FORMAT_YUV_420_YV12 => (0, preview_yv12 d bp)
  | CAM_FORMAT_YUV_422_NV16 | CAM_FORMAT_YUV_422_NV61 => (0, preview_nv16 d bp)
  | CAM_FORMAT_YUV_420_NV12_VENUS =>
      match venus with
      | Some v => (0, venus_nv12 v d bp)
      | None => (-1, bp)
      end
  | _ => (-1, bp)
  end.

(** ** Snapshot streams *)

Definition mm_camera_util_chip_is_a_family : bool := USE_A_FAMILY.

(** The common prologue: (stride, scanline, offset_x, offset_y). *)
Definition snapshot_geometry (d : cam_dimension_t) (pad : cam_padding_info_t) :
  Z * Z * Z * Z :=
  if mm_camera_util_chip_is_a_family then
    let stride := width d in
    let scanline := PAD_TO_SIZE (height d) CAM_PAD_TO_16 in
    let offset_y := scanline -i height d in
    (stride, scanline +i offset_y, 0, offset_y)
  else
    (i32 (PAD_TO_SIZE_U (width d) (width_padding pad)),
     i32 (PAD_TO_SIZE_U (height d) (height_padding pad)), 0, 0).

Definition snapshot_nv12 (d : cam_dimension_t) (pad : cam_padding_info_t)
    (stride scanline offset_x offset_y : Z) (bp : cam_frame_len_offset_t) :
  cam_frame_len_offset_t :=
  let pp := plane_padding pad in
  let p0 := plane (PAD_TO_SIZE_U (stride *i scanline) pp)
                  (PAD_TO_SIZE_U (offset_x +i (stride *i offset_y)) pp)
                  offset_x offset_y stride scanline (width d) (height d) in
  let scanline := scanline /i 2 in
  let p1 := plane (PAD_TO_SIZE_U (stride *i scanline) pp)
                  (PAD_TO_SIZE_U (offset_x +i (stride *i offset_y)) pp)
                  offset_x offset_y stride scanline (width d) (height d /i 2) in
  set_frame_len (PAD_TO_SIZE_U (mp_len p0 +u mp_len p1) CAM_PAD_TO_4K)
    (set_plane 1 p1 (set_plane 0 p0 (set_num_planes 2 bp))).

Definition snapshot_yv12 (d : cam_dimension_t) (pad : cam_padding_info_t)
    (stride scanline offset_x offset_y : Z) (bp : cam_frame_len_offset_t) :
  cam_frame_len_offset_t :=
  let pp := plane_padding pad in
  let p0 := plane (PAD_TO_SIZE_U (stride *i scanline) pp)
                  (PAD_TO_SIZE_U (offset_x +i (stride *i offset_y)) pp)
                  offset_x offset_y stride scanline (width d) (height d) in
  let stride := PAD_TO_SIZE (stride /i 2) CAM_PAD_TO_16 in
  let scanline := scanline /i 2 in
  let p1 := plane (PAD_TO_SIZE_U (stride *i scanline) pp)
                  (PAD_TO_SIZE_U (offset_x +i (stride *i offset_y)) pp)
                  offset_x offset_y stride scanline (width d /i 2) (height d /i 2) in
  let p2 := plane (PAD_TO_SIZE_U (stride *i scanline) pp)
                  (PAD_TO_SIZE_U (offset_x +i (stride *i offset_y)) pp)
                  offset_x offset_y stride scanline (width d /i 2) (height d /i 2) in
  set_frame_len (PAD_TO_SIZE_U (mp_len p0 +u mp_len p1 +u mp_len p2) CAM_PAD_TO_4K)
    (set_plane 2 p2 (set_plane 1 p1 (set_plane 0 p0 (set_num_planes 3 bp)))).

Definition snapshot_nv16 (d : cam_dimension_t) (pad : cam_padding_info_t)
    (stride scanline offset_x offset_y : Z) (bp : cam_frame_len_offset_t) :
  cam_frame_len_offset_t :=
  let pp := plane_padding pad in
  let p0 := plane (PAD_TO_SIZE_U (stride *i scanline) pp)
                  (PAD_TO_SIZE_U (offset_x +i (stride *i offset_y)) pp)
                  offset_x offset_y stride scanline (width d) (height d) in
  let p1 := plane (PAD_TO_SIZE_U (stride *i scanline) pp)
                  (PAD_TO_SIZE_U (offset_x +i (stride *i offset_y)) pp)
                  offset_x offset_y stride scanline (width d) (height d) in
  set_frame_len (PAD_TO_SIZE_U (mp_len p0 +u mp_len p1) CAM_PAD_TO_4K)
    (set_plane 1 p1 (set_plane 0 p0 (set_num_planes 2 bp))).

Definition mm_stream_calc_offset_snapshot (f : cam_format_t) (d : cam_dimension_t)
    (pad : cam_padding_info_t) (bp : cam_frame_len_offset_t) : Z * cam_frame_len_offset_t :=
  let '(stride, scanline, offset_x, offset_y) := snapshot_geometry d pad in
  match f with
  | CAM_FORMAT_YUV_420_NV12 | CAM_FORMAT_YUV_420_NV21 =>
      (0, snapshot_nv12 d pad stride scanline offset_x offset_y bp)
  | CAM_FORMAT_YUV_420_YV12 =>
      (0, snapshot_yv12 d pad stride scanline offset_x offset_y bp)
  | CAM_FORMAT_YUV_422_NV16 | CAM_FORMAT_YUV_422_NV61 =>
      (0, snapshot_nv16 d pad stride scanline offset_x offset_y bp)
  | _ => (-1, bp)
  end.

(** ** Raw streams

    Every raw format has one plane; the cases differ in the stride and in the
    number of bytes, so they share the writer below. *)

Definition raw_plane (bytes stride scanline : Z) (pad : cam_padding_info_t)
    (bp : cam_frame_len_offset_t) : cam_frame_len_offset_t :=
  let len := PAD_TO_SIZE_U bytes (plane_padding pad) in
  let p0 := plane len 0 0 0 stride scanline (i32 len) 1 in
  set_frame_len (PAD_TO_SIZE_U len CAM_PAD_TO_4K) (set_plane 0 p0 (set_num_planes 1 bp)).

Definition raw_yuv_8bit (d : cam_dimension_t) (pad : cam_padding_info_t)
    (bp : cam_frame_len_offset_t) : cam_frame_len_offset_t :=
  let scanline := height d in
  let stride := PAD_TO_SIZE (width d) CAM_PAD_TO_16 in
  raw_plane (stride *i scanline *i 2) stride scanline pad bp.

Definition raw_8bpp (d : cam_dimension_t) (pad : cam_padding_info_t)
    (bp : cam_frame_len_offset_t) : cam_frame_len_offset_t :=
  let scanline := height d in
  let stride := PAD_TO_SIZE (width d) CAM_PAD_TO_16 in
  raw_plane (stride *i scanline) stride scanline pad bp.

Definition raw_qcom_10bpp (d : cam_dimension_t) (pad : cam_padding_info_t)
    (bp : cam_frame_len_offset_t) : cam_frame_len_offset_t :=
  let scanline := height d in
  let stride := (width d +i 11) /i 12 *i 12 in
  raw_plane (stride *i scanline *i 8 /i 6) stride scanline pad bp.

Definition raw_qcom_12bpp (d : cam_dimension_t) (pad : cam_padding_info_t)
    (bp : cam_frame_len_offset_t) : cam_frame_len_offset_t :=
  let scanline := height d in
  let stride := (width d +i 9) /i 10 *i 10 in
  raw_plane (stride *i scanline *i 8 /i 5) stride scanline pad bp.

Definition raw_mipi_10bpp (d : cam_dimension_t) (pad : cam_padding_info_t)
    (bp : cam_frame_len_offset_t) : cam_frame_len_offset_t :=
  let scanline := height d in
  let stride := PAD_TO_SIZE (width d *i 5 /i 4) CAM_PAD_TO_8 in
  raw_plane (stride *i scanline) stride scanline pad bp.

Definition raw_mipi_12bpp (d : cam_dimension_t) (pad : cam_padding_info_t)
    (bp : cam_frame_len_offset_t) : cam_frame_len_offset_t :=
  let scanline := height d in
  let stride := PAD_TO_SIZE (width d) CAM_PAD_TO_32 in
  raw_plane (stride *i scanline *i 3 /i 2) stride scanline pad bp.

Definition raw_plain16 (d : cam_dimension_t) (pad : cam_padding_info_t)
    (bp : cam_frame_len_offset_t) : cam_frame_len_offset_t :=
  let scanline := height d in
  let stride := PAD_TO_SIZE (width d) CAM_PAD_TO_8 in
  raw_plane (stride *i scanline *i 2) stride scanline pad bp.

Definition mm_stream_calc_offset_raw (f : cam_format_t) (d : cam_dimension_t)
    (pad : cam_padding_info_t) (bp : cam_frame_len_offset_t) : Z * cam_frame_len_offset_t :=
  match f with
  | CAM_FORMAT_YUV_RAW_8BIT_YUYV | CAM_FORMAT_YUV_RAW_8BIT_YVYU
  | CAM_FORMAT_YUV_RAW_8BIT_UYVY | CAM_FORMAT_YUV_RAW_8BIT_VYUY
  | CAM_FORMAT_JPEG_RAW_8BIT | CAM_FORMAT_META_RAW_8BIT => (0, raw_yuv_8bit d pad bp)
  | CAM_FORMAT_BAYER_QCOM_RAW_8BPP_GBRG | CAM_FORMAT_BAYER_QCOM_RAW_8BPP_GRBG
  | CAM_FORMAT_BAYER_QCOM_RAW_8BPP_RGGB | CAM_FORMAT_BAYER_QCOM_RAW_8BPP_BGGR
  | CAM_FORMAT_BAYER_MIPI_RAW_8BPP_GBRG | CAM_FORMAT_BAYER_MIPI_RAW_8BPP_GRBG
  | CAM_FORMAT_BAYER_MIPI_RAW_8BPP_RGGB | CAM_FORMAT_BAYER_MIPI_RAW_8BPP_BGGR
  | CAM_FORMAT_BAYER_IDEAL_RAW_QCOM_8BPP_GBRG | CAM_FORMAT_BAYER_IDEAL_RAW_QCOM_8BPP_GRBG
  | CAM_FORMAT_BAYER_IDEAL_RAW_QCOM_8BPP_RGGB | CAM_FORMAT_BAYER_IDEAL_RAW_QCOM_8BPP_BGGR
  | CAM_FORMAT_BAYER_IDEAL_RAW_MIPI_8BPP_GBRG | CAM_FORMAT_BAYER_IDEAL_RAW_MIPI_8BPP_GRBG
  | CAM_FORMAT_BAYER_IDEAL_RAW_MIPI_8BPP_RGGB | CAM_FORMAT_BAYER_IDEAL_RAW_MIPI_8BPP_BGGR
  | CAM_FORMAT_BAYER_IDEAL_RAW_PLAIN8_8BPP_GBRG | CAM_FORMAT_BAYER_IDEAL_RAW_PLAIN8_8BPP_GRBG
  | CAM_FORMAT_BAYER_IDEAL_RAW_PLAIN8_8BPP_RGGB | CAM_FORMAT_BAYER_IDEAL_RAW_PLAIN8_8BPP_BGGR =>
      (0, raw_8bpp d pad bp)
  | CAM_FORMAT_BAYER_QCOM_RAW_10BPP_GBRG | CAM_FORMAT_BAYER_QCOM_RAW_10BPP_GRBG
  | CAM_FORMAT_BAYER_QCOM_RAW_10BPP_RGGB | CAM_FORMAT_BAYER_QCOM_RAW_10BPP_BGGR
  | CAM_FORMAT_BAYER_IDEAL_RAW_QCOM_10BPP_GBRG | CAM_FORMAT_BAYER_IDEAL_RAW_QCOM_10BPP_GRBG
  | CAM_FORMAT_BAYER_IDEAL_RAW_QCOM_10BPP_RGGB | CAM_FORMAT_BAYER_IDEAL_RAW_QCOM_10BPP_BGGR =>
      (0, raw_qcom_10bpp d pad bp)
  | CAM_FORMAT_BAYER_QCOM_RAW_12BPP_GBRG | CAM_FORMAT_BAYER_QCOM_RAW_12BPP_GRBG
  | CAM_FORMAT_BAYER_QCOM_RAW_12BPP_RGGB | CAM_FORMAT_BAYER_QCOM_RAW_12BPP_BGGR
  | CAM_FORMAT_BAYER_IDEAL_RAW_QCOM_12BPP_GBRG | CAM_FORMAT_BAYER_IDEAL_RAW_QCOM_12BPP_GRBG
  | CAM_FORMAT_BAYER_IDEAL_RAW_QCOM_12BPP_RGGB | CAM_FORMAT_BAYER_IDEAL_RAW_QCOM_12BPP_BGGR =>
      (0, raw_qcom_12bpp d pad bp)
  | CAM_FORMAT_BAYER_MIPI_RAW_10BPP_GBRG | CAM_FORMAT_BAYER_MIPI_RAW_10BPP_GRBG
  | CAM_FORMAT_BAYER_MIPI_RAW_10BPP_RGGB | CAM_FORMAT_BAYER_MIPI_RAW_10BPP_BGGR
  | CAM_FORMAT_BAYER_IDEAL_RAW_MIPI_10BPP_GBRG | CAM_FORMAT_BAYER_IDEAL_RAW_MIPI_10BPP_GRBG
  | CAM_FORMAT_BAYER_IDEAL_RAW_MIPI_10BPP_RGGB | CAM_FORMAT_BAYER_IDEAL_RAW_MIPI_10BPP_BGGR =>
      (0, raw_mipi_10bpp d pad bp)
  | CAM_FORMAT_BAYER_MIPI_RAW_12BPP_GBRG | CAM_FORMAT_BAYER_MIPI_RAW_12BPP_GRBG
  | CAM_FORMAT_BAYER_MIPI_RAW_12BPP_RGGB | CAM_FORMAT_BAYER_MIPI_RAW_12BPP_BGGR
  | CAM_FORMAT_BAYER_IDEAL_RAW_MIPI_12BPP_GBRG | CAM_FORMAT_BAYER_IDEAL_RAW_MIPI_12BPP_GRBG
  | CAM_FORMAT_BAYER_IDEAL_RAW_MIPI_12BPP_RGGB | CAM_FORMAT_BAYER_IDEAL_RAW_MIPI_12BPP_BGGR =>
      (0, raw_mipi_12bpp d pad bp)
  | CAM_FORMAT_BAYER_IDEAL_RAW_PLAIN16_8BPP_GBRG | CAM_FORMAT_BAYER_IDEAL_RAW_PLAIN16_8BPP_GRBG
  | CAM_FORMAT_BAYER_IDEAL_RAW_PLAIN16_8BPP_RGGB | CAM_FORMAT_BAYER_IDEAL_RAW_PLAIN16_8BPP_BGGR
  | CAM_FORMAT_BAYER_IDEAL_RAW_PLAIN16_10BPP_GBRG | CAM_FORMAT_BAYER_IDEAL_RAW_PLAIN16_10BPP_GRBG
  | CAM_FORMAT_BAYER_IDEAL_RAW_PLAIN16_10BPP_RGGB | CAM_FORMAT_BAYER_IDEAL_RAW_PLAIN16_10BPP_BGGR
  | CAM_FORMAT_BAYER_IDEAL_RAW_PLAIN16_12BPP_GBRG | CAM_FORMAT_BAYER_IDEAL_RAW_PLAIN16_12BPP_GRBG
  | CAM_FORMAT_BAYER_IDEAL_RAW_PLAIN16_12BPP_RGGB | CAM_FORMAT_BAYER_IDEAL_RAW_PLAIN16_12BPP_BGGR =>
      (0, raw_plain16 d pad bp)
  | _ => (-1, bp)
  end.

(** ** Video, metadata and reprocess streams *)

(** The version compiled without [VENUS_PRESENT].  The last two assignments
    of the chroma block are to [mp[0]]: [mp[1]] keeps its width and height. *)
Definition video_no_venus (d : cam_dimension_t) (bp : cam_frame_len_offset_t) :
  cam_frame_len_offset_t :=
  let stride := width d in
  let scanline := height d in
  let len0 := u32 (PAD_TO_SIZE (stride *i scanline) CAM_PAD_TO_2K) in
  let stride1 := width d in
  let scanline1 := height d /i 2 in
  let old1 := nth 1 (mp bp) zero_plane in
  let p1 := plane (u32 (PAD_TO_SIZE (stride1 *i scanline1) CAM_PAD_TO_2K)) 0 0 0
                  stride1 scanline1 (mp_width old1) (mp_height old1) in
  let p0 := plane len0 0 0 0 stride scanline (width d) (height d /i 2) in
  set_frame_len (PAD_TO_SIZE_U (mp_len p0 +u mp_len p1) CAM_PAD_TO_4K)
    (set_plane 1 p1 (set_plane 0 p0 (set_num_planes 2 bp))).

Definition mm_stream_calc_offset_video (d : cam_dimension_t)
    (bp : cam_frame_len_offset_t) : Z * cam_frame_len_offset_t :=
  match venus with
  | Some v => (0, venus_nv12 v d bp)
  | None => (0, video_no_venus d bp)
  end.

Definition mm_stream_calc_offset_metadata (d : cam_dimension_t)
    (pad : cam_padding_info_t) (bp : cam_frame_len_offset_t) : Z * cam_frame_len_offset_t :=
  let len := PAD_TO_SIZE_U (width d *i height d) (plane_padding pad) in
  let p0 := plane len 0 0 0 (width d) (height d) (width d) (height d) in
  (0, set_plane 0 p0 (set_frame_len len (set_num_planes 1 bp))).

Definition mm_stream_calc_offset_postproc (i : cam_stream_info_t)
    (pad : cam_padding_info_t) (bp : cam_frame_len_offset_t) : Z * cam_frame_len_offset_t :=
  match reprocess_config i with
  | CAM_OFFLINE_REPROCESS_TYPE input =>
      (0, if frame_len bp =? 0 then input else bp)
  | CAM_ONLINE_REPROCESS_TYPE t =>
      match t with
      | CAM_STREAM_TYPE_PREVIEW => mm_stream_calc_offset_preview (fmt i) (dim i) bp
      | CAM_STREAM_TYPE_POSTVIEW => mm_stream_calc_offset_post_view (fmt i) (dim i) bp
      | CAM_STREAM_TYPE_SNAPSHOT => mm_stream_calc_offset_snapshot (fmt i) (dim i) pad bp
      | CAM_STREAM_TYPE_VIDEO => mm_stream_calc_offset_video (dim i) bp
      | CAM_STREAM_TYPE_RAW => mm_stream_calc_offset_raw (fmt i) (dim i) pad bp
      | CAM_STREAM_TYPE_METADATA => mm_stream_calc_offset_metadata (dim i) pad bp
      | _ => (-1, bp)
      end
  end.

(** ** The dispatcher

    [mm_stream_calc_offset] swaps width and height for a quarter turn, calls
    the function of the stream type and copies the planes into the stream's
    [frame_offset].  Returned: (status, stream info, frame_offset). *)

Definition rotated_dim (i : cam_stream_info_t) : cam_dimension_t :=
  if negb (Z.land (feature_mask (pp_config i)) CAM_QCOM_FEATURE_ROTATION =? 0) then
    match rotation (pp_config i) with
    | ROTATE_90 | ROTATE_270 => {| width := height (dim i); height := width (dim i) |}
    | _ => dim i
    end
  else dim i.

Definition mm_stream_calc_offset (i : cam_stream_info_t) (pad : cam_padding_info_t) :
  Z * cam_stream_info_t * cam_frame_len_offset_t :=
  let d := rotated_dim i in
  let bp := buf_planes i in
  let '(rc, bp') :=
    match stream_type i with
    | CAM_STREAM_TYPE_PREVIEW | CAM_STREAM_TYPE_POSTVIEW =>
        mm_stream_calc_offset_preview (fmt i) d bp
    | CAM_STREAM_TYPE_SNAPSHOT => mm_stream_calc_offset_snapshot (fmt i) d pad bp
    | CAM_STREAM_TYPE_OFFLINE_PROC => mm_stream_calc_offset_postproc i pad bp
    | CAM_STREAM_TYPE_VIDEO => mm_stream_calc_offset_video d bp
    | CAM_STREAM_TYPE_RAW => mm_stream_calc_offset_raw (fmt i) d pad bp
    | CAM_STREAM_TYPE_METADATA => mm_stream_calc_offset_metadata d pad bp
    | _ => (-1, bp)
    end in
  (rc, with_buf_planes i bp', bp').

End Offsets.

(** ** Rounding lemmas *)

(** [PAD_TO_SIZE] by a power of two is rounding up to a multiple. *)
Lemma PAD_TO_SIZE_align size k :
  0 <= k <= 12 -> 0 <= size <= 2 ^ 30 -> PAD_TO_SIZE size (2 ^ k) = align_up size (2 ^ k).
Proof.
  intros Hk Hs. assert (Hp : 1 <= 2 ^ k <= 2 ^ 12).
  { split; [apply (Z.pow_le_mono_r 2 0 k)|apply Z.pow_le_mono_r]; lia. }
  unfold PAD_TO_SIZE. rewrite !i32_id by (unfold i32_range; rewrite ?i32_id; unfold i32_range; lia).
  rewrite land_lnot_ones by lia. reflexivity.
Qed.

Lemma land_u32_lnot x m :
  u32_range x -> u32_range m -> Z.land x (u32 (Z.lnot m)) = Z.land x (Z.lnot m).
Proof.
  unfold u32_range, u32. intros Hx Hm.
  rewrite <- (Z.land_ones (Z.lnot m) 32) by lia.
  rewrite Z.land_assoc, (Z.land_comm (Z.land _ _)), Z.land_assoc.
  rewrite (Z.land_comm (Z.ones 32)), Z.land_ones, (Z.mod_small x) by lia. reflexivity.
Qed.

Lemma PAD_TO_SIZE_U_align size k :
  0 <= k <= 12 -> 0 <= size <= 2 ^ 32 - 2 ^ 13 ->
  PAD_TO_SIZE_U size (2 ^ k) = align_up size (2 ^ k).
Proof.
  intros Hk Hs. assert (Hp : 1 <= 2 ^ k <= 2 ^ 12).
  { split; [apply (Z.pow_le_mono_r 2 0 k)|apply Z.pow_le_mono_r]; lia. }
  unfold PAD_TO_SIZE_U.
  rewrite (u32_id (size + _)), !(u32_id (_ - 1)) by (unfold u32_range; lia).
  rewrite land_u32_lnot by (unfold u32_range; lia).
  rewrite land_lnot_ones by lia. reflexivity.
Qed.

(** ** What a correct layout is *)

(** A plane has room for its rows. *)
Definition plane_fits (p : cam_mp_len_offset_t) : Prop :=
  0 <= mp_stride p /\ 0 <= mp_scanline p /\
  mp_stride p * mp_scanline p <= mp_len p <= 2 ^ 30.

(** The image it declares, placed at the offsets it declares, stays inside its
    rows and columns, and the byte offset is not before that place. *)
Definition plane_covers (p : cam_mp_len_offset_t) : Prop :=
  0 <= mp_offset_x p /\ 0 <= mp_offset_y p /\
  mp_offset_x p + mp_width p <= mp_stride p /\ mp_offset_y p + mp_height p <= mp_scanline p /\
  mp_offset_x p + mp_stride p * mp_offset_y p <= mp_offset p.

(** The planes in use. *)
Definition planes (f : cam_frame_len_offset_t) : list cam_mp_len_offset_t :=
  take (Z.to_nat (num_planes f)) (mp f).

Definition total_len (ps : list cam_mp_len_offset_t) : Z :=
  foldr (fun p n => mp_len p + n) 0 ps.

(** The planes fit next to each other in the frame. *)
Record layout_ok (f : cam_frame_len_offset_t) : Prop := {
  lo_count : 0 < num_planes f <= 3 /\ length (planes f) = Z.to_nat (num_planes f);
  lo_planes : Forall plane_fits (planes f);
  lo_total : total_len (planes f) <= frame_len f
}.

(** Bounds under which no 32-bit operation overflows: no image side above
    8192 pixels, and paddings that are powers of two up to a page. *)
Definition dim_ok (d : cam_dimension_t) : Prop :=
  0 < width d <= 8192 /\ 0 < height d <= 8192.

Definition pow2_pad (p : Z) : Prop := exists k, 0 <= k <= 12 /\ p = 2 ^ k.

Definition pad_ok (pad : cam_padding_info_t) : Prop :=
  pow2_pad (width_padding pad) /\ pow2_pad (height_padding pad) /\
  pow2_pad (plane_padding pad).

(** What the Venus macros document: rows at least as long and as many as
    asked, and a page-aligned size that holds both planes. *)
Definition venus_ok (v : venus_macros) : Prop := forall w h,
  0 < w <= 8192 -> 0 < h <= 8192 ->
  w <= VENUS_Y_STRIDE v w < 2 ^ 14 /\ h <= VENUS_Y_SCANLINES v h < 2 ^ 14 /\
  w <= VENUS_UV_STRIDE v w < 2 ^ 14 /\ 0 <= VENUS_UV_SCANLINES v h < 2 ^ 14 /\
  VENUS_Y_STRIDE v w * VENUS_Y_SCANLINES v h +
    VENUS_UV_STRIDE v w * VENUS_UV_SCANLINES v h <= VENUS_BUFFER_SIZE v w h <= 2 ^ 30 /\
  (4096 | VENUS_BUFFER_SIZE v w h).

(** ** Planes one at a time *)

Lemma pow2_consts :
  pow2_pad CAM_PAD_TO_2 /\ pow2_pad CAM_PAD_TO_8 /\ pow2_pad CAM_PAD_TO_16 /\
  pow2_pad CAM_PAD_TO_32 /\ pow2_pad CAM_PAD_TO_64 /\ pow2_pad CAM_PAD_TO_2K /\
  pow2_pad CAM_PAD_TO_4K.
Proof.
  repeat split; [exists 1|exists 3|exists 4|exists 5|exists 6|exists 11|exists 12];
    (split; [lia|reflexivity]).
Qed.

Lemma pow2_pad_range p : pow2_pad p -> 1 <= p <= 4096.
Proof.
  intros (k & Hk & ->). split; [apply (Z.pow_le_mono_r 2 0 k)|apply (Z.pow_le_mono_r 2 k 12)]; lia.
Qed.

(** The facts a caller needs of a padded number: it is not smaller, exceeds
    by less than the padding, and is a multiple. *)
Lemma PAD_spec size p :
  pow2_pad p -> 0 <= size <= 2 ^ 30 ->
  size <= PAD_TO_SIZE size p < size + p /\ (p | PAD_TO_SIZE size p).
Proof.
  intros Hp Hs. pose proof (pow2_pad_range _ Hp). destruct Hp as (k & Hk & ->).
  rewrite PAD_TO_SIZE_align by lia. split; [split|].
  - apply align_up_ge; lia.
  - apply align_up_lt; lia.
  - apply align_up_divide.
Qed.

Lemma PAD_U_spec size p :
  pow2_pad p -> 0 <= size <= 2 ^ 32 - 2 ^ 13 ->
  size <= PAD_TO_SIZE_U size p < size + p /\ (p | PAD_TO_SIZE_U size p).
Proof.
  intros Hp Hs. pose proof (pow2_pad_range _ Hp). destruct Hp as (k & Hk & ->).
  rewrite PAD_TO_SIZE_U_align by lia. split; [split|].
  - apply align_up_ge; lia.
  - apply align_up_lt; lia.
  - apply align_up_divide.
Qed.

(** Products of image sides stay far below the 32-bit limit. *)
Lemma imul_side a b :
  0 <= a <= 2 ^ 14 -> 0 <= b <= 2 ^ 14 -> a *i b = a * b /\ 0 <= a * b <= 2 ^ 28.
Proof.
  intros Ha Hb. assert (0 <= a * b <= 2 ^ 14 * 2 ^ 14) by nia.
  split; [apply i32_id; unfold i32_range|]; lia.
Qed.

Lemma half_side a : 0 <= a <= 2 ^ 14 -> a /i 2 = a / 2 /\ 0 <= a / 2 <= 2 ^ 14.
Proof.
  intros Ha. rewrite Z.quot_div_nonneg by lia.
  assert (0 <= a / 2 <= a) by (split; [apply Z.div_pos|apply Z.div_le_upper_bound]; lia).
  split; [apply i32_id; unfold i32_range|]; lia.
Qed.

Section PlaneWriters.
Context (s l o x y w h : Z).
Hypotheses (Hs : 0 <= s <= 2 ^ 14) (Hl : 0 <= l <= 2 ^ 14).

Lemma plane_fits_tight : plane_fits (plane (u32 (s *i l)) o x y s l w h).
Proof using Hs Hl.
  destruct (imul_side s l) as [-> ?]; [lia..|].
  unfold plane_fits; simpl. rewrite u32_id by (unfold u32_range; lia). lia.
Qed.

Lemma plane_fits_pad p :
  pow2_pad p -> plane_fits (plane (u32 (PAD_TO_SIZE (s *i l) p)) o x y s l w h).
Proof using Hs Hl.
  intros Hp. destruct (imul_side s l) as [-> ?]; [lia..|].
  pose proof (pow2_pad_range _ Hp).
  destruct (PAD_spec (s * l) p) as [? _]; [done|lia|].
  unfold plane_fits; simpl. rewrite u32_id by (unfold u32_range; lia). lia.
Qed.

Lemma plane_fits_pad_U p :
  pow2_pad p -> plane_fits (plane (PAD_TO_SIZE_U (s *i l) p) o x y s l w h).
Proof using Hs Hl.
  intros Hp. destruct (imul_side s l) as [-> ?]; [lia..|].
  pose proof (pow2_pad_range _ Hp).
  destruct (PAD_U_spec (s * l) p) as [? _]; [done|lia|].
  unfold plane_fits; simpl. lia.
Qed.
End PlaneWriters.

(** ** Whole frames from their planes *)

Lemma frame_len_4k n :
  0 <= n <= 2 ^ 32 - 2 ^ 13 ->
  n <= PAD_TO_SIZE_U n CAM_PAD_TO_4K /\ (4096 | PAD_TO_SIZE_U n CAM_PAD_TO_4K).
Proof.
  intros Hn. destruct (PAD_U_spec n CAM_PAD_TO_4K) as [? ?]; [apply pow2_consts|done|].
  split; [lia|done].
Qed.

Section Frames.
Context (bp : cam_frame_len_offset_t) (Hwf : frame_wf bp).

(** Replacing the leading planes of a well-formed frame. *)
Lemma planes_set (p0 p1 p2 : cam_mp_len_offset_t) n :
  planes (set_frame_len n (set_plane 0 p0 (set_num_planes 1 bp))) = [p0] /\
  planes (set_frame_len n (set_plane 1 p1 (set_plane 0 p0 (set_num_planes 2 bp)))) = [p0; p1] /\
  planes (set_frame_len n (set_plane 2 p2 (set_plane 1 p1 (set_plane 0 p0 (set_num_planes 3 bp)))))
    = [p0; p1; p2].
Proof using Hwf.
  unfold frame_wf, planes in *. destruct bp as [np m fl]; simpl in *.
  destruct m as [|? [|? [|? m]]]; try discriminate Hwf. done.
Qed.

Lemma layout_two p0 p1 :
  plane_fits p0 -> plane_fits p1 ->
  let f := set_frame_len (PAD_TO_SIZE_U (mp_len p0 +u mp_len p1) CAM_PAD_TO_4K)
             (set_plane 1 p1 (set_plane 0 p0 (set_num_planes 2 bp))) in
  layout_ok f /\ planes f = [p0; p1] /\ (4096 | frame_len f).
Proof using Hwf.
  intros H0 H1 f. destruct (planes_set p0 p1 p1 (PAD_TO_SIZE_U (mp_len p0 +u mp_len p1) CAM_PAD_TO_4K))
    as (_ & Hp & _). fold f in Hp.
  assert (0 <= mp_len p0 <= 2 ^ 30 /\ 0 <= mp_len p1 <= 2 ^ 30) by (unfold plane_fits in *; nia).
  destruct (frame_len_4k (mp_len p0 + mp_len p1)) as [Hge Hdiv]; [lia|].
  assert (Hfl : frame_len f = PAD_TO_SIZE_U (mp_len p0 + mp_len p1) CAM_PAD_TO_4K).
  { subst f; simpl. rewrite u32_id by (unfold u32_range; lia). done. }
  rewrite Hfl. split; [split|by split]; rewrite ?Hp, ?Hfl; simpl; [lia|auto using List.Forall_cons, List.Forall_nil|lia].
Qed.

Lemma layout_three p0 p1 p2 :
  plane_fits p0 -> plane_fits p1 -> plane_fits p2 ->
  let f := set_frame_len (PAD_TO_SIZE_U (mp_len p0 +u mp_len p1 +u mp_len p2) CAM_PAD_TO_4K)
             (set_plane 2 p2 (set_plane 1 p1 (set_plane 0 p0 (set_num_planes 3 bp)))) in
  layout_ok f /\ planes f = [p0; p1; p2] /\ (4096 | frame_len f).
Proof using Hwf.
  intros H0 H1 H2 f.
  destruct (planes_set p0 p1 p2 (PAD_TO_SIZE_U (mp_len p0 +u mp_len p1 +u mp_len p2) CAM_PAD_TO_4K))
    as (_ & _ & Hp). fold f in Hp.
  assert (0 <= mp_len p0 <= 2 ^ 30 /\ 0 <= mp_len p1 <= 2 ^ 30 /\ 0 <= mp_len p2 <= 2 ^ 30)
    by (unfold plane_fits in *; nia).
  destruct (frame_len_4k (mp_len p0 + mp_len p1 + mp_len p2)) as [Hge Hdiv]; [lia|].
  assert (Hfl : frame_len f = PAD_TO_SIZE_U (mp_len p0 + mp_len p1 + mp_len p2) CAM_PAD_TO_4K).
  { subst f; simpl. rewrite !(u32_id (mp_len p0 + _)), u32_id by (unfold u32_range; lia). done. }
  rewrite Hfl. split; [split|by split]; rewrite ?Hp, ?Hfl; simpl; [lia|auto using List.Forall_cons, List.Forall_nil|lia].
Qed.
End Frames.

(** ** Layouts of the YUV formats *)

(** The layout is sound, its size is a whole number of pages, each plane
    covers the image it declares and the first declares the image asked for. *)
Definition yuv_frame_ok (d : cam_dimension_t) (f : cam_frame_len_offset_t) : Prop :=
  layout_ok f /\ Forall plane_covers (planes f) /\ (4096 | frame_len f) /\
  exists p0, planes f !! 0%nat = Some p0 /\ mp_width p0 = width d /\ mp_height p0 = height d.

(** A padded image side: between the side and the side plus the padding. *)
Lemma PAD_side a p :
  pow2_pad p -> p <= 64 -> 0 <= a <= 8448 -> a <= PAD_TO_SIZE a p < a + p.
Proof. intros Hp ? ?. destruct (PAD_spec a p Hp) as [? _]; lia. Qed.

Lemma PAD_U_side a p :
  pow2_pad p -> 0 <= a <= 8192 -> a <= i32 (PAD_TO_SIZE_U a p) < a + p.
Proof.
  intros Hp ?. pose proof (pow2_pad_range _ Hp).
  destruct (PAD_U_spec a p Hp) as [? _]; [lia|].
  rewrite i32_id; unfold i32_range; lia.
Qed.

(** Gives a plane to a [layout_*] lemma and closes its size conditions. *)
Ltac fits :=
  match goal with
  | |- plane_fits (plane (u32 (PAD_TO_SIZE _ _)) _ _ _ _ _ _ _) => apply plane_fits_pad
  | |- plane_fits (plane (PAD_TO_SIZE_U _ _) _ _ _ _ _ _ _) => apply plane_fits_pad_U
  | |- plane_fits (plane (u32 _) _ _ _ _ _ _ _) => apply plane_fits_tight
  end; first [lia|assumption|apply pow2_consts].

Ltac covers := solve [unfold plane_covers; simpl; lia].

(** [side a p] records the bounds of [PAD_TO_SIZE a p]. *)
Ltac side a p :=
  let n := eval compute in p in
  assert (a <= PAD_TO_SIZE a p < a + n)
    by (apply (PAD_side a p); [apply pow2_consts|unfold p; lia|lia]).

Section YuvLayouts.
Context (d : cam_dimension_t) (bp : cam_frame_len_offset_t).
Hypotheses (Hd : dim_ok d) (Hwf : frame_wf bp).

(** Facts about the sides of [d] shared by the formats. *)
Lemma sides :
  (height d /i 2 = height d / 2 /\ 0 <= height d / 2 <= 4096) /\
  (width d /i 2 = width d / 2 /\ 0 <= width d / 2 <= 4096).
Proof using Hd.
  destruct Hd as [Hw Hh].
  destruct (half_side (height d)) as [-> ?]; [lia|].
  destruct (half_side (width d)) as [-> ?]; [lia|].
  repeat split; try done; try lia; apply Z.div_le_upper_bound; lia.
Qed.

Lemma two_planes_ok p0 p1 :
  plane_fits p0 -> plane_fits p1 -> plane_covers p0 -> plane_covers p1 ->
  mp_width p0 = width d -> mp_height p0 = height d ->
  yuv_frame_ok d (set_frame_len (PAD_TO_SIZE_U (mp_len p0 +u mp_len p1) CAM_PAD_TO_4K)
                    (set_plane 1 p1 (set_plane 0 p0 (set_num_planes 2 bp)))).
Proof using Hwf.
  intros F0 F1 C0 C1 W H. destruct (layout_two bp Hwf p0 p1 F0 F1) as (L & P & D).
  unfold yuv_frame_ok. rewrite P.
  split; [exact L|split; [auto using List.Forall_cons, List.Forall_nil|]].
  split; [exact D|by exists p0].
Qed.

Lemma three_planes_ok p0 p1 p2 :
  plane_fits p0 -> plane_fits p1 -> plane_fits p2 ->
  plane_covers p0 -> plane_covers p1 -> plane_covers p2 ->
  mp_width p0 = width d -> mp_height p0 = height d ->
  yuv_frame_ok d
    (set_frame_len (PAD_TO_SIZE_U (mp_len p0 +u mp_len p1 +u mp_len p2) CAM_PAD_TO_4K)
       (set_plane 2 p2 (set_plane 1 p1 (set_plane 0 p0 (set_num_planes 3 bp))))).
Proof using Hwf.
  intros F0 F1 F2 C0 C1 C2 W H.
  destruct (layout_three bp Hwf p0 p1 p2 F0 F1 F2) as (L & P & D).
  unfold yuv_frame_ok. rewrite P.
  split; [exact L|split; [auto using List.Forall_cons, List.Forall_nil|]].
  split; [exact D|by exists p0].
Qed.

Lemma preview_nv12_ok : yuv_frame_ok d (preview_nv12 d bp).
Proof using Hd Hwf.
  unfold preview_nv12. cbv zeta. destruct sides as [[-> ?] _], Hd as [? ?].
  side (width d) CAM_PAD_TO_16. side (height d) CAM_PAD_TO_2.
  side (height d / 2) CAM_PAD_TO_2.
  apply two_planes_ok; try fits; try covers; done.
Qed.

Lemma post_view_nv12_ok : yuv_frame_ok d (post_view_nv12 d bp).
Proof using Hd Hwf.
  unfold post_view_nv12. cbv zeta. destruct sides as [[-> ?] _], Hd as [? ?].
  side (width d) CAM_PAD_TO_64. side (height d) CAM_PAD_TO_64.
  side (height d / 2) CAM_PAD_TO_64.
  apply two_planes_ok; try fits; try covers; done.
Qed.

(** The chroma rows are built from [width / 2], so the width must be even. *)
Lemma preview_nv21_adreno_ok :
  (2 | width d) -> yuv_frame_ok d (preview_nv21_adreno d bp).
Proof using Hd Hwf.
  intros [w Hw]. unfold preview_nv21_adreno. cbv zeta.
  destruct sides as [[-> ?] [-> ?]], Hd as [? ?].
  side (width d) CAM_PAD_TO_32. side (height d) CAM_PAD_TO_32.
  side (width d / 2) CAM_PAD_TO_32. side (height d / 2) CAM_PAD_TO_32.
  destruct (imul_side (PAD_TO_SIZE (width d / 2) CAM_PAD_TO_32) 2) as [-> ?]; [lia..|].
  assert (width d / 2 * 2 = width d) by (rewrite Hw, Z.div_mul; lia).
  apply two_planes_ok; try fits; try covers; done.
Qed.

Lemma preview_yv12_ok : yuv_frame_ok d (preview_yv12 d bp).
Proof using Hd Hwf.
  unfold preview_yv12. cbv zeta. destruct sides as [[-> ?] [-> ?]], Hd as [? ?].
  side (width d) CAM_PAD_TO_16. side (height d) CAM_PAD_TO_2.
  destruct (half_side (PAD_TO_SIZE (width d) CAM_PAD_TO_16)) as [-> ?]; [lia|].
  destruct (half_side (PAD_TO_SIZE (height d) CAM_PAD_TO_2)) as [-> ?]; [lia|].
  pose proof (Z.div_le_mono (width d) (PAD_TO_SIZE (width d) CAM_PAD_TO_16) 2).
  pose proof (Z.div_le_mono (height d) (PAD_TO_SIZE (height d) CAM_PAD_TO_2) 2).
  pose proof (Z.div_le_upper_bound (PAD_TO_SIZE (width d) CAM_PAD_TO_16) 2 8208).
  side (PAD_TO_SIZE (width d) CAM_PAD_TO_16 / 2) CAM_PAD_TO_16.
  apply three_planes_ok; try fits; try covers; done.
Qed.

Lemma preview_nv16_ok : yuv_frame_ok d (preview_nv16 d bp).
Proof using Hd Hwf.
  unfold preview_nv16. cbv zeta. destruct Hd as [? ?].
  side (width d) CAM_PAD_TO_16.
  apply two_planes_ok; try fits; try covers; done.
Qed.

(** *** Snapshot formats, from the geometry of the prologue *)
Section Snapshot.
Context (pad : cam_padding_info_t) (s l y : Z).
Hypotheses (Hpad : pad_ok pad)
  (Hs : width d <= s <= 2 ^ 14) (Hl : height d <= l <= 2 ^ 14)
  (Hy : 0 <= y < 16) (Hl0 : y + height d <= l) (Hl1 : y + height d / 2 <= l / 2).

(** The byte offset of the rows that are left out. *)
Lemma row_offset t : 0 <= t <= 2 ^ 14 -> t * y <= PAD_TO_SIZE_U (0 +i (t *i y)) (plane_padding pad).
Proof using Hpad Hy.
  intros Ht. destruct Hpad as (_ & _ & Hp). destruct (imul_side t y) as [-> ?]; [lia..|].
  rewrite i32_id by (unfold i32_range; lia). destruct (PAD_U_spec (0 + t * y) _ Hp) as [? _]; lia.
Qed.

Lemma snapshot_nv12_ok : yuv_frame_ok d (snapshot_nv12 d pad s l 0 y bp).
Proof using All.
  unfold snapshot_nv12. cbv zeta. destruct sides as [[-> ?] _], Hd as [? ?], Hpad as (_ & _ & ?).
  destruct (half_side l) as [-> ?]; [lia|]. pose proof (Z.div_le_mono (height d) l 2). pose proof (row_offset s).
  apply two_planes_ok; try fits; try covers; done.
Qed.

Lemma snapshot_yv12_ok : yuv_frame_ok d (snapshot_yv12 d pad s l 0 y bp).
Proof using All.
  unfold snapshot_yv12. cbv zeta.
  destruct sides as [[-> ?] [-> ?]], Hd as [? ?], Hpad as (_ & _ & ?).
  destruct (half_side l) as [-> ?]; [lia|]. pose proof (Z.div_le_mono (height d) l 2).
  destruct (half_side s) as [-> ?]; [lia|]. pose proof (Z.div_le_mono (width d) s 2).
  pose proof (Z.div_le_upper_bound s 2 8192).
  side (s / 2) CAM_PAD_TO_16. pose proof (row_offset s). pose proof (row_offset (PAD_TO_SIZE (s / 2) CAM_PAD_TO_16)).
  apply three_planes_ok; try fits; try covers; done.
Qed.

Lemma snapshot_nv16_ok : yuv_frame_ok d (snapshot_nv16 d pad s l 0 y bp).
Proof using All.
  unfold snapshot_nv16. cbv zeta. pose proof (row_offset s). destruct Hd as [? ?], Hpad as (_ & _ & ?).
  apply two_planes_ok; try fits; try covers; done.
Qed.
End Snapshot.
End YuvLayouts.

Lemma snapshot_geometry_ok af d pad :
  dim_ok d -> pad_ok pad ->
  exists s l y, snapshot_geometry af d pad = (s, l, 0, y) /\
    width d <= s <= 2 ^ 14 /\ height d <= l <= 2 ^ 14 /\ 0 <= y < 16 /\ y + height d <= l /\ y + height d / 2 <= l / 2.
Proof.
  intros [? ?] (Pw & Ph & _). unfold snapshot_geometry, mm_camera_util_chip_is_a_family.
  destruct af; do 3 eexists; (split; [reflexivity|]).
  - side (height d) CAM_PAD_TO_16. rewrite !i32_id by (unfold i32_range; rewrite ?i32_id; unfold i32_range; lia).
    set (a := PAD_TO_SIZE (height d) CAM_PAD_TO_16) in *. repeat (split; [lia|]).
    replace (a + (a - height d)) with ((a - height d) * 2 + height d) by lia. rewrite Z.div_add_l by lia. lia.
  - pose proof (pow2_pad_range _ Pw). pose proof (pow2_pad_range _ Ph).
    pose proof (PAD_U_side (width d) _ Pw). pose proof (PAD_U_side (height d) _ Ph).
    pose proof (Z.div_le_mono (height d) (i32 (PAD_TO_SIZE_U (height d) (height_padding pad))) 2). lia.
Qed.

(** ** Raw formats *)

(** Bytes per group of pixels of each raw packing, as the comments of
    [cam_types.h] give them: (bytes, pixels). *)
Definition raw_density (f : cam_format_t) : option (Z * Z) :=
  match f with
  | CAM_FORMAT_YUV_RAW_8BIT_YUYV | CAM_FORMAT_YUV_RAW_8BIT_YVYU
  | CAM_FORMAT_YUV_RAW_8BIT_UYVY | CAM_FORMAT_YUV_RAW_8BIT_VYUY => Some (2, 1)
  | CAM_FORMAT_BAYER_QCOM_RAW_8BPP_GBRG | CAM_FORMAT_BAYER_QCOM_RAW_8BPP_GRBG
  | CAM_FORMAT_BAYER_QCOM_RAW_8BPP_RGGB | CAM_FORMAT_BAYER_QCOM_RAW_8BPP_BGGR
  | CAM_FORMAT_BAYER_MIPI_RAW_8BPP_GBRG | CAM_FORMAT_BAYER_MIPI_RAW_8BPP_GRBG
  | CAM_FORMAT_BAYER_MIPI_RAW_8BPP_RGGB | CAM_FORMAT_BAYER_MIPI_RAW_8BPP_BGGR => Some (1, 1)
  | CAM_FORMAT_BAYER_QCOM_RAW_10BPP_GBRG | CAM_FORMAT_BAYER_QCOM_RAW_10BPP_GRBG
  | CAM_FORMAT_BAYER_QCOM_RAW_10BPP_RGGB | CAM_FORMAT_BAYER_QCOM_RAW_10BPP_BGGR => Some (8, 6)
  | CAM_FORMAT_BAYER_QCOM_RAW_12BPP_GBRG | CAM_FORMAT_BAYER_QCOM_RAW_12BPP_GRBG
  | CAM_FORMAT_BAYER_QCOM_RAW_12BPP_RGGB | CAM_FORMAT_BAYER_QCOM_RAW_12BPP_BGGR => Some (8, 5)
  | CAM_FORMAT_BAYER_MIPI_RAW_10BPP_GBRG | CAM_FORMAT_BAYER_MIPI_RAW_10BPP_GRBG
  | CAM_FORMAT_BAYER_MIPI_RAW_10BPP_RGGB | CAM_FORMAT_BAYER_MIPI_RAW_10BPP_BGGR => Some (5, 4)
  | CAM_FORMAT_BAYER_MIPI_RAW_12BPP_GBRG | CAM_FORMAT_BAYER_MIPI_RAW_12BPP_GRBG
  | CAM_FORMAT_BAYER_MIPI_RAW_12BPP_RGGB | CAM_FORMAT_BAYER_MIPI_RAW_12BPP_BGGR => Some (3, 2)
  | CAM_FORMAT_BAYER_IDEAL_RAW_PLAIN16_8BPP_GBRG | CAM_FORMAT_BAYER_IDEAL_RAW_PLAIN16_8BPP_GRBG
  | CAM_FORMAT_BAYER_IDEAL_RAW_PLAIN16_8BPP_RGGB | CAM_FORMAT_BAYER_IDEAL_RAW_PLAIN16_8BPP_BGGR
  | CAM_FORMAT_BAYER_IDEAL_RAW_PLAIN16_10BPP_GBRG | CAM_FORMAT_BAYER_IDEAL_RAW_PLAIN16_10BPP_GRBG
  | CAM_FORMAT_BAYER_IDEAL_RAW_PLAIN16_10BPP_RGGB | CAM_FORMAT_BAYER_IDEAL_RAW_PLAIN16_10BPP_BGGR
  | CAM_FORMAT_BAYER_IDEAL_RAW_PLAIN16_12BPP_GBRG | CAM_FORMAT_BAYER_IDEAL_RAW_PLAIN16_12BPP_GRBG
  | CAM_FORMAT_BAYER_IDEAL_RAW_PLAIN16_12BPP_RGGB | CAM_FORMAT_BAYER_IDEAL_RAW_PLAIN16_12BPP_BGGR =>
      Some (2, 1)
  | _ => None
  end.

(** A one-plane frame of page-aligned size with at least [n] bytes. *)
Definition raw_frame_ok (n : Z) (f : cam_frame_len_offset_t) : Prop :=
  (4096 | frame_len f) /\ num_planes f = 1 /\
  exists p0, planes f = [p0] /\ n <= mp_len p0 <= frame_len f.

Section RawLayouts.
Context (d : cam_dimension_t) (pad : cam_padding_info_t) (bp : cam_frame_len_offset_t).
Hypotheses (Hd : dim_ok d) (Hwf : frame_wf bp) (Hpad : pad_ok pad).

Lemma raw_plane_ok n s l :
  0 <= n <= 2 ^ 31 -> raw_frame_ok n (raw_plane n s l pad bp).
Proof using Hwf Hpad.
  intros Hn. destruct Hpad as (_ & _ & Hp). pose proof (pow2_pad_range _ Hp).
  destruct (PAD_U_spec n _ Hp) as [? _]; [lia|].
  destruct (frame_len_4k (PAD_TO_SIZE_U n (plane_padding pad))) as [? ?]; [lia|].
  unfold raw_plane. cbv zeta. split; [done|split; [done|]].
  match goal with |- context [set_plane 0 ?p _] => exists p end.
  split; [apply planes_set; done|simpl; lia].
Qed.

(** Multiplying a side product by a small factor does not overflow. *)
Lemma imul_small a k : 0 <= a <= 2 ^ 27 -> 0 <= k <= 8 -> a *i k = a * k.
Proof using. intros. apply i32_id. unfold i32_range. nia. Qed.

Lemma imul_sides s : 0 <= s <= 10300 -> s *i height d = s * height d /\ 0 <= s * height d <= 2 ^ 27.
Proof using Hd.
  intros. destruct Hd as [_ ?]. split; [apply imul_side; lia|nia].
Qed.

(** A row stride in pixel groups: [(w + g - 1) / g * g]. *)
Lemma group_stride g :
  1 < g <= 12 ->
  let s := (width d +i (g - 1)) /i g *i g in
  width d <= s < width d + g /\ s = (width d + (g - 1)) / g * g.
Proof using Hd.
  intros Hg s. destruct Hd as [? _].
  assert (Hsum : width d +i (g - 1) = width d + (g - 1)) by (apply i32_id; unfold i32_range; lia).
  assert (0 <= (width d + (g - 1)) / g <= 8192).
  { split; [apply Z.div_pos; lia|apply Z.div_le_upper_bound; nia]. }
  assert (s = (width d + (g - 1)) / g * g) as ->.
  { subst s. rewrite Hsum, Z.quot_div_nonneg by lia.
    rewrite (i32_id (_ / _)) by (unfold i32_range; lia).
    apply i32_id. unfold i32_range. nia. }
  pose proof (Z_div_mod_eq_full (width d + (g - 1)) g).
  pose proof (Z.mod_pos_bound (width d + (g - 1)) g). split; [nia|done].
Qed.

(** The bytes of the image for a density of [b] bytes per [p] pixels. *)
Definition image_bytes_fit (b p : Z) (f : cam_frame_len_offset_t) : Prop :=
  exists n, raw_frame_ok n f /\ width d * height d * b <= n * p.

Lemma raw_double_ok s :
  0 <= s <= 8300 -> width d <= s ->
  image_bytes_fit 2 1 (raw_plane (s *i height d *i 2) s (height d) pad bp).
Proof using All.
  intros Hs Hw. destruct (imul_sides s) as [-> ?]; [lia|]. rewrite imul_small by lia.
  exists (s * height d * 2). destruct Hd as [? ?]. split; [apply raw_plane_ok; lia|nia].
Qed.

Lemma raw_yuv_8bit_ok : image_bytes_fit 2 1 (raw_yuv_8bit d pad bp).
Proof using All. destruct Hd as [? ?]. side (width d) CAM_PAD_TO_16. unfold raw_yuv_8bit. cbv zeta. apply raw_double_ok; lia. Qed.

Lemma raw_plain16_ok : image_bytes_fit 2 1 (raw_plain16 d pad bp).
Proof using All. destruct Hd as [? ?]. side (width d) CAM_PAD_TO_8. unfold raw_plain16. cbv zeta. apply raw_double_ok; lia. Qed.

Lemma raw_8bpp_ok : image_bytes_fit 1 1 (raw_8bpp d pad bp).
Proof using All.
  pose proof Hd as [? ?]. side (width d) CAM_PAD_TO_16. unfold raw_8bpp. cbv zeta.
  destruct (imul_sides (PAD_TO_SIZE (width d) CAM_PAD_TO_16)) as [-> ?]; [lia|].
  eexists. split; [apply raw_plane_ok; lia|nia].
Qed.

Lemma raw_qcom_10bpp_ok : image_bytes_fit 8 6 (raw_qcom_10bpp d pad bp).
Proof using All.
  pose proof Hd as [? ?]. unfold raw_qcom_10bpp. cbv zeta.
  destruct (group_stride 12) as [Hs Heq]; [lia|]. change (12 - 1) with 11 in *.
  set (s := (width d +i 11) /i 12 *i 12) in *. destruct (imul_sides s) as [-> ?]; [lia|].
  rewrite imul_small by lia. rewrite Z.quot_div_nonneg by lia.
  set (q := (width d + 11) / 12) in *.
  replace (s * height d * 8 / 6) with (q * height d * 16)
    by (rewrite Heq; replace (q * 12 * height d * 8) with (q * height d * 16 * 6) by lia;
        rewrite Z.div_mul; lia).
  rewrite i32_id by (unfold i32_range; nia).
  exists (q * height d * 16). split; [apply raw_plane_ok; nia|nia].
Qed.

Lemma raw_qcom_12bpp_ok : image_bytes_fit 8 5 (raw_qcom_12bpp d pad bp).
Proof using All.
  pose proof Hd as [? ?]. unfold raw_qcom_12bpp. cbv zeta.
  destruct (group_stride 10) as [Hs Heq]; [lia|]. change (10 - 1) with 9 in *.
  set (s := (width d +i 9) /i 10 *i 10) in *. destruct (imul_sides s) as [-> ?]; [lia|].
  rewrite imul_small by lia. rewrite Z.quot_div_nonneg by lia.
  set (q := (width d + 9) / 10) in *.
  replace (s * height d * 8 / 5) with (q * height d * 16)
    by (rewrite Heq; replace (q * 10 * height d * 8) with (q * height d * 16 * 5) by lia;
        rewrite Z.div_mul; lia).
  rewrite i32_id by (unfold i32_range; nia).
  exists (q * height d * 16). split; [apply raw_plane_ok; nia|nia].
Qed.

Lemma raw_mipi_10bpp_ok : (4 | width d) -> image_bytes_fit 5 4 (raw_mipi_10bpp d pad bp).
Proof using All.
  intros [w Hw]. pose proof Hd as [? ?]. unfold raw_mipi_10bpp. cbv zeta.
  rewrite (imul_small (width d) 5) by lia. rewrite Z.quot_div_nonneg by lia.
  replace (width d * 5 / 4) with (w * 5) by (rewrite Hw; replace (w * 4 * 5) with (w * 5 * 4) by lia; rewrite Z.div_mul; lia).
  rewrite (i32_id (w * 5)) by (unfold i32_range; lia).
  destruct (PAD_spec (w * 5) CAM_PAD_TO_8) as [Hp _]; [apply pow2_consts|lia|].
  change CAM_PAD_TO_8 with 8 in *.
  destruct (imul_sides (PAD_TO_SIZE (w * 5) 8)) as [-> ?]; [lia|].
  eexists. split; [apply raw_plane_ok; lia|nia].
Qed.

Lemma raw_mipi_12bpp_ok : image_bytes_fit 3 2 (raw_mipi_12bpp d pad bp).
Proof using All.
  pose proof Hd as [? ?]. unfold raw_mipi_12bpp. cbv zeta.
  destruct (PAD_spec (width d) CAM_PAD_TO_32) as [Hp [q Hq]]; [apply pow2_consts|lia|].
  change CAM_PAD_TO_32 with 32 in *. set (s := PAD_TO_SIZE (width d) 32) in *.
  destruct (imul_sides s) as [-> ?]; [lia|]. rewrite imul_small by lia.
  rewrite Z.quot_div_nonneg by lia.
  replace (s * height d * 3 / 2) with (q * height d * 48)
    by (rewrite Hq; replace (q * 32 * height d * 3) with (q * height d * 48 * 2) by lia;
        rewrite Z.div_mul; lia).
  rewrite i32_id by (unfold i32_range; nia).
  exists (q * height d * 48). split; [apply raw_plane_ok; nia|nia].
Qed.
End RawLayouts.

(** ** Specification tables *)

(** Formats with a YUV layout for a display or snapshot stream. *)
Definition yuv_supported (t : cam_stream_type_t) (f : cam_format_t) : bool :=
  match t, f with
  | (CAM_STREAM_TYPE_PREVIEW | CAM_STREAM_TYPE_POSTVIEW | CAM_STREAM_TYPE_SNAPSHOT),
    (CAM_FORMAT_YUV_420_NV12 | CAM_FORMAT_YUV_420_NV21 | CAM_FORMAT_YUV_420_YV12
    | CAM_FORMAT_YUV_422_NV16 | CAM_FORMAT_YUV_422_NV61) => true
  | (CAM_STREAM_TYPE_PREVIEW | CAM_STREAM_TYPE_POSTVIEW), CAM_FORMAT_YUV_420_NV21_ADRENO => true
  | _, _ => false
  end.

(** Formats laid out by the raw function: the packings with a documented
    density, the corrected ("ideal") variants of the same packings and the
    generic 8-bit formats. *)
Definition raw_supported (f : cam_format_t) : bool :=
  match f with
  | CAM_FORMAT_JPEG | CAM_FORMAT_YUV_420_NV12 | CAM_FORMAT_YUV_420_NV21
  | CAM_FORMAT_YUV_420_NV21_ADRENO | CAM_FORMAT_YUV_420_YV12 | CAM_FORMAT_YUV_422_NV16
  | CAM_FORMAT_YUV_422_NV61 | CAM_FORMAT_YUV_420_NV12_VENUS | CAM_FORMAT_MAX => false
  | _ => true
  end.

(** Whether the function of stream type [t] accepts format [f]. *)
Definition type_supported (venus : option venus_macros) (t : cam_stream_type_t)
    (f : cam_format_t) : bool :=
  match t with
  | CAM_STREAM_TYPE_PREVIEW | CAM_STREAM_TYPE_POSTVIEW =>
      yuv_supported t f ||
      match venus with
      | Some _ => bool_decide (f = CAM_FORMAT_YUV_420_NV12_VENUS)
      | None => false
      end
  | CAM_STREAM_TYPE_SNAPSHOT => yuv_supported t f
  | CAM_STREAM_TYPE_RAW => raw_supported f
  | CAM_STREAM_TYPE_VIDEO | CAM_STREAM_TYPE_METADATA => true
  | _ => false
  end.

Definition calc_supported (venus : option venus_macros) (i : cam_stream_info_t) : bool :=
  match stream_type i, reprocess_config i with
  | CAM_STREAM_TYPE_OFFLINE_PROC, CAM_OFFLINE_REPROCESS_TYPE _ => true
  | CAM_STREAM_TYPE_OFFLINE_PROC, CAM_ONLINE_REPROCESS_TYPE t => type_supported venus t (fmt i)
  | t, _ => type_supported venus t (fmt i)
  end.

(** ** Properties *)

(** [PAD_TO_SIZE] with a power-of-two padding is the least multiple of the
    padding that is not below the size, for every size the 32-bit arithmetic
    can hold. *)
Theorem PAD_TO_SIZE_least size p :
  pow2_pad p -> 0 <= size <= 2 ^ 30 ->
  (p | PAD_TO_SIZE size p) /\ size <= PAD_TO_SIZE size p /\
  forall m, (p | m) -> size <= m -> PAD_TO_SIZE size p <= m.
Proof.
  intros Hp Hs. pose proof (pow2_pad_range _ Hp). destruct (PAD_spec size p Hp Hs) as [? ?].
  split; [done|split; [lia|]]. destruct Hp as (k & ? & ->). intros m Hd Hm.
  rewrite PAD_TO_SIZE_align by lia. apply align_up_least; [lia|done|done].
Qed.

Lemma PAD_TO_SIZE_least_witness :
  PAD_TO_SIZE 1081 16 = 1088 /\
  ((16 | PAD_TO_SIZE 1081 16) /\ 1081 <= PAD_TO_SIZE 1081 16 /\
   forall m, (16 | m) -> 1081 <= m -> PAD_TO_SIZE 1081 16 <= m).
Proof.
  split; [reflexivity|apply (PAD_TO_SIZE_least 1081 16)].
  - exists 4. split; [lia|reflexivity].
  - lia.
Defined.

(** The layout is sound, its size is a whole number of pages, and the first
    plane declares the image asked for and covers it. *)
Definition frame_holds (d : cam_dimension_t) (f : cam_frame_len_offset_t) : Prop :=
  layout_ok f /\ (4096 | frame_len f) /\
  exists p0 ps, planes f = p0 :: ps /\ plane_covers p0 /\ mp_width p0 = width d /\ mp_height p0 = height d.

Lemma yuv_frame_holds d f : yuv_frame_ok d f -> frame_holds d f /\ Forall plane_covers (planes f).
Proof.
  intros (Hl & Hc & Hp & p0 & H0 & Hw & Hh). split; [|done]. split; [done|]. split; [done|].
  destruct (planes f) as [|q ps]; [done|]. injection H0 as ->. exists p0, ps. pose proof (Forall_inv Hc). done.
Qed.

(** With the Venus macros behaving as documented, the luma plane covers the
    image and both planes make up the buffer size the macro gives. *)
Lemma venus_nv12_ok v d bp :
  venus_ok v -> dim_ok d -> frame_wf bp -> let f := venus_nv12 v d bp in
  frame_holds d f /\ total_len (planes f) = frame_len f.
Proof.
  intros Hv [Hw Hh] Hwf. destruct (Hv _ _ Hw Hh) as (? & ? & ? & ? & ? & Hdiv). unfold venus_nv12. cbv zeta.
  rewrite !(i32_id (VENUS_Y_STRIDE _ _)), !(i32_id (VENUS_Y_SCANLINES _ _)),
    !(i32_id (VENUS_UV_STRIDE _ _)), !(i32_id (VENUS_UV_SCANLINES _ _)),
    !(u32_id (VENUS_BUFFER_SIZE _ _ _)) by (unfold i32_range, u32_range; nia).
  destruct (imul_side (VENUS_Y_STRIDE v (width d)) (VENUS_Y_SCANLINES v (height d))) as [-> ?];
    [lia..|].
  rewrite !(u32_id (_ * _)) by (unfold u32_range; lia). simpl mp_len.
  rewrite u32_id by (unfold u32_range; nia).
  match goal with |- context [set_plane 1 ?p1 (set_plane 0 ?p0 _)] =>
    destruct (planes_set bp Hwf p0 p1 p1 (VENUS_BUFFER_SIZE v (width d) (height d)))
      as (_ & Hpl & _) end.
  match goal with |- frame_holds d ?f /\ _ =>
    match type of Hpl with _ = ?ps => change (planes f = ps) in Hpl end end.
  split; [split; [constructor|split; [exact Hdiv|]]|]; try rewrite Hpl; simpl.
  - done.
  - repeat apply List.Forall_cons; unfold plane_fits; simpl; try apply List.Forall_nil; nia.
  - lia.
  - do 2 eexists. split; [reflexivity|]. unfold plane_covers; simpl. lia.
  - lia.
Qed.

(** The stream type whose layout is computed, and the image it is computed
    for: a reprocess stream fed by another stream is laid out like that one,
    without the rotation. *)
Definition layout_of (i : cam_stream_info_t) : cam_stream_type_t * cam_dimension_t :=
  match stream_type i, reprocess_config i with
  | CAM_STREAM_TYPE_OFFLINE_PROC, CAM_ONLINE_REPROCESS_TYPE t => (t, dim i)
  | t, _ => (t, rotated_dim i)
  end.

(** The layouts that the Venus macros give. *)
Definition venus_layout (venus : option venus_macros) (t : cam_stream_type_t) (f : cam_format_t) : bool :=
  match venus, t with
  | Some _, CAM_STREAM_TYPE_VIDEO => true
  | Some _, (CAM_STREAM_TYPE_PREVIEW | CAM_STREAM_TYPE_POSTVIEW) => bool_decide (f = CAM_FORMAT_YUV_420_NV12_VENUS)
  | _, _ => false
  end.

Lemma snapshot_ok af f d pad bp : yuv_supported CAM_STREAM_TYPE_SNAPSHOT f = true -> frame_wf bp -> dim_ok d -> pad_ok pad ->
  exists fr, mm_stream_calc_offset_snapshot af f d pad bp = (0, fr) /\ yuv_frame_ok d fr.
Proof.
  intros Hsup Hwf Hd Hpad. unfold mm_stream_calc_offset_snapshot.
  destruct (snapshot_geometry_ok af _ _ Hd Hpad) as (s & l & y & Hg & Hs & Hl & Hy & Hl0 & Hl1). rewrite Hg.
  destruct f; try discriminate Hsup; (eexists; split; [reflexivity|]);
    auto using snapshot_nv12_ok, snapshot_yv12_ok, snapshot_nv16_ok.
Qed.

(** The preview and the postview function. *)
Lemma display_ok venus f d bp : yuv_supported CAM_STREAM_TYPE_PREVIEW f = true -> frame_wf bp -> dim_ok d ->
  (f = CAM_FORMAT_YUV_420_NV21_ADRENO -> (2 | width d)) ->
  (exists fr, mm_stream_calc_offset_preview venus f d bp = (0, fr) /\ yuv_frame_ok d fr) /\
  (exists fr, mm_stream_calc_offset_post_view venus f d bp = (0, fr) /\ yuv_frame_ok d fr).
Proof.
  intros Hsup Hwf Hd Heven. destruct f; try discriminate Hsup; (split; (eexists; split; [reflexivity|]));
    auto using preview_nv12_ok, post_view_nv12_ok, preview_nv21_adreno_ok, preview_yv12_ok, preview_nv16_ok.
Qed.

(** The result of the function that lays out a stream of type [t]: the
    dispatcher sends postview streams to the preview function. *)
Definition laid_out_by venus af (t : cam_stream_type_t) f d pad bp (r : Z * cam_frame_len_offset_t) : Prop :=
  match t with
  | CAM_STREAM_TYPE_PREVIEW => r = mm_stream_calc_offset_preview venus f d bp
  | CAM_STREAM_TYPE_POSTVIEW => r = mm_stream_calc_offset_preview venus f d bp \/ r = mm_stream_calc_offset_post_view venus f d bp
  | CAM_STREAM_TYPE_SNAPSHOT => r = mm_stream_calc_offset_snapshot af f d pad bp
  | CAM_STREAM_TYPE_VIDEO => r = mm_stream_calc_offset_video venus d bp
  | _ => True
  end.

Lemma yuv_laid_out venus af t f d pad bp r : laid_out_by venus af t f d pad bp r -> yuv_supported t f = true ->
  frame_wf bp -> dim_ok d -> pad_ok pad -> (f = CAM_FORMAT_YUV_420_NV21_ADRENO -> (2 | width d)) ->
  exists fr, r = (0, fr) /\ yuv_frame_ok d fr.
Proof.
  intros Hr Hsup Hwf Hd Hpad Heven.
  destruct t; try discriminate Hsup; simpl in Hr; [| |subst r; by apply snapshot_ok].
  - subst r. by apply display_ok.
  - destruct (display_ok venus f d bp) as [H1 H2]; [by destruct f|done..|]. by destruct Hr as [-> | ->].
Qed.

Lemma venus_laid_out venus af t f d pad bp r : laid_out_by venus af t f d pad bp r -> venus_layout venus t f = true ->
  exists v, venus = Some v /\ r = (0, venus_nv12 v d bp).
Proof.
  intros Hr Hsup. destruct venus as [v|]; [|done]. exists v. split; [done|].
  destruct t; try discriminate Hsup; simpl in Hr; try apply bool_decide_eq_true in Hsup as ->; [done| |done]. by destruct Hr as [-> | ->].
Qed.

(** C16: the layouts that [mm_stream_calc_offset] computes are large enough.
    For a preview or postview stream in NV12, NV21, NV21 Adreno (of even
    width), YV12, NV16 or NV61, for a snapshot stream in these formats but the
    Adreno one, and for a reprocess stream fed by such a stream, with image
    sides up to 8192 pixels and paddings that are powers of two up to a page,
    it succeeds, and nothing overflows: the planes hold their rows and fit
    together in the frame, the frame is a whole number of pages, the first
    plane declares the (rotated) image, and in every plane the image that it
    declares, moved by the offsets that it declares, stays inside its rows and
    columns.  With the Venus macros as documented the same holds for NV12
    Venus and for video streams, but that only the luma plane is said to cover
    its image.  Video without Venus, and offline reprocessing, which copies
    the planes it is given, are not covered. *)
Theorem calc_offset_yuv_fits venus af i pad :
  let '(t, d) := layout_of i in
  yuv_supported t (fmt i) || venus_layout venus t (fmt i) = true ->
  (forall v, venus = Some v -> venus_ok v) ->
  frame_wf (buf_planes i) -> dim_ok d -> pad_ok pad ->
  (fmt i = CAM_FORMAT_YUV_420_NV21_ADRENO -> (2 | width d)) ->
  exists f, mm_stream_calc_offset venus af i pad = (0, with_buf_planes i f, f) /\
            frame_holds d f /\ (venus_layout venus t (fmt i) = false -> Forall plane_covers (planes f)).
Proof.
  destruct (layout_of i) as [t d] eqn:Hlay. intros Hsup Hv Hwf Hd Hpad Heven.
  assert (exists r, laid_out_by venus af t (fmt i) d pad (buf_planes i) r /\
    mm_stream_calc_offset venus af i pad = (let '(rc, bp') := r in (rc, with_buf_planes i bp', bp'))) as (r & Hr & ->).
  { unfold mm_stream_calc_offset, mm_stream_calc_offset_postproc, layout_of in *. eexists. split; [|reflexivity].
    destruct (stream_type i), (reprocess_config i) as [u|]; injection Hlay as <- <-; simpl; auto. destruct u; simpl; auto. }
  destruct (venus_layout venus t (fmt i)) eqn:Ev.
  - destruct (venus_laid_out _ _ _ _ _ _ _ _ Hr Ev) as (v & -> & ->). exists (venus_nv12 v d (buf_planes i)). split; [done|].
    split; [|done]. by apply venus_nv12_ok; [apply Hv|..].
  - rewrite orb_false_r in Hsup. destruct (yuv_laid_out _ _ _ _ _ _ _ _ Hr Hsup Hwf Hd Hpad Heven) as (f & -> & Hf).
    exists f. split; [done|]. destruct (yuv_frame_holds _ _ Hf). auto.
Qed.

(** A 1080p NV21 preview stream rotated by a quarter turn, page padding. *)
Definition sample_info (t : cam_stream_type_t) (f : cam_format_t) : cam_stream_info_t :=
  {| stream_svr_id := 0; stream_type := t; fmt := f; dim := {| width := 1920; height := 1080 |};
     buf_planes := zero_frame;
     pp_config := {| feature_mask := CAM_QCOM_FEATURE_ROTATION; rotation := ROTATE_90 |};
     reprocess_config := CAM_ONLINE_REPROCESS_TYPE CAM_STREAM_TYPE_PREVIEW |}.

Definition sample_padding : cam_padding_info_t :=
  {| width_padding := 32; height_padding := 32; plane_padding := 4096 |}.

Lemma sample_padding_ok : pad_ok sample_padding.
Proof. repeat split; [exists 5|exists 5|exists 12]; (split; [lia|reflexivity]). Qed.

(** Every raw layout has one plane whose length holds the whole image at the
    density documented for its packing (for MIPI 10-bit the documented width
    restriction to multiples of four pixels is needed), inside a page-aligned
    frame. *)
Theorem calc_offset_raw_fits f d pad bp b p :
  raw_density f = Some (b, p) -> dim_ok d -> pad_ok pad -> frame_wf bp ->
  ((b, p) = (5, 4) -> (4 | width d)) ->
  exists fr n, mm_stream_calc_offset_raw f d pad bp = (0, fr) /\
               raw_frame_ok n fr /\ width d * height d * b <= n * p.
Proof.
  intros Hden Hd Hpad Hwf H54.
  assert (exists fr, mm_stream_calc_offset_raw f d pad bp = (0, fr) /\ image_bytes_fit d b p fr)
    as (fr & He & n & Hok & Hle).
  { destruct f; simplify_eq/=; (eexists; split; [reflexivity|]);
      auto using raw_yuv_8bit_ok, raw_8bpp_ok, raw_qcom_10bpp_ok, raw_qcom_12bpp_ok,
        raw_mipi_10bpp_ok, raw_mipi_12bpp_ok, raw_plain16_ok. }
  by exists fr, n.
Qed.

Lemma calc_offset_raw_fits_witness :
  exists fr n, mm_stream_calc_offset_raw CAM_FORMAT_BAYER_MIPI_RAW_10BPP_RGGB
                 {| width := 4208; height := 3120 |} sample_padding zero_frame = (0, fr) /\
               raw_frame_ok n fr /\ 4208 * 3120 * 5 <= n * 4.
Proof.
  apply (calc_offset_raw_fits CAM_FORMAT_BAYER_MIPI_RAW_10BPP_RGGB
           {| width := 4208; height := 3120 |} sample_padding zero_frame 5 4).
  - reflexivity.
  - split; simpl; lia.
  - apply sample_padding_ok.
  - reflexivity.
  - intros _. exists 1052. reflexivity.
Defined.

(** With the Venus macros behaving as documented, a video stream's luma
    plane covers the image and both planes fit the buffer size the macro
    gives. *)
Theorem video_venus_fits v d bp :
  venus_ok v -> dim_ok d -> frame_wf bp ->
  exists f, mm_stream_calc_offset_video (Some v) d bp = (0, f) /\ frame_holds d f /\ total_len (planes f) = frame_len f.
Proof. intros Hv Hd Hwf. eexists. split; [reflexivity|]. by apply venus_nv12_ok. Qed.

(** Strides of 128 bytes and scanlines of 32 and 16 rows, page-aligned size. *)
Definition sample_venus : venus_macros :=
  {| VENUS_Y_STRIDE := fun w => align_up w 128;
     VENUS_Y_SCANLINES := fun h => align_up h 32;
     VENUS_UV_STRIDE := fun w => align_up w 128;
     VENUS_UV_SCANLINES := fun h => align_up ((h + 1) / 2) 16;
     VENUS_BUFFER_SIZE := fun w h =>
       align_up (align_up w 128 * align_up h 32 +
                 align_up w 128 * align_up ((h + 1) / 2) 16) 4096 |}.

Lemma sample_venus_ok : venus_ok sample_venus.
Proof.
  intros w h Hw Hh. simpl.
  pose proof (align_up_ge w 128). pose proof (align_up_lt w 128).
  pose proof (align_up_ge h 32). pose proof (align_up_lt h 32).
  assert (0 <= (h + 1) / 2 <= 4097)
    by (split; [apply Z.div_pos|apply Z.div_le_upper_bound]; lia).
  pose proof (align_up_ge ((h + 1) / 2) 16). pose proof (align_up_lt ((h + 1) / 2) 16).
  set (a := align_up w 128) in *. set (b := align_up h 32) in *.
  set (c := align_up ((h + 1) / 2) 16) in *.
  pose proof (align_up_ge (a * b + a * c) 4096). pose proof (align_up_lt (a * b + a * c) 4096).
  split; [lia|split; [lia|split; [lia|split; [lia|split; [nia|apply align_up_divide]]]]].
Qed.

(** A snapshot on an A-family chip, where the rows that pad the height come
    first: 8 of them for 1080 rows. *)
Definition snapshot_info : cam_stream_info_t :=
  {| stream_svr_id := 0; stream_type := CAM_STREAM_TYPE_SNAPSHOT; fmt := CAM_FORMAT_YUV_420_NV12;
     dim := {| width := 1920; height := 1080 |}; buf_planes := zero_frame;
     pp_config := {| feature_mask := 0; rotation := ROTATE_0 |};
     reprocess_config := CAM_ONLINE_REPROCESS_TYPE CAM_STREAM_TYPE_PREVIEW |}.

Lemma calc_offset_yuv_fits_witness :
  (exists f, mm_stream_calc_offset None false
               (sample_info CAM_STREAM_TYPE_PREVIEW CAM_FORMAT_YUV_420_NV21) sample_padding =
             (0, with_buf_planes (sample_info CAM_STREAM_TYPE_PREVIEW CAM_FORMAT_YUV_420_NV21) f, f) /\
             frame_holds {| width := 1080; height := 1920 |} f) /\
  (exists f, mm_stream_calc_offset None true snapshot_info sample_padding = (0, with_buf_planes snapshot_info f, f) /\
             Forall plane_covers (planes f)) /\
  (exists f, mm_stream_calc_offset (Some sample_venus) false
               (sample_info CAM_STREAM_TYPE_VIDEO CAM_FORMAT_YUV_420_NV12_VENUS) sample_padding =
             (0, with_buf_planes (sample_info CAM_STREAM_TYPE_VIDEO CAM_FORMAT_YUV_420_NV12_VENUS) f, f) /\
             frame_holds {| width := 1080; height := 1920 |} f) /\
  map mp_offset_y (planes (mm_stream_calc_offset None true snapshot_info sample_padding).2) = [8; 8].
Proof.
  split; [|split; [|split; [|reflexivity]]].
  - destruct (calc_offset_yuv_fits None false
      (sample_info CAM_STREAM_TYPE_PREVIEW CAM_FORMAT_YUV_420_NV21) sample_padding) as (f & E & H & _);
      [reflexivity|done|reflexivity|split; simpl; lia|apply sample_padding_ok|discriminate|]. exists f. split; [exact E|exact H].
  - destruct (calc_offset_yuv_fits None true snapshot_info sample_padding) as (f & E & _ & H);
      [reflexivity|done|reflexivity|split; simpl; lia|apply sample_padding_ok|discriminate|]. exists f. split; [exact E|by apply H].
  - destruct (calc_offset_yuv_fits (Some sample_venus) false
      (sample_info CAM_STREAM_TYPE_VIDEO CAM_FORMAT_YUV_420_NV12_VENUS) sample_padding) as (f & E & H & _);
      [reflexivity|intros v [= <-]; apply sample_venus_ok|reflexivity|split; simpl; lia|apply sample_padding_ok|discriminate|].
    exists f. split; [exact E|exact H].
Defined.

Lemma video_venus_fits_witness :
  exists f, mm_stream_calc_offset_video (Some sample_venus) {| width := 1920; height := 1080 |}
              zero_frame = (0, f) /\ frame_holds {| width := 1920; height := 1080 |} f /\ total_len (planes f) = frame_len f.
Proof.
  apply (video_venus_fits sample_venus {| width := 1920; height := 1080 |} zero_frame).
  - apply sample_venus_ok.
  - split; simpl; lia.
  - reflexivity.
Defined.

(** [mm_stream_calc_offset] fails exactly for the stream type and format
    pairs without a layout; on failure it returns -1 and changes neither the
    stream info nor the planes it hands on, and on success the planes handed
    on are those of the stream info. *)
Theorem calc_offset_status venus af i pad :
  let '(rc, i', f) := mm_stream_calc_offset venus af i pad in
  f = buf_planes i' /\
  (if calc_supported venus i then rc = 0 else rc = -1 /\ i' = i).
Proof.
  unfold mm_stream_calc_offset, calc_supported, type_supported, mm_stream_calc_offset_postproc,
    mm_stream_calc_offset_snapshot, mm_stream_calc_offset_video.
  destruct i as [sid t fm dm bp pp rp]; simpl.
  destruct (snapshot_geometry _ _ _) as [[[s l] x] y].
  destruct t; simpl; try (split; reflexivity || (split; reflexivity));
    try (destruct venus; destruct fm; (split; [reflexivity|]); simpl; auto; fail).
  destruct rp as [t|]; simpl; [|done].
  destruct (snapshot_geometry _ _ _) as [[[s' l'] x'] y'].
  destruct t; simpl; try (split; reflexivity || (split; reflexivity));
    destruct venus; destruct fm; (split; [reflexivity|]); simpl; auto.
Qed.

(** A stream turned by a quarter (90 or 270 degrees, with the rotation
    feature on) gets the layout of the transposed image: the same planes as an
    unrotated stream whose width and height are exchanged. *)
Theorem calc_offset_rotation venus af i pad :
  Z.testbit (feature_mask (pp_config i)) 3 = true ->
  rotation (pp_config i) = ROTATE_90 \/ rotation (pp_config i) = ROTATE_270 ->
  stream_type i <> CAM_STREAM_TYPE_OFFLINE_PROC ->
  let j := {| stream_svr_id := stream_svr_id i; stream_type := stream_type i; fmt := fmt i;
              dim := {| width := height (dim i); height := width (dim i) |};
              buf_planes := buf_planes i;
              pp_config := {| feature_mask := 0; rotation := ROTATE_0 |};
              reprocess_config := reprocess_config i |} in
  (mm_stream_calc_offset venus af i pad).1.1 = (mm_stream_calc_offset venus af j pad).1.1 /\
  (mm_stream_calc_offset venus af i pad).2 = (mm_stream_calc_offset venus af j pad).2.
Proof.
  intros Hbit Hrot Htype. cbv zeta.
  assert (Hmask : Z.land (feature_mask (pp_config i)) CAM_QCOM_FEATURE_ROTATION <> 0).
  { intros Hz. assert (Hc : Z.testbit (Z.land (feature_mask (pp_config i)) CAM_QCOM_FEATURE_ROTATION) 3 = false)
      by (rewrite Hz; reflexivity).
    rewrite Z.land_spec, Hbit in Hc. discriminate. }
  assert (Hd : rotated_dim i = {| width := height (dim i); height := width (dim i) |}).
  { unfold rotated_dim. apply Z.eqb_neq in Hmask. rewrite Hmask; simpl.
    by destruct Hrot as [-> | ->]. }
  unfold mm_stream_calc_offset at 1 3. rewrite Hd.
  unfold mm_stream_calc_offset, rotated_dim. simpl.
  destruct (stream_type i); try done; simpl; unfold mm_stream_calc_offset_snapshot;
    by repeat case_match.
Qed.

Lemma calc_offset_rotation_witness :
  (mm_stream_calc_offset None false
     (sample_info CAM_STREAM_TYPE_SNAPSHOT CAM_FORMAT_YUV_420_NV12) sample_padding).2 =
  (mm_stream_calc_offset None false
     {| stream_svr_id := 0; stream_type := CAM_STREAM_TYPE_SNAPSHOT;
        fmt := CAM_FORMAT_YUV_420_NV12; dim := {| width := 1080; height := 1920 |};
        buf_planes := zero_frame; pp_config := {| feature_mask := 0; rotation := ROTATE_0 |};
        reprocess_config := CAM_ONLINE_REPROCESS_TYPE CAM_STREAM_TYPE_PREVIEW |}
     sample_padding).2.
Proof.
  apply (calc_offset_rotation None false
           (sample_info CAM_STREAM_TYPE_SNAPSHOT CAM_FORMAT_YUV_420_NV12) sample_padding).
  - reflexivity.
  - left. reflexivity.
  - discriminate.
Defined.

(** Without Venus the video layout records the chroma height as the height
    of the luma plane (its last two assignments go to plane 0) and leaves the
    width and height of the chroma plane as they were. *)
Theorem video_no_venus_planes d bp :
  frame_wf bp ->
  exists f p0 p1, mm_stream_calc_offset_video None d bp = (0, f) /\ planes f = [p0; p1] /\
    mp_height p0 = height d /i 2 /\ mp_scanline p0 = height d /\
    (mp_width p1, mp_height p1) =
      (mp_width (nth 1 (mp bp) zero_plane), mp_height (nth 1 (mp bp) zero_plane)).
Proof.
  intros Hwf. do 3 eexists. split; [reflexivity|]. unfold video_no_venus. cbv zeta.
  split; [apply (planes_set bp Hwf _ _ zero_plane)|]. simpl. done.
Qed.

Lemma video_no_venus_planes_witness :
  exists f p0 p1,
    mm_stream_calc_offset_video None {| width := 1280; height := 720 |} zero_frame = (0, f) /\
    planes f = [p0; p1] /\ mp_height p0 = 720 /i 2 /\ mp_scanline p0 = 720 /\
    (mp_width p1, mp_height p1) = (0, 0).
Proof.
  apply (video_no_venus_planes {| width := 1280; height := 720 |} zero_frame). reflexivity.
Defined.
