(* ===== verification/CamQueue.v ===== *)
(** * The intrusive list and queue of [cam_list.h] and [cam_queue.h]

    Nodes live in a heap of cells linked in both directions; the list head is
    a dummy cell of the ring.  The operations are the statements of the inline
    functions on that heap; dereferencing an address with no cell gives
    [None].  The theorems say that on a well-formed ring no operation
    dereferences a bad pointer and each acts on the sequence of data as the
    list operation it stands for, which is the view the other components
    use. *)

From Stdlib Require Import Lia.
From stdpp Require Import list gmap.
From S2P Require Import Prelude.

Section Queue.

(** The type of the [void *data] payloads. *)
Context {A : Type}.

Abbreviation loc := Z.

(** [cam_node_t]: the embedded [struct cam_list] and the data pointer. *)
Record cam_node_t := { next : loc; prev : loc; data : option A }.

Abbreviation heap := (gmap Z cam_node_t).

Definition set_next (p v : loc) (h : heap) : option heap :=
  n ← h !! p; Some (<[p := {| next := v; prev := prev n; data := data n |}]> h).

Definition set_prev (p v : loc) (h : heap) : option heap :=
  n ← h !! p; Some (<[p := {| next := next n; prev := v; data := data n |}]> h).

(** ** [cam_list.h] *)

Definition cam_list_init (ptr : loc) (h : heap) : option heap :=
  h ← set_next ptr ptr h; set_prev ptr ptr h.

Definition cam_list_add_tail_node (item head : loc) (h : heap) : option heap :=
  nh ← h !! head;
  let prv := prev nh in
  h ← set_prev head item h;
  h ← set_next item head h;
  h ← set_prev item prv h;
  set_next prv item h.

Definition cam_list_insert_before_node (item node : loc) (h : heap) : option heap :=
  h ← set_next item node h;
  nn ← h !! node;
  h ← set_prev item (prev nn) h;
  ni ← h !! item;
  h ← set_next (prev ni) item h;
  set_prev node item h.

Definition cam_list_del_node (ptr : loc) (h : heap) : option heap :=
  np ← h !! ptr;
  let prv := prev np in
  let nxt := next np in
  h ← set_prev nxt prv h;
  np ← h !! ptr;
  h ← set_next prv (next np) h;
  h ← set_next ptr ptr h;
  set_prev ptr ptr h.

(** ** Rings *)

Definition nx (h : heap) (p : loc) : option loc := next <$> h !! p.
Definition pv (h : heap) (p : loc) : option loc := prev <$> h !! p.
Definition dt (h : heap) (p : loc) : option (option A) := data <$> h !! p.

Definition link (h : heap) (a b : loc) : Prop := nx h a = Some b /\ pv h b = Some a.

(** From [a], through the cells [l] in order, to [b]. *)
Fixpoint seg (h : heap) (a : loc) (l : list loc) (b : loc) : Prop :=
  match l with
  | [] => link h a b
  | x :: l => link h a x /\ seg h x l b
  end.

Definition ring (h : heap) (hd : loc) (l : list loc) : Prop :=
  NoDup (hd :: l) /\ seg h hd l hd.

(** ** Field updates *)

Lemma set_next_spec p v h :
  p ∈ dom h ->
  exists h', set_next p v h = Some h' /\ dom h' = dom h /\
    (forall x, nx h' x = if decide (x = p) then Some v else nx h x) /\
    (forall x, pv h' x = pv h x) /\ (forall x, dt h' x = dt h x).
Proof.
  intros [n Hp]%elem_of_dom. unfold set_next, nx, pv, dt. rewrite Hp. simpl.
  eexists. split; [reflexivity|]. split; [apply dom_insert_lookup_L; by eexists|].
  repeat split; intros x; (destruct (decide (x = p)) as [->|?];
    [rewrite lookup_insert_eq, ?Hp|rewrite lookup_insert_ne]); done.
Qed.

Lemma set_prev_spec p v h :
  p ∈ dom h ->
  exists h', set_prev p v h = Some h' /\ dom h' = dom h /\
    (forall x, nx h' x = nx h x) /\
    (forall x, pv h' x = if decide (x = p) then Some v else pv h x) /\
    (forall x, dt h' x = dt h x).
Proof.
  intros [n Hp]%elem_of_dom. unfold set_prev, nx, pv, dt. rewrite Hp. simpl.
  eexists. split; [reflexivity|]. split; [apply dom_insert_lookup_L; by eexists|].
  repeat split; intros x; (destruct (decide (x = p)) as [->|?];
    [rewrite lookup_insert_eq, ?Hp|rewrite lookup_insert_ne]); done.
Qed.

Lemma pv_lookup h p u : pv h p = Some u -> exists n, h !! p = Some n /\ prev n = u.
Proof. unfold pv. destruct (h !! p) as [n|]; [|done]. intros [= <-]. by exists n. Qed.

Lemma nx_lookup h p u : nx h p = Some u -> exists n, h !! p = Some n /\ next n = u.
Proof. unfold nx. destruct (h !! p) as [n|]; [|done]. intros [= <-]. by exists n. Qed.

Lemma pv_dom h p u : pv h p = Some u -> p ∈ dom h.
Proof. intros (n & Hn & _)%pv_lookup. apply elem_of_dom. by exists n. Qed.

Lemma nx_dom h p u : nx h p = Some u -> p ∈ dom h.
Proof. intros (n & Hn & _)%nx_lookup. apply elem_of_dom. by exists n. Qed.

(** [h'] is [h] with [item] spliced between the neighbours [u] and [v]. *)
Definition spliced (h h' : heap) (item u v : loc) : Prop :=
  dom h' = dom h /\
  (forall x, nx h' x = if decide (x = u) then Some item
                       else if decide (x = item) then Some v else nx h x) /\
  (forall x, pv h' x = if decide (x = v) then Some item
                       else if decide (x = item) then Some u else pv h x) /\
  (forall x, dt h' x = dt h x).

(** [h'] is [h] with [p] unlinked from its neighbours [u] and [v]. *)
Definition unlinked (h h' : heap) (p u v : loc) : Prop :=
  dom h' = dom h /\
  (forall x, nx h' x = if decide (x = p) then Some p
                       else if decide (x = u) then Some v else nx h x) /\
  (forall x, pv h' x = if decide (x = p) then Some p
                       else if decide (x = v) then Some u else pv h x) /\
  (forall x, dt h' x = dt h x).

Lemma add_tail_spliced item hd u h :
  item ∈ dom h -> u ∈ dom h -> pv h hd = Some u -> item <> hd ->
  exists h', cam_list_add_tail_node item hd h = Some h' /\ spliced h h' item u hd.
Proof.
  intros Hi Hu Hp Hne. pose proof (pv_dom _ _ _ Hp) as Hh.
  destruct (pv_lookup _ _ _ Hp) as (n & Hn & Hpn).
  unfold cam_list_add_tail_node. rewrite Hn. simpl. rewrite Hpn.
  destruct (set_prev_spec hd item h Hh) as (h1 & -> & D1 & N1 & P1 & T1). simpl.
  destruct (set_next_spec item hd h1) as (h2 & -> & D2 & N2 & P2 & T2); [congruence|]. simpl.
  destruct (set_prev_spec item u h2) as (h3 & -> & D3 & N3 & P3 & T3); [congruence|]. simpl.
  destruct (set_next_spec u item h3) as (h4 & -> & D4 & N4 & P4 & T4); [congruence|].
  exists h4. split; [done|]. split; [congruence|]. split; [|split]; intros x.
  - rewrite N4, N3, N2, N1. done.
  - rewrite P4, P3, P2, P1. repeat case_decide; congruence.
  - by rewrite T4, T3, T2, T1.
Qed.

Lemma insert_before_spliced item v u h :
  item ∈ dom h -> u ∈ dom h -> pv h v = Some u -> item <> v ->
  exists h', cam_list_insert_before_node item v h = Some h' /\ spliced h h' item u v.
Proof.
  intros Hi Hu Hp Hne. pose proof (pv_dom _ _ _ Hp) as Hv.
  unfold cam_list_insert_before_node.
  destruct (set_next_spec item v h Hi) as (h1 & -> & D1 & N1 & P1 & T1). simpl.
  destruct (pv_lookup h1 v u) as (n & Hn & Hpn); [by rewrite P1|]. rewrite Hn. simpl. rewrite Hpn.
  destruct (set_prev_spec item u h1) as (h2 & -> & D2 & N2 & P2 & T2); [congruence|]. simpl.
  destruct (pv_lookup h2 item u) as (m & Hm & Hpm); [by rewrite P2, decide_True|].
  rewrite Hm. simpl. rewrite Hpm.
  destruct (set_next_spec u item h2) as (h3 & -> & D3 & N3 & P3 & T3); [congruence|]. simpl.
  destruct (set_prev_spec v item h3) as (h4 & -> & D4 & N4 & P4 & T4); [congruence|].
  exists h4. split; [done|]. split; [congruence|]. split; [|split]; intros x.
  - rewrite N4, N3, N2, N1. done.
  - rewrite P4, P3, P2, P1. done.
  - by rewrite T4, T3, T2, T1.
Qed.

Lemma del_node_unlinked p u v h :
  nx h p = Some v -> pv h p = Some u -> u ∈ dom h -> v ∈ dom h ->
  exists h', cam_list_del_node p h = Some h' /\ unlinked h h' p u v.
Proof.
  intros Hn Hp Hu Hv. pose proof (pv_dom _ _ _ Hp) as Hd.
  destruct (pv_lookup _ _ _ Hp) as (n & Hl & Hpn).
  assert (next n = v) by (unfold nx in Hn; rewrite Hl in Hn; by injection Hn).
  unfold cam_list_del_node. rewrite Hl. simpl. rewrite Hpn, H.
  destruct (set_prev_spec v u h Hv) as (h1 & -> & D1 & N1 & P1 & T1). simpl.
  destruct (nx_lookup h1 p v) as (m & Hm & Hnm); [by rewrite N1|]. rewrite Hm. simpl. rewrite Hnm.
  destruct (set_next_spec u v h1) as (h2 & -> & D2 & N2 & P2 & T2); [congruence|]. simpl.
  destruct (set_next_spec p p h2) as (h3 & -> & D3 & N3 & P3 & T3); [congruence|]. simpl.
  destruct (set_prev_spec p p h3) as (h4 & -> & D4 & N4 & P4 & T4); [congruence|].
  exists h4. split; [done|]. split; [congruence|]. split; [|split]; intros x.
  - rewrite N4, N3, N2, N1. done.
  - rewrite P4, P3, P2, P1. done.
  - by rewrite T4, T3, T2, T1.
Qed.

(** ** Segments *)

Lemma seg_frame h h' a l b :
  (forall x, x ∈ a :: l -> nx h' x = nx h x) ->
  (forall x, x ∈ l ++ [b] -> pv h' x = pv h x) ->
  seg h a l b -> seg h' a l b.
Proof.
  revert a. induction l as [|y l IH]; intros a Hn Hp; simpl; unfold link.
  - rewrite Hn, Hp by set_solver. done.
  - rewrite Hn, Hp by set_solver. intros [? ?]. split; [done|].
    apply IH; [|intros ? ?..|done]; set_solver.
Qed.

Lemma seg_app h a l1 x l2 b :
  seg h a (l1 ++ x :: l2) b <-> seg h a l1 x /\ seg h x l2 b.
Proof.
  revert a. induction l1 as [|y l1 IH]; intros a; simpl; [done|]. rewrite IH. naive_solver.
Qed.

Lemma link_dom h a b : link h a b -> a ∈ dom h /\ b ∈ dom h.
Proof. intros [? ?]. split; [by eapply nx_dom|by eapply pv_dom]. Qed.

Lemma seg_dom h a l b x : seg h a l b -> x ∈ a :: l -> x ∈ dom h.
Proof.
  revert a. induction l as [|y l IH]; intros a; simpl.
  - intros [? _]%link_dom. set_solver.
  - intros [[? _]%link_dom Hs] [->|Hx]%elem_of_cons; [done|]. by apply (IH y).
Qed.

(** The cell before the end of a segment. *)
Lemma seg_last h a l b : seg h a l b -> pv h b = Some (List.last l a).
Proof.
  destruct l as [|u l _] using rev_ind; [by intros [_ ?]|].
  intros [_ [_ Hp]]%seg_app. by rewrite List.last_last.
Qed.

(** The cell after the start of a segment. *)
Lemma seg_first h a l b : seg h a l b -> nx h a = Some (List.hd b l).
Proof. destruct l; simpl; [by intros [? _]|by intros [[? _] _]]. Qed.

(** ** Splicing and unlinking on rings *)

(** [l1] is empty after [a], or ends in its last cell. *)
Lemma last_cases (a : loc) l1 :
  (l1 = [] /\ List.last l1 a = a) \/ exists l u, l1 = l ++ [u] /\ List.last l1 a = u.
Proof.
  destruct l1 as [|u l] using rev_ind; [by left|right]. exists l, u.
  split; [done|]. apply List.last_last.
Qed.

Lemma last_in (a : loc) l1 : List.last l1 a ∈ a :: l1.
Proof. destruct (last_cases a l1) as [[-> ->]|(l & u & -> & ->)]; set_solver. Qed.

Lemma hd_in (a : loc) l2 : List.hd a l2 ∈ l2 ++ [a].
Proof. destruct l2; set_solver. Qed.

Lemma ring_nodup_in h hd l1 item l2 :
  ring h hd (l1 ++ l2) -> item ∉ hd :: l1 ++ l2 -> NoDup (hd :: l1 ++ item :: l2).
Proof.
  intros [[Hh Hnd]%NoDup_cons _] Hni. apply NoDup_cons. split; [set_solver|].
  rewrite <- Permutation_middle. apply NoDup_cons. set_solver.
Qed.

Lemma ring_splice h h' hd l1 l2 item :
  ring h hd (l1 ++ l2) -> item ∉ hd :: l1 ++ l2 ->
  spliced h h' item (List.last l1 hd) (List.hd hd l2) ->
  ring h' hd (l1 ++ item :: l2).
Proof.
  intros Hring Hni (_ & Hn & Hp & _).
  split; [by eapply ring_nodup_in|]. destruct Hring as [Hnd Hseg].
  apply NoDup_cons in Hnd as [Hh (Hnd1 & Hdis & Hnd2)%NoDup_app].
  pose proof (last_in hd l1) as Hlast. pose proof (hd_in hd l2) as Hhd.
  apply seg_app. split.
  - assert (item <> List.hd hd l2) by (intros ->; set_solver +Hni Hhd).
    destruct (last_cases hd l1) as [[-> Hu]|(l & u & -> & Hu)]; rewrite Hu in *.
    + split; [by rewrite Hn, decide_True|by rewrite Hp, decide_False, decide_True].
    + rewrite <- app_assoc in Hseg. apply seg_app in Hseg as [Hs _].
      apply NoDup_app in Hnd1 as (Hndl & Hul & _).
      assert (u ∉ hd :: l) by set_solver +Hul Hh.
      assert (forall x, x ∈ l ++ [u] -> x <> List.hd hd l2).
      { intros x Hx E. rewrite <- E in Hhd. apply elem_of_app in Hhd as [Hin|Hin].
        - by apply (Hdis x).
        - apply list_elem_of_singleton in Hin as ->. set_solver +Hh Hx. }
      apply seg_app. split.
      * eapply seg_frame; [..|exact Hs]; intros x Hx.
        -- rewrite Hn, !decide_False; [done|set_solver +Hx Hni|set_solver +Hx H0].
        -- rewrite Hp, !decide_False; [done|set_solver +Hx Hni|by apply H1].
      * split; [by rewrite Hn, decide_True|].
        rewrite Hp, decide_False, decide_True by (done || (apply H1; set_solver +)). done.
  - assert (item <> List.last l1 hd) by (intros ->; set_solver +Hni Hlast).
    assert (seg h (List.last l1 hd) l2 hd).
    { destruct (last_cases hd l1) as [[-> Hu]|(l & u & -> & Hu)]; rewrite Hu; [done|].
      rewrite <- app_assoc in Hseg. by apply seg_app in Hseg as [_ ?]. }
    destruct l2 as [|v l2]; simpl in *.
    + split; [by rewrite Hn, decide_False, decide_True|by rewrite Hp, decide_True].
    + destruct H0 as [_ Hs]. apply NoDup_cons in Hnd2 as [Hv _].
      split; [split; [by rewrite Hn, decide_False, decide_True|by rewrite Hp, decide_True]|].
      eapply seg_frame; [..|exact Hs]; intros x Hx.
      * rewrite Hn, !decide_False; [done|set_solver +Hx Hni|].
        intros E. rewrite <- E in Hlast.
        apply elem_of_cons in Hlast as [->|Hl]; [set_solver +Hh Hx|set_solver +Hdis Hl Hx].
      * rewrite Hp, !decide_False; [done|set_solver +Hx Hni|set_solver +Hx Hv Hh].
Qed.

Lemma ring_unlink h h' hd l1 p l2 :
  ring h hd (l1 ++ p :: l2) ->
  unlinked h h' p (List.last l1 hd) (List.hd hd l2) ->
  ring h' hd (l1 ++ l2).
Proof.
  intros [Hnd Hseg] (_ & Hn & Hp & _).
  apply NoDup_cons in Hnd as [Hh (Hnd1 & Hdis & [Hpl Hnd2]%NoDup_cons)%NoDup_app].
  pose proof (last_in hd l1) as Hlast. pose proof (hd_in hd l2) as Hhd.
  assert (Hpu : List.last l1 hd <> p).
  { intros E. rewrite E in Hlast. apply elem_of_cons in Hlast as [?|?]; set_solver +Hh Hdis H. }
  assert (Hpv : List.hd hd l2 <> p).
  { intros E. rewrite E in Hhd. apply elem_of_app in Hhd as [?|?]; set_solver +Hh Hpl H. }
  split.
  { apply NoDup_cons. split; [set_solver +Hh|]. apply NoDup_app.
    split; [done|]. split; [set_solver +Hdis|done]. }
  apply seg_app in Hseg as [Hpre Hpost].
  assert (Hlink : link h' (List.last l1 hd) (List.hd hd l2)).
  { split; [rewrite Hn|rewrite Hp]; rewrite decide_False, decide_True by done; done. }
  assert (Hpost' : match l2 with [] => True | v :: l2 => seg h' v l2 hd end).
  { destruct l2 as [|v l2]; [done|]. destruct Hpost as [_ Hs]. apply NoDup_cons in Hnd2 as [Hv _].
    simpl in *. eapply seg_frame; [..|exact Hs]; intros x Hx.
    - rewrite Hn, !decide_False; [done| |set_solver +Hx Hpl].
      intros E. rewrite <- E in Hlast.
        apply elem_of_cons in Hlast as [->|Hl]; [set_solver +Hh Hx|set_solver +Hdis Hl Hx].
    - rewrite Hp, !decide_False; [done|set_solver +Hx Hv Hh|set_solver +Hx Hpl Hh]. }
  destruct (last_cases hd l1) as [[-> Hu]|(l & u & -> & Hu)]; rewrite Hu in *.
  - destruct l2; simpl in *; done.
  - rewrite <- app_assoc. apply seg_app. apply seg_app in Hpre as [Hs _].
    apply NoDup_app in Hnd1 as (Hndl & Hul & _). split.
    + eapply seg_frame; [..|exact Hs]; intros x Hx.
      * rewrite Hn, !decide_False; [done|set_solver +Hx Hul Hh|set_solver +Hx Hdis Hh].
      * rewrite Hp, !decide_False; [done| |set_solver +Hx Hdis].
        intros E. rewrite <- E in Hhd. apply elem_of_app in Hhd as [Hin|Hin].
        -- apply (Hdis x); [done|]. set_solver +Hin.
        -- apply list_elem_of_singleton in Hin as ->. set_solver +Hh Hx.
    + destruct l2; simpl in *; done.
Qed.

(** Rings and payloads depend on their own cells only. *)
Lemma ring_frame h h' hd l :
  (forall x, x ∈ hd :: l -> h' !! x = h !! x) -> ring h hd l -> ring h' hd l.
Proof.
  intros Heq [Hnd Hs]. split; [done|].
  eapply seg_frame; [..|exact Hs]; intros x Hx; unfold nx, pv; rewrite Heq; set_solver.
Qed.

Lemma payloads_frame h h' l (xs : list (option A)) :
  (forall x, x ∈ l -> dt h' x = dt h x) ->
  Forall2 (fun p x => dt h p = Some x) l xs -> Forall2 (fun p x => dt h' p = Some x) l xs.
Proof.
  intros Heq Hf. induction Hf as [|p x l xs Hp Hf IH]; constructor.
  - rewrite Heq by set_solver. done.
  - apply IH. intros y Hy. apply Heq. set_solver.
Qed.

Lemma ring_dom h hd l x : ring h hd l -> x ∈ hd :: l -> x ∈ dom h.
Proof. intros [_ Hs]. by apply seg_dom with hd. Qed.

(** Linking a detached cell before the end of the ring, and before a member. *)
Lemma add_tail_ring h hd l item :
  ring h hd l -> item ∈ dom h -> item ∉ hd :: l ->
  exists h', cam_list_add_tail_node item hd h = Some h' /\ ring h' hd (l ++ [item]) /\
             (forall x, dt h' x = dt h x).
Proof.
  intros Hr Hi Hni. pose proof Hr as [_ Hs].
  pose proof (seg_last _ _ _ _ Hs) as Hp. pose proof (last_in hd l).
  destruct (add_tail_spliced item hd (List.last l hd) h) as (h' & He & Hsp); [done| |done|set_solver|].
  { by apply (ring_dom h hd l). }
  exists h'. split; [done|]. split; [|apply Hsp].
  apply (ring_splice h); [by rewrite app_nil_r|by rewrite app_nil_r|done].
Qed.

Lemma insert_before_ring h hd l1 v l2 item :
  ring h hd (l1 ++ v :: l2) -> item ∈ dom h -> item ∉ hd :: l1 ++ v :: l2 ->
  exists h', cam_list_insert_before_node item v h = Some h' /\
             ring h' hd (l1 ++ item :: v :: l2) /\ (forall x, dt h' x = dt h x).
Proof.
  intros Hr Hi Hni. pose proof Hr as [_ [Hs _]%seg_app].
  pose proof (seg_last _ _ _ _ Hs) as Hp. pose proof (last_in hd l1) as Hl.
  destruct (insert_before_spliced item v (List.last l1 hd) h) as (h' & He & Hsp);
    [done| |done|set_solver|].
  { apply (ring_dom h hd (l1 ++ v :: l2)); [done|]. set_solver +Hl. }
  exists h'. split; [done|]. split; [|apply Hsp]. by apply (ring_splice h).
Qed.

Lemma del_node_ring h hd l1 p l2 :
  ring h hd (l1 ++ p :: l2) ->
  exists h', cam_list_del_node p h = Some h' /\ ring h' hd (l1 ++ l2) /\
             dom h' = dom h /\ (forall x, dt h' x = dt h x).
Proof.
  intros Hr. pose proof Hr as [_ [Hs1 Hs2]%seg_app].
  pose proof (last_in hd l1) as Hl. pose proof (hd_in hd l2) as Hh.
  destruct (del_node_unlinked p (List.last l1 hd) (List.hd hd l2) h) as (h' & He & Hun).
  - by eapply seg_first.
  - by eapply seg_last.
  - apply (ring_dom h hd (l1 ++ p :: l2)); [done|]. set_solver +Hl.
  - apply (ring_dom h hd (l1 ++ p :: l2)); [done|]. set_solver +Hh.
  - exists h'. split; [done|]. split; [by eapply ring_unlink|]. split; apply Hun.
Qed.

(** ** [cam_queue.h]

    [malloc] is a parameter: given the heap it returns the address of a new
    cell or fails.  The queue's mutex makes each function atomic. *)

Context (malloc : heap -> option loc).

Record cam_queue_t := { head : loc; size : Z }.

Definition cam_queue_init (head_addr : loc) (h : heap) : option (cam_queue_t * heap) :=
  h ← cam_list_init head_addr h; Some ({| head := head_addr; size := 0 |}, h).

(** (return code, queue, heap). *)
Definition cam_queue_enq (q : cam_queue_t) (d : option A) (h : heap) :
  option (Z * cam_queue_t * heap) :=
  match malloc h with
  | None => Some (-1, q, h)
  | Some node =>
      let h := <[node := {| next := 0; prev := 0; data := d |}]> h in
      h ← cam_list_add_tail_node node (head q) h;
      Some (0, {| head := head q; size := size q +u 1 |}, h)
  end.

Definition cam_queue_deq (q : cam_queue_t) (h : heap) :
  option (option A * cam_queue_t * heap) :=
  nh ← h !! head q;
  let pos := next nh in
  if pos =? head q then Some (None, q, h)
  else
    h ← cam_list_del_node pos h;
    n ← h !! pos;
    Some (data n, {| head := head q; size := size q -u 1 |}, delete pos h).

(** The loop of [cam_queue_flush]; the payloads it frees are collected. *)
Fixpoint flush_loop (fuel : nat) (q : cam_queue_t) (pos : loc) (h : heap) :
  option (list A * cam_queue_t * heap) :=
  if pos =? head q then Some ([], q, h)
  else
    match fuel with
    | O => None
    | S fuel =>
        n ← h !! pos;
        let nxt := next n in
        h ← cam_list_del_node pos h;
        n ← h !! pos;
        '(freed, q, h) ← flush_loop fuel {| head := head q; size := size q -u 1 |} nxt
                           (delete pos h);
        Some (match data n with Some d => d :: freed | None => freed end, q, h)
    end.

Definition cam_queue_flush (fuel : nat) (q : cam_queue_t) (h : heap) :
  option (list A * cam_queue_t * heap) :=
  nh ← h !! head q;
  '(freed, q, h) ← flush_loop fuel q (next nh) h;
  Some (freed, {| head := head q; size := 0 |}, h).

(** [cam_queue_deinit] flushes; destroying the mutex has no effect on the
    heap. *)
Definition cam_queue_deinit (fuel : nat) (q : cam_queue_t) (h : heap) :
  option (list A * cam_queue_t * heap) := cam_queue_flush fuel q h.

(** ** Queue operations on the sequence of payloads *)

(** The queue [q] holds the payloads [xs], few enough to be counted in 32 bits. *)
Definition queue_rep (q : cam_queue_t) (xs : list (option A)) (h : heap) : Prop :=
  exists l, ring h (head q) l /\ Forall2 (fun p x => dt h p = Some x) l xs /\
            size q = Z.of_nat (length xs) /\ u32_range (size q).

(** The allocator hands out addresses that are not in use. *)
Definition malloc_fresh : Prop := forall h p, malloc h = Some p -> p ∉ dom h.

Lemma cam_queue_enq_rep q xs d h :
  malloc_fresh -> queue_rep q xs h -> Z.of_nat (length xs) < 2 ^ 32 - 1 ->
  match malloc h with
  | None => cam_queue_enq q d h = Some (-1, q, h)
  | Some _ => exists q' h', cam_queue_enq q d h = Some (0, q', h') /\
                            queue_rep q' (xs ++ [d]) h' /\ head q' = head q
  end.
Proof.
  intros Hfresh (l & Hr & Hf & Hsz & _) Hlen. unfold cam_queue_enq.
  destruct (malloc h) as [node|] eqn:Em; [|done]. apply Hfresh in Em.
  assert (Hni : node ∉ head q :: l) by (intros Hin; apply Em; by eapply ring_dom).
  set (h1 := <[node := _]> h).
  assert (Hne : forall x, x ∈ head q :: l -> h1 !! x = h !! x).
  { intros x Hx. apply lookup_insert_ne. set_solver. }
  destruct (add_tail_ring h1 (head q) l node) as (h2 & -> & Hr2 & Hd2);
    [by apply (ring_frame h)|unfold h1; set_solver +|done|].
  simpl. do 2 eexists. split; [reflexivity|]. split; [|done]. exists (l ++ [node]). simpl.
  split; [done|]. split.
  - apply Forall2_app; [|constructor; [|constructor]].
    + eapply payloads_frame; [|exact Hf]. intros x Hx. rewrite Hd2. unfold dt.
      rewrite Hne; [done|set_solver].
    + rewrite Hd2. unfold dt, h1. by rewrite lookup_insert_eq.
  - rewrite Hsz, length_app, u32_id; simpl; unfold u32_range; lia.
Qed.

(** Unlinking and freeing the first cell of a non-empty queue. *)
Lemma del_first_rep q h p l x (xs : list (option A)) :
  ring h (head q) (p :: l) ->
  Forall2 (fun p x => dt h p = Some x) (p :: l) (x :: xs) ->
  size q = Z.of_nat (length (x :: xs)) -> u32_range (size q) ->
  exists h1 n, cam_list_del_node p h = Some h1 /\ h1 !! p = Some n /\ data n = x /\
    ring (delete p h1) (head q) l /\
    Forall2 (fun a y => dt (delete p h1) a = Some y) l xs /\
    size q -u 1 = Z.of_nat (length xs) /\ u32_range (size q -u 1).
Proof.
  intros Hr [Hp Hf]%Forall2_cons Hsz Hrg. pose proof Hr as [Hnd _].
  destruct (del_node_ring h (head q) [] p l Hr) as (h1 & He & Hr1 & Hdom & Hd1).
  assert (Hx : dt h1 p = Some x) by (by rewrite Hd1).
  unfold dt in Hx. destruct (h1 !! p) as [n1|] eqn:En; [|done]. injection Hx as Hx.
  apply NoDup_cons in Hnd as [Hh [Hpl _]%NoDup_cons].
  exists h1, n1. repeat (split; [done|]). split; [apply (ring_frame h1); [|done]|split].
  - intros y Hy. apply lookup_delete_ne. set_solver.
  - eapply payloads_frame; [|exact Hf]. intros y Hy. rewrite <- Hd1. unfold dt.
    rewrite lookup_delete_ne; [done|set_solver].
  - simpl in Hsz. unfold u32_range in *. rewrite u32_id; unfold u32_range; lia.
Qed.

Lemma ring_first_ne h hd p l : ring h hd (p :: l) -> p <> hd.
Proof. intros [[Hh _]%NoDup_cons _] ->. set_solver. Qed.

Lemma cam_queue_deq_rep q xs h :
  queue_rep q xs h ->
  exists q' h', cam_queue_deq q h = Some (match xs with [] => None | x :: _ => x end, q', h') /\
                queue_rep q' (tail xs) h' /\ head q' = head q.
Proof.
  intros (l & Hr & Hf & Hsz & Hrg). pose proof Hr as [Hnd Hs]. unfold cam_queue_deq.
  pose proof (seg_first _ _ _ _ Hs) as (n & Hn & Hnx)%nx_lookup. rewrite Hn. simpl. rewrite Hnx.
  destruct l as [|p l], xs as [|x xs]; try (inversion Hf; fail); simpl.
  { rewrite Z.eqb_refl. exists q, h. split; [done|]. split; [by exists []|done]. }
  assert (p <> head q) by (by eapply ring_first_ne). destruct (Z.eqb_spec p (head q)) as [|_]; [done|].
  destruct (del_first_rep q h p l x xs) as (h1 & n1 & -> & Hl & Hx & Hr1 & Hf1 & Hs1 & Hg1); try done.
  simpl. rewrite Hl. simpl. rewrite Hx. do 2 eexists. split; [reflexivity|]. split; [|done].
  by exists l.
Qed.

(** The loop frees every cell and every payload; as many iterations as cells
    are enough. *)
Lemma flush_loop_rep fuel q h l (xs : list (option A)) :
  ring h (head q) l -> Forall2 (fun p x => dt h p = Some x) l xs ->
  size q = Z.of_nat (length xs) -> u32_range (size q) -> (length xs <= fuel)%nat ->
  exists q' h', flush_loop fuel q (List.hd (head q) l) h = Some (omap id xs, q', h') /\
                ring h' (head q) [] /\ head q' = head q.
Proof.
  revert q h l xs. induction fuel as [|fuel IH]; intros q h l xs Hr Hf Hsz Hrg Hfuel;
    (destruct l as [|p l], xs as [|x xs]; try (inversion Hf; fail); simpl in *; try lia);
    rewrite ?Z.eqb_refl; try (by exists q, h; split; [done|split]).
  pose proof Hr as [Hnd Hs]. assert (p <> head q) by (by eapply ring_first_ne).
  destruct (Z.eqb_spec p (head q)) as [|_]; [done|]. destruct Hs as [_ Hs].
  pose proof (seg_first _ _ _ _ Hs) as (n & Hn & Hnx)%nx_lookup. rewrite Hn. simpl. rewrite Hnx.
  destruct (del_first_rep q h p l x xs) as (h1 & n1 & -> & Hl & Hx & Hr1 & Hf1 & Hs1 & Hg1); try done.
  simpl. rewrite Hl. simpl.
  destruct (IH {| head := head q; size := size q -u 1 |} (delete p h1) l xs)
    as (q' & h' & E & Hr' & Hh'); simpl; try done; [lia|].
  simpl in E. rewrite E, Hx. simpl. exists q', h'. by destruct x.
Qed.

Lemma cam_queue_flush_rep fuel q xs h :
  queue_rep q xs h -> (length xs <= fuel)%nat ->
  exists q' h', cam_queue_flush fuel q h = Some (omap id xs, q', h') /\
                queue_rep q' [] h' /\ head q' = head q.
Proof.
  intros (l & Hr & Hf & Hsz & Hrg) Hfuel. pose proof Hr as [_ Hs]. unfold cam_queue_flush.
  pose proof (seg_first _ _ _ _ Hs) as (n & Hn & Hnx)%nx_lookup. rewrite Hn. simpl. rewrite Hnx.
  destruct (flush_loop_rep fuel q h l xs) as (q' & h' & -> & Hr' & Hh'); try done.
  simpl. do 2 eexists. split; [reflexivity|]. split; [|done]. exists []. rewrite Hh'.
  repeat split; simpl; try done; apply Hr'.
Qed.

(** ** Sequences of operations *)

Inductive queue_op := Enq (d : option A) | Deq | Flush.

(** What the operations return, over the heap. *)
Inductive queue_res := REnq (rc : Z) | RDeq (d : option A) | RFlush (freed : list A).

Definition run_op (fuel : nat) (o : queue_op) (q : cam_queue_t) (h : heap) :
  option (queue_res * cam_queue_t * heap) :=
  match o with
  | Enq d => '(rc, q, h) ← cam_queue_enq q d h; Some (REnq rc, q, h)
  | Deq => '(d, q, h) ← cam_queue_deq q h; Some (RDeq d, q, h)
  | Flush => '(l, q, h) ← cam_queue_flush fuel q h; Some (RFlush l, q, h)
  end.

Fixpoint run_ops (fuel : nat) (os : list queue_op) (q : cam_queue_t) (h : heap) :
  option (list queue_res * cam_queue_t * heap) :=
  match os with
  | [] => Some ([], q, h)
  | o :: os =>
      '(r, q, h) ← run_op fuel o q h;
      '(rs, q, h) ← run_ops fuel os q h;
      Some (r :: rs, q, h)
  end.

(** The abstract queue: a list of payloads; an insertion may be refused. *)
Inductive spec_step : queue_op -> list (option A) -> queue_res -> list (option A) -> Prop :=
| spec_enq d xs : spec_step (Enq d) xs (REnq 0) (xs ++ [d])
| spec_enq_nomem d xs : spec_step (Enq d) xs (REnq (-1)) xs
| spec_deq_empty : spec_step Deq [] (RDeq None) []
| spec_deq x xs : spec_step Deq (x :: xs) (RDeq x) xs
| spec_flush xs : spec_step Flush xs (RFlush (omap id xs)) [].

Inductive spec_run : list queue_op -> list (option A) -> list queue_res -> list (option A) -> Prop :=
| spec_nil xs : spec_run [] xs [] xs
| spec_cons o os xs r ys rs zs :
    spec_step o xs r ys -> spec_run os ys rs zs -> spec_run (o :: os) xs (r :: rs) zs.

Lemma run_op_refines fuel o q xs h :
  malloc_fresh -> queue_rep q xs h -> Z.of_nat (length xs) < 2 ^ 32 - 1 -> (length xs <= fuel)%nat ->
  exists r q' h' ys, run_op fuel o q h = Some (r, q', h') /\ spec_step o xs r ys /\
                     queue_rep q' ys h' /\ (length ys <= S (length xs))%nat.
Proof.
  intros Hm Hq Hlen Hfuel. destruct o as [d| |]; simpl.
  - pose proof (cam_queue_enq_rep q xs d h Hm Hq Hlen) as He. destruct (malloc h).
    + destruct He as (q' & h' & -> & Hq' & _). simpl. do 4 eexists.
      split; [done|]. split; [constructor|]. split; [done|]. rewrite length_app. simpl. lia.
    + rewrite He. simpl. do 4 eexists. split; [done|]. split; [constructor|]. split; [done|lia].
  - destruct (cam_queue_deq_rep q xs h Hq) as (q' & h' & -> & Hq' & _). simpl.
    eexists _, q', h', (tail xs). split; [done|]. split; [destruct xs; constructor|].
    split; [done|]. destruct xs; simpl; lia.
  - destruct (cam_queue_flush_rep fuel q xs h Hq Hfuel) as (q' & h' & -> & Hq' & _). simpl.
    do 4 eexists. split; [done|]. split; [constructor|]. split; [done|simpl; lia].
Qed.

(** C23: any sequence of [cam_queue_enq], [cam_queue_deq] and
    [cam_queue_flush] on a well-formed queue runs without following a bad
    pointer, and returns what the same operations return on a FIFO list of
    payloads: elements leave in insertion order, a flush frees exactly the
    queued payloads in order, an insertion is refused only with [-1], and the
    cells left at the end represent the list left at the end. *)
Theorem queue_refines_fifo (Hm : malloc_fresh) fuel os q xs h
  (Hq : queue_rep q xs h)
  (Hlen : Z.of_nat (length xs + length os) < 2 ^ 32)
  (Hfuel : (length xs + length os <= fuel)%nat) :
  exists rs q' h' ys, run_ops fuel os q h = Some (rs, q', h') /\
                      spec_run os xs rs ys /\ queue_rep q' ys h'.
Proof.
  revert q xs h Hq Hlen Hfuel. induction os as [|o os IH]; intros q xs h Hq Hlen Hfuel; simpl in *.
  { do 4 eexists. split; [done|]. split; [constructor|done]. }
  destruct (run_op_refines fuel o q xs h) as (r & q1 & h1 & ys & -> & Hst & Hq1 & Hl1);
    [done|done|lia|lia|]. simpl.
  destruct (IH q1 ys h1) as (rs & q' & h' & zs & -> & Hrun & Hq'); [done|lia|lia|].
  simpl. do 4 eexists. split; [done|]. split; [by econstructor|done].
Qed.

End Queue.

Arguments cam_node_t : clear implicits.
Arguments queue_op : clear implicits.

(** A bump allocator for examples: the address above all in use. *)
Definition bump {A} (h : gmap Z (cam_node_t A)) : option Z :=
  Some (1 + foldr Z.max 0 (elements (dom h))).

Lemma bump_fresh {A} : malloc_fresh (@bump A).
Proof.
  intros h p [= <-] Hin. apply elem_of_elements in Hin.
  assert (forall l x, x ∈ l -> x <= foldr Z.max 0 l) as Hmax.
  { induction l as [|y l IH]; intros x Hx; [set_solver|]. simpl.
    apply elem_of_cons in Hx as [->|Hx]; [lia|]. specialize (IH x Hx). lia. }
  apply Hmax in Hin. lia.
Qed.

(** A queue of numbers whose head cell is at address 4. *)
Definition demo_ops : list (queue_op Z) :=
  [Enq (Some 11); Enq (Some 12); Deq; Enq None; Enq (Some 13); Flush; Deq].

Definition demo_heap : gmap Z (cam_node_t Z) :=
  {[ 4 := {| next := 4; prev := 4; data := None |} ]}.

Lemma queue_refines_fifo_witness :
  (exists rs q' h' ys,
    run_ops bump 7 demo_ops {| head := 4; size := 0 |} demo_heap = Some (rs, q', h') /\
    spec_run demo_ops [] rs ys /\ queue_rep q' ys h') /\
  ('(rs, _, _) ← run_ops bump 7 demo_ops {| head := 4; size := 0 |} demo_heap; Some rs) =
  Some [REnq 0; REnq 0; RDeq (Some 11); REnq 0; REnq 0; RFlush [12; 13]; RDeq None].
Proof.
  split; [|vm_compute; reflexivity].
  apply (queue_refines_fifo bump bump_fresh).
  - exists []. split; [split|]; [apply NoDup_singleton|split; reflexivity|].
    split; [constructor|]. split; [reflexivity|]. split; reflexivity || lia.
  - simpl. lia.
  - simpl. lia.
Defined.

(** Linking a fresh node before a member of the list puts it there and
    nowhere else: the ring then runs through the old nodes in their order with
    the new one before [v], and no payload changes.  Deleting it again gives
    back the ring there was. *)
Theorem insert_before_del_roundtrip {A} (h : gmap Z (cam_node_t A)) hd l1 v l2 item
  (Hr : ring h hd (l1 ++ v :: l2)) (Hi : item ∈ dom h) (Hni : item ∉ hd :: l1 ++ v :: l2) :
  exists h1 h2, cam_list_insert_before_node item v h = Some h1 /\
    ring h1 hd (l1 ++ item :: v :: l2) /\
    cam_list_del_node item h1 = Some h2 /\ ring h2 hd (l1 ++ v :: l2) /\
    (forall x, dt h2 x = dt h x).
Proof.
  destruct (insert_before_ring h hd l1 v l2 item) as (h1 & E1 & R1 & D1); try done.
  destruct (del_node_ring h1 hd l1 item (v :: l2) R1) as (h2 & E2 & R2 & _ & D2).
  exists h1, h2. repeat (split; [done|]). intros x. by rewrite D2, D1.
Qed.

Definition demo_ring : gmap Z (cam_node_t Z) :=
  list_to_map [(4, {| next := 8; prev := 8; data := None |});
               (8, {| next := 4; prev := 4; data := Some 1 |});
               (12, {| next := 0; prev := 0; data := Some 2 |})].

Lemma insert_before_del_roundtrip_witness :
  exists h1 h2, cam_list_insert_before_node 12 8 demo_ring = Some h1 /\
    ring h1 4 [12; 8] /\ cam_list_del_node 12 h1 = Some h2 /\ ring h2 4 [8] /\
    (forall x, dt h2 x = dt demo_ring x).
Proof.
  apply (insert_before_del_roundtrip demo_ring 4 [] 8 [] 12).
  - split; [apply NoDup_cons; split; [set_solver|apply NoDup_singleton]|].
    split; split; reflexivity.
  - apply elem_of_dom. by eexists.
  - set_solver.
Defined.
