(* ===== verification/Env.v ===== *)
(** * The outside world of the camera stack

    Calls that leave the modelled code (system calls, the server on the
    domain socket, the memory table and callbacks of the client) go through
    an environment: what a call returns is a function of everything that
    happened before, and every call is appended to a history.  The history
    records the order of the calls; theorems about ordering are about it. *)

From stdpp Require Import base list numbers strings.
From S2P Require Import Prelude CamTypes StreamOffset.

(** ** Data exchanged with the kernel and the server *)

(** The private controls of [cam_intf.h]. *)
Inductive cam_private_ioctl_enum_t : Set :=
| CAM_PRIV_PARM
| CAM_PRIV_DO_AUTO_FOCUS
| CAM_PRIV_CANCEL_AUTO_FOCUS
| CAM_PRIV_PREPARE_SNAPSHOT
| CAM_PRIV_STREAM_INFO_SYNC
| CAM_PRIV_STREAM_PARM
| CAM_PRIV_START_ZSL_SNAPSHOT
| CAM_PRIV_STOP_ZSL_SNAPSHOT.

(** Pixel format codes of [linux/videodev2.h], by name. *)
Inductive v4l2_pix_fmt : Set :=
| V4L2_PIX_FMT_NV12
| V4L2_PIX_FMT_NV21
| V4L2_PIX_FMT_SBGGR10
| V4L2_PIX_FMT_NV61
| V4L2_PIX_FMT_YUYV
| V4L2_PIX_FMT_YVYU
| V4L2_PIX_FMT_UYVY
| V4L2_PIX_FMT_VYUY
| V4L2_PIX_FMT_NV16
| PIX_FMT_0.

Record v4l2_plane := { pl_length : Z; pl_userptr : Z; pl_data_offset : Z; pl_reserved0 : Z }.

(** [msm_v4l2_format_data]: the payload of [VIDIOC_S_FMT]. *)
Record msm_v4l2_format_data := {
  f_width : Z; f_height : Z; f_pixelformat : v4l2_pix_fmt; f_num_planes : Z;
  f_plane_sizes : list Z
}.

(** The fields of [v4l2_buffer] that [VIDIOC_DQBUF] fills in and the code
    reads; [dq_nv14] is [reserved == NV14 || reserved == NV41]. *)
Record v4l2_dq := {
  dq_index : Z; dq_sequence : Z; dq_sec : Z; dq_usec : Z; dq_nv14 : bool
}.

Inductive ioctl_req : Type :=
| VIDIOC_S_PARM
| VIDIOC_S_FMT (f : msm_v4l2_format_data)
| VIDIOC_REQBUFS (count : Z)
| VIDIOC_QBUF (index : Z) (planes : list v4l2_plane) (len : Z)
| VIDIOC_STREAMON
| VIDIOC_STREAMOFF
| VIDIOC_S_CTRL (id : cam_private_ioctl_enum_t) (value : Z)
| VIDIOC_G_CTRL (id : cam_private_ioctl_enum_t) (value : Z)
| VIDIOC_QUERYCAP
| VIDIOC_SUBSCRIBE_EVENT
| VIDIOC_UNSUBSCRIBE_EVENT
| MEDIA_IOC_DEVICE_INFO
| MEDIA_IOC_ENUM_ENTITIES (id : Z).

(** Buffer kinds of the mapping protocol, as the [uint8_t] they travel in. *)
Definition CAM_MAPPING_BUF_TYPE_CAPABILITY : Z := 0.
Definition CAM_MAPPING_BUF_TYPE_PARM_BUF : Z := 1.
Definition CAM_MAPPING_BUF_TYPE_STREAM_BUF : Z := 2.
Definition CAM_MAPPING_BUF_TYPE_STREAM_INFO : Z := 3.
Definition CAM_MAPPING_BUF_TYPE_OFFLINE_INPUT_BUF : Z := 4.

Record cam_buf_map_type := {
  map_type : Z; map_stream_id : Z; map_frame_idx : Z; map_plane_idx : Z;
  map_cookie : Z; map_fd : Z; map_size : Z
}.

Record cam_buf_unmap_type := {
  unmap_type : Z; unmap_stream_id : Z; unmap_frame_idx : Z; unmap_plane_idx : Z;
  unmap_cookie : Z
}.

Inductive cam_sock_packet_t : Type :=
| CAM_MAPPING_TYPE_FD_MAPPING (buf_map : cam_buf_map_type)
| CAM_MAPPING_TYPE_FD_UNMAPPING (buf_unmap : cam_buf_unmap_type).

(** [mm_camera_buf_def_t], less the [buffer] and [mem_info] pointers of the
    client. *)
Record mm_camera_buf_def_t := {
  b_stream_id : Z;
  b_stream_type : cam_stream_type_t;
  b_buf_idx : Z;
  b_is_uv_subsampled : bool;
  b_ts : Z * Z;
  b_frame_idx : Z;
  b_num_planes : Z;
  b_planes : list v4l2_plane;
  b_fd : Z;
  b_frame_len : Z
}.

(** ** The client

    The memory table of the client may call the mapping operations it is
    handed while it allocates or frees: [client A] is a computation that does
    so and ends with an [A]. *)

Inductive client (A : Type) : Type :=
| CRet (a : A)
| CMap (frame_idx plane_idx fd size : Z) (k : Z -> client A)
| CUnmap (frame_idx plane_idx : Z) (k : Z -> client A).

Arguments CRet {A} a.
Arguments CMap {A} frame_idx plane_idx fd size k.
Arguments CUnmap {A} frame_idx plane_idx k.

(** What [get_bufs] leaves behind its out parameters. *)
Record get_bufs_reply := {
  gb_rc : Z;
  gb_num_bufs : Z;
  gb_reg_flags : list Z;
  gb_bufs : option (list mm_camera_buf_def_t);
  gb_offset : cam_frame_len_offset_t
}.

(** A reference to a stream buffer: the stream's handle and the index in its
    buffer array. *)
Record buf_ref := { br_stream : Z; br_idx : Z }.

#[export] Instance buf_ref_eq_dec : EqDecision buf_ref.
Proof. solve_decision. Defined.

Record mm_camera_super_buf_t := {
  sb_camera_handle : Z; sb_ch_id : Z; sb_num_bufs : Z; sb_bufs : list buf_ref;
  sb_bReadyForPrepareSnapshot : bool
}.

(** The events of the server, one bit each. *)
Definition CAM_EVENT_TYPE_MAP_UNMAP_DONE : Z := 1.
Definition CAM_EVENT_TYPE_AUTO_FOCUS_DONE : Z := 2.
Definition CAM_EVENT_TYPE_ZOOM_DONE : Z := 4.
Definition CAM_EVENT_TYPE_DAEMON_DIED : Z := 8.

Record mm_camera_event_t := { server_event_type : Z; evt_status : Z }.

(** ** Histories *)

(** The threads the channel and its streams start. *)
Inductive thread_id : Set :=
| T_poll
| T_channel_cmd
| T_channel_cb
| T_stream_cmd (stream : Z)
| T_camera_evt.

Inductive ev : Type :=
| EOpen (fd : Z)
| EClose (fd : Z)
| EIoctl (fd : Z) (r : ioctl_req) (rc : Z)
| EDqbuf (fd num_planes rc : Z) (vb : v4l2_dq)
| EMalloc (ok : bool)
| ESend (p : cam_sock_packet_t) (sendfd len : Z)
| EMapDone (success : bool)
| EPipe (rc rfd wfd : Z)
| EPipeWrite (cmd len : Z)
| EThreadCreate (t : thread_id)
| EThreadJoin (t : thread_id)
| EGetBufs (rc : Z)
| EPutBufs (rc : Z)
| EInvalidate (idx rc : Z)
| ECleanInvalidate (idx rc : Z)
| ECallback (cb user_data : Z) (sb : mm_camera_super_buf_t)
| EOpenPath (path : string) (fd : Z)
| ESleep (usec : Z)
| ESocket (fd : Z)
| EConnect (fd : Z) (path : string) (rc : Z)
| EDqevent (fd rc : Z)
| EAppEvent (cb camera_handle : Z) (evt : mm_camera_event_t) (user_data : Z).

(** The newest event is first. *)
Abbreviation history := (list ev).

Class Env := {
  (** build options *)
  VENUS : option venus_macros;
  A_FAMILY : bool;
  (** the kernel *)
  env_open : history -> Z;
  env_ioctl : history -> Z -> ioctl_req -> Z;
  env_extendedmode : history -> Z -> Z;
  env_dqbuf : history -> Z -> Z * v4l2_dq;
  env_pipe : history -> Z * (Z * Z);
  env_write : history -> Z -> Z;
  env_malloc : history -> bool;
  (** the server: what it makes of the shared stream information, and its
      answers on the domain socket *)
  env_sync_info : history -> cam_stream_info_t -> cam_stream_info_t;
  env_send : history -> cam_sock_packet_t -> Z -> Z;
  env_map_done : history -> bool;
  (** the client: memory table and callbacks, by function pointer *)
  env_get_bufs : Z -> history -> cam_frame_len_offset_t -> client get_bufs_reply;
  env_put_bufs : Z -> history -> client Z;
  env_invalidate_buf : Z -> history -> Z -> Z;
  env_clean_invalidate_buf : Z -> history -> Z -> Z;
  (** the buffers a data callback hands back before it returns *)
  env_cb_returns : Z -> history -> mm_camera_super_buf_t -> list mm_camera_buf_def_t
}.

Section Calls.
Context `{E : Env}.

Definition ext {A} (f : history -> A) (e : A -> ev) : M history A := fun tr =>
  Some (f tr, e (f tr) :: tr).

Definition note (e : ev) : M history unit := fun tr => Some (tt, e :: tr).

Definition sys_open : M history Z := ext env_open EOpen.
Definition sys_close (fd : Z) : M history unit := note (EClose fd).
Definition sys_ioctl (fd : Z) (r : ioctl_req) : M history Z :=
  ext (fun tr => env_ioctl tr fd r) (EIoctl fd r).
Definition sys_dqbuf (fd n : Z) : M history (Z * v4l2_dq) :=
  ext (fun tr => env_dqbuf tr fd) (fun r => EDqbuf fd n r.1 r.2).
Definition sys_malloc : M history bool := ext env_malloc EMalloc.
Definition sys_pipe : M history (Z * (Z * Z)) := ext env_pipe (fun r => EPipe r.1 r.2.1 r.2.2).
Definition sys_pipe_write (cmd : Z) : M history Z := ext (fun tr => env_write tr cmd) (EPipeWrite cmd).

(** [VIDIOC_S_CTRL]: whatever the ioctl answers, the caller sees 0 or -1. *)
Definition mm_camera_util_s_ctrl (fd : Z) (id : cam_private_ioctl_enum_t) (value : Z) :
  M history Z :=
  rc ← sys_ioctl fd (VIDIOC_S_CTRL id value);
  mret (if 0 <=? rc then 0 else -1).

Definition mm_camera_util_g_ctrl (fd : Z) (id : cam_private_ioctl_enum_t) (value : Z) :
  M history Z :=
  rc ← sys_ioctl fd (VIDIOC_G_CTRL id value);
  mret (if 0 <=? rc then 0 else -1).

(** [sendmsg] on the domain socket.  Only a positive descriptor is passed on,
    as control data; 0 stands for none. *)
Definition mm_camera_socket_sendmsg (msg : option cam_sock_packet_t) (sendfd : Z) : M history Z :=
  match msg with
  | None => mret (-1)
  | Some p =>
      let control := if 0 <? sendfd then sendfd else 0 in
      ext (fun tr => env_send tr p control) (ESend p control)
  end.

(** Sending a packet and waiting for the server's answer is one operation,
    under [msg_lock] (Mailbox). *)
Definition mm_camera_util_sendmsg (p : cam_sock_packet_t) (sendfd : Z) : M history Z :=
  len ← mm_camera_socket_sendmsg (Some p) sendfd;
  if 0 <? len then
    ok ← ext env_map_done EMapDone;
    mret (if ok : bool then 0 else -1)
  else mret (-1).

End Calls.
