(* ===== verification/DevName.v ===== *)
(** * Device and socket names ([mm_camera.c], [mm_camera_sock.c])

    A camera is found by text: the media device reports the name of a video
    node, [mm_camera_open] builds the path of the node from it and reads the
    node's number back out of the path, and the domain socket of the server
    is named after that number.  The parts of [snprintf] and [sscanf] the
    code relies on are written out here. *)

From Stdlib Require Import ZArith Lia Ascii String.
From stdpp Require Import base strings pretty numbers list.
From S2P Require Import Prelude.

Definition MM_CAMERA_DEV_NAME_LEN : nat := 32.
Definition UNIX_PATH_MAX : nat := 108.

(** What [snprintf] leaves in a buffer of [n] characters: the text without
    what does not fit beside the terminating 0. *)
Definition snprintf (n : nat) (text : string) : string := String.substring 0 (n - 1) text.

(** ** Reading an unsigned number *)

(** [isspace] in the C locale. *)
Definition is_space (c : ascii) : bool :=
  let n := nat_of_ascii c in Nat.eqb n 32 || (Nat.leb 9 n && Nat.leb n 13).

Definition digit (c : ascii) : option Z :=
  let n := Z.of_nat (nat_of_ascii c) in
  if (48 <=? n) && (n <=? 57) then Some (n - 48) else None.

Fixpoint skip_space (s : string) : string :=
  match s with
  | String c s' => if is_space c then skip_space s' else s
  | EmptyString => s
  end.

(** The leading decimal digits of a text as a number, after [acc]. *)
Fixpoint scan_digits (acc : Z) (s : string) : Z :=
  match s with
  | String c s' => match digit c with Some d => scan_digits (10 * acc + d) s' | None => acc end
  | EmptyString => acc
  end.

Definition starts_with_digit (s : string) : bool :=
  match s with String c _ => bool_decide (is_Some (digit c)) | EmptyString => false end.

(** [%u]: white space, a sign, digits; the value is converted with the
    saturation of [strtoumax] and cut to 32 bits.  Nothing without digits. *)
Definition scan_u (s : string) : option Z :=
  let s := skip_space s in
  let '(neg, s) :=
    match s with
    | String "-" s' => (true, s')
    | String "+" s' => (false, s')
    | _ => (false, s)
    end in
  if starts_with_digit s then
    let v := scan_digits 0 s in
    let umax := 2 ^ 64 - 1 in
    Some (u32 (if umax <? v then umax else if neg : bool then - v else v))
  else None.

(** The rest of a text after a given beginning. *)
Fixpoint after_prefix (p s : string) : option string :=
  match p, s with
  | EmptyString, _ => Some s
  | String a p, String b s => if Ascii.eqb a b then after_prefix p s else None
  | String _ _, EmptyString => None
  end.

(** ** The names *)

(** [snprintf(dev_name, sizeof(dev_name), "/dev/%s", ...)]; a null name is
    printed as [(null)]. *)
Definition dev_name (name : option string) : string :=
  snprintf MM_CAMERA_DEV_NAME_LEN ("/dev/" +:+ default "(null)" name).

(** [sscanf(dev_name, "/dev/video%u", &cam_idx)], [cam_idx] being 0 before. *)
Definition dev_index (dev : string) : Z :=
  default 0 (after_prefix "/dev/video" dev ≫= scan_u).

(** [snprintf(sun_path, UNIX_PATH_MAX, "/data/cam_socket%d", cam_id)]: the
    index arrives as an [int]. *)
Definition socket_path (cam_id : Z) : string :=
  snprintf UNIX_PATH_MAX ("/data/cam_socket" +:+ pretty (i32 cam_id)).

(** [snprintf(dev_name, sizeof(dev_name), "/dev/media%d", num_media_devices)]. *)
Definition media_path (num_media_devices : Z) : string :=
  snprintf 32 ("/dev/media" +:+ pretty num_media_devices).

(** ** Reading back what was printed *)

Lemma after_prefix_app p s : after_prefix p (p +:+ s) = Some s.
Proof. induction p as [|a p IH]; [done|]. simpl. by rewrite Ascii.eqb_refl. Qed.

Lemma digit_char d : (d < 10)%N -> digit (pretty_N_char d) = Some (Z.of_N d).
Proof. intros H. assert (Hd : (d = 0 \/ d = 1 \/ d = 2 \/ d = 3 \/ d = 4 \/ d = 5 \/ d = 6 \/ d = 7 \/ d = 8 \/ d = 9)%N) by lia.
  repeat destruct Hd as [-> | Hd]; try reflexivity. by subst. Qed.

Lemma scan_pretty_go x s : forall acc, exists k, 0 <= k /\
  scan_digits acc (pretty_N_go x s) = scan_digits (acc * 10 ^ k + Z.of_N x) s.
Proof.
  revert s. induction (N.lt_wf_0 x) as [x _ IH]. intros s acc.
  destruct (decide (x = 0)%N) as [->|Hx].
  { exists 0. rewrite pretty_N_go_0. split; [done|]. f_equal. lia. }
  rewrite pretty_N_go_step by lia.
  destruct (IH (x `div` 10)%N) with (s := String (pretty_N_char (x `mod` 10)) s) (acc := acc) as (k & Hk & ->).
  { apply N.div_lt; lia. }
  pose proof (N.mod_lt x 10). cbn [scan_digits]. rewrite digit_char by lia.
  exists (k + 1). split; [lia|]. f_equal. rewrite Z.pow_add_r by lia.
  pose proof (N.div_mod x 10). lia.
Qed.

Lemma pretty_go_length k x s : (x < 10 ^ N.of_nat k)%N ->
  (String.length (pretty_N_go x s) <= k + String.length s)%nat.
Proof.
  revert x s. induction k as [|k IH]; intros x s Hx.
  { assert (x = 0%N) as -> by (simpl in Hx; lia). by rewrite pretty_N_go_0. }
  destruct (decide (x = 0)%N) as [->|Hx0]; [rewrite pretty_N_go_0; lia|].
  rewrite pretty_N_go_step by lia.
  pose proof (IH (x `div` 10)%N (String (pretty_N_char (x `mod` 10)) s)) as H. simpl in H.
  rewrite Nat2N.inj_succ, N.pow_succ_r' in Hx.
  assert (x `div` 10 < 10 ^ N.of_nat k)%N by (apply N.Div0.div_lt_upper_bound; lia). specialize (H H0). lia.
Qed.

Lemma snprintf_fits n s : (String.length s < n)%nat -> snprintf n s = s.
Proof.
  unfold snprintf. intros H. assert (Hle : (String.length s <= n - 1)%nat) by lia. clear H. revert Hle.
  generalize (n - 1)%nat as m. induction s as [|c s IH]; intros [|m] H; simpl in *; try done; [lia|].
  rewrite IH by lia. done.
Qed.

Lemma length_sapp (a b : string) : String.length (a +:+ b) = (String.length a + String.length b)%nat.
Proof. induction a as [|c a IH]; [done|]. change (S (String.length (a +:+ b)) = S (String.length a + String.length b)). by rewrite IH. Qed.

(** A decimal number is not mistaken for a sign or white space. *)
Lemma pretty_pos_digit x s : (0 < x)%N -> exists d r, (0 < d < 10)%N /\ pretty_N_go x s = String (pretty_N_char d) r.
Proof.
  revert s. induction (N.lt_wf_0 x) as [x _ IH]. intros s Hx. rewrite pretty_N_go_step by done.
  destruct (decide (x `div` 10 = 0)%N) as [E|E].
  - rewrite E, pretty_N_go_0. exists (x `mod` 10)%N, s. split; [|done].
    pose proof (N.mod_lt x 10 ltac:(done)). pose proof (N.div_mod x 10 ltac:(done)) as D. rewrite E in D. lia.
  - apply IH; [apply N.div_lt; lia|by apply N.neq_0_lt_0].
Qed.

Lemma scan_u_char d r : (d < 10)%N ->
  scan_u (String (pretty_N_char d) r) =
  Some (u32 (let v := scan_digits 0 (String (pretty_N_char d) r) in if 2 ^ 64 - 1 <? v then 2 ^ 64 - 1 else v)).
Proof.
  intros H. assert (Hd : (d = 0 \/ d = 1 \/ d = 2 \/ d = 3 \/ d = 4 \/ d = 5 \/ d = 6 \/ d = 7 \/ d = 8 \/ d = 9)%N) by lia.
  repeat destruct Hd as [-> | Hd]; try reflexivity. by subst.
Qed.

Lemma pretty_Z_pos p : pretty (Zpos p) = pretty_N_go (Npos p) "".
Proof. reflexivity. Qed.

Lemma scan_u_pretty (n : Z) : 0 <= n < 2 ^ 32 -> scan_u (pretty n) = Some n.
Proof.
  intros Hn. destruct n as [|p|p]; [reflexivity| |lia].
  rewrite pretty_Z_pos.
  destruct (pretty_pos_digit (Npos p) "") as (d & r & Hd & E); [lia|]. rewrite E, scan_u_char by lia. rewrite <- E.
  destruct (scan_pretty_go (Npos p) "" 0) as (k & _ & ->). cbn [scan_digits].
  rewrite Z.mul_0_l, Z.add_0_l. change (Z.of_N (N.pos p)) with (Zpos p). cbv zeta.
  destruct (Z.ltb_spec (2 ^ 64 - 1) (Zpos p)); [lia|]. by rewrite u32_id.
Qed.

Lemma pretty_Z_length (n : Z) : 0 <= n < 2 ^ 32 -> (String.length (pretty n) <= 10)%nat.
Proof.
  intros Hn. destruct n as [|p|p]; [simpl; lia| |lia].
  rewrite pretty_Z_pos.
  pose proof (pretty_go_length 10 (Npos p) ""). simpl in H. lia.
Qed.

(** For every video node the kernel can name, [mm_camera_open] reads the
    number of the node back out of the path it has built, without losing a
    character of the path to the size of the buffer, and the domain socket it
    asks for carries the same number. *)
Theorem dev_index_roundtrip n (Hn : 0 <= n < 2 ^ 31) :
  let dev := dev_name (Some ("video" +:+ pretty n)) in
  dev = "/dev/video" +:+ pretty n /\ dev_index dev = n /\
  socket_path (dev_index dev) = "/data/cam_socket" +:+ pretty n.
Proof.
  pose proof (pretty_Z_length n) as Hl. assert (0 <= n < 2 ^ 32) as Hn' by lia. specialize (Hl Hn').
  assert (Hd : dev_name (Some ("video" +:+ pretty n)) = "/dev/video" +:+ pretty n).
  { unfold dev_name. apply snprintf_fits. rewrite !length_sapp. unfold MM_CAMERA_DEV_NAME_LEN. simpl. lia. }
  assert (Hi : dev_index ("/dev/video" +:+ pretty n) = n).
  { unfold dev_index. rewrite after_prefix_app. simpl. by rewrite scan_u_pretty. }
  cbv zeta. rewrite Hd, Hi. split; [done|]. split; [done|]. unfold socket_path. rewrite i32_id by (unfold i32_range; lia).
  apply snprintf_fits. rewrite length_sapp. unfold UNIX_PATH_MAX. simpl. lia.
Qed.

Lemma dev_index_roundtrip_witness :
  dev_name (Some "video12") = "/dev/video12" /\ dev_index "/dev/video12" = 12 /\
  socket_path 12 = "/data/cam_socket12".
Proof. exact (dev_index_roundtrip 12 ltac:(lia)). Defined.
