(* ===== verification/Handles.v ===== *)
(** * Object handles ([mm_camera_interface.c])

    Cameras, channels and streams are named by 32-bit handles made of a
    global 16-bit history count and the index of the object in its parent's
    array. *)

From Stdlib Require Import ZArith Lia.
From stdpp Require Import numbers list.
From S2P Require Import Prelude.

(** [g_handler_history_count++], skipping 0. *)
Definition next_history_count (c : Z) : Z :=
  let c := u16 (c + 1) in
  if 0 =? c then u16 (c + 1) else c.

(** (handle, new history count). *)
Definition mm_camera_util_generate_handler (count index : Z) : Z * Z :=
  let count := next_history_count count in
  (Z.lor (u32 (Z.shiftl count 8)) index, count).

Definition mm_camera_util_get_index_by_handler (handler : Z) : Z :=
  u8 (Z.land handler 255).

(** The handles of a sequence of objects created one after the other. *)
Fixpoint handlers (count : Z) (indices : list Z) : list Z :=
  match indices with
  | [] => []
  | i :: js =>
      let '(h, c) := mm_camera_util_generate_handler count i in
      h :: handlers c js
  end.

(** ** The history count *)

Lemma next_count_spec c : 0 <= c < 2 ^ 16 ->
  next_history_count c = if c =? 2 ^ 16 - 1 then 1 else c + 1.
Proof.
  intros H. unfold next_history_count, u16. destruct (Z.eqb_spec c (2 ^ 16 - 1)) as [->|Hc].
  - reflexivity.
  - rewrite (Z.mod_small (c + 1)) by lia. destruct (Z.eqb_spec 0 (c + 1)); lia.
Qed.

Lemma next_count_range c : 0 <= c < 2 ^ 16 -> 1 <= next_history_count c < 2 ^ 16.
Proof. intros H. rewrite next_count_spec by done. destruct (Z.eqb_spec c (2 ^ 16 - 1)); lia. Qed.

(** The [n]-th count after [c]: the counts run through [1 .. 65535]. *)
Lemma iter_count c n : 1 <= c < 2 ^ 16 ->
  Nat.iter n next_history_count c = (c - 1 + Z.of_nat n) mod (2 ^ 16 - 1) + 1.
Proof.
  intros Hc. induction n as [|n IH].
  - simpl. rewrite Z.add_0_r, Z.mod_small; lia.
  - rewrite Nat.iter_succ, IH.
    pose proof (Z.mod_pos_bound (c - 1 + Z.of_nat n) (2 ^ 16 - 1)).
    rewrite next_count_spec by lia.
    replace (c - 1 + Z.of_nat (S n)) with (c - 1 + Z.of_nat n + 1) by lia.
    rewrite <- (Z.add_mod_idemp_l _ 1) by lia.
    set (m := (c - 1 + Z.of_nat n) mod (2 ^ 16 - 1)) in *.
    destruct (Z.eqb_spec (m + 1) (2 ^ 16 - 1)) as [E|E].
    + rewrite E, Z.mod_same; lia.
    + rewrite Z.mod_small; lia.
Qed.

(** ** Packing *)

Lemma handler_pack c i : 0 <= c < 2 ^ 16 -> 0 <= i < 2 ^ 8 ->
  Z.lor (u32 (Z.shiftl c 8)) i = c * 2 ^ 8 + i.
Proof.
  intros Hc Hi. rewrite Z.shiftl_mul_pow2, u32_id by (unfold u32_range; lia).
  rewrite <- Z.add_lor_land, <- (Z.shiftl_mul_pow2 c 8) by lia.
  enough (Z.land (Z.shiftl c 8) i = 0) by lia. apply Z.bits_inj'. intros n Hn.
  rewrite Z.land_spec, Z.bits_0. destruct (Z.lt_ge_cases n 8).
  - rewrite Z.shiftl_spec_low by lia. done.
  - apply andb_false_iff. right. replace i with (i mod 2 ^ 8) by (apply Z.mod_small; lia).
    apply Z.mod_pow2_bits_high. lia.
Qed.

Lemma generate_handler_eq c i : 0 <= c < 2 ^ 16 -> 0 <= i < 2 ^ 8 ->
  mm_camera_util_generate_handler c i =
  (next_history_count c * 2 ^ 8 + i, next_history_count c).
Proof.
  intros Hc Hi. unfold mm_camera_util_generate_handler.
  pose proof (next_count_range c Hc). rewrite handler_pack; [done|lia|done].
Qed.

Lemma handler_unpack c i : 0 <= c < 2 ^ 16 -> 0 <= i < 2 ^ 8 ->
  mm_camera_util_get_index_by_handler (c * 2 ^ 8 + i) = i.
Proof.
  intros Hc Hi. unfold mm_camera_util_get_index_by_handler, u8.
  change 255 with (Z.ones 8). rewrite Z.land_ones by lia.
  rewrite Z.add_comm, Z.mod_add by lia. rewrite !Z.mod_small; rewrite ?Z.mod_small; lia.
Qed.

(** The index stored in a new handle is read back by
    [mm_camera_util_get_index_by_handler], the handle is never 0 (the value
    that means failure), it fits in 32 bits and the count stays a 16-bit
    number. *)
Theorem handler_roundtrip count index
  (Hc : 0 <= count < 2 ^ 16) (Hi : 0 <= index < 2 ^ 8) :
  let '(h, count') := mm_camera_util_generate_handler count index in
  mm_camera_util_get_index_by_handler h = index /\ 0 < h < 2 ^ 24 /\ 0 <= count' < 2 ^ 16.
Proof.
  pose proof (next_count_range count Hc). rewrite generate_handler_eq by done.
  split; [apply handler_unpack; lia|lia].
Qed.

Lemma handler_roundtrip_witness :
  mm_camera_util_generate_handler 65535 3 = (259, 1) /\
  mm_camera_util_get_index_by_handler 259 = 3.
Proof.
  split; [reflexivity|].
  destruct (handler_roundtrip 65535 3) as [H _]; [split; reflexivity || lia..|exact H].
Defined.

Lemma handlers_lookup c js n h : 0 <= c < 2 ^ 16 -> Forall (fun i => 0 <= i < 2 ^ 8) js ->
  handlers c js !! n = Some h ->
  exists i, js !! n = Some i /\ 0 <= i < 2 ^ 8 /\
            h = Nat.iter (S n) next_history_count c * 2 ^ 8 + i.
Proof.
  revert c n. induction js as [|i js IH]; intros c n Hc Hjs; [done|].
  apply Forall_cons in Hjs as [Hi Hjs]. cbn [handlers]. rewrite generate_handler_eq by done. destruct n as [|n].
  - intros [= <-]. exists i. auto.
  - intros Hn. pose proof (next_count_range c Hc).
    destruct (IH (next_history_count c) n) as (j & Hj & Hr & ->); [lia|done|done|].
    exists j. split; [done|]. split; [done|]. by rewrite <- Nat.iter_succ_r.
Qed.

(** Handles made by at most 65535 consecutive calls are pairwise
    distinct, whatever the indices: a stale handle does not name a newer
    object before the count has gone round. *)
Theorem handlers_distinct count indices
  (Hc : 0 <= count < 2 ^ 16)
  (Hi : Forall (fun i => 0 <= i < 2 ^ 8) indices)
  (Hn : Z.of_nat (length indices) <= 2 ^ 16 - 1) :
  NoDup (handlers count indices).
Proof.
  assert (Hlen : length (handlers count indices) = length indices).
  { clear. revert count. induction indices as [|i js IH]; intros c; [done|]. cbn [handlers].
    simpl. by rewrite IH. }
  apply NoDup_alt. intros a b h Ha Hb.
  assert (Ha' := lookup_lt_Some _ _ _ Ha). assert (Hb' := lookup_lt_Some _ _ _ Hb).
  rewrite Hlen in *.
  apply handlers_lookup in Ha as (i & _ & Hri & Eh), Hb as (j & _ & Hrj & Eh'); try done.
  pose proof (next_count_range count Hc) as Hc1.
  rewrite !Nat.iter_succ_r, !iter_count in * by done.
  set (c1 := next_history_count count) in *.
  assert (E : (c1 - 1 + Z.of_nat a) mod (2 ^ 16 - 1) = (c1 - 1 + Z.of_nat b) mod (2 ^ 16 - 1)) by lia.
  pose proof (Z_div_mod_eq_full (c1 - 1 + Z.of_nat a) (2 ^ 16 - 1)).
  pose proof (Z_div_mod_eq_full (c1 - 1 + Z.of_nat b) (2 ^ 16 - 1)).
  rewrite E in *. nia.
Qed.

Lemma handlers_distinct_witness :
  NoDup (handlers 65534 [0; 1; 0; 2]) /\ handlers 65534 [0; 1; 0; 2] = [16776960; 257; 512; 770].
Proof.
  split; [|reflexivity]. apply handlers_distinct.
  - lia.
  - repeat constructor; lia.
  - simpl. lia.
Defined.
