(* ===== verification/Threads.v ===== *)
(** * Poll and command threads ([mm_camera_thread.c])

    A poll thread watches the file descriptors of the streams of a channel
    and calls the entry of the descriptor that is ready; entries change
    through a pipe command that the caller waits for.  A command thread takes
    commands from a queue, in order, until it takes an exit command.

    A caller that signals the poll thread and waits, or that joins a command
    thread, is modelled with the other thread's work done at that point; with
    nobody there to answer it waits for ever, which is [None]. *)

From Stdlib Require Import ZArith Lia.
From stdpp Require Import numbers list.
From S2P Require Import Prelude CamTypes Env Handles.

(** ** Data *)

Inductive mm_camera_poll_thread_type_t : Set :=
| MM_CAMERA_POLL_TYPE_EVT
| MM_CAMERA_POLL_TYPE_DATA.

Definition MM_CAMERA_PIPE_CMD_POLL_ENTRIES_UPDATED : Z := 0.
Definition MM_CAMERA_PIPE_CMD_EXIT : Z := 1.

Inductive mm_camera_poll_task_state_type_t : Set :=
| MM_CAMERA_POLL_TASK_STATE_STOPPED
| MM_CAMERA_POLL_TASK_STATE_POLL.

#[export] Instance poll_type_eq_dec : EqDecision mm_camera_poll_thread_type_t.
Proof. solve_decision. Defined.
#[export] Instance poll_state_eq_dec : EqDecision mm_camera_poll_task_state_type_t.
Proof. solve_decision. Defined.

Record mm_camera_poll_entry_t := {
  pe_fd : Z; pe_notify_cb : option Z; pe_handler : Z; pe_user_data : Z
}.

Record pollfd := { pfd_fd : Z; pfd_events : Z }.

Definition POLLIN : Z := 1.
Definition POLLPRI : Z := 2.
Definition POLLRDNORM : Z := 64.
Definition POLL_EVENTS : Z := Z.lor (Z.lor POLLIN POLLRDNORM) POLLPRI.

Record mm_camera_poll_thread_t := {
  poll_type : mm_camera_poll_thread_type_t;
  poll_entries : list mm_camera_poll_entry_t;
  pfds : Z * Z;
  pstate : mm_camera_poll_task_state_type_t;
  timeoutms : Z;
  poll_fds : list pollfd;
  num_fds : Z;
  pstatus : bool
}.

Definition zero_entry : mm_camera_poll_entry_t :=
  {| pe_fd := 0; pe_notify_cb := None; pe_handler := 0; pe_user_data := 0 |}.

(** [memset(poll_cb, 0, ...)]. *)
Definition zero_poll_thread : mm_camera_poll_thread_t :=
  {| poll_type := MM_CAMERA_POLL_TYPE_EVT;
     poll_entries := replicate MAX_STREAM_NUM_IN_BUNDLE zero_entry;
     pfds := (0, 0); pstate := MM_CAMERA_POLL_TASK_STATE_STOPPED; timeoutms := 0;
     poll_fds := replicate (S MAX_STREAM_NUM_IN_BUNDLE) {| pfd_fd := 0; pfd_events := 0 |};
     num_fds := 0; pstatus := false |}.

Definition set_entries (l : list mm_camera_poll_entry_t) (p : mm_camera_poll_thread_t) :=
  {| poll_type := poll_type p; poll_entries := l; pfds := pfds p; pstate := pstate p;
     timeoutms := timeoutms p; poll_fds := poll_fds p; num_fds := num_fds p;
     pstatus := pstatus p |}.

Definition set_pstatus (b : bool) (p : mm_camera_poll_thread_t) :=
  {| poll_type := poll_type p; poll_entries := poll_entries p; pfds := pfds p;
     pstate := pstate p; timeoutms := timeoutms p; poll_fds := poll_fds p;
     num_fds := num_fds p; pstatus := b |}.

Definition set_poll_fds (l : list pollfd) (n : Z) (p : mm_camera_poll_thread_t) :=
  {| poll_type := poll_type p; poll_entries := poll_entries p; pfds := pfds p;
     pstate := pstate p; timeoutms := timeoutms p; poll_fds := l; num_fds := n;
     pstatus := pstatus p |}.

(** ** The worker's side *)

Definition mm_camera_poll_set_state (s : mm_camera_poll_task_state_type_t)
    (p : mm_camera_poll_thread_t) : mm_camera_poll_thread_t :=
  {| poll_type := poll_type p; poll_entries := poll_entries p; pfds := pfds p; pstate := s;
     timeoutms := timeoutms p; poll_fds := poll_fds p; num_fds := num_fds p;
     pstatus := pstatus p |}.

Definition mm_camera_poll_sig_done (p : mm_camera_poll_thread_t) : mm_camera_poll_thread_t :=
  set_pstatus true p.

(** [poll_cb->poll_fds[poll_cb->num_fds++] = {fd, events}]. *)
Definition push_poll_fd (fd events : Z) (p : mm_camera_poll_thread_t) : mm_camera_poll_thread_t :=
  set_poll_fds (<[Z.to_nat (num_fds p) := {| pfd_fd := fd; pfd_events := events |}]> (poll_fds p))
               (u8 (num_fds p + 1)) p.

(** The data branch: an entry without a descriptor keeps its place with -1. *)
Definition push_data_entry (p : mm_camera_poll_thread_t) (e : mm_camera_poll_entry_t) :
  mm_camera_poll_thread_t :=
  if 0 <? pe_fd e then push_poll_fd (pe_fd e) POLL_EVENTS p else push_poll_fd (-1) 0 p.

Definition mm_camera_poll_proc_pipe (cmd : Z) (p : mm_camera_poll_thread_t) :
  mm_camera_poll_thread_t :=
  if cmd =? MM_CAMERA_PIPE_CMD_POLL_ENTRIES_UPDATED then
    let p := set_poll_fds (poll_fds p) 0 p in
    let p := push_poll_fd (fst (pfds p)) POLL_EVENTS p in
    let p :=
      match poll_type p with
      | MM_CAMERA_POLL_TYPE_EVT =>
          match poll_entries p !! 0%nat with
          | Some e => if 0 <? pe_fd e then push_poll_fd (pe_fd e) POLL_EVENTS p else p
          | None => p
          end
      | MM_CAMERA_POLL_TYPE_DATA => foldl push_data_entry p (poll_entries p)
      end in
    mm_camera_poll_sig_done p
  else
    mm_camera_poll_sig_done (mm_camera_poll_set_state MM_CAMERA_POLL_TASK_STATE_STOPPED p).

Definition has_bits (revents mask : Z) : bool := negb (Z.land revents mask =? 0).

(** The callback made for the descriptor in slot [i + 1], if any. *)
Definition poll_notify (p : mm_camera_poll_thread_t) (i : nat) (revents : Z) : option (Z * Z) :=
  let due :=
    match poll_type p with
    | MM_CAMERA_POLL_TYPE_EVT => has_bits revents POLLPRI
    | MM_CAMERA_POLL_TYPE_DATA => has_bits revents POLLIN && has_bits revents POLLRDNORM
    end in
  if due then
    e ← poll_entries p !! i; cb ← pe_notify_cb e; Some (cb, pe_user_data e)
  else None.

(** One iteration of the loop of [mm_camera_poll_fn]: [rc] and [revents] are
    what [poll] returned, [cmd] what a read of the pipe gives.  The result is
    the callbacks made, in order, and whether the loop goes on. *)
Definition mm_camera_poll_fn (rc : Z) (revents : list Z) (cmd : Z) (p : mm_camera_poll_thread_t) :
  list (Z * Z) * bool * mm_camera_poll_thread_t :=
  let p := set_poll_fds (imap (fun i f => if Z.of_nat i <? num_fds p
                                          then {| pfd_fd := pfd_fd f; pfd_events := POLL_EVENTS |}
                                          else f) (poll_fds p)) (num_fds p) p in
  let '(calls, p) :=
    if 0 <? rc then
      let r0 := default 0 (revents !! 0%nat) in
      if has_bits r0 POLLIN && has_bits r0 POLLRDNORM then ([], mm_camera_poll_proc_pipe cmd p)
      else (omap (fun i => poll_notify p i (default 0 (revents !! S i)))
                 (seq 0 (Z.to_nat (num_fds p) - 1)), p)
    else ([], p) in
  (calls, bool_decide (pstate p = MM_CAMERA_POLL_TASK_STATE_POLL), p).

(** What the thread does before it enters the loop. *)
Definition mm_camera_poll_thread (p : mm_camera_poll_thread_t) : mm_camera_poll_thread_t :=
  let p := set_poll_fds (<[Z.to_nat (num_fds p) :=
             {| pfd_fd := fst (pfds p);
                pfd_events := match poll_fds p !! Z.to_nat (num_fds p) with
                              | Some f => pfd_events f | None => 0 end |}]> (poll_fds p))
             (u8 (num_fds p + 1)) p in
  mm_camera_poll_set_state MM_CAMERA_POLL_TASK_STATE_POLL (mm_camera_poll_sig_done p).

(** ** The caller's side *)

Record pworld := { pw_poll : mm_camera_poll_thread_t; pw_tr : history }.

Definition pw_set_poll (p : mm_camera_poll_thread_t) (w : pworld) : pworld :=
  {| pw_poll := p; pw_tr := pw_tr w |}.
Definition pw_set_tr (tr : history) (w : pworld) : pworld := {| pw_poll := pw_poll w; pw_tr := tr |}.

Section Poll.
Context `{E : Env}.

Definition pext {A} (m : M history A) : M pworld A := zoom pw_tr pw_set_tr m.
Definition on_poll (f : mm_camera_poll_thread_t -> mm_camera_poll_thread_t) : M pworld unit :=
  modify (fun w => pw_set_poll (f (pw_poll w)) w).

(** The wait for [status]: the worker, if it is polling, reads the pipe. *)
Definition mm_camera_poll_sig (cmd : Z) : M pworld Z :=
  on_poll (set_pstatus false);;
  len ← pext (sys_pipe_write cmd);
  if len <? 1 then mret 0
  else
    p ← gets pw_poll;
    if decide (pstate p = MM_CAMERA_POLL_TASK_STATE_POLL)
    then on_poll (mm_camera_poll_proc_pipe (u8 cmd));; mret 0
    else stuck.

(** The entry of a handle: its index for data threads, 0 for event threads. *)
Definition entry_index (p : mm_camera_poll_thread_t) (handler : Z) : Z :=
  match poll_type p with
  | MM_CAMERA_POLL_TYPE_DATA => mm_camera_util_get_index_by_handler handler
  | MM_CAMERA_POLL_TYPE_EVT => 0
  end.

Definition mm_camera_poll_thread_notify_entries_updated : M pworld Z :=
  mm_camera_poll_sig MM_CAMERA_PIPE_CMD_POLL_ENTRIES_UPDATED.

Definition mm_camera_poll_thread_add_poll_fd (handler fd : Z) (notify_cb : option Z)
    (userdata : Z) : M pworld Z :=
  p ← gets pw_poll;
  let idx := entry_index p handler in
  if idx <? Z.of_nat MAX_STREAM_NUM_IN_BUNDLE then
    on_poll (set_entries (<[Z.to_nat idx :=
               {| pe_fd := fd; pe_notify_cb := notify_cb; pe_handler := handler;
                  pe_user_data := userdata |}]> (poll_entries p)));;
    mm_camera_poll_sig MM_CAMERA_PIPE_CMD_POLL_ENTRIES_UPDATED
  else mret (-1).

Definition mm_camera_poll_thread_del_poll_fd (handler : Z) : M pworld Z :=
  p ← gets pw_poll;
  let idx := entry_index p handler in
  match poll_entries p !! Z.to_nat idx with
  | Some e =>
      if (idx <? Z.of_nat MAX_STREAM_NUM_IN_BUNDLE) && (handler =? pe_handler e) then
        on_poll (set_entries (<[Z.to_nat idx :=
                   {| pe_fd := -1; pe_notify_cb := None; pe_handler := 0;
                      pe_user_data := pe_user_data e |}]> (poll_entries p)));;
        mm_camera_poll_sig MM_CAMERA_PIPE_CMD_POLL_ENTRIES_UPDATED
      else mret (-1)
  | None => mret (-1)
  end.

Definition mm_camera_poll_thread_launch (t : mm_camera_poll_thread_type_t) : M pworld Z :=
  r ← pext sys_pipe;
  let '(rc, fds) := r in
  let start fds timeout := fun p => {| poll_type := t; poll_entries := poll_entries p; pfds := fds;
    pstate := pstate p; timeoutms := timeout; poll_fds := poll_fds p; num_fds := num_fds p;
    pstatus := pstatus p |} in
  if rc <? 0 then
    modify (fun w => pw_set_poll (start (0, 0) (timeoutms (pw_poll w)) (pw_poll w)) w);; mret (-1)
  else
    on_poll (start fds (-1));;
    on_poll (set_pstatus false);;
    pext (note (EThreadCreate T_poll));;
    on_poll mm_camera_poll_thread;;
    mret rc.

Definition mm_camera_poll_thread_release : M pworld Z :=
  p ← gets pw_poll;
  if decide (pstate p = MM_CAMERA_POLL_TASK_STATE_STOPPED) then mret 0
  else
    mm_camera_poll_sig MM_CAMERA_PIPE_CMD_EXIT;;
    p ← gets pw_poll;
    (if decide (pstate p = MM_CAMERA_POLL_TASK_STATE_STOPPED)
     then pext (note (EThreadJoin T_poll)) else stuck);;
    (if fst (pfds p) =? 0 then mret tt else pext (sys_close (fst (pfds p))));;
    (if snd (pfds p) =? 0 then mret tt else pext (sys_close (snd (pfds p))));;
    on_poll (fun _ => zero_poll_thread);;
    mret 0.

End Poll.

(** ** Command threads *)

(** A buffer travelling from a stream to its consumers; the pointer is null
    in an empty slot. *)
Record mm_camera_buf_info_t := {
  bi_stream_id : Z; bi_frame_idx : Z; bi_buf : option buf_ref
}.

Inductive mm_camera_super_buf_notify_mode_t : Set :=
| MM_CAMERA_SUPER_BUF_NOTIFY_BURST
| MM_CAMERA_SUPER_BUF_NOTIFY_CONTINUOUS.

#[export] Instance notify_mode_eq_dec : EqDecision mm_camera_super_buf_notify_mode_t.
Proof. solve_decision. Defined.

Inductive mm_camera_cmdcb_t : Type :=
| MM_CAMERA_CMD_TYPE_DATA_CB (buf : mm_camera_buf_info_t)
| MM_CAMERA_CMD_TYPE_EVT_CB (evt : mm_camera_event_t)
| MM_CAMERA_CMD_TYPE_EXIT
| MM_CAMERA_CMD_TYPE_REQ_DATA_CB (num_buf_requested : Z)
| MM_CAMERA_CMD_TYPE_SUPER_BUF_DATA_CB (superbuf : mm_camera_super_buf_t)
| MM_CAMERA_CMD_TYPE_CONFIG_NOTIFY (notify_mode : mm_camera_super_buf_notify_mode_t)
| MM_CAMERA_CMD_TYPE_FLUSH_QUEUE (frame_idx : Z).

(** A command thread that has been launched; its callback is fixed by what
    launches it. *)
Record mm_camera_cmd_thread_t := { cmd_queue : list mm_camera_cmdcb_t; cmd_sem : Z }.

Definition is_exit (n : mm_camera_cmdcb_t) : bool :=
  match n with MM_CAMERA_CMD_TYPE_EXIT => true | _ => false end.

(** The thread object is somewhere in the state of the object that owns it;
    [None] is a zeroed one, whose queue has null links. *)
Section CmdThread.
Context `{E : Env} {W : Type} (tid : thread_id).
Context (get_t : W -> option mm_camera_cmd_thread_t)
        (set_t : option mm_camera_cmd_thread_t -> W -> W).
Context (wext : forall A, M history A -> M W A).
Context (cb : mm_camera_cmdcb_t -> M W unit).

(** [cam_queue_enq] on the thread's queue: the queue allocates its own cell. *)
Definition cmd_enq (node : mm_camera_cmdcb_t) : M W Z :=
  ok ← wext _ sys_malloc;
  if ok : bool then
    t ← gets get_t;
    t ← deref t;
    modify (set_t (Some {| cmd_queue := cmd_queue t ++ [node]; cmd_sem := cmd_sem t |}));;
    mret 0
  else mret (-1).

Definition cam_sem_post : M W unit :=
  t ← gets get_t;
  t ← deref t;
  modify (set_t (Some {| cmd_queue := cmd_queue t; cmd_sem := cmd_sem t +i 1 |})).

(** Allocate a command, queue it and wake the thread up; false without
    memory for the command. *)
Definition cmd_post (node : mm_camera_cmdcb_t) : M W bool :=
  ok ← wext _ sys_malloc;
  if ok : bool then cmd_enq node;; cam_sem_post;; mret true else mret false.

Definition cam_sem_wait : M W unit :=
  t ← gets get_t;
  t ← deref t;
  if cmd_sem t =? 0 then stuck
  else modify (set_t (Some {| cmd_queue := cmd_queue t; cmd_sem := cmd_sem t -i 1 |})).

Definition cmd_deq : M W (option mm_camera_cmdcb_t) :=
  t ← gets get_t;
  t ← deref t;
  match cmd_queue t with
  | [] => mret None
  | n :: q =>
      modify (set_t (Some {| cmd_queue := q; cmd_sem := cmd_sem t |}));;
      mret (Some n)
  end.

(** The inner loop: every queued command, the exit command included, is
    taken; the loop ends on an empty queue. *)
Fixpoint cmd_drain (fuel : nat) (running : bool) : M W bool :=
  node ← cmd_deq;
  match node with
  | None => mret running
  | Some n =>
      match fuel with
      | O => stuck
      | S fuel =>
          if is_exit n then cmd_drain fuel false
          else cb n;; cmd_drain fuel running
      end
  end.

(** One wake-up of the thread: whether it goes on. *)
Definition mm_camera_cmd_thread (fuel : nat) : M W bool :=
  cam_sem_wait;;
  cmd_drain fuel true.

Definition mm_camera_cmd_thread_launch : M W Z :=
  modify (set_t (Some {| cmd_queue := []; cmd_sem := 0 |}));;
  wext _ (note (EThreadCreate tid));;
  mret 0.

(** The join: the thread wakes up and must leave its loop. *)
Definition mm_camera_cmd_thread_stop : M W Z :=
  ok ← wext _ sys_malloc;
  if ok : bool then
    cmd_enq MM_CAMERA_CMD_TYPE_EXIT;;
    cam_sem_post;;
    t ← gets get_t;
    t ← deref t;
    running ← mm_camera_cmd_thread (length (cmd_queue t));
    if running : bool then stuck
    else wext _ (note (EThreadJoin tid));; mret 0
  else mret (-1).

(** [cam_queue_deinit] frees what is left in the queue. *)
Definition mm_camera_cmd_thread_destroy : M W Z :=
  modify (set_t None);; mret 0.

Definition mm_camera_cmd_thread_release : M W Z :=
  rc ← mm_camera_cmd_thread_stop;
  if rc =? 0 then mm_camera_cmd_thread_destroy else mret rc.

End CmdThread.

(** ** Poll thread theorems *)

(** The table [poll] is called on agrees with the entries. *)
Definition poll_slot (e : mm_camera_poll_entry_t) : Z := if 0 <? pe_fd e then pe_fd e else -1.

Definition poll_synced (p : mm_camera_poll_thread_t) : Prop :=
  num_fds p = 5 /\ map pfd_fd (poll_fds p) = fst (pfds p) :: map poll_slot (poll_entries p).

(** A running data poll thread. *)
Record poll_running (p : mm_camera_poll_thread_t) : Prop := {
  pr_type : poll_type p = MM_CAMERA_POLL_TYPE_DATA;
  pr_state : pstate p = MM_CAMERA_POLL_TASK_STATE_POLL;
  pr_entries : length (poll_entries p) = MAX_STREAM_NUM_IN_BUNDLE;
  pr_fds : length (poll_fds p) = S MAX_STREAM_NUM_IN_BUNDLE
}.

Lemma proc_pipe_updated p : poll_running p ->
  let p' := mm_camera_poll_proc_pipe MM_CAMERA_PIPE_CMD_POLL_ENTRIES_UPDATED p in
  poll_running p' /\ poll_synced p' /\ poll_entries p' = poll_entries p /\ pstatus p' = true.
Proof.
  intros [Ht Hs He Hf]. destruct p as [ty es pf st tmo fds n b]; simpl in *. subst.
  destruct es as [|e0 [|e1 [|e2 [|e3 [|]]]]]; try done.
  destruct fds as [|f0 [|f1 [|f2 [|f3 [|f4 [|]]]]]]; try done.
  unfold mm_camera_poll_proc_pipe; simpl. unfold push_data_entry.
  assert (Hsy : forall fd e, (if 0 <? fd then push_poll_fd fd POLL_EVENTS e else push_poll_fd (-1) 0 e) =
            push_poll_fd (if 0 <? fd then fd else -1) (if 0 <? fd then POLL_EVENTS else 0) e)
    by (intros; by destruct (0 <? fd)).
  rewrite !Hsy. by repeat split.
Qed.

Section PollSpecs.
Context `{E : Env}.

Lemma poll_sig_updated w :
  poll_running (pw_poll w) ->
  exists w', mm_camera_poll_sig MM_CAMERA_PIPE_CMD_POLL_ENTRIES_UPDATED w = Some (0, w') /\
    poll_running (pw_poll w') /\ poll_entries (pw_poll w') = poll_entries (pw_poll w) /\
    pw_tr w' = EPipeWrite 0 (env_write (pw_tr w) 0) :: pw_tr w /\
    (1 <= env_write (pw_tr w) 0 -> poll_synced (pw_poll w')).
Proof.
  intros Hr. change MM_CAMERA_PIPE_CMD_POLL_ENTRIES_UPDATED with 0.
  unfold mm_camera_poll_sig, on_poll, pext, sys_pipe_write, ext. unM.
  destruct (Z.ltb_spec (env_write (pw_tr w) 0) 1).
  - eexists. split; [reflexivity|]. simpl. destruct Hr. split; [by constructor|]. repeat split; try done; lia.
  - destruct (decide _) as [Hp|Hp]; [|by destruct Hr].
    eexists. split; [reflexivity|]. simpl.
    destruct (proc_pipe_updated (set_pstatus false (pw_poll w))) as (? & ? & ? & _);
      [destruct Hr; by constructor|]. done.
Qed.

Lemma running_set_entries p l : poll_running p -> length l = length (poll_entries p) ->
  poll_running (set_entries l p).
Proof. intros [? ? ? ?] Hl. constructor; simpl; congruence. Qed.

Lemma poll_add_run handler fd cb ud w (Hr : poll_running (pw_poll w)) :
  let idx := mm_camera_util_get_index_by_handler handler in
  if idx <? 4 then
    exists w', mm_camera_poll_thread_add_poll_fd handler fd cb ud w = Some (0, w') /\
      poll_running (pw_poll w') /\
      poll_entries (pw_poll w') = <[Z.to_nat idx :=
        {| pe_fd := fd; pe_notify_cb := cb; pe_handler := handler; pe_user_data := ud |}]>
        (poll_entries (pw_poll w)) /\
      (1 <= env_write (pw_tr w) 0 -> poll_synced (pw_poll w'))
  else mm_camera_poll_thread_add_poll_fd handler fd cb ud w = Some (-1, w).
Proof.
  intros idx. unfold mm_camera_poll_thread_add_poll_fd, entry_index, on_poll. unM.
  rewrite (pr_type _ Hr). fold idx. change (Z.of_nat MAX_STREAM_NUM_IN_BUNDLE) with 4.
  destruct (idx <? 4); [|done].
  set (l := <[_ := _]> _).
  destruct (poll_sig_updated (pw_set_poll (set_entries l (pw_poll w)) w)) as (w' & -> & ? & ? & _ & ?).
  { apply running_set_entries; [done|]. apply length_insert. }
  by exists w'.
Qed.

(** On a running data poll thread, registering the descriptor of a
    stream succeeds, leaves every other stream's entry alone, and when the
    pipe write went through the table that [poll] watches agrees with the
    entries; a handle whose index is outside the bundle is refused with no
    change at all. *)
Theorem poll_add_spec handler fd cb ud w (Hr : poll_running (pw_poll w)) :
  let idx := mm_camera_util_get_index_by_handler handler in
  if idx <? 4 then
    exists w', mm_camera_poll_thread_add_poll_fd handler fd cb ud w = Some (0, w') /\
      poll_running (pw_poll w') /\
      poll_entries (pw_poll w') = <[Z.to_nat idx :=
        {| pe_fd := fd; pe_notify_cb := cb; pe_handler := handler; pe_user_data := ud |}]>
        (poll_entries (pw_poll w)) /\
      (1 <= env_write (pw_tr w) 0 -> poll_synced (pw_poll w'))
  else mm_camera_poll_thread_add_poll_fd handler fd cb ud w = Some (-1, w).
Proof. exact (poll_add_run handler fd cb ud w Hr). Qed.

Lemma poll_del_run handler w (Hr : poll_running (pw_poll w)) :
  let idx := mm_camera_util_get_index_by_handler handler in
  match poll_entries (pw_poll w) !! Z.to_nat idx with
  | Some e =>
      if (idx <? 4) && (handler =? pe_handler e) then
        exists w', mm_camera_poll_thread_del_poll_fd handler w = Some (0, w') /\
          poll_running (pw_poll w') /\
          poll_entries (pw_poll w') = <[Z.to_nat idx :=
            {| pe_fd := -1; pe_notify_cb := None; pe_handler := 0;
               pe_user_data := pe_user_data e |}]> (poll_entries (pw_poll w)) /\
          (1 <= env_write (pw_tr w) 0 -> poll_synced (pw_poll w'))
      else mm_camera_poll_thread_del_poll_fd handler w = Some (-1, w)
  | None => mm_camera_poll_thread_del_poll_fd handler w = Some (-1, w)
  end.
Proof.
  intros idx. unfold mm_camera_poll_thread_del_poll_fd, entry_index, on_poll. unM.
  rewrite (pr_type _ Hr). fold idx. destruct (poll_entries (pw_poll w) !! Z.to_nat idx) as [e|]; [|done].
  change (Z.of_nat MAX_STREAM_NUM_IN_BUNDLE) with 4.
  destruct ((idx <? 4) && (handler =? pe_handler e)); [|done].
  set (l := <[_ := _]> _).
  destruct (poll_sig_updated (pw_set_poll (set_entries l (pw_poll w)) w)) as (w' & -> & ? & ? & _ & ?).
  { apply running_set_entries; [done|]. apply length_insert. }
  by exists w'.
Qed.

(** Removing a registered stream clears its entry (so that the worker
    skips it from then on) and no other; a handle that does not own its entry
    is refused with no change. *)
Theorem poll_del_spec handler w (Hr : poll_running (pw_poll w)) :
  let idx := mm_camera_util_get_index_by_handler handler in
  match poll_entries (pw_poll w) !! Z.to_nat idx with
  | Some e =>
      if (idx <? 4) && (handler =? pe_handler e) then
        exists w', mm_camera_poll_thread_del_poll_fd handler w = Some (0, w') /\
          poll_running (pw_poll w') /\
          poll_entries (pw_poll w') = <[Z.to_nat idx :=
            {| pe_fd := -1; pe_notify_cb := None; pe_handler := 0;
               pe_user_data := pe_user_data e |}]> (poll_entries (pw_poll w)) /\
          (1 <= env_write (pw_tr w) 0 -> poll_synced (pw_poll w'))
      else mm_camera_poll_thread_del_poll_fd handler w = Some (-1, w)
  | None => mm_camera_poll_thread_del_poll_fd handler w = Some (-1, w)
  end.
Proof. exact (poll_del_run handler w Hr). Qed.

End PollSpecs.

Definition readable (revents : Z) : bool := has_bits revents POLLIN && has_bits revents POLLRDNORM.

(** When [poll] reports data and nothing on the pipe, a running data
    thread whose table is in step calls exactly the callbacks of the entries
    whose descriptor is readable, each once and in the order of the entries,
    with their own user data; the entries and the watched descriptors are
    unchanged and the loop goes on.  [ready] is which descriptors have data:
    [poll] reports it per slot, and nothing for the negative descriptor. *)
Theorem poll_fn_dispatch p rc r0 revents cmd (ready : Z -> bool)
  (Hr : poll_running p) (Hs : poll_synced p) (Hrc : 0 < rc)
  (Hpipe : readable r0 = false)
  (Hrev : map readable revents = map (fun f => ready (pfd_fd f)) (tail (poll_fds p)))
  (Hneg : ready (-1) = false) :
  let '(calls, goes_on, p') := mm_camera_poll_fn rc (r0 :: revents) cmd p in
  calls = omap (fun e => if (0 <? pe_fd e) && ready (pe_fd e)
                         then cb ← pe_notify_cb e; Some (cb, pe_user_data e) else None)
            (poll_entries p) /\
  goes_on = true /\ poll_entries p' = poll_entries p /\ poll_synced p'.
Proof.
  destruct Hr as [Ht Hst He Hf]. destruct Hs as [Hn Hm].
  destruct p as [ty es pf st tmo fds n b]; simpl in *. subst.
  destruct es as [|e0 [|e1 [|e2 [|e3 [|]]]]]; try done.
  destruct fds as [|f0 [|f1 [|f2 [|f3 [|f4 [|]]]]]]; try done.
  destruct revents as [|r1 [|r2 [|r3 [|r4 [|]]]]]; try done.
  unfold mm_camera_poll_fn. simpl. fold (readable r0).
  destruct (Z.ltb_spec 0 rc) as [_|]; [|lia]. rewrite Hpipe. simpl. unfold poll_notify. simpl.
  injection Hm as H0 H1 H2 H3 H4. injection Hrev as R1 R2 R3 R4.
  fold (readable r1) (readable r2) (readable r3) (readable r4).
  assert (Hslot : forall e, ready (poll_slot e) = (0 <? pe_fd e) && ready (pe_fd e)).
  { intros e. unfold poll_slot. by destruct (0 <? pe_fd e). }
  rewrite R1, R2, R3, R4, H1, H2, H3, H4, !Hslot.
  split; [done|]. split; [done|]. split; [done|]. split; [done|]. simpl.
  by rewrite H0.
Qed.

(** A data thread with one stream on descriptor 7, in slot 2. *)
Definition demo_entry : mm_camera_poll_entry_t :=
  {| pe_fd := 7; pe_notify_cb := Some 1; pe_handler := 258; pe_user_data := 2 |}.

Definition demo_poll : mm_camera_poll_thread_t :=
  {| poll_type := MM_CAMERA_POLL_TYPE_DATA;
     poll_entries := [zero_entry; zero_entry; demo_entry; zero_entry];
     pfds := (5, 6); pstate := MM_CAMERA_POLL_TASK_STATE_POLL; timeoutms := -1;
     poll_fds := [{| pfd_fd := 5; pfd_events := 67 |}; {| pfd_fd := -1; pfd_events := 0 |};
                  {| pfd_fd := -1; pfd_events := 0 |}; {| pfd_fd := 7; pfd_events := 67 |};
                  {| pfd_fd := -1; pfd_events := 0 |}];
     num_fds := 5; pstatus := true |}.

Lemma demo_poll_running : poll_running demo_poll.
Proof. by split. Qed.

Lemma poll_fn_dispatch_witness :
  fst (fst (mm_camera_poll_fn 1 [0; 0; 0; 65; 0] 0 demo_poll)) = [(1, 2)].
Proof.
  pose proof (poll_fn_dispatch demo_poll 1 0 [0; 0; 65; 0] 0 (fun fd => fd =? 7)
    demo_poll_running (conj eq_refl eq_refl) eq_refl eq_refl eq_refl eq_refl) as H.
  destruct (mm_camera_poll_fn 1 [0; 0; 0; 65; 0] 0 demo_poll) as [[calls g] p'].
  destruct H as [-> _]. reflexivity.
Defined.

(** An environment in which everything succeeds. *)
Definition demo_env : Env := {|
  VENUS := None; A_FAMILY := true;
  env_open := fun tr => 10 + Z.of_nat (length tr);
  env_ioctl := fun _ _ _ => 0;
  env_extendedmode := fun _ _ => 77;
  env_dqbuf := fun tr _ => (0, {| dq_index := 0; dq_sequence := Z.of_nat (length tr);
                                  dq_sec := 1; dq_usec := 2; dq_nv14 := false |});
  env_pipe := fun _ => (0, (5, 6));
  env_write := fun _ _ => 8;
  env_malloc := fun _ => true;
  env_sync_info := fun _ i => i;
  env_send := fun _ _ _ => 1;
  env_map_done := fun _ => true;
  env_get_bufs := fun _ _ off =>
    let buf i := {| b_stream_id := 0; b_stream_type := CAM_STREAM_TYPE_DEFAULT; b_buf_idx := i;
                    b_is_uv_subsampled := false; b_ts := (0, 0); b_frame_idx := 0;
                    b_num_planes := 2; b_planes := []; b_fd := 40 + i;
                    b_frame_len := frame_len off |} in
    CMap 0 (-1) 40 4096 (fun _ => CMap 1 (-1) 41 4096 (fun _ => CRet
      {| gb_rc := 0; gb_num_bufs := 2; gb_reg_flags := [1; 0];
         gb_bufs := Some [buf 0; buf 1]; gb_offset := off |}));
  env_put_bufs := fun _ _ => CUnmap 0 (-1) (fun _ => CUnmap 1 (-1) (fun _ => CRet 0));
  env_invalidate_buf := fun _ _ _ => 0;
  env_clean_invalidate_buf := fun _ _ _ => 0;
  env_cb_returns := fun _ _ _ => []
|}.

Lemma poll_add_spec_witness :
  exists w', mm_camera_poll_thread_add_poll_fd (E := demo_env) 769 9 (Some 1) 1
               {| pw_poll := demo_poll; pw_tr := [] |} = Some (0, w') /\
             map pfd_fd (poll_fds (pw_poll w')) = [5; -1; 9; 7; -1].
Proof.
  destruct (poll_add_spec (E := demo_env) 769 9 (Some 1) 1 {| pw_poll := demo_poll; pw_tr := [] |}
    demo_poll_running) as (w' & H & _). exists w'. split; [exact H|].
  injection H as <-. reflexivity.
Defined.

Lemma poll_del_spec_witness :
  exists w', mm_camera_poll_thread_del_poll_fd (E := demo_env) 258
               {| pw_poll := demo_poll; pw_tr := [] |} = Some (0, w') /\
             map pfd_fd (poll_fds (pw_poll w')) = [5; -1; -1; -1; -1].
Proof.
  destruct (poll_del_spec (E := demo_env) 258 {| pw_poll := demo_poll; pw_tr := [] |}
    demo_poll_running) as (w' & H & _). exists w'. split; [exact H|].
  injection H as <-. reflexivity.
Defined.

(** ** Command thread theorems

    A state for them: the thread object beside a private state. *)

Section CmdSpecs.
Context `{E : Env} {W : Type} (tid : thread_id).
Context (get_t : W -> option mm_camera_cmd_thread_t)
        (set_t : option mm_camera_cmd_thread_t -> W -> W).
Context (wext : forall A, M history A -> M W A).
Context (cb : mm_camera_cmdcb_t -> M W unit).

(** The thread object is a component of the state that the callback does not
    touch, as no callback of the stack queues commands to its own thread. *)
Hypothesis get_set : forall t w, is_Some (get_t w) -> get_t (set_t t w) = t.
Hypothesis set_set : forall t t' w, set_t t (set_t t' w) = set_t t w.
Hypothesis cb_frame : forall n w r w', cb n w = Some (r, w') -> get_t w' = get_t w.

(** The effect of taking the commands [q] one by one. *)
Fixpoint process (q : list mm_camera_cmdcb_t) (sem : Z) : M W unit :=
  match q with
  | [] => mret tt
  | n :: q =>
      modify (set_t (Some {| cmd_queue := q; cmd_sem := sem |}));;
      (if is_exit n then mret tt else cb n);;
      process q sem
  end.

Lemma cmd_drain_process fuel q sem running w :
  get_t w = Some {| cmd_queue := q; cmd_sem := sem |} -> (length q <= fuel)%nat ->
  cmd_drain get_t set_t cb fuel running w =
  (process q sem;; mret (running && negb (existsb is_exit q))) w.
Proof.
  revert fuel running w. induction q as [|n q IH]; intros fuel running w Hw Hf.
  - destruct fuel; simpl; unfold cmd_deq; unM; rewrite Hw; by rewrite andb_true_r.
  - destruct fuel as [|fuel]; [simpl in Hf; lia|]. simpl in Hf.
    simpl. unfold cmd_deq. unM. rewrite Hw. simpl.
    set (w1 := set_t _ w). assert (Hw1 : get_t w1 = Some {| cmd_queue := q; cmd_sem := sem |})
      by (apply get_set; by eexists).
    destruct (is_exit n) eqn:En; simpl.
    + rewrite (IH fuel false w1) by (done || lia). simpl. by rewrite andb_false_r.
    + destruct (cb n w1) as [[r w2]|] eqn:Ec; [|done]. simpl.
      rewrite (IH fuel running w2); [done| |lia].
      by rewrite (cb_frame _ _ _ _ Ec).
Qed.

Lemma cmd_thread_stop_run q sem w wa wb :
  get_t w = Some {| cmd_queue := q; cmd_sem := sem |} -> 0 <= sem < 2 ^ 31 - 1 ->
  (forall A (m : M history A) w r w', wext A m w = Some (r, w') -> get_t w' = get_t w) ->
  wext _ sys_malloc w = Some (true, wa) -> wext _ sys_malloc wa = Some (true, wb) ->
  mm_camera_cmd_thread_stop tid get_t set_t wext cb w =
  (process (q ++ [MM_CAMERA_CMD_TYPE_EXIT]) sem;; wext _ (note (EThreadJoin tid));; mret 0)
    (set_t (Some {| cmd_queue := q ++ [MM_CAMERA_CMD_TYPE_EXIT]; cmd_sem := sem |}) wb).
Proof.
  intros Hw Hsem Hext Ha Hb.
  unfold mm_camera_cmd_thread_stop, cmd_enq, cam_sem_post, mm_camera_cmd_thread, cam_sem_wait.
  unfold mbind, M_bind, mret, M_ret, gets, modify, deref.
  rewrite Ha. apply Hext in Ha. rewrite Hw in Ha.
  rewrite Hb. apply Hext in Hb. rewrite Ha in Hb.
  rewrite Hb. assert (Hs : is_Some (get_t wb)) by (by eexists).
  assert (Hs2 : forall t, is_Some (get_t (set_t (Some t) wb))) by (intros t; rewrite get_set by done; by eexists).
  rewrite get_set by done. rewrite get_set by done. simpl. rewrite set_set, get_set by done. simpl.
  rewrite i32_id by (unfold i32_range; lia).
  destruct (Z.eqb_spec (sem + 1) 0) as [|_]; [lia|].
  rewrite (i32_id (sem + 1 - 1)), Z.add_simpl_r by (unfold i32_range; lia).
  rewrite !set_set. set (w1 := set_t _ wb).
  assert (Hw1 : get_t w1 = Some {| cmd_queue := q ++ [MM_CAMERA_CMD_TYPE_EXIT]; cmd_sem := sem |})
    by (by apply get_set).
  rewrite (cmd_drain_process _ _ _ true w1 Hw1) by done.
  unfold mbind, M_bind, mret, M_ret. simpl.
  rewrite existsb_app. simpl. rewrite orb_true_r. simpl.
  destruct (process _ sem w1) as [[[] w2]|]; done.
Qed.

(** C33: joining a command thread runs every command that was queued before
    the exit command, in the order they were queued, and then the thread
    leaves its loop: the join neither drops a command nor waits for ever.
    The number of commands in the queue is enough fuel for the loop. *)
Theorem cmd_thread_stop_drains q sem w
  (Hw : get_t w = Some {| cmd_queue := q; cmd_sem := sem |})
  (Hsem : 0 <= sem < 2 ^ 31 - 1)
  (Hext : forall A (m : M history A) w r w', wext A m w = Some (r, w') -> get_t w' = get_t w)
  (Hmalloc : forall w, exists w', wext _ sys_malloc w = Some (true, w')) :
  exists wa wb, wext _ sys_malloc w = Some (true, wa) /\ wext _ sys_malloc wa = Some (true, wb) /\
  mm_camera_cmd_thread_stop tid get_t set_t wext cb w =
  (process (q ++ [MM_CAMERA_CMD_TYPE_EXIT]) sem;; wext _ (note (EThreadJoin tid));; mret 0)
    (set_t (Some {| cmd_queue := q ++ [MM_CAMERA_CMD_TYPE_EXIT]; cmd_sem := sem |}) wb).
Proof.
  destruct (Hmalloc w) as [wa Ha]. destruct (Hmalloc wa) as [wb Hb]. exists wa, wb.
  split; [done|]. split; [done|]. by eapply cmd_thread_stop_run.
Qed.

End CmdSpecs.

(** A thread whose callback records the requests it is given. *)
Record demo_cmd_world := { dw_t : option mm_camera_cmd_thread_t; dw_log : list Z; dw_tr : history }.

Definition demo_cb (n : mm_camera_cmdcb_t) : M demo_cmd_world unit :=
  match n with
  | MM_CAMERA_CMD_TYPE_REQ_DATA_CB k =>
      modify (fun w => {| dw_t := dw_t w; dw_log := dw_log w ++ [k]; dw_tr := dw_tr w |})
  | _ => mret tt
  end.

Definition dw_set_t (t : option mm_camera_cmd_thread_t) (w : demo_cmd_world) : demo_cmd_world :=
  {| dw_t := t; dw_log := dw_log w; dw_tr := dw_tr w |}.
Definition dw_ext A (m : M history A) : M demo_cmd_world A :=
  zoom dw_tr (fun tr w => {| dw_t := dw_t w; dw_log := dw_log w; dw_tr := tr |}) m.

Definition demo_cmd_start : demo_cmd_world :=
  {| dw_t := Some {| cmd_queue := [MM_CAMERA_CMD_TYPE_REQ_DATA_CB 3; MM_CAMERA_CMD_TYPE_REQ_DATA_CB 4];
                     cmd_sem := 2 |}; dw_log := []; dw_tr := [] |}.

Lemma demo_cb_frame n w r w' : demo_cb n w = Some (r, w') -> dw_t w' = dw_t w.
Proof.
  destruct n; unfold demo_cb, modify, mret, M_ret; intros H; injection H as _ <-; reflexivity.
Qed.

Lemma cmd_thread_stop_drains_witness :
  exists w2, mm_camera_cmd_thread_stop (E := demo_env) T_channel_cmd dw_t dw_set_t dw_ext demo_cb
               demo_cmd_start = Some (0, w2) /\ dw_log w2 = [3; 4].
Proof.
  destruct (cmd_thread_stop_drains (E := demo_env) T_channel_cmd dw_t dw_set_t dw_ext demo_cb
    ltac:(reflexivity) ltac:(reflexivity)
    demo_cb_frame
    [MM_CAMERA_CMD_TYPE_REQ_DATA_CB 3; MM_CAMERA_CMD_TYPE_REQ_DATA_CB 4] 2 demo_cmd_start
    eq_refl ltac:(lia)
    ltac:(intros A m w r w'; unfold dw_ext, zoom; destruct (m (dw_tr w)) as [[]|];
          intros [= <- <-]; reflexivity)
    ltac:(intros w; eexists; reflexivity)) as (wa & wb & _ & _ & H).
  eexists. split; [vm_compute; reflexivity|reflexivity].
Defined.
