(* ===== verification/Stream.v ===== *)
(** * Streams ([mm_camera_stream.c])

    A stream is a device file opened for one kind of frames, the buffers the
    client allocated for it, and the callbacks its frames go to.  The state
    machine of a stream and every operation it performs are modelled here;
    StreamOffset has the frame layouts, StreamProps the theorems.

    An operation runs on the stream object and on what it shares with its
    channel: the poll thread, the channel's command thread and the history of
    outside calls. *)

From Stdlib Require Import ZArith Lia.
From stdpp Require Import numbers list.
From S2P Require Import Prelude CamTypes StreamOffset Env Handles Threads.

(** ** Data *)

Inductive mm_stream_state_type_t : Set :=
| MM_STREAM_STATE_NOTUSED
| MM_STREAM_STATE_INITED
| MM_STREAM_STATE_ACQUIRED
| MM_STREAM_STATE_CFG
| MM_STREAM_STATE_BUFFED
| MM_STREAM_STATE_REG
| MM_STREAM_STATE_ACTIVE.

#[export] Instance stream_state_eq_dec : EqDecision mm_stream_state_type_t.
Proof. solve_decision. Defined.

(** Function pointers are numbers; a null one is [None]. *)
Record mm_camera_stream_mem_vtbl_t := {
  get_bufs : option Z;
  put_bufs : option Z;
  invalidate_buf : option Z;
  clean_invalidate_buf : option Z
}.

Record mm_camera_stream_config_t := {
  c_stream_info : option cam_stream_info_t;
  c_padding_info : cam_padding_info_t;
  c_mem_vtbl : mm_camera_stream_mem_vtbl_t;
  c_stream_cb : option Z;
  c_userdata : Z
}.

(** The events, with their payloads.  A parameter or action payload is only
    ever compared with null: it is whether the pointer is set. *)
Inductive mm_stream_evt_type_t : Type :=
| MM_STREAM_EVT_ACQUIRE
| MM_STREAM_EVT_RELEASE
| MM_STREAM_EVT_SET_FMT (config : mm_camera_stream_config_t)
| MM_STREAM_EVT_GET_BUF
| MM_STREAM_EVT_PUT_BUF
| MM_STREAM_EVT_REG_BUF
| MM_STREAM_EVT_UNREG_BUF
| MM_STREAM_EVT_START
| MM_STREAM_EVT_STOP
| MM_STREAM_EVT_QBUF (frame : mm_camera_buf_def_t)
| MM_STREAM_EVT_SET_PARM (parms : bool)
| MM_STREAM_EVT_GET_PARM (parms : bool)
| MM_STREAM_EVT_DO_ACTION (actions : bool).

Record mm_stream_data_cb_t := { cb : option Z; cb_user_data : Z; cb_count : Z }.

Record mm_stream_buf_status_t := {
  buf_refcnt : Z; initial_reg_flag : Z; in_kernel : bool
}.

Definition set_refcnt (n : Z) (s : mm_stream_buf_status_t) : mm_stream_buf_status_t :=
  {| buf_refcnt := n; initial_reg_flag := initial_reg_flag s; in_kernel := in_kernel s |}.
Definition set_in_kernel (b : bool) (s : mm_stream_buf_status_t) : mm_stream_buf_status_t :=
  {| buf_refcnt := buf_refcnt s; initial_reg_flag := initial_reg_flag s; in_kernel := b |}.

Definition MM_CAMERA_STREAM_BUF_CB_MAX : nat := 4.

(** [has_ch_obj]: the pointer to the parent channel is set. *)
Record mm_stream_t := {
  my_hdl : Z;
  server_stream_id : Z;
  fd : Z;
  state : mm_stream_state_type_t;
  stream_info : option cam_stream_info_t;
  padding_info : cam_padding_info_t;
  frame_offset : cam_frame_len_offset_t;
  cmd_thread : option mm_camera_cmd_thread_t;
  buf_cb : list mm_stream_data_cb_t;
  buf_num : Z;
  buf : option (list mm_camera_buf_def_t);
  buf_status : option (list mm_stream_buf_status_t);
  has_ch_obj : bool;
  is_bundled : bool;
  mem_vtbl : mm_camera_stream_mem_vtbl_t
}.

Definition set_my_hdl (v : Z) (x : mm_stream_t) : mm_stream_t :=
  {| my_hdl := v; server_stream_id := server_stream_id x; fd := fd x; state := state x;
     stream_info := stream_info x; padding_info := padding_info x; frame_offset :=
     frame_offset x; cmd_thread := cmd_thread x; buf_cb := buf_cb x; buf_num := buf_num x;
     buf := buf x; buf_status := buf_status x; has_ch_obj := has_ch_obj x; is_bundled :=
     is_bundled x; mem_vtbl := mem_vtbl x |}.

Definition set_server_stream_id (v : Z) (x : mm_stream_t) : mm_stream_t :=
  {| my_hdl := my_hdl x; server_stream_id := v; fd := fd x; state := state x; stream_info :=
     stream_info x; padding_info := padding_info x; frame_offset := frame_offset x;
     cmd_thread := cmd_thread x; buf_cb := buf_cb x; buf_num := buf_num x; buf := buf x;
     buf_status := buf_status x; has_ch_obj := has_ch_obj x; is_bundled := is_bundled x;
     mem_vtbl := mem_vtbl x |}.

Definition set_fd (v : Z) (x : mm_stream_t) : mm_stream_t :=
  {| my_hdl := my_hdl x; server_stream_id := server_stream_id x; fd := v; state := state x;
     stream_info := stream_info x; padding_info := padding_info x; frame_offset :=
     frame_offset x; cmd_thread := cmd_thread x; buf_cb := buf_cb x; buf_num := buf_num x;
     buf := buf x; buf_status := buf_status x; has_ch_obj := has_ch_obj x; is_bundled :=
     is_bundled x; mem_vtbl := mem_vtbl x |}.

Definition set_state (v : mm_stream_state_type_t) (x : mm_stream_t) : mm_stream_t :=
  {| my_hdl := my_hdl x; server_stream_id := server_stream_id x; fd := fd x; state := v;
     stream_info := stream_info x; padding_info := padding_info x; frame_offset :=
     frame_offset x; cmd_thread := cmd_thread x; buf_cb := buf_cb x; buf_num := buf_num x;
     buf := buf x; buf_status := buf_status x; has_ch_obj := has_ch_obj x; is_bundled :=
     is_bundled x; mem_vtbl := mem_vtbl x |}.

Definition set_stream_info (v : option cam_stream_info_t) (x : mm_stream_t) : mm_stream_t :=
  {| my_hdl := my_hdl x; server_stream_id := server_stream_id x; fd := fd x; state := state
     x; stream_info := v; padding_info := padding_info x; frame_offset := frame_offset x;
     cmd_thread := cmd_thread x; buf_cb := buf_cb x; buf_num := buf_num x; buf := buf x;
     buf_status := buf_status x; has_ch_obj := has_ch_obj x; is_bundled := is_bundled x;
     mem_vtbl := mem_vtbl x |}.

Definition set_padding_info (v : cam_padding_info_t) (x : mm_stream_t) : mm_stream_t :=
  {| my_hdl := my_hdl x; server_stream_id := server_stream_id x; fd := fd x; state := state
     x; stream_info := stream_info x; padding_info := v; frame_offset := frame_offset x;
     cmd_thread := cmd_thread x; buf_cb := buf_cb x; buf_num := buf_num x; buf := buf x;
     buf_status := buf_status x; has_ch_obj := has_ch_obj x; is_bundled := is_bundled x;
     mem_vtbl := mem_vtbl x |}.

Definition set_frame_offset (v : cam_frame_len_offset_t) (x : mm_stream_t) : mm_stream_t :=
  {| my_hdl := my_hdl x; server_stream_id := server_stream_id x; fd := fd x; state := state
     x; stream_info := stream_info x; padding_info := padding_info x; frame_offset := v;
     cmd_thread := cmd_thread x; buf_cb := buf_cb x; buf_num := buf_num x; buf := buf x;
     buf_status := buf_status x; has_ch_obj := has_ch_obj x; is_bundled := is_bundled x;
     mem_vtbl := mem_vtbl x |}.

Definition set_cmd_thread (v : option mm_camera_cmd_thread_t) (x : mm_stream_t) : mm_stream_t :=
  {| my_hdl := my_hdl x; server_stream_id := server_stream_id x; fd := fd x; state := state
     x; stream_info := stream_info x; padding_info := padding_info x; frame_offset :=
     frame_offset x; cmd_thread := v; buf_cb := buf_cb x; buf_num := buf_num x; buf := buf
     x; buf_status := buf_status x; has_ch_obj := has_ch_obj x; is_bundled := is_bundled x;
     mem_vtbl := mem_vtbl x |}.

Definition set_buf_cb (v : list mm_stream_data_cb_t) (x : mm_stream_t) : mm_stream_t :=
  {| my_hdl := my_hdl x; server_stream_id := server_stream_id x; fd := fd x; state := state
     x; stream_info := stream_info x; padding_info := padding_info x; frame_offset :=
     frame_offset x; cmd_thread := cmd_thread x; buf_cb := v; buf_num := buf_num x; buf :=
     buf x; buf_status := buf_status x; has_ch_obj := has_ch_obj x; is_bundled := is_bundled
     x; mem_vtbl := mem_vtbl x |}.

Definition set_buf_num (v : Z) (x : mm_stream_t) : mm_stream_t :=
  {| my_hdl := my_hdl x; server_stream_id := server_stream_id x; fd := fd x; state := state
     x; stream_info := stream_info x; padding_info := padding_info x; frame_offset :=
     frame_offset x; cmd_thread := cmd_thread x; buf_cb := buf_cb x; buf_num := v; buf :=
     buf x; buf_status := buf_status x; has_ch_obj := has_ch_obj x; is_bundled := is_bundled
     x; mem_vtbl := mem_vtbl x |}.

Definition set_buf (v : option (list mm_camera_buf_def_t)) (x : mm_stream_t) : mm_stream_t :=
  {| my_hdl := my_hdl x; server_stream_id := server_stream_id x; fd := fd x; state := state
     x; stream_info := stream_info x; padding_info := padding_info x; frame_offset :=
     frame_offset x; cmd_thread := cmd_thread x; buf_cb := buf_cb x; buf_num := buf_num x;
     buf := v; buf_status := buf_status x; has_ch_obj := has_ch_obj x; is_bundled :=
     is_bundled x; mem_vtbl := mem_vtbl x |}.

Definition set_buf_status (v : option (list mm_stream_buf_status_t)) (x : mm_stream_t) : mm_stream_t :=
  {| my_hdl := my_hdl x; server_stream_id := server_stream_id x; fd := fd x; state := state
     x; stream_info := stream_info x; padding_info := padding_info x; frame_offset :=
     frame_offset x; cmd_thread := cmd_thread x; buf_cb := buf_cb x; buf_num := buf_num x;
     buf := buf x; buf_status := v; has_ch_obj := has_ch_obj x; is_bundled := is_bundled x;
     mem_vtbl := mem_vtbl x |}.

Definition set_is_bundled (v : bool) (x : mm_stream_t) : mm_stream_t :=
  {| my_hdl := my_hdl x; server_stream_id := server_stream_id x; fd := fd x; state := state
     x; stream_info := stream_info x; padding_info := padding_info x; frame_offset :=
     frame_offset x; cmd_thread := cmd_thread x; buf_cb := buf_cb x; buf_num := buf_num x;
     buf := buf x; buf_status := buf_status x; has_ch_obj := has_ch_obj x; is_bundled := v;
     mem_vtbl := mem_vtbl x |}.

Definition set_mem_vtbl (v : mm_camera_stream_mem_vtbl_t) (x : mm_stream_t) : mm_stream_t :=
  {| my_hdl := my_hdl x; server_stream_id := server_stream_id x; fd := fd x; state := state
     x; stream_info := stream_info x; padding_info := padding_info x; frame_offset :=
     frame_offset x; cmd_thread := cmd_thread x; buf_cb := buf_cb x; buf_num := buf_num x;
     buf := buf x; buf_status := buf_status x; has_ch_obj := has_ch_obj x; is_bundled :=
     is_bundled x; mem_vtbl := v |}.

Definition zero_vtbl : mm_camera_stream_mem_vtbl_t :=
  {| get_bufs := None; put_bufs := None; invalidate_buf := None; clean_invalidate_buf := None |}.

Definition zero_cb : mm_stream_data_cb_t := {| cb := None; cb_user_data := 0; cb_count := 0 |}.

(** [memset(my_obj, 0, sizeof(mm_stream_t))]. *)
Definition zero_stream : mm_stream_t :=
  {| my_hdl := 0; server_stream_id := 0; fd := 0; state := MM_STREAM_STATE_NOTUSED;
     stream_info := None;
     padding_info := {| width_padding := 0; height_padding := 0; plane_padding := 0 |};
     frame_offset := zero_frame; cmd_thread := None;
     buf_cb := replicate MM_CAMERA_STREAM_BUF_CB_MAX zero_cb; buf_num := 0; buf := None;
     buf_status := None; has_ch_obj := false; is_bundled := false; mem_vtbl := zero_vtbl |}.

(** What a stream operation runs on.  [w_chq] is the channel's command thread;
    [w_cam] and [w_ch] are the handles of the camera and of the channel. *)
Record sworld := {
  w_s : mm_stream_t;
  w_poll : mm_camera_poll_thread_t;
  w_chq : option mm_camera_cmd_thread_t;
  w_cam : Z;
  w_ch : Z;
  w_tr : history
}.

Definition put_w_s (v : mm_stream_t) (x : sworld) : sworld :=
  {| w_s := v; w_poll := w_poll x; w_chq := w_chq x; w_cam := w_cam x; w_ch := w_ch x; w_tr
     := w_tr x |}.

Definition put_w_poll (v : mm_camera_poll_thread_t) (x : sworld) : sworld :=
  {| w_s := w_s x; w_poll := v; w_chq := w_chq x; w_cam := w_cam x; w_ch := w_ch x; w_tr :=
     w_tr x |}.

Definition put_w_chq (v : option mm_camera_cmd_thread_t) (x : sworld) : sworld :=
  {| w_s := w_s x; w_poll := w_poll x; w_chq := v; w_cam := w_cam x; w_ch := w_ch x; w_tr :=
     w_tr x |}.

Definition put_w_tr (v : history) (x : sworld) : sworld :=
  {| w_s := w_s x; w_poll := w_poll x; w_chq := w_chq x; w_cam := w_cam x; w_ch := w_ch x;
     w_tr := v |}.

Section Ops.
Context `{E : Env}.

(** ** Access to the state *)

Definition sext {A} (m : M history A) : M sworld A := zoom w_tr put_w_tr m.
Definition spoll {A} (m : M pworld A) : M sworld A :=
  zoom (fun w => {| pw_poll := w_poll w; pw_tr := w_tr w |})
       (fun p w => put_w_poll (pw_poll p) (put_w_tr (pw_tr p) w)) m.

(** [my_obj->field], and an assignment to it. *)
Definition obj {A} (f : mm_stream_t -> A) : M sworld A := gets (fun w => f (w_s w)).
Definition upd (f : mm_stream_t -> mm_stream_t) : M sworld unit :=
  modify (fun w => put_w_s (f (w_s w)) w).

(** [my_obj->buf_status[idx]] and [my_obj->buf[idx]]. *)
Definition at_index {A} (l : option (list A)) (idx : Z) : option A :=
  if idx <? 0 then None else l ← l; l !! Z.to_nat idx.

Definition status_at (idx : Z) : M sworld mm_stream_buf_status_t :=
  l ← obj buf_status; deref (at_index l idx).
Definition upd_status (idx : Z) (f : mm_stream_buf_status_t -> mm_stream_buf_status_t) :
  M sworld unit :=
  s ← status_at idx;
  upd (fun x => set_buf_status (<[Z.to_nat idx := f s]> <$> buf_status x) x).

Definition buf_at (idx : Z) : M sworld mm_camera_buf_def_t :=
  l ← obj buf; deref (at_index l idx).
Definition upd_buf (idx : Z) (f : mm_camera_buf_def_t -> mm_camera_buf_def_t) : M sworld unit :=
  b ← buf_at idx;
  upd (fun x => set_buf (<[Z.to_nat idx := f b]> <$> buf x) x).

(** ** Buffers to the kernel and back *)

Definition mm_stream_qbuf (b : mm_camera_buf_def_t) : M sworld Z :=
  let index := u32 (b_buf_idx b) in
  vt ← obj mem_vtbl;
  rc ← match invalidate_buf vt with
       | Some f => sext (ext (fun tr => env_invalidate_buf f tr (i32 index)) (EInvalidate (i32 index)))
       | None => mret 0
       end;
  if rc <? 0 then mret rc
  else
    d ← obj fd;
    sext (sys_ioctl d (VIDIOC_QBUF index (b_planes b) (u32 (b_num_planes b)))).

Definition mm_stream_buf_done (frame : mm_camera_buf_def_t) : M sworld Z :=
  s ← status_at (b_buf_idx frame);
  if buf_refcnt s =? 0 then mret (-1)
  else
    let n := u8 (buf_refcnt s - 1) in
    upd_status (b_buf_idx frame) (set_refcnt n);;
    if n =? 0 then
      rc ← mm_stream_qbuf frame;
      if rc <? 0 then mret rc
      else upd_status (b_buf_idx frame) (set_in_kernel true);; mret rc
    else mret 0.

Definition mm_stream_request_buf : M sworld Z :=
  n ← obj buf_num;
  if MM_CAMERA_MAX_NUM_FRAMES <? n then mret (-1)
  else d ← obj fd; sext (sys_ioctl d (VIDIOC_REQBUFS n)).

(** The body of the loop of [mm_stream_reg_buf]; a result other than 0 ends
    the loop. *)
Definition reg_one_buf (i : nat) : M sworld Z :=
  let i := Z.of_nat i in
  s ← status_at i;
  if initial_reg_flag s =? 0 then
    upd_status i (fun s => set_in_kernel false (set_refcnt 1 s));; mret 0
  else
    b ← buf_at i;
    rc ← mm_stream_qbuf b;
    if rc =? 0 then upd_status i (fun s => set_in_kernel true (set_refcnt 0 s));; mret rc
    else mret rc.

Definition mm_stream_reg_buf : M sworld Z :=
  rc ← mm_stream_request_buf;
  if rc =? 0 then
    n ← obj buf_num;
    for_until (seq 0 (Z.to_nat n)) (fun rc => negb (rc =? 0)) 0 reg_one_buf
  else mret rc.

Definition mm_stream_unreg_buf : M sworld Z :=
  d ← obj fd;
  rc ← sext (sys_ioctl d (VIDIOC_REQBUFS 0));
  st ← obj buf_status;
  n ← obj buf_num;
  match st with
  | Some _ =>
      for_each (seq 0 (Z.to_nat n)) (fun i =>
        upd_status (Z.of_nat i) (fun s => set_in_kernel false (set_refcnt 0 s)));;
      mret rc
  | None => mret rc
  end.

(** ** Mapping buffers to the server *)

Definition mm_stream_map_buf (buf_type frame_idx plane_idx bfd size : Z) : M sworld Z :=
  c ← obj has_ch_obj;
  if c : bool then
    sid ← obj server_stream_id;
    sext (mm_camera_util_sendmsg (CAM_MAPPING_TYPE_FD_MAPPING
      {| map_type := buf_type; map_stream_id := sid; map_frame_idx := frame_idx;
         map_plane_idx := plane_idx; map_cookie := 0; map_fd := bfd; map_size := size |}) bfd)
  else mret (-1).

Definition mm_stream_unmap_buf (buf_type frame_idx plane_idx : Z) : M sworld Z :=
  c ← obj has_ch_obj;
  if c : bool then
    sid ← obj server_stream_id;
    sext (mm_camera_util_sendmsg (CAM_MAPPING_TYPE_FD_UNMAPPING
      {| unmap_type := buf_type; unmap_stream_id := sid; unmap_frame_idx := frame_idx;
         unmap_plane_idx := plane_idx; unmap_cookie := 0 |}) 0)
  else mret (-1).

Definition mm_stream_map_buf_ops (frame_idx plane_idx bfd size : Z) : M sworld Z :=
  mm_stream_map_buf CAM_MAPPING_BUF_TYPE_STREAM_BUF frame_idx plane_idx bfd size.
Definition mm_stream_unmap_buf_ops (frame_idx plane_idx : Z) : M sworld Z :=
  mm_stream_unmap_buf CAM_MAPPING_BUF_TYPE_STREAM_BUF frame_idx plane_idx.

(** The client's function, with the operation table it is given. *)
Fixpoint run_client {A} (c : client A) : M sworld A :=
  match c with
  | CRet a => mret a
  | CMap f p d s k => rc ← mm_stream_map_buf_ops f p d s; run_client (k rc)
  | CUnmap f p k => rc ← mm_stream_unmap_buf_ops f p; run_client (k rc)
  end.

Definition mm_stream_deinit_bufs : M sworld Z :=
  b ← obj buf;
  match b with
  | None => mret 0
  | Some _ =>
      vt ← obj mem_vtbl;
      f ← deref (put_bufs vt);
      tr ← gets w_tr;
      rc ← run_client (env_put_bufs f tr);
      sext (note (EPutBufs rc));;
      upd (set_buf None);;
      upd (set_buf_status None);;
      mret rc
  end.

(** The body of the loop of [mm_stream_init_bufs]. *)
Definition init_one_buf (flags : list Z) (i : nat) : M sworld unit :=
  flag ← deref (flags !! i);
  upd_status (Z.of_nat i) (fun s => {| buf_refcnt := buf_refcnt s; initial_reg_flag := flag;
                                       in_kernel := in_kernel s |});;
  h ← obj my_hdl;
  info ← obj stream_info;
  info ← deref info;
  upd_buf (Z.of_nat i) (fun b =>
    {| b_stream_id := h; b_stream_type := stream_type info; b_buf_idx := b_buf_idx b;
       b_is_uv_subsampled := b_is_uv_subsampled b; b_ts := b_ts b; b_frame_idx := b_frame_idx b;
       b_num_planes := b_num_planes b; b_planes := b_planes b; b_fd := b_fd b;
       b_frame_len := b_frame_len b |}).

Definition mm_stream_init_bufs : M sworld Z :=
  b ← obj buf;
  (match b with Some _ => mm_stream_deinit_bufs;; mret tt | None => mret tt end);;
  vt ← obj mem_vtbl;
  f ← deref (get_bufs vt);
  tr ← gets w_tr;
  off ← obj frame_offset;
  r ← run_client (env_get_bufs f tr off);
  sext (note (EGetBufs (gb_rc r)));;
  upd (set_frame_offset (gb_offset r));;
  upd (set_buf_num (u8 (gb_num_bufs r)));;
  upd (set_buf (gb_bufs r));;
  if gb_rc r =? 0 then
    ok ← sext sys_malloc;
    if ok : bool then
      let n := Z.to_nat (u8 (gb_num_bufs r)) in
      upd (set_buf_status (Some (replicate n
             {| buf_refcnt := 0; initial_reg_flag := 0; in_kernel := false |})));;
      for_each (seq 0 n) (init_one_buf (gb_reg_flags r));;
      mret (gb_rc r)
    else
      upd (set_buf_status None);;
      mm_stream_deinit_bufs;;
      mret (-1)
  else mret (gb_rc r).

(** ** Configuration *)

Definition mm_stream_get_v4l2_fmt (f : cam_format_t) : v4l2_pix_fmt :=
  match f with
  | CAM_FORMAT_YUV_420_NV12 | CAM_FORMAT_YUV_420_NV12_VENUS => V4L2_PIX_FMT_NV12
  | CAM_FORMAT_YUV_420_NV21 => V4L2_PIX_FMT_NV21
  | CAM_FORMAT_BAYER_QCOM_RAW_10BPP_GBRG | CAM_FORMAT_BAYER_QCOM_RAW_10BPP_GRBG
  | CAM_FORMAT_BAYER_QCOM_RAW_10BPP_RGGB | CAM_FORMAT_BAYER_QCOM_RAW_10BPP_BGGR =>
      V4L2_PIX_FMT_SBGGR10
  | CAM_FORMAT_YUV_422_NV61 => V4L2_PIX_FMT_NV61
  | CAM_FORMAT_YUV_RAW_8BIT_YUYV => V4L2_PIX_FMT_YUYV
  | CAM_FORMAT_YUV_RAW_8BIT_YVYU => V4L2_PIX_FMT_YVYU
  | CAM_FORMAT_YUV_RAW_8BIT_UYVY => V4L2_PIX_FMT_UYVY
  | CAM_FORMAT_YUV_RAW_8BIT_VYUY => V4L2_PIX_FMT_VYUY
  | CAM_FORMAT_YUV_420_YV12 => V4L2_PIX_FMT_NV12
  | CAM_FORMAT_YUV_422_NV16 => V4L2_PIX_FMT_NV16
  | _ => PIX_FMT_0
  end.

(** The server shares the stream information and may change it during the
    control call. *)
Definition mm_stream_sync_info : M sworld Z :=
  info ← obj stream_info;
  info ← deref info;
  sid ← obj server_stream_id;
  pad ← obj padding_info;
  let '(rc, info, off) := mm_stream_calc_offset VENUS A_FAMILY (with_svr_id info sid) pad in
  upd (set_stream_info (Some info));;
  upd (set_frame_offset off);;
  if rc =? 0 then
    d ← obj fd;
    rc ← sext (mm_camera_util_s_ctrl d CAM_PRIV_STREAM_INFO_SYNC 0);
    tr ← gets w_tr;
    upd (set_stream_info (Some (env_sync_info tr info)));;
    mret rc
  else mret rc.

Definition mm_stream_set_fmt : M sworld Z :=
  info ← obj stream_info;
  info ← deref info;
  if (width (dim info) =? 0) || (height (dim info) =? 0) then mret (-1)
  else
    d ← obj fd;
    off ← obj frame_offset;
    sext (sys_ioctl d (VIDIOC_S_FMT
      {| f_width := width (dim info); f_height := height (dim info);
         f_pixelformat := mm_stream_get_v4l2_fmt (fmt info); f_num_planes := num_planes off;
         f_plane_sizes := map mp_len (take (Z.to_nat (num_planes off)) (mp off)) |})).

Definition mm_stream_config (c : mm_camera_stream_config_t) : M sworld Z :=
  upd (set_stream_info (c_stream_info c));;
  upd (set_buf_num 0);;
  upd (set_mem_vtbl (c_mem_vtbl c));;
  upd (set_padding_info (c_padding_info c));;
  upd (fun x => set_buf_cb (<[0%nat := {| cb := c_stream_cb c; cb_user_data := c_userdata c;
                                           cb_count := -1 |}]> (buf_cb x)) x);;
  rc ← mm_stream_sync_info;
  if rc =? 0 then mm_stream_set_fmt else mret rc.

Definition mm_stream_set_ext_mode : M sworld Z :=
  d ← obj fd;
  rc ← sext (sys_ioctl d VIDIOC_S_PARM);
  if rc =? 0 then
    tr ← gets w_tr;
    upd (set_server_stream_id (u32 (env_extendedmode tr d)));; mret rc
  else mret rc.

Definition mm_stream_release : M sworld Z :=
  d ← obj fd;
  (if 0 <? d then sext (sys_close d) else mret tt);;
  upd (fun _ => zero_stream);;
  mret 0.

Definition mm_stream_set_parm (in_value : bool) : M sworld Z :=
  if in_value then d ← obj fd; sext (mm_camera_util_s_ctrl d CAM_PRIV_STREAM_PARM 0) else mret (-1).
Definition mm_stream_get_parm (in_value : bool) : M sworld Z :=
  if in_value then d ← obj fd; sext (mm_camera_util_g_ctrl d CAM_PRIV_STREAM_PARM 0) else mret (-1).
Definition mm_stream_do_action (in_value : bool) : M sworld Z :=
  if in_value then d ← obj fd; sext (mm_camera_util_s_ctrl d CAM_PRIV_STREAM_PARM 0) else mret (-1).

(** [mm_stream_reg_buf_cb]: the first free slot. *)
Definition mm_stream_reg_buf_cb (val : mm_stream_data_cb_t) : M sworld Z :=
  cbs ← obj buf_cb;
  match list_find (fun c => cb c = None) cbs with
  | Some (i, _) => upd (fun x => set_buf_cb (<[i := val]> (buf_cb x)) x);; mret 0
  | None => mret (-1)
  end.

(** ** Streaming *)

(** The callback [mm_stream_data_notify] as a function pointer. *)
Definition DATA_NOTIFY : Z := 1.

Definition mm_stream_streamon : M sworld Z :=
  h ← obj my_hdl;
  d ← obj fd;
  rc ← spoll (mm_camera_poll_thread_add_poll_fd h d (Some DATA_NOTIFY) h);
  if rc <? 0 then mret rc
  else
    rc ← sext (sys_ioctl d VIDIOC_STREAMON);
    (if rc <? 0 then spoll (mm_camera_poll_thread_del_poll_fd h);; mret tt else mret tt);;
    mret rc.

Definition mm_stream_streamoff : M sworld Z :=
  h ← obj my_hdl;
  spoll (mm_camera_poll_thread_del_poll_fd h);;
  d ← obj fd;
  sext (sys_ioctl d VIDIOC_STREAMOFF).

(** A dequeued buffer is described in its slot of the buffer array; the
    second result is the information record, when there is one. *)
Definition mm_stream_read_msm_frame (nplanes : Z) : M sworld (Z * option mm_camera_buf_info_t) :=
  d ← obj fd;
  r ← sext (sys_dqbuf d nplanes);
  let '(rc, vb) := r in
  if rc <? 0 then mret (rc, None)
  else
    let idx := i8 (dq_index vb) in
    h ← obj my_hdl;
    upd_buf idx (fun b =>
      {| b_stream_id := h; b_stream_type := b_stream_type b; b_buf_idx := idx;
         b_is_uv_subsampled := dq_nv14 vb; b_ts := (dq_sec vb, dq_usec vb * 1000);
         b_frame_idx := dq_sequence vb; b_num_planes := b_num_planes b;
         b_planes := b_planes b; b_fd := b_fd b; b_frame_len := b_frame_len b |});;
    let info := {| bi_stream_id := h; bi_frame_idx := dq_sequence vb;
                   bi_buf := Some {| br_stream := h; br_idx := idx |} |} in
    vt ← obj mem_vtbl;
    match clean_invalidate_buf vt with
    | Some f =>
        rc ← sext (ext (fun tr => env_clean_invalidate_buf f tr idx) (ECleanInvalidate idx));
        mret (rc, Some info)
    | None => mret (rc, Some info)
    end.

Definition has_cb (cbs : list mm_stream_data_cb_t) : bool :=
  existsb (fun c => match cb c with Some _ => true | None => false end) cbs.

(** The stream's own command thread, and the channel's. *)
Definition scmd_get (w : sworld) : option mm_camera_cmd_thread_t := cmd_thread (w_s w).
Definition scmd_set (t : option mm_camera_cmd_thread_t) (w : sworld) : sworld :=
  put_w_s (set_cmd_thread t (w_s w)) w.

Definition mm_stream_handle_rcvd_buf (info : mm_camera_buf_info_t) (hascb : bool) : M sworld unit :=
  let node := MM_CAMERA_CMD_TYPE_DATA_CB info in
  bundled ← obj is_bundled;
  (if bundled : bool then cmd_post w_chq put_w_chq (@sext) node;; mret tt else mret tt);;
  if hascb then cmd_post scmd_get scmd_set (@sext) node;; mret tt else mret tt.

(** The status update of [mm_stream_data_notify]. *)
Definition notify_status (bundled hascb : bool) (s : mm_stream_buf_status_t) : mm_stream_buf_status_t :=
  let s := set_in_kernel false s in
  let s := if bundled then set_refcnt (u8 (buf_refcnt s + 1)) s else s in
  set_refcnt (u8 (buf_refcnt s + if hascb then 1 else 0)) s.

Definition mm_stream_data_notify : M sworld unit :=
  st ← obj state;
  if decide (st = MM_STREAM_STATE_ACTIVE) then
    off ← obj frame_offset;
    r ← mm_stream_read_msm_frame (u8 (num_planes off));
    let '(rc, info) := r in
    if rc =? 0 then
      info ← deref info;
      ref ← deref (bi_buf info);
      b ← buf_at (br_idx ref);
      cbs ← obj buf_cb;
      bundled ← obj is_bundled;
      upd_status (b_buf_idx b) (notify_status bundled (has_cb cbs));;
      mm_stream_handle_rcvd_buf info (has_cb cbs)
    else mret tt
  else mret tt.

(** A buffer the callback hands back while it runs comes in as a QBUF event,
    which only an active stream handles. *)
Definition cb_return (b : mm_camera_buf_def_t) : M sworld unit :=
  st ← obj state;
  if decide (st = MM_STREAM_STATE_ACTIVE) then mm_stream_buf_done b;; mret tt else mret tt.

(** One invocation of a callback. *)
Definition invoke (ref : buf_ref) (f ud : Z) : M sworld unit :=
  b ← buf_at (br_idx ref);
  upd_status (b_buf_idx b) (fun s => set_refcnt (u8 (buf_refcnt s + 1)) s);;
  cam ← gets w_cam;
  ch ← gets w_ch;
  let sb := {| sb_camera_handle := cam; sb_ch_id := ch; sb_num_bufs := 1;
               sb_bufs := [ref]; sb_bReadyForPrepareSnapshot := false |} in
  tr ← gets w_tr;
  sext (note (ECallback f ud sb));;
  for_each (env_cb_returns f tr sb) cb_return.

(** One slot of the loop over the registered callbacks. *)
Definition dispatch_one (ref : buf_ref) (i : nat) : M sworld unit :=
  cbs ← obj buf_cb;
  c ← deref (cbs !! i);
  match cb c with
  | None => mret tt
  | Some f =>
      (if cb_count c =? 0 then mret tt
       else invoke ref f (cb_user_data c));;
      cbs ← obj buf_cb;
      c ← deref (cbs !! i);
      if 0 <? cb_count c then
        let n := i8 (cb_count c - 1) in
        upd (fun x => set_buf_cb (<[i := if n =? 0
               then {| cb := None; cb_user_data := 0; cb_count := n |}
               else {| cb := cb c; cb_user_data := cb_user_data c; cb_count := n |}]> (buf_cb x)) x)
      else mret tt
  end.

Definition mm_stream_dispatch_app_data (cmd : mm_camera_cmdcb_t) : M sworld unit :=
  match cmd with
  | MM_CAMERA_CMD_TYPE_DATA_CB info =>
      ref ← deref (bi_buf info);
      for_each (seq 0 MM_CAMERA_STREAM_BUF_CB_MAX) (dispatch_one ref);;
      b ← buf_at (br_idx ref);
      mm_stream_buf_done b;;
      mret tt
  | _ => mret tt
  end.

Definition stream_cmd_thread_launch : M sworld Z :=
  h ← obj my_hdl; mm_camera_cmd_thread_launch (T_stream_cmd h) scmd_set (@sext).
Definition stream_cmd_thread_release : M sworld Z :=
  h ← obj my_hdl;
  mm_camera_cmd_thread_release (T_stream_cmd h) scmd_get scmd_set (@sext) mm_stream_dispatch_app_data.

(** ** The state machine *)

Definition mm_stream_fsm_inited (evt : mm_stream_evt_type_t) : M sworld Z :=
  match evt with
  | MM_STREAM_EVT_ACQUIRE =>
      c ← obj has_ch_obj;
      if c : bool then
        d ← sext sys_open;
        upd (set_fd d);;
        if d <=? 0 then mret (-1)
        else
          rc ← mm_stream_set_ext_mode;
          if rc =? 0 then upd (set_state MM_STREAM_STATE_ACQUIRED);; mret rc
          else sext (sys_close d);; upd (set_fd 0);; mret rc
      else mret (-1)
  | _ => mret 0
  end.

(** The parameter events, the same in every state that has them. *)
Definition fsm_parm (evt : mm_stream_evt_type_t) : M sworld Z :=
  match evt with
  | MM_STREAM_EVT_SET_PARM p => mm_stream_set_parm p
  | MM_STREAM_EVT_GET_PARM p => mm_stream_get_parm p
  | _ => mret 0
  end.

Definition mm_stream_fsm_acquired (evt : mm_stream_evt_type_t) : M sworld Z :=
  match evt with
  | MM_STREAM_EVT_SET_FMT c =>
      rc ← mm_stream_config c; upd (set_state MM_STREAM_STATE_CFG);; mret rc
  | MM_STREAM_EVT_RELEASE =>
      rc ← mm_stream_release; upd (set_state MM_STREAM_STATE_NOTUSED);; mret rc
  | _ => fsm_parm evt
  end.

Definition mm_stream_fsm_cfg (evt : mm_stream_evt_type_t) : M sworld Z :=
  match evt with
  | MM_STREAM_EVT_SET_FMT c =>
      rc ← mm_stream_config c; upd (set_state MM_STREAM_STATE_CFG);; mret rc
  | MM_STREAM_EVT_RELEASE =>
      rc ← mm_stream_release; upd (set_state MM_STREAM_STATE_NOTUSED);; mret rc
  | MM_STREAM_EVT_GET_BUF =>
      rc ← mm_stream_init_bufs;
      (if rc =? 0 then upd (set_state MM_STREAM_STATE_BUFFED) else mret tt);; mret rc
  | _ => fsm_parm evt
  end.

Definition mm_stream_fsm_buffed (evt : mm_stream_evt_type_t) : M sworld Z :=
  match evt with
  | MM_STREAM_EVT_PUT_BUF =>
      rc ← mm_stream_deinit_bufs; upd (set_state MM_STREAM_STATE_CFG);; mret rc
  | MM_STREAM_EVT_REG_BUF =>
      rc ← mm_stream_reg_buf;
      (if rc =? 0 then upd (set_state MM_STREAM_STATE_REG) else mret tt);; mret rc
  | _ => fsm_parm evt
  end.

Definition mm_stream_fsm_reg (evt : mm_stream_evt_type_t) : M sworld Z :=
  match evt with
  | MM_STREAM_EVT_UNREG_BUF =>
      rc ← mm_stream_unreg_buf; upd (set_state MM_STREAM_STATE_BUFFED);; mret rc
  | MM_STREAM_EVT_START =>
      cbs ← obj buf_cb;
      (if has_cb cbs then stream_cmd_thread_launch;; mret tt else mret tt);;
      upd (set_state MM_STREAM_STATE_ACTIVE);;
      rc ← mm_stream_streamon;
      (if rc =? 0 then mret tt
       else
         (if has_cb cbs then stream_cmd_thread_release;; mret tt else mret tt);;
         upd (set_state MM_STREAM_STATE_REG));;
      mret rc
  | _ => fsm_parm evt
  end.

Definition mm_stream_fsm_active (evt : mm_stream_evt_type_t) : M sworld Z :=
  match evt with
  | MM_STREAM_EVT_QBUF frame => mm_stream_buf_done frame
  | MM_STREAM_EVT_STOP =>
      rc ← mm_stream_streamoff;
      cbs ← obj buf_cb;
      (if has_cb cbs then stream_cmd_thread_release;; mret tt else mret tt);;
      upd (set_state MM_STREAM_STATE_REG);;
      mret rc
  | MM_STREAM_EVT_DO_ACTION a => mm_stream_do_action a
  | _ => fsm_parm evt
  end.

Definition mm_stream_fsm_fn (evt : mm_stream_evt_type_t) : M sworld Z :=
  st ← obj state;
  match st with
  | MM_STREAM_STATE_NOTUSED => mret (-1)
  | MM_STREAM_STATE_INITED => mm_stream_fsm_inited evt
  | MM_STREAM_STATE_ACQUIRED => mm_stream_fsm_acquired evt
  | MM_STREAM_STATE_CFG => mm_stream_fsm_cfg evt
  | MM_STREAM_STATE_BUFFED => mm_stream_fsm_buffed evt
  | MM_STREAM_STATE_REG => mm_stream_fsm_reg evt
  | MM_STREAM_STATE_ACTIVE => mm_stream_fsm_active evt
  end.

End Ops.
