(* ===== verification/StreamProps.v ===== *)
(** * Theorems about streams

    The specification of the buffer operations and the ownership of buffers
    while a stream is active.  StreamFsm has the state machine. *)

From Stdlib Require Import ZArith Lia.
From stdpp Require Import numbers list relations.
From S2P Require Import Prelude CamTypes StreamOffset Env Handles Threads Stream.

(** ** Running the operations *)

Section Run.
Context `{E : Env}.

Lemma sext_run {A} (m : M history A) w a tr :
  m (w_tr w) = Some (a, tr) -> sext m w = Some (a, put_w_tr tr w).
Proof. unfold sext, zoom. by intros ->. Qed.

Lemma at_index_Some {A} (l : list A) idx x :
  at_index (Some l) idx = Some x <-> 0 <= idx /\ l !! Z.to_nat idx = Some x.
Proof. unfold at_index. destruct (Z.ltb_spec idx 0); simpl; split; intros; try lia; naive_solver. Qed.

(** The status array after an update. *)
Definition with_status (idx : Z) (st : mm_stream_buf_status_t) (w : sworld) : sworld :=
  put_w_s (set_buf_status (<[Z.to_nat idx := st]> <$> buf_status (w_s w)) (w_s w)) w.

Lemma upd_status_run idx f w st :
  at_index (buf_status (w_s w)) idx = Some st ->
  upd_status idx f w = Some (tt, with_status idx (f st) w).
Proof. intros H. unfold upd_status, status_at, obj, upd. unM. by rewrite H. Qed.

Lemma with_status_at idx st w st0 :
  at_index (buf_status (w_s w)) idx = Some st0 ->
  at_index (buf_status (w_s (with_status idx st w))) idx = Some st.
Proof.
  unfold with_status. simpl. destruct (buf_status (w_s w)) as [l|]; simpl;
    unfold at_index; destruct (Z.ltb_spec idx 0); simpl; try done.
  intros Hl. apply list_lookup_insert_eq. by eapply lookup_lt_Some.
Qed.

Lemma with_status_twice idx a b w : with_status idx a (with_status idx b w) = with_status idx a w.
Proof.
  unfold with_status, put_w_s, set_buf_status; simpl. f_equal. f_equal.
  destruct (buf_status (w_s w)); simpl; [|done]. by rewrite list_insert_insert_eq.
Qed.

(** What requeueing a buffer adds to the history. *)
Definition qbuf_events (b : mm_camera_buf_def_t) (w : sworld) : Z * history :=
  let index := u32 (b_buf_idx b) in
  let tr := w_tr w in
  match invalidate_buf (mem_vtbl (w_s w)) with
  | Some f =>
      let rc := env_invalidate_buf f tr (i32 index) in
      let tr := EInvalidate (i32 index) rc :: tr in
      if rc <? 0 then (rc, tr)
      else let rc := env_ioctl tr (fd (w_s w)) (VIDIOC_QBUF index (b_planes b) (u32 (b_num_planes b))) in
           (rc, EIoctl (fd (w_s w)) (VIDIOC_QBUF index (b_planes b) (u32 (b_num_planes b))) rc :: tr)
  | None =>
      let rc := env_ioctl tr (fd (w_s w)) (VIDIOC_QBUF index (b_planes b) (u32 (b_num_planes b))) in
      (rc, EIoctl (fd (w_s w)) (VIDIOC_QBUF index (b_planes b) (u32 (b_num_planes b))) rc :: tr)
  end.

Lemma qbuf_run b w :
  mm_stream_qbuf b w = Some ((qbuf_events b w).1, put_w_tr (qbuf_events b w).2 w).
Proof.
  unfold mm_stream_qbuf, qbuf_events, obj, sext, sys_ioctl, ext. unM.
  destruct (invalidate_buf (mem_vtbl (w_s w))) as [f|]; simpl; [|done].
  by destruct (env_invalidate_buf f (w_tr w) (i32 (u32 (b_buf_idx b))) <? 0).
Qed.

(** The result of [mm_stream_buf_done] on a buffer with status [st]. *)
Definition buf_done_result (b : mm_camera_buf_def_t) (st : mm_stream_buf_status_t) (w : sworld) :
  Z * sworld :=
  let idx := b_buf_idx b in
  if buf_refcnt st =? 0 then (-1, w)
  else if buf_refcnt st =? 1 then
    let '(rc, tr) := qbuf_events b w in
    (rc, put_w_tr tr (with_status idx {| buf_refcnt := 0; initial_reg_flag := initial_reg_flag st;
                        in_kernel := if rc <? 0 then in_kernel st else true |} w))
  else (0, with_status idx (set_refcnt (buf_refcnt st - 1) st) w).

Lemma buf_done_run b w st :
  at_index (buf_status (w_s w)) (b_buf_idx b) = Some st -> 0 <= buf_refcnt st < 256 ->
  mm_stream_buf_done b w = Some (buf_done_result b st w).
Proof.
  intros Hst Hr. unfold mm_stream_buf_done, buf_done_result, mbind, M_bind.
  unfold status_at at 1, obj. unM. rewrite Hst. simpl.
  destruct (Z.eqb_spec (buf_refcnt st) 0) as [|Hn]; [done|].
  rewrite (upd_status_run _ _ _ _ Hst). simpl. unfold u8. rewrite Z.mod_small by lia.
  destruct (Z.eqb_spec (buf_refcnt st) 1) as [->|Hn1]; simpl.
  - rewrite qbuf_run. change (1 - 1) with 0. set (w1 := with_status (b_buf_idx b) (set_refcnt 0 st) w).
    assert (Hq : qbuf_events b w1 = qbuf_events b w) by done. rewrite Hq.
    destruct (qbuf_events b w) as [rc tr]; simpl.
    destruct (Z.ltb_spec rc 0); simpl; [done|].
    rewrite (upd_status_run _ _ _ (set_refcnt 0 st)); [|by eapply with_status_at]. simpl.
    unfold M_ret. f_equal. f_equal. unfold w1.
    change (with_status (b_buf_idx b) (set_in_kernel true (set_refcnt 0 st))
             (put_w_tr tr (with_status (b_buf_idx b) (set_refcnt 0 st) w)))
      with (put_w_tr tr (with_status (b_buf_idx b) (set_in_kernel true (set_refcnt 0 st))
             (with_status (b_buf_idx b) (set_refcnt 0 st) w))).
    by rewrite with_status_twice.
  - destruct (Z.eqb_spec (buf_refcnt st - 1) 0); [lia|done].
Qed.

(** ** Outstanding references

    Read off the history: what the kernel holds, and the buffers that data
    callbacks were given and did not hand back before they returned. *)

Definition opt_eqb (x : Z) (o : option Z) : bool :=
  match o with Some y => x =? y | None => false end.

Fixpoint kernel_has (d i : Z) (tr : history) : bool :=
  match tr with
  | [] => false
  | e :: tr =>
      match e with
      | EIoctl d' (VIDIOC_QBUF j _ _) rc =>
          if (d' =? d) && (j =? i) && (rc =? 0) then true else kernel_has d i tr
      | EIoctl d' (VIDIOC_REQBUFS _) rc | EIoctl d' VIDIOC_STREAMOFF rc =>
          if (d' =? d) && (rc =? 0) then false else kernel_has d i tr
      | EDqbuf d' _ rc vb =>
          if (d' =? d) && (0 <=? rc) && (dq_index vb =? i) then false else kernel_has d i tr
      | EClose d' => if d' =? d then false else kernel_has d i tr
      | _ => kernel_has d i tr
      end
  end.

Fixpoint handed (tr : history) : list Z :=
  match tr with
  | [] => []
  | ECallback f _ sb :: tr =>
      match env_cb_returns f tr sb with
      | [] => map br_idx (sb_bufs sb) ++ handed tr
      | _ => handed tr
      end
  | _ :: tr => handed tr
  end.

(** [VIDIOC_DQBUF] answers 0 with the index of a queued buffer, or fails. *)
Definition kernel_honest : Prop := forall tr d,
  let '(rc, vb) := env_dqbuf tr d in
  0 <= rc -> rc = 0 /\ kernel_has d (dq_index vb) tr = true.

(** A callback hands back, if anything, the buffer it was given. *)
Definition callbacks_honest : Prop := forall f tr sb ref,
  sb_bufs sb = [ref] ->
  env_cb_returns f tr sb = [] \/
  exists b, env_cb_returns f tr sb = [b] /\ b_buf_idx b = br_idx ref.

(** ** Dispatching to the callbacks of a stream *)

(** The state with new callbacks, a new status of buffer [i] and a new
    history. *)
Definition mk (w : sworld) (i : Z) (st : mm_stream_buf_status_t) (l : list mm_stream_data_cb_t)
    (tr : history) : sworld :=
  put_w_tr tr (put_w_s (set_buf_cb l (set_buf_status (<[Z.to_nat i := st]> <$> buf_status (w_s w))
    (w_s w))) w).

Definition add_ref (k : nat) (st : mm_stream_buf_status_t) : mm_stream_buf_status_t :=
  set_refcnt (buf_refcnt st + Z.of_nat k) st.

(** [w'] is [w] after [k] callbacks kept buffer [i]. *)
Definition dispatched (w w' : sworld) (i : Z) (st : mm_stream_buf_status_t) (k : nat) : Prop :=
  exists l tr, w' = mk w i (add_ref k st) l tr /\
    length l = length (buf_cb (w_s w)) /\
    (has_cb l = true -> has_cb (buf_cb (w_s w)) = true) /\
    handed tr = replicate k i ++ handed (w_tr w) /\
    (forall d j, kernel_has d j tr = kernel_has d j (w_tr w)).

(** The buffer array of a stream is indexed by [buf_idx]. *)
Definition indexed (bs : list mm_camera_buf_def_t) : Prop :=
  forall n b, bs !! n = Some b -> b_buf_idx b = Z.of_nat n.

Lemma indexed_at bs i b : indexed bs -> at_index (Some bs) i = Some b -> b_buf_idx b = i.
Proof. intros Hi [H0 Hb]%at_index_Some. apply Hi in Hb. lia. Qed.

Lemma has_cb_clear l i c : has_cb (<[i := c]> l) = true ->
  (cb c = None \/ exists c', l !! i = Some c' /\ cb c' = cb c) -> has_cb l = true.
Proof.
  unfold has_cb. intros (x & Hin & Hx)%existsb_exists Hc. apply existsb_exists.
  apply list_elem_of_In, list_elem_of_lookup in Hin as [j Hj].
  apply list_lookup_insert_Some in Hj as [(-> & -> & _)|(_ & Hj)].
  - destruct Hc as [Hc|(c' & Hl & Hc)]; [by rewrite Hc in Hx|].
    exists c'. rewrite Hc. split; [|done]. apply list_elem_of_In. by eapply list_elem_of_lookup_2.
  - exists x. split; [apply list_elem_of_In; by eapply list_elem_of_lookup_2|done].
Qed.

Lemma mk_id w i st : at_index (buf_status (w_s w)) i = Some st ->
  mk w i (add_ref 0 st) (buf_cb (w_s w)) (w_tr w) = w.
Proof.
  intros Hst. destruct w as [[] p q c h tr]. simpl in *. unfold mk, put_w_tr, put_w_s. simpl.
  destruct buf_status as [ss|]; [|by unfold at_index in Hst; destruct (i <? 0)].
  apply at_index_Some in Hst as [_ Hst]. unfold set_buf_cb, set_buf_status. simpl.
  do 3 f_equal. apply list_insert_id. rewrite Hst. f_equal.
  destruct st. unfold add_ref, set_refcnt. simpl. by rewrite Z.add_0_r.
Qed.

Lemma mk_status w i st st0 l tr : at_index (buf_status (w_s w)) i = Some st0 ->
  at_index (buf_status (w_s (mk w i st l tr))) i = Some st.
Proof. intros H. change (at_index (buf_status (w_s (with_status i st w))) i = Some st).
  by eapply with_status_at.
Qed.

Lemma mk_mk w i a b l l' tr tr' : mk (mk w i a l tr) i b l' tr' = mk w i b l' tr'.
Proof.
  unfold mk, put_w_tr, put_w_s, set_buf_cb, set_buf_status; simpl. do 2 f_equal.
  destruct (buf_status (w_s w)); simpl; [|done]. by rewrite list_insert_insert_eq.
Qed.

Lemma add_ref_add k1 k2 st : add_ref k2 (add_ref k1 st) = add_ref (k1 + k2) st.
Proof. unfold add_ref, set_refcnt; simpl. f_equal. lia. Qed.

Lemma dispatched_refl w i st : at_index (buf_status (w_s w)) i = Some st -> dispatched w w i st 0.
Proof. intros H. exists (buf_cb (w_s w)), (w_tr w). by rewrite mk_id. Qed.

Lemma dispatched_trans w w1 w2 i st k1 k2 :
  dispatched w w1 i st k1 -> dispatched w1 w2 i (add_ref k1 st) k2 -> dispatched w w2 i st (k1 + k2).
Proof.
  intros (l & tr & -> & Hl & Hc & Hh & Hk) (l' & tr' & -> & Hl' & Hc' & Hh' & Hk').
  exists l', tr'. rewrite mk_mk. simpl in *. split; [|split; [congruence|split; [auto|split]]].
  - by rewrite add_ref_add.
  - rewrite Hh', Hh, app_assoc, <- replicate_add. do 2 f_equal. lia.
  - intros d j. by rewrite Hk', Hk.
Qed.

(** The conditions under which a buffer is dispatched. *)
Record can_dispatch (w : sworld) (i : Z) (st : mm_stream_buf_status_t) : Prop := {
  cd_active : state (w_s w) = MM_STREAM_STATE_ACTIVE;
  cd_buf : exists b, at_index (buf (w_s w)) i = Some b /\ b_buf_idx b = i;
  cd_status : at_index (buf_status (w_s w)) i = Some st
}.

Lemma can_dispatch_mk w i st st' l tr : can_dispatch w i st -> can_dispatch (mk w i st' l tr) i st'.
Proof. intros [Ha Hb Hs]. split; [done|done|]. by eapply mk_status. Qed.

Lemma invoke_run ref f ud w st :
  callbacks_honest -> can_dispatch w (br_idx ref) st -> 1 <= buf_refcnt st < 255 ->
  exists k tr, (k <= 1)%nat /\
    invoke ref f ud w = Some (tt, mk w (br_idx ref) (add_ref k st) (buf_cb (w_s w)) tr) /\
    handed tr = replicate k (br_idx ref) ++ handed (w_tr w) /\
    (forall d j, kernel_has d j tr = kernel_has d j (w_tr w)).
Proof.
  intros Hcb [Ha (b & Hb & Hi) Hs] Hr. unfold invoke. unfold mbind at 1, M_bind at 1.
  unfold buf_at, obj. unM. rewrite Hb. simpl. rewrite Hi, (upd_status_run _ _ _ _ Hs).
  unfold u8. rewrite Z.mod_small by lia. unfold sext, note. unM.
  set (sb := {| sb_camera_handle := _ |}).
  destruct (Hcb f (w_tr w) sb ref eq_refl) as [Er|(b' & Er & Hb')]; rewrite Er; simpl.
  - exists 1%nat, (ECallback f ud sb :: w_tr w). split; [lia|]. split; [|split; [|done]].
    + done.
    + simpl. rewrite Er. done.
  - exists 0%nat, (ECallback f ud sb :: w_tr w). split; [lia|]. split; [|split; [|done]].
    + set (w1 := put_w_tr _ _). unfold cb_return, obj. unM.
      destruct (decide (state (w_s w) = MM_STREAM_STATE_ACTIVE)) as [_|Hn]; [|by destruct Hn].
      rewrite (buf_done_run b' w1 (set_refcnt (buf_refcnt st + 1) st)).
      * unfold buf_done_result. simpl. destruct (Z.eqb_spec (buf_refcnt st + 1) 0); [lia|].
        destruct (Z.eqb_spec (buf_refcnt st + 1) 1); [lia|]. rewrite Hb'. unfold w1.
        replace (set_refcnt _ (set_refcnt _ st)) with (add_ref 0 st)
          by (unfold add_ref, set_refcnt; simpl; f_equal; lia).
        unfold mk, put_w_tr, put_w_s, with_status, set_buf_cb, set_buf_status; simpl.
        do 4 f_equal. destruct (buf_status (w_s w)); simpl; [|done].
        by rewrite list_insert_insert_eq.
      * rewrite Hb'. by eapply with_status_at.
      * simpl. lia.
    + simpl. rewrite Er. done.
Qed.

Lemma dispatch_one_run ref j w st :
  callbacks_honest -> can_dispatch w (br_idx ref) st -> 1 <= buf_refcnt st < 255 ->
  (j < length (buf_cb (w_s w)))%nat ->
  exists w' k, dispatch_one ref j w = Some (tt, w') /\ dispatched w w' (br_idx ref) st k /\ (k <= 1)%nat.
Proof.
  intros Hcb Hd Hr Hj. pose proof (cd_status _ _ _ Hd) as Hs.
  destruct (lookup_lt_is_Some_2 _ _ Hj) as [c Hc].
  unfold dispatch_one, obj. unM. rewrite Hc.
  destruct (cb c) as [f|] eqn:Ef.
  2:{ exists w, 0%nat. split; [done|]. split; [by apply dispatched_refl|lia]. }
  assert (exists k tr, (k <= 1)%nat /\
    (if cb_count c =? 0 then mret tt else invoke ref f (cb_user_data c)) w =
      Some (tt, mk w (br_idx ref) (add_ref k st) (buf_cb (w_s w)) tr) /\
    handed tr = replicate k (br_idx ref) ++ handed (w_tr w) /\
    (forall d j, kernel_has d j tr = kernel_has d j (w_tr w))) as (k & tr & Hk & Hrun & Hh & Hker).
  { destruct (cb_count c =? 0); [|by apply invoke_run].
    exists 0%nat, (w_tr w). rewrite mk_id by done. split; [lia|done]. }
  unfold mret, M_ret in Hrun. rewrite Hrun. unfold upd. unM. rewrite Hc.
  destruct (0 <? cb_count c); simpl.
  - eexists _, k. split; [reflexivity|]. split; [|done]. eexists _, tr.
    split; [reflexivity|]. split; [apply length_insert|]. split; [|done].
    intros Hcl. eapply has_cb_clear; [exact Hcl|].
    destruct (i8 (cb_count c - 1) =? 0); [left; reflexivity|right; by exists c].
  - eexists _, k. split; [reflexivity|]. split; [|done]. by exists (buf_cb (w_s w)), tr.
Qed.

Lemma dispatch_loop_run ref slots w st :
  callbacks_honest -> can_dispatch w (br_idx ref) st -> 1 <= buf_refcnt st ->
  buf_refcnt st + Z.of_nat (length slots) < 256 ->
  Forall (fun j => (j < length (buf_cb (w_s w)))%nat) slots ->
  exists w' k, for_each slots (dispatch_one ref) w = Some (tt, w') /\
    dispatched w w' (br_idx ref) st k /\ (k <= length slots)%nat.
Proof.
  intros Hcb. revert w st. induction slots as [|j slots IH]; intros w st Hd H1 Hlen Hj.
  { exists w, 0%nat. split; [done|]. split; [by apply dispatched_refl, Hd|done]. }
  simpl in Hlen. apply Forall_cons in Hj as [Hj Hjs].
  destruct (dispatch_one_run ref j w st) as (w1 & k1 & E1 & D1 & K1); [done|done|lia|done|].
  pose proof D1 as (l & tr & -> & Hl & _).
  destruct (IH (mk w (br_idx ref) (add_ref k1 st) l tr) (add_ref k1 st)) as (w2 & k2 & E2 & D2 & K2).
  - by eapply can_dispatch_mk.
  - unfold add_ref; simpl. lia.
  - unfold add_ref; simpl. lia.
  - simpl. by rewrite Hl.
  - exists w2, (k1 + k2)%nat. simpl. unfold mbind, M_bind. rewrite E1.
    split; [done|]. split; [by eapply dispatched_trans|lia].
Qed.

Lemma dispatch_run info ref w st :
  callbacks_honest -> bi_buf info = Some ref -> can_dispatch w (br_idx ref) st ->
  1 <= buf_refcnt st < 250 -> length (buf_cb (w_s w)) = 4%nat ->
  exists w1 k b, dispatched w w1 (br_idx ref) st k /\ (k <= 4)%nat /\ b_buf_idx b = br_idx ref /\
    mm_stream_dispatch_app_data (MM_CAMERA_CMD_TYPE_DATA_CB info) w =
    Some (tt, (buf_done_result b (add_ref k st) w1).2).
Proof.
  intros Hcb Hi Hd Hr Hl.
  destruct (dispatch_loop_run ref (seq 0 4) w st) as (w1 & k & E1 & D1 & K1);
    [done|done|lia|simpl; lia|rewrite Hl; by repeat constructor|].
  pose proof (cd_buf _ _ _ Hd) as (b & Hb & Hbi). exists w1, k, b.
  split; [done|]. split; [done|]. split; [done|].
  unfold mm_stream_dispatch_app_data. rewrite Hi. unfold MM_CAMERA_STREAM_BUF_CB_MAX.
  unfold mbind, M_bind, deref at 1. rewrite E1. unfold buf_at, obj. unM.
  pose proof D1 as (l & tr & -> & _). simpl. rewrite Hb.
  rewrite (buf_done_run b _ (add_ref k st)).
  - by destruct (buf_done_result _ _ _).
  - rewrite Hbi. eapply mk_status, Hd.
  - unfold add_ref; simpl in *. lia.
Qed.

(** ** Ownership of the buffers of an active stream *)

Fixpoint cnt (i : Z) (l : list Z) : Z :=
  match l with [] => 0 | j :: l => (if j =? i then 1 else 0) + cnt i l end.

Lemma cnt_app i l1 l2 : cnt i (l1 ++ l2) = cnt i l1 + cnt i l2.
Proof. induction l1; simpl; lia. Qed.

Lemma cnt_nonneg i l : 0 <= cnt i l.
Proof. induction l as [|j l IH]; simpl; [lia|]. destruct (j =? i); lia. Qed.

Lemma cnt_replicate i k j : cnt i (replicate k j) = if j =? i then Z.of_nat k else 0.
Proof. induction k as [|k IH]; cbn [replicate cnt]; [by destruct (j =? i)|]. rewrite IH. destruct (j =? i); lia. Qed.

(** The buffer of stream [h] that a queued command carries. *)
Definition node_idx (h : Z) (n : mm_camera_cmdcb_t) : option Z :=
  match n with
  | MM_CAMERA_CMD_TYPE_DATA_CB info =>
      match bi_buf info with
      | Some r => if br_stream r =? h then Some (br_idx r) else None
      | None => None
      end
  | _ => None
  end.

Definition refs (h : Z) (t : option mm_camera_cmd_thread_t) : list Z :=
  match t with Some t => omap (node_idx h) (cmd_queue t) | None => [] end.

(** The commands of a stream's own thread. *)
Definition own_node (h : Z) (n : mm_camera_cmdcb_t) : Prop :=
  exists info ref, n = MM_CAMERA_CMD_TYPE_DATA_CB info /\ bi_buf info = Some ref /\ br_stream ref = h.

Definition thread_nodes (t : option mm_camera_cmd_thread_t) : list mm_camera_cmdcb_t :=
  match t with Some t => cmd_queue t | None => [] end.

(** All references to buffer [i] that are on their way or in somebody's hands. *)
Definition holders (w : sworld) (out : list Z) (i : Z) : Z :=
  cnt i out + cnt i (refs (my_hdl (w_s w)) (w_chq w)) +
  cnt i (refs (my_hdl (w_s w)) (cmd_thread (w_s w))).

(** [out] lists the buffers held outside the stream, once per reference. *)
Record owns (w : sworld) (out : list Z) : Prop := {
  ow_active : state (w_s w) = MM_STREAM_STATE_ACTIVE;
  ow_arrays : exists bs ss, buf (w_s w) = Some bs /\ buf_status (w_s w) = Some ss /\
    length bs = length ss /\ (length ss <= 127)%nat /\ indexed bs;
  ow_cbs : length (buf_cb (w_s w)) = 4%nat;
  ow_thread : has_cb (buf_cb (w_s w)) = true -> is_Some (cmd_thread (w_s w));
  ow_chthread : is_bundled (w_s w) = true -> is_Some (w_chq w);
  ow_nodes : Forall (own_node (my_hdl (w_s w))) (thread_nodes (cmd_thread (w_s w)));
  ow_valid : forall i, 0 < holders w out i -> is_Some (at_index (buf_status (w_s w)) i);
  ow_count : forall i st, at_index (buf_status (w_s w)) i = Some st ->
    holders w out i <= buf_refcnt st /\
    buf_refcnt st + 4 * cnt i (refs (my_hdl (w_s w)) (cmd_thread (w_s w))) <= 6 /\
    (in_kernel st = true -> buf_refcnt st = 0);
  ow_kernel : forall i, kernel_has (fd (w_s w)) i (w_tr w) = true ->
    exists st, at_index (buf_status (w_s w)) i = Some st /\ in_kernel st = true
}.

Lemma at_index_insert {A} (l : option (list A)) i j (x y : A) :
  at_index l i = Some y ->
  at_index (<[Z.to_nat i := x]> <$> l) j = if j =? i then Some x else at_index l j.
Proof.
  destruct l as [l|]; [|unfold at_index; simpl; by destruct (i <? 0)].
  intros [Hi Hl]%at_index_Some. simpl. unfold at_index.
  destruct (Z.ltb_spec j 0), (Z.eqb_spec j i); simpl; try lia; try done; subst.
  - apply list_lookup_insert_eq. by eapply lookup_lt_Some.
  - rewrite list_lookup_insert_ne; [done|lia].
Qed.

Lemma holders_nonneg w out i : 0 <= holders w out i.
Proof.
  unfold holders. pose proof (cnt_nonneg i out).
  pose proof (cnt_nonneg i (refs (my_hdl (w_s w)) (w_chq w))).
  pose proof (cnt_nonneg i (refs (my_hdl (w_s w)) (cmd_thread (w_s w)))). lia.
Qed.

Lemma owns_refcnt w out i st : owns w out -> at_index (buf_status (w_s w)) i = Some st ->
  0 <= buf_refcnt st <= 6.
Proof.
  intros Ho Hst. destruct (ow_count _ _ Ho i st Hst) as (H1 & H2 & _).
  pose proof (holders_nonneg w out i).
  pose proof (cnt_nonneg i (refs (my_hdl (w_s w)) (cmd_thread (w_s w)))). lia.
Qed.

Definition scmd_refs (w : sworld) : list Z := refs (my_hdl (w_s w)) (cmd_thread (w_s w)).

(** A change that concerns one buffer. *)
Lemma owns_update w out w' out' i st st' :
  owns w out -> at_index (buf_status (w_s w)) i = Some st ->
  state (w_s w') = MM_STREAM_STATE_ACTIVE ->
  buf_status (w_s w') = <[Z.to_nat i := st']> <$> buf_status (w_s w) ->
  (forall bs, buf (w_s w) = Some bs -> indexed bs ->
     exists bs', buf (w_s w') = Some bs' /\ length bs' = length bs /\ indexed bs') ->
  length (buf_cb (w_s w')) = 4%nat ->
  (has_cb (buf_cb (w_s w')) = true -> is_Some (cmd_thread (w_s w'))) ->
  (is_bundled (w_s w') = true -> is_Some (w_chq w')) ->
  Forall (own_node (my_hdl (w_s w'))) (thread_nodes (cmd_thread (w_s w'))) ->
  (forall j, j <> i -> holders w' out' j <= holders w out j /\ cnt j (scmd_refs w') <= cnt j (scmd_refs w)) ->
  holders w' out' i <= buf_refcnt st' ->
  buf_refcnt st' + 4 * cnt i (scmd_refs w') <= 6 ->
  (in_kernel st' = true -> buf_refcnt st' = 0) ->
  (forall j, kernel_has (fd (w_s w')) j (w_tr w') = true ->
     if j =? i then in_kernel st' = true else kernel_has (fd (w_s w)) j (w_tr w) = true) ->
  owns w' out'.
Proof.
  intros Ho Hst Hact Hbs Hbuf Hcb Hth Hch Hnd Hoth Hi1 Hi2 Hi3 Hk.
  assert (Hat : forall j, at_index (buf_status (w_s w')) j =
                          if j =? i then Some st' else at_index (buf_status (w_s w)) j).
  { intros j. rewrite Hbs. by eapply at_index_insert. }
  constructor; try done.
  - destruct (ow_arrays _ _ Ho) as (bs & ss & Hb & Hs & Hl & H127 & Hix).
    destruct (Hbuf bs Hb Hix) as (bs' & Hb' & Hl' & Hix').
    exists bs', (<[Z.to_nat i := st']> ss). rewrite Hbs, Hs, length_insert, Hl'. done.
  - intros j Hj. rewrite Hat. destruct (Z.eqb_spec j i); [by eexists|].
    apply (ow_valid _ _ Ho). destruct (Hoth j); [done|lia].
  - intros j sj. rewrite Hat. destruct (Z.eqb_spec j i) as [->|Hne].
    + intros [= <-]. done.
    + intros Hj. destruct (ow_count _ _ Ho j sj Hj) as (? & ? & ?).
      destruct (Hoth j Hne) as [? ?]. unfold scmd_refs in *. split; [lia|]. split; [lia|done].
  - intros j Hj. rewrite Hat. apply Hk in Hj. destruct (j =? i); [by eexists|].
    by apply (ow_kernel _ _ Ho).
Qed.

(** What requeueing buffer [b] can change of what the kernel holds. *)
Lemma qbuf_kernel b w d j : 0 <= b_buf_idx b < 128 ->
  let '(rc, tr) := qbuf_events b w in
  kernel_has d j tr = true ->
  if j =? b_buf_idx b then kernel_has d j (w_tr w) = true \/ (rc <? 0) = false
  else kernel_has d j (w_tr w) = true.
Proof.
  intros Hb. unfold qbuf_events. assert (Hu : u32 (b_buf_idx b) = b_buf_idx b).
  { apply u32_id. unfold u32_range. lia. }
  rewrite Hu. destruct (invalidate_buf (mem_vtbl (w_s w))) as [f|]; simpl.
  - destruct (env_invalidate_buf f (w_tr w) (i32 (b_buf_idx b)) <? 0); simpl.
    + intros H. destruct (j =? b_buf_idx b); [by left|done].
    + set (rc := env_ioctl _ _ _). destruct (Z.eqb_spec (b_buf_idx b) j) as [->|];
        destruct (Z.eqb_spec (fd (w_s w)) d); simpl.
      * rewrite Z.eqb_refl. destruct (Z.eqb_spec rc 0) as [->|]; [by right|by left].
      * rewrite Z.eqb_refl. by left.
      * destruct (Z.eqb_spec j (b_buf_idx b)); [lia|done].
      * destruct (Z.eqb_spec j (b_buf_idx b)); [lia|done].
  - set (rc := env_ioctl _ _ _). destruct (Z.eqb_spec (b_buf_idx b) j) as [->|];
      destruct (Z.eqb_spec (fd (w_s w)) d); simpl.
    + rewrite Z.eqb_refl. destruct (Z.eqb_spec rc 0) as [->|]; [by right|by left].
    + rewrite Z.eqb_refl. by left.
    + destruct (Z.eqb_spec j (b_buf_idx b)); [lia|done].
    + destruct (Z.eqb_spec j (b_buf_idx b)); [lia|done].
Qed.

Lemma owns_index w out i st : owns w out -> at_index (buf_status (w_s w)) i = Some st -> 0 <= i < 127.
Proof.
  intros Ho Hst. destruct (ow_arrays _ _ Ho) as (bs & ss & Hb & Hs & Hl & H127 & Hix).
  rewrite Hs in Hst. apply at_index_Some in Hst as [? Hst%lookup_lt_Some]. lia.
Qed.

(** Giving up one reference to a buffer; [w] may be a state that owes the
    buffer up to four references more than it counts. *)
Lemma owns_done w out b st w1 out1 k :
  owns w out -> at_index (buf_status (w_s w)) (b_buf_idx b) = Some st ->
  1 <= buf_refcnt st ->
  (exists l tr, w1 = mk (scmd_set (cmd_thread (w_s w1)) w) (b_buf_idx b) (add_ref k st) l tr /\
     length l = 4%nat /\ (has_cb l = true -> is_Some (cmd_thread (w_s w1))) /\
     (forall d j, kernel_has d j tr = kernel_has d j (w_tr w))) ->
  Forall (own_node (my_hdl (w_s w))) (thread_nodes (cmd_thread (w_s w1))) ->
  (forall j, j <> b_buf_idx b -> holders w1 out1 j <= holders w out j /\
                                 cnt j (scmd_refs w1) <= cnt j (scmd_refs w)) ->
  holders w1 out1 (b_buf_idx b) <= buf_refcnt st + Z.of_nat k - 1 ->
  buf_refcnt st + Z.of_nat k - 1 + 4 * cnt (b_buf_idx b) (scmd_refs w1) <= 6 ->
  owns (buf_done_result b (add_ref k st) w1).2 out1.
Proof.
  intros Ho Hst H1 (l & tr & Hw1 & Hl & Hcb & Hker) Hnd Hoth Hh Hphi.
  pose proof (owns_index _ _ _ _ Ho Hst) as Hidx.
  destruct (ow_count _ _ Ho _ _ Hst) as (_ & _ & Hink).
  assert (Hnk : in_kernel st = false) by (destruct (in_kernel st); [specialize (Hink eq_refl); lia|done]).
  set (w' := (buf_done_result b (add_ref k st) w1).2).
  assert (Hres : exists st' tr', w' = put_w_tr tr' (with_status (b_buf_idx b) st' w1) /\
    buf_refcnt st' = buf_refcnt st + Z.of_nat k - 1 /\
    (in_kernel st' = true -> buf_refcnt st' = 0) /\
    (forall j, kernel_has (fd (w_s w)) j tr' = true ->
       if j =? b_buf_idx b then in_kernel st' = true else kernel_has (fd (w_s w)) j (w_tr w) = true)).
  { unfold w', buf_done_result. simpl. destruct (Z.eqb_spec (buf_refcnt st + Z.of_nat k) 0); [lia|].
    assert (Hbase : forall j, kernel_has (fd (w_s w)) j (w_tr w1) = true ->
       (j =? b_buf_idx b) = false /\ kernel_has (fd (w_s w)) j (w_tr w) = true).
    { intros j. rewrite Hw1. simpl. rewrite Hker. intros Hj. split; [|done].
      destruct (ow_kernel _ _ Ho j Hj) as (sj & Hsj & Hkj).
      destruct (Z.eqb_spec j (b_buf_idx b)) as [->|]; [|done]. congruence. }
    destruct (Z.eqb_spec (buf_refcnt st + Z.of_nat k) 1) as [E1|E1].
    - pose proof (qbuf_kernel b w1 (fd (w_s w))) as Hq. destruct (qbuf_events b w1) as [rc tr'] eqn:Eq.
      eexists _, tr'. split; [reflexivity|]. simpl. split; [lia|]. split; [done|].
      intros j Hj. specialize (Hq j ltac:(lia) Hj). destruct (j =? b_buf_idx b) eqn:Ej.
      + destruct Hq as [Hq|Hq]; [by destruct (Hbase j Hq) as [? _]; congruence|]. by rewrite Hq.
      + by apply Hbase.
    - eexists _, (w_tr w1). split; [by destruct w1|]. simpl. split; [lia|].
      split; [congruence|]. intros j Hj. destruct (Hbase j Hj) as [-> ?]. done. }
  destruct Hres as (st' & tr' & -> & Hr' & Hk' & Hker').
  eapply (owns_update w out _ out1 (b_buf_idx b) st st'); try done; rewrite Hw1; simpl; try done.
  - apply (ow_active _ _ Ho).
  - destruct (buf_status (w_s w)); simpl; [|done]. by rewrite list_insert_insert_eq.
  - intros bs Hbs Hix. by exists bs.
  - apply (ow_chthread _ _ Ho).
  - rewrite Hw1 in Hh. rewrite Hr'. exact Hh.
  - rewrite Hw1 in Hphi. rewrite Hr'. exact Hphi.
Qed.

Lemma qbuf_handed b w : handed (qbuf_events b w).2 = handed (w_tr w).
Proof.
  unfold qbuf_events. destruct (invalidate_buf (mem_vtbl (w_s w))) as [f|]; simpl; [|done].
  by destruct (env_invalidate_buf f (w_tr w) (i32 (u32 (b_buf_idx b))) <? 0).
Qed.

Lemma buf_done_handed b st w : handed (w_tr (buf_done_result b st w).2) = handed (w_tr w).
Proof.
  unfold buf_done_result. destruct (buf_refcnt st =? 0), (buf_refcnt st =? 1); try done.
  pose proof (qbuf_handed b w). by destruct (qbuf_events b w).
Qed.

Lemma scmd_set_id w : scmd_set (cmd_thread (w_s w)) w = w.
Proof. by destruct w as [[] ? ? ? ? ?]. Qed.

(** A holder gives a buffer back. *)
Lemma owns_return w out1 b out2 :
  owns w (out1 ++ b_buf_idx b :: out2) ->
  exists st w' rc, at_index (buf_status (w_s w)) (b_buf_idx b) = Some st /\ 0 < buf_refcnt st /\
    mm_stream_fsm_fn (MM_STREAM_EVT_QBUF b) w = Some (rc, w') /\
    (rc, w') = buf_done_result b st w /\ owns w' (out1 ++ out2).
Proof.
  intros Ho. set (i := b_buf_idx b) in *.
  assert (Hc : forall j, holders w (out1 ++ i :: out2) j =
                         holders w (out1 ++ out2) j + if i =? j then 1 else 0).
  { intros j. unfold holders. rewrite !cnt_app. simpl. lia. }
  assert (Hpos : 0 < holders w (out1 ++ i :: out2) i).
  { rewrite Hc, Z.eqb_refl. pose proof (holders_nonneg w (out1 ++ out2) i). lia. }
  destruct (ow_valid _ _ Ho i Hpos) as [st Hst].
  destruct (ow_count _ _ Ho i st Hst) as (H1 & H2 & _).
  pose proof (owns_refcnt _ _ _ _ Ho Hst) as Hr.
  exists st, (buf_done_result b st w).2, (buf_done_result b st w).1.
  split; [done|]. split; [lia|]. split; [|split; [by destruct (buf_done_result b st w)|]].
  - unfold mm_stream_fsm_fn, obj. unM. rewrite (ow_active _ _ Ho). simpl.
    rewrite (buf_done_run b w st); [by destruct (buf_done_result b st w)|done|lia].
  - replace st with (add_ref 0 st) by (destruct st; unfold add_ref, set_refcnt; simpl; by rewrite Z.add_0_r).
    eapply (owns_done w _ b st w (out1 ++ out2) 0 Ho Hst); [lia| | | | |].
    + exists (buf_cb (w_s w)), (w_tr w). rewrite scmd_set_id, mk_id by done.
      split; [done|]. split; [apply (ow_cbs _ _ Ho)|]. split; [apply (ow_thread _ _ Ho)|done].
    + apply (ow_nodes _ _ Ho).
    + intros j Hj. rewrite Hc. destruct (Z.eqb_spec i j); [done|lia].
    + specialize (Hc i). rewrite Z.eqb_refl in Hc. fold i. lia.
    + fold i. unfold scmd_refs in *. lia.
Qed.

Lemma refs_cons h n q sem :
  refs h (Some {| cmd_queue := n :: q; cmd_sem := sem |}) =
  match node_idx h n with Some i => [i] | None => [] end ++
  refs h (Some {| cmd_queue := q; cmd_sem := sem |}).
Proof. simpl. by destruct (node_idx h n). Qed.

(** The stream's thread takes the next command. *)
Lemma owns_dispatch w out n q sem :
  callbacks_honest -> owns w out ->
  cmd_thread (w_s w) = Some {| cmd_queue := n :: q; cmd_sem := sem |} ->
  exists w' i k, mm_stream_dispatch_app_data n
      (scmd_set (Some {| cmd_queue := q; cmd_sem := sem |}) w) = Some (tt, w') /\
    handed (w_tr w') = replicate k i ++ handed (w_tr w) /\ owns w' (replicate k i ++ out).
Proof.
  intros Hcb Ho Ht. set (t' := Some {| cmd_queue := q; cmd_sem := sem |}).
  pose proof (ow_nodes _ _ Ho) as Hn. rewrite Ht in Hn. simpl in Hn.
  apply Forall_cons in Hn as [(info & ref & -> & Href & Hh) Hq]. set (i := br_idx ref).
  assert (Hni : node_idx (my_hdl (w_s w)) (MM_CAMERA_CMD_TYPE_DATA_CB info) = Some i).
  { simpl. rewrite Href, Hh, Z.eqb_refl. done. }
  assert (Hsc : forall j, cnt j (scmd_refs w) = (if i =? j then 1 else 0) + cnt j (refs (my_hdl (w_s w)) t')).
  { intros j. unfold scmd_refs. rewrite Ht, refs_cons, Hni. simpl. lia. }
  pose proof (cnt_nonneg i (refs (my_hdl (w_s w)) t')) as Hnn.
  pose proof (Hsc i) as Hsci. rewrite Z.eqb_refl in Hsci.
  assert (Hpos : 0 < holders w out i).
  { unfold holders. fold (scmd_refs w). pose proof (cnt_nonneg i out).
    pose proof (cnt_nonneg i (refs (my_hdl (w_s w)) (w_chq w))). lia. }
  destruct (ow_valid _ _ Ho i Hpos) as [st Hst]. pose proof (owns_refcnt _ _ _ _ Ho Hst) as Hr.
  destruct (ow_count _ _ Ho i st Hst) as (H1 & H2 & _). fold (scmd_refs w) in H2.
  assert (Hd : can_dispatch (scmd_set t' w) i st).
  { split; [apply (ow_active _ _ Ho)| |done].
    destruct (ow_arrays _ _ Ho) as (bs & ss & Hb & Hs & Hl & _ & Hix).
    simpl. rewrite Hb. rewrite Hs in Hst. apply at_index_Some in Hst as [H0 Hst%lookup_lt_Some].
    destruct (lookup_lt_is_Some_2 bs (Z.to_nat i)) as [b Hbi]; [lia|].
    exists b. assert (at_index (Some bs) i = Some b) as Hat by (by apply at_index_Some).
    split; [done|]. by eapply indexed_at. }
  destruct (dispatch_run info ref (scmd_set t' w) st) as (w1 & k & b & D & Hk & Hbi & Hrun);
    [done|done|done|lia|apply (ow_cbs _ _ Ho)|].
  exists (buf_done_result b (add_ref k st) w1).2, i, k.
  destruct D as (l & tr & -> & Hl & Hhc & Hhd & Hker).
  split; [done|]. split; [by rewrite buf_done_handed|].
  apply (owns_done w out b st _ (replicate k i ++ out) k Ho); try (rewrite Hbi; fold i);
    [done|lia| |done| | |].
  - exists l, tr. split; [done|]. split; [by rewrite Hl; apply (ow_cbs _ _ Ho)|]. split; [by eexists|done].
  - intros j Hj. specialize (Hsc j). unfold holders. fold (scmd_refs w).
    destruct (Z.eqb_spec i j) as [|_]; [done|]. rewrite cnt_app, cnt_replicate.
    destruct (Z.eqb_spec i j); [done|]. unfold scmd_refs in *. simpl. simpl in Hsc. lia.
  - unfold holders in *. fold (scmd_refs w) in H1. rewrite cnt_app, cnt_replicate, Z.eqb_refl.
    simpl in *. lia.
  - unfold scmd_refs. simpl in *. lia.
Qed.

(** Posting a command: without memory for it or for its cell nothing is
    queued. *)
Lemma chq_post_run w t node : w_chq w = Some t ->
  exists q sem tr ok, cmd_post w_chq put_w_chq (@sext) node w =
      Some (ok, put_w_tr tr (put_w_chq (Some {| cmd_queue := q; cmd_sem := sem |}) w)) /\
    (q = cmd_queue t \/ q = cmd_queue t ++ [node]) /\
    (forall d j, kernel_has d j tr = kernel_has d j (w_tr w)) /\ handed tr = handed (w_tr w).
Proof.
  intros Ht. unfold cmd_post, cmd_enq, cam_sem_post, sext, sys_malloc, ext. unM.
  destruct (env_malloc (w_tr w)); simpl.
  - destruct (env_malloc (EMalloc true :: w_tr w)); simpl; rewrite Ht; simpl.
    + do 4 eexists. split; [reflexivity|]. split; [by right|done].
    + do 4 eexists. split; [reflexivity|]. split; [by left|done].
  - exists (cmd_queue t), (cmd_sem t), (EMalloc false :: w_tr w), false. split; [|split; [by left|done]].
    destruct w as [s p c cam ch tr]; simpl in *; subst. by destruct t.
Qed.

Lemma scmd_post_run w t node : cmd_thread (w_s w) = Some t ->
  exists q sem tr ok, cmd_post scmd_get scmd_set (@sext) node w =
      Some (ok, put_w_tr tr (scmd_set (Some {| cmd_queue := q; cmd_sem := sem |}) w)) /\
    (q = cmd_queue t \/ q = cmd_queue t ++ [node]) /\
    (forall d j, kernel_has d j tr = kernel_has d j (w_tr w)) /\ handed tr = handed (w_tr w).
Proof.
  intros Ht. unfold cmd_post, cmd_enq, cam_sem_post, scmd_get, sext, sys_malloc, ext. unM.
  destruct (env_malloc (w_tr w)); simpl.
  - destruct (env_malloc (EMalloc true :: w_tr w)); simpl; rewrite Ht; simpl.
    + do 4 eexists. split; [reflexivity|]. split; [by right|done].
    + do 4 eexists. split; [reflexivity|]. split; [by left|done].
  - exists (cmd_queue t), (cmd_sem t), (EMalloc false :: w_tr w), false. split; [|split; [by left|done]].
    destruct w as [[] p c cam ch tr]; simpl in *; subst. by destruct t.
Qed.

(** Handing a dequeued buffer to its consumers: at most one more command in
    each of the two queues. *)
Lemma handle_rcvd_buf_run w info h :
  (is_bundled (w_s w) = true -> is_Some (w_chq w)) ->
  (h = true -> is_Some (cmd_thread (w_s w))) ->
  let node := MM_CAMERA_CMD_TYPE_DATA_CB info in
  exists c t tr, mm_stream_handle_rcvd_buf info h w =
      Some (tt, put_w_tr tr (scmd_set t (put_w_chq c w))) /\
    (c = w_chq w \/ is_bundled (w_s w) = true /\ is_Some c /\
       (thread_nodes c = thread_nodes (w_chq w) \/ thread_nodes c = thread_nodes (w_chq w) ++ [node])) /\
    (t = cmd_thread (w_s w) \/ h = true /\ is_Some t /\
       (thread_nodes t = thread_nodes (cmd_thread (w_s w)) \/
        thread_nodes t = thread_nodes (cmd_thread (w_s w)) ++ [node])) /\
    (forall d j, kernel_has d j tr = kernel_has d j (w_tr w)) /\ handed tr = handed (w_tr w).
Proof.
  intros Hb Ht node. unfold mm_stream_handle_rcvd_buf. unfold obj.
  assert (exists c tr, (if is_bundled (w_s w) then cmd_post w_chq put_w_chq (@sext) node;; mret tt
                        else mret tt) w = Some (tt, put_w_tr tr (put_w_chq c w)) /\
    (c = w_chq w \/ is_bundled (w_s w) = true /\ is_Some c /\
       (thread_nodes c = thread_nodes (w_chq w) \/ thread_nodes c = thread_nodes (w_chq w) ++ [node])) /\
    (forall d j, kernel_has d j tr = kernel_has d j (w_tr w)) /\ handed tr = handed (w_tr w))
    as (c & tr & E1 & Hc & Hk1 & Hh1).
  { destruct (is_bundled (w_s w)) eqn:Eb.
    - destruct (Hb eq_refl) as [t0 Ht0]. destruct (chq_post_run w t0 node Ht0) as (q & sem & tr & ok & E1 & Hq & ? & ?).
      unfold mbind, M_bind. rewrite E1. do 2 eexists. split; [reflexivity|].
      split; [right; split; [done|]; split; [by eexists|]|done]. rewrite Ht0. done.
    - exists (w_chq w), (w_tr w). split; [by destruct w|]. split; [by left|done]. }
  unfold mbind, M_bind, gets in *. fold node. rewrite E1. set (w1 := put_w_tr tr (put_w_chq c w)).
  destruct h.
  - destruct (Ht eq_refl) as [t0 Ht0].
    destruct (scmd_post_run w1 t0 node Ht0) as (q & sem & tr2 & ok & E2 & Hq & Hk2 & Hh2).
    rewrite E2. do 3 eexists. split; [reflexivity|]. split; [done|].
    split; [right; split; [done|]; split; [by eexists|]; by rewrite Ht0|].
    split; [intros d j; by rewrite Hk2, <- Hk1|by rewrite Hh2, <- Hh1].
  - exists c, (cmd_thread (w_s w)), tr. split; [|split; [done|split; [by left|done]]].
    unfold mret, M_ret, w1. by destruct w as [[] ? ? ? ? ?].
Qed.

Lemma i8_id z : - 128 <= z < 128 -> i8 z = z.
Proof. intros H. unfold i8. rewrite Z.mod_small; lia. Qed.

Lemma upd_buf_run idx f w b : at_index (buf (w_s w)) idx = Some b ->
  upd_buf idx f w = Some (tt, put_w_s (set_buf (<[Z.to_nat idx := f b]> <$> buf (w_s w)) (w_s w)) w).
Proof. intros H. unfold upd_buf, buf_at, obj, upd. unM. by rewrite H. Qed.

(** Reading a frame that the kernel delivers: the buffer's slot is filled in,
    and the result is that of the cache operation, if there is one. *)
Lemma read_frame_run n w bs vb idx b :
  buf (w_s w) = Some bs -> env_dqbuf (w_tr w) (fd (w_s w)) = (0, vb) -> idx = dq_index vb ->
  0 <= idx < 127 -> at_index (Some bs) idx = Some b ->
  exists rc nb tr, mm_stream_read_msm_frame n w =
      Some ((rc, Some {| bi_stream_id := my_hdl (w_s w); bi_frame_idx := dq_sequence vb;
                         bi_buf := Some {| br_stream := my_hdl (w_s w); br_idx := idx |} |}),
            put_w_tr tr (put_w_s (set_buf (Some (<[Z.to_nat idx := nb]> bs)) (w_s w)) w)) /\
    b_buf_idx nb = idx /\
    (forall d j, kernel_has d j tr =
       kernel_has d j (EDqbuf (fd (w_s w)) n 0 vb :: w_tr w)) /\ handed tr = handed (w_tr w).
Proof.
  intros Hb Hdq -> Hidx Hat. unfold mm_stream_read_msm_frame, mbind, M_bind.
  unfold obj at 1, gets at 1. unfold sext at 1, zoom, sys_dqbuf, ext. rewrite Hdq. simpl fst. simpl snd.
  cbv iota beta. change (0 <? 0) with false. cbv iota.
  unfold obj at 1, gets at 1. rewrite i8_id by lia.
  set (w1 := put_w_tr _ w). erewrite (upd_buf_run _ _ w1); [|simpl; by rewrite Hb].
  unfold obj, gets. simpl. rewrite Hb. simpl.
  destruct (clean_invalidate_buf (mem_vtbl (w_s w))) as [f|]; simpl.
  - do 3 eexists. split; [reflexivity|]. simpl. split; [done|]. by split.
  - do 3 eexists. split; [reflexivity|]. simpl. split; [done|]. by split.
Qed.

Lemma owns_trace w out tr :
  owns w out -> (forall j, kernel_has (fd (w_s w)) j tr = true ->
                           kernel_has (fd (w_s w)) j (w_tr w) = true) ->
  owns (put_w_tr tr w) out.
Proof. intros [] Hk. constructor; try done. intros i Hi. apply ow_kernel0, Hk, Hi. Qed.

Lemma indexed_insert bs i b : indexed bs -> b_buf_idx b = i -> 0 <= i ->
  indexed (<[Z.to_nat i := b]> bs).
Proof.
  intros Hix Hb Hi n c. rewrite list_lookup_insert_Some. intros [(<- & <- & _)|(_ & Hc)]; [lia|].
  by apply Hix.
Qed.

Lemma refs_nodes h t : refs h t = omap (node_idx h) (thread_nodes t).
Proof. by destruct t. Qed.

(** The counts of references after at most one more command. *)
Lemma refs_grow h (c c' : option mm_camera_cmd_thread_t) node i j :
  node_idx h node = Some i ->
  thread_nodes c' = thread_nodes c \/ thread_nodes c' = thread_nodes c ++ [node] ->
  cnt j (refs h c') <= cnt j (refs h c) + if i =? j then 1 else 0.
Proof.
  intros Hn Hc. rewrite !refs_nodes. destruct Hc as [-> | ->]; [destruct (i =? j); lia|].
  rewrite omap_app, cnt_app. simpl. rewrite Hn. simpl. lia.
Qed.

Lemma notify_refcnt bundled h st : buf_refcnt st = 0 ->
  buf_refcnt (notify_status bundled h st) = (if bundled : bool then 1 else 0) + (if h : bool then 1 else 0) /\
  in_kernel (notify_status bundled h st) = false.
Proof. intros H. unfold notify_status. destruct bundled, h; simpl; by rewrite H. Qed.

Lemma owns_insert_same w out i st bs nb tr :
  owns w out -> at_index (buf_status (w_s w)) i = Some st -> in_kernel st = true ->
  buf (w_s w) = Some bs -> b_buf_idx nb = i ->
  (forall j, kernel_has (fd (w_s w)) j tr = true ->
     (j =? i) = false -> kernel_has (fd (w_s w)) j (w_tr w) = true) ->
  owns (put_w_tr tr (put_w_s (set_buf (Some (<[Z.to_nat i := nb]> bs)) (w_s w)) w)) out.
Proof.
  intros Ho Hst Hk Hb Hnb Hker. pose proof (owns_index _ _ _ _ Ho Hst).
  destruct (ow_count _ _ Ho i st Hst) as (H1 & H2 & H3).
  eapply (owns_update w out _ out i st st Ho Hst); simpl; try apply Ho; try done.
  - destruct (buf_status (w_s w)) as [ss|]; [|done]. apply at_index_Some in Hst as [_ Hst].
    simpl. by rewrite list_insert_id.
  - intros bs0 Hb0 Hix. rewrite Hb in Hb0. injection Hb0 as <-. eexists. split; [done|].
    split; [apply length_insert|]. apply indexed_insert; [done|done|lia].
  - intros j Hj. destruct (j =? i) eqn:Ej; [done|]. by apply Hker.
Qed.

(** A frame arrives. *)
Lemma owns_notify w out : kernel_honest -> owns w out ->
  exists w', mm_stream_data_notify w = Some (tt, w') /\ owns w' out /\
             handed (w_tr w') = handed (w_tr w).
Proof.
  intros Hhon Ho. unfold mm_stream_data_notify, mbind, M_bind.
  unfold obj at 1, gets at 1. destruct (decide _) as [_|Hn]; [|destruct Hn; apply Ho].
  unfold obj at 1, gets at 1. set (np := u8 _).
  specialize (Hhon (w_tr w) (fd (w_s w))).
  destruct (env_dqbuf (w_tr w) (fd (w_s w))) as [rc vb] eqn:Edq.
  destruct (Z.lt_ge_cases rc 0) as [Hneg|Hpos].
  { (* nothing delivered *)
    unfold mm_stream_read_msm_frame, obj, sext, sys_dqbuf, ext. unM. rewrite Edq. simpl.
    destruct (Z.ltb_spec rc 0); [|lia]. simpl. destruct (Z.eqb_spec rc 0); [lia|].
    eexists. split; [reflexivity|]. split; [|done]. apply owns_trace; [done|]. intros j. simpl.
    destruct (Z.leb_spec 0 rc); [lia|]. by rewrite andb_false_r. }
  destruct (Hhon Hpos) as [-> Hkh].
  destruct (ow_kernel _ _ Ho _ Hkh) as (st & Hst & Hik). set (i := dq_index vb) in *.
  pose proof (owns_index _ _ _ _ Ho Hst) as Hidx.
  destruct (ow_count _ _ Ho i st Hst) as (Hc1 & Hc2 & Hc3). specialize (Hc3 Hik).
  destruct (ow_arrays _ _ Ho) as (bs & ss & Hb & Hs & Hl & H127 & Hix).
  assert (exists b, at_index (Some bs) i = Some b) as [b Hbi].
  { rewrite Hs in Hst. apply at_index_Some in Hst as [? Hst%lookup_lt_Some].
    destruct (lookup_lt_is_Some_2 bs (Z.to_nat i)) as [b ?]; [lia|]. exists b. by apply at_index_Some. }
  destruct (read_frame_run np w bs vb i b Hb Edq eq_refl ltac:(lia) Hbi) as (rc & nb & tr & -> & Hnb & Hker & Hhd).
  set (w1 := put_w_tr tr (put_w_s (set_buf (Some (<[Z.to_nat i := nb]> bs)) (w_s w)) w)).
  assert (Hker' : forall j, kernel_has (fd (w_s w)) j tr = true ->
     (j =? i) = false /\ kernel_has (fd (w_s w)) j (w_tr w) = true).
  { intros j. rewrite Hker. simpl. rewrite Z.eqb_refl. simpl. fold i. rewrite (Z.eqb_sym i j).
    by destruct (j =? i). }
  assert (Ho1 : owns w1 out).
  { eapply owns_insert_same; try done. intros j Hj _. by apply Hker'. }
  destruct (Z.eqb_spec rc 0) as [->|Hrc]; [|by exists w1].
  unfold deref at 1 2. simpl bi_buf. cbv iota beta. unfold buf_at, obj, gets, mbind, M_bind, deref.
  assert (Hw1b : at_index (buf (w_s w1)) i = Some nb).
  { simpl. apply at_index_Some in Hbi as [? Hbi%lookup_lt_Some]. apply at_index_Some.
    split; [done|]. by apply list_lookup_insert_eq. }
  simpl br_idx. rewrite Hw1b, Hnb. rewrite (upd_status_run i _ w1 st Hst).
  set (st' := notify_status _ _ st). set (w2 := with_status i st' w1).
  set (info := {| bi_stream_id := _ |}).
  destruct (notify_refcnt (is_bundled (w_s w1)) (has_cb (buf_cb (w_s w1))) st Hc3) as [Hr' Hk'].
  fold st' in Hr', Hk'.
  destruct (handle_rcvd_buf_run w2 info (has_cb (buf_cb (w_s w1)))) as (c & t & tr2 & -> & Hc & Ht & Hk2 & Hh2);
    [apply (ow_chthread _ _ Ho)|apply (ow_thread _ _ Ho)|].
  eexists. split; [reflexivity|]. split; [|simpl; by rewrite Hh2].
  assert (Hni : node_idx (my_hdl (w_s w)) (MM_CAMERA_CMD_TYPE_DATA_CB info) = Some i).
  { simpl. by rewrite Z.eqb_refl. }
  assert (Hcj : forall j, cnt j (refs (my_hdl (w_s w)) c) <= cnt j (refs (my_hdl (w_s w)) (w_chq w)) +
     if i =? j then (if is_bundled (w_s w) then 1 else 0) else 0).
  { intros j. destruct Hc as [->|(Hbb & _ & Hc)]; [simpl; destruct (i =? j), (is_bundled (w_s w)); lia|].
    simpl in Hbb. rewrite Hbb. by eapply refs_grow. }
  assert (Htj : forall j, cnt j (refs (my_hdl (w_s w)) t) <= cnt j (scmd_refs w) +
     if i =? j then (if has_cb (buf_cb (w_s w)) then 1 else 0) else 0).
  { intros j. destruct Ht as [->|(Hhc & _ & Ht)].
    - unfold scmd_refs. simpl. destruct (i =? j), (has_cb (buf_cb (w_s w))); lia.
    - simpl in Hhc. rewrite Hhc. by eapply refs_grow. }
  pose proof (holders_nonneg w out i) as Hnn. simpl in Hr'.
  assert (Hh0 : holders w out i = 0) by lia.
  assert (Hs0 : cnt i (scmd_refs w) = 0).
  { unfold holders in Hh0. fold (scmd_refs w) in Hh0. pose proof (cnt_nonneg i out).
    pose proof (cnt_nonneg i (refs (my_hdl (w_s w)) (w_chq w))). pose proof (cnt_nonneg i (scmd_refs w)). lia. }
  eapply (owns_update w1 out _ out i st st' Ho1 Hst); simpl; try apply Ho1; try done.
  - intros bs0 Hb0 Hix0. by exists bs0.
  - destruct Ht as [->|(_ & ? & _)]; [apply (ow_thread _ _ Ho)|done].
  - destruct Hc as [->|(_ & ? & _)]; [apply (ow_chthread _ _ Ho)|done].
  - destruct Ht as [->|(_ & _ & Ht)]; [apply (ow_nodes _ _ Ho)|].
    assert (own_node (my_hdl (w_s w)) (MM_CAMERA_CMD_TYPE_DATA_CB info)) by (by do 2 eexists).
    pose proof (ow_nodes _ _ Ho) as Hnodes. simpl in Ht.
    destruct Ht as [-> | ->]; [done|]. apply Forall_app. split; [done|]. by apply Forall_singleton.
  - intros j Hj. specialize (Hcj j). specialize (Htj j).
    destruct (Z.eqb_spec i j); [done|]. unfold holders, scmd_refs in *. simpl in *. lia.
  - specialize (Hcj i). specialize (Htj i). rewrite Z.eqb_refl in *.
    unfold holders, scmd_refs in *. simpl in *. lia.
  - specialize (Htj i). rewrite Z.eqb_refl in *. unfold scmd_refs in *. simpl in *. rewrite Hr'.
    destruct (is_bundled (w_s w)), (has_cb (buf_cb (w_s w))); lia.
  - by destruct (is_bundled (w_s w)).
  - intros j. rewrite Hk2. simpl. intros Hj. destruct (Hker' j Hj) as [-> _]. done.
Qed.

Definition carried (w : sworld) (n : mm_camera_cmdcb_t) : list Z :=
  match node_idx (my_hdl (w_s w)) n with Some i => [i] | None => [] end.

(** The channel's command queue changes without touching the sum of the
    references. *)
Lemma owns_chq w out c out' :
  owns w out -> is_Some c ->
  (forall i, holders (put_w_chq c w) out' i = holders w out i) -> owns (put_w_chq c w) out'.
Proof.
  intros [] Hc Hh. constructor; try done.
  - intros i. rewrite Hh. apply ow_valid0.
  - intros i st Hst. rewrite Hh. by apply ow_count0.
Qed.

(** The steps of an active stream, in any interleaving: the poll thread has a
    frame; the stream's thread takes a command and runs the callbacks; the
    channel's thread takes a command, and holds the buffer it carries; another
    stream of the channel posts a command; somebody who holds a buffer gives
    it back. *)
Inductive own_step : sworld * list Z -> sworld * list Z -> Prop :=
| own_frame w out w' :
    mm_stream_data_notify w = Some (tt, w') -> own_step (w, out) (w', out)
| own_deliver w out n q sem w' new :
    cmd_thread (w_s w) = Some {| cmd_queue := n :: q; cmd_sem := sem |} ->
    mm_stream_dispatch_app_data n (scmd_set (Some {| cmd_queue := q; cmd_sem := sem |}) w) = Some (tt, w') ->
    handed (w_tr w') = new ++ handed (w_tr w) ->
    own_step (w, out) (w', new ++ out)
| own_take w out n q sem :
    w_chq w = Some {| cmd_queue := n :: q; cmd_sem := sem |} ->
    own_step (w, out) (put_w_chq (Some {| cmd_queue := q; cmd_sem := sem |}) w, carried w n ++ out)
| own_other w out t n :
    w_chq w = Some t -> node_idx (my_hdl (w_s w)) n = None ->
    own_step (w, out) (put_w_chq (Some {| cmd_queue := cmd_queue t ++ [n]; cmd_sem := cmd_sem t |}) w, out)
| own_give_back w out1 b out2 rc w' :
    mm_stream_fsm_fn (MM_STREAM_EVT_QBUF b) w = Some (rc, w') ->
    own_step (w, out1 ++ b_buf_idx b :: out2) (w', out1 ++ out2).

Lemma own_step_owns x y : kernel_honest -> callbacks_honest ->
  own_step x y -> owns x.1 x.2 -> owns y.1 y.2.
Proof.
  intros Hk Hc [w out w' E1|w out n q sem w' new Ht E1 Hnew|w out n q sem Hq|w out t n Ht Hn
               |w out1 b out2 rc w' E1] Ho; simpl in *.
  - destruct (owns_notify w out Hk Ho) as (w2 & E2 & Ho2 & _). congruence.
  - destruct (owns_dispatch w out n q sem Hc Ho Ht) as (w2 & i & k & E2 & Hh & Ho2).
    assert (w2 = w') as -> by congruence. rewrite Hh in Hnew. by apply app_inv_tail in Hnew as <-.
  - apply (owns_chq w out); [done|by eexists|]. intros i. unfold holders. simpl.
    rewrite Hq. rewrite refs_cons, !cnt_app. unfold carried. simpl. lia.
  - apply (owns_chq w out); [done|by eexists|]. intros i. unfold holders. simpl.
    rewrite Ht. simpl. rewrite omap_app. simpl. rewrite Hn, app_nil_r. lia.
  - destruct (owns_return w out1 b out2 Ho) as (st & w2 & rc2 & _ & _ & E2 & _ & Ho2). congruence.
Qed.

Lemma own_reach x y : kernel_honest -> callbacks_honest ->
  rtc own_step x y -> owns x.1 x.2 -> owns y.1 y.2.
Proof. intros Hk Hc Hr. induction Hr; eauto using own_step_owns. Qed.

(** C2: however the frames of an active stream, its callbacks, the channel
    and the clients interleave, no buffer is shared with the kernel: while
    the kernel holds a buffer nobody else has a reference to it, on its way
    or in hand; every holder that gives a buffer back finds a reference to
    drop, and the stream neither crashes nor refuses it as freed twice; the
    next frame and the next command can always be processed. *)
Theorem buffers_never_shared (Hk : kernel_honest) (Hc : callbacks_honest) w0 out0 w out
  (Hinit : owns w0 out0) (Hreach : rtc own_step (w0, out0) (w, out)) :
  (forall i, kernel_has (fd (w_s w)) i (w_tr w) = true -> holders w out i = 0) /\
  (forall out1 b out2, out = out1 ++ b_buf_idx b :: out2 ->
     exists st rc w', at_index (buf_status (w_s w)) (b_buf_idx b) = Some st /\ 0 < buf_refcnt st /\
       mm_stream_fsm_fn (MM_STREAM_EVT_QBUF b) w = Some (rc, w') /\ (rc, w') = buf_done_result b st w) /\
  is_Some (mm_stream_data_notify w) /\
  (forall n q sem, cmd_thread (w_s w) = Some {| cmd_queue := n :: q; cmd_sem := sem |} ->
     is_Some (mm_stream_dispatch_app_data n
                (scmd_set (Some {| cmd_queue := q; cmd_sem := sem |}) w))).
Proof.
  assert (Ho : owns w out) by apply (own_reach _ _ Hk Hc Hreach Hinit).
  split; [|split; [|split]].
  - intros i Hi. destruct (ow_kernel _ _ Ho i Hi) as (st & Hst & Hin).
    destruct (ow_count _ _ Ho i st Hst) as (H1 & _ & H3). specialize (H3 Hin).
    pose proof (holders_nonneg w out i). lia.
  - intros out1 b out2 ->. destruct (owns_return w out1 b out2 Ho) as (st & w' & rc & ? & ? & ? & ? & _).
    by exists st, rc, w'.
  - destruct (owns_notify w out Hk Ho) as (w' & -> & _). by eexists.
  - intros n q sem Ht. destruct (owns_dispatch w out n q sem Hc Ho Ht) as (w' & i & k & -> & _). by eexists.
Qed.

(** ** Registering the buffers and starting *)

(** The status of a buffer after registration: queued in the kernel, or left
    with the client, which holds one reference. *)
Definition reg_status (st : mm_stream_buf_status_t) : mm_stream_buf_status_t :=
  if initial_reg_flag st =? 0
  then {| buf_refcnt := 1; initial_reg_flag := initial_reg_flag st; in_kernel := false |}
  else {| buf_refcnt := 0; initial_reg_flag := initial_reg_flag st; in_kernel := true |}.

Lemma reg_one_run w bs ss n : buf (w_s w) = Some bs -> buf_status (w_s w) = Some ss ->
  indexed bs -> length bs = length ss -> (n < length ss)%nat -> (length ss <= 127)%nat ->
  exists st, ss !! n = Some st /\
  exists rc tr, reg_one_buf n w = Some (rc, put_w_tr tr
      (if rc =? 0 then put_w_s (set_buf_status (Some (<[n := reg_status st]> ss)) (w_s w)) w else w)) /\
    handed tr = handed (w_tr w) /\
    forall d j, kernel_has d j tr = true ->
      kernel_has d j (w_tr w) = true \/ j = Z.of_nat n /\ initial_reg_flag st <> 0.
Proof.
  intros Hb Hs Hix Hl Hn H127. destruct (lookup_lt_is_Some_2 _ _ Hn) as [st Hst]. exists st. split; [done|].
  assert (Hat : at_index (buf_status (w_s w)) (Z.of_nat n) = Some st).
  { rewrite Hs. apply at_index_Some. rewrite Nat2Z.id. split; [lia|done]. }
  unfold reg_one_buf, mbind, M_bind. unfold status_at, obj, gets, mbind, M_bind, deref. rewrite Hat.
  unfold reg_status. destruct (Z.eqb_spec (initial_reg_flag st) 0) as [E0|E0].
  - rewrite (upd_status_run _ _ _ _ Hat). exists 0, (w_tr w). split; [|split; [done|by left]].
    unfold mret, M_ret, with_status. do 2 f_equal. rewrite Hs. simpl. rewrite Nat2Z.id. by destruct w.
  - destruct (lookup_lt_is_Some_2 bs n) as [b Hbn]; [lia|].
    assert (Hbat : at_index (buf (w_s w)) (Z.of_nat n) = Some b).
    { rewrite Hb. apply at_index_Some. rewrite Nat2Z.id. split; [lia|done]. }
    unfold buf_at, obj, gets, mbind, M_bind, deref. rewrite Hbat, qbuf_run.
    pose proof (qbuf_handed b w) as Hhd. pose proof (Hix _ _ Hbn) as Hbi.
    pose proof (fun d j => qbuf_kernel b w d j ltac:(lia)) as Hqk.
    destruct (qbuf_events b w) as [rc tr]. simpl in Hhd. exists rc, tr. split; [|split; [done|]].
    + simpl. destruct (Z.eqb_spec rc 0) as [->|]; [|done].
      rewrite (upd_status_run _ _ _ st) by done. unfold mret, M_ret, with_status. do 2 f_equal.
      simpl. rewrite Hs. simpl. rewrite Nat2Z.id. done.
    + intros d j Hj. specialize (Hqk d j Hj). destruct (Z.eqb_spec j (b_buf_idx b)); [|by left].
      destruct Hqk as [|]; [by left|right]. split; [lia|done].
Qed.

(** The registration loop from buffer [k] on: it stops at the first failure,
    and on success has given every buffer its initial status. *)
Lemma reg_loop_run m k w bs ss : buf (w_s w) = Some bs -> buf_status (w_s w) = Some ss ->
  indexed bs -> length bs = length ss -> (k + m <= length ss)%nat -> (length ss <= 127)%nat ->
  exists rc ss' tr, for_until (seq k m) (fun rc => negb (rc =? 0)) 0 reg_one_buf w =
      Some (rc, put_w_tr tr (put_w_s (set_buf_status (Some ss') (w_s w)) w)) /\
    length ss' = length ss /\ handed tr = handed (w_tr w) /\
    (forall n, ~ (k <= n < k + m)%nat -> ss' !! n = ss !! n) /\
    (rc = 0 -> forall n, (k <= n < k + m)%nat -> ss' !! n = reg_status <$> ss !! n) /\
    (forall n, ss' !! n = ss !! n \/ ss' !! n = reg_status <$> ss !! n) /\
    (forall d j, kernel_has d j tr = true -> kernel_has d j (w_tr w) = true \/
       exists n st, j = Z.of_nat n /\ (k <= n < k + m)%nat /\ ss !! n = Some st /\ initial_reg_flag st <> 0).
Proof.
  revert k w ss. induction m as [|m IH]; intros k w ss Hb Hs Hix Hl Hk H127; simpl.
  { exists 0, ss, (w_tr w). split; [|split; [done|split; [done|split; [done|split; [intros; lia|split; by left]]]]].
    unfold mret, M_ret. do 2 f_equal. destruct w as [[] ? ? ? ? ?]; simpl in *; by subst. }
  destruct (reg_one_run w bs ss k Hb Hs Hix Hl ltac:(lia) H127) as (st & Hst & rc & tr & E1 & Hh1 & Hk1).
  unfold mbind, M_bind. rewrite E1. destruct (Z.eqb_spec rc 0) as [->|Hrc]; simpl.
  2:{ exists rc, ss, tr. split; [|split; [done|split; [done|split; [done|split; [done|split; [by left|]]]]]].
      - unfold mret, M_ret. do 2 f_equal. destruct w as [[] ? ? ? ? ?]; simpl in *; by subst.
      - intros d j Hj. destruct (Hk1 d j Hj) as [?|[-> ?]]; [by left|right]. exists k, st. split; [done|].
        split; [lia|done]. }
  set (w1 := put_w_tr tr _).
  destruct (IH (S k) w1 (<[k := reg_status st]> ss)) as (rc & ss' & tr' & E2 & Hl2 & Hh2 & Hout & Hin & Hall & Hk2);
    try done; rewrite ?length_insert; try done; try lia.
  rewrite length_insert in Hl2. exists rc, ss', tr'. rewrite E2. split; [done|]. split; [done|].
  split; [by rewrite Hh2|]. split; [|split; [|split]].
  - intros n Hn. rewrite Hout by lia. rewrite list_lookup_insert_ne; [done|lia].
  - intros -> n Hn. destruct (decide (n = k)) as [->|Hne].
    + rewrite Hout by lia. rewrite list_lookup_insert_eq by (by eapply lookup_lt_Some). by rewrite Hst.
    + rewrite (Hin eq_refl n ltac:(lia)). rewrite list_lookup_insert_ne; [done|lia].
  - intros n. destruct (decide (n = k)) as [->|Hne].
    + rewrite Hout by lia. rewrite list_lookup_insert_eq by (by eapply lookup_lt_Some). rewrite Hst. by right.
    + specialize (Hall n). rewrite list_lookup_insert_ne in Hall by done. done.
  - intros d j Hj. destruct (Hk2 d j Hj) as [Hj1|(n & sn & -> & Hn & Hsn & Hfl)].
    + destruct (Hk1 d j Hj1) as [?|[-> ?]]; [by left|right]. exists k, st. split; [done|]. split; [lia|done].
    + right. exists n, sn. rewrite list_lookup_insert_ne in Hsn by lia. split; [done|]. split; [lia|done].
Qed.

End Run.
