(* ===== verification/StreamFsm.v ===== *)
(** * The state machine of a stream

    In every state the machine can be in, every event is handled to the end:
    no null pointer, no index out of range, no wait that never ends; the
    invariant of the new state holds and the state is the one the transition
    table says.  StreamProps has the ownership of buffers in the active
    state. *)

From Stdlib Require Import ZArith Lia.
From stdpp Require Import numbers list relations.
From S2P Require Import Prelude CamTypes StreamOffset Env Handles Threads Stream StreamProps.

Section Fsm.
Context `{E : Env}.

(** ** What is asked of the outside *)

Fixpoint client_all {A} (P : A -> Prop) (c : client A) : Prop :=
  match c with
  | CRet a => P a
  | CMap _ _ _ _ k => forall rc, client_all P (k rc)
  | CUnmap _ _ k => forall rc, client_all P (k rc)
  end.

(** [get_bufs] that answers 0 has allocated as many buffers and flags as it
    says, numbered by their position. *)
Definition reply_ok (r : get_bufs_reply) : Prop :=
  gb_rc r = 0 -> exists bs, gb_bufs r = Some bs /\ Z.of_nat (length bs) = u8 (gb_num_bufs r) /\
                            length (gb_reg_flags r) = length bs /\ indexed bs.

Record env_ok : Prop := {
  eo_malloc : forall tr, env_malloc tr = true;
  eo_get_bufs : forall f tr off, client_all reply_ok (env_get_bufs f tr off);
  eo_callbacks : callbacks_honest
}.

(** ** Invariant *)

Definition configured (s : mm_stream_t) : Prop :=
  is_Some (stream_info s) /\ is_Some (get_bufs (mem_vtbl s)) /\ is_Some (put_bufs (mem_vtbl s)).

Definition arrays (s : mm_stream_t) : Prop :=
  exists bs ss, buf s = Some bs /\ buf_status s = Some ss /\ length bs = length ss /\
    Z.of_nat (length ss) = buf_num s /\ buf_num s < 256 /\ indexed bs /\
    Forall (fun st => 0 <= buf_refcnt st < 256) ss.

(** A command in the stream's queue names one of its buffers. *)
Definition node_valid (s : mm_stream_t) (n : mm_camera_cmdcb_t) : Prop :=
  match n with
  | MM_CAMERA_CMD_TYPE_DATA_CB info =>
      exists ref, bi_buf info = Some ref /\ 0 <= br_idx ref < buf_num s
  | _ => True
  end.

Definition threaded (s : mm_stream_t) : Prop :=
  has_cb (buf_cb s) = true ->
  exists q sem, cmd_thread s = Some {| cmd_queue := q; cmd_sem := sem |} /\
    0 <= sem < 2 ^ 31 - 1 /\ Forall (node_valid s) q.

Definition live (w : sworld) : Prop :=
  poll_running (w_poll w) /\ length (buf_cb (w_s w)) = MM_CAMERA_STREAM_BUF_CB_MAX.

Definition stage (st : mm_stream_state_type_t) (s : mm_stream_t) : Prop :=
  match st with
  | MM_STREAM_STATE_NOTUSED | MM_STREAM_STATE_INITED | MM_STREAM_STATE_ACQUIRED => True
  | MM_STREAM_STATE_CFG => configured s
  | MM_STREAM_STATE_BUFFED | MM_STREAM_STATE_REG => configured s /\ arrays s
  | MM_STREAM_STATE_ACTIVE => configured s /\ arrays s /\ threaded s
  end.

Definition stream_inv (w : sworld) : Prop := live w /\ stage (state (w_s w)) (w_s w).

(** The payloads: a configuration is complete, a returned frame is one of the
    stream's. *)
Definition evt_ok (w : sworld) (evt : mm_stream_evt_type_t) : Prop :=
  match evt with
  | MM_STREAM_EVT_SET_FMT c =>
      is_Some (c_stream_info c) /\ is_Some (get_bufs (c_mem_vtbl c)) /\ is_Some (put_bufs (c_mem_vtbl c))
  | MM_STREAM_EVT_QBUF b =>
      state (w_s w) = MM_STREAM_STATE_ACTIVE -> is_Some (at_index (buf_status (w_s w)) (b_buf_idx b))
  | _ => True
  end.

(** The transition table. *)
Definition next_state (st : mm_stream_state_type_t) (evt : mm_stream_evt_type_t) (rc : Z) :
  mm_stream_state_type_t :=
  match st, evt with
  | MM_STREAM_STATE_INITED, MM_STREAM_EVT_ACQUIRE => if rc =? 0 then MM_STREAM_STATE_ACQUIRED else st
  | MM_STREAM_STATE_ACQUIRED, MM_STREAM_EVT_SET_FMT _ => MM_STREAM_STATE_CFG
  | MM_STREAM_STATE_ACQUIRED, MM_STREAM_EVT_RELEASE => MM_STREAM_STATE_NOTUSED
  | MM_STREAM_STATE_CFG, MM_STREAM_EVT_RELEASE => MM_STREAM_STATE_NOTUSED
  | MM_STREAM_STATE_CFG, MM_STREAM_EVT_GET_BUF => if rc =? 0 then MM_STREAM_STATE_BUFFED else st
  | MM_STREAM_STATE_BUFFED, MM_STREAM_EVT_PUT_BUF => MM_STREAM_STATE_CFG
  | MM_STREAM_STATE_BUFFED, MM_STREAM_EVT_REG_BUF => if rc =? 0 then MM_STREAM_STATE_REG else st
  | MM_STREAM_STATE_REG, MM_STREAM_EVT_UNREG_BUF => MM_STREAM_STATE_BUFFED
  | MM_STREAM_STATE_REG, MM_STREAM_EVT_START => if rc =? 0 then MM_STREAM_STATE_ACTIVE else st
  | MM_STREAM_STATE_ACTIVE, MM_STREAM_EVT_STOP => MM_STREAM_STATE_REG
  | _, _ => st
  end.

(** ** The operations end *)

(** Code that only makes outside calls. *)
Definition calls_only {A} (m : M sworld A) (P : A -> Prop) : Prop :=
  forall w, exists a tr, m w = Some (a, put_w_tr tr w) /\ P a.

Lemma put_w_tr_id w : put_w_tr (w_tr w) w = w.
Proof. by destruct w. Qed.

Lemma calls_ret {A} (a : A) (P : A -> Prop) : P a -> calls_only (mret a) P.
Proof. intros H w. exists a, (w_tr w). by rewrite put_w_tr_id. Qed.

Lemma calls_ext {A} (f : history -> A) e (P : A -> Prop) :
  (forall tr, P (f tr)) -> calls_only (sext (ext f e)) P.
Proof. intros H w. eexists _, _. split; [reflexivity|apply H]. Qed.

Lemma calls_bind {A B} (m : M sworld A) (k : A -> M sworld B) (P : A -> Prop) (Q : B -> Prop) :
  calls_only m P -> (forall a, P a -> calls_only (k a) Q) -> calls_only (m ≫= k) Q.
Proof.
  intros Hm Hk w. destruct (Hm w) as (a & tr & E1 & Ha). unfold mbind, M_bind. rewrite E1.
  destruct (Hk a Ha (put_w_tr tr w)) as (b & tr2 & -> & Hb). by exists b, tr2.
Qed.

Lemma calls_obj {A B} (f : mm_stream_t -> A) (k : A -> M sworld B) (Q : B -> Prop) :
  (forall a, calls_only (k a) Q) -> calls_only (obj f ≫= k) Q.
Proof. intros H w. apply (H (f (w_s w)) w). Qed.

Lemma calls_ioctl d r : calls_only (sext (sys_ioctl d r)) (fun _ => True).
Proof. by apply calls_ext. Qed.

Lemma calls_s_ctrl d id v : calls_only (sext (mm_camera_util_s_ctrl d id v)) (fun _ => True).
Proof. intros w. eexists _, _. by split. Qed.

Lemma calls_g_ctrl d id v : calls_only (sext (mm_camera_util_g_ctrl d id v)) (fun _ => True).
Proof. intros w. eexists _, _. by split. Qed.

Lemma calls_sendmsg p d : calls_only (sext (mm_camera_util_sendmsg p d)) (fun _ => True).
Proof.
  intros w. unfold sext, mm_camera_util_sendmsg, ext. unM.
  destruct (0 <? env_send (w_tr w) p (if 0 <? d then d else 0)); eexists _, _; by split.
Qed.

Lemma calls_map t f p d s : calls_only (mm_stream_map_buf t f p d s) (fun _ => True).
Proof.
  apply calls_obj. intros []; [apply calls_obj; intros; apply calls_sendmsg|by apply calls_ret].
Qed.

Lemma calls_unmap t f p : calls_only (mm_stream_unmap_buf t f p) (fun _ => True).
Proof.
  apply calls_obj. intros []; [apply calls_obj; intros; apply calls_sendmsg|by apply calls_ret].
Qed.

(** The client's function ends, and its answer is one it can give. *)
Lemma calls_client {A} (P : A -> Prop) (c : client A) : client_all P c -> calls_only (run_client c) P.
Proof.
  induction c as [a|f p d s k IH|f p k IH]; simpl; intros H.
  - by apply calls_ret.
  - eapply calls_bind; [apply calls_map|]. intros rc _. apply IH, H.
  - eapply calls_bind; [apply calls_unmap|]. intros rc _. apply IH, H.
Qed.

Lemma client_all_True {A} (c : client A) : client_all (fun _ => True) c.
Proof. by induction c; simpl. Qed.

Lemma deinit_run w : (buf (w_s w) <> None -> is_Some (put_bufs (mem_vtbl (w_s w)))) ->
  exists rc tr b st, mm_stream_deinit_bufs w =
    Some (rc, put_w_tr tr (put_w_s (set_buf_status st (set_buf b (w_s w))) w)).
Proof.
  intros Hp. unfold mm_stream_deinit_bufs, obj, upd. unM. destruct (buf (w_s w)) as [bs|] eqn:Eb.
  - destruct Hp as [f Hf]; [done|]. rewrite Hf.
    destruct (calls_client _ _ (client_all_True (env_put_bufs f (w_tr w))) w) as (rc & tr & E1 & _).
    rewrite E1. unfold sext, note. unM. by do 4 eexists.
  - exists 0, (w_tr w), (buf (w_s w)), (buf_status (w_s w)). do 2 f_equal. by destruct w as [[] ? ? ? ? ?].
Qed.

(** ** What the buffer operations leave alone *)

Definition core (w : sworld) :=
  let s := w_s w in
  (w_poll w, w_chq w, (my_hdl s, fd s, state s), (stream_info s, mem_vtbl s, buf_cb s),
   (cmd_thread s, has_ch_obj s, is_bundled s)).

Lemma keeps_core_map t f p d s : keeps core (mm_stream_map_buf t f p d s).
Proof. unfold mm_stream_map_buf, obj, sext. keeps_solve. Qed.
Lemma keeps_core_unmap t f p : keeps core (mm_stream_unmap_buf t f p).
Proof. unfold mm_stream_unmap_buf, obj, sext. keeps_solve. Qed.
Lemma keeps_core_client {A} (c : client A) : keeps core (run_client c).
Proof.
  induction c; simpl; unfold mm_stream_map_buf_ops, mm_stream_unmap_buf_ops;
    [apply keeps_ret| |]; apply keeps_bind; auto using keeps_core_map, keeps_core_unmap.
Qed.
Lemma keeps_core_deinit : keeps core mm_stream_deinit_bufs.
Proof.
  unfold mm_stream_deinit_bufs, obj, upd, sext. keeps_solve. apply keeps_core_client.
Qed.
Lemma keeps_core_upd_status i f : keeps core (upd_status i f).
Proof. unfold upd_status, status_at, obj, upd. keeps_solve. Qed.
Lemma keeps_core_upd_buf i f : keeps core (upd_buf i f).
Proof. unfold upd_buf, buf_at, obj, upd. keeps_solve. Qed.
#[local] Hint Resolve keeps_core_client keeps_core_deinit keeps_core_upd_status keeps_core_upd_buf : keeps.

Lemma keeps_core_init : keeps core mm_stream_init_bufs.
Proof. unfold mm_stream_init_bufs, init_one_buf, obj, upd, sext. keeps_solve. Qed.
Lemma keeps_core_qbuf b : keeps core (mm_stream_qbuf b).
Proof. unfold mm_stream_qbuf, obj, sext. keeps_solve. Qed.
#[local] Hint Resolve keeps_core_qbuf : keeps.
Lemma keeps_core_reg : keeps core mm_stream_reg_buf.
Proof.
  unfold mm_stream_reg_buf, mm_stream_request_buf, reg_one_buf, status_at, buf_at, obj, sext. keeps_solve.
Qed.
Lemma keeps_core_unreg : keeps core mm_stream_unreg_buf.
Proof. unfold mm_stream_unreg_buf, obj, sext. keeps_solve. Qed.

(** ** Allocation *)

(** A buffer as [init_one_buf] leaves it. *)
Definition owned_by (h : Z) (t : cam_stream_type_t) (b : mm_camera_buf_def_t) : mm_camera_buf_def_t :=
  {| b_stream_id := h; b_stream_type := t; b_buf_idx := b_buf_idx b;
     b_is_uv_subsampled := b_is_uv_subsampled b; b_ts := b_ts b; b_frame_idx := b_frame_idx b;
     b_num_planes := b_num_planes b; b_planes := b_planes b; b_fd := b_fd b;
     b_frame_len := b_frame_len b |}.

Lemma init_one_run flags k w bs ss info fl st b :
  buf (w_s w) = Some bs -> buf_status (w_s w) = Some ss -> stream_info (w_s w) = Some info ->
  flags !! k = Some fl -> ss !! k = Some st -> bs !! k = Some b ->
  init_one_buf flags k w = Some (tt, put_w_s
    (set_buf (Some (<[k := owned_by (my_hdl (w_s w)) (stream_type info) b]> bs))
      (set_buf_status (Some (<[k := {| buf_refcnt := buf_refcnt st; initial_reg_flag := fl;
                                      in_kernel := in_kernel st |}]> ss)) (w_s w))) w).
Proof.
  intros Hb Hs Hinf Hfl Hst Hbk. unfold init_one_buf, obj, mbind, M_bind, deref, gets. rewrite Hfl.
  rewrite (upd_status_run _ _ _ st) by (rewrite Hs; apply at_index_Some; rewrite Nat2Z.id; split; [lia|done]).
  simpl. rewrite Hinf.
  rewrite (upd_buf_run _ _ _ b) by (simpl; rewrite Hb; apply at_index_Some; rewrite Nat2Z.id; split; [lia|done]).
  simpl. rewrite Hb, Hs. simpl. by rewrite !Nat2Z.id.
Qed.

Lemma init_loop_run flags m k w bs ss info :
  buf (w_s w) = Some bs -> buf_status (w_s w) = Some ss -> stream_info (w_s w) = Some info ->
  length bs = length ss -> (k + m <= length ss)%nat -> (k + m <= length flags)%nat -> indexed bs ->
  Forall (fun st => 0 <= buf_refcnt st < 256) ss ->
  exists bs' ss', for_each (seq k m) (init_one_buf flags) w =
      Some (tt, put_w_s (set_buf (Some bs') (set_buf_status (Some ss') (w_s w))) w) /\
    length bs' = length ss' /\ length ss' = length ss /\ indexed bs' /\
    Forall (fun st => 0 <= buf_refcnt st < 256) ss'.
Proof.
  revert k w bs ss. induction m as [|m IH]; intros k w bs ss Hb Hs Hinf Hl Hk Hf Hix Hu; simpl.
  { exists bs, ss. split; [|done]. unfold mret, M_ret. do 2 f_equal.
    destruct w as [[] ? ? ? ? ?]; simpl in *; by subst. }
  destruct (lookup_lt_is_Some_2 flags k) as [fl Hfl]; [lia|].
  destruct (lookup_lt_is_Some_2 ss k) as [st Hst]; [lia|].
  destruct (lookup_lt_is_Some_2 bs k) as [b Hbk]; [lia|].
  unfold mbind, M_bind. erewrite init_one_run by done. set (w1 := put_w_s _ _).
  edestruct (IH (S k) w1) as (bs' & ss' & E2 & H1 & H2 & H3 & H4); try reflexivity; try done;
    rewrite ?length_insert; try done; try lia.
  - intros n c. rewrite list_lookup_insert_Some. intros [(<- & <- & _)|(_ & Hc)]; [|by apply Hix].
    simpl. by apply Hix in Hbk.
  - apply Forall_insert; [done|]. simpl. by eapply Forall_lookup_1 in Hu.
  - rewrite length_insert in H2. exists bs', ss'. by rewrite E2.
Qed.

Lemma init_bufs_run w : env_ok -> configured (w_s w) ->
  exists rc w', mm_stream_init_bufs w = Some (rc, w') /\ (rc = 0 -> arrays (w_s w')).
Proof.
  intros He ((info & Hi) & (f & Hf) & Hp). unfold mm_stream_init_bufs, mbind, M_bind.
  unfold obj at 1, gets at 1.
  assert (exists tr b st, (match buf (w_s w) with Some _ => mm_stream_deinit_bufs;; mret tt
            | None => mret tt end) w = Some (tt, put_w_tr tr (put_w_s (set_buf_status st (set_buf b (w_s w))) w)))
    as (tr & b & st & E1).
  { destruct (deinit_run w) as (rc & tr & b & st & E1); [done|].
    destruct (buf (w_s w)) eqn:Eb; unfold mbind, M_bind, mret, M_ret.
    - rewrite E1. by do 3 eexists.
    - exists (w_tr w), (buf (w_s w)), (buf_status (w_s w)). do 2 f_equal. by destruct w as [[] ? ? ? ? ?]. }
  unfold mbind, M_bind in E1. rewrite E1. set (w1 := put_w_tr tr _).
  unfold obj at 1, gets at 1. unfold deref at 1. change (mem_vtbl (w_s w1)) with (mem_vtbl (w_s w)).
  rewrite Hf. unfold gets at 1. unfold obj at 1, gets at 1.
  destruct (calls_client reply_ok (env_get_bufs f (w_tr w1) (frame_offset (w_s w1)))
              (eo_get_bufs He _ _ _) w1) as (r & tr2 & E2 & Hr).
  rewrite E2. unfold sext at 1, note, zoom. unfold upd, modify. simpl.
  destruct (Z.eqb_spec (gb_rc r) 0) as [Hrc|Hrc]; [|by do 2 eexists].
  destruct (Hr Hrc) as (bs & Hbs & Hnum & Hfl & Hix).
  rewrite (eo_malloc He).
  set (n := Z.to_nat (u8 (gb_num_bufs r))).
  assert (Hn : length bs = n) by (unfold n; lia).
  set (w3 := put_w_s _ _).
  destruct (init_loop_run (gb_reg_flags r) n 0 w3 bs
     (replicate n {| buf_refcnt := 0; initial_reg_flag := 0; in_kernel := false |}) info)
    as (bs' & ss' & E3 & H1 & H2 & H3 & H4); try done; rewrite ?length_replicate; try lia.
  { apply Forall_replicate. simpl. lia. }
  rewrite E3. do 2 eexists. split; [reflexivity|]. intros _. exists bs', ss'. simpl.
  rewrite length_replicate in H2. pose proof (u8_bound (gb_num_bufs r)) as [? ?].
  repeat split; try done; lia.
Qed.

(** ** Registration *)

Lemma reg_status_u8 st : 0 <= buf_refcnt (reg_status st) < 256.
Proof. unfold reg_status. destruct (_ =? 0); simpl; lia. Qed.

Lemma reg_buf_run w : arrays (w_s w) ->
  exists rc w', mm_stream_reg_buf w = Some (rc, w') /\ arrays (w_s w').
Proof.
  intros (bs & ss & Hb & Hs & Hl & Hn & H256 & Hix & Hu).
  unfold mm_stream_reg_buf, mm_stream_request_buf, mbind, M_bind. unfold obj at 1, gets at 1.
  assert (Ha : arrays (w_s w)) by (by exists bs, ss).
  destruct (Z.ltb_spec MM_CAMERA_MAX_NUM_FRAMES (buf_num (w_s w))) as [|H24]; [by do 2 eexists|].
  unfold obj at 1, gets at 1. unfold sext at 1, sys_ioctl, ext, zoom.
  set (rc0 := env_ioctl _ _ _). set (w1 := put_w_tr _ w).
  destruct (rc0 =? 0); [|by exists rc0, w1]. unfold obj at 1, gets at 1.
  unfold MM_CAMERA_MAX_NUM_FRAMES, CAM_MAX_NUM_BUFS_PER_STREAM in H24.
  destruct (reg_loop_run (length ss) 0 w1 bs ss) as (rc & ss' & tr' & E2 & Hl2 & _ & _ & _ & Hall & _);
    try done; try lia.
  replace (Z.to_nat (buf_num (w_s w1))) with (length ss) by (simpl; lia). rewrite E2.
  do 2 eexists. split; [reflexivity|]. exists bs, ss'. simpl. rewrite Hl2.
  repeat split; try done. apply Forall_lookup_2. intros n st Hst. destruct (Hall n) as [En|En]; rewrite En in Hst.
  - by eapply Forall_lookup_1 in Hu.
  - apply fmap_Some in Hst as (st0 & _ & ->). apply reg_status_u8.
Qed.

Lemma upd_status_arrays idx f n :
  0 <= idx < n -> (forall st, 0 <= buf_refcnt st < 256 -> 0 <= buf_refcnt (f st) < 256) ->
  triple (fun w => arrays (w_s w) /\ buf_num (w_s w) = n) (upd_status idx f)
         (fun _ w => arrays (w_s w) /\ buf_num (w_s w) = n).
Proof.
  intros Hi Hf w [(bs & ss & Hb & Hs & Hl & Hn & H256 & Hix & Hu) Hn'].
  destruct (lookup_lt_is_Some_2 ss (Z.to_nat idx)) as [st Hst]; [lia|].
  rewrite (upd_status_run _ _ _ st) by (rewrite Hs; apply at_index_Some; split; [lia|done]).
  do 2 eexists. split; [reflexivity|]. split; [|done]. unfold with_status.
  exists bs, (<[Z.to_nat idx := f st]> ss). simpl. rewrite Hs, length_insert. simpl. repeat split; try done.
  apply Forall_insert; [done|]. apply Hf. by eapply Forall_lookup_1 in Hu.
Qed.

Lemma unreg_buf_run w : arrays (w_s w) ->
  exists rc w', mm_stream_unreg_buf w = Some (rc, w') /\ arrays (w_s w').
Proof.
  intros Ha. unfold mm_stream_unreg_buf, mbind, M_bind, obj, gets, sext, sys_ioctl, ext, zoom. simpl.
  pose proof Ha as (bs & ss & Hb & Hs & Hl & Hn & H256 & Hix & Hu). rewrite Hs.
  set (rc := env_ioctl _ _ _). set (w1 := put_w_tr _ w).
  destruct (triple_for_each (seq 0 (Z.to_nat (buf_num (w_s w))))
     (fun i => upd_status (Z.of_nat i) (fun s => set_in_kernel false (set_refcnt 0 s)))
     (fun w' => arrays (w_s w') /\ buf_num (w_s w') = buf_num (w_s w))) with (w := w1)
    as (x & w2 & E2 & Ha2 & _).
  - intros i [_ Hi]%elem_of_seq. apply upd_status_arrays; [lia|done].
  - done.
  - rewrite E2. by do 2 eexists.
Qed.

(** ** Streaming *)

Lemma spoll_run {A} (m : M pworld A) w a v :
  m {| pw_poll := w_poll w; pw_tr := w_tr w |} = Some (a, v) ->
  spoll m w = Some (a, put_w_poll (pw_poll v) (put_w_tr (pw_tr v) w)).
Proof. unfold spoll, zoom. by intros ->. Qed.

Lemma poll_add_total h d w : poll_running (w_poll w) ->
  exists rc p tr, spoll (mm_camera_poll_thread_add_poll_fd h d (Some DATA_NOTIFY) h) w =
    Some (rc, put_w_poll p (put_w_tr tr w)) /\ poll_running p.
Proof.
  intros Hp. pose proof (poll_add_run h d (Some DATA_NOTIFY) h
    {| pw_poll := w_poll w; pw_tr := w_tr w |} Hp) as H. simpl in H.
  destruct (mm_camera_util_get_index_by_handler h <? 4).
  - destruct H as (v & E1 & Hr & _). exists 0, (pw_poll v), (pw_tr v). split; [by apply spoll_run|done].
  - eexists _, _, _. split; [by apply spoll_run|done].
Qed.

Lemma poll_del_total h w : poll_running (w_poll w) ->
  exists rc p tr, spoll (mm_camera_poll_thread_del_poll_fd h) w =
    Some (rc, put_w_poll p (put_w_tr tr w)) /\ poll_running p.
Proof.
  intros Hp. pose proof (poll_del_run h {| pw_poll := w_poll w; pw_tr := w_tr w |} Hp) as H. simpl in H.
  destruct (poll_entries (w_poll w) !! _) as [e|];
    [destruct ((mm_camera_util_get_index_by_handler h <? 4) && (h =? pe_handler e))|].
  - destruct H as (v & E1 & Hr & _). exists 0, (pw_poll v), (pw_tr v). split; [by apply spoll_run|done].
  - eexists _, _, _. split; [by apply spoll_run|done].
  - eexists _, _, _. split; [by apply spoll_run|done].
Qed.

Lemma streamon_run w : poll_running (w_poll w) ->
  exists rc p tr, mm_stream_streamon w = Some (rc, put_w_poll p (put_w_tr tr w)) /\ poll_running p.
Proof.
  intros Hp. unfold mm_stream_streamon, mbind, M_bind. unfold obj, gets.
  destruct (poll_add_total (my_hdl (w_s w)) (fd (w_s w)) w Hp) as (rc & p & tr & E1 & Hp1). rewrite E1.
  destruct (rc <? 0); [by exists rc, p, tr|].
  unfold sext at 1, sys_ioctl, ext, zoom. simpl.
  set (rc2 := env_ioctl _ _ _). set (w1 := put_w_tr _ _).
  destruct (rc2 <? 0); [|by eexists rc2, p, _].
  destruct (poll_del_total (my_hdl (w_s w)) w1 Hp1) as (rc3 & p3 & tr3 & E3 & Hp3). rewrite E3.
  by eexists rc2, p3, tr3.
Qed.

Lemma streamoff_run w : poll_running (w_poll w) ->
  exists rc p tr, mm_stream_streamoff w = Some (rc, put_w_poll p (put_w_tr tr w)) /\ poll_running p.
Proof.
  intros Hp. unfold mm_stream_streamoff, mbind, M_bind, obj, gets.
  destruct (poll_del_total (my_hdl (w_s w)) w Hp) as (rc & p & tr & E1 & Hp1). rewrite E1.
  eexists _, p, _. split; [reflexivity|done].
Qed.

(** ** Delivering to the callbacks, whatever the reference counts *)

(** [w'] is [w] with other counts, callbacks used up and a longer history. *)
Definition dframe (w w' : sworld) : Prop :=
  exists l ss tr, w' = put_w_tr tr (put_w_s (set_buf_cb l (set_buf_status ss (w_s w))) w) /\
    length l = length (buf_cb (w_s w)) /\ (has_cb l = true -> has_cb (buf_cb (w_s w)) = true) /\
    (arrays (w_s w) -> arrays (w_s w')).

Lemma dframe_refl w : dframe w w.
Proof.
  exists (buf_cb (w_s w)), (buf_status (w_s w)), (w_tr w). split; [|done]. by destruct w as [[] ? ? ? ? ?].
Qed.

Lemma dframe_trans w1 w2 w3 : dframe w1 w2 -> dframe w2 w3 -> dframe w1 w3.
Proof.
  intros (l & ss & tr & -> & Hl & Hc & Ha) (l' & ss' & tr' & -> & Hl' & Hc' & Ha').
  exists l', ss', tr'. split; [done|]. simpl in *. split; [congruence|]. split; [auto|]. intros H.
  apply Ha', Ha, H.
Qed.

Lemma dframe_arrays w w' : dframe w w' -> arrays (w_s w) -> arrays (w_s w').
Proof. intros (l & ss & tr & _ & _ & _ & H). exact H. Qed.

Lemma dframe_num w w' : dframe w w' -> buf_num (w_s w') = buf_num (w_s w).
Proof. by intros (l & ss & tr & -> & _). Qed.

(** A buffer of the stream. *)
Lemma arrays_at w i : arrays (w_s w) -> 0 <= i < buf_num (w_s w) ->
  exists st b, at_index (buf_status (w_s w)) i = Some st /\ 0 <= buf_refcnt st < 256 /\
    at_index (buf (w_s w)) i = Some b /\ b_buf_idx b = i.
Proof.
  intros (bs & ss & Hb & Hs & Hl & Hn & H256 & Hix & Hu) Hi.
  destruct (lookup_lt_is_Some_2 ss (Z.to_nat i)) as [st Hst]; [lia|].
  destruct (lookup_lt_is_Some_2 bs (Z.to_nat i)) as [b Hbi]; [lia|].
  exists st, b. rewrite Hb, Hs. split; [apply at_index_Some; split; [lia|done]|].
  split; [by eapply Forall_lookup_1 in Hu|]. assert (at_index (Some bs) i = Some b) as Hat.
  { apply at_index_Some. split; [lia|done]. }
  split; [done|]. by eapply indexed_at.
Qed.

Lemma dframe_status w i st tr : 0 <= i < buf_num (w_s w) -> 0 <= buf_refcnt st < 256 ->
  dframe w (put_w_tr tr (with_status i st w)).
Proof.
  intros Hi Hst. exists (buf_cb (w_s w)), (<[Z.to_nat i := st]> <$> buf_status (w_s w)), tr.
  split; [by destruct w as [[] ? ? ? ? ?]|]. split; [done|]. split; [done|].
  intros (bs & ss & Hb & Hs & Hl & Hn & H256 & Hix & Hu). exists bs, (<[Z.to_nat i := st]> ss). simpl.
  rewrite Hs, length_insert. simpl. repeat split; try done. by apply Forall_insert.
Qed.

(** Code that ends within the frame, for a stream with its arrays and [n]
    buffers. *)
Definition within {A} (n : Z) (m : M sworld A) : Prop :=
  forall w, arrays (w_s w) -> buf_num (w_s w) = n -> exists a w', m w = Some (a, w') /\ dframe w w'.

Lemma within_bind {A B} n (m : M sworld A) (k : A -> M sworld B) :
  within n m -> (forall a, within n (k a)) -> within n (m ≫= k).
Proof.
  intros Hm Hk w Ha Hn. destruct (Hm w Ha Hn) as (a & w1 & E1 & D1). unfold mbind, M_bind. rewrite E1.
  destruct (Hk a w1) as (b & w2 & E2 & D2).
  - by eapply dframe_arrays.
  - by rewrite (dframe_num _ _ D1).
  - exists b, w2. split; [done|]. by eapply dframe_trans.
Qed.

Lemma within_ret {A} n (a : A) : within n (mret a).
Proof. intros w _ _. exists a, w. split; [done|apply dframe_refl]. Qed.

Lemma within_gets {A} n (f : sworld -> A) : within n (gets f).
Proof. intros w _ _. eexists _, w. split; [done|apply dframe_refl]. Qed.

Lemma within_for_each {A} n (l : list A) body : (forall x, x ∈ l -> within n (body x)) -> within n (for_each l body).
Proof.
  induction l as [|x l IH]; intros H; [apply within_ret|]. simpl.
  apply within_bind; [apply H; set_solver|]. intros _. apply IH. intros; apply H; set_solver.
Qed.

Lemma buf_done_within b n : 0 <= b_buf_idx b < n -> within n (mm_stream_buf_done b).
Proof.
  intros Hb w Ha Hn. destruct (arrays_at w (b_buf_idx b) Ha) as (st & _ & Hst & Hr & _); [lia|].
  rewrite (buf_done_run b w st Hst Hr). destruct (buf_done_result b st w) as [rc w'] eqn:Er.
  exists rc, w'. split; [done|]. unfold buf_done_result in Er.
  destruct (Z.eqb_spec (buf_refcnt st) 0); [injection Er as _ <-; apply dframe_refl|].
  destruct (Z.eqb_spec (buf_refcnt st) 1).
  - destruct (qbuf_events b w) as [rc0 tr]. injection Er as _ <-. apply dframe_status; simpl; lia.
  - injection Er as _ <-. rewrite <- (put_w_tr_id (with_status _ _ _)). apply dframe_status; simpl; lia.
Qed.

Lemma upd_status_within i f n : 0 <= i < n ->
  (forall st, 0 <= buf_refcnt st < 256 -> 0 <= buf_refcnt (f st) < 256) -> within n (upd_status i f).
Proof.
  intros Hi Hf w Ha Hn. destruct (arrays_at w i Ha) as (st & _ & Hst & Hr & _); [lia|].
  rewrite (upd_status_run _ _ _ _ Hst). do 2 eexists. split; [reflexivity|].
  rewrite <- (put_w_tr_id (with_status _ _ _)). apply dframe_status; [lia|by apply Hf].
Qed.

Lemma buf_at_within {B} i n (k : mm_camera_buf_def_t -> M sworld B) : 0 <= i < n ->
  (forall b, b_buf_idx b = i -> within n (k b)) -> within n (buf_at i ≫= k).
Proof.
  intros Hi Hk w Ha Hn. destruct (arrays_at w i Ha) as (_ & b & _ & _ & Hb & Hbi); [lia|].
  unfold mbind, M_bind, buf_at, obj, gets, mbind, M_bind, deref. rewrite Hb. by apply Hk.
Qed.

Lemma note_within e n : within n (sext (note e)).
Proof.
  intros w _ _. do 2 eexists. split; [reflexivity|].
  exists (buf_cb (w_s w)), (buf_status (w_s w)), (e :: w_tr w). split; [by destruct w as [[] ? ? ? ? ?]|done].
Qed.

Lemma invoke_within ref f ud n : callbacks_honest -> 0 <= br_idx ref < n -> within n (invoke ref f ud).
Proof.
  intros Hc Hi. unfold invoke. apply buf_at_within; [done|]. intros b Hb. rewrite Hb.
  apply within_bind; [apply upd_status_within; [done|]|].
  { intros st _. simpl. apply u8_bound. }
  intros _. apply within_bind; [apply within_gets|]. intros cam.
  apply within_bind; [apply within_gets|]. intros ch. cbv zeta.
  apply within_bind; [apply within_gets|]. intros tr. apply within_bind; [apply note_within|]. intros _.
  set (sb := {| sb_camera_handle := cam |}). apply within_for_each. intros b' Hin. unfold cb_return.
  apply within_bind; [apply within_gets|]. intros st. destruct (decide _); [|apply within_ret].
  apply within_bind; [|intros; apply within_ret]. apply buf_done_within.
  destruct (Hc f tr sb ref eq_refl) as [Er|(b2 & Er & Hb2)]; rewrite Er in Hin; [set_solver|].
  apply list_elem_of_singleton in Hin as ->. lia.
Qed.

Lemma dispatch_one_within ref j w : callbacks_honest -> arrays (w_s w) -> 0 <= br_idx ref < buf_num (w_s w) ->
  (j < length (buf_cb (w_s w)))%nat ->
  exists w', dispatch_one ref j w = Some (tt, w') /\ dframe w w'.
Proof.
  intros Hcb Ha Hi Hj. destruct (lookup_lt_is_Some_2 _ _ Hj) as [c Hc].
  unfold dispatch_one, mbind, M_bind, obj, gets, deref. rewrite Hc.
  destruct (cb c) as [f|] eqn:Ef; [|exists w; split; [done|apply dframe_refl]].
  assert (exists w1, (if cb_count c =? 0 then mret tt else invoke ref f (cb_user_data c)) w = Some (tt, w1) /\ dframe w w1)
    as (w1 & E1 & D1).
  { destruct (cb_count c =? 0); [exists w; split; [done|apply dframe_refl]|].
    destruct (invoke_within ref f (cb_user_data c) _ Hcb Hi w Ha eq_refl) as ([] & w1 & ? & ?). by exists w1. }
  rewrite E1. pose proof D1 as (l & ss & tr & Hw1 & Hl & Hhc & Har).
  destruct (lookup_lt_is_Some_2 (buf_cb (w_s w1)) j) as [c1 Hc1]; [rewrite Hw1; simpl; lia|]. rewrite Hc1.
  destruct (0 <? cb_count c1); [|by exists w1].
  unfold upd, modify. eexists. split; [reflexivity|]. apply (dframe_trans _ w1); [done|].
  exists (<[j := if i8 (cb_count c1 - 1) =? 0
                 then {| cb := None; cb_user_data := 0; cb_count := i8 (cb_count c1 - 1) |}
                 else {| cb := cb c1; cb_user_data := cb_user_data c1;
                         cb_count := i8 (cb_count c1 - 1) |}]> (buf_cb (w_s w1))),
    (buf_status (w_s w1)), (w_tr w1).
  split; [clear; by destruct w1 as [[] ? ? ? ? ?]|]. split; [apply length_insert|]. split; [|done].
  intros Hcl. eapply has_cb_clear; [exact Hcl|].
  destruct (i8 (cb_count c1 - 1) =? 0); [left; reflexivity|right; by exists c1].
Qed.

Lemma dispatch_total n w : callbacks_honest -> arrays (w_s w) -> node_valid (w_s w) n ->
  length (buf_cb (w_s w)) = 4%nat ->
  exists w', mm_stream_dispatch_app_data n w = Some (tt, w') /\ dframe w w'.
Proof.
  intros Hcb Ha Hn Hl. destruct n as [info| | | | | |]; try (exists w; split; [done|apply dframe_refl]).
  destruct Hn as (ref & Href & Hi). unfold mm_stream_dispatch_app_data. rewrite Href.
  assert (Hloop : forall slots w0, Forall (fun j => (j < 4)%nat) slots -> dframe w w0 ->
    exists w1, for_each slots (dispatch_one ref) w0 = Some (tt, w1) /\ dframe w w1).
  { induction slots as [|j slots IH]; intros w0 Hj D; [by exists w0|]. apply Forall_cons in Hj as [Hj Hjs].
    destruct (dispatch_one_within ref j w0 Hcb) as (w1 & E1 & D1).
    - by eapply dframe_arrays.
    - by rewrite (dframe_num _ _ D).
    - destruct D as (l & ss & tr & -> & Hl0 & _). simpl. lia.
    - simpl. unfold mbind, M_bind. rewrite E1. apply IH; [done|]. by eapply dframe_trans. }
  destruct (Hloop (seq 0 4) w) as (w1 & E1 & D1); [by repeat constructor|apply dframe_refl|].
  unfold MM_CAMERA_STREAM_BUF_CB_MAX, mbind, M_bind, deref. rewrite E1.
  destruct (buf_at_within (br_idx ref) (buf_num (w_s w)) (fun b => mm_stream_buf_done b;; mret tt) Hi) with (w := w1)
    as ([] & w2 & E2 & D2).
  - intros b Hb. apply within_bind; [apply buf_done_within; lia|intros; apply within_ret].
  - by eapply dframe_arrays.
  - by apply dframe_num.
  - unfold mbind, M_bind in E2. rewrite E2. exists w2. split; [done|]. by eapply dframe_trans.
Qed.

(** ** Releasing the stream's command thread *)

Lemma keeps_scmd_qbuf b : keeps scmd_get (mm_stream_qbuf b).
Proof. unfold mm_stream_qbuf, obj, sext. keeps_solve. Qed.
Lemma keeps_scmd_upd_status i f : keeps scmd_get (upd_status i f).
Proof. unfold upd_status, status_at, obj, upd. keeps_solve. Qed.
#[local] Hint Resolve keeps_scmd_qbuf keeps_scmd_upd_status : keeps.
Lemma keeps_scmd_done b : keeps scmd_get (mm_stream_buf_done b).
Proof. unfold mm_stream_buf_done, status_at, obj. keeps_solve. Qed.
#[local] Hint Resolve keeps_scmd_done : keeps.
Lemma keeps_scmd_dispatch n : keeps scmd_get (mm_stream_dispatch_app_data n).
Proof.
  unfold mm_stream_dispatch_app_data, dispatch_one, invoke, cb_return, buf_at, obj, upd, sext. keeps_solve.
Qed.

(** [w'] is [w] after some deliveries, with another queue. *)
Definition tframe (w w' : sworld) : Prop := exists t, dframe (scmd_set t w) w'.

Lemma scmd_dframe t w w' : dframe w w' -> dframe (scmd_set t w) (scmd_set t w').
Proof. intros (l & ss & tr & -> & ? & ? & ?). by exists l, ss, tr. Qed.

Lemma tframe_trans w1 w2 w3 : tframe w1 w2 -> tframe w2 w3 -> tframe w1 w3.
Proof.
  intros [t D1] [t' D2]. exists t'. eapply dframe_trans; [|exact D2].
  by apply (scmd_dframe t') in D1.
Qed.

Lemma tframe_facts w w' : tframe w w' -> arrays (w_s w) ->
  arrays (w_s w') /\ buf_num (w_s w') = buf_num (w_s w) /\
  length (buf_cb (w_s w')) = length (buf_cb (w_s w)) /\ w_poll w' = w_poll w /\
  state (w_s w') = state (w_s w) /\ (configured (w_s w) -> configured (w_s w')).
Proof. intros [t (l & ss & tr & -> & Hl & Hc & Ha)] Harr. split; [by apply Ha|]. simpl. done. Qed.

Lemma process_total q sem w : callbacks_honest -> arrays (w_s w) -> Forall (node_valid (w_s w)) q ->
  length (buf_cb (w_s w)) = 4%nat ->
  exists w', process scmd_set mm_stream_dispatch_app_data q sem w = Some (tt, w') /\ tframe w w'.
Proof.
  intros Hcb. revert w. induction q as [|n q IH]; intros w Ha Hq Hl; simpl.
  { exists w. split; [done|]. exists (cmd_thread (w_s w)). rewrite scmd_set_id. apply dframe_refl. }
  apply Forall_cons in Hq as [Hn Hq]. unfold mbind, M_bind, modify.
  set (t := Some {| cmd_queue := q; cmd_sem := sem |}).
  assert (exists w1, (if is_exit n then mret tt else mm_stream_dispatch_app_data n) (scmd_set t w) = Some (tt, w1) /\
                     dframe (scmd_set t w) w1) as (w1 & E1 & D1).
  { destruct (is_exit n); [eexists; split; [done|apply dframe_refl]|by apply dispatch_total]. }
  rewrite E1. assert (T1 : tframe w w1) by (by exists t).
  destruct (tframe_facts w w1 T1 Ha) as (Ha1 & Hn1 & Hl1 & _).
  destruct (IH w1) as (w2 & E2 & T2); [done| |congruence|].
  { eapply Forall_impl; [exact Hq|]. intros [] ?; simpl in *; try done. by rewrite Hn1. }
  rewrite E2. exists w2. split; [done|]. by eapply tframe_trans.
Qed.

Lemma tframe_tr w w' tr : tframe w w' -> tframe w (put_w_tr tr w').
Proof. intros [t (l & ss & tr' & -> & ? & ? & ?)]. exists t, l, ss, tr. by split. Qed.

Lemma release_run w q sem : env_ok -> arrays (w_s w) -> length (buf_cb (w_s w)) = 4%nat ->
  cmd_thread (w_s w) = Some {| cmd_queue := q; cmd_sem := sem |} -> 0 <= sem < 2 ^ 31 - 1 ->
  Forall (node_valid (w_s w)) q ->
  exists rc w', stream_cmd_thread_release w = Some (rc, w') /\ tframe w w'.
Proof.
  intros He Ha Hl Ht Hsem Hq. unfold stream_cmd_thread_release, mm_camera_cmd_thread_release.
  unfold obj, gets, mbind at 1, M_bind at 1. unfold mbind at 1, M_bind at 1.
  assert (Hm : forall w0, sext sys_malloc w0 = Some (true, put_w_tr (EMalloc true :: w_tr w0) w0)).
  { intros w0. unfold sext, sys_malloc, ext, zoom. by rewrite (eo_malloc He). }
  rewrite (cmd_thread_stop_run (T_stream_cmd (my_hdl (w_s w))) scmd_get scmd_set (@sext)
    mm_stream_dispatch_app_data ltac:(done) ltac:(done) keeps_scmd_dispatch q sem w _ _ Ht Hsem
    ltac:(intros A m w0 r w0'; unfold sext, zoom; destruct (m (w_tr w0)) as [[]|];
          [intros [= _ <-]; done|done]) (Hm _) (Hm _)).
  set (w1 := scmd_set _ _).
  destruct (process_total (q ++ [MM_CAMERA_CMD_TYPE_EXIT]) sem w1) as (w2 & E2 & T2);
    [apply He|done| |done|].
  { apply Forall_app. split; [exact Hq|]. by apply Forall_singleton. }
  unfold mbind, M_bind. rewrite E2. unfold sext, note, zoom, mret, M_ret. simpl.
  unfold mm_camera_cmd_thread_destroy, modify, mbind, M_bind, mret, M_ret. do 2 eexists. split; [reflexivity|].
  assert (T1 : tframe w w1). { exists (cmd_thread (w_s w1)). by exists (buf_cb (w_s w)), (buf_status (w_s w)), (w_tr w1). }
  apply (tframe_trans _ w1); [done|]. apply (tframe_tr _ _ (EThreadJoin (T_stream_cmd (my_hdl (w_s w))) :: w_tr w2)) in T2.
  destruct T2 as [t D2]. exists None. by apply (scmd_dframe None) in D2.
Qed.

(** ** Configuration *)

Lemma set_fmt_run w info : stream_info (w_s w) = Some info ->
  exists rc tr, mm_stream_set_fmt w = Some (rc, put_w_tr tr w).
Proof.
  intros Hi. unfold mm_stream_set_fmt, mbind, M_bind, obj, gets, deref. rewrite Hi.
  destruct ((width (dim info) =? 0) || (height (dim info) =? 0)).
  - exists (-1), (w_tr w). by rewrite put_w_tr_id.
  - by do 2 eexists.
Qed.

(** The information and the offsets are rewritten, nothing else. *)
Lemma sync_info_run w info : stream_info (w_s w) = Some info ->
  exists rc i o tr, mm_stream_sync_info w =
    Some (rc, put_w_tr tr (put_w_s (set_frame_offset o (set_stream_info (Some i) (w_s w))) w)).
Proof.
  intros Hi. unfold mm_stream_sync_info, mbind, M_bind, obj, gets, deref. rewrite Hi.
  destruct (mm_stream_calc_offset VENUS A_FAMILY _ _) as [[rc i1] off]. unfold upd, modify.
  destruct (rc =? 0).
  - unfold sext, mm_camera_util_s_ctrl, sys_ioctl, ext, zoom, mbind, M_bind. simpl. by do 4 eexists.
  - exists rc, i1, off, (w_tr w). by destruct w as [[] ? ? ? ? ?].
Qed.

Lemma config_run w c : is_Some (c_stream_info c) ->
  exists rc i o tr cbs, mm_stream_config c w = Some (rc, put_w_tr tr (put_w_s
    (set_frame_offset o (set_stream_info (Some i) (set_buf_num 0 (set_mem_vtbl (c_mem_vtbl c)
      (set_padding_info (c_padding_info c) (set_buf_cb cbs (w_s w))))))) w)) /\
    length cbs = length (buf_cb (w_s w)).
Proof.
  intros [info Hi]. unfold mm_stream_config, upd, modify, mbind, M_bind.
  set (cbs := <[0%nat := _]> _). set (w1 := put_w_s (set_buf_cb cbs _) _).
  assert (Hl : length cbs = length (buf_cb (w_s w))) by apply length_insert.
  destruct (sync_info_run w1 info) as (rc & i & o & tr & E1); [done|]. rewrite E1.
  destruct (rc =? 0).
  - destruct (set_fmt_run (put_w_tr tr (put_w_s (set_frame_offset o (set_stream_info (Some i) (w_s w1))) w1)) i)
      as (rc2 & tr2 & E2); [done|]. rewrite E2. by exists rc2, i, o, tr2, cbs.
  - by exists rc, i, o, tr, cbs.
Qed.

(** ** The theorem *)

(** Event [evt] is handled: the invariant holds again, in the state of the
    table. *)
Definition handled (evt : mm_stream_evt_type_t) (m : M sworld Z) (w : sworld) : Prop :=
  exists rc w', m w = Some (rc, w') /\ stream_inv w' /\
                state (w_s w') = next_state (state (w_s w)) evt rc.

Lemma handled_calls evt m w : stream_inv w -> calls_only m (fun _ => True) ->
  (forall rc, next_state (state (w_s w)) evt rc = state (w_s w)) -> handled evt m w.
Proof.
  intros Hi Hm Hs. destruct (Hm w) as (rc & tr & E1 & _). exists rc, (put_w_tr tr w).
  split; [done|]. split; [done|]. by rewrite Hs.
Qed.

Lemma calls_parm evt : calls_only (fsm_parm evt) (fun _ => True).
Proof.
  destruct evt; try (by apply calls_ret); simpl; destruct parms; try (by apply calls_ret);
    apply calls_obj; intros; [apply calls_s_ctrl|apply calls_g_ctrl].
Qed.

Lemma calls_action a : calls_only (mm_stream_do_action a) (fun _ => True).
Proof. destruct a; [apply calls_obj; intros; apply calls_s_ctrl|by apply calls_ret]. Qed.

Lemma inited_handled evt w : state (w_s w) = MM_STREAM_STATE_INITED -> stream_inv w ->
  handled evt (mm_stream_fsm_inited evt) w.
Proof.
  intros Hst [Hlive _]. assert (Hi : stream_inv w) by (split; [done|by rewrite Hst]).
  destruct evt; try (apply handled_calls; [done|by apply calls_ret|by rewrite Hst]).
  unfold mm_stream_fsm_inited, handled, mm_stream_set_ext_mode, obj, upd, sext, sys_open, sys_ioctl, sys_close, ext, note.
  unM. rewrite Hst. destruct (has_ch_obj (w_s w)); [|exists (-1), w; by rewrite Hst].
  set (d := env_open (w_tr w)). destruct (d <=? 0).
  - exists (-1). eexists. split; [reflexivity|]. split; [|done]. split; [done|]. simpl. by rewrite Hst.
  - set (rc := env_ioctl _ _ _). destruct (rc =? 0) eqn:Erc; simpl; rewrite Erc; eexists rc, _;
      rewrite Erc; (split; [reflexivity|]); (split; [|done]); (split; [done|]); simpl; by rewrite ?Hst.
Qed.

Lemma config_handled evt c w : evt = MM_STREAM_EVT_SET_FMT c -> evt_ok w evt -> stream_inv w ->
  state (w_s w) = MM_STREAM_STATE_ACQUIRED \/ state (w_s w) = MM_STREAM_STATE_CFG ->
  handled evt (rc ← mm_stream_config c; upd (set_state MM_STREAM_STATE_CFG);; mret rc) w.
Proof.
  intros -> (Hinf & Hg & Hp) [[Hpoll Hl] _] Hst.
  destruct (config_run w c Hinf) as (rc & i & o & tr & cbs & E1 & Hcl).
  unfold handled, mbind, M_bind. rewrite E1. unfold upd, modify, mret, M_ret. do 2 eexists.
  split; [reflexivity|]. split; [|by destruct Hst as [-> | ->]].
  split; [split; [done|simpl; congruence]|]. simpl. split; [by eexists|done].
Qed.

Lemma release_handled w : stream_inv w ->
  state (w_s w) = MM_STREAM_STATE_ACQUIRED \/ state (w_s w) = MM_STREAM_STATE_CFG ->
  handled MM_STREAM_EVT_RELEASE (rc ← mm_stream_release; upd (set_state MM_STREAM_STATE_NOTUSED);; mret rc) w.
Proof.
  intros [[Hpoll _] _] Hst. unfold handled, mm_stream_release, obj, upd, sext, sys_close, note. unM.
  destruct (0 <? fd (w_s w)); do 2 eexists; (split; [reflexivity|]); (split; [done|]); simpl;
    by destruct Hst as [-> | ->].
Qed.

Lemma acquired_handled evt w : state (w_s w) = MM_STREAM_STATE_ACQUIRED -> stream_inv w -> evt_ok w evt ->
  handled evt (mm_stream_fsm_acquired evt) w.
Proof.
  intros Hst Hi He. unfold mm_stream_fsm_acquired.
  destruct evt; try (apply handled_calls; [done|apply calls_parm|by rewrite Hst]).
  - apply release_handled; auto.
  - eapply config_handled; eauto.
Qed.

Lemma core_facts w w' : core w' = core w -> live w -> live w' /\ state (w_s w') = state (w_s w) /\
  (configured (w_s w) -> configured (w_s w')) /\
  buf_cb (w_s w') = buf_cb (w_s w) /\ cmd_thread (w_s w') = cmd_thread (w_s w).
Proof.
  unfold core, live, configured. intros Hc [H1 H2]. injection Hc as -> _ _ _ -> -> -> -> -> _ _. done.
Qed.

Lemma cfg_handled evt w : env_ok -> state (w_s w) = MM_STREAM_STATE_CFG -> stream_inv w -> evt_ok w evt ->
  handled evt (mm_stream_fsm_cfg evt) w.
Proof.
  intros Henv Hst Hi He. unfold mm_stream_fsm_cfg.
  destruct evt; try (apply handled_calls; [done|apply calls_parm|by rewrite Hst]).
  - apply release_handled; auto.
  - eapply config_handled; eauto.
  - destruct Hi as [Hlive Hs]. rewrite Hst in Hs. simpl in Hs.
    destruct (init_bufs_run w Henv Hs) as (rc & w1 & E1 & Ha).
    destruct (core_facts w w1 (keeps_core_init _ _ _ E1) Hlive) as (Hl1 & Hst1 & Hc1 & _).
    unfold handled, mbind, M_bind. rewrite E1. rewrite Hst. unfold upd, modify, mret, M_ret.
    destruct (Z.eqb_spec rc 0) as [->|Hrc].
    + do 2 eexists. split; [reflexivity|]. split; [|done]. split; [done|]. simpl. auto.
    + eexists rc, w1. split; [reflexivity|]. simpl. rewrite (proj2 (Z.eqb_neq rc 0) Hrc).
      split; [|congruence]. split; [done|]. rewrite Hst1, Hst. simpl. auto.
Qed.

Lemma buffed_handled evt w : state (w_s w) = MM_STREAM_STATE_BUFFED -> stream_inv w ->
  handled evt (mm_stream_fsm_buffed evt) w.
Proof.
  intros Hst Hi. unfold mm_stream_fsm_buffed.
  destruct evt; try (apply handled_calls; [done|apply calls_parm|by rewrite Hst]);
    destruct Hi as [Hlive Hs]; rewrite Hst in Hs; destruct Hs as [Hc Ha].
  - destruct (deinit_run w) as (rc & tr & b & st & E1); [intros _; apply Hc|].
    destruct (core_facts w _ (keeps_core_deinit _ _ _ E1) Hlive) as (Hl1 & Hst1 & Hc1 & _).
    unfold handled, mbind, M_bind. rewrite E1. rewrite Hst. do 2 eexists. split; [reflexivity|].
    split; [|done]. split; [done|]. simpl. auto.
  - destruct (reg_buf_run w Ha) as (rc & w1 & E1 & Ha1).
    destruct (core_facts w w1 (keeps_core_reg _ _ _ E1) Hlive) as (Hl1 & Hst1 & Hc1 & _).
    unfold handled, mbind, M_bind. rewrite E1, Hst. unfold upd, modify, mret, M_ret.
    destruct (Z.eqb_spec rc 0) as [->|Hrc].
    + do 2 eexists. split; [reflexivity|]. split; [|done]. split; [done|]. simpl. auto.
    + eexists rc, w1. split; [reflexivity|]. simpl. rewrite (proj2 (Z.eqb_neq rc 0) Hrc).
      split; [|congruence]. split; [done|]. rewrite Hst1, Hst. simpl. auto.
Qed.

(** Launching and releasing the thread, if there is a callback. *)
Definition launch_if (h : bool) : M sworld unit :=
  if h then stream_cmd_thread_launch;; mret tt else mret tt.
Definition release_if (h : bool) : M sworld unit :=
  if h then stream_cmd_thread_release;; mret tt else mret tt.

Lemma launch_if_run h w : exists t tr,
  launch_if h w = Some (tt, put_w_tr tr (put_w_s (set_cmd_thread t (w_s w)) w)) /\
  (h = true -> t = Some {| cmd_queue := []; cmd_sem := 0 |}).
Proof.
  destruct h.
  - do 2 eexists. split; [reflexivity|done].
  - exists (cmd_thread (w_s w)), (w_tr w). split; [|done]. simpl. unfold mret, M_ret.
    do 2 f_equal. by destruct w as [[] ? ? ? ? ?].
Qed.

Lemma release_if_run w : env_ok -> live w -> arrays (w_s w) -> threaded (w_s w) ->
  exists w', release_if (has_cb (buf_cb (w_s w))) w = Some (tt, w') /\ tframe w w'.
Proof.
  intros Henv [_ Hl] Ha Ht. unfold release_if. destruct (has_cb (buf_cb (w_s w))) eqn:Eh.
  - destruct (Ht Eh) as (q & sem & Hq & Hsem & Hv).
    destruct (release_run w q sem Henv Ha Hl Hq Hsem Hv) as (rc3 & w3 & E3 & T3).
    exists w3. by rewrite (bind_run _ _ _ _ _ E3).
  - exists w. split; [done|]. exists (cmd_thread (w_s w)). rewrite scmd_set_id. apply dframe_refl.
Qed.

(** Once the thread has ended, the stream is inactive with its buffers. *)
Lemma tframe_reg w w' : live w -> configured (w_s w) -> arrays (w_s w) -> tframe w w' ->
  stream_inv (put_w_s (set_state MM_STREAM_STATE_REG (w_s w')) w').
Proof.
  intros [Hp Hl] Hc Ha T. destruct (tframe_facts w w' T Ha) as (Ha3 & _ & Hl3 & Hp3 & _ & Hc3).
  split; [|by split; [apply Hc3|]]. split; simpl; [by rewrite Hp3|]. rewrite Hl3. apply Hl.
Qed.

Lemma start_handled w : env_ok -> state (w_s w) = MM_STREAM_STATE_REG -> live w ->
  configured (w_s w) -> arrays (w_s w) ->
  handled MM_STREAM_EVT_START (mm_stream_fsm_reg MM_STREAM_EVT_START) w.
Proof.
  intros Henv Hst [Hp Hl] Hc Ha. unfold mm_stream_fsm_reg. set (h := has_cb (buf_cb (w_s w))).
  destruct (launch_if_run h w) as (t & tr & E0 & Ht). set (w0 := put_w_tr tr _) in E0.
  set (w1 := put_w_s (set_state MM_STREAM_STATE_ACTIVE (w_s w0)) w0).
  destruct (streamon_run w1 Hp) as (rc & p & tr2 & E2 & Hp2).
  set (w2 := put_w_poll p (put_w_tr tr2 w1)).
  assert (Hl2 : live w2) by (by split).
  assert (Hthr : threaded (w_s w2)). { intros Hh. exists [], 0. simpl. by rewrite (Ht Hh). }
  unfold handled. rewrite (bind_run (obj buf_cb) _ w (buf_cb (w_s w)) w) by done. fold h.
  rewrite (bind_run (launch_if h) _ w tt w0 E0), (bind_run (upd _) _ w0 tt w1), (bind_run _ _ _ _ _ E2) by done.
  rewrite Hst. destruct (Z.eqb_spec rc 0) as [->|Hrc].
  { exists 0, w2. split; [done|]. split; [|done]. split; [done|]. by split. }
  destruct (release_if_run w2 Henv Hl2 Ha Hthr) as (w3 & E3 & T3).
  rewrite (bind_run _ _ w2 tt (put_w_s (set_state MM_STREAM_STATE_REG (w_s w3)) w3)).
  - exists rc. eexists. split; [reflexivity|]. simpl. rewrite (proj2 (Z.eqb_neq rc 0) Hrc).
    split; [|done]. by eapply tframe_reg.
  - by rewrite (bind_run (release_if h) _ w2 tt w3 E3).
Qed.

Lemma reg_handled evt w : env_ok -> state (w_s w) = MM_STREAM_STATE_REG -> stream_inv w ->
  handled evt (mm_stream_fsm_reg evt) w.
Proof.
  intros Henv Hst Hi. unfold mm_stream_fsm_reg.
  destruct evt; try (apply handled_calls; [done|apply calls_parm|by rewrite Hst]);
    destruct Hi as [Hlive Hs]; rewrite Hst in Hs; destruct Hs as [Hc Ha].
  - destruct (unreg_buf_run w Ha) as (rc & w1 & E1 & Ha1).
    destruct (core_facts w w1 (keeps_core_unreg _ _ _ E1) Hlive) as (Hl1 & Hst1 & Hc1 & _).
    unfold handled, mbind, M_bind. rewrite E1, Hst. do 2 eexists. split; [reflexivity|].
    split; [|done]. split; [done|]. simpl. auto.
  - by apply start_handled.
Qed.

Lemma dframe_inv w w' : dframe w w' -> state (w_s w) = MM_STREAM_STATE_ACTIVE -> stream_inv w ->
  stream_inv w' /\ state (w_s w') = MM_STREAM_STATE_ACTIVE.
Proof.
  intros (l & ss & tr & -> & Hl & Hc & Ha) Hst [[Hp Hlen] Hs]. rewrite Hst in Hs. destruct Hs as (Hcf & Harr & Hth).
  simpl. split; [|done]. split; [split; simpl; [done|congruence]|]. simpl. rewrite Hst.
  split; [done|]. split; [by apply Ha|]. intros Hh. apply Hth, Hc, Hh.
Qed.

Lemma active_handled evt w : env_ok -> state (w_s w) = MM_STREAM_STATE_ACTIVE -> stream_inv w -> evt_ok w evt ->
  handled evt (mm_stream_fsm_active evt) w.
Proof.
  intros Henv Hst Hi He. unfold mm_stream_fsm_active.
  destruct evt; try (apply handled_calls; [done|apply calls_parm|by rewrite Hst]).
  - destruct Hi as [[Hp Hl] Hs]. rewrite Hst in Hs. destruct Hs as (Hc & Ha & Ht).
    destruct (streamoff_run w Hp) as (rc & p & tr & E1 & Hp1). set (w1 := put_w_poll p (put_w_tr tr w)) in E1.
    assert (Hl1 : live w1) by (by split).
    destruct (release_if_run w1 Henv Hl1 Ha Ht) as (w2 & E2 & T2).
    unfold handled. rewrite (bind_run _ _ _ _ _ E1), (bind_run (obj buf_cb) _ w1 (buf_cb (w_s w1)) w1) by done.
    rewrite (bind_run (release_if _) _ w1 tt w2 E2).
    do 2 eexists. split; [reflexivity|]. rewrite Hst. split; [|done]. by eapply tframe_reg.
  - pose proof Hi as [_ Hs]. rewrite Hst in Hs. destruct Hs as (Hc & Ha & Ht).
    destruct (He Hst) as [st Hat]. assert (0 <= b_buf_idx frame < buf_num (w_s w)).
    { destruct Ha as (bs & ss & Hb & Hss & Hl & Hn & _). rewrite Hss in Hat.
      apply at_index_Some in Hat as [? Hat%lookup_lt_Some]. lia. }
    destruct (buf_done_within frame (buf_num (w_s w)) H w Ha eq_refl) as (rc & w1 & E1 & D1).
    exists rc, w1. split; [done|]. destruct (dframe_inv w w1 D1 Hst Hi) as [? ->]. by rewrite Hst.
  - apply handled_calls; [done|apply calls_action|by rewrite Hst].
Qed.

Lemma fsm_handled evt w : env_ok -> stream_inv w -> evt_ok w evt -> handled evt (mm_stream_fsm_fn evt) w.
Proof.
  intros Henv Hi He. unfold mm_stream_fsm_fn, handled, mbind, M_bind, obj, gets.
  destruct (state (w_s w)) eqn:Hst; rewrite <- Hst.
  - exists (-1), w. split; [done|]. split; [done|]. by rewrite Hst.
  - by apply inited_handled.
  - by apply acquired_handled.
  - by apply cfg_handled.
  - by apply buffed_handled.
  - by apply reg_handled.
  - by apply active_handled.
Qed.

(** C15: in every state, every event with a complete payload is handled to
    the end: no null or freed pointer is followed, no array is indexed out of
    range, no join waits for ever, whatever the kernel, the server and the
    client answer; the invariant holds again and the new state is the one of
    the transition table. *)
Theorem stream_fsm_total evt w
  (Henv : env_ok) (Hinv : stream_inv w) (Hevt : evt_ok w evt) :
  exists rc w', mm_stream_fsm_fn evt w = Some (rc, w') /\ stream_inv w' /\
                state (w_s w') = next_state (state (w_s w)) evt rc.
Proof. exact (fsm_handled evt w Henv Hinv Hevt). Qed.

(** An event the state does not handle is answered 0 with no effect at
    all, except in the unused state, which answers -1. *)
Theorem stream_fsm_unhandled evt w :
  match state (w_s w), evt with
  | MM_STREAM_STATE_NOTUSED, _ => mm_stream_fsm_fn evt w = Some (-1, w)
  | MM_STREAM_STATE_INITED, MM_STREAM_EVT_ACQUIRE => True
  | MM_STREAM_STATE_INITED, _ => mm_stream_fsm_fn evt w = Some (0, w)
  | _, (MM_STREAM_EVT_SET_PARM p | MM_STREAM_EVT_GET_PARM p) =>
      p = false -> mm_stream_fsm_fn evt w = Some (-1, w)
  | MM_STREAM_STATE_ACQUIRED, (MM_STREAM_EVT_SET_FMT _ | MM_STREAM_EVT_RELEASE) => True
  | MM_STREAM_STATE_CFG, (MM_STREAM_EVT_SET_FMT _ | MM_STREAM_EVT_RELEASE | MM_STREAM_EVT_GET_BUF) => True
  | MM_STREAM_STATE_BUFFED, (MM_STREAM_EVT_PUT_BUF | MM_STREAM_EVT_REG_BUF) => True
  | MM_STREAM_STATE_REG, (MM_STREAM_EVT_UNREG_BUF | MM_STREAM_EVT_START) => True
  | MM_STREAM_STATE_ACTIVE, (MM_STREAM_EVT_QBUF _ | MM_STREAM_EVT_STOP | MM_STREAM_EVT_DO_ACTION _) => True
  | _, _ => mm_stream_fsm_fn evt w = Some (0, w)
  end.
Proof.
  unfold mm_stream_fsm_fn, mbind, M_bind, obj, gets.
  destruct (state (w_s w)), evt; try done; by intros ->.
Qed.

(** ** From registration to ownership *)

Lemma poll_add_tr h d c u w rc w' :
  mm_camera_poll_thread_add_poll_fd h d c u w = Some (rc, w') ->
  pw_tr w' = pw_tr w \/ exists len, pw_tr w' = EPipeWrite 0 len :: pw_tr w.
Proof.
  unfold mm_camera_poll_thread_add_poll_fd, mbind, M_bind, gets. destruct (_ <? _).
  - unfold mm_camera_poll_sig, on_poll, pext, sys_pipe_write, ext, zoom, modify, gets, mbind, M_bind. simpl.
    destruct (_ <? 1); [intros [= _ <-]; right; by eexists|].
    destruct (decide _); [intros [= _ <-]; right; by eexists|done].
  - intros [= _ <-]. by left.
Qed.

(** A successful start: the thread, if any, is fresh; the kernel holds what
    it held. *)
Lemma start_run w w' : mm_stream_fsm_reg MM_STREAM_EVT_START w = Some (0, w') ->
  exists t p tr, w' = put_w_poll p (put_w_tr tr (put_w_s (set_state MM_STREAM_STATE_ACTIVE
      (set_cmd_thread t (w_s w))) w)) /\
    (t = cmd_thread (w_s w) \/ t = Some {| cmd_queue := []; cmd_sem := 0 |}) /\
    (has_cb (buf_cb (w_s w)) = true -> t = Some {| cmd_queue := []; cmd_sem := 0 |}) /\
    forall d j, kernel_has d j tr = kernel_has d j (w_tr w).
Proof.
  unfold mm_stream_fsm_reg. rewrite (bind_run (obj buf_cb) _ w (buf_cb (w_s w)) w) by done.
  set (h := has_cb (buf_cb (w_s w))).
  assert (exists t tr, launch_if h w = Some (tt, put_w_tr tr (put_w_s (set_cmd_thread t (w_s w)) w)) /\
    (t = cmd_thread (w_s w) \/ t = Some {| cmd_queue := []; cmd_sem := 0 |}) /\
    (h = true -> t = Some {| cmd_queue := []; cmd_sem := 0 |}) /\
    (forall d j, kernel_has d j tr = kernel_has d j (w_tr w))) as (t & tr & E0 & Ht & Hh & Hk).
  { destruct h.
    - do 2 eexists. split; [reflexivity|]. split; [by right|done].
    - exists (cmd_thread (w_s w)), (w_tr w). split; [|split; [by left|done]]. simpl. unfold mret, M_ret.
      do 2 f_equal. by destruct w as [[] ? ? ? ? ?]. }
  rewrite (bind_run (launch_if h) _ _ _ _ E0). set (w0 := put_w_tr tr _).
  set (w1 := put_w_s (set_state MM_STREAM_STATE_ACTIVE (w_s w0)) w0).
  rewrite (bind_run (upd _) _ w0 tt w1) by done. unfold mbind at 1, M_bind at 1.
  destruct (mm_stream_streamon w1) as [[rc w2]|] eqn:E2; [|done].
  destruct (Z.eqb_spec rc 0) as [->|Hrc].
  2:{ intros H%bind_ret_inv. congruence. }
  intros [= <-]. unfold mm_stream_streamon, obj, gets, mbind, M_bind in E2.
  unfold spoll at 1, zoom in E2.
  destruct (mm_camera_poll_thread_add_poll_fd _ _ _ _ _) as [[rc3 v]|] eqn:E3; [|done].
  apply poll_add_tr in E3. simpl in E3. destruct (rc3 <? 0) eqn:Er; [injection E2 as -> _; done|].
  unfold sext, sys_ioctl, ext, zoom in E2. simpl in E2.
  destruct (env_ioctl _ _ _ <? 0) eqn:Er2.
  { destruct (spoll _ _) as [[? ?]|]; [|done]. unfold mret, M_ret in E2. injection E2 as E2 _.
    rewrite E2 in Er2. done. }
  unfold mret, M_ret in E2. injection E2 as E2 <-. exists t. do 2 eexists. split; [reflexivity|].
  split; [done|]. split; [done|]. intros d j. simpl. destruct E3 as [-> | [len ->]]; simpl; apply Hk.
Qed.

(** The buffers left with the client: those not to be queued at first. *)
Fixpoint left_out (i : Z) (ss : list mm_stream_buf_status_t) : list Z :=
  match ss with
  | [] => []
  | st :: ss => (if initial_reg_flag st =? 0 then [i] else []) ++ left_out (i + 1) ss
  end.

Lemma cnt_left_out ss i j :
  cnt j (left_out i ss) =
  match at_index (Some ss) (j - i) with
  | Some st => if initial_reg_flag st =? 0 then 1 else 0
  | None => 0
  end.
Proof.
  revert i. induction ss as [|st ss IH]; intros i; simpl.
  { unfold at_index. by destruct (j - i <? 0). }
  rewrite cnt_app, IH. unfold at_index. simpl.
  destruct (Z.ltb_spec (j - i) 0), (Z.ltb_spec (j - (i + 1)) 0); simpl; try lia.
  - destruct (initial_reg_flag st =? 0); simpl; [|done]. destruct (Z.eqb_spec i j); [lia|done].
  - replace (j - i) with 0 by lia. simpl. destruct (initial_reg_flag st =? 0); simpl; [|done].
    destruct (Z.eqb_spec i j); [done|lia].
  - replace (Z.to_nat (j - i)) with (S (Z.to_nat (j - (i + 1)))) by lia. simpl.
    destruct (initial_reg_flag st =? 0); simpl; [|done]. destruct (Z.eqb_spec i j); [lia|done].
Qed.

(** What a successful registration leaves. *)
Lemma reg_success w w' bs ss : buf (w_s w) = Some bs -> buf_status (w_s w) = Some ss ->
  length bs = length ss -> Z.of_nat (length ss) = buf_num (w_s w) -> indexed bs ->
  mm_stream_reg_buf w = Some (0, w') ->
  exists tr, w' = put_w_tr tr (put_w_s (set_buf_status (Some (map reg_status ss)) (w_s w)) w) /\
    (length ss <= 24)%nat /\
    forall j, kernel_has (fd (w_s w)) j tr = true ->
      exists n st, j = Z.of_nat n /\ ss !! n = Some st /\ initial_reg_flag st <> 0.
Proof.
  intros Hb Hs Hl Hn Hix. unfold mm_stream_reg_buf, mm_stream_request_buf, mbind, M_bind, obj, gets.
  destruct (Z.ltb_spec MM_CAMERA_MAX_NUM_FRAMES (buf_num (w_s w))) as [|H24]; [done|].
  unfold MM_CAMERA_MAX_NUM_FRAMES, CAM_MAX_NUM_BUFS_PER_STREAM in H24.
  unfold sext at 1, sys_ioctl, ext, zoom. set (rc0 := env_ioctl _ _ _). set (w1 := put_w_tr _ w).
  destruct (Z.eqb_spec rc0 0) as [Hr0|]; [|unfold mret, M_ret; intros [= ? _]; congruence].
  destruct (reg_loop_run (length ss) 0 w1 bs ss) as (rc & ss' & tr' & E2 & Hl2 & _ & _ & Hin & _ & Hk);
    try done; try lia.
  replace (Z.to_nat (buf_num (w_s w1))) with (length ss) by (simpl; lia). rewrite E2. intros [= -> <-].
  assert (ss' = map reg_status ss) as ->.
  { apply list_eq. intros n. rewrite list_lookup_fmap. destruct (decide (n < length ss)%nat).
    - apply Hin; [done|lia].
    - rewrite !lookup_ge_None_2 by lia. done. }
  exists tr'. split; [done|]. split; [lia|]. intros j Hj.
  destruct (Hk _ j Hj) as [Hj1|(n & st & -> & _ & Hst & Hf)]; [|by exists n, st].
  simpl in Hj1. fold rc0 in Hj1. rewrite Hr0, Z.eqb_refl in Hj1. done.
Qed.

(** When the buffers of a stream have been registered and the stream has
    been started, both with result 0, the ownership of its buffers is
    settled: those queued belong to the kernel, each other one is held once,
    by the client; from there on [buffers_never_shared] applies. *)
Theorem start_establishes_ownership w w1 w2 ss
  (Hst : state (w_s w) = MM_STREAM_STATE_BUFFED) (Hinv : stream_inv w)
  (Hss : buf_status (w_s w) = Some ss)
  (Hthread : cmd_thread (w_s w) = None)
  (Hchq : refs (my_hdl (w_s w)) (w_chq w) = [])
  (Hbundle : is_bundled (w_s w) = true -> is_Some (w_chq w))
  (Hreg : mm_stream_fsm_fn MM_STREAM_EVT_REG_BUF w = Some (0, w1))
  (Hstart : mm_stream_fsm_fn MM_STREAM_EVT_START w1 = Some (0, w2)) :
  owns w2 (left_out 0 ss).
Proof.
  destruct Hinv as [[Hp Hcb] Hs]. rewrite Hst in Hs.
  destruct Hs as (Hc & bs & ss0 & Hb & Hss' & Hl & Hn & H256 & Hix & Hu).
  rewrite Hss in Hss'. injection Hss' as <-.
  unfold mm_stream_fsm_fn, obj in Hreg. rewrite (bind_run (gets _) _ w (state (w_s w)) w eq_refl), Hst in Hreg.
  simpl in Hreg. unfold mbind, M_bind in Hreg.
  destruct (mm_stream_reg_buf w) as [[rc wr]|] eqn:Er; [|done].
  destruct (Z.eqb_spec rc 0) as [->|]; [|injection Hreg; congruence]. injection Hreg as <-.
  destruct (reg_success w wr bs ss Hb Hss Hl Hn Hix Er) as (tr & -> & H24 & Hk).
  destruct (start_run _ _ Hstart) as (t & p & tr2 & -> & Ht & Hth & Hk2).
  assert (Hrt : refs (my_hdl (w_s w)) t = []).
  { destruct Ht as [-> | ->]; simpl; [by rewrite Hthread|done]. }
  assert (Hat : forall i st, at_index (Some (map reg_status ss)) i = Some st ->
            exists st0, at_index (Some ss) i = Some st0 /\ st = reg_status st0).
  { intros i st [Hi Hm]%at_index_Some. rewrite list_lookup_fmap in Hm.
    apply fmap_Some in Hm as (st0 & Hst0 & ->). exists st0. split; [by apply at_index_Some|done]. }
  assert (Hhold : forall x i, holders x (left_out 0 ss) i = cnt i (left_out 0 ss) +
            cnt i (refs (my_hdl (w_s x)) (w_chq x)) + cnt i (refs (my_hdl (w_s x)) (cmd_thread (w_s x)))) by done.
  constructor; simpl.
  - done.
  - exists bs, (map reg_status ss). rewrite Hb, length_map. repeat split; try done. lia.
  - done.
  - intros Hh. rewrite (Hth Hh). by eexists.
  - done.
  - destruct Ht as [-> | ->]; simpl; [by rewrite Hthread|done].
  - intros i. rewrite Hhold. simpl. rewrite Hchq, Hrt. simpl. rewrite cnt_left_out, Z.sub_0_r.
    destruct (at_index (Some ss) i) as [st|] eqn:Ei; [|lia]. intros _. apply at_index_Some in Ei as [Hi0 Hi1].
    exists (reg_status st). apply at_index_Some. split; [done|]. by rewrite list_lookup_fmap, Hi1.
  - intros i st Hi. apply Hat in Hi as (st0 & Hi & ->). rewrite Hhold. simpl. rewrite Hchq, Hrt. simpl.
    rewrite cnt_left_out, Z.sub_0_r, Hi. unfold reg_status. destruct (initial_reg_flag st0 =? 0); simpl; lia || done.
  - intros i. rewrite Hk2. simpl. intros Hj. destruct (Hk i Hj) as (n & st & -> & Hst0 & Hf).
    exists (reg_status st). split.
    + apply at_index_Some. rewrite Nat2Z.id, list_lookup_fmap, Hst0. split; [lia|done].
    + unfold reg_status. destruct (Z.eqb_spec (initial_reg_flag st) 0); done.
Qed.

(** ** Single operations *)

(** [mm_stream_buf_done] drops one reference.  With none left it refuses
    with -1 and changes nothing; while others remain it makes no outside call
    and answers 0; on the last one it requeues the buffer (cache operation
    first, if there is one) and answers what that answered, and the buffer is
    marked as in the kernel exactly when it was accepted. *)
Theorem buf_done_spec b w st
  (Hst : at_index (buf_status (w_s w)) (b_buf_idx b) = Some st) (Hr : 0 <= buf_refcnt st < 256) :
  let n := buf_refcnt st in
  if n =? 0 then mm_stream_buf_done b w = Some (-1, w)
  else if n =? 1 then
    exists rc tr, qbuf_events b w = (rc, tr) /\
      mm_stream_buf_done b w = Some (rc, put_w_tr tr (with_status (b_buf_idx b)
        {| buf_refcnt := 0; initial_reg_flag := initial_reg_flag st;
           in_kernel := if rc <? 0 then in_kernel st else true |} w))
  else mm_stream_buf_done b w = Some (0, with_status (b_buf_idx b) (set_refcnt (n - 1) st) w).
Proof.
  cbv zeta. rewrite (buf_done_run b w st Hst Hr). unfold buf_done_result.
  destruct (buf_refcnt st =? 0); [done|]. destruct (buf_refcnt st =? 1); [|done].
  destruct (qbuf_events b w) as [rc tr]. by exists rc, tr.
Qed.

(** When the cache operation on a delivered frame fails,
    [mm_stream_data_notify] returns at once: the kernel no longer has the
    buffer, the stream still says it has, no reference is counted and no
    command is posted, so that nobody will ever queue the buffer again. *)
Theorem clean_failure_loses_buffer w out f vb
  (Ho : owns w out)
  (Hdq : env_dqbuf (w_tr w) (fd (w_s w)) = (0, vb)) (Hk : kernel_has (fd (w_s w)) (dq_index vb) (w_tr w) = true)
  (Hf : clean_invalidate_buf (mem_vtbl (w_s w)) = Some f)
  (Hfail : forall tr i, env_clean_invalidate_buf f tr i < 0) :
  exists w' st, mm_stream_data_notify w = Some (tt, w') /\
    kernel_has (fd (w_s w')) (dq_index vb) (w_tr w') = false /\
    at_index (buf_status (w_s w')) (dq_index vb) = Some st /\ in_kernel st = true /\ buf_refcnt st = 0 /\
    holders w' out (dq_index vb) = 0.
Proof.
  destruct (ow_kernel _ _ Ho _ Hk) as (st & Hst & Hik). set (i := dq_index vb) in *.
  pose proof (owns_index _ _ _ _ Ho Hst) as Hidx.
  destruct (ow_count _ _ Ho i st Hst) as (H1 & _ & H3). specialize (H3 Hik).
  pose proof (holders_nonneg w out i).
  destruct (ow_arrays _ _ Ho) as (bs & ss & Hb & Hs & Hl & _ & Hix).
  assert (exists b, at_index (buf (w_s w)) i = Some b) as [b Hbi].
  { rewrite Hb. rewrite Hs in Hst. apply at_index_Some in Hst as [? Hst%lookup_lt_Some].
    destruct (lookup_lt_is_Some_2 bs (Z.to_nat i)) as [b ?]; [lia|]. exists b. by apply at_index_Some. }
  unfold mm_stream_data_notify, mbind, M_bind, obj, gets.
  destruct (decide _) as [_|Hn]; [|destruct Hn; apply Ho].
  unfold mm_stream_read_msm_frame, mbind, M_bind, obj, gets, sext at 1, zoom at 1, sys_dqbuf, ext at 1.
  rewrite Hdq. simpl fst. simpl snd. cbv iota beta. change (0 <? 0) with false. cbv iota.
  fold i. rewrite i8_id by lia. erewrite upd_buf_run by exact Hbi. simpl. rewrite Hf.
  unfold sext, zoom, ext. simpl. set (rc := env_clean_invalidate_buf _ _ _).
  assert (rc < 0) by apply Hfail. destruct (Z.eqb_spec rc 0); [lia|].
  eexists _, st. split; [reflexivity|]. split; [|done || split; [done|]; split; [done|]; split; [done|]].
  - simpl. fold i. by rewrite !Z.eqb_refl.
  - change (holders w out i = 0). lia.
Qed.

End Fsm.

(** ** A stream at work

    A kernel that delivers the queued buffer of least index, and a client
    with two buffers of which one is not queued at first. *)

Definition least_queued (d : Z) (tr : history) : option nat :=
  List.find (fun i => kernel_has d (Z.of_nat i) tr) (seq 0 24).

Definition honest_env : Env := {|
  VENUS := None; A_FAMILY := true;
  env_open := @env_open demo_env;
  env_ioctl := @env_ioctl demo_env;
  env_extendedmode := @env_extendedmode demo_env;
  env_dqbuf := fun tr d =>
    match least_queued d tr with
    | Some i => (0, {| dq_index := Z.of_nat i; dq_sequence := Z.of_nat (length tr);
                            dq_sec := 0; dq_usec := 0; dq_nv14 := false |})
    | None => (-1, {| dq_index := 0; dq_sequence := 0; dq_sec := 0; dq_usec := 0; dq_nv14 := false |})
    end;
  env_pipe := @env_pipe demo_env;
  env_write := @env_write demo_env;
  env_malloc := @env_malloc demo_env;
  env_sync_info := @env_sync_info demo_env;
  env_send := @env_send demo_env;
  env_map_done := @env_map_done demo_env;
  env_get_bufs := @env_get_bufs demo_env;
  env_put_bufs := @env_put_bufs demo_env;
  env_invalidate_buf := @env_invalidate_buf demo_env;
  env_clean_invalidate_buf := @env_clean_invalidate_buf demo_env;
  env_cb_returns := @env_cb_returns demo_env
|}.

Lemma honest_kernel : @kernel_honest honest_env.
Proof.
  intros tr d. cbn [env_dqbuf honest_env]. destruct (least_queued d tr) as [i|] eqn:Ef; [|lia].
  apply List.find_some in Ef as [_ Hk]. done.
Qed.

Lemma honest_callbacks : @callbacks_honest honest_env.
Proof. intros f tr sb ref _. by left. Qed.

Lemma honest_ok : @env_ok honest_env.
Proof.
  split; [done| |apply honest_callbacks]. intros f tr off. simpl. intros _ _ _.
  eexists. split; [reflexivity|]. split; [done|]. split; [done|].
  intros [|[|n]] b; simpl; intros [= <-]; done.
Qed.

Definition demo_info : cam_stream_info_t :=
  {| stream_svr_id := 0; stream_type := CAM_STREAM_TYPE_PREVIEW; fmt := CAM_FORMAT_YUV_420_NV21;
     dim := {| width := 640; height := 480 |}; buf_planes := zero_frame;
     pp_config := {| feature_mask := 0; rotation := ROTATE_0 |};
     reprocess_config := CAM_ONLINE_REPROCESS_TYPE CAM_STREAM_TYPE_DEFAULT |}.

Definition demo_config : mm_camera_stream_config_t :=
  {| c_stream_info := Some demo_info;
     c_padding_info := {| width_padding := 2; height_padding := 2; plane_padding := 4096 |};
     c_mem_vtbl := {| get_bufs := Some 1; put_bufs := Some 2; invalidate_buf := Some 3;
                      clean_invalidate_buf := Some 4 |};
     c_stream_cb := Some 9; c_userdata := 5 |}.

(** A new, bundled stream in slot 1 of its channel. *)
Definition demo_stream : mm_stream_t :=
  {| my_hdl := 769; server_stream_id := 0; fd := 0; state := MM_STREAM_STATE_INITED;
     stream_info := None;
     padding_info := {| width_padding := 0; height_padding := 0; plane_padding := 0 |};
     frame_offset := zero_frame; cmd_thread := None;
     buf_cb := replicate MM_CAMERA_STREAM_BUF_CB_MAX zero_cb; buf_num := 0; buf := None;
     buf_status := None; has_ch_obj := true; is_bundled := true; mem_vtbl := zero_vtbl |}.

Definition demo_world : sworld :=
  {| w_s := demo_stream; w_poll := demo_poll;
     w_chq := Some {| cmd_queue := []; cmd_sem := 0 |}; w_cam := 256; w_ch := 512; w_tr := [] |}.

(** The results and the state after a sequence of events. *)
Fixpoint run_events (evts : list mm_stream_evt_type_t) (w : sworld) : option (list Z * sworld) :=
  match evts with
  | [] => Some ([], w)
  | e :: evts =>
      '(rc, w) ← mm_stream_fsm_fn (E := honest_env) e w;
      '(rcs, w) ← run_events evts w;
      Some (rc :: rcs, w)
  end.

Definition after (evts : list mm_stream_evt_type_t) : sworld :=
  match run_events evts demo_world with Some (_, w) => w | None => demo_world end.

Definition demo_buffed : sworld :=
  Eval vm_compute in after [MM_STREAM_EVT_ACQUIRE; MM_STREAM_EVT_SET_FMT demo_config; MM_STREAM_EVT_GET_BUF].

Definition demo_active : sworld :=
  Eval vm_compute in after [MM_STREAM_EVT_ACQUIRE; MM_STREAM_EVT_SET_FMT demo_config; MM_STREAM_EVT_GET_BUF;
                            MM_STREAM_EVT_REG_BUF; MM_STREAM_EVT_START].

Lemma demo_buffed_inv : stream_inv demo_buffed.
Proof.
  split; [split; [by split|done]|]. split; [by repeat split; eexists|].
  eexists _, _. split; [reflexivity|]. split; [reflexivity|]. split; [done|]. split; [done|].
  split; [done|]. split; [|repeat constructor; simpl; lia].
  intros [|[|n]] b; simpl; intros [= <-]; done.
Qed.

Lemma stream_fsm_total_witness :
  exists rc w', mm_stream_fsm_fn (E := honest_env) MM_STREAM_EVT_REG_BUF demo_buffed = Some (rc, w') /\
    stream_inv w' /\
    state (w_s w') = next_state MM_STREAM_STATE_BUFFED MM_STREAM_EVT_REG_BUF rc.
Proof.
  exact (stream_fsm_total (E := honest_env) MM_STREAM_EVT_REG_BUF demo_buffed honest_ok demo_buffed_inv I).
Defined.

Lemma start_establishes_ownership_witness : owns demo_active [1].
Proof.
  apply (start_establishes_ownership (E := honest_env) demo_buffed
    (after [MM_STREAM_EVT_ACQUIRE; MM_STREAM_EVT_SET_FMT demo_config; MM_STREAM_EVT_GET_BUF;
            MM_STREAM_EVT_REG_BUF]) demo_active
    (match buf_status (w_s demo_buffed) with Some ss => ss | None => [] end)).
  - reflexivity.
  - apply demo_buffed_inv.
  - reflexivity.
  - reflexivity.
  - reflexivity.
  - intros _. by eexists.
  - vm_compute. reflexivity.
  - vm_compute. reflexivity.
Defined.

(** A frame arrives and is delivered; the buffer held outside comes back. *)
Definition demo_frame : sworld :=
  Eval vm_compute in match mm_stream_data_notify (E := honest_env) demo_active with
                     | Some (_, w) => w | None => demo_active end.

Lemma demo_active_owns : owns demo_active [1].
Proof.
  constructor.
  - done.
  - eexists _, _. split; [reflexivity|]. split; [reflexivity|]. split; [done|]. split; [simpl; lia|].
    intros [|[|n]] b; simpl; intros [= <-]; done.
  - done.
  - intros _. by eexists.
  - intros _. by eexists.
  - constructor.
  - intros i. change (holders demo_active [1] i) with ((if 1 =? i then 1 else 0) + 0 + 0 + 0).
    destruct (Z.eqb_spec 1 i) as [<-|]; intros H; [by eexists|lia].
  - intros i st. change (holders demo_active [1] i) with ((if 1 =? i then 1 else 0) + 0 + 0 + 0).
    unfold at_index. destruct (Z.ltb_spec i 0); [done|].
    destruct (Z.to_nat i) as [|[|n]] eqn:Ei; simpl lookup; intros [= <-]; simpl refs; cbn [cnt buf_refcnt in_kernel];
      destruct (Z.eqb_spec 1 i); try lia; repeat split; try lia; done.
  - intros i. cbn -[Z.eqb]. destruct (Z.eqb_spec 0 i) as [<-|]; [by eexists|done].
Qed.

(** The buffer that is held outside. *)
Definition demo_held : mm_camera_buf_def_t :=
  owned_by 769 CAM_STREAM_TYPE_PREVIEW
      {| b_stream_id := 0; b_stream_type := CAM_STREAM_TYPE_DEFAULT; b_buf_idx := 1;
         b_is_uv_subsampled := false; b_ts := (0, 0); b_frame_idx := 0; b_num_planes := 2;
         b_planes := []; b_fd := 41; b_frame_len := 0 |}.

Lemma buffers_never_shared_witness :
  is_Some (mm_stream_data_notify (E := honest_env) demo_frame) /\
  (exists st rc w', at_index (buf_status (w_s demo_frame)) 1 = Some st /\ 0 < buf_refcnt st /\
     mm_stream_fsm_fn (E := honest_env) (MM_STREAM_EVT_QBUF demo_held) demo_frame = Some (rc, w')).
Proof.
  destruct (buffers_never_shared (E := honest_env) honest_kernel honest_callbacks
    demo_active [1] demo_frame [1] demo_active_owns) as (_ & H & Hn & _).
  2:{ split; [exact Hn|]. destruct (H [] demo_held [] eq_refl)
        as (st & rc & w' & ? & ? & ? & _). by exists st, rc, w'. }
  apply rtc_once. apply own_frame. vm_compute. reflexivity.
Defined.

Lemma buf_done_spec_witness :
  exists rc tr, qbuf_events (E := honest_env) demo_held demo_active = (rc, tr) /\ rc = 0.
Proof.
  destruct (buf_done_spec (E := honest_env) demo_held demo_active
      {| buf_refcnt := 1; initial_reg_flag := 0; in_kernel := false |} eq_refl ltac:(simpl; lia))
    as (rc & tr & Hq & _).
  exists rc, tr. split; [exact Hq|]. injection Hq as <- _. reflexivity.
Defined.

(** The same system with a cache operation that fails. *)
Definition dirty_env : Env := {|
  VENUS := None; A_FAMILY := true;
  env_open := @env_open honest_env; env_ioctl := @env_ioctl honest_env;
  env_extendedmode := @env_extendedmode honest_env; env_dqbuf := @env_dqbuf honest_env;
  env_pipe := @env_pipe honest_env; env_write := @env_write honest_env;
  env_malloc := @env_malloc honest_env; env_sync_info := @env_sync_info honest_env;
  env_send := @env_send honest_env; env_map_done := @env_map_done honest_env;
  env_get_bufs := @env_get_bufs honest_env; env_put_bufs := @env_put_bufs honest_env;
  env_invalidate_buf := @env_invalidate_buf honest_env;
  env_clean_invalidate_buf := fun _ _ _ => -1;
  env_cb_returns := @env_cb_returns honest_env
|}.

Lemma clean_failure_loses_buffer_witness :
  exists w' st, mm_stream_data_notify (E := dirty_env) demo_active = Some (tt, w') /\
    kernel_has (fd (w_s w')) 0 (w_tr w') = false /\
    at_index (buf_status (w_s w')) 0 = Some st /\ in_kernel st = true /\ buf_refcnt st = 0 /\
    holders w' [1] 0 = 0.
Proof.
  apply (clean_failure_loses_buffer (E := dirty_env) demo_active [1] 4
    (snd (env_dqbuf (Env := dirty_env) (w_tr demo_active) (fd (w_s demo_active))))).
  - exact demo_active_owns.
  - vm_compute. reflexivity.
  - vm_compute. reflexivity.
  - reflexivity.
  - intros. simpl. lia.
Defined.
