(* ===== verification/SuperBuf.v ===== *)
(** * The super buffer queue ([mm_camera_channel.c])

    A channel bundles streams: buffers of different streams with the same
    frame index are collected in one super buffer, which is complete (matched)
    when every stream has delivered.  The queue keeps super buffers, complete
    ones first; what cannot be used goes back to its stream.

    The code is written against an interface, [SuperbufOps]: the channel
    operations it calls.  Theorems are proved from the laws of that interface;
    Channel has the instance of the real channel. *)

From Stdlib Require Import ZArith Lia.
From stdpp Require Import numbers list.
From S2P Require Import Prelude CamTypes Env Threads.

(** ** Data *)

Record mm_channel_queue_node_t := {
  num_of_bufs : Z;
  super_buf : list mm_camera_buf_info_t;
  matched : bool;
  n_frame_idx : Z
}.

Inductive mm_camera_super_buf_priority_t : Set :=
| MM_CAMERA_SUPER_BUF_PRIORITY_NORMAL
| MM_CAMERA_SUPER_BUF_PRIORITY_FOCUS
| MM_CAMERA_SUPER_BUF_PRIORITY_EXPOSURE_BRACKETING.

Record mm_camera_channel_attr_t := {
  notify_mode : mm_camera_super_buf_notify_mode_t;
  water_mark : Z;
  look_back : Z;
  post_frame_skip : Z;
  max_unmatched_frames : Z;
  priority : mm_camera_super_buf_priority_t
}.

Definition set_notify_mode (v : mm_camera_super_buf_notify_mode_t) (x : mm_camera_channel_attr_t) : mm_camera_channel_attr_t :=
  {| notify_mode := v; water_mark := water_mark x; look_back := look_back x; post_frame_skip
     := post_frame_skip x; max_unmatched_frames := max_unmatched_frames x; priority :=
     priority x |}.

(** The list of super buffers of [que], as [cam_queue.h] keeps it, and its
    [size] field. *)
Record mm_channel_queue_t := {
  que : list mm_channel_queue_node_t;
  que_size : Z;
  num_streams : Z;
  bundled_streams : list Z;
  attr : mm_camera_channel_attr_t;
  expected_frame_id : Z;
  match_cnt : Z
}.

Definition set_que (v : list mm_channel_queue_node_t) (x : mm_channel_queue_t) : mm_channel_queue_t :=
  {| que := v; que_size := que_size x; num_streams := num_streams x; bundled_streams :=
     bundled_streams x; attr := attr x; expected_frame_id := expected_frame_id x; match_cnt
     := match_cnt x |}.

Definition set_que_size (v : Z) (x : mm_channel_queue_t) : mm_channel_queue_t :=
  {| que := que x; que_size := v; num_streams := num_streams x; bundled_streams :=
     bundled_streams x; attr := attr x; expected_frame_id := expected_frame_id x; match_cnt
     := match_cnt x |}.

Definition set_attr (v : mm_camera_channel_attr_t) (x : mm_channel_queue_t) : mm_channel_queue_t :=
  {| que := que x; que_size := que_size x; num_streams := num_streams x; bundled_streams :=
     bundled_streams x; attr := v; expected_frame_id := expected_frame_id x; match_cnt :=
     match_cnt x |}.

Definition set_expected_frame_id (v : Z) (x : mm_channel_queue_t) : mm_channel_queue_t :=
  {| que := que x; que_size := que_size x; num_streams := num_streams x; bundled_streams :=
     bundled_streams x; attr := attr x; expected_frame_id := v; match_cnt := match_cnt x |}.

Definition set_match_cnt (v : Z) (x : mm_channel_queue_t) : mm_channel_queue_t :=
  {| que := que x; que_size := que_size x; num_streams := num_streams x; bundled_streams :=
     bundled_streams x; attr := attr x; expected_frame_id := expected_frame_id x; match_cnt
     := v |}.

Definition empty_info : mm_camera_buf_info_t :=
  {| bi_stream_id := 0; bi_frame_idx := 0; bi_buf := None |}.

(** The part of the metadata buffer that the matching reads. *)
Record cam_metadata_info_t := {
  is_prep_snapshot_done_valid : bool;
  need_future_frame : bool;
  is_good_frame_idx_range_valid : bool;
  min_frame_idx : Z
}.

(** ** The channel the queue belongs to *)

Class SuperbufOps (W : Type) := {
  get_queue : W -> mm_channel_queue_t;
  set_queue : mm_channel_queue_t -> W -> W;
  (** [mm_channel_qbuf] on a buffer of the bundle *)
  op_qbuf : buf_ref -> M W Z;
  op_malloc : M W bool;
  (** the type of the stream with a handle: no stream, no stream information,
      or the type *)
  op_stream_type : Z -> M W (option (option cam_stream_type_t));
  (** the contents of a metadata buffer, if its pointer is set *)
  op_metadata : buf_ref -> M W (option cam_metadata_info_t);
  op_set_needLEDFlash : bool -> M W unit
}.

Definition mm_channel_util_seq_comp_w_rollover (v1 v2 : Z) : Z :=
  if v2 <? v1 then 1 else if v1 <? v2 then -1 else 0.

Section Ops.
Context {W : Type} `{SO : SuperbufOps W}.

Definition q_get {A} (f : mm_channel_queue_t -> A) : M W A := gets (fun w => f (get_queue w)).
Definition q_upd (f : mm_channel_queue_t -> mm_channel_queue_t) : M W unit :=
  modify (fun w => set_queue (f (get_queue w)) w).

(** Removes the element at a position. *)
Definition q_delete (i : nat) : M W unit := q_upd (fun q => set_que (delete i (que q)) q).
Definition q_shrink : M W unit := q_upd (fun q => set_que_size (que_size q -u 1) q).

(** [mm_channel_qbuf(ch_obj, buf)]: the buffer is read through its pointer. *)
Definition qbuf (b : option buf_ref) : M W unit := b ← deref b; op_qbuf b;; mret tt.

(** The slots of a super buffer, [i < num_of_bufs]. *)
Definition slots (n : mm_channel_queue_node_t) : list mm_camera_buf_info_t :=
  take (Z.to_nat (num_of_bufs n)) (super_buf n).

(** The two ways a super buffer is given up: slots with a frame index other
    than 0, and slots with a buffer. *)
Definition release_by_index (n : mm_channel_queue_node_t) : M W unit :=
  for_each (slots n) (fun s => if bi_frame_idx s =? 0 then mret tt else qbuf (bi_buf s)).
Definition release_by_buf (n : mm_channel_queue_node_t) : M W unit :=
  for_each (slots n) (fun s => match bi_buf s with Some _ => qbuf (bi_buf s) | None => mret tt end).

Definition mm_channel_superbuf_dequeue_internal (matched_only : bool) :
  M W (option mm_channel_queue_node_t) :=
  l ← q_get que;
  match l with
  | [] => mret None
  | n :: _ =>
      if matched_only && negb (matched n) then mret None
      else
        q_delete 0;;
        q_shrink;;
        (if matched n then q_upd (fun q => set_match_cnt (match_cnt q -u 1) q) else mret tt);;
        mret (Some n)
  end.

Definition mm_channel_superbuf_dequeue : M W (option mm_channel_queue_node_t) :=
  mm_channel_superbuf_dequeue_internal true.

(** [while (match_cnt > limit)]: the loop goes on when nothing was dequeued. *)
Fixpoint drop_matched (fuel : nat) (limit : mm_channel_queue_t -> Z) : M W unit :=
  cnt ← q_get match_cnt;
  lim ← q_get limit;
  if lim <? cnt then
    match fuel with
    | O => stuck
    | S fuel =>
        n ← mm_channel_superbuf_dequeue_internal true;
        (match n with Some n => release_by_buf n | None => mret tt end);;
        drop_matched fuel limit
    end
  else mret tt.

Definition mm_channel_superbuf_bufdone_overflow (fuel : nat) : M W Z :=
  mode ← q_get (fun q => notify_mode (attr q));
  if decide (mode = MM_CAMERA_SUPER_BUF_NOTIFY_CONTINUOUS) then mret 0
  else drop_matched fuel (fun q => water_mark (attr q));; mret 0.

Definition mm_channel_superbuf_skip (fuel : nat) : M W Z :=
  mode ← q_get (fun q => notify_mode (attr q));
  if decide (mode = MM_CAMERA_SUPER_BUF_NOTIFY_CONTINUOUS) then mret 0
  else drop_matched fuel (fun q => look_back (attr q));; mret 0.

Fixpoint flush_loop (fuel : nat) : M W unit :=
  n ← mm_channel_superbuf_dequeue_internal false;
  match n with
  | None => mret tt
  | Some n =>
      release_by_buf n;;
      match fuel with O => stuck | S fuel => flush_loop fuel end
  end.

Definition mm_channel_superbuf_flush (fuel : nat) : M W Z := flush_loop fuel;; mret 0.

(** A frame that asks for a future one moves the expected frame on and empties
    the queue. *)
Definition mm_channel_handle_metadata (fuel : nat) (info : mm_camera_buf_info_t) : M W Z :=
  t ← op_stream_type (bi_stream_id info);
  match t with
  | None | Some None => mret (-1)
  | Some (Some t) =>
      if decide (t = CAM_STREAM_TYPE_METADATA) then
        b ← deref (bi_buf info);
        md ← op_metadata b;
        match md with
        | None => mret (-1)
        | Some md =>
            if is_prep_snapshot_done_valid md && is_good_frame_idx_range_valid md then mret (-1)
            else if is_prep_snapshot_done_valid md then
              if need_future_frame md then
                q_upd (fun q => set_expected_frame_id (expected_frame_id q +u 100) q);;
                mm_channel_superbuf_flush fuel;;
                op_set_needLEDFlash true;;
                mret 0
              else op_set_needLEDFlash false;; mret 0
            else if is_good_frame_idx_range_valid md then
              q_upd (set_expected_frame_id (min_frame_idx md));; mret 0
            else mret 0
        end
      else mret 0
  end.

(** The search of [mm_channel_superbuf_comp_and_enqueue]: where a super buffer
    of this frame is, or, over the unmatched ones passed, how many there are,
    the first that is older and the first that is newer. *)
Record scan_result := {
  found_super_buf : option nat;
  unmatched_bundles : Z;
  last_buf : option nat;
  insert_before_buf : option nat
}.

Fixpoint scan (frame_idx : Z) (pos : nat) (l : list mm_channel_queue_node_t) (unm : Z)
    (last ins : option nat) : scan_result :=
  match l with
  | [] => {| found_super_buf := None; unmatched_bundles := unm; last_buf := last;
             insert_before_buf := ins |}
  | n :: l =>
      if matched n then scan frame_idx (S pos) l unm last ins
      else if frame_idx =? n_frame_idx n then
        {| found_super_buf := Some pos; unmatched_bundles := unm; last_buf := last;
           insert_before_buf := ins |}
      else
        scan frame_idx (S pos) l (u8 (unm + 1))
          (match last with
           | None => if n_frame_idx n <? frame_idx then Some pos else None
           | Some _ => last
           end)
          (match ins with
           | None => if frame_idx <? n_frame_idx n then Some pos else None
           | Some _ => ins
           end)
  end.

(** Gives up and removes the super buffer at position [i]. *)
Definition drop_at (i : nat) : M W unit :=
  l ← q_get que;
  n ← deref (l !! i);
  release_by_index n;;
  q_shrink;;
  q_delete i.

Fixpoint drop_older (k : nat) (i : nat) : M W unit :=
  match k with O => mret tt | S k => drop_at i;; drop_older k i end.

Definition complete (n : mm_channel_queue_node_t) : bool :=
  forallb (fun s => negb (bi_frame_idx s =? 0)) (slots n).

(** The expected frame after frame [frame_idx] was matched, and one more
    complete super buffer. *)
Definition count_match (frame_idx : Z) : M W unit :=
  q_upd (fun q => set_expected_frame_id (frame_idx +u post_frame_skip (attr q)) q);;
  q_upd (fun q => set_match_cnt (match_cnt q +u 1) q).

(** The branch with a super buffer for this frame, at position [pos]. *)
Definition fill_slot (s_idx pos : nat) (last : option nat) (info : mm_camera_buf_info_t) : M W unit :=
  l ← q_get que;
  n ← deref (l !! pos);
  let n' := {| num_of_bufs := num_of_bufs n; super_buf := <[s_idx := info]> (super_buf n);
               matched := false; n_frame_idx := n_frame_idx n |} in
  let n' := {| num_of_bufs := num_of_bufs n'; super_buf := super_buf n';
               matched := complete n'; n_frame_idx := n_frame_idx n' |} in
  q_upd (fun q => set_que (<[pos := n']> (que q)) q);;
  if matched n' then
    count_match (bi_frame_idx info);;
    match last with
    | Some last => drop_older (pos - last) last
    | None => mret tt
    end
  else mret tt.

(** The branch that starts a new super buffer. *)
Definition insert_new (s_idx : nat) (ins : option nat) (info : mm_camera_buf_info_t) : M W unit :=
  buf_ok ← op_malloc;
  node_ok ← op_malloc;
  if (buf_ok : bool) && (node_ok : bool) then
    ns ← q_get num_streams;
    let n := {| num_of_bufs := ns;
                super_buf := <[s_idx := info]> (replicate MAX_STREAM_NUM_IN_BUNDLE empty_info);
                matched := ns =? 1; n_frame_idx := bi_frame_idx info |} in
    q_upd (fun q => set_que (match ins with
                             | Some i => take i (que q) ++ n :: drop i (que q)
                             | None => que q ++ [n]
                             end) q);;
    q_upd (fun q => set_que_size (que_size q +u 1) q);;
    (if ns =? 1 then count_match (bi_frame_idx info) else mret tt)
  else qbuf (bi_buf info).

(** The position after the removal of the element at [d]. *)
Definition shift_pos (d : nat) (i : nat) : nat := if (d <? i)%nat then (i - 1)%nat else i.

Definition not_found (s_idx : nat) (r : scan_result) (info : mm_camera_buf_info_t) : M W unit :=
  mx ← q_get (fun q => max_unmatched_frames (attr q));
  if mx <? unmatched_bundles r then
    match last_buf r with
    | None => qbuf (bi_buf info)
    | Some i => drop_at i;; insert_new s_idx (shift_pos i <$> insert_before_buf r) info
    end
  else insert_new s_idx (insert_before_buf r) info.

(** The index of the stream in the bundle. *)
Definition stream_index (q : mm_channel_queue_t) (id : Z) : option nat :=
  fst <$> list_find (fun s => id = s) (take (Z.to_nat (num_streams q)) (bundled_streams q)).

Definition mm_channel_superbuf_comp_and_enqueue (fuel : nat) (info : mm_camera_buf_info_t) : M W Z :=
  s_idx ← q_get (fun q => stream_index q (bi_stream_id info));
  match s_idx with
  | None => mret (-1)
  | Some s_idx =>
      rc ← mm_channel_handle_metadata fuel info;
      if rc <? 0 then mret (-1)
      else
        expected ← q_get expected_frame_id;
        if mm_channel_util_seq_comp_w_rollover (bi_frame_idx info) expected <? 0 then
          qbuf (bi_buf info);; mret 0
        else
          l ← q_get que;
          let r := scan (bi_frame_idx info) 0 l 0 None None in
          (match found_super_buf r with
           | Some pos => fill_slot s_idx pos (last_buf r) info
           | None => not_found s_idx r info
           end);;
          mret 0
  end.

Definition mm_channel_superbuf_queue_init : M W Z :=
  q_upd (set_que []);; q_upd (set_que_size 0);; mret 0.

(** [cam_queue_deinit] frees the super buffers that are left without giving
    their buffers back. *)
Definition mm_channel_superbuf_queue_deinit : M W Z :=
  q_upd (set_que []);; q_upd (set_que_size 0);; mret 0.

End Ops.
