(* ===== verification/SuperBufProps.v ===== *)
(** * Theorems about the super buffer queue

    The invariant of the queue, that every operation keeps it and ends, that
    no buffer is lost or given back twice, and what comes out of the queue. *)

From Stdlib Require Import ZArith Lia.
From stdpp Require Import numbers sets list sorting.
From S2P Require Import Prelude CamTypes Env Threads SuperBuf.

(** ** Laws of the channel interface

    [returned] is the sequence of buffers that were given back to their
    streams; [valid] are the buffers that can be; [allocs] is what the
    allocator answered so far, in order.  Only [op_malloc] asks it. *)

Class SuperbufLaws (W : Type) `{SO : SuperbufOps W} := {
  returned : W -> list buf_ref;
  valid : W -> buf_ref -> Prop;
  allocs : W -> list bool;
  law_get_set : forall q w, get_queue (set_queue q w) = q;
  law_returned_set : forall q w, returned (set_queue q w) = returned w;
  law_valid_set : forall q w b, valid w b -> valid (set_queue q w) b;
  law_allocs_set : forall q w, allocs (set_queue q w) = allocs w;
  law_qbuf : forall b w, valid w b ->
    exists rc w', op_qbuf b w = Some (rc, w') /\ get_queue w' = get_queue w /\
      returned w' = returned w ++ [b] /\ (forall b', valid w b' -> valid w' b') /\ allocs w' = allocs w;
  law_malloc : forall w, exists r w', op_malloc w = Some (r, w') /\ get_queue w' = get_queue w /\
      returned w' = returned w /\ (forall b, valid w b -> valid w' b) /\ allocs w' = allocs w ++ [r];
  law_stream_type : forall h w, exists r w', op_stream_type h w = Some (r, w') /\
      get_queue w' = get_queue w /\ returned w' = returned w /\ (forall b, valid w b -> valid w' b) /\ allocs w' = allocs w;
  law_metadata : forall b w, valid w b -> exists r w', op_metadata b w = Some (r, w') /\
      get_queue w' = get_queue w /\ returned w' = returned w /\ (forall b, valid w b -> valid w' b) /\ allocs w' = allocs w;
  law_led : forall v w, exists w', op_set_needLEDFlash v w = Some (tt, w') /\
      get_queue w' = get_queue w /\ returned w' = returned w /\ (forall b, valid w b -> valid w' b) /\ allocs w' = allocs w
}.

(** ** Invariant *)

(** The buffers of a super buffer and of the queue. *)
Definition node_bufs (n : mm_channel_queue_node_t) : list buf_ref := omap bi_buf (slots n).
Definition all_bufs (l : list mm_channel_queue_node_t) : list buf_ref := concat (node_bufs <$> l).

(** A slot is empty, or holds a buffer of the super buffer's frame. *)
Definition slot_ok (f : Z) (s : mm_camera_buf_info_t) : Prop :=
  (bi_frame_idx s = 0 /\ bi_buf s = None) \/
  (bi_frame_idx s = f /\ f <> 0 /\ is_Some (bi_buf s)).

Record node_ok (ns : Z) (n : mm_channel_queue_node_t) : Prop := {
  no_num : num_of_bufs n = ns;
  no_len : length (super_buf n) = MAX_STREAM_NUM_IN_BUNDLE;
  no_slots : Forall (slot_ok (n_frame_idx n)) (super_buf n);
  no_matched : matched n = complete n;
  no_some : node_bufs n <> []
}.

Definition older (a b : mm_channel_queue_node_t) : Prop := n_frame_idx a < n_frame_idx b.

(** Complete super buffers [m], then incomplete ones [u] in increasing frame
    order, at most one more than the attribute says. *)
Record queue_ok (q : mm_channel_queue_t) (m u : list mm_channel_queue_node_t) : Prop := {
  qo_que : que q = m ++ u;
  qo_m : Forall (fun n => matched n = true) m;
  qo_u : Forall (fun n => matched n = false) u;
  qo_sorted : StronglySorted older u;
  qo_nodes : Forall (node_ok (num_streams q)) (que q);
  qo_streams : 1 <= num_streams q <= Z.of_nat MAX_STREAM_NUM_IN_BUNDLE;
  qo_size : que_size q = Z.of_nat (length (que q));
  qo_fit : Z.of_nat (length (que q)) < 2 ^ 32 - 1;
  qo_match : match_cnt q = Z.of_nat (length m);
  qo_max : 0 <= max_unmatched_frames (attr q) < 255;
  qo_bound : Z.of_nat (length u) <= max_unmatched_frames (attr q) + 1
}.

Definition queue_inv (q : mm_channel_queue_t) : Prop := exists m u, queue_ok q m u.

Section Props.
Context {W : Type} `{SL : SuperbufLaws W}.

(** From [w] to [w'] every buffer that could be given back still can, and the
    allocator was asked and answered [got]. *)
Definition grows (w w' : W) (got : list bool) : Prop :=
  (forall b, valid w b -> valid w' b) /\ allocs w' = allocs w ++ got.

(** From [w] to [w'] the queue became [q], [ret] was given back and the
    allocator answered [got]. *)
Definition evolves_got (w w' : W) (q : mm_channel_queue_t) (ret : list buf_ref) (got : list bool) : Prop :=
  get_queue w' = q /\ returned w' = returned w ++ ret /\ grows w w' got.
Definition evolves (w w' : W) (q : mm_channel_queue_t) (ret : list buf_ref) : Prop := evolves_got w w' q ret [].

Lemma grows_refl w : grows w w [].
Proof. split; [done|]. by rewrite app_nil_r. Qed.

Lemma grows_trans w1 w2 w3 g1 g2 : grows w1 w2 g1 -> grows w2 w3 g2 -> grows w1 w3 (g1 ++ g2).
Proof. intros [H1 E1] [H2 E2]. split; [auto|]. by rewrite E2, E1, app_assoc. Qed.

Lemma grows_none w1 w2 w3 g : grows w1 w2 [] -> grows w2 w3 g -> grows w1 w3 g.
Proof. apply (grows_trans w1 w2 w3 [] g). Qed.

Lemma evolves_refl w : evolves w w (get_queue w) [].
Proof. split; [done|]. rewrite app_nil_r. split; [done|apply grows_refl]. Qed.

Lemma evolves_got_trans w1 w2 w3 q2 q3 r1 r2 g1 g2 :
  evolves_got w1 w2 q2 r1 g1 -> evolves_got w2 w3 q3 r2 g2 -> evolves_got w1 w3 q3 (r1 ++ r2) (g1 ++ g2).
Proof.
  intros (? & H1 & ?) (? & H2 & ?). split; [done|]. split; [by rewrite H2, H1, app_assoc|by eapply grows_trans].
Qed.

Lemma evolves_trans w1 w2 w3 q2 q3 r1 r2 :
  evolves w1 w2 q2 r1 -> evolves w2 w3 q3 r2 -> evolves w1 w3 q3 (r1 ++ r2).
Proof. apply (evolves_got_trans _ _ _ _ _ _ _ [] []). Qed.

(** [m] ends, changes the queue by [f] and gives [ret] back. *)
Definition does {A} (m : M W A) (w : W) (P : A -> W -> Prop) : Prop :=
  exists a w', m w = Some (a, w') /\ P a w'.

Lemma does_ret {A} (a : A) w (P : A -> W -> Prop) : P a w -> does (mret a) w P.
Proof. intros H. by exists a, w. Qed.

Lemma does_bind {A B} (m : M W A) (k : A -> M W B) w P Q :
  does m w P -> (forall a w', P a w' -> does (k a) w' Q) -> does (m ≫= k) w Q.
Proof.
  intros (a & w1 & E1 & HP) Hk. destruct (Hk a w1 HP) as (b & w2 & E2 & HQ). exists b, w2.
  by rewrite (bind_run _ _ _ _ _ E1).
Qed.

Lemma does_bind_ret {A B} (a : A) (k : A -> M W B) w Q : does (k a) w Q -> does (mret a ≫= k) w Q.
Proof. intros (b & w' & E1 & H). exists b, w'. by rewrite (bind_run (mret a) _ w a w). Qed.

Lemma does_mono {A} (m : M W A) w (P Q : A -> W -> Prop) :
  does m w P -> (forall a w', P a w' -> Q a w') -> does m w Q.
Proof. intros (a & w1 & E1 & HP) H. exists a, w1. auto. Qed.

Lemma does_q_get {A B} (f : mm_channel_queue_t -> A) (k : A -> M W B) w Q :
  does (k (f (get_queue w))) w Q -> does (q_get f ≫= k) w Q.
Proof. intros (a & w' & E1 & H). exists a, w'. by rewrite (bind_run (q_get f) _ w (f (get_queue w)) w). Qed.

Lemma does_q_upd f w : does (q_upd f) w (fun _ w' => evolves w w' (f (get_queue w)) []).
Proof.
  eexists tt, _. split; [reflexivity|]. repeat split.
  - apply law_get_set.
  - by rewrite app_nil_r; apply law_returned_set.
  - apply law_valid_set.
  - by rewrite app_nil_r; apply law_allocs_set.
Qed.

Lemma does_qbuf b w : valid w b -> does (qbuf (Some b)) w (fun _ w' => evolves w w' (get_queue w) [b]).
Proof.
  intros Hv. destruct (law_qbuf b w Hv) as (rc & w' & E1 & ? & ? & ? & ?). exists tt, w'.
  split; [|split; [done|split; [done|split; [done|by rewrite app_nil_r]]]]. unfold qbuf. rewrite (bind_run _ _ w b w) by done. by rewrite (bind_run _ _ _ _ _ E1).
Qed.

(** ** Giving a super buffer up *)

Lemma slots_Forall (P : mm_camera_buf_info_t -> Prop) n : Forall P (super_buf n) -> Forall P (slots n).
Proof. apply Forall_take. Qed.

Lemma release_slots_run f g ss w :
  Forall (slot_ok f) ss -> Forall (valid w) (omap bi_buf ss) ->
  (forall s, slot_ok f s -> g s = match bi_buf s with Some _ => qbuf (bi_buf s) | None => mret tt end) ->
  does (for_each ss g) w (fun _ w' => evolves w w' (get_queue w) (omap bi_buf ss)).
Proof.
  revert w. induction ss as [|s ss IH]; intros w Hs Hv Hg; [apply does_ret, evolves_refl|].
  apply Forall_cons in Hs as [Hs Hss]. cbn [for_each]. rewrite (Hg s Hs). simpl in Hv.
  destruct (bi_buf s) as [b|] eqn:Eb; simpl in *; rewrite ?Eb in *.
  - apply Forall_cons in Hv as [Hb Hv]. eapply does_bind; [by apply does_qbuf|].
    intros [] w1 Hw1. eapply does_mono; [apply IH; [done| |done]|].
    + eapply Forall_impl; [exact Hv|]. intros x Hx. by apply Hw1.
    + intros [] w2 Hw2. destruct Hw1 as (Hq1 & ? & ?). rewrite Hq1 in Hw2.
      eapply (evolves_trans w w1 w2 _ _ [b]); [by split|done].
  - apply does_bind_ret. by apply IH.
Qed.

Lemma release_by_index_run ns n w : node_ok ns n -> Forall (valid w) (node_bufs n) ->
  does (release_by_index n) w (fun _ w' => evolves w w' (get_queue w) (node_bufs n)).
Proof.
  intros Hn Hv. eapply release_slots_run; [apply slots_Forall, Hn|done|].
  intros s [[H1 H2]|(H1 & H2 & b & H3)].
  - by rewrite H1, H2.
  - rewrite H3. destruct (Z.eqb_spec (bi_frame_idx s) 0); [congruence|done].
Qed.

Lemma release_by_buf_run ns n w : node_ok ns n -> Forall (valid w) (node_bufs n) ->
  does (release_by_buf n) w (fun _ w' => evolves w w' (get_queue w) (node_bufs n)).
Proof. intros Hn Hv. by eapply release_slots_run; [apply slots_Forall, Hn|done|]. Qed.

(** ** Taking super buffers out *)

(** The settings of the queue that the operations do not touch. *)
Definition same_settings (q q' : mm_channel_queue_t) : Prop :=
  num_streams q' = num_streams q /\ bundled_streams q' = bundled_streams q /\ attr q' = attr q.

Lemma settings_trans q1 q2 q3 : same_settings q1 q2 -> same_settings q2 q3 -> same_settings q1 q3.
Proof. unfold same_settings. intros (? & ? & ?) (? & ? & ?). repeat split; congruence. Qed.

(** The queue without its first super buffer. *)
Definition pop (q : mm_channel_queue_t) (n : mm_channel_queue_node_t) (l : list mm_channel_queue_node_t) :
  mm_channel_queue_t :=
  {| que := l; que_size := que_size q -u 1; num_streams := num_streams q;
     bundled_streams := bundled_streams q; attr := attr q; expected_frame_id := expected_frame_id q;
     match_cnt := if matched n then match_cnt q -u 1 else match_cnt q |}.

Lemma dequeue_pop_run b w n l : que (get_queue w) = n :: l -> (b = true -> matched n = true) ->
  does (mm_channel_superbuf_dequeue_internal b) w (fun r w' => r = Some n /\
    evolves w w' (pop (get_queue w) n l) []).
Proof.
  intros Hq Hb. unfold mm_channel_superbuf_dequeue_internal. apply does_q_get. rewrite Hq.
  replace (b && negb (matched n)) with false by (destruct b; [rewrite Hb|]; done).
  eapply does_bind; [apply does_q_upd|]. intros [] w1 Hw1.
  eapply does_bind; [apply does_q_upd|]. intros [] w2 Hw2.
  pose proof (evolves_trans _ _ _ _ _ _ _ Hw1 Hw2) as H2. destruct Hw1 as (Hq1 & _). rewrite Hq1 in *.
  destruct H2 as (Hq2 & Hr2 & Hv2). rewrite Hq in Hq2. simpl in *.
  eapply does_bind with (P := fun _ w3 => evolves w w3 (pop (get_queue w) n l) []).
  { unfold pop. destruct (matched n).
    - eapply does_mono; [apply does_q_upd|]. intros [] w3 (Hq3 & Hr3 & Hv3). rewrite Hq2 in Hq3.
      split; [done|]. split; [by rewrite Hr3, Hr2, !app_nil_r|by apply (grows_none _ _ _ _ Hv2 Hv3)].
    - apply does_ret. by split. }
  intros [] w3 Hw3. by apply does_ret.
Qed.

Lemma dequeue_none_run w : (forall n l, que (get_queue w) = n :: l -> matched n = false) ->
  does (mm_channel_superbuf_dequeue_internal true) w (fun r w' => r = None /\ w' = w).
Proof.
  intros Hq. unfold mm_channel_superbuf_dequeue_internal. apply does_q_get.
  destruct (que (get_queue w)) as [|n l]; [by apply does_ret|]. rewrite (Hq n l eq_refl). by apply does_ret.
Qed.

Lemma pop_matched_ok q n m u : queue_ok q (n :: m) u -> queue_ok (pop q n (m ++ u)) m u.
Proof.
  intros [Hque Hm Hu Hs Hn Hst Hsz Hfit Hmc Hmx Hb].
  apply Forall_cons in Hm as [Hmn Hm]. rewrite Hque in *. apply Forall_cons in Hn as [_ Hn].
  simpl in *. constructor; simpl; try done.
  - rewrite Hsz, u32_id; unfold u32_range; lia.
  - lia.
  - rewrite Hmn, Hmc, u32_id; [lia|]. unfold u32_range. rewrite length_app in Hfit. lia.
Qed.

Lemma pop_unmatched_ok q n u : queue_ok q [] (n :: u) -> queue_ok (pop q n u) [] u.
Proof.
  intros [Hque Hm Hu Hs Hn Hst Hsz Hfit Hmc Hmx Hb].
  apply Forall_cons in Hu as [Hun Hu]. rewrite Hque in *. apply Forall_cons in Hn as [_ Hn].
  inversion Hs; subst. simpl in *. constructor; simpl; try done.
  - rewrite Hsz, u32_id; unfold u32_range; lia.
  - lia.
  - by rewrite Hun.
  - lia.
Qed.

Lemma pop_settings q n l : same_settings q (pop q n l) /\ expected_frame_id (pop q n l) = expected_frame_id q.
Proof. by repeat split. Qed.

Lemma all_bufs_app l1 l2 : all_bufs (l1 ++ l2) = all_bufs l1 ++ all_bufs l2.
Proof. unfold all_bufs. by rewrite fmap_app, concat_app. Qed.

Lemma queue_node q m u n : queue_ok q m u -> n ∈ que q -> node_ok (num_streams q) n.
Proof. intros Hq Hin. by eapply Forall_forall in Hin; [|apply Hq]. Qed.

Lemma valid_mono w w' q r l : evolves w w' q r -> Forall (valid w) l -> Forall (valid w') l.
Proof. intros (_ & _ & Hv & _) H. eapply Forall_impl; [exact H|]. auto. Qed.

(** Dropping complete super buffers down to a limit: the oldest go, in order;
    as many iterations as there are complete ones are enough. *)
Lemma drop_matched_run limit fuel w q m u :
  get_queue w = q -> queue_ok q m u -> Forall (valid w) (all_bufs m) ->
  (forall q', attr q' = attr q -> limit q' = limit q) -> 0 <= limit q -> (length m <= fuel)%nat ->
  let k := (length m - Z.to_nat (limit q))%nat in
  does (drop_matched fuel limit) w (fun _ w' => exists q',
    evolves w w' q' (all_bufs (take k m)) /\ queue_ok q' (drop k m) u /\ same_settings q q' /\
    expected_frame_id q' = expected_frame_id q).
Proof.
  revert w q m. induction fuel as [|fuel IH]; intros w q m Hg Hq Hv Hlim H0 Hf k.
  all: unfold k; clear k; cbn [drop_matched]; apply does_q_get, does_q_get; rewrite Hg, (qo_match _ _ _ Hq).
  { destruct m; [|simpl in Hf; lia]. change (Z.of_nat (length [])) with 0.
    replace (limit q <? 0) with false by (symmetry; apply Z.ltb_ge; lia).
    apply does_ret. exists q. split; [rewrite <- Hg; apply evolves_refl|]. split; [done|by repeat split]. }
  destruct (Z.ltb_spec (limit q) (Z.of_nat (length m))).
  2:{ replace (length m - Z.to_nat (limit q))%nat with 0%nat by lia. apply does_ret. exists q.
      split; [rewrite <- Hg; apply evolves_refl|]. split; [done|by repeat split]. }
  destruct m as [|n m]; [simpl in *; lia|].
  assert (Hn : node_ok (num_streams q) n).
  { eapply queue_node; [done|]. rewrite (qo_que _ _ _ Hq). set_solver. }
  eapply does_bind.
  { apply (dequeue_pop_run true w n (m ++ u)); [by rewrite Hg; apply Hq|]. intros _. pose proof (qo_m _ _ _ Hq).
    by apply Forall_cons in H1 as [? _]. }
  intros r w1 [-> Hw1]. rewrite Hg in Hw1. unfold all_bufs in Hv. simpl in Hv.
  apply Forall_app in Hv as [Hvn Hv]. fold (all_bufs m) in Hv.
  eapply does_bind; [apply (release_by_buf_run (num_streams q)); [done|by eapply valid_mono]|].
  intros [] w2 Hw2. destruct Hw1 as (Hq1 & Hw1). rewrite Hq1 in Hw2.
  assert (H12 : evolves w w2 (pop q n (m ++ u)) ([] ++ node_bufs n)).
  { eapply evolves_trans; [|exact Hw2]. by split. }
  eapply does_mono.
  - pose proof (Hlim (pop q n (m ++ u)) eq_refl) as Hl. apply (IH w2 (pop q n (m ++ u)) m).
    + apply H12.
    + by apply pop_matched_ok.
    + by eapply valid_mono.
    + intros q' Hq'. rewrite Hl. by apply Hlim.
    + by rewrite Hl.
    + simpl in Hf. lia.
  - intros [] w3 (q3 & Hw3 & Hq3 & Hs3 & He3). exists q3.
    rewrite (Hlim (pop q n (m ++ u)) eq_refl) in *.
    replace (length (n :: m) - Z.to_nat (limit q))%nat with (S (length m - Z.to_nat (limit q))) by (simpl in *; lia).
    split; [|done]. simpl. unfold all_bufs. simpl. eapply evolves_trans; [exact H12|exact Hw3].
Qed.

Lemma flush_loop_run fuel w q m u :
  get_queue w = q -> queue_ok q m u -> Forall (valid w) (all_bufs (m ++ u)) -> (length (m ++ u) <= fuel)%nat ->
  does (flush_loop fuel) w (fun _ w' => exists q',
    evolves w w' q' (all_bufs (m ++ u)) /\ queue_ok q' [] [] /\ same_settings q q' /\
    expected_frame_id q' = expected_frame_id q).
Proof.
  assert (Hempty : forall w q, get_queue w = q -> queue_ok q [] [] -> forall k : _ -> M W unit, k None = mret tt ->
    does (mm_channel_superbuf_dequeue_internal false ≫= k) w (fun _ w' => exists q',
      evolves w w' q' [] /\ queue_ok q' [] [] /\ same_settings q q' /\ expected_frame_id q' = expected_frame_id q)).
  { intros w0 q0 Hg0 Hq0 k Hk. eapply does_bind with (P := fun r w' => r = None /\ w' = w0).
    - unfold mm_channel_superbuf_dequeue_internal. apply does_q_get. rewrite Hg0, (qo_que _ _ _ Hq0). by apply does_ret.
    - intros r w' [-> ->]. rewrite Hk. apply does_ret. exists q0. split; [rewrite <- Hg0; apply evolves_refl|].
      split; [done|by repeat split]. }
  revert w q m u. induction fuel as [|fuel IH]; intros w q m u Hg Hq Hv Hf; cbn [flush_loop].
  { destruct m; [|simpl in Hf; lia]. destruct u; [|simpl in Hf; lia]. by apply Hempty. }
  destruct (m ++ u) as [|n l] eqn:El.
  { apply app_nil in El as [-> ->]. by apply Hempty. }
  assert (exists m' u', l = m' ++ u' /\ queue_ok (pop q n l) m' u') as (m' & u' & Hl & Hq').
  { destruct m as [|n' m]; simpl in El.
    - exists [], l. split; [done|]. subst u. by apply pop_unmatched_ok.
    - injection El as <- <-. exists m, u. split; [done|]. by apply pop_matched_ok. }
  assert (Hn : node_ok (num_streams q) n).
  { eapply queue_node; [done|]. rewrite (qo_que _ _ _ Hq), El. set_solver. }
  eapply does_bind.
  { apply (dequeue_pop_run false w n l); [by rewrite Hg, (qo_que _ _ _ Hq)|done]. }
  intros r w1 [-> Hw1]. rewrite Hg in Hw1. unfold all_bufs in Hv. simpl in Hv.
  apply Forall_app in Hv as [Hvn Hv]. fold (all_bufs l) in Hv.
  eapply does_bind; [apply (release_by_buf_run (num_streams q)); [done|by eapply valid_mono]|].
  intros [] w2 Hw2. destruct Hw1 as (Hq1 & Hw1). rewrite Hq1 in Hw2.
  assert (H12 : evolves w w2 (pop q n l) ([] ++ node_bufs n)).
  { eapply evolves_trans; [|exact Hw2]. by split. }
  rewrite Hl in Hv, Hf. eapply does_mono.
  - apply (IH w2 (pop q n l) m' u'); [apply H12|done|by eapply valid_mono|simpl in Hf; lia].
  - intros [] w3 (q3 & Hw3 & Hq3 & Hs3 & He3). exists q3. split; [|done].
    unfold all_bufs. simpl. rewrite Hl. eapply evolves_trans; [exact H12|exact Hw3].
Qed.

End Props.

(** ** The abstract queue

    Complete super buffers in the order of completion and incomplete ones in
    the order of their frames.  [enqueue_spec] is what the arrival of a buffer
    means on them: the new lists, the buffers given back in order, and whether
    a super buffer became complete. *)

Definition below (f : Z) : list mm_channel_queue_node_t -> list mm_channel_queue_node_t :=
  filter (fun n => n_frame_idx n < f).
Definition at_frame (f : Z) : list mm_channel_queue_node_t -> list mm_channel_queue_node_t :=
  filter (fun n => n_frame_idx n = f).
Definition above (f : Z) : list mm_channel_queue_node_t -> list mm_channel_queue_node_t :=
  filter (fun n => f < n_frame_idx n).

Record enqueued := {
  e_matched : list mm_channel_queue_node_t;
  e_unmatched : list mm_channel_queue_node_t;
  e_returned : list buf_ref;
  e_complete : bool
}.

(** A super buffer with [info] in its slot. *)
Definition filled (s_idx : nat) (info : mm_camera_buf_info_t) (n : mm_channel_queue_node_t) :
  mm_channel_queue_node_t :=
  let n' := {| num_of_bufs := num_of_bufs n; super_buf := <[s_idx := info]> (super_buf n);
               matched := false; n_frame_idx := n_frame_idx n |} in
  {| num_of_bufs := num_of_bufs n'; super_buf := super_buf n'; matched := complete n';
     n_frame_idx := n_frame_idx n' |}.

Definition fresh (ns : Z) (s_idx : nat) (info : mm_camera_buf_info_t) : mm_channel_queue_node_t :=
  {| num_of_bufs := ns; super_buf := <[s_idx := info]> (replicate MAX_STREAM_NUM_IN_BUNDLE empty_info);
     matched := ns =? 1; n_frame_idx := bi_frame_idx info |}.

Definition place_spec (ns : Z) (s_idx : nat) (info : mm_camera_buf_info_t) (mem : bool)
    (m lo hi : list mm_channel_queue_node_t) (ret : list buf_ref) : enqueued :=
  if mem then
    if ns =? 1 then
      {| e_matched := m ++ [fresh ns s_idx info]; e_unmatched := lo ++ hi; e_returned := ret; e_complete := true |}
    else
      {| e_matched := m; e_unmatched := lo ++ fresh ns s_idx info :: hi; e_returned := ret; e_complete := false |}
  else
    {| e_matched := m; e_unmatched := lo ++ hi; e_returned := ret ++ option_list (bi_buf info);
       e_complete := false |}.

Definition enqueue_spec (ns mx : Z) (s_idx : nat) (info : mm_camera_buf_info_t) (mem : bool)
    (m u : list mm_channel_queue_node_t) : enqueued :=
  let f := bi_frame_idx info in
  match at_frame f u with
  | n :: _ =>
      if complete (filled s_idx info n) then
        {| e_matched := m ++ [filled s_idx info n]; e_unmatched := above f u;
           e_returned := all_bufs (below f u); e_complete := true |}
      else
        {| e_matched := m; e_unmatched := below f u ++ filled s_idx info n :: above f u;
           e_returned := []; e_complete := false |}
  | [] =>
      if mx <? Z.of_nat (length u) then
        match below f u with
        | [] => {| e_matched := m; e_unmatched := u; e_returned := option_list (bi_buf info); e_complete := false |}
        | o :: lo => place_spec ns s_idx info mem m lo (above f u) (node_bufs o)
        end
      else place_spec ns s_idx info mem m (below f u) (above f u) []
  end.

(** *** Splitting at a frame *)

Lemma filter_all {A} (P : A -> Prop) `{forall x, Decision (P x)} (l : list A) : Forall P l -> filter P l = l.
Proof. induction 1; [done|]. rewrite filter_cons_True by done. by f_equal. Qed.

Lemma filter_none {A} (P : A -> Prop) `{forall x, Decision (P x)} (l : list A) :
  Forall (fun x => ~ P x) l -> filter P l = [].
Proof. induction 1; [done|]. by rewrite filter_cons_False. Qed.

(** All of [u] is newer than frame [f]. *)
Lemma split_newer f u : Forall (fun n => f < n_frame_idx n) u ->
  below f u = [] /\ at_frame f u = [] /\ above f u = u.
Proof.
  intros H. unfold below, at_frame, above. split; [|split].
  - apply filter_none. eapply Forall_impl; [exact H|]. simpl. lia.
  - apply filter_none. eapply Forall_impl; [exact H|]. simpl. lia.
  - by apply filter_all.
Qed.

Lemma sorted_split f u : StronglySorted older u ->
  u = below f u ++ at_frame f u ++ above f u /\ (length (at_frame f u) <= 1)%nat.
Proof.
  induction 1 as [|n u Hs [IH IHl] Hn]; [split; [done|simpl; lia]|].
  assert (Hnew : f <= n_frame_idx n -> Forall (fun n => f < n_frame_idx n) u).
  { intros Hf. eapply Forall_impl; [exact Hn|]. unfold older. lia. }
  unfold below, at_frame, above in *. rewrite !filter_cons. repeat case_decide; try lia.
  - simpl. split; [by f_equal|done].
  - destruct (split_newer f u (Hnew ltac:(lia))) as (N1 & N2 & N3). unfold below, at_frame, above in *.
    rewrite N1, N2, N3. done.
  - destruct (split_newer f u (Hnew ltac:(lia))) as (N1 & N2 & N3). unfold below, at_frame, above in *.
    rewrite N1, N2, N3. simpl. split; [done|lia].
Qed.

Lemma below_Forall f u : Forall (fun n => n_frame_idx n < f) (below f u).
Proof. apply Forall_forall. intros n. unfold below. rewrite list_elem_of_filter. tauto. Qed.
Lemma above_Forall f u : Forall (fun n => f < n_frame_idx n) (above f u).
Proof. apply Forall_forall. intros n. unfold above. rewrite list_elem_of_filter. tauto. Qed.

(** *** The search finds that split *)

Definition first_of {A} (l : list A) (p : nat) : option nat := match l with [] => None | _ => Some p end.

Lemma scan_matched f p m u k last ins : Forall (fun n => matched n = true) m ->
  scan f p (m ++ u) k last ins = scan f (p + length m) u k last ins.
Proof.
  intros H. revert p. induction H as [|n m Hn Hm IH]; intros p; simpl; [by rewrite Nat.add_0_r|].
  rewrite Hn, IH. f_equal. lia.
Qed.

Lemma scan_below f p lo hi k last : Forall (fun n => matched n = false) lo ->
  Forall (fun n => n_frame_idx n < f) lo -> 0 <= k -> k + Z.of_nat (length lo) < 256 ->
  scan f p (lo ++ hi) k last None =
  scan f (p + length lo) hi (k + Z.of_nat (length lo))
    (match last with Some _ => last | None => first_of lo p end) None.
Proof.
  intros H1 H2. revert p k last. induction H1 as [|n lo Hn Hlo IH]; intros p k last Hk Hb; simpl.
  - rewrite Nat.add_0_r, Z.add_0_r. by destruct last.
  - apply Forall_cons in H2 as [Hf H2]. simpl in Hb. rewrite Hn.
    rewrite (proj2 (Z.eqb_neq f (n_frame_idx n))), (proj2 (Z.ltb_ge f (n_frame_idx n))),
      (proj2 (Z.ltb_lt (n_frame_idx n) f)) by lia.
    rewrite u8_id by (unfold u8_range; lia). rewrite IH by (done || lia).
    f_equal; [lia|lia|]. by destruct last.
Qed.

Lemma scan_above f p hi k last ins : Forall (fun n => matched n = false) hi ->
  Forall (fun n => f < n_frame_idx n) hi -> 0 <= k -> k + Z.of_nat (length hi) < 256 ->
  scan f p hi k last ins =
  {| found_super_buf := None; unmatched_bundles := k + Z.of_nat (length hi); last_buf := last;
     insert_before_buf := match ins with Some _ => ins | None => first_of hi p end |}.
Proof.
  intros H1 H2. revert p k last ins. induction H1 as [|n hi Hn Hhi IH]; intros p k last ins Hk Hb; simpl.
  - rewrite Z.add_0_r. by destruct ins.
  - apply Forall_cons in H2 as [Hf H2]. simpl in Hb. rewrite Hn.
    rewrite (proj2 (Z.eqb_neq f (n_frame_idx n))), (proj2 (Z.ltb_ge (n_frame_idx n) f)),
      (proj2 (Z.ltb_lt f (n_frame_idx n))) by lia.
    rewrite u8_id by (unfold u8_range; lia). rewrite IH by (done || lia).
    f_equal; [lia|by destruct last|]. by destruct ins.
Qed.

Lemma scan_queue q m u f : queue_ok q m u ->
  scan f 0 (que q) 0 None None =
  match at_frame f u with
  | _ :: _ => {| found_super_buf := Some (length m + length (below f u))%nat;
                 unmatched_bundles := Z.of_nat (length (below f u));
                 last_buf := first_of (below f u) (length m); insert_before_buf := None |}
  | [] => {| found_super_buf := None; unmatched_bundles := Z.of_nat (length u);
             last_buf := first_of (below f u) (length m);
             insert_before_buf := first_of (above f u) (length m + length (below f u)) |}
  end.
Proof.
  intros Hq. destruct (sorted_split f u (qo_sorted _ _ _ Hq)) as [Hsp _].
  pose proof (qo_u _ _ _ Hq) as Hu. pose proof (qo_bound _ _ _ Hq). pose proof (qo_max _ _ _ Hq).
  rewrite Hsp in Hu. apply Forall_app in Hu as [Hlo Hu]. apply Forall_app in Hu as [Hat Hhi].
  assert (Hlen : Z.of_nat (length u) = Z.of_nat (length (below f u)) + Z.of_nat (length (at_frame f u)) +
    Z.of_nat (length (above f u))) by (rewrite Hsp at 1; rewrite !length_app; lia).
  rewrite (qo_que _ _ _ Hq), scan_matched by apply Hq. rewrite Hsp at 1.
  rewrite scan_below by (apply below_Forall || done || lia). simpl.
  destruct (at_frame f u) as [|n l] eqn:Ea; simpl in *.
  - rewrite scan_above by (apply above_Forall || done || lia). f_equal. lia.
  - apply Forall_cons in Hat as [Hn _]. rewrite Hn.
    assert (n ∈ at_frame f u) as Hin by (rewrite Ea; set_solver).
    apply list_elem_of_filter in Hin as [Hf _]. by rewrite Hf, Z.eqb_refl.
Qed.

(** *** Super buffers with one more buffer *)

Section Node.
Context (ns : Z) (s_idx : nat) (info : mm_camera_buf_info_t) (b : buf_ref).
Context (Hns : 1 <= ns <= Z.of_nat MAX_STREAM_NUM_IN_BUNDLE) (Hs : (s_idx < Z.to_nat ns)%nat).
Context (Hf : bi_frame_idx info <> 0) (Hb : bi_buf info = Some b).

Lemma slots_insert k l m f : (s_idx < Z.to_nat k)%nat ->
  slots {| num_of_bufs := k; super_buf := <[s_idx := info]> l; matched := m; n_frame_idx := f |} =
  <[s_idx := info]> (take (Z.to_nat k) l).
Proof. intros H. unfold slots. simpl. by rewrite take_insert_lt. Qed.

(** Putting a buffer in an empty slot adds just that buffer. *)
Lemma insert_bufs l s : l !! s_idx = Some s -> bi_buf s = None ->
  omap bi_buf (<[s_idx := info]> l) ≡ₚ b :: omap bi_buf l.
Proof.
  intros Hl Hn. pose proof (take_drop_middle _ _ _ Hl) as E1. rewrite insert_take_drop by (by eapply lookup_lt_Some).
  rewrite <- E1 at 3. rewrite !omap_app. cbn [omap list_omap]. rewrite Hb, Hn.
  by rewrite <- Permutation_middle.
Qed.

Lemma filled_bufs n s : num_of_bufs n = ns -> super_buf n !! s_idx = Some s -> bi_buf s = None ->
  node_bufs (filled s_idx info n) ≡ₚ b :: node_bufs n.
Proof.
  intros Hnum Hl Hn. unfold node_bufs, filled. simpl. rewrite slots_insert by (rewrite Hnum; done).
  apply (insert_bufs _ s); [|done]. by rewrite lookup_take_lt by (rewrite Hnum; done).
Qed.

Lemma filled_ok n s : node_ok ns n -> n_frame_idx n = bi_frame_idx info ->
  super_buf n !! s_idx = Some s -> bi_buf s = None -> node_ok ns (filled s_idx info n).
Proof.
  intros Hn Hfr Hl He. constructor; try done.
  - apply Hn.
  - simpl. rewrite length_insert. apply Hn.
  - simpl. apply Forall_insert; [apply Hn|]. right. rewrite Hfr, Hb. split_and!; [done|done|by eexists].
  - intros H. pose proof (filled_bufs n s (no_num _ _ Hn) Hl He) as Hp. rewrite H in Hp.
    by apply Permutation_nil_cons in Hp.
Qed.

Lemma fresh_bufs : node_bufs (fresh ns s_idx info) ≡ₚ [b].
Proof.
  unfold node_bufs, fresh. rewrite slots_insert by done.
  rewrite (insert_bufs _ empty_info); [|apply lookup_take_Some; split; [apply lookup_replicate; split; [done|lia]|done]|done].
  rewrite take_replicate. by induction (Z.to_nat ns `min` MAX_STREAM_NUM_IN_BUNDLE)%nat.
Qed.

Lemma fresh_complete : complete (fresh ns s_idx info) = (ns =? 1).
Proof.
  unfold complete, fresh. rewrite slots_insert by done.
  assert (Hc : ns = 1 \/ ns = 2 \/ ns = 3 \/ ns = 4) by (unfold MAX_STREAM_NUM_IN_BUNDLE in Hns; lia).
  clear Hns. apply Z.eqb_neq in Hf.
  destruct Hc as [-> | [-> | [-> | ->]]];
    repeat (destruct s_idx as [|s_idx']; [simpl; by rewrite ?Hf|clear s_idx; rename s_idx' into s_idx]; simpl in *; try lia).
Qed.

Lemma fresh_ok : node_ok ns (fresh ns s_idx info).
Proof.
  constructor; try done.
  - simpl. by rewrite length_insert.
  - simpl. apply Forall_insert; [|right; rewrite Hb; split_and!; [done|done|by eexists]]. repeat (apply Forall_cons; split; [by left|]). done.
  - by rewrite fresh_complete.
  - intros H. pose proof fresh_bufs as Hp. rewrite H in Hp. by apply Permutation_nil_cons in Hp.
Qed.

End Node.

(** ** The code implements the abstract queue *)

(** A queue with other contents. *)
Definition mk_queue (q : mm_channel_queue_t) (l : list mm_channel_queue_node_t) (mc ef : Z) : mm_channel_queue_t :=
  {| que := l; que_size := Z.of_nat (length l); num_streams := num_streams q;
     bundled_streams := bundled_streams q; attr := attr q; expected_frame_id := ef; match_cnt := mc |}.

(** The queue that an abstract result stands for. *)
Definition after_enqueue (q : mm_channel_queue_t) (f : Z) (e : enqueued) : mm_channel_queue_t :=
  mk_queue q (e_matched e ++ e_unmatched e) (Z.of_nat (length (e_matched e)))
    (if e_complete e then f +u post_frame_skip (attr q) else expected_frame_id q).

Definition fits (l : list mm_channel_queue_node_t) : Prop := Z.of_nat (length l) < 2 ^ 32 - 1.
Definition room (l : list mm_channel_queue_node_t) : Prop := Z.of_nat (length l) + 1 < 2 ^ 32 - 1.

Lemma queue_mk q m u : queue_ok q m u -> q = mk_queue q (m ++ u) (Z.of_nat (length m)) (expected_frame_id q).
Proof.
  intros [H1 _ _ _ _ _ H2 _ H3 _ _]. rewrite H1 in H2. destruct q; simpl in *. unfold mk_queue. simpl. congruence.
Qed.

Lemma mk_queue_mk q l mc ef l' mc' ef' : mk_queue (mk_queue q l mc ef) l' mc' ef' = mk_queue q l' mc' ef'.
Proof. done. Qed.

Section Enqueue.
Context {W : Type} `{SL : SuperbufLaws W}.

Lemma drop_at_run q a n c mc ef w : get_queue w = mk_queue q (a ++ n :: c) mc ef -> fits (a ++ n :: c) ->
  node_ok (num_streams q) n -> Forall (valid w) (node_bufs n) ->
  does (drop_at (length a)) w (fun _ w' => evolves w w' (mk_queue q (a ++ c) mc ef) (node_bufs n)).
Proof.
  intros Hg Hr Hn Hv. unfold drop_at. apply does_q_get. rewrite Hg. cbn [que mk_queue].
  eapply does_bind with (P := fun x w' => x = n /\ w' = w).
  { rewrite list_lookup_middle by done. by exists n, w. }
  intros ? ? [-> ->]. eapply does_bind; [by eapply release_by_index_run|]. intros [] w1 Hw1.
  eapply does_bind; [apply does_q_upd|]. intros [] w2 Hw2.
  eapply does_mono; [apply does_q_upd|]. intros [] w3 Hw3.
  pose proof (evolves_trans _ _ _ _ _ _ _ Hw1 (evolves_trans _ _ _ _ _ _ _ Hw2 Hw3)) as H.
  rewrite !app_nil_r in H. destruct H as (Hq3 & Hr3 & Hv3). split; [|by split].
  rewrite Hq3. destruct Hw2 as (-> & _). destruct Hw1 as (-> & _). rewrite Hg.
  unfold mk_queue, set_que, set_que_size. simpl. unfold fits in Hr. rewrite length_app in Hr. simpl in Hr.
  rewrite delete_middle, !length_app, u32_id; [|unfold u32_range; simpl; lia]. f_equal. simpl. lia.
Qed.

Lemma drop_older_run q a lo c mc ef w : get_queue w = mk_queue q (a ++ lo ++ c) mc ef -> fits (a ++ lo ++ c) ->
  Forall (node_ok (num_streams q)) lo -> Forall (valid w) (all_bufs lo) ->
  does (drop_older (length lo) (length a)) w (fun _ w' =>
    evolves w w' (mk_queue q (a ++ c) mc ef) (all_bufs lo)).
Proof.
  revert w. induction lo as [|n lo IH]; intros w Hg Hr Hn Hv; cbn [drop_older length].
  { apply does_ret. simpl in Hg. rewrite <- Hg. apply evolves_refl. }
  apply Forall_cons in Hn as [Hn Hns]. unfold all_bufs in Hv. simpl in Hv. apply Forall_app in Hv as [Hvn Hv].
  eapply does_bind; [by apply drop_at_run|]. intros [] w1 Hw1. eapply does_mono.
  - apply IH; [apply Hw1| |done|by eapply valid_mono]. unfold fits in *. rewrite !length_app in *. simpl in Hr. lia.
  - intros [] w2 Hw2. unfold all_bufs. simpl. by eapply evolves_trans.
Qed.

Lemma count_match_run f q l mc ef w : get_queue w = mk_queue q l mc ef ->
  does (count_match f) w (fun _ w' =>
    evolves w w' (mk_queue q l (mc +u 1) (f +u post_frame_skip (attr q))) []).
Proof.
  intros Hg. unfold count_match. eapply does_bind; [apply does_q_upd|]. intros [] w1 Hw1.
  eapply does_mono; [apply does_q_upd|]. intros [] w2 Hw2.
  pose proof (evolves_trans _ _ _ _ _ _ _ Hw1 Hw2) as (Hq & Hr & Hv). split; [|by split].
  rewrite Hq. destruct Hw1 as (-> & _). by rewrite Hg.
Qed.

Lemma malloc_run w : does op_malloc w (fun r w' => evolves_got w w' (get_queue w) [] [r]).
Proof.
  destruct (law_malloc w) as (r & w' & E1 & H1 & H2 & H3). exists r, w'. split; [done|].
  split; [done|]. by rewrite app_nil_r.
Qed.

Lemma insert_at {A} (m lo hi : list A) x :
  match first_of hi (length m + length lo) with
  | Some i => take i (m ++ lo ++ hi) ++ x :: drop i (m ++ lo ++ hi)
  | None => (m ++ lo ++ hi) ++ [x]
  end = m ++ lo ++ x :: hi.
Proof.
  destruct hi as [|y hi]; simpl; [by rewrite app_nil_r, <- app_assoc|].
  rewrite <- length_app, !app_assoc, take_app_length, drop_app_length. by rewrite <- !app_assoc.
Qed.

Lemma place_returned ns s_idx info mem m lo hi ret :
  e_returned (place_spec ns s_idx info mem m lo hi ret) =
  ret ++ e_returned (place_spec ns s_idx info mem m lo hi []).
Proof. unfold place_spec. destruct mem; [destruct (ns =? 1)|]; simpl; by rewrite ?app_nil_r. Qed.

Lemma place_queue q ef f s_idx info mem m lo hi ret :
  after_enqueue (mk_queue q [] 0 ef) f (place_spec (num_streams q) s_idx info mem m lo hi []) =
  after_enqueue (mk_queue q [] 0 ef) f (place_spec (num_streams q) s_idx info mem m lo hi ret).
Proof. unfold place_spec. by destruct mem; [destruct (num_streams q =? 1)|]. Qed.

(** A new super buffer goes between the older and the newer ones; without
    memory for it the buffer goes back. *)
Lemma insert_new_run q s_idx info b m lo hi ef w :
  get_queue w = mk_queue q (m ++ lo ++ hi) (Z.of_nat (length m)) ef -> room (m ++ lo ++ hi) ->
  bi_buf info = Some b -> valid w b -> (num_streams q = 1 -> lo = [] /\ hi = []) ->
  does (insert_new s_idx (first_of hi (length m + length lo)) info) w (fun _ w' => exists got,
    let e := place_spec (num_streams q) s_idx info (forallb id got) m lo hi [] in
    evolves_got w w' (after_enqueue (mk_queue q [] 0 ef) (bi_frame_idx info) e) (e_returned e) got).
Proof.
  intros Hg Hr Hb Hv H1. unfold insert_new.
  eapply does_bind; [apply malloc_run|]. intros b1 w1 Hw1. eapply does_bind; [apply malloc_run|]. intros b2 w2 Hw2.
  assert (H12 : evolves_got w w2 (get_queue w) [] [b1; b2]).
  { pose proof (evolves_got_trans _ _ _ _ _ _ _ _ _ Hw1 Hw2) as H. destruct Hw1 as (Hq1 & _). by rewrite Hq1 in H. }
  clear Hw1 Hw2. pose proof H12 as (Hg2 & _). rewrite Hg in Hg2.
  assert (Hmem : forallb id [b1; b2] = b1 && b2) by (by destruct b1, b2).
  set (got := [b1; b2]) in *. clearbody got.
  destruct (b1 && b2) eqn:Eb.
  2:{ rewrite Hb. eapply does_mono; [apply does_qbuf; by apply H12|]. intros [] w3 Hw3. exists got.
      rewrite Hg2 in Hw3. cbv zeta. rewrite Hmem. simpl. rewrite Hb. simpl.
      pose proof (evolves_got_trans _ _ _ _ _ _ _ _ _ H12 Hw3) as H. by rewrite app_nil_r in H. }
  apply does_q_get. rewrite Hg2. cbn [num_streams mk_queue]. unfold room in Hr.
  eapply does_bind; [apply does_q_upd|]. intros [] w3 Hw3.
  eapply does_bind; [apply does_q_upd|]. intros [] w4 Hw4.
  pose proof (evolves_got_trans _ _ _ _ _ _ _ _ _ H12 (evolves_trans _ _ _ _ _ _ _ Hw3 Hw4)) as H14.
  simpl in H14. rewrite app_nil_r in H14. assert (Hg4 : get_queue w4 =
    mk_queue q (m ++ lo ++ fresh (num_streams q) s_idx info :: hi) (Z.of_nat (length m)) ef).
  { destruct H14 as (-> & _). destruct Hw3 as (-> & _). rewrite Hg2. unfold mk_queue, set_que_size, set_que. simpl.
    rewrite insert_at, u32_id by (unfold u32_range; lia). f_equal.
    rewrite !length_app in *. simpl. lia. }
  clear Hw3 Hw4. destruct H14 as (_ & Hret & Hval).
  destruct (Z.eqb_spec (num_streams q) 1) as [E1|E1].
  - destruct (H1 E1) as [-> ->]. simpl in *. eapply does_mono; [by eapply count_match_run|].
    intros [] w5 (Hq5 & Hr5 & Hv5). exists got. cbv zeta. rewrite Hmem. unfold place_spec. rewrite E1. simpl.
    split; [|split; [by rewrite Hr5, Hret, !app_nil_r|]].
    2:{ pose proof (grows_trans _ _ _ _ _ Hval Hv5) as H. by rewrite app_nil_r in H. }
    rewrite Hq5. unfold after_enqueue, mk_queue. simpl. rewrite app_nil_r, E1. f_equal.
    rewrite length_app, u32_id; simpl; [lia|]. unfold u32_range. rewrite app_nil_r in Hr. lia.
  - apply does_ret. exists got. cbv zeta. rewrite Hmem. unfold place_spec. rewrite (proj2 (Z.eqb_neq _ 1) E1). simpl.
    split; [|by split]. by rewrite Hg4.
Qed.

(** With one stream a super buffer is complete at once. *)
Lemma single_stream q m u : queue_ok q m u -> num_streams q = 1 -> u = [].
Proof.
  intros Hq H1. destruct u as [|n u]; [done|]. exfalso.
  pose proof (qo_u _ _ _ Hq) as Hu. apply Forall_cons in Hu as [Hu _].
  assert (Hn : node_ok (num_streams q) n) by (eapply queue_node; [done|]; rewrite (qo_que _ _ _ Hq); set_solver).
  destruct Hn as [H2 H3 H4 H5 H6]. rewrite Hu in H5. symmetry in H5. unfold complete, node_bufs, slots in *.
  rewrite H2, H1 in *. change (Z.to_nat 1) with 1%nat in *.
  destruct (super_buf n) as [|s l]; [done|]. apply Forall_cons in H4 as [Hs _]. simpl in *.
  destruct Hs as [[_ Hs]|(Hs & Hf & _)]; [by rewrite Hs in H6|].
  rewrite <- Hs in Hf. by rewrite (proj2 (Z.eqb_neq _ 0) Hf) in H5.
Qed.

Lemma fill_slot_run q s_idx info m lo n hi w :
  get_queue w = q -> queue_ok q m (lo ++ n :: hi) -> Forall (valid w) (all_bufs lo) ->
  does (fill_slot s_idx (length m + length lo) (first_of lo (length m)) info) w (fun _ w' =>
    let n' := filled s_idx info n in
    if complete n' then
      evolves w w' (mk_queue q (m ++ n' :: hi) (Z.of_nat (length m) +u 1)
        (bi_frame_idx info +u post_frame_skip (attr q))) (all_bufs lo)
    else evolves w w' (mk_queue q (m ++ lo ++ n' :: hi) (Z.of_nat (length m)) (expected_frame_id q)) []).
Proof.
  intros Hg Hq Hv. set (n' := filled s_idx info n). unfold fill_slot. apply does_q_get. rewrite Hg.
  eapply does_bind with (P := fun x w' => x = n /\ w' = w).
  { rewrite (qo_que _ _ _ Hq), app_assoc, list_lookup_middle by (by rewrite length_app). by exists n, w. }
  intros ? ? [-> ->].
  eapply does_bind; [apply does_q_upd|]. intros [] w1 Hw1. rewrite Hg in Hw1.
  assert (Hg1 : get_queue w1 = mk_queue q (m ++ lo ++ n' :: hi) (Z.of_nat (length m)) (expected_frame_id q)).
  { destruct Hw1 as (-> & _). rewrite (qo_que _ _ _ Hq). rewrite (queue_mk _ _ _ Hq) at 1.
    unfold set_que, mk_queue. simpl. rewrite app_assoc, insert_app_r_alt by (rewrite length_app; lia).
    rewrite length_app, Nat.sub_diag. simpl. rewrite <- app_assoc. f_equal.
    rewrite !length_app. simpl. lia. }
  destruct Hw1 as (_ & Hr1 & Hv1). match goal with |- does (if ?x then _ else _) _ _ => change x with (complete n') end.
  destruct (complete n') eqn:Ec.
  2:{ apply does_ret. by split. }
  eapply does_bind; [by eapply count_match_run|]. intros [] w2 Hw2.
  pose proof (qo_fit _ _ _ Hq) as Hfit. rewrite (qo_que _ _ _ Hq) in Hfit.
  eapply does_mono with (P := fun _ w3 => evolves w2 w3 (mk_queue q (m ++ n' :: hi) (Z.of_nat (length m) +u 1)
    (bi_frame_idx info +u post_frame_skip (attr q))) (all_bufs lo)).
  - destruct lo as [|o lo']; cbn [first_of].
    { apply does_ret. destruct Hw2 as (Hg2 & _). simpl in Hg2. rewrite <- Hg2. apply evolves_refl. }
    replace (length m + length (o :: lo') - length m)%nat with (length (o :: lo')) by lia.
    apply drop_older_run; [apply Hw2| | |].
    + unfold fits. rewrite !length_app in *. simpl in *. lia.
    + pose proof (qo_nodes _ _ _ Hq) as Hn. rewrite (qo_que _ _ _ Hq) in Hn.
      apply Forall_app in Hn as [_ Hn]. by apply Forall_app in Hn as [Hn _].
    + eapply valid_mono; [exact Hw2|]. eapply Forall_impl; [exact Hv|]. apply Hv1.
  - intros [] w3 Hw3. pose proof (evolves_trans _ _ _ _ _ _ _ Hw2 Hw3) as (Hg3 & Hr3 & Hv3).
    split; [done|]. split; [by rewrite Hr3, Hr1, app_nil_r|by apply (grows_none _ _ _ _ Hv1 Hv3)].
Qed.

(** What the arrival of a buffer does once its metadata is handled. *)
Definition match_step (s_idx : nat) (info : mm_camera_buf_info_t) : M W unit :=
  l ← q_get que;
  let r := scan (bi_frame_idx info) 0 l 0 None None in
  match found_super_buf r with
  | Some pos => fill_slot s_idx pos (last_buf r) info
  | None => not_found s_idx r info
  end.

Lemma at_frame_split f u n l : StronglySorted older u -> at_frame f u = n :: l ->
  u = below f u ++ n :: above f u /\ n_frame_idx n = f.
Proof.
  intros Hs Ha. destruct (sorted_split f u Hs) as [Hu Hl]. rewrite Ha in *. destruct l; [|simpl in Hl; lia].
  split; [done|]. assert (n ∈ at_frame f u) as Hin by (rewrite Ha; set_solver).
  by apply list_elem_of_filter in Hin as [? _].
Qed.

Lemma not_found_run q s_idx info b m u w :
  get_queue w = q -> queue_ok q m u -> room (que q) -> bi_buf info = Some b -> valid w b ->
  Forall (valid w) (all_bufs (que q)) -> at_frame (bi_frame_idx info) u = [] ->
  does (not_found s_idx (scan (bi_frame_idx info) 0 (que q) 0 None None) info) w (fun _ w' => exists got,
    let e := enqueue_spec (num_streams q) (max_unmatched_frames (attr q)) s_idx info (forallb id got) m u in
    evolves_got w w' (after_enqueue q (bi_frame_idx info) e) (e_returned e) got).
Proof.
  intros Hg Hq Hr Hb Hv Hva Ha. rewrite (scan_queue _ _ _ _ Hq), Ha. unfold not_found, enqueue_spec.
  set (f := bi_frame_idx info) in *. rewrite Ha. apply does_q_get. rewrite Hg. cbn [unmatched_bundles last_buf insert_before_buf].
  destruct (sorted_split f u (qo_sorted _ _ _ Hq)) as [Hu _]. rewrite Ha in Hu. simpl in Hu.
  pose proof (queue_mk _ _ _ Hq) as Hmk. rewrite (qo_que _ _ _ Hq) in *.
  pose proof (single_stream _ _ _ Hq) as H1.
  assert (Hgm : get_queue w = mk_queue q (m ++ below f u ++ above f u) (Z.of_nat (length m)) (expected_frame_id q))
    by (rewrite <- Hu; congruence).
  assert (Hrm : room (m ++ below f u ++ above f u)) by (by rewrite <- Hu).
  destruct (Z.ltb_spec (max_unmatched_frames (attr q)) (Z.of_nat (length u))) as [Hmx|Hmx].
  2:{ eapply does_mono; [eapply (insert_new_run q s_idx info b m (below f u) (above f u)); try done|].
      - intros E1. by rewrite (H1 E1).
      - intros [] w' [got H]. by exists got. }
  destruct (below f u) as [|o lo] eqn:El; cbn [first_of].
  { rewrite Hb. eapply does_mono; [by apply does_qbuf|]. intros [] w' H. exists []. rewrite Hg in H.
    unfold after_enqueue. cbn [e_matched e_unmatched e_complete e_returned]. by rewrite <- Hmk. }
  assert (Ho : o ∈ m ++ u) by (rewrite Hu; set_solver).
  assert (Hvo : Forall (valid w) (node_bufs o)).
  { rewrite Hu, all_bufs_app in Hva. apply Forall_app in Hva as [_ Hva].
    unfold all_bufs in Hva. simpl in Hva. by apply Forall_app in Hva as [Hva _]. }
  unfold fits, room in *. eapply does_bind.
  { apply (drop_at_run q m o (lo ++ above f u)); [done|unfold fits; simpl in Hrm; lia| |done].
    eapply queue_node; [done|]. by rewrite (qo_que _ _ _ Hq). }
  intros [] w1 Hw1. replace (shift_pos (length m) <$> first_of (above f u) (length m + length (o :: lo)))
    with (first_of (above f u) (length m + length lo)).
  2:{ destruct (above f u); [done|]. unfold shift_pos. simpl. f_equal.
      destruct (Nat.ltb_spec (length m) (length m + S (length lo))); lia. }
  eapply does_mono; [eapply (insert_new_run q s_idx info b m lo (above f u)); try done|].
  - apply Hw1.
  - unfold room. simpl in Hrm. rewrite !length_app in *. simpl in Hrm. rewrite !length_app in *. lia.
  - by apply Hw1.
  - intros E1. rewrite (H1 E1) in El. done.
  - intros [] w' [got H]. exists got. pose proof (evolves_got_trans _ _ _ _ _ _ _ [] _ Hw1 H) as HH.
    rewrite <- place_returned in HH. cbn zeta. by rewrite (place_queue _ _ _ _ _ _ _ _ _ (node_bufs o)) in HH.
Qed.

Lemma match_step_run q s_idx info b m u w :
  get_queue w = q -> queue_ok q m u -> room (que q) -> bi_buf info = Some b -> valid w b ->
  Forall (valid w) (all_bufs (que q)) ->
  does (match_step s_idx info) w (fun _ w' => exists got,
    let e := enqueue_spec (num_streams q) (max_unmatched_frames (attr q)) s_idx info (forallb id got) m u in
    evolves_got w w' (after_enqueue q (bi_frame_idx info) e) (e_returned e) got).
Proof.
  intros Hg Hq Hr Hb Hv Hva. unfold match_step. apply does_q_get. rewrite Hg.
  destruct (at_frame (bi_frame_idx info) u) as [|n l] eqn:Ea.
  { pose proof (not_found_run q s_idx info b m u w Hg Hq Hr Hb Hv Hva Ea) as H.
    replace (found_super_buf _) with (@None nat) by (rewrite (scan_queue _ _ _ _ Hq), Ea; done). exact H. }
  destruct (at_frame_split _ _ _ _ (qo_sorted _ _ _ Hq) Ea) as [Hu Hf].
  rewrite (scan_queue _ _ _ _ Hq), Ea. cbn [found_super_buf last_buf].
  unfold enqueue_spec. rewrite Ea. set (lo := below _ u) in *. set (hi := above _ u) in *. clearbody lo hi. subst u.
  eapply does_mono; [eapply (fill_slot_run q); [done|done|]|].
  - rewrite (qo_que _ _ _ Hq), !all_bufs_app in Hva. apply Forall_app in Hva as [_ Hva].
    by apply Forall_app in Hva as [Hva _].
  - intros [] w' H. exists []. cbn zeta in H. destruct (complete (filled s_idx info n)); [|exact H].
    unfold after_enqueue. cbn [e_matched e_unmatched e_complete e_returned]. rewrite <- app_assoc. simpl.
    rewrite length_app. simpl. rewrite u32_id in H; [by rewrite Nat2Z.inj_add|].
    unfold room in Hr. rewrite (qo_que _ _ _ Hq), length_app in Hr. unfold u32_range. lia.
Qed.

End Enqueue.

(** *** The abstract queue keeps the invariant and every buffer *)

Lemma Forall_filtered {A} (P Q : A -> Prop) `{forall x, Decision (P x)} (l : list A) :
  Forall Q l -> Forall Q (filter P l).
Proof. rewrite !Forall_forall. intros HQ x Hx. apply list_elem_of_filter in Hx as [_ Hx]. auto. Qed.

Lemma sorted_filter (P : mm_channel_queue_node_t -> Prop) `{forall n, Decision (P n)} u :
  StronglySorted older u -> StronglySorted older (filter P u).
Proof.
  induction 1 as [|n u Hs IH Hn]; [constructor|]. rewrite filter_cons. case_decide; [|done].
  constructor; [done|]. by apply Forall_filtered.
Qed.

Lemma sorted_middle f lo x hi : StronglySorted older lo -> StronglySorted older hi ->
  Forall (fun n => n_frame_idx n < f) lo -> Forall (fun n => f < n_frame_idx n) hi -> n_frame_idx x = f ->
  StronglySorted older (lo ++ x :: hi).
Proof.
  intros Hlo Hhi Hl Hh Hx. induction Hlo as [|n lo Hs IH Hn]; simpl.
  - constructor; [done|]. eapply Forall_impl; [exact Hh|]. unfold older. simpl. lia.
  - apply Forall_cons in Hl as [Hl1 Hl]. constructor; [auto|]. apply Forall_app. split; [done|].
    unfold older. apply Forall_cons. split; [lia|]. eapply Forall_impl; [exact Hh|]. simpl. lia.
Qed.


Lemma mk_queue_ok q m u m' u' ef : queue_ok q m u ->
  Forall (fun n => matched n = true) m' -> Forall (fun n => matched n = false) u' ->
  StronglySorted older u' -> Forall (node_ok (num_streams q)) (m' ++ u') -> fits (m' ++ u') ->
  Z.of_nat (length u') <= max_unmatched_frames (attr q) + 1 ->
  queue_ok (mk_queue q (m' ++ u') (Z.of_nat (length m')) ef) m' u'.
Proof. intros Hq H1 H2 H3 H4 H5 H6. by constructor; try done; apply Hq. Qed.

(** The slot of the incoming buffer is free in the super buffer of its frame. *)
Definition slot_free (s_idx : nat) (f : Z) (u : list mm_channel_queue_node_t) : Prop :=
  forall n, n ∈ u -> n_frame_idx n = f -> exists s, super_buf n !! s_idx = Some s /\ bi_buf s = None.

Section Spec.
Context (q : mm_channel_queue_t) (m u : list mm_channel_queue_node_t) (Hq : queue_ok q m u).
Context (s_idx : nat) (info : mm_camera_buf_info_t) (b : buf_ref) (mem : bool).
Context (Hs : (s_idx < Z.to_nat (num_streams q))%nat) (Hf : bi_frame_idx info <> 0).
Context (Hb : bi_buf info = Some b) (Hfree : slot_free s_idx (bi_frame_idx info) u) (Hroom : room (que q)).

Abbreviation f := (bi_frame_idx info).
Abbreviation e := (enqueue_spec (num_streams q) (max_unmatched_frames (attr q)) s_idx info mem m u).

Lemma place_ok m' lo hi ret l mc ef0 : queue_ok (mk_queue q l mc ef0) m' (lo ++ hi) ->
  Forall (fun n => n_frame_idx n < f) lo -> Forall (fun n => f < n_frame_idx n) hi ->
  StronglySorted older lo -> StronglySorted older hi -> room (m' ++ lo ++ hi) ->
  Z.of_nat (length (lo ++ hi)) <= max_unmatched_frames (attr q) -> forall ef,
  let e := place_spec (num_streams q) s_idx info mem m' lo hi ret in
  queue_ok (mk_queue q (e_matched e ++ e_unmatched e) (Z.of_nat (length (e_matched e))) ef) (e_matched e) (e_unmatched e) /\
  all_bufs (e_matched e ++ e_unmatched e) ++ e_returned e ≡ₚ b :: all_bufs (m' ++ lo ++ hi) ++ ret.
Proof.
  intros Hq' Hlo Hhi Slo Shi Hr Hmx ef. pose proof (qo_streams _ _ _ Hq) as Hst.
  pose proof (fresh_ok _ _ _ _ Hst Hs Hf Hb) as Hnew. pose proof (fresh_bufs _ _ _ _ Hst Hs Hb) as Hnb.
  pose proof (qo_nodes _ _ _ Hq') as Hnodes. rewrite (qo_que _ _ _ Hq') in Hnodes.
  apply Forall_app in Hnodes as [Hnm Hnu]. pose proof (qo_u _ _ _ Hq') as Hu. pose proof Hnu as Hnu'.
  apply Forall_app in Hnu' as [Hnlo Hnhi]. apply Forall_app in Hu as [Hulo Huhi].
  pose proof (qo_m _ _ _ Hq') as Hm. unfold room in Hr.
  unfold place_spec. destruct mem; [destruct (Z.eqb_spec (num_streams q) 1) as [E1|E1]|];
    cbn [e_matched e_unmatched e_returned].
  - pose proof (single_stream _ _ _ Hq' E1) as Hnil. apply app_nil in Hnil as [-> ->]. simpl in *.
    split.
    + eapply (mk_queue_ok (mk_queue q l mc ef0)); [exact Hq'| | | | | |]; simpl; try done.
      * apply Forall_app. split; [done|]. apply Forall_singleton. simpl. by apply Z.eqb_eq.
      * rewrite app_nil_r. apply Forall_app. split; [done|]. by apply Forall_singleton.
      * unfold fits. rewrite !length_app in *. simpl in *. lia.
      * lia.
    + rewrite !app_nil_r, all_bufs_app. unfold all_bufs at 2. simpl. rewrite app_nil_r, Hnb.
      rewrite <- app_assoc. simpl. by rewrite <- Permutation_middle.
  - split.
    + eapply (mk_queue_ok (mk_queue q l mc ef0)); [exact Hq'| | | | | |]; try done.
      * apply Forall_app. split; [done|]. apply Forall_cons. split; [by apply Z.eqb_neq|done].
      * by apply (sorted_middle f).
      * apply Forall_app. split; [done|]. apply Forall_app. split; [done|]. by apply Forall_cons.
      * unfold fits. rewrite !length_app in *. simpl in *. lia.
      * rewrite !length_app in *. simpl. lia.
    + rewrite !all_bufs_app. change (all_bufs (?x :: hi)) with (node_bufs x ++ all_bufs hi). rewrite Hnb.
      simpl. rewrite <- !app_assoc. simpl. by rewrite !Permutation_middle.
  - split.
    + eapply (mk_queue_ok (mk_queue q l mc ef0)); [exact Hq'| | | | | |]; try done.
      * by apply Forall_app.
      * apply Hq'.
      * by apply Forall_app.
      * unfold fits. lia.
      * cbn [attr mk_queue]. lia.
    + rewrite Hb. simpl. rewrite app_assoc. by rewrite <- Permutation_cons_append.
Qed.

Lemma below_above_nodes P : Forall P u -> Forall P (below f u) /\ Forall P (above f u).
Proof. intros H. split; by apply Forall_filtered. Qed.

(** The super buffer of the frame is there: it gets the buffer, and when that
    completes it the older ones go. *)
Lemma found_ok n l ef : at_frame f u = n :: l -> let n' := filled s_idx info n in
  let m' := if complete n' then m ++ [n'] else m in
  let u' := if complete n' then above f u else below f u ++ n' :: above f u in
  let ret := if complete n' then all_bufs (below f u) else [] in
  queue_ok (mk_queue q (m' ++ u') (Z.of_nat (length m')) ef) m' u' /\
  all_bufs (m' ++ u') ++ ret ≡ₚ b :: all_bufs (m ++ u).
Proof.
  intros Ea. pose proof (qo_streams _ _ _ Hq) as Hst. pose proof (qo_sorted _ _ _ Hq) as Hsort.
  pose proof (qo_nodes _ _ _ Hq) as Hn. rewrite (qo_que _ _ _ Hq) in Hn, Hroom. apply Forall_app in Hn as [Hnm Hnu].
  pose proof (qo_m _ _ _ Hq) as Hm. pose proof (qo_u _ _ _ Hq) as Hu. pose proof (qo_bound _ _ _ Hq) as Hbd.
  destruct (below_above_nodes _ Hnu) as [Hnlo Hnhi]. destruct (below_above_nodes _ Hu) as [Hulo Huhi].
  pose proof (sorted_filter (fun n => n_frame_idx n < f) u Hsort) as Slo. fold (below f u) in Slo.
  pose proof (sorted_filter (fun n => f < n_frame_idx n) u Hsort) as Shi. fold (above f u) in Shi.
  pose proof (below_Forall f u) as Blo. pose proof (above_Forall f u) as Bhi. unfold room in Hroom.
  destruct (at_frame_split _ _ _ _ Hsort Ea) as [Hu' Hfr].
  assert (Hin : n ∈ u) by (rewrite Hu'; set_solver). destruct (Hfree n Hin Hfr) as (sl & Hsl & Hnone).
  pose proof (proj1 (Forall_forall _ _) Hnu n Hin) as Hnok.
  pose proof (filled_ok _ _ _ _ Hs Hf Hb n sl Hnok Hfr Hsl Hnone) as Hok.
  pose proof (filled_bufs _ _ _ _ Hs Hb n sl (no_num _ _ Hnok) Hsl Hnone) as Hbufs.
  assert (Hlen : length u = (length (below f u) + S (length (above f u)))%nat)
    by (rewrite Hu' at 1; by rewrite length_app).
  assert (Hau : all_bufs u = all_bufs (below f u) ++ node_bufs n ++ all_bufs (above f u))
    by (rewrite Hu' at 1; by rewrite all_bufs_app).
  rewrite length_app in Hroom. cbv zeta.
  change (complete (filled s_idx info n)) with (matched (filled s_idx info n)).
  destruct (matched (filled s_idx info n)) eqn:Ec; cbv iota.
  + split.
    * eapply mk_queue_ok; try done.
      -- apply Forall_app. split; [done|]. by apply Forall_singleton.
      -- repeat apply Forall_app_2; try done. by apply Forall_singleton.
      -- unfold fits. rewrite !length_app. simpl. lia.
      -- lia.
    * rewrite !all_bufs_app, Hau.
      change (all_bufs [filled s_idx info n]) with (node_bufs (filled s_idx info n) ++ []).
      rewrite app_nil_r, Hbufs.
      rewrite <- !app_assoc. simpl. rewrite <- Permutation_middle. apply Permutation_skip, Permutation_app_head.
      rewrite app_assoc. apply Permutation_app_comm.
  + split.
    * eapply mk_queue_ok; try done.
      -- apply Forall_app. split; [done|]. by apply Forall_cons.
      -- by apply (sorted_middle f).
      -- repeat apply Forall_app_2; try done. by apply Forall_cons.
      -- unfold fits. rewrite !length_app. simpl. lia.
      -- rewrite length_app. simpl. lia.
    * rewrite app_nil_r, !all_bufs_app, Hau.
      change (all_bufs (?x :: above f u)) with (node_bufs x ++ all_bufs (above f u)). rewrite Hbufs.
      simpl. by rewrite <- !Permutation_middle.
Qed.

Lemma enqueue_spec_ok ef :
  queue_ok (mk_queue q (e_matched e ++ e_unmatched e) (Z.of_nat (length (e_matched e))) ef)
    (e_matched e) (e_unmatched e) /\
  all_bufs (e_matched e ++ e_unmatched e) ++ e_returned e ≡ₚ b :: all_bufs (m ++ u).
Proof.
  pose proof (fun n l => found_ok n l ef) as Hfound. pose proof (qo_streams _ _ _ Hq) as Hst. pose proof (qo_sorted _ _ _ Hq) as Hsort.
  pose proof (qo_nodes _ _ _ Hq) as Hn. rewrite (qo_que _ _ _ Hq) in Hn, Hroom. apply Forall_app in Hn as [Hnm Hnu].
  pose proof (qo_m _ _ _ Hq) as Hm. pose proof (qo_u _ _ _ Hq) as Hu. pose proof (qo_bound _ _ _ Hq) as Hbd.
  destruct (below_above_nodes _ Hnu) as [Hnlo Hnhi]. destruct (below_above_nodes _ Hu) as [Hulo Huhi].
  pose proof (sorted_filter (fun n => n_frame_idx n < f) u Hsort) as Slo. fold (below f u) in Slo.
  pose proof (sorted_filter (fun n => f < n_frame_idx n) u Hsort) as Shi. fold (above f u) in Shi.
  pose proof (below_Forall f u) as Blo. pose proof (above_Forall f u) as Bhi.
  destruct (sorted_split f u Hsort) as [Hsp _]. unfold room in Hroom.
  unfold enqueue_spec. destruct (at_frame f u) as [|n l] eqn:Ea.
  - simpl in Hsp. destruct (Z.ltb_spec (max_unmatched_frames (attr q)) (Z.of_nat (length u))) as [Hmx|Hmx].
    + destruct (below f u) as [|o lo] eqn:El; cbn [e_matched e_unmatched e_returned].
      * split; [|by rewrite Hb; simpl; rewrite <- Permutation_cons_append].
        eapply mk_queue_ok; try done; [by apply Forall_app|]. unfold fits. lia.
      * apply Forall_cons in Hnlo as [_ Hnlo], Hulo as [_ Hulo], Blo as [_ Blo].
        assert (Hsj : StronglySorted older (lo ++ above f u)).
        { rewrite Hsp in Hsort. by inversion Hsort. }
        assert (Slo' : StronglySorted older lo) by (by inversion Slo).
        assert (Hlen : length u = S (length lo + length (above f u))) by (by rewrite Hsp at 1; rewrite length_app).
        rewrite length_app in Hroom.
        assert (Hq' : queue_ok (mk_queue q (m ++ lo ++ above f u) (Z.of_nat (length m)) 0) m (lo ++ above f u)).
        { eapply mk_queue_ok; try done; [by apply Forall_app|by repeat apply Forall_app_2| |].
          - unfold fits. rewrite !length_app. lia.
          - rewrite length_app. lia. }
        destruct (place_ok m lo (above f u) (node_bufs o) _ _ _ Hq' Blo Bhi Slo' Shi) with (ef := ef) as [HA HB].
        { unfold room. rewrite !length_app. lia. }
        { rewrite length_app. lia. }
        assert (Hau : all_bufs u = node_bufs o ++ all_bufs lo ++ all_bufs (above f u))
          by (rewrite Hsp at 1; rewrite all_bufs_app; change (all_bufs (o :: lo)) with (node_bufs o ++ all_bufs lo);
              by rewrite app_assoc).
        split; [exact HA|]. rewrite HB, !all_bufs_app, Hau. apply Permutation_skip.
        rewrite <- !app_assoc. apply Permutation_app_head. rewrite (app_assoc (all_bufs lo)).
        apply Permutation_app_comm.
    + assert (Hlen : length u = (length (below f u) + length (above f u))%nat) by (by rewrite Hsp at 1; rewrite length_app).
      rewrite length_app in Hroom.
      pose proof (queue_mk _ _ _ Hq) as Hmk. rewrite Hsp in Hmk. pose proof Hq as Hq'. rewrite Hsp in Hq'. rewrite Hmk in Hq'.
      destruct (place_ok m (below f u) (above f u) [] _ _ _ Hq' Blo Bhi Slo Shi) with (ef := ef) as [HA HB].
      { unfold room. rewrite !length_app. lia. }
      { rewrite length_app. lia. }
      split; [exact HA|]. by rewrite HB, app_nil_r, <- Hsp.
  - destruct (Hfound n l eq_refl) as [HA HB]. by destruct (complete (filled s_idx info n)).
Qed.

End Spec.

(** ** Theorems *)

Lemma stream_index_lt q id s_idx : stream_index q id = Some s_idx -> (s_idx < Z.to_nat (num_streams q))%nat.
Proof.
  unfold stream_index. intros H. apply fmap_Some in H as ([i x] & Hf & ->). apply list_find_Some in Hf as [Hl _].
  by apply lookup_take_Some in Hl as [_ ?].
Qed.

(** What an empty or complete super buffer holds. *)
Definition all_slots_of_frame (n : mm_channel_queue_node_t) : Prop :=
  n_frame_idx n <> 0 /\ length (slots n) = Z.to_nat (num_of_bufs n) /\
  Forall (fun s => bi_frame_idx s = n_frame_idx n /\ is_Some (bi_buf s)) (slots n).

Lemma matched_slots ns n : 1 <= ns <= Z.of_nat MAX_STREAM_NUM_IN_BUNDLE -> node_ok ns n -> matched n = true ->
  all_slots_of_frame n.
Proof.
  intros Hns [H1 H2 H3 H4 H5] Hm. rewrite Hm in H4. symmetry in H4. unfold complete in H4.
  assert (Hall : Forall (fun s => bi_frame_idx s = n_frame_idx n /\ n_frame_idx n <> 0 /\ is_Some (bi_buf s)) (slots n)).
  { apply Forall_forall. intros s Hs. pose proof (slots_Forall _ n H3) as Hok.
    apply (proj1 (Forall_forall _ _) Hok) in Hs as Hs'.
    rewrite <- Is_true_true, forallb_True, Forall_forall in H4. specialize (H4 s Hs).
    destruct Hs' as [[Hz _]|?]; [|done]. by rewrite Hz in H4. }
  split; [|split].
  - unfold node_bufs in H5. destruct (slots n) as [|s l] eqn:Es; [done|]. apply Forall_cons in Hall. naive_solver.
  - unfold slots. rewrite length_take. lia.
  - eapply Forall_impl; [exact Hall|]. naive_solver.
Qed.

Section Theorems.
Context {W : Type} `{SL : SuperbufLaws W}.

Lemma flush_run fuel w m u : queue_ok (get_queue w) m u -> Forall (valid w) (all_bufs (m ++ u)) ->
  (length (m ++ u) <= fuel)%nat ->
  does (mm_channel_superbuf_flush fuel) w (fun rc w' => rc = 0 /\ exists q',
    evolves w w' q' (all_bufs (m ++ u)) /\ queue_ok q' [] [] /\ same_settings (get_queue w) q' /\
    expected_frame_id q' = expected_frame_id (get_queue w)).
Proof.
  intros Hq Hv Hf. eapply does_bind; [by apply flush_loop_run|]. intros [] w' H. by apply does_ret.
Qed.

(** A state change that touches neither the queue nor any buffer. *)
Lemma does_quiet {A} (op : M W A) w :
  (exists r w', op w = Some (r, w') /\ get_queue w' = get_queue w /\ returned w' = returned w /\
     (forall b, valid w b -> valid w' b) /\ allocs w' = allocs w) ->
  does op w (fun _ w' => evolves w w' (get_queue w) []).
Proof.
  intros (r & w' & E1 & H1 & H2 & H3 & H4). exists r, w'. split; [done|]. split; [done|]. rewrite app_nil_r.
  split; [done|]. split; [done|]. by rewrite app_nil_r.
Qed.

Lemma led_run v w : does (op_set_needLEDFlash v) w (fun _ w' => evolves w w' (get_queue w) []).
Proof. destruct (law_led v w) as (w' & ?). apply does_quiet. by exists tt, w'. Qed.

(** The metadata either leaves the super buffers alone or empties the queue;
    an error leaves everything alone. *)
Definition metadata_effect (q : mm_channel_queue_t) (m u : list mm_channel_queue_node_t) (rc : Z)
    (q' : mm_channel_queue_t) (ret : list buf_ref) : Prop :=
  same_settings q q' /\
  ((rc = -1 /\ q' = q /\ ret = []) \/
   (rc = 0 /\ ret = [] /\ queue_ok q' m u) \/
   (rc = 0 /\ ret = all_bufs (m ++ u) /\ queue_ok q' [] [])).

Lemma queue_ok_expected q m u v : queue_ok q m u -> queue_ok (set_expected_frame_id v q) m u.
Proof. intros []. by constructor. Qed.

Lemma handle_metadata_run fuel info b w m u :
  queue_ok (get_queue w) m u -> Forall (valid w) (all_bufs (m ++ u)) -> (length (m ++ u) <= fuel)%nat ->
  bi_buf info = Some b -> valid w b ->
  does (mm_channel_handle_metadata fuel info) w (fun rc w' => exists q' ret,
    evolves w w' q' ret /\ metadata_effect (get_queue w) m u rc q' ret).
Proof.
  intros Hq Hv Hf Hb Hvb. unfold mm_channel_handle_metadata.
  eapply does_bind; [apply does_quiet, law_stream_type|]. intros t w1 Hw1.
  assert (Herr : forall w2, evolves w w2 (get_queue w) [] -> does (mret (-1)) w2 (fun rc w' => exists q' ret,
    evolves w w' q' ret /\ metadata_effect (get_queue w) m u rc q' ret)).
  { intros w2 H2. apply does_ret. exists (get_queue w), []. split; [done|]. split; [by repeat split|by left]. }
  assert (Hok : forall w2, evolves w w2 (get_queue w) [] -> does (mret 0) w2 (fun rc w' => exists q' ret,
    evolves w w' q' ret /\ metadata_effect (get_queue w) m u rc q' ret)).
  { intros w2 H2. apply does_ret. exists (get_queue w), []. split; [done|]. split; [by repeat split|by right; left]. }
  destruct t as [[t|]|]; [|by apply Herr|by apply Herr]. case_decide; [|by apply Hok].
  rewrite Hb. apply does_bind with (P := fun x w' => x = b /\ w' = w1); [by exists b, w1|]. intros ? ? [-> ->].
  eapply does_bind; [apply does_quiet, law_metadata; by apply Hw1|]. intros md w2 Hw2.
  assert (H2 : evolves w w2 (get_queue w) []).
  { pose proof (evolves_trans _ _ _ _ _ _ _ Hw1 Hw2) as H2. by rewrite (proj1 Hw1) in H2. }
  clear Hw1 Hw2. destruct md as [md|]; [|by apply Herr].
  destruct (is_prep_snapshot_done_valid md), (is_good_frame_idx_range_valid md); simpl; [by apply Herr| | |by apply Hok].
  - destruct (need_future_frame md).
    + eapply does_bind; [apply does_q_upd|]. intros [] w3 Hw3.
      pose proof (evolves_trans _ _ _ _ _ _ _ H2 Hw3) as H3. rewrite (proj1 H2) in H3.
      eapply does_bind.
      { apply (flush_run fuel w3 m u); [|by eapply valid_mono|done].
        rewrite (proj1 H3). by apply queue_ok_expected. }
      intros rc w4 (_ & q4 & Hw4 & Hq4 & Hs4 & _). eapply does_bind; [apply led_run|]. intros [] w5 Hw5.
      apply does_ret. exists q4, (all_bufs (m ++ u)).
      pose proof (evolves_trans _ _ _ _ _ _ _ H3 (evolves_trans _ _ _ _ _ _ _ Hw4 Hw5)) as H5.
      rewrite (proj1 Hw4), !app_nil_r in H5. split; [exact H5|].
      rewrite (proj1 H3) in Hs4. split; [exact Hs4|]. right; right. split; [done|split; [done|exact Hq4]].
    + eapply does_bind; [apply led_run|]. intros [] w3 Hw3. apply Hok.
      pose proof (evolves_trans _ _ _ _ _ _ _ H2 Hw3) as H3. by rewrite (proj1 H2) in H3.
  - eapply does_bind; [apply does_q_upd|]. intros [] w3 Hw3. apply does_ret.
    pose proof (evolves_trans _ _ _ _ _ _ _ H2 Hw3) as H3. rewrite (proj1 H2) in H3. do 2 eexists.
    split; [exact H3|]. split; [by repeat split|]. right; left. split; [done|]. split; [done|].
    by apply queue_ok_expected.
Qed.

(** A buffer that comes in from stream number [s_idx] of the bundle: the first
    buffer of its stream for its frame. *)
Record incoming (w : W) (m u : list mm_channel_queue_node_t) (s_idx : nat) (info : mm_camera_buf_info_t)
    (b : buf_ref) : Prop := {
  in_queue : queue_ok (get_queue w) m u;
  in_valid : Forall (valid w) (b :: all_bufs (m ++ u));
  in_idx : stream_index (get_queue w) (bi_stream_id info) = Some s_idx;
  in_frame : bi_frame_idx info <> 0;
  in_buf : bi_buf info = Some b;
  in_free : slot_free s_idx (bi_frame_idx info) u;
  in_room : room (m ++ u)
}.

Definition stale (w : W) (info : mm_camera_buf_info_t) : bool :=
  bi_frame_idx info <? expected_frame_id (get_queue w).

Lemma seq_comp_stale w info :
  (mm_channel_util_seq_comp_w_rollover (bi_frame_idx info) (expected_frame_id (get_queue w)) <? 0) = stale w info.
Proof.
  unfold mm_channel_util_seq_comp_w_rollover, stale.
  destruct (Z.ltb_spec (expected_frame_id (get_queue w)) (bi_frame_idx info)),
    (Z.ltb_spec (bi_frame_idx info) (expected_frame_id (get_queue w))); (done || lia).
Qed.

(** The code after the metadata was accepted. *)
Lemma accepted_run fuel info b s_idx w w1 m u :
  stream_index (get_queue w) (bi_stream_id info) = Some s_idx ->
  mm_channel_handle_metadata fuel info w = Some (0, w1) ->
  queue_ok (get_queue w1) m u -> Forall (valid w1) (b :: all_bufs (m ++ u)) -> bi_buf info = Some b ->
  room (m ++ u) ->
  does (mm_channel_superbuf_comp_and_enqueue fuel info) w (fun rc w' => rc = 0 /\
    if stale w1 info then evolves w1 w' (get_queue w1) [b]
    else exists got,
      let e := enqueue_spec (num_streams (get_queue w1)) (max_unmatched_frames (attr (get_queue w1)))
                 s_idx info (forallb id got) m u in
      evolves_got w1 w' (after_enqueue (get_queue w1) (bi_frame_idx info) e) (e_returned e) got).
Proof.
  intros Hi Hmd Hq Hv Hb Hr. apply Forall_cons in Hv as [Hvb Hv].
  unfold mm_channel_superbuf_comp_and_enqueue. apply does_q_get. rewrite Hi.
  apply does_bind with (P := fun rc w' => rc = 0 /\ w' = w1); [by exists 0, w1|]. intros ? ? [-> ->].
  change (0 <? 0) with false. cbv iota. apply does_q_get. rewrite seq_comp_stale.
  destruct (stale w1 info) eqn:Es.
  - rewrite Hb. eapply does_bind; [by apply does_qbuf|]. intros [] w2 H2. by apply does_ret.
  - pose proof (match_step_run (get_queue w1) s_idx info b m u w1 eq_refl Hq) as H.
    rewrite (qo_que _ _ _ Hq) in H. specialize (H Hr Hb Hvb Hv). unfold match_step in H.
    apply does_q_get. destruct H as (x & w2 & H2 & HP). exists 0, w2. split; [|split; [done|exact HP]].
    unfold q_get in H2. rewrite (bind_run _ _ w1 (que (get_queue w1)) w1) in H2 by done.
    erewrite bind_run by exact H2. done.
Qed.

Lemma enqueue_run fuel info b s_idx w m u : incoming w m u s_idx info b -> (length (m ++ u) <= fuel)%nat ->
  exists rc w1, mm_channel_handle_metadata fuel info w = Some (rc, w1) /\
  does (mm_channel_superbuf_comp_and_enqueue fuel info) w (fun rc' w' => rc' = rc /\ exists m' u' ret,
    returned w' = returned w ++ ret /\ queue_ok (get_queue w') m' u' /\
    same_settings (get_queue w) (get_queue w') /\ (forall b, valid w b -> valid w' b) /\
    ((rc = 0 /\ all_bufs (m' ++ u') ++ ret ≡ₚ b :: all_bufs (m ++ u)) \/
     (rc = -1 /\ get_queue w' = get_queue w /\ ret = []))).
Proof.
  intros [Hq Hv Hi Hf Hb Hfree Hroom] Hfuel. pose proof Hv as Hv'. apply Forall_cons in Hv' as [Hvb Hvl].
  destruct (handle_metadata_run fuel info b w m u Hq Hvl Hfuel Hb Hvb) as (rc & w1 & Hmd & q1 & ret1 & Hw1 & Hs1 & Heff).
  pose proof (stream_index_lt _ _ _ Hi) as Hlt. exists rc, w1. split; [exact Hmd|].
  assert (Hacc : forall m1 u1, rc = 0 -> queue_ok q1 m1 u1 -> Forall (valid w1) (b :: all_bufs (m1 ++ u1)) ->
    slot_free s_idx (bi_frame_idx info) u1 -> room (m1 ++ u1) -> all_bufs (m1 ++ u1) ++ ret1 ≡ₚ all_bufs (m ++ u) ->
    does (mm_channel_superbuf_comp_and_enqueue fuel info) w (fun rc' w' => rc' = rc /\ exists m' u' ret,
    returned w' = returned w ++ ret /\ queue_ok (get_queue w') m' u' /\
    same_settings (get_queue w) (get_queue w') /\ (forall b, valid w b -> valid w' b) /\
    ((rc = 0 /\ all_bufs (m' ++ u') ++ ret ≡ₚ b :: all_bufs (m ++ u)) \/
     (rc = -1 /\ get_queue w' = get_queue w /\ ret = [])))).
  { intros m1 u1 -> Hq1 Hv1 Hfree1 Hr1 Hperm. pose proof (proj1 Hw1) as Hg1. rewrite <- Hg1 in Hq1.
    eapply does_mono; [by eapply (accepted_run fuel info b s_idx w w1 m1 u1)|].
    intros rc w' [-> H]. split; [done|]. destruct (stale w1 info).
    - exists m1, u1, (ret1 ++ [b]). pose proof (evolves_trans _ _ _ _ _ _ _ Hw1 H) as (Hg & Hr & Hvm & _). rewrite Hg.
      split; [done|]. split; [done|]. split; [by rewrite Hg1|]. split; [done|]. left. split; [done|].
      rewrite app_assoc, Hperm. by rewrite <- Permutation_cons_append.
    - destruct H as [got H]. cbn zeta in H.
      destruct (enqueue_spec_ok (get_queue w1) m1 u1 Hq1 s_idx info b (forallb id got)) with
        (ef := expected_frame_id (get_queue w')) as [HA HB]; try done.
      { by destruct Hs1 as (Hs1 & _); rewrite Hg1, Hs1. }
      { by rewrite (qo_que _ _ _ Hq1). }
      set (e := enqueue_spec _ _ _ _ _ _ _) in *.
      exists (e_matched e), (e_unmatched e), (ret1 ++ e_returned e).
      pose proof (evolves_got_trans _ _ _ _ _ _ _ _ _ Hw1 H) as (Hg & Hr & Hvm & _).
      split; [done|]. split; [|split; [|split; [done|]]].
      + rewrite Hg in HA |- *. exact HA.
      + rewrite Hg. unfold after_enqueue. rewrite Hg1. eapply settings_trans; [exact Hs1|by repeat split].
      + left. split; [done|]. rewrite (Permutation_app_comm ret1), app_assoc, HB, <- Hperm. done. }
  destruct Heff as [(-> & -> & ->)|[(-> & -> & Hq1)|(-> & -> & Hq1)]].
  - exists (-1), w1. split; [|split; [done|]; exists m, u, []; rewrite (proj1 Hw1); split; [apply Hw1|split; [done|split; [done|split; [apply Hw1|by right]]]]].
    unfold mm_channel_superbuf_comp_and_enqueue, q_get.
    rewrite (bind_run _ _ w (Some s_idx) w) by (unfold gets; by rewrite Hi). cbv iota.
    rewrite (bind_run _ _ _ _ _ Hmd). done.
  - apply (Hacc m u); try done; [by eapply valid_mono|by rewrite app_nil_r].
  - apply (Hacc [] []); try done.
    + apply Forall_cons. split; [|done]. by apply Hw1.
    + intros n Hn. set_solver.
Qed.

(** C3: the super buffer matching gives no buffer back twice and loses none
    that it accepts.  Whatever the allocator answers,
    [mm_channel_superbuf_comp_and_enqueue] ends and the queue invariant holds
    again (complete super buffers first, incomplete ones in frame order and at
    most [max_unmatched_frames + 1] of them, counters right); it reports what
    [mm_channel_handle_metadata] reports.  When that is 0, the buffers in the
    queue together with the ones given back to their streams are exactly the
    ones that were there and the new one.  When the metadata is refused (-1)
    the queue is as it was and nothing is given back, so that the incoming
    buffer is in neither place. *)
Theorem superbuf_enqueue_conserves fuel info b s_idx w m u :
  incoming w m u s_idx info b -> (length (m ++ u) <= fuel)%nat ->
  exists rc w1 w' m' u' ret,
    mm_channel_handle_metadata fuel info w = Some (rc, w1) /\
    mm_channel_superbuf_comp_and_enqueue fuel info w = Some (rc, w') /\
    returned w' = returned w ++ ret /\ queue_ok (get_queue w') m' u' /\
    ((rc = 0 /\ all_bufs (m' ++ u') ++ ret ≡ₚ b :: all_bufs (m ++ u)) \/
     (rc = -1 /\ get_queue w' = get_queue w /\ ret = [])).
Proof.
  intros H Hf. destruct (enqueue_run _ _ _ _ _ _ _ H Hf) as
    (rc & w1 & E1 & rc' & w' & E2 & -> & m' & u' & ret & H1 & H2 & _ & _ & H3).
  by exists rc, w1, w', m', u', ret.
Qed.

(** C4: once its metadata is accepted, a buffer of a frame older than the
    expected one goes straight back to its stream and the queue is untouched;
    for any other buffer the pointer code of the matching implements the
    abstract queue: it completes or fills the super buffer of the frame,
    giving up every older incomplete one on completion, or starts a new super
    buffer at its place in frame order, giving up the oldest incomplete one
    when there are too many.  A new super buffer is started exactly when every
    allocation the code asks for ([got] is what the allocator answered) is
    granted; otherwise the buffer goes back to its stream. *)
Theorem superbuf_enqueue_refines fuel info b s_idx w w1 m u :
  stream_index (get_queue w) (bi_stream_id info) = Some s_idx ->
  mm_channel_handle_metadata fuel info w = Some (0, w1) ->
  queue_ok (get_queue w1) m u -> Forall (valid w1) (b :: all_bufs (m ++ u)) -> bi_buf info = Some b ->
  room (m ++ u) ->
  exists w' got, mm_channel_superbuf_comp_and_enqueue fuel info w = Some (0, w') /\
    allocs w' = allocs w1 ++ got /\
    if stale w1 info then get_queue w' = get_queue w1 /\ returned w' = returned w1 ++ [b]
    else
      let e := enqueue_spec (num_streams (get_queue w1)) (max_unmatched_frames (attr (get_queue w1)))
                 s_idx info (forallb id got) m u in
      get_queue w' = after_enqueue (get_queue w1) (bi_frame_idx info) e /\
      returned w' = returned w1 ++ e_returned e.
Proof.
  intros H1 H2 H3 H4 H5 H6.
  destruct (accepted_run fuel info b s_idx w w1 m u H1 H2 H3 H4 H5 H6) as (rc & w' & E1 & -> & H).
  destruct (stale w1 info); [exists w', []; by destruct H as (? & ? & _ & ?)|].
  destruct H as (got & ? & ? & _ & ?). by exists w', got.
Qed.

(** C29: what [mm_channel_superbuf_dequeue] hands to the application is
    complete: the oldest complete super buffer, every slot of which holds a
    buffer of one and the same frame; nothing comes out, and nothing changes,
    while no super buffer is complete.  The rest of the queue stays as it is. *)
Theorem superbuf_dequeue_complete w m u : queue_ok (get_queue w) m u ->
  exists r w', mm_channel_superbuf_dequeue w = Some (r, w') /\ returned w' = returned w /\
    match m with
    | [] => r = None /\ w' = w
    | n :: m' => r = Some n /\ all_slots_of_frame n /\ queue_ok (get_queue w') m' u
    end.
Proof.
  intros Hq. unfold mm_channel_superbuf_dequeue. destruct m as [|n m].
  - destruct (dequeue_none_run w) as (r & w' & E1 & -> & ->); [|by exists None, w].
    intros n l Hl. pose proof (qo_u _ _ _ Hq) as Hu. rewrite (qo_que _ _ _ Hq) in Hl. simpl in Hl. subst u.
    by apply Forall_cons in Hu as [? _].
  - pose proof (qo_m _ _ _ Hq) as Hm. apply Forall_cons in Hm as [Hm _].
    destruct (dequeue_pop_run true w n (m ++ u)) as (r & w' & E1 & -> & Hg & Hr & _); [apply Hq|done|].
    exists (Some n), w'. split; [done|]. split; [by rewrite Hr, app_nil_r|]. split; [done|]. split.
    + eapply matched_slots; [apply Hq| |done]. eapply queue_node; [done|]. rewrite (qo_que _ _ _ Hq). set_solver.
    + rewrite Hg. by apply pop_matched_ok.
Qed.

Lemma dropped_run (limit : mm_camera_channel_attr_t -> Z) fuel w m u :
  queue_ok (get_queue w) m u -> Forall (valid w) (all_bufs m) -> 0 <= limit (attr (get_queue w)) ->
  (length m <= fuel)%nat ->
  let k := (length m - Z.to_nat (limit (attr (get_queue w))))%nat in
  does (drop_matched fuel (fun q => limit (attr q))) w (fun _ w' =>
    returned w' = returned w ++ all_bufs (take k m) /\ queue_ok (get_queue w') (drop k m) u /\
    match_cnt (get_queue w') <= limit (attr (get_queue w))).
Proof.
  intros Hq Hv Hl Hf k.
  eapply does_mono; [apply (drop_matched_run (fun q => limit (attr q)) fuel w (get_queue w) m u)|]; try done.
  - by intros q' ->.
  - intros [] w' (q' & (Hg & Hr & _) & Hq' & _). split; [done|]. rewrite Hg. split; [done|].
    rewrite (qo_match _ _ _ Hq'), length_drop. lia.
Qed.

(** C34: [mm_channel_superbuf_bufdone_overflow] ends with 0.  In continuous
    mode it does nothing at all, however many super buffers are complete; in
    burst mode at most [water_mark] complete super buffers are left, exactly
    the oldest ones beyond it having been given up, with every buffer back at
    its stream and the incomplete ones untouched. *)
Theorem superbuf_overflow_bound fuel w m u :
  queue_ok (get_queue w) m u -> Forall (valid w) (all_bufs m) ->
  0 <= water_mark (attr (get_queue w)) -> (length m <= fuel)%nat ->
  exists w', mm_channel_superbuf_bufdone_overflow fuel w = Some (0, w') /\
    let k := (length m - Z.to_nat (water_mark (attr (get_queue w))))%nat in
    match notify_mode (attr (get_queue w)) with
    | MM_CAMERA_SUPER_BUF_NOTIFY_CONTINUOUS => w' = w
    | MM_CAMERA_SUPER_BUF_NOTIFY_BURST =>
        returned w' = returned w ++ all_bufs (take k m) /\ queue_ok (get_queue w') (drop k m) u /\
        match_cnt (get_queue w') <= water_mark (attr (get_queue w))
    end.
Proof.
  intros Hq Hv Hl Hf. destruct (dropped_run water_mark fuel w m u Hq Hv Hl Hf) as ([] & w2 & E1 & H).
  unfold mm_channel_superbuf_bufdone_overflow, q_get.
  rewrite (bind_run _ _ w (notify_mode (attr (get_queue w))) w) by done.
  destruct (notify_mode (attr (get_queue w))).
  - exists w2. rewrite decide_False by done. by rewrite (bind_run _ _ _ _ _ E1).
  - exists w. by rewrite decide_True by done.
Qed.

(** Outside continuous mode [mm_channel_superbuf_skip] ends with at most
    [look_back] complete super buffers, the newest ones, and returns the
    buffers of all others. *)
Theorem superbuf_skip_bound fuel w m u :
  queue_ok (get_queue w) m u -> Forall (valid w) (all_bufs m) ->
  notify_mode (attr (get_queue w)) = MM_CAMERA_SUPER_BUF_NOTIFY_BURST ->
  0 <= look_back (attr (get_queue w)) -> (length m <= fuel)%nat ->
  exists w', mm_channel_superbuf_skip fuel w = Some (0, w') /\
    let k := (length m - Z.to_nat (look_back (attr (get_queue w))))%nat in
    returned w' = returned w ++ all_bufs (take k m) /\ queue_ok (get_queue w') (drop k m) u /\
    match_cnt (get_queue w') <= look_back (attr (get_queue w)).
Proof.
  intros Hq Hv Hm Hl Hf. destruct (dropped_run look_back fuel w m u Hq Hv Hl Hf) as ([] & w' & E1 & H).
  exists w'. split; [|done]. unfold mm_channel_superbuf_skip, q_get.
  rewrite (bind_run _ _ w MM_CAMERA_SUPER_BUF_NOTIFY_BURST w) by (unfold gets; by rewrite Hm).
  rewrite decide_False by done. by rewrite (bind_run _ _ _ _ _ E1).
Qed.

(** [mm_channel_superbuf_flush] ends with an empty queue and gives every
    buffer that was in it back, in queue order. *)
Theorem superbuf_flush_returns_all fuel w m u :
  queue_ok (get_queue w) m u -> Forall (valid w) (all_bufs (m ++ u)) -> (length (m ++ u) <= fuel)%nat ->
  exists w', mm_channel_superbuf_flush fuel w = Some (0, w') /\
    returned w' = returned w ++ all_bufs (m ++ u) /\ queue_ok (get_queue w') [] [].
Proof.
  intros Hq Hv Hf. destruct (flush_run fuel w m u Hq Hv Hf) as (rc & w' & E1 & -> & q' & (Hg & Hr & _) & Hq' & _).
  exists w'. split; [done|]. split; [done|]. by rewrite Hg.
Qed.

(** A metadata buffer that claims both a finished snapshot preparation and
    a good frame range is refused, and nobody owns it afterwards: the queue
    does not take it and it is not given back to its stream. *)
Theorem superbuf_refused_metadata_leaks fuel info b s_idx w w1 w2 md :
  stream_index (get_queue w) (bi_stream_id info) = Some s_idx -> bi_buf info = Some b -> valid w b ->
  op_stream_type (bi_stream_id info) w = Some (Some (Some CAM_STREAM_TYPE_METADATA), w1) ->
  op_metadata b w1 = Some (Some md, w2) ->
  is_prep_snapshot_done_valid md = true -> is_good_frame_idx_range_valid md = true ->
  mm_channel_superbuf_comp_and_enqueue fuel info w = Some (-1, w2) /\
  returned w2 = returned w /\ get_queue w2 = get_queue w.
Proof.
  intros Hi Hb Hv Ht Hmd Hp Hg. split.
  - unfold mm_channel_superbuf_comp_and_enqueue, q_get.
    rewrite (bind_run _ _ w (Some s_idx) w) by (unfold gets; by rewrite Hi). cbv iota.
    assert (E1 : mm_channel_handle_metadata fuel info w = Some (-1, w2)).
    { unfold mm_channel_handle_metadata. rewrite (bind_run _ _ _ _ _ Ht). rewrite decide_True by done.
      rewrite Hb, (bind_run _ _ w1 b w1), (bind_run _ _ _ _ _ Hmd), Hp, Hg by done. done. }
    by rewrite (bind_run _ _ _ _ _ E1).
  - destruct (law_stream_type (bi_stream_id info) w) as (r & w1' & E1 & Hq1 & Hr1 & Hv1 & _). rewrite Ht in E1. injection E1 as <- <-.
    destruct (law_metadata b w1 (Hv1 _ Hv)) as (r2 & w2' & E2 & Hq2 & Hr2 & _). rewrite Hmd in E2. injection E2 as <- <-.
    by rewrite Hr2, Hr1, Hq2, Hq1.
Qed.

End Theorems.

(** ** A concrete channel

    A channel of which only the queue, the buffers given back, the contents
    of the metadata buffers and the allocations are kept; [lw_answers] is what
    the allocator will answer, and it grants everything after that. *)

Module LogChannel.

Record world := {
  lw_queue : mm_channel_queue_t;
  lw_returned : list buf_ref;
  lw_allocs : list bool;
  lw_answers : list bool;
  lw_type : Z -> cam_stream_type_t;
  lw_metadata : cam_metadata_info_t
}.

Definition lw_put (q : mm_channel_queue_t) (ret : list buf_ref) (al an : list bool) (w : world) : world :=
  {| lw_queue := q; lw_returned := ret; lw_allocs := al; lw_answers := an; lw_type := lw_type w;
     lw_metadata := lw_metadata w |}.

#[export] Instance ops : SuperbufOps world := {
  get_queue := lw_queue;
  set_queue q w := lw_put q (lw_returned w) (lw_allocs w) (lw_answers w) w;
  op_qbuf b w := Some (0, lw_put (lw_queue w) (lw_returned w ++ [b]) (lw_allocs w) (lw_answers w) w);
  op_malloc w := let r := default true (head (lw_answers w)) in
    Some (r, lw_put (lw_queue w) (lw_returned w) (lw_allocs w ++ [r]) (tail (lw_answers w)) w);
  op_stream_type h w := Some (Some (Some (lw_type w h)), w);
  op_metadata _ w := Some (Some (lw_metadata w), w);
  op_set_needLEDFlash _ w := Some (tt, w)
}.

#[export] Instance laws : SuperbufLaws world.
Proof.
  refine {| returned := lw_returned; valid := fun _ _ => True; allocs := lw_allocs |};
    intros; repeat first [eexists|split]; done.
Defined.

(** Two streams, with handles 1 (preview) and 2 (metadata). *)
Definition info (s f : Z) : mm_camera_buf_info_t :=
  {| bi_stream_id := s; bi_frame_idx := f; bi_buf := Some {| br_stream := s; br_idx := f |} |}.
Definition node (l : list mm_camera_buf_info_t) (b : bool) (f : Z) : mm_channel_queue_node_t :=
  {| num_of_bufs := 2; super_buf := l ++ replicate (MAX_STREAM_NUM_IN_BUNDLE - length l) empty_info;
     matched := b; n_frame_idx := f |}.

Definition m0 : list mm_channel_queue_node_t :=
  [node [info 1 4; info 2 4] true 4; node [info 1 5; info 2 5] true 5].
Definition u0 : list mm_channel_queue_node_t :=
  [node [info 1 6] false 6; node [info 1 8] false 8].

Definition q0 : mm_channel_queue_t :=
  {| que := m0 ++ u0; que_size := 4; num_streams := 2; bundled_streams := [1; 2; 0; 0];
     attr := {| notify_mode := MM_CAMERA_SUPER_BUF_NOTIFY_BURST; water_mark := 1; look_back := 1;
                post_frame_skip := 1; max_unmatched_frames := 1; priority := MM_CAMERA_SUPER_BUF_PRIORITY_NORMAL |};
     expected_frame_id := 6; match_cnt := 2 |}.

Definition w0_mem (answers : list bool) (prep good : bool) : world :=
  {| lw_queue := q0; lw_returned := []; lw_allocs := []; lw_answers := answers;
     lw_type := fun h => if h =? 2 then CAM_STREAM_TYPE_METADATA else CAM_STREAM_TYPE_PREVIEW;
     lw_metadata := {| is_prep_snapshot_done_valid := prep; need_future_frame := false;
                       is_good_frame_idx_range_valid := good; min_frame_idx := 7 |} |}.
Abbreviation w0 := (w0_mem []).

Ltac slots_ok := repeat (apply Forall_cons; split; [first [by left|right; split_and!; [done|done|by eexists]]|]); by apply Forall_nil.

Lemma q0_ok : queue_ok q0 m0 u0.
Proof.
  constructor; try done; try (simpl; lia).
  - by repeat constructor.
  - by repeat constructor.
  - repeat constructor; unfold older; simpl; lia.
  - unfold q0, m0, u0. simpl. repeat (apply Forall_cons; split; [constructor; [done|done|slots_ok|done|done]|]).
    by apply Forall_nil.
Qed.

Lemma incoming0 : incoming (w0 false false) m0 u0 1 (info 2 8) {| br_stream := 2; br_idx := 8 |}.
Proof.
  constructor; try done.
  - apply q0_ok.
  - apply Forall_forall. done.
  - intros n Hn Hf. unfold u0 in Hn. apply elem_of_cons in Hn as [->|Hn]; [done|].
    apply list_elem_of_singleton in Hn as ->. by eexists.
Qed.

(** The second buffer of frame 8 completes it, and frame 6 is given up. *)
Lemma superbuf_enqueue_conserves_witness : exists rc w1 w' m' u' ret,
  mm_channel_handle_metadata 4 (info 2 8) (w0 false false) = Some (rc, w1) /\
  mm_channel_superbuf_comp_and_enqueue 4 (info 2 8) (w0 false false) = Some (rc, w') /\
  returned w' = [] ++ ret /\ queue_ok (get_queue w') m' u' /\
  ((rc = 0 /\ all_bufs (m' ++ u') ++ ret ≡ₚ {| br_stream := 2; br_idx := 8 |} :: all_bufs (m0 ++ u0)) \/
   (rc = -1 /\ get_queue w' = q0 /\ ret = [])).
Proof. exact (superbuf_enqueue_conserves 4 _ _ 1 _ m0 u0 incoming0 (le_n 4)). Defined.

(** The two allocations of a new super buffer for frame 7, granted or not:
    frame 6 is given up for it in both cases, and without memory the buffer
    itself goes back too. *)
Example enqueue_new_granted : exists w', mm_channel_superbuf_comp_and_enqueue 4 (info 1 7) (w0 false false) = Some (0, w') /\
  que (get_queue w') = m0 ++ [node [info 1 7] false 7; node [info 1 8] false 8] /\
  returned w' = [{| br_stream := 1; br_idx := 6 |}] /\ allocs w' = [true; true].
Proof. eexists. split; [vm_compute; reflexivity|]. by repeat split. Qed.
Example enqueue_new_refused : exists w',
  mm_channel_superbuf_comp_and_enqueue 4 (info 1 7) (w0_mem [true; false] false false) = Some (0, w') /\
  que (get_queue w') = m0 ++ [node [info 1 8] false 8] /\
  returned w' = [{| br_stream := 1; br_idx := 6 |}; {| br_stream := 1; br_idx := 7 |}] /\ allocs w' = [true; false].
Proof. eexists. split; [vm_compute; reflexivity|]. by repeat split. Qed.

(** A buffer that starts a new super buffer, with memory and without, and
    one that completes a super buffer. *)
Lemma superbuf_enqueue_refines_witness :
  Forall (fun p : list bool * (nat * mm_camera_buf_info_t) => let '(answers, (s_idx, i)) := p in exists w' got,
    mm_channel_superbuf_comp_and_enqueue 4 i (w0_mem answers false false) = Some (0, w') /\
    allocs w' = [] ++ got /\
    if stale (w0 false false) i then get_queue w' = q0 /\ returned w' = [] ++ option_list (bi_buf i)
    else let e := enqueue_spec 2 1 s_idx i (forallb id got) m0 u0 in
      get_queue w' = after_enqueue q0 (bi_frame_idx i) e /\ returned w' = [] ++ e_returned e)
    [([true; true], (0%nat, info 1 7)); ([true; false], (0%nat, info 1 7)); ([], (1%nat, info 2 8))].
Proof.
  apply Forall_cons; split; [|apply Forall_cons; split; [|apply Forall_cons; split; [|apply Forall_nil_2]]].
  - refine (superbuf_enqueue_refines 4 (info 1 7) _ 0 (w0_mem [true; true] false false) (w0_mem [true; true] false false) m0 u0 _ _ q0_ok _ _ _);
      [reflexivity|vm_compute; reflexivity|by apply Forall_forall|reflexivity|vm_compute; reflexivity].
  - refine (superbuf_enqueue_refines 4 (info 1 7) _ 0 (w0_mem [true; false] false false) (w0_mem [true; false] false false) m0 u0 _ _ q0_ok _ _ _);
      [reflexivity|vm_compute; reflexivity|by apply Forall_forall|reflexivity|vm_compute; reflexivity].
  - refine (superbuf_enqueue_refines 4 (info 2 8) _ 1 (w0 false false) (w0 false false) m0 u0 _ _ q0_ok _ _ _);
      [reflexivity|vm_compute; reflexivity|by apply Forall_forall|reflexivity|vm_compute; reflexivity].
Defined.

Lemma superbuf_dequeue_complete_witness : exists r w',
  mm_channel_superbuf_dequeue (w0 false false) = Some (r, w') /\ returned w' = [] /\
  (r = Some (node [info 1 4; info 2 4] true 4) /\ all_slots_of_frame (node [info 1 4; info 2 4] true 4) /\
   queue_ok (get_queue w') (tail m0) u0).
Proof. exact (superbuf_dequeue_complete (w0 false false) m0 u0 q0_ok). Defined.

Lemma superbuf_overflow_bound_witness : exists w',
  mm_channel_superbuf_bufdone_overflow 2 (w0 false false) = Some (0, w') /\
  returned w' = [] ++ all_bufs (take 1 m0) /\ queue_ok (get_queue w') (drop 1 m0) u0 /\ match_cnt (get_queue w') <= 1.
Proof.
  refine (superbuf_overflow_bound 2 (w0 false false) m0 u0 q0_ok _ _ _);
    [by apply Forall_forall|simpl; lia|simpl; lia].
Defined.

Lemma superbuf_skip_bound_witness : exists w',
  mm_channel_superbuf_skip 2 (w0 false false) = Some (0, w') /\
  returned w' = [] ++ all_bufs (take 1 m0) /\ queue_ok (get_queue w') (drop 1 m0) u0 /\ match_cnt (get_queue w') <= 1.
Proof.
  refine (superbuf_skip_bound 2 (w0 false false) m0 u0 q0_ok _ _ _ _);
    [by apply Forall_forall|reflexivity|simpl; lia|simpl; lia].
Defined.

Lemma superbuf_flush_returns_all_witness : exists w',
  mm_channel_superbuf_flush 4 (w0 false false) = Some (0, w') /\
  returned w' = [] ++ all_bufs (m0 ++ u0) /\ queue_ok (get_queue w') [] [].
Proof.
  refine (superbuf_flush_returns_all 4 (w0 false false) m0 u0 q0_ok _ _); [by apply Forall_forall|simpl; lia].
Defined.

Lemma superbuf_refused_metadata_leaks_witness :
  mm_channel_superbuf_comp_and_enqueue 4 (info 2 8) (w0 true true) = Some (-1, w0 true true) /\
  returned (w0 true true) = returned (w0 true true) /\ get_queue (w0 true true) = get_queue (w0 true true).
Proof.
  by apply (superbuf_refused_metadata_leaks 4 (info 2 8) {| br_stream := 2; br_idx := 8 |} 1 (w0 true true)
    (w0 true true) (w0 true true) (lw_metadata (w0 true true))).
Defined.

End LogChannel.
