(* ===== verification/Channel.v ===== *)
(** * Channels ([mm_camera_channel.c])

    A channel owns up to four streams, one data poll thread and, when the
    application wants super buffers, a command thread that matches the
    streams' buffers (SuperBuf) and a callback thread that hands complete ones
    out.  The state machine of a channel and every operation it performs are
    modelled here; ChannelProps has the theorems. *)

From Stdlib Require Import ZArith Lia.
From stdpp Require Import numbers list.
From S2P Require Import Prelude CamTypes StreamOffset Env Handles Threads Stream SuperBuf.

(** ** Data *)

Inductive mm_channel_state_type_t : Set :=
| MM_CHANNEL_STATE_NOTUSED
| MM_CHANNEL_STATE_STOPPED
| MM_CHANNEL_STATE_ACTIVE
| MM_CHANNEL_STATE_PAUSED.

#[export] Instance channel_state_eq_dec : EqDecision mm_channel_state_type_t.
Proof. solve_decision. Defined.

Record cam_bundle_config_t := { bundle_id : Z; num_of_streams : Z; stream_ids : list Z }.

Record mm_evt_paylod_map_stream_buf_t := {
  mp_stream_id : Z; mp_buf_type : Z; mp_buf_idx : Z; mp_plane_idx : Z; mp_fd : Z; mp_size : Z
}.

Record mm_evt_paylod_unmap_stream_buf_t := {
  up_stream_id : Z; up_buf_type : Z; up_buf_idx : Z; up_plane_idx : Z
}.

(** The events, with their payloads. *)
Inductive mm_channel_evt_type_t : Type :=
| MM_CHANNEL_EVT_ADD_STREAM
| MM_CHANNEL_EVT_DEL_STREAM (s_id : Z)
| MM_CHANNEL_EVT_CONFIG_STREAM (s_id : Z) (config : mm_camera_stream_config_t)
| MM_CHANNEL_EVT_GET_BUNDLE_INFO
| MM_CHANNEL_EVT_START
| MM_CHANNEL_EVT_STOP
| MM_CHANNEL_EVT_PAUSE
| MM_CHANNEL_EVT_RESUME
| MM_CHANNEL_EVT_REQUEST_SUPER_BUF (num_buf_requested : Z)
| MM_CHANNEL_EVT_CANCEL_REQUEST_SUPER_BUF
| MM_CHANNEL_EVT_FLUSH_SUPER_BUF_QUEUE (frame_idx : Z)
| MM_CHANNEL_EVT_CONFIG_NOTIFY_MODE (notify_mode : mm_camera_super_buf_notify_mode_t)
| MM_CHANNEL_EVT_MAP_STREAM_BUF (payload : option mm_evt_paylod_map_stream_buf_t)
| MM_CHANNEL_EVT_UNMAP_STREAM_BUF (payload : option mm_evt_paylod_unmap_stream_buf_t)
| MM_CHANNEL_EVT_SET_STREAM_PARM (s_id : Z) (parms : bool)
| MM_CHANNEL_EVT_GET_STREAM_PARM (s_id : Z) (parms : bool)
| MM_CHANNEL_EVT_DO_STREAM_ACTION (s_id : Z) (actions : bool)
| MM_CHANNEL_EVT_DELETE.

(** What an event leaves behind its out pointer. *)
Inductive evt_out : Type :=
| OutNone
| OutHandle (s_hdl : Z)
| OutBundle (b : cam_bundle_config_t).

Record mm_channel_bundle_t := {
  is_active : bool;
  superbuf_queue : mm_channel_queue_t;
  super_buf_notify_cb : option Z;
  bundle_user_data : Z
}.

Definition set_is_active (v : bool) (x : mm_channel_bundle_t) : mm_channel_bundle_t :=
  {| is_active := v; superbuf_queue := superbuf_queue x; super_buf_notify_cb :=
     super_buf_notify_cb x; bundle_user_data := bundle_user_data x |}.

Definition set_superbuf_queue (v : mm_channel_queue_t) (x : mm_channel_bundle_t) : mm_channel_bundle_t :=
  {| is_active := is_active x; superbuf_queue := v; super_buf_notify_cb :=
     super_buf_notify_cb x; bundle_user_data := bundle_user_data x |}.

Definition set_super_buf_notify_cb (v : option Z) (x : mm_channel_bundle_t) : mm_channel_bundle_t :=
  {| is_active := is_active x; superbuf_queue := superbuf_queue x; super_buf_notify_cb := v;
     bundle_user_data := bundle_user_data x |}.

Definition set_bundle_user_data (v : Z) (x : mm_channel_bundle_t) : mm_channel_bundle_t :=
  {| is_active := is_active x; superbuf_queue := superbuf_queue x; super_buf_notify_cb :=
     super_buf_notify_cb x; bundle_user_data := v |}.

Record mm_channel_t := {
  ch_my_hdl : Z;
  ch_state : mm_channel_state_type_t;
  bundle : mm_channel_bundle_t;
  pending_cnt : Z;
  ch_cmd_thread : option mm_camera_cmd_thread_t;
  ch_cb_thread : option mm_camera_cmd_thread_t;
  poll_thread : mm_camera_poll_thread_t;
  streams : list mm_stream_t;
  startZSlSnapshotCalled : bool;
  needLEDFlash : bool
}.

Definition set_ch_state (v : mm_channel_state_type_t) (x : mm_channel_t) : mm_channel_t :=
  {| ch_my_hdl := ch_my_hdl x; ch_state := v; bundle := bundle x; pending_cnt := pending_cnt
     x; ch_cmd_thread := ch_cmd_thread x; ch_cb_thread := ch_cb_thread x; poll_thread :=
     poll_thread x; streams := streams x; startZSlSnapshotCalled := startZSlSnapshotCalled
     x; needLEDFlash := needLEDFlash x |}.

Definition set_bundle (v : mm_channel_bundle_t) (x : mm_channel_t) : mm_channel_t :=
  {| ch_my_hdl := ch_my_hdl x; ch_state := ch_state x; bundle := v; pending_cnt :=
     pending_cnt x; ch_cmd_thread := ch_cmd_thread x; ch_cb_thread := ch_cb_thread x;
     poll_thread := poll_thread x; streams := streams x; startZSlSnapshotCalled :=
     startZSlSnapshotCalled x; needLEDFlash := needLEDFlash x |}.

Definition set_pending_cnt (v : Z) (x : mm_channel_t) : mm_channel_t :=
  {| ch_my_hdl := ch_my_hdl x; ch_state := ch_state x; bundle := bundle x; pending_cnt := v;
     ch_cmd_thread := ch_cmd_thread x; ch_cb_thread := ch_cb_thread x; poll_thread :=
     poll_thread x; streams := streams x; startZSlSnapshotCalled := startZSlSnapshotCalled
     x; needLEDFlash := needLEDFlash x |}.

Definition set_ch_cmd_thread (v : option mm_camera_cmd_thread_t) (x : mm_channel_t) : mm_channel_t :=
  {| ch_my_hdl := ch_my_hdl x; ch_state := ch_state x; bundle := bundle x; pending_cnt :=
     pending_cnt x; ch_cmd_thread := v; ch_cb_thread := ch_cb_thread x; poll_thread :=
     poll_thread x; streams := streams x; startZSlSnapshotCalled := startZSlSnapshotCalled
     x; needLEDFlash := needLEDFlash x |}.

Definition set_ch_cb_thread (v : option mm_camera_cmd_thread_t) (x : mm_channel_t) : mm_channel_t :=
  {| ch_my_hdl := ch_my_hdl x; ch_state := ch_state x; bundle := bundle x; pending_cnt :=
     pending_cnt x; ch_cmd_thread := ch_cmd_thread x; ch_cb_thread := v; poll_thread :=
     poll_thread x; streams := streams x; startZSlSnapshotCalled := startZSlSnapshotCalled
     x; needLEDFlash := needLEDFlash x |}.

Definition set_poll_thread (v : mm_camera_poll_thread_t) (x : mm_channel_t) : mm_channel_t :=
  {| ch_my_hdl := ch_my_hdl x; ch_state := ch_state x; bundle := bundle x; pending_cnt :=
     pending_cnt x; ch_cmd_thread := ch_cmd_thread x; ch_cb_thread := ch_cb_thread x;
     poll_thread := v; streams := streams x; startZSlSnapshotCalled :=
     startZSlSnapshotCalled x; needLEDFlash := needLEDFlash x |}.

Definition set_streams (v : list mm_stream_t) (x : mm_channel_t) : mm_channel_t :=
  {| ch_my_hdl := ch_my_hdl x; ch_state := ch_state x; bundle := bundle x; pending_cnt :=
     pending_cnt x; ch_cmd_thread := ch_cmd_thread x; ch_cb_thread := ch_cb_thread x;
     poll_thread := poll_thread x; streams := v; startZSlSnapshotCalled :=
     startZSlSnapshotCalled x; needLEDFlash := needLEDFlash x |}.

Definition set_startZSlSnapshotCalled (v : bool) (x : mm_channel_t) : mm_channel_t :=
  {| ch_my_hdl := ch_my_hdl x; ch_state := ch_state x; bundle := bundle x; pending_cnt :=
     pending_cnt x; ch_cmd_thread := ch_cmd_thread x; ch_cb_thread := ch_cb_thread x;
     poll_thread := poll_thread x; streams := streams x; startZSlSnapshotCalled := v;
     needLEDFlash := needLEDFlash x |}.

Definition set_needLEDFlash (v : bool) (x : mm_channel_t) : mm_channel_t :=
  {| ch_my_hdl := ch_my_hdl x; ch_state := ch_state x; bundle := bundle x; pending_cnt :=
     pending_cnt x; ch_cmd_thread := ch_cmd_thread x; ch_cb_thread := ch_cb_thread x;
     poll_thread := poll_thread x; streams := streams x; startZSlSnapshotCalled :=
     startZSlSnapshotCalled x; needLEDFlash := v |}.

(** A channel and what it runs on: the handle and the control descriptor of
    its camera, the global handle counter and the history.  [cw_qbufs] is a
    history variable: the buffers given back with [mm_channel_qbuf]. *)
Record cworld := {
  ch : mm_channel_t;
  cw_cam : Z;
  cw_ctrl_fd : Z;
  cw_count : Z;
  cw_tr : history;
  cw_qbufs : list buf_ref
}.

Definition put_ch (v : mm_channel_t) (x : cworld) : cworld :=
  {| ch := v; cw_cam := cw_cam x; cw_ctrl_fd := cw_ctrl_fd x; cw_count := cw_count x; cw_tr
     := cw_tr x; cw_qbufs := cw_qbufs x |}.

Definition put_cw_count (v : Z) (x : cworld) : cworld :=
  {| ch := ch x; cw_cam := cw_cam x; cw_ctrl_fd := cw_ctrl_fd x; cw_count := v; cw_tr :=
     cw_tr x; cw_qbufs := cw_qbufs x |}.

Definition put_cw_tr (v : history) (x : cworld) : cworld :=
  {| ch := ch x; cw_cam := cw_cam x; cw_ctrl_fd := cw_ctrl_fd x; cw_count := cw_count x;
     cw_tr := v; cw_qbufs := cw_qbufs x |}.

Definition put_cw_qbufs (v : list buf_ref) (x : cworld) : cworld :=
  {| ch := ch x; cw_cam := cw_cam x; cw_ctrl_fd := cw_ctrl_fd x; cw_count := cw_count x;
     cw_tr := cw_tr x; cw_qbufs := v |}.


Definition zero_attr : mm_camera_channel_attr_t :=
  {| notify_mode := MM_CAMERA_SUPER_BUF_NOTIFY_BURST; water_mark := 0; look_back := 0;
     post_frame_skip := 0; max_unmatched_frames := 0; priority := MM_CAMERA_SUPER_BUF_PRIORITY_NORMAL |}.

(** [memset(&my_obj->bundle, 0, sizeof(mm_channel_bundle_t))]. *)
Definition zero_bundle : mm_channel_bundle_t :=
  {| is_active := false;
     superbuf_queue := {| que := []; que_size := 0; num_streams := 0;
                          bundled_streams := replicate MAX_STREAM_NUM_IN_BUNDLE 0; attr := zero_attr;
                          expected_frame_id := 0; match_cnt := 0 |};
     super_buf_notify_cb := None; bundle_user_data := 0 |}.

(** What the camera's server writes into a metadata buffer, if the client
    mapped it, and what an uninitialised local holds. *)
Class ChanEnv := {
  env_metadata : history -> buf_ref -> option cam_metadata_info_t;
  env_uninit : history -> Z
}.

(** ** Access to the state *)

(** The stream with a handle, as its index. *)
Definition mm_channel_util_get_stream_by_handler (l : list mm_stream_t) (handler : Z) : option nat :=
  fst <$> list_find (fun s => state s <> MM_STREAM_STATE_NOTUSED /\ handler = my_hdl s) l.

Section Ops.
Context `{E : Env, CE : ChanEnv}.

Definition cext {A} (m : M history A) : M cworld A := zoom cw_tr put_cw_tr m.
Definition cget {A} (f : mm_channel_t -> A) : M cworld A := gets (fun w => f (ch w)).
Definition cupd (f : mm_channel_t -> mm_channel_t) : M cworld unit := modify (fun w => put_ch (f (ch w)) w).
Definition bundle_upd (f : mm_channel_bundle_t -> mm_channel_bundle_t) : M cworld unit :=
  cupd (fun c => set_bundle (f (bundle c)) c).
Definition cpoll {A} (m : M pworld A) : M cworld A :=
  zoom (fun w => {| pw_poll := poll_thread (ch w); pw_tr := cw_tr w |})
       (fun p w => put_ch (set_poll_thread (pw_poll p) (ch w)) (put_cw_tr (pw_tr p) w)) m.

(** What a stream of the channel runs on. *)
Definition stream_world (s : mm_stream_t) (w : cworld) : sworld :=
  {| w_s := s; w_poll := poll_thread (ch w); w_chq := ch_cmd_thread (ch w); w_cam := cw_cam w;
     w_ch := ch_my_hdl (ch w); w_tr := cw_tr w |}.
Definition put_stream_world (i : nat) (x : sworld) (w : cworld) : cworld :=
  put_cw_tr (w_tr x)
    (put_ch (set_streams (<[i := w_s x]> (streams (ch w)))
            (set_poll_thread (w_poll x) (set_ch_cmd_thread (w_chq x) (ch w)))) w).

Definition stream_at (i : nat) : M cworld mm_stream_t := l ← cget streams; deref (l !! i).

(** Runs a stream operation on stream [i] of the channel. *)
Definition on_stream {A} (i : nat) (m : M sworld A) : M cworld A :=
  s ← stream_at i; zoom (stream_world s) (put_stream_world i) m.
Definition stream_evt (i : nat) (evt : mm_stream_evt_type_t) : M cworld Z := on_stream i (mm_stream_fsm_fn evt).
Definition stream_upd (i : nat) (f : mm_stream_t -> mm_stream_t) : M cworld unit :=
  s ← stream_at i; cupd (fun c => set_streams (<[i := f s]> (streams c)) c).

Definition find_stream (handler : Z) : M cworld (option nat) :=
  cget (fun c => mm_channel_util_get_stream_by_handler (streams c) handler).

(** ** Buffers back to their streams *)

Definition mm_channel_qbuf (buf : mm_camera_buf_def_t) : M cworld Z :=
  i ← find_stream (b_stream_id buf);
  match i with
  | Some i => stream_evt i (MM_STREAM_EVT_QBUF buf)
  | None => mret (-1)
  end.

(** The buffer behind a pointer: an element of the buffer array of the stream
    it came from. *)
Definition buf_of (w : cworld) (b : buf_ref) : option mm_camera_buf_def_t :=
  '(_, s) ← list_find (fun s => my_hdl s = br_stream b) (streams (ch w));
  at_index (buf s) (br_idx b).

Definition qbuf_ref (b : buf_ref) : M cworld Z :=
  w ← get;
  d ← deref (buf_of w b);
  modify (fun w => put_cw_qbufs (cw_qbufs w ++ [b]) w);;
  mm_channel_qbuf d.

(** The channel as the super buffer queue sees it. *)
#[export] Instance channel_superbuf : SuperbufOps cworld := {
  get_queue w := superbuf_queue (bundle (ch w));
  set_queue q w := put_ch (set_bundle (set_superbuf_queue q (bundle (ch w))) (ch w)) w;
  op_qbuf := qbuf_ref;
  op_malloc := cext sys_malloc;
  op_stream_type h := cget (fun c =>
    i ← mm_channel_util_get_stream_by_handler (streams c) h;
    s ← streams c !! i;
    Some (stream_type <$> stream_info s));
  op_metadata b := w ← get; _ ← deref (buf_of w b); mret (env_metadata (cw_tr w) b);
  op_set_needLEDFlash v := cupd (set_needLEDFlash v)
}.

(** ** The command thread: matching *)

Definition ch_cmd_get (w : cworld) : option mm_camera_cmd_thread_t := ch_cmd_thread (ch w).
Definition ch_cmd_set (t : option mm_camera_cmd_thread_t) (w : cworld) : cworld :=
  put_ch (set_ch_cmd_thread t (ch w)) w.
Definition ch_cb_get (w : cworld) : option mm_camera_cmd_thread_t := ch_cb_thread (ch w).
Definition ch_cb_set (t : option mm_camera_cmd_thread_t) (w : cworld) : cworld :=
  put_ch (set_ch_cb_thread t (ch w)) w.

Definition mm_camera_start_zsl_snapshot : M cworld Z :=
  d ← gets cw_ctrl_fd; cext (mm_camera_util_s_ctrl d CAM_PRIV_START_ZSL_SNAPSHOT 0).
(** The value sent along is an uninitialised local. *)
Definition mm_camera_stop_zsl_snapshot : M cworld Z :=
  d ← gets cw_ctrl_fd; v ← gets (fun w => env_uninit (cw_tr w));
  cext (mm_camera_util_s_ctrl d CAM_PRIV_STOP_ZSL_SNAPSHOT v).

(** The loops over the queue take at most one turn per element. *)
Definition que_len : M cworld nat := q_get (fun q => length (que q)).

(** The application's callback; the buffers it hands back while it runs come
    in through [mm_camera_qbuf]. *)
Definition mm_channel_dispatch_super_buf (cmd : mm_camera_cmdcb_t) : M cworld unit :=
  match cmd with
  | MM_CAMERA_CMD_TYPE_SUPER_BUF_DATA_CB sb =>
      b ← cget bundle;
      match super_buf_notify_cb b with
      | Some f =>
          tr ← gets cw_tr;
          cext (note (ECallback f (bundle_user_data b) sb));;
          for_each (env_cb_returns f tr sb) (fun d => mm_channel_qbuf d;; mret tt)
      | None => mret tt
      end
  | _ => mret tt
  end.

(** A complete super buffer that nobody takes. *)
Definition done_unused (n : mm_channel_queue_node_t) : M cworld unit :=
  for_each (slots n) (fun s => qbuf (bi_buf s)).

(** One super buffer to the callback thread; all slots of a complete super
    buffer hold buffers. *)
Definition send_super_buf (n : mm_channel_queue_node_t) : M cworld unit :=
  b ← cget bundle;
  match super_buf_notify_cb b with
  | Some _ =>
      cam ← gets cw_cam;
      h ← cget ch_my_hdl;
      ok ← cmd_post ch_cb_get ch_cb_set (@cext)
             (MM_CAMERA_CMD_TYPE_SUPER_BUF_DATA_CB
                {| sb_camera_handle := cam; sb_ch_id := h; sb_num_bufs := num_of_bufs n;
                   sb_bufs := omap bi_buf (slots n); sb_bReadyForPrepareSnapshot := false |});
      if ok : bool then mret tt else done_unused n
  | None => done_unused n
  end.

(** The loop that hands complete super buffers out. *)
Fixpoint dispatch_loop (fuel : nat) (mode : mm_camera_super_buf_notify_mode_t) : M cworld unit :=
  pend ← cget pending_cnt;
  if (0 <? pend) || bool_decide (mode = MM_CAMERA_SUPER_BUF_NOTIFY_CONTINUOUS) then
    n ← mm_channel_superbuf_dequeue;
    match n with
    | None => mret tt
    | Some n =>
        (if decide (mode = MM_CAMERA_SUPER_BUF_NOTIFY_BURST) then
           cupd (fun c => set_pending_cnt (pending_cnt c -u 1) c);;
           c ← gets ch;
           if (pending_cnt c =? 0) && startZSlSnapshotCalled c then
             mm_camera_stop_zsl_snapshot;; cupd (set_startZSlSnapshotCalled false)
           else mret tt
         else mret tt);;
        send_super_buf n;;
        match fuel with O => stuck | S fuel => dispatch_loop fuel mode end
    end
  else mret tt.

(** The request branch of [mm_channel_process_stream_buf]. *)
Definition process_request (num : Z) : M cworld unit :=
  cupd (set_pending_cnt num);;
  k ← que_len;
  mm_channel_superbuf_skip k;;
  c ← gets ch;
  if (0 <? pending_cnt c) && needLEDFlash c then
    mm_camera_start_zsl_snapshot;;
    cupd (fun c => set_needLEDFlash false (set_startZSlSnapshotCalled true c))
  else if (pending_cnt c =? 0) && startZSlSnapshotCalled c then
    mm_camera_stop_zsl_snapshot;;
    cupd (fun c => set_needLEDFlash false (set_startZSlSnapshotCalled false c))
  else mret tt.

(** After the command itself: overflow, then dispatch. *)
Definition process_tail : M cworld unit :=
  mode ← q_get (fun q => notify_mode (attr q));
  k ← que_len;
  mm_channel_superbuf_bufdone_overflow k;;
  k ← que_len;
  dispatch_loop k mode.

Definition mm_channel_process_stream_buf (cmd : mm_camera_cmdcb_t) : M cworld unit :=
  match cmd with
  | MM_CAMERA_CMD_TYPE_DATA_CB info =>
      k ← que_len; mm_channel_superbuf_comp_and_enqueue k info;; process_tail
  | MM_CAMERA_CMD_TYPE_REQ_DATA_CB num => process_request num;; process_tail
  | MM_CAMERA_CMD_TYPE_CONFIG_NOTIFY mode =>
      q_upd (fun q => set_attr (set_notify_mode mode (attr q)) q);; process_tail
  | MM_CAMERA_CMD_TYPE_FLUSH_QUEUE idx =>
      q_upd (set_expected_frame_id idx);;
      k ← que_len;
      mm_channel_superbuf_flush k;; mret tt
  | _ => process_tail
  end.

(** ** Streams of the channel *)

Definition mm_channel_init (a : option mm_camera_channel_attr_t) (channel_cb : option Z) (userdata : Z) :
  M cworld Z :=
  bundle_upd (set_super_buf_notify_cb channel_cb);;
  bundle_upd (set_bundle_user_data userdata);;
  (match a with
   | Some a => bundle_upd (fun b => set_superbuf_queue (set_attr a (superbuf_queue b)) b)
   | None => mret tt
   end);;
  cpoll (mm_camera_poll_thread_launch MM_CAMERA_POLL_TYPE_DATA);;
  cupd (set_ch_state MM_CHANNEL_STATE_STOPPED);;
  mret 0.

Definition mm_channel_release : M cworld unit :=
  cpoll mm_camera_poll_thread_release;;
  cupd (set_ch_state MM_CHANNEL_STATE_NOTUSED).

(** A stream object as [mm_channel_add_stream] initialises it. *)
Definition new_stream (hdl : Z) : mm_stream_t :=
  {| my_hdl := hdl; server_stream_id := 0; fd := 0; state := MM_STREAM_STATE_INITED; stream_info := None;
     padding_info := padding_info zero_stream; frame_offset := zero_frame; cmd_thread := None;
     buf_cb := buf_cb zero_stream; buf_num := 0; buf := None; buf_status := None; has_ch_obj := true;
     is_bundled := false; mem_vtbl := zero_vtbl |}.

Definition mm_channel_add_stream : M cworld Z :=
  l ← cget streams;
  match list_find (fun s => state s = MM_STREAM_STATE_NOTUSED) l with
  | None => mret 0
  | Some (idx, _) =>
      count ← gets cw_count;
      let '(hdl, count) := mm_camera_util_generate_handler count (Z.of_nat idx) in
      modify (put_cw_count count);;
      stream_upd idx (fun _ => new_stream hdl);;
      rc ← stream_evt idx MM_STREAM_EVT_ACQUIRE;
      if rc =? 0 then s ← stream_at idx; mret (my_hdl s)
      else stream_upd idx (fun _ => zero_stream);; mret 0
  end.

(** The operations that find a stream by its handle. *)
Definition with_stream (s_id : Z) (m : nat -> M cworld Z) : M cworld Z :=
  i ← find_stream s_id;
  match i with Some i => m i | None => mret (-1) end.

Definition mm_channel_del_stream (s_id : Z) : M cworld Z :=
  with_stream s_id (fun i => stream_evt i MM_STREAM_EVT_RELEASE).
Definition mm_channel_config_stream (s_id : Z) (config : mm_camera_stream_config_t) : M cworld Z :=
  with_stream s_id (fun i => stream_evt i (MM_STREAM_EVT_SET_FMT config)).
Definition mm_channel_set_stream_parm (s_id : Z) (parms : bool) : M cworld Z :=
  with_stream s_id (fun i => stream_evt i (MM_STREAM_EVT_SET_PARM parms)).
Definition mm_channel_get_stream_parm (s_id : Z) (parms : bool) : M cworld Z :=
  with_stream s_id (fun i => stream_evt i (MM_STREAM_EVT_GET_PARM parms)).
Definition mm_channel_do_stream_action (s_id : Z) (actions : bool) : M cworld Z :=
  with_stream s_id (fun i => stream_evt i (MM_STREAM_EVT_DO_ACTION actions)).
Definition mm_channel_map_stream_buf (p : mm_evt_paylod_map_stream_buf_t) : M cworld Z :=
  with_stream (mp_stream_id p) (fun i =>
    on_stream i (mm_stream_map_buf (mp_buf_type p) (mp_buf_idx p) (mp_plane_idx p) (mp_fd p) (mp_size p))).
Definition mm_channel_unmap_stream_buf (p : mm_evt_paylod_unmap_stream_buf_t) : M cworld Z :=
  with_stream (up_stream_id p) (fun i =>
    on_stream i (mm_stream_unmap_buf (up_buf_type p) (up_buf_idx p) (up_plane_idx p))).

(** [memset(bundle_info, 0, ...)]. *)
Definition zero_bundle_info : cam_bundle_config_t :=
  {| bundle_id := 0; num_of_streams := 0; stream_ids := replicate MAX_STREAM_NUM_IN_BUNDLE 0 |}.

(** The body of the loop of [mm_channel_get_bundle_info]: the result, or
    nothing when a used stream is not found by its handle. *)
Definition bundle_one (b : cam_bundle_config_t) (i : nat) : M cworld (option cam_bundle_config_t) :=
  s ← stream_at i;
  if 0 <? my_hdl s then
    j ← find_stream (my_hdl s);
    match j with
    | Some j =>
        s ← stream_at j;
        info ← deref (stream_info s);
        mret (Some (if decide (stream_type info = CAM_STREAM_TYPE_METADATA) then b
                    else {| bundle_id := bundle_id b; num_of_streams := u8 (num_of_streams b + 1);
                            stream_ids := <[Z.to_nat (num_of_streams b) := server_stream_id s]> (stream_ids b) |}))
    | None => mret None
    end
  else mret (Some b).

Fixpoint bundle_loop (l : list nat) (b : cam_bundle_config_t) : M cworld (option cam_bundle_config_t) :=
  match l with
  | [] => mret (Some b)
  | i :: l => r ← bundle_one b i; match r with Some b => bundle_loop l b | None => mret None end
  end.

Definition mm_channel_get_bundle_info : M cworld (Z * cam_bundle_config_t) :=
  h ← cget ch_my_hdl;
  r ← bundle_loop (seq 0 MAX_STREAM_NUM_IN_BUNDLE)
        {| bundle_id := h; num_of_streams := 0; stream_ids := replicate MAX_STREAM_NUM_IN_BUNDLE 0 |};
  mret (match r with Some b => (0, b) | None => (-1, zero_bundle_info) end).

(** ** Starting and stopping *)

(** The loop that collects the streams in use, as indices, and the place of
    the metadata stream among them (the last one, 0 without one). *)
Fixpoint collect (is_ : list nat) (l : list nat) (meta : nat) : M cworld (list nat * nat) :=
  match is_ with
  | [] => mret (l, meta)
  | i :: is_ =>
      s ← stream_at i;
      if 0 <? my_hdl s then
        j ← find_stream (my_hdl s);
        match j with
        | Some j =>
            s ← stream_at j;
            info ← deref (stream_info s);
            collect is_ (l ++ [j])
              (if decide (stream_type info = CAM_STREAM_TYPE_METADATA) then length l else meta)
        | None => collect is_ l meta
        end
      else collect is_ l meta
  end.

Definition swap {A} (i j : nat) (l : list A) : list A :=
  match l !! i, l !! j with
  | Some x, Some y => <[j := x]> (<[i := y]> l)
  | _, _ => l
  end.

(** The metadata stream is started first and stopped last. *)
Definition start_order (l : list nat) (meta : nat) : list nat := if (0 <? meta)%nat then swap 0 meta l else l.
Definition stop_order (l : list nat) (meta : nat) : list nat :=
  if Z.of_nat meta <? Z.of_nat (length l) - 1 then swap meta (length l - 1) l else l.

(** The bundle part of [mm_channel_start]. *)
Definition start_bundle (l : list nat) : M cworld unit :=
  mm_channel_superbuf_queue_init;;
  q_upd (fun q => {| que := que q; que_size := que_size q; num_streams := u8 (Z.of_nat (length l));
                     bundled_streams := bundled_streams q; attr := attr q; expected_frame_id := 0;
                     match_cnt := match_cnt q |});;
  for_each (imap (fun k i => (k, i)) l) (fun '(k, i) =>
    stream_upd i (set_is_bundled true);;
    s ← stream_at i;
    q_upd (fun q => {| que := que q; que_size := que_size q; num_streams := num_streams q;
                       bundled_streams := <[k := my_hdl s]> (bundled_streams q); attr := attr q;
                       expected_frame_id := expected_frame_id q; match_cnt := match_cnt q |}));;
  mm_camera_cmd_thread_launch T_channel_cb ch_cb_set (@cext);;
  mm_camera_cmd_thread_launch T_channel_cmd ch_cmd_set (@cext);;
  bundle_upd (set_is_active true).

(** The body of the loop that starts the streams. *)
Definition start_one (i : nat) : M cworld Z :=
  s ← stream_at i;
  if decide (state s = MM_STREAM_STATE_ACTIVE) then mret (-1)
  else
    rc ← stream_evt i MM_STREAM_EVT_GET_BUF;
    if rc =? 0 then
      rc ← stream_evt i MM_STREAM_EVT_REG_BUF;
      if rc =? 0 then stream_evt i MM_STREAM_EVT_START else mret rc
    else mret rc.

(** The loop: its result and the streams it got to, the one it failed on
    included. *)
Fixpoint start_loop (l done : list nat) : M cworld (Z * list nat) :=
  match l with
  | [] => mret (0, done)
  | i :: l =>
      rc ← start_one i;
      if rc =? 0 then start_loop l (done ++ [i]) else mret (rc, done ++ [i])
  end.

(** The error handling for one stream. *)
Definition undo_start (i : nat) : M cworld unit :=
  stream_evt i MM_STREAM_EVT_STOP;;
  stream_evt i MM_STREAM_EVT_UNREG_BUF;;
  stream_evt i MM_STREAM_EVT_PUT_BUF;;
  mret tt.

Definition mm_channel_start : M cworld Z :=
  r ← collect (seq 0 MAX_STREAM_NUM_IN_BUNDLE) [] 0;
  let l := start_order (fst r) (snd r) in
  b ← cget bundle;
  (match super_buf_notify_cb b with Some _ => start_bundle l | None => mret tt end);;
  r ← start_loop l [];
  let '(rc, done) := (r : Z * list nat) in
  if rc =? 0 then mret rc
  else for_each done undo_start;; mret rc.

(** The end of a bundle in [mm_channel_stop]. *)
Definition stop_bundle : M cworld unit :=
  mm_camera_cmd_thread_release T_channel_cmd ch_cmd_get ch_cmd_set (@cext) mm_channel_process_stream_buf;;
  mm_camera_cmd_thread_release T_channel_cb ch_cb_get ch_cb_set (@cext) mm_channel_dispatch_super_buf;;
  mm_channel_superbuf_queue_deinit;;
  bundle_upd (fun _ => zero_bundle).

Definition mm_channel_stop : M cworld Z :=
  r ← collect (seq 0 MAX_STREAM_NUM_IN_BUNDLE) [] 0;
  let l := stop_order (fst r) (snd r) in
  for_each l (fun i => stream_evt i MM_STREAM_EVT_STOP;; stream_evt i MM_STREAM_EVT_UNREG_BUF;; mret tt);;
  b ← cget bundle;
  (if is_active b then stop_bundle else mret tt);;
  for_each l (fun i => stream_evt i MM_STREAM_EVT_PUT_BUF;; mret tt);;
  mret 0.

(** ** Commands to the matching thread *)

Definition post_cmd (node : mm_camera_cmdcb_t) : M cworld Z :=
  ok ← cmd_post ch_cmd_get ch_cmd_set (@cext) node;
  mret (if ok : bool then 0 else -1).

Definition mm_channel_request_super_buf (num_buf_requested : Z) : M cworld Z :=
  post_cmd (MM_CAMERA_CMD_TYPE_REQ_DATA_CB num_buf_requested).
Definition mm_channel_cancel_super_buf_request : M cworld Z := mm_channel_request_super_buf 0.
Definition mm_channel_flush_super_buf_queue (frame_idx : Z) : M cworld Z :=
  post_cmd (MM_CAMERA_CMD_TYPE_FLUSH_QUEUE frame_idx).
Definition mm_channel_config_notify_mode (mode : mm_camera_super_buf_notify_mode_t) : M cworld Z :=
  post_cmd (MM_CAMERA_CMD_TYPE_CONFIG_NOTIFY mode).

(** ** The state machine *)

Definition plain (m : M cworld Z) : M cworld (Z * evt_out) := rc ← m; mret (rc, OutNone).

Definition mm_channel_fsm_fn_notused (evt : mm_channel_evt_type_t) : M cworld (Z * evt_out) :=
  mret (-1, OutNone).

Definition mm_channel_fsm_fn_stopped (evt : mm_channel_evt_type_t) : M cworld (Z * evt_out) :=
  match evt with
  | MM_CHANNEL_EVT_ADD_STREAM => s_hdl ← mm_channel_add_stream; mret (0, OutHandle s_hdl)
  | MM_CHANNEL_EVT_DEL_STREAM s_id => plain (mm_channel_del_stream s_id)
  | MM_CHANNEL_EVT_START =>
      rc ← mm_channel_start;
      (if rc =? 0 then cupd (set_ch_state MM_CHANNEL_STATE_ACTIVE) else mret tt);;
      mret (rc, OutNone)
  | MM_CHANNEL_EVT_CONFIG_STREAM s_id config => plain (mm_channel_config_stream s_id config)
  | MM_CHANNEL_EVT_GET_BUNDLE_INFO =>
      r ← mm_channel_get_bundle_info; mret (fst r, OutBundle (snd r))
  | MM_CHANNEL_EVT_DELETE => mm_channel_release;; mret (0, OutNone)
  | MM_CHANNEL_EVT_SET_STREAM_PARM s_id p => plain (mm_channel_set_stream_parm s_id p)
  | MM_CHANNEL_EVT_GET_STREAM_PARM s_id p => plain (mm_channel_get_stream_parm s_id p)
  | MM_CHANNEL_EVT_DO_STREAM_ACTION s_id a => plain (mm_channel_do_stream_action s_id a)
  | MM_CHANNEL_EVT_MAP_STREAM_BUF p => plain (p ← deref p; mm_channel_map_stream_buf p)
  | MM_CHANNEL_EVT_UNMAP_STREAM_BUF p => plain (p ← deref p; mm_channel_unmap_stream_buf p)
  | _ => mret (0, OutNone)
  end.

Definition mm_channel_fsm_fn_active (evt : mm_channel_evt_type_t) : M cworld (Z * evt_out) :=
  match evt with
  | MM_CHANNEL_EVT_STOP =>
      rc ← mm_channel_stop; cupd (set_ch_state MM_CHANNEL_STATE_STOPPED);; mret (rc, OutNone)
  | MM_CHANNEL_EVT_REQUEST_SUPER_BUF n => plain (mm_channel_request_super_buf n)
  | MM_CHANNEL_EVT_CANCEL_REQUEST_SUPER_BUF => plain mm_channel_cancel_super_buf_request
  | MM_CHANNEL_EVT_FLUSH_SUPER_BUF_QUEUE f => plain (mm_channel_flush_super_buf_queue f)
  | MM_CHANNEL_EVT_CONFIG_NOTIFY_MODE m => plain (mm_channel_config_notify_mode m)
  | MM_CHANNEL_EVT_SET_STREAM_PARM s_id p => plain (mm_channel_set_stream_parm s_id p)
  | MM_CHANNEL_EVT_GET_STREAM_PARM s_id p => plain (mm_channel_get_stream_parm s_id p)
  | MM_CHANNEL_EVT_DO_STREAM_ACTION s_id a => plain (mm_channel_do_stream_action s_id a)
  | MM_CHANNEL_EVT_MAP_STREAM_BUF (Some p) =>
      if mp_buf_type p =? CAM_MAPPING_BUF_TYPE_OFFLINE_INPUT_BUF
      then plain (mm_channel_map_stream_buf p) else mret (0, OutNone)
  | MM_CHANNEL_EVT_UNMAP_STREAM_BUF (Some p) =>
      if up_buf_type p =? CAM_MAPPING_BUF_TYPE_OFFLINE_INPUT_BUF
      then plain (mm_channel_unmap_stream_buf p) else mret (0, OutNone)
  | _ => mret (0, OutNone)
  end.

Definition mm_channel_fsm_fn_paused (evt : mm_channel_evt_type_t) : M cworld (Z * evt_out) :=
  mret (0, OutNone).

Definition mm_channel_fsm_fn (evt : mm_channel_evt_type_t) : M cworld (Z * evt_out) :=
  st ← cget ch_state;
  match st with
  | MM_CHANNEL_STATE_NOTUSED => mm_channel_fsm_fn_notused evt
  | MM_CHANNEL_STATE_STOPPED => mm_channel_fsm_fn_stopped evt
  | MM_CHANNEL_STATE_ACTIVE => mm_channel_fsm_fn_active evt
  | MM_CHANNEL_STATE_PAUSED => mm_channel_fsm_fn_paused evt
  end.

End Ops.
