(* ===== verification/ChannelProps.v ===== *)
(** * Theorems about channels

    The channel provides what the super buffer queue asks of it (the laws of
    SuperBufProps), so the theorems of the queue hold of the real channel; the
    streams of a channel stay well formed under every stream event; starting a
    channel is all or nothing, with the metadata stream first; stopping it
    brings every stream back. *)

From Stdlib Require Import ZArith Lia.
From stdpp Require Import numbers sets list sorting.
From S2P Require Import Prelude CamTypes StreamOffset Env Handles Threads Stream StreamProps.
From S2P Require Import StreamFsm SuperBuf SuperBufProps Channel.

Section Laws.
Context `{E : Env, CE : ChanEnv}.

(** ** A buffer event on one stream *)

(** The streams after some of them lost references or callbacks. *)
Definition stream_frame (s s' : mm_stream_t) : Prop :=
  my_hdl s' = my_hdl s /\ state s' = state s /\ buf s' = buf s /\ stream_info s' = stream_info s /\
  (arrays s -> arrays s').

Lemma stream_frame_refl s : stream_frame s s.
Proof. by repeat split. Qed.

Lemma dframe_stream w w' : dframe w w' -> stream_frame (w_s w) (w_s w') /\ w_poll w' = w_poll w /\ w_chq w' = w_chq w.
Proof. intros (l & ss & tr & -> & _ & _ & Ha). by repeat split. Qed.

(** What a returned buffer changes in the channel. *)
Definition chan_frame (w w' : cworld) : Prop :=
  exists l tr, w' = put_cw_tr tr (put_ch (set_streams l (ch w)) w) /\
    Forall2 stream_frame (streams (ch w)) l.

Lemma chan_frame_refl w : chan_frame w w.
Proof.
  exists (streams (ch w)), (cw_tr w). split; [by destruct w as [[] ? ? ? ? ?]|].
  apply Forall_Forall2_diag, Forall_forall. intros s _. apply stream_frame_refl.
Qed.

Lemma Forall2_insert_refl {A} (R : A -> A -> Prop) (l : list A) i x y :
  (forall z, R z z) -> l !! i = Some x -> R x y -> Forall2 R l (<[i := y]> l).
Proof.
  intros Hr Hl Hxy. rewrite <- (list_insert_id l i x) at 1 by done.
  apply Forall2_insert; [|done]. apply Forall_Forall2_diag, Forall_forall. auto.
Qed.

(** The buffer [b] names a buffer of a stream of the channel. *)
Definition live_ref (w : cworld) (b : buf_ref) : Prop :=
  exists i s d, list_find (fun s => my_hdl s = br_stream b) (streams (ch w)) = Some (i, s) /\
    state s <> MM_STREAM_STATE_NOTUSED /\ arrays s /\
    at_index (buf s) (br_idx b) = Some d /\ b_stream_id d = br_stream b.

Lemma find_frame (P : mm_stream_t -> Prop) `{forall s, Decision (P s)} l l' i s :
  (forall s s', stream_frame s s' -> P s <-> P s') -> Forall2 stream_frame l l' ->
  list_find P l = Some (i, s) -> exists s', list_find P l' = Some (i, s') /\ stream_frame s s'.
Proof.
  intros HP Hl Hf. apply list_find_Some in Hf as (Hi & Hs & Hj).
  destruct (Forall2_lookup_l _ _ _ _ _ Hl Hi) as (s' & Hi' & Hss). exists s'. split; [|done].
  apply list_find_Some. split; [done|]. split; [by apply (HP s s' Hss)|].
  intros j y Hy Hlt Hpy. destruct (Forall2_lookup_r _ _ _ _ _ Hl Hy) as (x & Hx & Hxy).
  eapply Hj; [done|done|]. by apply (HP x y Hxy).
Qed.

Lemma live_frame w w' b : chan_frame w w' -> live_ref w b -> live_ref w' b.
Proof.
  intros (l & tr & -> & Hl) (i & s & d & Hf & Hst & Ha & Hd & Hid). unfold live_ref. simpl.
  edestruct (find_frame (fun s => my_hdl s = br_stream b)) as (s' & Hf' & Hh & Hst' & Hb & _ & Ha'); [|done|done|].
  { by intros ? ? (-> & _). }
  exists i, s', d. rewrite Hst', Hb. auto.
Qed.

Lemma stream_at_run i w s : streams (ch w) !! i = Some s -> stream_at i w = Some (s, w).
Proof. intros H. unfold stream_at, cget. unM. by rewrite H. Qed.

Lemma on_stream_run {A} i (m : M sworld A) w s a x : streams (ch w) !! i = Some s ->
  m (stream_world s w) = Some (a, x) -> on_stream i m w = Some (a, put_stream_world i x w).
Proof.
  intros Hi Hm. unfold on_stream. rewrite (bind_run _ _ _ _ _ (stream_at_run i w s Hi)).
  by apply zoom_run.
Qed.

(** The event that gives a buffer back ends in every state. *)
Lemma qbuf_evt_run d w : state (w_s w) <> MM_STREAM_STATE_NOTUSED -> arrays (w_s w) ->
  0 <= b_buf_idx d < buf_num (w_s w) ->
  exists rc w', mm_stream_fsm_fn (MM_STREAM_EVT_QBUF d) w = Some (rc, w') /\ dframe w w'.
Proof.
  intros Hst Ha Hd. unfold mm_stream_fsm_fn, obj. rewrite (bind_run _ _ w (state (w_s w)) w) by done.
  destruct (state (w_s w)); try done; try (exists 0, w; split; [done|apply dframe_refl]).
  by apply (buf_done_within d (buf_num (w_s w))).
Qed.

Lemma arrays_index w i b : arrays (w_s w) -> at_index (buf (w_s w)) i = Some b ->
  b_buf_idx b = i /\ 0 <= i < buf_num (w_s w).
Proof.
  intros (bs & ss & Hb & _ & Hl & Hn & _ & Hix & _) Hd. rewrite Hb in Hd.
  split; [by eapply indexed_at|]. unfold at_index in Hd. destruct (Z.ltb_spec i 0); [done|]. simpl in Hd.
  apply lookup_lt_Some in Hd. lia.
Qed.

Lemma qbuf_ref_run b w : live_ref w b -> exists rc w',
  qbuf_ref b w = Some (rc, put_cw_qbufs (cw_qbufs w ++ [b]) w') /\ chan_frame w w'.
Proof.
  intros (i & s & d & Hf & Hst & Ha & Hd & Hid). pose proof Hf as Hf0.
  apply list_find_Some in Hf as (Hi & Hs & Hj). unfold qbuf_ref.
  rewrite (bind_run _ _ w w w) by done. unfold buf_of. rewrite Hf0. simpl.
  rewrite Hd, (bind_run _ _ w d w) by done. erewrite bind_run by done.
  set (w1 := put_cw_qbufs _ w). unfold mm_channel_qbuf, find_stream, cget.
  erewrite bind_run by done. cbv beta. change (streams (ch w1)) with (streams (ch w)).
  replace (mm_channel_util_get_stream_by_handler (streams (ch w)) (b_stream_id d)) with (Some i).
  2:{ unfold mm_channel_util_get_stream_by_handler. rewrite Hid.
      rewrite (proj2 (list_find_Some _ _ i s)); [done|]. split; [done|]. split; [done|].
      intros j y Hy Hlt (_ & Hyh). by eapply Hj. }
  destruct (arrays_index (stream_world s w) _ _ Ha Hd) as [Hix Hr].
  destruct (qbuf_evt_run d (stream_world s w)) as (rc & x & Hx & Hdf); [done|done|by rewrite Hix|].
  exists rc, (put_stream_world i x w). split.
  - unfold stream_evt. erewrite on_stream_run; [|exact Hi|exact Hx]. done.
  - destruct (dframe_stream _ _ Hdf) as (Hsf & Hp & Hc). simpl in Hp, Hc.
    exists (<[i := w_s x]> (streams (ch w))), (w_tr x). split.
    + unfold put_stream_world. rewrite Hp, Hc. by destruct w as [[] ? ? ? ? ?].
    + eapply Forall2_insert_refl; [apply stream_frame_refl|exact Hi|exact Hsf].
Qed.

(** What the allocator answered so far, in order. *)
Definition mallocs (tr : history) : list bool :=
  reverse (omap (fun e => match e with EMalloc ok => Some ok | _ => None end) tr).

Lemma mallocs_cons e tr :
  mallocs (e :: tr) = mallocs tr ++ match e with EMalloc ok => [ok] | _ => [] end.
Proof. unfold mallocs. destruct e; simpl; rewrite ?app_nil_r; try done. by rewrite reverse_cons. Qed.

(** Giving a buffer back to the kernel asks for no memory. *)
Lemma keeps_mallocs_ext {A} f (e : A -> ev) :
  (forall a, match e a with EMalloc _ => False | _ => True end) -> keeps (fun w => mallocs (w_tr w)) (sext (ext f e)).
Proof.
  intros He w r w' [= <- <-]. simpl. rewrite mallocs_cons. specialize (He (f (w_tr w))).
  destruct (e _); simpl in *; rewrite ?app_nil_r; done.
Qed.

Lemma keeps_mallocs_buf_done d : keeps (fun w => mallocs (w_tr w)) (mm_stream_buf_done d).
Proof.
  unfold mm_stream_buf_done, mm_stream_qbuf, upd_status, status_at, sys_ioctl, obj, upd.
  keeps_solve; by apply keeps_mallocs_ext.
Qed.

Lemma keeps_mallocs_qbuf_evt d : keeps (fun w => mallocs (w_tr w)) (mm_stream_fsm_fn (MM_STREAM_EVT_QBUF d)).
Proof. unfold mm_stream_fsm_fn, obj. apply keeps_bind; [apply keeps_gets|]. intros []; try apply keeps_ret. apply keeps_mallocs_buf_done. Qed.

Lemma keeps_mallocs_qbuf b : keeps (fun w => mallocs (cw_tr w)) (qbuf_ref b).
Proof.
  unfold qbuf_ref, mm_channel_qbuf, find_stream, stream_evt, on_stream, stream_at, cget. keeps_solve.
  intros w r w' H. unfold zoom in H. destruct (mm_stream_fsm_fn _ _) as [[? sw]|] eqn:Ex; [|done].
  injection H as <- <-. apply (keeps_mallocs_qbuf_evt _ _ _ _ Ex).
Qed.

(** The channel keeps the contract of the super buffer queue. *)
#[export] Instance channel_laws : SuperbufLaws cworld.
Proof.
  refine {| returned := cw_qbufs; valid := live_ref; allocs := fun w => mallocs (cw_tr w) |}; try done.
  - intros b w Hv. destruct (qbuf_ref_run b w Hv) as (rc & w' & Hr & Hf). exists rc. eexists. split; [exact Hr|].
    pose proof (keeps_mallocs_qbuf _ _ _ _ Hr) as Hal.
    pose proof Hf as Hf0. destruct Hf as (l & tr & -> & Hl). split; [done|]. split; [done|]. split; [|exact Hal].
    intros b' Hb'. exact (live_frame _ _ _ Hf0 Hb').
  - intros w. do 2 eexists. split; [reflexivity|]. split; [done|]. split; [done|]. split; [done|].
    simpl. by rewrite mallocs_cons.
  - intros h w. do 2 eexists. split; [reflexivity|]. done.
  - intros b w (i & s & d & Hf & _ & _ & Hd & _). exists (env_metadata (cw_tr w) b), w. split; [|done]. simpl.
    unfold get. unM. unfold buf_of. rewrite Hf. simpl. by rewrite Hd.
  - intros v w. eexists. split; [reflexivity|]. done.
Defined.

End Laws.

(** ** Handing complete super buffers out *)

Section Dispatch.
Context `{E : Env, CE : ChanEnv}.
Context (Hmem : forall tr, env_malloc tr = true).

(** Everything but the super buffer queue. *)
Definition rest (w : cworld) : cworld := set_queue (superbuf_queue zero_bundle) w.

Lemma keeps_rest_dequeue b : keeps rest (mm_channel_superbuf_dequeue_internal b).
Proof. unfold mm_channel_superbuf_dequeue_internal, q_delete, q_shrink, q_upd, q_get. keeps_solve. Qed.

Lemma rest_field {A} (f : mm_channel_t -> A) w w' :
  (forall q c, f (set_bundle (set_superbuf_queue q (bundle c)) c) = f c) -> rest w' = rest w -> f (ch w') = f (ch w).
Proof.
  intros Hf Hr. apply (f_equal (fun w => f (ch w))) in Hr. unfold rest in Hr. simpl in Hr. by rewrite !Hf in Hr.
Qed.

Definition cb_queue (w : cworld) : list mm_camera_cmdcb_t :=
  match ch_cb_thread (ch w) with Some t => cmd_queue t | None => [] end.

(** The super buffer the application gets. *)
Definition sb_of (w : cworld) (n : mm_channel_queue_node_t) : mm_camera_super_buf_t :=
  {| sb_camera_handle := cw_cam w; sb_ch_id := ch_my_hdl (ch w); sb_num_bufs := num_of_bufs n;
     sb_bufs := node_bufs n; sb_bReadyForPrepareSnapshot := false |}.

(** What the dispatch leaves alone. *)
Definition fixed (w : cworld) :=
  (streams (ch w), cw_qbufs w, (cw_cam w, ch_my_hdl (ch w)),
   super_buf_notify_cb (bundle (ch w)), ch_cmd_thread (ch w), poll_thread (ch w)).

Lemma send_super_buf_run n w f t : super_buf_notify_cb (bundle (ch w)) = Some f -> ch_cb_thread (ch w) = Some t ->
  exists w', send_super_buf n w = Some (tt, w') /\ get_queue w' = get_queue w /\ fixed w' = fixed w /\
    pending_cnt (ch w') = pending_cnt (ch w) /\ is_Some (ch_cb_thread (ch w')) /\
    cb_queue w' = cb_queue w ++ [MM_CAMERA_CMD_TYPE_SUPER_BUF_DATA_CB (sb_of w n)].
Proof.
  intros Hf Ht. unfold send_super_buf, cmd_post, cmd_enq, cam_sem_post, cget, cext, ch_cb_get, ch_cb_set, cb_queue, fixed.
  unM. rewrite Hf. unfold sys_malloc, ext. rewrite !Hmem. simpl. rewrite ?Hmem, Ht. simpl.
  eexists. split; [reflexivity|]. simpl. rewrite Hf. by repeat split.
Qed.

(** The bookkeeping of one dispatched super buffer. *)
Definition burst_step (mode : mm_camera_super_buf_notify_mode_t) : M cworld unit :=
  if decide (mode = MM_CAMERA_SUPER_BUF_NOTIFY_BURST) then
    cupd (fun c => set_pending_cnt (pending_cnt c -u 1) c);;
    c ← gets ch;
    if (pending_cnt c =? 0) && startZSlSnapshotCalled c then
      mm_camera_stop_zsl_snapshot;; cupd (set_startZSlSnapshotCalled false)
    else mret tt
  else mret tt.

Lemma burst_step_run mode w : exists w', burst_step mode w = Some (tt, w') /\ get_queue w' = get_queue w /\
  fixed w' = fixed w /\ ch_cb_thread (ch w') = ch_cb_thread (ch w) /\
  pending_cnt (ch w') = (if decide (mode = MM_CAMERA_SUPER_BUF_NOTIFY_BURST)
                         then pending_cnt (ch w) -u 1 else pending_cnt (ch w)).
Proof.
  unfold burst_step, mm_camera_stop_zsl_snapshot, mm_camera_util_s_ctrl, sys_ioctl, cext, cupd, fixed.
  destruct (decide _); [|eexists; split; [reflexivity|]; done]. unM.
  destruct (_ && _); eexists; (split; [reflexivity|]); done.
Qed.

(** How many of the complete super buffers go out. *)
Definition handed_out (mode : mm_camera_super_buf_notify_mode_t) (pend : Z) (m : list mm_channel_queue_node_t) : nat :=
  match mode with
  | MM_CAMERA_SUPER_BUF_NOTIFY_CONTINUOUS => length m
  | MM_CAMERA_SUPER_BUF_NOTIFY_BURST => Z.to_nat pend `min` length m
  end%nat.

Lemma superbuf_dispatch_run mode fuel w m u :
  queue_ok (get_queue w) m u -> (length m <= fuel)%nat -> is_Some (super_buf_notify_cb (bundle (ch w))) ->
  is_Some (ch_cb_thread (ch w)) -> u32_range (pending_cnt (ch w)) ->
  let k := handed_out mode (pending_cnt (ch w)) m in
  exists w', dispatch_loop fuel mode w = Some (tt, w') /\ queue_ok (get_queue w') (drop k m) u /\
    fixed w' = fixed w /\ attr (get_queue w') = attr (get_queue w) /\
    pending_cnt (ch w') = match mode with
                          | MM_CAMERA_SUPER_BUF_NOTIFY_BURST => pending_cnt (ch w) - Z.of_nat k
                          | MM_CAMERA_SUPER_BUF_NOTIFY_CONTINUOUS => pending_cnt (ch w)
                          end /\
    cb_queue w' = cb_queue w ++ map (fun n => MM_CAMERA_CMD_TYPE_SUPER_BUF_DATA_CB (sb_of w n)) (take k m).
Proof.
  revert w m. induction fuel as [|fuel IH]; intros w m Hq Hfuel [f Hf] [t Ht] Hp k.
  all: cbn [dispatch_loop]; unfold cget; erewrite bind_run by done; cbv beta; fold (burst_step mode).
  all: destruct ((0 <? pending_cnt (ch w)) || bool_decide (mode = MM_CAMERA_SUPER_BUF_NOTIFY_CONTINUOUS)) eqn:Ego.
  2,4: apply orb_false_iff in Ego as [Hz Hm]; apply Z.ltb_ge in Hz; apply bool_decide_eq_false in Hm;
    destruct mode; [|done]; subst k; simpl; replace (Z.to_nat (pending_cnt (ch w))) with 0%nat by lia; simpl;
    exists w; rewrite app_nil_r, drop_0, Z.sub_0_r; by split_and!.
  all: destruct m as [|n m].
  1,3: destruct (dequeue_none_run w) as (r & w' & E1 & -> & ->);
    [intros n l Hl; pose proof (qo_u _ _ _ Hq) as Hu; rewrite (qo_que _ _ _ Hq) in Hl; simpl in Hl; subst u;
     by apply Forall_cons in Hu as [? _]|];
    unfold mm_channel_superbuf_dequeue; rewrite (bind_run _ _ _ _ _ E1); exists w; subst k;
    replace (handed_out _ _ []) with 0%nat by (destruct mode; simpl; lia); simpl;
    rewrite app_nil_r, Z.sub_0_r; split_and!; try done; by destruct mode.
  { simpl in Hfuel. lia. }
  pose proof (qo_m _ _ _ Hq) as Hm. apply Forall_cons in Hm as [Hm _].
  destruct (dequeue_pop_run true w n (m ++ u)) as (r & w1 & E1 & -> & Hg1 & Hr1 & _); [apply Hq|done|].
  pose proof (keeps_rest_dequeue true _ _ _ E1) as Hrest.
  unfold mm_channel_superbuf_dequeue. rewrite (bind_run _ _ _ _ _ E1).
  destruct (burst_step_run mode w1) as (w2 & E2 & Hg2 & Hf2 & Hc2 & Hp2). rewrite (bind_run _ _ _ _ _ E2).
  assert (Hf1 : fixed w1 = fixed w) by (change (fixed (rest w1) = fixed (rest w)); by rewrite Hrest).
  assert (Hc1 : ch_cb_thread (ch w1) = ch_cb_thread (ch w))
    by (change (ch_cb_thread (ch (rest w1)) = ch_cb_thread (ch (rest w))); by rewrite Hrest).
  assert (Hp1 : pending_cnt (ch w1) = pending_cnt (ch w))
    by (change (pending_cnt (ch (rest w1)) = pending_cnt (ch (rest w))); by rewrite Hrest).
  clear Hrest E1 E2. rewrite Hf1 in Hf2. rewrite Hc1 in Hc2. rewrite Hp1 in Hp2. rewrite Hg1 in Hg2.
  unfold fixed in Hf2. injection Hf2 as Hs2 Hq2 Hcam2 Hh2 Hn2 Hcmd2 Hpoll2.
  destruct (send_super_buf_run n w2 f t) as (w3 & E3 & Hg3 & Hf3 & Hp3 & Hc3 & Hcb3); [congruence|congruence|].
  rewrite (bind_run _ _ _ _ _ E3). rewrite Hp2 in Hp3. rewrite Hg2 in Hg3. unfold fixed in Hf3.
  injection Hf3 as Hs3 Hq3 Hcam3 Hh3 Hn3 Hcmd3 Hpoll3.
  assert (Hpos : mode = MM_CAMERA_SUPER_BUF_NOTIFY_BURST -> 0 < pending_cnt (ch w)).
  { intros ->. apply orb_true_iff in Ego as [Hz|Hz]; [by apply Z.ltb_lt in Hz|]. by apply bool_decide_eq_true in Hz. }
  unfold u32_range in Hp. simpl in Hfuel.
  destruct (IH w3 m) as (w4 & E4 & Hq4 & Hf4 & Ha4 & Hp4 & Hcb4).
  - rewrite Hg3. by apply pop_matched_ok.
  - lia.
  - by rewrite Hn3, Hn2, Hf.
  - done.
  - rewrite Hp3. destruct (decide _); [|done]. apply u32_bound.
  - exists w4. rewrite E4. split; [done|].
    assert (Hk : k = S (handed_out mode (pending_cnt (ch w3)) m)).
    { subst k. rewrite Hp3. destruct mode; simpl; [|done]. specialize (Hpos eq_refl).
      rewrite u32_id by (unfold u32_range; lia). lia. }
    rewrite Hk. clear Hk k. split_and!.
    + done.
    + rewrite Hf4. unfold fixed. congruence.
    + rewrite Ha4, Hg3. done.
    + rewrite Hp4, Hp3. destruct mode; simpl; [|done]. specialize (Hpos eq_refl).
      rewrite u32_id by (unfold u32_range; lia). lia.
    + rewrite Hcb4, Hcb3. replace (cb_queue w2) with (cb_queue w) by (unfold cb_queue; by rewrite Hc2).
      rewrite <- app_assoc. simpl.
      unfold sb_of. rewrite Hcam3, Hh3, Hcam2, Hh2. done.
Qed.

(** ** One buffer through the matching thread *)

(** What the queue operations leave alone in the channel. *)
Definition outside (w : cworld) :=
  (pending_cnt (ch w), ch_cb_thread (ch w), super_buf_notify_cb (bundle (ch w)), cw_cam w, ch_my_hdl (ch w)).

Lemma keeps_outside_q_upd f : keeps outside (q_upd (W := cworld) f).
Proof. apply keeps_modify. done. Qed.
Lemma keeps_outside_q_get {A} (f : mm_channel_queue_t -> A) : keeps outside (q_get (W := cworld) f).
Proof. apply keeps_gets. Qed.
Lemma keeps_outside_qbuf b : keeps outside (qbuf (W := cworld) b).
Proof.
  unfold qbuf. simpl. unfold qbuf_ref, mm_channel_qbuf, find_stream, stream_evt, on_stream, stream_at, cget.
  keeps_solve.
Qed.
Lemma keeps_outside_type h : keeps outside (op_stream_type (W := cworld) h).
Proof. apply keeps_gets. Qed.
Lemma keeps_outside_metadata b : keeps outside (op_metadata (W := cworld) b).
Proof. simpl. keeps_solve. Qed.
Lemma keeps_outside_led b : keeps outside (op_set_needLEDFlash (W := cworld) b).
Proof. apply keeps_modify. done. Qed.
Lemma keeps_outside_malloc : keeps outside (op_malloc (W := cworld)).
Proof. apply keeps_zoom. done. Qed.
#[local] Hint Resolve keeps_outside_q_upd keeps_outside_q_get keeps_outside_qbuf keeps_outside_type
  keeps_outside_metadata keeps_outside_led keeps_outside_malloc : keeps.

Lemma keeps_outside_dequeue b : keeps outside (mm_channel_superbuf_dequeue_internal b).
Proof. unfold mm_channel_superbuf_dequeue_internal, q_delete, q_shrink. keeps_solve. Qed.
Lemma keeps_outside_release_buf n : keeps outside (release_by_buf (W := cworld) n).
Proof. unfold release_by_buf. keeps_solve. Qed.
Lemma keeps_outside_drop_at i : keeps outside (drop_at (W := cworld) i).
Proof. unfold drop_at, release_by_index, q_shrink, q_delete. keeps_solve. Qed.
#[local] Hint Resolve keeps_outside_dequeue keeps_outside_release_buf keeps_outside_drop_at : keeps.

Lemma keeps_outside_drop_matched fuel limit : keeps outside (drop_matched (W := cworld) fuel limit).
Proof. induction fuel; cbn [drop_matched]; keeps_solve. Qed.
Lemma keeps_outside_flush fuel : keeps outside (flush_loop (W := cworld) fuel).
Proof. induction fuel; cbn [flush_loop]; keeps_solve. Qed.
Lemma keeps_outside_drop_older k i : keeps outside (drop_older (W := cworld) k i).
Proof. induction k; cbn [drop_older]; keeps_solve. Qed.
#[local] Hint Resolve keeps_outside_drop_matched keeps_outside_flush keeps_outside_drop_older : keeps.

Lemma keeps_outside_enqueue fuel info : keeps outside (mm_channel_superbuf_comp_and_enqueue (W := cworld) fuel info).
Proof.
  unfold mm_channel_superbuf_comp_and_enqueue, mm_channel_handle_metadata, mm_channel_superbuf_flush, fill_slot,
    not_found, insert_new, count_match. keeps_solve.
Qed.

(** The overflow check in both modes. *)
Lemma overflow_run fuel w m u :
  queue_ok (get_queue w) m u -> Forall (valid w) (all_bufs m) -> 0 <= water_mark (attr (get_queue w)) ->
  (length m <= fuel)%nat ->
  exists w' k, mm_channel_superbuf_bufdone_overflow fuel w = Some (0, w') /\ outside w' = outside w /\
    returned w' = returned w ++ all_bufs (take k m) /\ queue_ok (get_queue w') (drop k m) u /\
    (notify_mode (attr (get_queue w)) = MM_CAMERA_SUPER_BUF_NOTIFY_BURST ->
     Z.of_nat (length (drop k m)) <= water_mark (attr (get_queue w))).
Proof.
  intros Hq Hv Hw Hf. unfold mm_channel_superbuf_bufdone_overflow, q_get.
  rewrite (bind_run _ _ w (notify_mode (attr (get_queue w))) w) by done.
  destruct (decide (notify_mode (attr (get_queue w)) = MM_CAMERA_SUPER_BUF_NOTIFY_CONTINUOUS)) as [->|Hm].
  - exists w, 0%nat. split; [done|]. split; [done|]. split; [by rewrite app_nil_r|]. split; [by rewrite drop_0|done].
  - destruct (dropped_run water_mark fuel w m u Hq Hv Hw Hf) as ([] & w' & E1 & H1 & H2 & H3).
    eexists w', _. rewrite (bind_run _ _ _ _ _ E1). split; [done|].
    split; [by apply (keeps_outside_drop_matched _ _ _ _ _ E1)|]. split; [exact H1|]. split; [exact H2|].
    intros _. by rewrite <- (qo_match _ _ _ H2).
Qed.

(** C1: one captured buffer handled by the matching thread of a channel with a
    super buffer callback, when the allocations succeed: the handler ends, the
    queue is well formed, and every buffer that was in the queue is in exactly
    one place afterwards: still in the queue, given back to its stream, or
    inside a super buffer queued for the callback thread.  So is the captured
    buffer, unless [mm_channel_handle_metadata] refuses it: then it is in none
    of the three, the one case in which a buffer is lost.  Every super buffer
    sent out is complete and of a single frame, in continuous mode no complete
    one is kept, and in burst mode at most [water_mark] are kept. *)
Theorem process_stream_buf_conserves info b s_idx w m u
  (Hin : incoming w m u s_idx info b) (Hwm : 0 <= water_mark (attr (get_queue w)))
  (Hcb : is_Some (super_buf_notify_cb (bundle (ch w)))) (Hth : is_Some (ch_cb_thread (ch w)))
  (Hp : u32_range (pending_cnt (ch w))) :
  exists rc w1 w' m' u' ret sent,
    mm_channel_handle_metadata (length (m ++ u)) info w = Some (rc, w1) /\ (rc = 0 \/ rc = -1) /\
    mm_channel_process_stream_buf (MM_CAMERA_CMD_TYPE_DATA_CB info) w = Some (tt, w') /\
    queue_ok (get_queue w') m' u' /\ returned w' = returned w ++ ret /\
    cb_queue w' = cb_queue w ++ map (fun n => MM_CAMERA_CMD_TYPE_SUPER_BUF_DATA_CB (sb_of w n)) sent /\
    Forall all_slots_of_frame sent /\
    all_bufs (m' ++ u') ++ ret ++ all_bufs sent ≡ₚ (if rc =? 0 then [b] else []) ++ all_bufs (m ++ u) /\
    match notify_mode (attr (get_queue w)) with
    | MM_CAMERA_SUPER_BUF_NOTIFY_CONTINUOUS => m' = []
    | MM_CAMERA_SUPER_BUF_NOTIFY_BURST => Z.of_nat (length m') <= water_mark (attr (get_queue w))
    end.
Proof.
  unfold mm_channel_process_stream_buf, que_len, q_get. pose proof (in_queue _ _ _ _ _ _ Hin) as Hq.
  rewrite (bind_run _ _ w (length (m ++ u)) w) by (unfold gets; by rewrite (qo_que _ _ _ Hq)).
  destruct (enqueue_run (length (m ++ u)) _ _ _ _ _ _ Hin (le_n _)) as
    (rc & wm & Em & rc' & w1 & E1 & -> & m1 & u1 & ret1 & Hr1 & Hq1 & Hs1 & Hv1 & Hc1).
  rewrite (bind_run _ _ _ _ _ E1). pose proof (keeps_outside_enqueue _ _ _ _ _ E1) as Ho1.
  destruct Hs1 as (_ & _ & Ha1).
  assert (Hbufs : all_bufs (m1 ++ u1) ++ ret1 ≡ₚ (if rc =? 0 then [b] else []) ++ all_bufs (m ++ u)).
  { destruct Hc1 as [[-> H]|(-> & H & ->)]; [exact H|]. simpl. rewrite app_nil_r.
    rewrite <- (qo_que _ _ _ Hq1), H, (qo_que _ _ _ Hq). done. }
  assert (Hval : Forall (valid w1) (all_bufs m1)).
  { apply Forall_forall. intros x Hx. apply Hv1.
    apply (proj1 (Forall_forall _ _) (in_valid _ _ _ _ _ _ Hin)).
    assert (x ∈ all_bufs (m1 ++ u1) ++ ret1) as Hx1 by (rewrite all_bufs_app; set_solver).
    rewrite Hbufs in Hx1. destruct (rc =? 0); set_solver. }
  unfold process_tail, q_get. erewrite bind_run by done. rewrite Ha1.
  unfold que_len, q_get. rewrite (bind_run _ _ w1 (length (m1 ++ u1)) w1) by (unfold gets; by rewrite (qo_que _ _ _ Hq1)).
  destruct (overflow_run (length (m1 ++ u1)) w1 m1 u1) as (w2 & k & E2 & Ho2 & Hr2 & Hq2 & Hb2);
    [done|done|by rewrite Ha1|rewrite length_app; lia|].
  rewrite (bind_run _ _ _ _ _ E2). rewrite Ha1 in Hb2. rewrite Ho1 in Ho2. unfold outside in Ho2.
  injection Ho2 as Hp2 Ht2 Hn2 Hc2 Hh2.
  rewrite (bind_run _ _ w2 (length (drop k m1 ++ u1)) w2) by (unfold gets; by rewrite (qo_que _ _ _ Hq2)).
  set (mode := notify_mode (attr (get_queue w))) in *.
  destruct (superbuf_dispatch_run mode (length (drop k m1 ++ u1)) w2 (drop k m1) u1) as (w3 & E3 & Hq3 & Hf3 & _ & _ & Hcb3);
    [done|rewrite length_app; lia|by rewrite Hn2|by rewrite Ht2|by rewrite Hp2|].
  set (j := handed_out mode (pending_cnt (ch w2)) (drop k m1)) in *.
  unfold fixed in Hf3. injection Hf3 as _ Hret3 _ _ _ _ _.
  exists rc, wm, w3, (drop j (drop k m1)), u1, (ret1 ++ all_bufs (take k m1)), (take j (drop k m1)).
  rewrite E3, Em. split; [done|]. split; [by destruct Hc1 as [[-> _]|[-> _]]; [left|right]|]. split; [done|].
  split; [done|]. split; [|split; [|split; [|split]]].
  - change (returned w3 = returned w2) in Hret3. by rewrite Hret3, Hr2, Hr1, app_assoc.
  - rewrite Hcb3. unfold cb_queue, sb_of. by rewrite Ht2, Hc2, Hh2.
  - apply Forall_take. pose proof (qo_m _ _ _ Hq2) as Hm2. apply Forall_forall. intros n Hn.
    eapply matched_slots; [apply Hq2| |by apply (proj1 (Forall_forall _ _) Hm2)].
    eapply queue_node; [done|]. rewrite (qo_que _ _ _ Hq2). set_solver.
  - rewrite <- Hbufs. rewrite <- (take_drop k m1) at 4. rewrite <- (take_drop j (drop k m1)) at 3.
    rewrite !all_bufs_app. solve_Permutation.
  - unfold j, handed_out. destruct mode.
    + rewrite length_drop. specialize (Hb2 eq_refl). lia.
    + by rewrite drop_all.
Qed.

(** ** Requests and flushes *)

Lemma keeps_outside_skip fuel : keeps outside (mm_channel_superbuf_skip (W := cworld) fuel).
Proof. unfold mm_channel_superbuf_skip. keeps_solve. Qed.

(** The oldest complete super buffers go until at most [lim] are left. *)
Definition newest (lim : Z) (m : list mm_channel_queue_node_t) : list mm_channel_queue_node_t :=
  drop (length m - Z.to_nat lim) m.
Definition oldest (lim : Z) (m : list mm_channel_queue_node_t) : list mm_channel_queue_node_t :=
  take (length m - Z.to_nat lim) m.

Lemma burst_drop_run (limit : mm_camera_channel_attr_t -> Z) fuel w m u :
  queue_ok (get_queue w) m u -> Forall (valid w) (all_bufs m) ->
  notify_mode (attr (get_queue w)) = MM_CAMERA_SUPER_BUF_NOTIFY_BURST ->
  0 <= limit (attr (get_queue w)) -> (length m <= fuel)%nat ->
  let lim := limit (attr (get_queue w)) in
  exists w', (mode ← q_get (fun q => notify_mode (attr q));
     if decide (mode = MM_CAMERA_SUPER_BUF_NOTIFY_CONTINUOUS) then mret 0
     else drop_matched fuel (fun q => limit (attr q));; mret 0) w = Some (0, w') /\
    returned w' = returned w ++ all_bufs (oldest lim m) /\ queue_ok (get_queue w') (newest lim m) u /\
    attr (get_queue w') = attr (get_queue w) /\ outside w' = outside w /\ (forall b, valid w b -> valid w' b).
Proof.
  intros Hq Hv Hm Hl Hf lim.
  destruct (drop_matched_run (fun q => limit (attr q)) fuel w (get_queue w) m u) as
    ([] & w' & E1 & q' & (Hg & Hr & Hvm & _) & Hq' & (_ & _ & Ha) & _); try done; [by intros q' ->|].
  exists w'. unfold q_get. rewrite (bind_run _ _ w MM_CAMERA_SUPER_BUF_NOTIFY_BURST w) by (unfold gets; by rewrite Hm).
  rewrite decide_False by done. rewrite (bind_run _ _ _ _ _ E1), Hg. split_and!; try done.
  by apply (keeps_outside_drop_matched _ _ _ _ _ E1).
Qed.

(** The LED part of a request changes neither the queue nor any buffer. *)
Definition zsl_step : M cworld unit :=
  c ← gets ch;
  if (0 <? pending_cnt c) && needLEDFlash c then
    mm_camera_start_zsl_snapshot;;
    cupd (fun c => set_needLEDFlash false (set_startZSlSnapshotCalled true c))
  else if (pending_cnt c =? 0) && startZSlSnapshotCalled c then
    mm_camera_stop_zsl_snapshot;;
    cupd (fun c => set_needLEDFlash false (set_startZSlSnapshotCalled false c))
  else mret tt.

Lemma zsl_step_run w : exists w', zsl_step w = Some (tt, w') /\ get_queue w' = get_queue w /\
  returned w' = returned w /\ outside w' = outside w /\ (forall b, valid w b -> valid w' b).
Proof.
  unfold zsl_step, mm_camera_start_zsl_snapshot, mm_camera_stop_zsl_snapshot, mm_camera_util_s_ctrl, sys_ioctl, cext, cupd.
  unM. destruct (_ && _); [|destruct (_ && _)]; eexists; (split; [reflexivity|]); done.
Qed.

(** C30: a request for [num] super buffers in burst mode: complete super buffers
    beyond the look-back and the water mark are given back, oldest first, the
    oldest of the rest are sent to the callback thread in order until [num]
    are sent or none is left, and the pending count is what is still owed;
    the incomplete ones stay. *)
Theorem process_request_serves num w m u
  (Hq : queue_ok (get_queue w) m u) (Hv : Forall (valid w) (all_bufs m))
  (Hm : notify_mode (attr (get_queue w)) = MM_CAMERA_SUPER_BUF_NOTIFY_BURST)
  (Hlb : 0 <= look_back (attr (get_queue w))) (Hwm : 0 <= water_mark (attr (get_queue w)))
  (Hcb : is_Some (super_buf_notify_cb (bundle (ch w)))) (Hth : is_Some (ch_cb_thread (ch w)))
  (Hn : u32_range num) :
  let kept := newest (look_back (attr (get_queue w))) m in
  let left := newest (water_mark (attr (get_queue w))) kept in
  let k := (Z.to_nat num `min` length left)%nat in
  exists w', mm_channel_process_stream_buf (MM_CAMERA_CMD_TYPE_REQ_DATA_CB num) w = Some (tt, w') /\
    returned w' = returned w ++ all_bufs (oldest (look_back (attr (get_queue w))) m)
                             ++ all_bufs (oldest (water_mark (attr (get_queue w))) kept) /\
    cb_queue w' = cb_queue w ++ map (fun n => MM_CAMERA_CMD_TYPE_SUPER_BUF_DATA_CB (sb_of w n)) (take k left) /\
    queue_ok (get_queue w') (drop k left) u /\
    pending_cnt (ch w') = num - Z.of_nat k.
Proof.
  intros kept left k. unfold mm_channel_process_stream_buf, process_request. fold zsl_step.
  set (w1 := put_ch (set_pending_cnt num (ch w)) w).
  destruct (burst_drop_run look_back (length (que (get_queue w1))) w1 m u) as (w2 & E2 & Hr2 & Hq2 & Ha2 & Ho2 & Hv2);
    [done|done|done|done|change (get_queue w1) with (get_queue w); rewrite (qo_que _ _ _ Hq), length_app; lia|].
  change (get_queue w1) with (get_queue w) in Hr2, Hq2, Ha2. fold kept in Hq2.
  destruct (zsl_step_run w2) as (w3 & E3 & Hg3 & Hr3 & Ho3 & Hv3).
  erewrite bind_run.
  2:{ rewrite (bind_run _ _ w tt w1) by done. unfold que_len, q_get. erewrite bind_run by done.
      unfold mm_channel_superbuf_skip. rewrite (bind_run _ _ _ _ _ E2). exact E3. }
  unfold process_tail, que_len, q_get. rewrite (bind_run _ _ w3 MM_CAMERA_SUPER_BUF_NOTIFY_BURST w3).
  2:{ unfold gets. by rewrite Hg3, Ha2, Hm. }
  erewrite bind_run by done. cbv beta.
  assert (Hvk : Forall (valid w3) (all_bufs kept)).
  { apply Forall_forall. intros b Hb. apply Hv3, Hv2. apply (proj1 (Forall_forall _ _) Hv).
    rewrite <- (take_drop (length m - Z.to_nat (look_back (attr (get_queue w)))) m), all_bufs_app. set_solver. }
  destruct (burst_drop_run water_mark (length (que (get_queue w3))) w3 kept u) as (w4 & E4 & Hr4 & Hq4 & Ha4 & Ho4 & _).
  { by rewrite Hg3. } { done. } { by rewrite Hg3, Ha2. } { by rewrite Hg3, Ha2. }
  { rewrite Hg3, (qo_que _ _ _ Hq2), length_app. lia. }
  unfold mm_channel_superbuf_bufdone_overflow. rewrite (bind_run _ _ _ _ _ E4). erewrite bind_run by done. cbv beta.
  rewrite Hg3, Ha2 in Hr4, Hq4. fold left in Hq4. rewrite Ho3, Ho2 in Ho4. unfold outside in Ho4.
  injection Ho4 as Hp4 Ht4 Hn4 Hc4 Hh4. simpl in Hp4.
  destruct (superbuf_dispatch_run MM_CAMERA_SUPER_BUF_NOTIFY_BURST (length (que (get_queue w4))) w4 left u) as
    (w5 & E5 & Hq5 & Hf5 & _ & Hp5 & Hcb5);
    [done|rewrite (qo_que _ _ _ Hq4), length_app; lia|by rewrite Hn4|by rewrite Ht4|by rewrite Hp4|].
  exists w5. rewrite E5, Hp4 in *. unfold fixed in Hf5. injection Hf5 as _ Hret5 _ _ _ _ _.
  change (returned w5 = returned w4) in Hret5. split; [done|]. split; [|split; [|by split]].
  - rewrite Hret5, Hr4, Hr3, Hr2. by rewrite app_assoc.
  - rewrite Hcb5. unfold cb_queue, sb_of. by rewrite Ht4, Hc4, Hh4.
Qed.

(** A flush command empties the queue, gives every buffer in it back in
    order and makes its frame index the next expected one; no super buffer is
    sent out by it. *)
Theorem process_flush_empties idx w m u
  (Hq : queue_ok (get_queue w) m u) (Hv : Forall (valid w) (all_bufs (m ++ u))) :
  exists w', mm_channel_process_stream_buf (MM_CAMERA_CMD_TYPE_FLUSH_QUEUE idx) w = Some (tt, w') /\
    returned w' = returned w ++ all_bufs (m ++ u) /\ queue_ok (get_queue w') [] [] /\
    expected_frame_id (get_queue w') = idx /\ cb_queue w' = cb_queue w.
Proof.
  unfold mm_channel_process_stream_buf. set (w1 := set_queue (set_expected_frame_id idx (get_queue w)) w).
  rewrite (bind_run _ _ w tt w1) by done. unfold que_len, q_get. erewrite bind_run by done. cbv beta.
  assert (Hq1 : queue_ok (get_queue w1) m u) by exact (queue_ok_expected _ _ _ idx Hq).
  destruct (flush_loop_run (length (que (get_queue w1))) w1 (get_queue w1) m u) as
    ([] & w2 & E2 & q2 & (Hg & Hr & _) & Hq2 & _ & He); [done|done|done|by rewrite (qo_que _ _ _ Hq1)|].
  exists w2. unfold mm_channel_superbuf_flush. erewrite bind_run; [|by rewrite (bind_run _ _ _ _ _ E2)].
  split; [done|]. split; [done|]. rewrite Hg. split; [done|]. split; [done|].
  pose proof (keeps_outside_flush _ _ _ _ E2) as Ho. unfold outside in Ho. injection Ho as _ Ht _ _ _.
  unfold cb_queue. by rewrite Ht.
Qed.

End Dispatch.

(** ** Stream events inside a channel *)

Section Streams.
Context `{E : Env, CE : ChanEnv} (Henv : env_ok).

Definition stream_wf (s : mm_stream_t) : Prop :=
  length (buf_cb s) = MM_CAMERA_STREAM_BUF_CB_MAX /\ stage (state s) s.

Record chan_inv (w : cworld) : Prop := {
  ci_poll : poll_running (poll_thread (ch w));
  ci_len : length (streams (ch w)) = MAX_STREAM_NUM_IN_BUNDLE;
  ci_streams : Forall stream_wf (streams (ch w))
}.

(** What stream events cannot reach. *)
Definition beyond (w : cworld) := (bundle (ch w), ch_cb_thread (ch w), ch_state (ch w), cw_qbufs w).

(** Events that carry no payload. *)
Definition bare (evt : mm_stream_evt_type_t) : Prop :=
  match evt with MM_STREAM_EVT_SET_FMT _ | MM_STREAM_EVT_QBUF _ => False | _ => True end.

Lemma stream_evt_run i evt w s : chan_inv w -> bare evt -> streams (ch w) !! i = Some s ->
  exists rc s' w', stream_evt i evt w = Some (rc, w') /\ chan_inv w' /\ beyond w' = beyond w /\
    streams (ch w') = <[i := s']> (streams (ch w)) /\ state s' = next_state (state s) evt rc.
Proof.
  intros [Hp Hl Hs] Hevt Hi. pose proof (Forall_lookup_1 _ _ _ _ Hs Hi) as [Hc Hst].
  destruct (fsm_handled evt (stream_world s w) Henv) as (rc & x & Hx & [[Hp' Hc'] Hst'] & Hn).
  { by split. }
  { by destruct evt. }
  exists rc, (w_s x), (put_stream_world i x w). split; [by eapply on_stream_run|].
  split; [|by repeat split]. constructor; simpl; [done|by rewrite length_insert|].
  by apply Forall_insert.
Qed.

(** ** Which streams a channel starts *)

(** A stream is in use exactly when it has a handle, and handles differ. *)
Record chan_ids (l : list mm_stream_t) : Prop := {
  id_used : forall i s, l !! i = Some s -> 0 <= my_hdl s /\ (0 < my_hdl s <-> state s <> MM_STREAM_STATE_NOTUSED);
  id_distinct : forall i j s t, l !! i = Some s -> l !! j = Some t -> 0 < my_hdl s -> my_hdl s = my_hdl t -> i = j
}.

Definition in_use (l : list mm_stream_t) (i : nat) : Prop := exists s, l !! i = Some s /\ 0 < my_hdl s.
Definition is_metadata (l : list mm_stream_t) (i : nat) : Prop :=
  exists s info, l !! i = Some s /\ stream_info s = Some info /\ stream_type info = CAM_STREAM_TYPE_METADATA.

#[export] Instance in_use_dec l i : Decision (in_use l i).
Proof.
  refine (match l !! i as o return l !! i = o -> _ with
          | Some s => fun H => cast_if (decide (0 < my_hdl s))
          | None => fun H => right _ end eq_refl); unfold in_use; naive_solver.
Defined.

Lemma find_self l i s : chan_ids l -> l !! i = Some s -> 0 < my_hdl s ->
  mm_channel_util_get_stream_by_handler l (my_hdl s) = Some i.
Proof.
  intros [Hu Hd] Hi Hh. unfold mm_channel_util_get_stream_by_handler.
  rewrite (proj2 (list_find_Some _ _ i s)); [done|]. destruct (Hu i s Hi) as [_ [Hst _]].
  split; [done|]. split; [by split; [apply Hst|]|]. intros j t Hj Hlt [_ Ht].
  rewrite (Hd i j s t Hi Hj Hh Ht) in Hlt. lia.
Qed.

(** The streams in use are configured. *)
Definition all_configured (l : list mm_stream_t) : Prop :=
  forall i s, l !! i = Some s -> 0 < my_hdl s -> is_Some (stream_info s).

Definition meta_place (l : list mm_stream_t) (idx : list nat) (meta meta0 : nat) : Prop :=
  (exists j, idx !! meta = Some j /\ is_metadata l j) \/
  (meta = meta0 /\ Forall (fun j => ~ is_metadata l j) idx).

Lemma collect_run is_ acc meta0 w : let l := streams (ch w) in
  chan_ids l -> all_configured l -> Forall (fun i => (i < length l)%nat) is_ -> meta_place l acc meta0 0 ->
  exists meta, collect is_ acc meta0 w = Some ((acc ++ filter (in_use l) is_, meta), w) /\
    meta_place l (acc ++ filter (in_use l) is_) meta 0.
Proof.
  intros l Hid Hcf. revert acc meta0. induction is_ as [|i is_ IH]; intros acc meta0 His Hm.
  { exists meta0. simpl. rewrite app_nil_r. done. }
  apply Forall_cons in His as [Hi His]. apply lookup_lt_is_Some in Hi as [s Hi]. cbn [collect].
  rewrite (bind_run _ _ _ _ _ (stream_at_run i w s Hi)). rewrite filter_cons.
  destruct (Z.ltb_spec 0 (my_hdl s)) as [Hh|Hh].
  2:{ rewrite decide_False; [by apply IH|]. intros (s' & Hs' & ?). simplify_eq. lia. }
  rewrite decide_True by (by exists s). unfold find_stream, cget. rewrite (bind_run _ _ w (Some i) w).
  2:{ unfold gets. do 2 f_equal. exact (find_self l i s Hid Hi Hh). }
  rewrite (bind_run _ _ _ _ _ (stream_at_run i w s Hi)). destruct (Hcf i s Hi Hh) as [info Hinfo].
  rewrite (bind_run _ _ w info w) by (by rewrite Hinfo).
  destruct (IH (acc ++ [i]) (if decide (stream_type info = CAM_STREAM_TYPE_METADATA) then length acc else meta0))
    as (meta & Hc & Hp); [done| |exists meta; by rewrite <- app_assoc in Hc, Hp].
  case_decide as Ht.
  - left. exists i. split; [by rewrite lookup_app_r, Nat.sub_diag by lia|]. by exists s, info.
  - destruct Hm as [(j & Hj & Hjm)|(-> & Hno)].
    + left. exists j. split; [by apply lookup_app_l_Some|done].
    + right. split; [done|]. apply Forall_app. split; [done|]. apply Forall_singleton.
      intros (s' & info' & ? & ? & ?). simplify_eq.
Qed.

(** *** Swapping the metadata stream *)

Lemma swap_middle {A} (a b c : list A) x y :
  swap (length a) (length a + S (length b)) (a ++ x :: b ++ y :: c) = a ++ y :: b ++ x :: c.
Proof.
  unfold swap. rewrite list_lookup_middle by done.
  replace ((a ++ x :: b ++ y :: c) !! (length a + S (length b))%nat) with (Some y).
  2:{ rewrite lookup_app_r by lia. replace (length a + S (length b) - length a)%nat with (S (length b)) by lia.
      simpl. by rewrite list_lookup_middle. }
  rewrite insert_app_r_alt, Nat.sub_diag by lia. simpl.
  rewrite insert_app_r_alt by lia. replace (length a + S (length b) - length a)%nat with (S (length b)) by lia.
  simpl. by rewrite insert_app_r_alt, Nat.sub_diag by lia.
Qed.

Lemma split_two {A} (l : list A) i j x y : l !! i = Some x -> l !! j = Some y -> (i < j)%nat ->
  exists a b c, l = a ++ x :: b ++ y :: c /\ i = length a /\ j = (length a + S (length b))%nat.
Proof.
  intros Hi Hj Hlt. pose proof (take_drop_middle _ _ _ Hi) as H1.
  assert (Hj' : drop (S i) l !! (j - S i)%nat = Some y).
  { rewrite lookup_drop. rewrite <- Hj. f_equal. lia. }
  pose proof (take_drop_middle _ _ _ Hj') as H2.
  apply lookup_lt_Some in Hi, Hj'. rewrite length_drop in Hj'.
  exists (take i l), (take (j - S i) (drop (S i) l)), (drop (S (j - S i)) (drop (S i) l)).
  rewrite H2, H1, !length_take, length_drop. split; [done|]. lia.
Qed.

Lemma swap_perm {A} (l : list A) i j : (i < j)%nat -> swap i j l ≡ₚ l.
Proof.
  intros Hlt. destruct (l !! i) as [x|] eqn:Hi; [|unfold swap; by rewrite Hi].
  destruct (l !! j) as [y|] eqn:Hj; [|unfold swap; by rewrite Hi, Hj].
  destruct (split_two l i j x y Hi Hj Hlt) as (a & b & c & -> & -> & ->). rewrite swap_middle. solve_Permutation.
Qed.

Lemma start_order_spec l idx meta : meta_place l idx meta 0 ->
  start_order idx meta ≡ₚ idx /\
  ((exists j, j ∈ idx /\ is_metadata l j) -> exists j r, start_order idx meta = j :: r /\ is_metadata l j).
Proof.
  intros Hm. unfold start_order. destruct (Nat.ltb_spec 0 meta) as [H0|H0].
  - split; [by apply swap_perm|]. intros _. destruct Hm as [(j & Hj & Hjm)|[-> _]]; [|lia].
    destruct idx as [|i idx]; [done|]. destruct (split_two (i :: idx) 0 meta i j) as (a & b & c & Hl & Ha & ->); try done.
    destruct a; [|done]. rewrite Hl. change 0%nat with (length (@nil nat)) at 1. rewrite swap_middle. by exists j, (b ++ i :: c).
  - split; [done|]. intros (j & Hj & Hjm). destruct meta; [|lia].
    destruct Hm as [(k & Hk & Hkm)|[_ Hno]].
    + destruct idx as [|i idx]; [done|]. simpl in Hk. simplify_eq. by exists k, idx.
    + by apply (proj1 (Forall_forall _ _) Hno) in Hj.
Qed.

Lemma stop_order_spec l idx meta : meta_place l idx meta 0 ->
  stop_order idx meta ≡ₚ idx /\
  ((exists j, j ∈ idx /\ is_metadata l j) -> exists j r, stop_order idx meta = r ++ [j] /\ is_metadata l j).
Proof.
  intros Hm. unfold stop_order. destruct (Z.ltb_spec (Z.of_nat meta) (Z.of_nat (length idx) - 1)) as [H0|H0].
  - split; [apply swap_perm; lia|]. intros (j & Hj & Hjm). destruct Hm as [(k & Hk & Hkm)|[_ Hno]].
    2:{ by apply (proj1 (Forall_forall _ _) Hno) in Hj. }
    destruct (lookup_lt_is_Some_2 idx (length idx - 1)) as [y Hy]; [lia|].
    destruct (split_two idx meta (length idx - 1) k y) as (a & b & c & Hl & -> & Hlen); [done|done|lia|].
    rewrite Hlen. assert (c = []) as ->.
    { rewrite Hl in Hlen. rewrite !length_app in Hlen. simpl in Hlen. rewrite !length_app in Hlen. simpl in Hlen.
      destruct c; [done|simpl in Hlen; lia]. }
    rewrite Hl, swap_middle. exists k, (a ++ y :: b). split; [by rewrite <- app_assoc|done].
  - split; [done|]. intros (j & Hj & Hjm). destruct Hm as [(k & Hk & Hkm)|[_ Hno]].
    2:{ by apply (proj1 (Forall_forall _ _) Hno) in Hj. }
    pose proof (lookup_lt_Some _ _ _ Hk). exists k, (take meta idx). split; [|done].
    pose proof (take_drop_middle _ _ _ Hk) as Ht. rewrite (drop_ge idx (S meta)) in Ht by lia. done.
Qed.

(** ** Starting *)

Definition st (w : cworld) (i : nat) : option mm_stream_state_type_t := state <$> streams (ch w) !! i.

(** From [w] to [w'] only the streams in [l] changed state, to one in [P]. *)
Definition moved (w w' : cworld) (l : list nat) (P : mm_stream_state_type_t -> Prop) : Prop :=
  chan_inv w' /\ beyond w' = beyond w /\
  (forall j, j ∈ l -> exists x, st w' j = Some x /\ P x) /\ (forall j, j ∉ l -> st w' j = st w j).

Lemma evt_moved i evt w x : chan_inv w -> bare evt -> st w i = Some x ->
  exists rc w', stream_evt i evt w = Some (rc, w') /\ moved w w' [i] (fun y => y = next_state x evt rc).
Proof.
  intros Hc Hb Hx. unfold st in Hx. apply fmap_Some in Hx as (s & Hi & ->).
  destruct (stream_evt_run i evt w s Hc Hb Hi) as (rc & s' & w' & E1 & Hc' & Hbe & Hs & Hn).
  exists rc, w'. split; [done|]. split; [done|]. split; [done|]. unfold st. rewrite Hs. split.
  - intros j Hj. apply list_elem_of_singleton in Hj as ->. exists (state s').
    rewrite list_lookup_insert_eq by (by eapply lookup_lt_Some). done.
  - intros j Hj. rewrite list_lookup_insert_ne; [done|set_solver].
Qed.

Lemma moved_trans w1 w2 w3 i P Q : moved w1 w2 [i] P -> moved w2 w3 [i] Q -> moved w1 w3 [i] Q.
Proof.
  intros (_ & B1 & _ & O1) (C2 & B2 & I2 & O2). split; [done|]. split; [congruence|]. split; [done|].
  intros j Hj. by rewrite O2, O1.
Qed.

Lemma moved_at w w' i P : moved w w' [i] P -> exists x, st w' i = Some x /\ P x.
Proof. intros (_ & _ & H & _). apply H. set_solver. Qed.

Lemma moved_mono w w' l (P Q : mm_stream_state_type_t -> Prop) :
  (forall x, P x -> Q x) -> moved w w' l P -> moved w w' l Q.
Proof. intros HPQ (? & ? & H & ?). split_and!; try done. intros j Hj. destruct (H j Hj) as (x & ? & ?). eauto. Qed.

(** The states the error handling brings back. *)
Definition undoable (x : mm_stream_state_type_t) : Prop :=
  x = MM_STREAM_STATE_CFG \/ x = MM_STREAM_STATE_BUFFED \/ x = MM_STREAM_STATE_REG \/ x = MM_STREAM_STATE_ACTIVE.

Lemma start_one_run i w : chan_inv w -> st w i = Some MM_STREAM_STATE_CFG ->
  exists rc w', start_one i w = Some (rc, w') /\
    moved w w' [i] (fun x => if rc =? 0 then x = MM_STREAM_STATE_ACTIVE else undoable x).
Proof.
  intros Hc Hi. unfold undoable. pose proof Hi as Hi0. apply fmap_Some in Hi0 as (s & Hs & Hst). unfold start_one.
  rewrite (bind_run _ _ _ _ _ (stream_at_run i w s Hs)), <- Hst. rewrite decide_False by done.
  destruct (evt_moved i MM_STREAM_EVT_GET_BUF w _ Hc I Hi) as (rc1 & w1 & E1 & M1).
  rewrite (bind_run _ _ _ _ _ E1). simpl in M1. destruct (Z.eqb_spec rc1 0) as [->|Hrc1].
  2:{ exists rc1, w1. split; [done|]. eapply moved_mono; [|exact M1]. simpl. intros x ->.
      rewrite (proj2 (Z.eqb_neq rc1 0) Hrc1). tauto. }
  destruct (moved_at _ _ _ _ M1) as (x1 & H1 & ->). pose proof M1 as (C1 & _).
  destruct (evt_moved i MM_STREAM_EVT_REG_BUF w1 _ C1 I H1) as (rc2 & w2 & E2 & M2).
  rewrite (bind_run _ _ _ _ _ E2). simpl in M2. destruct (Z.eqb_spec rc2 0) as [->|Hrc2].
  2:{ exists rc2, w2. split; [done|]. eapply moved_mono; [|exact (moved_trans _ _ _ _ _ _ M1 M2)]. simpl. intros x ->.
      rewrite (proj2 (Z.eqb_neq rc2 0) Hrc2). tauto. }
  destruct (moved_at _ _ _ _ M2) as (x2 & H2 & ->). pose proof M2 as (C2 & _).
  destruct (evt_moved i MM_STREAM_EVT_START w2 _ C2 I H2) as (rc3 & w3 & E3 & M3).
  exists rc3, w3. split; [done|].
  eapply moved_mono; [|exact (moved_trans _ _ _ _ _ _ (moved_trans _ _ _ _ _ _ M1 M2) M3)]. simpl. intros x ->.
  destruct (rc3 =? 0); tauto.
Qed.

Lemma undo_start_run i w x : chan_inv w -> st w i = Some x -> undoable x ->
  exists w', undo_start i w = Some (tt, w') /\ moved w w' [i] (fun y => y = MM_STREAM_STATE_CFG).
Proof.
  intros Hc Hi Hx. unfold undo_start.
  destruct (evt_moved i MM_STREAM_EVT_STOP w x Hc I Hi) as (rc1 & w1 & E1 & M1).
  destruct (moved_at _ _ _ _ M1) as (x1 & H1 & P1). pose proof M1 as (C1 & _).
  destruct (evt_moved i MM_STREAM_EVT_UNREG_BUF w1 x1 C1 I H1) as (rc2 & w2 & E2 & M2).
  destruct (moved_at _ _ _ _ M2) as (x2 & H2 & P2). pose proof M2 as (C2 & _).
  destruct (evt_moved i MM_STREAM_EVT_PUT_BUF w2 x2 C2 I H2) as (rc3 & w3 & E3 & M3).
  exists w3. rewrite (bind_run _ _ _ _ _ E1), (bind_run _ _ _ _ _ E2), (bind_run _ _ _ _ _ E3). split; [done|].
  eapply moved_mono; [|exact (moved_trans _ _ _ _ _ _ (moved_trans _ _ _ _ _ _ M1 M2) M3)]. simpl. intros y ->.
  subst x2 x1. by destruct Hx as [-> | [-> | [-> | ->]]].
Qed.

(** *** All streams *)

Lemma moved_cons w1 w2 w3 i l P : moved w1 w2 [i] P -> moved w2 w3 l P -> i ∉ l -> moved w1 w3 (i :: l) P.
Proof.
  intros (_ & B1 & I1 & O1) (C2 & B2 & I2 & O2) Hn. split; [done|]. split; [congruence|]. split.
  - intros j Hj. apply elem_of_cons in Hj as [->|Hj]; [|by apply I2]. rewrite O2 by done. apply I1. set_solver.
  - intros j Hj. rewrite O2, O1 by set_solver. done.
Qed.

Lemma moved_nil w P : chan_inv w -> moved w w [] P.
Proof. intros H. split_and!; try done. intros j Hj. set_solver. Qed.

(** A loop that brings every stream of a list from a state in [P] to one in [Q]. *)
Lemma each_run (body : nat -> M cworld unit) l w (P Q : mm_stream_state_type_t -> Prop) :
  (forall i w x, chan_inv w -> st w i = Some x -> P x ->
     exists w', body i w = Some (tt, w') /\ moved w w' [i] Q) ->
  chan_inv w -> NoDup l -> (forall j, j ∈ l -> exists x, st w j = Some x /\ P x) ->
  exists w', for_each l body w = Some (tt, w') /\ moved w w' l Q.
Proof.
  intros Hb. revert w. induction l as [|i l IH]; intros w Hc Hnd Hl; [by exists w; split; [|apply moved_nil]|].
  apply NoDup_cons in Hnd as [Hi Hnd]. destruct (Hl i) as (x & Hx & Px); [set_solver|].
  destruct (Hb i w x Hc Hx Px) as (w1 & E1 & M1). pose proof M1 as (C1 & _ & _ & O1).
  destruct (IH w1 C1 Hnd) as (w2 & E2 & M2).
  { intros j Hj. rewrite O1 by set_solver. apply Hl. set_solver. }
  exists w2. cbn [for_each]. rewrite (bind_run _ _ _ _ _ E1). split; [done|]. by eapply moved_cons.
Qed.

Lemma start_loop_run l acc w : chan_inv w -> NoDup l -> (forall j, j ∈ l -> st w j = Some MM_STREAM_STATE_CFG) ->
  exists rc got w', start_loop l acc w = Some ((rc, acc ++ got), w') /\ NoDup got /\ got ⊆ l /\
    if rc =? 0 then got = l /\ moved w w' l (fun x => x = MM_STREAM_STATE_ACTIVE) else moved w w' got undoable.
Proof.
  revert acc w. induction l as [|i l IH]; intros acc w Hc Hnd Hl.
  { exists 0, [], w. rewrite app_nil_r. split; [done|]. split; [constructor|]. split; [done|]. split; [done|]. by apply moved_nil. }
  apply NoDup_cons in Hnd as [Hi Hnd]. cbn [start_loop].
  destruct (start_one_run i w Hc) as (rc & w1 & E1 & M1); [apply Hl; set_solver|].
  rewrite (bind_run _ _ _ _ _ E1). destruct (rc =? 0) eqn:Erc.
  2:{ exists rc, [i], w1. split; [done|]. split; [apply NoDup_singleton|]. split; [set_solver|]. by rewrite Erc. }
  pose proof M1 as (C1 & _ & _ & O1). destruct (IH (acc ++ [i]) w1 C1 Hnd) as (rc' & got & w2 & E2 & Hg & Hsub & M2).
  { intros j Hj. rewrite O1 by set_solver. apply Hl. set_solver. }
  exists rc', (i :: got), w2. rewrite <- app_assoc in E2. split; [done|]. split; [by apply NoDup_cons; split; [set_solver|]|].
  split; [set_solver|]. destruct (rc' =? 0).
  - destruct M2 as [-> M2]. split; [done|]. by eapply moved_cons.
  - eapply moved_cons; [|exact M2|set_solver]. eapply moved_mono; [|exact M1]. unfold undoable. tauto.
Qed.

(** *** The bundle *)

(** Only the queue, the bundle flags and the threads changed. *)
Definition rebundled (w w' : cworld) : Prop :=
  chan_inv w' /\ (forall j, st w' j = st w j) /\ ch_state (ch w') = ch_state (ch w).

Definition bundle_body (p : nat * nat) : M cworld unit :=
  let '(k, i) := p in
  stream_upd i (set_is_bundled true);;
  s ← stream_at i;
  q_upd (fun q => {| que := que q; que_size := que_size q; num_streams := num_streams q;
                     bundled_streams := <[k := my_hdl s]> (bundled_streams q); attr := attr q;
                     expected_frame_id := expected_frame_id q; match_cnt := match_cnt q |}).

Lemma bundle_body_run p w : chan_inv w -> (p.2 < MAX_STREAM_NUM_IN_BUNDLE)%nat ->
  exists w', bundle_body p w = Some (tt, w') /\ rebundled w w'.
Proof.
  intros [Hp Hl Hs] Hi. destruct p as [k i]. simpl in Hi. rewrite <- Hl in Hi.
  destruct (lookup_lt_is_Some_2 _ _ Hi) as [s Hsi]. unfold bundle_body, stream_upd.
  set (w1 := put_ch (set_streams (<[i := set_is_bundled true s]> (streams (ch w))) (ch w)) w).
  assert (Hs1 : streams (ch w1) !! i = Some (set_is_bundled true s)).
  { simpl. by rewrite list_lookup_insert_eq. }
  rewrite (bind_run _ _ w tt w1).
  2:{ rewrite (bind_run _ _ _ _ _ (stream_at_run i w s Hsi)). done. }
  rewrite (bind_run _ _ _ _ _ (stream_at_run i w1 _ Hs1)). eexists. split; [reflexivity|].
  split; [|split; [|done]].
  - constructor; simpl; [done|by rewrite length_insert|]. apply Forall_insert; [done|].
    destruct (Forall_lookup_1 _ _ _ _ Hs Hsi) as [H1 H2]. split; [done|]. simpl. by destruct (state s).
  - intros j. unfold st. simpl. destruct (decide (i = j)) as [<-|Hij].
    + by rewrite list_lookup_insert_eq, Hsi.
    + by rewrite list_lookup_insert_ne.
Qed.

Lemma bundle_each_run ps w : chan_inv w -> Forall (fun p => (p.2 < MAX_STREAM_NUM_IN_BUNDLE)%nat) ps ->
  exists w', for_each ps bundle_body w = Some (tt, w') /\ rebundled w w'.
Proof.
  intros Hc Hps. revert w Hc. induction Hps as [|p ps Hp _ IH]; intros w Hc; [by exists w|].
  destruct (bundle_body_run p w Hc Hp) as (w1 & E1 & C1 & S1 & H1). destruct (IH w1 C1) as (w2 & E2 & C2 & S2 & H2).
  exists w2. cbn [for_each]. rewrite (bind_run _ _ _ _ _ E1). split; [done|]. split; [done|].
  split; [intros j; by rewrite S2, S1|congruence].
Qed.

Definition bundle_running (w : cworld) : Prop :=
  is_active (bundle (ch w)) = true /\ is_Some (ch_cb_thread (ch w)).

Lemma start_bundle_run l w : chan_inv w -> Forall (fun i => (i < MAX_STREAM_NUM_IN_BUNDLE)%nat) l ->
  exists w', start_bundle l w = Some (tt, w') /\ rebundled w w' /\ bundle_running w'.
Proof.
  intros Hc Hl. unfold start_bundle.
  rewrite (bind_run _ _ w 0 (set_queue (set_que_size 0 (set_que [] (get_queue w))) w)) by done.
  erewrite bind_run by done. set (w1 := set_queue _ _).
  assert (Hc1 : chan_inv w1) by (by destruct Hc).
  destruct (bundle_each_run (imap (fun k i => (k, i)) l) w1 Hc1) as (w2 & E2 & C2 & S2 & H2).
  { clear -Hl. apply Forall_lookup. intros k p Hp. apply list_lookup_imap_Some in Hp as (i & Hi & ->).
    by apply (Forall_lookup_1 _ _ _ _ Hl Hi). }
  unfold bundle_body in E2. rewrite (bind_run _ _ _ _ _ E2). eexists. split; [reflexivity|].
  split; [|by split; [|eexists]]. split; [by destruct C2|]. split; [|done]. intros j. exact (S2 j).
Qed.

(** ** Theorems *)

(** The streams in use are all configured and not started. *)
Definition ready (w : cworld) : Prop :=
  forall i s, streams (ch w) !! i = Some s -> 0 < my_hdl s -> state s = MM_STREAM_STATE_CFG.

Lemma ready_configured w : chan_inv w -> ready w -> all_configured (streams (ch w)).
Proof.
  intros Hc Hr i s Hi Hh. pose proof (Forall_lookup_1 _ _ _ _ (ci_streams _ Hc) Hi) as [_ Hst].
  rewrite (Hr i s Hi Hh) in Hst. apply Hst.
Qed.

Definition used (w : cworld) : list nat := filter (in_use (streams (ch w))) (seq 0 MAX_STREAM_NUM_IN_BUNDLE).

Lemma collect_used w : chan_inv w -> chan_ids (streams (ch w)) -> all_configured (streams (ch w)) ->
  exists meta, collect (seq 0 MAX_STREAM_NUM_IN_BUNDLE) [] 0 w = Some ((used w, meta), w) /\
    meta_place (streams (ch w)) (used w) meta 0.
Proof.
  intros Hc Hid Hcf. apply (collect_run (seq 0 MAX_STREAM_NUM_IN_BUNDLE) [] 0 w Hid Hcf).
  - apply Forall_forall. intros i Hi. rewrite (ci_len _ Hc). apply elem_of_seq in Hi. lia.
  - right. done.
Qed.

Lemma used_spec w i : chan_inv w -> i ∈ used w <-> in_use (streams (ch w)) i.
Proof.
  intros Hc. unfold used. rewrite list_elem_of_filter, elem_of_seq. split; [by intros [? _]|]. intros Hu.
  split; [done|]. destruct Hu as (s & Hi & _). apply lookup_lt_Some in Hi. rewrite (ci_len _ Hc) in Hi. lia.
Qed.

Lemma used_NoDup w : NoDup (used w).
Proof. apply NoDup_filter, NoDup_seq. Qed.

(** The whole of [mm_channel_start]. *)
Lemma channel_start_run w : chan_inv w -> chan_ids (streams (ch w)) -> ready w ->
  exists rc w', mm_channel_start w = Some (rc, w') /\ chan_inv w' /\
    (is_Some (super_buf_notify_cb (bundle (ch w))) -> bundle_running w') /\ ch_state (ch w') = ch_state (ch w) /\
    (forall i, st w' i = if (rc =? 0) && bool_decide (in_use (streams (ch w)) i)
                         then Some MM_STREAM_STATE_ACTIVE else st w i).
Proof.
  intros Hc Hid Hr. unfold mm_channel_start.
  destruct (collect_used w Hc Hid (ready_configured w Hc Hr)) as (meta & E1 & Hm).
  rewrite (bind_run _ _ _ _ _ E1). cbn [fst snd]. destruct (start_order_spec _ _ _ Hm) as [Hperm _].
  set (l := start_order (used w) meta) in *. erewrite bind_run by done. cbv beta.
  assert (Hl : forall j, j ∈ l <-> in_use (streams (ch w)) j) by (intros j; by rewrite Hperm, used_spec).
  assert (Hnd : NoDup l) by (rewrite Hperm; apply used_NoDup).
  assert (exists w1, (match super_buf_notify_cb (bundle (ch w)) with Some _ => start_bundle l | None => mret tt end) w
    = Some (tt, w1) /\ rebundled w w1 /\ (is_Some (super_buf_notify_cb (bundle (ch w))) -> bundle_running w1))
    as (w1 & E2 & (C1 & S1 & CS1) & B1).
  { destruct (super_buf_notify_cb (bundle (ch w))) as [f|].
    - destruct (start_bundle_run l w Hc) as (w1 & ? & ? & ?); [|by exists w1].
      apply Forall_forall. intros j Hj. apply Hl in Hj as (s & Hj & _). apply lookup_lt_Some in Hj.
      by rewrite (ci_len _ Hc) in Hj.
    - exists w. split; [done|]. split; [by split|]. by intros []. }
  rewrite (bind_run _ _ _ _ _ E2).
  destruct (start_loop_run l [] w1 C1 Hnd) as (rc & got & w2 & E3 & Hg & Hsub & M).
  { intros j Hj. apply Hl in Hj as (s & Hj & Hh). rewrite S1. unfold st. rewrite Hj. simpl. f_equal. by eapply Hr. }
  rewrite (bind_run _ _ _ _ _ E3). simpl. destruct (Z.eqb_spec rc 0) as [->|Hrc].
  - destruct M as [_ (C2 & B2 & I2 & O2)]. exists 0, w2. split; [done|]. split; [done|]. split.
    { unfold beyond in B2. injection B2 as B2 B3 _ _. unfold bundle_running. by rewrite B2, B3. }
    split; [unfold beyond in B2; injection B2; congruence|]. intros i. simpl. case_bool_decide as Hu.
    + apply Hl in Hu. by destruct (I2 i Hu) as (x & ? & ->).
    + rewrite O2 by (by rewrite Hl). apply S1.
  - destruct M as (C2 & B2 & I2 & O2).
    destruct (each_run undo_start got w2 undoable (fun x => x = MM_STREAM_STATE_CFG)) as (w3 & E4 & C3 & B3 & I3 & O3);
      [intros i wi x Hci Hxi Hu; by apply (undo_start_run i wi x)|done|done|done|].
    exists rc, w3. rewrite (bind_run _ _ _ _ _ E4). split; [done|]. split; [done|]. split.
    { rewrite B2 in B3. unfold beyond in B3. injection B3 as B3 B4 _ _. unfold bundle_running. by rewrite B3, B4. }
    split; [rewrite B2 in B3; unfold beyond in B3; injection B3; congruence|]. intros i. rewrite (proj2 (Z.eqb_neq rc 0) Hrc). simpl. destruct (decide (i ∈ got)) as [Hi|Hi].
    + destruct (I3 i Hi) as (x & -> & ->). apply Hsub, Hl in Hi as (s & Hj & Hh). unfold st. rewrite Hj. simpl.
      f_equal. symmetry. by eapply Hr.
    + by rewrite O3, O2, S1.
Qed.

(** C5: starting a channel is all or nothing.  Whatever the kernel, the server
    and the client answer, [mm_channel_start] on a channel whose streams in
    use are configured ends; if it returns 0 every stream in use is active,
    and if it does not every stream is back in the state it was in; streams
    not in use are never touched. *)
Theorem channel_start_all_or_nothing w (Hc : chan_inv w) (Hid : chan_ids (streams (ch w))) (Hr : ready w) :
  exists rc w', mm_channel_start w = Some (rc, w') /\ chan_inv w' /\
    forall i, st w' i = if (rc =? 0) && bool_decide (in_use (streams (ch w)) i)
                        then Some MM_STREAM_STATE_ACTIVE else st w i.
Proof. destruct (channel_start_run w Hc Hid Hr) as (rc & w' & ? & ? & _ & _ & ?). by exists rc, w'. Qed.

(** A channel starts and stops exactly its streams in use, each once; with
    a metadata stream among them, a metadata stream is started before all
    others and stopped after all others. *)
Theorem channel_start_stop_order w (Hc : chan_inv w) (Hid : chan_ids (streams (ch w)))
  (Hcf : all_configured (streams (ch w))) :
  exists l meta, collect (seq 0 MAX_STREAM_NUM_IN_BUNDLE) [] 0 w = Some ((l, meta), w) /\
    start_order l meta ≡ₚ used w /\ stop_order l meta ≡ₚ used w /\
    ((exists j, in_use (streams (ch w)) j /\ is_metadata (streams (ch w)) j) ->
     (exists j r, start_order l meta = j :: r /\ is_metadata (streams (ch w)) j) /\
     (exists j r, stop_order l meta = r ++ [j] /\ is_metadata (streams (ch w)) j)).
Proof.
  destruct (collect_used w Hc Hid Hcf) as (meta & E1 & Hm). exists (used w), meta.
  destruct (start_order_spec _ _ _ Hm) as [P1 F1]. destruct (stop_order_spec _ _ _ Hm) as [P2 F2].
  split; [done|]. split; [done|]. split; [done|]. intros (j & Hj & Hjm).
  assert (exists j, j ∈ used w /\ is_metadata (streams (ch w)) j) by (exists j; by rewrite used_spec).
  split; auto.
Qed.

(** When the start of a channel with a super buffer callback fails, the
    matching and callback threads it launched stay: the channel is stopped,
    its bundle is still marked active, and the stop event that would release
    the threads does nothing in that state. *)
Theorem channel_failed_start_keeps_threads w (Hc : chan_inv w) (Hid : chan_ids (streams (ch w))) (Hr : ready w)
  (Hst : ch_state (ch w) = MM_CHANNEL_STATE_STOPPED) (Hcb : is_Some (super_buf_notify_cb (bundle (ch w)))) rc w'
  (Hrun : mm_channel_start w = Some (rc, w')) (Hrc : rc <> 0) :
  mm_channel_fsm_fn MM_CHANNEL_EVT_START w = Some ((rc, OutNone), w') /\ bundle_running w' /\
  mm_channel_fsm_fn MM_CHANNEL_EVT_STOP w' = Some ((0, OutNone), w').
Proof.
  destruct (channel_start_run w Hc Hid Hr) as (rc' & w'' & E1 & _ & Hb & Hst' & _). rewrite E1 in Hrun. injection Hrun as -> ->.
  rewrite Hst in Hst'.
  split; [|split; [auto|]].
  - unfold mm_channel_fsm_fn, cget. rewrite (bind_run _ _ w MM_CHANNEL_STATE_STOPPED w) by (unfold gets; by rewrite Hst).
    simpl. rewrite (bind_run _ _ _ _ _ E1). by rewrite (proj2 (Z.eqb_neq rc 0) Hrc).
  - unfold mm_channel_fsm_fn, cget.
    by rewrite (bind_run _ _ w' MM_CHANNEL_STATE_STOPPED w') by (unfold gets; by rewrite Hst').
Qed.

Lemma stop_one_run i w x : chan_inv w -> st w i = Some x -> undoable x ->
  exists w', (stream_evt i MM_STREAM_EVT_STOP;; stream_evt i MM_STREAM_EVT_UNREG_BUF;; mret tt) w = Some (tt, w') /\
    moved w w' [i] (fun y => y = MM_STREAM_STATE_CFG \/ y = MM_STREAM_STATE_BUFFED).
Proof.
  intros Hc Hi Hx. destruct (evt_moved i MM_STREAM_EVT_STOP w x Hc I Hi) as (rc1 & w1 & E1 & M1).
  destruct (moved_at _ _ _ _ M1) as (x1 & H1 & P1). pose proof M1 as (C1 & _).
  destruct (evt_moved i MM_STREAM_EVT_UNREG_BUF w1 x1 C1 I H1) as (rc2 & w2 & E2 & M2).
  exists w2. rewrite (bind_run _ _ _ _ _ E1), (bind_run _ _ _ _ _ E2). split; [done|].
  eapply moved_mono; [|exact (moved_trans _ _ _ _ _ _ M1 M2)]. intros y ->. subst x1.
  destruct Hx as [-> | [-> | [-> | ->]]]; auto.
Qed.

Lemma put_one_run i w x : chan_inv w -> st w i = Some x -> x = MM_STREAM_STATE_CFG \/ x = MM_STREAM_STATE_BUFFED ->
  exists w', (stream_evt i MM_STREAM_EVT_PUT_BUF;; mret tt) w = Some (tt, w') /\
    moved w w' [i] (fun y => y = MM_STREAM_STATE_CFG).
Proof.
  intros Hc Hi Hx. destruct (evt_moved i MM_STREAM_EVT_PUT_BUF w x Hc I Hi) as (rc1 & w1 & E1 & M1).
  exists w1. rewrite (bind_run _ _ _ _ _ E1). split; [done|]. eapply moved_mono; [|exact M1]. intros y ->.
  by destruct Hx as [-> | ->].
Qed.

(** Stopping a channel without super buffers ends and brings every stream
    in use, however far its start had got, back to the configured state, and
    returns 0; no other stream is touched. *)
Theorem channel_stop_restores w (Hc : chan_inv w) (Hid : chan_ids (streams (ch w)))
  (Hcf : all_configured (streams (ch w))) (Hb : is_active (bundle (ch w)) = false)
  (Hu : forall i, in_use (streams (ch w)) i -> exists x, st w i = Some x /\ undoable x) :
  exists w', mm_channel_stop w = Some (0, w') /\ chan_inv w' /\
    forall i, st w' i = if bool_decide (in_use (streams (ch w)) i) then Some MM_STREAM_STATE_CFG else st w i.
Proof.
  unfold mm_channel_stop. destruct (collect_used w Hc Hid Hcf) as (meta & E1 & Hm).
  rewrite (bind_run _ _ _ _ _ E1). cbn [fst snd]. destruct (stop_order_spec _ _ _ Hm) as [Hperm _].
  set (l := stop_order (used w) meta) in *.
  assert (Hl : forall j, j ∈ l <-> in_use (streams (ch w)) j) by (intros j; by rewrite Hperm, used_spec).
  assert (Hnd : NoDup l) by (rewrite Hperm; apply used_NoDup).
  destruct (each_run _ l w undoable _ stop_one_run Hc Hnd) as (w1 & E2 & C1 & B1 & I1 & O1).
  { intros j Hj. by apply Hu, Hl. }
  rewrite (bind_run _ _ _ _ _ E2). unfold beyond in B1. injection B1 as B1 _ _ _.
  unfold cget. rewrite (bind_run _ _ w1 (bundle (ch w1)) w1) by done. rewrite B1, Hb.
  rewrite (bind_run _ _ w1 tt w1) by done.
  destruct (each_run _ l w1 _ _ put_one_run C1 Hnd I1) as (w2 & E3 & C2 & _ & I2 & O2).
  exists w2. rewrite (bind_run _ _ _ _ _ E3). split; [done|]. split; [done|]. intros i.
  case_bool_decide as Hi.
  - apply Hl in Hi. by destruct (I2 i Hi) as (x & ? & ->).
  - by rewrite O2, O1 by (by rewrite Hl).
Qed.

Lemma keeps_hdl_acquire : keeps (fun w => my_hdl (w_s w)) (mm_stream_fsm_inited MM_STREAM_EVT_ACQUIRE).
Proof. unfold mm_stream_fsm_inited, mm_stream_set_ext_mode, obj, upd, sext. keeps_solve. Qed.

(** Acquiring a stream keeps its handle. *)
Lemma acquired_hdl i w s rc w' s' : streams (ch w) !! i = Some s -> state s = MM_STREAM_STATE_INITED ->
  stream_evt i MM_STREAM_EVT_ACQUIRE w = Some (rc, w') -> streams (ch w') = <[i := s']> (streams (ch w)) ->
  my_hdl s' = my_hdl s.
Proof.
  intros Hi Hst Hrun Hs'. unfold stream_evt, on_stream in Hrun.
  rewrite (bind_run _ _ _ _ _ (stream_at_run i w s Hi)) in Hrun. unfold zoom in Hrun.
  destruct (mm_stream_fsm_fn MM_STREAM_EVT_ACQUIRE (stream_world s w)) as [[rc' x]|] eqn:Ex; [|done].
  injection Hrun as _ <-. simpl in Hs'. assert (Hx : w_s x = s').
  { apply (f_equal (fun l => l !! i)) in Hs'. pose proof (lookup_lt_Some _ _ _ Hi).
    rewrite !list_lookup_insert_eq in Hs' by done. by injection Hs'. }
  subst s'. unfold mm_stream_fsm_fn, obj in Ex. rewrite (bind_run _ _ _ MM_STREAM_STATE_INITED (stream_world s w)) in Ex.
  2:{ unfold gets. simpl. by rewrite Hst. }
  apply (keeps_hdl_acquire _ _ _ Ex).
Qed.

(** Adding a stream takes a free slot or, when there is none, returns 0
    and changes nothing.  On success the new stream is acquired under a fresh
    handle that carries its slot number; when the device cannot be opened the
    slot is cleared again and 0 returned; no other stream changes. *)
Theorem channel_add_stream_spec w (Hc : chan_inv w) (Hcnt : 0 <= cw_count w < 2 ^ 16) :
  exists h w', mm_channel_add_stream w = Some (h, w') /\
    match list_find (fun s => state s = MM_STREAM_STATE_NOTUSED) (streams (ch w)) with
    | None => h = 0 /\ w' = w
    | Some (i, _) =>
        chan_inv w' /\
        (forall j, j <> i -> streams (ch w') !! j = streams (ch w) !! j) /\
        ((h = 0 /\ streams (ch w') !! i = Some zero_stream) \/
         (0 < h /\ st w' i = Some MM_STREAM_STATE_ACQUIRED /\ mm_camera_util_get_index_by_handler h = Z.of_nat i))
    end.
Proof.
  unfold mm_channel_add_stream, cget. rewrite (bind_run _ _ w (streams (ch w)) w) by done.
  destruct (list_find _ (streams (ch w))) as [[i s0]|] eqn:Ef; [|by exists 0, w].
  apply list_find_Some in Ef as (Hi & _ & _). pose proof (lookup_lt_Some _ _ _ Hi) as Hlt. rewrite (ci_len _ Hc) in Hlt.
  unfold MAX_STREAM_NUM_IN_BUNDLE in Hlt. rewrite (bind_run _ _ w (cw_count w) w) by done.
  rewrite generate_handler_eq by lia. pose proof (next_count_range _ Hcnt) as Hnc.
  set (c := next_history_count (cw_count w)) in *. set (h := c * 2 ^ 8 + Z.of_nat i) in *.
  assert (Hh : 0 < h /\ mm_camera_util_get_index_by_handler h = Z.of_nat i).
  { split; [lia|]. apply handler_unpack; lia. }
  rewrite (bind_run _ _ w tt (put_cw_count c w)) by done.
  set (w1 := put_ch (set_streams (<[i := new_stream h]> (streams (ch w))) (ch w)) (put_cw_count c w)).
  rewrite (bind_run _ _ _ tt w1) by (unfold stream_upd; by rewrite (bind_run _ _ _ _ _ (stream_at_run i (put_cw_count c w) s0 Hi))).
  assert (Hc1 : chan_inv w1).
  { destruct Hc as [Hp Hl Hs]. constructor; simpl; [done|by rewrite length_insert|]. apply Forall_insert; [done|by split]. }
  assert (Hi1 : streams (ch w1) !! i = Some (new_stream h)) by (simpl; rewrite list_lookup_insert_eq; [done|by eapply lookup_lt_Some]).
  destruct (stream_evt_run i MM_STREAM_EVT_ACQUIRE w1 _ Hc1 I Hi1) as (rc & s' & w2 & E2 & Hc2 & _ & Hs2 & Hn).
  assert (Hhs : my_hdl s' = h) by (by apply (acquired_hdl i w1 (new_stream h) rc w2 s' Hi1 eq_refl E2 Hs2)).
  assert (Hlen2 : (i < length (<[i := new_stream h]> (streams (ch w))))%nat) by (rewrite length_insert; by eapply lookup_lt_Some).
  assert (Hi2 : streams (ch w2) !! i = Some s') by (rewrite Hs2; by apply list_lookup_insert_eq).
  rewrite (bind_run _ _ _ _ _ E2). simpl in Hn. destruct (rc =? 0).
  - rewrite (bind_run _ _ _ _ _ (stream_at_run i w2 s' Hi2)). rewrite Hhs. exists h, w2. split; [done|]. split; [done|].
    split; [|right; destruct Hh; split_and!; [done|unfold st; rewrite Hi2; cbn; by rewrite Hn|done]]. intros j Hj. rewrite Hs2. simpl.
    by rewrite !list_lookup_insert_ne.
  - unfold stream_upd. erewrite bind_run.
    2:{ rewrite (bind_run _ _ _ _ _ (stream_at_run i w2 s' Hi2)). reflexivity. }
    eexists 0, _. split; [reflexivity|]. simpl. split; [|split].
    + destruct Hc2 as [Hp Hl Hs]. constructor; simpl; [done|by rewrite length_insert|]. apply Forall_insert; [done|by split].
    + intros j Hj. rewrite Hs2. simpl. by rewrite !list_lookup_insert_ne.
    + left. split; [done|]. rewrite Hs2, list_lookup_insert_eq; [done|]. by rewrite length_insert.
Qed.

(** An event that the state of the channel does not handle changes nothing
    at all; it is answered 0, except in the unused state, which answers -1.
    In the active state this includes the mapping of a regular stream buffer,
    which the code logs as an error. *)
Theorem channel_fsm_unhandled evt w :
  match ch_state (ch w), evt with
  | MM_CHANNEL_STATE_NOTUSED, _ => mm_channel_fsm_fn evt w = Some ((-1, OutNone), w)
  | MM_CHANNEL_STATE_PAUSED, _ => mm_channel_fsm_fn evt w = Some ((0, OutNone), w)
  | MM_CHANNEL_STATE_STOPPED,
      (MM_CHANNEL_EVT_STOP | MM_CHANNEL_EVT_PAUSE | MM_CHANNEL_EVT_RESUME | MM_CHANNEL_EVT_REQUEST_SUPER_BUF _
      | MM_CHANNEL_EVT_CANCEL_REQUEST_SUPER_BUF | MM_CHANNEL_EVT_FLUSH_SUPER_BUF_QUEUE _
      | MM_CHANNEL_EVT_CONFIG_NOTIFY_MODE _) => mm_channel_fsm_fn evt w = Some ((0, OutNone), w)
  | MM_CHANNEL_STATE_ACTIVE,
      (MM_CHANNEL_EVT_ADD_STREAM | MM_CHANNEL_EVT_DEL_STREAM _ | MM_CHANNEL_EVT_CONFIG_STREAM _ _
      | MM_CHANNEL_EVT_GET_BUNDLE_INFO | MM_CHANNEL_EVT_START | MM_CHANNEL_EVT_PAUSE | MM_CHANNEL_EVT_RESUME
      | MM_CHANNEL_EVT_DELETE) => mm_channel_fsm_fn evt w = Some ((0, OutNone), w)
  | MM_CHANNEL_STATE_ACTIVE, MM_CHANNEL_EVT_MAP_STREAM_BUF p =>
      bool_decide (mp_buf_type <$> p = Some CAM_MAPPING_BUF_TYPE_OFFLINE_INPUT_BUF) = false ->
      mm_channel_fsm_fn evt w = Some ((0, OutNone), w)
  | MM_CHANNEL_STATE_ACTIVE, MM_CHANNEL_EVT_UNMAP_STREAM_BUF p =>
      bool_decide (up_buf_type <$> p = Some CAM_MAPPING_BUF_TYPE_OFFLINE_INPUT_BUF) = false ->
      mm_channel_fsm_fn evt w = Some ((0, OutNone), w)
  | _, _ => True
  end.
Proof.
  unfold mm_channel_fsm_fn, cget. destruct (ch_state (ch w)) eqn:Es.
  all: rewrite (bind_run _ _ w (ch_state (ch w)) w) by done; rewrite Es.
  all: destruct evt as [| | | | | | | | | | | |[p|]|[p|]| | | |]; try done.
  all: intros H; apply bool_decide_eq_false in H; simpl in *; rewrite (proj2 (Z.eqb_neq _ _)); [done|congruence].
Qed.

End Streams.

(** ** A concrete channel

    Two streams, preview and metadata, added and configured by the code. *)

Module DemoChannel.

Definition demo_chan_env : ChanEnv := {| env_metadata := fun _ _ =>
    Some {| is_prep_snapshot_done_valid := false; need_future_frame := false;
            is_good_frame_idx_range_valid := false; min_frame_idx := 0 |};
  env_uninit := fun _ => 0 |}.

#[local] Existing Instance demo_chan_env.
#[local] Existing Instance honest_env.

Definition demo_chan : cworld :=
  {| ch := {| ch_my_hdl := 512; ch_state := MM_CHANNEL_STATE_STOPPED;
              bundle := {| is_active := false;
                           superbuf_queue := superbuf_queue zero_bundle;
                           super_buf_notify_cb := Some 3; bundle_user_data := 0 |};
              pending_cnt := 0; ch_cmd_thread := None; ch_cb_thread := None; poll_thread := demo_poll;
              streams := replicate MAX_STREAM_NUM_IN_BUNDLE zero_stream;
              startZSlSnapshotCalled := false; needLEDFlash := false |};
     cw_cam := 256; cw_ctrl_fd := 4; cw_count := 2; cw_tr := []; cw_qbufs := [] |}.

Definition meta_config : mm_camera_stream_config_t :=
  {| c_stream_info := Some {| stream_svr_id := 0; stream_type := CAM_STREAM_TYPE_METADATA;
       fmt := fmt demo_info; dim := dim demo_info; buf_planes := zero_frame; pp_config := pp_config demo_info;
       reprocess_config := reprocess_config demo_info |};
     c_padding_info := c_padding_info demo_config; c_mem_vtbl := c_mem_vtbl demo_config;
     c_stream_cb := None; c_userdata := 0 |}.

(** The state after a sequence of events. *)
Fixpoint run_chan (evts : list mm_channel_evt_type_t) (w : cworld) : cworld :=
  match evts with
  | [] => w
  | e :: evts => match mm_channel_fsm_fn e w with Some (_, w) => run_chan evts w | None => w end
  end.

Definition demo_cfg : cworld :=
  Eval vm_compute in run_chan [MM_CHANNEL_EVT_ADD_STREAM; MM_CHANNEL_EVT_ADD_STREAM;
    MM_CHANNEL_EVT_CONFIG_STREAM 768 demo_config; MM_CHANNEL_EVT_CONFIG_STREAM 1025 meta_config] demo_chan.

Definition demo_started : cworld := Eval vm_compute in run_chan [MM_CHANNEL_EVT_START] demo_cfg.

Lemma demo_cfg_inv : chan_inv demo_cfg.
Proof.
  constructor; [by split|done|]. repeat (apply Forall_cons; split; [split; [done|]|]); try done.
  all: by repeat split; eexists.
Qed.

Lemma demo_cfg_ids : chan_ids (streams (ch demo_cfg)).
Proof.
  split.
  - intros [|[|[|[|i]]]] s; simpl; intros [= <-]; simpl; split; (lia || split; done || lia).
  - intros [|[|[|[|i]]]] [|[|[|[|j]]]] s t; simpl; intros [= <-] [= <-]; simpl; (done || lia).
Qed.

Lemma demo_cfg_ready : ready demo_cfg.
Proof. intros [|[|[|[|i]]]] s; simpl; intros [= <-]; simpl; (done || lia). Qed.

Lemma channel_start_all_or_nothing_witness : exists rc w',
  mm_channel_start demo_cfg = Some (rc, w') /\ chan_inv w' /\
  forall i, st w' i = if (rc =? 0) && bool_decide (in_use (streams (ch demo_cfg)) i)
                      then Some MM_STREAM_STATE_ACTIVE else st demo_cfg i.
Proof. exact (channel_start_all_or_nothing honest_ok demo_cfg demo_cfg_inv demo_cfg_ids demo_cfg_ready). Defined.

(** The metadata stream, in slot 1, is started first. *)
Lemma channel_start_stop_order_witness : exists l meta,
  collect (seq 0 MAX_STREAM_NUM_IN_BUNDLE) [] 0 demo_cfg = Some ((l, meta), demo_cfg) /\
  start_order l meta ≡ₚ used demo_cfg /\ stop_order l meta ≡ₚ used demo_cfg /\
  start_order l meta = [1; 0]%nat /\ stop_order l meta = [0; 1]%nat.
Proof.
  destruct (channel_start_stop_order demo_cfg demo_cfg_inv demo_cfg_ids
    (ready_configured demo_cfg demo_cfg_inv demo_cfg_ready)) as (l & meta & E1 & H1 & H2 & _).
  exists l, meta. split; [done|]. split; [done|]. split; [done|].
  vm_compute in E1. injection E1 as <- <-. split; reflexivity.
Defined.

(** A channel that does not bundle. *)
Definition demo_plain : cworld := put_ch (set_bundle zero_bundle (ch demo_cfg)) demo_cfg.

Lemma channel_stop_restores_witness : exists w',
  mm_channel_stop demo_plain = Some (0, w') /\ chan_inv w' /\
  forall i, st w' i = if bool_decide (in_use (streams (ch demo_plain)) i) then Some MM_STREAM_STATE_CFG else st demo_plain i.
Proof.
  apply (channel_stop_restores honest_ok demo_plain).
  - by destruct demo_cfg_inv.
  - apply demo_cfg_ids.
  - apply (ready_configured demo_cfg demo_cfg_inv demo_cfg_ready).
  - reflexivity.
  - intros i (s & Hi & Hh). exists (state s). split; [|left; by apply (demo_cfg_ready i s)].
    unfold st. by rewrite Hi.
Defined.

Lemma demo_chan_inv : chan_inv demo_chan.
Proof. constructor; [by split|done|]. repeat (apply Forall_cons; split; [by split|]). done. Qed.

Lemma channel_add_stream_spec_witness : exists h w', mm_channel_add_stream demo_chan = Some (h, w') /\
  h = 768 /\ st w' 0 = Some MM_STREAM_STATE_ACQUIRED.
Proof.
  destruct (channel_add_stream_spec honest_ok demo_chan demo_chan_inv) as (h & w' & E1 & _); [simpl; lia|].
  exists h, w'. split; [exact E1|]. vm_compute in E1. injection E1 as <- <-. split; reflexivity.
Defined.

(** *** A kernel that refuses to start the second stream *)

Definition refusing_env : Env := {|
  VENUS := None; A_FAMILY := true;
  env_open := @env_open demo_env;
  env_ioctl := fun tr d r => match r with VIDIOC_STREAMON => if d =? 11 then 0 else -1 | _ => 0 end;
  env_extendedmode := @env_extendedmode demo_env;
  env_dqbuf := @env_dqbuf honest_env;
  env_pipe := @env_pipe demo_env;
  env_write := @env_write demo_env;
  env_malloc := @env_malloc demo_env;
  env_sync_info := @env_sync_info demo_env;
  env_send := @env_send demo_env;
  env_map_done := @env_map_done demo_env;
  env_get_bufs := @env_get_bufs demo_env;
  env_put_bufs := @env_put_bufs demo_env;
  env_invalidate_buf := @env_invalidate_buf demo_env;
  env_clean_invalidate_buf := @env_clean_invalidate_buf demo_env;
  env_cb_returns := @env_cb_returns demo_env
|}.

Lemma refusing_ok : @env_ok refusing_env.
Proof. destruct honest_ok. by split. Qed.

Definition demo_failed : Z * cworld :=
  Eval vm_compute in match mm_channel_start (E := refusing_env) demo_cfg with Some r => r | None => (0, demo_cfg) end.

Lemma channel_failed_start_keeps_threads_witness :
  mm_channel_fsm_fn (E := refusing_env) MM_CHANNEL_EVT_START demo_cfg = Some ((-1, OutNone), demo_failed.2) /\
  bundle_running demo_failed.2 /\
  mm_channel_fsm_fn (E := refusing_env) MM_CHANNEL_EVT_STOP demo_failed.2 = Some ((0, OutNone), demo_failed.2).
Proof.
  apply (channel_failed_start_keeps_threads (E := refusing_env) refusing_ok demo_cfg demo_cfg_inv demo_cfg_ids
    demo_cfg_ready eq_refl (ex_intro _ 3 eq_refl) (-1) demo_failed.2); [vm_compute; reflexivity|done].
Defined.

(** *** The first buffer of a frame in the started channel *)

Definition demo_buf : mm_camera_buf_info_t :=
  {| bi_stream_id := 768; bi_frame_idx := 5; bi_buf := Some {| br_stream := 768; br_idx := 0 |} |}.

Lemma demo_live : live_ref demo_started {| br_stream := 768; br_idx := 0 |}.
Proof.
  eexists 0%nat, _, _. split; [vm_compute; reflexivity|]. split; [done|]. split; [|split; [vm_compute; reflexivity|done]].
  eexists _, _. split; [reflexivity|]. split; [reflexivity|]. split; [done|]. split; [done|]. split; [done|].
  split; [|repeat constructor; simpl; lia]. intros [|[|n]] b; simpl; intros [= <-]; done.
Qed.

Lemma demo_incoming : incoming demo_started [] [] 1 demo_buf {| br_stream := 768; br_idx := 0 |}.
Proof.
  constructor; try done.
  - constructor; try done; try (simpl; lia); constructor.
  - apply Forall_singleton, demo_live.
  - intros n Hn. by apply elem_of_nil in Hn.
Qed.

Lemma process_stream_buf_conserves_witness : exists rc w1 w' m' u' ret sent,
  mm_channel_handle_metadata 0 demo_buf demo_started = Some (rc, w1) /\ (rc = 0 \/ rc = -1) /\
  mm_channel_process_stream_buf (MM_CAMERA_CMD_TYPE_DATA_CB demo_buf) demo_started = Some (tt, w') /\
  queue_ok (get_queue w') m' u' /\ returned w' = returned demo_started ++ ret /\
  cb_queue w' = cb_queue demo_started ++
    map (fun n => MM_CAMERA_CMD_TYPE_SUPER_BUF_DATA_CB (sb_of demo_started n)) sent /\
  Forall all_slots_of_frame sent /\
  all_bufs (m' ++ u') ++ ret ++ all_bufs sent ≡ₚ (if rc =? 0 then [{| br_stream := 768; br_idx := 0 |}] else []) ++ [] /\
  Z.of_nat (length m') <= 0.
Proof.
  refine (process_stream_buf_conserves (eo_malloc honest_ok) demo_buf _ 1 demo_started [] [] demo_incoming _ _ _ _).
  - simpl. lia.
  - by eexists.
  - by eexists.
  - done.
Defined.

(** *** A complete super buffer in the queue *)

Definition demo_meta : mm_camera_buf_info_t :=
  {| bi_stream_id := 1025; bi_frame_idx := 5; bi_buf := Some {| br_stream := 1025; br_idx := 0 |} |}.

Definition demo_node : mm_channel_queue_node_t :=
  {| num_of_bufs := 2; super_buf := [demo_meta; demo_buf; empty_info; empty_info]; matched := true; n_frame_idx := 5 |}.

Definition demo_full : cworld :=
  set_queue {| que := [demo_node]; que_size := 1; num_streams := 2; bundled_streams := [1025; 768; 0; 0];
               attr := {| notify_mode := MM_CAMERA_SUPER_BUF_NOTIFY_BURST; water_mark := 1; look_back := 1;
                          post_frame_skip := 0; max_unmatched_frames := 1;
                          priority := MM_CAMERA_SUPER_BUF_PRIORITY_NORMAL |};
               expected_frame_id := 5; match_cnt := 1 |} demo_started.

Lemma demo_full_ok : queue_ok (get_queue demo_full) [demo_node] [].
Proof.
  constructor; try done; try (simpl; lia); try constructor; try done; constructor; try done.
  repeat (apply Forall_cons; split; [first [by left|right; split_and!; [done|done|by eexists]]|]). by apply Forall_nil.
Qed.

Lemma demo_live_meta : live_ref demo_started {| br_stream := 1025; br_idx := 0 |}.
Proof.
  eexists 1%nat, _, _. split; [vm_compute; reflexivity|]. split; [done|]. split; [|split; [vm_compute; reflexivity|done]].
  eexists _, _. split; [reflexivity|]. split; [reflexivity|]. split; [done|]. split; [done|]. split; [done|].
  split; [|repeat constructor; simpl; lia]. intros [|[|n]] b; simpl; intros [= <-]; done.
Qed.

Lemma demo_full_valid : Forall (valid demo_full) (all_bufs [demo_node]).
Proof. apply Forall_cons. split; [exact demo_live_meta|]. apply Forall_singleton. exact demo_live. Qed.

(** Two are requested, one is there. *)
Lemma process_request_serves_witness : exists w',
  mm_channel_process_stream_buf (MM_CAMERA_CMD_TYPE_REQ_DATA_CB 2) demo_full = Some (tt, w') /\
  returned w' = [] /\
  cb_queue w' = [MM_CAMERA_CMD_TYPE_SUPER_BUF_DATA_CB (sb_of demo_full demo_node)] /\
  queue_ok (get_queue w') [] [] /\ pending_cnt (ch w') = 1.
Proof.
  refine (process_request_serves (eo_malloc honest_ok) 2 demo_full [demo_node] [] demo_full_ok demo_full_valid
    eq_refl _ _ _ _ _); [simpl; lia|simpl; lia|by eexists|by eexists|done].
Defined.

Lemma process_flush_empties_witness : exists w',
  mm_channel_process_stream_buf (MM_CAMERA_CMD_TYPE_FLUSH_QUEUE 9) demo_full = Some (tt, w') /\
  returned w' = [{| br_stream := 1025; br_idx := 0 |}; {| br_stream := 768; br_idx := 0 |}] /\
  queue_ok (get_queue w') [] [] /\ expected_frame_id (get_queue w') = 9 /\ cb_queue w' = cb_queue demo_full.
Proof. exact (process_flush_empties 9 demo_full [demo_node] [] demo_full_ok demo_full_valid). Defined.

End DemoChannel.
