(* ===== verification/Camera.v ===== *)
(** * The camera object ([mm_camera.c], [mm_camera_sock.c])

    A camera object owns the control device, the domain socket of the server,
    up to sixteen channels, the event thread that tells the application of
    server events and the poll thread that receives them.  Its operations are
    called with [cam_lock] held and give it up: at once after the work, or,
    when a channel does the work, as soon as the channel's own lock is taken.

    Camera objects live in a heap; an operation gets the address of its
    object, as the code does.  The mutexes the calling thread holds are part
    of the state: locking one twice, or unlocking or destroying the wrong one,
    has no result. *)

From Stdlib Require Import ZArith Lia.
From stdpp Require Import numbers list gmap strings.
From S2P Require Import Prelude CamTypes StreamOffset Env DevName Handles Threads Stream SuperBuf Channel.

(** ** Data *)

Definition MM_CAMERA_CHANNEL_MAX : nat := 16.
Definition MM_CAMERA_EVT_ENTRY_MAX : nat := 4.
Definition MM_CAMERA_DEV_OPEN_TRIES : nat := 2.
Definition MM_CAMERA_DEV_OPEN_RETRY_SLEEP : Z := 20.
Definition EIO : Z := 5.

(** A registered callback; the null user data is 0. *)
Record mm_camera_evt_entry_t := { evt_cb : option Z; evt_user_data : Z }.
Record mm_camera_evt_obj_t := { evts : list mm_camera_evt_entry_t; reg_count : Z }.

(** The virtual table is the handle; its operations are the same for every
    camera (Interface). *)
Record mm_camera_obj_t := {
  cam_my_hdl : Z;
  ref_count : Z;
  ctrl_fd : Z;
  ds_fd : Z;
  chs : list mm_channel_t;
  evt : mm_camera_evt_obj_t;
  evt_poll_thread : mm_camera_poll_thread_t;
  evt_thread : option mm_camera_cmd_thread_t;
  vtbl_camera_handle : Z;
  evt_rcvd : mm_camera_event_t
}.

Definition set_ref_count (v : Z) (x : mm_camera_obj_t) : mm_camera_obj_t :=
  {| cam_my_hdl := cam_my_hdl x; ref_count := v; ctrl_fd := ctrl_fd x; ds_fd := ds_fd x; chs
     := chs x; evt := evt x; evt_poll_thread := evt_poll_thread x; evt_thread := evt_thread
     x; vtbl_camera_handle := vtbl_camera_handle x; evt_rcvd := evt_rcvd x |}.

Definition set_ctrl_fd (v : Z) (x : mm_camera_obj_t) : mm_camera_obj_t :=
  {| cam_my_hdl := cam_my_hdl x; ref_count := ref_count x; ctrl_fd := v; ds_fd := ds_fd x;
     chs := chs x; evt := evt x; evt_poll_thread := evt_poll_thread x; evt_thread :=
     evt_thread x; vtbl_camera_handle := vtbl_camera_handle x; evt_rcvd := evt_rcvd x |}.

Definition set_ds_fd (v : Z) (x : mm_camera_obj_t) : mm_camera_obj_t :=
  {| cam_my_hdl := cam_my_hdl x; ref_count := ref_count x; ctrl_fd := ctrl_fd x; ds_fd := v;
     chs := chs x; evt := evt x; evt_poll_thread := evt_poll_thread x; evt_thread :=
     evt_thread x; vtbl_camera_handle := vtbl_camera_handle x; evt_rcvd := evt_rcvd x |}.

Definition set_chs (v : list mm_channel_t) (x : mm_camera_obj_t) : mm_camera_obj_t :=
  {| cam_my_hdl := cam_my_hdl x; ref_count := ref_count x; ctrl_fd := ctrl_fd x; ds_fd :=
     ds_fd x; chs := v; evt := evt x; evt_poll_thread := evt_poll_thread x; evt_thread :=
     evt_thread x; vtbl_camera_handle := vtbl_camera_handle x; evt_rcvd := evt_rcvd x |}.

Definition set_evt (v : mm_camera_evt_obj_t) (x : mm_camera_obj_t) : mm_camera_obj_t :=
  {| cam_my_hdl := cam_my_hdl x; ref_count := ref_count x; ctrl_fd := ctrl_fd x; ds_fd :=
     ds_fd x; chs := chs x; evt := v; evt_poll_thread := evt_poll_thread x; evt_thread :=
     evt_thread x; vtbl_camera_handle := vtbl_camera_handle x; evt_rcvd := evt_rcvd x |}.

Definition set_evt_poll_thread (v : mm_camera_poll_thread_t) (x : mm_camera_obj_t) : mm_camera_obj_t :=
  {| cam_my_hdl := cam_my_hdl x; ref_count := ref_count x; ctrl_fd := ctrl_fd x; ds_fd :=
     ds_fd x; chs := chs x; evt := evt x; evt_poll_thread := v; evt_thread := evt_thread x;
     vtbl_camera_handle := vtbl_camera_handle x; evt_rcvd := evt_rcvd x |}.

Definition set_evt_thread (v : option mm_camera_cmd_thread_t) (x : mm_camera_obj_t) : mm_camera_obj_t :=
  {| cam_my_hdl := cam_my_hdl x; ref_count := ref_count x; ctrl_fd := ctrl_fd x; ds_fd :=
     ds_fd x; chs := chs x; evt := evt x; evt_poll_thread := evt_poll_thread x; evt_thread
     := v; vtbl_camera_handle := vtbl_camera_handle x; evt_rcvd := evt_rcvd x |}.

Definition set_evt_rcvd (v : mm_camera_event_t) (x : mm_camera_obj_t) : mm_camera_obj_t :=
  {| cam_my_hdl := cam_my_hdl x; ref_count := ref_count x; ctrl_fd := ctrl_fd x; ds_fd :=
     ds_fd x; chs := chs x; evt := evt x; evt_poll_thread := evt_poll_thread x; evt_thread
     := evt_thread x; vtbl_camera_handle := vtbl_camera_handle x; evt_rcvd := v |}.

Definition zero_evt_entry : mm_camera_evt_entry_t := {| evt_cb := None; evt_user_data := 0 |}.
Definition zero_event : mm_camera_event_t := {| server_event_type := 0; evt_status := 0 |}.

(** [memset(ch_obj, 0, sizeof(mm_channel_t))]. *)
Definition zero_channel : mm_channel_t :=
  {| ch_my_hdl := 0; ch_state := MM_CHANNEL_STATE_NOTUSED; bundle := zero_bundle; pending_cnt := 0;
     ch_cmd_thread := None; ch_cb_thread := None; poll_thread := zero_poll_thread;
     streams := replicate MAX_STREAM_NUM_IN_BUNDLE zero_stream; startZSlSnapshotCalled := false;
     needLEDFlash := false |}.

(** [memset(cam_obj, 0, sizeof(mm_camera_obj_t))]. *)
Definition zero_camera : mm_camera_obj_t :=
  {| cam_my_hdl := 0; ref_count := 0; ctrl_fd := 0; ds_fd := 0;
     chs := replicate MM_CAMERA_CHANNEL_MAX zero_channel;
     evt := {| evts := replicate MM_CAMERA_EVT_ENTRY_MAX zero_evt_entry; reg_count := 0 |};
     evt_poll_thread := zero_poll_thread; evt_thread := None; vtbl_camera_handle := 0;
     evt_rcvd := zero_event |}.

(** [g_cam_ctrl]. *)
Record mm_camera_ctrl_t := {
  num_cam : Z; video_dev_name : list string; cam_obj : list (option positive)
}.

(** The mutexes: the global one of the interface, and those of a camera and
    of a channel of a camera. *)
Inductive mutex : Set :=
| g_intf_lock
| cam_lock (p : positive)
| cb_lock (p : positive)
| ch_lock (p : positive) (i : nat).

#[export] Instance mutex_eq_dec : EqDecision mutex.
Proof. solve_decision. Defined.

(** What one thread works on; [iw_locks] are the mutexes it holds. *)
Record iworld := {
  iw_ctrl : mm_camera_ctrl_t;
  iw_heap : gmap positive mm_camera_obj_t;
  iw_count : Z;
  iw_locks : list mutex;
  iw_tr : history;
  iw_qbufs : list buf_ref
}.

Definition put_iw_ctrl (v : mm_camera_ctrl_t) (x : iworld) : iworld :=
  {| iw_ctrl := v; iw_heap := iw_heap x; iw_count := iw_count x; iw_locks := iw_locks x;
     iw_tr := iw_tr x; iw_qbufs := iw_qbufs x |}.

Definition put_iw_heap (v : gmap positive mm_camera_obj_t) (x : iworld) : iworld :=
  {| iw_ctrl := iw_ctrl x; iw_heap := v; iw_count := iw_count x; iw_locks := iw_locks x;
     iw_tr := iw_tr x; iw_qbufs := iw_qbufs x |}.

Definition put_iw_count (v : Z) (x : iworld) : iworld :=
  {| iw_ctrl := iw_ctrl x; iw_heap := iw_heap x; iw_count := v; iw_locks := iw_locks x;
     iw_tr := iw_tr x; iw_qbufs := iw_qbufs x |}.

Definition put_iw_locks (v : list mutex) (x : iworld) : iworld :=
  {| iw_ctrl := iw_ctrl x; iw_heap := iw_heap x; iw_count := iw_count x; iw_locks := v;
     iw_tr := iw_tr x; iw_qbufs := iw_qbufs x |}.

Definition put_iw_tr (v : history) (x : iworld) : iworld :=
  {| iw_ctrl := iw_ctrl x; iw_heap := iw_heap x; iw_count := iw_count x; iw_locks :=
     iw_locks x; iw_tr := v; iw_qbufs := iw_qbufs x |}.

(** An event from the kernel, as [VIDIOC_DQEVENT] fills it in. *)
Record v4l2_event := { ev_id : Z; ev_command : Z; ev_event_status : Z }.

(** A media entity, as [MEDIA_IOC_ENUM_ENTITIES] fills it in. *)
Record media_entity_desc := { ent_type : Z; ent_group_id : Z; ent_name : string }.

(** The rest of the kernel: constants of its headers, and the calls that only
    the camera object and the device discovery make. *)
Class CamEnv := {
  MSM_MAX_CAMERA_SENSORS : nat;
  MSM_CAMERA_NAME : string;
  MSM_CAMERA_MSM_NOTIFY : Z;
  MSM_CAMERA_PRIV_SHUTDOWN : Z;
  MEDIA_ENT_T_DEVNODE_V4L : Z;
  QCAMERA_VNODE_GROUP_ID : Z;
  (** the descriptor, and [errno] *)
  env_open_path : history -> string -> Z * Z;
  env_socket : history -> Z;
  env_connect : history -> string -> Z;
  env_dqevent : history -> Z -> Z * v4l2_event;
  env_media_info : history -> Z -> Z * string;
  env_entity : history -> Z -> Z -> option media_entity_desc
}.

Section Camera.
Context `{E : Env, CE : ChanEnv, KE : CamEnv}.

(** ** Access to the state *)

Definition iext {A} (m : M history A) : M iworld A := zoom iw_tr put_iw_tr m.

Definition obj_at (my_obj : positive) : M iworld mm_camera_obj_t := w ← get; deref (iw_heap w !! my_obj).
Definition oget {A} (my_obj : positive) (f : mm_camera_obj_t -> A) : M iworld A := o ← obj_at my_obj; mret (f o).
Definition oupd (my_obj : positive) (f : mm_camera_obj_t -> mm_camera_obj_t) : M iworld unit :=
  o ← obj_at my_obj; modify (fun w => put_iw_heap (<[my_obj := f o]> (iw_heap w)) w).

Definition mutex_lock (l : mutex) : M iworld unit :=
  held ← gets iw_locks;
  if decide (l ∈ held) then stuck else modify (put_iw_locks (l :: held)).
Definition mutex_unlock (l : mutex) : M iworld unit :=
  held ← gets iw_locks;
  if decide (l ∈ held) then modify (put_iw_locks (filter (fun k => k <> l) held)) else stuck.
Definition mutex_destroy (l : mutex) : M iworld unit :=
  held ← gets iw_locks; if decide (l ∈ held) then stuck else mret tt.

(** Runs a channel operation on channel [i] of a camera. *)
Definition channel_world (o : mm_camera_obj_t) (c : mm_channel_t) (w : iworld) : cworld :=
  {| ch := c; cw_cam := cam_my_hdl o; cw_ctrl_fd := ctrl_fd o; cw_count := iw_count w; cw_tr := iw_tr w;
     cw_qbufs := iw_qbufs w |}.
Definition put_channel_world (p : positive) (o : mm_camera_obj_t) (i : nat) (x : cworld) (w : iworld) : iworld :=
  {| iw_ctrl := iw_ctrl w; iw_heap := <[p := set_chs (<[i := ch x]> (chs o)) o]> (iw_heap w);
     iw_count := cw_count x; iw_locks := iw_locks w; iw_tr := cw_tr x; iw_qbufs := cw_qbufs x |}.
Definition on_channel {A} (p : positive) (i : nat) (m : M cworld A) : M iworld A :=
  o ← obj_at p; c ← deref (chs o !! i); zoom (channel_world o c) (put_channel_world p o i) m.

(** Runs an operation of the event poll thread. *)
Definition on_evt_poll {A} (p : positive) (m : M pworld A) : M iworld A :=
  o ← obj_at p;
  zoom (fun w => {| pw_poll := evt_poll_thread o; pw_tr := iw_tr w |})
       (fun x w => put_iw_heap (<[p := set_evt_poll_thread (pw_poll x) o]> (iw_heap w)) (put_iw_tr (pw_tr x) w)) m.

Definition evt_get (p : positive) (w : iworld) : option mm_camera_cmd_thread_t := iw_heap w !! p ≫= evt_thread.
Definition evt_set (p : positive) (t : option mm_camera_cmd_thread_t) (w : iworld) : iworld :=
  put_iw_heap (alter (set_evt_thread t) p (iw_heap w)) w.

Definition mm_camera_util_get_channel_by_handler (cam : mm_camera_obj_t) (handler : Z) : option nat :=
  fst <$> list_find (fun c => handler = ch_my_hdl c) (chs cam).

Definition find_channel (my_obj : positive) (handler : Z) : M iworld (option nat) :=
  oget my_obj (fun o => mm_camera_util_get_channel_by_handler o handler).

(** ** Events of the server *)

(** One application callback. *)
Definition call_evt_cb (hdl : Z) (event : mm_camera_event_t) (e : mm_camera_evt_entry_t) : M iworld unit :=
  match evt_cb e with
  | Some cb => iext (note (EAppEvent cb hdl event (evt_user_data e)))
  | None => mret tt
  end.

(** The callback of the event thread. *)
Definition mm_camera_dispatch_app_event (my_obj : positive) (cmd : mm_camera_cmdcb_t) : M iworld unit :=
  match cmd with
  | MM_CAMERA_CMD_TYPE_EVT_CB event =>
      mutex_lock (cb_lock my_obj);;
      o ← obj_at my_obj;
      for_each (evts (evt o)) (call_evt_cb (cam_my_hdl o) event);;
      mutex_unlock (cb_lock my_obj)
  | _ => mret tt
  end.

Definition mm_camera_enqueue_evt (my_obj : positive) (event : mm_camera_event_t) : M iworld Z :=
  ok ← cmd_post (evt_get my_obj) (evt_set my_obj) (@iext) (MM_CAMERA_CMD_TYPE_EVT_CB event);
  mret (if ok : bool then 0 else -1).

(** The callback of the event poll thread. *)
Definition mm_camera_event_notify (my_obj : positive) : M iworld unit :=
  d ← oget my_obj ctrl_fd;
  r ← iext (ext (fun tr => env_dqevent tr d) (fun r => EDqevent d r.1));
  let '(rc, ev) := (r : Z * v4l2_event) in
  if (0 <=? rc) && (ev_id ev =? MSM_CAMERA_MSM_NOTIFY) then
    if ev_command ev =? CAM_EVENT_TYPE_MAP_UNMAP_DONE then
      oupd my_obj (set_evt_rcvd {| server_event_type := ev_command ev; evt_status := ev_event_status ev |})
    else if ev_command ev =? MSM_CAMERA_PRIV_SHUTDOWN then
      mm_camera_enqueue_evt my_obj {| server_event_type := CAM_EVENT_TYPE_DAEMON_DIED; evt_status := 0 |};;
      mret tt
    else mret tt
  else mret tt.

(** The callback [mm_camera_event_notify] as a function pointer. *)
Definition EVENT_NOTIFY : Z := 2.

Definition mm_camera_evt_sub (my_obj : positive) (reg_flag : bool) : M iworld Z :=
  o ← obj_at my_obj;
  if reg_flag then
    rc ← iext (sys_ioctl (ctrl_fd o) VIDIOC_SUBSCRIBE_EVENT);
    if rc <? 0 then mret rc
    else on_evt_poll my_obj
           (mm_camera_poll_thread_add_poll_fd (cam_my_hdl o) (ctrl_fd o) (Some EVENT_NOTIFY) (Zpos my_obj))
  else
    rc ← iext (sys_ioctl (ctrl_fd o) VIDIOC_UNSUBSCRIBE_EVENT);
    if rc <? 0 then mret rc
    else on_evt_poll my_obj (mm_camera_poll_thread_del_poll_fd (cam_my_hdl o)).

(** ** The domain socket *)

Inductive mm_camera_sock_type_t : Set :=
| MM_CAMERA_SOCK_TYPE_UDP
| MM_CAMERA_SOCK_TYPE_TCP.

(** The type decides between [SOCK_DGRAM] and [SOCK_STREAM], which the kernel
    answers alike. *)
Definition mm_camera_socket_create (cam_id : Z) (sock_type : mm_camera_sock_type_t) : M history Z :=
  socket_fd ← ext env_socket ESocket;
  if socket_fd <? 0 then mret socket_fd
  else
    rc ← ext (fun tr => env_connect tr (socket_path cam_id)) (EConnect socket_fd (socket_path cam_id));
    if rc =? 0 then mret socket_fd
    else sys_close socket_fd;; mret (-1).

Definition mm_camera_socket_close (fd : Z) : M history unit :=
  if 0 <? fd then sys_close fd else mret tt.

(** ** Opening and closing *)

(** The name of the video node of a camera, null for an index out of range. *)
Definition mm_camera_util_get_dev_name (ctrl : mm_camera_ctrl_t) (cam_handle : Z) : option string :=
  let cam_idx := mm_camera_util_get_index_by_handler cam_handle in
  if cam_idx <? Z.of_nat MSM_MAX_CAMERA_SENSORS then video_dev_name ctrl !! Z.to_nat cam_idx else None.

Definition retry_sleep : M iworld unit := iext (note (ESleep (MM_CAMERA_DEV_OPEN_RETRY_SLEEP * 1000))).

(** The loop that opens the control device; [n_try] tries are left after the
    one it begins with. *)
Fixpoint open_dev (my_obj : positive) (dev : string) (n_try : nat) : M iworld unit :=
  r ← iext (ext (fun tr => env_open_path tr dev) (fun r => EOpenPath dev r.1));
  let '(fd, errno) := (r : Z * Z) in
  oupd my_obj (set_ctrl_fd fd);;
  if (0 <? fd) || negb (errno =? EIO) then mret tt
  else match n_try with
       | O => mret tt
       | S n_try => retry_sleep;; open_dev my_obj dev n_try
       end.

(** The loop that opens the socket. *)
Fixpoint open_socket (my_obj : positive) (cam_idx : Z) (n_try : nat) : M iworld unit :=
  fd ← iext (mm_camera_socket_create cam_idx MM_CAMERA_SOCK_TYPE_UDP);
  oupd my_obj (set_ds_fd fd);;
  if 0 <? fd then mret tt
  else match n_try with
       | O => mret tt
       | S n_try => retry_sleep;; open_socket my_obj cam_idx n_try
       end.

(** Closing what is open: the end of [mm_camera_open] on an error, and a part
    of [mm_camera_close]. *)
Definition close_fds (my_obj : positive) : M iworld unit :=
  d ← oget my_obj ctrl_fd;
  (if 0 <? d then iext (sys_close d);; oupd my_obj (set_ctrl_fd 0) else mret tt);;
  d ← oget my_obj ds_fd;
  (if 0 <? d then iext (mm_camera_socket_close d);; oupd my_obj (set_ds_fd 0) else mret tt).

Definition mm_camera_open (my_obj : positive) : M iworld Z :=
  o ← obj_at my_obj;
  ctrl ← gets iw_ctrl;
  let dev := dev_name (mm_camera_util_get_dev_name ctrl (cam_my_hdl o)) in
  let cam_idx := dev_index dev in
  open_dev my_obj dev (MM_CAMERA_DEV_OPEN_TRIES - 1);;
  d ← oget my_obj ctrl_fd;
  if d <=? 0 then close_fds my_obj;; mret (-1)
  else
    open_socket my_obj cam_idx (MM_CAMERA_DEV_OPEN_TRIES - 1);;
    d ← oget my_obj ds_fd;
    if d <=? 0 then close_fds my_obj;; mret (-1)
    else
      mm_camera_cmd_thread_launch T_camera_evt (evt_set my_obj) (@iext);;
      on_evt_poll my_obj (mm_camera_poll_thread_launch MM_CAMERA_POLL_TYPE_EVT);;
      mm_camera_evt_sub my_obj true;;
      mret 0.

(** [mm_camera_close] up to the release of [cam_lock]. *)
Definition close_camera (my_obj : positive) : M iworld unit :=
  mm_camera_evt_sub my_obj false;;
  on_evt_poll my_obj mm_camera_poll_thread_release;;
  mm_camera_cmd_thread_release T_camera_evt (evt_get my_obj) (evt_set my_obj) (@iext)
    (mm_camera_dispatch_app_event my_obj);;
  close_fds my_obj;;
  mutex_destroy (cb_lock my_obj).

Definition mm_camera_close (my_obj : positive) : M iworld Z :=
  close_camera my_obj;;
  mutex_unlock (cam_lock my_obj);;
  mret 0.

(** ** Registering for events *)

Definition upd_entry (i : nat) (e : mm_camera_evt_entry_t) (d : Z) (t : mm_camera_evt_obj_t) : mm_camera_evt_obj_t :=
  {| evts := <[i := e]> (evts t); reg_count := reg_count t +i d |}.

(** The table after a registration or, with a null callback, its removal. *)
Definition register_entry (cb : option Z) (user_data : Z) (t : mm_camera_evt_obj_t) : Z * mm_camera_evt_obj_t :=
  match cb with
  | Some _ =>
      match list_find (fun e => evt_user_data e = 0) (evts t) with
      | Some (i, _) => (0, upd_entry i {| evt_cb := cb; evt_user_data := user_data |} 1 t)
      | None => (-1, t)
      end
  | None =>
      match list_find (fun e => evt_user_data e = user_data) (evts t) with
      | Some (i, _) => (0, upd_entry i zero_evt_entry (-1) t)
      | None => (-1, t)
      end
  end.

Definition mm_camera_register_event_notify_internal (my_obj : positive) (cb : option Z) (user_data : Z) : M iworld Z :=
  mutex_lock (cb_lock my_obj);;
  o ← obj_at my_obj;
  let '(rc, t) := register_entry cb user_data (evt o) in
  oupd my_obj (set_evt t);;
  mutex_unlock (cb_lock my_obj);;
  mret rc.

Definition mm_camera_register_event_notify (my_obj : positive) (cb : option Z) (user_data : Z) : M iworld Z :=
  rc ← mm_camera_register_event_notify_internal my_obj cb user_data;
  mutex_unlock (cam_lock my_obj);;
  mret rc.

(** ** Controls of the whole camera

    The pointers to parameter buffers are only compared with null. *)

Definition mm_camera_query_capability (my_obj : positive) : M iworld Z :=
  d ← oget my_obj ctrl_fd;
  rc ← iext (sys_ioctl d VIDIOC_QUERYCAP);
  mutex_unlock (cam_lock my_obj);;
  mret rc.

Definition mm_camera_set_parms (my_obj : positive) (parms : bool) : M iworld Z :=
  d ← oget my_obj ctrl_fd;
  rc ← (if parms then iext (mm_camera_util_s_ctrl d CAM_PRIV_PARM 0) else mret (-1));
  mutex_unlock (cam_lock my_obj);;
  mret rc.

Definition mm_camera_get_parms (my_obj : positive) (parms : bool) : M iworld Z :=
  d ← oget my_obj ctrl_fd;
  rc ← (if parms then iext (mm_camera_util_g_ctrl d CAM_PRIV_PARM 0) else mret (-1));
  mutex_unlock (cam_lock my_obj);;
  mret rc.

Definition mm_camera_do_auto_focus (my_obj : positive) : M iworld Z :=
  d ← oget my_obj ctrl_fd;
  rc ← iext (mm_camera_util_s_ctrl d CAM_PRIV_DO_AUTO_FOCUS 0);
  mutex_unlock (cam_lock my_obj);;
  mret rc.

Definition mm_camera_cancel_auto_focus (my_obj : positive) : M iworld Z :=
  d ← oget my_obj ctrl_fd;
  rc ← iext (mm_camera_util_s_ctrl d CAM_PRIV_CANCEL_AUTO_FOCUS 0);
  mutex_unlock (cam_lock my_obj);;
  mret rc.

Definition mm_camera_prepare_snapshot (my_obj : positive) (do_af_flag : Z) : M iworld Z :=
  d ← oget my_obj ctrl_fd;
  rc ← iext (mm_camera_util_s_ctrl d CAM_PRIV_PREPARE_SNAPSHOT do_af_flag);
  mutex_unlock (cam_lock my_obj);;
  mret rc.

Definition mm_camera_map_buf (my_obj : positive) (buf_type fd size : Z) : M iworld Z :=
  rc ← iext (mm_camera_util_sendmsg
         (CAM_MAPPING_TYPE_FD_MAPPING
            {| map_type := buf_type; map_stream_id := 0; map_frame_idx := 0; map_plane_idx := 0; map_cookie := 0;
               map_fd := fd; map_size := size |}) fd);
  mutex_unlock (cam_lock my_obj);;
  mret rc.

Definition mm_camera_unmap_buf (my_obj : positive) (buf_type : Z) : M iworld Z :=
  rc ← iext (mm_camera_util_sendmsg
         (CAM_MAPPING_TYPE_FD_UNMAPPING
            {| unmap_type := buf_type; unmap_stream_id := 0; unmap_frame_idx := 0; unmap_plane_idx := 0;
               unmap_cookie := 0 |}) 0);
  mutex_unlock (cam_lock my_obj);;
  mret rc.

(** ** Channels *)

Definition mm_camera_add_channel (my_obj : positive) (attr : option mm_camera_channel_attr_t)
    (channel_cb : option Z) (userdata : Z) : M iworld Z :=
  o ← obj_at my_obj;
  ch_hdl ←
    match list_find (fun c => ch_state c = MM_CHANNEL_STATE_NOTUSED) (chs o) with
    | Some (ch_idx, _) =>
        count ← gets iw_count;
        let '(hdl, count) := mm_camera_util_generate_handler count (Z.of_nat ch_idx) in
        modify (put_iw_count count);;
        oupd my_obj (fun o => set_chs (<[ch_idx :=
          {| ch_my_hdl := hdl; ch_state := MM_CHANNEL_STATE_STOPPED; bundle := zero_bundle; pending_cnt := 0;
             ch_cmd_thread := None; ch_cb_thread := None; poll_thread := zero_poll_thread;
             streams := replicate MAX_STREAM_NUM_IN_BUNDLE zero_stream; startZSlSnapshotCalled := false;
             needLEDFlash := false |}]> (chs o)) o);;
        on_channel my_obj ch_idx (mm_channel_init attr channel_cb userdata);;
        mret hdl
    | None => mret 0
    end;
  mutex_unlock (cam_lock my_obj);;
  mret ch_hdl.

(** [mm_channel_fsm_fn] with the release of the channel's lock at its end. *)
Definition channel_evt (my_obj : positive) (i : nat) (e : mm_channel_evt_type_t) : M iworld (Z * evt_out) :=
  r ← on_channel my_obj i (mm_channel_fsm_fn e);
  mutex_unlock (ch_lock my_obj i);;
  mret r.

(** The shape of the operations below: the channel is found and its lock taken
    before the camera's is given up; [rc] is the answer without a channel. *)
Definition with_channel (my_obj : positive) (ch_id : Z) (rc : Z) (e : mm_channel_evt_type_t) : M iworld (Z * evt_out) :=
  i ← find_channel my_obj ch_id;
  match i with
  | Some i =>
      mutex_lock (ch_lock my_obj i);;
      mutex_unlock (cam_lock my_obj);;
      channel_evt my_obj i e
  | None => mutex_unlock (cam_lock my_obj);; mret (rc, OutNone)
  end.

Definition mm_camera_qbuf (my_obj : positive) (ch_id : Z) (buf : mm_camera_buf_def_t) : M iworld Z :=
  i ← find_channel my_obj ch_id;
  mutex_unlock (cam_lock my_obj);;
  match i with
  | Some i => on_channel my_obj i (mm_channel_qbuf buf)
  | None => mret (-1)
  end.

Definition mm_camera_del_channel (my_obj : positive) (ch_id : Z) : M iworld Z :=
  i ← find_channel my_obj ch_id;
  match i with
  | Some i =>
      mutex_lock (ch_lock my_obj i);;
      mutex_unlock (cam_lock my_obj);;
      r ← channel_evt my_obj i MM_CHANNEL_EVT_DELETE;
      mutex_destroy (ch_lock my_obj i);;
      oupd my_obj (fun o => set_chs (<[i := zero_channel]> (chs o)) o);;
      mret (fst r)
  | None => mutex_unlock (cam_lock my_obj);; mret (-1)
  end.

(** The status, and what is left in [bundle_info]. *)
Definition mm_camera_get_bundle_info (my_obj : positive) (ch_id : Z) : M iworld (Z * evt_out) :=
  with_channel my_obj ch_id (-1) MM_CHANNEL_EVT_GET_BUNDLE_INFO.

(** The handle the event leaves in [s_hdl], 0 before. *)
Definition mm_camera_add_stream (my_obj : positive) (ch_id : Z) : M iworld Z :=
  r ← with_channel my_obj ch_id 0 MM_CHANNEL_EVT_ADD_STREAM;
  mret (match snd r with OutHandle s_hdl => s_hdl | _ => 0 end).

Definition status_of (m : M iworld (Z * evt_out)) : M iworld Z := r ← m; mret (fst r).

Definition mm_camera_del_stream (my_obj : positive) (ch_id stream_id : Z) : M iworld Z :=
  status_of (with_channel my_obj ch_id (-1) (MM_CHANNEL_EVT_DEL_STREAM stream_id)).
Definition mm_camera_config_stream (my_obj : positive) (ch_id stream_id : Z) (config : mm_camera_stream_config_t) :
  M iworld Z :=
  status_of (with_channel my_obj ch_id (-1) (MM_CHANNEL_EVT_CONFIG_STREAM stream_id config)).
Definition mm_camera_start_channel (my_obj : positive) (ch_id : Z) : M iworld Z :=
  status_of (with_channel my_obj ch_id (-1) MM_CHANNEL_EVT_START).
(** Without a channel the answer is 0 here. *)
Definition mm_camera_stop_channel (my_obj : positive) (ch_id : Z) : M iworld Z :=
  status_of (with_channel my_obj ch_id 0 MM_CHANNEL_EVT_STOP).
Definition mm_camera_request_super_buf (my_obj : positive) (ch_id num_buf_requested : Z) : M iworld Z :=
  status_of (with_channel my_obj ch_id (-1) (MM_CHANNEL_EVT_REQUEST_SUPER_BUF num_buf_requested)).
Definition mm_camera_cancel_super_buf_request (my_obj : positive) (ch_id : Z) : M iworld Z :=
  status_of (with_channel my_obj ch_id (-1) MM_CHANNEL_EVT_CANCEL_REQUEST_SUPER_BUF).
Definition mm_camera_flush_super_buf_queue (my_obj : positive) (ch_id frame_idx : Z) : M iworld Z :=
  status_of (with_channel my_obj ch_id (-1) (MM_CHANNEL_EVT_FLUSH_SUPER_BUF_QUEUE frame_idx)).
Definition mm_camera_config_channel_notify (my_obj : positive) (ch_id : Z)
    (notify_mode : mm_camera_super_buf_notify_mode_t) : M iworld Z :=
  status_of (with_channel my_obj ch_id (-1) (MM_CHANNEL_EVT_CONFIG_NOTIFY_MODE notify_mode)).
Definition mm_camera_set_stream_parms (my_obj : positive) (ch_id s_id : Z) (parms : bool) : M iworld Z :=
  status_of (with_channel my_obj ch_id (-1) (MM_CHANNEL_EVT_SET_STREAM_PARM s_id parms)).
Definition mm_camera_get_stream_parms (my_obj : positive) (ch_id s_id : Z) (parms : bool) : M iworld Z :=
  status_of (with_channel my_obj ch_id (-1) (MM_CHANNEL_EVT_GET_STREAM_PARM s_id parms)).
Definition mm_camera_do_stream_action (my_obj : positive) (ch_id stream_id : Z) (actions : bool) : M iworld Z :=
  status_of (with_channel my_obj ch_id (-1) (MM_CHANNEL_EVT_DO_STREAM_ACTION stream_id actions)).
Definition mm_camera_map_stream_buf (my_obj : positive) (ch_id stream_id buf_type buf_idx plane_idx fd size : Z) :
  M iworld Z :=
  status_of (with_channel my_obj ch_id (-1) (MM_CHANNEL_EVT_MAP_STREAM_BUF
    (Some {| mp_stream_id := stream_id; mp_buf_type := buf_type; mp_buf_idx := buf_idx; mp_plane_idx := plane_idx;
             mp_fd := fd; mp_size := size |}))).
Definition mm_camera_unmap_stream_buf (my_obj : positive) (ch_id stream_id buf_type buf_idx plane_idx : Z) : M iworld Z :=
  status_of (with_channel my_obj ch_id (-1) (MM_CHANNEL_EVT_UNMAP_STREAM_BUF
    (Some {| up_stream_id := stream_id; up_buf_type := buf_type; up_buf_idx := buf_idx; up_plane_idx := plane_idx |}))).

End Camera.
