(* ===== verification/Sock.v ===== *)
(** * Messages on the domain socket ([mm_camera_sock.c])

    The two functions that exchange a message and a descriptor with the camera
    server, on the bytes of the control message.  The kernel is a class with
    the behaviour of a datagram socket that [unix(7)] and [cmsg(3)] describe:
    what is sent is received in one piece, and a descriptor in a control
    message of type [SCM_RIGHTS] is replaced by one of the receiver. *)

From Stdlib Require Import ZArith Lia.
From stdpp Require Import base numbers list list_numbers.
From S2P Require Import Prelude.

(** ** Control messages

    [struct cmsghdr] of the 32-bit target: [cmsg_len], [cmsg_level] and
    [cmsg_type], four bytes each, and the data behind it. *)

Definition bytes32 (z : Z) : list Z := Z_to_little_endian 4 8 z.
Definition word32 (l : list Z) : Z := little_endian_to_Z 8 l.

Definition sizeof_cmsghdr : Z := 12.
Definition CMSG_ALIGN (len : Z) : Z := align_up len 4.
Definition CMSG_LEN (len : Z) : Z := CMSG_ALIGN sizeof_cmsghdr + len.
Definition CMSG_SPACE (len : Z) : Z := CMSG_ALIGN sizeof_cmsghdr + CMSG_ALIGN len.

Definition SOL_SOCKET : Z := 1.
Definition SCM_RIGHTS : Z := 1.

(** The part of [struct msghdr] that is used: the bytes of the one buffer and
    of the control message; [None] for a null pointer. *)
Record msghdr := { msg_iov : list Z; msg_control : option (list Z) }.

(** [CMSG_FIRSTHDR] with [msg_controllen] the number of bytes: the first
    header, if there is room for one. *)
Definition CMSG_FIRSTHDR (control : option (list Z)) : option (list Z) :=
  c ← control; if sizeof_cmsghdr <=? Z.of_nat (length c) then Some c else None.

Definition cmsg_len (c : list Z) : Z := word32 (take 4 c).
Definition cmsg_level (c : list Z) : Z := i32 (word32 (take 4 (drop 4 c))).
Definition cmsg_type (c : list Z) : Z := i32 (word32 (take 4 (drop 8 c))).
Definition cmsg_int (c : list Z) : Z := i32 (word32 (take 4 (drop 12 c))).

(** The three fields and the descriptor are written into the array at the
    place [CMSG_FIRSTHDR] gives. *)
Definition write_rights (fd : Z) (c : list Z) : list Z :=
  bytes32 (CMSG_LEN 4) ++ bytes32 SOL_SOCKET ++ bytes32 SCM_RIGHTS ++ bytes32 fd ++ drop 16 c.

(** ** The kernel *)

Class SockEnv := {
  kstate : Type;
  (** what was there before in the array [control] *)
  k_stack : kstate -> list Z;
  k_sendmsg : Z -> msghdr -> kstate -> Z * kstate;
  (** the result, the bytes put into the buffer, and the control bytes *)
  k_recvmsg : Z -> Z -> Z -> kstate -> Z * list Z * list Z * kstate
}.

Section Sock.
Context `{K : SockEnv}.

(** The message is its bytes, [buf_size] many. *)
Definition send_packet (fd : Z) (msg : option (list Z)) (sendfd : Z) (k : kstate) : Z * kstate :=
  match msg with
  | None => (-1, k)
  | Some buf =>
      if 0 <? sendfd then
        let control := resize (Z.to_nat (CMSG_SPACE 4)) 0 (k_stack k) in
        match CMSG_FIRSTHDR (Some control) with
        | Some c => k_sendmsg fd {| msg_iov := buf; msg_control := Some (write_rights sendfd c) |} k
        | None => (-1, k)
        end
      else k_sendmsg fd {| msg_iov := buf; msg_control := None |} k
  end.

(** The result, what the buffer [msg] holds then, and what is stored at
    [rcvdfd] unless it is null; a call that fails stores nothing. *)
Definition mm_camera_socket_recvmsg (fd : Z) (msg : option (list Z)) (rcvdfd : option Z) (k : kstate) : Z * option (list Z) * option Z * kstate :=
  match msg with
  | None => (-1, msg, rcvdfd, k)
  | Some buf =>
      if Z.of_nat (length buf) <=? 0 then (-1, msg, rcvdfd, k)
      else
        let '(rcvd_len, l, control, k) := k_recvmsg fd (Z.of_nat (length buf)) (CMSG_SPACE 4) k in
        let msg := Some (l ++ drop (length l) buf) in
        if rcvd_len <=? 0 then (rcvd_len, msg, rcvdfd, k)
        else
          let rcvd_fd :=
            match CMSG_FIRSTHDR (Some control) with
            | Some c =>
                if cmsg_len c =? CMSG_LEN 4 then
                  if (cmsg_level c =? SOL_SOCKET) && (cmsg_type c =? SCM_RIGHTS) then cmsg_int c else -1
                else -1
            | None => -1
            end in
          (rcvd_len, msg, (fun _ => rcvd_fd) <$> rcvdfd, k)
  end.

End Sock.

(** ** What the kernel does *)

(** A control message that carries a descriptor. *)
Definition rights (fd : Z) : list Z := write_rights fd [].

(** [ends a b] the socket with descriptor [a] is connected to the one with
    [b]; [silent k]: nothing is on its way.  A message that is accepted is the
    next one that the other end receives, its tail cut off if the buffer is
    too small; the receiver's number for a descriptor is [k_dup], which is not
    negative. *)
Class SockLaws (K : SockEnv) := {
  ends : Z -> Z -> Prop;
  silent : kstate -> Prop;
  k_dup : Z -> kstate -> Z;
  k_dup_range fd k : 0 <= k_dup fd k < 2 ^ 31;
  k_accepts a m k n k' : silent k -> k_sendmsg a m k = (n, k') -> 0 <= n -> n = Z.of_nat (length (msg_iov m));
  k_delivers a b m k n k' size space : ends a b -> silent k -> k_sendmsg a m k = (n, k') -> 0 <= n -> 16 <= space ->
    (msg_control m = None \/ exists fd, msg_control m = Some (rights fd)) ->
    exists k'', silent k'' /\ k_recvmsg b size space k' =
      (Z.min size n, take (Z.to_nat size) (msg_iov m), match msg_control m with None => [] | Some c => rights (k_dup (cmsg_int c) k') end, k'')
}.

Section Roundtrip.
Context (K : SockEnv) {L : SockLaws K}.

Lemma bytes32_length z : length (bytes32 z) = 4%nat.
Proof. apply Nat2Z.inj. unfold bytes32. by rewrite length_Z_to_little_endian by lia. Qed.

Lemma word32_bytes32 z : word32 (bytes32 z) = u32 z.
Proof. unfold word32, bytes32. by rewrite little_endian_to_Z_to_little_endian by lia. Qed.

(** The word behind the bytes [a]. *)
Lemma word_at n a z b : length a = n -> word32 (take 4 (drop n (a ++ bytes32 z ++ b))) = u32 z.
Proof.
  intros <-. rewrite drop_app_length, take_app_le by (rewrite bytes32_length; lia). rewrite take_ge by (rewrite bytes32_length; lia). apply word32_bytes32.
Qed.

Lemma i32_u32 z : i32_range z -> i32 (u32 z) = z.
Proof. intros H. rewrite <- (i32_id z H) at 2. unfold i32, u32. by rewrite Zplus_mod_idemp_l. Qed.

(** What was written is read back. *)
Lemma rights_fields fd c : i32_range fd ->
  cmsg_len (write_rights fd c) = CMSG_LEN 4 /\ cmsg_level (write_rights fd c) = SOL_SOCKET /\ cmsg_type (write_rights fd c) = SCM_RIGHTS /\
  cmsg_int (write_rights fd c) = fd.
Proof.
  intros Hfd. unfold write_rights. split; [exact (word_at 0 [] _ _ eq_refl)|]. unfold cmsg_level, cmsg_type, cmsg_int.
  split; [by rewrite (word_at 4) by apply bytes32_length|]. split.
  - rewrite app_assoc. by rewrite (word_at 8) by (by rewrite length_app, !bytes32_length).
  - rewrite (app_assoc (bytes32 SOL_SOCKET)), (app_assoc (bytes32 (CMSG_LEN 4))), (word_at 12) by (by rewrite !length_app, !bytes32_length). by apply i32_u32.
Qed.

Lemma rights_first fd c : CMSG_FIRSTHDR (Some (write_rights fd c)) = Some (write_rights fd c).
Proof.
  unfold CMSG_FIRSTHDR, write_rights, sizeof_cmsghdr. cbn [mbind option_bind].
  rewrite (proj2 (Z.leb_le _ _)); [done|]. rewrite !length_app, !bytes32_length. lia.
Qed.

(** The array has exactly the room for the message. *)
Lemma control_filled fd k : write_rights fd (resize (Z.to_nat (CMSG_SPACE 4)) 0 (k_stack k)) = rights fd.
Proof. unfold rights, write_rights. rewrite drop_nil, (drop_ge (resize _ _ _)); [done|]. by rewrite length_resize. Qed.

(** C35: a message that one end of the domain socket accepts arrives at the
    other end as it was sent, cut to the size of the buffer, with the
    receiver's descriptor for the one that was sent, or -1 when none was; the
    lengths say how much was sent and received. *)
Theorem socket_roundtrip a b buf sendfd room old n k k' (Hab : ends a b) (Hk : silent k) (Hbuf : buf <> []) (Hroom : room <> []) (Hfd : i32_range sendfd)
  (Hs : send_packet a (Some buf) sendfd k = (n, k')) (Hn : 0 <= n) :
  n = Z.of_nat (length buf) /\ exists k'', silent k'' /\ mm_camera_socket_recvmsg b (Some room) (Some old) k' =
    (Z.min (Z.of_nat (length room)) n, Some (take (length room) buf ++ drop (length buf) room), Some (if 0 <? sendfd then k_dup sendfd k' else -1), k'').
Proof.
  assert (exists control, k_sendmsg a {| msg_iov := buf; msg_control := control |} k = (n, k') /\ control = if 0 <? sendfd then Some (rights sendfd) else None)
    as (control & Hs' & Hc).
  { unfold send_packet in Hs. destruct (0 <? sendfd); [|by eexists]. destruct (CMSG_FIRSTHDR _) as [c|] eqn:Ef.
    - simpl in Ef. destruct (_ <=? _); [|done]. injection Ef as <-. rewrite control_filled in Hs. by eexists.
    - simpl in Ef. rewrite length_resize in Ef. done. }
  pose proof (k_accepts a _ k n k' Hk Hs' Hn) as Hlen. simpl in Hlen. split; [done|].
  destruct (k_delivers a b _ k n k' (Z.of_nat (length room)) (CMSG_SPACE 4) Hab Hk Hs' Hn) as (k'' & Hk'' & Hr); [done|subst control; simpl; destruct (0 <? sendfd); eauto|].
  exists k''. split; [done|]. unfold mm_camera_socket_recvmsg. destruct (Z.leb_spec (Z.of_nat (length room)) 0) as [H0|_]; [destruct room; [done|simpl in H0; lia]|].
  rewrite Hr. simpl msg_iov. rewrite Nat2Z.id. destruct (Z.leb_spec (Z.min (Z.of_nat (length room)) n) 0) as [H0|_]; [destruct room, buf; try done; simpl in *; lia|].
  do 2 f_equal; [do 2 f_equal|].
  - rewrite length_take. destruct (decide (length buf <= length room)%nat); [by rewrite Nat.min_r by lia|]. by rewrite !drop_ge by lia.
  - subst control. cbn [msg_control]. destruct (0 <? sendfd); [|done]. cbv iota. unfold rights at 2. rewrite (proj2 (proj2 (proj2 (rights_fields sendfd [] Hfd)))).
    destruct (rights_fields (k_dup sendfd k') [] ) as (E1 & E2 & E3 & E4); [pose proof (k_dup_range sendfd k'); unfold i32_range; lia|].
    unfold rights. rewrite rights_first, E1, E2, E3, E4. done.
Qed.

End Roundtrip.

(** ** A datagram socket *)

Module DemoSock.

(** Messages wait in a list; the receiver's descriptors begin at 100. *)
#[local] Instance sock_env : SockEnv := {|
  kstate := list msghdr; k_stack := fun _ => [3; 1; 4];
  k_sendmsg := fun _ m k => (Z.of_nat (length (msg_iov m)), k ++ [m]);
  k_recvmsg := fun _ size _ k =>
    match k with
    | [] => (-1, [], [], [])
    | m :: k => (Z.min size (Z.of_nat (length (msg_iov m))), take (Z.to_nat size) (msg_iov m),
        match msg_control m with None => [] | Some c => rights (100 + cmsg_int c mod 100) end, k)
    end |}.

#[local] Instance sock_laws : SockLaws sock_env.
Proof.
  refine {| ends := fun _ _ => True; silent := fun k => k = []; k_dup := fun fd _ => 100 + fd mod 100 |}.
  - intros fd _. pose proof (Z.mod_pos_bound fd 100). lia.
  - by intros a m k n k' _ [= <- _] _.
  - intros a b m k n k' size space _ -> [= <- <-] _ _ _. by exists [].
Defined.

Lemma socket_roundtrip_witness : exists k'',
  mm_camera_socket_recvmsg 5 (Some [0; 0; 0; 0]) (Some 0) [{| msg_iov := [7; 8; 9]; msg_control := Some (rights 12) |}] = (3, Some [7; 8; 9; 0], Some 112, k'').
Proof.
  destruct (socket_roundtrip sock_env 4 5 [7; 8; 9] 12 [0; 0; 0; 0] 0 3 [] [{| msg_iov := [7; 8; 9]; msg_control := Some (rights 12) |}])
    as (_ & k'' & _ & E); [done|done|done|done|unfold i32_range; lia|by vm_compute|lia|].
  exists k''. exact E.
Defined.

End DemoSock.
