(* ===== verification/Interface.v ===== *)
(** * The entry points of the camera stack ([mm_camera_interface.c])

    The table of cameras, their discovery, opening and closing with a
    reference count, and the operations of the virtual table.  Every operation
    finds its camera by handle under [g_intf_lock] and takes the camera's own
    lock before it gives the global one up. *)

From Stdlib Require Import ZArith Lia.
From stdpp Require Import numbers list gmap strings.
From S2P Require Import Prelude CamTypes StreamOffset Env DevName Handles Threads Stream.
From S2P Require Import SuperBuf Channel Camera.

Section Interface.
Context `{E : Env, CE : ChanEnv, KE : CamEnv}.

(** ** The table *)

Definition mm_camera_util_get_camera_by_handler (cam_handle : Z) : M iworld (option positive) :=
  let cam_idx := mm_camera_util_get_index_by_handler cam_handle in
  if cam_idx <? Z.of_nat MSM_MAX_CAMERA_SENSORS then
    c ← gets iw_ctrl;
    slot ← deref (cam_obj c !! Z.to_nat cam_idx);
    match slot with
    | Some p => o ← obj_at p; mret (if cam_handle =? cam_my_hdl o then Some p else None)
    | None => mret None
    end
  else mret None.

Definition set_cam_obj (idx : nat) (p : option positive) : M iworld unit :=
  c ← gets iw_ctrl;
  if (idx <? length (cam_obj c))%nat then
    modify (put_iw_ctrl {| num_cam := num_cam c; video_dev_name := video_dev_name c;
                           cam_obj := <[idx := p]> (cam_obj c) |})
  else stuck.

(** The shape of the operations below. *)
Definition intf_call {A} (camera_handle : Z) (rc : A) (op : positive -> M iworld A) : M iworld A :=
  mutex_lock g_intf_lock;;
  my_obj ← mm_camera_util_get_camera_by_handler camera_handle;
  match my_obj with
  | Some my_obj =>
      mutex_lock (cam_lock my_obj);;
      mutex_unlock g_intf_lock;;
      op my_obj
  | None => mutex_unlock g_intf_lock;; mret rc
  end.

(** ** Operations on an open camera *)

Definition mm_camera_intf_query_capability (h : Z) : M iworld Z := intf_call h (-1) mm_camera_query_capability.
Definition mm_camera_intf_set_parms (h : Z) (parms : bool) : M iworld Z :=
  intf_call h (-1) (fun p => mm_camera_set_parms p parms).
Definition mm_camera_intf_get_parms (h : Z) (parms : bool) : M iworld Z :=
  intf_call h (-1) (fun p => mm_camera_get_parms p parms).
Definition mm_camera_intf_do_auto_focus (h : Z) : M iworld Z := intf_call h (-1) mm_camera_do_auto_focus.
Definition mm_camera_intf_cancel_auto_focus (h : Z) : M iworld Z := intf_call h (-1) mm_camera_cancel_auto_focus.
Definition mm_camera_intf_prepare_snapshot (h do_af_flag : Z) : M iworld Z :=
  intf_call h (-1) (fun p => mm_camera_prepare_snapshot p do_af_flag).
Definition mm_camera_intf_register_event_notify (h : Z) (cb : option Z) (user_data : Z) : M iworld Z :=
  intf_call h (-1) (fun p => mm_camera_register_event_notify p cb user_data).
Definition mm_camera_intf_map_buf (h buf_type fd size : Z) : M iworld Z :=
  intf_call h (-1) (fun p => mm_camera_map_buf p buf_type fd size).
Definition mm_camera_intf_unmap_buf (h buf_type : Z) : M iworld Z :=
  intf_call h (-1) (fun p => mm_camera_unmap_buf p buf_type).
Definition mm_camera_intf_add_channel (h : Z) (attr : option mm_camera_channel_attr_t) (channel_cb : option Z)
    (userdata : Z) : M iworld Z :=
  intf_call h 0 (fun p => mm_camera_add_channel p attr channel_cb userdata).
Definition mm_camera_intf_del_channel (h ch_id : Z) : M iworld Z :=
  intf_call h (-1) (fun p => mm_camera_del_channel p ch_id).
Definition mm_camera_intf_get_bundle_info (h ch_id : Z) : M iworld (Z * evt_out) :=
  intf_call h (-1, OutNone) (fun p => mm_camera_get_bundle_info p ch_id).
Definition mm_camera_intf_add_stream (h ch_id : Z) : M iworld Z :=
  intf_call h 0 (fun p => mm_camera_add_stream p ch_id).
Definition mm_camera_intf_del_stream (h ch_id stream_id : Z) : M iworld Z :=
  intf_call h (-1) (fun p => mm_camera_del_stream p ch_id stream_id).
Definition mm_camera_intf_config_stream (h ch_id stream_id : Z) (config : mm_camera_stream_config_t) : M iworld Z :=
  intf_call h (-1) (fun p => mm_camera_config_stream p ch_id stream_id config).
Definition mm_camera_intf_start_channel (h ch_id : Z) : M iworld Z :=
  intf_call h (-1) (fun p => mm_camera_start_channel p ch_id).
Definition mm_camera_intf_stop_channel (h ch_id : Z) : M iworld Z :=
  intf_call h (-1) (fun p => mm_camera_stop_channel p ch_id).
Definition mm_camera_intf_request_super_buf (h ch_id num_buf_requested : Z) : M iworld Z :=
  intf_call h (-1) (fun p => mm_camera_request_super_buf p ch_id num_buf_requested).
Definition mm_camera_intf_cancel_super_buf_request (h ch_id : Z) : M iworld Z :=
  intf_call h (-1) (fun p => mm_camera_cancel_super_buf_request p ch_id).
Definition mm_camera_intf_flush_super_buf_queue (h ch_id frame_idx : Z) : M iworld Z :=
  intf_call h (-1) (fun p => mm_camera_flush_super_buf_queue p ch_id frame_idx).
Definition mm_camera_intf_configure_notify_mode (h ch_id : Z) (mode : mm_camera_super_buf_notify_mode_t) : M iworld Z :=
  intf_call h (-1) (fun p => mm_camera_config_channel_notify p ch_id mode).
Definition mm_camera_intf_qbuf (h ch_id : Z) (buf : mm_camera_buf_def_t) : M iworld Z :=
  intf_call h (-1) (fun p => mm_camera_qbuf p ch_id buf).
Definition mm_camera_intf_set_stream_parms (h ch_id s_id : Z) (parms : bool) : M iworld Z :=
  intf_call h (-1) (fun p => mm_camera_set_stream_parms p ch_id s_id parms).
Definition mm_camera_intf_get_stream_parms (h ch_id s_id : Z) (parms : bool) : M iworld Z :=
  intf_call h (-1) (fun p => mm_camera_get_stream_parms p ch_id s_id parms).
Definition mm_camera_intf_map_stream_buf (h ch_id stream_id buf_type buf_idx plane_idx fd size : Z) : M iworld Z :=
  intf_call h (-1) (fun p => mm_camera_map_stream_buf p ch_id stream_id buf_type buf_idx plane_idx fd size).
Definition mm_camera_intf_unmap_stream_buf (h ch_id stream_id buf_type buf_idx plane_idx : Z) : M iworld Z :=
  intf_call h (-1) (fun p => mm_camera_unmap_stream_buf p ch_id stream_id buf_type buf_idx plane_idx).

(** ** Opening and closing *)

(** [malloc]: a new address, or null. *)
Definition malloc_camera : M iworld (option positive) :=
  ok ← iext sys_malloc;
  w ← get;
  mret (if ok : bool then Some (fresh (dom (iw_heap w) : gset positive)) else None).

Definition store_camera (p : positive) (o : mm_camera_obj_t) : M iworld unit :=
  modify (fun w => put_iw_heap (<[p := o]> (iw_heap w)) w).
Definition free_camera (p : positive) : M iworld unit :=
  _ ← obj_at p; modify (fun w => put_iw_heap (delete p (iw_heap w)) w).

(** The result is the address of the virtual table, inside the object. *)
Definition camera_open (camera_idx : Z) : M iworld (option positive) :=
  c ← gets iw_ctrl;
  if num_cam c <=? camera_idx then mret None
  else
    mutex_lock g_intf_lock;;
    c ← gets iw_ctrl;
    slot ← deref (cam_obj c !! Z.to_nat camera_idx);
    match slot with
    | Some p =>
        oupd p (fun o => set_ref_count (ref_count o +i 1) o);;
        mutex_unlock g_intf_lock;;
        mret (Some p)
    | None =>
        p ← malloc_camera;
        match p with
        | None => mutex_unlock g_intf_lock;; mret None
        | Some p =>
            count ← gets iw_count;
            let '(hdl, count) := mm_camera_util_generate_handler count camera_idx in
            modify (put_iw_count count);;
            store_camera p
              {| cam_my_hdl := hdl; ref_count := 1; ctrl_fd := 0; ds_fd := 0; chs := chs zero_camera;
                 evt := evt zero_camera; evt_poll_thread := zero_poll_thread; evt_thread := None;
                 vtbl_camera_handle := hdl; evt_rcvd := zero_event |};;
            rc ← mm_camera_open p;
            if negb (rc =? 0) then
              mutex_destroy (cam_lock p);;
              set_cam_obj (Z.to_nat camera_idx) None;;
              free_camera p;;
              mutex_unlock g_intf_lock;;
              mret None
            else
              set_cam_obj (Z.to_nat camera_idx) (Some p);;
              mutex_unlock g_intf_lock;;
              mret (Some p)
        end
    end.

Definition mm_camera_intf_close (camera_handle : Z) : M iworld Z :=
  let cam_idx := u8 (Z.land camera_handle 255) in
  mutex_lock g_intf_lock;;
  my_obj ← mm_camera_util_get_camera_by_handler camera_handle;
  match my_obj with
  | Some p =>
      oupd p (fun o => set_ref_count (ref_count o -i 1) o);;
      n ← oget p ref_count;
      if 0 <? n then mutex_unlock g_intf_lock;; mret 0
      else
        set_cam_obj (Z.to_nat cam_idx) None;;
        mutex_lock (cam_lock p);;
        mutex_unlock g_intf_lock;;
        rc ← mm_camera_close p;
        mutex_destroy (cam_lock p);;
        free_camera p;;
        mret rc
  | None => mutex_unlock g_intf_lock;; mret (-1)
  end.

(** ** Discovery

    The loops end when the kernel has no further media device or entity; the
    fuel is the number of turns they may take. *)

(** [strncpy] into the table of names. *)
Definition set_dev_name (num_cameras : Z) (name : string) : M iworld unit :=
  c ← gets iw_ctrl;
  if num_cameras <? Z.of_nat (length (video_dev_name c)) then
    modify (put_iw_ctrl {| num_cam := num_cam c;
                           video_dev_name := <[Z.to_nat num_cameras := name]> (video_dev_name c);
                           cam_obj := cam_obj c |})
  else stuck.

(** The entities of one device: the first video node of a camera names it. *)
Fixpoint find_node (fuel : nat) (dev_fd num_entities num_cameras : Z) : M iworld unit :=
  match fuel with
  | O => stuck
  | S fuel =>
      ent ← iext (ext (fun tr => env_entity tr dev_fd num_entities)
                      (fun r => EIoctl dev_fd (MEDIA_IOC_ENUM_ENTITIES num_entities)
                                  (match r with Some _ => 0 | None => -1 end)));
      match ent with
      | None => mret tt
      | Some e =>
          if (ent_type e =? MEDIA_ENT_T_DEVNODE_V4L) && (ent_group_id e =? QCAMERA_VNODE_GROUP_ID)
          then set_dev_name num_cameras (ent_name e)
          else find_node fuel dev_fd (num_entities + 1) num_cameras
      end
  end.

(** The loop over the media devices: how many cameras there are. *)
Fixpoint discover (fuel ent_fuel : nat) (num_media_devices num_cameras : Z) : M iworld Z :=
  match fuel with
  | O => stuck
  | S fuel =>
      let path := media_path num_media_devices in
      r ← iext (ext (fun tr => env_open_path tr path) (fun r => EOpenPath path r.1));
      let dev_fd := fst (r : Z * Z) in
      if dev_fd <=? 0 then mret num_cameras
      else
        info ← iext (ext (fun tr => env_media_info tr dev_fd) (fun r => EIoctl dev_fd MEDIA_IOC_DEVICE_INFO r.1));
        let '(rc, model) := (info : Z * string) in
        if rc <? 0 then iext (sys_close dev_fd);; mret 0
        else if bool_decide (model <> MSM_CAMERA_NAME) then
          iext (sys_close dev_fd);; discover fuel ent_fuel (num_media_devices + 1) num_cameras
        else
          find_node ent_fuel dev_fd 1 num_cameras;;
          iext (sys_close dev_fd);;
          discover fuel ent_fuel (num_media_devices + 1) (u8 (num_cameras + 1))
  end.

Definition get_num_of_cameras (fuel ent_fuel : nat) : M iworld Z :=
  mutex_lock g_intf_lock;;
  num_cameras ← discover fuel ent_fuel 0 0;
  modify (fun w => put_iw_ctrl {| num_cam := i8 num_cameras; video_dev_name := video_dev_name (iw_ctrl w);
                                  cam_obj := cam_obj (iw_ctrl w) |} w);;
  mutex_unlock g_intf_lock;;
  c ← gets iw_ctrl;
  mret (u8 (num_cam c)).

End Interface.
