(* ===== verification/DemoCamera.v ===== *)
(** * A phone with one camera

    A concrete kernel and server, the state that the device discovery leaves,
    and the session in which a client opens the camera, configures a channel
    with a preview and a metadata stream, starts and stops it.  The theorems
    on the camera interface are tried on it. *)

From Stdlib Require Import ZArith Lia.
From stdpp Require Import numbers list gmap strings.
From S2P Require Import Prelude CamTypes Env DevName Handles Threads Stream StreamFsm.
From S2P Require Import SuperBuf Channel ChannelProps Camera Interface.

(** The media device 0 is the camera, whose second entity is the video node. *)
Definition demo_cam_env : CamEnv := {|
  MSM_MAX_CAMERA_SENSORS := 5;
  MSM_CAMERA_NAME := "msm_camera";
  MSM_CAMERA_MSM_NOTIFY := 3;
  MSM_CAMERA_PRIV_SHUTDOWN := 9;
  MEDIA_ENT_T_DEVNODE_V4L := 65537;
  QCAMERA_VNODE_GROUP_ID := 2;
  env_open_path := fun tr path =>
    if bool_decide (path = "/dev/media0" \/ path = "/dev/video1") then (10 + Z.of_nat (length tr), 0) else (-1, 2);
  env_socket := fun tr => 10 + Z.of_nat (length tr);
  env_connect := fun _ _ => 0;
  env_dqevent := fun _ _ => (0, {| ev_id := 3; ev_command := 9; ev_event_status := 0 |});
  env_media_info := fun _ _ => (0, "msm_camera");
  env_entity := fun _ _ id =>
    if id =? 1 then Some {| ent_type := 131072; ent_group_id := 3; ent_name := "sensor" |}
    else if id =? 2 then Some {| ent_type := 65537; ent_group_id := 2; ent_name := "video1" |}
    else None
|}.

#[local] Existing Instance demo_cam_env.
#[local] Existing Instance honest_env.
#[local] Existing Instance DemoChannel.demo_chan_env.

Definition init_world : iworld :=
  {| iw_ctrl := {| num_cam := 0; video_dev_name := replicate MSM_MAX_CAMERA_SENSORS "";
                   cam_obj := replicate MSM_MAX_CAMERA_SENSORS None |};
     iw_heap := ∅; iw_count := 0; iw_locks := []; iw_tr := []; iw_qbufs := [] |}.

Lemma discovery : exists w, get_num_of_cameras 2 2 init_world = Some (1, w) /\
  video_dev_name (iw_ctrl w) = ["video1"; ""; ""; ""; ""].
Proof. eexists. split; [vm_compute; reflexivity|reflexivity]. Qed.

Definition boot : iworld :=
  Eval vm_compute in match get_num_of_cameras 2 2 init_world with Some (_, w) => w | None => init_world end.
