(* ===== verification/LockSpec.v ===== *)
(** * The lock protocol of the camera interface

    Every entry point finds its camera under [g_intf_lock], moves to the
    camera's [cam_lock] and, for a channel, to the channel's [ch_lock], and
    the camera layer gives up what the interface layer took.  The theorem here
    is that, run by a thread that holds no mutex, each entry point behaves as
    its specification does, which has no locks at all, and ends with no mutex
    held: no path of the code keeps a lock, takes one twice, or releases one
    it does not hold. *)

From Stdlib Require Import ZArith Lia.
From stdpp Require Import numbers list gmap strings.
From S2P Require Import Prelude CamTypes StreamOffset Env DevName Handles Threads Stream.
From S2P Require Import StreamFsm SuperBuf Channel ChannelProps Camera Interface DemoCamera.

(** ** The operations of the virtual table *)

Inductive mm_camera_ops_t : Type :=
| op_query_capability
| op_register_event_notify (cb : option Z) (user_data : Z)
| op_close_camera
| op_set_parms (parms : bool)
| op_get_parms (parms : bool)
| op_do_auto_focus
| op_cancel_auto_focus
| op_prepare_snapshot (do_af_flag : Z)
| op_map_buf (buf_type fd size : Z)
| op_unmap_buf (buf_type : Z)
| op_add_channel (attr : option mm_camera_channel_attr_t) (channel_cb : option Z) (userdata : Z)
| op_delete_channel (ch_id : Z)
| op_get_bundle_info (ch_id : Z)
| op_add_stream (ch_id : Z)
| op_delete_stream (ch_id stream_id : Z)
| op_config_stream (ch_id stream_id : Z) (config : mm_camera_stream_config_t)
| op_qbuf (ch_id : Z) (buf : mm_camera_buf_def_t)
| op_map_stream_buf (ch_id stream_id buf_type buf_idx plane_idx fd size : Z)
| op_unmap_stream_buf (ch_id stream_id buf_type buf_idx plane_idx : Z)
| op_set_stream_parms (ch_id s_id : Z) (parms : bool)
| op_get_stream_parms (ch_id s_id : Z) (parms : bool)
| op_start_channel (ch_id : Z)
| op_stop_channel (ch_id : Z)
| op_request_super_buf (ch_id num_buf_requested : Z)
| op_cancel_super_buf_request (ch_id : Z)
| op_flush_super_buf_queue (ch_id frame_idx : Z)
| op_configure_notify_mode (ch_id : Z) (mode : mm_camera_super_buf_notify_mode_t).

Section LockSpec.
Context `{E : Env, CE : ChanEnv, KE : CamEnv}.

Definition value (m : M iworld Z) : M iworld (Z * evt_out) := rc ← m; mret (rc, OutNone).

(** The virtual table [mm_camera_ops]. *)
Definition mm_camera_ops (h : Z) (op : mm_camera_ops_t) : M iworld (Z * evt_out) :=
  match op with
  | op_query_capability => value (mm_camera_intf_query_capability h)
  | op_register_event_notify cb ud => value (mm_camera_intf_register_event_notify h cb ud)
  | op_close_camera => value (mm_camera_intf_close h)
  | op_set_parms p => value (mm_camera_intf_set_parms h p)
  | op_get_parms p => value (mm_camera_intf_get_parms h p)
  | op_do_auto_focus => value (mm_camera_intf_do_auto_focus h)
  | op_cancel_auto_focus => value (mm_camera_intf_cancel_auto_focus h)
  | op_prepare_snapshot f => value (mm_camera_intf_prepare_snapshot h f)
  | op_map_buf t fd sz => value (mm_camera_intf_map_buf h t fd sz)
  | op_unmap_buf t => value (mm_camera_intf_unmap_buf h t)
  | op_add_channel a cb ud => value (mm_camera_intf_add_channel h a cb ud)
  | op_delete_channel c => value (mm_camera_intf_del_channel h c)
  | op_get_bundle_info c => mm_camera_intf_get_bundle_info h c
  | op_add_stream c => value (mm_camera_intf_add_stream h c)
  | op_delete_stream c s => value (mm_camera_intf_del_stream h c s)
  | op_config_stream c s cf => value (mm_camera_intf_config_stream h c s cf)
  | op_qbuf c b => value (mm_camera_intf_qbuf h c b)
  | op_map_stream_buf c s t i pl fd sz => value (mm_camera_intf_map_stream_buf h c s t i pl fd sz)
  | op_unmap_stream_buf c s t i pl => value (mm_camera_intf_unmap_stream_buf h c s t i pl)
  | op_set_stream_parms c s p => value (mm_camera_intf_set_stream_parms h c s p)
  | op_get_stream_parms c s p => value (mm_camera_intf_get_stream_parms h c s p)
  | op_start_channel c => value (mm_camera_intf_start_channel h c)
  | op_stop_channel c => value (mm_camera_intf_stop_channel h c)
  | op_request_super_buf c n => value (mm_camera_intf_request_super_buf h c n)
  | op_cancel_super_buf_request c => value (mm_camera_intf_cancel_super_buf_request h c)
  | op_flush_super_buf_queue c f => value (mm_camera_intf_flush_super_buf_queue h c f)
  | op_configure_notify_mode c m => value (mm_camera_intf_configure_notify_mode h c m)
  end.

(** ** The specification *)

(** The camera with a handle does [k]. *)
Definition on_camera {A} (h : Z) (rc : A) (k : positive -> M iworld A) : M iworld A :=
  p ← mm_camera_util_get_camera_by_handler h;
  match p with Some p => k p | None => mret rc end.

(** Its control device is asked [f]. *)
Definition spec_control (h : Z) (f : Z -> M history Z) : M iworld Z :=
  on_camera h (-1) (fun p => d ← oget p ctrl_fd; iext (f d)).

(** Its channel [ch_id] handles an event. *)
Definition spec_event (h ch_id : Z) (rc rc' : Z) (e : mm_channel_evt_type_t) : M iworld (Z * evt_out) :=
  on_camera h (rc, OutNone) (fun p =>
    i ← find_channel p ch_id;
    match i with Some i => on_channel p i (mm_channel_fsm_fn e) | None => mret (rc', OutNone) end).

Definition spec_status (h ch_id : Z) (rc' : Z) (e : mm_channel_evt_type_t) : M iworld Z :=
  r ← spec_event h ch_id (-1) rc' e; mret (fst r).

(** A slot of the channel table. *)
Definition set_channel (p : positive) (i : nat) (c : mm_channel_t) : M iworld unit :=
  oupd p (fun o => set_chs (<[i := c]> (chs o)) o).

Definition spec_add_channel (h : Z) (a : option mm_camera_channel_attr_t) (cb : option Z) (ud : Z) : M iworld Z :=
  on_camera h 0 (fun p =>
    o ← obj_at p;
    match list_find (fun c => ch_state c = MM_CHANNEL_STATE_NOTUSED) (chs o) with
    | Some (i, _) =>
        count ← gets iw_count;
        let '(hdl, count) := mm_camera_util_generate_handler count (Z.of_nat i) in
        modify (put_iw_count count);;
        set_channel p i {| ch_my_hdl := hdl; ch_state := MM_CHANNEL_STATE_STOPPED; bundle := zero_bundle;
          pending_cnt := 0; ch_cmd_thread := None; ch_cb_thread := None; poll_thread := zero_poll_thread;
          streams := replicate MAX_STREAM_NUM_IN_BUNDLE zero_stream; startZSlSnapshotCalled := false;
          needLEDFlash := false |};;
        on_channel p i (mm_channel_init a cb ud);;
        mret hdl
    | None => mret 0
    end).

Definition spec_del_channel (h ch_id : Z) : M iworld Z :=
  on_camera h (-1) (fun p =>
    i ← find_channel p ch_id;
    match i with
    | Some i => r ← on_channel p i (mm_channel_fsm_fn MM_CHANNEL_EVT_DELETE); set_channel p i zero_channel;; mret (fst r)
    | None => mret (-1)
    end).

(** The last reference closes the camera and frees it. *)
Definition spec_close (h : Z) : M iworld Z :=
  on_camera h (-1) (fun p =>
    oupd p (fun o => set_ref_count (ref_count o -i 1) o);;
    n ← oget p ref_count;
    if 0 <? n then mret 0
    else
      set_cam_obj (Z.to_nat (u8 (Z.land h 255))) None;;
      close_camera p;;
      free_camera p;;
      mret 0).

Definition spec_op (h : Z) (op : mm_camera_ops_t) : M iworld (Z * evt_out) :=
  match op with
  | op_query_capability => value (spec_control h (fun d => sys_ioctl d VIDIOC_QUERYCAP))
  | op_register_event_notify cb ud =>
      value (on_camera h (-1) (fun p => mm_camera_register_event_notify_internal p cb ud))
  | op_close_camera => value (spec_close h)
  | op_set_parms p => value (if p then spec_control h (fun d => mm_camera_util_s_ctrl d CAM_PRIV_PARM 0)
                             else on_camera h (-1) (fun p => _ ← oget p ctrl_fd; mret (-1)))
  | op_get_parms p => value (if p then spec_control h (fun d => mm_camera_util_g_ctrl d CAM_PRIV_PARM 0)
                             else on_camera h (-1) (fun p => _ ← oget p ctrl_fd; mret (-1)))
  | op_do_auto_focus => value (spec_control h (fun d => mm_camera_util_s_ctrl d CAM_PRIV_DO_AUTO_FOCUS 0))
  | op_cancel_auto_focus => value (spec_control h (fun d => mm_camera_util_s_ctrl d CAM_PRIV_CANCEL_AUTO_FOCUS 0))
  | op_prepare_snapshot f => value (spec_control h (fun d => mm_camera_util_s_ctrl d CAM_PRIV_PREPARE_SNAPSHOT f))
  | op_map_buf t fd sz => value (on_camera h (-1) (fun p => iext (mm_camera_util_sendmsg
      (CAM_MAPPING_TYPE_FD_MAPPING {| map_type := t; map_stream_id := 0; map_frame_idx := 0; map_plane_idx := 0;
         map_cookie := 0; map_fd := fd; map_size := sz |}) fd)))
  | op_unmap_buf t => value (on_camera h (-1) (fun p => iext (mm_camera_util_sendmsg
      (CAM_MAPPING_TYPE_FD_UNMAPPING {| unmap_type := t; unmap_stream_id := 0; unmap_frame_idx := 0;
         unmap_plane_idx := 0; unmap_cookie := 0 |}) 0)))
  | op_add_channel a cb ud => value (spec_add_channel h a cb ud)
  | op_delete_channel c => value (spec_del_channel h c)
  | op_get_bundle_info c => spec_event h c (-1) (-1) MM_CHANNEL_EVT_GET_BUNDLE_INFO
  | op_add_stream c =>
      r ← spec_event h c 0 0 MM_CHANNEL_EVT_ADD_STREAM;
      mret (match snd r with OutHandle s => s | _ => 0 end, OutNone)
  | op_delete_stream c s => value (spec_status h c (-1) (MM_CHANNEL_EVT_DEL_STREAM s))
  | op_config_stream c s cf => value (spec_status h c (-1) (MM_CHANNEL_EVT_CONFIG_STREAM s cf))
  | op_qbuf c b => value (on_camera h (-1) (fun p =>
      i ← find_channel p c; match i with Some i => on_channel p i (mm_channel_qbuf b) | None => mret (-1) end))
  | op_map_stream_buf c s t i pl fd sz => value (spec_status h c (-1) (MM_CHANNEL_EVT_MAP_STREAM_BUF
      (Some {| mp_stream_id := s; mp_buf_type := t; mp_buf_idx := i; mp_plane_idx := pl; mp_fd := fd; mp_size := sz |})))
  | op_unmap_stream_buf c s t i pl => value (spec_status h c (-1) (MM_CHANNEL_EVT_UNMAP_STREAM_BUF
      (Some {| up_stream_id := s; up_buf_type := t; up_buf_idx := i; up_plane_idx := pl |})))
  | op_set_stream_parms c s p => value (spec_status h c (-1) (MM_CHANNEL_EVT_SET_STREAM_PARM s p))
  | op_get_stream_parms c s p => value (spec_status h c (-1) (MM_CHANNEL_EVT_GET_STREAM_PARM s p))
  | op_start_channel c => value (spec_status h c (-1) MM_CHANNEL_EVT_START)
  | op_stop_channel c => value (spec_status h c 0 MM_CHANNEL_EVT_STOP)
  | op_request_super_buf c n => value (spec_status h c (-1) (MM_CHANNEL_EVT_REQUEST_SUPER_BUF n))
  | op_cancel_super_buf_request c => value (spec_status h c (-1) MM_CHANNEL_EVT_CANCEL_REQUEST_SUPER_BUF)
  | op_flush_super_buf_queue c f => value (spec_status h c (-1) (MM_CHANNEL_EVT_FLUSH_SUPER_BUF_QUEUE f))
  | op_configure_notify_mode c m => value (spec_status h c (-1) (MM_CHANNEL_EVT_CONFIG_NOTIFY_MODE m))
  end.

(** ** Code that does not touch the locks of its caller

    [quiet P m]: run with no mutex held, [m] ends with none held, and run with
    others held, as [P] allows, it does the same and leaves them held. *)

Definition relock {A} (l : list mutex) (r : option (A * iworld)) : option (A * iworld) :=
  match r with Some (a, w) => Some (a, put_iw_locks l w) | None => None end.

Section Quiet.
Context (P : list mutex -> Prop).

Definition quiet {A} (m : M iworld A) : Prop := forall w, iw_locks w = [] ->
  (forall a w', m w = Some (a, w') -> iw_locks w' = []) /\
  (forall l, P l -> m (put_iw_locks l w) = relock l (m w)).

Lemma quiet_ret {A} (a : A) : quiet (mret a).
Proof. intros w Hw. split; [by intros ? ? [= _ <-]|done]. Qed.

Lemma quiet_stuck {A} : quiet (@stuck iworld A).
Proof. by intros w Hw. Qed.

Lemma quiet_bind {A B} (m : M iworld A) (f : A -> M iworld B) :
  quiet m -> (forall a, quiet (f a)) -> quiet (m ≫= f).
Proof.
  intros Hm Hf w Hw. destruct (Hm w Hw) as [K1 N1]. unfold mbind, M_bind.
  destruct (m w) as [[a w1]|]; [|split; [done|]; intros l Hl; by rewrite N1].
  destruct (Hf a w1 (K1 _ _ eq_refl)) as [K2 N2]. split; [done|]. intros l Hl. rewrite N1 by done. simpl. by apply N2.
Qed.

Lemma quiet_gets {A} (f : iworld -> A) : (forall l w, f (put_iw_locks l w) = f w) -> quiet (gets f).
Proof. intros Hf w Hw. split; [by intros ? ? [= _ <-]|]. intros l _. unfold gets. by rewrite Hf. Qed.

Lemma quiet_modify (f : iworld -> iworld) : (forall w, iw_locks (f w) = iw_locks w) ->
  (forall l w, f (put_iw_locks l w) = put_iw_locks l (f w)) -> quiet (modify f).
Proof.
  intros Hk Hf w Hw. split; [intros ? ? [= _ <-]; by rewrite Hk|]. intros l _. unfold modify. by rewrite Hf.
Qed.

Lemma quiet_deref {A} (x : option A) : quiet (deref x).
Proof. intros w Hw. unfold deref. destruct x; [|done]. split; [by intros ? ? [= _ <-]|done]. Qed.

Lemma quiet_iext {A} (m : M history A) : quiet (iext m).
Proof.
  intros w Hw. unfold iext, zoom. simpl. destruct (m (iw_tr w)) as [[a tr]|]; [|done].
  split; [by intros ? ? [= _ <-]|done].
Qed.

Lemma quiet_obj_at p : quiet (obj_at p).
Proof.
  intros w Hw. unfold obj_at, mbind, M_bind, get, deref. simpl. destruct (iw_heap w !! p) as [o|]; [|done].
  split; [by intros ? ? [= _ <-]|done].
Qed.

Lemma quiet_on_channel {A} p i (m : M cworld A) : quiet (on_channel p i m).
Proof.
  intros w Hw. unfold on_channel, obj_at, mbind, M_bind, get, deref. simpl.
  destruct (iw_heap w !! p) as [o|]; [|done]. destruct (chs o !! i) as [c|]; [|done]. unfold zoom.
  change (channel_world o c (put_iw_locks _ w)) with (channel_world o c w).
  destruct (m (channel_world o c w)) as [[a x]|]; [|by split].
  split; [by intros ? ? [= _ <-]|done].
Qed.

Lemma quiet_on_evt_poll {A} p (m : M pworld A) : quiet (on_evt_poll p m).
Proof.
  intros w Hw. unfold on_evt_poll, obj_at, mbind, M_bind, get, deref, zoom. simpl.
  destruct (iw_heap w !! p) as [o|]; [|done]. cbn [iw_tr put_iw_locks].
  destruct (m {| pw_poll := evt_poll_thread o; pw_tr := iw_tr w |}) as [[a x]|]; [|by split].
  split; [by intros ? ? [= _ <-]|done].
Qed.

Lemma quiet_if {A} (b : bool) (m1 m2 : M iworld A) : quiet m1 -> quiet m2 -> quiet (if b then m1 else m2).
Proof. by destruct b. Qed.

Lemma quiet_for_each {A} (l : list A) (body : A -> M iworld unit) :
  (forall x, quiet (body x)) -> quiet (for_each l body).
Proof. intros H. induction l; [apply quiet_ret|]. simpl. by apply quiet_bind. Qed.

Lemma quiet_ext {A} (m m' : M iworld A) : (forall w, m' w = m w) -> quiet m -> quiet m'.
Proof. intros H Hm w Hw. destruct (Hm w Hw) as [K N]. split; [intros ? ?; rewrite H; apply K|]. intros. rewrite !H. auto. Qed.

End Quiet.

(** The camera layer takes a [cb_lock] on top of what its caller holds. *)
Definition no_cb (l : list mutex) : Prop := forall p, cb_lock p ∉ l.
Definition any (l : list mutex) : Prop := True.

(** A section under [cb_lock], which is given back at its end. *)
Lemma quiet_cb {A} p (m : M iworld A) :
  quiet any m -> quiet no_cb (mutex_lock (cb_lock p);; a ← m; mutex_unlock (cb_lock p);; mret a).
Proof.
  intros Hm w Hw. destruct (Hm w Hw) as [K N].
  assert (Run : forall l, cb_lock p ∉ l ->
    (mutex_lock (cb_lock p);; a ← m; mutex_unlock (cb_lock p);; mret a) (put_iw_locks l w) =
    relock (filter (fun k => k <> cb_lock p) (cb_lock p :: l)) (m w)).
  { intros l Hl. unfold mutex_lock, mutex_unlock, gets, modify, mbind, M_bind, mret, M_ret. simpl.
    rewrite decide_False by done. change (put_iw_locks (cb_lock p :: l) (put_iw_locks l w))
      with (put_iw_locks (cb_lock p :: l) w). rewrite N by done. destruct (m w) as [[a w1]|]; [|done]. simpl.
    rewrite decide_True by set_solver. done. }
  assert (Hf : forall l, cb_lock p ∉ l -> filter (fun k => k <> cb_lock p) (cb_lock p :: l) = l).
  { intros l Hl. rewrite filter_cons_False by (intros H; by apply H). clear -Hl. induction l as [|k l IH]; [done|].
    rewrite filter_cons_True by set_solver. f_equal. apply IH. set_solver. }
  assert (Hw0 : put_iw_locks [] w = w) by (destruct w; simpl in *; by subst).
  pose proof (Run [] (not_elem_of_nil _)) as R0. rewrite Hf, Hw0 in R0 by (apply not_elem_of_nil). split.
  - intros a w'. rewrite R0. destruct (m w) as [[a1 w1]|]; [|done]. by intros [= _ <-].
  - intros l Hl. rewrite Run by apply Hl. rewrite Hf by apply Hl. rewrite R0.
    by destruct (m w) as [[a1 w1]|].
Qed.

Lemma quiet_oget P {A} p (f : mm_camera_obj_t -> A) : quiet P (oget p f).
Proof. apply quiet_bind; [apply quiet_obj_at|intros o; apply quiet_ret]. Qed.

Lemma quiet_oupd P p f : quiet P (oupd p f).
Proof. apply quiet_bind; [apply quiet_obj_at|]. intros o. by apply quiet_modify. Qed.

Lemma quiet_evt_get P p : quiet P (gets (evt_get p)).
Proof. by apply quiet_gets. Qed.

Lemma quiet_evt_set P p t : quiet P (modify (evt_set p t)).
Proof. by apply quiet_modify. Qed.

Create HintDb quiet.
#[local] Hint Resolve quiet_ret quiet_stuck quiet_deref quiet_iext quiet_obj_at quiet_oget quiet_oupd
  quiet_on_channel quiet_on_evt_poll quiet_evt_get quiet_evt_set : quiet.

Ltac quiet_solve :=
  repeat first
    [ match goal with |- forall _, _ => intros ? end
    | assumption
    | solve [auto with quiet nocore]
    | apply quiet_bind
    | apply quiet_for_each
    | apply quiet_gets; intros; reflexivity
    | apply quiet_modify; intros; reflexivity
    | match goal with
      | |- quiet _ (match ?x with _ => _ end) => destruct x
      end ].

Lemma quiet_dispatch p n : quiet no_cb (mm_camera_dispatch_app_event p n).
Proof.
  destruct n; try apply quiet_ret. eapply quiet_ext; [|apply (quiet_cb p
    (o ← obj_at p; for_each (evts (Camera.evt o)) (call_evt_cb (cam_my_hdl o) evt)))].
  - intros w. simpl. unfold mbind, M_bind, mret, M_ret. destruct (mutex_lock (cb_lock p) w) as [[[] w1]|]; [|done].
    destruct (obj_at p w1) as [[o w2]|]; [|done]. destruct (for_each _ _ w2) as [[[] w3]|]; [|done].
    by destruct (mutex_unlock (cb_lock p) w3) as [[[] w4]|].
  - unfold call_evt_cb. quiet_solve.
Qed.

Lemma quiet_register p cb ud : quiet no_cb (mm_camera_register_event_notify_internal p cb ud).
Proof.
  eapply quiet_ext; [|apply (quiet_cb p (o ← obj_at p; let '(rc, t) := register_entry cb ud (evt o) in
    oupd p (set_evt t);; mret rc))].
  - intros w. unfold mm_camera_register_event_notify_internal, mbind, M_bind, mret, M_ret.
    destruct (mutex_lock (cb_lock p) w) as [[[] w1]|]; [|done]. destruct (obj_at p w1) as [[o w2]|]; [|done].
    destruct (register_entry cb ud (evt o)) as [rc t]. by destruct (oupd p (set_evt t) w2) as [[[] w3]|].
  - quiet_solve.
Qed.

Lemma quiet_drain p fuel b : quiet no_cb (cmd_drain (evt_get p) (evt_set p) (mm_camera_dispatch_app_event p) fuel b).
Proof.
  pose proof (quiet_dispatch p). revert b. induction fuel as [|fuel IH]; intros b; simpl; unfold cmd_deq; quiet_solve.
Qed.

Lemma quiet_release p : quiet no_cb (mm_camera_cmd_thread_release T_camera_evt (evt_get p) (evt_set p) (@iext)
    (mm_camera_dispatch_app_event p)).
Proof.
  pose proof (quiet_drain p). unfold mm_camera_cmd_thread_release, mm_camera_cmd_thread_stop, cmd_enq, cam_sem_post,
    mm_camera_cmd_thread, cam_sem_wait, mm_camera_cmd_thread_destroy. quiet_solve.
Qed.

Lemma quiet_destroy p : quiet no_cb (mutex_destroy (cb_lock p)).
Proof.
  intros w Hw. unfold mutex_destroy, gets, mbind, M_bind. simpl. rewrite Hw. rewrite decide_False by set_solver.
  split; [by intros ? ? [= _ <-]|]. intros l Hl. by rewrite decide_False by apply Hl.
Qed.

Lemma quiet_close_fds P p : quiet P (close_fds p).
Proof. unfold close_fds, mm_camera_socket_close. quiet_solve. Qed.

Lemma quiet_evt_sub P p b : quiet P (mm_camera_evt_sub p b).
Proof. unfold mm_camera_evt_sub. quiet_solve. Qed.

Lemma quiet_close_camera p : quiet no_cb (close_camera p).
Proof.
  pose proof (quiet_release p). pose proof (quiet_destroy p). pose proof (quiet_evt_sub no_cb p false).
  pose proof (quiet_close_fds no_cb p). unfold close_camera. quiet_solve.
Qed.

Lemma quiet_get_camera P h : quiet P (mm_camera_util_get_camera_by_handler h).
Proof. unfold mm_camera_util_get_camera_by_handler. quiet_solve. Qed.

Lemma quiet_set_cam_obj P i p : quiet P (set_cam_obj i p).
Proof. unfold set_cam_obj. quiet_solve. Qed.

Lemma quiet_find P p c : quiet P (find_channel p c).
Proof. apply quiet_oget. Qed.

Lemma quiet_free P p : quiet P (free_camera p).
Proof. unfold free_camera. quiet_solve. Qed.

#[local] Hint Resolve quiet_get_camera quiet_set_cam_obj quiet_find quiet_free quiet_register quiet_close_camera : quiet.

(** ** Code that gives up one lock

    [releases l m m']: run with just [l] held, [m] does what [m'] does with
    nothing held. *)

Definition releases (l : mutex) {A} (m m' : M iworld A) : Prop :=
  forall w, iw_locks w = [] -> m (put_iw_locks [l] w) = m' w.

Definition not_cb (l : mutex) : Prop := forall p, l <> cb_lock p.

Lemma no_cb_one l : not_cb l -> no_cb [l].
Proof. intros H p Hp. apply list_elem_of_singleton in Hp. by apply (H p). Qed.

Lemma releases_bind l {A B} (m : M iworld A) (f g : A -> M iworld B) : not_cb l -> quiet no_cb m ->
  (forall a, releases l (f a) (g a)) -> releases l (m ≫= f) (m ≫= g).
Proof.
  intros Hl Hm Hf w Hw. destruct (Hm w Hw) as [K N]. unfold mbind, M_bind. rewrite N by (by apply no_cb_one).
  destruct (m w) as [[a w1]|]; [|done]. simpl. apply Hf. by eapply K.
Qed.

Lemma put_none w : iw_locks w = [] -> put_iw_locks [] w = w.
Proof. destruct w. simpl. by intros ->. Qed.

Lemma releases_unlock l {A} (m : M iworld A) : releases l (mutex_unlock l;; m) m.
Proof.
  intros w Hw. unfold mutex_unlock, gets, modify, mbind, M_bind. simpl. rewrite decide_True by set_solver.
  rewrite filter_cons_False by (intros H; by apply H). rewrite filter_nil.
  change (put_iw_locks [] (put_iw_locks [l] w)) with (put_iw_locks [] w). by rewrite put_none.
Qed.

(** Taking the next lock before the one held is given up. *)
Lemma releases_next l l' {A} (m m' : M iworld A) : l <> l' -> releases l' m m' ->
  releases l (mutex_lock l';; mutex_unlock l;; m) m'.
Proof.
  intros Hne Hm w Hw. unfold mutex_lock, mutex_unlock, gets, modify, mbind, M_bind. simpl.
  rewrite decide_False by set_solver. simpl. rewrite decide_True by set_solver.
  rewrite filter_cons_True by (by apply not_eq_sym). rewrite filter_cons_False by (intros H; by apply H).
  rewrite filter_nil. change (put_iw_locks [l'] (put_iw_locks _ (put_iw_locks _ w))) with (put_iw_locks [l'] w). by apply Hm.
Qed.

(** More work after the lock is given up. *)
Lemma releases_then l {A B} (m m' : M iworld A) (f g : A -> M iworld B) : releases l m m' -> quiet no_cb m' ->
  (forall a w, iw_locks w = [] -> f a w = g a w) -> releases l (m ≫= f) (m' ≫= g).
Proof.
  intros Hm Hq Hf w Hw. unfold mbind, M_bind. rewrite Hm by done. destruct (Hq w Hw) as [K _].
  destruct (m' w) as [[a w1]|]; [|done]. apply Hf. by eapply K.
Qed.

Lemma bind_ret_r {A} (m : M iworld A) w : (m ≫= mret) w = m w.
Proof. unfold mbind, M_bind, mret, M_ret. by destruct (m w) as [[]|]. Qed.

Lemma releases_ret_r l {A} (m m' : M iworld A) : releases l m (m' ≫= mret) -> releases l m m'.
Proof. intros H w Hw. rewrite H by done. apply bind_ret_r. Qed.

Ltac release := 
  repeat first
    [ match goal with |- forall _, _ => intros ? end
    | apply releases_unlock
    | apply releases_bind; [by intros ?|solve [quiet_solve]|]
    | match goal with |- releases _ (match ?x with _ => _ end) (match ?x with _ => _ end) => destruct x end ].

Lemma channel_evt_releases p i e :
  releases (ch_lock p i) (channel_evt p i e) (on_channel p i (mm_channel_fsm_fn e)).
Proof. apply releases_ret_r. unfold channel_evt. release. Qed.

Lemma with_channel_releases p c rc e : releases (cam_lock p) (with_channel p c rc e)
  (i ← find_channel p c; match i with Some i => on_channel p i (mm_channel_fsm_fn e) | None => mret (rc, OutNone) end).
Proof.
  unfold with_channel. apply releases_bind; [by intros ?|quiet_solve|]. intros [i|]; [|apply releases_unlock].
  apply releases_next; [done|]. apply channel_evt_releases.
Qed.

(** ** Entry points *)

(** The same, for a caller that holds nothing. *)
Definition agree {A} (m m' : M iworld A) : Prop := forall w, iw_locks w = [] -> m w = m' w.

Lemma agree_value m m' : agree m m' -> agree (value m) (value m').
Proof. intros H w Hw. unfold value, mbind, M_bind. by rewrite H. Qed.

Lemma agree_next l {A} (m m' : M iworld A) : releases l m m' -> agree (mutex_lock l;; m) m'.
Proof.
  intros H w Hw. unfold mutex_lock, gets, modify, mbind, M_bind. simpl. rewrite Hw. rewrite decide_False by set_solver.
  by apply H.
Qed.

Lemma intf_call_agree {A} h (rc : A) op k : (forall p, releases (cam_lock p) (op p) (k p)) ->
  agree (intf_call h rc op) (on_camera h rc k).
Proof.
  intros Hk. unfold intf_call, on_camera. apply agree_next. apply releases_bind; [by intros ?|quiet_solve|].
  intros [p|]; [|apply releases_unlock]. by apply releases_next.
Qed.

Lemma on_camera_bind {A B} h (rc : A) k (f : A -> M iworld B) : forall w,
  (on_camera h rc k ≫= f) w = (p ← mm_camera_util_get_camera_by_handler h;
    match p with Some p => k p ≫= f | None => f rc end) w.
Proof.
  intros w. unfold on_camera, mbind, M_bind. by destruct (mm_camera_util_get_camera_by_handler h w) as [[[p|] w1]|].
Qed.

(** An entry point whose work is one event of a channel. *)
Lemma event_agree h c rc rc' e :
  agree (intf_call h (rc, OutNone) (fun p => with_channel p c rc' e)) (spec_event h c rc rc' e).
Proof. apply intf_call_agree. intros p. apply with_channel_releases. Qed.

Lemma status_agree h c rc' e :
  agree (intf_call h (-1) (fun p => status_of (with_channel p c rc' e))) (spec_status h c rc' e).
Proof.
  intros w Hw. rewrite (intf_call_agree h (-1) _ (fun p => status_of (i ← find_channel p c;
    match i with Some i => on_channel p i (mm_channel_fsm_fn e) | None => mret (rc', OutNone) end))); [|..|done].
  - unfold spec_status, spec_event, status_of. by rewrite on_camera_bind.
  - intros p. eapply releases_then; [apply with_channel_releases|quiet_solve|done].
Qed.

Lemma add_stream_agree h c : agree (value (mm_camera_intf_add_stream h c)) (spec_op h (op_add_stream c)).
Proof.
  intros w Hw. unfold value, mm_camera_intf_add_stream. unfold mbind at 1, M_bind at 1.
  rewrite (intf_call_agree h 0 _ (fun p => r ← (i ← find_channel p c;
    match i with Some i => on_channel p i (mm_channel_fsm_fn MM_CHANNEL_EVT_ADD_STREAM) | None => mret (0, OutNone) end);
    mret (match snd r with OutHandle s => s | _ => 0 end))); [|..|done].
  - simpl. unfold spec_event. rewrite on_camera_bind. unfold on_camera, mbind, M_bind, mret, M_ret.
    destruct (mm_camera_util_get_camera_by_handler h w) as [[[p|] w1]|]; [|done..].
    destruct (find_channel p c w1) as [[[i|] w2]|]; [|done..].
    by destruct (on_channel p i (mm_channel_fsm_fn MM_CHANNEL_EVT_ADD_STREAM) w2) as [[]|].
  - intros p. eapply releases_then; [apply with_channel_releases|quiet_solve|done].
Qed.

Lemma control_agree h (op : positive -> M iworld Z) f :
  (forall p, op p = (d ← oget p ctrl_fd; rc ← f d; mutex_unlock (cam_lock p);; mret rc)) ->
  (forall d, quiet no_cb (f d)) ->
  agree (intf_call h (-1) op) (on_camera h (-1) (fun p => d ← oget p ctrl_fd; f d)).
Proof.
  intros Hop Hf. apply intf_call_agree. intros p. rewrite Hop. apply releases_bind; [by intros ?|quiet_solve|].
  intros d. apply releases_ret_r. release. 
Qed.

Lemma add_channel_agree h a cb ud : agree (mm_camera_intf_add_channel h a cb ud) (spec_add_channel h a cb ud).
Proof.
  apply intf_call_agree. intros p. unfold mm_camera_add_channel. apply releases_bind; [by intros ?|quiet_solve|].
  intros o. apply releases_ret_r. unfold set_channel. release.
Qed.

Lemma del_channel_agree h c : agree (mm_camera_intf_del_channel h c) (spec_del_channel h c).
Proof.
  apply intf_call_agree. intros p. unfold mm_camera_del_channel. apply releases_bind; [by intros ?|quiet_solve|].
  intros [i|]; [|apply releases_unlock]. apply releases_next; [done|].
  apply releases_then; [apply channel_evt_releases|quiet_solve|]. intros r w Hw.
  unfold mutex_destroy, gets. unfold mbind at 1, M_bind at 1. unfold mbind at 1, M_bind at 1.
  rewrite Hw. by rewrite decide_False by set_solver.
Qed.

Lemma close_agree h : agree (mm_camera_intf_close h) (spec_close h).
Proof.
  unfold mm_camera_intf_close, spec_close, on_camera. apply agree_next.
  apply releases_bind; [by intros ?|quiet_solve|]. intros [p|]; [|apply releases_unlock].
  apply releases_bind; [by intros ?|quiet_solve|]. intros _.
  apply releases_bind; [by intros ?|quiet_solve|]. intros n.
  destruct (0 <? n); [apply releases_unlock|]. apply releases_bind; [by intros ?|quiet_solve|]. intros _.
  apply releases_next; [done|]. unfold mm_camera_close. intros w Hw.
  destruct (quiet_close_camera p w Hw) as [K N].
  unfold mbind, M_bind. rewrite N by (by apply no_cb_one; intros ?).
  destruct (close_camera p w) as [[[] w1]|]; [|done]. specialize (K _ _ eq_refl). simpl.
  unfold mutex_unlock, mutex_destroy, gets, modify, mbind, M_bind. simpl. rewrite decide_True by set_solver.
  rewrite filter_cons_False by (intros H; by apply H). rewrite filter_nil.
  change (put_iw_locks [] (put_iw_locks [cam_lock p] w1)) with (put_iw_locks [] w1). rewrite put_none by done.
  unfold mret, M_ret. rewrite K. by rewrite decide_False by set_solver.
Qed.

Lemma qbuf_agree h c b : agree (mm_camera_intf_qbuf h c b) (on_camera h (-1) (fun p =>
  i ← find_channel p c; match i with Some i => on_channel p i (mm_channel_qbuf b) | None => mret (-1) end)).
Proof. apply intf_call_agree. intros p. unfold mm_camera_qbuf. release. Qed.

Lemma register_agree h cb ud : agree (mm_camera_intf_register_event_notify h cb ud)
  (on_camera h (-1) (fun p => mm_camera_register_event_notify_internal p cb ud)).
Proof. apply intf_call_agree. intros p. apply releases_ret_r. unfold mm_camera_register_event_notify. release. Qed.

Lemma quiet_spec h op : quiet no_cb (spec_op h op).
Proof.
  destruct op; unfold spec_op, value, spec_control, spec_status, spec_event, spec_add_channel, spec_del_channel,
    spec_close, on_camera, set_channel; quiet_solve.
Qed.

Lemma ops_agree h op : agree (mm_camera_ops h op) (spec_op h op).
Proof.
  destruct op; simpl; try (apply agree_value); try apply status_agree; try apply event_agree.
  - apply (control_agree h _ (fun d => iext (sys_ioctl d VIDIOC_QUERYCAP))); [done|intros; quiet_solve].
  - apply register_agree.
  - apply close_agree.
  - destruct parms; [apply (control_agree h _ (fun d => iext (mm_camera_util_s_ctrl d CAM_PRIV_PARM 0)))|
      apply (control_agree h _ (fun _ => mret (-1)))]; done || (intros; quiet_solve).
  - destruct parms; [apply (control_agree h _ (fun d => iext (mm_camera_util_g_ctrl d CAM_PRIV_PARM 0)))|
      apply (control_agree h _ (fun _ => mret (-1)))]; done || (intros; quiet_solve).
  - apply (control_agree h _ (fun d => iext (mm_camera_util_s_ctrl d CAM_PRIV_DO_AUTO_FOCUS 0)));
      [done|intros; quiet_solve].
  - apply (control_agree h _ (fun d => iext (mm_camera_util_s_ctrl d CAM_PRIV_CANCEL_AUTO_FOCUS 0)));
      [done|intros; quiet_solve].
  - apply (control_agree h _ (fun d => iext (mm_camera_util_s_ctrl d CAM_PRIV_PREPARE_SNAPSHOT do_af_flag)));
      [done|intros; quiet_solve].
  - apply intf_call_agree. intros p. apply releases_ret_r. unfold mm_camera_map_buf. release.
  - apply intf_call_agree. intros p. apply releases_ret_r. unfold mm_camera_unmap_buf. release.
  - apply add_channel_agree.
  - apply del_channel_agree.
  - apply add_stream_agree.
  - apply qbuf_agree.
Qed.

(** C6: called by a thread that holds no mutex, every operation of the virtual
    table does exactly what its specification without locks does, including
    whether it returns, and returns with no mutex held.  So no path takes a
    mutex twice, releases one it does not hold, or keeps one: the locks the
    interface layer takes are the ones the camera and channel layers give up. *)
Theorem intf_refines h op w (Hl : iw_locks w = []) :
  mm_camera_ops h op w = spec_op h op w /\
  forall r w', mm_camera_ops h op w = Some (r, w') -> iw_locks w' = [].
Proof.
  rewrite (ops_agree h op w Hl). split; [done|]. apply (quiet_spec h op w Hl).
Qed.

(** C37: deleting a channel that is streaming is answered 0, but nothing is
    stopped: the state machine does not handle the event, no system call is
    made, and the object, with its poll thread, command threads and streams,
    is overwritten with zeros. *)
Theorem delete_active_channel h c w p o i ch (Hl : iw_locks w = [])
  (Hget : mm_camera_util_get_camera_by_handler h w = Some (Some p, w)) (Ho : iw_heap w !! p = Some o)
  (Hi : mm_camera_util_get_channel_by_handler o c = Some i) (Hch : chs o !! i = Some ch)
  (Hact : ch_state ch = MM_CHANNEL_STATE_ACTIVE) :
  exists w', mm_camera_ops h (op_delete_channel c) w = Some ((0, OutNone), w') /\
    iw_tr w' = iw_tr w /\ iw_heap w' = <[p := set_chs (<[i := zero_channel]> (chs o)) o]> (iw_heap w).
Proof.
  rewrite (ops_agree h _ w Hl). cbn [spec_op]. unfold value, spec_del_channel, on_camera.
  assert (Hobj : forall w1 o1, iw_heap w1 !! p = Some o1 -> obj_at p w1 = Some (o1, w1)).
  { intros w1 o1 H1. unfold obj_at. erewrite bind_run by reflexivity. by rewrite H1. }
  eexists. split.
  - erewrite bind_run; [reflexivity|]. rewrite (bind_run _ _ _ _ _ Hget). erewrite bind_run.
    2:{ unfold find_channel, oget. rewrite (bind_run _ _ _ _ _ (Hobj w o Ho)), Hi. reflexivity. }
    cbv beta iota. erewrite bind_run.
    2:{ unfold on_channel. rewrite (bind_run _ _ _ _ _ (Hobj w o Ho)). rewrite Hch. erewrite bind_run by reflexivity.
        unfold zoom, mm_channel_fsm_fn, cget. erewrite bind_run by reflexivity. simpl. rewrite Hact. reflexivity. }
    erewrite bind_run; [reflexivity|]. unfold set_channel, oupd.
    erewrite bind_run; [|apply Hobj; simpl; apply lookup_insert_eq]. reflexivity.
  - split; [done|]. simpl. rewrite insert_insert_eq. f_equal. unfold set_chs. simpl. by rewrite list_insert_insert_eq.
Qed.

End LockSpec.

(** ** A session *)

Module DemoSession.

#[local] Existing Instance demo_cam_env.
#[local] Existing Instance honest_env.
#[local] Existing Instance DemoChannel.demo_chan_env.

Definition opened : iworld :=
  Eval vm_compute in match camera_open 0 boot with Some (_, w) => w | None => boot end.

(** The results of a sequence of operations on one camera. *)
Fixpoint run_ops (h : Z) (l : list mm_camera_ops_t) : M iworld (list Z) :=
  match l with
  | [] => mret []
  | op :: l => r ← mm_camera_ops h op; rs ← run_ops h l; mret (fst r :: rs)
  end.

Definition setup : list mm_camera_ops_t :=
  [op_add_channel None None 0; op_add_stream 512; op_add_stream 512; op_config_stream 512 768 demo_config;
   op_config_stream 512 1025 DemoChannel.meta_config].

Definition teardown : list mm_camera_ops_t :=
  [op_stop_channel 512; op_delete_stream 512 768; op_delete_stream 512 1025; op_delete_channel 512; op_close_camera].

(** Every call of the session succeeds, and it leaves no camera and no lock. *)
Lemma session : exists w, run_ops 256 (setup ++ op_start_channel 512 :: teardown) opened =
    Some ([512; 768; 1025; 0; 0; 0; 0; 0; 0; 0; 0], w) /\ iw_heap w = ∅ /\ iw_locks w = [].
Proof. eexists. split; [vm_compute; reflexivity|]. split; vm_compute; reflexivity. Qed.

Definition configured : iworld :=
  Eval vm_compute in match run_ops 256 setup opened with Some (_, w) => w | None => opened end.

Definition started : iworld :=
  Eval vm_compute in match mm_camera_ops 256 (op_start_channel 512) configured with Some (_, w) => w | None => configured end.

Lemma intf_refines_witness :
  mm_camera_ops 256 (op_start_channel 512) configured = Some ((0, OutNone), started) /\
  spec_op 256 (op_start_channel 512) configured = Some ((0, OutNone), started) /\ iw_locks started = [].
Proof.
  assert (Er : mm_camera_ops 256 (op_start_channel 512) configured = Some ((0, OutNone), started)) by (vm_compute; reflexivity).
  destruct (intf_refines 256 (op_start_channel 512) configured eq_refl) as [H1 H2].
  split; [exact Er|]. split; [rewrite <- H1; exact Er|exact (H2 _ _ Er)].
Defined.

Lemma delete_active_channel_witness : exists w',
  mm_camera_ops 256 (op_delete_channel 512) started = Some ((0, OutNone), w') /\ iw_tr w' = iw_tr started.
Proof.
  edestruct (delete_active_channel 256 512 started 1) as (w' & H1 & H2 & _); try (vm_compute; reflexivity).
  exists w'. split; [exact H1|exact H2].
Defined.

End DemoSession.
