(* ===== verification/CameraProps.v ===== *)
(** * Opening and closing cameras

    What [camera_open] and [mm_camera_intf_close] do to the table of cameras,
    to the camera objects in the heap and to the file descriptors of the
    process.  A history determines which descriptors are open; the theorems
    say that they are exactly those of the cameras in the table. *)

From Stdlib Require Import ZArith Lia.
From stdpp Require Import numbers list gmap strings.
From S2P Require Import Prelude CamTypes StreamOffset Env DevName Handles Threads Stream.
From S2P Require Import StreamFsm SuperBuf Channel ChannelProps Camera Interface DemoCamera.

(** ** Descriptors *)

Definition one_if (b : bool) : Z := if b then 1 else 0.

(** How a call changes the number of times [fd] is open. *)
Definition ev_delta (fd : Z) (e : ev) : Z :=
  match e with
  | EOpenPath _ d | ESocket d | EOpen d => one_if (d =? fd)
  | EPipe rc r w => if rc <? 0 then 0 else one_if (r =? fd) + one_if (w =? fd)
  | EClose d => - one_if (d =? fd)
  | _ => 0
  end.

Definition balance (fd : Z) (tr : history) : Z := foldr (fun e n => ev_delta fd e + n) 0 tr.

Lemma balance_app fd l tr : balance fd (l ++ tr) = balance fd l + balance fd tr.
Proof. induction l as [|e l IH]; [done|]. simpl. rewrite IH. lia. Qed.

Lemma balance_idle fd l : Forall (fun e => ev_delta fd e = 0) l -> balance fd l = 0.
Proof. induction 1 as [|e l He _ IH]; [done|]. simpl. lia. Qed.

(** The descriptors of a camera object. *)
Definition cam_fds (o : mm_camera_obj_t) : list Z :=
  [ctrl_fd o; ds_fd o; fst (pfds (evt_poll_thread o)); snd (pfds (evt_poll_thread o))].

Definition occurrences (fd : Z) (l : list Z) : Z := foldr (fun d n => one_if (d =? fd) + n) 0 l.

(** An open camera: its devices, its event thread and its event poll thread. *)
Record cam_live (o : mm_camera_obj_t) : Prop := {
  cl_ctrl : 0 < ctrl_fd o;
  cl_ds : 0 < ds_fd o;
  cl_type : poll_type (evt_poll_thread o) = MM_CAMERA_POLL_TYPE_EVT;
  cl_poll : pstate (evt_poll_thread o) = MM_CAMERA_POLL_TASK_STATE_POLL;
  cl_evt : exists q sem, evt_thread o = Some {| cmd_queue := q; cmd_sem := sem |} /\ 0 <= sem < 2 ^ 31 - 1
}.

(** What the kernel is asked to do for the poll threads, and memory for
    commands: pipes are made and written, and small allocations succeed. *)
Record pipes_ok `{E : Env} : Prop := {
  po_pipe : forall tr, 0 <= (env_pipe tr).1;
  po_write : forall tr c, 1 <= env_write tr c;
  po_malloc : forall tr, env_malloc tr = true
}.

Section Object.
Context `{E : Env, CE : ChanEnv, KE : CamEnv}.

(** ** Running code on one camera object *)

Section Run.
Context (w0 : iworld) (p : positive).

(** The world with camera [p] as [o] and history [tr]. *)
Definition at_obj (o : mm_camera_obj_t) (tr : history) : iworld :=
  put_iw_tr tr (put_iw_heap (<[p := o]> (iw_heap w0)) w0).

Lemma obj_at_run o tr : obj_at p (at_obj o tr) = Some (o, at_obj o tr).
Proof. unfold obj_at, mbind, M_bind, get, deref. simpl. by rewrite lookup_insert_eq. Qed.

Lemma oget_run {A} (f : mm_camera_obj_t -> A) o tr : oget p f (at_obj o tr) = Some (f o, at_obj o tr).
Proof. unfold oget. by rewrite (bind_run _ _ _ _ _ (obj_at_run o tr)). Qed.

Lemma oupd_run f o tr : oupd p f (at_obj o tr) = Some (tt, at_obj (f o) tr).
Proof.
  unfold oupd. rewrite (bind_run _ _ _ _ _ (obj_at_run o tr)). unfold modify, at_obj. simpl. by rewrite insert_insert_eq.
Qed.

Lemma iext_run {A} (m : M history A) o tr a tr' : m tr = Some (a, tr') ->
  iext m (at_obj o tr) = Some (a, at_obj o tr').
Proof. intros H. unfold iext, zoom. simpl. by rewrite H. Qed.

Lemma on_evt_poll_run {A} (m : M pworld A) o tr a x :
  m {| pw_poll := evt_poll_thread o; pw_tr := tr |} = Some (a, x) ->
  on_evt_poll p m (at_obj o tr) = Some (a, at_obj (set_evt_poll_thread (pw_poll x) o) (pw_tr x)).
Proof.
  intros H. unfold on_evt_poll. rewrite (bind_run _ _ _ _ _ (obj_at_run o tr)). unfold zoom. simpl. rewrite H.
  unfold at_obj. simpl. by rewrite insert_insert_eq.
Qed.

(** Histories that only grow by calls that open and close nothing. *)
Definition same_fds (tr tr' : history) : Prop := forall fd, 0 < fd -> balance fd tr' = balance fd tr.

(** *** Descriptors *)

Lemma open_dev_run dev n : forall o tr, ctrl_fd o <= 0 -> exists d tr',
  open_dev p dev n (at_obj o tr) = Some (tt, at_obj (set_ctrl_fd d o) tr') /\
  forall fd, 0 < fd -> balance fd tr' = balance fd tr + one_if (d =? fd).
Proof.
  induction n as [|n IH]; intros o tr Hd; cbn [open_dev].
  all: destruct (env_open_path tr dev) as [d errno] eqn:Eo.
  all: erewrite bind_run by (apply iext_run; unfold ext; rewrite Eo; reflexivity).
  all: cbv beta iota.
  all: rewrite (bind_run _ _ _ _ _ (oupd_run _ _ _)).
  all: assert (Hb : forall fd, balance fd (EOpenPath dev d :: tr) = balance fd tr + one_if (d =? fd))
         by (intros fd; simpl; lia).
  all: destruct ((0 <? d) || negb (errno =? EIO)) eqn:Ec; [by exists d, (EOpenPath dev d :: tr)|].
  - by exists d, (EOpenPath dev d :: tr).
  - apply orb_false_iff in Ec as [Ed _]. apply Z.ltb_ge in Ed.
    erewrite bind_run by (apply iext_run; reflexivity).
    destruct (IH (set_ctrl_fd d o) (ESleep (MM_CAMERA_DEV_OPEN_RETRY_SLEEP * 1000) :: EOpenPath dev d :: tr))
      as (d' & tr' & E1 & H1); [done|].
    exists d', tr'. split; [exact E1|]. intros fd Hfd. rewrite H1 by done.
    change (balance fd (ESleep (MM_CAMERA_DEV_OPEN_RETRY_SLEEP * 1000) :: EOpenPath dev d :: tr))
      with (balance fd (EOpenPath dev d :: tr)). rewrite Hb. destruct (Z.eqb_spec d fd); simpl; lia.
Qed.

Lemma socket_create_run c t tr : exists d tr', mm_camera_socket_create c t tr = Some (d, tr') /\
  forall fd, 0 < fd -> balance fd tr' = balance fd tr + one_if (d =? fd).
Proof.
  unfold mm_camera_socket_create, ext, sys_close, note, mbind, M_bind, mret, M_ret.
  destruct (Z.ltb_spec (env_socket tr) 0) as [Hs|Hs].
  - eexists _, _. split; [reflexivity|]. intros fd Hfd. simpl. lia.
  - set (path := socket_path c). set (tr1 := ESocket (env_socket tr) :: tr).
    destruct (env_connect tr1 path =? 0); eexists _, _; (split; [reflexivity|]); intros fd Hfd; simpl; [lia|].
    destruct fd as [|q|q]; [lia| |lia]. simpl. lia.
Qed.

Lemma open_socket_run c n : forall o tr, ds_fd o <= 0 -> exists d tr',
  open_socket p c n (at_obj o tr) = Some (tt, at_obj (set_ds_fd d o) tr') /\
  forall fd, 0 < fd -> balance fd tr' = balance fd tr + one_if (d =? fd).
Proof.
  induction n as [|n IH]; intros o tr Hd; cbn [open_socket].
  all: destruct (socket_create_run c MM_CAMERA_SOCK_TYPE_UDP tr) as (d & tr1 & E1 & H1).
  all: erewrite bind_run by (apply iext_run; exact E1).
  all: rewrite (bind_run _ _ _ _ _ (oupd_run _ _ _)).
  all: destruct (Z.ltb_spec 0 d) as [Hpos|Hneg]; [by exists d, tr1|].
  - by exists d, tr1.
  - erewrite bind_run by (apply iext_run; reflexivity).
    destruct (IH (set_ds_fd d o) (ESleep (MM_CAMERA_DEV_OPEN_RETRY_SLEEP * 1000) :: tr1)) as (d' & tr' & E2 & H2); [done|].
    exists d', tr'. split; [exact E2|]. intros fd Hfd. rewrite H2 by done.
    change (balance fd (ESleep _ :: tr1)) with (balance fd tr1). rewrite H1 by done.
    destruct (Z.eqb_spec d fd); simpl; lia.
Qed.

Lemma close_fds_run o tr : exists tr',
  close_fds p (at_obj o tr) =
    Some (tt, at_obj (set_ds_fd (if 0 <? ds_fd o then 0 else ds_fd o)
                     (set_ctrl_fd (if 0 <? ctrl_fd o then 0 else ctrl_fd o) o)) tr') /\
  forall fd, 0 < fd -> balance fd tr' = balance fd tr - occurrences fd [ctrl_fd o; ds_fd o].
Proof.
  unfold close_fds. rewrite (bind_run _ _ _ _ _ (oget_run _ _ _)).
  assert (H1 : exists o1 tr1, (if 0 <? ctrl_fd o then iext (sys_close (ctrl_fd o));; oupd p (set_ctrl_fd 0) else mret tt)
    (at_obj o tr) = Some (tt, at_obj o1 tr1) /\ o1 = set_ctrl_fd (if 0 <? ctrl_fd o then 0 else ctrl_fd o) o /\
    forall fd, 0 < fd -> balance fd tr1 = balance fd tr - one_if (ctrl_fd o =? fd)).
  { destruct (Z.ltb_spec 0 (ctrl_fd o)).
    - erewrite bind_run by (apply iext_run; reflexivity). rewrite oupd_run. do 2 eexists. split; [reflexivity|].
      split; [done|]. intros fd Hfd. simpl. lia.
    - exists o, tr. split; [done|]. split; [by destruct o|]. intros fd Hfd. destruct (Z.eqb_spec (ctrl_fd o) fd); simpl; lia. }
  destruct H1 as (o1 & tr1 & E1 & -> & B1). rewrite (bind_run _ _ _ _ _ E1), (bind_run _ _ _ _ _ (oget_run _ _ _)).
  cbn [ds_fd set_ctrl_fd]. destruct (Z.ltb_spec 0 (ds_fd o)) as [Hd|Hd].
  - erewrite bind_run.
    2:{ apply iext_run. unfold mm_camera_socket_close. rewrite (proj2 (Z.ltb_lt _ _) Hd). reflexivity. }
    rewrite oupd_run. eexists. split; [reflexivity|]. intros fd Hfd. simpl. rewrite B1 by done. lia.
  - eexists. split; [unfold mret, M_ret; do 3 f_equal; by destruct o|]. intros fd Hfd. rewrite B1 by done. simpl.
    destruct (Z.eqb_spec (ds_fd o) fd); simpl; lia.
Qed.

(** *** The event poll thread *)

(** The same poll thread, up to its entries and what it watches. *)
Definition same_poll (q q' : mm_camera_poll_thread_t) : Prop :=
  poll_type q' = poll_type q /\ pfds q' = pfds q /\ pstate q' = pstate q.

Definition pw (q : mm_camera_poll_thread_t) (tr : history) : pworld := {| pw_poll := q; pw_tr := tr |}.

Lemma same_poll_push fd e q : same_poll q (push_poll_fd fd e q).
Proof. done. Qed.

Lemma proc_pipe_update q : poll_type q = MM_CAMERA_POLL_TYPE_EVT ->
  same_poll q (mm_camera_poll_proc_pipe MM_CAMERA_PIPE_CMD_POLL_ENTRIES_UPDATED q).
Proof.
  intros Ht. unfold mm_camera_poll_proc_pipe. simpl. rewrite Ht. destruct (poll_entries q !! 0%nat) as [e|].
  - destruct (0 <? pe_fd e); unfold same_poll; simpl; by rewrite Ht.
  - unfold same_poll; simpl; by rewrite Ht.
Qed.

Lemma sig_update_run q tr : pipes_ok -> poll_type q = MM_CAMERA_POLL_TYPE_EVT ->
  pstate q = MM_CAMERA_POLL_TASK_STATE_POLL ->
  exists q' tr', mm_camera_poll_sig MM_CAMERA_PIPE_CMD_POLL_ENTRIES_UPDATED (pw q tr) = Some (0, pw q' tr') /\
    same_poll q q' /\ same_fds tr tr'.
Proof.
  intros Hok Ht Hs. unfold mm_camera_poll_sig, on_poll, pext, sys_pipe_write, ext. unM.
  pose proof (po_write Hok tr MM_CAMERA_PIPE_CMD_POLL_ENTRIES_UPDATED) as Hw.
  destruct (Z.ltb_spec (env_write tr MM_CAMERA_PIPE_CMD_POLL_ENTRIES_UPDATED) 1); [lia|].
  rewrite decide_True by done. do 2 eexists. split; [reflexivity|]. split; [|done].
  apply (proc_pipe_update (set_pstatus false q) Ht).
Qed.

Lemma evt_add_run h d cb ud q tr : pipes_ok -> poll_type q = MM_CAMERA_POLL_TYPE_EVT ->
  pstate q = MM_CAMERA_POLL_TASK_STATE_POLL ->
  exists q' tr', mm_camera_poll_thread_add_poll_fd h d cb ud (pw q tr) = Some (0, pw q' tr') /\
    same_poll q q' /\ same_fds tr tr'.
Proof.
  intros Hok Ht Hs. unfold mm_camera_poll_thread_add_poll_fd. erewrite bind_run by reflexivity. unfold entry_index. simpl.
  rewrite Ht. simpl. erewrite bind_run by reflexivity.
  destruct (sig_update_run (set_entries (<[0%nat := {| pe_fd := d; pe_notify_cb := cb; pe_handler := h;
    pe_user_data := ud |}]> (poll_entries q)) q) tr Hok Ht Hs) as (q' & tr' & H). exists q', tr'. exact H.
Qed.

Lemma evt_del_run h q tr : pipes_ok -> poll_type q = MM_CAMERA_POLL_TYPE_EVT ->
  pstate q = MM_CAMERA_POLL_TASK_STATE_POLL ->
  exists rc q' tr', mm_camera_poll_thread_del_poll_fd h (pw q tr) = Some (rc, pw q' tr') /\
    same_poll q q' /\ same_fds tr tr'.
Proof.
  intros Hok Ht Hs. unfold pw at 1, mm_camera_poll_thread_del_poll_fd. erewrite bind_run by reflexivity. unfold entry_index. simpl.
  rewrite Ht. simpl. change (Z.to_nat 0) with 0%nat. destruct (poll_entries q !! 0%nat) as [e|]; [|by exists (-1), q, tr].
  destruct (h =? pe_handler e); [|by exists (-1), q, tr]. erewrite bind_run by reflexivity.
  destruct (sig_update_run (set_entries (<[0%nat := {| pe_fd := -1; pe_notify_cb := None; pe_handler := 0;
    pe_user_data := pe_user_data e |}]> (poll_entries q)) q) tr Hok Ht Hs) as (q' & tr' & H).
  exists 0, q', tr'. exact H.
Qed.

Lemma poll_launch_run tr : pipes_ok -> exists rc q tr',
  mm_camera_poll_thread_launch MM_CAMERA_POLL_TYPE_EVT (pw zero_poll_thread tr) = Some (rc, pw q tr') /\
  poll_type q = MM_CAMERA_POLL_TYPE_EVT /\ pstate q = MM_CAMERA_POLL_TASK_STATE_POLL /\
  forall fd, balance fd tr' = balance fd tr + occurrences fd [fst (pfds q); snd (pfds q)].
Proof.
  intros Hok. unfold mm_camera_poll_thread_launch, pext, sys_pipe, ext, on_poll. unM.
  pose proof (po_pipe Hok tr) as Hp. destruct (env_pipe tr) as [rc [r wr]] eqn:Ep. simpl in *.
  destruct (Z.ltb_spec rc 0); [lia|]. do 3 eexists. split; [reflexivity|]. split; [done|]. split; [done|].
  intros fd. simpl. destruct (Z.ltb_spec rc 0); [lia|]. lia.
Qed.

Lemma poll_release_run q tr : pipes_ok -> pstate q = MM_CAMERA_POLL_TASK_STATE_POLL -> exists tr',
  mm_camera_poll_thread_release (pw q tr) = Some (0, pw zero_poll_thread tr') /\
  forall fd, 0 < fd -> balance fd tr' = balance fd tr - occurrences fd [fst (pfds q); snd (pfds q)].
Proof.
  intros Hok Hs. destruct q as [ty es [r wr] st tmo fds n b]. simpl in Hs. subst st.
  pose proof (po_write Hok tr MM_CAMERA_PIPE_CMD_EXIT) as Hw.
  unfold mm_camera_poll_thread_release, mm_camera_poll_sig, pext, sys_pipe_write, ext, on_poll, note, sys_close, pw. unM.
  destruct (Z.ltb_spec (env_write tr MM_CAMERA_PIPE_CMD_EXIT) 1); [lia|]. simpl.
  destruct (Z.eqb_spec r 0) as [->|H0], (Z.eqb_spec wr 0) as [->|H1]; simpl.
  all: eexists; (split; [reflexivity|]); intros fd Hfd; destruct fd as [|k|k]; try lia; simpl; lia.
Qed.

Lemma evt_sub_run b o tr : pipes_ok -> cam_live o -> exists rc o' tr',
  mm_camera_evt_sub p b (at_obj o tr) = Some (rc, at_obj o' tr') /\ same_fds tr tr' /\
  exists q', o' = set_evt_poll_thread q' o /\ same_poll (evt_poll_thread o) q'.
Proof.
  intros Hok [_ _ Ht Hs _]. unfold mm_camera_evt_sub. rewrite (bind_run _ _ _ _ _ (obj_at_run o tr)).
  assert (Hid : o = set_evt_poll_thread (evt_poll_thread o) o) by (by destruct o).
  assert (Hsub : forall r (m : M pworld Z), (exists rc q' tr', m (pw (evt_poll_thread o) (EIoctl (ctrl_fd o) r
      (env_ioctl tr (ctrl_fd o) r) :: tr)) = Some (rc, pw q' tr') /\ same_poll (evt_poll_thread o) q' /\
      same_fds (EIoctl (ctrl_fd o) r (env_ioctl tr (ctrl_fd o) r) :: tr) tr') ->
    exists rc o' tr', (rc ← iext (sys_ioctl (ctrl_fd o) r); if rc <? 0 then mret rc else on_evt_poll p m) (at_obj o tr)
      = Some (rc, at_obj o' tr') /\ same_fds tr tr' /\
      exists q', o' = set_evt_poll_thread q' o /\ same_poll (evt_poll_thread o) q').
  { intros r m (rc & q' & tr' & E1 & Hq & Hf). erewrite bind_run by (apply iext_run; reflexivity).
    destruct (env_ioctl tr (ctrl_fd o) r <? 0).
    - do 3 eexists. split; [reflexivity|]. split; [done|]. exists (evt_poll_thread o). by split.
    - rewrite (on_evt_poll_run m o _ rc _ E1). do 3 eexists. split; [reflexivity|]. split; [exact Hf|]. by exists q'. }
  destruct b; apply Hsub.
  - destruct (evt_add_run (cam_my_hdl o) (ctrl_fd o) (Some EVENT_NOTIFY) (Zpos p) (evt_poll_thread o)
      (EIoctl (ctrl_fd o) VIDIOC_SUBSCRIBE_EVENT (env_ioctl tr (ctrl_fd o) VIDIOC_SUBSCRIBE_EVENT) :: tr) Hok Ht Hs)
      as (q' & tr' & H). by exists 0, q', tr'.
  - apply (evt_del_run (cam_my_hdl o)); done.
Qed.

End Run.

(** *** The event thread *)

(** The calls an event makes: every registered callback, in table order. *)
Definition evt_calls (o : mm_camera_obj_t) (event : mm_camera_event_t) : list ev :=
  omap (fun e => (fun cb => EAppEvent cb (cam_my_hdl o) event (evt_user_data e)) <$> evt_cb e) (evts (evt o)).

Lemma calls_run w0 p o hdl event l : forall tr, for_each l (call_evt_cb hdl event) (at_obj w0 p o tr) =
  Some (tt, at_obj w0 p o (rev (omap (fun e => (fun cb => EAppEvent cb hdl event (evt_user_data e)) <$> evt_cb e) l) ++ tr)).
Proof.
  induction l as [|e l IH]; intros tr; [done|]. cbn [for_each omap list_omap].
  destruct (evt_cb e) as [cb|] eqn:He.
  - rewrite (bind_run _ _ (at_obj w0 p o tr) tt (at_obj w0 p o (EAppEvent cb hdl event (evt_user_data e) :: tr)));
      [|unfold call_evt_cb; rewrite He; by apply iext_run]. rewrite IH. simpl. by rewrite <- app_assoc.
  - erewrite bind_run by (unfold call_evt_cb; rewrite He; reflexivity). by rewrite IH.
Qed.

Lemma calls_same_fds o event tr : same_fds tr (rev (evt_calls o event) ++ tr).
Proof.
  intros fd _. rewrite balance_app. enough (balance fd (rev (evt_calls o event)) = 0) by lia.
  apply balance_idle, Forall_rev. unfold evt_calls. induction (evts (evt o)) as [|e l IH]; [constructor|]. simpl.
  destruct (evt_cb e); [by constructor|done].
Qed.

Lemma filter_lock (l : mutex) locks : l ∉ locks -> filter (fun k => k <> l) (l :: locks) = locks.
Proof.
  intros Hl. rewrite filter_cons_False by (intros H; by apply H). induction locks as [|k locks IH]; [done|].
  rewrite filter_cons_True by set_solver. f_equal. apply IH. set_solver.
Qed.

(** An event is handed to every registered callback. *)
Lemma dispatch_event_run w0 p o tr event : cb_lock p ∉ iw_locks w0 ->
  mm_camera_dispatch_app_event p (MM_CAMERA_CMD_TYPE_EVT_CB event) (at_obj w0 p o tr) =
  Some (tt, at_obj w0 p o (rev (evt_calls o event) ++ tr)).
Proof.
  intros Hl. set (w1 := put_iw_locks (cb_lock p :: iw_locks w0) w0). unfold mm_camera_dispatch_app_event.
  rewrite (bind_run _ _ _ tt (at_obj w1 p o tr)).
  2:{ unfold mutex_lock, gets, modify, mbind, M_bind. simpl. by rewrite decide_False. }
  rewrite (bind_run _ _ _ _ _ (obj_at_run w1 p o tr)), (bind_run _ _ _ _ _ (calls_run w1 p o _ event _ tr)).
  unfold mutex_unlock, gets, modify, mbind, M_bind. cbn [iw_locks at_obj put_iw_tr put_iw_heap w1 put_iw_locks].
  rewrite decide_True by set_solver. by rewrite filter_lock.
Qed.

Lemma dispatch_other p n w : (forall e, n <> MM_CAMERA_CMD_TYPE_EVT_CB e) -> mm_camera_dispatch_app_event p n w = Some (tt, w).
Proof. intros H. destruct n; try done. by destruct (H evt). Qed.

Lemma keeps_heap_dispatch p n : keeps iw_heap (mm_camera_dispatch_app_event p n).
Proof.
  unfold mm_camera_dispatch_app_event, mutex_lock, mutex_unlock, obj_at, call_evt_cb, iext. keeps_solve.
Qed.

Lemma evt_set_run w0 p t o tr : evt_set p t (at_obj w0 p o tr) = at_obj w0 p (set_evt_thread t o) tr.
Proof. unfold evt_set, at_obj. simpl. by rewrite alter_insert_eq. Qed.

Lemma evt_get_run w0 p o tr : evt_get p (at_obj w0 p o tr) = evt_thread o.
Proof. unfold evt_get, at_obj. simpl. by rewrite lookup_insert_eq. Qed.

Lemma process_run w0 p sem q : cb_lock p ∉ iw_locks w0 -> forall o tr, exists t tr',
  process (evt_set p) (mm_camera_dispatch_app_event p) q sem (at_obj w0 p o tr) =
    Some (tt, at_obj w0 p (set_evt_thread t o) tr') /\ same_fds tr tr'.
Proof.
  intros Hl. induction q as [|n q IH]; intros o tr.
  { exists (evt_thread o), tr. split; [by destruct o|done]. }
  cbn [process]. erewrite bind_run by reflexivity. rewrite evt_set_run. set (o1 := set_evt_thread _ o).
  assert (exists tr1, (if is_exit n then mret tt else mm_camera_dispatch_app_event p n) (at_obj w0 p o1 tr) =
    Some (tt, at_obj w0 p o1 tr1) /\ same_fds tr tr1) as (tr1 & E1 & H1).
  { destruct n; simpl; try (by exists tr). exists (rev (evt_calls o1 evt) ++ tr).
    split; [by apply dispatch_event_run|apply calls_same_fds]. }
  rewrite (bind_run _ _ _ _ _ E1). destruct (IH o1 tr1) as (t & tr' & E2 & H2). exists t, tr'.
  split; [exact E2|]. intros fd Hfd. by rewrite H2, H1.
Qed.

(** An event thread that can be stopped. *)
Definition evt_running (o : mm_camera_obj_t) : Prop :=
  exists q sem, evt_thread o = Some {| cmd_queue := q; cmd_sem := sem |} /\ 0 <= sem < 2 ^ 31 - 1.

Lemma evt_release_run w0 p o tr : pipes_ok -> cb_lock p ∉ iw_locks w0 -> evt_running o -> exists tr',
  mm_camera_cmd_thread_release T_camera_evt (evt_get p) (evt_set p) (@iext) (mm_camera_dispatch_app_event p)
    (at_obj w0 p o tr) = Some (0, at_obj w0 p (set_evt_thread None o) tr') /\ same_fds tr tr'.
Proof.
  intros Hok Hl (q & sem & Ht & Hsem). unfold mm_camera_cmd_thread_release.
  assert (Hm : forall tr, iext sys_malloc (at_obj w0 p o tr) = Some (true, at_obj w0 p o (EMalloc true :: tr))).
  { intros tr0. apply iext_run. unfold sys_malloc, ext. by rewrite (po_malloc Hok). }
  unfold mbind at 1, M_bind at 1.
  rewrite (cmd_thread_stop_run T_camera_evt (evt_get p) (evt_set p) (@iext) (mm_camera_dispatch_app_event p)) with
    (q := q) (sem := sem) (wa := at_obj w0 p o (EMalloc true :: tr)) (wb := at_obj w0 p o (EMalloc true :: EMalloc true :: tr)).
  - rewrite evt_set_run. set (o1 := set_evt_thread _ o).
    destruct (process_run w0 p sem (q ++ [MM_CAMERA_CMD_TYPE_EXIT]) Hl o1 (EMalloc true :: EMalloc true :: tr))
      as (t & tr1 & E1 & H1).
    rewrite (bind_run _ _ _ _ _ E1). erewrite bind_run by (apply iext_run; reflexivity). unfold mret, M_ret.
    unfold mm_camera_cmd_thread_destroy. simpl. erewrite bind_run by reflexivity. rewrite evt_set_run.
    eexists. split; [reflexivity|]. intros fd Hfd. simpl. by rewrite H1.
  - intros t w [x Hx]. unfold evt_get, evt_set in *. simpl. destruct (iw_heap w !! p) as [o'|] eqn:Ho; [|done].
    by rewrite lookup_alter_eq, Ho.
  - intros t t' w. unfold evt_set. simpl. by rewrite alter_alter_eq.
  - intros n w r w' H. unfold evt_get. by rewrite (keeps_heap_dispatch p n _ _ _ H).
  - by rewrite evt_get_run.
  - done.
  - intros A m w r w'. unfold iext, zoom. destruct (m (iw_tr w)) as [[]|]; [|done]. by intros [= _ <-].
  - apply Hm.
  - apply Hm.
Qed.

(** ** The whole of [mm_camera_open] and [mm_camera_close] *)

(** An object as [camera_open] hands it to [mm_camera_open]. *)
Definition fresh_obj (hdl : Z) : mm_camera_obj_t :=
  {| cam_my_hdl := hdl; ref_count := 1; ctrl_fd := 0; ds_fd := 0; chs := chs zero_camera; evt := evt zero_camera;
     evt_poll_thread := zero_poll_thread; evt_thread := None; vtbl_camera_handle := hdl; evt_rcvd := zero_event |}.

(** The fields [mm_camera_open] has no business with. *)
Definition same_rest (o o' : mm_camera_obj_t) : Prop :=
  cam_my_hdl o' = cam_my_hdl o /\ ref_count o' = ref_count o /\ chs o' = chs o /\ evt o' = evt o /\
  vtbl_camera_handle o' = vtbl_camera_handle o.

Lemma mm_camera_open_run w0 p hdl tr : pipes_ok -> exists rc o' tr',
  mm_camera_open p (at_obj w0 p (fresh_obj hdl) tr) = Some (rc, at_obj w0 p o' tr') /\ same_rest (fresh_obj hdl) o' /\
  if rc =? 0 then cam_live o' /\ forall fd, 0 < fd -> balance fd tr' = balance fd tr + occurrences fd (cam_fds o')
  else rc = -1 /\ same_fds tr tr'.
Proof.
  intros Hok. unfold mm_camera_open. rewrite (bind_run _ _ _ _ _ (obj_at_run w0 p _ tr)).
  erewrite bind_run by reflexivity. set (dev := dev_name _). cbv zeta.
  destruct (open_dev_run w0 p dev (MM_CAMERA_DEV_OPEN_TRIES - 1) (fresh_obj hdl) tr) as (d & tr1 & E1 & B1); [done|].
  rewrite (bind_run _ _ _ _ _ E1), (bind_run _ _ _ _ _ (oget_run w0 p _ _ _)). cbn [ctrl_fd set_ctrl_fd].
  destruct (Z.leb_spec d 0) as [Hd|Hd].
  { destruct (close_fds_run w0 p (set_ctrl_fd d (fresh_obj hdl)) tr1) as (tr2 & E2 & B2).
    rewrite (bind_run _ _ _ _ _ E2). do 3 eexists. split; [reflexivity|]. split; [done|]. split; [done|].
    intros fd Hfd. rewrite B2, B1 by done. cbn. destruct fd; cbn; lia. }
  destruct (open_socket_run w0 p (dev_index dev) (MM_CAMERA_DEV_OPEN_TRIES - 1) (set_ctrl_fd d (fresh_obj hdl)) tr1)
    as (s & tr2 & E2 & B2); [done|].
  rewrite (bind_run _ _ _ _ _ E2), (bind_run _ _ _ _ _ (oget_run w0 p _ _ _)). cbn [ds_fd set_ds_fd].
  destruct (Z.leb_spec s 0) as [Hs|Hs].
  { destruct (close_fds_run w0 p (set_ds_fd s (set_ctrl_fd d (fresh_obj hdl))) tr2) as (tr3 & E3 & B3).
    rewrite (bind_run _ _ _ _ _ E3). do 3 eexists. split; [reflexivity|]. split; [done|]. split; [done|].
    intros fd Hfd. rewrite B3, B2, B1 by done. cbn. destruct (Z.eqb_spec s fd); cbn; lia. }
  unfold mm_camera_cmd_thread_launch. erewrite bind_run.
  2:{ erewrite bind_run by reflexivity. rewrite evt_set_run. erewrite bind_run by (apply iext_run; reflexivity). reflexivity. }
  set (o1 := set_evt_thread _ _). set (tr3 := EThreadCreate T_camera_evt :: tr2).
  destruct (poll_launch_run tr3 Hok) as (rc1 & q & tr4 & E4 & Ht & Hp & B4).
  rewrite (bind_run _ _ _ _ _ (on_evt_poll_run w0 p _ o1 tr3 _ _ E4)). cbn [pw_poll pw_tr pw].
  set (o2 := set_evt_poll_thread q o1).
  assert (Hlive : cam_live o2) by (constructor; try done; by exists [], 0).
  destruct (evt_sub_run w0 p true o2 tr4 Hok Hlive) as (rc2 & o3 & tr5 & E5 & B5 & q' & -> & Hq1 & Hq2 & Hq3).
  rewrite (bind_run _ _ _ _ _ E5). exists 0, (set_evt_poll_thread q' o2), tr5. split; [done|]. split; [done|].
  split.
  - constructor; try done; [by rewrite <- Ht|by rewrite <- Hp|by exists [], 0].
  - intros fd Hfd. rewrite B5, B4 by done. unfold tr3. simpl. rewrite B2, B1 by done. rewrite Hq2. simpl. lia.
Qed.

Lemma close_camera_run w0 p o tr : pipes_ok -> cb_lock p ∉ iw_locks w0 -> cam_live o -> exists o' tr',
  close_camera p (at_obj w0 p o tr) = Some (tt, at_obj w0 p o' tr') /\
  forall fd, 0 < fd -> balance fd tr' = balance fd tr - occurrences fd (cam_fds o).
Proof.
  intros Hok Hl Hlive. unfold close_camera.
  destruct (evt_sub_run w0 p false o tr Hok Hlive) as (rc & o1 & tr1 & E1 & B1 & q & -> & Hq1 & Hq2 & Hq3).
  rewrite (bind_run _ _ _ _ _ E1). destruct Hlive as [Hc Hd Ht Hp He].
  destruct (poll_release_run q tr1 Hok) as (tr2 & E2 & B2); [by rewrite Hq3|].
  rewrite (bind_run _ _ _ _ _ (on_evt_poll_run w0 p _ (set_evt_poll_thread q o) tr1 _ _ E2)). cbn [pw_poll pw_tr pw].
  set (o2 := set_evt_poll_thread _ _).
  destruct (evt_release_run w0 p o2 tr2 Hok Hl He) as (tr3 & E3 & B3). rewrite (bind_run _ _ _ _ _ E3).
  destruct (close_fds_run w0 p (set_evt_thread None o2) tr3) as (tr4 & E4 & B4). rewrite (bind_run _ _ _ _ _ E4).
  unfold mutex_destroy, gets. erewrite bind_run by reflexivity. simpl. rewrite decide_False by done.
  do 2 eexists. split; [reflexivity|]. intros fd Hfd. rewrite B4, B3, B2, B1 by done. simpl. rewrite Hq2. lia.
Qed.

(** ** The entry points *)

Definition slot_at (w : iworld) (i : nat) : option (option positive) := cam_obj (iw_ctrl w) !! i.

(** The control structure with another camera in slot [i]. *)
Definition with_slot (i : nat) (s : option positive) (c : mm_camera_ctrl_t) : mm_camera_ctrl_t :=
  {| num_cam := num_cam c; video_dev_name := video_dev_name c; cam_obj := <[i := s]> (cam_obj c) |}.

Lemma set_cam_obj_run i s w : (i < length (cam_obj (iw_ctrl w)))%nat ->
  set_cam_obj i s w = Some (tt, put_iw_ctrl (with_slot i s (iw_ctrl w)) w).
Proof.
  intros Hi. unfold set_cam_obj, gets, mbind, M_bind. simpl. by rewrite (proj2 (Nat.ltb_lt _ _) Hi).
Qed.

Lemma lock_run l w : l ∉ iw_locks w -> mutex_lock l w = Some (tt, put_iw_locks (l :: iw_locks w) w).
Proof. intros H. unfold mutex_lock, gets, mbind, M_bind. by rewrite decide_False. Qed.

Lemma unlock_run l ls w : iw_locks w = l :: ls -> l ∉ ls -> mutex_unlock l w = Some (tt, put_iw_locks ls w).
Proof.
  intros H Hl. unfold mutex_unlock, gets, mbind, M_bind. rewrite H. rewrite decide_True by set_solver. by rewrite filter_lock.
Qed.

Lemma obj_lookup p o w : iw_heap w !! p = Some o -> obj_at p w = Some (o, w).
Proof. intros H. unfold obj_at, mbind, M_bind, get, deref. by rewrite H. Qed.

Lemma oupd_at p f o w : iw_heap w !! p = Some o ->
  oupd p f w = Some (tt, put_iw_heap (<[p := f o]> (iw_heap w)) w).
Proof. intros H. unfold oupd. by rewrite (bind_run _ _ _ _ _ (obj_lookup p o w H)). Qed.

Lemma open_again_run idx w p o : iw_locks w = [] -> idx < num_cam (iw_ctrl w) ->
  slot_at w (Z.to_nat idx) = Some (Some p) -> iw_heap w !! p = Some o ->
  camera_open idx w = Some (Some p, put_iw_heap (<[p := set_ref_count (ref_count o +i 1) o]> (iw_heap w)) w).
Proof.
  intros Hl Hn Hs Ho. unfold camera_open. erewrite bind_run by reflexivity.
  destruct (Z.leb_spec (num_cam (iw_ctrl w)) idx); [lia|].
  rewrite (bind_run _ _ _ _ _ (lock_run g_intf_lock w ltac:(rewrite Hl; set_solver))).
  erewrite bind_run by reflexivity. unfold slot_at in Hs. cbn [iw_ctrl put_iw_locks]. rewrite Hs.
  erewrite bind_run by reflexivity. cbv beta iota. erewrite bind_run; [|by apply oupd_at].
  erewrite bind_run; [|apply (unlock_run g_intf_lock []); [simpl; by rewrite Hl|set_solver]].
  unfold mret, M_ret. do 2 f_equal. destruct w; simpl in *. by subst.
Qed.

Lemma open_new_run idx w : pipes_ok -> iw_locks w = [] -> 0 <= idx < 256 -> idx < num_cam (iw_ctrl w) ->
  slot_at w (Z.to_nat idx) = Some None -> 0 <= iw_count w < 2 ^ 16 ->
  let hdl := (mm_camera_util_generate_handler (iw_count w) idx).1 in
  exists r w', camera_open idx w = Some (r, w') /\ iw_locks w' = [] /\
    iw_count w' = (mm_camera_util_generate_handler (iw_count w) idx).2 /\
    match r with
    | None => iw_ctrl w' = iw_ctrl w /\ iw_heap w' = iw_heap w /\ same_fds (iw_tr w) (iw_tr w')
    | Some p => iw_heap w !! p = None /\ exists o, cam_live o /\ same_rest (fresh_obj hdl) o /\
        iw_heap w' = <[p := o]> (iw_heap w) /\ iw_ctrl w' = with_slot (Z.to_nat idx) (Some p) (iw_ctrl w) /\
        forall fd, 0 < fd -> balance fd (iw_tr w') = balance fd (iw_tr w) + occurrences fd (cam_fds o)
    end.
Proof.
  intros Hok Hl Hi Hn Hs Hc hdl. unfold slot_at in Hs. pose proof (lookup_lt_Some _ _ _ Hs) as Hlt.
  unfold camera_open. erewrite bind_run by reflexivity. destruct (Z.leb_spec (num_cam (iw_ctrl w)) idx); [lia|].
  rewrite (bind_run _ _ _ _ _ (lock_run g_intf_lock w ltac:(rewrite Hl; set_solver))).
  erewrite bind_run by reflexivity. cbn [iw_ctrl put_iw_locks]. rewrite Hs. erewrite bind_run by reflexivity. cbv beta iota.
  set (p := fresh (dom (iw_heap w) : gset positive)).
  set (w1 := put_iw_tr (EMalloc true :: iw_tr w) (put_iw_locks (g_intf_lock :: iw_locks w) w)).
  rewrite (bind_run _ _ _ (Some p) w1).
  2:{ unfold malloc_camera, iext, zoom, sys_malloc, ext, mbind, M_bind. simpl. by rewrite (po_malloc Hok). }
  cbv beta iota. erewrite bind_run by reflexivity. change (iw_count w1) with (iw_count w).
  destruct (mm_camera_util_generate_handler (iw_count w) idx) as [h count] eqn:Eh. simpl in hdl.
  erewrite bind_run by reflexivity. set (w2 := put_iw_count count w1).
  rewrite (bind_run _ _ w2 tt (at_obj w2 p (fresh_obj h) (iw_tr w2))) by reflexivity.
  destruct (mm_camera_open_run w2 p h (iw_tr w2) Hok) as (rc & o & tr & E1 & Hr & Hrc).
  rewrite (bind_run _ _ _ _ _ E1). assert (Hfr : iw_heap w !! p = None).
  { apply not_elem_of_dom. apply is_fresh. }
  assert (Hpn : cam_lock p ∉ [g_intf_lock]) by set_solver.
  destruct (Z.eqb_spec rc 0) as [->|Hne]; cbn [negb].
  - destruct Hrc as [Hlive Hb]. erewrite bind_run; [|by apply set_cam_obj_run].
    erewrite bind_run; [|apply (unlock_run g_intf_lock []); [simpl; by rewrite Hl|set_solver]].
    exists (Some p). eexists. split; [reflexivity|]. split; [done|]. split; [done|]. split; [done|].
    exists o. split; [done|]. split; [done|]. split; [done|]. split; [done|]. exact Hb.
  - destruct Hrc as [-> Hb]. erewrite bind_run.
    2:{ unfold mutex_destroy, gets. erewrite bind_run by reflexivity. simpl. rewrite Hl, decide_False by done. reflexivity. }
    erewrite bind_run; [|by apply set_cam_obj_run].
    erewrite bind_run.
    2:{ unfold free_camera, obj_at, mbind, M_bind, get, deref, modify. simpl. rewrite lookup_insert_eq. reflexivity. }
    erewrite bind_run; [|apply (unlock_run g_intf_lock []); [simpl; by rewrite Hl|set_solver]].
    exists None. eexists. split; [reflexivity|]. split; [done|]. split; [done|]. simpl. split_and!.
    + unfold with_slot. destruct (iw_ctrl w) as [nc vn co]. simpl in *. f_equal. by apply list_insert_id.
    + by rewrite delete_insert_id.
    + exact Hb.
Qed.

(** The index a handle carries. *)
Definition slot_of (h : Z) : nat := Z.to_nat (mm_camera_util_get_index_by_handler h).

Lemma slot_of_close h : Z.to_nat (u8 (Z.land h 255)) = slot_of h.
Proof. done. Qed.

Lemma get_camera_run h w : (MSM_MAX_CAMERA_SENSORS <= length (cam_obj (iw_ctrl w)))%nat ->
  (forall i p, slot_at w i = Some (Some p) -> is_Some (iw_heap w !! p)) ->
  mm_camera_util_get_camera_by_handler h w =
  Some (if mm_camera_util_get_index_by_handler h <? Z.of_nat MSM_MAX_CAMERA_SENSORS then
          match slot_at w (slot_of h) with
          | Some (Some p) => match iw_heap w !! p with
                             | Some o => if h =? cam_my_hdl o then Some p else None
                             | None => None end
          | _ => None
          end
        else None, w).
Proof.
  intros Hlen Hs. unfold mm_camera_util_get_camera_by_handler.
  destruct (Z.ltb_spec (mm_camera_util_get_index_by_handler h) (Z.of_nat MSM_MAX_CAMERA_SENSORS)) as [Hi|Hi]; [|done].
  assert (0 <= mm_camera_util_get_index_by_handler h) by apply u8_bound.
  erewrite bind_run by reflexivity. unfold slot_of.
  destruct (lookup_lt_is_Some_2 (cam_obj (iw_ctrl w)) (Z.to_nat (mm_camera_util_get_index_by_handler h))) as [s Es]; [lia|].
  unfold slot_at in *. rewrite Es. erewrite bind_run by reflexivity. cbv beta iota. destruct s as [p|]; [|done].
  destruct (Hs _ _ Es) as [o Ho]. rewrite (bind_run _ _ _ _ _ (obj_lookup p o w Ho)), Ho. done.
Qed.

Section Close.
Context (h : Z) (w : iworld) (p : positive) (o : mm_camera_obj_t).
Context (Hl : iw_locks w = []) (Ho : iw_heap w !! p = Some o).
Context (Hget : forall l, mm_camera_util_get_camera_by_handler h (put_iw_locks l w) = Some (Some p, put_iw_locks l w)).

Lemma close_keep_run : 0 < ref_count o -i 1 ->
  mm_camera_intf_close h w = Some (0, put_iw_heap (<[p := set_ref_count (ref_count o -i 1) o]> (iw_heap w)) w).
Proof.
  intros Hr. unfold mm_camera_intf_close.
  rewrite (bind_run _ _ _ _ _ (lock_run g_intf_lock w ltac:(rewrite Hl; set_solver))), (bind_run _ _ _ _ _ (Hget _)).
  cbv beta iota. erewrite bind_run; [|by apply oupd_at]. unfold oget.
  erewrite bind_run; [|erewrite bind_run; [|apply obj_lookup; simpl; apply lookup_insert_eq]; reflexivity].
  cbn [ref_count set_ref_count]. rewrite (proj2 (Z.ltb_lt _ _) Hr).
  erewrite bind_run; [|apply (unlock_run g_intf_lock []); [simpl; by rewrite Hl|set_solver]].
  unfold mret, M_ret. do 2 f_equal. destruct w; simpl in *. by subst.
Qed.

Lemma close_last_run : pipes_ok -> cam_live o -> ref_count o -i 1 <= 0 -> (slot_of h < length (cam_obj (iw_ctrl w)))%nat ->
  exists w', mm_camera_intf_close h w = Some (0, w') /\ iw_locks w' = [] /\ iw_count w' = iw_count w /\
    iw_ctrl w' = with_slot (slot_of h) None (iw_ctrl w) /\ iw_heap w' = delete p (iw_heap w) /\
    forall fd, 0 < fd -> balance fd (iw_tr w') = balance fd (iw_tr w) - occurrences fd (cam_fds o).
Proof.
  intros Hok Hlive Hr Hlt. unfold mm_camera_intf_close.
  rewrite (bind_run _ _ _ _ _ (lock_run g_intf_lock w ltac:(rewrite Hl; set_solver))), (bind_run _ _ _ _ _ (Hget _)).
  cbv beta iota. erewrite bind_run; [|by apply oupd_at]. unfold oget.
  erewrite bind_run; [|erewrite bind_run; [|apply obj_lookup; simpl; apply lookup_insert_eq]; reflexivity].
  cbn [ref_count set_ref_count]. destruct (Z.ltb_spec 0 (ref_count o -i 1)); [lia|]. rewrite slot_of_close.
  erewrite bind_run; [|by apply set_cam_obj_run].
  erewrite bind_run; [|apply lock_run; simpl; rewrite Hl; set_solver].
  erewrite bind_run.
  2:{ unfold mutex_unlock, gets. erewrite bind_run by reflexivity. cbn [iw_locks put_iw_locks put_iw_ctrl put_iw_heap]. rewrite Hl.
      rewrite decide_True by set_solver. reflexivity. }
  rewrite filter_cons_True by done. rewrite filter_cons_False by (intros X; by apply X). rewrite filter_nil.
  set (o1 := set_ref_count _ o).
  set (w1 := put_iw_locks [cam_lock p] (put_iw_ctrl (with_slot (slot_of h) None (iw_ctrl w)) w)).
  match goal with |- context [put_iw_locks [cam_lock p] ?x] =>
    replace (put_iw_locks [cam_lock p] x) with (at_obj w1 p o1 (iw_tr w)) by reflexivity end.
  destruct (close_camera_run w1 p o1 (iw_tr w) Hok) as (o2 & tr2 & E2 & B2); [simpl; set_solver|by destruct Hlive|].
  unfold mm_camera_close. erewrite bind_run.
  2:{ rewrite (bind_run _ _ _ _ _ E2). erewrite bind_run; [|apply (unlock_run (cam_lock p) []); [done|set_solver]]. reflexivity. }
  erewrite bind_run.
  2:{ unfold mutex_destroy, gets. erewrite bind_run by reflexivity. reflexivity. }
  erewrite bind_run.
  2:{ unfold free_camera. erewrite bind_run; [|apply obj_lookup; simpl; apply lookup_insert_eq]. reflexivity. }
  eexists. split; [reflexivity|]. split; [done|]. split; [done|]. split; [done|]. split.
  - simpl. by rewrite delete_insert_eq.
  - intros fd Hfd. simpl. by rewrite B2.
Qed.

End Close.

(** ** The table of cameras *)

(** The descriptors of the camera in a slot. *)
Definition slot_occ (fd : Z) (m : gmap positive mm_camera_obj_t) (s : option positive) : Z :=
  match s ≫= (m !!.) with Some o => occurrences fd (cam_fds o) | None => 0 end.
Definition held (fd : Z) (m : gmap positive mm_camera_obj_t) (l : list (option positive)) : Z :=
  foldr (fun s n => slot_occ fd m s + n) 0 l.

Lemma held_ext fd m m' l : (forall i p, l !! i = Some (Some p) -> m' !! p = m !! p) -> held fd m' l = held fd m l.
Proof.
  induction l as [|s l IH]; intros H; [done|]. simpl. rewrite IH by (intros i p Hi; by apply (H (S i))). f_equal.
  destruct s as [p|]; [|done]. unfold slot_occ. simpl. by rewrite (H 0%nat p).
Qed.

Lemma held_change fd m m' l i s s' : l !! i = Some s ->
  (forall j p, j <> i -> l !! j = Some (Some p) -> m' !! p = m !! p) ->
  held fd m' (<[i := s']> l) = held fd m l - slot_occ fd m s + slot_occ fd m' s'.
Proof.
  revert i. induction l as [|x l IH]; intros i Hi Hj; [done|]. destruct i as [|i]; simpl in *.
  - simplify_eq. rewrite (held_ext fd m m' l); [lia|]. intros j p Hp. by apply (Hj (S j)).
  - rewrite (IH i Hi) by (intros j p Hne; apply (Hj (S j)); congruence).
    assert (slot_occ fd m' x = slot_occ fd m x) as ->; [|lia].
    destruct x as [p|]; [|done]. unfold slot_occ. simpl. by rewrite (Hj 0%nat p).
Qed.

(** After [n] calls.  The descriptors that are open beyond the baseline [base]
    are those of the cameras in the table. *)
Record table_inv (base : Z -> Z) (n : Z) (w : iworld) : Prop := {
  ti_locks : iw_locks w = [];
  ti_count : 0 <= iw_count w < 2 ^ 16;
  ti_len : length (cam_obj (iw_ctrl w)) = MSM_MAX_CAMERA_SENSORS;
  ti_num : num_cam (iw_ctrl w) <= Z.of_nat MSM_MAX_CAMERA_SENSORS;
  ti_slots : forall i p, slot_at w i = Some (Some p) -> exists o, iw_heap w !! p = Some o /\ cam_live o /\
    slot_of (cam_my_hdl o) = i /\ vtbl_camera_handle o = cam_my_hdl o /\ 1 <= ref_count o <= n;
  ti_heap : forall p, is_Some (iw_heap w !! p) -> exists i, slot_at w i = Some (Some p);
  ti_fds : forall fd, 0 < fd -> balance fd (iw_tr w) = base fd + held fd (iw_heap w) (cam_obj (iw_ctrl w))
}.

Lemma ti_distinct base n w i j p : table_inv base n w -> slot_at w i = Some (Some p) -> slot_at w j = Some (Some p) -> i = j.
Proof.
  intros H Hi Hj. destruct (ti_slots _ _ _ H _ _ Hi) as (o & Ho & _ & <- & _).
  destruct (ti_slots _ _ _ H _ _ Hj) as (o' & Ho' & _ & <- & _). by simplify_eq.
Qed.

(** Replacing the object in one slot by one with the same descriptors. *)
Lemma table_upd base n n' w i p o o' : table_inv base n w -> n <= n' -> slot_at w i = Some (Some p) ->
  iw_heap w !! p = Some o -> cam_live o' -> cam_my_hdl o' = cam_my_hdl o -> vtbl_camera_handle o' = vtbl_camera_handle o ->
  cam_fds o' = cam_fds o -> 1 <= ref_count o' <= n' -> table_inv base n' (put_iw_heap (<[p := o']> (iw_heap w)) w).
Proof.
  intros H Hn Hs Ho Hl Hh Hv Hf Hr. constructor; try apply H.
  - intros j q Hj. simpl. destruct (ti_slots _ _ _ H j q Hj) as (oq & Hq & ? & Hsl & ? & ?).
    destruct (decide (q = p)) as [->|Hne].
    + simplify_eq. rewrite lookup_insert_eq. exists o'. split; [done|]. split; [done|]. rewrite Hh, Hv. split_and!; done || lia.
    + rewrite lookup_insert_ne by done. exists oq. split_and!; try done; lia.
  - intros q [x Hq]. apply (ti_heap _ _ _ H). simpl in Hq. destruct (decide (q = p)) as [->|Hne]; [by eexists|].
    rewrite lookup_insert_ne in Hq by done. by eexists.
  - intros fd Hfd. simpl. rewrite (ti_fds _ _ _ H fd Hfd). f_equal. unfold held.
    induction (cam_obj (iw_ctrl w)) as [|s l IH]; [done|]. simpl. rewrite IH. f_equal. unfold slot_occ.
    destruct s as [q|]; [|done]. cbn [mbind option_bind]. destruct (decide (q = p)) as [->|Hne].
    + rewrite lookup_insert_eq, Ho. cbv beta iota. by rewrite Hf.
    + by rewrite lookup_insert_ne.
Qed.

Lemma table_mono base n n' w : n <= n' -> table_inv base n w -> table_inv base n' w.
Proof.
  intros Hn H. constructor; try apply H. intros i p Hi. destruct (ti_slots _ _ _ H i p Hi) as (o & ? & ? & ? & ? & ?).
  exists o. split_and!; try done; lia.
Qed.

(** ** The specification: handles and reference counts *)

Inductive cam_act : Type := A_open (camera_idx : Z) | A_close (camera_handle : Z).
Inductive cam_res : Type := R_open (camera_handle : option Z) | R_close (rc : Z).

(** A call, with what the client sees of it: the handle in the virtual table,
    or the status. *)
Definition run_act (a : cam_act) : M iworld cam_res :=
  match a with
  | A_open i =>
      v ← camera_open i;
      match v with Some p => h ← oget p vtbl_camera_handle; mret (R_open (Some h)) | None => mret (R_open None) end
  | A_close h => rc ← mm_camera_intf_close h; mret (R_close rc)
  end.

Fixpoint run_acts (l : list cam_act) : M iworld (list cam_res) :=
  match l with
  | [] => mret []
  | a :: l => r ← run_act a; rs ← run_acts l; mret (r :: rs)
  end.

(** For each slot, the handle it is known by and how often it was opened. *)
Abbreviation cam_table := (list (option (Z * Z))).

Inductive abs_step (num : Z) : cam_table -> cam_act -> cam_res -> cam_table -> Prop :=
| abs_range t i : num <= i -> abs_step num t (A_open i) (R_open None) t
| abs_fail t i : t !! Z.to_nat i = Some None -> abs_step num t (A_open i) (R_open None) t
| abs_open t i h : t !! Z.to_nat i = Some None -> 0 < h -> slot_of h = Z.to_nat i ->
    abs_step num t (A_open i) (R_open (Some h)) (<[Z.to_nat i := Some (h, 1)]> t)
| abs_again t i h n : i < num -> t !! Z.to_nat i = Some (Some (h, n)) ->
    abs_step num t (A_open i) (R_open (Some h)) (<[Z.to_nat i := Some (h, n + 1)]> t)
| abs_close t h n : t !! slot_of h = Some (Some (h, n)) ->
    abs_step num t (A_close h) (R_close 0) (<[slot_of h := if 1 <? n then Some (h, n - 1) else None]> t)
| abs_stale t h : (forall n, t !! slot_of h <> Some (Some (h, n))) -> abs_step num t (A_close h) (R_close (-1)) t.

Inductive abs_steps (num : Z) : cam_table -> list cam_act -> list cam_res -> cam_table -> Prop :=
| abs_nil t : abs_steps num t [] [] t
| abs_cons t a r t1 l rs t2 : abs_step num t a r t1 -> abs_steps num t1 l rs t2 -> abs_steps num t (a :: l) (r :: rs) t2.

Definition abs_slot (m : gmap positive mm_camera_obj_t) (s : option positive) : option (Z * Z) :=
  o ← s ≫= (m !!.); Some (cam_my_hdl o, ref_count o).
Definition abs (w : iworld) : cam_table := abs_slot (iw_heap w) <$> cam_obj (iw_ctrl w).

Lemma abs_lookup w i s : slot_at w i = Some s -> abs w !! i = Some (abs_slot (iw_heap w) s).
Proof. intros H. unfold abs. rewrite list_lookup_fmap. unfold slot_at in H. by rewrite H. Qed.

(** Changing one slot. *)
Lemma abs_change w w' i s s' : slot_at w i = Some s -> cam_obj (iw_ctrl w') = <[i := s']> (cam_obj (iw_ctrl w)) ->
  (forall j p, j <> i -> slot_at w j = Some (Some p) -> iw_heap w' !! p = iw_heap w !! p) ->
  abs w' = <[i := abs_slot (iw_heap w') s']> (abs w).
Proof.
  intros Hs Hc Hj. unfold abs. rewrite Hc. apply list_eq. intros j. rewrite list_lookup_fmap.
  unfold slot_at in *. pose proof (lookup_lt_Some _ _ _ Hs) as Hlt. destruct (decide (i = j)) as [<-|Hne].
  - rewrite !list_lookup_insert_eq; [done|by rewrite length_fmap|done].
  - rewrite !list_lookup_insert_ne, list_lookup_fmap by done.
    destruct (cam_obj (iw_ctrl w) !! j) as [[p|]|] eqn:Ej; [|done..]. simpl. f_equal. unfold abs_slot. simpl.
    by rewrite (Hj j p).
Qed.

(** A call as the client may make it: indices and handles are unsigned. *)
Definition act_ok (a : cam_act) : Prop :=
  match a with A_open i => 0 <= i < 256 | A_close h => 0 <= h < 2 ^ 32 end.

Lemma handler_fresh c i : 0 <= c < 2 ^ 16 -> 0 <= i < 256 ->
  let '(h, c') := mm_camera_util_generate_handler c i in 0 < h /\ slot_of h = Z.to_nat i /\ 0 <= c' < 2 ^ 16.
Proof.
  intros Hc Hi. pose proof (next_count_range c Hc). rewrite generate_handler_eq by lia. unfold slot_of.
  rewrite handler_unpack by lia. lia.
Qed.

(** A new camera in a free slot. *)
Lemma table_add base n w w' i p o : table_inv base n w -> 0 <= n -> slot_at w i = Some None -> iw_heap w !! p = None ->
  iw_locks w' = [] -> 0 <= iw_count w' < 2 ^ 16 -> iw_heap w' = <[p := o]> (iw_heap w) ->
  iw_ctrl w' = with_slot i (Some p) (iw_ctrl w) -> cam_live o -> slot_of (cam_my_hdl o) = i ->
  vtbl_camera_handle o = cam_my_hdl o -> ref_count o = 1 ->
  (forall fd, 0 < fd -> balance fd (iw_tr w') = balance fd (iw_tr w) + occurrences fd (cam_fds o)) ->
  table_inv base (n + 1) w'.
Proof.
  intros H Hn Hs Hp Hl Hc Hh Hct Hlive Hsl Hv Hr Hb. pose proof (lookup_lt_Some _ _ _ Hs) as Hlt.
  assert (Hne : forall j q, slot_at w j = Some (Some q) -> q <> p).
  { intros j q Hj ->. destruct (ti_slots _ _ _ H _ _ Hj) as (? & ? & _). simplify_eq. }
  constructor; rewrite ?Hct, ?Hh; simpl; try done; try apply H.
  - rewrite length_insert. apply H.
  - unfold slot_at. rewrite Hct. simpl. intros j q Hj. destruct (decide (i = j)) as [<-|Hij].
    + rewrite list_lookup_insert_eq in Hj by done. simplify_eq. rewrite lookup_insert_eq. exists o. split_and!; done || lia.
    + rewrite list_lookup_insert_ne in Hj by done. destruct (ti_slots _ _ _ H j q Hj) as (oq & ? & ? & ? & ? & ?).
      rewrite lookup_insert_ne by (apply not_eq_sym; by apply (Hne j)). exists oq. split_and!; done || lia.
  - unfold slot_at. rewrite Hct. simpl. intros q [x Hq]. destruct (decide (q = p)) as [->|Hqp].
    + exists i. by rewrite list_lookup_insert_eq.
    + rewrite lookup_insert_ne in Hq by done. destruct (ti_heap _ _ _ H q) as [j Hj]; [by eexists|]. exists j.
      rewrite list_lookup_insert_ne; [done|]. intros ->. unfold slot_at in *. congruence.
  - intros fd Hfd. rewrite Hb by done. rewrite (ti_fds _ _ _ H fd Hfd).
    rewrite (held_change fd (iw_heap w) (<[p := o]> (iw_heap w)) (cam_obj (iw_ctrl w)) i None (Some p) Hs).
    2:{ intros j q Hij Hj. apply lookup_insert_ne, not_eq_sym. by apply (Hne j). }
    unfold slot_occ at 2. cbn [mbind option_bind]. rewrite lookup_insert_eq. change (slot_occ fd (iw_heap w) None) with 0. lia.
Qed.

Lemma open_step base n w i : pipes_ok -> table_inv base n w -> n + 1 < 2 ^ 31 -> 0 <= n -> 0 <= i < 256 ->
  exists r w', run_act (A_open i) w = Some (r, w') /\ table_inv base (n + 1) w' /\ num_cam (iw_ctrl w') = num_cam (iw_ctrl w) /\
    abs_step (num_cam (iw_ctrl w)) (abs w) (A_open i) r (abs w').
Proof.
  intros Hok H Hn Hn0 Hi. unfold run_act. destruct (Z.le_gt_cases (num_cam (iw_ctrl w)) i) as [Hr|Hr].
  { exists (R_open None), w. split.
    - unfold camera_open. erewrite bind_run; [|erewrite bind_run by reflexivity; by rewrite (proj2 (Z.leb_le _ _) Hr)].
      reflexivity.
    - split; [apply (table_mono _ n); [lia|done]|]. split; [done|]. by constructor. }
  destruct (lookup_lt_is_Some_2 (cam_obj (iw_ctrl w)) (Z.to_nat i)) as [s Hs].
  { rewrite (ti_len _ _ _ H). pose proof (ti_num _ _ _ H). lia. }
  destruct s as [p|].
  - destruct (ti_slots _ _ _ H _ _ Hs) as (o & Ho & Hl & Hsl & Hv & Href).
    rewrite (bind_run _ _ _ _ _ (open_again_run i w p o (ti_locks _ _ _ H) Hr Hs Ho)).
    rewrite i32_id by (unfold i32_range; lia). cbv beta iota. set (o' := set_ref_count (ref_count o + 1) o).
    set (w' := put_iw_heap (<[p := o']> (iw_heap w)) w). unfold oget.
    erewrite bind_run; [|erewrite bind_run; [|apply obj_lookup; simpl; apply lookup_insert_eq]; reflexivity].
    exists (R_open (Some (cam_my_hdl o))), w'. split; [unfold mret, M_ret; simpl; by rewrite Hv|]. split.
    { eapply (table_upd base n (n + 1) w (Z.to_nat i) p o o' H); try done; [lia|by destruct Hl|simpl; lia]. }
    split; [done|].
    assert (Ha : abs w' = <[Z.to_nat i := Some (cam_my_hdl o, ref_count o + 1)]> (abs w)).
    { rewrite (abs_change w w' (Z.to_nat i) (Some p) (Some p)); [|done|simpl; by rewrite list_insert_id|].
      - f_equal. unfold abs_slot. simpl. by rewrite lookup_insert_eq.
      - intros j q Hj Hq. simpl. apply lookup_insert_ne. intros <-. apply Hj. by apply (ti_distinct base n w _ _ p). }
    rewrite Ha. constructor; [lia|]. rewrite (abs_lookup w _ (Some p) Hs). unfold abs_slot. simpl. by rewrite Ho.
  - destruct (open_new_run i w Hok (ti_locks _ _ _ H) Hi Hr Hs (ti_count _ _ _ H)) as (r & w' & E1 & Hl & Hc & Hrest).
    pose proof (handler_fresh (iw_count w) i (ti_count _ _ _ H) Hi) as Hh.
    destruct (mm_camera_util_generate_handler (iw_count w) i) as [h c']. destruct Hh as (Hh1 & Hh2 & Hh3). simpl in *.
    rewrite (bind_run _ _ _ _ _ E1). destruct r as [p|].
    + destruct Hrest as (Hfr & o & Hlive & (Hr1 & Hr2 & _ & _ & Hr5) & Hheap & Hctrl & Hb). simpl in Hr1, Hr2, Hr5.
      assert (Ho : iw_heap w' !! p = Some o) by (rewrite Hheap; apply lookup_insert_eq). unfold oget.
      erewrite bind_run; [|erewrite bind_run; [|by apply obj_lookup]; reflexivity].
      exists (R_open (Some h)), w'. split; [unfold mret, M_ret; by rewrite Hr5|]. split.
      { eapply (table_add base n w w' (Z.to_nat i) p o H); try done; congruence. }
      split; [by rewrite Hctrl|]. rewrite (abs_change w w' (Z.to_nat i) None (Some p)); [|done|by rewrite Hctrl|].
      * unfold abs_slot. simpl. rewrite Ho. simpl. rewrite Hr1, Hr2. constructor; [|done|done].
        by rewrite (abs_lookup w _ None Hs).
      * intros j q Hj Hq. rewrite Hheap. apply lookup_insert_ne. intros <-.
        destruct (ti_slots _ _ _ H _ _ Hq) as (? & ? & _). simplify_eq.
    + destruct Hrest as (Hctrl & Hheap & Hb). exists (R_open None), w'. split; [done|].
      assert (Habs : abs w' = abs w) by (unfold abs; by rewrite Hctrl, Hheap). split.
      { apply (table_mono _ n); [lia|]. constructor; unfold slot_at; rewrite ?Hctrl, ?Hheap; try apply H; [done|by rewrite Hc|].
        intros fd Hfd. rewrite Hb by done. by apply H. }
      split; [by rewrite Hctrl|]. rewrite Habs. apply abs_fail. by rewrite (abs_lookup w _ None Hs).
Qed.

(** A camera taken out of its slot and freed. *)
Lemma table_remove base n w w' i p o : table_inv base n w -> slot_at w i = Some (Some p) -> iw_heap w !! p = Some o ->
  iw_locks w' = [] -> iw_count w' = iw_count w -> iw_heap w' = delete p (iw_heap w) ->
  iw_ctrl w' = with_slot i None (iw_ctrl w) ->
  (forall fd, 0 < fd -> balance fd (iw_tr w') = balance fd (iw_tr w) - occurrences fd (cam_fds o)) ->
  table_inv base n w'.
Proof.
  intros H Hs Ho Hl Hc Hh Hct Hb. pose proof (lookup_lt_Some _ _ _ Hs) as Hlt.
  assert (Hne : forall j q, i <> j -> slot_at w j = Some (Some q) -> q <> p).
  { intros j q Hij Hj ->. apply Hij. by apply (ti_distinct base n w _ _ p). }
  constructor; rewrite ?Hct, ?Hh, ?Hc; simpl; try done; try apply H.
  - rewrite length_insert. apply H.
  - unfold slot_at. rewrite Hct. simpl. intros j q Hj. destruct (decide (i = j)) as [<-|Hij].
    + by rewrite list_lookup_insert_eq in Hj.
    + rewrite list_lookup_insert_ne in Hj by done. rewrite lookup_delete_ne by (apply not_eq_sym; by apply (Hne j)).
      by apply H.
  - unfold slot_at. rewrite Hct. simpl. intros q [x Hq]. apply lookup_delete_Some in Hq as [Hqp Hq].
    destruct (ti_heap _ _ _ H q) as [j Hj]; [by eexists|]. exists j. rewrite list_lookup_insert_ne; [done|].
    intros ->. unfold slot_at in *. congruence.
  - intros fd Hfd. rewrite Hb by done. rewrite (ti_fds _ _ _ H fd Hfd).
    rewrite (held_change fd (iw_heap w) (delete p (iw_heap w)) (cam_obj (iw_ctrl w)) i (Some p) None Hs).
    2:{ intros j q Hij Hj. apply lookup_delete_ne, not_eq_sym. by apply (Hne j). }
    unfold slot_occ at 1. cbn [mbind option_bind]. rewrite Ho. change (slot_occ fd _ None) with 0. lia.
Qed.

(** The camera with a handle. *)
Definition camera_of (w : iworld) (h : Z) : option positive :=
  if mm_camera_util_get_index_by_handler h <? Z.of_nat MSM_MAX_CAMERA_SENSORS then
    match slot_at w (slot_of h) with
    | Some (Some p) => match iw_heap w !! p with
                       | Some o => if h =? cam_my_hdl o then Some p else None
                       | None => None end
    | _ => None
    end
  else None.

Lemma table_get base n w h l : table_inv base n w ->
  mm_camera_util_get_camera_by_handler h (put_iw_locks l w) = Some (camera_of w h, put_iw_locks l w).
Proof.
  intros H. apply get_camera_run; simpl; [by rewrite (ti_len _ _ _ H)|]. intros i p Hi.
  destruct (ti_slots _ _ _ H i p Hi) as (o & -> & _). by eexists.
Qed.

Lemma camera_of_Some w h p : camera_of w h = Some p ->
  slot_at w (slot_of h) = Some (Some p) /\ exists o, iw_heap w !! p = Some o /\ cam_my_hdl o = h.
Proof.
  unfold camera_of. destruct (_ <? _); [|done]. destruct (slot_at w (slot_of h)) as [[q|]|]; [|done..].
  destruct (iw_heap w !! q) as [o|] eqn:Ho; [|done]. destruct (Z.eqb_spec h (cam_my_hdl o)) as [->|]; [|done].
  intros [= <-]. split; [done|]. by exists o.
Qed.

Lemma camera_of_None base n w h : table_inv base n w -> camera_of w h = None ->
  forall m, abs w !! slot_of h <> Some (Some (h, m)).
Proof.
  intros H Hc m Hm. unfold abs in Hm. rewrite list_lookup_fmap in Hm. unfold camera_of, slot_at in Hc.
  destruct (cam_obj (iw_ctrl w) !! slot_of h) as [[p|]|] eqn:Es; [|done..]. simpl in Hm. unfold abs_slot in Hm. simpl in Hm.
  destruct (iw_heap w !! p) as [o|]; [|done]. simpl in Hm. injection Hm as Hm _. rewrite Hm, Z.eqb_refl in Hc.
  apply lookup_lt_Some in Es. rewrite (ti_len _ _ _ H) in Es. unfold slot_of in Es.
  destruct (Z.ltb_spec (mm_camera_util_get_index_by_handler h) (Z.of_nat MSM_MAX_CAMERA_SENSORS)); [done|].
  assert (0 <= mm_camera_util_get_index_by_handler h) by apply u8_bound. lia.
Qed.

Lemma close_step base n w h : pipes_ok -> table_inv base n w -> n + 1 < 2 ^ 31 -> 0 <= n ->
  exists r w', run_act (A_close h) w = Some (r, w') /\ table_inv base (n + 1) w' /\ num_cam (iw_ctrl w') = num_cam (iw_ctrl w) /\
    abs_step (num_cam (iw_ctrl w)) (abs w) (A_close h) r (abs w').
Proof.
  intros Hok H Hn Hn0. unfold run_act. destruct (camera_of w h) as [p|] eqn:Ec.
  2:{ exists (R_close (-1)), w. split.
      - unfold mm_camera_intf_close. erewrite bind_run; [reflexivity|].
        rewrite (bind_run _ _ _ _ _ (lock_run g_intf_lock w ltac:(rewrite (ti_locks _ _ _ H); set_solver))).
        rewrite (bind_run _ _ _ _ _ (table_get base n w h _ H)), Ec. cbv beta iota.
        erewrite bind_run; [|apply (unlock_run g_intf_lock []); [simpl; by rewrite (ti_locks _ _ _ H)|set_solver]].
        unfold mret, M_ret. do 2 f_equal. pose proof (ti_locks _ _ _ H). destruct w; simpl in *. by subst.
      - split; [apply (table_mono _ n); [lia|done]|]. split; [done|]. constructor. by eapply camera_of_None. }
  destruct (camera_of_Some w h p Ec) as (Hs & o & Ho & Hho).
  destruct (ti_slots _ _ _ H _ _ Hs) as (o' & Ho' & Hlive & Hsl & Hv & Href). simplify_eq.
  assert (Hget : forall l, mm_camera_util_get_camera_by_handler (cam_my_hdl o) (put_iw_locks l w) =
    Some (Some p, put_iw_locks l w)) by (intros l; by rewrite (table_get base n w _ l H), Ec).
  assert (Hab : abs w !! slot_of (cam_my_hdl o) = Some (Some (cam_my_hdl o, ref_count o))).
  { rewrite (abs_lookup w _ (Some p) Hs). unfold abs_slot. simpl. by rewrite Ho. }
  assert (Hr1 : ref_count o -i 1 = ref_count o - 1) by (apply i32_id; unfold i32_range; lia).
  assert (Hoth : forall j q, j <> slot_of (cam_my_hdl o) -> slot_at w j = Some (Some q) -> q <> p).
  { intros j q Hj Hq ->. apply Hj. by apply (ti_distinct base n w _ _ p). }
  destruct (Z.le_gt_cases (ref_count o) 1) as [Hone|Hmore].
  - destruct (close_last_run (cam_my_hdl o) w p o (ti_locks _ _ _ H) Ho Hget Hok Hlive) as (w' & E1 & Hl & Hc & Hct & Hh & Hb);
      [lia|by eapply lookup_lt_Some|].
    rewrite (bind_run _ _ _ _ _ E1). exists (R_close 0), w'. split; [done|]. split.
    { apply (table_mono _ n); [lia|]. by eapply (table_remove base n w w' _ p o). }
    split; [by rewrite Hct|].
    rewrite (abs_change w w' _ (Some p) None Hs); [|by rewrite Hct|].
    + pose proof (abs_close (num_cam (iw_ctrl w)) (abs w) _ _ Hab) as Hst.
      destruct (Z.ltb_spec 1 (ref_count o)); [lia|]. exact Hst.
    + intros j q Hj Hq. rewrite Hh. apply lookup_delete_ne, not_eq_sym. by apply (Hoth j).
  - rewrite (bind_run _ _ _ _ _ (close_keep_run _ w p o (ti_locks _ _ _ H) Ho Hget ltac:(lia))). rewrite Hr1.
    set (o' := set_ref_count (ref_count o - 1) o). set (w' := put_iw_heap (<[p := o']> (iw_heap w)) w).
    exists (R_close 0), w'. split; [done|]. split.
    { eapply (table_upd base n (n + 1) w _ p o o' H); try done; [lia|by destruct Hlive|simpl; lia]. }
    split; [done|]. rewrite (abs_change w w' _ (Some p) (Some p) Hs); [|simpl; by rewrite list_insert_id|].
    + pose proof (abs_close (num_cam (iw_ctrl w)) (abs w) _ _ Hab) as Hst.
      destruct (Z.ltb_spec 1 (ref_count o)); [|lia]. unfold abs_slot. simpl. rewrite lookup_insert_eq. exact Hst.
    + intros j q Hj Hq. simpl. apply lookup_insert_ne, not_eq_sym. by apply (Hoth j).
Qed.

(** C7: opening and closing cameras counts references.  For every sequence of
    calls, and whatever the devices, the server and the event subscription
    answer, every call returns, and the table of cameras changes as the
    specification says: the first open of a camera creates an object under a
    handle of its own or leaves the table as it was, further opens return the
    same handle, a close with a handle that is not current is refused, and the
    last close removes the object.  After every call the objects in the heap
    are those in the table, and the descriptors open beyond those open before
    are exactly the control device, the socket and the pipe of the cameras in
    the table: a failed open and a last close leak none. *)
Theorem open_close_refines base n w acts (Hok : pipes_ok) (Hn : 0 <= n) (H : table_inv base n w)
  (Hlen : n + Z.of_nat (length acts) < 2 ^ 31) (Hacts : Forall act_ok acts) :
  exists rs w', run_acts acts w = Some (rs, w') /\ table_inv base (n + Z.of_nat (length acts)) w' /\
    abs_steps (num_cam (iw_ctrl w)) (abs w) acts rs (abs w').
Proof.
  revert n w Hn H Hlen. induction Hacts as [|a acts Ha _ IH]; intros n w Hn H Hlen.
  { exists [], w. rewrite Z.add_0_r. split; [done|]. split; [done|constructor]. }
  cbn [length] in *. assert (exists r w1, run_act a w = Some (r, w1) /\ table_inv base (n + 1) w1 /\
    num_cam (iw_ctrl w1) = num_cam (iw_ctrl w) /\ abs_step (num_cam (iw_ctrl w)) (abs w) a r (abs w1))
    as (r & w1 & E1 & H1 & Hnum & Hst) by (destruct a; [apply open_step|apply close_step]; done || lia).
  destruct (IH (n + 1) w1) as (rs & w2 & E2 & H2 & Hsts); [lia|done|lia|].
  exists (r :: rs), w2. cbn [run_acts]. rewrite (bind_run _ _ _ _ _ E1), (bind_run _ _ _ _ _ E2). split; [done|]. split.
  - by replace (n + Z.of_nat (S (length acts))) with (n + 1 + Z.of_nat (length acts)) by lia.
  - rewrite Hnum in Hsts. by econstructor.
Qed.

End Object.

(** ** Opening and closing the camera of the phone *)

Module DemoOpen.

#[local] Existing Instance demo_cam_env.
#[local] Existing Instance honest_env.
#[local] Existing Instance DemoChannel.demo_chan_env.

Lemma demo_pipes_ok : pipes_ok.
Proof. by split. Qed.

Lemma boot_inv : table_inv (fun fd => balance fd (iw_tr boot)) 0 boot.
Proof.
  constructor; try done; try (simpl; lia).
  - intros [|[|[|[|[|i]]]]] p; done.
  - intros p [o Ho]. done.
  - intros fd _. change (held fd (iw_heap boot) (cam_obj (iw_ctrl boot))) with 0. lia.
Qed.

(** Opened twice and closed twice, with calls in between that are refused. *)
Definition demo_acts : list cam_act :=
  [A_open 0; A_open 0; A_open 3; A_close 256; A_close 7; A_close 256; A_close 256].

Definition after_acts : iworld :=
  Eval vm_compute in match run_acts demo_acts boot with Some (_, w) => w | None => boot end.

Lemma open_close_refines_witness :
  run_acts demo_acts boot = Some ([R_open (Some 256); R_open (Some 256); R_open None; R_close 0; R_close (-1);
                                   R_close 0; R_close (-1)], after_acts) /\
  (forall fd, 0 < fd -> balance fd (iw_tr after_acts) = balance fd (iw_tr boot)) /\ iw_heap after_acts = ∅.
Proof.
  assert (Er : run_acts demo_acts boot = Some ([R_open (Some 256); R_open (Some 256); R_open None; R_close 0;
    R_close (-1); R_close 0; R_close (-1)], after_acts)) by (vm_compute; reflexivity).
  destruct (open_close_refines (fun fd => balance fd (iw_tr boot)) 0 boot demo_acts demo_pipes_ok ltac:(lia) boot_inv
    ltac:(simpl; lia)) as (rs & w' & Ew & Hinv & _); [unfold demo_acts; repeat constructor; simpl; lia|].
  rewrite Er in Ew. injection Ew as <- <-. split; [exact Er|]. split; [|reflexivity].
  intros fd Hfd. rewrite (ti_fds _ _ _ Hinv fd Hfd). cbn. lia.
Defined.

End DemoOpen.
