(* ===== verification/CameraEvents.v ===== *)
(** * Events from the server to the application

    The table of event callbacks of a camera, the way of an event from the
    kernel through the event thread to the callbacks, and the mailbox through
    which a thread that has sent a mapping request gets its answer. *)

From Stdlib Require Import ZArith Lia.
From stdpp Require Import numbers list gmap strings.
From S2P Require Import Prelude CamTypes StreamOffset Env DevName Handles Threads Stream.
From S2P Require Import StreamFsm SuperBuf Channel ChannelProps Camera Interface DemoCamera CameraProps.

(** ** The table of callbacks *)

(** The callbacks that an event calls, in order. *)
Definition registered (t : mm_camera_evt_obj_t) : list (Z * Z) :=
  omap (fun e => (fun cb => (cb, evt_user_data e)) <$> evt_cb e) (evts t).

(** Free entries, which the code tells by null user data, have no callback. *)
Record evt_table_ok (t : mm_camera_evt_obj_t) : Prop := {
  et_free : Forall (fun e => evt_user_data e = 0 -> e = zero_evt_entry) (evts t);
  et_count : - 2 ^ 31 <= reg_count t < 2 ^ 31 - 1
}.

Lemma registered_insert l i e e' : l !! i = Some e -> evt_cb e = None ->
  omap (fun e => (fun cb => (cb, evt_user_data e)) <$> evt_cb e) (<[i := e']> l) ≡ₚ
  omap (fun e => (fun cb => (cb, evt_user_data e)) <$> evt_cb e) [e'] ++
  omap (fun e => (fun cb => (cb, evt_user_data e)) <$> evt_cb e) l.
Proof.
  revert i. induction l as [|x l IH]; intros i Hi He; [done|]. destruct i as [|i]; simpl in Hi.
  - simplify_eq. simpl. rewrite He. simpl. by destruct (evt_cb e').
  - simpl. specialize (IH i Hi He). destruct (evt_cb x); simpl in *; [|done]. rewrite IH. destruct (evt_cb e'); simpl; [|done].
    apply Permutation_swap.
Qed.

(** Registering a callback with user data of its own, while an entry is
    free, succeeds, adds exactly this callback to the ones an event calls, and
    is undone by removing it: the table is as before. *)
Theorem registration_roundtrip cb ud t (Hud : ud <> 0) (Ht : evt_table_ok t)
  (Hfree : Exists (fun e => evt_user_data e = 0) (evts t)) (Hnew : Forall (fun e => evt_user_data e <> ud) (evts t)) :
  let '(rc, t1) := register_entry (Some cb) ud t in
  rc = 0 /\ registered t1 ≡ₚ (cb, ud) :: registered t /\ reg_count t1 = reg_count t + 1 /\
  register_entry None ud t1 = (0, t).
Proof.
  destruct Ht as [Hf Hc]. unfold register_entry.
  destruct (list_find (fun e => evt_user_data e = 0) (evts t)) as [[i e]|] eqn:Ef.
  2:{ apply list_find_None in Ef. exfalso. apply Exists_exists in Hfree as (e & He & H0).
      by apply (proj1 (Forall_forall _ _) Ef e). }
  apply list_find_Some in Ef as (Hi & Hz & _). pose proof (Forall_lookup_1 _ _ _ _ Hf Hi Hz) as ->.
  pose proof (lookup_lt_Some _ _ _ Hi) as Hlt. split; [done|]. split; [by apply registered_insert with (e := zero_evt_entry)|].
  split; [simpl; rewrite i32_id; unfold i32_range; lia|].
  assert (Efind : list_find (fun e => evt_user_data e = ud) (evts (upd_entry i {| evt_cb := Some cb; evt_user_data := ud |} 1 t))
    = Some (i, {| evt_cb := Some cb; evt_user_data := ud |})).
  { apply list_find_Some. simpl. split; [by rewrite list_lookup_insert_eq|]. split; [done|].
    intros j y Hj Hlt'. rewrite list_lookup_insert_ne in Hj by lia. by apply (Forall_lookup_1 _ _ _ _ Hnew Hj). }
  rewrite Efind. f_equal. unfold upd_entry. simpl. rewrite list_insert_insert_eq, list_insert_id by done.
  rewrite (i32_id (reg_count t + 1)) by (unfold i32_range; lia).
  rewrite i32_id by (unfold i32_range; lia). destruct t; simpl. f_equal. lia.
Qed.

Lemma registration_roundtrip_witness :
  register_entry (Some 7) 100 (evt zero_camera) =
    (0, {| evts := [{| evt_cb := Some 7; evt_user_data := 100 |}; zero_evt_entry; zero_evt_entry; zero_evt_entry];
           reg_count := 1 |}) /\
  register_entry None 100 (snd (register_entry (Some 7) 100 (evt zero_camera))) = (0, evt zero_camera).
Proof.
  split; [reflexivity|].
  assert (Ht : evt_table_ok (evt zero_camera)) by (constructor; [simpl; repeat apply Forall_cons_2; done || apply Forall_nil_2|simpl; lia]).
  destruct (registration_roundtrip 7 100 (evt zero_camera) ltac:(lia) Ht) as (_ & _ & _ & H);
    [by constructor|by repeat constructor|exact H].
Defined.

(** With null user data the entry still counts as free: the next registration
    takes it, both are answered 0 and counted, and the first callback is not
    called any more. *)
Lemma null_user_data_overwritten cb1 cb2 ud t e l : evts t = e :: l -> evt_user_data e = 0 ->
  let '(rc1, t1) := register_entry (Some cb1) 0 t in
  let '(rc2, t2) := register_entry (Some cb2) ud t1 in
  rc1 = 0 /\ rc2 = 0 /\ evts t2 = {| evt_cb := Some cb2; evt_user_data := ud |} :: l.
Proof.
  intros He H0. destruct t as [es n], e as [c u]. simpl in *. by subst.
Qed.

(** ** From the kernel to the callbacks *)

Section Delivery.
Context `{E : Env, CE : ChanEnv, KE : CamEnv}.

(** One wake-up of the event thread of a camera. *)
Definition evt_wakeup (p : positive) (fuel : nat) : M iworld bool :=
  mm_camera_cmd_thread (evt_get p) (evt_set p) (mm_camera_dispatch_app_event p) fuel.

(** The calls for several events, newest first. *)
Definition history_of (o : mm_camera_obj_t) (l : list mm_camera_event_t) : history :=
  rev (l ≫= evt_calls o).

Lemma drain_events w0 p o sem (Hl : cb_lock p ∉ iw_locks w0) l : forall tr fuel, (length l <= fuel)%nat ->
  cmd_drain (evt_get p) (evt_set p) (mm_camera_dispatch_app_event p) fuel true
    (at_obj w0 p (set_evt_thread (Some {| cmd_queue := MM_CAMERA_CMD_TYPE_EVT_CB <$> l; cmd_sem := sem |}) o) tr) =
  Some (true, at_obj w0 p (set_evt_thread (Some {| cmd_queue := []; cmd_sem := sem |}) o) (history_of o l ++ tr)).
Proof.
  induction l as [|x l IH]; intros tr fuel Hf.
  - destruct fuel; cbn [cmd_drain]; (erewrite bind_run; [|unfold cmd_deq; erewrite bind_run by reflexivity;
      rewrite evt_get_run; reflexivity]; reflexivity).
  - destruct fuel as [|fuel]; [simpl in Hf; lia|]. simpl in Hf. cbn [cmd_drain].
    erewrite bind_run.
    2:{ unfold cmd_deq. erewrite bind_run by reflexivity. rewrite evt_get_run. erewrite bind_run by reflexivity.
        cbn [cmd_queue fmap list_fmap]. erewrite bind_run by reflexivity. rewrite evt_set_run. reflexivity. }
    cbv beta iota. cbn [is_exit]. rewrite (bind_run _ _ _ _ _ (dispatch_event_run w0 p _ tr x Hl)).
    change (set_evt_thread _ (set_evt_thread _ o)) with
      (set_evt_thread (Some {| cmd_queue := MM_CAMERA_CMD_TYPE_EVT_CB <$> l; cmd_sem := sem |}) o).
    rewrite IH by lia. do 3 f_equal. unfold history_of. simpl. rewrite rev_app_distr, <- app_assoc. done.
Qed.

(** C31: when the kernel reports that the camera server has gone, the poll
    thread's callback queues the event, and at its next wake-up the event
    thread calls every registered callback with it, once and in table order,
    after those of the events that were waiting; the thread goes on and its
    queue is empty.  The number of queued events is enough fuel. *)
Theorem shutdown_reaches_app w0 p o l sem tr fuel
  (Hl : cb_lock p ∉ iw_locks w0) (Hm : forall h, env_malloc h = true)
  (Hdq : forall h, (env_dqevent h (ctrl_fd o)).1 >= 0 /\ ev_id (env_dqevent h (ctrl_fd o)).2 = MSM_CAMERA_MSM_NOTIFY /\
                   ev_command (env_dqevent h (ctrl_fd o)).2 = MSM_CAMERA_PRIV_SHUTDOWN)
  (Hpriv : MSM_CAMERA_PRIV_SHUTDOWN <> CAM_EVENT_TYPE_MAP_UNMAP_DONE)
  (Ht : evt_thread o = Some {| cmd_queue := MM_CAMERA_CMD_TYPE_EVT_CB <$> l; cmd_sem := sem |})
  (Hsem : 0 <= sem < 2 ^ 31 - 1) (Hfuel : (length l < fuel)%nat) :
  let died := {| server_event_type := CAM_EVENT_TYPE_DAEMON_DIED; evt_status := 0 |} in
  exists tr0, (mm_camera_event_notify p;; evt_wakeup p fuel) (at_obj w0 p o tr) =
    Some (true, at_obj w0 p (set_evt_thread (Some {| cmd_queue := []; cmd_sem := sem |}) o)
                  (history_of o (l ++ [died]) ++ tr0 ++ tr)) /\
    Forall (fun e => match e with EAppEvent _ _ _ _ => False | _ => True end) tr0.
Proof.
  intros died. destruct (Hdq tr) as (Hrc & Hid & Hcmd).
  exists [EMalloc true; EMalloc true; EDqevent (ctrl_fd o) (env_dqevent tr (ctrl_fd o)).1].
  split; [|by repeat constructor]. unfold mm_camera_event_notify. erewrite bind_run.
  2:{ rewrite (bind_run _ _ _ _ _ (oget_run w0 p _ o tr)). erewrite bind_run by (apply iext_run; reflexivity).
      destruct (env_dqevent tr (ctrl_fd o)) as [rc e] eqn:Ee. simpl in Hrc, Hid, Hcmd. cbv beta iota.
      rewrite Hid, Hcmd, (proj2 (Z.leb_le 0 rc)), Z.eqb_refl by lia. cbn [andb].
      rewrite (proj2 (Z.eqb_neq _ _) Hpriv), Z.eqb_refl. unfold mm_camera_enqueue_evt. erewrite bind_run; [reflexivity|].
      erewrite bind_run; [reflexivity|]. unfold cmd_post.
      erewrite bind_run by (apply iext_run; unfold sys_malloc, ext; rewrite Hm; reflexivity). cbv beta iota.
      unfold cmd_enq. erewrite bind_run.
      2:{ erewrite bind_run by (apply iext_run; unfold sys_malloc, ext; rewrite Hm; reflexivity). cbv beta iota.
          erewrite bind_run by reflexivity. rewrite evt_get_run, Ht. erewrite bind_run by reflexivity.
          erewrite bind_run by reflexivity. rewrite evt_set_run. reflexivity. }
      unfold cam_sem_post. erewrite bind_run.
      2:{ erewrite bind_run by reflexivity. rewrite evt_get_run. erewrite bind_run by reflexivity. unfold modify.
          rewrite evt_set_run. reflexivity. }
      reflexivity. }
  cbn [cmd_queue cmd_sem]. rewrite i32_id by (unfold i32_range; lia). unfold evt_wakeup, mm_camera_cmd_thread.
  set (q := (MM_CAMERA_CMD_TYPE_EVT_CB <$> l) ++ [MM_CAMERA_CMD_TYPE_EVT_CB died]).
  erewrite bind_run.
  2:{ unfold cam_sem_wait. erewrite bind_run by reflexivity. rewrite evt_get_run. erewrite bind_run by reflexivity.
      cbn [cmd_sem cmd_queue evt_thread set_evt_thread]. destruct (Z.eqb_spec (sem + 1) 0); [lia|]. unfold modify.
      rewrite evt_set_run. reflexivity. }
  rewrite i32_id by (unfold i32_range; lia). replace (sem + 1 - 1) with sem by lia.
  assert (Hq : q = MM_CAMERA_CMD_TYPE_EVT_CB <$> (l ++ [died])) by (unfold q; by rewrite fmap_app).
  change (set_evt_thread _ (set_evt_thread _ (set_evt_thread _ o))) with
    (set_evt_thread (Some {| cmd_queue := q; cmd_sem := sem |}) o). rewrite Hq.
  rewrite drain_events; [done|done|]. rewrite length_app. simpl. lia.
Qed.

End Delivery.

Section DemoDelivery.
#[local] Existing Instance demo_cam_env.
#[local] Existing Instance honest_env.
#[local] Existing Instance DemoChannel.demo_chan_env.

(** A camera with one callback and one event waiting. *)
Definition evt_camera : mm_camera_obj_t :=
  set_evt {| evts := [{| evt_cb := Some 7; evt_user_data := 100 |}; zero_evt_entry; zero_evt_entry; zero_evt_entry];
             reg_count := 1 |}
    (set_evt_thread (Some {| cmd_queue := [MM_CAMERA_CMD_TYPE_EVT_CB {| server_event_type := 4; evt_status := 1 |}];
                             cmd_sem := 1 |}) zero_camera).

Lemma shutdown_reaches_app_witness : exists tr0,
  (mm_camera_event_notify 1;; evt_wakeup 1 2) (at_obj boot 1 evt_camera []) =
    Some (true, at_obj boot 1 (set_evt_thread (Some {| cmd_queue := []; cmd_sem := 1 |}) evt_camera)
      (history_of evt_camera [{| server_event_type := 4; evt_status := 1 |};
                              {| server_event_type := CAM_EVENT_TYPE_DAEMON_DIED; evt_status := 0 |}] ++ tr0)).
Proof.
  destruct (shutdown_reaches_app boot 1 evt_camera [{| server_event_type := 4; evt_status := 1 |}] 1 [] 2)
    as (tr0 & H1 & _).
  - set_solver.
  - done.
  - intros h. split; [simpl; lia|done].
  - done.
  - done.
  - lia.
  - simpl. lia.
  - exists tr0. rewrite app_nil_r in H1. exact H1.
Defined.

End DemoDelivery.
