(* ===== verification/Discovery.v ===== *)
(** * Finding the cameras

    [get_num_of_cameras] walks over the media devices of the kernel.  Against
    a description of the devices that are there, it finds every camera, in
    order, with the name of its first video node.  Its table of names has
    room for a fixed number of cameras, which it does not check. *)

From Stdlib Require Import ZArith Lia.
From stdpp Require Import numbers list gmap strings pretty.
From S2P Require Import Prelude CamTypes Env DevName Handles Threads Stream StreamProps.
From S2P Require Import StreamFsm SuperBuf Channel ChannelProps Camera Interface DemoCamera CameraProps.

Section Discovery.
Context `{E : Env, CE : ChanEnv, KE : CamEnv}.

(** A media device: the descriptor it is opened with, its model and its
    entities. *)
Record media_dev := { md_fd : Z; md_model : string; md_entities : list media_entity_desc }.

Definition is_node (e : media_entity_desc) : bool :=
  (ent_type e =? MEDIA_ENT_T_DEVNODE_V4L) && (ent_group_id e =? QCAMERA_VNODE_GROUP_ID).

Definition node_name (l : list media_entity_desc) : option string := ent_name <$> List.find is_node l.

(** The name of a camera, if the device is one. *)
Definition camera_name (d : media_dev) : option string :=
  if bool_decide (md_model d = MSM_CAMERA_NAME) then node_name (md_entities d) else None.

(** The kernel has the devices [devs], numbered from 0, and numbers the
    entities of each from 1. *)
Record kernel_devices (devs : list media_dev) : Prop := {
  kd_open : forall h i d, devs !! i = Some d -> (env_open_path h (media_path (Z.of_nat i))).1 = md_fd d;
  kd_end : forall h, (env_open_path h (media_path (Z.of_nat (length devs)))).1 <= 0;
  kd_fd : forall i d, devs !! i = Some d -> 0 < md_fd d;
  kd_info : forall h i d, devs !! i = Some d -> exists rc, 0 <= rc /\ env_media_info h (md_fd d) = (rc, md_model d);
  kd_entity : forall h i d k, devs !! i = Some d ->
    env_entity h (md_fd d) (Z.of_nat (S k)) = md_entities d !! k;
  kd_node : forall i d, devs !! i = Some d -> md_model d = MSM_CAMERA_NAME -> exists e, List.find is_node (md_entities d) = Some e
}.

Definition disc_world (w0 : iworld) (names : list string) (tr : history) : iworld :=
  put_iw_tr tr (put_iw_ctrl {| num_cam := num_cam (iw_ctrl w0); video_dev_name := names; cam_obj := cam_obj (iw_ctrl w0) |} w0).

Lemma iext_disc {A} w0 names tr (m : M history A) a tr' : m tr = Some (a, tr') ->
  iext m (disc_world w0 names tr) = Some (a, disc_world w0 names tr').
Proof. intros H. unfold iext, zoom. simpl. by rewrite H. Qed.

Lemma set_dev_name_run w0 names tr n nm : (n <? Z.of_nat (length names)) = true ->
  set_dev_name n nm (disc_world w0 names tr) = Some (tt, disc_world w0 (<[Z.to_nat n := nm]> names) tr).
Proof. intros H. unfold set_dev_name. erewrite bind_run by reflexivity. simpl. by rewrite H. Qed.

(** The entities are enumerated up to the first video node. *)
Lemma find_node_run w0 names n fd nm (Hn : (n <? Z.of_nat (length names)) = true) l : forall fuel k tr,
  (forall h j, env_entity h fd (Z.of_nat (S (k + j))) = l !! j) -> node_name l = Some nm -> (length l <= fuel)%nat ->
  exists tr', find_node fuel fd (Z.of_nat (S k)) n (disc_world w0 names tr) =
    Some (tt, disc_world w0 (<[Z.to_nat n := nm]> names) tr').
Proof.
  induction l as [|e l IH]; intros fuel k tr He Hnode Hf; [done|]. destruct fuel as [|fuel]; [simpl in Hf; lia|].
  cbn [find_node]. pose proof (He tr 0%nat) as He0. rewrite Nat.add_0_r in He0. simpl in He0.
  erewrite bind_run; [|apply iext_disc; reflexivity]. rewrite He0. fold (is_node e).
  unfold node_name in Hnode. simpl in Hnode. destruct (is_node e).
  - injection Hnode as <-. rewrite set_dev_name_run by done. by eexists.
  - replace (Z.of_nat (S k) + 1) with (Z.of_nat (S (S k))) by lia. apply IH; [|done|simpl in Hf; lia].
    intros h j. pose proof (He h (S j)) as Hj. simpl in Hj. rewrite <- Hj. f_equal. lia.
Qed.

(** The loop, from device [i] on with [n] cameras found. *)
Lemma discover_run w0 devs (Hk : kernel_devices devs) ef (Hef : Forall (fun d => (length (md_entities d) <= ef)%nat) devs) l :
  forall fuel i n names tr, drop i devs = l -> (i + length l = length devs)%nat -> (length l < fuel)%nat ->
  (n + length (omap camera_name l) <= length names)%nat -> (n + length (omap camera_name l) < 256)%nat ->
  exists tr', discover fuel ef (Z.of_nat i) (Z.of_nat n) (disc_world w0 names tr) =
    Some (Z.of_nat (n + length (omap camera_name l)),
          disc_world w0 (take n names ++ omap camera_name l ++ drop (n + length (omap camera_name l)) names) tr').
Proof.
  induction l as [|d l IH]; intros fuel i n names tr Hl Hi Hf Hroom Hu8; (destruct fuel as [|fuel]; [simpl in Hf; lia|]); cbn [discover].
  - simpl in Hi. rewrite Nat.add_0_r in Hi. subst i. erewrite bind_run; [|apply iext_disc; reflexivity]. cbv beta zeta.
    rewrite (proj2 (Z.leb_le _ _) (kd_end _ Hk tr)). simpl. rewrite Nat.add_0_r, take_drop. by eexists.
  - assert (Hd : devs !! i = Some d) by (rewrite <- (Nat.add_0_r i), <- lookup_drop, Hl; done).
    assert (Hl' : drop (S i) devs = l) by (by rewrite <- Nat.add_1_r, <- drop_drop, Hl).
    simpl in Hi, Hf. replace (Z.of_nat i + 1) with (Z.of_nat (S i)) by lia.
    erewrite bind_run; [|apply iext_disc; reflexivity]. cbv beta zeta. rewrite (kd_open _ Hk _ _ _ Hd).
    pose proof (kd_fd _ Hk _ _ Hd) as Hfd. rewrite (proj2 (Z.leb_gt _ _) Hfd).
    erewrite bind_run; [|apply iext_disc; reflexivity]. set (h := EOpenPath _ _ :: tr).
    destruct (kd_info _ Hk h _ _ Hd) as (rc & Hrc & Hinfo). rewrite Hinfo. rewrite (proj2 (Z.ltb_ge _ _) Hrc).
    simpl in Hroom, Hu8. cbn [omap list_omap].
    change (list_omap media_dev string camera_name l) with (omap camera_name l) in *.
    destruct (decide (md_model d = MSM_CAMERA_NAME)) as [Hm|Hm].
    + destruct (kd_node _ Hk _ _ Hd Hm) as [e He].
      assert (Hname : node_name (md_entities d) = Some (ent_name e)) by (unfold node_name; by rewrite He).
      assert (Hcn : camera_name d = Some (ent_name e)) by (unfold camera_name; by rewrite bool_decide_eq_true_2).
      rewrite Hcn in *. cbn [length] in *.
      rewrite bool_decide_eq_false_2 by (intros Hne; by apply Hne).
      destruct (find_node_run w0 names (Z.of_nat n) (md_fd d) (ent_name e) ltac:(apply Z.ltb_lt; lia) (md_entities d) ef 0
        (EIoctl (md_fd d) MEDIA_IOC_DEVICE_INFO rc :: h)) as [tr1 E1]; [intros; by eapply (kd_entity _ Hk)|done| |].
      { by apply (Forall_lookup_1 _ _ _ _ Hef Hd). }
      change (Z.of_nat 1) with 1 in E1. rewrite (bind_run _ _ _ _ _ E1). rewrite Nat2Z.id.
      erewrite bind_run; [|apply iext_disc; reflexivity].
      replace (u8 (Z.of_nat n + 1)) with (Z.of_nat (S n)) by (rewrite u8_id; unfold u8_range; lia).
      destruct (IH fuel (S i) (S n) (<[n := ent_name e]> names) (EClose (md_fd d) :: tr1)) as [tr2 E2];
        [done|lia|lia|rewrite length_insert; lia|lia|].
      exists tr2. rewrite E2. replace (S n + length (omap camera_name l))%nat with (n + S (length (omap camera_name l)))%nat by lia.
      do 3 f_equal. rewrite (take_S_r _ n (ent_name e)) by (apply list_lookup_insert_eq; lia).
      rewrite take_insert_ge by lia. rewrite <- app_assoc. simpl. do 3 f_equal. apply drop_insert_lt. lia.
    + assert (Hcn : camera_name d = None) by (unfold camera_name; by rewrite bool_decide_eq_false_2).
      rewrite Hcn in *. rewrite bool_decide_eq_true_2 by done.
      erewrite bind_run; [|apply iext_disc; reflexivity]. apply IH; done || lia.
Qed.

(** C32: given the kernel's media devices, the device discovery ends, and
    returns how many of them are cameras; the table then holds the name of the
    first video node of each, in order, and the entries behind are as before.
    The number of devices, plus one, and the largest number of entities are
    enough turns.  That the cameras fit into the table is assumed: the code
    does not check it. *)
Theorem discovery_finds_cameras devs w fuel ent_fuel (Hk : kernel_devices devs) (Hl : iw_locks w = [])
  (Hf : (length devs < fuel)%nat) (He : Forall (fun d => (length (md_entities d) <= ent_fuel)%nat) devs)
  (Hroom : (length (omap camera_name devs) <= length (video_dev_name (iw_ctrl w)))%nat)
  (Hi8 : (length (omap camera_name devs) < 128)%nat) :
  let names := omap camera_name devs in
  exists w', get_num_of_cameras fuel ent_fuel w = Some (Z.of_nat (length names), w') /\
    num_cam (iw_ctrl w') = Z.of_nat (length names) /\
    video_dev_name (iw_ctrl w') = names ++ drop (length names) (video_dev_name (iw_ctrl w)) /\
    cam_obj (iw_ctrl w') = cam_obj (iw_ctrl w) /\ iw_locks w' = [].
Proof.
  intros names. assert (Hn : (length names < 128)%nat) by exact Hi8. unfold get_num_of_cameras.
  rewrite (bind_run _ _ _ _ _ (lock_run g_intf_lock w ltac:(rewrite Hl; set_solver))).
  destruct (discover_run (put_iw_locks [g_intf_lock] w) devs Hk ent_fuel He devs fuel 0 0 (video_dev_name (iw_ctrl w)) (iw_tr w))
    as [tr' E1]; [done|done|done|done|simpl; lia|].
  assert (Hw : put_iw_locks (g_intf_lock :: iw_locks w) w =
    disc_world (put_iw_locks [g_intf_lock] w) (video_dev_name (iw_ctrl w)) (iw_tr w)).
  { rewrite Hl. destruct w as [[]]. done. }
  rewrite Hw. rewrite (bind_run _ _ _ _ _ E1). erewrite bind_run by reflexivity.
  erewrite bind_run; [|apply (unlock_run g_intf_lock []); [done|set_solver]].
  erewrite bind_run by reflexivity. eexists. simpl. fold names. rewrite i8_id, u8_id by (unfold u8_range; lia).
  split; [reflexivity|]. by split_and!.
Qed.

End Discovery.

(** ** Kernels with a given number of cameras *)

Module DemoDiscovery.

(** The first [n] media devices are cameras but for device 0; each has a
    sensor and a video node. *)
Definition dev_at (i : nat) : media_dev :=
  {| md_fd := Z.of_nat (10 + i); md_model := match i with 0%nat => "vpu" | _ => "msm_camera" end;
     md_entities := [{| ent_type := 131072; ent_group_id := 3; ent_name := "sensor" |};
                     {| ent_type := 65537; ent_group_id := 2; ent_name := "video" +:+ pretty (Z.of_nat i) |}] |}.

Definition cameras_env (n : nat) : CamEnv := {|
  MSM_MAX_CAMERA_SENSORS := 5;
  MSM_CAMERA_NAME := "msm_camera";
  MSM_CAMERA_MSM_NOTIFY := 3;
  MSM_CAMERA_PRIV_SHUTDOWN := 9;
  MEDIA_ENT_T_DEVNODE_V4L := 65537;
  QCAMERA_VNODE_GROUP_ID := 2;
  env_open_path := fun _ path =>
    match List.find (fun i => bool_decide (path = media_path (Z.of_nat i))) (seq 0 n) with
    | Some i => (md_fd (dev_at i), 0)
    | None => (-1, 2)
    end;
  env_socket := @env_socket demo_cam_env;
  env_connect := @env_connect demo_cam_env;
  env_dqevent := @env_dqevent demo_cam_env;
  env_media_info := fun _ fd => (0, md_model (dev_at (Z.to_nat (fd - 10))));
  env_entity := fun _ fd id => md_entities (dev_at (Z.to_nat (fd - 10))) !! Z.to_nat (id - 1)
|}.

#[local] Existing Instance honest_env.
#[local] Existing Instance DemoChannel.demo_chan_env.

Lemma demo_devices : @kernel_devices (cameras_env 3) [dev_at 0; dev_at 1; dev_at 2].
Proof.
  constructor.
  - intros h [|[|[|i]]] d; intros [= <-]; vm_compute; reflexivity.
  - intros h. vm_compute. done.
  - intros [|[|[|i]]] d; intros [= <-]; simpl; lia.
  - intros h [|[|[|i]]] d; intros [= <-]; exists 0; done.
  - intros h i d k Hd. cbn [env_entity cameras_env]. replace (Z.to_nat (Z.of_nat (S k) - 1)) with k by lia.
    destruct i as [|[|[|i]]]; simplify_eq/=; done.
  - intros [|[|[|i]]] d; intros [= <-]; intros Hm; try done; by eexists.
Qed.

Lemma discovery_finds_cameras_witness : exists w',
  get_num_of_cameras (KE := cameras_env 3) 4 2 init_world = Some (2, w') /\
  video_dev_name (iw_ctrl w') = ["video1"; "video2"; ""; ""; ""].
Proof.
  destruct (discovery_finds_cameras (KE := cameras_env 3) [dev_at 0; dev_at 1; dev_at 2] init_world 4 2 demo_devices)
    as (w' & H1 & _ & H2 & _); [done|simpl; lia|repeat constructor|vm_compute; lia|vm_compute; lia|].
  exists w'. split; [exact H1|rewrite H2; reflexivity].
Defined.

(** With one camera more than the table has room for, the name of the last is
    written behind the table. *)
Lemma discovery_overruns : get_num_of_cameras (KE := cameras_env 7) 8 2 init_world = None.
Proof. vm_compute. reflexivity. Qed.

End DemoDiscovery.
