(* ===== verification/Mailbox.v ===== *)
(** * The mailbox between the threads that map buffers and the poll thread

    [mm_camera_util_sendmsg] is "one operation": a request on the domain
    socket, and its answer, which the poll thread receives as a kernel event
    and leaves in [evt_rcvd].  Here its statements and those of
    [mm_camera_util_wait_for_event] and [mm_camera_event_notify] that touch
    the mailbox are the steps of concurrent threads, with both mutexes and the
    condition variable; the server answers each request once, when and how it
    likes.  The sequential model of the operation in Env is justified by what
    is proved here: whoever sends a request gets the answer to that request,
    and gets it. *)

From Stdlib Require Import ZArith Lia.
From stdpp Require Import numbers list gmap.
From S2P Require Import Prelude Env.

(** Where a thread is in [mm_camera_util_sendmsg]: the next statement.  The
    number is that of its request. *)
Inductive client_pc : Type :=
| C_idle
| C_lock_msg
| C_send
| C_lock_evt (r : nat)
| C_test (r : nat)
| C_blocked (r : nat)
| C_woken (r : nat)
| C_unlock_evt (r : nat) (status : Z)
| C_unlock_msg.

(** Where the poll thread is in [mm_camera_event_notify]. *)
Inductive poll_pc : Type :=
| P_idle
| P_lock_evt (status : Z)
| P_write (status : Z)
| P_signal
| P_unlock_evt.

#[export] Instance client_pc_eq_dec : EqDecision client_pc.
Proof. solve_decision. Defined.

Inductive holder : Type := Client (t : nat) | Poller.

Record mstate := {
  clients : list client_pc;
  poller : poll_pc;
  msg_lock : option nat;
  evt_lock : option holder;
  box : mm_camera_event_t;
  (** the kernel's queue of events, and the requests at the server *)
  kevents : list mm_camera_event_t;
  server : list nat;
  (** how many requests were sent, what the server has answered to each, and
      what each sender has returned *)
  sent : nat;
  answers : gmap nat Z;
  results : gmap nat Z
}.

Definition empty_box : mm_camera_event_t := {| server_event_type := 0; evt_status := 0 |}.

Section Mailbox.
Context (MSM_CAMERA_STATUS_SUCCESS : Z).

Definition set_pc (t : nat) (c : client_pc) (s : mstate) : mstate :=
  {| clients := <[t := c]> (clients s); poller := poller s; msg_lock := msg_lock s; evt_lock := evt_lock s;
     box := box s; kevents := kevents s; server := server s; sent := sent s; answers := answers s;
     results := results s |}.
Definition set_poller (c : poll_pc) (s : mstate) : mstate :=
  {| clients := clients s; poller := c; msg_lock := msg_lock s; evt_lock := evt_lock s;
     box := box s; kevents := kevents s; server := server s; sent := sent s; answers := answers s;
     results := results s |}.
Definition set_msg_lock (l : option nat) (s : mstate) : mstate :=
  {| clients := clients s; poller := poller s; msg_lock := l; evt_lock := evt_lock s;
     box := box s; kevents := kevents s; server := server s; sent := sent s; answers := answers s;
     results := results s |}.
Definition set_evt_lock (l : option holder) (s : mstate) : mstate :=
  {| clients := clients s; poller := poller s; msg_lock := msg_lock s; evt_lock := l;
     box := box s; kevents := kevents s; server := server s; sent := sent s; answers := answers s;
     results := results s |}.
Definition set_box (e : mm_camera_event_t) (s : mstate) : mstate :=
  {| clients := clients s; poller := poller s; msg_lock := msg_lock s; evt_lock := evt_lock s;
     box := e; kevents := kevents s; server := server s; sent := sent s; answers := answers s;
     results := results s |}.
Definition set_kevents (l : list mm_camera_event_t) (s : mstate) : mstate :=
  {| clients := clients s; poller := poller s; msg_lock := msg_lock s; evt_lock := evt_lock s;
     box := box s; kevents := l; server := server s; sent := sent s; answers := answers s;
     results := results s |}.
Definition send_request (s : mstate) : mstate :=
  {| clients := clients s; poller := poller s; msg_lock := msg_lock s; evt_lock := evt_lock s;
     box := box s; kevents := kevents s; server := server s ++ [sent s]; sent := S (sent s); answers := answers s;
     results := results s |}.
Definition set_server (l : list nat) (a : gmap nat Z) (s : mstate) : mstate :=
  {| clients := clients s; poller := poller s; msg_lock := msg_lock s; evt_lock := evt_lock s;
     box := box s; kevents := kevents s; server := l; sent := sent s; answers := a;
     results := results s |}.
Definition set_result (r : nat) (rc : Z) (s : mstate) : mstate :=
  {| clients := clients s; poller := poller s; msg_lock := msg_lock s; evt_lock := evt_lock s;
     box := box s; kevents := kevents s; server := server s; sent := sent s; answers := answers s;
     results := <[r := rc]> (results s) |}.

(** ** The statements *)

Definition evt_mask : Z := CAM_EVENT_TYPE_MAP_UNMAP_DONE.

(** The next statement of thread [t]; [len] is what [sendmsg] answers.  A
    statement that waits has no step. *)
Definition client_step (t : nat) (len : Z) (s : mstate) : option mstate :=
  c ← clients s !! t;
  match c with
  | C_idle | C_blocked _ => None
  | C_lock_msg =>
      match msg_lock s with
      | None => Some (set_pc t C_send (set_msg_lock (Some t) s))
      | Some _ => None
      end
  | C_send =>
      Some (if 0 <? len then set_pc t (C_lock_evt (sent s)) (send_request s) else set_pc t C_unlock_msg s)
  | C_lock_evt r | C_woken r =>
      match evt_lock s with
      | None => Some (set_pc t (C_test r) (set_evt_lock (Some (Client t)) s))
      | Some _ => None
      end
  | C_test r =>
      if Z.land (server_event_type (box s)) evt_mask =? 0
      then Some (set_pc t (C_blocked r) (set_evt_lock None s))
      else Some (set_pc t (C_unlock_evt r (evt_status (box s))) (set_box empty_box s))
  | C_unlock_evt r status =>
      let rc := if status =? MSM_CAMERA_STATUS_SUCCESS then 0 else -1 in
      Some (set_result r rc (set_pc t C_unlock_msg (set_evt_lock None s)))
  | C_unlock_msg => Some (set_pc t C_idle (set_msg_lock None s))
  end.

Definition is_blocked (c : client_pc) : bool := match c with C_blocked _ => true | _ => false end.

(** [pthread_cond_signal]: some thread that waits, if there is one. *)
Definition signal (t : nat) (s : mstate) : option mstate :=
  match clients s !! t with
  | Some (C_blocked r) => Some (set_pc t (C_woken r) s)
  | _ => if existsb is_blocked (clients s) then None else Some s
  end.

(** The next statement of the poll thread; [t] is the thread that a signal
    wakes.  An event of another type does not touch the mailbox. *)
Definition poll_step (t : nat) (s : mstate) : option mstate :=
  match poller s with
  | P_idle =>
      match kevents s with
      | [] => None
      | e :: l =>
          Some (if server_event_type e =? CAM_EVENT_TYPE_MAP_UNMAP_DONE
                then set_poller (P_lock_evt (evt_status e)) (set_kevents l s) else set_kevents l s)
      end
  | P_lock_evt st =>
      match evt_lock s with
      | None => Some (set_poller (P_write st) (set_evt_lock (Some Poller) s))
      | Some _ => None
      end
  | P_write st =>
      Some (set_poller P_signal (set_box {| server_event_type := CAM_EVENT_TYPE_MAP_UNMAP_DONE; evt_status := st |} s))
  | P_signal => set_poller P_unlock_evt <$> signal t s
  | P_unlock_evt => Some (set_poller P_idle (set_evt_lock None s))
  end.

(** The server answers a request. *)
Definition server_step (status : Z) (s : mstate) : option mstate :=
  match server s with
  | [] => None
  | r :: l =>
      Some (set_kevents (kevents s ++ [{| server_event_type := CAM_EVENT_TYPE_MAP_UNMAP_DONE; evt_status := status |}])
             (set_server l (<[r := status]> (answers s)) s))
  end.

(** The steps that go on with what was begun. *)
Inductive work (s s' : mstate) : Prop :=
| work_client t len : client_step t len s = Some s' -> work s s'
| work_poll t : poll_step t s = Some s' -> work s s'
| work_server status : server_step status s = Some s' -> work s s'.

(** All steps: a thread may call [mm_camera_util_sendmsg], the kernel may
    report something else, and [pthread_cond_wait] may return unsignalled. *)
Inductive step (s s' : mstate) : Prop :=
| step_work : work s s' -> step s s'
| step_call t : clients s !! t = Some C_idle -> s' = set_pc t C_lock_msg s -> step s s'
| step_other e : server_event_type e <> CAM_EVENT_TYPE_MAP_UNMAP_DONE -> s' = set_kevents (kevents s ++ [e]) s -> step s s'
| step_spurious t r : clients s !! t = Some (C_blocked r) -> s' = set_pc t (C_woken r) s -> step s s'.

Definition init (n : nat) : mstate :=
  {| clients := replicate n C_idle; poller := P_idle; msg_lock := None; evt_lock := None; box := empty_box;
     kevents := []; server := []; sent := 0; answers := ∅; results := ∅ |}.

Abbreviation reachable n := (rtc step (init n)).

(** ** The invariant *)

Definition holds_msg (c : client_pc) : bool :=
  match c with C_idle | C_lock_msg => false | _ => true end.
Definition holds_evt (c : client_pc) : bool :=
  match c with C_test _ | C_unlock_evt _ _ => true | _ => false end.
Definition poll_holds (c : poll_pc) : bool :=
  match c with P_write _ | P_signal | P_unlock_evt => true | _ => false end.

(** The request a thread waits for. *)
Definition waits_for (c : client_pc) : option nat :=
  match c with C_lock_evt r | C_test r | C_blocked r | C_woken r => Some r | _ => None end.

(** The thread has sent the request and not yet returned. *)
Definition carries (c : client_pc) (r : nat) : Prop :=
  waits_for c = Some r \/ exists st, c = C_unlock_evt r st.

Definition outstanding (s : mstate) : option nat :=
  t ← msg_lock s; c ← clients s !! t; waits_for c.

(** The answers on their way: in the kernel, with the poll thread, in the
    mailbox. *)
Definition k_answers (l : list mm_camera_event_t) : list Z :=
  omap (fun e => if server_event_type e =? CAM_EVENT_TYPE_MAP_UNMAP_DONE then Some (evt_status e) else None) l.
Definition p_answers (c : poll_pc) : list Z :=
  match c with P_lock_evt st | P_write st => [st] | _ => [] end.
Definition full (e : mm_camera_event_t) : bool := negb (Z.land (server_event_type e) evt_mask =? 0).
Definition b_answers (e : mm_camera_event_t) : list Z := if full e then [evt_status e] else [].
Definition in_flight (s : mstate) : list Z := k_answers (kevents s) ++ p_answers (poller s) ++ b_answers (box s).

(** The one outstanding request is at the server, or its answer is on the way. *)
Definition token_ok (s : mstate) : Prop :=
  match outstanding s with
  | None => server s = [] /\ in_flight s = []
  | Some r => server s = [r] /\ in_flight s = [] /\ answers s !! r = None \/
              server s = [] /\ exists st, in_flight s = [st] /\ answers s !! r = Some st
  end.

Definition result_of (st : Z) : Z := if st =? MSM_CAMERA_STATUS_SUCCESS then 0 else -1.

Record inv (s : mstate) : Prop := {
  inv_msg : forall t c, clients s !! t = Some c -> holds_msg c = bool_decide (msg_lock s = Some t);
  inv_msg_lt : forall t, msg_lock s = Some t -> (t < length (clients s))%nat;
  inv_evt : forall t c, clients s !! t = Some c -> holds_evt c = true <-> evt_lock s = Some (Client t);
  inv_evt_lt : forall t, evt_lock s = Some (Client t) -> (t < length (clients s))%nat;
  inv_poll : poll_holds (poller s) = true <-> evt_lock s = Some Poller;
  inv_token : token_ok s;
  inv_wake : forall t r, clients s !! t = Some (C_blocked r) -> full (box s) = true -> poller s = P_signal;
  inv_status : forall t r st, clients s !! t = Some (C_unlock_evt r st) -> answers s !! r = Some st;
  inv_sent : forall t c r, clients s !! t = Some c -> waits_for c = Some r -> (r < sent s)%nat;
  inv_fresh : forall r, (sent s <= r)%nat -> answers s !! r = None;
  inv_all : forall r, (r < sent s)%nat -> is_Some (results s !! r) \/ exists t c, clients s !! t = Some c /\ carries c r;
  inv_results : forall r rc, results s !! r = Some rc -> exists st, answers s !! r = Some st /\ rc = result_of st
}.

Lemma set_pc_lookup t c s t' c' : clients (set_pc t c s) !! t' = Some c' ->
  t' = t /\ c' = c \/ t' <> t /\ clients s !! t' = Some c'.
Proof. simpl. intros H. apply list_lookup_insert_Some in H as [(-> & -> & _)|[? ?]]; [by left|by right]. Qed.

Lemma set_pc_self t c c' s : clients s !! t = Some c' -> clients (set_pc t c s) !! t = Some c.
Proof. intros H%lookup_lt_Some. by apply list_lookup_insert_eq. Qed.

(** What the thread that holds [msg_lock] waits for. *)
Lemma outstanding_owner s t c : msg_lock s = Some t -> clients s !! t = Some c -> outstanding s = waits_for c.
Proof. intros H1 H2. unfold outstanding. rewrite H1. simpl. by rewrite H2. Qed.

Lemma inv_owner s t c : inv s -> clients s !! t = Some c -> holds_msg c = true -> msg_lock s = Some t.
Proof. intros H Hc Hm. rewrite (inv_msg _ H _ _ Hc) in Hm. by apply bool_decide_eq_true in Hm. Qed.

Lemma inv_not_owner s t c : inv s -> clients s !! t = Some c -> holds_msg c = false -> msg_lock s <> Some t.
Proof. intros H Hc Hm. rewrite (inv_msg _ H _ _ Hc) in Hm. by apply bool_decide_eq_false in Hm. Qed.

(** The state of a thread and the locks change together.  [t] takes, keeps or
    gives up each mutex, and what is left to show is about the token. *)
Lemma inv_client s t c c' m e b sv sn r (H : inv s) (Hc : clients s !! t = Some c) :
  let s' := {| clients := <[t := c']> (clients s); poller := poller s; msg_lock := m; evt_lock := e; box := b;
               kevents := kevents s; server := sv; sent := sn; answers := answers s; results := r |} in
  (msg_lock s = Some t \/ msg_lock s = None \/ m = msg_lock s) -> (m = msg_lock s \/ m = None \/ m = Some t) ->
  (evt_lock s = Some (Client t) \/ evt_lock s = None \/ e = evt_lock s) ->
  (e = evt_lock s \/ e = None \/ e = Some (Client t)) ->
  holds_msg c' = bool_decide (m = Some t) -> (holds_evt c' = true <-> e = Some (Client t)) ->
  token_ok s' -> (forall t' rr, clients s' !! t' = Some (C_blocked rr) -> full b = true -> poller s = P_signal) ->
  (forall rr st, c' = C_unlock_evt rr st -> answers s !! rr = Some st) ->
  (forall rr, waits_for c' = Some rr -> (rr < sn)%nat) -> (sent s <= sn)%nat ->
  (forall rr, carries c rr -> carries c' rr \/ is_Some (r !! rr)) -> (forall rr, (sent s <= rr < sn)%nat -> carries c' rr) ->
  (forall rr, is_Some (results s !! rr) -> is_Some (r !! rr)) ->
  (forall rr rc, r !! rr = Some rc -> exists st, answers s !! rr = Some st /\ rc = result_of st) ->
  inv s'.
Proof.
  intros s' Hm1 Hm2 He1 He2 Hm He Htok Hb Hst Hw Hsn Hc1 Hc2 Hrs Hr.
  assert (Ht : (t < length (clients s))%nat) by by apply lookup_lt_Some in Hc.
  constructor; try done; unfold s'; simpl.
  - intros t' d [(-> & -> & _)|[Hne Hd]]%list_lookup_insert_Some; [done|]. rewrite (inv_msg _ H _ _ Hd).
    apply bool_decide_ext. clear - Hm1 Hm2 Hne. destruct Hm1 as [?|[?|?]], Hm2 as [?|[?|?]]; split; congruence.
  - intros t' Heq. rewrite length_insert. destruct (decide (t' = t)) as [->|]; [done|]. apply (inv_msg_lt _ H). clear - Hm1 Hm2 Heq n. destruct Hm1 as [?|[?|?]], Hm2 as [?|[?|?]]; congruence.
  - intros t' d [(-> & -> & _)|[Hne Hd]]%list_lookup_insert_Some; [done|]. rewrite (inv_evt _ H _ _ Hd).
    clear - He1 He2 Hne. destruct He1 as [?|[?|?]], He2 as [?|[?|?]]; split; congruence.
  - intros t' Heq. rewrite length_insert. destruct (decide (t' = t)) as [->|]; [done|]. apply (inv_evt_lt _ H).
    clear - He1 He2 Heq n. destruct He1 as [?|[?|?]], He2 as [?|[?|?]]; congruence.
  - rewrite (inv_poll _ H). clear - He1 He2. destruct He1 as [?|[?|?]], He2 as [?|[?|?]]; split; congruence.
  - intros t' rr st [(-> & -> & _)|[Hne Hd]]%list_lookup_insert_Some; [by apply Hst|by apply (inv_status _ H t')].
  - intros t' d rr [(-> & -> & _)|[Hne Hd]]%list_lookup_insert_Some Hwd; [by apply Hw|].
    pose proof (inv_sent _ H _ _ _ Hd Hwd). lia.
  - intros rr Hrr. apply (inv_fresh _ H). lia.
  - intros rr Hrr. assert (Hself : <[t := c']> (clients s) !! t = Some c') by by apply list_lookup_insert_eq.
    destruct (decide (rr < sent s)%nat) as [Hlt|]; [|right; exists t, c'; split; [done|apply Hc2; lia]].
    destruct (inv_all _ H rr Hlt) as [?|(t' & d & Hd & Hcd)]; [by left; apply Hrs|].
    destruct (decide (t' = t)) as [->|Hne].
    + simplify_eq. destruct (Hc1 _ Hcd); [right; by exists t, c'|by left].
    + right. exists t', d. by rewrite list_lookup_insert_ne.
Qed.

Lemma token_same s s' : outstanding s' = outstanding s -> server s' = server s -> answers s' = answers s ->
  in_flight s' = in_flight s -> token_ok s -> token_ok s'.
Proof. unfold token_ok. by intros -> -> -> ->. Qed.

Lemma outstanding_set t c s s' : clients s' = <[t := c]> (clients s) -> msg_lock s' = Some t ->
  (t < length (clients s))%nat -> outstanding s' = waits_for c.
Proof. intros Hc Hm Ht. unfold outstanding. rewrite Hm, Hc. simpl. by rewrite list_lookup_insert_eq. Qed.

(** Another thread than the owner of [msg_lock] moves, or nobody owns it. *)
Lemma wake_keep s t c b : inv s -> is_blocked c = false -> (full b = true -> full (box s) = true) ->
  forall t' r, <[t := c]> (clients s) !! t' = Some (C_blocked r) -> full b = true -> poller s = P_signal.
Proof.
  intros H Hc Hb t' r [(-> & Heq & _)|[Hne Hd]]%list_lookup_insert_Some Hf; [by subst c|]. apply (inv_wake _ H t' r Hd). auto.
Qed.


(** Of a step of a thread, what the invariant leaves to show. *)
Ltac inv_step H Hc :=
  eapply (inv_client _ _ _ _ _ _ _ _ _ _ H Hc); simpl; auto; try done; try apply H;
  try (by rewrite bool_decide_true); try (by eapply wake_keep);
  try solve [intros; exfalso; lia | intros rr ?; left; simpl; f_equal; lia
    | intros rr [?|[? ?]]; simplify_eq/=; first [left; left; done | left; right; by eexists
        | right; rewrite lookup_insert_eq; by eexists]
    | intros rr ?; apply lookup_insert_is_Some;
        match goal with |- ?k = _ \/ _ => destruct (decide (k = rr)); [by left|by right] end].

Lemma client_inv t len s s' : inv s -> client_step t len s = Some s' -> inv s'.
Proof.
  intros H Hs. unfold client_step in Hs. destruct (clients s !! t) as [c|] eqn:Hc; [|done]. simpl in Hs.
  pose proof (lookup_lt_Some _ _ _ Hc) as Ht. pose proof (inv_token _ H) as Htok.
  assert (Hout : holds_msg c = true -> msg_lock s = Some t /\ outstanding s = waits_for c).
  { intros Hm. pose proof (inv_owner _ _ _ H Hc Hm). split; [done|]. by eapply outstanding_owner. }
  pose proof (inv_evt _ H _ _ Hc) as He.
  destruct c as [| | |r|r|r|r|r st|]; try done; try destruct (Hout eq_refl) as [Hm Ho]; simpl in He.
  - destruct (msg_lock s) as [|] eqn:Hm; [done|]. injection Hs as <-. inv_step H Hc.
    apply (token_same s); try done; try apply H. unfold outstanding. rewrite Hm. simpl. by rewrite list_lookup_insert_eq.
  - unfold token_ok in Htok. rewrite Ho in Htok. destruct Htok as [Hsv Hfl]. injection Hs as <-. destruct (0 <? len).
    + inv_step H Hc.
      * unfold token_ok. rewrite (outstanding_set t (C_lock_evt (sent s)) s) by done. left.
        split; [by simpl; rewrite Hsv|]. split; [done|]. by apply (inv_fresh _ H).
      * intros rr [= <-]. lia.
    + inv_step H Hc. apply (token_same s); try done; try apply H. rewrite Ho. rewrite (outstanding_set t (C_unlock_msg) s) by done. done.
  - destruct (evt_lock s) eqn:Hl; [done|]. injection Hs as <-. inv_step H Hc.
    + apply (token_same s); try done; try apply H. rewrite Ho. rewrite (outstanding_set t (C_test r) s) by done. done.
    + intros rr [= <-]. by eapply (inv_sent _ H).
  - pose proof (proj1 He eq_refl) as Hel. destruct (Z.land _ _ =? 0) eqn:Hf; injection Hs as <-.
    + inv_step H Hc.
      * apply (token_same s); try done; try apply H. rewrite Ho. rewrite (outstanding_set t (C_blocked r) s) by done. done.
      * intros t' rr _. unfold full. by rewrite Hf.
      * intros rr [= <-]. by eapply (inv_sent _ H).
    + unfold token_ok in Htok. rewrite Ho in Htok. simpl in Htok.
      assert (Hfull : b_answers (box s) = [evt_status (box s)]) by (unfold b_answers, full; by rewrite Hf).
      unfold in_flight in Htok. rewrite Hfull, (assoc_L (++)) in Htok.
      destruct Htok as [(_ & Habs & _)|(Hsv & st & Hst & Ha)]; [by apply app_nil in Habs as [_ ?]|].
      apply (app_inj_2 _ [] [_] [_]) in Hst as [Hk [= <-]]; [|done].
      inv_step H Hc.
      * unfold token_ok. rewrite (outstanding_set t (C_unlock_evt r (evt_status (box s))) s) by done. split; [done|]. unfold in_flight. simpl. by rewrite app_nil_r.
      * by intros rr st [= <- <-].
  - destruct (evt_lock s) eqn:Hl; [done|]. injection Hs as <-. inv_step H Hc.
    + apply (token_same s); try done; try apply H. rewrite Ho. rewrite (outstanding_set t (C_test r) s) by done. done.
    + intros rr [= <-]. by eapply (inv_sent _ H).
  - pose proof (proj1 He eq_refl) as Hel. injection Hs as <-. inv_step H Hc.
    + apply (token_same s); try done; try apply H. rewrite Ho. rewrite (outstanding_set t (C_unlock_msg) s) by done. done.
    + intros rr rc [[<- <-]|[_ Hr]]%lookup_insert_Some; [|by apply (inv_results _ H)].
      exists st. split; [|done]. by eapply (inv_status _ H).
  - injection Hs as <-. inv_step H Hc. apply (token_same s); try done; try apply H.
Qed.

(** At most one answer is on its way. *)
Lemma in_flight_one s l1 x l2 : token_ok s -> in_flight s = l1 ++ x :: l2 -> l1 = [] /\ l2 = [].
Proof.
  unfold token_ok. intros Htok Hl. rewrite Hl in Htok.
  assert (length (l1 ++ x :: l2) <= 1)%nat as Hlen.
  { destruct (outstanding s); [destruct Htok as [(_ & Hx & _)|(_ & st & Hx & _)]|destruct Htok as [_ Hx]]; rewrite Hx; simpl; lia. }
  rewrite length_app in Hlen. simpl in Hlen. destruct l1, l2; simpl in Hlen; done || lia.
Qed.

(** A step of the poll thread changes its own state and [evt_lock], and the
    answers on their way stay the same. *)
Lemma inv_poller s p e b k (H : inv s) :
  let s' := {| clients := clients s; poller := p; msg_lock := msg_lock s; evt_lock := e; box := b; kevents := k;
               server := server s; sent := sent s; answers := answers s; results := results s |} in
  (forall t, evt_lock s = Some (Client t) <-> e = Some (Client t)) -> (poll_holds p = true <-> e = Some Poller) ->
  in_flight s' = in_flight s -> (forall t r, clients s !! t = Some (C_blocked r) -> full b = true -> p = P_signal) ->
  inv s'.
Proof.
  intros s' He Hp Hfl Hb. constructor; try done; try apply H; unfold s'; simpl.
  - intros t c Hc. rewrite (inv_evt _ H _ _ Hc). apply He.
  - intros t Ht. apply (inv_evt_lt _ H), He, Ht.
  - apply (token_same s); [done..|apply H].
Qed.

(** Only the thread that holds [msg_lock] can be blocked. *)
Lemma blocked_unique s t t' r r' : inv s -> clients s !! t = Some (C_blocked r) -> clients s !! t' = Some (C_blocked r') -> t = t'.
Proof.
  intros H H1 H2. pose proof (inv_owner _ _ _ H H1 eq_refl). pose proof (inv_owner _ _ _ H H2 eq_refl). congruence.
Qed.

(** A blocked thread returns from [pthread_cond_wait]. *)
Lemma wake_inv s t r : inv s -> clients s !! t = Some (C_blocked r) -> inv (set_pc t (C_woken r) s).
Proof.
  intros H Hc. pose proof (lookup_lt_Some _ _ _ Hc) as Ht. pose proof (inv_owner _ _ _ H Hc eq_refl) as Hm.
  pose proof (inv_evt _ H _ _ Hc) as He. inv_step H Hc.
  - apply (token_same s); try done; try apply H. rewrite (outstanding_owner s t _ Hm Hc).
    by rewrite (outstanding_set t (C_woken r) s).
  - intros rr [= <-]. by eapply (inv_sent _ H).
Qed.

(** A signal leaves nobody blocked. *)
Lemma signal_inv t s s' : inv s -> poller s = P_signal -> evt_lock s = Some Poller -> signal t s = Some s' ->
  inv s' /\ poller s' = P_signal /\ evt_lock s' = Some Poller /\ forall t' r, clients s' !! t' <> Some (C_blocked r).
Proof.
  intros H Hp Hl Hs. unfold signal in Hs.
  assert (Hnone : existsb is_blocked (clients s) = false -> forall t' r, clients s !! t' <> Some (C_blocked r)).
  { intros Hx t' r Ht. apply list_elem_of_lookup_2, list_elem_of_In in Ht.
    assert (existsb is_blocked (clients s) = true) by (apply existsb_exists; by exists (C_blocked r)). congruence. }
  destruct (clients s !! t) as [c|] eqn:Hc; [destruct c|];
    try (destruct (existsb is_blocked (clients s)); [done|]; injection Hs as <-; by auto).
  injection Hs as <-. split; [by apply wake_inv|]. split; [done|]. split; [done|].
  intros t' r' Ht'. apply set_pc_lookup in Ht' as [[_ ?]|[Hne Hd]]; [done|]. apply Hne. by eapply blocked_unique.
Qed.

Lemma poll_inv t s s' : inv s -> poll_step t s = Some s' -> inv s'.
Proof.
  intros H Hs. unfold poll_step in Hs. pose proof (inv_token _ H) as Htok. pose proof (inv_poll _ H) as Hp.
  destruct (poller s) as [|st|st| |] eqn:Ep; simpl in Hp.
  - destruct (kevents s) as [|e l] eqn:Ek; [done|]. injection Hs as <-.
    assert (Hfl : in_flight s = k_answers (e :: l) ++ b_answers (box s)) by (unfold in_flight; by rewrite Ek, Ep).
    simpl in Hfl. destruct (server_event_type e =? _); simpl in Hfl; apply (inv_poller _ _ _ _ _ H); try done.
    + destruct (in_flight_one s [] _ _ Htok Hfl) as [_ [Hk Hb]%app_nil]. unfold in_flight at 1. simpl. by rewrite Hfl, Hk, Hb.
    + intros t' r Hb Hf. pose proof (inv_wake _ H t' r Hb Hf). congruence.
    + by rewrite Ep.
    + unfold in_flight at 1. simpl. by rewrite Hfl, Ep.
    + intros t' r Hb Hf. by apply (inv_wake _ H t' r).
  - destruct (evt_lock s) eqn:El; [done|]. injection Hs as <-. apply (inv_poller _ _ _ _ _ H); try done.
    + intros t'. simpl. rewrite El. split; congruence.
    + unfold in_flight. simpl. by rewrite Ep.
    + intros t' r Hb Hf. pose proof (inv_wake _ H t' r Hb Hf). congruence.
  - injection Hs as <-. apply (inv_poller _ _ _ _ _ H); try done.
    assert (Hfl : in_flight s = k_answers (kevents s) ++ st :: b_answers (box s)) by (unfold in_flight; by rewrite Ep).
    destruct (in_flight_one s _ _ _ Htok Hfl) as [Hk Hb]. rewrite Hfl. unfold in_flight. simpl. by rewrite Hk, Hb.
  - destruct (signal t s) as [s1|] eqn:Hsig; [|done]. injection Hs as <-. pose proof (proj1 Hp eq_refl) as El.
    assert (inv s1 /\ poller s1 = P_signal /\ evt_lock s1 = Some Poller /\
      forall t' r, clients s1 !! t' <> Some (C_blocked r)) as (H1 & Ep1 & El1 & Hno) by by apply (signal_inv t s).
    apply (inv_poller _ _ _ _ _ H1); try done.
    + unfold in_flight. simpl. by rewrite Ep1.
    + intros t' r Hb. by apply Hno in Hb.
  - injection Hs as <-. pose proof (proj1 Hp eq_refl) as El. apply (inv_poller _ _ _ _ _ H); try done.
    + intros t'. simpl. rewrite El. split; congruence.
    + unfold in_flight. simpl. by rewrite Ep.
    + intros t' r Hb Hf. pose proof (inv_wake _ H t' r Hb Hf). congruence.
Qed.

Lemma k_answers_app l l' : k_answers (l ++ l') = k_answers l ++ k_answers l'.
Proof. apply omap_app. Qed.

Lemma server_inv st s s' : inv s -> server_step st s = Some s' -> inv s'.
Proof.
  intros H Hs. unfold server_step in Hs. destruct (server s) as [|r l] eqn:Es; [done|]. injection Hs as <-.
  pose proof (inv_token _ H) as Htok. unfold token_ok in Htok. rewrite Es in Htok.
  destruct (outstanding s) as [r'|] eqn:Eo; [|by destruct Htok].
  destruct Htok as [([= -> ->] & Hfl & Ha)|[? _]]; [|done].
  assert (exists t c, msg_lock s = Some t /\ clients s !! t = Some c /\ waits_for c = Some r') as (t & c & Hm & Hc & Hw).
  { unfold outstanding in Eo. destruct (msg_lock s) as [t|]; [|done]. simpl in Eo.
    destruct (clients s !! t) as [c|] eqn:Hc; [|done]. by exists t, c. }
  constructor; simpl; try apply H.
  - unfold token_ok. change (outstanding _) with (outstanding s). rewrite Eo. right. split; [done|]. exists st. simpl.
    rewrite lookup_insert_eq. split; [|done]. unfold in_flight in *. simpl.
    apply app_nil in Hfl as [Hk [Hp Hb]%app_nil]. by rewrite k_answers_app, Hk, Hp, Hb.
  - intros t' r0 st0 Hc'. pose proof (inv_owner _ _ _ H Hc' eq_refl). assert (t' = t) as -> by congruence.
    rewrite Hc' in Hc. by injection Hc as <-.
  - intros r0 Hr0. pose proof (inv_sent _ H _ _ _ Hc Hw). rewrite lookup_insert_ne by lia. by apply (inv_fresh _ H).
  - intros r0 rc Hr. destruct (inv_results _ H _ _ Hr) as (st0 & Hst0 & ->). exists st0.
    rewrite lookup_insert_ne by congruence. done.
Qed.

Lemma init_inv n : inv (init n).
Proof.
  constructor; simpl; try done; intros; try lia;
    repeat match goal with H : replicate _ _ !! _ = Some _ |- _ => apply lookup_replicate in H as [? _] end;
    by simplify_eq/=.
Qed.

Lemma work_inv s s' : inv s -> work s s' -> inv s'.
Proof. intros H [t len Hs|t Hs|st Hs]; [by apply client_inv in Hs|by apply poll_inv in Hs|by apply server_inv in Hs]. Qed.

Lemma step_inv s s' : inv s -> step s s' -> inv s'.
Proof.
  intros H [Hw|t Hc ->|e He ->|t r Hc ->].
  - by eapply work_inv.
  - pose proof (inv_not_owner _ _ _ H Hc eq_refl) as Hm. pose proof (inv_evt _ H _ _ Hc) as He. inv_step H Hc.
    + by rewrite bool_decide_false.
    + apply (token_same s); try done; try apply H. unfold outstanding. simpl. destruct (msg_lock s) as [t'|]; [|done].
      simpl. by rewrite list_lookup_insert_ne by congruence.
  - apply (inv_poller _ _ _ _ _ H); try done; try apply H.
    unfold in_flight. simpl. rewrite k_answers_app. unfold k_answers at 2. simpl.
    by rewrite (proj2 (Z.eqb_neq _ _) He), app_nil_r.
  - by apply wake_inv.
Qed.

Lemma reachable_inv n s : reachable n s -> inv s.
Proof.
  intros Hr. pose proof (init_inv n) as H. induction Hr as [|x y z Hxy _ IH]; [done|]. apply IH. by eapply step_inv.
Qed.

(** ** Nobody waits for ever *)

Definition client_rank (b : bool) (c : client_pc) : nat :=
  match c with
  | C_idle => 0 | C_unlock_msg => 1 | C_unlock_evt _ _ => 2
  | C_test _ => if b then 3 else 6
  | C_blocked _ => 5
  | C_lock_evt _ | C_woken _ => if b then 4 else 7
  | C_send => 17 | C_lock_msg => 18
  end.
Definition poll_rank (c : poll_pc) : nat :=
  match c with P_idle => 0 | P_unlock_evt => 1 | P_signal => 5 | P_write _ => 6 | P_lock_evt _ => 7 end.
Definition event_rank (e : mm_camera_event_t) : nat :=
  if server_event_type e =? CAM_EVENT_TYPE_MAP_UNMAP_DONE then 8 else 1.

(** How many more steps there can be. *)
Definition rank (s : mstate) : nat :=
  sum_list_with (client_rank (full (box s))) (clients s) + poll_rank (poller s) +
  sum_list_with event_rank (kevents s) + 9 * length (server s).

Lemma sum_insert {A} (f g : A -> nat) l t c c' : l !! t = Some c ->
  (forall t' d, t' <> t -> l !! t' = Some d -> g d <= f d)%nat ->
  (sum_list_with g (<[t := c']> l) + f c <= sum_list_with f l + g c')%nat.
Proof.
  revert t. induction l as [|x l IH]; intros t Ht Hle; [done|]. destruct t as [|t]; simpl in *.
  - injection Ht as ->. assert (sum_list_with g l <= sum_list_with f l)%nat; [|lia].
    assert (Hl : forall t' d, l !! t' = Some d -> (g d <= f d)%nat) by (intros t' d; by apply (Hle (S t'))).
    clear -Hl. induction l as [|y l IH]; [done|]. simpl. pose proof (Hl 0%nat y eq_refl).
    assert (sum_list_with g l <= sum_list_with f l)%nat; [|lia]. apply IH. intros t'. apply (Hl (S t')).
  - assert (sum_list_with g (<[t := c']> l) + f c <= sum_list_with f l + g c')%nat.
    { apply IH; [done|]. intros t' d Hne. apply (Hle (S t')). congruence. }
    pose proof (Hle 0%nat x ltac:(done) eq_refl). lia.
Qed.

Lemma rank_mono b c : (client_rank true c <= client_rank b c)%nat.
Proof. destruct b, c; simpl; lia. Qed.

(** A thread that does not hold [msg_lock] does not look at the mailbox. *)
Lemma rank_other b b' c : holds_msg c = false -> client_rank b c = client_rank b' c.
Proof. by destruct c. Qed.

Lemma client_rank_decr t len s s' : inv s -> client_step t len s = Some s' -> (rank s' < rank s)%nat.
Proof.
  intros H Hs. unfold client_step in Hs. destruct (clients s !! t) as [c|] eqn:Hc; [|done]. simpl in Hs.
  assert (Hsum : forall b c', (b = full (box s) \/ holds_msg c = true) ->
    (sum_list_with (client_rank b) (<[t := c']> (clients s)) + client_rank (full (box s)) c <=
     sum_list_with (client_rank (full (box s))) (clients s) + client_rank b c')%nat).
  { intros b c' Hb. apply sum_insert; [done|]. intros t' d Hne Hd. destruct Hb as [->|Hm]; [done|].
    rewrite (rank_other b (full (box s)) d); [done|]. rewrite (inv_msg _ H _ _ Hd), (inv_owner _ _ _ H Hc Hm).
    by rewrite bool_decide_false by congruence. }
  pose proof (fun c' => Hsum (full (box s)) c' (or_introl eq_refl)) as Hsame.
  destruct c as [| | |r|r|r|r|r st|]; try done.
  - destruct (msg_lock s); [done|]. injection Hs as <-. specialize (Hsame C_send). unfold rank. simpl in *. lia.
  - injection Hs as <-. destruct (0 <? len).
    + specialize (Hsame (C_lock_evt (sent s))). unfold rank. simpl in *. rewrite length_app. simpl.
      destruct (full (box s)); simpl in *; lia.
    + specialize (Hsame C_unlock_msg). unfold rank. simpl in *. lia.
  - destruct (evt_lock s); [done|]. injection Hs as <-. specialize (Hsame (C_test r)). unfold rank. simpl in *.
    destruct (full (box s)); lia.
  - destruct (Z.land _ _ =? 0) eqn:Hf; injection Hs as <-.
    + specialize (Hsame (C_blocked r)). unfold rank. simpl in *. unfold full in *. rewrite Hf in *. simpl in *. lia.
    + specialize (Hsum (full empty_box) (C_unlock_evt r (evt_status (box s))) (or_intror eq_refl)).
      unfold rank. simpl in *. destruct (full (box s)); lia.
  - destruct (evt_lock s); [done|]. injection Hs as <-. specialize (Hsame (C_test r)). unfold rank. simpl in *.
    destruct (full (box s)); lia.
  - injection Hs as <-. specialize (Hsame C_unlock_msg). unfold rank. simpl in *. lia.
  - injection Hs as <-. specialize (Hsame C_idle). unfold rank. simpl in *. lia.
Qed.

Lemma poll_rank_decr t s s' : poll_step t s = Some s' -> (rank s' < rank s)%nat.
Proof.
  intros Hs. unfold poll_step in Hs. destruct (poller s) as [|st|st| |] eqn:Ep.
  - destruct (kevents s) as [|e l] eqn:Ek; [done|]. injection Hs as <-. unfold rank. rewrite Ep, Ek. simpl.
    unfold event_rank at 2. destruct (server_event_type e =? _); simpl; rewrite ?Ep; simpl; lia.
  - destruct (evt_lock s); [done|]. injection Hs as <-. unfold rank. rewrite Ep. simpl. lia.
  - injection Hs as <-. unfold rank. rewrite Ep. simpl.
    change (full {| server_event_type := CAM_EVENT_TYPE_MAP_UNMAP_DONE; evt_status := st |}) with true.
    assert (sum_list_with (client_rank true) (clients s) <= sum_list_with (client_rank (full (box s))) (clients s))%nat; [|lia].
    induction (clients s) as [|c l IH]; [done|]. simpl. pose proof (rank_mono (full (box s)) c). lia.
  - destruct (signal t s) as [s1|] eqn:Hsig; [|done]. injection Hs as <-. unfold signal in Hsig.
    destruct (clients s !! t) as [c|] eqn:Hc; [destruct c as [| | | | |r| | |]|];
      try (destruct (existsb is_blocked (clients s)); [done|]; injection Hsig as <-; unfold rank; simpl; rewrite Ep; simpl; lia).
    injection Hsig as <-. unfold rank. simpl. rewrite Ep. simpl.
    pose proof (sum_insert (client_rank (full (box s))) (client_rank (full (box s))) (clients s) t _ (C_woken r) Hc) as Hsum.
    simpl in Hsum. specialize (Hsum ltac:(done)). destruct (full (box s)); lia.
  - injection Hs as <-. unfold rank. rewrite Ep. simpl. lia.
Qed.

Lemma server_rank_decr st s s' : server_step st s = Some s' -> (rank s' < rank s)%nat.
Proof.
  intros Hs. unfold server_step in Hs. destruct (server s) as [|r l] eqn:Es; [done|]. injection Hs as <-.
  unfold rank. simpl. rewrite Es, sum_list_with_app. simpl. lia.
Qed.

Lemma work_rank s s' : inv s -> work s s' -> (rank s' < rank s)%nat.
Proof.
  intros H [t len Hs|t Hs|st Hs]; [by apply client_rank_decr in Hs|by apply poll_rank_decr in Hs|by apply server_rank_decr in Hs].
Qed.

(** Whoever holds a mutex can go on. *)
Lemma evt_holder_works s h : inv s -> evt_lock s = Some h -> exists s', work s s'.
Proof.
  intros H Hl. destruct h as [t|].
  - destruct (lookup_lt_is_Some_2 (clients s) t (inv_evt_lt _ H _ Hl)) as [c Hc].
    apply (inv_evt _ H _ _ Hc) in Hl. eassert (is_Some (client_step t 1 s)) as [s' Hs]; [|exists s'; by eapply work_client].
    unfold client_step. rewrite Hc. simpl. destruct c; try done. case_match; by eexists.
  - apply (inv_poll _ H) in Hl. assert (exists t, is_Some (poll_step t s)) as (t & s' & Hs); [|exists s'; by eapply work_poll].
    unfold poll_step. destruct (poller s); try done; [by exists 0%nat; eexists| |by exists 0%nat; eexists].
    destruct (existsb is_blocked (clients s)) eqn:Eb.
    + apply existsb_exists in Eb as (c & Hin & Hb). apply list_elem_of_In, list_elem_of_lookup_1 in Hin as [t Ht].
      exists t. unfold signal. rewrite Ht. by destruct c.
    + exists (length (clients s)). unfold signal. rewrite lookup_ge_None_2, Eb by lia. by eexists.
Qed.

Lemma client_works s t c : clients s !! t = Some c -> is_Some (client_step t 1 s) -> exists s', work s s'.
Proof. intros Hc [s' Hs]. exists s'. by eapply work_client. Qed.

(** While the answer is awaited and nobody holds [evt_lock], the server, the
    kernel or the poll thread can go on. *)
Lemma answer_works s t r : inv s -> clients s !! t = Some (C_blocked r) -> evt_lock s = None -> exists s', work s s'.
Proof.
  intros H Hc Hl. pose proof (inv_token _ H) as Htok. unfold token_ok in Htok.
  rewrite (outstanding_owner s t _ (inv_owner _ _ _ H Hc eq_refl) Hc) in Htok. simpl in Htok.
  destruct Htok as [(Hsv & _)|(_ & st & Hfl & _)].
  - eexists. eapply (work_server _ _ 0). unfold server_step. by rewrite Hsv.
  - destruct (poller s) as [|st'|st'| |] eqn:Ep.
    2:{ eexists. eapply (work_poll _ _ 0). unfold poll_step. by rewrite Ep, Hl. }
    2-4: exfalso; assert (evt_lock s = Some Poller) by (apply (inv_poll _ H); by rewrite Ep); congruence.
    destruct (kevents s) as [|e l] eqn:Ek; [|eexists; eapply (work_poll _ _ 0); unfold poll_step; by rewrite Ep, Ek].
    unfold in_flight in Hfl. rewrite Ep, Ek in Hfl. simpl in Hfl. unfold b_answers in Hfl.
    destruct (full (box s)) eqn:Ef; [|done]. pose proof (inv_wake _ H _ _ Hc Ef). congruence.
Qed.

Lemma progress s t c : inv s -> clients s !! t = Some c -> c <> C_idle -> exists s', work s s'.
Proof.
  intros H Hc Hne.
  assert (Howner : forall t c, clients s !! t = Some c -> holds_msg c = true -> exists s', work s s').
  { clear t c Hc Hne. intros t c Hc Hm. destruct (evt_lock s) as [h|] eqn:Hl; [by eapply evt_holder_works|].
    destruct c as [| | |r|r|r|r|r st|]; try done; try (by eapply answer_works);
      (eapply client_works; [done|]; unfold client_step; rewrite Hc; simpl; rewrite ?Hl; try case_match; by eexists). }
  destruct (holds_msg c) eqn:Hm; [by eapply Howner|]. destruct c; try done.
  destruct (msg_lock s) as [t'|] eqn:Hl.
  - destruct (lookup_lt_is_Some_2 (clients s) t' (inv_msg_lt _ H _ Hl)) as [c' Hc']. eapply Howner; [done|].
    rewrite (inv_msg _ H _ _ Hc'). by apply bool_decide_true.
  - eapply client_works; [done|]. unfold client_step. rewrite Hc. simpl. rewrite Hl. by eexists.
Qed.

(** C27: of any number of threads that map and unmap buffers at the same time,
    each gets the server's answer to its own request, and no other's: in every
    state that can be reached, with spurious wake-ups and other events in
    between, what [mm_camera_util_sendmsg] has returned for a request is what
    the server answered to that request. *)
Theorem sendmsg_own_answer n s r rc (Hr : reachable n s) (Hres : results s !! r = Some rc) :
  exists st, answers s !! r = Some st /\ rc = result_of st.
Proof. by apply (inv_results _ (reachable_inv n s Hr)). Qed.

(** C28: no wake-up is lost and nobody waits for ever: from every state that
    can be reached, the threads, the server and the kernel make at most
    [rank s] steps with what was begun, and when there is none left every
    thread is done and every request that was sent has returned its answer. *)
Theorem sendmsg_returns n s (Hr : reachable n s) :
  (forall k s', nsteps work k s s' -> (k <= rank s)%nat) /\
  (forall s', rtc work s s' -> (forall s'', ~ work s' s'') ->
     Forall (eq C_idle) (clients s') /\
     forall r, (r < sent s')%nat -> exists st, answers s' !! r = Some st /\ results s' !! r = Some (result_of st)).
Proof.
  pose proof (reachable_inv n s Hr) as H. split.
  - intros k s' Hk. clear Hr. induction Hk as [|k x y z Hxy _ IH]; [lia|].
    pose proof (work_rank _ _ H Hxy). specialize (IH (work_inv _ _ H Hxy)). lia.
  - intros s' Hs Hend. assert (H' : inv s').
    { clear Hr Hend. induction Hs as [|x y z Hxy _ IH]; [done|]. apply IH. by eapply work_inv. }
    assert (Hidle : forall t c, clients s' !! t = Some c -> c = C_idle).
    { intros t c Hc. destruct (decide (c = C_idle)) as [|Hne]; [done|].
      destruct (progress _ _ _ H' Hc Hne) as [s'' Hw]. by apply Hend in Hw. }
    split; [apply Forall_lookup; intros t c Hc; symmetry; by eapply Hidle|].
    intros r Hlt. destruct (inv_all _ H' r Hlt) as [[rc Hrc]|(t & c & Hc & Hcar)].
    + destruct (inv_results _ H' _ _ Hrc) as (st & ? & ->). by exists st.
    + rewrite (Hidle _ _ Hc) in Hcar. destruct Hcar as [?|[? ?]]; done.
Qed.

(** ** Schedules *)

Inductive act : Type :=
| A_call (t : nat) | A_client (t : nat) (len : Z) | A_poll (t : nat) | A_server (status : Z) | A_spurious (t : nat).

Definition exec (a : act) (s : mstate) : option mstate :=
  match a with
  | A_call t => match clients s !! t with Some C_idle => Some (set_pc t C_lock_msg s) | _ => None end
  | A_client t len => client_step t len s
  | A_poll t => poll_step t s
  | A_server st => server_step st s
  | A_spurious t => match clients s !! t with Some (C_blocked r) => Some (set_pc t (C_woken r) s) | _ => None end
  end.

Fixpoint run (l : list act) (s : mstate) : option mstate :=
  match l with [] => Some s | a :: l => exec a s ≫= run l end.

Lemma run_reaches l s s' : run l s = Some s' -> rtc step s s'.
Proof.
  revert s. induction l as [|a l IH]; intros s Hl; simpl in Hl; [by injection Hl as <-|].
  destruct (exec a s) as [s1|] eqn:Ea; [|done]. apply (rtc_l _ _ s1); [|by apply IH].
  destruct a as [t|t len|t|st|t]; simpl in Ea.
  - destruct (clients s !! t) as [[]|] eqn:Hc; try done. injection Ea as <-. by eapply step_call.
  - by apply step_work, (work_client _ _ t len).
  - by apply step_work, (work_poll _ _ t).
  - by apply step_work, (work_server _ _ st).
  - destruct (clients s !! t) as [[]|] eqn:Hc; try done. injection Ea as <-. by eapply step_spurious.
Qed.

End Mailbox.

(** Two threads map a buffer; the second waits for [msg_lock] until the first
    has its answer, is woken once for nothing, and is refused by the server. *)
Module DemoMailbox.

Definition first_request : list act :=
  [A_call 0; A_call 1; A_client 0 1; A_client 0 1; A_client 0 1; A_server 0; A_client 0 1; A_poll 0; A_poll 0; A_poll 0;
   A_poll 0; A_poll 0].
Definition both : list act :=
  first_request ++ [A_client 0 1; A_client 0 1; A_client 0 1; A_client 0 1; A_client 1 1; A_client 1 1; A_client 1 1;
   A_client 1 1; A_spurious 1; A_client 1 1; A_client 1 1; A_server 5; A_poll 0; A_poll 0; A_poll 0; A_poll 1; A_poll 1;
   A_client 1 1; A_client 1 1; A_client 1 1; A_client 1 1].

Definition middle : mstate := Eval vm_compute in default (init 2) (run 0 first_request (init 2)).
Definition final : mstate := Eval vm_compute in default (init 2) (run 0 both (init 2)).

Lemma sendmsg_own_answer_witness : results final !! 1%nat = Some (-1) /\
  exists st, answers final !! 1%nat = Some st /\ -1 = result_of 0 st.
Proof.
  split; [reflexivity|]. apply (sendmsg_own_answer 0 2 final 1 (-1)); [|reflexivity].
  apply (run_reaches 0 both). vm_compute. reflexivity.
Defined.

Lemma sendmsg_returns_witness : clients middle !! 0%nat = Some (C_woken 0) /\
  forall k s', nsteps (work 0) k middle s' -> (k <= 22)%nat.
Proof.
  split; [reflexivity|].
  destruct (sendmsg_returns 0 2 middle) as [H1 _]; [apply (run_reaches 0 first_request); vm_compute; reflexivity|exact H1].
Defined.

End DemoMailbox.
