(* ===== verification/QomxCore.v ===== *)
(** * The OMX core

    [qomx_core.c]: the registry through which the JPEG library gets encoder
    and decoder components.  A component library is loaded with its first
    instance and unloaded with its last one.  Function pointers into a library
    are kept in the registry; calling one while the library is not loaded has
    no result. *)

From Stdlib Require Import ZArith Lia.
From stdpp Require Import numbers list strings.
From S2P Require Import Prelude.

(** ** The outside *)

(** The tables of callbacks that are given to components: [omx_callbacks] of a
    session of [mm_jpeg.c], and of one of [mm_jpegdec.c]. *)
Inductive omx_callbacks : Set := EncoderCallbacks | DecoderCallbacks.

#[export] Instance omx_callbacks_eq_dec : EqDecision omx_callbacks.
Proof. solve_decision. Defined.

Record omx_app := { appData : Z; callBacks : omx_callbacks }.

(** What happened: the dynamic linker, and the functions of a component. *)
Inductive oev : Type :=
| OMalloc (ok : bool)
| ODlopen (name : string) (lib : option Z)
| ODlclose (lib rc : Z)
| ODlsym (lib : Z) (name : string) (found : bool)
| OGetInstance (lib : Z) (obj : option Z)
| OCreate (lib obj : Z) (comp : option Z)
| OSetCallbacks (comp : Z) (app : omx_app)
| ODeInit (comp rc : Z).

Abbreviation ohistory := (list oev).

Class OmxEnv := {
  (** error values of the OMX header, other than [OMX_ErrorNone], which is 0 *)
  OMX_ErrorUndefined : Z;
  OMX_ErrorInsufficientResources : Z;
  OMX_ErrorInvalidComponent : Z;
  OMX_ErrorBadParameter : Z;
  env_omalloc : ohistory -> bool;
  env_dlopen : ohistory -> string -> option Z;
  env_dlclose : ohistory -> Z -> Z;
  env_dlsym : ohistory -> Z -> string -> bool;
  env_get_instance : ohistory -> Z -> option Z;
  env_create : ohistory -> Z -> Z -> option Z;
  env_deinit : ohistory -> Z -> Z
}.

Definition OMX_ErrorNone : Z := 0.

(** How often a library is open. *)
Definition lib_delta (lib : Z) (e : oev) : Z :=
  match e with
  | ODlopen _ (Some l) => if l =? lib then 1 else 0
  | ODlclose l _ => if l =? lib then -1 else 0
  | _ => 0
  end.
Definition lib_count (lib : Z) (tr : ohistory) : Z := foldr (fun e n => lib_delta lib e + n) 0 tr.

(** The instances that exist, from the history. *)
Fixpoint alive (tr : ohistory) : list Z :=
  match tr with
  | [] => []
  | OCreate _ _ (Some h) :: tr => h :: alive tr
  | ODeInit h rc :: tr => if rc =? 0 then filter (fun x => x <> h) (alive tr) else alive tr
  | _ :: tr => alive tr
  end.

(** ** The registry *)

Definition OMX_COMP_MAX_INSTANCES : nat := 3.
Definition OMX_COMP_MAX_NUM : nat := 3.

Record comp_info_t := { ci_comp_name : string; ci_lib_name : string }.

(** A function pointer is the library it points into. *)
Record omx_core_component_t := {
  handle : list (option Z);
  open : bool;
  lib_handle : option Z;
  get_instance : option Z;
  create_comp_func : option Z;
  comp_name : string;
  lib_name : string
}.

Record omx_core_t := { component : list omx_core_component_t; comp_cnt : nat }.

Definition g_comp_info : list comp_info_t :=
  [{| ci_comp_name := "OMX.qcom.image.jpeg.encoder"; ci_lib_name := "libqomx_jpegenc.so" |};
   {| ci_comp_name := "OMX.qcom.image.jpeg.decoder"; ci_lib_name := "libqomx_jpegdec.so" |}].

Definition zero_component : omx_core_component_t :=
  {| handle := replicate OMX_COMP_MAX_INSTANCES None; open := false; lib_handle := None; get_instance := None;
     create_comp_func := None; comp_name := ""; lib_name := "" |}.

Definition set_handle (l : list (option Z)) (c : omx_core_component_t) : omx_core_component_t :=
  {| handle := l; open := open c; lib_handle := lib_handle c; get_instance := get_instance c;
     create_comp_func := create_comp_func c; comp_name := comp_name c; lib_name := lib_name c |}.
Definition set_lib (o : bool) (h gi cf : option Z) (c : omx_core_component_t) : omx_core_component_t :=
  {| handle := handle c; open := o; lib_handle := h; get_instance := gi; create_comp_func := cf;
     comp_name := comp_name c; lib_name := lib_name c |}.

Definition with_comp (i : nat) (x : omx_core_component_t) (c : omx_core_t) : omx_core_t :=
  {| component := <[i := x]> (component c); comp_cnt := comp_cnt c |}.

Record oworld := { g_omxcore : option omx_core_t; o_tr : ohistory }.
Definition put_core (v : option omx_core_t) (w : oworld) : oworld := {| g_omxcore := v; o_tr := o_tr w |}.
Definition put_o_tr (v : ohistory) (w : oworld) : oworld := {| g_omxcore := g_omxcore w; o_tr := v |}.

Section Core.
Context `{OE : OmxEnv}.

Definition oext {A} (f : ohistory -> A) (e : A -> oev) : M oworld A := fun w =>
  Some (f (o_tr w), put_o_tr (e (f (o_tr w)) :: o_tr w) w).
Definition onote (e : oev) : M oworld unit := fun w => Some (tt, put_o_tr (e :: o_tr w) w).

(** Control enters the library: it must be loaded. *)
Definition enter (lib : Z) : M oworld unit :=
  tr ← gets o_tr; if 0 <? lib_count lib tr then mret tt else stuck.

Definition the_core : M oworld omx_core_t := c ← gets g_omxcore; deref c.
Definition comp_at (i : nat) : M oworld omx_core_component_t := c ← the_core; deref (component c !! i).
Definition upd_comp (i : nat) (f : omx_core_component_t -> omx_core_component_t) : M oworld unit :=
  c ← the_core;
  x ← deref (component c !! i);
  modify (put_core (Some (with_comp i (f x) c))).

(** The first components get their names, the others stay zero. *)
Definition named_components : list omx_core_component_t :=
  map (fun i => {| handle := handle zero_component; open := false; lib_handle := None; get_instance := None;
                   create_comp_func := None; comp_name := ci_comp_name i; lib_name := ci_lib_name i |}) g_comp_info ++
  replicate (OMX_COMP_MAX_NUM - length g_comp_info) zero_component.

Definition OMX_Init : M oworld Z :=
  core ← gets g_omxcore;
  match core with
  | Some _ => mret OMX_ErrorNone
  | None =>
      if (OMX_COMP_MAX_NUM <? length g_comp_info)%nat then mret OMX_ErrorUndefined
      else
        ok ← oext env_omalloc OMalloc;
        if ok : bool then
          modify (put_core (Some {| component := named_components; comp_cnt := length g_comp_info |}));;
          mret OMX_ErrorNone
        else mret OMX_ErrorInsufficientResources
  end.

Definition OMX_Deinit : M oworld Z := modify (put_core None);; mret OMX_ErrorNone.

Definition get_comp_from_list (core : omx_core_t) (name : option string) : option nat :=
  match name with
  | None => None
  | Some n => fst <$> list_find (fun c => comp_name c = n) (take (comp_cnt core) (component core))
  end.

Definition get_free_inst_idx (c : omx_core_component_t) : option nat := fst <$> list_find (fun h => h = None) (handle c).

(** The loading of the library: whether the functions were found. *)
Definition load_library (i : nat) (c : omx_core_component_t) : M oworld (option bool) :=
  lib ← oext (fun tr => env_dlopen tr (lib_name c)) (ODlopen (lib_name c));
  match lib with
  | None => upd_comp i (set_lib (open c) None (get_instance c) (create_comp_func c));; mret None
  | Some l =>
      cf ← oext (fun tr => env_dlsym tr l "create_component_fns") (ODlsym l "create_component_fns");
      gi ← oext (fun tr => env_dlsym tr l "getInstance") (ODlsym l "getInstance");
      let ptr (b : bool) := if b then Some l else None in
      upd_comp i (set_lib true (Some l) (ptr gi) (ptr cf));;
      mret (Some (gi && cf))
  end.

(** The error path: a library loaded by this call is closed again. *)
Definition get_handle_error (i : nat) (close_handle : bool) (rc : Z) : M oworld (Z * option Z) :=
  (if close_handle then
     c ← comp_at i;
     l ← deref (lib_handle c);
     oext (fun tr => env_dlclose tr l) (ODlclose l);;
     upd_comp i (set_lib (open c) None (get_instance c) (create_comp_func c))
   else mret tt);;
  mret (rc, None).

(** The object and its component are created. *)
Definition new_instance (i inst : nat) (close_handle : bool) (app : omx_app) : M oworld (Z * option Z) :=
  c ← comp_at i;
  gi ← deref (get_instance c);
  enter gi;;
  obj ← oext (fun tr => env_get_instance tr gi) (OGetInstance gi);
  match obj with
  | None => get_handle_error i close_handle OMX_ErrorInvalidComponent
  | Some obj =>
      cf ← deref (create_comp_func c);
      enter cf;;
      comp ← oext (fun tr => env_create tr cf obj) (OCreate cf obj);
      match comp with
      | None => get_handle_error i close_handle OMX_ErrorInvalidComponent
      | Some h =>
          upd_comp i (fun c => set_handle (<[inst := Some h]> (handle c)) c);;
          onote (OSetCallbacks h app);;
          mret (OMX_ErrorNone, Some h)
      end
  end.

(** With [handle] not null; its value afterwards is the second result. *)
Definition OMX_GetHandle (componentName : option string) (app : omx_app) : M oworld (Z * option Z) :=
  core ← the_core;
  match get_comp_from_list core componentName with
  | None => mret (OMX_ErrorInvalidComponent, None)
  | Some i =>
      c ← comp_at i;
      match get_free_inst_idx c with
      | None => get_handle_error i false OMX_ErrorInvalidComponent
      | Some inst =>
          if open c then new_instance i inst false app
          else
            r ← load_library i c;
            match r with
            | None => get_handle_error i false OMX_ErrorInvalidComponent
            | Some false => get_handle_error i true OMX_ErrorInvalidComponent
            | Some true => new_instance i inst true app
            end
      end
  end.

(** The first entry that holds the handle. *)
Fixpoint find_handle (l : list omx_core_component_t) (i : nat) (h : Z) : option (nat * nat) :=
  match l with
  | [] => None
  | c :: l =>
      match list_find (fun x => x = Some h) (handle c) with
      | Some (j, _) => Some (i, j)
      | None => find_handle l (S i) h
      end
  end.
Definition get_idx_from_handle (core : omx_core_t) (h : Z) : option (nat * nat) :=
  find_handle (take (comp_cnt core) (component core)) 0 h.

Definition is_comp_active (c : omx_core_component_t) : bool :=
  existsb (fun h => match h with Some _ => true | None => false end) (handle c).

Definition OMX_FreeHandle (hComp : option Z) : M oworld Z :=
  match hComp with
  | None => mret OMX_ErrorBadParameter
  | Some h =>
      core ← the_core;
      match get_idx_from_handle core h with
      | None => mret OMX_ErrorInvalidComponent
      | Some (i, inst) =>
          c ← comp_at i;
          cf ← deref (create_comp_func c);
          enter cf;;
          rc ← oext (fun tr => env_deinit tr h) (ODeInit h);
          if negb (rc =? OMX_ErrorNone) then mret OMX_ErrorInvalidComponent
          else
            upd_comp i (fun c => set_handle (<[inst := None]> (handle c)) c);;
            c ← comp_at i;
            if is_comp_active c then mret rc
            else
              l ← deref (lib_handle c);
              rc ← oext (fun tr => env_dlclose tr l) (ODlclose l);
              upd_comp i (set_lib false None None None);;
              mret rc
      end
  end.

End Core.
