(* ===== verification/QomxProps.v ===== *)
(** * The OMX core as a registry of instances

    With component libraries that behave (their functions are there, and
    creating an instance succeeds), any sequence of [OMX_GetHandle] and
    [OMX_FreeHandle] keeps the registry in step with a table of live
    instances, and a library is loaded exactly while it has one.  Without the
    proviso it is not: a first instance that cannot be created leaves
    pointers into a library that was closed again. *)

From Stdlib Require Import ZArith Lia.
From stdpp Require Import countable numbers list strings.
From S2P Require Import Prelude QomxCore.

Section Registry.
Context `{OE : OmxEnv} (lib_of : string -> Z).

(** The dynamic linker knows each library under one handle of its own; the
    functions are found, and creating an instance gives a new one. *)
Record libraries_ok : Prop := {
  lo_lib : forall tr n l, env_dlopen tr n = Some l -> l = lib_of n;
  lo_inj : forall n n', lib_of n = lib_of n' -> n = n';
  lo_sym : forall tr l n, env_dlsym tr l n = true;
  lo_obj : forall tr l, is_Some (env_get_instance tr l);
  lo_new : forall tr l o, exists h, env_create tr l o = Some h /\ h ∉ alive tr
}.

Definition slot (core : omx_core_t) (i j : nat) : option Z :=
  c ← component core !! i; h ← handle c !! j; h.

Record comp_ok (tr : ohistory) (c : omx_core_component_t) : Prop := {
  co_len : length (handle c) = OMX_COMP_MAX_INSTANCES;
  co_open : open c = is_comp_active c;
  co_count : lib_count (lib_of (lib_name c)) tr = if is_comp_active c then 1 else 0;
  co_ptrs : is_comp_active c = true ->
    let l := Some (lib_of (lib_name c)) in lib_handle c = l /\ get_instance c = l /\ create_comp_func c = l
}.

Record core_inv (w : oworld) (core : omx_core_t) : Prop := {
  ci_core : g_omxcore w = Some core;
  ci_cnt : (comp_cnt core <= length (component core))%nat;
  ci_comp : forall i c, (i < comp_cnt core)%nat -> component core !! i = Some c -> comp_ok (o_tr w) c;
  ci_libs : forall i j c d, (i < comp_cnt core)%nat -> (j < comp_cnt core)%nat -> component core !! i = Some c -> component core !! j = Some d ->
    lib_name c = lib_name d -> i = j;
  ci_rest : forall i c, (comp_cnt core <= i)%nat -> component core !! i = Some c -> handle c = replicate OMX_COMP_MAX_INSTANCES None;
  ci_alive : forall h, h ∈ alive (o_tr w) <-> exists i j, slot core i j = Some h;
  ci_uniq : forall h i j i' j', slot core i j = Some h -> slot core i' j' = Some h -> i = i' /\ j = j'
}.

(** ** The specification: a table of instances *)

Inductive omx_act : Type := A_get (name : option string) (app : omx_app) | A_free (h : option Z).
Inductive omx_res : Type := R_get (rc : Z) (h : option Z) | R_free (rc : Z).

Definition run_omx (a : omx_act) : M oworld omx_res :=
  match a with
  | A_get n d => r ← OMX_GetHandle n d; mret (R_get (fst r) (snd r))
  | A_free h => rc ← OMX_FreeHandle h; mret (R_free rc)
  end.

Fixpoint run_omxs (l : list omx_act) : M oworld (list omx_res) :=
  match l with
  | [] => mret []
  | a :: l => r ← run_omx a; rs ← run_omxs l; mret (r :: rs)
  end.

(** The instances by component and place. *)
Abbreviation omx_table := (list (list (option Z))).

(** The component with a name. *)
Definition names (core : omx_core_t) : list string := take (comp_cnt core) (comp_name <$> component core).
Definition index_of (names : list string) (n : option string) : option nat :=
  n ← n; fst <$> list_find (fun x => x = n) names.

Inductive omx_step (names : list string) : omx_table -> omx_act -> omx_res -> omx_table -> Prop :=
| st_unknown t n d : index_of names n = None -> omx_step names t (A_get n d) (R_get OMX_ErrorInvalidComponent None) t
| st_full t n d i l : index_of names n = Some i -> t !! i = Some l -> None ∉ l ->
    omx_step names t (A_get n d) (R_get OMX_ErrorInvalidComponent None) t
| st_absent t n d i l : index_of names n = Some i -> t !! i = Some l -> Forall (eq None) l ->
    omx_step names t (A_get n d) (R_get OMX_ErrorInvalidComponent None) t
| st_get t n d i l j h : index_of names n = Some i -> t !! i = Some l -> l !! j = Some None ->
    (forall l', l' ∈ t -> Some h ∉ l') ->
    omx_step names t (A_get n d) (R_get OMX_ErrorNone (Some h)) (<[i := <[j := Some h]> l]> t)
| st_null t : omx_step names t (A_free None) (R_free OMX_ErrorBadParameter) t
| st_stale t h : (forall l, l ∈ t -> Some h ∉ l) -> omx_step names t (A_free (Some h)) (R_free OMX_ErrorInvalidComponent) t
| st_busy t h l : l ∈ t -> Some h ∈ l -> omx_step names t (A_free (Some h)) (R_free OMX_ErrorInvalidComponent) t
| st_free t h i l j rc : t !! i = Some l -> l !! j = Some (Some h) ->
    omx_step names t (A_free (Some h)) (R_free rc) (<[i := <[j := None]> l]> t).

Inductive omx_steps (names : list string) : omx_table -> list omx_act -> list omx_res -> omx_table -> Prop :=
| sts_nil t : omx_steps names t [] [] t
| sts_cons t a r t1 l rs t2 : omx_step names t a r t1 -> omx_steps names t1 l rs t2 -> omx_steps names t (a :: l) (r :: rs) t2.

Definition table (core : omx_core_t) : omx_table := handle <$> component core.

(** ** Lookups *)

Lemma lib_count_app l tr tr' : lib_count l (tr ++ tr') = lib_count l tr + lib_count l tr'.
Proof. unfold lib_count. induction tr as [|e tr IH]; [done|]. simpl. rewrite IH. lia. Qed.

Lemma active_iff c : is_comp_active c = true <-> exists h, Some h ∈ handle c.
Proof.
  unfold is_comp_active. rewrite existsb_exists. split.
  - intros ([h|] & Hin & Hh); [|done]. exists h. by apply list_elem_of_In.
  - intros [h Hh]. exists (Some h). split; [by apply list_elem_of_In|done].
Qed.

Lemma inactive_iff c : is_comp_active c = false <-> Forall (eq None) (handle c).
Proof.
  rewrite <- not_true_iff_false, active_iff, Forall_forall. split.
  - intros H [h|] Hx; [|done]. exfalso. apply H. by exists h.
  - intros H [h Hh]. by apply H in Hh.
Qed.

Lemma slot_elem core i j h c : slot core i j = Some h -> component core !! i = Some c -> handle c !! j = Some (Some h).
Proof. unfold slot. intros H Hc. rewrite Hc in H. simpl in H. destruct (handle c !! j) as [[x|]|]; simplify_eq/=; done. Qed.

Lemma slot_of_table core i j h : slot core i j = Some h <-> exists l, table core !! i = Some l /\ l !! j = Some (Some h).
Proof.
  unfold slot, table. rewrite list_lookup_fmap. destruct (component core !! i) as [c|]; simpl; [|naive_solver].
  destruct (handle c !! j) as [[x|]|] eqn:E; simpl; split; naive_solver.
Qed.

Lemma find_handle_spec l i0 h :
  match find_handle l i0 h with
  | Some (i, j) => exists c, (i0 <= i)%nat /\ l !! (i - i0)%nat = Some c /\ handle c !! j = Some (Some h)
  | None => forall i c, l !! i = Some c -> Some h ∉ handle c
  end.
Proof.
  revert i0. induction l as [|c l IH]; intros i0; simpl; [done|].
  destruct (list_find _ (handle c)) as [[j x]|] eqn:Ef.
  - apply list_find_Some in Ef as (Hj & -> & _). exists c. rewrite Nat.sub_diag. done.
  - specialize (IH (S i0)). destruct (find_handle l (S i0) h) as [[i j]|].
    + destruct IH as (d & Hle & Hd & Hj). exists d. split; [lia|]. replace (i - i0)%nat with (S (i - S i0)) by lia. done.
    + intros [|i] d Hd; simpl in Hd; [|by eapply IH]. simplify_eq. apply list_find_None in Ef.
      intros Hin. by apply (proj1 (Forall_forall _ _) Ef _ Hin).
Qed.

(** ** Changing one component *)

Definition ow (core : omx_core_t) (tr : ohistory) : oworld := {| g_omxcore := Some core; o_tr := tr |}.

Lemma comp_at_run core tr i c : component core !! i = Some c -> comp_at i (ow core tr) = Some (c, ow core tr).
Proof. intros H. unfold comp_at, the_core. erewrite bind_run by reflexivity. simpl. by rewrite H. Qed.

Lemma upd_comp_run core tr i c f : component core !! i = Some c ->
  upd_comp i f (ow core tr) = Some (tt, ow (with_comp i (f c) core) tr).
Proof. intros H. unfold upd_comp, the_core. erewrite bind_run by reflexivity. simpl. unfold mbind at 1, M_bind at 1. by rewrite H. Qed.

Lemma slot_with_comp core i c c' j h : component core !! i = Some c -> handle c' = <[j := h]> (handle c) ->
  (j < length (handle c))%nat -> forall i' j', slot (with_comp i c' core) i' j' =
    if decide (i' = i /\ j' = j) then h else slot core i' j'.
Proof.
  intros Hc Hh Hj i' j'. pose proof (lookup_lt_Some _ _ _ Hc) as Hi. unfold slot, with_comp. simpl.
  destruct (decide (i' = i)) as [->|Hne].
  - rewrite list_lookup_insert_eq by done. simpl. rewrite Hh. destruct (decide (j' = j)) as [->|Hne'].
    + rewrite list_lookup_insert_eq by done. simpl. by rewrite decide_True.
    + rewrite list_lookup_insert_ne by done. rewrite decide_False by tauto. by rewrite Hc.
  - rewrite list_lookup_insert_ne by done. by rewrite decide_False by tauto.
Qed.

Lemma core_inv_with core tr tr' i c c' : core_inv (ow core tr) core -> (i < comp_cnt core)%nat -> component core !! i = Some c ->
  lib_name c' = lib_name c -> (libraries_ok) -> comp_ok tr' c' ->
  (forall l, l <> lib_of (lib_name c) -> lib_count l tr' = lib_count l tr) ->
  (forall h, h ∈ alive tr' <-> exists i' j', slot (with_comp i c' core) i' j' = Some h) ->
  (forall h i1 j1 i2 j2, slot (with_comp i c' core) i1 j1 = Some h -> slot (with_comp i c' core) i2 j2 = Some h -> i1 = i2 /\ j1 = j2) ->
  core_inv (ow (with_comp i c' core) tr') (with_comp i c' core).
Proof.
  intros H Hi Hc Hn Hlib Hok Hcnt Hal Huq. pose proof (lookup_lt_Some _ _ _ Hc) as Hlt.
  constructor; try done; simpl.
  - rewrite length_insert. apply H.
  - intros i' d Hi' Hd. destruct (decide (i' = i)) as [->|Hne].
    + rewrite list_lookup_insert_eq in Hd by done. by simplify_eq.
    + rewrite list_lookup_insert_ne in Hd by done. destruct (ci_comp _ _ H _ _ Hi' Hd) as [? ? Hct ?]. constructor; try done.
      rewrite Hcnt; [done|]. intros Heq. apply Hne. by apply (ci_libs _ _ H i' i d c), (lo_inj Hlib).
  - intros i1 i2 d1 d2 Hi1 Hi2 H1 H2 Heq.
    assert (Hback : forall k d, <[i := c']> (component core) !! k = Some d -> exists d0, component core !! k = Some d0 /\ lib_name d0 = lib_name d).
    { intros k d Hd. destruct (decide (k = i)) as [->|Hne].
      - rewrite list_lookup_insert_eq in Hd by done. simplify_eq. by exists c.
      - rewrite list_lookup_insert_ne in Hd by done. by exists d. }
    destruct (Hback _ _ H1) as (e1 & He1 & N1), (Hback _ _ H2) as (e2 & He2 & N2).
    apply (ci_libs _ _ H i1 i2 e1 e2); congruence.
  - intros i' d Hi' Hd. rewrite list_lookup_insert_ne in Hd by lia. by apply (ci_rest _ _ H i').
Qed.

Lemma table_with core i c' : table (with_comp i c' core) = <[i := handle c']> (table core).
Proof. unfold table, with_comp. simpl. apply list_fmap_insert. Qed.

(** A change of the library fields alone. *)
Lemma slot_same core i c c' : component core !! i = Some c -> handle c' = handle c ->
  forall i' j', slot (with_comp i c' core) i' j' = slot core i' j'.
Proof.
  intros Hc Hh i' j'. pose proof (lookup_lt_Some _ _ _ Hc) as Hi. unfold slot, with_comp. simpl.
  destruct (decide (i' = i)) as [->|Hne]; [|by rewrite list_lookup_insert_ne].
  rewrite list_lookup_insert_eq by done. rewrite Hc. simpl. by rewrite Hh.
Qed.

(** ** Getting an instance *)

Context (Hlib : libraries_ok).

Lemma enter_run core tr l : 0 < lib_count l tr -> enter l (ow core tr) = Some (tt, ow core tr).
Proof. intros H. unfold enter. erewrite bind_run by reflexivity. simpl. by rewrite (proj2 (Z.ltb_lt _ _) H). Qed.

Lemma with_comp_twice i a b core : with_comp i a (with_comp i b core) = with_comp i a core.
Proof. unfold with_comp. simpl. by rewrite list_insert_insert_eq. Qed.

Lemma new_instance_run core tr i c j l b d : component core !! i = Some c -> get_instance c = Some l ->
  create_comp_func c = Some l -> 0 < lib_count l tr ->
  exists h tr', new_instance i j b d (ow core tr) =
      Some ((OMX_ErrorNone, Some h), ow (with_comp i (set_handle (<[j := Some h]> (handle c)) c) core) tr') /\
    (h ∉ alive tr) /\ (alive tr' = h :: alive tr) /\ forall l', lib_count l' tr' = lib_count l' tr.
Proof.
  intros Hc Hg Hf Hl. unfold new_instance. rewrite (bind_run _ _ _ _ _ (comp_at_run core tr i c Hc)), Hg.
  erewrite bind_run by reflexivity. rewrite (bind_run _ _ _ _ _ (enter_run core tr l Hl)).
  erewrite bind_run by reflexivity. destruct (lo_obj Hlib tr l) as [obj Hobj]. cbn [o_tr ow]. rewrite Hobj, Hf.
  erewrite bind_run by reflexivity. change (put_o_tr ?t (ow core tr)) with (ow core t).
  rewrite (bind_run _ _ _ _ _ (enter_run core (OGetInstance l (Some obj) :: tr) l Hl)).
  erewrite bind_run by reflexivity. cbn [o_tr ow].
  destruct (lo_new Hlib (OGetInstance l (Some obj) :: tr) l obj) as (h & Hh & Hnew). rewrite Hh.
  change (put_o_tr ?t (ow core ?u)) with (ow core t).
  rewrite (bind_run _ _ _ _ _ (upd_comp_run core _ i c _ Hc)). erewrite bind_run by reflexivity.
  eexists h, _. split; [reflexivity|]. split; [done|]. split; [done|]. done.
Qed.

Lemma active_set c j h : (j < length (handle c))%nat -> is_comp_active (set_handle (<[j := Some h]> (handle c)) c) = true.
Proof. intros Hj. apply active_iff. exists h. simpl. apply list_elem_of_lookup. exists j. by rewrite list_lookup_insert_eq. Qed.

(** The registry after a new instance. *)
Lemma inv_added core tr tr' i c c' j h : core_inv (ow core tr) core -> (i < comp_cnt core)%nat -> component core !! i = Some c ->
  handle c !! j = Some None -> handle c' = <[j := Some h]> (handle c) -> lib_name c' = lib_name c -> h ∉ alive tr ->
  alive tr' = h :: alive tr -> comp_ok tr' c' -> (forall l, l <> lib_of (lib_name c) -> lib_count l tr' = lib_count l tr) ->
  core_inv (ow (with_comp i c' core) tr') (with_comp i c' core).
Proof.
  intros H Hi Hc Hj Hh Hn Hnew Hal Hok Hcnt. pose proof (lookup_lt_Some _ _ _ Hj) as Hlt.
  pose proof (slot_with_comp core i c c' j (Some h) Hc Hh Hlt) as Hslot.
  assert (Hempty : slot core i j = None) by (unfold slot; rewrite Hc; simpl; by rewrite Hj).
  apply (core_inv_with core tr tr' i c c' H Hi Hc Hn Hlib Hok Hcnt).
  - intros x. rewrite Hal, elem_of_cons, (ci_alive _ _ H). split.
    + intros [->|(i' & j' & Hs)]; [exists i, j; rewrite Hslot; by rewrite decide_True|].
      exists i', j'. rewrite Hslot, decide_False; [done|]. intros [-> ->]. congruence.
    + intros (i' & j' & Hs). rewrite Hslot in Hs. destruct (decide _); [left; congruence|right; eauto].
  - intros x i1 j1 i2 j2. rewrite !Hslot.
    assert (Hx : forall i' j', slot core i' j' = Some h -> False).
    { intros i' j' Hs. apply Hnew, (ci_alive _ _ H). eauto. }
    destruct (decide (i1 = i /\ j1 = j)) as [[-> ->]|], (decide (i2 = i /\ j2 = j)) as [[-> ->]|]; intros H1 H2; simplify_eq; try done.
    + by destruct (Hx i2 j2).
    + by destruct (Hx i1 j1).
    + by apply (ci_uniq _ _ H x).
Qed.

Lemma comp_list_spec core n i : get_comp_from_list core n = Some i ->
  (i < comp_cnt core)%nat /\ exists c, component core !! i = Some c.
Proof.
  unfold get_comp_from_list. destruct n as [n|]; [|done]. intros Hf. apply fmap_Some in Hf as ([k c] & Hf & ->).
  apply list_find_Some in Hf as (Hk & _ & _). apply lookup_take_Some in Hk as [Hk Hlt]. simpl. split; [done|by exists c].
Qed.

Lemma free_idx_spec c : match get_free_inst_idx c with Some j => handle c !! j = Some None | None => None ∉ handle c end.
Proof.
  unfold get_free_inst_idx. destruct (list_find _ _) as [[j x]|] eqn:Ef; simpl.
  - by apply list_find_Some in Ef as (Hj & -> & _).
  - apply list_find_None in Ef. intros Hin. by apply (proj1 (Forall_forall _ _) Ef _ Hin).
Qed.

Lemma slots_of_table core tr h : core_inv (ow core tr) core -> (h ∉ alive tr) <-> (forall l, l ∈ table core -> Some h ∉ l).
Proof.
  intros H. rewrite (ci_alive _ _ H). split.
  - intros Hno l Hl Hh. apply Hno. apply list_elem_of_lookup in Hl as [i Hi], Hh as [j Hj].
    exists i, j. apply slot_of_table. by exists l.
  - intros Hno (i & j & Hs). apply slot_of_table in Hs as (l & Hl & Hj). eapply Hno; by eapply list_elem_of_lookup_2.
Qed.

Lemma names_with core i c c' : component core !! i = Some c -> comp_name c' = comp_name c -> names (with_comp i c' core) = names core.
Proof.
  intros Hc Hn. unfold names, with_comp. simpl. f_equal. rewrite list_fmap_insert, Hn. apply list_insert_id.
  by rewrite list_lookup_fmap, Hc.
Qed.

Lemma index_of_names core n : index_of (names core) n = get_comp_from_list core n.
Proof.
  unfold index_of, get_comp_from_list, names. destruct n as [n|]; [|done]. simpl. rewrite <- fmap_take, list_find_fmap.
  destruct (list_find _ _) as [[i c]|] eqn:E1; destruct (list_find _ (take _ _)) as [[j d]|] eqn:E2; simpl; try done; by simplify_eq.
Qed.

(** What a successful call leaves, whether the library was loaded before or by it. *)
Lemma added_step core tr tr' i c o p j h n d : let c' := set_handle (<[j := Some h]> (handle c)) (set_lib o p p p c) in
  core_inv (ow core tr) core -> index_of (names core) n = Some i -> (i < comp_cnt core)%nat -> component core !! i = Some c ->
  handle c !! j = Some None -> o = true -> p = Some (lib_of (lib_name c)) -> h ∉ alive tr -> (alive tr' = h :: alive tr) ->
  (forall l, lib_count l tr' = if l =? lib_of (lib_name c) then 1 else lib_count l tr) ->
  core_inv (ow (with_comp i c' core) tr') (with_comp i c' core) /\
  omx_step (names core) (table core) (A_get n d) (R_get OMX_ErrorNone (Some h)) (table (with_comp i c' core)) /\
  names (with_comp i c' core) = names core.
Proof.
  intros c' H Hn Hi Hc Hj -> -> Hnew Hal Hcnt. pose proof (lookup_lt_Some _ _ _ Hj) as Hlt.
  pose proof (active_set (set_lib true (Some (lib_of (lib_name c))) (Some (lib_of (lib_name c))) (Some (lib_of (lib_name c))) c) j h Hlt) as Hact.
  change (is_comp_active c' = true) in Hact.
  split; [|split].
  - apply (inv_added core tr tr' i c c' j h); try done.
    + constructor; rewrite ?Hact; try done; [simpl; rewrite length_insert; by apply (ci_comp _ _ H i)|].
      change (lib_name c') with (lib_name c). by rewrite Hcnt, Z.eqb_refl.
    + intros l Hl. by rewrite Hcnt, (proj2 (Z.eqb_neq _ _) Hl).
  - rewrite table_with. apply (st_get _ _ _ _ i (handle c) j); try done; [unfold table; by rewrite list_lookup_fmap, Hc|].
    by apply (slots_of_table core tr).
  - by apply (names_with core i c).
Qed.

(** The library is loaded already. *)
Lemma get_open core tr n d i c j : core_inv (ow core tr) core -> index_of (names core) n = Some i -> (i < comp_cnt core)%nat ->
  component core !! i = Some c -> handle c !! j = Some None -> open c = true ->
  exists h core' tr', new_instance i j false d (ow core tr) = Some ((OMX_ErrorNone, Some h), ow core' tr') /\
    core_inv (ow core' tr') core' /\
    omx_step (names core) (table core) (A_get n d) (R_get OMX_ErrorNone (Some h)) (table core') /\ names core' = names core.
Proof.
  intros H Hn Hi Hc Hj Ho. destruct (ci_comp _ _ H _ _ Hi Hc) as [Hlen Hopen Hcount Hptrs]. rewrite Ho in Hopen. rewrite <- Hopen in *.
  destruct (Hptrs eq_refl) as (P1 & P2 & P3). simpl in Hcount.
  destruct (new_instance_run core tr i c j _ false d Hc P2 P3) as (h & tr' & E1 & Hnew & Hal & Hcnt); [lia|].
  do 3 eexists. split; [exact E1|].
  replace (set_handle (<[j := Some h]> (handle c)) c) with (set_handle (<[j := Some h]> (handle c))
    (set_lib true (Some (lib_of (lib_name c))) (Some (lib_of (lib_name c))) (Some (lib_of (lib_name c))) c)).
  2:{ destruct c; simpl in *. unfold set_handle, set_lib. simpl. congruence. }
  apply (added_step core tr tr' i c); try done. intros l. rewrite Hcnt. destruct (Z.eqb_spec l (lib_of (lib_name c))); congruence.
Qed.

(** The library is loaded, with its functions. *)
Lemma load_run core tr i c : component core !! i = Some c -> env_dlopen tr (lib_name c) = Some (lib_of (lib_name c)) ->
  let l := lib_of (lib_name c) in
  load_library i c (ow core tr) = Some (Some true, ow (with_comp i (set_lib true (Some l) (Some l) (Some l) c) core)
    (ODlsym l "getInstance" true :: ODlsym l "create_component_fns" true :: ODlopen (lib_name c) (Some l) :: tr)).
Proof.
  intros Hc El l. unfold load_library. erewrite bind_run by reflexivity. cbn [o_tr ow]. rewrite El.
  do 2 (erewrite bind_run by reflexivity). cbn [o_tr ow put_o_tr]. rewrite !(lo_sym Hlib).
  change (put_o_tr ?t _) with (ow core t). rewrite (bind_run _ _ _ _ _ (upd_comp_run core _ i c _ Hc)). reflexivity.
Qed.

Lemma get_load core tr n d i c j : core_inv (ow core tr) core -> index_of (names core) n = Some i -> (i < comp_cnt core)%nat ->
  component core !! i = Some c -> handle c !! j = Some None -> open c = false -> env_dlopen tr (lib_name c) = Some (lib_of (lib_name c)) ->
  let l := lib_of (lib_name c) in
  exists h core' tr', new_instance i j true d (ow (with_comp i (set_lib true (Some l) (Some l) (Some l) c) core)
      (ODlsym l "getInstance" true :: ODlsym l "create_component_fns" true :: ODlopen (lib_name c) (Some l) :: tr)) =
      Some ((OMX_ErrorNone, Some h), ow core' tr') /\
    core_inv (ow core' tr') core' /\
    omx_step (names core) (table core) (A_get n d) (R_get OMX_ErrorNone (Some h)) (table core') /\ names core' = names core.
Proof.
  intros H Hn Hi Hc Hj Ho El l. destruct (ci_comp _ _ H _ _ Hi Hc) as [Hlen Hopen Hcount Hptrs].
  rewrite <- Hopen, Ho in Hcount. simpl in Hcount. pose proof (lookup_lt_Some _ _ _ Hc) as Hlt. fold l in Hcount.
  set (c1 := set_lib true (Some l) (Some l) (Some l) c). set (tr1 := _ :: _ :: _ :: tr).
  assert (Hcnt1 : forall l', lib_count l' tr1 = (if l =? l' then 1 else 0) + lib_count l' tr) by (intros l'; unfold tr1; simpl; lia).
  destruct (new_instance_run (with_comp i c1 core) tr1 i c1 j l true d) as (h & tr' & E1 & Hnew & Hal & Hcnt); try done.
  { by apply list_lookup_insert_eq. }
  { rewrite Hcnt1, Hcount, Z.eqb_refl. lia. }
  rewrite with_comp_twice in E1. do 3 eexists. split; [exact E1|]. apply (added_step core tr tr' i c); try done.
  intros l'. rewrite Hcnt, Hcnt1. fold l. destruct (Z.eqb_spec l l') as [<-|]; [rewrite Z.eqb_refl; lia|].
  destruct (Z.eqb_spec l' l); [congruence|lia].
Qed.

(** There is no library. *)
Lemma get_absent core tr n d i c : core_inv (ow core tr) core -> index_of (names core) n = Some i -> (i < comp_cnt core)%nat ->
  component core !! i = Some c -> open c = false -> env_dlopen tr (lib_name c) = None ->
  exists core' tr', load_library i c (ow core tr) = Some (None, ow core' tr') /\ core_inv (ow core' tr') core' /\
    omx_step (names core) (table core) (A_get n d) (R_get OMX_ErrorInvalidComponent None) (table core') /\ names core' = names core.
Proof.
  intros H Hn Hi Hc Ho El. destruct (ci_comp _ _ H _ _ Hi Hc) as [Hlen Hopen Hcount Hptrs]. rewrite Ho in Hopen.
  set (c1 := set_lib (open c) None (get_instance c) (create_comp_func c) c). pose proof (slot_same core i c c1 Hc eq_refl) as Hsame.
  exists (with_comp i c1 core), (ODlopen (lib_name c) None :: tr). split; [|split; [|split]].
  - unfold load_library. erewrite bind_run by reflexivity. cbn [o_tr ow]. rewrite El.
    change (put_o_tr ?t _) with (ow core t). rewrite (bind_run _ _ _ _ _ (upd_comp_run core _ i c _ Hc)). reflexivity.
  - apply (core_inv_with core tr _ i c c1 H Hi Hc eq_refl Hlib); try done.
    + constructor; try done; change (is_comp_active c1) with (is_comp_active c); by rewrite <- Hopen in *.
    + intros h. change (alive (ODlopen (lib_name c) None :: tr)) with (alive tr). rewrite (ci_alive _ _ H). by setoid_rewrite Hsame.
    + intros h i1 j1 i2 j2. rewrite !Hsame. apply (ci_uniq _ _ H).
  - rewrite table_with. assert (Ht : table core !! i = Some (handle c)) by (unfold table; by rewrite list_lookup_fmap, Hc).
    change (handle c1) with (handle c). rewrite list_insert_id by done. eapply st_absent; [done..|]. by apply inactive_iff.
  - by apply (names_with core i c).
Qed.

Lemma get_step core tr n d : core_inv (ow core tr) core -> exists r core' tr',
  run_omx (A_get n d) (ow core tr) = Some (r, ow core' tr') /\ core_inv (ow core' tr') core' /\
  omx_step (names core) (table core) (A_get n d) r (table core') /\ names core' = names core.
Proof.
  intros H. assert (Hr : forall r core' tr', OMX_GetHandle n d (ow core tr) = Some (r, ow core' tr') ->
    run_omx (A_get n d) (ow core tr) = Some (R_get (fst r) (snd r), ow core' tr')).
  { intros r core' tr' Hr. cbn [run_omx]. by rewrite (bind_run _ _ _ _ _ Hr). }
  unfold OMX_GetHandle in Hr. assert (Hcore : the_core (ow core tr) = Some (core, ow core tr)) by reflexivity.
  rewrite (bind_run _ _ _ _ _ Hcore) in Hr.
  destruct (get_comp_from_list core n) as [i|] eqn:Ei; pose proof Ei as Ei'; rewrite <- index_of_names in Ei'.
  2:{ do 3 eexists. split; [by apply Hr|]. split; [done|]. split; [by constructor|done]. }
  destruct (comp_list_spec _ _ _ Ei) as (Hi & c & Hc). rewrite (bind_run _ _ _ _ _ (comp_at_run core tr i c Hc)) in Hr.
  assert (Ht : table core !! i = Some (handle c)) by (unfold table; by rewrite list_lookup_fmap, Hc).
  pose proof (free_idx_spec c) as Hfree. destruct (get_free_inst_idx c) as [j|].
  2:{ do 3 eexists. split; [by apply Hr|]. split; [done|]. split; [by eapply st_full|done]. }
  destruct (open c) eqn:Eo.
  { destruct (get_open core tr n d i c j H Ei' Hi Hc Hfree Eo) as (h & core' & tr' & E1 & Hrest).
    do 3 eexists. split; [apply Hr, E1|exact Hrest]. }
  destruct (env_dlopen tr (lib_name c)) as [l|] eqn:El.
  - pose proof (lo_lib Hlib _ _ _ El) as ->. rewrite (bind_run _ _ _ _ _ (load_run core tr i c Hc El)) in Hr.
    destruct (get_load core tr n d i c j H Ei' Hi Hc Hfree Eo El) as (h & core' & tr' & E1 & Hrest).
    do 3 eexists. split; [apply Hr, E1|exact Hrest].
  - destruct (get_absent core tr n d i c H Ei' Hi Hc Eo El) as (core' & tr' & E1 & Hrest).
    rewrite (bind_run _ _ _ _ _ E1) in Hr. do 3 eexists. split; [by apply Hr|exact Hrest].
Qed.

(** ** Giving an instance back *)

Lemma inv_removed core tr tr' i c c' j h : core_inv (ow core tr) core -> (i < comp_cnt core)%nat -> component core !! i = Some c ->
  handle c !! j = Some (Some h) -> handle c' = <[j := None]> (handle c) -> lib_name c' = lib_name c ->
  alive tr' = filter (fun x => x <> h) (alive tr) -> comp_ok tr' c' ->
  (forall l, l <> lib_of (lib_name c) -> lib_count l tr' = lib_count l tr) ->
  core_inv (ow (with_comp i c' core) tr') (with_comp i c' core).
Proof.
  intros H Hi Hc Hj Hh Hn Hal Hok Hcnt. pose proof (lookup_lt_Some _ _ _ Hj) as Hlt.
  pose proof (slot_with_comp core i c c' j None Hc Hh Hlt) as Hslot.
  assert (Hfull : slot core i j = Some h) by (unfold slot; rewrite Hc; simpl; by rewrite Hj).
  apply (core_inv_with core tr tr' i c c' H Hi Hc Hn Hlib Hok Hcnt).
  - intros x. rewrite Hal, list_elem_of_filter, (ci_alive _ _ H). split.
    + intros (Hx & i' & j' & Hs). exists i', j'. rewrite Hslot, decide_False; [done|]. intros [-> ->]. congruence.
    + intros (i' & j' & Hs). rewrite Hslot in Hs. destruct (decide (i' = i /\ j' = j)) as [|Hne]; [done|]. split; [|eauto].
      intros ->. apply Hne. by apply (ci_uniq _ _ H h).
  - intros x i1 j1 i2 j2. rewrite !Hslot. destruct (decide _), (decide _); try done. apply (ci_uniq _ _ H x).
Qed.

Lemma inv_event core tr e : core_inv (ow core tr) core -> alive (e :: tr) = alive tr ->
  (forall l, lib_delta l e = 0) -> core_inv (ow core (e :: tr)) core.
Proof.
  intros H Ha Hd. constructor; try apply H; try done.
  - intros i c Hi Hc. destruct (ci_comp _ _ H _ _ Hi Hc). constructor; try done. simpl in *. by rewrite Hd.
  - intros h. simpl o_tr. rewrite Ha. apply (ci_alive _ _ H).
Qed.

(** The instance is found where it is. *)
Lemma idx_spec core tr h : core_inv (ow core tr) core ->
  match get_idx_from_handle core h with
  | Some (i, j) => exists c, (i < comp_cnt core)%nat /\ component core !! i = Some c /\ handle c !! j = Some (Some h)
  | None => forall l, l ∈ table core -> Some h ∉ l
  end.
Proof.
  intros H. unfold get_idx_from_handle. pose proof (find_handle_spec (take (comp_cnt core) (component core)) 0 h) as Hf.
  destruct (find_handle _ 0 h) as [[i j]|].
  - destruct Hf as (c & _ & Hc & Hj). rewrite Nat.sub_0_r in Hc. apply lookup_take_Some in Hc as [Hc Hi]. by exists c.
  - intros l Hl. unfold table in Hl. apply list_elem_of_fmap in Hl as (c & -> & Hc). apply list_elem_of_lookup in Hc as [i Hc].
    destruct (decide (i < comp_cnt core)%nat) as [Hi|Hi].
    + apply (Hf i). by rewrite lookup_take_lt.
    + rewrite (ci_rest _ _ H i c) by (done || lia). intros [? _]%elem_of_replicate. done.
Qed.

(** After a successful [ComponentDeInit]: the last instance closes the library. *)
Lemma freed_step core tr i c j h : let c1 := set_handle (<[j := None]> (handle c)) c in let tr1 := ODeInit h 0 :: tr in
  core_inv (ow core tr) core -> (i < comp_cnt core)%nat -> component core !! i = Some c -> handle c !! j = Some (Some h) ->
  exists rc core' tr', (c ← comp_at i; if is_comp_active c then mret 0 else
      l ← deref (lib_handle c); rc ← oext (fun tr => env_dlclose tr l) (ODlclose l); upd_comp i (set_lib false None None None);; mret rc)
      (ow (with_comp i c1 core) tr1) = Some (rc, ow core' tr') /\
    core_inv (ow core' tr') core' /\ table core' = <[i := <[j := None]> (handle c)]> (table core) /\ names core' = names core.
Proof.
  intros c1 tr1 H Hi Hc Hj. pose proof (lookup_lt_Some _ _ _ Hc) as Hlt. destruct (ci_comp _ _ H _ _ Hi Hc) as [Hlen Hopen Hcount Hptrs].
  assert (Hact : is_comp_active c = true) by (apply active_iff; exists h; by eapply list_elem_of_lookup_2).
  rewrite Hact in Hcount, Hopen. destruct (Hptrs Hact) as (P1 & P2 & P3).
  assert (Hc1 : component (with_comp i c1 core) !! i = Some c1) by by apply list_lookup_insert_eq.
  rewrite (bind_run _ _ _ _ _ (comp_at_run _ tr1 i c1 Hc1)). destruct (is_comp_active c1) eqn:Ea.
  - do 3 eexists. split; [reflexivity|]. split; [|split; [by rewrite table_with|by apply (names_with core i c)]].
    apply (inv_removed core tr tr1 i c c1 j h); try done. constructor; simpl; rewrite ?length_insert; try done; by fold c1; rewrite Ea.
  - change (lib_handle c1) with (lib_handle c). rewrite P1. do 2 (erewrite bind_run by reflexivity).
    change (put_o_tr ?t (ow ?x _)) with (ow x t). set (l := lib_of (lib_name c)) in *. cbn [o_tr ow]. set (rc := env_dlclose tr1 l).
    rewrite (bind_run _ _ _ _ _ (upd_comp_run _ _ i c1 _ Hc1)), with_comp_twice.
    do 3 eexists. split; [reflexivity|]. split; [|split; [by rewrite table_with|by apply (names_with core i c)]].
    apply (inv_removed core tr (ODlclose l rc :: tr1) i c _ j h); try done.
    + constructor; simpl; rewrite ?length_insert; try done; change (is_comp_active (set_lib false None None None c1)) with (is_comp_active c1);
        rewrite Ea; try done. simpl in Hcount. fold l. rewrite Z.eqb_refl. lia.
    + intros l' Hl'. simpl. fold l in Hl'. destruct (Z.eqb_spec l l'); [congruence|lia].
Qed.

Lemma free_step core tr h : core_inv (ow core tr) core -> exists r core' tr',
  run_omx (A_free h) (ow core tr) = Some (r, ow core' tr') /\ core_inv (ow core' tr') core' /\
  omx_step (names core) (table core) (A_free h) r (table core') /\ names core' = names core.
Proof.
  intros H. assert (Hr : forall r core' tr', OMX_FreeHandle h (ow core tr) = Some (r, ow core' tr') ->
    run_omx (A_free h) (ow core tr) = Some (R_free r, ow core' tr')).
  { intros r core' tr' Hr. cbn [run_omx]. by rewrite (bind_run _ _ _ _ _ Hr). }
  destruct h as [h|]; [|do 3 eexists; split; [by apply Hr|]; split; [done|]; split; [constructor|done]].
  unfold OMX_FreeHandle in Hr. assert (Hcore : the_core (ow core tr) = Some (core, ow core tr)) by reflexivity.
  rewrite (bind_run _ _ _ _ _ Hcore) in Hr. pose proof (idx_spec core tr h H) as Hidx.
  destruct (get_idx_from_handle core h) as [[i j]|].
  2:{ do 3 eexists. split; [by apply Hr|]. split; [done|]. split; [by constructor|done]. }
  destruct Hidx as (c & Hi & Hc & Hj). rewrite (bind_run _ _ _ _ _ (comp_at_run core tr i c Hc)) in Hr.
  assert (Hact : is_comp_active c = true) by (apply active_iff; exists h; by eapply list_elem_of_lookup_2).
  destruct (ci_comp _ _ H _ _ Hi Hc) as [Hlen Hopen Hcount Hptrs]. rewrite Hact in Hcount.
  destruct (Hptrs Hact) as (P1 & P2 & P3). rewrite P3 in Hr. erewrite bind_run in Hr by reflexivity.
  erewrite bind_run in Hr by (apply enter_run; simpl in Hcount; lia). erewrite bind_run in Hr by reflexivity.
  cbn [o_tr ow] in Hr. change (put_o_tr ?t (ow core tr)) with (ow core t) in Hr.
  assert (Ht : table core !! i = Some (handle c)) by (unfold table; by rewrite list_lookup_fmap, Hc).
  destruct (Z.eqb_spec (env_deinit tr h) OMX_ErrorNone) as [E0|E0]; simpl in Hr.
  - rewrite E0 in Hr. rewrite (bind_run _ _ _ _ _ (upd_comp_run core _ i c _ Hc)) in Hr.
    destruct (freed_step core tr i c j h H Hi Hc Hj) as (rc & core' & tr' & E1 & Hinv & Htab & Hnm).
    do 3 eexists. split; [apply Hr, E1|]. split; [done|]. split; [|done]. rewrite Htab. by eapply st_free.
  - do 3 eexists. split; [by apply Hr|]. split; [|split; [|done]].
    + apply inv_event; try done. simpl. by destruct (Z.eqb_spec (env_deinit tr h) 0).
    + eapply st_busy; by eapply list_elem_of_lookup_2.
Qed.

Lemma core_init_inv tr : env_omalloc tr = true -> (forall n, lib_count (lib_of n) tr = 0) -> alive tr = [] ->
  exists core, OMX_Init {| g_omxcore := None; o_tr := tr |} = Some (OMX_ErrorNone, ow core (OMalloc true :: tr)) /\
    core_inv (ow core (OMalloc true :: tr)) core /\ names core = ci_comp_name <$> g_comp_info /\
    table core = replicate OMX_COMP_MAX_NUM (replicate OMX_COMP_MAX_INSTANCES None).
Proof.
  intros Hm Hl Ha. eexists. split; [|split; [|split]].
  - unfold OMX_Init. erewrite bind_run by reflexivity. simpl. erewrite bind_run by reflexivity. cbn [o_tr]. rewrite Hm. reflexivity.
  - assert (Hnone : forall i j h, slot {| component := named_components; comp_cnt := length g_comp_info |} i j = Some h -> False).
    { intros [|[|[|i]]] [|[|[|j]]] h; done. }
    constructor; simpl; try done; try lia.
    + intros [|[|[|i]]] c Hi; intros [= <-]; try lia; (constructor; try done; exact (Hl _)).
    + intros [|[|i]] [|[|k]] c d Hi Hk H1 H2; simplify_eq/=; done || lia.
    + intros [|[|[|i]]] c Hi H1; simplify_eq/=; done || lia.
    + intros h. rewrite Ha. split; [by intros ?%elem_of_nil|]. intros (i & k & Hs). by destruct (Hnone i k h).
    + intros h i k i' k' Hs. by destruct (Hnone i k h).
  - done.
  - done.
Qed.

Lemma names_length w core : core_inv w core -> comp_cnt core = length (names core).
Proof. intros H. unfold names. rewrite length_take, length_fmap. pose proof (ci_cnt _ _ H). lia. Qed.

Lemma run_steps acts : forall core tr, core_inv (ow core tr) core -> exists rs core' tr',
  run_omxs acts (ow core tr) = Some (rs, ow core' tr') /\ core_inv (ow core' tr') core' /\
  omx_steps (names core) (table core) acts rs (table core') /\ names core' = names core.
Proof.
  induction acts as [|a acts IH]; intros core tr H.
  - exists [], core, tr. split; [done|]. split; [done|]. split; [constructor|done].
  - assert (exists r core1 tr1, run_omx a (ow core tr) = Some (r, ow core1 tr1) /\ core_inv (ow core1 tr1) core1 /\
      omx_step (names core) (table core) a r (table core1) /\ names core1 = names core) as (r & core1 & tr1 & E1 & H1 & S1 & N1)
      by (destruct a; [by apply get_step|by apply free_step]).
    destruct (IH core1 tr1 H1) as (rs & core2 & tr2 & E2 & H2 & S2 & N2). rewrite N1 in S2.
    exists (r :: rs), core2, tr2. cbn [run_omxs]. rewrite (bind_run _ _ _ _ _ E1), (bind_run _ _ _ _ _ E2).
    split; [done|]. split; [done|]. split; [by econstructor|congruence].
Qed.

(** C14: when a library that loads has its functions and creates a new
    instance each time it is asked ([libraries_ok]; a library may be absent),
    after [OMX_Init] any sequence of [OMX_GetHandle] and
    [OMX_FreeHandle] returns and keeps a table of at most three instances per
    component: a new instance takes a free place, is not one of the others,
    and leaves with the call that gives it back; unknown names, full
    components, absent libraries and handles that are not in the table are
    refused without effect.  In the end, as after every call, a library is
    loaded exactly when its component has an instance. *)
Theorem registry_refines tr acts (Hm : env_omalloc tr = true) (Hl : forall n, lib_count (lib_of n) tr = 0) (Ha : alive tr = []) :
  let none := [None; None; None] in
  exists rs core' tr',
    (OMX_Init;; run_omxs acts) {| g_omxcore := None; o_tr := tr |} = Some (rs, ow core' tr') /\
    omx_steps (ci_comp_name <$> g_comp_info) [none; none; none] acts rs (table core') /\
    forall i c, (i < length g_comp_info)%nat -> component core' !! i = Some c ->
      lib_count (lib_of (lib_name c)) tr' = if is_comp_active c then 1 else 0.
Proof.
  intros none. destruct (core_init_inv tr Hm Hl Ha) as (core & E0 & H0 & Hn & Ht). rewrite <- Hn. change [none; none; none] with (replicate OMX_COMP_MAX_NUM (replicate OMX_COMP_MAX_INSTANCES (@None Z))).
  rewrite <- Ht. destruct (run_steps acts core _ H0) as (rs & core' & tr' & E1 & H1 & S1 & N1).
  exists rs, core', tr'. rewrite (bind_run _ _ _ _ _ E0). split; [done|]. split; [done|]. intros i c Hi Hc.
  apply (ci_comp _ _ H1 i); [|done]. rewrite (names_length _ _ H1), N1, Hn. exact Hi.
Qed.

End Registry.

(** ** A first instance that cannot be created *)

Section Dangling.
Context `{OE : OmxEnv}.

(** When the library of a component was loaded by this call and its
    [getInstance] then fails, [OMX_GetHandle] closes the library but leaves
    the component marked as open with its function pointers; the next
    [OMX_GetHandle] for the component calls into the closed library. *)
Theorem failed_instance_dangles core tr n d i c l
  (Hi : get_comp_from_list core (Some n) = Some i) (Hc : component core !! i = Some c)
  (Hopen : open c = false) (Hfree : is_Some (get_free_inst_idx c))
  (Hdl : env_dlopen tr (lib_name c) = Some l) (Hsym : forall tr s, env_dlsym tr l s = true)
  (Hone : lib_count l tr = 0) (Hobj : forall tr, env_get_instance tr l = None) :
  exists core' tr', OMX_GetHandle (Some n) d (ow core tr) = Some ((OMX_ErrorInvalidComponent, None), ow core' tr') /\
    lib_count l tr' = 0 /\ OMX_GetHandle (Some n) d (ow core' tr') = None.
Proof.
  destruct Hfree as [j Hj]. pose proof (lookup_lt_Some _ _ _ Hc) as Hlt.
  set (c1 := set_lib true (Some l) (Some l) (Some l) c). set (c2 := set_lib true None (Some l) (Some l) c).
  set (tr1 := ODlsym l "getInstance" true :: ODlsym l "create_component_fns" true :: ODlopen (lib_name c) (Some l) :: tr).
  assert (Hc1 : component (with_comp i c1 core) !! i = Some c1) by by apply list_lookup_insert_eq.
  assert (Hc2 : component (with_comp i c2 core) !! i = Some c2) by by apply list_lookup_insert_eq.
  assert (Hcnt : lib_count l tr1 = 1) by (unfold tr1; simpl; rewrite Z.eqb_refl, Hone; done).
  exists (with_comp i c2 core), (ODlclose l (env_dlclose (OGetInstance l None :: tr1) l) :: OGetInstance l None :: tr1).
  split; [|split; [simpl; rewrite Z.eqb_refl; lia|]].
  - unfold OMX_GetHandle. erewrite bind_run by reflexivity. rewrite Hi, (bind_run _ _ _ _ _ (comp_at_run core tr i c Hc)), Hj, Hopen.
    erewrite bind_run.
    2:{ unfold load_library. erewrite bind_run by reflexivity. cbn [o_tr ow]. rewrite Hdl. do 2 (erewrite bind_run by reflexivity).
        cbn [o_tr ow put_o_tr]. rewrite !Hsym. change (put_o_tr ?t _) with (ow core t).
        rewrite (bind_run _ _ _ _ _ (upd_comp_run core _ i c _ Hc)). reflexivity. }
    cbn [andb]. unfold new_instance. fold c1. fold tr1. rewrite (bind_run _ _ _ _ _ (comp_at_run _ tr1 i c1 Hc1)).
    erewrite bind_run by reflexivity. erewrite bind_run by (apply enter_run; lia). erewrite bind_run by reflexivity.
    cbn [o_tr ow]. rewrite Hobj. change (put_o_tr ?t (ow ?x _)) with (ow x t). unfold get_handle_error. erewrite bind_run.
    2:{ rewrite (bind_run _ _ _ _ _ (comp_at_run _ _ i c1 Hc1)). do 2 (erewrite bind_run by reflexivity).
        change (put_o_tr ?t (ow ?x _)) with (ow x t). rewrite (upd_comp_run _ _ i c1 _ Hc1). rewrite with_comp_twice. reflexivity. }
    reflexivity.
  - unfold OMX_GetHandle. erewrite bind_run by reflexivity.
    assert (Hi2 : get_comp_from_list (with_comp i c2 core) (Some n) = Some i).
    { rewrite <- index_of_names, (names_with core i c c2 Hc eq_refl), index_of_names. exact Hi. }
    rewrite Hi2, (bind_run _ _ _ _ _ (comp_at_run _ _ i c2 Hc2)). change (get_free_inst_idx c2) with (get_free_inst_idx c). rewrite Hj.
    change (open c2) with true. cbv iota. unfold new_instance. rewrite (bind_run _ _ _ _ _ (comp_at_run _ _ i c2 Hc2)).
    erewrite bind_run by reflexivity. unfold mbind, M_bind. unfold enter. erewrite bind_run by reflexivity. simpl. rewrite Z.eqb_refl.
    by rewrite Hone.
Qed.

End Dangling.

(** ** Concrete libraries *)

Module DemoOmx.

Definition next_id (tr : ohistory) : Z := 1 + foldr Z.max 0 (alive tr).

(** Instances get the least number above those alive. *)
Definition omx_with (installed : string -> bool) (instances : bool) : OmxEnv := {|
  OMX_ErrorUndefined := -1; OMX_ErrorInsufficientResources := -2; OMX_ErrorInvalidComponent := -3; OMX_ErrorBadParameter := -4;
  env_omalloc := fun _ => true;
  env_dlopen := fun _ n => if installed n then Some (Zpos (encode n)) else None;
  env_dlclose := fun _ _ => 0;
  env_dlsym := fun _ _ _ => true;
  env_get_instance := fun _ _ => if instances then Some 5 else None;
  env_create := fun tr _ _ => Some (next_id tr);
  env_deinit := fun _ _ => 0
|}.

(** The decoder library is not installed. *)
Definition demo_omx : bool -> OmxEnv := omx_with (fun n => bool_decide (n = "libqomx_jpegenc.so")).

Lemma max_above l x : x ∈ l -> x <= foldr Z.max 0 l.
Proof. induction l as [|y l IH]; [by intros ?%elem_of_nil|]. intros [->|Hx]%elem_of_cons; simpl; [lia|]. specialize (IH Hx). lia. Qed.

Lemma demo_libraries installed : @libraries_ok (omx_with installed true) (fun n => Zpos (encode n)).
Proof.
  constructor; simpl; try done.
  - intros tr n l. destruct (installed n); [|done]. by intros [= <-].
  - intros n n' [= H]. by apply (inj encode) in H.
  - intros tr l o. eexists. split; [reflexivity|]. unfold next_id. intros Hin%max_above. lia.
Qed.

Definition enc_app : omx_app := {| appData := 0; callBacks := EncoderCallbacks |}.
Definition dec_app : omx_app := {| appData := 0; callBacks := DecoderCallbacks |}.

Definition demo_acts : list omx_act :=
  [A_get (Some "OMX.qcom.image.jpeg.encoder") enc_app; A_get (Some "OMX.qcom.image.jpeg.decoder") dec_app;
   A_get (Some "OMX.qcom.image.jpeg.encoder") enc_app; A_free (Some 1); A_free (Some 1); A_free (Some 2)].

Lemma registry_refines_witness : exists core' tr',
  (OMX_Init (OE := demo_omx true);; run_omxs (OE := demo_omx true) demo_acts) {| g_omxcore := None; o_tr := [] |} =
    Some ([R_get 0 (Some 1); R_get (-3) None; R_get 0 (Some 2); R_free 0; R_free (-3); R_free 0], ow core' tr') /\
  lib_count (Zpos (encode "libqomx_jpegenc.so")) tr' = 0.
Proof.
  destruct (@registry_refines (demo_omx true) _ (demo_libraries _) [] demo_acts eq_refl (fun _ => eq_refl) eq_refl)
    as (rs & core' & tr' & E1 & _ & Hl).
  exists core', tr'.
  assert (Hc : g_omxcore (ow core' tr') = Some core') by reflexivity.
  vm_compute in E1. injection E1 as <- <- <-. split; [vm_compute; reflexivity|vm_compute; reflexivity].
Defined.

Lemma failed_instance_dangles_witness :
  let core := {| component := named_components; comp_cnt := 2 |} in
  exists core' tr', OMX_GetHandle (OE := demo_omx false) (Some "OMX.qcom.image.jpeg.encoder") enc_app (ow core []) =
    Some ((-3, None), ow core' tr') /\
    OMX_GetHandle (OE := demo_omx false) (Some "OMX.qcom.image.jpeg.encoder") enc_app (ow core' tr') = None.
Proof.
  destruct (@failed_instance_dangles (demo_omx false) {| component := named_components; comp_cnt := 2 |} []
    "OMX.qcom.image.jpeg.encoder" enc_app 0 (hd zero_component named_components) (Zpos (encode "libqomx_jpegenc.so")))
    as (core' & tr' & H1 & _ & H2); try reflexivity; [by eexists|].
  exists core', tr'. split; [exact H1|exact H2].
Defined.

End DemoOmx.
