(* ===== verification/JpegQueue.v ===== *)
(** * The queue of the JPEG library

    [mm_jpeg_queue.c] and the functions of [mm_jpeg.c] that remove a job from
    the middle of a queue, on the heap of linked cells of [CamQueue].  All but
    one act on the sequence of data as list operations; [mm_jpeg_queue_flush]
    reads a cell after it has freed it. *)

From Stdlib Require Import ZArith Lia.
From stdpp Require Import list gmap.
From S2P Require Import Prelude CamQueue.

Section JpegQueue.
Context {A : Type}.

(** [mm_jpeg_q_node_t] and [mm_jpeg_queue_t] have the fields of [cam_node_t]
    and [cam_queue_t]. *)
Abbreviation jheap := (gmap Z (cam_node_t A)).
Abbreviation mm_jpeg_queue_t := cam_queue_t.

Definition mm_jpeg_queue_init (head_addr : Z) (h : jheap) : option (Z * mm_jpeg_queue_t * jheap) :=
  h ← cam_list_init head_addr h;
  Some (0, {| head := head_addr; size := 0 |}, h).

Definition mm_jpeg_queue_enq (malloc : jheap -> option Z) (queue : mm_jpeg_queue_t) (d : option A) (h : jheap) : option (Z * mm_jpeg_queue_t * jheap) :=
  match malloc h with
  | None => Some (-1, queue, h)
  | Some node =>
      let h := <[node := {| next := 0; prev := 0; data := d |}]> h in
      h ← cam_list_add_tail_node node (head queue) h;
      Some (0, {| head := head queue; size := size queue +u 1 |}, h)
  end.

Definition mm_jpeg_queue_deq (queue : mm_jpeg_queue_t) (h : jheap) : option (option A * mm_jpeg_queue_t * jheap) :=
  nh ← h !! head queue;
  let pos := next nh in
  if negb (pos =? head queue) then
    h ← cam_list_del_node pos h;
    n ← h !! pos;
    Some (data n, {| head := head queue; size := size queue -u 1 |}, delete pos h)
  else Some (None, queue, h).

Definition mm_jpeg_queue_get_size (queue : mm_jpeg_queue_t) : Z := size queue.

Definition mm_jpeg_queue_peek (queue : mm_jpeg_queue_t) (h : jheap) : option (option A) :=
  nh ← h !! head queue;
  let pos := next nh in
  if negb (pos =? head queue) then n ← h !! pos; Some (data n) else Some None.

(** The cell is freed before its successor is read. *)
Fixpoint jpeg_flush_loop (fuel : nat) (q : mm_jpeg_queue_t) (pos : Z) (h : jheap) : option (mm_jpeg_queue_t * jheap) :=
  if negb (pos =? head q) then
    match fuel with
    | O => None
    | S fuel =>
        h ← cam_list_del_node pos h;
        let h := delete pos h in
        n ← h !! pos;
        jpeg_flush_loop fuel {| head := head q; size := size q -u 1 |} (next n) h
    end
  else Some (q, h).

Definition mm_jpeg_queue_flush (fuel : nat) (queue : mm_jpeg_queue_t) (h : jheap) : option (Z * mm_jpeg_queue_t * jheap) :=
  nh ← h !! head queue;
  '(q, h) ← jpeg_flush_loop fuel queue (next nh) h;
  Some (0, {| head := head q; size := 0 |}, h).

Definition mm_jpeg_queue_deinit (fuel : nat) (queue : mm_jpeg_queue_t) (h : jheap) : option (Z * mm_jpeg_queue_t * jheap) :=
  mm_jpeg_queue_flush fuel queue h.

(** The loop of the functions that remove the first job with a property.
    [null_ok]: whether the function looks at the data pointer before it
    follows it. *)
Fixpoint remove_loop (null_ok : bool) (found : A -> bool) (fuel : nat) (q : mm_jpeg_queue_t) (pos : Z) (h : jheap) :
  option (option A * mm_jpeg_queue_t * jheap) :=
  if negb (pos =? head q) then
    match fuel with
    | O => None
    | S fuel =>
        n ← h !! pos;
        match data n with
        | None => if null_ok then remove_loop null_ok found fuel q (next n) h else None
        | Some d =>
            if found d then
              h ← cam_list_del_node pos h;
              Some (Some d, {| head := head q; size := size q -u 1 |}, delete pos h)
            else remove_loop null_ok found fuel q (next n) h
        end
    end
  else Some (None, q, h).

Definition remove_job (null_ok : bool) (found : A -> bool) (fuel : nat) (q : mm_jpeg_queue_t) (h : jheap) :
  option (option A * mm_jpeg_queue_t * jheap) :=
  nh ← h !! head q;
  remove_loop null_ok found fuel q (next nh) h.

(** ** Against lists *)

Lemma jpeg_enq_eq malloc q d h : mm_jpeg_queue_enq malloc q d h = cam_queue_enq malloc q d h.
Proof. done. Qed.

Lemma jpeg_deq_eq q h : mm_jpeg_queue_deq q h = cam_queue_deq q h.
Proof. unfold mm_jpeg_queue_deq, cam_queue_deq. destruct (h !! head q) as [n|]; [|done]. simpl. by destruct (next n =? head q). Qed.

(** The first job with the property leaves the list. *)
Fixpoint remove_first (found : A -> bool) (xs : list A) : option A * list A :=
  match xs with
  | [] => (None, [])
  | x :: xs => if found x then (Some x, xs) else let '(r, ys) := remove_first found xs in (r, x :: ys)
  end.

(** Unlinking and freeing a cell in the middle. *)
Lemma del_middle_rep q h l1 p l2 x (xs1 xs2 : list (option A)) : length l1 = length xs1 ->
  ring h (head q) (l1 ++ p :: l2) -> Forall2 (fun p x => dt h p = Some x) (l1 ++ p :: l2) (xs1 ++ x :: xs2) ->
  size q = Z.of_nat (length (xs1 ++ x :: xs2)) -> u32_range (size q) ->
  exists h1, cam_list_del_node p h = Some h1 /\
    queue_rep {| head := head q; size := size q -u 1 |} (xs1 ++ xs2) (delete p h1).
Proof.
  intros Hlen Hr Hf Hsz Hrg. pose proof Hr as [Hnd _]. destruct (del_node_ring h (head q) l1 p l2 Hr) as (h1 & He & Hr1 & Hdom & Hd1).
  exists h1. split; [done|]. exists (l1 ++ l2). apply NoDup_cons in Hnd as [Hh Hnd].
  rewrite <- Permutation_middle in Hnd. apply NoDup_cons in Hnd as [Hp _]. simpl.
  assert (Hne : forall y, y ∈ head q :: l1 ++ l2 -> delete p h1 !! y = h1 !! y) by (intros y Hy; apply lookup_delete_ne; set_solver).
  split; [by apply (ring_frame h1)|]. split.
  - apply Forall2_app_inv in Hf as [Hf1 Hf2]; [|done]. apply Forall2_cons in Hf2 as [_ Hf2]. apply Forall2_app;
      (eapply payloads_frame; [|done]); intros y Hy; rewrite <- Hd1; unfold dt; rewrite Hne; set_solver.
  - rewrite Hsz, !length_app in *. simpl in *. unfold u32_range in *. rewrite u32_id; unfold u32_range; lia.
Qed.

Lemma remove_loop_rep null_ok found xs2 : forall fuel q h l1 l2 xs1, length l1 = length xs1 ->
  ring h (head q) (l1 ++ l2) -> Forall2 (fun p x => dt h p = Some x) (l1 ++ l2) ((Some <$> xs1) ++ (Some <$> xs2)) ->
  size q = Z.of_nat (length (xs1 ++ xs2)) -> u32_range (size q) -> (length xs2 <= fuel)%nat ->
  exists q' h', remove_loop null_ok found fuel q (List.hd (head q) l2) h = Some ((remove_first found xs2).1, q', h') /\
    queue_rep q' (Some <$> (xs1 ++ (remove_first found xs2).2)) h' /\ head q' = head q.
Proof.
  induction xs2 as [|x xs2 IH]; intros fuel q h l1 l2 xs1 Hlen Hr Hf Hsz Hrg Hfuel;
    (destruct l2 as [|p l2]; [|]; try (apply Forall2_length in Hf; rewrite !length_app, !length_fmap in Hf; simpl in Hf; lia)).
  - exists q, h. split; [by destruct fuel; simpl; rewrite Z.eqb_refl|]. split; [|done]. exists (l1 ++ []).
    rewrite fmap_app. simpl. split; [done|]. split; [done|]. split; [|done]. by rewrite Hsz, !length_app, !length_fmap.
  - pose proof Hr as [Hnd Hs]. assert (p <> head q) as Hne by (intros ->; apply NoDup_cons in Hnd; set_solver).
    destruct fuel as [|fuel]; [simpl in Hfuel; lia|]. cbn [List.hd remove_loop].
    rewrite (proj2 (Z.eqb_neq _ _) Hne). cbn [negb]. apply seg_app in Hs as [_ Hs2].
    pose proof (seg_first _ _ _ _ Hs2) as (n & Hn & Hnx)%nx_lookup. rewrite Hn. cbn [mbind option_bind].
    assert (Hdat : data n = Some x).
    { apply Forall2_app_inv in Hf as [_ Hf2]; [|by rewrite length_fmap]. apply Forall2_cons in Hf2 as [Hp _].
      unfold dt in Hp. rewrite Hn in Hp. by injection Hp. }
    rewrite Hdat. cbn [remove_first]. destruct (found x).
    + destruct (del_middle_rep q h l1 p l2 (Some x) (Some <$> xs1) (Some <$> xs2)) as (h1 & -> & Hrep);
        [by rewrite length_fmap|done|done|by rewrite Hsz, !length_app; simpl; rewrite !length_fmap|done|].
      simpl. do 2 eexists. split; [reflexivity|]. split; [|done]. by rewrite fmap_app.
    + rewrite Hnx. destruct (IH fuel q h (l1 ++ [p]) l2 (xs1 ++ [x])) as (q' & h' & E1 & Hrep & Hh);
        [rewrite !length_app; simpl; lia|by rewrite <- app_assoc|rewrite fmap_app, <- !app_assoc; done|by rewrite <- app_assoc|done|simpl in Hfuel; lia|].
      rewrite E1. destruct (remove_first found xs2) as [r ys]. exists q', h'. rewrite <- app_assoc in Hrep. done.
Qed.

(** Removing a job by its identifier, wherever it is in the queue, takes
    the first one that matches and leaves the others in order, without
    following a bad pointer; when there is none the queue is unchanged.  As
    many turns as there are jobs are enough. *)
Theorem remove_job_refines null_ok found fuel q xs h (Hq : queue_rep q (Some <$> xs) h) (Hfuel : (length xs <= fuel)%nat) :
  exists q' h', remove_job null_ok found fuel q h = Some ((remove_first found xs).1, q', h') /\
    queue_rep q' (Some <$> (remove_first found xs).2) h' /\ head q' = head q.
Proof.
  destruct Hq as (l & Hr & Hf & Hsz & Hrg). pose proof Hr as [_ Hs]. unfold remove_job.
  pose proof (seg_first _ _ _ _ Hs) as (n & Hn & Hnx)%nx_lookup. rewrite Hn. simpl. rewrite Hnx.
  rewrite length_fmap in Hsz. by apply (remove_loop_rep null_ok found xs fuel q h [] l []).
Qed.

(** Flushing an empty queue does nothing; flushing any other frees the
    first cell and then reads its link, whatever the number of turns. *)
Theorem flush_reads_freed fuel q xs h (Hq : queue_rep q xs h) :
  mm_jpeg_queue_flush fuel q h = match xs with [] => Some (0, {| head := head q; size := 0 |}, h) | _ => None end.
Proof.
  destruct Hq as (l & Hr & Hf & Hsz & Hrg). pose proof Hr as [Hnd Hs]. unfold mm_jpeg_queue_flush.
  pose proof (seg_first _ _ _ _ Hs) as (n & Hn & Hnx)%nx_lookup. rewrite Hn. simpl. rewrite Hnx.
  destruct l as [|p l], xs as [|x xs]; try (inversion Hf; fail); simpl.
  - destruct fuel; simpl; by rewrite Z.eqb_refl.
  - assert (p <> head q) as Hne by (intros ->; apply NoDup_cons in Hnd; set_solver). destruct fuel as [|fuel]; simpl; rewrite (proj2 (Z.eqb_neq _ _) Hne); [done|].
    simpl. destruct (del_node_ring h (head q) [] p l Hr) as (h1 & -> & _). simpl. by rewrite lookup_delete_eq.
Qed.

End JpegQueue.

(** ** A queue of three numbers *)

Module DemoJpegQueue.

Definition three : option (cam_queue_t * gmap Z (cam_node_t Z)) :=
  '(_, q, h) ← mm_jpeg_queue_init 4 {[ 4 := {| next := 0; prev := 0; data := None |} ]};
  '(_, q, h) ← mm_jpeg_queue_enq bump q (Some 11) h;
  '(_, q, h) ← mm_jpeg_queue_enq bump q (Some 12) h;
  '(_, q, h) ← mm_jpeg_queue_enq bump q (Some 13) h;
  Some (q, h).

Definition three_q : cam_queue_t := Eval vm_compute in match three with Some (q, _) => q | None => {| head := 0; size := 0 |} end.
Definition three_h : gmap Z (cam_node_t Z) := Eval vm_compute in match three with Some (_, h) => h | None => ∅ end.

Lemma three_rep : queue_rep three_q (Some <$> [11; 12; 13]) three_h.
Proof.
  exists [5; 6; 7]. split; [split; [|by repeat split]|split; [|done]].
  - apply NoDup_ListNoDup. repeat constructor; simpl; lia.
  - repeat (apply Forall2_cons; split; [reflexivity|]). constructor.
Qed.

Lemma remove_job_refines_witness : exists q' h',
  remove_job true (fun x => x =? 12) 3 three_q three_h = Some (Some 12, q', h') /\ queue_rep q' (Some <$> [11; 13]) h'.
Proof.
  destruct (remove_job_refines true (fun x => x =? 12) 3 three_q [11; 12; 13] three_h three_rep) as (q' & h' & H1 & H2 & _);
    [simpl; lia|]. exists q', h'. split; [exact H1|exact H2].
Defined.

Lemma flush_reads_freed_witness : mm_jpeg_queue_flush 9 three_q three_h = None.
Proof. exact (flush_reads_freed 9 three_q (Some <$> [11; 12; 13]) three_h three_rep). Defined.

End DemoJpegQueue.
