(* ===== verification/JpegExif.v ===== *)
(** * The EXIF table of the JPEG library

    [mm_jpeg_exif.c]: adding and releasing entries, and the entries taken from
    the metadata of a frame.  The state has the table and the blocks on the
    heap that the table points to. *)

From Stdlib Require Import ZArith Lia.
From stdpp Require Import list gmap.
From S2P Require Import Prelude.

(** ** Data *)

Definition MAX_EXIF_TABLE_ENTRIES : Z := 50.

Inductive exif_tag_type_t : Set :=
| EXIF_BYTE | EXIF_ASCII | EXIF_SHORT | EXIF_LONG | EXIF_RATIONAL | EXIF_UNDEFINED | EXIF_SLONG | EXIF_SRATIONAL.

(** The tags that the library adds itself, and any other. *)
Inductive exif_tag_id_t : Set :=
| EXIFTAGID_EXPOSURE_TIME | EXIFTAGID_SHUTTER_SPEED | EXIFTAGID_ISO_SPEED_RATING | EXIFTAGID_APERTURE | EXIFTAGID_FLASH
| EXIFTAGID (id : Z).

(** An element of an array: a number, or the two of a [rat_t] or [srat_t]. *)
Inductive exif_elem : Set := XNum (v : Z) | XRat (num denom : Z).

(** The union [data]: a pointer, 0 being null, or an element. *)
Inductive exif_data_t : Set := XPtr (p : Z) | XElem (e : exif_elem).

Record exif_tag_entry_t := { x_type : exif_tag_type_t; x_copy : Z; x_count : Z; x_data : exif_data_t }.
Record QEXIF_INFO_DATA := { tag_id : exif_tag_id_t; tag_entry : exif_tag_entry_t }.

(** A zeroed entry. *)
Definition zero_exif : QEXIF_INFO_DATA :=
  {| tag_id := EXIFTAGID 0; tag_entry := {| x_type := EXIF_BYTE; x_copy := 0; x_count := 0; x_data := XPtr 0 |} |}.

Abbreviation xheap := (gmap Z (list exif_elem)).

(** The [QOMX_EXIF_INFO] in use and the heap. *)
Record xworld := { exif_data : list QEXIF_INFO_DATA; numOfEntries : Z; x_heap : xheap }.
Definition put_exif_data v w := {| exif_data := v; numOfEntries := numOfEntries w; x_heap := x_heap w |}.
Definition put_numOfEntries v w := {| exif_data := exif_data w; numOfEntries := v; x_heap := x_heap w |}.
Definition put_x_heap v w := {| exif_data := exif_data w; numOfEntries := numOfEntries w; x_heap := v |}.

Definition entry_data (d : exif_data_t) (e : QEXIF_INFO_DATA) : QEXIF_INFO_DATA :=
  {| tag_id := tag_id e;
     tag_entry := {| x_type := x_type (tag_entry e); x_copy := x_copy (tag_entry e); x_count := x_count (tag_entry e);
                     x_data := d |} |}.

Definition exif_type_eqb (a b : exif_tag_type_t) : bool :=
  match a, b with
  | EXIF_BYTE, EXIF_BYTE | EXIF_ASCII, EXIF_ASCII | EXIF_SHORT, EXIF_SHORT | EXIF_LONG, EXIF_LONG
  | EXIF_RATIONAL, EXIF_RATIONAL | EXIF_UNDEFINED, EXIF_UNDEFINED | EXIF_SLONG, EXIF_SLONG
  | EXIF_SRATIONAL, EXIF_SRATIONAL => true
  | _, _ => false
  end.

(** [sizeof] of an element. *)
Definition elem_size (t : exif_tag_type_t) : Z :=
  match t with
  | EXIF_BYTE | EXIF_ASCII | EXIF_UNDEFINED => 1
  | EXIF_SHORT => 2
  | EXIF_LONG | EXIF_SLONG => 4
  | EXIF_RATIONAL | EXIF_SRATIONAL => 8
  end.

Section Exif.

(** [malloc]: the address of a new block of so many bytes, or null. *)
Context (malloc : xheap -> Z -> option Z).

Definition entry_at (i : Z) : M xworld QEXIF_INFO_DATA :=
  l ← gets exif_data; if (0 <=? i) then deref (l !! Z.to_nat i) else stuck.
Definition put_entry (i : Z) (e : QEXIF_INFO_DATA) : M xworld unit :=
  entry_at i;; modify (fun w => put_exif_data (<[Z.to_nat i := e]> (exif_data w)) w).

(** A block of [bytes] bytes into which [used] bytes are copied, the first
    [count] elements of the argument and [tail].  More elements than the
    argument has, or more bytes than the block has, leave the arrays. *)
Definition store_array (i bytes used count : Z) (values tail : list exif_elem) : M xworld Z :=
  h ← gets x_heap;
  match malloc h (u32 bytes) with
  | None => mret (-1)
  | Some p =>
      if (u32 bytes <? used) || (Z.of_nat (length values) <? count) then stuck
      else
        modify (put_x_heap (<[p := take (Z.to_nat count) values ++ tail]> h));;
        e ← entry_at i;
        put_entry i (entry_data (XPtr p) e);;
        mret 0
  end.

Definition store_elem (i : Z) (values : list exif_elem) : M xworld Z :=
  v ← deref (head values);
  e ← entry_at i;
  put_entry i (entry_data (XElem v) e);;
  mret 0.

(** An array of more than one element, or a single one. *)
Definition store (i : Z) (type : exif_tag_type_t) (count : Z) (values : list exif_elem) : M xworld Z :=
  let array := store_array i (count * elem_size type) (count * elem_size type) count values [] in
  match type with
  | EXIF_ASCII => store_array i (count + 1) count count values [XNum 0]
  | EXIF_UNDEFINED => array
  | _ => if 1 <? count then array else store_elem i values
  end.

(** [data] is given by the elements it points to. *)
Definition addExifEntry (tagid : exif_tag_id_t) (type : exif_tag_type_t) (count : Z) (data : list exif_elem) : M xworld Z :=
  n ← gets (fun w => i32 (numOfEntries w));
  if MAX_EXIF_TABLE_ENTRIES <=? n then mret (-1)
  else
    e ← entry_at n;
    put_entry n {| tag_id := tagid;
                   tag_entry := {| x_type := type; x_copy := 1; x_count := count; x_data := x_data (tag_entry e) |} |};;
    rc ← store n type count data;
    modify (fun w => put_numOfEntries (u32 (numOfEntries w + 1)) w);;
    mret rc.

(** Whether the union of an entry is a pointer. *)
Definition is_array (t : exif_tag_type_t) (count : Z) : bool :=
  match t with EXIF_ASCII | EXIF_UNDEFINED => true | _ => 1 <? count end.

(** Freeing what is not the address of a block has no result. *)
Definition xfree (p : Z) : M xworld unit :=
  h ← gets x_heap; match h !! p with None => stuck | Some _ => modify (put_x_heap (delete p h)) end.

Definition releaseExifEntry (i : Z) : M xworld Z :=
  e ← entry_at i;
  if is_array (x_type (tag_entry e)) (x_count (tag_entry e)) then
    match x_data (tag_entry e) with
    | XPtr p => if p =? 0 then mret 0 else xfree p;; put_entry i (entry_data (XPtr 0) e);; mret 0
    | XElem _ => stuck
    end
  else mret 0.

(** The loop of [mm_jpeg_destroy_job]; its result is that of the last call. *)
Definition release_entries (count : nat) : M xworld Z :=
  for_until (seq 0 count) (fun _ => false) 0 (fun i => releaseExifEntry (Z.of_nat i)).

End Exif.

(** ** Entries from the metadata *)

Inductive cam_flash_mode_t : Set :=
| CAM_FLASH_MODE_OFF | CAM_FLASH_MODE_AUTO | CAM_FLASH_MODE_ON | CAM_FLASH_MODE_TORCH | CAM_FLASH_MODE_MAX.

(** The floating point operations of the source, [log10] of the C library
    among them. *)
Class Floats := {
  flt : Type;
  f_of_Z : Z -> flt;
  f_half : flt;
  f_eqb : flt -> flt -> bool;
  f_ltb : flt -> flt -> bool;
  f_leb : flt -> flt -> bool;
  f_add : flt -> flt -> flt;
  f_sub : flt -> flt -> flt;
  f_mul : flt -> flt -> flt;
  f_div : flt -> flt -> flt;
  f_log10 : flt -> flt;
  f_trunc : flt -> Z
}.

Section Metadata.
Context `{FL : Floats} (malloc : xheap -> Z -> option Z).

Record cam_ae_params_t := { exp_time : flt; iso_value : Z }.
Record cam_sensor_params_t := { s_flash_mode : cam_flash_mode_t; aperture_value : flt }.
Record mm_jpeg_exif_params_t := {
  e_ae_params : cam_ae_params_t; e_sensor_params : cam_sensor_params_t; ui_flash_mode : cam_flash_mode_t;
  flash_presence : Z; red_eye : Z }.

(** The fields of [cam_metadata_info_t] that are read. *)
Record jpeg_metadata := {
  is_ae_params_valid : bool; m_ae_params : cam_ae_params_t; is_sensor_params_valid : bool; m_sensor_params : cam_sensor_params_t }.

Definition ROUND (a : flt) : Z := if f_leb (f_of_Z 0) a then f_trunc (f_add a f_half) else f_trunc (f_sub a f_half).

Definition FLASH_NOT_FIRED : Z := 0.
Definition FLASH_FIRED : Z := 1.
Definition NO_STROBE_RETURN_DETECT : Z := 0x00.
Definition CAMERA_FLASH_COMPULSORY : Z := 0x08.
Definition CAMERA_FLASH_SUPRESSION : Z := 0x10.
Definition CAMERA_FLASH_AUTO : Z := 0x18.
Definition NO_FLASH_FUNC : Z := 0x20.
Definition NO_REDEYE_MODE : Z := 0x00.
Definition REDEYE_MODE : Z := 0x40.

Definition i16 (z : Z) : Z := (z + 2 ^ 15) mod 2 ^ 16 - 2 ^ 15.

(** [flash_fired] and [flash_mode] where there is a flash. *)
Definition flash_state (sensor ui : cam_flash_mode_t) : Z * Z :=
  match ui with
  | CAM_FLASH_MODE_AUTO => (match sensor with CAM_FLASH_MODE_ON => FLASH_FIRED | _ => FLASH_NOT_FIRED end, CAMERA_FLASH_AUTO)
  | CAM_FLASH_MODE_ON => (FLASH_FIRED, CAMERA_FLASH_COMPULSORY)
  | CAM_FLASH_MODE_OFF => (FLASH_NOT_FIRED, CAMERA_FLASH_SUPRESSION)
  | _ => (0, 0)
  end.

Definition flash_tag (sensor : cam_flash_mode_t) (p : mm_jpeg_exif_params_t) : Z :=
  let '(fired, mode, presence, redeye) :=
    if flash_presence p =? 0 then
      let '(fired, mode) := flash_state sensor (ui_flash_mode p) in
      (fired, mode, 0, if negb (red_eye p =? 0) && (fired =? FLASH_FIRED) then REDEYE_MODE else 0)
    else (0, 0, NO_FLASH_FUNC, NO_REDEYE_MODE) in
  i16 (Z.lor (Z.lor (Z.lor (Z.lor (Z.lor 0x00 fired) NO_STROBE_RETURN_DETECT) mode) presence) redeye).

(** The parameters are not null, both callers pass the address of a field.
    The two bytes of a [short] are read as a [uint16_t]. *)
Definition process_sensor_data (s : cam_sensor_params_t) (p : mm_jpeg_exif_params_t) : M xworld Z :=
  addExifEntry malloc EXIFTAGID_APERTURE EXIF_RATIONAL 1
    [XRat (u32 (f_trunc (f_mul (aperture_value s) (f_of_Z 100)))) 100];;
  addExifEntry malloc EXIFTAGID_FLASH EXIF_SHORT 1 [XNum (u16 (flash_tag (s_flash_mode s) p))].

Definition process_3a_data (a : cam_ae_params_t) : M xworld Z :=
  let '(num, denom) :=
    if f_eqb (exp_time a) (f_of_Z 0) then (0, 0) else (1, u32 (ROUND (f_mul (exp_time a) (f_of_Z 1000)))) in
  addExifEntry malloc EXIFTAGID_EXPOSURE_TIME EXIF_RATIONAL 1 [XRat num denom];;
  let '(num, denom) :=
    if f_ltb (f_of_Z 0) (exp_time a) then
      let shutter_speed_value := f_div (f_log10 (f_div (f_of_Z 1) (exp_time a))) (f_log10 (f_of_Z 2)) in
      (i32 (f_trunc (f_mul shutter_speed_value (f_of_Z 1000))), 1000)
    else (0, 0) in
  addExifEntry malloc EXIFTAGID_SHUTTER_SPEED EXIF_SRATIONAL 1 [XRat num denom];;
  addExifEntry malloc EXIFTAGID_ISO_SPEED_RATING EXIF_SHORT 1 [XNum (u16 (i16 (iso_value a)))].

Definition process_meta_data (p_meta : option jpeg_metadata) (p : mm_jpeg_exif_params_t) : M xworld Z :=
  match p_meta with
  | None => mret 0
  | Some m =>
      process_3a_data (if is_ae_params_valid m then m_ae_params m else e_ae_params p);;
      process_sensor_data (if is_sensor_params_valid m then m_sensor_params m else e_sensor_params p) p
  end.

End Metadata.

(** ** Memory

    The entries in use own the blocks they point to: apart from these the heap
    is [base]. *)

Section Memory.
Context (malloc : xheap -> Z -> option Z).

(** What the code relies on of [malloc]. *)
Definition malloc_ok : Prop := forall h n p, malloc h n = Some p -> p <> 0 /\ h !! p = None.

(** The pointer that an entry owns. *)
Definition owned (e : QEXIF_INFO_DATA) : option Z :=
  if is_array (x_type (tag_entry e)) (x_count (tag_entry e)) then
    match x_data (tag_entry e) with XPtr p => if p =? 0 then None else Some p | XElem _ => None end
  else None.

(** The union of an entry is read as what was stored. *)
Definition entry_typed (e : QEXIF_INFO_DATA) : Prop :=
  is_array (x_type (tag_entry e)) (x_count (tag_entry e)) = true -> exists p, x_data (tag_entry e) = XPtr p.

Definition delete_all (ps : list Z) (h : xheap) : xheap := foldr delete h ps.

Record exif_ok (base : xheap) (w : xworld) : Prop := {
  ok_num : 0 <= numOfEntries w <= 50;
  ok_len : length (exif_data w) = 50%nat;
  ok_typed : Forall entry_typed (take (Z.to_nat (numOfEntries w)) (exif_data w));
  ok_zero : forall i e, (Z.to_nat (numOfEntries w) <= i)%nat -> exif_data w !! i = Some e -> x_data (tag_entry e) = XPtr 0;
  ok_nodup : NoDup (omap owned (take (Z.to_nat (numOfEntries w)) (exif_data w)));
  ok_dom : Forall (fun p => is_Some (x_heap w !! p)) (omap owned (take (Z.to_nat (numOfEntries w)) (exif_data w)));
  ok_heap : delete_all (omap owned (take (Z.to_nat (numOfEntries w)) (exif_data w))) (x_heap w) = base
}.

Lemma entry_at_run i e w : exif_data w !! i = Some e -> entry_at (Z.of_nat i) w = Some (e, w).
Proof. intros H. unfold entry_at. unM. rewrite (proj2 (Z.leb_le 0 _)) by lia. rewrite Nat2Z.id, H. done. Qed.

Lemma put_entry_run i e e' w : exif_data w !! i = Some e ->
  put_entry (Z.of_nat i) e' w = Some (tt, put_exif_data (<[i := e']> (exif_data w)) w).
Proof. intros H. unfold put_entry. rewrite (bind_run _ _ _ _ _ (entry_at_run _ _ _ H)). unM. by rewrite Nat2Z.id. Qed.

(** The arguments of a call: so many elements as announced, of a size that
    does not wrap. *)
Definition good_args (type : exif_tag_type_t) (count : Z) (data : list exif_elem) : Prop :=
  1 <= count < 2 ^ 28 /\ count <= Z.of_nat (length data).

Lemma entry_data_same e : entry_data (x_data (tag_entry e)) e = e.
Proof. by destruct e as [? []]. Qed.

Lemma store_array_run n bytes used count values tail e w : malloc_ok -> exif_data w !! n = Some e ->
  used <= u32 bytes -> count <= Z.of_nat (length values) ->
  exists rc d h', store_array malloc (Z.of_nat n) bytes used count values tail w =
    Some (rc, {| exif_data := <[n := entry_data d e]> (exif_data w); numOfEntries := numOfEntries w; x_heap := h' |}) /\
    ((d = x_data (tag_entry e) /\ h' = x_heap w) \/
     exists p b, d = XPtr p /\ p <> 0 /\ x_heap w !! p = None /\ h' = <[p := b]> (x_heap w)).
Proof.
  intros Hm He Hu Hc. unfold store_array. rewrite (bind_run _ _ w (x_heap w) w) by done.
  destruct (malloc (x_heap w) (u32 bytes)) as [p|] eqn:Em.
  - rewrite (proj2 (Z.ltb_ge _ _) Hu), (proj2 (Z.ltb_ge _ _) Hc). cbn [orb].
    set (b := take _ _ ++ _). set (w1 := put_x_heap (<[p := b]> (x_heap w)) w).
    rewrite (bind_run _ _ w tt w1) by done. rewrite (bind_run _ _ w1 _ _ (entry_at_run n e w1 He)).
    rewrite (bind_run _ _ w1 _ _ (put_entry_run n e _ w1 He)).
    destruct (Hm _ _ _ Em). do 3 eexists. split; [reflexivity|]. right. by exists p, b.
  - exists (-1), (x_data (tag_entry e)), (x_heap w). split; [|by left]. rewrite entry_data_same, list_insert_id by done. by destruct w.
Qed.

Lemma store_run n type count data e w : malloc_ok -> good_args type count data -> exif_data w !! n = Some e ->
  exists rc d h', store malloc (Z.of_nat n) type count data w =
    Some (rc, {| exif_data := <[n := entry_data d e]> (exif_data w); numOfEntries := numOfEntries w; x_heap := h' |}) /\
    ((is_array type count = true /\ d = x_data (tag_entry e) /\ h' = x_heap w) \/
     (is_array type count = true /\ exists p b, d = XPtr p /\ p <> 0 /\ x_heap w !! p = None /\ h' = <[p := b]> (x_heap w)) \/
     (is_array type count = false /\ h' = x_heap w)).
Proof.
  intros Hm [Hc Hl] He.
  assert (Hsz : count * elem_size type <= u32 (count * elem_size type)).
  { rewrite u32_id; [lia|]. unfold u32_range. destruct type; simpl; lia. }
  assert (Hsz1 : count <= u32 (count + 1)) by (rewrite u32_id; unfold u32_range; lia).
  pose proof (store_array_run n _ _ count data [] e w Hm He Hsz Hl) as (rc & d & h' & E & H).
  pose proof (store_array_run n _ _ count data [XNum 0] e w Hm He Hsz1 Hl) as (rc1 & d1 & h1' & E1 & H1).
  destruct (is_array type count) eqn:Ea.
  - destruct (exif_type_eqb type EXIF_ASCII) eqn:Et.
    + destruct type; try done. exists rc1, d1, h1'. split; [exact E1|]. destruct H1 as [[??]|H1]; auto.
    + exists rc, d, h'. split; [|destruct H as [[??]|H]; auto]. unfold store. destruct type; simpl in *; try done; by rewrite Ea.
  - destruct data as [|v data]; [simpl in Hl; lia|]. exists 0, (XElem v), (x_heap w). split; [|by right; right].
    unfold store. assert (Hel : store_elem (Z.of_nat n) (v :: data) w =
      Some (0, {| exif_data := <[n := entry_data (XElem v) e]> (exif_data w); numOfEntries := numOfEntries w; x_heap := x_heap w |})).
    { unfold store_elem. rewrite (bind_run _ _ w v w) by done. rewrite (bind_run _ _ w _ _ (entry_at_run n e w He)).
      by rewrite (bind_run _ _ w _ _ (put_entry_run n e _ w He)). }
    destruct type; simpl in Ea; try done; by rewrite Ea.
Qed.

Lemma delete_all_insert ps p b (h : xheap) : p ∉ ps -> h !! p = None -> delete_all (ps ++ [p]) (<[p := b]> h) = delete_all ps h.
Proof. intros Hp Hn. unfold delete_all. rewrite foldr_app. f_equal. apply (delete_insert_id (M:=gmap Z)), Hn. Qed.

(** One more entry keeps the table consistent, whether the memory was found
    or not; a full table refuses it. *)
Lemma add_ok base tagid type count data w : malloc_ok -> exif_ok base w -> good_args type count data ->
  exists rc w', addExifEntry malloc tagid type count data w = Some (rc, w') /\ exif_ok base w' /\
    numOfEntries w' = Z.min 50 (numOfEntries w + 1).
Proof.
  intros Hm [Hn Hl Ht Hz Hd Hs Hb] Ha. unfold addExifEntry. set (n := numOfEntries w) in *.
  rewrite (bind_run _ _ w (i32 n) w) by done. rewrite i32_id by (unfold i32_range; lia).
  unfold MAX_EXIF_TABLE_ENTRIES. destruct (Z.leb_spec 50 n).
  { exists (-1), w. split; [done|]. split; [by split|]. fold n. lia. }
  destruct (lookup_lt_is_Some_2 (exif_data w) (Z.to_nat n)) as [e He]; [lia|].
  pose proof (entry_at_run _ _ _ He) as E0. rewrite Z2Nat.id in E0 by lia. rewrite (bind_run _ _ w _ _ E0).
  set (e1 := {| tag_id := tagid; tag_entry := _ |}). pose proof (put_entry_run _ _ e1 _ He) as E1. rewrite Z2Nat.id in E1 by lia.
  rewrite (bind_run _ _ w _ _ E1). set (w1 := put_exif_data _ w).
  destruct (store_run (Z.to_nat n) type count data e1 w1 Hm Ha) as (rc & d & h' & E2 & Hcase).
  { simpl. apply list_lookup_insert_eq. lia. }
  rewrite Z2Nat.id in E2 by lia. rewrite (bind_run _ _ w1 _ _ E2). rewrite (bind_run _ _ _ tt (put_numOfEntries (n + 1)
    {| exif_data := <[Z.to_nat n := entry_data d e1]> (exif_data w); numOfEntries := n; x_heap := h' |}));
    [|simpl; unfold modify; simpl; rewrite list_insert_insert_eq; rewrite u32_id by (unfold u32_range; lia); done].
  exists rc. eexists. split; [reflexivity|]. split; [|simpl; lia].
  pose proof (Hz _ _ (le_n _) He) as Hd0.
  assert (Etake : take (Z.to_nat (n + 1)) (<[Z.to_nat n := entry_data d e1]> (exif_data w)) = take (Z.to_nat n) (exif_data w) ++ [entry_data d e1]).
  { replace (Z.to_nat (n + 1)) with (S (Z.to_nat n)) by lia. rewrite (take_S_r _ _ (entry_data d e1)) by (apply list_lookup_insert_eq; lia).
    f_equal. apply take_insert_ge. lia. }
  assert (Hown : (owned (entry_data d e1) = None /\ h' = x_heap w) \/
    exists p b, owned (entry_data d e1) = Some p /\ x_heap w !! p = None /\ h' = <[p := b]> (x_heap w)).
  { unfold owned. simpl. destruct Hcase as [(Ea & -> & ->)|[(Ea & p & b & -> & Hp & Hf & ->)|(Ea & ->)]]; rewrite Ea; [left|right|left]; simpl.
    - by rewrite Hd0. - exists p, b. by rewrite (proj2 (Z.eqb_neq _ _) Hp). - done. }
  assert (Hty : entry_typed (entry_data d e1)).
  { intros Ea. simpl in *. destruct Hcase as [(_ & -> & _)|[(_ & p & b & -> & _)|(E & _)]]; [by exists 0; rewrite Hd0|by exists p|by rewrite E in Ea]. }
  split; simpl; [lia|by rewrite length_insert|rewrite Etake; apply Forall_app_2; auto| |rewrite Etake, omap_app; simpl..].
  - intros i e' Hi. rewrite list_lookup_insert_ne by lia. apply Hz. lia.
  - destruct Hown as [[-> _]|(p & b & -> & Hf & _)]; [by rewrite app_nil_r|]. apply NoDup_app. split; [done|]. split; [|apply NoDup_singleton].
    intros x Hx Hp. apply list_elem_of_singleton in Hp as ->. rewrite Forall_forall in Hs. destruct (Hs p Hx). congruence.
  - destruct Hown as [[-> ->]|(p & b & -> & Hf & ->)]; [by rewrite app_nil_r|]. apply Forall_app_2.
    + eapply Forall_impl; [exact Hs|]. intros x [y Hy]. destruct (decide (x = p)) as [->|]; [congruence|]. exists y. by rewrite lookup_insert_ne.
    + apply Forall_singleton. rewrite lookup_insert_eq. eauto.
  - destruct Hown as [[-> ->]|(p & b & -> & Hf & ->)]; [by rewrite app_nil_r|]. rewrite delete_all_insert; [done| |done].
    intros Hx. rewrite Forall_forall in Hs. destruct (Hs p Hx). congruence.
Qed.

Lemma delete_all_delete ps p (h : xheap) : delete_all ps (delete p h) = delete p (delete_all ps h).
Proof. induction ps as [|q ps IH]; [done|]. simpl. rewrite IH. apply delete_delete. Qed.

Lemma release_entry_run i e w : exif_data w !! i = Some e -> entry_typed e -> (forall p, owned e = Some p -> is_Some (x_heap w !! p)) ->
  exists e', owned e' = None /\ releaseExifEntry (Z.of_nat i) w =
    Some (0, {| exif_data := <[i := e']> (exif_data w); numOfEntries := numOfEntries w;
                x_heap := match owned e with Some p => delete p (x_heap w) | None => x_heap w end |}).
Proof.
  intros He Ht Ho. unfold releaseExifEntry. rewrite (bind_run _ _ w _ _ (entry_at_run i e w He)). unfold owned in Ho |- *. unfold entry_typed in Ht.
  assert (Hsame : Some (0, w) = Some (0, {| exif_data := <[i := e]> (exif_data w); numOfEntries := numOfEntries w; x_heap := x_heap w |}))
    by (rewrite list_insert_id by done; by destruct w).
  destruct (is_array _ _) eqn:Ea; [|exists e; rewrite Ea; split; [done|exact Hsame]].
  destruct Ht as [p Ep]; [done|]. rewrite Ep in *. destruct (p =? 0) eqn:E0; [exists e; rewrite Ea, Ep, E0; split; [done|exact Hsame]|].
  exists (entry_data (XPtr 0) e). simpl. rewrite Ea. split; [done|].
  assert (Ef : xfree p w = Some (tt, put_x_heap (delete p (x_heap w)) w)).
  { unfold xfree. rewrite (bind_run _ _ w (x_heap w) w) by done. by destruct (Ho p eq_refl) as [? ->]. }
  rewrite (bind_run _ _ _ _ _ Ef). by erewrite (bind_run _ _ _ _ _ (put_entry_run i e _ (put_x_heap _ w) He)).
Qed.

Lemma release_loop m : forall k w, (k + m <= length (exif_data w))%nat -> Forall entry_typed (take m (drop k (exif_data w))) ->
  NoDup (omap owned (take m (drop k (exif_data w)))) ->
  Forall (fun p => is_Some (x_heap w !! p)) (omap owned (take m (drop k (exif_data w)))) ->
  exists w', for_until (seq k m) (fun _ => false) 0 (fun i => releaseExifEntry (Z.of_nat i)) w = Some (0, w') /\
    x_heap w' = delete_all (omap owned (take m (drop k (exif_data w)))) (x_heap w).
Proof.
  induction m as [|m IH]; intros k w Hk Ht Hd Hs; [by exists w|].
  destruct (lookup_lt_is_Some_2 (exif_data w) k) as [e He]; [lia|]. rewrite (drop_S _ e) in * by done. simpl take in *.
  apply Forall_cons in Ht as [Hte Ht]. cbn [seq for_until].
  destruct (release_entry_run k e w He Hte) as (e' & Ho' & E).
  { intros p Hp. simpl in Hs. rewrite Hp in Hs. by apply Forall_cons in Hs as [? _]. }
  rewrite (bind_run _ _ w _ _ E). set (w1 := {| exif_data := _; numOfEntries := _; x_heap := _ |}).
  assert (Hdr : drop (S k) (exif_data w1) = drop (S k) (exif_data w)) by (apply drop_insert_lt; lia).
  destruct (IH (S k) w1) as (w' & E' & Hh); rewrite ?Hdr; unfold w1; simpl in *; [rewrite length_insert; lia|done|..].
  - destruct (owned e); [by apply NoDup_cons in Hd as [_ Hd]|done].
  - destruct (owned e) as [p|]; [|done]. apply Forall_cons in Hs as [_ Hs]. apply NoDup_cons in Hd as [Hp _].
    rewrite Forall_forall in *. intros x Hx. rewrite lookup_delete_ne by (intros ->; done). auto.
  - exists w'. split; [exact E'|]. rewrite Hh, Hdr. destruct (owned e) as [p|]; [|done]. simpl. apply delete_all_delete.
Qed.

Definition add_all (l : list (exif_tag_id_t * exif_tag_type_t * Z * list exif_elem)) : M xworld unit :=
  for_each l (fun '(tag, type, count, data) => addExifEntry malloc tag type count data;; mret tt).

Lemma add_all_ok base l : malloc_ok -> Forall (fun '(_, type, count, data) => good_args type count data) l -> forall w, exif_ok base w ->
  exists w', add_all l w = Some (tt, w') /\ exif_ok base w' /\ numOfEntries w' = Z.min 50 (numOfEntries w + Z.of_nat (length l)).
Proof.
  intros Hm. unfold add_all. induction l as [|[[[tag type] count] data] l IH]; intros Hl w Hw.
  - exists w. split; [done|]. split; [done|]. destruct Hw. simpl. lia.
  - apply Forall_cons in Hl as [Ha Hl]. destruct (add_ok base tag type count data w Hm Hw Ha) as (rc & w1 & E & Hw1 & Hn).
    destruct (IH Hl w1 Hw1) as (w' & E' & Hw' & Hn'). exists w'. cbn [for_each]. erewrite bind_run; [|by erewrite bind_run; [|exact E]].
    split; [exact E'|]. split; [done|]. rewrite Hn', Hn. simpl length. lia.
Qed.

(** The empty table. *)
Definition empty_table (h : xheap) : xworld := {| exif_data := replicate 50 zero_exif; numOfEntries := 0; x_heap := h |}.

Lemma empty_table_ok h : exif_ok h (empty_table h).
Proof.
  split; cbn [numOfEntries exif_data x_heap empty_table Z.to_nat take]; [lia|done|constructor| |constructor|constructor|done].
  intros i e _ He. apply lookup_replicate in He as [-> _]. done.
Qed.

(** C25: whatever entries are added to an empty table, fifty at most are kept,
    each array in a block of its own, and releasing the entries gives back
    exactly the blocks that were taken: the heap is what it was, also when
    some of the memory was refused. *)
Theorem exif_release_roundtrip (Hm : malloc_ok) l h (Hl : Forall (fun '(_, type, count, data) => good_args type count data) l) :
  exists w w', add_all l (empty_table h) = Some (tt, w) /\ numOfEntries w = Z.min 50 (Z.of_nat (length l)) /\
    release_entries (Z.to_nat (numOfEntries w)) w = Some (0, w') /\ x_heap w' = h.
Proof.
  destruct (add_all_ok h l Hm Hl _ (empty_table_ok h)) as (w & E & [Hn Hlen Ht Hz Hd Hs Hb] & Hnum).
  destruct (release_loop (Z.to_nat (numOfEntries w)) 0 w) as (w' & E' & Hh); rewrite ?drop_0; [lia|done..|].
  exists w, w'. split; [done|]. split; [done|]. split; [exact E'|]. by rewrite Hh, drop_0.
Qed.

End Memory.

Section MetadataProps.
Context `{FL : Floats} (malloc : xheap -> Z -> option Z).

(** A single number or rational needs no memory. *)
Lemma add_single tag type v w : is_array type 1 = false -> 0 <= numOfEntries w < 50 -> length (exif_data w) = 50%nat ->
  addExifEntry malloc tag type 1 [v] w =
    Some (0, {| exif_data := <[Z.to_nat (numOfEntries w) := {| tag_id := tag;
                  tag_entry := {| x_type := type; x_copy := 1; x_count := 1; x_data := XElem v |} |}]> (exif_data w);
                numOfEntries := numOfEntries w + 1; x_heap := x_heap w |}).
Proof.
  intros Ht Hn Hl. destruct (lookup_lt_is_Some_2 (exif_data w) (Z.to_nat (numOfEntries w))) as [e He]; [lia|].
  assert (Er : forall e w1 (H : exif_data w1 !! Z.to_nat (numOfEntries w) = Some e), entry_at (numOfEntries w) w1 = Some (e, w1) /\
    forall e', put_entry (numOfEntries w) e' w1 = Some (tt, put_exif_data (<[Z.to_nat (numOfEntries w) := e']> (exif_data w1)) w1)).
  { intros e0 w1 H. pose proof (entry_at_run _ _ _ H) as H1. pose proof (fun e' => put_entry_run _ _ e' _ H) as H2. by rewrite Z2Nat.id in H1, H2 by lia. }
  unfold addExifEntry. rewrite (bind_run _ _ w (i32 (numOfEntries w)) w) by done. rewrite i32_id by (unfold i32_range; lia).
  unfold MAX_EXIF_TABLE_ENTRIES. rewrite (proj2 (Z.leb_gt 50 _)) by lia. destruct (Er _ _ He) as [E1 E2].
  rewrite (bind_run _ _ w _ _ E1), (bind_run _ _ w _ _ (E2 _)). set (e1 := {| tag_id := tag; tag_entry := _ |}). set (w1 := put_exif_data _ w).
  assert (He1 : exif_data w1 !! Z.to_nat (numOfEntries w) = Some e1) by (apply list_lookup_insert_eq; lia). destruct (Er _ _ He1) as [E3 E4].
  assert (Es : store malloc (numOfEntries w) type 1 [v] = store_elem (numOfEntries w) [v]) by (by destruct type). rewrite Es.
  erewrite bind_run; [|unfold store_elem; rewrite (bind_run _ _ w1 v w1) by done; rewrite (bind_run _ _ w1 _ _ E3), (bind_run _ _ w1 _ _ (E4 _)); reflexivity].
  unM. rewrite list_insert_insert_eq, u32_id by (unfold u32_range; lia). done.
Qed.

(** What the flash tag says: bit 0 that the flash fired, bits 3 and 4 the
    mode, bit 5 that there is no flash, bit 6 red-eye reduction. *)
Definition flash_tag_bits (fired : bool) (mode : Z) (no_flash redeye : bool) : Z :=
  Z.b2z fired + 8 * mode + 32 * Z.b2z no_flash + 64 * Z.b2z redeye.

(** The tag by cases: without a flash only that is said; otherwise the mode
    is that of the user interface and only the automatic mode asks the sensor;
    red-eye reduction is only reported when the flash fired. *)
Definition flash_tag_spec (sensor ui : cam_flash_mode_t) (has_flash redeye : bool) : Z :=
  if negb has_flash then flash_tag_bits false 0 true false
  else match ui with
       | CAM_FLASH_MODE_AUTO =>
           match sensor with
           | CAM_FLASH_MODE_ON => flash_tag_bits true 3 false redeye
           | _ => flash_tag_bits false 3 false false
           end
       | CAM_FLASH_MODE_ON => flash_tag_bits true 1 false redeye
       | CAM_FLASH_MODE_OFF => flash_tag_bits false 2 false false
       | _ => flash_tag_bits false 0 false false
       end.

Lemma flash_tag_ok sensor p :
  u16 (flash_tag sensor p) = flash_tag_spec sensor (ui_flash_mode p) (flash_presence p =? 0) (negb (red_eye p =? 0)).
Proof. unfold flash_tag, flash_state. destruct (flash_presence p =? 0), (red_eye p =? 0), (ui_flash_mode p), sensor; reflexivity. Qed.

Definition single (tag : exif_tag_id_t) (type : exif_tag_type_t) (v : exif_elem) : QEXIF_INFO_DATA :=
  {| tag_id := tag; tag_entry := {| x_type := type; x_copy := 1; x_count := 1; x_data := XElem v |} |}.

(** The metadata of a frame become five entries at the start of the empty
    table, in a fixed order, with no memory taken; exposure and sensor data
    come from the metadata where these are valid and from the parameters of
    the job otherwise, and the flash tag is as specified. *)
Theorem metadata_entries m p h :
  exists exposure shutter w, process_meta_data malloc (Some m) p (empty_table h) = Some (0, w) /\
    let ae := if is_ae_params_valid m then m_ae_params m else e_ae_params p in
    let sp := if is_sensor_params_valid m then m_sensor_params m else e_sensor_params p in
    w = {| exif_data :=
             [single EXIFTAGID_EXPOSURE_TIME EXIF_RATIONAL exposure; single EXIFTAGID_SHUTTER_SPEED EXIF_SRATIONAL shutter;
              single EXIFTAGID_ISO_SPEED_RATING EXIF_SHORT (XNum (u16 (i16 (iso_value ae))));
              single EXIFTAGID_APERTURE EXIF_RATIONAL (XRat (u32 (f_trunc (f_mul (aperture_value sp) (f_of_Z 100)))) 100);
              single EXIFTAGID_FLASH EXIF_SHORT
                (XNum (flash_tag_spec (s_flash_mode sp) (ui_flash_mode p) (flash_presence p =? 0) (negb (red_eye p =? 0))))]
             ++ replicate 45 zero_exif;
           numOfEntries := 5; x_heap := h |}.
Proof.
  unfold process_meta_data, process_3a_data, process_sensor_data. cbv zeta.
  set (ae := if is_ae_params_valid m then _ else _). set (sp := if is_sensor_params_valid m then _ else _).
  destruct (if f_eqb (exp_time ae) (f_of_Z 0) then _ else _) as [n1 d1]. destruct (if f_ltb (f_of_Z 0) (exp_time ae) then _ else _) as [n2 d2].
  exists (XRat n1 d1), (XRat n2 d2). rewrite <- flash_tag_ok. eexists. split.
  { erewrite bind_run; [|do 2 (erewrite bind_run; [|apply add_single; [done|simpl; lia|done]]); apply add_single; [done|simpl; lia|done]].
    erewrite bind_run; [|apply add_single; [done|simpl; lia|done]]. apply add_single; [done|simpl; lia|done]. }
  reflexivity.
Qed.

End MetadataProps.

(** ** A table of three entries *)

Module DemoExif.

(** A memory that is never full. *)
Definition next_fit (h : xheap) (n : Z) : option Z := Some (fresh (dom h ∪ {[0]})).

Lemma next_fit_ok : malloc_ok next_fit.
Proof.
  intros h n p [= <-]. pose proof (is_fresh (dom h ∪ {[0]})) as H. apply not_elem_of_union in H as [H1 H2].
  split; [set_solver|]. by apply not_elem_of_dom.
Qed.

Definition three : list (exif_tag_id_t * exif_tag_type_t * Z * list exif_elem) :=
  [(EXIFTAGID 271, EXIF_ASCII, 2, [XNum 72; XNum 68]); (EXIFTAGID_FLASH, EXIF_SHORT, 1, [XNum 9]);
   (EXIFTAGID 4, EXIF_RATIONAL, 3, [XRat 47 1; XRat 36 1; XRat 0 1])].

Lemma exif_release_roundtrip_witness : exists w w', add_all next_fit three (empty_table ∅) = Some (tt, w) /\ numOfEntries w = 3 /\
  release_entries 3 w = Some (0, w') /\ x_heap w' = ∅.
Proof.
  destruct (exif_release_roundtrip next_fit next_fit_ok three ∅) as (w & w' & E & Hn & Er & Hh).
  { repeat (apply Forall_cons; split; [split; [lia|simpl; lia]|]). constructor. }
  exists w, w'. rewrite Hn in Er. auto.
Defined.

End DemoExif.
