(* ===== verification/JpegData.v ===== *)
(** * Data of the JPEG library

    The types of [mm_jpeg_interface.h], [mm_jpeg.h] and [mm_jpeg_ionbuf.h], what
    is passed to a component, and the environment.

    The state is what the threads of a library share: the library object with
    its table of clients and sessions, the OMX core, the blocks of the EXIF
    tables, and the history.  The encoder ([g_jpeg_obj]) and the decoder
    ([g_jpegdec_obj]) have an object each, of one type and mostly with the same
    code; a state holds one of them.  Queues are the lists that [JpegQueue]
    justifies; a queue that was zeroed or torn down is [None], and using it has
    no result. *)

From Stdlib Require Import ZArith Lia.
From stdpp Require Import numbers list gmap strings.
From S2P Require Import Prelude CamTypes JpegQueue QomxCore JpegExif.

(** ** Data of the interface *)

Definition MM_JPEG_MAX_BUF : nat := 24.
Definition MM_JPEG_MAX_SESSION : nat := 10.
Definition MAX_JPEG_CLIENT_NUM : nat := 8.
Definition NUM_MAX_JPEG_CNCURRENT_JOBS : nat := 1.
Definition MAX_JPEG_SIZE : Z := 20000000.
Definition JOB_ID_MAGICVAL : Z := 0x1.
Definition JOB_HIST_MAX : Z := 10000.

Inductive mm_jpeg_color_format : Set :=
| MM_JPEG_COLOR_FORMAT_YCRCBLP_H2V2 | MM_JPEG_COLOR_FORMAT_YCBCRLP_H2V2
| MM_JPEG_COLOR_FORMAT_YCRCBLP_H2V1 | MM_JPEG_COLOR_FORMAT_YCBCRLP_H2V1
| MM_JPEG_COLOR_FORMAT_YCRCBLP_H1V2 | MM_JPEG_COLOR_FORMAT_YCBCRLP_H1V2
| MM_JPEG_COLOR_FORMAT_YCRCBLP_H1V1 | MM_JPEG_COLOR_FORMAT_YCBCRLP_H1V1
| MM_JPEG_COLOR_FORMAT_BITSTREAM_H2V2 | MM_JPEG_COLOR_FORMAT_BITSTREAM_H2V1
| MM_JPEG_COLOR_FORMAT_BITSTREAM_H1V2 | MM_JPEG_COLOR_FORMAT_BITSTREAM_H1V1
| MM_JPEG_COLOR_FORMAT_MAX.

Inductive omx_color_format : Set :=
| OMX_QCOM_IMG_COLOR_FormatYVU420SemiPlanar | OMX_COLOR_FormatYUV420SemiPlanar
| OMX_QCOM_IMG_COLOR_FormatYVU422SemiPlanar | OMX_COLOR_FormatYUV422SemiPlanar
| OMX_QCOM_IMG_COLOR_FormatYVU422SemiPlanar_h1v2 | OMX_QCOM_IMG_COLOR_FormatYUV422SemiPlanar_h1v2
| OMX_QCOM_IMG_COLOR_FormatYVU444SemiPlanar | OMX_QCOM_IMG_COLOR_FormatYUV444SemiPlanar.

Inductive jpeg_job_status_t : Set := JPEG_JOB_STATUS_DONE | JPEG_JOB_STATUS_ERROR.

(** The fields that the encoder reads. *)
Record mm_jpeg_buf_t := { buf_vaddr : Z; fd : Z; buf_size : Z; offset : cam_frame_len_offset_t }.
Record cam_rect_t := { left : Z; top : Z; r_width : Z; r_height : Z }.
Record mm_jpeg_dim_t := { src_dim : cam_dimension_t; dst_dim : cam_dimension_t; crop : cam_rect_t }.

Definition set_crop (r : cam_rect_t) (d : mm_jpeg_dim_t) : mm_jpeg_dim_t :=
  {| src_dim := src_dim d; dst_dim := dst_dim d; crop := r |}.

Record mm_jpeg_encode_params_t := {
  num_src_bufs : Z; num_tmb_bufs : Z; num_dst_bufs : Z; encode_thumbnail : Z;
  src_main_buf : list mm_jpeg_buf_t; src_thumb_buf : list mm_jpeg_buf_t; dest_buf : list mm_jpeg_buf_t;
  color_format : mm_jpeg_color_format; thumb_color_format : mm_jpeg_color_format;
  quality : Z; jpeg_cb : option Z; userdata : Z
}.

(** The same of a decoder. *)
Record mm_jpeg_decode_params_t := {
  d_num_src_bufs : Z; d_num_dst_bufs : Z; d_src_main_buf : list mm_jpeg_buf_t; d_dest_buf : list mm_jpeg_buf_t;
  d_color_format : mm_jpeg_color_format; d_jpeg_cb : option Z; d_userdata : Z
}.

Record mm_jpeg_decode_job_t := { d_src_index : Z; d_dst_index : Z; d_main_dim : mm_jpeg_dim_t; d_session_id : Z }.

Record mm_jpeg_decode_job_info_t := { decode_job : mm_jpeg_decode_job_t; d_job_id : Z; d_client_handle : Z }.

Section JobData.
Context `{FL : Floats}.

(** [exif_info] is passed on to the component; of it only the number of
    entries is read. *)
Record mm_jpeg_encode_job_t := {
  src_index : Z; dst_index : Z; thumb_index : Z; thumb_dim : mm_jpeg_dim_t; job_rotation : Z; main_dim : mm_jpeg_dim_t;
  session_id : Z; p_metadata : option jpeg_metadata; exif_entries : Z; cam_exif_params : mm_jpeg_exif_params_t
}.

Definition set_main_dim (d : mm_jpeg_dim_t) (j : mm_jpeg_encode_job_t) : mm_jpeg_encode_job_t :=
  {| src_index := src_index j; dst_index := dst_index j; thumb_index := thumb_index j; thumb_dim := thumb_dim j;
     job_rotation := job_rotation j; main_dim := d; session_id := session_id j; p_metadata := p_metadata j;
     exif_entries := exif_entries j; cam_exif_params := cam_exif_params j |}.
Definition set_thumb_dim (d : mm_jpeg_dim_t) (j : mm_jpeg_encode_job_t) : mm_jpeg_encode_job_t :=
  {| src_index := src_index j; dst_index := dst_index j; thumb_index := thumb_index j; thumb_dim := d;
     job_rotation := job_rotation j; main_dim := main_dim j; session_id := session_id j; p_metadata := p_metadata j;
     exif_entries := exif_entries j; cam_exif_params := cam_exif_params j |}.

Record mm_jpeg_encode_job_info_t := { encode_job : mm_jpeg_encode_job_t; job_id : Z; client_handle : Z }.

(** A command for the job manager. *)
Inductive mm_jpeg_job_q_node_t :=
| JobNode (enc_info : mm_jpeg_encode_job_info_t)
| DecodeNode (dec_info : mm_jpeg_decode_job_info_t)
| ExitNode.

End JobData.

(** ** The OMX component *)

Inductive OMX_STATETYPE : Set :=
| OMX_StateInvalid | OMX_StateLoaded | OMX_StateIdle | OMX_StateExecuting | OMX_StatePause | OMX_StateWaitForResources.

#[export] Instance omx_state_eq_dec : EqDecision OMX_STATETYPE.
Proof. solve_decision. Defined.

Inductive OMX_EVENTTYPE : Set := OMX_EventCmdComplete | OMX_EventError | OMX_EventPortSettingsChanged | OMX_EventOther.

#[export] Instance omx_event_eq_dec : EqDecision OMX_EVENTTYPE.
Proof. solve_decision. Defined.

Inductive omx_command : Set := OMX_CommandStateSet (st : OMX_STATETYPE) | OMX_CommandPortEnable (port : Z) | OMX_CommandPortDisable (port : Z).

Record omx_port := {
  nPortIndex : Z; nFrameWidth : Z; nFrameHeight : Z; nStride : Z; nSliceHeight : Z; eColorFormat : option omx_color_format;
  nBufferSize : Z; nBufferCountActual : Z }.
Definition zero_port : omx_port :=
  {| nPortIndex := 0; nFrameWidth := 0; nFrameHeight := 0; nStride := 0; nSliceHeight := 0; eColorFormat := None;
     nBufferSize := 0; nBufferCountActual := 0 |}.
Definition set_nPortIndex (i : Z) (p : omx_port) : omx_port :=
  {| nPortIndex := i; nFrameWidth := nFrameWidth p; nFrameHeight := nFrameHeight p; nStride := nStride p;
     nSliceHeight := nSliceHeight p; eColorFormat := eColorFormat p; nBufferSize := nBufferSize p;
     nBufferCountActual := nBufferCountActual p |}.
Definition set_buffers (size count : Z) (p : omx_port) : omx_port :=
  {| nPortIndex := nPortIndex p; nFrameWidth := nFrameWidth p; nFrameHeight := nFrameHeight p; nStride := nStride p;
     nSliceHeight := nSliceHeight p; eColorFormat := eColorFormat p; nBufferSize := size; nBufferCountActual := count |}.

Record QOMX_YUV_FRAME_INFO := { yOffset : Z; cbcrOffset : Z * Z; cbcrStartOffset : Z * Z }.
Record omx_rect := { x_left : Z; x_top : Z; x_width : Z; x_height : Z }.
Record QOMX_THUMBNAIL_INFO := {
  input_width : Z; input_height : Z; scaling_enabled : Z; crop_info : omx_rect; output_width : Z; output_height : Z;
  tmbOffset : QOMX_YUV_FRAME_INFO }.

(** What is passed to [OMX_SetParameter] and [OMX_SetConfig]. *)
Inductive omx_param :=
| PPort (p : omx_port) | PFrameInfo (f : QOMX_YUV_FRAME_INFO) | PEncodingMode (parallel : bool)
| PThumbnail (t : QOMX_THUMBNAIL_INFO) | PInputCrop (r : omx_rect) | POutputCrop (w h : Z) | PRotate (port rotation : Z)
| PExif (entries : Z) | PQFactor (q : Z) | PWorkBuffer (fd vaddr : Z).

Inductive jcall :=
| CGetState (st : OMX_STATETYPE)
| CSendCommand (c : omx_command)
| CUseBuffer (port : Z) (buf_fd : option Z) (size vaddr : Z) (hdr : Z)
| CFreeBuffer (port : Z) (hdr : option Z)
| CGetParameter (p : omx_port)
| CSetParameter (p : omx_param)
| CGetExtensionIndex (name : string) (idx : Z)
| CSetConfig (p : omx_param)
| CEmptyThisBuffer (hdr : option Z)
| CFillThisBuffer (hdr : option Z).

(** The callbacks of a component. *)
Inductive omx_cb := EmptyBufferDone | FillBufferDone (nFilledLen vaddr : Z) | EventHandler (e : OMX_EVENTTYPE).

Inductive jev :=
| JCall (h : Z) (c : jcall) (rc : Z)
| JOmx (h : Z) (cb : omx_cb)
| JMalloc (ok : bool)
| JSemPost
| JCallback (cb : Z) (status : jpeg_job_status_t) (client_hdl jobId : Z) (output : option (Z * Z)) (userdata : Z)
| JThreadCreate
| JThreadJoin
| JIonOpen (fd : Z)
| JIonAlloc (fd len rc handle : Z)
| JIonShare (fd handle rc info_fd : Z)
| JMmap (fd len : Z) (addr : option Z)
| JMunmap (addr : option Z) (len rc : Z)
| JIonFree (fd handle : Z)
| JClose (fd : Z).
Abbreviation jhistory := (list jev).

Class JpegEnv := {
  OMX_ErrorIncorrectStateTransition : Z;
  OMX_ErrorHardware : Z;
  (** the status of a call, and what it returns *)
  env_comp : jhistory -> Z -> jcall -> Z;
  env_state : jhistory -> Z -> OMX_STATETYPE;
  env_port : jhistory -> Z -> omx_port -> omx_port;
  env_index : jhistory -> string -> Z;
  env_header : jhistory -> Z -> Z -> Z;
  (** the callbacks that come after an unlocked call and in a wait *)
  env_deliver : jhistory -> list (Z * omx_cb);
  env_wait : jhistory -> Z -> list (Z * omx_cb);
  env_sem_wait : jhistory -> list (Z * omx_cb);
  env_jmalloc : jhistory -> bool;
  env_xmalloc : jhistory -> xheap -> Z -> option Z;
  env_ion_open : jhistory -> Z;
  env_ion_alloc : jhistory -> Z -> Z * Z;
  env_ion_share : jhistory -> Z -> Z * Z;
  env_mmap : jhistory -> Z -> option Z;
  env_munmap : jhistory -> Z
}.

(** ** The library object *)

Inductive mm_jpeg_abort_state_t : Set := MM_JPEG_ABORT_NONE | MM_JPEG_ABORT_INIT | MM_JPEG_ABORT_DONE.

#[export] Instance abort_state_eq_dec : EqDecision mm_jpeg_abort_state_t.
Proof. solve_decision. Defined.

Record buffer_t := {
  b_size : Z; ion_fd : Z; alloc_len : Z; alloc_handle : Z; info_handle : Z; info_fd : Z; p_pmem_fd : Z; addr : option Z }.
Definition zero_buffer : buffer_t :=
  {| b_size := 0; ion_fd := 0; alloc_len := 0; alloc_handle := 0; info_handle := 0; info_fd := 0; p_pmem_fd := 0; addr := None |}.

(** A pointer to a session: the client and the session in its table. *)
Abbreviation sptr := (nat * nat)%type.

Section Object.
Context `{FL : Floats}.

(** The fields that are used; a session is one of the encoder or one of the
    decoder.  [jpeg_obj] is null or points to the object the session is part
    of. *)
Record mm_jpeg_job_session_t := {
  client_hdl : Z;
  jobId : Z;
  sessionId : Z;
  params : mm_jpeg_encode_params_t;
  dec_params : mm_jpeg_decode_params_t;
  s_job : mm_jpeg_encode_job_t;
  s_decode_job : mm_jpeg_decode_job_t;
  jpeg_obj : bool;
  job_status : jpeg_job_status_t;
  state_change_pending : bool;
  error_flag : Z;
  abort_state : mm_jpeg_abort_state_t;
  omx_handle : option Z;
  p_in_omx_buf : list (option Z);
  p_in_omx_thumb_buf : list (option Z);
  p_out_omx_buf : list (option Z);
  inputPort : omx_port;
  outputPort : omx_port;
  inputTmbPort : omx_port;
  exif_info_local : list QEXIF_INFO_DATA;
  exif_count_local : Z;
  ebd_count : Z;
  fbd_count : Z;
  active : bool;
  config : bool;
  job_hist : Z;
  encoding : bool;
  work_buffer : buffer_t;
  omxEvent : OMX_EVENTTYPE;
  event_pending : bool
}.

Definition put_client_hdl (v : Z) (x : mm_jpeg_job_session_t) : mm_jpeg_job_session_t :=
  {| client_hdl := v; jobId := jobId x; sessionId := sessionId x; params := params x;
     dec_params := dec_params x; s_job := s_job x; s_decode_job := s_decode_job x; jpeg_obj
     := jpeg_obj x; job_status := job_status x; state_change_pending := state_change_pending
     x; error_flag := error_flag x; abort_state := abort_state x; omx_handle := omx_handle
     x; p_in_omx_buf := p_in_omx_buf x; p_in_omx_thumb_buf := p_in_omx_thumb_buf x;
     p_out_omx_buf := p_out_omx_buf x; inputPort := inputPort x; outputPort := outputPort x;
     inputTmbPort := inputTmbPort x; exif_info_local := exif_info_local x; exif_count_local
     := exif_count_local x; ebd_count := ebd_count x; fbd_count := fbd_count x; active :=
     active x; config := config x; job_hist := job_hist x; encoding := encoding x;
     work_buffer := work_buffer x; omxEvent := omxEvent x; event_pending := event_pending x
     |}.

Definition put_jobId (v : Z) (x : mm_jpeg_job_session_t) : mm_jpeg_job_session_t :=
  {| client_hdl := client_hdl x; jobId := v; sessionId := sessionId x; params := params x;
     dec_params := dec_params x; s_job := s_job x; s_decode_job := s_decode_job x; jpeg_obj
     := jpeg_obj x; job_status := job_status x; state_change_pending := state_change_pending
     x; error_flag := error_flag x; abort_state := abort_state x; omx_handle := omx_handle
     x; p_in_omx_buf := p_in_omx_buf x; p_in_omx_thumb_buf := p_in_omx_thumb_buf x;
     p_out_omx_buf := p_out_omx_buf x; inputPort := inputPort x; outputPort := outputPort x;
     inputTmbPort := inputTmbPort x; exif_info_local := exif_info_local x; exif_count_local
     := exif_count_local x; ebd_count := ebd_count x; fbd_count := fbd_count x; active :=
     active x; config := config x; job_hist := job_hist x; encoding := encoding x;
     work_buffer := work_buffer x; omxEvent := omxEvent x; event_pending := event_pending x
     |}.

Definition put_sessionId (v : Z) (x : mm_jpeg_job_session_t) : mm_jpeg_job_session_t :=
  {| client_hdl := client_hdl x; jobId := jobId x; sessionId := v; params := params x;
     dec_params := dec_params x; s_job := s_job x; s_decode_job := s_decode_job x; jpeg_obj
     := jpeg_obj x; job_status := job_status x; state_change_pending := state_change_pending
     x; error_flag := error_flag x; abort_state := abort_state x; omx_handle := omx_handle
     x; p_in_omx_buf := p_in_omx_buf x; p_in_omx_thumb_buf := p_in_omx_thumb_buf x;
     p_out_omx_buf := p_out_omx_buf x; inputPort := inputPort x; outputPort := outputPort x;
     inputTmbPort := inputTmbPort x; exif_info_local := exif_info_local x; exif_count_local
     := exif_count_local x; ebd_count := ebd_count x; fbd_count := fbd_count x; active :=
     active x; config := config x; job_hist := job_hist x; encoding := encoding x;
     work_buffer := work_buffer x; omxEvent := omxEvent x; event_pending := event_pending x
     |}.

Definition put_params (v : mm_jpeg_encode_params_t) (x : mm_jpeg_job_session_t) : mm_jpeg_job_session_t :=
  {| client_hdl := client_hdl x; jobId := jobId x; sessionId := sessionId x; params := v;
     dec_params := dec_params x; s_job := s_job x; s_decode_job := s_decode_job x; jpeg_obj
     := jpeg_obj x; job_status := job_status x; state_change_pending := state_change_pending
     x; error_flag := error_flag x; abort_state := abort_state x; omx_handle := omx_handle
     x; p_in_omx_buf := p_in_omx_buf x; p_in_omx_thumb_buf := p_in_omx_thumb_buf x;
     p_out_omx_buf := p_out_omx_buf x; inputPort := inputPort x; outputPort := outputPort x;
     inputTmbPort := inputTmbPort x; exif_info_local := exif_info_local x; exif_count_local
     := exif_count_local x; ebd_count := ebd_count x; fbd_count := fbd_count x; active :=
     active x; config := config x; job_hist := job_hist x; encoding := encoding x;
     work_buffer := work_buffer x; omxEvent := omxEvent x; event_pending := event_pending x
     |}.

Definition put_dec_params (v : mm_jpeg_decode_params_t) (x : mm_jpeg_job_session_t) : mm_jpeg_job_session_t :=
  {| client_hdl := client_hdl x; jobId := jobId x; sessionId := sessionId x; params :=
     params x; dec_params := v; s_job := s_job x; s_decode_job := s_decode_job x; jpeg_obj
     := jpeg_obj x; job_status := job_status x; state_change_pending := state_change_pending
     x; error_flag := error_flag x; abort_state := abort_state x; omx_handle := omx_handle
     x; p_in_omx_buf := p_in_omx_buf x; p_in_omx_thumb_buf := p_in_omx_thumb_buf x;
     p_out_omx_buf := p_out_omx_buf x; inputPort := inputPort x; outputPort := outputPort x;
     inputTmbPort := inputTmbPort x; exif_info_local := exif_info_local x; exif_count_local
     := exif_count_local x; ebd_count := ebd_count x; fbd_count := fbd_count x; active :=
     active x; config := config x; job_hist := job_hist x; encoding := encoding x;
     work_buffer := work_buffer x; omxEvent := omxEvent x; event_pending := event_pending x
     |}.

Definition put_s_job (v : mm_jpeg_encode_job_t) (x : mm_jpeg_job_session_t) : mm_jpeg_job_session_t :=
  {| client_hdl := client_hdl x; jobId := jobId x; sessionId := sessionId x; params :=
     params x; dec_params := dec_params x; s_job := v; s_decode_job := s_decode_job x;
     jpeg_obj := jpeg_obj x; job_status := job_status x; state_change_pending :=
     state_change_pending x; error_flag := error_flag x; abort_state := abort_state x;
     omx_handle := omx_handle x; p_in_omx_buf := p_in_omx_buf x; p_in_omx_thumb_buf :=
     p_in_omx_thumb_buf x; p_out_omx_buf := p_out_omx_buf x; inputPort := inputPort x;
     outputPort := outputPort x; inputTmbPort := inputTmbPort x; exif_info_local :=
     exif_info_local x; exif_count_local := exif_count_local x; ebd_count := ebd_count x;
     fbd_count := fbd_count x; active := active x; config := config x; job_hist := job_hist
     x; encoding := encoding x; work_buffer := work_buffer x; omxEvent := omxEvent x;
     event_pending := event_pending x |}.

Definition put_s_decode_job (v : mm_jpeg_decode_job_t) (x : mm_jpeg_job_session_t) : mm_jpeg_job_session_t :=
  {| client_hdl := client_hdl x; jobId := jobId x; sessionId := sessionId x; params :=
     params x; dec_params := dec_params x; s_job := s_job x; s_decode_job := v; jpeg_obj :=
     jpeg_obj x; job_status := job_status x; state_change_pending := state_change_pending x;
     error_flag := error_flag x; abort_state := abort_state x; omx_handle := omx_handle x;
     p_in_omx_buf := p_in_omx_buf x; p_in_omx_thumb_buf := p_in_omx_thumb_buf x;
     p_out_omx_buf := p_out_omx_buf x; inputPort := inputPort x; outputPort := outputPort x;
     inputTmbPort := inputTmbPort x; exif_info_local := exif_info_local x; exif_count_local
     := exif_count_local x; ebd_count := ebd_count x; fbd_count := fbd_count x; active :=
     active x; config := config x; job_hist := job_hist x; encoding := encoding x;
     work_buffer := work_buffer x; omxEvent := omxEvent x; event_pending := event_pending x
     |}.

Definition put_jpeg_obj (v : bool) (x : mm_jpeg_job_session_t) : mm_jpeg_job_session_t :=
  {| client_hdl := client_hdl x; jobId := jobId x; sessionId := sessionId x; params :=
     params x; dec_params := dec_params x; s_job := s_job x; s_decode_job := s_decode_job x;
     jpeg_obj := v; job_status := job_status x; state_change_pending := state_change_pending
     x; error_flag := error_flag x; abort_state := abort_state x; omx_handle := omx_handle
     x; p_in_omx_buf := p_in_omx_buf x; p_in_omx_thumb_buf := p_in_omx_thumb_buf x;
     p_out_omx_buf := p_out_omx_buf x; inputPort := inputPort x; outputPort := outputPort x;
     inputTmbPort := inputTmbPort x; exif_info_local := exif_info_local x; exif_count_local
     := exif_count_local x; ebd_count := ebd_count x; fbd_count := fbd_count x; active :=
     active x; config := config x; job_hist := job_hist x; encoding := encoding x;
     work_buffer := work_buffer x; omxEvent := omxEvent x; event_pending := event_pending x
     |}.

Definition put_job_status (v : jpeg_job_status_t) (x : mm_jpeg_job_session_t) : mm_jpeg_job_session_t :=
  {| client_hdl := client_hdl x; jobId := jobId x; sessionId := sessionId x; params :=
     params x; dec_params := dec_params x; s_job := s_job x; s_decode_job := s_decode_job x;
     jpeg_obj := jpeg_obj x; job_status := v; state_change_pending := state_change_pending
     x; error_flag := error_flag x; abort_state := abort_state x; omx_handle := omx_handle
     x; p_in_omx_buf := p_in_omx_buf x; p_in_omx_thumb_buf := p_in_omx_thumb_buf x;
     p_out_omx_buf := p_out_omx_buf x; inputPort := inputPort x; outputPort := outputPort x;
     inputTmbPort := inputTmbPort x; exif_info_local := exif_info_local x; exif_count_local
     := exif_count_local x; ebd_count := ebd_count x; fbd_count := fbd_count x; active :=
     active x; config := config x; job_hist := job_hist x; encoding := encoding x;
     work_buffer := work_buffer x; omxEvent := omxEvent x; event_pending := event_pending x
     |}.

Definition put_state_change_pending (v : bool) (x : mm_jpeg_job_session_t) : mm_jpeg_job_session_t :=
  {| client_hdl := client_hdl x; jobId := jobId x; sessionId := sessionId x; params :=
     params x; dec_params := dec_params x; s_job := s_job x; s_decode_job := s_decode_job x;
     jpeg_obj := jpeg_obj x; job_status := job_status x; state_change_pending := v;
     error_flag := error_flag x; abort_state := abort_state x; omx_handle := omx_handle x;
     p_in_omx_buf := p_in_omx_buf x; p_in_omx_thumb_buf := p_in_omx_thumb_buf x;
     p_out_omx_buf := p_out_omx_buf x; inputPort := inputPort x; outputPort := outputPort x;
     inputTmbPort := inputTmbPort x; exif_info_local := exif_info_local x; exif_count_local
     := exif_count_local x; ebd_count := ebd_count x; fbd_count := fbd_count x; active :=
     active x; config := config x; job_hist := job_hist x; encoding := encoding x;
     work_buffer := work_buffer x; omxEvent := omxEvent x; event_pending := event_pending x
     |}.

Definition put_error_flag (v : Z) (x : mm_jpeg_job_session_t) : mm_jpeg_job_session_t :=
  {| client_hdl := client_hdl x; jobId := jobId x; sessionId := sessionId x; params :=
     params x; dec_params := dec_params x; s_job := s_job x; s_decode_job := s_decode_job x;
     jpeg_obj := jpeg_obj x; job_status := job_status x; state_change_pending :=
     state_change_pending x; error_flag := v; abort_state := abort_state x; omx_handle :=
     omx_handle x; p_in_omx_buf := p_in_omx_buf x; p_in_omx_thumb_buf := p_in_omx_thumb_buf
     x; p_out_omx_buf := p_out_omx_buf x; inputPort := inputPort x; outputPort := outputPort
     x; inputTmbPort := inputTmbPort x; exif_info_local := exif_info_local x;
     exif_count_local := exif_count_local x; ebd_count := ebd_count x; fbd_count :=
     fbd_count x; active := active x; config := config x; job_hist := job_hist x; encoding
     := encoding x; work_buffer := work_buffer x; omxEvent := omxEvent x; event_pending :=
     event_pending x |}.

Definition put_abort_state (v : mm_jpeg_abort_state_t) (x : mm_jpeg_job_session_t) : mm_jpeg_job_session_t :=
  {| client_hdl := client_hdl x; jobId := jobId x; sessionId := sessionId x; params :=
     params x; dec_params := dec_params x; s_job := s_job x; s_decode_job := s_decode_job x;
     jpeg_obj := jpeg_obj x; job_status := job_status x; state_change_pending :=
     state_change_pending x; error_flag := error_flag x; abort_state := v; omx_handle :=
     omx_handle x; p_in_omx_buf := p_in_omx_buf x; p_in_omx_thumb_buf := p_in_omx_thumb_buf
     x; p_out_omx_buf := p_out_omx_buf x; inputPort := inputPort x; outputPort := outputPort
     x; inputTmbPort := inputTmbPort x; exif_info_local := exif_info_local x;
     exif_count_local := exif_count_local x; ebd_count := ebd_count x; fbd_count :=
     fbd_count x; active := active x; config := config x; job_hist := job_hist x; encoding
     := encoding x; work_buffer := work_buffer x; omxEvent := omxEvent x; event_pending :=
     event_pending x |}.

Definition put_omx_handle (v : option Z) (x : mm_jpeg_job_session_t) : mm_jpeg_job_session_t :=
  {| client_hdl := client_hdl x; jobId := jobId x; sessionId := sessionId x; params :=
     params x; dec_params := dec_params x; s_job := s_job x; s_decode_job := s_decode_job x;
     jpeg_obj := jpeg_obj x; job_status := job_status x; state_change_pending :=
     state_change_pending x; error_flag := error_flag x; abort_state := abort_state x;
     omx_handle := v; p_in_omx_buf := p_in_omx_buf x; p_in_omx_thumb_buf :=
     p_in_omx_thumb_buf x; p_out_omx_buf := p_out_omx_buf x; inputPort := inputPort x;
     outputPort := outputPort x; inputTmbPort := inputTmbPort x; exif_info_local :=
     exif_info_local x; exif_count_local := exif_count_local x; ebd_count := ebd_count x;
     fbd_count := fbd_count x; active := active x; config := config x; job_hist := job_hist
     x; encoding := encoding x; work_buffer := work_buffer x; omxEvent := omxEvent x;
     event_pending := event_pending x |}.

Definition put_p_in_omx_buf (v : list (option Z)) (x : mm_jpeg_job_session_t) : mm_jpeg_job_session_t :=
  {| client_hdl := client_hdl x; jobId := jobId x; sessionId := sessionId x; params :=
     params x; dec_params := dec_params x; s_job := s_job x; s_decode_job := s_decode_job x;
     jpeg_obj := jpeg_obj x; job_status := job_status x; state_change_pending :=
     state_change_pending x; error_flag := error_flag x; abort_state := abort_state x;
     omx_handle := omx_handle x; p_in_omx_buf := v; p_in_omx_thumb_buf := p_in_omx_thumb_buf
     x; p_out_omx_buf := p_out_omx_buf x; inputPort := inputPort x; outputPort := outputPort
     x; inputTmbPort := inputTmbPort x; exif_info_local := exif_info_local x;
     exif_count_local := exif_count_local x; ebd_count := ebd_count x; fbd_count :=
     fbd_count x; active := active x; config := config x; job_hist := job_hist x; encoding
     := encoding x; work_buffer := work_buffer x; omxEvent := omxEvent x; event_pending :=
     event_pending x |}.

Definition put_p_in_omx_thumb_buf (v : list (option Z)) (x : mm_jpeg_job_session_t) : mm_jpeg_job_session_t :=
  {| client_hdl := client_hdl x; jobId := jobId x; sessionId := sessionId x; params :=
     params x; dec_params := dec_params x; s_job := s_job x; s_decode_job := s_decode_job x;
     jpeg_obj := jpeg_obj x; job_status := job_status x; state_change_pending :=
     state_change_pending x; error_flag := error_flag x; abort_state := abort_state x;
     omx_handle := omx_handle x; p_in_omx_buf := p_in_omx_buf x; p_in_omx_thumb_buf := v;
     p_out_omx_buf := p_out_omx_buf x; inputPort := inputPort x; outputPort := outputPort x;
     inputTmbPort := inputTmbPort x; exif_info_local := exif_info_local x; exif_count_local
     := exif_count_local x; ebd_count := ebd_count x; fbd_count := fbd_count x; active :=
     active x; config := config x; job_hist := job_hist x; encoding := encoding x;
     work_buffer := work_buffer x; omxEvent := omxEvent x; event_pending := event_pending x
     |}.

Definition put_p_out_omx_buf (v : list (option Z)) (x : mm_jpeg_job_session_t) : mm_jpeg_job_session_t :=
  {| client_hdl := client_hdl x; jobId := jobId x; sessionId := sessionId x; params :=
     params x; dec_params := dec_params x; s_job := s_job x; s_decode_job := s_decode_job x;
     jpeg_obj := jpeg_obj x; job_status := job_status x; state_change_pending :=
     state_change_pending x; error_flag := error_flag x; abort_state := abort_state x;
     omx_handle := omx_handle x; p_in_omx_buf := p_in_omx_buf x; p_in_omx_thumb_buf :=
     p_in_omx_thumb_buf x; p_out_omx_buf := v; inputPort := inputPort x; outputPort :=
     outputPort x; inputTmbPort := inputTmbPort x; exif_info_local := exif_info_local x;
     exif_count_local := exif_count_local x; ebd_count := ebd_count x; fbd_count :=
     fbd_count x; active := active x; config := config x; job_hist := job_hist x; encoding
     := encoding x; work_buffer := work_buffer x; omxEvent := omxEvent x; event_pending :=
     event_pending x |}.

Definition put_inputPort (v : omx_port) (x : mm_jpeg_job_session_t) : mm_jpeg_job_session_t :=
  {| client_hdl := client_hdl x; jobId := jobId x; sessionId := sessionId x; params :=
     params x; dec_params := dec_params x; s_job := s_job x; s_decode_job := s_decode_job x;
     jpeg_obj := jpeg_obj x; job_status := job_status x; state_change_pending :=
     state_change_pending x; error_flag := error_flag x; abort_state := abort_state x;
     omx_handle := omx_handle x; p_in_omx_buf := p_in_omx_buf x; p_in_omx_thumb_buf :=
     p_in_omx_thumb_buf x; p_out_omx_buf := p_out_omx_buf x; inputPort := v; outputPort :=
     outputPort x; inputTmbPort := inputTmbPort x; exif_info_local := exif_info_local x;
     exif_count_local := exif_count_local x; ebd_count := ebd_count x; fbd_count :=
     fbd_count x; active := active x; config := config x; job_hist := job_hist x; encoding
     := encoding x; work_buffer := work_buffer x; omxEvent := omxEvent x; event_pending :=
     event_pending x |}.

Definition put_outputPort (v : omx_port) (x : mm_jpeg_job_session_t) : mm_jpeg_job_session_t :=
  {| client_hdl := client_hdl x; jobId := jobId x; sessionId := sessionId x; params :=
     params x; dec_params := dec_params x; s_job := s_job x; s_decode_job := s_decode_job x;
     jpeg_obj := jpeg_obj x; job_status := job_status x; state_change_pending :=
     state_change_pending x; error_flag := error_flag x; abort_state := abort_state x;
     omx_handle := omx_handle x; p_in_omx_buf := p_in_omx_buf x; p_in_omx_thumb_buf :=
     p_in_omx_thumb_buf x; p_out_omx_buf := p_out_omx_buf x; inputPort := inputPort x;
     outputPort := v; inputTmbPort := inputTmbPort x; exif_info_local := exif_info_local x;
     exif_count_local := exif_count_local x; ebd_count := ebd_count x; fbd_count :=
     fbd_count x; active := active x; config := config x; job_hist := job_hist x; encoding
     := encoding x; work_buffer := work_buffer x; omxEvent := omxEvent x; event_pending :=
     event_pending x |}.

Definition put_inputTmbPort (v : omx_port) (x : mm_jpeg_job_session_t) : mm_jpeg_job_session_t :=
  {| client_hdl := client_hdl x; jobId := jobId x; sessionId := sessionId x; params :=
     params x; dec_params := dec_params x; s_job := s_job x; s_decode_job := s_decode_job x;
     jpeg_obj := jpeg_obj x; job_status := job_status x; state_change_pending :=
     state_change_pending x; error_flag := error_flag x; abort_state := abort_state x;
     omx_handle := omx_handle x; p_in_omx_buf := p_in_omx_buf x; p_in_omx_thumb_buf :=
     p_in_omx_thumb_buf x; p_out_omx_buf := p_out_omx_buf x; inputPort := inputPort x;
     outputPort := outputPort x; inputTmbPort := v; exif_info_local := exif_info_local x;
     exif_count_local := exif_count_local x; ebd_count := ebd_count x; fbd_count :=
     fbd_count x; active := active x; config := config x; job_hist := job_hist x; encoding
     := encoding x; work_buffer := work_buffer x; omxEvent := omxEvent x; event_pending :=
     event_pending x |}.

Definition put_exif_info_local (v : list QEXIF_INFO_DATA) (x : mm_jpeg_job_session_t) : mm_jpeg_job_session_t :=
  {| client_hdl := client_hdl x; jobId := jobId x; sessionId := sessionId x; params :=
     params x; dec_params := dec_params x; s_job := s_job x; s_decode_job := s_decode_job x;
     jpeg_obj := jpeg_obj x; job_status := job_status x; state_change_pending :=
     state_change_pending x; error_flag := error_flag x; abort_state := abort_state x;
     omx_handle := omx_handle x; p_in_omx_buf := p_in_omx_buf x; p_in_omx_thumb_buf :=
     p_in_omx_thumb_buf x; p_out_omx_buf := p_out_omx_buf x; inputPort := inputPort x;
     outputPort := outputPort x; inputTmbPort := inputTmbPort x; exif_info_local := v;
     exif_count_local := exif_count_local x; ebd_count := ebd_count x; fbd_count :=
     fbd_count x; active := active x; config := config x; job_hist := job_hist x; encoding
     := encoding x; work_buffer := work_buffer x; omxEvent := omxEvent x; event_pending :=
     event_pending x |}.

Definition put_exif_count_local (v : Z) (x : mm_jpeg_job_session_t) : mm_jpeg_job_session_t :=
  {| client_hdl := client_hdl x; jobId := jobId x; sessionId := sessionId x; params :=
     params x; dec_params := dec_params x; s_job := s_job x; s_decode_job := s_decode_job x;
     jpeg_obj := jpeg_obj x; job_status := job_status x; state_change_pending :=
     state_change_pending x; error_flag := error_flag x; abort_state := abort_state x;
     omx_handle := omx_handle x; p_in_omx_buf := p_in_omx_buf x; p_in_omx_thumb_buf :=
     p_in_omx_thumb_buf x; p_out_omx_buf := p_out_omx_buf x; inputPort := inputPort x;
     outputPort := outputPort x; inputTmbPort := inputTmbPort x; exif_info_local :=
     exif_info_local x; exif_count_local := v; ebd_count := ebd_count x; fbd_count :=
     fbd_count x; active := active x; config := config x; job_hist := job_hist x; encoding
     := encoding x; work_buffer := work_buffer x; omxEvent := omxEvent x; event_pending :=
     event_pending x |}.

Definition put_ebd_count (v : Z) (x : mm_jpeg_job_session_t) : mm_jpeg_job_session_t :=
  {| client_hdl := client_hdl x; jobId := jobId x; sessionId := sessionId x; params :=
     params x; dec_params := dec_params x; s_job := s_job x; s_decode_job := s_decode_job x;
     jpeg_obj := jpeg_obj x; job_status := job_status x; state_change_pending :=
     state_change_pending x; error_flag := error_flag x; abort_state := abort_state x;
     omx_handle := omx_handle x; p_in_omx_buf := p_in_omx_buf x; p_in_omx_thumb_buf :=
     p_in_omx_thumb_buf x; p_out_omx_buf := p_out_omx_buf x; inputPort := inputPort x;
     outputPort := outputPort x; inputTmbPort := inputTmbPort x; exif_info_local :=
     exif_info_local x; exif_count_local := exif_count_local x; ebd_count := v; fbd_count :=
     fbd_count x; active := active x; config := config x; job_hist := job_hist x; encoding
     := encoding x; work_buffer := work_buffer x; omxEvent := omxEvent x; event_pending :=
     event_pending x |}.

Definition put_fbd_count (v : Z) (x : mm_jpeg_job_session_t) : mm_jpeg_job_session_t :=
  {| client_hdl := client_hdl x; jobId := jobId x; sessionId := sessionId x; params :=
     params x; dec_params := dec_params x; s_job := s_job x; s_decode_job := s_decode_job x;
     jpeg_obj := jpeg_obj x; job_status := job_status x; state_change_pending :=
     state_change_pending x; error_flag := error_flag x; abort_state := abort_state x;
     omx_handle := omx_handle x; p_in_omx_buf := p_in_omx_buf x; p_in_omx_thumb_buf :=
     p_in_omx_thumb_buf x; p_out_omx_buf := p_out_omx_buf x; inputPort := inputPort x;
     outputPort := outputPort x; inputTmbPort := inputTmbPort x; exif_info_local :=
     exif_info_local x; exif_count_local := exif_count_local x; ebd_count := ebd_count x;
     fbd_count := v; active := active x; config := config x; job_hist := job_hist x;
     encoding := encoding x; work_buffer := work_buffer x; omxEvent := omxEvent x;
     event_pending := event_pending x |}.

Definition put_active (v : bool) (x : mm_jpeg_job_session_t) : mm_jpeg_job_session_t :=
  {| client_hdl := client_hdl x; jobId := jobId x; sessionId := sessionId x; params :=
     params x; dec_params := dec_params x; s_job := s_job x; s_decode_job := s_decode_job x;
     jpeg_obj := jpeg_obj x; job_status := job_status x; state_change_pending :=
     state_change_pending x; error_flag := error_flag x; abort_state := abort_state x;
     omx_handle := omx_handle x; p_in_omx_buf := p_in_omx_buf x; p_in_omx_thumb_buf :=
     p_in_omx_thumb_buf x; p_out_omx_buf := p_out_omx_buf x; inputPort := inputPort x;
     outputPort := outputPort x; inputTmbPort := inputTmbPort x; exif_info_local :=
     exif_info_local x; exif_count_local := exif_count_local x; ebd_count := ebd_count x;
     fbd_count := fbd_count x; active := v; config := config x; job_hist := job_hist x;
     encoding := encoding x; work_buffer := work_buffer x; omxEvent := omxEvent x;
     event_pending := event_pending x |}.

Definition put_config (v : bool) (x : mm_jpeg_job_session_t) : mm_jpeg_job_session_t :=
  {| client_hdl := client_hdl x; jobId := jobId x; sessionId := sessionId x; params :=
     params x; dec_params := dec_params x; s_job := s_job x; s_decode_job := s_decode_job x;
     jpeg_obj := jpeg_obj x; job_status := job_status x; state_change_pending :=
     state_change_pending x; error_flag := error_flag x; abort_state := abort_state x;
     omx_handle := omx_handle x; p_in_omx_buf := p_in_omx_buf x; p_in_omx_thumb_buf :=
     p_in_omx_thumb_buf x; p_out_omx_buf := p_out_omx_buf x; inputPort := inputPort x;
     outputPort := outputPort x; inputTmbPort := inputTmbPort x; exif_info_local :=
     exif_info_local x; exif_count_local := exif_count_local x; ebd_count := ebd_count x;
     fbd_count := fbd_count x; active := active x; config := v; job_hist := job_hist x;
     encoding := encoding x; work_buffer := work_buffer x; omxEvent := omxEvent x;
     event_pending := event_pending x |}.

Definition put_job_hist (v : Z) (x : mm_jpeg_job_session_t) : mm_jpeg_job_session_t :=
  {| client_hdl := client_hdl x; jobId := jobId x; sessionId := sessionId x; params :=
     params x; dec_params := dec_params x; s_job := s_job x; s_decode_job := s_decode_job x;
     jpeg_obj := jpeg_obj x; job_status := job_status x; state_change_pending :=
     state_change_pending x; error_flag := error_flag x; abort_state := abort_state x;
     omx_handle := omx_handle x; p_in_omx_buf := p_in_omx_buf x; p_in_omx_thumb_buf :=
     p_in_omx_thumb_buf x; p_out_omx_buf := p_out_omx_buf x; inputPort := inputPort x;
     outputPort := outputPort x; inputTmbPort := inputTmbPort x; exif_info_local :=
     exif_info_local x; exif_count_local := exif_count_local x; ebd_count := ebd_count x;
     fbd_count := fbd_count x; active := active x; config := config x; job_hist := v;
     encoding := encoding x; work_buffer := work_buffer x; omxEvent := omxEvent x;
     event_pending := event_pending x |}.

Definition put_encoding (v : bool) (x : mm_jpeg_job_session_t) : mm_jpeg_job_session_t :=
  {| client_hdl := client_hdl x; jobId := jobId x; sessionId := sessionId x; params :=
     params x; dec_params := dec_params x; s_job := s_job x; s_decode_job := s_decode_job x;
     jpeg_obj := jpeg_obj x; job_status := job_status x; state_change_pending :=
     state_change_pending x; error_flag := error_flag x; abort_state := abort_state x;
     omx_handle := omx_handle x; p_in_omx_buf := p_in_omx_buf x; p_in_omx_thumb_buf :=
     p_in_omx_thumb_buf x; p_out_omx_buf := p_out_omx_buf x; inputPort := inputPort x;
     outputPort := outputPort x; inputTmbPort := inputTmbPort x; exif_info_local :=
     exif_info_local x; exif_count_local := exif_count_local x; ebd_count := ebd_count x;
     fbd_count := fbd_count x; active := active x; config := config x; job_hist := job_hist
     x; encoding := v; work_buffer := work_buffer x; omxEvent := omxEvent x; event_pending
     := event_pending x |}.

Definition put_work_buffer (v : buffer_t) (x : mm_jpeg_job_session_t) : mm_jpeg_job_session_t :=
  {| client_hdl := client_hdl x; jobId := jobId x; sessionId := sessionId x; params :=
     params x; dec_params := dec_params x; s_job := s_job x; s_decode_job := s_decode_job x;
     jpeg_obj := jpeg_obj x; job_status := job_status x; state_change_pending :=
     state_change_pending x; error_flag := error_flag x; abort_state := abort_state x;
     omx_handle := omx_handle x; p_in_omx_buf := p_in_omx_buf x; p_in_omx_thumb_buf :=
     p_in_omx_thumb_buf x; p_out_omx_buf := p_out_omx_buf x; inputPort := inputPort x;
     outputPort := outputPort x; inputTmbPort := inputTmbPort x; exif_info_local :=
     exif_info_local x; exif_count_local := exif_count_local x; ebd_count := ebd_count x;
     fbd_count := fbd_count x; active := active x; config := config x; job_hist := job_hist
     x; encoding := encoding x; work_buffer := v; omxEvent := omxEvent x; event_pending :=
     event_pending x |}.

Definition put_omxEvent (v : OMX_EVENTTYPE) (x : mm_jpeg_job_session_t) : mm_jpeg_job_session_t :=
  {| client_hdl := client_hdl x; jobId := jobId x; sessionId := sessionId x; params :=
     params x; dec_params := dec_params x; s_job := s_job x; s_decode_job := s_decode_job x;
     jpeg_obj := jpeg_obj x; job_status := job_status x; state_change_pending :=
     state_change_pending x; error_flag := error_flag x; abort_state := abort_state x;
     omx_handle := omx_handle x; p_in_omx_buf := p_in_omx_buf x; p_in_omx_thumb_buf :=
     p_in_omx_thumb_buf x; p_out_omx_buf := p_out_omx_buf x; inputPort := inputPort x;
     outputPort := outputPort x; inputTmbPort := inputTmbPort x; exif_info_local :=
     exif_info_local x; exif_count_local := exif_count_local x; ebd_count := ebd_count x;
     fbd_count := fbd_count x; active := active x; config := config x; job_hist := job_hist
     x; encoding := encoding x; work_buffer := work_buffer x; omxEvent := v; event_pending
     := event_pending x |}.

Definition put_event_pending (v : bool) (x : mm_jpeg_job_session_t) : mm_jpeg_job_session_t :=
  {| client_hdl := client_hdl x; jobId := jobId x; sessionId := sessionId x; params :=
     params x; dec_params := dec_params x; s_job := s_job x; s_decode_job := s_decode_job x;
     jpeg_obj := jpeg_obj x; job_status := job_status x; state_change_pending :=
     state_change_pending x; error_flag := error_flag x; abort_state := abort_state x;
     omx_handle := omx_handle x; p_in_omx_buf := p_in_omx_buf x; p_in_omx_thumb_buf :=
     p_in_omx_thumb_buf x; p_out_omx_buf := p_out_omx_buf x; inputPort := inputPort x;
     outputPort := outputPort x; inputTmbPort := inputTmbPort x; exif_info_local :=
     exif_info_local x; exif_count_local := exif_count_local x; ebd_count := ebd_count x;
     fbd_count := fbd_count x; active := active x; config := config x; job_hist := job_hist
     x; encoding := encoding x; work_buffer := work_buffer x; omxEvent := omxEvent x;
     event_pending := v |}.

Record mm_jpeg_client_t := {
  is_used : Z;
  clnt_handle : Z;
  session : list mm_jpeg_job_session_t
}.

Definition put_is_used (v : Z) (x : mm_jpeg_client_t) : mm_jpeg_client_t :=
  {| is_used := v; clnt_handle := clnt_handle x; session := session x |}.

Definition put_clnt_handle (v : Z) (x : mm_jpeg_client_t) : mm_jpeg_client_t :=
  {| is_used := is_used x; clnt_handle := v; session := session x |}.

Definition put_session (v : list mm_jpeg_job_session_t) (x : mm_jpeg_client_t) : mm_jpeg_client_t :=
  {| is_used := is_used x; clnt_handle := clnt_handle x; session := v |}.

(** [pid]: whether the thread runs. *)
Record mm_jpeg_job_cmd_thread_t := {
  pid : bool;
  job_sem : Z;
  job_queue : option (list mm_jpeg_job_q_node_t)
}.

Definition put_pid (v : bool) (x : mm_jpeg_job_cmd_thread_t) : mm_jpeg_job_cmd_thread_t :=
  {| pid := v; job_sem := job_sem x; job_queue := job_queue x |}.

Definition put_job_sem (v : Z) (x : mm_jpeg_job_cmd_thread_t) : mm_jpeg_job_cmd_thread_t :=
  {| pid := pid x; job_sem := v; job_queue := job_queue x |}.

Definition put_job_queue (v : option (list mm_jpeg_job_q_node_t)) (x : mm_jpeg_job_cmd_thread_t) : mm_jpeg_job_cmd_thread_t :=
  {| pid := pid x; job_sem := job_sem x; job_queue := v |}.

Record mm_jpeg_obj := {
  num_clients : Z;
  clnt_mgr : list mm_jpeg_client_t;
  job_mgr : mm_jpeg_job_cmd_thread_t;
  ongoing_job_q : option (list mm_jpeg_job_q_node_t);
  ionBuffer : buffer_t
}.

Definition put_num_clients (v : Z) (x : mm_jpeg_obj) : mm_jpeg_obj :=
  {| num_clients := v; clnt_mgr := clnt_mgr x; job_mgr := job_mgr x; ongoing_job_q :=
     ongoing_job_q x; ionBuffer := ionBuffer x |}.

Definition put_clnt_mgr (v : list mm_jpeg_client_t) (x : mm_jpeg_obj) : mm_jpeg_obj :=
  {| num_clients := num_clients x; clnt_mgr := v; job_mgr := job_mgr x; ongoing_job_q :=
     ongoing_job_q x; ionBuffer := ionBuffer x |}.

Definition put_job_mgr (v : mm_jpeg_job_cmd_thread_t) (x : mm_jpeg_obj) : mm_jpeg_obj :=
  {| num_clients := num_clients x; clnt_mgr := clnt_mgr x; job_mgr := v; ongoing_job_q :=
     ongoing_job_q x; ionBuffer := ionBuffer x |}.

Definition put_ongoing_job_q (v : option (list mm_jpeg_job_q_node_t)) (x : mm_jpeg_obj) : mm_jpeg_obj :=
  {| num_clients := num_clients x; clnt_mgr := clnt_mgr x; job_mgr := job_mgr x;
     ongoing_job_q := v; ionBuffer := ionBuffer x |}.

Definition put_ionBuffer (v : buffer_t) (x : mm_jpeg_obj) : mm_jpeg_obj :=
  {| num_clients := num_clients x; clnt_mgr := clnt_mgr x; job_mgr := job_mgr x;
     ongoing_job_q := ongoing_job_q x; ionBuffer := v |}.

(** [j_obj] is the object that [g_jpeg_obj] or [g_jpegdec_obj] points to. *)
Record jworld := {
  j_obj : option mm_jpeg_obj;
  g_handler_history_count : Z;
  j_omx : oworld;
  j_heap : xheap;
  j_tr : jhistory
}.

Definition put_j_obj (v : option mm_jpeg_obj) (x : jworld) : jworld :=
  {| j_obj := v; g_handler_history_count := g_handler_history_count x; j_omx := j_omx x;
     j_heap := j_heap x; j_tr := j_tr x |}.

Definition put_g_handler_history_count (v : Z) (x : jworld) : jworld :=
  {| j_obj := j_obj x; g_handler_history_count := v; j_omx := j_omx x; j_heap := j_heap x;
     j_tr := j_tr x |}.

Definition put_j_omx (v : oworld) (x : jworld) : jworld :=
  {| j_obj := j_obj x; g_handler_history_count := g_handler_history_count x; j_omx := v;
     j_heap := j_heap x; j_tr := j_tr x |}.

Definition put_j_heap (v : xheap) (x : jworld) : jworld :=
  {| j_obj := j_obj x; g_handler_history_count := g_handler_history_count x; j_omx := j_omx
     x; j_heap := v; j_tr := j_tr x |}.

Definition put_j_tr (v : jhistory) (x : jworld) : jworld :=
  {| j_obj := j_obj x; g_handler_history_count := g_handler_history_count x; j_omx := j_omx
     x; j_heap := j_heap x; j_tr := v |}.

(** ** Zeroed memory *)

Definition zero_params : mm_jpeg_encode_params_t :=
  let b := {| buf_vaddr := 0; fd := 0; buf_size := 0; offset := zero_frame |} in
  {| num_src_bufs := 0; num_tmb_bufs := 0; num_dst_bufs := 0; encode_thumbnail := 0; src_main_buf := replicate MM_JPEG_MAX_BUF b;
     src_thumb_buf := replicate MM_JPEG_MAX_BUF b; dest_buf := replicate MM_JPEG_MAX_BUF b;
     color_format := MM_JPEG_COLOR_FORMAT_YCRCBLP_H2V2; thumb_color_format := MM_JPEG_COLOR_FORMAT_YCRCBLP_H2V2;
     quality := 0; jpeg_cb := None; userdata := 0 |}.

Definition zero_dim : mm_jpeg_dim_t :=
  let d := {| width := 0; height := 0 |} in
  {| src_dim := d; dst_dim := d; crop := {| left := 0; top := 0; r_width := 0; r_height := 0 |} |}.

Definition zero_dec_params : mm_jpeg_decode_params_t :=
  let b := {| buf_vaddr := 0; fd := 0; buf_size := 0; offset := zero_frame |} in
  {| d_num_src_bufs := 0; d_num_dst_bufs := 0; d_src_main_buf := replicate MM_JPEG_MAX_BUF b; d_dest_buf := replicate MM_JPEG_MAX_BUF b;
     d_color_format := MM_JPEG_COLOR_FORMAT_YCRCBLP_H2V2; d_jpeg_cb := None; d_userdata := 0 |}.

Definition zero_dec_job : mm_jpeg_decode_job_t := {| d_src_index := 0; d_dst_index := 0; d_main_dim := zero_dim; d_session_id := 0 |}.

Definition zero_exif_params : mm_jpeg_exif_params_t :=
  {| e_ae_params := {| exp_time := f_of_Z 0; iso_value := 0 |};
     e_sensor_params := {| s_flash_mode := CAM_FLASH_MODE_OFF; aperture_value := f_of_Z 0 |};
     ui_flash_mode := CAM_FLASH_MODE_OFF; flash_presence := 0; red_eye := 0 |}.

Definition zero_job : mm_jpeg_encode_job_t :=
  {| src_index := 0; dst_index := 0; thumb_index := 0; thumb_dim := zero_dim; job_rotation := 0; main_dim := zero_dim;
     session_id := 0; p_metadata := None; exif_entries := 0; cam_exif_params := zero_exif_params |}.

Definition zero_exif_table : list QEXIF_INFO_DATA := replicate (Z.to_nat MAX_EXIF_TABLE_ENTRIES) zero_exif.

Definition zero_session : mm_jpeg_job_session_t :=
  {| client_hdl := 0; jobId := 0; sessionId := 0; params := zero_params; dec_params := zero_dec_params;
     s_job := zero_job; s_decode_job := zero_dec_job; jpeg_obj := false;
     job_status := JPEG_JOB_STATUS_DONE; state_change_pending := false; error_flag := 0; abort_state := MM_JPEG_ABORT_NONE;
     omx_handle := None; p_in_omx_buf := replicate MM_JPEG_MAX_BUF None; p_in_omx_thumb_buf := replicate MM_JPEG_MAX_BUF None;
     p_out_omx_buf := replicate MM_JPEG_MAX_BUF None; inputPort := zero_port; outputPort := zero_port; inputTmbPort := zero_port;
     exif_info_local := zero_exif_table; exif_count_local := 0; ebd_count := 0; fbd_count := 0; active := false; config := false;
     job_hist := 0; encoding := false; work_buffer := zero_buffer; omxEvent := OMX_EventCmdComplete; event_pending := false |}.

Definition zero_client : mm_jpeg_client_t :=
  {| is_used := 0; clnt_handle := 0; session := replicate MM_JPEG_MAX_SESSION zero_session |}.

Definition zero_job_mgr : mm_jpeg_job_cmd_thread_t := {| pid := false; job_sem := 0; job_queue := None |}.

Definition zero_obj : mm_jpeg_obj :=
  {| num_clients := 0; clnt_mgr := replicate MAX_JPEG_CLIENT_NUM zero_client; job_mgr := zero_job_mgr; ongoing_job_q := None;
     ionBuffer := zero_buffer |}.

(** ** Pointers to sessions *)

Definition session_of (o : mm_jpeg_obj) (p : sptr) : option mm_jpeg_job_session_t :=
  c ← clnt_mgr o !! p.1; session c !! p.2.
Definition with_session (p : sptr) (s : mm_jpeg_job_session_t) (o : mm_jpeg_obj) : mm_jpeg_obj :=
  put_clnt_mgr (alter (fun c => put_session (<[p.2 := s]> (session c)) c) p.1 (clnt_mgr o)) o.

(** The pointer as the number that a component is given. *)
Definition sptr_to_Z (p : sptr) : Z := Z.of_nat (p.1 * MM_JPEG_MAX_SESSION + p.2).
Definition Z_to_sptr (z : Z) : sptr := (Z.to_nat z / MM_JPEG_MAX_SESSION, Z.to_nat z mod MM_JPEG_MAX_SESSION)%nat.

Definition GET_CLIENT_IDX (x : Z) : Z := Z.land x 0xff.
Definition GET_SESSION_IDX (x : Z) : Z := Z.land (Z.shiftr x 8) 0xff.

End Object.

(** Whether a component exists. *)
Definition comp_live (h : Z) (tr : ohistory) : bool := bool_decide (h ∈ alive tr).

(** What a component was given with its callbacks. *)
Fixpoint app_data (h : Z) (tr : ohistory) : option omx_app :=
  match tr with
  | [] => None
  | OSetCallbacks h' p :: tr => if h =? h' then Some p else app_data h tr
  | _ :: tr => app_data h tr
  end.
