(* ===== verification/JpegBase.v ===== *)
(** * Sessions, queues and callbacks of the JPEG library

    [mm_jpeg_inlines.h], the queues and the semaphore of the job manager, and
    the callbacks of [mm_jpeg.c] and [mm_jpegdec.c].

    A component calls back only with the pointer it was given and only while
    it exists.  Its callbacks take the mutex of the session, so they run where
    the code does not hold it: after a call of the component outside the mutex
    ([deliver]), and inside [pthread_cond_wait] ([cond_wait]), which ends with
    the first callback that signals; which callbacks come is up to the
    environment.  A wait without a signal has no result.  New jobs, which other
    threads may queue during a turn of the job manager, only append to a queue
    the turn has left and raise the semaphore; they run between the turns. *)

From Stdlib Require Import ZArith Lia.
From stdpp Require Import numbers list gmap strings.
From S2P Require Import Prelude CamTypes JpegQueue QomxCore JpegExif JpegData.

Section Code.
Context `{FL : Floats} `{OE : OmxEnv} `{JE : JpegEnv}.

(** ** The outside *)

Definition jext {A} (f : jhistory -> A) (e : A -> jev) : M jworld A := fun w =>
  Some (f (j_tr w), put_j_tr (e (f (j_tr w)) :: j_tr w) w).
Definition jnote (e : jev) : M jworld unit := fun w => Some (tt, put_j_tr (e :: j_tr w) w).
Definition jmalloc : M jworld bool := jext env_jmalloc JMalloc.
Definition omx {A} (m : M oworld A) : M jworld A := zoom j_omx put_j_omx m.

Definition the_obj : M jworld mm_jpeg_obj := o ← gets j_obj; deref o.
Definition upd_obj (f : mm_jpeg_obj -> mm_jpeg_obj) : M jworld unit := o ← the_obj; modify (put_j_obj (Some (f o))).
Definition sess (p : sptr) : M jworld mm_jpeg_job_session_t := o ← the_obj; deref (session_of o p).
Definition upd_sess (p : sptr) (f : mm_jpeg_job_session_t -> mm_jpeg_job_session_t) : M jworld unit :=
  s ← sess p; upd_obj (with_session p (f s)).

(** ** Queues and the semaphore *)

Definition todo_q : M jworld (list mm_jpeg_job_q_node_t) := o ← the_obj; deref (job_queue (job_mgr o)).
Definition put_todo_q (q : list mm_jpeg_job_q_node_t) : M jworld unit :=
  upd_obj (fun o => put_job_mgr (put_job_queue (Some q) (job_mgr o)) o).
Definition ongoing_q : M jworld (list mm_jpeg_job_q_node_t) := o ← the_obj; deref (ongoing_job_q o).
Definition put_ongoing_q (q : list mm_jpeg_job_q_node_t) : M jworld unit := upd_obj (put_ongoing_job_q (Some q)).

(** [mm_jpeg_queue_enq] on either queue. *)
Definition enq (q : M jworld (list mm_jpeg_job_q_node_t)) (put : list mm_jpeg_job_q_node_t -> M jworld unit)
  (n : mm_jpeg_job_q_node_t) : M jworld Z :=
  ok ← jmalloc;
  if ok : bool then l ← q; put (l ++ [n]);; mret 0 else mret (-1).

Definition sem_post : M jworld unit :=
  jnote JSemPost;;
  upd_obj (fun o => put_job_mgr (put_job_sem (job_sem (job_mgr o) +i 1) (job_mgr o)) o).

(** The fields of a node as the functions that search a queue read them.  The
    job identifier is read under the type of the node.  The session identifier
    is read from [enc_info] whatever the type; a node is zeroed before it is
    filled, and [dec_info] ends (at 60 bytes) before the session identifier of
    [enc_info] begins (at 80 bytes). *)
Definition node_job_id (n : mm_jpeg_job_q_node_t) : Z :=
  match n with JobNode i => job_id i | DecodeNode i => d_job_id i | ExitNode => 0 end.
Definition node_session_id (n : mm_jpeg_job_q_node_t) : Z :=
  match n with JobNode i => session_id (encode_job i) | DecodeNode _ | ExitNode => 0 end.

Definition mm_jpeg_queue_remove_job_by_job_id (q : list mm_jpeg_job_q_node_t) (id : Z) :
  option mm_jpeg_job_q_node_t * list mm_jpeg_job_q_node_t := remove_first (fun n => node_job_id n =? id) q.
Definition mm_jpeg_queue_remove_job_by_session_id (q : list mm_jpeg_job_q_node_t) (id : Z) :
  option mm_jpeg_job_q_node_t * list mm_jpeg_job_q_node_t := remove_first (fun n => node_session_id n =? id) q.

(** [while (NULL != node)]: as many turns as there are jobs, and one more. *)
Fixpoint remove_session_jobs (fuel : nat) (q : list mm_jpeg_job_q_node_t) (id : Z) : option (list mm_jpeg_job_q_node_t) :=
  match fuel with
  | O => None
  | S fuel =>
      match mm_jpeg_queue_remove_job_by_session_id q id with
      | (None, q) => Some q
      | (Some _, q) => remove_session_jobs fuel q id
      end
  end.

(** ** Sessions ([mm_jpeg_inlines.h]) *)

Definition mm_jpeg_get_session (id : Z) : option sptr :=
  let client_idx := GET_CLIENT_IDX id in
  let session_idx := GET_SESSION_IDX id in
  if (Z.of_nat MM_JPEG_MAX_SESSION <=? session_idx) || (Z.of_nat MAX_JPEG_CLIENT_NUM <=? client_idx) then None
  else Some (Z.to_nat client_idx, Z.to_nat session_idx).

Definition mm_jpeg_job_done (p : sptr) : M jworld unit :=
  s ← sess p;
  if jpeg_obj s then
    q ← ongoing_q;
    put_ongoing_q (mm_jpeg_queue_remove_job_by_job_id q (jobId s)).2;;
    upd_sess p (put_encoding false);;
    sem_post
  else stuck.

Definition mm_jpeg_get_new_session_idx (client_idx : nat) : M jworld (option sptr) :=
  o ← the_obj;
  c ← deref (clnt_mgr o !! client_idx);
  match list_find (fun s => active s = false) (session c) with
  | None => mret None
  | Some (i, _) => upd_sess (client_idx, i) (put_active true);; mret (Some (client_idx, i))
  end.

Definition mm_jpeg_remove_session_idx (id : Z) : M jworld unit :=
  upd_sess (Z.to_nat (GET_CLIENT_IDX id), Z.to_nat (GET_SESSION_IDX id)) (put_active false).

(** ** Callbacks of the component *)

(** The client is called, with the data it gave the encoder or the decoder. *)
Definition call_cb (data : mm_jpeg_job_session_t -> Z) (p : sptr) (cb : Z) (status : jpeg_job_status_t) (output : option (Z * Z)) : M jworld unit :=
  upd_sess p (put_job_status status);;
  s ← sess p;
  jnote (JCallback cb status (client_hdl s) (jobId s) output (data s)).
Definition enc_data (s : mm_jpeg_job_session_t) : Z := userdata (params s).
Definition dec_data (s : mm_jpeg_job_session_t) : Z := d_userdata (dec_params s).
Definition call_jpeg_cb := call_cb enc_data.
Definition call_jpegdec_cb := call_cb dec_data.

Definition mm_jpeg_ebd (p : sptr) : M jworld unit := upd_sess p (fun s => put_ebd_count (ebd_count s +i 1) s).

Definition mm_jpeg_fbd (p : sptr) (nFilledLen vaddr : Z) : M jworld unit :=
  s ← sess p;
  if negb (bool_decide (abort_state s = MM_JPEG_ABORT_NONE)) then mret tt
  else
    upd_sess p (fun s => put_fbd_count (fbd_count s +i 1) s);;
    match jpeg_cb (params s) with
    | Some cb => call_jpeg_cb p cb JPEG_JOB_STATUS_DONE (Some (nFilledLen, vaddr));; mm_jpeg_job_done p
    | None => mret tt
    end.

(** The result says whether the condition was signalled. *)
Definition mm_jpeg_event_handler (p : sptr) (eEvent : OMX_EVENTTYPE) : M jworld bool :=
  s ← sess p;
  if bool_decide (abort_state s = MM_JPEG_ABORT_INIT) then upd_sess p (put_abort_state MM_JPEG_ABORT_DONE);; mret true
  else
    match eEvent with
    | OMX_EventError =>
        upd_sess p (put_error_flag OMX_ErrorHardware);;
        (if encoding s then
           match jpeg_cb (params s) with
           | Some cb => call_jpeg_cb p cb JPEG_JOB_STATUS_ERROR None
           | None => mret tt
           end;;
           mm_jpeg_job_done p
         else mret tt);;
        mret true
    | OMX_EventCmdComplete =>
        if state_change_pending s then upd_sess p (put_state_change_pending false);; mret true
        else mret false
    | _ => mret false
    end.

Definition mm_jpegdec_ebd (p : sptr) : M jworld unit := upd_sess p (fun s => put_ebd_count (ebd_count s +i 1) s).

Definition mm_jpegdec_fbd (p : sptr) (nFilledLen vaddr : Z) : M jworld unit :=
  s ← sess p;
  if negb (bool_decide (abort_state s = MM_JPEG_ABORT_NONE)) then mret tt
  else
    upd_sess p (fun s => put_fbd_count (fbd_count s +i 1) s);;
    match d_jpeg_cb (dec_params s) with
    | Some cb => call_jpegdec_cb p cb JPEG_JOB_STATUS_DONE (Some (nFilledLen, vaddr));; mm_jpeg_job_done p
    | None => mret tt
    end.

Definition mm_jpegdec_event_handler (p : sptr) (eEvent : OMX_EVENTTYPE) : M jworld bool :=
  upd_sess p (put_omxEvent eEvent);;
  s ← sess p;
  if bool_decide (abort_state s = MM_JPEG_ABORT_INIT) then upd_sess p (put_abort_state MM_JPEG_ABORT_DONE);; mret true
  else
    match eEvent with
    | OMX_EventError =>
        upd_sess p (put_error_flag OMX_ErrorHardware);;
        (if encoding s then
           match d_jpeg_cb (dec_params s) with
           | Some cb => call_jpegdec_cb p cb JPEG_JOB_STATUS_ERROR None
           | None => mret tt
           end;;
           mm_jpeg_job_done p
         else mret tt);;
        mret true
    | OMX_EventCmdComplete => upd_sess p (fun s => put_event_pending false (put_state_change_pending false s));; mret true
    | OMX_EventPortSettingsChanged => mret true
    | OMX_EventOther => mret false
    end.

(** The functions of the two tables of callbacks. *)
Definition ebd_of (cbs : omx_callbacks) : sptr -> M jworld unit :=
  match cbs with EncoderCallbacks => mm_jpeg_ebd | DecoderCallbacks => mm_jpegdec_ebd end.
Definition fbd_of (cbs : omx_callbacks) : sptr -> Z -> Z -> M jworld unit :=
  match cbs with EncoderCallbacks => mm_jpeg_fbd | DecoderCallbacks => mm_jpegdec_fbd end.
Definition event_handler_of (cbs : omx_callbacks) : sptr -> OMX_EVENTTYPE -> M jworld bool :=
  match cbs with EncoderCallbacks => mm_jpeg_event_handler | DecoderCallbacks => mm_jpegdec_event_handler end.

(** A component calls back; the session whose condition was signalled. *)
Definition run_cb (h : Z) (cb : omx_cb) : M jworld (option sptr) :=
  tr ← gets (fun w => o_tr (j_omx w));
  match (if comp_live h tr then app_data h tr else None) with
  | None => mret None
  | Some {| appData := z; callBacks := cbs |} =>
      let p := Z_to_sptr z in
      jnote (JOmx h cb);;
      match cb with
      | EmptyBufferDone => ebd_of cbs p;; mret None
      | FillBufferDone len vaddr => fbd_of cbs p len vaddr;; mret None
      | EventHandler e => sig ← event_handler_of cbs p e; mret (if sig : bool then Some p else None)
      end
  end.

Definition deliver : M jworld unit :=
  tr ← gets j_tr;
  for_each (env_deliver tr) (fun '(h, cb) => run_cb h cb;; mret tt).

Fixpoint wait_signal (p : sptr) (evs : list (Z * omx_cb)) : M jworld unit :=
  match evs with
  | [] => stuck
  | (h, cb) :: evs => r ← run_cb h cb; if bool_decide (r = Some p) then mret tt else wait_signal p evs
  end.

Definition cond_wait (p : sptr) : M jworld unit :=
  s ← sess p;
  h ← deref (omx_handle s);
  tr ← gets j_tr;
  wait_signal p (env_wait tr h).

(** ** Calls of the component *)

(** A call through a handle that is null or whose component is gone has no
    result. *)
Definition comp_handle (p : sptr) : M jworld Z :=
  s ← sess p;
  h ← deref (omx_handle s);
  tr ← gets (fun w => o_tr (j_omx w));
  if comp_live h tr then mret h else stuck.

Definition comp (p : sptr) (c : jhistory -> Z -> jcall) : M jworld (Z * jcall) :=
  h ← comp_handle p;
  tr ← gets j_tr;
  let call := c tr h in
  let rc := env_comp tr h call in
  jnote (JCall h call rc);;
  mret (rc, call).

(** The same outside the mutex of the session.  Values are set under the index
    that was asked for just before, which is left out of the call. *)
Definition ucomp (p : sptr) (c : jhistory -> Z -> jcall) : M jworld (Z * jcall) := r ← comp p c; deliver;; mret r.

Definition OMX_GetState (call : (jhistory -> Z -> jcall) -> M jworld (Z * jcall)) : M jworld (Z * OMX_STATETYPE) :=
  '(rc, c) ← call (fun tr h => CGetState (env_state tr h));
  mret (rc, match c with CGetState st => st | _ => OMX_StateInvalid end).

Definition OMX_GetExtensionIndex (p : sptr) (name : string) : M jworld (Z * Z) :=
  '(rc, c) ← ucomp p (fun tr h => CGetExtensionIndex name (env_index tr name));
  mret (rc, match c with CGetExtensionIndex _ i => i | _ => 0 end).

Definition OMX_SetParameter (p : sptr) (v : omx_param) : M jworld Z := r ← ucomp p (fun _ _ => CSetParameter v); mret r.1.
Definition OMX_SetConfig (p : sptr) (v : omx_param) : M jworld Z := r ← ucomp p (fun _ _ => CSetConfig v); mret r.1.

Definition OMX_GetPort (p : sptr) (port : omx_port) : M jworld (Z * omx_port) :=
  '(rc, c) ← ucomp p (fun tr h => CGetParameter (env_port tr h port));
  mret (rc, match c with CGetParameter q => q | _ => port end).

End Code.
