(* ===== verification/Jpeg.v ===== *)
(** * Sessions of the JPEG encoder

    The part of [mm_jpeg.c] that works on a session: its component, buffers and
    configuration, and the encoding of a job. *)

From Stdlib Require Import ZArith Lia.
From stdpp Require Import numbers list gmap strings.
From S2P Require Import Prelude CamTypes JpegQueue QomxCore JpegExif JpegData JpegBase.

Section Code.
Context `{FL : Floats} `{OE : OmxEnv} `{JE : JpegEnv}.

(** ** Buffers and states of the component *)

(** The loops run while the calls succeed. *)
Definition each_buf (n : Z) (body : nat -> M jworld Z) : M jworld Z :=
  for_until (seq 0 (Z.to_nat n)) (fun rc => negb (rc =? 0)) OMX_ErrorNone body.

(** [OMX_UseBuffer] writes the header into the table of the port. *)
Definition use_buffer (call : (jhistory -> Z -> jcall) -> M jworld (Z * jcall)) (p : sptr) (port : Z) (buf_fd : option Z) (b : mm_jpeg_buf_t)
  (tbl : mm_jpeg_job_session_t -> list (option Z)) (put : list (option Z) -> mm_jpeg_job_session_t -> mm_jpeg_job_session_t)
  (i : nat) : M jworld Z :=
  s ← sess p;
  _ ← deref (tbl s !! i);
  '(rc, c) ← call (fun tr h => CUseBuffer port buf_fd (buf_size b) (buf_vaddr b) (env_header tr h port));
  (if rc =? 0 then
     upd_sess p (fun s => put (<[i := match c with CUseBuffer _ _ _ _ hdr => Some hdr | _ => None end]> (tbl s)) s)
   else mret tt);;
  mret rc.

Definition mm_jpeg_session_send_buffers (p : sptr) : M jworld Z :=
  s ← sess p;
  let p_params := params s in
  ret ← each_buf (num_src_bufs p_params) (fun i =>
    b ← deref (src_main_buf p_params !! i); use_buffer (comp p) p 0 (Some (fd b)) b p_in_omx_buf put_p_in_omx_buf i);
  if negb (ret =? 0) then mret ret
  else
    ret ← each_buf (num_tmb_bufs p_params) (fun i =>
      b ← deref (src_thumb_buf p_params !! i); use_buffer (comp p) p 2 (Some (fd b)) b p_in_omx_thumb_buf put_p_in_omx_thumb_buf i);
    if negb (ret =? 0) then mret ret
    else
      each_buf (num_dst_bufs p_params) (fun i =>
        b ← deref (dest_buf p_params !! i); use_buffer (comp p) p 1 None b p_out_omx_buf put_p_out_omx_buf i).

Definition free_buffer (p : sptr) (port : Z) (tbl : mm_jpeg_job_session_t -> list (option Z)) (i : nat) : M jworld Z :=
  s ← sess p;
  hdr ← deref (tbl s !! i);
  r ← comp p (fun _ _ => CFreeBuffer port hdr);
  mret r.1.

Definition mm_jpeg_session_free_buffers (p : sptr) : M jworld Z :=
  s ← sess p;
  let p_params := params s in
  ret ← each_buf (num_src_bufs p_params) (free_buffer p 0 p_in_omx_buf);
  if negb (ret =? 0) then mret ret
  else
    ret ← each_buf (num_tmb_bufs p_params) (free_buffer p 2 p_in_omx_thumb_buf);
    if negb (ret =? 0) then mret ret
    else each_buf (num_dst_bufs p_params) (free_buffer p 1 p_out_omx_buf).

Definition mm_jpeg_session_change_state (p : sptr) (new_state : OMX_STATETYPE) (p_exec : option (sptr -> M jworld Z)) : M jworld Z :=
  '(ret, current_state) ← OMX_GetState (comp p);
  if negb (ret =? 0) then mret ret
  else if bool_decide (current_state = new_state) then mret OMX_ErrorNone
  else
    upd_sess p (put_state_change_pending true);;
    r ← comp p (fun _ _ => CSendCommand (OMX_CommandStateSet new_state));
    if negb (r.1 =? 0) then mret OMX_ErrorIncorrectStateTransition
    else
      s ← sess p;
      if negb (error_flag s =? OMX_ErrorNone) then mret (error_flag s)
      else
        ret ← match p_exec with Some f => f p | None => mret OMX_ErrorNone end;
        if negb (ret =? 0) then mret ret
        else
          s ← sess p;
          (if state_change_pending s then cond_wait p else mret tt);;
          mret ret.

Definition mm_jpeg_session_create (p : sptr) : M jworld Z :=
  upd_sess p (fun s =>
    put_exif_count_local 0 (put_config false (put_fbd_count 0 (put_ebd_count 0
      (put_error_flag OMX_ErrorNone (put_abort_state MM_JPEG_ABORT_NONE (put_state_change_pending false s)))))));;
  r ← omx (OMX_GetHandle (Some "OMX.qcom.image.jpeg.encoder") {| appData := sptr_to_Z p; callBacks := EncoderCallbacks |});
  upd_sess p (put_omx_handle r.2);;
  mret r.1.

Definition mm_jpeg_session_destroy (p : sptr) : M jworld unit :=
  s ← sess p;
  match omx_handle s with
  | None => mret tt
  | Some _ =>
      '(_, state) ← OMX_GetState (ucomp p);
      (if bool_decide (state = OMX_StateExecuting) || bool_decide (state = OMX_StatePause) then
         mm_jpeg_session_change_state p OMX_StateIdle None;; mret tt
       else mret tt);;
      '(_, state) ← OMX_GetState (ucomp p);
      (if bool_decide (state = OMX_StateIdle) then
         mm_jpeg_session_change_state p OMX_StateLoaded (Some mm_jpeg_session_free_buffers);; mret tt
       else mret tt);;
      s ← sess p;
      omx (OMX_FreeHandle (omx_handle s));;
      upd_sess p (put_omx_handle None)
  end.

(** ** Configuration *)

Definition frame_info (b : mm_jpeg_buf_t) : M jworld QOMX_YUV_FRAME_INFO :=
  p0 ← deref (mp (offset b) !! 0%nat);
  p1 ← deref (mp (offset b) !! 1%nat);
  p2 ← deref (mp (offset b) !! 2%nat);
  mret {| yOffset := mp_offset p0; cbcrOffset := (mp_offset p1, mp_offset p2); cbcrStartOffset := (mp_len p0, mp_len p1) |}.

Definition mm_jpeg_session_config_main_buffer_offset (p : sptr) : M jworld Z :=
  s ← sess p;
  p_src_buf ← deref (src_main_buf (params s) !! Z.to_nat (src_index (s_job s)));
  info ← frame_info p_src_buf;
  '(rc, _) ← OMX_GetExtensionIndex p "OMX.QCOM.image.exttype.bufferOffset";
  if negb (rc =? 0) then mret rc else OMX_SetParameter p (PFrameInfo info).

Definition mm_jpeg_encoding_mode (p : sptr) : M jworld Z :=
  '(rc, _) ← OMX_GetExtensionIndex p "OMX.QCOM.image.encoding.mode";
  if negb (rc =? 0) then mret rc else OMX_SetParameter p (PEncodingMode true).

Definition map_jpeg_format (color_fmt : mm_jpeg_color_format) : omx_color_format :=
  match color_fmt with
  | MM_JPEG_COLOR_FORMAT_YCRCBLP_H2V2 => OMX_QCOM_IMG_COLOR_FormatYVU420SemiPlanar
  | MM_JPEG_COLOR_FORMAT_YCBCRLP_H2V2 => OMX_COLOR_FormatYUV420SemiPlanar
  | MM_JPEG_COLOR_FORMAT_YCRCBLP_H2V1 => OMX_QCOM_IMG_COLOR_FormatYVU422SemiPlanar
  | MM_JPEG_COLOR_FORMAT_YCBCRLP_H2V1 => OMX_COLOR_FormatYUV422SemiPlanar
  | MM_JPEG_COLOR_FORMAT_YCRCBLP_H1V2 => OMX_QCOM_IMG_COLOR_FormatYVU422SemiPlanar_h1v2
  | MM_JPEG_COLOR_FORMAT_YCBCRLP_H1V2 => OMX_QCOM_IMG_COLOR_FormatYUV422SemiPlanar_h1v2
  | MM_JPEG_COLOR_FORMAT_YCRCBLP_H1V1 => OMX_QCOM_IMG_COLOR_FormatYVU444SemiPlanar
  | MM_JPEG_COLOR_FORMAT_YCBCRLP_H1V1 => OMX_QCOM_IMG_COLOR_FormatYUV444SemiPlanar
  | _ => OMX_QCOM_IMG_COLOR_FormatYVU420SemiPlanar
  end.

(** The port of an input image. *)
Definition input_port (q : omx_port) (dim : mm_jpeg_dim_t) (b : mm_jpeg_buf_t) (fmt : mm_jpeg_color_format) (count : Z) :
  M jworld omx_port :=
  p0 ← deref (mp (offset b) !! 0%nat);
  mret {| nPortIndex := nPortIndex q; nFrameWidth := u32 (width (src_dim dim)); nFrameHeight := u32 (height (src_dim dim));
          nStride := mp_stride p0; nSliceHeight := u32 (mp_scanline p0); eColorFormat := Some (map_jpeg_format fmt);
          nBufferSize := buf_size b; nBufferCountActual := count |}.

(** The definition of a port is asked for, whatever the answer it is kept. *)
Definition get_port (p : sptr) (get : mm_jpeg_job_session_t -> omx_port)
  (put : omx_port -> mm_jpeg_job_session_t -> mm_jpeg_job_session_t) : M jworld Z :=
  s ← sess p;
  '(rc, q) ← OMX_GetPort p (get s);
  upd_sess p (put q);;
  mret rc.

(** Port 2, the thumbnail. *)
Definition config_thumb_port (p : sptr) : M jworld Z :=
  s ← sess p;
  if negb (encode_thumbnail (params s) =? 0) then
    p_tmb_buf ← deref (src_thumb_buf (params s) !! Z.to_nat (thumb_index (s_job s)));
    q ← input_port (inputTmbPort s) (thumb_dim (s_job s)) p_tmb_buf (thumb_color_format (params s)) (num_tmb_bufs (params s));
    upd_sess p (put_inputTmbPort q);;
    ret ← OMX_SetParameter p (PPort q);
    if negb (ret =? 0) then mret ret
    else s ← sess p; r ← ucomp p (fun _ _ => CSendCommand (OMX_CommandPortEnable (nPortIndex (inputTmbPort s)))); mret r.1
  else r ← ucomp p (fun _ _ => CSendCommand (OMX_CommandPortDisable (nPortIndex (inputTmbPort s)))); mret r.1.

Definition mm_jpeg_session_config_ports (p : sptr) : M jworld Z :=
  upd_sess p (fun s => put_inputTmbPort (set_nPortIndex 2 (inputTmbPort s)) (put_outputPort (set_nPortIndex 1 (outputPort s))
    (put_inputPort (set_nPortIndex 0 (inputPort s)) s)));;
  ret ← get_port p inputPort put_inputPort;
  if negb (ret =? 0) then mret ret else
  ret ← get_port p inputTmbPort put_inputTmbPort;
  if negb (ret =? 0) then mret ret else
  ret ← get_port p outputPort put_outputPort;
  if negb (ret =? 0) then mret ret else
  s ← sess p;
  p_src_buf ← deref (src_main_buf (params s) !! Z.to_nat (src_index (s_job s)));
  q ← input_port (inputPort s) (main_dim (s_job s)) p_src_buf (color_format (params s)) (num_src_bufs (params s));
  upd_sess p (put_inputPort q);;
  ret ← OMX_SetParameter p (PPort q);
  if negb (ret =? 0) then mret ret else
  ret ← config_thumb_port p;
  if negb (ret =? 0) then mret ret else
  s ← sess p;
  p_dst_buf ← deref (dest_buf (params s) !! Z.to_nat (dst_index (s_job s)));
  let q := set_buffers (buf_size p_dst_buf) (num_dst_bufs (params s)) (outputPort s) in
  upd_sess p (put_outputPort q);;
  OMX_SetParameter p (PPort q).

(** A crop rectangle without extent is the whole image. *)
Definition default_crop (d : mm_jpeg_dim_t) : mm_jpeg_dim_t :=
  if (r_width (crop d) =? 0) || (r_height (crop d) =? 0) then
    set_crop {| left := left (crop d); top := top (crop d); r_width := width (src_dim d); r_height := height (src_dim d) |} d
  else d.

Definition crop_outside (d : mm_jpeg_dim_t) : bool :=
  (width (src_dim d) <? r_width (crop d) +i left (crop d)) || (height (src_dim d) <? r_height (crop d) +i top (crop d)).

(** The size to which the thumbnail is scaled. *)
Definition thumb_output (d : mm_jpeg_dim_t) : cam_dimension_t :=
  if (width (src_dim d) <? width (dst_dim d)) || (height (src_dim d) <? height (dst_dim d)) then src_dim d else dst_dim d.

Definition mm_jpeg_session_config_thumbnail (p : sptr) : M jworld Z :=
  s ← sess p;
  if encode_thumbnail (params s) =? 0 then mret OMX_ErrorNone
  else
    let d := thumb_dim (s_job s) in
    if (width (dst_dim d) =? 0) || (height (dst_dim d) =? 0) then mret OMX_ErrorBadParameter
    else if (width (src_dim d) =? 0) || (height (src_dim d) =? 0) then mret OMX_ErrorBadParameter
    else
      let d := default_crop d in
      upd_sess p (fun s => put_s_job (set_thumb_dim d (s_job s)) s);;
      if crop_outside d then mret OMX_ErrorBadParameter
      else
        '(ret, _) ← OMX_GetExtensionIndex p "OMX.QCOM.image.exttype.thumbnail";
        if negb (ret =? 0) then mret ret
        else
          p_tmb_buf ← deref (src_thumb_buf (params s) !! Z.to_nat (thumb_index (s_job s)));
          info ← frame_info p_tmb_buf;
          OMX_SetConfig p (PThumbnail
            {| input_width := u32 (width (src_dim d)); input_height := u32 (height (src_dim d)); scaling_enabled := 1;
               crop_info := {| x_left := left (crop d); x_top := top (crop d);
                               x_width := u32 (r_width (crop d)); x_height := u32 (r_height (crop d)) |};
               output_width := u32 (width (thumb_output d)); output_height := u32 (height (thumb_output d));
               tmbOffset := info |}).

Definition CEILING2 (x : Z) : Z := Z.land (x +i 0x0001) 0xFFFE.

(** The rectangles for the component, zero where nothing is cut or scaled. *)
Definition main_rects (d : mm_jpeg_dim_t) : omx_rect * (Z * Z) :=
  if negb (width (src_dim d) =? r_width (crop d)) || negb (height (src_dim d) =? r_height (crop d)) ||
     negb (width (src_dim d) =? width (dst_dim d)) || negb (height (src_dim d) =? height (dst_dim d)) then
    ({| x_left := left (crop d); x_top := top (crop d); x_width := CEILING2 (r_width (crop d)); x_height := CEILING2 (r_height (crop d)) |},
     if negb (width (dst_dim d) =? 0) && negb (height (dst_dim d) =? 0)
     then (u32 (width (dst_dim d)), u32 (height (dst_dim d))) else (0, 0))
  else ({| x_left := 0; x_top := 0; x_width := 0; x_height := 0 |}, (0, 0)).

Definition mm_jpeg_session_config_main_crop (p : sptr) : M jworld Z :=
  s ← sess p;
  let d := default_crop (main_dim (s_job s)) in
  upd_sess p (fun s => put_s_job (set_main_dim d (s_job s)) s);;
  if crop_outside d then mret OMX_ErrorBadParameter
  else
    let '(rect_in, (out_w, out_h)) := main_rects d in
    ret ← OMX_SetConfig p (PInputCrop rect_in);
    if negb (ret =? 0) then mret ret else OMX_SetConfig p (POutputCrop out_w out_h).

Definition mm_jpeg_session_config_main (p : sptr) : M jworld Z :=
  rc ← mm_jpeg_session_config_ports p;
  if negb (rc =? 0) then mret rc else
  rc ← mm_jpeg_session_config_main_buffer_offset p;
  if negb (rc =? 0) then mret rc else
  mm_jpeg_encoding_mode p;;
  mret rc.

(** The EXIF functions on the table of the session. *)
Definition with_exif {A} (p : sptr) (num : Z) (m : M xworld A) : M jworld (A * Z) :=
  s ← sess p;
  h ← gets j_heap;
  '(a, w) ← deref (m {| exif_data := exif_info_local s; numOfEntries := num; x_heap := h |});
  upd_sess p (put_exif_info_local (exif_data w));;
  modify (put_j_heap (x_heap w));;
  mret (a, numOfEntries w).

Definition mm_jpeg_session_config_common (p : sptr) : M jworld Z :=
  s ← sess p;
  rc ← OMX_SetConfig p (PRotate 1 (job_rotation (s_job s)));
  if negb (rc =? 0) then mret rc else
  upd_sess p (put_exif_info_local zero_exif_table);;
  '(rc, _) ← OMX_GetExtensionIndex p "OMX.QCOM.image.exttype.exif";
  if negb (rc =? 0) then mret rc else
  rc ← (if 0 <? exif_entries (s_job s) then OMX_SetConfig p (PExif (exif_entries (s_job s))) else mret rc);
  if negb (rc =? 0) then mret rc else
  match p_metadata (s_job s) with
  | None => mret rc
  | Some m =>
      tr ← gets j_tr;
      '(_, n) ← with_exif p 0 (process_meta_data (env_xmalloc tr) (Some m) (cam_exif_params (s_job s)));
      upd_sess p (put_exif_count_local n);;
      if 0 <? n then OMX_SetConfig p (PExif n) else mret rc
  end.

Definition mm_jpeg_configure_job_params (p : sptr) : M jworld Z :=
  mm_jpeg_session_config_common p;;
  ret ← mm_jpeg_session_config_main_crop p;
  if negb (ret =? 0) then mret ret else
  s ← sess p;
  ret ← OMX_SetConfig p (PQFactor (quality (params s)));
  if negb (ret =? 0) then mret ret else
  ret ← mm_jpeg_session_config_thumbnail p;
  if negb (ret =? 0) then mret ret else
  '(ret, _) ← OMX_GetExtensionIndex p "OMX.QCOM.image.exttype.workbuffer";
  if negb (ret =? 0) then mret ret else
  s ← sess p;
  OMX_SetConfig p (PWorkBuffer (p_pmem_fd (work_buffer s)) (default 0 (addr (work_buffer s)))).

(** ** Jobs of a session *)

Definition mm_jpeg_destroy_job (p : sptr) : M jworld Z :=
  s ← sess p;
  '(rc, _) ← with_exif p (exif_count_local s) (release_entries (Z.to_nat (exif_count_local s)));
  upd_sess p (put_exif_count_local 0);;
  mret rc.

Definition mm_jpeg_session_abort (p : sptr) : M jworld Z :=
  s ← sess p;
  if negb (bool_decide (abort_state s = MM_JPEG_ABORT_NONE)) then mret 0
  else
    upd_sess p (put_abort_state MM_JPEG_ABORT_INIT);;
    if encoding s then
      upd_sess p (put_state_change_pending true);;
      r ← ucomp p (fun _ _ => CSendCommand (OMX_CommandStateSet OMX_StateIdle));
      if negb (r.1 =? OMX_ErrorNone) then mret 1
      else
        mm_jpeg_destroy_job p;;
        s ← sess p;
        (if bool_decide (abort_state s = MM_JPEG_ABORT_INIT) then cond_wait p else mret tt);;
        upd_sess p (put_abort_state MM_JPEG_ABORT_DONE);;
        mret 0
    else upd_sess p (put_abort_state MM_JPEG_ABORT_DONE);; mret 0.

(** [MM_JPEG_CHK_ABORT]: an abort under way ends the function with success. *)
Definition chk_abort (p : sptr) (k : M jworld Z) : M jworld Z :=
  s ← sess p;
  if bool_decide (abort_state s = MM_JPEG_ABORT_INIT) then mret OMX_ErrorNone else k.

Definition mm_jpeg_session_configure (p : sptr) : M jworld Z :=
  chk_abort p (
    ret ← mm_jpeg_session_config_main p;
    if negb (ret =? 0) then mret ret else
    ret ← mm_jpeg_session_change_state p OMX_StateIdle (Some mm_jpeg_session_send_buffers);
    if negb (ret =? 0) then mret ret else
    mm_jpeg_session_change_state p OMX_StateExecuting None).

(** The buffers of the job go to the component. *)
Definition submit_buffers (p : sptr) : M jworld Z :=
  s ← sess p;
  hdr ← deref (p_in_omx_buf s !! Z.to_nat (src_index (s_job s)));
  r ← ucomp p (fun _ _ => CEmptyThisBuffer hdr);
  if negb (r.1 =? 0) then mret r.1 else
  ret ← (s ← sess p;
         if negb (encode_thumbnail (params s) =? 0) then
           hdr ← deref (p_in_omx_thumb_buf s !! Z.to_nat (thumb_index (s_job s)));
           r ← ucomp p (fun _ _ => CEmptyThisBuffer hdr); mret r.1
         else mret r.1);
  if negb (ret =? 0) then mret ret else
  s ← sess p;
  hdr ← deref (p_out_omx_buf s !! Z.to_nat (dst_index (s_job s)));
  r ← ucomp p (fun _ _ => CFillThisBuffer hdr);
  if negb (r.1 =? 0) then mret r.1 else chk_abort p (mret r.1).

Definition mm_jpeg_session_encode (p : sptr) : M jworld Z :=
  upd_sess p (fun s => put_encoding false (put_abort_state MM_JPEG_ABORT_NONE s));;
  s ← sess p;
  ret ← (if config s then mret OMX_ErrorNone
         else
           ret ← mm_jpeg_session_configure p;
           if negb (ret =? 0) then mret ret else upd_sess p (put_config true);; mret ret);
  if negb (ret =? 0) then mret ret else
  ret ← mm_jpeg_configure_job_params p;
  if negb (ret =? 0) then mret ret else
  upd_sess p (put_encoding true);;
  chk_abort p (submit_buffers p).

Definition mm_jpeg_process_encoding_job (info : mm_jpeg_encode_job_info_t) : M jworld Z :=
  match mm_jpeg_get_session (job_id info) with
  | None => mret (-1)
  | Some p =>
      rc ← enq ongoing_q put_ongoing_q (JobNode info);
      if negb (rc =? 0) then mm_jpeg_job_done p;; mret rc
      else
        upd_sess p (fun s => put_jobId (job_id info) (put_s_job (encode_job info) s));;
        ret ← mm_jpeg_session_encode p;
        if ret =? 0 then mret rc
        else
          s ← sess p;
          match jpeg_cb (params s) with
          | Some cb => call_jpeg_cb p cb JPEG_JOB_STATUS_ERROR None
          | None => mret tt
          end;;
          mm_jpeg_job_done p;;
          mret rc
  end.

End Code.
