(* ===== verification/JpegDec.v ===== *)
(** * Sessions of the JPEG decoder

    The part of [mm_jpegdec.c] that works on a session: its component, buffers
    and configuration, and the decoding of a job.  The output port is set up
    while a job runs, when the component has read the header of the image and
    reports the settings of the port. *)

From Stdlib Require Import ZArith Lia.
From stdpp Require Import numbers list gmap strings.
From S2P Require Import Prelude CamTypes JpegQueue QomxCore JpegExif JpegData JpegBase Jpeg.

Section Code.
Context `{FL : Floats} `{OE : OmxEnv} `{JE : JpegEnv}.

(** ** Buffers *)

Definition mm_jpegdec_session_send_buffers (p : sptr) : M jworld Z :=
  s ← sess p;
  let p_params := dec_params s in
  each_buf (d_num_src_bufs p_params) (fun i =>
    b ← deref (d_src_main_buf p_params !! i); use_buffer (comp p) p 0 (Some (fd b)) b p_in_omx_buf put_p_in_omx_buf i).

Definition mm_jpegdec_session_free_buffers (p : sptr) : M jworld Z :=
  s ← sess p;
  let p_params := dec_params s in
  ret ← each_buf (d_num_src_bufs p_params) (free_buffer p 0 p_in_omx_buf);
  if negb (ret =? 0) then mret ret else each_buf (d_num_dst_bufs p_params) (free_buffer p 1 p_out_omx_buf).

(** ** The component *)

Definition mm_jpegdec_session_create (p : sptr) : M jworld Z :=
  upd_sess p (fun s =>
    put_config false (put_fbd_count 0 (put_ebd_count 0
      (put_error_flag OMX_ErrorNone (put_abort_state MM_JPEG_ABORT_NONE (put_state_change_pending false s))))));;
  r ← omx (OMX_GetHandle (Some "OMX.qcom.image.jpeg.decoder") {| appData := sptr_to_Z p; callBacks := DecoderCallbacks |});
  upd_sess p (put_omx_handle r.2);;
  mret r.1.

Definition mm_jpegdec_session_destroy (p : sptr) : M jworld unit :=
  s ← sess p;
  match omx_handle s with
  | None => mret tt
  | Some _ =>
      mm_jpeg_session_change_state p OMX_StateIdle None;;
      mm_jpeg_session_change_state p OMX_StateLoaded (Some mm_jpegdec_session_free_buffers);;
      s ← sess p;
      omx (OMX_FreeHandle (omx_handle s));;
      upd_sess p (put_omx_handle None)
  end.

(** ** Configuration *)

Definition mm_jpegdec_session_config_ports (p : sptr) : M jworld Z :=
  s ← sess p;
  p_src_buf ← deref (d_src_main_buf (dec_params s) !! Z.to_nat (d_src_index (s_decode_job s)));
  upd_sess p (fun s => put_outputPort (set_nPortIndex 1 (outputPort s)) (put_inputPort (set_nPortIndex 0 (inputPort s)) s));;
  ret ← get_port p inputPort put_inputPort;
  if negb (ret =? 0) then mret ret else
  ret ← get_port p outputPort put_outputPort;
  if negb (ret =? 0) then mret ret else
  s ← sess p;
  q ← input_port (inputPort s) (d_main_dim (s_decode_job s)) p_src_buf (d_color_format (dec_params s)) (d_num_src_bufs (dec_params s));
  upd_sess p (put_inputPort q);;
  OMX_SetParameter p (PPort q).

Definition mm_jpegdec_session_config_main (p : sptr) : M jworld Z := mm_jpegdec_session_config_ports p.

Definition mm_jpegdec_session_configure (p : sptr) : M jworld Z :=
  chk_abort p (
    ret ← mm_jpegdec_session_config_main p;
    if negb (ret =? 0) then mret ret else
    ret ← mm_jpeg_session_change_state p OMX_StateIdle (Some mm_jpegdec_session_send_buffers);
    if negb (ret =? 0) then mret ret else
    mm_jpeg_session_change_state p OMX_StateExecuting None).

(** ** Waiting for an event *)

(** With the mutex of the session: wait if the event is pending, and read the
    last one. *)
Definition wait_event (p : sptr) : M jworld OMX_EVENTTYPE :=
  s ← sess p;
  (if event_pending s then cond_wait p else mret tt);;
  s ← sess p;
  mret (omxEvent s).

(** The common part of the two functions below. *)
Definition port_command (p : sptr) (c : omx_command) (wait : bool) : M jworld Z :=
  upd_sess p (put_event_pending true);;
  r ← ucomp p (fun _ _ => CSendCommand c);
  if negb (r.1 =? 0) then mret r.1
  else if wait then
    lEvent ← wait_event p;
    mret (if bool_decide (lEvent = OMX_EventCmdComplete) then OMX_ErrorNone else OMX_ErrorUndefined)
  else mret OMX_ErrorNone.

Definition mm_jpeg_session_port_enable (p : sptr) (nPortIndex : Z) (wait : bool) : M jworld Z :=
  port_command p (OMX_CommandPortEnable nPortIndex) wait.
Definition mm_jpeg_session_port_disable (p : sptr) (nPortIndex : Z) (wait : bool) : M jworld Z :=
  port_command p (OMX_CommandPortDisable nPortIndex) wait.

(** ** Decoding *)

(** The output port gets its size and its buffers; whether disabling and
    enabling it fail is not looked at. *)
Definition setup_output (p : sptr) : M jworld Z :=
  s ← sess p;
  mm_jpeg_session_port_disable p (nPortIndex (outputPort s)) true;;
  ret ← get_port p outputPort put_outputPort;
  if negb (ret =? 0) then mret ret else
  s ← sess p;
  p_dst_buf ← deref (d_dest_buf (dec_params s) !! Z.to_nat (d_dst_index (s_decode_job s)));
  let q := set_buffers (buf_size p_dst_buf) (d_num_dst_bufs (dec_params s)) (outputPort s) in
  upd_sess p (put_outputPort q);;
  ret ← OMX_SetParameter p (PPort q);
  if negb (ret =? 0) then mret ret else
  s ← sess p;
  mm_jpeg_session_port_enable p (nPortIndex (outputPort s)) false;;
  each_buf (d_num_dst_bufs (dec_params s)) (fun i =>
    b ← deref (d_dest_buf (dec_params s) !! i); use_buffer (ucomp p) p 1 (Some (fd b)) b p_out_omx_buf put_p_out_omx_buf i).

(** After the input buffer was handed over.  An event that was not expected
    ends the function with the success of the call before. *)
Definition await_output (p : sptr) : M jworld Z :=
  lEvent ← wait_event p;
  if negb (bool_decide (lEvent = OMX_EventPortSettingsChanged)) then mret OMX_ErrorNone else
  ret ← setup_output p;
  if negb (ret =? 0) then mret ret else
  lEvent ← wait_event p;
  if negb (bool_decide (lEvent = OMX_EventCmdComplete)) then mret OMX_ErrorNone else
  s ← sess p;
  hdr ← deref (p_out_omx_buf s !! Z.to_nat (d_dst_index (s_decode_job s)));
  r ← ucomp p (fun _ _ => CFillThisBuffer hdr);
  if negb (r.1 =? 0) then mret r.1 else chk_abort p (mret r.1).

Definition mm_jpegdec_session_decode (p : sptr) : M jworld Z :=
  upd_sess p (fun s => put_encoding false (put_abort_state MM_JPEG_ABORT_NONE s));;
  s ← sess p;
  ret ← (if config s then mret OMX_ErrorNone
         else
           ret ← mm_jpegdec_session_configure p;
           if negb (ret =? 0) then mret ret else upd_sess p (put_config true);; mret ret);
  if negb (ret =? 0) then mret ret else
  upd_sess p (put_encoding true);;
  chk_abort p (
    upd_sess p (put_event_pending true);;
    s ← sess p;
    hdr ← deref (p_in_omx_buf s !! Z.to_nat (d_src_index (s_decode_job s)));
    r ← ucomp p (fun _ _ => CEmptyThisBuffer hdr);
    if negb (r.1 =? 0) then mret r.1 else await_output p).

Definition mm_jpegdec_process_decoding_job (info : mm_jpeg_decode_job_info_t) : M jworld Z :=
  match mm_jpeg_get_session (d_job_id info) with
  | None => mret (-1)
  | Some p =>
      rc ← enq ongoing_q put_ongoing_q (DecodeNode info);
      if negb (rc =? 0) then mm_jpeg_job_done p;; mret rc
      else
        upd_sess p (fun s => put_jobId (d_job_id info) (put_s_decode_job (decode_job info) s));;
        ret ← mm_jpegdec_session_decode p;
        if ret =? 0 then mret rc
        else
          s ← sess p;
          match d_jpeg_cb (dec_params s) with
          | Some cb => call_jpegdec_cb p cb JPEG_JOB_STATUS_ERROR None
          | None => mret tt
          end;;
          mm_jpeg_job_done p;;
          mret rc
  end.

End Code.
