(* ===== verification/JpegMgr.v ===== *)
(** * The job manager and the clients of the JPEG encoder

    The job manager thread, which the two libraries share, the clients of
    [mm_jpeg.c], its work buffer ([mm_jpeg_ionbuf.c]) and the entry points of
    [mm_jpeg_interface.c]. *)

From Stdlib Require Import ZArith Lia.
From stdpp Require Import numbers list gmap strings.
From S2P Require Import Prelude CamTypes JpegQueue QomxCore JpegExif JpegData JpegBase Jpeg JpegDec.

Section Code.
Context `{FL : Floats} `{OE : OmxEnv} `{JE : JpegEnv}.

(** ** The job manager thread *)

(** One turn, after the semaphore was taken: whether the thread goes on. *)
Definition jobmgr_turn : M jworld bool :=
  q ← ongoing_q;
  if (NUM_MAX_JPEG_CNCURRENT_JOBS <=? length q)%nat then mret true
  else
    q ← todo_q;
    match q with
    | [] => mret true
    | n :: q =>
        put_todo_q q;;
        match n with
        | JobNode info => mm_jpeg_process_encoding_job info;; mret true
        | DecodeNode info => mm_jpegdec_process_decoding_job info;; mret true
        | ExitNode => mret false
        end
    end.

Fixpoint wait_sem (evs : list (Z * omx_cb)) : M jworld unit :=
  o ← the_obj;
  if job_sem (job_mgr o) =? 0 then
    match evs with
    | [] => stuck
    | (h, cb) :: evs => run_cb h cb;; wait_sem evs
    end
  else upd_obj (fun o => put_job_mgr (put_job_sem (job_sem (job_mgr o) -i 1) (job_mgr o)) o).

(** [cam_sem_wait] of the thread; the callbacks of components may post. *)
Definition sem_wait : M jworld unit := tr ← gets j_tr; wait_sem (env_sem_wait tr).

(** The thread to its end, in so many turns. *)
Fixpoint mm_jpeg_jobmgr_thread (turns : nat) : M jworld unit :=
  match turns with
  | O => stuck
  | S turns => sem_wait;; running ← jobmgr_turn; if running : bool then mm_jpeg_jobmgr_thread turns else mret tt
  end.

Definition mm_jpeg_jobmgr_thread_launch : M jworld Z :=
  upd_obj (put_job_mgr {| pid := true; job_sem := 0; job_queue := Some [] |});;
  jnote JThreadCreate;;
  mret 0.

(** [mm_jpeg_queue_deinit]: flushing a queue that is not empty reads freed
    memory. *)
Definition deinit_todo_q : M jworld unit :=
  q ← todo_q; match q with [] => upd_obj (fun o => put_job_mgr (put_job_queue None (job_mgr o)) o) | _ => stuck end.
Definition deinit_ongoing_q : M jworld unit :=
  q ← ongoing_q; match q with [] => upd_obj (put_ongoing_job_q None) | _ => stuck end.

Definition mm_jpeg_jobmgr_thread_release (turns : nat) : M jworld Z :=
  ok ← jmalloc;
  if ok : bool then
    enq todo_q put_todo_q ExitNode;;
    sem_post;;
    o ← the_obj;
    (if pid (job_mgr o) then mm_jpeg_jobmgr_thread turns else mret tt);;
    jnote JThreadJoin;;
    deinit_todo_q;;
    upd_obj (put_job_mgr zero_job_mgr);;
    mret 0
  else mret (-1).

(** ** The work buffer ([mm_jpeg_ionbuf.c]) *)

Definition put_ion (b : buffer_t) : M jworld unit := upd_obj (put_ionBuffer b).

(** For a buffer of [size] bytes, not cached.  Its address is stored by the
    caller. *)
Definition buffer_allocate (b : buffer_t) : M jworld (option Z) :=
  ifd ← jext env_ion_open JIonOpen;
  let b := {| b_size := b_size b; ion_fd := ifd; alloc_len := b_size b; alloc_handle := alloc_handle b;
              info_handle := info_handle b; info_fd := info_fd b; p_pmem_fd := p_pmem_fd b; addr := addr b |} in
  if ifd <? 0 then put_ion b;; mret None
  else
    let len := Z.land (b_size b + 4095) (Z.lnot 4095) in
    '(lrc, hdl) ← jext (fun tr => env_ion_alloc tr len) (fun r => JIonAlloc ifd len r.1 r.2);
    let b := {| b_size := b_size b; ion_fd := ifd; alloc_len := len; alloc_handle := hdl;
                info_handle := info_handle b; info_fd := info_fd b; p_pmem_fd := p_pmem_fd b; addr := addr b |} in
    if lrc <? 0 then put_ion b;; mret None
    else
      '(lrc, ifd2) ← jext (fun tr => env_ion_share tr hdl) (fun r => JIonShare ifd hdl r.1 r.2);
      let b := {| b_size := b_size b; ion_fd := ifd; alloc_len := len; alloc_handle := hdl;
                  info_handle := hdl; info_fd := ifd2; p_pmem_fd := p_pmem_fd b; addr := addr b |} in
      if lrc <? 0 then put_ion b;; jnote (JIonFree ifd hdl);; mret None
      else
        let b := {| b_size := b_size b; ion_fd := ifd; alloc_len := len; alloc_handle := hdl;
                    info_handle := hdl; info_fd := ifd2; p_pmem_fd := ifd2; addr := addr b |} in
        put_ion b;;
        a ← jext (fun tr => env_mmap tr ifd2) (JMmap ifd2 len);
        match a with
        | None => jnote (JIonFree ifd hdl);; mret None
        | Some a => mret (Some a)
        end.

Definition buffer_deallocate (b : buffer_t) : M jworld Z :=
  let lsize := Z.land (b_size b + 4095) (Z.lnot 4095) in
  lrc ← jext env_munmap (JMunmap (addr b) lsize);
  jnote (JClose (info_fd b));;
  jnote (JIonFree (ion_fd b) (info_handle b));;
  jnote (JClose (ion_fd b));;
  mret lrc.

(** ** Clients *)

Definition mm_jpeg_init (turns : nat) : M jworld Z :=
  upd_obj (put_ongoing_job_q (Some []));;
  mm_jpeg_jobmgr_thread_launch;;
  o ← the_obj;
  put_ion (let b := ionBuffer o in
    {| b_size := MAX_JPEG_SIZE; ion_fd := ion_fd b; alloc_len := alloc_len b; alloc_handle := alloc_handle b;
       info_handle := info_handle b; info_fd := info_fd b; p_pmem_fd := p_pmem_fd b; addr := addr b |});;
  o ← the_obj;
  a ← buffer_allocate (ionBuffer o);
  upd_obj (fun o => let b := ionBuffer o in put_ionBuffer
    {| b_size := b_size b; ion_fd := ion_fd b; alloc_len := alloc_len b; alloc_handle := alloc_handle b;
       info_handle := info_handle b; info_fd := info_fd b; p_pmem_fd := p_pmem_fd b; addr := a |} o);;
  match a with
  | None => mm_jpeg_jobmgr_thread_release turns;; deinit_ongoing_q;; mret (-1)
  | Some _ =>
      rc ← omx OMX_Init;
      (if rc =? OMX_ErrorNone then mret tt
       else
         o ← the_obj;
         buffer_deallocate (ionBuffer o);;
         mm_jpeg_jobmgr_thread_release turns;;
         deinit_ongoing_q);;
      mret 0
  end.

Definition mm_jpeg_deinit (turns : nat) : M jworld Z :=
  mm_jpeg_jobmgr_thread_release turns;;
  omx OMX_Deinit;;
  deinit_ongoing_q;;
  o ← the_obj;
  buffer_deallocate (ionBuffer o).

Definition mm_jpeg_util_generate_handler (index : Z) : M jworld Z :=
  c ← gets g_handler_history_count;
  let c := u16 (c + 1) in
  let c := if c =? 0 then u16 (c + 1) else c in
  modify (put_g_handler_history_count c);;
  mret (Z.lor (Z.shiftl c 8) index).

Definition mm_jpeg_util_get_index_by_handler (handler : Z) : Z := Z.land handler 0x000000ff.

Definition mm_jpeg_new_client : M jworld Z :=
  o ← the_obj;
  if Z.of_nat MAX_JPEG_CLIENT_NUM <=? num_clients o then mret 0
  else
    match list_find (fun c => is_used c = 0) (clnt_mgr o) with
    | None => mret 0
    | Some (idx, _) =>
        hdl ← mm_jpeg_util_generate_handler (Z.of_nat idx);
        upd_obj (fun o => put_clnt_mgr (<[idx := {| is_used := 1; clnt_handle := hdl;
          session := replicate MM_JPEG_MAX_SESSION zero_session |}]> (clnt_mgr o)) o);;
        upd_obj (fun o => put_num_clients (num_clients o +i 1) o);;
        mret hdl
    end.

(** The identifier of the job that follows [hist] others. *)
Definition new_job_id (session_id hist : Z) : Z := Z.lor session_id (u32 (Z.shiftl (Z.rem hist JOB_HIST_MAX) 16)).

(** The second result is what is stored at [job_id]. *)
Definition mm_jpeg_start_job (job : mm_jpeg_encode_job_t) : M jworld (Z * Z) :=
  let session_idx := GET_SESSION_IDX (session_id job) in
  let client_idx := GET_CLIENT_IDX (session_id job) in
  if (Z.of_nat MM_JPEG_MAX_SESSION <=? session_idx) || (Z.of_nat MAX_JPEG_CLIENT_NUM <=? client_idx) then mret (-1, 0)
  else
    let p := (Z.to_nat client_idx, Z.to_nat session_idx) in
    s ← sess p;
    if negb (active s) then mret (-1, 0)
    else if (num_src_bufs (params s) <=? src_index job) || (num_dst_bufs (params s) <=? dst_index job) then mret (-1, 0)
    else
      ok ← jmalloc;
      if ok : bool then
        let id := new_job_id (session_id job) (job_hist s) in
        upd_sess p (put_job_hist (job_hist s +i 1));;
        rc ← enq todo_q put_todo_q (JobNode {| encode_job := job; job_id := id; client_handle := client_hdl s |});
        (if rc =? 0 then sem_post else mret tt);;
        mret (rc, id)
      else mret (-1, 0).

Definition mm_jpeg_abort_job (jobId : Z) : M jworld Z :=
  q ← todo_q;
  match mm_jpeg_queue_remove_job_by_job_id q jobId with
  | (Some _, q) => put_todo_q q;; mret (-1)
  | (None, _) =>
      q ← ongoing_q;
      match mm_jpeg_queue_remove_job_by_job_id q jobId with
      | (Some n, q) =>
          put_ongoing_q q;;
          match mm_jpeg_get_session (node_job_id n) with
          | Some p => mm_jpeg_session_abort p;; mret tt
          | None => mret tt
          end;;
          mret (-1)
      | (None, _) => mret (-1)
      end
  end.

Definition new_session_id (session_idx clnt_idx : Z) : Z :=
  Z.lor (Z.lor (Z.shiftl JOB_ID_MAGICVAL 24) (Z.shiftl session_idx 8)) clnt_idx.

(** The second result is what is stored at [p_session_id]. *)
Definition mm_jpeg_create_session (client_hdl : Z) (p_params : mm_jpeg_encode_params_t) : M jworld (Z * Z) :=
  if (Z.of_nat MM_JPEG_MAX_BUF <? num_src_bufs p_params) || (Z.of_nat MM_JPEG_MAX_BUF <? num_dst_bufs p_params) then mret (0, 0)
  else
    let clnt_idx := mm_jpeg_util_get_index_by_handler client_hdl in
    if Z.of_nat MAX_JPEG_CLIENT_NUM <=? clnt_idx then mret (0, 0)
    else
      r ← mm_jpeg_get_new_session_idx (Z.to_nat clnt_idx);
      match r with
      | None => mret (0, 0)
      | Some p =>
          o ← the_obj;
          upd_sess p (put_work_buffer (ionBuffer o));;
          ret ← mm_jpeg_session_create p;
          if negb (ret =? OMX_ErrorNone) then upd_sess p (put_active false);; mret (0, 0)
          else
            let id := new_session_id (Z.of_nat p.2) clnt_idx in
            upd_sess p (fun s => put_jpeg_obj true (put_sessionId id (put_client_hdl client_hdl (put_params p_params s))));;
            mret (0, id)
      end.

Definition remove_from_queues (id : Z) : M jworld unit :=
  q ← todo_q;
  q' ← deref (remove_session_jobs (S (length q)) q id);
  put_todo_q q';;
  q ← ongoing_q;
  q' ← deref (remove_session_jobs (S (length q)) q id);
  put_ongoing_q q'.

Definition mm_jpeg_destroy_session (p_session : option sptr) : M jworld Z :=
  match p_session with
  | None => mret 0
  | Some p =>
      s ← sess p;
      let id := sessionId s in
      remove_from_queues id;;
      mm_jpeg_session_abort p;;
      mm_jpeg_session_destroy p;;
      mm_jpeg_remove_session_idx id;;
      sem_post;;
      mret 0
  end.

Definition mm_jpeg_destroy_session_unlocked (p : sptr) : M jworld Z :=
  s ← sess p;
  let id := sessionId s in
  remove_from_queues id;;
  mm_jpeg_session_abort p;;
  mm_jpeg_remove_session_idx id;;
  mret (-1).

Definition mm_jpeg_destroy_session_by_id (id : Z) : M jworld Z := mm_jpeg_destroy_session (mm_jpeg_get_session id).

Definition mm_jpeg_close (client_hdl : Z) : M jworld Z :=
  let clnt_idx := mm_jpeg_util_get_index_by_handler client_hdl in
  if Z.of_nat MAX_JPEG_CLIENT_NUM <=? clnt_idx then mret (-1)
  else
    let c := Z.to_nat clnt_idx in
    for_each (seq 0 MM_JPEG_MAX_SESSION) (fun i =>
      s ← sess (c, i);
      if active s then mm_jpeg_destroy_session_unlocked (c, i);; mret tt else mret tt);;
    upd_obj (fun o => put_clnt_mgr (<[c := zero_client]> (clnt_mgr o)) o);;
    mret 0.

(** ** The entry points ([mm_jpeg_interface.c])

    A pointer to write to is given by whether it is not null. *)

Definition with_lib {A} (err : A) (k : M jworld A) : M jworld A :=
  o ← gets j_obj; match o with None => mret err | Some _ => k end.

Definition mm_jpeg_intf_start_job (job : option mm_jpeg_encode_job_t) (id_ptr : bool) : M jworld (Z * Z) :=
  match job with
  | None => mret (-1, 0)
  | Some job => if negb id_ptr then mret (-1, 0) else with_lib (-1, 0) (mm_jpeg_start_job job)
  end.

Definition mm_jpeg_intf_create_session (client_hdl : Z) (p_params : option mm_jpeg_encode_params_t) (id_ptr : bool) : M jworld (Z * Z) :=
  match p_params with
  | None => mret (-1, 0)
  | Some ps => if (client_hdl =? 0) || negb id_ptr then mret (-1, 0) else with_lib (-1, 0) (mm_jpeg_create_session client_hdl ps)
  end.

Definition mm_jpeg_intf_destroy_session (id : Z) : M jworld Z :=
  if id =? 0 then mret (-1) else with_lib (-1) (mm_jpeg_destroy_session_by_id id).

Definition mm_jpeg_intf_abort_job (id : Z) : M jworld Z :=
  if id =? 0 then mret (-1) else with_lib (-1) (mm_jpeg_abort_job id).

Definition mm_jpeg_intf_close (turns : nat) (client_hdl : Z) : M jworld Z :=
  if client_hdl =? 0 then mret (-1)
  else with_lib (-1) (
    rc ← mm_jpeg_close client_hdl;
    upd_obj (fun o => put_num_clients (num_clients o -i 1) o);;
    o ← the_obj;
    if (rc =? 0) && (num_clients o =? 0) then
      rc ← mm_jpeg_deinit turns;
      modify (put_j_obj None);;
      mret rc
    else mret rc).

(** The second result says whether the operations were filled in. *)
Definition jpeg_open (turns : nat) (ops : bool) : M jworld (Z * bool) :=
  o ← gets j_obj;
  ready ← match o with
          | Some _ => mret true
          | None =>
              ok ← jmalloc;
              if ok : bool then
                modify (put_j_obj (Some zero_obj));;
                rc ← mm_jpeg_init turns;
                if negb (rc =? 0) then modify (put_j_obj None);; mret false else mret true
              else mret false
          end;
  if ready : bool then
    hdl ← mm_jpeg_new_client;
    if 0 <? hdl then mret (hdl, ops)
    else
      o ← the_obj;
      (if num_clients o =? 0 then mm_jpeg_deinit turns;; modify (put_j_obj None) else mret tt);;
      mret (hdl, false)
  else mret (0, false).

End Code.
