(* ===== verification/JpegDecIntf.v ===== *)
(** * The clients of the JPEG decoder

    The rest of [mm_jpegdec.c], and [mm_jpegdec_interface.c].  Clients and the
    closing of one are those of the encoder ([mm_jpeg_new_client],
    [mm_jpeg_close]); in the state of a decoder [j_obj] is what [g_jpegdec_obj]
    points to. *)

From Stdlib Require Import ZArith Lia.
From stdpp Require Import numbers list gmap strings.
From S2P Require Import Prelude CamTypes JpegQueue QomxCore JpegExif JpegData JpegBase Jpeg JpegDec JpegMgr.

Section Code.
Context `{FL : Floats} `{OE : OmxEnv} `{JE : JpegEnv}.

(** ** Jobs and sessions *)

(** The second result is what is stored at [job_id]. *)
Definition mm_jpegdec_start_decode_job (job : mm_jpeg_decode_job_t) : M jworld (Z * Z) :=
  let session_idx := GET_SESSION_IDX (d_session_id job) in
  let client_idx := GET_CLIENT_IDX (d_session_id job) in
  if (Z.of_nat MM_JPEG_MAX_SESSION <=? session_idx) || (Z.of_nat MAX_JPEG_CLIENT_NUM <=? client_idx) then mret (-1, 0)
  else
    let p := (Z.to_nat client_idx, Z.to_nat session_idx) in
    s ← sess p;
    if negb (active s) then mret (-1, 0)
    else if (d_num_src_bufs (dec_params s) <=? d_src_index job) || (d_num_dst_bufs (dec_params s) <=? d_dst_index job) then mret (-1, 0)
    else
      ok ← jmalloc;
      if ok : bool then
        let id := new_job_id (d_session_id job) (job_hist s) in
        upd_sess p (put_job_hist (job_hist s +i 1));;
        rc ← enq todo_q put_todo_q (DecodeNode {| decode_job := job; d_job_id := id; d_client_handle := client_hdl s |});
        (if rc =? 0 then sem_post else mret tt);;
        mret (rc, id)
      else mret (-1, 0).

(** The second result is what is stored at [p_session_id]. *)
Definition mm_jpegdec_create_session (client_hdl : Z) (p_params : mm_jpeg_decode_params_t) : M jworld (Z * Z) :=
  if (Z.of_nat MM_JPEG_MAX_BUF <? d_num_src_bufs p_params) || (Z.of_nat MM_JPEG_MAX_BUF <? d_num_dst_bufs p_params) then mret (0, 0)
  else
    let clnt_idx := mm_jpeg_util_get_index_by_handler client_hdl in
    if Z.of_nat MAX_JPEG_CLIENT_NUM <=? clnt_idx then mret (0, 0)
    else
      r ← mm_jpeg_get_new_session_idx (Z.to_nat clnt_idx);
      match r with
      | None => mret (0, 0)
      | Some p =>
          ret ← mm_jpegdec_session_create p;
          if negb (ret =? OMX_ErrorNone) then upd_sess p (put_active false);; mret (0, 0)
          else
            let id := new_session_id (Z.of_nat p.2) clnt_idx in
            upd_sess p (fun s => put_jpeg_obj true (put_sessionId id (put_client_hdl client_hdl (put_dec_params p_params s))));;
            mret (0, id)
      end.

(** The identifier is read before the pointer is compared with null. *)
Definition mm_jpegdec_destroy_session (p_session : option sptr) : M jworld Z :=
  p ← deref p_session;
  s ← sess p;
  let id := sessionId s in
  remove_from_queues id;;
  mm_jpeg_session_abort p;;
  mm_jpegdec_session_destroy p;;
  mm_jpeg_remove_session_idx id;;
  sem_post;;
  mret 0.

Definition mm_jpegdec_destroy_session_by_id (id : Z) : M jworld Z := mm_jpegdec_destroy_session (mm_jpeg_get_session id).

Definition mm_jpegdec_abort_job (jobId : Z) : M jworld Z :=
  q ← todo_q;
  match mm_jpeg_queue_remove_job_by_job_id q jobId with
  | (Some _, q) => put_todo_q q;; mret (-1)
  | (None, _) =>
      q ← ongoing_q;
      match mm_jpeg_queue_remove_job_by_job_id q jobId with
      | (Some n, q) =>
          put_ongoing_q q;;
          match mm_jpeg_get_session (node_job_id n) with
          | Some p => mm_jpeg_session_abort p;; mret tt
          | None => mret tt
          end;;
          mret (-1)
      | (None, _) => mret (-1)
      end
  end.

(** ** Opening and closing the library *)

Definition mm_jpegdec_init (turns : nat) : M jworld Z :=
  upd_obj (put_ongoing_job_q (Some []));;
  mm_jpeg_jobmgr_thread_launch;;
  rc ← omx OMX_Init;
  (if rc =? OMX_ErrorNone then mret tt
   else
     mm_jpeg_jobmgr_thread_release turns;;
     deinit_ongoing_q);;
  mret 0.

Definition mm_jpegdec_deinit (turns : nat) : M jworld Z :=
  mm_jpeg_jobmgr_thread_release turns;;
  omx OMX_Deinit;;
  deinit_ongoing_q;;
  mret 0.

(** ** The entry points ([mm_jpegdec_interface.c]) *)

Definition mm_jpegdec_intf_start_job (job : option mm_jpeg_decode_job_t) (id_ptr : bool) : M jworld (Z * Z) :=
  match job with
  | None => mret (-1, 0)
  | Some job => if negb id_ptr then mret (-1, 0) else with_lib (-1, 0) (mm_jpegdec_start_decode_job job)
  end.

Definition mm_jpegdec_intf_create_session (client_hdl : Z) (p_params : option mm_jpeg_decode_params_t) (id_ptr : bool) : M jworld (Z * Z) :=
  match p_params with
  | None => mret (-1, 0)
  | Some ps => if (client_hdl =? 0) || negb id_ptr then mret (-1, 0) else with_lib (-1, 0) (mm_jpegdec_create_session client_hdl ps)
  end.

Definition mm_jpegdec_intf_destroy_session (id : Z) : M jworld Z :=
  if id =? 0 then mret (-1) else with_lib (-1) (mm_jpegdec_destroy_session_by_id id).

Definition mm_jpegdec_intf_abort_job (id : Z) : M jworld Z :=
  if id =? 0 then mret (-1) else with_lib (-1) (mm_jpegdec_abort_job id).

Definition mm_jpegdec_intf_close (turns : nat) (client_hdl : Z) : M jworld Z :=
  if client_hdl =? 0 then mret (-1)
  else with_lib (-1) (
    rc ← mm_jpeg_close client_hdl;
    upd_obj (fun o => put_num_clients (num_clients o -i 1) o);;
    o ← the_obj;
    if (rc =? 0) && (num_clients o =? 0) then
      rc ← mm_jpegdec_deinit turns;
      modify (put_j_obj None);;
      mret rc
    else mret rc).

(** The second result says whether the operations were filled in. *)
Definition jpegdec_open (turns : nat) (ops : bool) : M jworld (Z * bool) :=
  o ← gets j_obj;
  ready ← match o with
          | Some _ => mret true
          | None =>
              ok ← jmalloc;
              if ok : bool then
                modify (put_j_obj (Some zero_obj));;
                rc ← mm_jpegdec_init turns;
                if negb (rc =? 0) then modify (put_j_obj None);; mret false else mret true
              else mret false
          end;
  if ready : bool then
    hdl ← mm_jpeg_new_client;
    if 0 <? hdl then mret (hdl, ops)
    else
      o ← the_obj;
      (if num_clients o =? 0 then mm_jpegdec_deinit turns;; modify (put_j_obj None) else mret tt);;
      mret (hdl, false)
  else mret (0, false).

End Code.
