(* ===== verification/JpegIds.v ===== *)
(** * Identifiers and rectangles of the JPEG library

    Pure parts of [mm_jpeg.c]: the identifiers of sessions and jobs, and the
    crop rectangles. *)

From Stdlib Require Import ZArith Lia.
From stdpp Require Import numbers list gmap strings.
From S2P Require Import Prelude CamTypes JpegExif JpegData JpegBase Jpeg JpegDec JpegMgr.

(** ** Identifiers *)

Lemma ff_ones : 0xff = Z.ones 8.
Proof. reflexivity. Qed.

Lemma shiftl_small a k n : 0 <= k <= n -> 0 <= a -> Z.land (Z.shiftl a n) (Z.ones k) = 0.
Proof.
  intros Hk Ha. rewrite Z.land_ones, Z.shiftl_mul_pow2 by lia. replace n with (k + (n - k)) by lia.
  rewrite Z.pow_add_r by lia. rewrite (Z.mul_comm (2 ^ k)), Z.mul_assoc. apply Z_mod_mult.
Qed.

Section Ids.
Context (s c : Z) (Hs : 0 <= s < 256) (Hc : 0 <= c < 256).

Definition id_low : Z := Z.lor (Z.shiftl s 8) c.

Lemma id_low_bound : 0 <= id_low < 2 ^ 16.
Proof.
  unfold id_low. split; [apply Z.lor_nonneg; split; [apply Z.shiftl_nonneg; lia|lia]|].
  destruct (Z.eq_dec (Z.lor (Z.shiftl s 8) c) 0) as [->|Hne]; [lia|].
  apply Z.log2_lt_pow2; [apply Z.le_neq; split; [apply Z.lor_nonneg; split; [apply Z.shiftl_nonneg; lia|lia]|lia]|].
  rewrite Z.log2_lor by (try apply Z.shiftl_nonneg; lia). apply Z.max_lub_lt.
  - destruct (Z.eq_dec s 0) as [->|]; [by vm_compute|]. rewrite Z.log2_shiftl by lia.
    assert (Z.log2 s < 8) by (apply Z.log2_lt_pow2; lia). lia.
  - destruct (Z.eq_dec c 0) as [->|]; [by vm_compute|]. assert (Z.log2 c < 8) by (apply Z.log2_lt_pow2; lia). lia.
Qed.

(** A job identifier is the counter, with the magic bit of the session set in
    it, above the two indices. *)
Lemma job_id_split hist : 0 <= hist ->
  new_job_id (new_session_id s c) hist = Z.lor (Z.shiftl (Z.lor 256 (hist mod JOB_HIST_MAX)) 16) id_low.
Proof.
  intros Hh. unfold new_job_id, new_session_id, id_low, JOB_ID_MAGICVAL. rewrite Z.rem_mod_nonneg by (unfold JOB_HIST_MAX; lia).
  rewrite u32_id. 2:{ unfold u32_range. rewrite Z.shiftl_mul_pow2 by lia. pose proof (Z.mod_pos_bound hist JOB_HIST_MAX). unfold JOB_HIST_MAX in *. lia. }
  change (Z.shiftl 1 24) with (Z.shiftl 256 16). rewrite Z.shiftl_lor. rewrite <- (Z.lor_assoc (Z.shiftl 256 16)).
  rewrite <- !Z.lor_assoc. f_equal. rewrite Z.lor_assoc. apply Z.lor_comm.
Qed.

Lemma session_id_split : new_session_id s c = Z.lor (Z.shiftl 256 16) id_low.
Proof. unfold new_session_id, id_low, JOB_ID_MAGICVAL. change (Z.shiftl 1 24) with (Z.shiftl 256 16). by rewrite Z.lor_assoc. Qed.

Lemma client_idx_of k : 0 <= k -> GET_CLIENT_IDX (Z.lor (Z.shiftl k 16) id_low) = c.
Proof.
  intros Hk. unfold GET_CLIENT_IDX, id_low. rewrite ff_ones, !Z.land_lor_distr_l, !shiftl_small by lia.
  rewrite !Z.lor_0_l, Z.land_ones by lia. apply Z.mod_small. lia.
Qed.

Lemma session_idx_of k : 0 <= k -> GET_SESSION_IDX (Z.lor (Z.shiftl k 16) id_low) = s.
Proof.
  intros Hk. unfold GET_SESSION_IDX, id_low. rewrite !Z.shiftr_lor, !Z.shiftr_shiftl_l by lia. simpl (16 - 8). simpl (8 - 8).
  rewrite Z.shiftl_0_r. assert (Hc0 : Z.shiftr c 8 = 0) by (rewrite Z.shiftr_div_pow2 by lia; apply Z.div_small; lia). rewrite Hc0, Z.lor_0_r.
  rewrite ff_ones, Z.land_lor_distr_l, shiftl_small by lia. rewrite Z.lor_0_l, Z.land_ones by lia. apply Z.mod_small. lia.
Qed.

Lemma counter_of k : 0 <= k -> Z.shiftr (Z.lor (Z.shiftl k 16) id_low) 16 = k.
Proof.
  intros Hk. rewrite Z.shiftr_lor, Z.shiftr_shiftl_l by lia. simpl (16 - 16). rewrite Z.shiftl_0_r.
  pose proof id_low_bound. rewrite (Z.shiftr_div_pow2 id_low), Z.div_small by lia. apply Z.lor_0_r.
Qed.

(** Whatever the counter, also when it has wrapped around. *)
Lemma job_id_any hist : exists k, 0 <= k /\ new_job_id (new_session_id s c) hist = Z.lor (Z.shiftl k 16) id_low.
Proof.
  exists (Z.lor 256 (Z.rem hist JOB_HIST_MAX mod 2 ^ 16)). split; [apply Z.lor_nonneg; pose proof (Z.mod_pos_bound (Z.rem hist JOB_HIST_MAX) (2 ^ 16)); lia|].
  unfold new_job_id. rewrite session_id_split, Z.shiftl_lor.
  assert (E : forall x, u32 (Z.shiftl x 16) = Z.shiftl (x mod 2 ^ 16) 16).
  { intros x. unfold u32. rewrite !Z.shiftl_mul_pow2 by lia. rewrite <- (Z.mul_mod_distr_r x (2 ^ 16) (2 ^ 16)) by lia. reflexivity. }
  rewrite E. rewrite <- !Z.lor_assoc. f_equal. apply Z.lor_comm.
Qed.

End Ids.

Lemma mod_hist_nonneg h : 0 <= Z.lor 256 (h mod JOB_HIST_MAX).
Proof. apply Z.lor_nonneg. pose proof (Z.mod_pos_bound h JOB_HIST_MAX). unfold JOB_HIST_MAX in *. lia. Qed.

(** What of a job counter the identifier keeps. *)
Definition job_number (h : Z) : Z := Z.lor 256 (h mod JOB_HIST_MAX).

(** A job identifier leads back to the session it was made for; two jobs
    have the same identifier exactly when they belong to the same session and
    their counters modulo ten thousand are equal up to bit 8, which the magic
    bit of the session hides: the jobs 0 and 256 of a session share an
    identifier. *)
Theorem job_ids (s c s' c' h h' : Z) (Hs : 0 <= s < 10) (Hc : 0 <= c < 8) (Hs' : 0 <= s' < 10) (Hc' : 0 <= c' < 8)
  (Hh : 0 <= h) (Hh' : 0 <= h') :
  let id := new_job_id (new_session_id s c) h in
  mm_jpeg_get_session id = Some (Z.to_nat c, Z.to_nat s) /\
  (id = new_job_id (new_session_id s' c') h' <->
   s = s' /\ c = c' /\ job_number h = job_number h').
Proof.
  intros id. unfold id, job_number. rewrite !job_id_split by lia. pose proof (mod_hist_nonneg h). pose proof (mod_hist_nonneg h'). split.
  - unfold mm_jpeg_get_session. rewrite client_idx_of, session_idx_of by lia.
    change (Z.of_nat MM_JPEG_MAX_SESSION) with 10. change (Z.of_nat MAX_JPEG_CLIENT_NUM) with 8.
    rewrite (proj2 (Z.leb_gt 10 s)), (proj2 (Z.leb_gt 8 c)) by lia. done.
  - split; [|by intros (-> & -> & ->)]. intros E.
    pose proof (f_equal GET_SESSION_IDX E) as E1. pose proof (f_equal GET_CLIENT_IDX E) as E2. pose proof (f_equal (fun x => Z.shiftr x 16) E) as E3.
    cbv beta in E3. rewrite !session_idx_of in E1 by lia. rewrite !client_idx_of in E2 by lia. by rewrite !counter_of in E3 by lia.
Qed.

Lemma job_ids_witness :
  mm_jpeg_get_session (new_job_id (new_session_id 2 1) 0) = Some (1%nat, 2%nat) /\
  new_job_id (new_session_id 2 1) 0 = new_job_id (new_session_id 2 1) 256.
Proof.
  destruct (job_ids 2 1 2 1 0 256) as [H1 H2]; [lia..|]. split; [exact H1|]. apply H2. repeat split.
Defined.

(** ** Rectangles *)

Lemma ceiling2_even x : 0 <= x < 65535 -> CEILING2 x = 2 * ((x + 1) / 2).
Proof.
  intros Hx. unfold CEILING2. rewrite i32_id by (unfold i32_range; lia).
  change 0xFFFE with (Z.land (Z.ones 16) (Z.lnot (2 ^ 1 - 1))). rewrite Z.land_assoc, Z.land_ones by lia.
  rewrite Z.mod_small by lia. rewrite land_lnot_ones by lia. change (2 ^ 1) with 2. lia.
Qed.

(** The rectangle of the input image that a job sends to the component. *)
Definition job_rect (d : mm_jpeg_dim_t) : omx_rect := (main_rects (default_crop d)).1.

(** For images of up to 65534 lines and columns, a crop rectangle that
    passes the check is handed to the component with even sides, at most one
    pixel longer than asked for, and so ends at most one pixel outside the
    image; where the side asked for is even it ends inside.  A rectangle
    without extent becomes the whole image. *)
Theorem main_crop_bounds d0 (Hw : 0 <= width (src_dim d0) < 65535) (Hh : 0 <= height (src_dim d0) < 65535)
  (Hl : 0 <= left (crop d0) < 65535) (Ht : 0 <= top (crop d0) < 65535) (Hcw : 0 <= r_width (crop d0) < 65535)
  (Hch : 0 <= r_height (crop d0) < 65535) :
  let d := default_crop d0 in let r := job_rect d0 in
  crop_outside d = false ->
  x_width r mod 2 = 0 /\ x_height r mod 2 = 0 /\
  (0 <= x_left r /\ x_left r + x_width r <= width (src_dim d0) + r_width (crop d) mod 2) /\
  (0 <= x_top r /\ x_top r + x_height r <= height (src_dim d0) + r_height (crop d) mod 2) /\
  (r_width (crop d0) = 0 -> r_width (crop d) = width (src_dim d0)).
Proof.
  intros d r Hout.
  assert (Hd : src_dim d = src_dim d0 /\ left (crop d) = left (crop d0) /\ top (crop d) = top (crop d0) /\
    0 <= r_width (crop d) < 65535 /\ 0 <= r_height (crop d) < 65535 /\ (r_width (crop d0) = 0 -> r_width (crop d) = width (src_dim d0))).
  { unfold d, default_crop. destruct (Z.eqb_spec (r_width (crop d0)) 0); simpl; [repeat split; lia|].
    destruct (Z.eqb_spec (r_height (crop d0)) 0); simpl; repeat split; lia. }
  destruct Hd as (E1 & E2 & E3 & Hw' & Hh' & Hz). unfold crop_outside in Hout. apply orb_false_iff in Hout as [O1 O2].
  apply Z.ltb_ge in O1, O2. rewrite E1, E2, E3 in *. rewrite i32_id in O1, O2 by (unfold i32_range; lia).
  unfold r, job_rect. fold d. unfold main_rects. rewrite E2, E3. destruct (_ || _); simpl; [|pose proof (Z.mod_pos_bound (r_width (crop d)) 2);
    pose proof (Z.mod_pos_bound (r_height (crop d)) 2); repeat split; lia].
  rewrite !ceiling2_even by lia.
  assert (forall x, 2 * ((x + 1) / 2) = x + x mod 2) as Hev by (intros x; Z.to_euclidean_division_equations; lia).
  split; [by rewrite Z.mul_comm, Z.mod_mul|]. split; [by rewrite Z.mul_comm, Z.mod_mul|]. rewrite !Hev. repeat split; lia.
Qed.

(** An odd side is made longer than the image. *)
Definition odd_image : mm_jpeg_dim_t :=
  {| src_dim := {| width := 5; height := 4 |}; dst_dim := {| width := 2; height := 2 |};
     crop := {| left := 2; top := 0; r_width := 3; r_height := 4 |} |}.

Lemma main_crop_bounds_witness :
  crop_outside (default_crop odd_image) = false /\ x_left (job_rect odd_image) + x_width (job_rect odd_image) = 6 /\
  x_left (job_rect odd_image) + x_width (job_rect odd_image) <= 5 + 3 mod 2.
Proof.
  split; [reflexivity|]. split; [reflexivity|].
  apply (main_crop_bounds odd_image); simpl; try lia. reflexivity.
Defined.
