(* ===== verification/JpegInv.v ===== *)
(** * The invariant of the JPEG library

    What holds of the library object between the steps of its threads, and
    that callbacks and calls of components keep it. *)

From Stdlib Require Import ZArith Lia.
From stdpp Require Import numbers list gmap strings.
From S2P Require Import Prelude CamTypes JpegQueue QomxCore QomxProps JpegExif.
From S2P Require Import JpegData JpegBase Jpeg JpegDec JpegMgr JpegIds.

(** ** Well-formed data *)

(** Whether the object is that of the encoder or that of the decoder: which
    callbacks its components are given. *)
Class Codec := codec : omx_callbacks.

Section Shape.
Context `{FL : Floats} `{K : Codec}.

Definition bufs_ok (l : list mm_jpeg_buf_t) : Prop :=
  length l = MM_JPEG_MAX_BUF /\ Forall (fun b => (3 <= length (mp (offset b)))%nat) l.

Record params_ok (ps : mm_jpeg_encode_params_t) : Prop := {
  po_src : 0 <= num_src_bufs ps <= 24;
  po_tmb : 0 <= num_tmb_bufs ps <= 24;
  po_dst : 0 <= num_dst_bufs ps <= 24;
  po_bufs : bufs_ok (src_main_buf ps) /\ bufs_ok (src_thumb_buf ps) /\ bufs_ok (dest_buf ps)
}.

Definition job_fits (j : mm_jpeg_encode_job_t) : Prop :=
  0 <= src_index j < 24 /\ 0 <= dst_index j < 24 /\ 0 <= thumb_index j < 24.

Record dec_params_ok (ps : mm_jpeg_decode_params_t) : Prop := {
  dp_src : 0 <= d_num_src_bufs ps <= 24;
  dp_dst : 0 <= d_num_dst_bufs ps <= 24;
  dp_bufs : bufs_ok (d_src_main_buf ps) /\ bufs_ok (d_dest_buf ps)
}.

Definition dec_job_fits (j : mm_jpeg_decode_job_t) : Prop := 0 <= d_src_index j < 24 /\ 0 <= d_dst_index j < 24.

Definition scalar_entry (e : QEXIF_INFO_DATA) : Prop := is_array (x_type (tag_entry e)) (x_count (tag_entry e)) = false.

(** What holds of the memory of every session. *)
Record sess_shape (s : mm_jpeg_job_session_t) : Prop := {
  ss_in : length (p_in_omx_buf s) = MM_JPEG_MAX_BUF;
  ss_tmb : length (p_in_omx_thumb_buf s) = MM_JPEG_MAX_BUF;
  ss_out : length (p_out_omx_buf s) = MM_JPEG_MAX_BUF;
  ss_params : params_ok (params s);
  ss_job : job_fits (s_job s);
  ss_dec : dec_params_ok (dec_params s);
  ss_dec_job : dec_job_fits (s_decode_job s);
  ss_exif : length (exif_info_local s) = 50%nat;
  ss_scalar : Forall scalar_entry (exif_info_local s);
  ss_count : 0 <= exif_count_local s <= 50;
  ss_safe : jpeg_obj s = true \/ (jpeg_cb (params s) = None /\ d_jpeg_cb (dec_params s) = None /\ encoding s = false)
}.

Definition sid (p : sptr) : Z := new_session_id (Z.of_nat p.2) (Z.of_nat p.1).

Definition in_table (p : sptr) : Prop := (p.1 < 8)%nat /\ (p.2 < 10)%nat.

(** What the component of a session was given. *)
Definition app_of (p : sptr) : omx_app := {| appData := sptr_to_Z p; callBacks := codec |}.

(** A session in use has its own component. *)
Definition sess_live (tr : ohistory) (p : sptr) (s : mm_jpeg_job_session_t) : Prop :=
  jpeg_obj s = true /\ sessionId s = sid p /\
  exists h, omx_handle s = Some h /\ h ∈ alive tr /\ app_data h tr = Some (app_of p).

Definition sess_ok (tr : ohistory) (p : sptr) (s : mm_jpeg_job_session_t) : Prop :=
  sess_shape s /\ (active s = true -> sess_live tr p s).

(** A queued job belongs to a session in use, and not to the one that is being
    destroyed. *)
Definition node_sid (n : mm_jpeg_job_q_node_t) : Z :=
  match n with JobNode i => session_id (encode_job i) | DecodeNode i => d_session_id (decode_job i) | ExitNode => 0 end.
Definition node_fits (n : mm_jpeg_job_q_node_t) : Prop :=
  match n with
  | JobNode i => codec = EncoderCallbacks /\ job_fits (encode_job i)
  | DecodeNode i => codec = DecoderCallbacks /\ dec_job_fits (decode_job i)
  | ExitNode => False
  end.
Definition node_ok (ex : option sptr) (o : mm_jpeg_obj) (n : mm_jpeg_job_q_node_t) : Prop :=
  exists p s, mm_jpeg_get_session (node_job_id n) = Some p /\ session_of o p = Some s /\ active s = true /\
    node_sid n = sid p /\ node_fits n /\ ex <> Some p.

Definition table_ok (o : mm_jpeg_obj) : Prop :=
  length (clnt_mgr o) = MAX_JPEG_CLIENT_NUM /\ Forall (fun c => length (session c) = MM_JPEG_MAX_SESSION) (clnt_mgr o).

(** The semaphore counts posts, and as long as it has not wrapped around a
    waiting job that could run has a post. *)
Definition sem_ok (ns : bool) (tr : jhistory) (sem : Z) (todo og : list mm_jpeg_job_q_node_t) : Prop :=
  Z.of_nat (length tr) < 2 ^ 31 ->
  0 <= sem <= Z.of_nat (length tr) /\ (ns = true -> og = [] -> todo <> [] -> 0 < sem).

Record jstate (lib_of : string -> Z) (ex : option sptr) (ns : bool) (w : jworld) (o : mm_jpeg_obj) (todo og : list mm_jpeg_job_q_node_t) : Prop := {
  js_obj : j_obj w = Some o;
  js_todo : job_queue (job_mgr o) = Some todo;
  js_og : ongoing_job_q o = Some og;
  js_table : table_ok o;
  js_one : (length og <= 1)%nat;
  js_jobs : Forall (node_ok ex o) (todo ++ og);
  js_sess : forall p s, session_of o p = Some s -> sess_ok (o_tr (j_omx w)) p s;
  js_core : exists core, core_inv lib_of (j_omx w) core;
  js_app : forall h a, app_data h (o_tr (j_omx w)) = Some a -> exists p, a = app_of p /\ in_table p;
  js_sem : sem_ok ns (j_tr w) (job_sem (job_mgr o)) todo og
}.

(** The invariant; [ns] says whether a job that could run is never left
    waiting. *)
Definition jinv (lib_of : string -> Z) (ex : option sptr) (ns : bool) (w : jworld) : Prop := exists o todo og, jstate lib_of ex ns w o todo og.

(** Session [p] is in use. *)
Definition act (p : sptr) (w : jworld) : Prop :=
  exists o s, j_obj w = Some o /\ session_of o p = Some s /\ active s = true.

Definition J (lib_of : string -> Z) (ex : option sptr) (ns : bool) (p : sptr) (w : jworld) : Prop := jinv lib_of ex ns w /\ act p w.

(** ** Lookups in the table *)

Lemma session_of_with o p q s s0 : session_of o p = Some s0 -> session_of (with_session p s o) q = if decide (p = q) then Some s else session_of o q.
Proof.
  destruct p as [c i], q as [d j]. unfold session_of, with_session. simpl. intros H.
  destruct (clnt_mgr o !! c) as [cl|] eqn:Ec; [|done]. simpl in H.
  case_decide as Hne; [injection Hne as <- <-|].
  - rewrite list_lookup_alter_eq, Ec. simpl. apply list_lookup_insert_eq. by eapply lookup_lt_Some.
  - destruct (decide (c = d)) as [<-|]; [|by rewrite list_lookup_alter_ne by done].
    rewrite list_lookup_alter_eq, Ec. simpl. apply list_lookup_insert_ne. congruence.
Qed.

Lemma table_ok_with o p s : table_ok o -> table_ok (with_session p s o).
Proof.
  intros [H1 H2]. split; simpl; [by rewrite length_alter|]. apply Forall_alter; [done|]. intros c Hc Hl. simpl. by rewrite length_insert.
Qed.

Lemma session_in_table o p : table_ok o -> in_table p -> is_Some (session_of o p).
Proof.
  intros [H1 H2] [Hp1 Hp2]. unfold session_of. destruct (lookup_lt_is_Some_2 (clnt_mgr o) p.1) as [c Hc]; [by rewrite H1|].
  rewrite Hc. simpl. apply lookup_lt_is_Some_2. rewrite (Forall_lookup_1 _ _ _ _ H2 Hc). done.
Qed.

Lemma in_table_session o p s : table_ok o -> session_of o p = Some s -> in_table p.
Proof.
  intros [H1 H2] H. unfold session_of in H. destruct (clnt_mgr o !! p.1) as [c|] eqn:Ec; [|done]. simpl in H. split.
  - apply lookup_lt_Some in Ec. by rewrite H1 in Ec.
  - apply lookup_lt_Some in H. by rewrite (Forall_lookup_1 _ _ _ _ H2 Ec) in H.
Qed.

Lemma Z_to_sptr_of p : (p.2 < 10)%nat -> Z_to_sptr (sptr_to_Z p) = p.
Proof.
  destruct p as [c i]. unfold Z_to_sptr, sptr_to_Z, MM_JPEG_MAX_SESSION. cbn [fst snd]. intros Hi. rewrite Nat2Z.id. f_equal.
  - symmetry. apply (Nat.div_unique _ _ _ i); lia.
  - symmetry. apply (Nat.mod_unique _ _ c); lia.
Qed.

Lemma node_ok_with ex o p s s0 n : session_of o p = Some s0 -> active s = active s0 -> node_ok ex o n -> node_ok ex (with_session p s o) n.
Proof.
  intros Hp Ha (q & sq & Hq & Hs & Hac & Hrest). exists q.
  rewrite (session_of_with _ _ _ _ _ Hp). destruct (decide (p = q)) as [<-|]; [|by exists sq].
  exists s. rewrite Hp in Hs. injection Hs as <-. by rewrite Ha.
Qed.

End Shape.

Section Steps.
Context `{FL : Floats} `{K : Codec} `{OE : OmxEnv} `{JE : JpegEnv} (lib_of : string -> Z) (ex : option sptr).

Abbreviation jstate := (jstate lib_of ex).
Abbreviation jinv := (jinv lib_of ex).

(** ** Elementary changes of the state *)

Lemma sess_run w o p s : j_obj w = Some o -> session_of o p = Some s -> sess p w = Some (s, w).
Proof. intros H1 H2. unfold sess, the_obj. unM. by rewrite H1, H2. Qed.

Lemma upd_sess_run w o p s f : j_obj w = Some o -> session_of o p = Some s ->
  upd_sess p f w = Some (tt, put_j_obj (Some (with_session p (f s) o)) w).
Proof.
  intros H1 H2. unfold upd_sess. rewrite (bind_run _ _ _ _ _ (sess_run _ _ _ _ H1 H2)). unfold upd_obj, the_obj. unM. by rewrite H1.
Qed.

Lemma upd_obj_run w o f : j_obj w = Some o -> upd_obj f w = Some (tt, put_j_obj (Some (f o)) w).
Proof. intros H1. unfold upd_obj, the_obj. unM. by rewrite H1. Qed.

Lemma jstate_weaken ns ns' w o todo og : (ns' = true -> ns = true) -> jstate ns w o todo og -> jstate ns' w o todo og.
Proof. intros Hns H. destruct H. split; try done. intros Hl. destruct (js_sem0 Hl) as [? H]. split; [done|]. auto. Qed.

Lemma jstate_note ns w o todo og e : jstate ns w o todo og -> jstate ns (put_j_tr (e :: j_tr w) w) o todo og.
Proof.
  intros H. destruct H. split; try done. unfold sem_ok in *. cbn [j_tr put_j_tr length]. intros Hl. destruct js_sem0 as [? ?]; [lia|]. split; [lia|done].
Qed.

Lemma jstate_with ns w o todo og p s s' : jstate ns w o todo og -> session_of o p = Some s -> sess_ok (o_tr (j_omx w)) p s' ->
  active s' = active s -> jstate ns (put_j_obj (Some (with_session p s' o)) w) (with_session p s' o) todo og.
Proof.
  intros H Hp Hok Ha. destruct H. split; try done; [by apply table_ok_with| |].
  - eapply Forall_impl; [exact js_jobs0|]. intros n. by apply (node_ok_with ex o p s' s).
  - intros q sq. rewrite (session_of_with _ _ _ _ _ Hp). case_decide as E; [|by apply js_sess0]. by intros [= <-]; subst.
Qed.

(** The job manager and the queues. *)
Definition with_queues (todo og : list mm_jpeg_job_q_node_t) (sem : Z) (o : mm_jpeg_obj) : mm_jpeg_obj :=
  put_ongoing_job_q (Some og) (put_job_mgr (put_job_queue (Some todo) (put_job_sem sem (job_mgr o))) o).

Lemma node_ok_same o o' n : clnt_mgr o' = clnt_mgr o -> node_ok ex o n -> node_ok ex o' n.
Proof. intros E. unfold node_ok, session_of. by rewrite E. Qed.

Lemma jstate_queues ns ns' w o todo og todo' og' o' sem' : jstate ns w o todo og ->
  o' = with_queues todo' og' sem' o -> (length og' <= 1)%nat -> Forall (node_ok ex o) (todo' ++ og') ->
  (sem_ok ns (j_tr w) (job_sem (job_mgr o)) todo og -> sem_ok ns' (j_tr w) sem' todo' og') ->
  jstate ns' (put_j_obj (Some o') w) o' todo' og'.
Proof.
  intros H -> Hog Hjobs Hsem. destruct H. split; try done. by apply Hsem.
Qed.

(** Posting the semaphore: whoever can run is woken. *)
Lemma sem_post_run ns w o todo og : jstate ns w o todo og -> exists w' o', sem_post w = Some (tt, w') /\
  jstate true w' o' todo og /\ clnt_mgr o' = clnt_mgr o /\ j_omx w' = j_omx w.
Proof.
  intros H. pose proof (jstate_note _ _ _ _ _ JSemPost H) as H1. set (w1 := put_j_tr _ w) in *.
  unfold sem_post. erewrite bind_run by reflexivity. fold w1. rewrite (upd_obj_run w1 o) by apply (js_obj _ _ _ _ _ _ _ H1).
  eexists. exists (put_job_mgr (put_job_sem (job_sem (job_mgr o) +i 1) (job_mgr o)) o). split; [reflexivity|]. split; [|done].
  apply (jstate_queues ns true w1 o todo og todo og _ (job_sem (job_mgr o) +i 1)); [done| |apply H|apply H|].
  - destruct o as [? ? [? ? ?] ? ?]. pose proof (js_todo _ _ _ _ _ _ _ H). pose proof (js_og _ _ _ _ _ _ _ H). simpl in *. by subst.
  - intros _ Hl. destruct H. unfold sem_ok in js_sem0. cbn [j_tr w1 put_j_tr length] in Hl |- *. destruct js_sem0 as [Hs _]; [unfold w1 in Hl; simpl in Hl; lia|].
    unfold w1 in *. simpl in *. rewrite i32_id by (unfold i32_range; lia). lia.
Qed.

Lemma remove_first_sub {A} f (l : list A) : (remove_first f l).2 ⊆ l /\ (length (remove_first f l).2 <= length l)%nat.
Proof.
  induction l as [|x l [IH1 IH2]]; [done|]. simpl. destruct (f x); [simpl; split; [set_solver|lia]|].
  destruct (remove_first f l) as [r ys]. simpl in *. split; [set_solver|lia].
Qed.

Lemma jobs_sub o l l' : Forall (node_ok ex o) l -> l' ⊆ l -> Forall (node_ok ex o) l'.
Proof. rewrite !Forall_forall. intros H Hs n Hn. apply H, Hs, Hn. Qed.

(** A job of the session leaves the ongoing queue and the job manager is
    woken. *)
Lemma job_done_run ns w o todo og p s : jstate ns w o todo og -> session_of o p = Some s -> jpeg_obj s = true ->
  exists w' o' og', mm_jpeg_job_done p w = Some (tt, w') /\ jstate true w' o' todo og' /\
    clnt_mgr o' = clnt_mgr (with_session p (put_encoding false s) o) /\ j_omx w' = j_omx w.
Proof.
  intros H Hp Hj. pose proof (js_obj _ _ _ _ _ _ _ H) as Ho. unfold mm_jpeg_job_done. rewrite (bind_run _ _ _ _ _ (sess_run _ _ _ _ Ho Hp)), Hj.
  assert (Eq : ongoing_q w = Some (og, w)) by (unfold ongoing_q, the_obj; unM; by rewrite Ho, (js_og _ _ _ _ _ _ _ H)).
  rewrite (bind_run _ _ _ _ _ Eq). destruct (remove_first_sub (fun n => node_job_id n =? jobId s) og) as [Hsub Hlen].
  unfold mm_jpeg_queue_remove_job_by_job_id. set (og' := (remove_first _ og).2) in *.
  unfold put_ongoing_q. rewrite (bind_run _ _ _ _ _ (upd_obj_run w o _ Ho)). set (o1 := put_ongoing_job_q (Some og') o).
  set (w1 := put_j_obj (Some o1) w).
  assert (H1 : jstate false w1 o1 todo og').
  { apply (jstate_queues ns false w o todo og todo og' o1 (job_sem (job_mgr o)) H).
    - unfold o1, with_queues. destruct o as [? ? [? ? ?] ? ?]. pose proof (js_todo _ _ _ _ _ _ _ H). simpl in *. by subst.
    - pose proof (js_one _ _ _ _ _ _ _ H). lia.
    - eapply jobs_sub; [apply H|]. set_solver.
    - intros Hs Hl. destruct (Hs Hl). done. }
  rewrite (bind_run _ _ _ _ _ (upd_sess_run w1 o1 p s (put_encoding false) eq_refl Hp)).
  set (o2 := with_session p _ o1). set (w2 := put_j_obj (Some o2) w1).
  assert (H2 : jstate false w2 o2 todo og').
  { apply (jstate_with false w1 o1 todo og' p s); [done|done| |done]. destruct (js_sess _ _ _ _ _ _ _ H p s Hp) as [Hsh Hl].
    split; [|exact Hl]. destruct Hsh. split; try done. by left. }
  destruct (sem_post_run _ _ _ _ _ H2) as (w3 & o3 & E & H3 & Hc & Hx). exists w3, o3, og'. rewrite E. done.
Qed.

(** An update that leaves alone what the invariant says of a session. *)
Definition benign (f : mm_jpeg_job_session_t -> mm_jpeg_job_session_t) : Prop := forall s,
  (sess_shape s -> sess_shape (f s)) /\ active (f s) = active s /\ jpeg_obj (f s) = jpeg_obj s /\ sessionId (f s) = sessionId s /\
  omx_handle (f s) = omx_handle s.

(** For the setters. *)
Ltac benign := intros ?; split; [intros []; split; done|done].

Lemma benign_ok tr p s f : benign f -> sess_ok tr p s -> sess_ok tr p (f s).
Proof.
  intros Hf [Hs Hl]. destruct (Hf s) as (H1 & H2 & H3 & H4 & H5). split; [auto|]. rewrite H2. unfold sess_live. rewrite H3, H4, H5. done.
Qed.

Lemma upd_benign ns w o todo og p s f : jstate ns w o todo og -> session_of o p = Some s -> benign f ->
  jstate ns (put_j_obj (Some (with_session p (f s) o)) w) (with_session p (f s) o) todo og.
Proof. intros H Hp Hf. apply (jstate_with _ _ _ _ _ p s); [done|done|apply benign_ok; [done|by apply H]|by apply Hf]. Qed.

(** ** Callbacks *)

(** A callback on session [p] changes that session only, and either signals
    its condition or leaves alone what a waiting thread looks at. *)
Definition cb_out (ns : bool) (w : jworld) (o : mm_jpeg_obj) (p : sptr) (s : mm_jpeg_job_session_t) (sig : bool) (w' : jworld) : Prop :=
  jinv ns w' /\ j_omx w' = j_omx w /\ exists o' s', j_obj w' = Some o' /\
    (forall q, session_of o' q = if decide (p = q) then Some s' else session_of o q) /\ active s' = active s /\
    (sig = true \/ (state_change_pending s' = state_change_pending s /\ abort_state s' = abort_state s)).

Lemma session_of_same o o' q : clnt_mgr o' = clnt_mgr o -> session_of o' q = session_of o q.
Proof. unfold session_of. by intros ->. Qed.

Lemma cb_out_id ns w o todo og p s : jstate ns w o todo og -> session_of o p = Some s -> cb_out ns w o p s false w.
Proof.
  intros H Hp. split; [by exists o, todo, og|]. split; [done|]. exists o, s. split; [apply H|]. split; [|by auto].
  intros q. case_decide; [by subst|done].
Qed.

Lemma cb_out_upd ns w o todo og p s f sig : jstate ns w o todo og -> session_of o p = Some s -> benign f ->
  (sig = true \/ (state_change_pending (f s) = state_change_pending s /\ abort_state (f s) = abort_state s)) ->
  cb_out ns w o p s sig (put_j_obj (Some (with_session p (f s) o)) w).
Proof.
  intros H Hp Hf Hs. split; [do 3 eexists; by apply upd_benign|]. split; [done|]. eexists _, (f s). split; [reflexivity|].
  split; [intros q; by rewrite (session_of_with _ _ _ _ _ Hp)|]. split; [by apply Hf|done].
Qed.

Lemma call_cb_run ns w o todo og data p s cb st out : jstate ns w o todo og -> session_of o p = Some s ->
  exists w', call_cb data p cb st out w = Some (tt, w') /\ jstate ns w' (with_session p (put_job_status st s) o) todo og /\ j_omx w' = j_omx w.
Proof.
  intros H Hp. unfold call_cb. rewrite (bind_run _ _ _ _ _ (upd_sess_run w o p s _ (js_obj _ _ _ _ _ _ _ H) Hp)).
  set (o1 := with_session _ _ o). set (w1 := put_j_obj _ w).
  assert (H1 : jstate ns w1 o1 todo og) by (apply upd_benign; [done|done|benign]).
  assert (Hp1 : session_of o1 p = Some (put_job_status st s)).
  { unfold o1. rewrite (session_of_with _ _ _ _ _ Hp). by case_decide. }
  rewrite (bind_run _ _ _ _ _ (sess_run w1 o1 p _ eq_refl Hp1)). eexists. split; [reflexivity|]. split; [by apply jstate_note|done].
Qed.

(** The client is called and the job is done. *)
Lemma finish_run ns w o todo og data p s cb st out : jstate ns w o todo og -> session_of o p = Some s -> jpeg_obj s = true ->
  exists w', (match cb with Some cb => call_cb data p cb st out | None => mret tt end;; mm_jpeg_job_done p) w = Some (tt, w') /\
    cb_out true w o p s false w'.
Proof.
  intros H Hp Hj.
  assert (Hc : exists w1 o1 s1, match cb with Some cb => call_cb data p cb st out | None => mret tt end w = Some (tt, w1) /\
    jstate ns w1 o1 todo og /\ j_omx w1 = j_omx w /\ (forall q, session_of o1 q = if decide (p = q) then Some s1 else session_of o q) /\
    jpeg_obj s1 = true /\ active s1 = active s /\ state_change_pending s1 = state_change_pending s /\ abort_state s1 = abort_state s).
  { destruct cb as [cb|].
    - destruct (call_cb_run ns w o todo og data p s cb st out H Hp) as (w1 & E & H1 & Hx). exists w1, (with_session p (put_job_status st s) o), (put_job_status st s).
      split; [done|]. split; [done|]. split; [done|]. split; [intros q; by rewrite (session_of_with _ _ _ _ _ Hp)|done].
    - exists w, o, s. split; [done|]. split; [done|]. split; [done|]. split; [|done]. intros q. case_decide; [by subst|done]. }
  destruct Hc as (w1 & o1 & s1 & E1 & H1 & Hx & Hq & Hj1 & Ha1 & Hs1 & Hb1). rewrite (bind_run _ _ _ _ _ E1).
  assert (Hp1 : session_of o1 p = Some s1) by (rewrite Hq; by case_decide).
  destruct (job_done_run _ _ _ _ _ p s1 H1 Hp1 Hj1) as (w2 & o2 & og2 & E2 & H2 & Hc2 & Hx2). exists w2. split; [done|].
  split; [by do 3 eexists|]. split; [congruence|]. exists o2, (put_encoding false s1). split; [apply H2|]. split; [|by auto].
  intros q. rewrite (session_of_same _ _ q Hc2), (session_of_with _ _ _ _ _ Hp1). case_decide; [done|]. rewrite Hq. by case_decide.
Qed.

Lemma cb_out_after ns w o p s s1 sig w' : session_of o p = Some s -> active s1 = active s ->
  (sig = true \/ (state_change_pending s1 = state_change_pending s /\ abort_state s1 = abort_state s)) ->
  cb_out ns (put_j_obj (Some (with_session p s1 o)) w) (with_session p s1 o) p s1 sig w' -> cb_out ns w o p s sig w'.
Proof.
  intros Hp Ha Hs (H1 & H2 & o' & s' & Ho & Hq & Ha' & Hs'). split; [done|]. split; [done|]. exists o', s'. split; [done|]. split.
  - intros q. rewrite Hq, (session_of_with _ _ _ _ _ Hp). by case_decide.
  - split; [congruence|]. destruct Hs as [|[? ?]], Hs' as [|[? ?]]; auto. right. split; congruence.
Qed.

Lemma cb_out_weaken ns ns' w o p s sig sig' w' : (ns' = true -> ns = true) -> (sig = true -> sig' = true) -> cb_out ns w o p s sig w' -> cb_out ns' w o p s sig' w'.
Proof.
  intros Hn Hs (H1 & H2 & o' & s' & Ho & Hq & Ha & Hw). split.
  - destruct H1 as (o1 & t1 & g1 & H1). exists o1, t1, g1. by apply (jstate_weaken ns).
  - split; [done|]. exists o', s'. split; [done|]. split; [done|]. split; [done|]. destruct Hw; auto.
Qed.

(** A filled buffer, with the callback and the data of the encoder or of the
    decoder. *)
Lemma fbd_gen ns w o todo og data (get : mm_jpeg_job_session_t -> option Z) p s len va : (sess_shape s -> get s <> None -> jpeg_obj s = true) ->
  jstate ns w o todo og -> session_of o p = Some s ->
  exists w', (s ← sess p;
    if negb (bool_decide (abort_state s = MM_JPEG_ABORT_NONE)) then mret tt
    else
      upd_sess p (fun s => put_fbd_count (fbd_count s +i 1) s);;
      match get s with
      | Some cb => call_cb data p cb JPEG_JOB_STATUS_DONE (Some (len, va));; mm_jpeg_job_done p
      | None => mret tt
      end) w = Some (tt, w') /\ cb_out ns w o p s false w'.
Proof.
  intros Hget H Hp. pose proof (js_obj _ _ _ _ _ _ _ H) as Ho. rewrite (bind_run _ _ _ _ _ (sess_run _ _ _ _ Ho Hp)).
  destruct (negb _); [exists w; split; [done|by apply (cb_out_id ns w o todo og)]|].
  rewrite (bind_run _ _ _ _ _ (upd_sess_run w o p s _ Ho Hp)). set (f := fun s => put_fbd_count (fbd_count s +i 1) s).
  assert (Hf : benign f) by benign. pose proof (upd_benign _ _ _ _ _ p s f H Hp Hf) as H1.
  assert (Hp1 : session_of (with_session p (f s) o) p = Some (f s)) by (rewrite (session_of_with _ _ _ _ _ Hp); by case_decide).
  destruct (get s) as [cb|] eqn:Ecb; [|eexists; split; [done|apply (cb_out_upd ns w o todo og p s f); auto]].
  destruct (js_sess _ _ _ _ _ _ _ H p s Hp) as [Hsh _]. assert (Hj : jpeg_obj (f s) = true) by (by apply Hget).
  destruct (finish_run _ _ _ _ _ data p (f s) (Some cb) JPEG_JOB_STATUS_DONE (Some (len, va)) H1 Hp1 Hj) as (w' & E & Hout).
  exists w'. split; [exact E|]. apply (cb_out_after ns w o p s (f s)); [done|done|by right|]. by apply (cb_out_weaken true ns _ _ _ _ false).
Qed.

Lemma enc_cb_safe s : sess_shape s -> jpeg_cb (params s) <> None -> jpeg_obj s = true.
Proof. intros Hs Hc. by destruct (ss_safe _ Hs) as [|[? _]]. Qed.

Lemma dec_cb_safe s : sess_shape s -> d_jpeg_cb (dec_params s) <> None -> jpeg_obj s = true.
Proof. intros Hs Hc. by destruct (ss_safe _ Hs) as [|[_ [? _]]]. Qed.

Lemma fbd_run ns w o todo og p s len va cbs : jstate ns w o todo og -> session_of o p = Some s ->
  exists w', fbd_of cbs p len va w = Some (tt, w') /\ cb_out ns w o p s false w'.
Proof.
  destruct cbs.
  - apply (fbd_gen ns w o todo og enc_data (fun s => jpeg_cb (params s))), enc_cb_safe.
  - apply (fbd_gen ns w o todo og dec_data (fun s => d_jpeg_cb (dec_params s))), dec_cb_safe.
Qed.

(** A wait of the encoder is one for a change of state or for an abort; every
    completion signals to the decoder. *)
Definition waiting (s : mm_jpeg_job_session_t) : Prop :=
  codec = DecoderCallbacks \/ state_change_pending s = true \/ abort_state s = MM_JPEG_ABORT_INIT.

(** The events that end a wait. *)
Definition answering (e : OMX_EVENTTYPE) : Prop :=
  match e with
  | OMX_EventCmdComplete | OMX_EventError => True
  | OMX_EventPortSettingsChanged => codec = DecoderCallbacks
  | OMX_EventOther => False
  end.

(** An error of the component. *)
Lemma error_gen ns w o todo og data (cb : option Z) p s : jstate ns w o todo og -> session_of o p = Some s ->
  exists w', (upd_sess p (put_error_flag OMX_ErrorHardware);;
    (if encoding s then
       match cb with Some cb => call_cb data p cb JPEG_JOB_STATUS_ERROR None | None => mret tt end;;
       mm_jpeg_job_done p
     else mret tt);;
    mret true) w = Some (true, w') /\ cb_out ns w o p s true w'.
Proof.
  intros H Hp. pose proof (js_obj _ _ _ _ _ _ _ H) as Ho.
  set (f := put_error_flag OMX_ErrorHardware). assert (Hf : benign f) by benign. pose proof (upd_benign _ _ _ _ _ p s f H Hp Hf) as H1.
  assert (Hp1 : session_of (with_session p (f s) o) p = Some (f s)) by (rewrite (session_of_with _ _ _ _ _ Hp); by case_decide).
  rewrite (bind_run _ _ _ _ _ (upd_sess_run w o p s f Ho Hp)). destruct (encoding s) eqn:Een.
  - destruct (js_sess _ _ _ _ _ _ _ H p s Hp) as [Hsh _].
    assert (Hj : jpeg_obj (f s) = true) by (destruct (ss_safe _ Hsh) as [Hj|(_ & _ & Hj)]; [done|congruence]).
    destruct (finish_run _ _ _ _ _ data p (f s) cb JPEG_JOB_STATUS_ERROR None H1 Hp1 Hj) as (w' & E & Hout).
    exists w'. erewrite bind_run; [|exact E]. split; [done|].
    apply (cb_out_after ns w o p s (f s)); [done|done|by left|]. by apply (cb_out_weaken true ns _ _ _ _ false).
  - eexists. split; [reflexivity|]. apply (cb_out_upd ns w o todo og p s f); auto.
Qed.

Lemma upd_signal_run ns w o todo og p s f : jstate ns w o todo og -> session_of o p = Some s -> benign f ->
  exists w', (upd_sess p f;; mret true) w = Some (true, w') /\ cb_out ns w o p s true w'.
Proof.
  intros H Hp Hf. eexists. rewrite (bind_run _ _ _ _ _ (upd_sess_run w o p s f (js_obj _ _ _ _ _ _ _ H) Hp)). split; [done|].
  apply (cb_out_upd ns w o todo og p s f); auto.
Qed.

Lemma enc_event_run ns w o todo og p s e : codec = EncoderCallbacks -> jstate ns w o todo og -> session_of o p = Some s ->
  exists sig w', mm_jpeg_event_handler p e w = Some (sig, w') /\ cb_out ns w o p s sig w' /\ (answering e -> waiting s -> sig = true).
Proof.
  intros HK H Hp. pose proof (js_obj _ _ _ _ _ _ _ H) as Ho. unfold mm_jpeg_event_handler. rewrite (bind_run _ _ _ _ _ (sess_run _ _ _ _ Ho Hp)).
  assert (Hid : cb_out ns w o p s false w) by (by apply (cb_out_id ns w o todo og)). case_bool_decide as Eab.
  { destruct (upd_signal_run _ _ _ _ _ p s (put_abort_state MM_JPEG_ABORT_DONE) H Hp) as (w' & E & Hw); [benign|]. by exists true, w'. }
  destruct e; simpl.
  - destruct (state_change_pending s) eqn:Epe.
    + destruct (upd_signal_run _ _ _ _ _ p s (put_state_change_pending false) H Hp) as (w' & E & Hw); [benign|]. by exists true, w'.
    + exists false, w. split; [done|]. split; [done|]. intros _ [|[|]]; congruence.
  - destruct (error_gen ns w o todo og enc_data (jpeg_cb (params s)) p s H Hp) as (w' & E & Hw). by exists true, w'.
  - exists false, w. split; [done|]. split; [done|]. congruence.
  - by exists false, w.
Qed.

Lemma dec_event_run ns w o todo og p s e : jstate ns w o todo og -> session_of o p = Some s ->
  exists sig w', mm_jpegdec_event_handler p e w = Some (sig, w') /\ cb_out ns w o p s sig w' /\ (answering e -> sig = true).
Proof.
  intros H Hp. pose proof (js_obj _ _ _ _ _ _ _ H) as Ho. unfold mm_jpegdec_event_handler. set (f := put_omxEvent e). assert (Hf : benign f) by benign.
  rewrite (bind_run _ _ _ _ _ (upd_sess_run w o p s f Ho Hp)). pose proof (upd_benign _ _ _ _ _ p s f H Hp Hf) as H1. set (o1 := with_session _ _ o) in *. set (w1 := put_j_obj _ w) in *.
  assert (Hp1 : session_of o1 p = Some (f s)) by (unfold o1; rewrite (session_of_with _ _ _ _ _ Hp); by case_decide).
  rewrite (bind_run _ _ _ _ _ (sess_run _ _ _ _ (js_obj _ _ _ _ _ _ _ H1) Hp1)).
  assert (Hafter : forall sig w', cb_out ns w1 o1 p (f s) sig w' -> cb_out ns w o p s sig w') by (intros sig w'; apply cb_out_after; [done|done|by right]).
  case_bool_decide as Eab.
  { destruct (upd_signal_run _ _ _ _ _ p (f s) (put_abort_state MM_JPEG_ABORT_DONE) H1 Hp1) as (w' & E & Hw); [benign|]. exists true, w'. auto. }
  pose proof (cb_out_id ns w1 o1 todo og p (f s) H1 Hp1) as Hid. destruct e; simpl.
  - edestruct (upd_signal_run _ _ _ _ _ p (f s) (fun s => put_event_pending false (put_state_change_pending false s)) H1 Hp1) as (w' & E & Hw); [benign|].
    exists true, w'. auto.
  - destruct (error_gen ns w1 o1 todo og dec_data (d_jpeg_cb (dec_params s)) p (f s) H1 Hp1) as (w' & E & Hw). exists true, w'. auto.
  - exists true, w1. split; [done|]. split; [|done]. apply Hafter. by apply (cb_out_weaken ns ns _ _ _ _ false).
  - exists false, w1. auto.
Qed.

Lemma event_run ns w o todo og p s e : jstate ns w o todo og -> session_of o p = Some s ->
  exists sig w', event_handler_of codec p e w = Some (sig, w') /\ cb_out ns w o p s sig w' /\ (answering e -> waiting s -> sig = true).
Proof.
  intros H Hp. destruct codec eqn:HK; [by apply (enc_event_run ns w o todo og)|].
  destruct (dec_event_run ns w o todo og p s e H Hp) as (sig & w' & E & Hw & Hs). exists sig, w'. auto.
Qed.

(** ** A component calls back *)

Definition sess_in (w : jworld) (p : sptr) (s : mm_jpeg_job_session_t) : Prop := exists o, j_obj w = Some o /\ session_of o p = Some s.

(** What every other piece of code may rely on across callbacks. *)
Definition frame (w w' : jworld) : Prop :=
  j_omx w' = j_omx w /\ forall q s, sess_in w q s -> exists s', sess_in w' q s' /\ active s' = active s.

Lemma run_cb_run ns w h cb : jinv ns w -> exists r w', run_cb h cb w = Some (r, w') /\ jinv ns w' /\ frame w w' /\
  (forall q s, sess_in w q s -> waiting s -> r = Some q \/ exists s', sess_in w' q s' /\ waiting s') /\
  (forall q s e, cb = EventHandler e -> answering e -> sess_in w q s -> waiting s -> h ∈ alive (o_tr (j_omx w)) ->
     app_data h (o_tr (j_omx w)) = Some (app_of q) -> r = Some q).
Proof.
  intros (o & todo & og & H). unfold run_cb. rewrite (bind_run _ _ w (o_tr (j_omx w)) w) by done.
  destruct (if comp_live h (o_tr (j_omx w)) then _ else None) as [a|] eqn:Ez.
  2:{ exists None, w. split; [done|]. split; [by exists o, todo, og|]. split; [split; [done|]; eauto|]. split; [intros; right; eauto|].
      intros q s e _ _ _ _ Hal Hap. unfold comp_live in Ez. rewrite bool_decide_true in Ez by done. congruence. }
  assert (Hz : app_data h (o_tr (j_omx w)) = Some a) by (by destruct (comp_live _ _)).
  destruct (js_app _ _ _ _ _ _ _ H h a Hz) as (p & -> & Hp1 & Hp2). unfold app_of. cbv iota zeta. rewrite Z_to_sptr_of by done.
  destruct (session_in_table o p (js_table _ _ _ _ _ _ _ H)) as [s Hp]; [done|].
  erewrite bind_run by reflexivity. set (w1 := put_j_tr _ w). pose proof (jstate_note _ _ _ _ _ (JOmx h cb) H) as H1. fold w1 in H1.
  assert (Hgoal : exists sig w', match cb with
      | EmptyBufferDone => ebd_of codec p;; mret None
      | FillBufferDone len vaddr => fbd_of codec p len vaddr;; mret None
      | EventHandler e => sig ← event_handler_of codec p e; mret (if sig : bool then Some p else None)
      end w1 = Some (if sig : bool then Some p else None, w') /\ cb_out ns w1 o p s sig w' /\
      (forall e, cb = EventHandler e -> answering e -> waiting s -> sig = true)).
  { destruct cb as [|len va|e].
    - exists false. eexists. erewrite bind_run; [|unfold ebd_of; destruct codec; apply (upd_sess_run w1 o p s (fun s => put_ebd_count (ebd_count s +i 1) s)); [apply H1|exact Hp|apply H1|exact Hp]]. split; [reflexivity|].
      split; [|done]. eapply (cb_out_upd ns w1 o todo og p s (fun s => put_ebd_count (ebd_count s +i 1) s)); [done|done|benign|by auto].
    - destruct (fbd_run _ _ _ _ _ p s len va codec H1 Hp) as (w' & E & Hw). exists false, w'. by rewrite (bind_run _ _ _ _ _ E).
    - destruct (event_run _ _ _ _ _ p s e H1 Hp) as (sig & w' & E & Hw & Hc). exists sig, w'. rewrite (bind_run _ _ _ _ _ E).
      split; [done|]. split; [done|]. intros e0 [= ->]. auto. }
  destruct Hgoal as (sig & w' & E & (Hi & Hx & o' & s' & Ho' & Hq & Ha & Hw) & Hc). exists (if sig then Some p else None), w'. split; [exact E|].
  split; [done|].
  assert (Hsi : forall q sq, sess_in w q sq -> exists sq', sess_in w' q sq' /\ active sq' = active sq /\ (waiting sq -> (if sig then Some p else None) = Some q \/ waiting sq')).
  { intros q sq (o0 & E0 & Eq). rewrite (js_obj _ _ _ _ _ _ _ H) in E0. injection E0 as <-. specialize (Hq q). destruct (decide (p = q)) as [<-|Hne].
    - rewrite Hp in Eq. injection Eq as <-. exists s'. split; [by exists o'|]. split; [done|]. unfold waiting.
      destruct Hw as [->|[-> ->]]; auto.
    - exists sq. split; [exists o'; by rewrite Hq|]. auto. }
  split; [split; [done|]; intros q sq Hin; destruct (Hsi q sq Hin) as (? & ? & ? & _); eauto|]. split.
  - intros q sq Hin Hwt. destruct (Hsi q sq Hin) as (sq' & ? & ? & [|]); eauto.
  - intros q sq e Ecb Hans (o0 & E0 & Eq) Hwt _ Hap. rewrite (js_obj _ _ _ _ _ _ _ H) in E0. injection E0 as <-. rewrite Hz in Hap. injection Hap as Eqz.
    assert (p = q) as <-. { apply (f_equal Z_to_sptr) in Eqz. destruct (in_table_session _ _ _ (js_table _ _ _ _ _ _ _ H) Eq). by rewrite !Z_to_sptr_of in Eqz. }
    rewrite Hp in Eq. injection Eq as <-. by rewrite (Hc e).
Qed.

End Steps.
