(* ===== verification/JpegTotal.v ===== *)
(** * The JPEG library keeps its invariant and does not hang

    Every function of [mm_jpeg.c] that works on a session, started where the
    invariant holds, ends where it holds, provided that components complete
    the commands they are sent. *)

From Stdlib Require Import ZArith Lia.
From stdpp Require Import numbers list gmap strings.
From S2P Require Import Prelude CamTypes JpegQueue QomxCore QomxProps JpegExif.
From S2P Require Import JpegData JpegBase Jpeg JpegDec JpegMgr JpegIds JpegInv.

(** ** Rules for triples *)

Section Rules.
Context {W : Type}.

Lemma triple_seq {A B} (P : W -> Prop) (m : M W A) (f : A -> M W B) Q :
  triple P m (fun _ => P) -> (forall x, triple P (f x) Q) -> triple P (m ≫= f) Q.
Proof. apply triple_bind. Qed.

Lemma triple_deref {A B} (P : W -> Prop) (x : option A) (f : A -> M W B) Q :
  is_Some x -> (forall a, x = Some a -> triple P (f a) Q) -> triple P (deref x ≫= f) Q.
Proof. intros [a ->] H w Hw. destruct (H a eq_refl w Hw) as (b & w' & E & Hq). exists b, w'. done. Qed.

Lemma triple_gets {A B} (P : W -> Prop) (g : W -> A) (f : A -> M W B) Q :
  (forall a, triple P (f a) Q) -> triple P (gets g ≫= f) Q.
Proof. intros H w Hw. apply (H (g w) w Hw). Qed.

Lemma triple_for_until {A} (P : W -> Prop) l stop (init : A) (body : nat -> M W A) :
  (forall i, i ∈ l -> triple P (body i) (fun _ => P)) -> triple P (for_until l stop init body) (fun _ => P).
Proof.
  revert init. induction l as [|i l IH]; intros init H; [by apply triple_ret|]. simpl. apply triple_seq; [apply H; set_solver|].
  intros r. destruct (stop r); [by apply triple_ret|]. apply IH. intros; apply H; set_solver.
Qed.

End Rules.

Section Total.
Context `{FL : Floats} `{K : Codec} `{OE : OmxEnv} `{JE : JpegEnv} (lib_of : string -> Z) (ex : option sptr).

(** A component answers whoever waits for it, with the completion of its
    command, an error, or, if it is a decoder, new port settings. *)
Definition components_answer : Prop := forall tr h, exists e, answering e /\ (h, EventHandler e) ∈ env_wait tr h.

Context (Hans : components_answer) (ns : bool) (p : sptr).
Abbreviation JP := (J lib_of ex ns p).

(** ** Elementary operations *)

Lemma act_frame w w' : frame w w' -> act p w -> act p w'.
Proof.
  intros [_ Hf] (o & s & Ho & Hs & Ha). destruct (Hf p s) as (s' & (o' & Ho' & Hs') & Ha'); [by exists o|]. exists o', s'. by rewrite Ha'.
Qed.

Lemma run_cb_J h cb : triple JP (run_cb h cb) (fun _ => JP).
Proof.
  intros w [Hi Ha]. destruct (run_cb_run lib_of ex ns w h cb Hi) as (r & w' & E & Hi' & Hf & _). exists r, w'. split; [done|].
  split; [done|]. by apply (act_frame w).
Qed.

Lemma deliver_J : triple JP deliver (fun _ => JP).
Proof.
  unfold deliver. apply triple_gets. intros tr. apply triple_for_each. intros [h cb] _. apply triple_seq; [apply run_cb_J|].
  intros r. by apply triple_ret.
Qed.

(** The session, with what the invariant says of it. *)
Lemma sess_J {B} (f : mm_jpeg_job_session_t -> M jworld B) Q :
  (forall s, sess_shape s -> triple JP (f s) Q) -> triple JP (sess p ≫= f) Q.
Proof.
  intros H w Hw. destruct Hw as [(o & todo & og & Hj) (o' & s & Ho & Hs & Ha)] eqn:E0. clear E0.
  rewrite (bind_run _ _ _ _ _ (sess_run w o' p s Ho Hs)). apply H; [|split; [by exists o, todo, og|by exists o', s]].
  rewrite (js_obj _ _ _ _ _ _ _ Hj) in Ho. injection Ho as <-. by apply (js_sess _ _ _ _ _ _ _ Hj p s).
Qed.

Lemma upd_gen_J f : (forall s, sess_shape s -> jpeg_obj s = true -> sess_shape (f s) /\ active (f s) = active s /\ jpeg_obj (f s) = true /\
    sessionId (f s) = sessionId s /\ omx_handle (f s) = omx_handle s) ->
  triple JP (upd_sess p f) (fun _ => JP).
Proof.
  intros Hf w [(o & todo & og & Hj) (o' & s & Ho & Hs & Ha)]. rewrite (js_obj _ _ _ _ _ _ _ Hj) in Ho. injection Ho as <-.
  destruct (js_sess _ _ _ _ _ _ _ Hj p s Hs) as [Hsh Hlive]. destruct (Hlive Ha) as (Hjo & Hid & Hcomp).
  destruct (Hf s Hsh Hjo) as (F1 & F2 & F3 & F4 & F5). do 2 eexists. split; [apply (upd_sess_run w o p s f (js_obj _ _ _ _ _ _ _ Hj) Hs)|]. split.
  - exists (with_session p (f s) o), todo, og. apply (jstate_with lib_of ex ns w o todo og p s); [done|done| |done].
    split; [done|]. intros _. unfold sess_live. by rewrite F3, F4, F5.
  - exists (with_session p (f s) o), (f s). split; [done|]. split; [|congruence]. rewrite (session_of_with _ _ _ _ _ Hs). by case_decide.
Qed.

Lemma upd_J f : benign f -> triple JP (upd_sess p f) (fun _ => JP).
Proof. intros Hf. apply upd_gen_J. intros s Hs Hj. destruct (Hf s) as (H1 & H2 & H3 & H4 & H5). rewrite H3. auto. Qed.

Lemma note_J e : triple JP (jnote e) (fun _ => JP).
Proof.
  intros w [(o & todo & og & Hj) Ha]. do 2 eexists. split; [reflexivity|]. split; [exists o, todo, og; by apply jstate_note|exact Ha].
Qed.

Lemma comp_handle_J : triple JP (comp_handle p) (fun _ => JP).
Proof.
  intros w [(o & todo & og & Hj) (o' & s & Ho & Hs & Ha)]. rewrite (js_obj _ _ _ _ _ _ _ Hj) in Ho. injection Ho as <-.
  destruct (js_sess _ _ _ _ _ _ _ Hj p s Hs) as [Hsh Hlive]. destruct (Hlive Ha) as (Hjo & Hid & h & Hh & Hal & Hap).
  exists h, w. split; [|split; [by exists o, todo, og|by exists o, s; rewrite (js_obj _ _ _ _ _ _ _ Hj)]].
  unfold comp_handle. rewrite (bind_run _ _ _ _ _ (sess_run w o p s (js_obj _ _ _ _ _ _ _ Hj) Hs)), Hh. unM.
  unfold comp_live. by rewrite bool_decide_true.
Qed.

Lemma comp_J c : triple JP (comp p c) (fun _ => JP).
Proof.
  unfold comp. apply triple_seq; [apply comp_handle_J|]. intros h. apply triple_gets. intros tr. apply triple_seq; [apply note_J|].
  intros []. by apply triple_ret.
Qed.

Lemma ucomp_J c : triple JP (ucomp p c) (fun _ => JP).
Proof.
  unfold ucomp. apply triple_seq; [apply comp_J|]. intros r. apply triple_seq; [apply deliver_J|]. intros []. by apply triple_ret.
Qed.

(** A wait for the component ends. *)
Lemma wait_signal_J evs h e : answering e -> (h, EventHandler e) ∈ evs -> forall w, JP w ->
  h ∈ alive (o_tr (j_omx w)) -> app_data h (o_tr (j_omx w)) = Some (app_of p) -> (exists s, sess_in w p s /\ waiting s) ->
  exists w', wait_signal p evs w = Some (tt, w') /\ JP w'.
Proof.
  intros He. induction evs as [|[h0 cb] evs IH]; intros Hin w [Hi Ha] Hal Hap (s & Hs & Hw); [by apply elem_of_nil in Hin|]. simpl.
  destruct (run_cb_run lib_of ex ns w h0 cb Hi) as (r & w1 & E & Hi1 & [Hx Hf] & Hwait & Hcmd). rewrite (bind_run _ _ _ _ _ E).
  pose proof (act_frame w w1 (conj Hx Hf) Ha) as Ha1. case_bool_decide as Er; [by exists w1|].
  destruct (Hwait p s Hs Hw) as [?|(s1 & Hs1 & Hw1)]; [congruence|]. apply IH; [|done|by rewrite Hx|by rewrite Hx|by exists s1].
  apply elem_of_cons in Hin as [[= <- <-]|Hin]; [|done]. exfalso. by apply Er, (Hcmd p s e).
Qed.

Lemma cond_wait_J w : JP w -> (exists s, sess_in w p s /\ waiting s) -> exists w', cond_wait p w = Some (tt, w') /\ JP w'.
Proof.
  intros Hw (s & (o & Ho & Hs) & Hwt). pose proof Hw as [(o1 & todo & og & Hj) (o' & s' & Ho' & Hs' & Ha)].
  rewrite (js_obj _ _ _ _ _ _ _ Hj) in Ho, Ho'. injection Ho as <-. injection Ho' as <-. rewrite Hs in Hs'. injection Hs' as <-.
  destruct (js_sess _ _ _ _ _ _ _ Hj p s Hs) as [Hsh Hlive]. destruct (Hlive Ha) as (Hjo & Hid & h & Hh & Hal & Hap).
  unfold cond_wait. rewrite (bind_run _ _ _ _ _ (sess_run w o1 p s (js_obj _ _ _ _ _ _ _ Hj) Hs)), Hh. erewrite bind_run by reflexivity.
  erewrite bind_run by reflexivity. destruct (Hans (j_tr w) h) as (e & He & Hin). apply (wait_signal_J _ h e); [done|done|done|done|done|]. exists s. split; [exists o1; split; [apply Hj|done]|done].
Qed.

(** Waiting where the session was just seen to be waiting. *)
Lemma check_wait_J {B} (b : mm_jpeg_job_session_t -> bool) (k : M jworld B) Q : (forall s, b s = true -> waiting s) -> triple JP k Q ->
  triple JP (s ← sess p; (if b s then cond_wait p else mret tt);; k) Q.
Proof.
  intros Hb Hk w Hw. pose proof Hw as [(o & todo & og & Hj) (o' & s & Ho & Hs & Ha)].
  rewrite (bind_run _ _ _ _ _ (sess_run w o' p s Ho Hs)). destruct (b s) eqn:E; [|by apply Hk].
  destruct (cond_wait_J w Hw) as (w' & E' & Hw'); [|rewrite (bind_run _ _ _ _ _ E'); by apply Hk]. exists s. split; [by exists o'|]. by apply Hb.
Qed.

End Total.

(** ** Automation

    [jt] goes through code built from these operations; [jside] shows that an
    index is inside its table. *)

Create HintDb jpeg.
#[export] Hint Resolve run_cb_J deliver_J comp_J ucomp_J note_J : jpeg.

Ltac jside :=
  repeat match goal with
         | H : sess_shape _ |- _ => destruct H
         | H : params_ok _ |- _ => destruct H
         | H : job_fits _ |- _ => destruct H as (? & ? & ?)
         | H : dec_params_ok _ |- _ => destruct H
         | H : dec_job_fits _ |- _ => destruct H as (? & ?)
         | H : _ /\ _ |- _ => destruct H
         | H : bufs_ok _ |- _ => destruct H
         end;
  first [assumption | apply lookup_lt_is_Some_2; unfold MM_JPEG_MAX_BUF in *; lia].

Ltac benign := intros ?; split; [intros []; split; done|done].

Ltac jstep :=
  lazymatch goal with
  | |- triple _ (mret _) _ => apply triple_ret; done
  | |- triple _ (sess _ ≫= _) _ => apply sess_J; intros ? ?
  | |- triple _ (gets _ ≫= _) _ => apply triple_gets; intros ?
  | |- triple _ (deref _ ≫= _) _ => apply triple_deref; [jside|intros ? ?]
  | |- triple _ (_ ≫= _) _ => apply triple_seq; [|intros ?]
  | |- triple _ (match ?x with _ => _ end) _ => destruct x eqn:?
  | |- triple _ (upd_sess _ _) _ => first [solve [eauto with jpeg nocore] | apply upd_J; benign]
  | |- _ => solve [eauto with jpeg nocore]
  end.
Ltac jt := intros; cbv zeta; repeat (jstep; cbv beta).

Section Session.
Context `{FL : Floats} `{K : Codec} `{OE : OmxEnv} `{JE : JpegEnv} (lib_of : string -> Z) (ex : option sptr).
Context (Hans : components_answer) (ns : bool) (p : sptr).
Abbreviation JP := (J lib_of ex ns p).

Lemma each_buf_J n body : (forall i, (i < Z.to_nat n)%nat -> triple JP (body i) (fun _ => JP)) -> triple JP (each_buf n body) (fun _ => JP).
Proof. intros H. apply triple_for_until. intros i Hi. apply H. apply elem_of_seq in Hi. lia. Qed.

Lemma use_buffer_J call port bfd b tbl put i : (forall s, sess_shape s -> (i < length (tbl s))%nat) ->
  (forall l s, sess_shape s -> length l = length (tbl s) -> sess_shape (put l s) /\ active (put l s) = active s /\ jpeg_obj (put l s) = jpeg_obj s /\
     sessionId (put l s) = sessionId s /\ omx_handle (put l s) = omx_handle s) ->
  (forall c, triple JP (call c) (fun _ => JP)) -> triple JP (use_buffer call p port bfd b tbl put i) (fun _ => JP).
Proof.
  intros Hi Hput Hcall. unfold use_buffer. apply sess_J. intros s Hs. apply triple_deref; [apply lookup_lt_is_Some_2, Hi, Hs|]. intros _ _.
  apply triple_seq; [apply Hcall|]. intros [rc c]. apply triple_seq; [|intros; by apply triple_ret]. destruct (rc =? 0); [|by apply triple_ret].
  apply upd_gen_J. intros s1 Hs1 Hj. destruct (Hput (<[i := match c with CUseBuffer _ _ _ _ hdr => Some hdr | _ => None end]> (tbl s1)) s1 Hs1)
    as (H1 & H2 & H3 & H4 & H5); [apply length_insert|]. rewrite H3. auto.
Qed.

Lemma free_buffer_J port tbl i : (forall s, sess_shape s -> (i < length (tbl s))%nat) -> triple JP (free_buffer p port tbl i) (fun _ => JP).
Proof.
  intros Hi. unfold free_buffer. apply sess_J. intros s Hs. apply triple_deref; [apply lookup_lt_is_Some_2, Hi, Hs|]. jt.
Qed.

Lemma send_buffers_J : triple JP (mm_jpeg_session_send_buffers p) (fun _ => JP).
Proof.
  unfold mm_jpeg_session_send_buffers. apply sess_J. intros s Hs. pose proof (ss_params _ Hs) as [? ? ? (Hb1 & Hb2 & Hb3)]. destruct Hb1, Hb2, Hb3.
  cbv zeta. apply triple_seq; [|intros ret; destruct (negb _); [jt|apply triple_seq; [|intros ret2; destruct (negb _); [jt|]]]].
  all: apply each_buf_J; intros i Hi; (apply triple_deref; [apply lookup_lt_is_Some_2; unfold MM_JPEG_MAX_BUF in *; lia|]); intros b _;
    apply use_buffer_J; [intros s1 []; unfold MM_JPEG_MAX_BUF in *; lia| |intros; apply comp_J].
  all: intros l s1 Hs1 Hl; (split; [|done]); destruct Hs1; split; try done; simpl; congruence.
Qed.

Lemma free_buffers_J : triple JP (mm_jpeg_session_free_buffers p) (fun _ => JP).
Proof.
  unfold mm_jpeg_session_free_buffers. apply sess_J. intros s Hs. pose proof (ss_params _ Hs) as []. cbv zeta.
  apply triple_seq; [|intros ret; destruct (negb _); [jt|apply triple_seq; [|intros ret2; destruct (negb _); [jt|]]]].
  all: apply each_buf_J; intros i Hi; apply free_buffer_J; intros s1 []; unfold MM_JPEG_MAX_BUF in *; lia.
Qed.

Lemma change_state_J st fx : (forall f, fx = Some f -> triple JP (f p) (fun _ => JP)) ->
  triple JP (mm_jpeg_session_change_state p st fx) (fun _ => JP).
Proof.
  intros Hex. unfold mm_jpeg_session_change_state, OMX_GetState. apply triple_seq; [jt|]. intros [ret cs].
  destruct (negb _); [jt|]. case_bool_decide; [jt|]. do 2 (apply triple_seq; [jt|]; intros ?). destruct (negb _); [jt|].
  apply sess_J. intros s Hs. destruct (negb _); [jt|]. apply triple_seq; [destruct fx as [f|]; [by apply Hex|jt]|]. intros ret2.
  destruct (negb _); [jt|]. apply (check_wait_J lib_of ex Hans ns p state_change_pending); [by right; left|jt].
Qed.

(** ** Configuration *)

Lemma set_parameter_J v : triple JP (OMX_SetParameter p v) (fun _ => JP).
Proof. unfold OMX_SetParameter. jt. Qed.
Lemma set_config_J v : triple JP (OMX_SetConfig p v) (fun _ => JP).
Proof. unfold OMX_SetConfig. jt. Qed.
Lemma extension_J n : triple JP (OMX_GetExtensionIndex p n) (fun _ => JP).
Proof. unfold OMX_GetExtensionIndex. jt. Qed.
Lemma get_omx_port_J q : triple JP (OMX_GetPort p q) (fun _ => JP).
Proof. unfold OMX_GetPort. jt. Qed.
Hint Resolve set_parameter_J set_config_J extension_J get_omx_port_J : jpeg.

Lemma frame_info_J b : (3 <= length (mp (offset b)))%nat -> triple JP (frame_info b) (fun _ => JP).
Proof. intros Hb. unfold frame_info. do 3 (apply triple_deref; [apply lookup_lt_is_Some_2; lia|]; intros ? _). jt. Qed.

(** A buffer of a table, with its planes. *)
Lemma buf_planes_ok l i b : bufs_ok l -> l !! i = Some b -> (3 <= length (mp (offset b)))%nat.
Proof. intros [_ Hf] Hb. by apply (Forall_lookup_1 _ _ _ _ Hf Hb). Qed.

Lemma bufs_lookup l i : bufs_ok l -> 0 <= i < 24 -> is_Some (l !! Z.to_nat i).
Proof. intros [Hl _] Hi. apply lookup_lt_is_Some_2. unfold MM_JPEG_MAX_BUF in *. lia. Qed.

Lemma buffer_offset_J : triple JP (mm_jpeg_session_config_main_buffer_offset p) (fun _ => JP).
Proof.
  unfold mm_jpeg_session_config_main_buffer_offset. apply sess_J. intros s Hs. destruct (ss_params _ Hs) as [_ _ _ (Hb & _)], (ss_job _ Hs) as (Hi & _).
  apply triple_deref; [by apply bufs_lookup|]. intros b Eb. apply triple_seq; [by apply frame_info_J, (buf_planes_ok _ _ _ Hb Eb)|]. jt.
Qed.

Lemma encoding_mode_J : triple JP (mm_jpeg_encoding_mode p) (fun _ => JP).
Proof. unfold mm_jpeg_encoding_mode. jt. Qed.

Lemma input_port_J q d b f n : (3 <= length (mp (offset b)))%nat -> triple JP (input_port q d b f n) (fun _ => JP).
Proof. intros Hb. unfold input_port. apply triple_deref; [apply lookup_lt_is_Some_2; lia|]. jt. Qed.

Lemma get_port_J get put : (forall q, benign (put q)) -> triple JP (get_port p get put) (fun _ => JP).
Proof. intros Hp. unfold get_port. apply sess_J. intros s Hs. apply triple_seq; [jt|]. intros [rc q]. apply triple_seq; [by apply upd_J|jt]. Qed.

Lemma thumb_port_J : triple JP (config_thumb_port p) (fun _ => JP).
Proof.
  unfold config_thumb_port. apply sess_J. intros s Hs. destruct (ss_params _ Hs) as [_ _ _ (_ & Hb & _)], (ss_job _ Hs) as (_ & _ & Hi).
  destruct (negb _); [|jt]. apply triple_deref; [by apply bufs_lookup|]. intros b Eb.
  apply triple_seq; [by apply input_port_J, (buf_planes_ok _ _ _ Hb Eb)|]. jt.
Qed.

Lemma config_ports_J : triple JP (mm_jpeg_session_config_ports p) (fun _ => JP).
Proof.
  unfold mm_jpeg_session_config_ports. apply triple_seq; [jt|]. intros _.
  do 3 (apply triple_seq; [apply get_port_J; intros q; benign|]; intros ret; destruct (negb _); [jt|]; clear ret).
  apply sess_J. intros s Hs. destruct (ss_params _ Hs) as [_ _ _ (Hb & _)], (ss_job _ Hs) as (Hi & _).
  apply triple_deref; [by apply bufs_lookup|]. intros b Eb. apply triple_seq; [by apply input_port_J, (buf_planes_ok _ _ _ Hb Eb)|]. intros q.
  do 2 (apply triple_seq; [jt|]; intros ?). destruct (negb _); [jt|]. apply triple_seq; [apply thumb_port_J|]. intros ret. destruct (negb _); [jt|].
  clear dependent s. apply sess_J. intros s Hs. destruct (ss_params _ Hs) as [_ _ _ (_ & _ & Hd)], (ss_job _ Hs) as (_ & Hi & _).
  apply triple_deref; [by apply bufs_lookup|]. jt.
Qed.

Lemma config_main_J : triple JP (mm_jpeg_session_config_main p) (fun _ => JP).
Proof.
  unfold mm_jpeg_session_config_main. apply triple_seq; [apply config_ports_J|]. intros rc. destruct (negb _); [jt|].
  apply triple_seq; [apply buffer_offset_J|]. intros rc2. destruct (negb _); [jt|]. apply triple_seq; [apply encoding_mode_J|jt].
Qed.

(** Setting the rectangles of a job keeps its indices. *)
Lemma put_job_benign f : (forall j, job_fits j -> job_fits (f j)) -> benign (fun s => put_s_job (f (s_job s)) s).
Proof. intros Hf s. split; [|done]. intros []. split; try done. simpl. auto. Qed.

Lemma config_thumbnail_J : triple JP (mm_jpeg_session_config_thumbnail p) (fun _ => JP).
Proof.
  unfold mm_jpeg_session_config_thumbnail. apply sess_J. intros s Hs. destruct (ss_params _ Hs) as [_ _ _ (_ & Hb & _)], (ss_job _ Hs) as (_ & _ & Hi).
  destruct (_ =? 0); [jt|]. cbv zeta. destruct (_ || _); [jt|]. destruct (_ || _); [jt|]. apply triple_seq; [by apply upd_J, put_job_benign|]. intros _.
  destruct (crop_outside _); [jt|]. apply triple_seq; [jt|]. intros [ret ix]. destruct (negb _); [jt|].
  apply triple_deref; [by apply bufs_lookup|]. intros b Eb. apply triple_seq; [by apply frame_info_J, (buf_planes_ok _ _ _ Hb Eb)|]. jt.
Qed.

Lemma main_crop_J : triple JP (mm_jpeg_session_config_main_crop p) (fun _ => JP).
Proof.
  unfold mm_jpeg_session_config_main_crop. apply sess_J. intros s Hs. cbv zeta. apply triple_seq; [by apply upd_J, put_job_benign|]. jt.
Qed.

(** ** The EXIF table of the session holds single values only *)

Definition table_scalar (w : xworld) : Prop := length (exif_data w) = 50%nat /\ Forall scalar_entry (exif_data w).

Lemma add_scalar m tag type v w : is_array type 1 = false -> table_scalar w -> 0 <= numOfEntries w < 50 ->
  exists w', addExifEntry m tag type 1 [v] w = Some (0, w') /\ table_scalar w' /\ numOfEntries w' = numOfEntries w + 1.
Proof.
  intros Ht [Hl Hf] Hn. eexists. split; [by apply add_single|]. split; [|done]. split; simpl; [by rewrite length_insert|]. by apply Forall_insert.
Qed.

Lemma meta_scalar m md ep w : table_scalar w -> numOfEntries w = 0 ->
  exists rc w', process_meta_data m (Some md) ep w = Some (rc, w') /\ table_scalar w' /\ 0 <= numOfEntries w' <= 50.
Proof.
  intros Hw Hn. unfold process_meta_data, process_3a_data, process_sensor_data.
  set (ae := if is_ae_params_valid md then _ else _). set (sp := if is_sensor_params_valid md then _ else _).
  destruct (if f_eqb (exp_time ae) (f_of_Z 0) then _ else _) as [n1 d1]. destruct (if f_ltb (f_of_Z 0) (exp_time ae) then _ else _) as [n2 d2].
  destruct (add_scalar m EXIFTAGID_EXPOSURE_TIME EXIF_RATIONAL (XRat n1 d1) w) as (w1 & E1 & H1 & N1); [done|done|lia|].
  destruct (add_scalar m EXIFTAGID_SHUTTER_SPEED EXIF_SRATIONAL (XRat n2 d2) w1) as (w2 & E2 & H2 & N2); [done|done|lia|].
  edestruct (add_scalar m EXIFTAGID_ISO_SPEED_RATING EXIF_SHORT) as (w3 & E3 & H3 & N3); [done|exact H2|lia|].
  edestruct (add_scalar m EXIFTAGID_APERTURE EXIF_RATIONAL) as (w4 & E4 & H4 & N4); [done|exact H3|lia|].
  edestruct (add_scalar m EXIFTAGID_FLASH EXIF_SHORT) as (w5 & E5 & H5 & N5); [done|exact H4|lia|].
  exists 0, w5. split; [|split; [done|lia]]. erewrite bind_run; [|rewrite (bind_run _ _ _ _ _ E1), (bind_run _ _ _ _ _ E2); exact E3].
  rewrite (bind_run _ _ _ _ _ E4). exact E5.
Qed.

Lemma release_scalar n w : table_scalar w -> (n <= 50)%nat -> release_entries n w = Some (0, w).
Proof.
  intros [Hl Hf] Hn. unfold release_entries. assert (Hi : forall i, i ∈ seq 0 n -> releaseExifEntry (Z.of_nat i) w = Some (0, w)).
  { intros i Hi. apply elem_of_seq in Hi. destruct (lookup_lt_is_Some_2 (exif_data w) i) as [e He]; [lia|].
    unfold releaseExifEntry. rewrite (bind_run _ _ _ _ _ (entry_at_run i e w He)). by rewrite (Forall_lookup_1 _ _ _ _ Hf He). }
  induction (seq 0 n) as [|i l IH]; [done|]. simpl. rewrite (bind_run _ _ _ _ _ (Hi i (list_elem_of_here _ _))). apply IH. intros; apply Hi; set_solver.
Qed.

(** What an EXIF operation leaves goes back into the session. *)
Lemma with_exif_J {A B} n (m : M xworld A) (k : A * Z -> M jworld B) Q :
  (forall tbl h, length tbl = 50%nat -> Forall scalar_entry tbl ->
     exists a w', m {| exif_data := tbl; numOfEntries := n; x_heap := h |} = Some (a, w') /\ table_scalar w' /\ 0 <= numOfEntries w' <= 50) ->
  (forall a c, 0 <= c <= 50 -> triple JP (k (a, c)) Q) -> triple JP (with_exif p n m ≫= k) Q.
Proof.
  intros Hm Hk w Hw. pose proof Hw as [(o & todo & og & Hj) (o' & s & Ho & Hs & Ha)]. rewrite (js_obj _ _ _ _ _ _ _ Hj) in Ho. injection Ho as <-.
  destruct (js_sess _ _ _ _ _ _ _ Hj p s Hs) as [Hsh _]. destruct (Hm (exif_info_local s) (j_heap w) (ss_exif _ Hsh) (ss_scalar _ Hsh)) as (a & x & Ex & [Hx1 Hx2] & Hx3).
  destruct (upd_gen_J lib_of ex ns p (put_exif_info_local (exif_data x))) with (w := w) as ([] & w1 & E1 & Hw1); [|done|].
  { intros s0 [] Hjo. split; [by split|done]. }
  assert (Hw2 : JP (put_j_heap (x_heap x) w1)).
  { destruct Hw1 as [(o1 & t1 & g1 & []) Ha1]. split; [by exists o1, t1, g1|exact Ha1]. }
  destruct (Hk a (numOfEntries x) Hx3 _ Hw2) as (b & w' & E' & Hq). exists b, w'. split; [|done].
  erewrite bind_run; [exact E'|]. unfold with_exif. rewrite (bind_run _ _ _ _ _ (sess_run w o p s (js_obj _ _ _ _ _ _ _ Hj) Hs)).
  erewrite bind_run by reflexivity. rewrite Ex. erewrite bind_run by reflexivity. cbv beta iota. rewrite (bind_run _ _ _ _ _ E1). reflexivity.
Qed.

Lemma put_count_benign c : 0 <= c <= 50 -> benign (put_exif_count_local c).
Proof. intros Hc s. split; [|done]. intros []. by split. Qed.

Lemma config_common_J : triple JP (mm_jpeg_session_config_common p) (fun _ => JP).
Proof.
  unfold mm_jpeg_session_config_common. apply sess_J. intros s Hs. apply triple_seq; [jt|]. intros rc. destruct (negb _); [jt|].
  apply triple_seq; [apply upd_J; intros s0; split; [|done]; intros []; split; try done; by apply Forall_replicate|]. intros _.
  apply triple_seq; [jt|]. intros [rc2 ix]. destruct (negb _); [jt|]. apply triple_seq; [jt|]. intros rc3. destruct (negb _); [jt|].
  destruct (p_metadata (s_job s)) as [md|]; [|jt]. apply triple_gets. intros tr. apply with_exif_J.
  - intros tbl h Hl Hf. by apply meta_scalar.
  - intros a c Hc. cbv beta iota. apply triple_seq; [by apply upd_J, put_count_benign|]. jt.
Qed.

Lemma configure_job_params_J : triple JP (mm_jpeg_configure_job_params p) (fun _ => JP).
Proof.
  unfold mm_jpeg_configure_job_params. apply triple_seq; [apply config_common_J|]. intros _.
  apply triple_seq; [apply main_crop_J|]. intros ret. destruct (negb _); [jt|]. apply sess_J. intros s Hs.
  apply triple_seq; [jt|]. intros ret2. destruct (negb _); [jt|]. apply triple_seq; [apply config_thumbnail_J|]. jt.
Qed.

Lemma destroy_job_J : triple JP (mm_jpeg_destroy_job p) (fun _ => JP).
Proof.
  unfold mm_jpeg_destroy_job. apply sess_J. intros s Hs. apply with_exif_J.
  - intros tbl h Hl Hf. pose proof (ss_count _ Hs). exists 0. eexists. split; [by apply release_scalar; [|lia]|]. by split.
  - intros a c Hc. cbv beta iota. apply triple_seq; [by apply upd_J, put_count_benign|]. jt.
Qed.

(** ** Jobs *)

Lemma session_abort_J : triple JP (mm_jpeg_session_abort p) (fun _ => JP).
Proof.
  unfold mm_jpeg_session_abort. apply sess_J. intros s Hs. destruct (negb _); [jt|]. apply triple_seq; [jt|]. intros _.
  destruct (encoding s); [|jt]. do 2 (apply triple_seq; [jt|]; intros ?). destruct (negb _); [jt|].
  apply triple_seq; [apply destroy_job_J|]. intros _.
  apply (check_wait_J lib_of ex Hans ns p (fun s => bool_decide (abort_state s = MM_JPEG_ABORT_INIT))); [|jt].
  intros s1 H1. right; right. by apply bool_decide_eq_true in H1.
Qed.

Lemma chk_abort_J k : triple JP k (fun _ => JP) -> triple JP (chk_abort p k) (fun _ => JP).
Proof. intros Hk. unfold chk_abort. apply sess_J. intros s Hs. case_bool_decide; [jt|done]. Qed.

Lemma configure_J : triple JP (mm_jpeg_session_configure p) (fun _ => JP).
Proof.
  unfold mm_jpeg_session_configure. apply chk_abort_J. apply triple_seq; [apply config_main_J|]. intros ret. destruct (negb _); [jt|].
  apply triple_seq; [apply change_state_J; intros f [= <-]; apply send_buffers_J|]. intros ret2. destruct (negb _); [jt|]. by apply change_state_J.
Qed.

Lemma submit_J : triple JP (submit_buffers p) (fun _ => JP).
Proof.
  unfold submit_buffers. apply sess_J. intros s Hs. apply triple_deref; [jside|]. intros hdr _. apply triple_seq; [jt|]. intros r.
  destruct (negb _); [jt|]. apply triple_seq; [jt|]. intros ret. destruct (negb _); [jt|]. clear dependent s. apply sess_J. intros s Hs.
  apply triple_deref; [jside|]. intros hdr2 _. apply triple_seq; [jt|]. intros r2. destruct (negb _); [jt|]. apply chk_abort_J. jt.
Qed.

Lemma encode_J : triple JP (mm_jpeg_session_encode p) (fun _ => JP).
Proof.
  unfold mm_jpeg_session_encode. apply triple_seq.
  { apply upd_J. intros s. split; [|done]. intros []. split; try done. destruct ss_safe as [?|(? & ? & _)]; auto. }
  intros _. apply sess_J. intros s Hs.
  apply triple_seq; [destruct (config s); [jt|]; apply triple_seq; [apply configure_J|jt]|]. intros ret. destruct (negb _); [jt|].
  apply triple_seq; [apply configure_job_params_J|]. intros ret2. destruct (negb _); [jt|]. apply triple_seq.
  - apply upd_gen_J. intros s0 [] Hj. split; [|done]. split; try done. by left.
  - intros _. apply chk_abort_J, submit_J.
Qed.

End Session.
