(* ===== verification/JpegDecTotal.v ===== *)
(** * Decoding keeps the invariant and does not hang

    The functions of [mm_jpegdec.c] that work on a session, started where the
    invariant of the decoder holds, end where it holds, provided that the
    component answers whoever waits for it. *)

From Stdlib Require Import ZArith Lia.
From stdpp Require Import numbers list gmap strings.
From S2P Require Import Prelude CamTypes JpegQueue QomxCore QomxProps JpegExif.
From S2P Require Import JpegData JpegBase Jpeg JpegDec JpegIds JpegInv JpegTotal.

Section Decode.
Context `{FL : Floats} `{K : Codec} `{OE : OmxEnv} `{JE : JpegEnv} (lib_of : string -> Z) (ex : option sptr).
Context (Hans : components_answer) (ns : bool) (p : sptr).
Abbreviation JP := (J lib_of ex ns p).

(** A table of headers of the session, as [OMX_UseBuffer] fills it. *)
Lemma put_in_ok l s : sess_shape s -> length l = length (p_in_omx_buf s) -> sess_shape (put_p_in_omx_buf l s).
Proof. intros [] Hl. split; try done. simpl. congruence. Qed.

Lemma put_out_ok l s : sess_shape s -> length l = length (p_out_omx_buf s) -> sess_shape (put_p_out_omx_buf l s).
Proof. intros [] Hl. split; try done. simpl. congruence. Qed.

Lemma dec_send_buffers_J : triple JP (mm_jpegdec_session_send_buffers p) (fun _ => JP).
Proof.
  unfold mm_jpegdec_session_send_buffers. apply sess_J. intros s Hs. destruct (ss_dec _ Hs) as [? ? [[Hb1 _] _]]. cbv zeta.
  apply each_buf_J. intros i Hi. apply triple_deref; [apply lookup_lt_is_Some_2; unfold MM_JPEG_MAX_BUF in *; lia|]. intros b _.
  apply use_buffer_J; [intros s1 []; unfold MM_JPEG_MAX_BUF in *; lia| |intros; apply comp_J]. intros l s1 Hs1 Hl. split; [by apply put_in_ok|done].
Qed.

Lemma dec_free_buffers_J : triple JP (mm_jpegdec_session_free_buffers p) (fun _ => JP).
Proof.
  unfold mm_jpegdec_session_free_buffers. apply sess_J. intros s Hs. pose proof (ss_dec _ Hs) as []. cbv zeta.
  apply triple_seq; [|intros ret; destruct (negb _); [jt|]].
  all: apply each_buf_J; intros i Hi; apply free_buffer_J; intros s1 []; unfold MM_JPEG_MAX_BUF in *; lia.
Qed.

Lemma dec_config_ports_J : triple JP (mm_jpegdec_session_config_ports p) (fun _ => JP).
Proof.
  unfold mm_jpegdec_session_config_ports. apply sess_J. intros s Hs. destruct (ss_dec _ Hs) as [_ _ (Hb & _)], (ss_dec_job _ Hs) as (Hi & _).
  apply triple_deref; [by apply bufs_lookup|]. intros b Eb. apply triple_seq; [jt|]. intros _.
  do 2 (apply triple_seq; [apply get_port_J; intros q; benign|]; intros ret; destruct (negb _); [jt|]; clear ret).
  apply sess_J. intros s1 Hs1. apply triple_seq; [by apply input_port_J, (buf_planes_ok _ _ _ Hb Eb)|]. intros q.
  apply triple_seq; [jt|]. intros _. apply set_parameter_J.
Qed.

Lemma dec_configure_J : triple JP (mm_jpegdec_session_configure p) (fun _ => JP).
Proof.
  unfold mm_jpegdec_session_configure, mm_jpegdec_session_config_main. apply chk_abort_J. apply triple_seq; [apply dec_config_ports_J|]. intros ret.
  destruct (negb _); [jt|]. apply triple_seq; [apply change_state_J; [done|]; intros f [= <-]; apply dec_send_buffers_J|]. intros ret2.
  destruct (negb _); [jt|]. by apply change_state_J.
Qed.

(** ** Waiting for an event *)

Context (HK : codec = DecoderCallbacks).

Lemma wait_event_J : triple JP (wait_event p) (fun _ => JP).
Proof. unfold wait_event. apply (check_wait_J lib_of ex Hans ns p event_pending); [by left|jt]. Qed.

Lemma port_command_J c b : triple JP (port_command p c b) (fun _ => JP).
Proof.
  unfold port_command. do 2 (apply triple_seq; [jt|]; intros ?). destruct (negb _); [jt|]. destruct b; [|jt].
  apply triple_seq; [apply wait_event_J|jt].
Qed.

(** ** Decoding *)

Lemma setup_output_J : triple JP (setup_output p) (fun _ => JP).
Proof.
  unfold setup_output. apply sess_J. intros s Hs. apply triple_seq; [apply port_command_J|]. intros _.
  apply triple_seq; [apply get_port_J; intros q; benign|]. intros ret. destruct (negb _); [jt|]. clear dependent s. apply sess_J. intros s Hs.
  destruct (ss_dec _ Hs) as [_ _ (_ & Hd)], (ss_dec_job _ Hs) as (_ & Hi). apply triple_deref; [by apply bufs_lookup|]. intros b _. cbv zeta.
  apply triple_seq; [jt|]. intros _. apply triple_seq; [apply set_parameter_J|]. intros ret2. destruct (negb _); [jt|].
  clear dependent s. apply sess_J. intros s Hs. apply triple_seq; [apply port_command_J|]. intros _.
  destruct (ss_dec _ Hs) as [_ Hn (_ & [Hl _])]. apply each_buf_J. intros i Hi.
  apply triple_deref; [apply lookup_lt_is_Some_2; unfold MM_JPEG_MAX_BUF in *; lia|]. intros b2 _.
  apply use_buffer_J; [intros s1 []; unfold MM_JPEG_MAX_BUF in *; lia| |intros; apply ucomp_J]. intros l s1 Hs1 Hl1. split; [by apply put_out_ok|done].
Qed.

Lemma await_output_J : triple JP (await_output p) (fun _ => JP).
Proof.
  unfold await_output. apply triple_seq; [apply wait_event_J|]. intros e. destruct (negb _); [jt|].
  apply triple_seq; [apply setup_output_J|]. intros ret. destruct (negb _); [jt|].
  apply triple_seq; [apply wait_event_J|]. intros e2. destruct (negb _); [jt|]. apply sess_J. intros s Hs.
  apply triple_deref; [jside|]. intros hdr _. apply triple_seq; [jt|]. intros r. destruct (negb _); [jt|]. apply chk_abort_J. jt.
Qed.

Lemma decode_J : triple JP (mm_jpegdec_session_decode p) (fun _ => JP).
Proof.
  unfold mm_jpegdec_session_decode. apply triple_seq.
  { apply upd_J. intros s. split; [|done]. intros []. split; try done. destruct ss_safe as [?|(? & ? & _)]; auto. }
  intros _. apply sess_J. intros s Hs.
  apply triple_seq; [destruct (config s); [jt|]; apply triple_seq; [apply dec_configure_J|jt]|]. intros ret. destruct (negb _); [jt|].
  apply triple_seq.
  - apply upd_gen_J. intros s0 [] Hj. split; [|done]. split; try done. by left.
  - intros _. apply chk_abort_J. apply triple_seq; [jt|]. intros _. clear dependent s. apply sess_J. intros s Hs.
    apply triple_deref; [jside|]. intros hdr _. apply triple_seq; [jt|]. intros r. destruct (negb _); [jt|]. apply await_output_J.
Qed.

End Decode.
