(* ===== verification/JpegOps.v ===== *)
(** * Operations on the object of a JPEG library

    What the encoder and the decoder have in common above a session: components
    that come and go, identifiers, the queues, turns of the job manager, and
    the tables of clients and sessions.  [codec] says which library it is. *)

From Stdlib Require Import ZArith Lia.
From stdpp Require Import numbers list gmap strings.
From S2P Require Import Prelude CamTypes JpegQueue QomxCore QomxProps JpegExif.
From S2P Require Import JpegData JpegBase Jpeg JpegDec JpegMgr JpegIds JpegInv JpegTotal JpegDecTotal.

(** ** Components come and go *)

Section Omx.
Context `{OE : OmxEnv} (lib_of : string -> Z) (Hlib : libraries_ok lib_of).

Lemma oext_keeps {A B} (f : ohistory -> A) (e : A -> oev) (g : ohistory -> B) :
  (forall tr x, g (e x :: tr) = g tr) -> keeps (fun w => g (o_tr w)) (oext f e).
Proof. intros H w r w' [= _ <-]. apply H. Qed.

Lemma upd_comp_keeps {B} i f (g : ohistory -> B) : keeps (fun w => g (o_tr w)) (upd_comp i f).
Proof. unfold upd_comp, the_core. keeps_solve. Qed.

Lemma enter_keeps {B} l (g : ohistory -> B) : keeps (fun w => g (o_tr w)) (enter l).
Proof. unfold enter. keeps_solve. Qed.

Lemma comp_at_keeps {B} i (g : ohistory -> B) : keeps (fun w => g (o_tr w)) (comp_at i).
Proof. unfold comp_at, the_core. keeps_solve. Qed.

Hint Resolve upd_comp_keeps enter_keeps comp_at_keeps : keeps.

Lemma error_app h i b rc : keeps (fun w => app_data h (o_tr w)) (get_handle_error i b rc).
Proof. unfold get_handle_error. keeps_solve. by apply oext_keeps. Qed.

Lemma load_app h i c : keeps (fun w => app_data h (o_tr w)) (load_library i c).
Proof. unfold load_library. keeps_solve; by apply oext_keeps. Qed.

(** The pointer given with a new component. *)
Lemma new_instance_app h i j b d w r w' : new_instance i j b d w = Some (r, w') ->
  app_data h (o_tr w') = if bool_decide (r.2 = Some h) then Some d else app_data h (o_tr w).
Proof.
  assert (Herr : forall b rc w r w', get_handle_error i b rc w = Some (r, w') ->
    app_data h (o_tr w') = if bool_decide (r.2 = Some h) then Some d else app_data h (o_tr w)).
  { intros b0 rc w0 r0 w0' E. rewrite (error_app h _ _ _ _ _ _ E). apply bind_ret_inv in E. by subst. }
  unfold new_instance, mbind at 1, M_bind. destruct (comp_at i w) as [[c w1]|] eqn:E1; [|done]. pose proof (comp_at_keeps i (app_data h) _ _ _ E1) as K1.
  destruct (get_instance c) as [gi|]; [|done]. unfold mbind at 1, M_bind, deref at 1.
  unfold mbind at 1, M_bind. destruct (enter gi w1) as [[[] w2]|] eqn:E2; [|done]. pose proof (enter_keeps gi (app_data h) _ _ _ E2) as K2.
  unfold mbind at 1, M_bind, oext at 1. set (w3 := put_o_tr _ w2). assert (K3 : app_data h (o_tr w3) = app_data h (o_tr w2)) by reflexivity.
  destruct (env_get_instance _ _) as [obj|]; [|intros E; rewrite (Herr _ _ _ _ _ E); by case_bool_decide; congruence].
  destruct (create_comp_func c) as [cf|]; [|done]. unfold mbind at 1, M_bind, deref at 1.
  unfold mbind at 1, M_bind. destruct (enter cf w3) as [[[] w4]|] eqn:E4; [|done]. pose proof (enter_keeps cf (app_data h) _ _ _ E4) as K4.
  unfold mbind at 1, M_bind, oext at 1. set (w5 := put_o_tr _ w4). assert (K5 : app_data h (o_tr w5) = app_data h (o_tr w4)) by reflexivity.
  destruct (env_create _ _ _) as [hn|]; [|intros E; rewrite (Herr _ _ _ _ _ E); by case_bool_decide; congruence].
  unfold mbind at 1, M_bind. destruct (upd_comp _ _ w5) as [[[] w6]|] eqn:E6; [|done]. pose proof (upd_comp_keeps i _ (app_data h) _ _ _ E6) as K6.
  unM. intros [= <- <-]. simpl. destruct (Z.eqb_spec h hn) as [->|Hne]; [by rewrite bool_decide_true|]. rewrite bool_decide_false by congruence. congruence.
Qed.

Lemma get_handle_app h n d w r w' : OMX_GetHandle n d w = Some (r, w') ->
  app_data h (o_tr w') = if bool_decide (r.2 = Some h) then Some d else app_data h (o_tr w).
Proof.
  assert (Herr : forall i b rc w r w', get_handle_error i b rc w = Some (r, w') ->
    app_data h (o_tr w') = if bool_decide (r.2 = Some h) then Some d else app_data h (o_tr w)).
  { intros i b0 rc w0 r0 w0' E. rewrite (error_app h _ _ _ _ _ _ E). apply bind_ret_inv in E. by subst. }
  unfold OMX_GetHandle, the_core. unfold mbind at 1, M_bind. destruct ((core ← gets g_omxcore; deref core) w) as [[core w0]|] eqn:E0; [|done].
  assert (w0 = w) as ->. { unM. destruct (g_omxcore w); [|done]. by injection E0. }
  destruct (get_comp_from_list core n) as [i|]; [|by intros [= <- <-]]. unfold mbind at 1, M_bind.
  destruct (comp_at i w) as [[c w1]|] eqn:E1; [|done]. pose proof (comp_at_keeps i (app_data h) _ _ _ E1) as K1. cbv beta in K1. rewrite <- K1.
  destruct (get_free_inst_idx c) as [j|]; [|by apply Herr]. destruct (open c); [apply new_instance_app|].
  unfold mbind at 1, M_bind. destruct (load_library i c w1) as [[b w2]|] eqn:E2; [|done]. pose proof (load_app h i c _ _ _ E2) as K2. cbv beta in K2. rewrite <- K2.
  destruct b as [[]|]; [apply new_instance_app|by apply Herr..].
Qed.

Lemma free_handle_app h hc w rc w' : OMX_FreeHandle hc w = Some (rc, w') -> app_data h (o_tr w') = app_data h (o_tr w).
Proof.
  revert w rc w'. change (keeps (fun w => app_data h (o_tr w)) (OMX_FreeHandle hc)). unfold OMX_FreeHandle, the_core.
  keeps_solve; by apply oext_keeps.
Qed.

Lemma free_handle_alive h h' w rc w' : h <> h' -> OMX_FreeHandle (Some h) w = Some (rc, w') -> h' ∈ alive (o_tr w') <-> h' ∈ alive (o_tr w).
Proof.
  intros Hne E. assert (K : keeps (fun w => comp_live h' (o_tr w)) (OMX_FreeHandle (Some h))).
  { unfold OMX_FreeHandle, the_core. keeps_solve; apply (oext_keeps _ _ (comp_live h')); try done.
    intros tr y. unfold comp_live. simpl. destruct (y =? 0); [|done]. apply bool_decide_ext. rewrite list_elem_of_filter. naive_solver. }
  specialize (K _ _ _ E). unfold comp_live in K. cbv beta in K. revert K. by do 2 case_bool_decide.
Qed.

Lemma get_handle_ok x core n d : core_inv lib_of x core -> exists r x' core', OMX_GetHandle n d x = Some (r, x') /\ core_inv lib_of x' core' /\
  (forall h, h ∈ alive (o_tr x) -> h ∈ alive (o_tr x')) /\
  match r.2 with Some h => r.1 = OMX_ErrorNone /\ h ∈ alive (o_tr x') /\ h ∉ alive (o_tr x) | None => r.1 = OMX_ErrorInvalidComponent end.
Proof.
  intros H. destruct x as [g tr]. pose proof (ci_core _ _ _ H) as Eg. simpl in Eg. subst g. change {| g_omxcore := Some core; o_tr := tr |} with (ow core tr) in *.
  destruct (get_step lib_of Hlib core tr n d H) as (R & core' & tr' & E & H' & Hst & _). cbn [run_omx] in E. unfold mbind, M_bind in E.
  destruct (OMX_GetHandle n d (ow core tr)) as [[r w']|] eqn:Eg; [|done]. injection E as <- ->. exists r, (ow core' tr'), core'. split; [done|]. split; [done|].
  assert (Hal : forall co t (Hc : core_inv lib_of (ow co t) co) h, h ∈ alive t <-> exists i l j, table co !! i = Some l /\ l !! j = Some (Some h)).
  { intros co t Hc h. rewrite (ci_alive _ _ _ Hc). setoid_rewrite slot_of_table. naive_solver. }
  simpl o_tr. inversion Hst as [? ? ? Hn Ht|? ? ? i l Hn Hl Hf Ht|? ? ? i l Hn Hl Hf Ht|? ? ? i l j h Hn Hl Hj Hnew Et Ea Er Ht| | | |]; subst.
  1-3: assert (Eq : table core = table core') by congruence; (split; [intros h; rewrite (Hal _ _ H), (Hal _ _ H'), Eq; done|]); destruct r as [rc ro]; simpl in *;
    by simplify_eq.
  destruct r as [rc ro]; simpl in *. simplify_eq. split.
  - intros h0. rewrite (Hal _ _ H), (Hal _ _ H'). intros (i0 & l0 & j0 & H1 & H2). rewrite <- Ht. destruct (decide (i0 = i)) as [->|Hne].
    + exists i, (<[j := Some h]> l), j0. split; [apply list_lookup_insert_eq; by eapply lookup_lt_Some|]. rewrite list_lookup_insert_ne; congruence.
    + exists i0, l0, j0. by rewrite list_lookup_insert_ne.
  - split; [done|]. split.
    + apply (Hal _ _ H'). rewrite <- Ht. exists i, (<[j := Some h]> l), j. split; apply list_lookup_insert_eq; by eapply lookup_lt_Some.
    + rewrite (Hal _ _ H). intros (i0 & l0 & j0 & H1 & H2). apply (Hnew l0); by eapply list_elem_of_lookup_2.
Qed.

Lemma free_handle_ok x core h : core_inv lib_of x core -> exists rc x' core', OMX_FreeHandle (Some h) x = Some (rc, x') /\ core_inv lib_of x' core'.
Proof.
  intros H. destruct x as [g tr]. pose proof (ci_core _ _ _ H) as Eg. simpl in Eg. subst g. change {| g_omxcore := Some core; o_tr := tr |} with (ow core tr) in *.
  destruct (free_step lib_of Hlib core tr (Some h) H) as (R & core' & tr' & E & H' & _).
  cbn [run_omx] in E. unfold mbind, M_bind in E. destruct (OMX_FreeHandle (Some h) (ow core tr)) as [[rc w']|] eqn:Ef; [|done].
  injection E as <- ->. by exists rc, (ow core' tr'), core'.
Qed.

End Omx.

(** ** Searching the queues *)

Section Search.
Context `{FL : Floats}.

Lemma remove_first_none {A} f (l : list A) : (remove_first f l).1 = None -> remove_first f l = (None, l) /\ Forall (fun x => f x = false) l.
Proof.
  induction l as [|x l IH]; [done|]. simpl. destruct (f x) eqn:E; [done|]. destruct (remove_first f l) as [r ys]. simpl. intros ->.
  destruct IH as [[= ->] IH]; [done|]. by split; [|constructor].
Qed.

Lemma remove_first_some {A} f (l : list A) x l' : remove_first f l = (Some x, l') -> f x = true /\ x ∈ l /\ l' ⊆ l /\ length l = S (length l') /\
  forall y, y ∈ l -> f y = false -> y ∈ l'.
Proof.
  revert l'. induction l as [|z l IH]; intros l'; [done|]. simpl. destruct (f z) eqn:E.
  - intros [= -> ->]. split; [done|]. split; [set_solver|]. split; [set_solver|]. split; [done|]. intros y Hy Hf.
    apply elem_of_cons in Hy as [->|]; [congruence|done].
  - destruct (remove_first f l) as [r ys]. intros [= -> <-]. destruct (IH ys eq_refl) as (H1 & H2 & H3 & H4 & H5). split; [done|].
    split; [set_solver|]. split; [set_solver|]. split; [simpl; lia|]. intros y Hy Hf. apply elem_of_cons in Hy as [->|Hy]; set_solver.
Qed.

(** All jobs of a session leave a queue. *)
Lemma remove_session_run id : forall n q, (length q < n)%nat -> exists q', remove_session_jobs n q id = Some q' /\ q' ⊆ q /\ (length q' <= length q)%nat /\
  Forall (fun n => node_session_id n <> id) q'.
Proof.
  induction n as [|n IH]; intros q Hn; [lia|]. simpl. unfold mm_jpeg_queue_remove_job_by_session_id. destruct (remove_first _ q) as [[x|] q1] eqn:E.
  - destruct (remove_first_some _ _ _ _ E) as (_ & _ & Hsub & Hlen & _). destruct (IH q1) as (q' & E' & Hs & Hl & Hf); [lia|].
    exists q'. split; [done|]. split; [set_solver|]. split; [lia|done].
  - destruct (remove_first_none (fun n => node_session_id n =? id) q) as [E1 Hf]; [by rewrite E|]. rewrite E in E1. injection E1 as ->.
    exists q. split; [done|]. split; [done|]. split; [lia|]. eapply Forall_impl; [exact Hf|]. intros y Hy. by apply Z.eqb_neq.
Qed.

End Search.

Section Ops.
Context `{FL : Floats} `{K : Codec} `{OE : OmxEnv} `{JE : JpegEnv} (lib_of : string -> Z) (Hlib : libraries_ok lib_of).
Context (Hans : components_answer).

Abbreviation jstate := (jstate lib_of None).
Abbreviation jinv := (jinv lib_of None).

(** ** Identifiers of sessions *)

Lemma sid_indices p : in_table p -> (Z.to_nat (GET_CLIENT_IDX (sid p)), Z.to_nat (GET_SESSION_IDX (sid p))) = p.
Proof.
  intros [H1 H2]. unfold sid. rewrite session_id_split. rewrite client_idx_of, session_idx_of by lia. rewrite !Nat2Z.id. by destruct p.
Qed.

Lemma sid_inj p q : in_table p -> in_table q -> sid p = sid q -> p = q.
Proof. intros Hp Hq E. by rewrite <- (sid_indices p Hp), <- (sid_indices q Hq), E. Qed.

Lemma job_id_session p hist : in_table p -> mm_jpeg_get_session (new_job_id (sid p) hist) = Some p.
Proof.
  intros Hp. pose proof Hp as [H1 H2]. unfold sid. destruct (job_id_any (Z.of_nat p.2) (Z.of_nat p.1) hist) as (k & Hk & ->).
  unfold mm_jpeg_get_session. rewrite client_idx_of, session_idx_of by lia. unfold MM_JPEG_MAX_SESSION, MAX_JPEG_CLIENT_NUM.
  rewrite !(proj2 (Z.leb_gt _ _)) by lia. rewrite !Nat2Z.id. by destruct p.
Qed.

Lemma sid_session p : in_table p -> mm_jpeg_get_session (sid p) = Some p.
Proof.
  intros Hp. pose proof Hp as [H1 H2]. unfold mm_jpeg_get_session. pose proof (sid_indices p Hp) as E. unfold sid in *. rewrite session_id_split in *.
  rewrite client_idx_of, session_idx_of in * by lia. unfold MM_JPEG_MAX_SESSION, MAX_JPEG_CLIENT_NUM. rewrite !(proj2 (Z.leb_gt _ _)) by lia.
  cbn [orb]. by rewrite E.
Qed.

Lemma get_session_in_table id p : mm_jpeg_get_session id = Some p -> in_table p.
Proof.
  unfold mm_jpeg_get_session, MM_JPEG_MAX_SESSION, MAX_JPEG_CLIENT_NUM, in_table. destruct (_ || _) eqn:E; [done|]. intros [= <-].
  apply orb_false_iff in E as [E1%Z.leb_gt E2%Z.leb_gt]. simpl.
  assert (0 <= GET_CLIENT_IDX id) by (apply Z.land_nonneg; lia). assert (0 <= GET_SESSION_IDX id) by (apply Z.land_nonneg; lia). lia.
Qed.

(** ** Replacing a session *)

(** A session that no job belongs to is replaced, and components may have
    come and gone. *)
Lemma jstate_swap ex ns w o todo og p s s' x' : JpegInv.jstate lib_of ex ns w o todo og -> session_of o p = Some s -> active s = false \/ ex = Some p ->
  sess_ok (o_tr x') p s' -> (exists core, core_inv lib_of x' core) ->
  (forall q sq, q <> p -> session_of o q = Some sq -> active sq = true -> sess_live (o_tr (j_omx w)) q sq -> sess_live (o_tr x') q sq) ->
  (forall h a, app_data h (o_tr x') = Some a -> exists q, a = app_of q /\ in_table q) ->
  jstate ns (put_j_omx x' (put_j_obj (Some (with_session p s' o)) w)) (with_session p s' o) todo og.
Proof.
  intros H Hp Hfree Hs' Hcore Hlive Happ. destruct H. split; try done; [by apply table_ok_with| |].
  - eapply Forall_impl; [exact js_jobs|]. intros n (q & sq & Hq & Hsq & Ha & Hid & Hfit & Hex). exists q, sq. split; [done|].
    rewrite (session_of_with _ _ _ _ _ Hp). case_decide as E; [|done]. subst. exfalso. rewrite Hp in Hsq. injection Hsq as <-.
    destruct Hfree as [?|?]; congruence.
  - intros q sq. rewrite (session_of_with _ _ _ _ _ Hp). case_decide as E; [intros [= <-]; by subst|]. intros Hsq.
    destruct (js_sess q sq Hsq) as [Hsh Hl]. split; [done|]. intros Ha. apply Hlive; auto.
Qed.

Lemma with_session_twice p a b o : with_session p a (with_session p b o) = with_session p a o.
Proof.
  unfold with_session, put_clnt_mgr. simpl. f_equal. rewrite list_alter_alter_eq. apply list_alter_ext; [|done]. intros c _. unfold compose, put_session. simpl.
  by rewrite list_insert_insert_eq.
Qed.

Lemma jinv_weaken ex ns ns' w : (ns' = true -> ns = true) -> JpegInv.jinv lib_of ex ns w -> JpegInv.jinv lib_of ex ns' w.
Proof. intros Hn (o & t & g & H). exists o, t, g. by apply (jstate_weaken lib_of ex ns). Qed.

(** ** Reading and writing the queues *)

Lemma todo_run ex ns w o todo og : JpegInv.jstate lib_of ex ns w o todo og -> todo_q w = Some (todo, w).
Proof. intros H. unfold todo_q, the_obj. unM. by rewrite (js_obj _ _ _ _ _ _ _ H), (js_todo _ _ _ _ _ _ _ H). Qed.

Lemma ongoing_run ex ns w o todo og : JpegInv.jstate lib_of ex ns w o todo og -> ongoing_q w = Some (og, w).
Proof. intros H. unfold ongoing_q, the_obj. unM. by rewrite (js_obj _ _ _ _ _ _ _ H), (js_og _ _ _ _ _ _ _ H). Qed.

(** Writing the queues back. *)
Lemma put_todo_run ns ns' w o todo og todo' : jstate ns w o todo og -> Forall (node_ok None o) todo' ->
  (sem_ok ns (j_tr w) (job_sem (job_mgr o)) todo og -> sem_ok ns' (j_tr w) (job_sem (job_mgr o)) todo' og) ->
  exists w' o', put_todo_q todo' w = Some (tt, w') /\ jstate ns' w' o' todo' og /\ clnt_mgr o' = clnt_mgr o /\ j_omx w' = j_omx w /\ j_tr w' = j_tr w /\
    job_sem (job_mgr o') = job_sem (job_mgr o).
Proof.
  intros H Hf Hs. unfold put_todo_q. rewrite (upd_obj_run w o _ (js_obj _ _ _ _ _ _ _ H)). eexists. exists (put_job_mgr (put_job_queue (Some todo') (job_mgr o)) o). split; [reflexivity|].
  split; [|done]. apply (jstate_queues lib_of None ns ns' w o todo og todo' og _ (job_sem (job_mgr o)) H); [|apply H| |done].
  - unfold with_queues. destruct o as [? ? [? ? ?] ? ?]. pose proof (js_og _ _ _ _ _ _ _ H). simpl in *. by subst.
  - pose proof (js_jobs _ _ _ _ _ _ _ H) as Hj. apply Forall_app in Hj as [_ Hj]. by apply Forall_app_2.
Qed.

Lemma put_ongoing_run ns ns' w o todo og og' : jstate ns w o todo og -> Forall (node_ok None o) og' -> (length og' <= 1)%nat ->
  (sem_ok ns (j_tr w) (job_sem (job_mgr o)) todo og -> sem_ok ns' (j_tr w) (job_sem (job_mgr o)) todo og') ->
  exists w' o', put_ongoing_q og' w = Some (tt, w') /\ jstate ns' w' o' todo og' /\ clnt_mgr o' = clnt_mgr o /\ j_omx w' = j_omx w /\ j_tr w' = j_tr w /\
    job_sem (job_mgr o') = job_sem (job_mgr o).
Proof.
  intros H Hf Hl Hs. unfold put_ongoing_q. rewrite (upd_obj_run w o _ (js_obj _ _ _ _ _ _ _ H)). eexists. exists (put_ongoing_job_q (Some og') o). split; [reflexivity|].
  split; [|done]. apply (jstate_queues lib_of None ns ns' w o todo og todo og' _ (job_sem (job_mgr o)) H); [|done| |done].
  - unfold with_queues. destruct o as [? ? [? ? ?] ? ?]. pose proof (js_todo _ _ _ _ _ _ _ H). simpl in *. by subst.
  - pose proof (js_jobs _ _ _ _ _ _ _ H) as Hj. apply Forall_app in Hj as [Hj _]. by apply Forall_app_2.
Qed.

Lemma sem_ok_false ns tr sem todo og todo' og' : sem_ok ns tr sem todo og -> sem_ok false tr sem todo' og'.
Proof. intros H Hl. destruct (H Hl). done. Qed.

(** Memory for a job or a queue cell. *)
Lemma jmalloc_run ex ns w o todo og : JpegInv.jstate lib_of ex ns w o todo og -> exists ok w', jmalloc w = Some (ok, w') /\ JpegInv.jstate lib_of ex ns w' o todo og /\
  j_omx w' = j_omx w.
Proof. intros H. do 2 eexists. split; [reflexivity|]. split; [by apply jstate_note|done]. Qed.

Lemma enq_todo_run ns w o todo og n : jstate ns w o todo og -> node_ok None o n -> exists rc w' o' todo', enq todo_q put_todo_q n w = Some (rc, w') /\
  jstate false w' o' todo' og /\ (rc = 0 \/ (rc = -1 /\ jstate ns w' o' todo' og)).
Proof.
  intros H Hn. unfold enq. destruct (jmalloc_run None ns w o todo og H) as (ok & w1 & E1 & H1 & _). rewrite (bind_run _ _ _ _ _ E1). destruct ok.
  - rewrite (bind_run _ _ _ _ _ (todo_run _ _ _ _ _ _ H1)). pose proof (js_jobs _ _ _ _ _ _ _ H1) as Hj. apply Forall_app in Hj as [Hj _].
    destruct (put_todo_run ns false w1 o todo og (todo ++ [n]) H1) as (w2 & o2 & E2 & H2 & _); [by apply Forall_app_2; [|constructor]|apply sem_ok_false|].
    exists 0, w2, o2, (todo ++ [n]). rewrite (bind_run _ _ _ _ _ E2). auto.
  - exists (-1), w1, o, todo. split; [done|]. split; [by apply (jstate_weaken lib_of None ns)|auto].
Qed.

(** Queueing a job of session [p], as both libraries start one. *)
Lemma start_gen ns w o todo og p s n id : jstate ns w o todo og -> session_of o p = Some s -> active s = true ->
  mm_jpeg_get_session (node_job_id n) = Some p -> node_sid n = sid p -> node_fits n ->
  exists r w', (ok ← jmalloc;
    if ok : bool then
      upd_sess p (put_job_hist (job_hist s +i 1));;
      rc ← enq todo_q put_todo_q n;
      (if rc =? 0 then sem_post else mret tt);;
      mret (rc, id)
    else mret (-1, 0)) w = Some (r, w') /\ jinv ns w'.
Proof.
  intros H Hs Ha Hp Hid Hfit. destruct (jmalloc_run None ns w o todo og H) as (ok & w1 & Em & H1 & Hx1). rewrite (bind_run _ _ _ _ _ Em).
  destruct ok; [|by do 2 eexists; split; [done|]; exists o, todo, og].
  rewrite (bind_run _ _ _ _ _ (upd_sess_run w1 o p s _ (js_obj _ _ _ _ _ _ _ H1) Hs)).
  assert (H2 := upd_benign lib_of None ns w1 o todo og p s (put_job_hist (job_hist s +i 1)) H1 Hs ltac:(benign)).
  set (o2 := with_session _ _ o) in *. set (w2 := put_j_obj _ w1) in *.
  assert (Hn : node_ok None o2 n).
  { exists p, (put_job_hist (job_hist s +i 1) s). split; [done|]. split; [unfold o2; rewrite (session_of_with _ _ _ _ _ Hs); by case_decide|]. done. }
  destruct (enq_todo_run ns w2 o2 todo og n H2 Hn) as (rc & w3 & o3 & todo3 & E3 & H3 & Hrc). rewrite (bind_run _ _ _ _ _ E3).
  destruct Hrc as [->|[-> Hrc]].
  - destruct (sem_post_run lib_of None _ _ _ _ _ H3) as (w4 & o4 & E4 & H4 & _). exists (0, id), w4.
    cbn [Z.eqb]. rewrite (bind_run _ _ _ _ _ E4). split; [done|]. apply (jinv_weaken None true); [done|]. by exists o4, todo3, og.
  - do 2 eexists. split; [reflexivity|]. by exists o3, todo3, og.
Qed.

(** ** A turn of the job manager *)

Lemma job_J ns w o todo og n : jstate ns w o todo og -> node_ok None o n -> exists p, mm_jpeg_get_session (node_job_id n) = Some p /\
  J lib_of None ns p w /\ exists s, session_of o p = Some s /\ jpeg_obj s = true.
Proof.
  intros H (p & s & Hp & Hs & Ha & _). exists p. split; [done|]. split; [split; [by exists o, todo, og|exists o, s; split; [apply H|done]]|].
  exists s. split; [done|]. by destruct (js_sess _ _ _ _ _ _ _ H p s Hs) as [_ Hl]; destruct (Hl Ha).
Qed.

(** The invariant and the session, taken apart. *)
Lemma J_open ns p w : J lib_of None ns p w -> exists o todo og s, jstate ns w o todo og /\ session_of o p = Some s /\ jpeg_obj s = true /\ active s = true.
Proof.
  intros [(o & todo & og & H) (o' & s & Ho & Hs & Ha)]. rewrite (js_obj _ _ _ _ _ _ _ H) in Ho. injection Ho as <-. exists o, todo, og, s.
  split; [done|]. split; [done|]. split; [|done]. by destruct (js_sess _ _ _ _ _ _ _ H p s Hs) as [_ Hl]; destruct (Hl Ha).
Qed.

(** The node goes to the ongoing queue, or there was no memory for it. *)
Lemma enq_ongoing_run ns w o todo n : jstate false w o todo [] -> node_ok None o n ->
  exists rc w' o' og, enq ongoing_q put_ongoing_q n w = Some (rc, w') /\ jstate false w' o' todo og /\ clnt_mgr o' = clnt_mgr o /\
    (rc = -1 \/ (rc = 0 /\ jstate ns w' o' todo og)).
Proof.
  intros H Hn. unfold enq. destruct (jmalloc_run None false w o todo [] H) as (ok & w1 & E1 & H1 & _). rewrite (bind_run _ _ _ _ _ E1). destruct ok.
  - destruct (put_ongoing_run false ns w1 o todo [] [n] H1) as (w2 & o2 & E2 & H2 & Hc2 & _); [by constructor|done| |].
    { intros Hso Hl. destruct (Hso Hl). done. }
    rewrite (bind_run _ _ _ _ _ (ongoing_run _ _ _ _ _ _ H1)), (bind_run _ _ _ _ _ E2). exists 0, w2, o2, [n]. split; [done|].
    split; [by apply (jstate_weaken lib_of None ns)|]. auto.
  - exists (-1), w1, o, []. auto.
Qed.

(** Processing a node: after it was queued, the session gets the job and runs
    it ([body]); when that fails the client is told and the job is done. *)
Lemma process_gen ns w o todo n p data (get : mm_jpeg_job_session_t -> option Z) upd (body : M jworld Z) :
  jstate false w o todo [] -> node_ok None o n -> mm_jpeg_get_session (node_job_id n) = Some p ->
  benign upd -> (forall ns, triple (J lib_of None ns p) body (fun _ => J lib_of None ns p)) ->
  exists rc w', (rc ← enq ongoing_q put_ongoing_q n;
    if negb (rc =? 0) then mm_jpeg_job_done p;; mret rc
    else
      upd_sess p upd;;
      ret ← body;
      if ret =? 0 then mret rc
      else
        s ← sess p;
        match get s with Some cb => call_cb data p cb JPEG_JOB_STATUS_ERROR None | None => mret tt end;;
        mm_jpeg_job_done p;;
        mret rc) w = Some (rc, w') /\ jinv ns w'.
Proof.
  intros H Hn Hp Hupd Hbody. destruct (job_J _ _ _ _ _ _ H Hn) as (p' & Hp' & HJ & s & Hs & Hj). rewrite Hp in Hp'. injection Hp' as <-.
  destruct (enq_ongoing_run ns w o todo n H Hn) as (rc & w1 & o1 & og1 & E1 & H1 & Hc1 & Hrc). rewrite (bind_run _ _ _ _ _ E1).
  assert (Hs1 : session_of o1 p = Some s) by (by rewrite (session_of_same _ _ p Hc1)). destruct Hrc as [->|[-> H2]].
  { cbn [Z.eqb negb]. destruct (job_done_run lib_of None _ _ _ _ _ p s H1 Hs1 Hj) as (w2 & o2 & og2 & E2 & H2 & _). exists (-1), w2.
    rewrite (bind_run _ _ _ _ _ E2). split; [done|]. apply (jinv_weaken None true); [done|]. by exists o2, todo, og2. }
  cbn [Z.eqb negb]. assert (HJ2 : J lib_of None ns p w1).
  { split; [by exists o1, todo, og1|]. destruct Hn as (p' & s' & Hp' & Hs' & Ha' & _). rewrite Hp in Hp'. injection Hp' as <-. rewrite Hs in Hs'. injection Hs' as <-.
    exists o1, s. split; [apply H2|done]. }
  destruct (upd_J lib_of None ns p upd Hupd w1 HJ2) as ([] & w3 & E3 & HJ3). rewrite (bind_run _ _ _ _ _ E3).
  destruct (Hbody ns w3 HJ3) as (ret & w4 & E4 & HJ4). rewrite (bind_run _ _ _ _ _ E4).
  destruct (ret =? 0); [exists 0, w4; split; [done|apply HJ4]|].
  destruct (J_open _ _ _ HJ4) as (o4 & todo4 & og4 & s4 & H4 & Hs4 & Hj4 & _). rewrite (bind_run _ _ _ _ _ (sess_run w4 o4 p s4 (js_obj _ _ _ _ _ _ _ H4) Hs4)).
  destruct (finish_run lib_of None _ _ _ _ _ data p s4 (get s4) JPEG_JOB_STATUS_ERROR None H4 Hs4 Hj4) as (w5 & E5 & (Hi & _)).
  exists 0, w5. split; [|by apply (jinv_weaken None true)]. revert E5. unfold mbind, M_bind. destruct (match get s4 with _ => _ end w4) as [[[] w6]|]; [|done].
  destruct (mm_jpeg_job_done p w6) as [[[] w7]|]; [|done]. by intros [= <-].
Qed.

(** A job is processed: started on the component, or answered with an error. *)
Lemma process_ok ns w o todo info : jstate false w o todo [] -> node_ok None o (JobNode info) ->
  exists rc w', mm_jpeg_process_encoding_job info w = Some (rc, w') /\ jinv ns w'.
Proof.
  intros H Hn. destruct (job_J _ _ _ _ _ _ H Hn) as (p & Hp & _). unfold mm_jpeg_process_encoding_job. simpl in Hp. rewrite Hp.
  apply (process_gen ns w o todo (JobNode info) p enc_data (fun s => jpeg_cb (params s))); [done|done|done| |].
  - intros s0. split; [|done]. intros []. destruct Hn as (_ & _ & _ & _ & _ & _ & [_ Hfit] & _). by split.
  - intros ns'. by apply encode_J.
Qed.

Lemma dec_process_ok ns w o todo info : jstate false w o todo [] -> node_ok None o (DecodeNode info) ->
  exists rc w', mm_jpegdec_process_decoding_job info w = Some (rc, w') /\ jinv ns w'.
Proof.
  intros H Hn. destruct (job_J _ _ _ _ _ _ H Hn) as (p & Hp & _). unfold mm_jpegdec_process_decoding_job. simpl in Hp. rewrite Hp.
  pose proof Hn as (_ & _ & _ & _ & _ & _ & [HK Hfit] & _).
  apply (process_gen ns w o todo (DecodeNode info) p dec_data (fun s => d_jpeg_cb (dec_params s))); [done|done|done| |].
  - intros s0. split; [|done]. intros []. by split.
  - intros ns'. by apply decode_J.
Qed.

(** The thread takes the semaphore and makes a turn. *)
Definition jobmgr_step : M jworld bool := sem_wait;; jobmgr_turn.

Lemma sem_wait_run w o : j_obj w = Some o -> job_sem (job_mgr o) <> 0 ->
  sem_wait w = Some (tt, put_j_obj (Some (put_job_mgr (put_job_sem (job_sem (job_mgr o) -i 1) (job_mgr o)) o)) w).
Proof.
  intros Ho Hs. unfold sem_wait. erewrite bind_run by reflexivity. destruct (env_sem_wait (j_tr w)) as [|[]]; simpl; unfold the_obj; unM; rewrite Ho;
    rewrite (proj2 (Z.eqb_neq _ _) Hs); by rewrite (upd_obj_run w o _ Ho).
Qed.

Lemma turn_ok ns w o todo og : jstate ns w o todo og -> 0 < job_sem (job_mgr o) < 2 ^ 31 -> exists r w', jobmgr_step w = Some (r, w') /\ r = true /\ jinv ns w'.
Proof.
  intros H Hsem. unfold jobmgr_step. rewrite (bind_run _ _ _ _ _ (sem_wait_run w o (js_obj _ _ _ _ _ _ _ H) ltac:(lia))).
  set (o1 := put_job_mgr _ o). set (w1 := put_j_obj _ w).
  assert (H1 : jstate false w1 o1 todo og).
  { apply (jstate_queues lib_of None ns false w o todo og todo og o1 (job_sem (job_mgr o) -i 1) H).
    - unfold o1, with_queues. destruct o as [? ? [? ? ?] ? ?]. pose proof (js_todo _ _ _ _ _ _ _ H). pose proof (js_og _ _ _ _ _ _ _ H). simpl in *. by subst.
    - apply H. - apply H. - intros Hso Hl. destruct (Hso Hl) as [Hb _]. rewrite i32_id by (unfold i32_range; lia). split; [lia|done]. }
  assert (Hvac : og <> [] \/ todo = [] -> jinv ns w1).
  { intros Hv. exists o1, todo, og. destruct H1. split; try done. intros Hl. destruct (js_sem Hl). split; [done|]. destruct Hv; congruence. }
  unfold jobmgr_turn. rewrite (bind_run _ _ _ _ _ (ongoing_run _ _ _ _ _ _ H1)). unfold NUM_MAX_JPEG_CNCURRENT_JOBS. destruct og as [|g og]; cbn [length Nat.leb].
  2:{ exists true, w1. split; [done|]. split; [done|]. apply Hvac. by left. }
  rewrite (bind_run _ _ _ _ _ (todo_run _ _ _ _ _ _ H1)). destruct todo as [|n q].
  { exists true, w1. split; [done|]. split; [done|]. apply Hvac. by right. }
  pose proof (js_jobs _ _ _ _ _ _ _ H1) as Hj. apply Forall_app in Hj as [Hj _]. apply Forall_cons in Hj as [Hn Hq].
  destruct (put_todo_run false false w1 o1 (n :: q) [] q H1 Hq (sem_ok_false _ _ _ _ _ _ _)) as (w2 & o2 & E2 & H2 & Hc2 & _). rewrite (bind_run _ _ _ _ _ E2).
  apply (node_ok_same None o1 o2 n Hc2) in Hn. destruct n as [info|info|]; [| |by destruct Hn as (_ & _ & _ & _ & _ & _ & [] & _)].
  - destruct (process_ok ns w2 o2 q info H2 Hn) as (rc & w3 & E3 & H3). exists true, w3. by rewrite (bind_run _ _ _ _ _ E3).
  - destruct (dec_process_ok ns w2 o2 q info H2 Hn) as (rc & w3 & E3 & H3). exists true, w3. by rewrite (bind_run _ _ _ _ _ E3).
Qed.

(** ** Aborting a job *)

(** The job is with the component. *)
Definition running (id : Z) (w : jworld) : Prop :=
  exists o og n, j_obj w = Some o /\ ongoing_job_q o = Some og /\ n ∈ og /\ node_job_id n = id.

Lemma abort_ok ns w id : jinv ns w -> exists w', mm_jpeg_abort_job id w = Some (-1, w') /\ jinv false w' /\ (~ running id w -> jinv ns w').
Proof.
  intros (o & todo & og & H). unfold mm_jpeg_abort_job. rewrite (bind_run _ _ _ _ _ (todo_run _ _ _ _ _ _ H)). unfold mm_jpeg_queue_remove_job_by_job_id.
  pose proof (js_jobs _ _ _ _ _ _ _ H) as Hj. apply Forall_app in Hj as [Hj1 Hj2].
  assert (Hboth : forall w', jinv ns w' -> jinv false w' /\ (~ running id w -> jinv ns w')) by (intros w' Hi; split; [by apply (jinv_weaken None ns)|done]).
  destruct (remove_first _ todo) as [[n|] todo'] eqn:E1.
  { destruct (remove_first_some _ _ _ _ E1) as (_ & Hin & Hsub & _). destruct (put_todo_run ns ns w o todo og todo' H) as (w1 & o1 & E & H1 & _).
    - by apply (jobs_sub None o todo). - intros Hso Hl. destruct (Hso Hl) as [? Hx]. split; [done|]. intros Hn Hg _. apply Hx; [done..|]. intros ->. by apply elem_of_nil in Hin.
    - exists w1. rewrite (bind_run _ _ _ _ _ E). split; [done|]. apply Hboth. by exists o1, todo', og. }
  rewrite (bind_run _ _ _ _ _ (ongoing_run _ _ _ _ _ _ H)). destruct (remove_first _ og) as [[n|] og'] eqn:E2.
  2:{ exists w. split; [done|]. apply Hboth. by exists o, todo, og. }
  destruct (remove_first_some _ _ _ _ E2) as (Hid & Hin & Hsub & Hlen & _). apply Z.eqb_eq in Hid. pose proof (js_one _ _ _ _ _ _ _ H).
  destruct (put_ongoing_run ns false w o todo og og' H) as (w1 & o1 & E & H1 & Hc1 & _); [by apply (jobs_sub None o og)|lia|apply sem_ok_false|].
  rewrite (bind_run _ _ _ _ _ E). assert (Hrun : running id w). { exists o, og, n. split; [apply H|]. split; [apply H|done]. }
  rewrite Forall_forall in Hj2. specialize (Hj2 n Hin).
  destruct (job_J false w1 o1 todo og' n H1) as (p & Hp & HJ & _); [by apply (node_ok_same None o)|]. rewrite Hp.
  destruct (session_abort_J lib_of None Hans false p w1 HJ) as (r & w2 & E3 & HJ2). exists w2. erewrite bind_run; [|by rewrite (bind_run _ _ _ _ _ E3)].
  split; [done|]. split; [apply HJ2|]. intros Hn. by destruct Hn.
Qed.

(** ** Destroying a session *)

(** No job of the session is queued. *)
Definition no_jobs (p : sptr) (w : jworld) : Prop := forall o, j_obj w = Some o ->
  Forall (fun n => node_sid n <> sid p) (default [] (job_queue (job_mgr o)) ++ default [] (ongoing_job_q o)).

(** The encoder takes the jobs of a session out of the queues; of the decoder
    it must be known that there are none. *)
Lemma remove_queues_ok ns w p : codec = EncoderCallbacks \/ no_jobs p w -> jinv ns w -> act p w -> exists w', remove_from_queues (sid p) w = Some (tt, w') /\ J lib_of (Some p) false p w'.
Proof.
  intros Hno (o & todo & og & H) (o' & s & Ho & Hs & Ha). rewrite (js_obj _ _ _ _ _ _ _ H) in Ho. injection Ho as <-. unfold remove_from_queues.
  assert (Hno' : codec = EncoderCallbacks \/ Forall (fun n => node_sid n <> sid p) (todo ++ og)).
  { destruct Hno as [|Hno]; [by left|right]. specialize (Hno o (js_obj _ _ _ _ _ _ _ H)). by rewrite (js_todo _ _ _ _ _ _ _ H), (js_og _ _ _ _ _ _ _ H) in Hno. }
  pose proof (js_jobs _ _ _ _ _ _ _ H) as Hj. apply Forall_app in Hj as [Hj1 Hj2].
  rewrite (bind_run _ _ _ _ _ (todo_run _ _ _ _ _ _ H)). destruct (remove_session_run (sid p) (S (length todo)) todo) as (todo' & -> & S1 & _ & F1); [lia|].
  erewrite bind_run by reflexivity.
  destruct (put_todo_run ns false w o todo og todo' H) as (w1 & o1 & E1 & H1 & C1 & _); [by apply (jobs_sub None o todo)|apply sem_ok_false|]. rewrite (bind_run _ _ _ _ _ E1).
  rewrite (bind_run _ _ _ _ _ (ongoing_run _ _ _ _ _ _ H1)). destruct (remove_session_run (sid p) (S (length og)) og) as (og' & -> & S2 & L2 & F2); [lia|].
  erewrite bind_run by reflexivity. pose proof (js_one _ _ _ _ _ _ _ H).
  destruct (put_ongoing_run false false w1 o1 todo' og og' H1) as (w2 & o2 & E2 & H2 & C2 & _);
    [apply (jobs_sub None o1 og); [|exact S2]; eapply Forall_impl; [exact Hj2|]; intros n; by apply node_ok_same|lia|apply sem_ok_false|].
  exists w2. split; [done|]. assert (Hs2 : session_of o2 p = Some s) by (by rewrite (session_of_same _ _ _ C2), (session_of_same _ _ _ C1)).
  split; [|exists o2, s; split; [apply H2|done]]. exists o2, todo', og'. pose proof (js_jobs _ _ _ _ _ _ _ H2) as Hj3. destruct H2. split; try done.
  apply Forall_forall. intros n Hn. rewrite Forall_forall in Hj3. pose proof (Hj3 n Hn) as (q & sq & Hq & Hsq & Haq & Hidq & Hfit & _).
  exists q, sq. do 5 (split; [done|]). intros [= ->]. rewrite Forall_forall in F1, F2. destruct Hno' as [HK|Hno'].
  - assert (Hne : node_session_id n <> sid q) by (apply elem_of_app in Hn as [Hn|Hn]; auto).
    destruct n as [i|i|]; [done| |done]. destruct Hfit as [HK' _]. congruence.
  - rewrite Forall_forall in Hno'. apply (Hno' n); [set_solver|done].
Qed.

(** The component of a session was given back: once the session is marked as
    not in use, the invariant holds. *)
Definition gone (ns : bool) (p : sptr) (w : jworld) : Prop :=
  exists o s, j_obj w = Some o /\ session_of o p = Some s /\ in_table p /\ jinv ns (put_j_obj (Some (with_session p (put_active false s) o)) w).

Lemma free_component_ok ns p : triple (J lib_of (Some p) ns p)
  (s ← sess p; omx (OMX_FreeHandle (omx_handle s));; upd_sess p (put_omx_handle None)) (fun _ => gone ns p).
Proof.
  intros w [(o & todo & og & H) (o' & s & Ho & Hs & Ha)]. rewrite (js_obj _ _ _ _ _ _ _ H) in Ho. injection Ho as <-.
  rewrite (bind_run _ _ _ _ _ (sess_run w o p s (js_obj _ _ _ _ _ _ _ H) Hs)). destruct (js_sess _ _ _ _ _ _ _ H p s Hs) as [Hsh Hl].
  destruct (Hl Ha) as (Hjo & Hid & h & Hh & Hal & Hap). rewrite Hh. destruct (js_core _ _ _ _ _ _ _ H) as [core Hcore].
  destruct (free_handle_ok lib_of Hlib (j_omx w) core h Hcore) as (rc & x' & core' & Ef & Hcore').
  assert (Ez : omx (OMX_FreeHandle (Some h)) w = Some (rc, put_j_omx x' w)) by (by apply zoom_run). rewrite (bind_run _ _ _ _ _ Ez).
  set (w1 := put_j_omx x' w). rewrite (upd_sess_run w1 o p s (put_omx_handle None) (js_obj _ _ _ _ _ _ _ H) Hs). do 2 eexists. split; [reflexivity|].
  pose proof (in_table_session o p s (js_table _ _ _ _ _ _ _ H) Hs) as Hp.
  exists (with_session p (put_omx_handle None s) o), (put_omx_handle None s). split; [done|].
  split; [rewrite (session_of_with _ _ _ _ _ Hs); by case_decide|]. split; [done|].
  exists (with_session p (put_active false (put_omx_handle None s)) o), todo, og. rewrite with_session_twice.
  apply (jstate_swap (Some p) ns w o todo og p s _ x' H Hs); [by right| |by exists core'| |].
  - split; [|done]. destruct Hsh. by split.
  - intros q sq Hne Hsq Haq (Hq1 & Hq2 & hq & Hq3 & Hq4 & Hq5). split; [done|]. split; [done|]. exists hq. split; [done|].
    rewrite (free_handle_app _ _ _ _ _ Ef). split; [|done]. apply (free_handle_alive h hq (j_omx w) rc x'); [|done|done]. intros ->. rewrite Hap in Hq5.
    injection Hq5 as E. apply Hne. destruct Hp as [_ Hp2].
    pose proof (in_table_session o q sq (js_table _ _ _ _ _ _ _ H) Hsq) as [_ Hq2']. by rewrite <- (Z_to_sptr_of p Hp2), <- (Z_to_sptr_of q Hq2'), E.
  - intros h0 z. rewrite (free_handle_app _ _ _ _ _ Ef). apply H.
Qed.

(** Destroying a session, up to what its component is asked to do. *)
Lemma destroy_gen ns w p (destroy : M jworld unit) : codec = EncoderCallbacks \/ no_jobs p w ->
  triple (J lib_of (Some p) false p) destroy (fun _ => gone false p) -> jinv ns w -> act p w ->
  exists s w', sess p w = Some (s, w) /\ sessionId s = sid p /\ mm_jpeg_get_session (sid p) = Some p /\
    (remove_from_queues (sid p);; mm_jpeg_session_abort p;; destroy;; mm_jpeg_remove_session_idx (sid p);; sem_post;; mret 0) w = Some (0, w') /\ jinv true w'.
Proof.
  intros Hno Hd Hi Ha. assert (Hs : exists s, sess p w = Some (s, w) /\ sessionId s = sid p /\ in_table p).
  { destruct Hi as (o & todo & og & H), Ha as (o' & s & Ho & Hs & Hac). exists s. split; [by apply (sess_run w o')|]. rewrite (js_obj _ _ _ _ _ _ _ H) in Ho.
    injection Ho as <-. destruct (js_sess _ _ _ _ _ _ _ H p s Hs) as [_ Hl]. destruct (Hl Hac) as (_ & ? & _). split; [done|].
    apply (in_table_session o p s); [apply H|done]. }
  destruct Hs as (s & Es & Hid & Hp). exists s.
  destruct (remove_queues_ok ns w p Hno Hi Ha) as (w1 & E1 & HJ1). rewrite (bind_run _ _ _ _ _ E1).
  destruct (session_abort_J lib_of (Some p) Hans false p w1 HJ1) as (r & w2 & E2 & HJ2). rewrite (bind_run _ _ _ _ _ E2).
  destruct (Hd w2 HJ2) as ([] & w3 & E3 & o3 & s3 & Ho3 & Hs3 & _ & (o4 & t4 & g4 & H4)). rewrite (bind_run _ _ _ _ _ E3).
  unfold mm_jpeg_remove_session_idx. rewrite (sid_indices p Hp), (bind_run _ _ _ _ _ (upd_sess_run w3 o3 p s3 (put_active false) Ho3 Hs3)).
  destruct (sem_post_run lib_of None _ _ _ _ _ H4) as (w5 & o5 & E5 & H5 & _). rewrite (bind_run _ _ _ _ _ E5). exists w5.
  split; [done|]. split; [done|]. split; [by apply sid_session|]. split; [done|]. by exists o5, t4, g4.
Qed.

(** ** Creating a session *)

(** The state with session [p] replaced. *)
Definition mkw (w : jworld) (o : mm_jpeg_obj) (p : sptr) (x : oworld) (s : mm_jpeg_job_session_t) : jworld :=
  put_j_omx x (put_j_obj (Some (with_session p s o)) w).

Lemma upd_mkw w o p x s0 s f : session_of o p = Some s0 -> upd_sess p f (mkw w o p x s) = Some (tt, mkw w o p x (f s)).
Proof.
  intros Hs. rewrite (upd_sess_run (mkw w o p x s) (with_session p s o) p s f eq_refl); [|rewrite (session_of_with _ _ _ _ _ Hs); by case_decide].
  by rewrite with_session_twice.
Qed.

(** A component given to a session that was not in use. *)
Lemma new_component_ok ns w o todo og p s s' h x' core' : jstate ns w o todo og -> session_of o p = Some s -> active s = false ->
  core_inv lib_of x' core' -> (forall h, h ∈ alive (o_tr (j_omx w)) -> h ∈ alive (o_tr x')) ->
  (forall h0, app_data h0 (o_tr x') = if bool_decide (h = Some h0) then Some (app_of p) else app_data h0 (o_tr (j_omx w))) ->
  (forall h0, h = Some h0 -> h0 ∉ alive (o_tr (j_omx w))) -> sess_ok (o_tr x') p s' -> jinv ns (mkw w o p x' s').
Proof.
  intros H Hs Ha Hcore Hal Happ Hnew Hs'. exists (with_session p s' o), todo, og.
  apply (jstate_swap None ns w o todo og p s s' x' H Hs); [by left|done|by exists core'| |].
  - intros q sq _ Hsq Haq (Hq1 & Hq2 & hq & Hq3 & Hq4 & Hq5). split; [done|]. split; [done|]. exists hq. split; [done|]. split; [by apply Hal|].
    rewrite Happ, bool_decide_false; [done|]. intros E. by apply (Hnew hq).
  - intros h0 z. rewrite Happ. case_bool_decide; [|apply H]. intros [= <-]. exists p. split; [done|].
    apply (in_table_session o p s); [apply H|done].
Qed.

Lemma new_idx_run ns w o todo og c : jstate ns w o todo og -> (c < 8)%nat -> exists r w', mm_jpeg_get_new_session_idx c w = Some (r, w') /\
  match r with
  | None => w' = w
  | Some p => exists s, session_of o p = Some s /\ active s = false /\ p.1 = c /\ w' = mkw w o p (j_omx w) (put_active true s)
  end.
Proof.
  intros H Hc. pose proof (js_obj _ _ _ _ _ _ _ H) as Ho. destruct (js_table _ _ _ _ _ _ _ H) as [T1 T2].
  destruct (lookup_lt_is_Some_2 (clnt_mgr o) c) as [cl Hcl]; [by rewrite T1|].
  unfold mm_jpeg_get_new_session_idx. rewrite (bind_run _ _ w o w) by (unfold the_obj; unM; by rewrite Ho). rewrite Hcl. erewrite bind_run by reflexivity.
  destruct (list_find (fun s => active s = false) (session cl)) as [[i s]|] eqn:Ef; [|by exists None, w].
  apply list_find_Some in Ef as (Hi & Ha & _). assert (Hs : session_of o (c, i) = Some s) by (unfold session_of; simpl; by rewrite Hcl).
  exists (Some (c, i)). eexists. rewrite (bind_run _ _ _ _ _ (upd_sess_run w o (c, i) s _ Ho Hs)). split; [reflexivity|]. exists s. split; [done|]. split; [done|].
  split; [done|]. by destruct w.
Qed.

(** What a new component means for the session [p] that asked for it. *)
Definition got (w : jworld) (p : sptr) (rc : Z) (h : option Z) (x' : oworld) : Prop :=
  (exists core', core_inv lib_of x' core') /\ (forall h, h ∈ alive (o_tr (j_omx w)) -> h ∈ alive (o_tr x')) /\
  (forall h0, app_data h0 (o_tr x') = if bool_decide (h = Some h0) then Some (app_of p) else app_data h0 (o_tr (j_omx w))) /\
  match h with Some h0 => rc = OMX_ErrorNone /\ h0 ∈ alive (o_tr x') /\ h0 ∉ alive (o_tr (j_omx w)) | None => rc = OMX_ErrorInvalidComponent end.

(** The session gets its component, or none. *)
Lemma session_create_gen ns w o todo og p s s1 prep n : jstate ns w o todo og -> session_of o p = Some s ->
  exists rc h x', (upd_sess p prep;; r ← omx (OMX_GetHandle (Some n) (app_of p)); upd_sess p (put_omx_handle r.2);; mret r.1) (mkw w o p (j_omx w) s1) =
    Some (rc, mkw w o p x' (put_omx_handle h (prep s1))) /\ got w p rc h x'.
Proof.
  intros H Hs. destruct (js_core _ _ _ _ _ _ _ H) as [core Hcore].
  destruct (get_handle_ok lib_of Hlib (j_omx w) core (Some n) (app_of p) Hcore) as ([rc h] & x' & core' & E & Hc' & Hal & Hr).
  exists rc, h, x'. split; [|split; [by exists core'|]; split; [done|]; split; [intros h0; exact (get_handle_app h0 _ _ _ _ _ E)|exact Hr]].
  rewrite (bind_run _ _ _ _ _ (upd_mkw w o p _ s _ _ Hs)).
  assert (Ez : omx (OMX_GetHandle (Some n) (app_of p)) (mkw w o p (j_omx w) (prep s1)) = Some ((rc, h), mkw w o p x' (prep s1)))
    by exact (zoom_run j_omx put_j_omx _ (mkw w o p (j_omx w) (prep s1)) _ _ E).
  rewrite (bind_run _ _ _ _ _ Ez). cbn [fst snd]. by rewrite (bind_run _ _ _ _ _ (upd_mkw w o p x' s (prep s1) (put_omx_handle h) Hs)).
Qed.

(** The session is handed out, or given up. *)
Lemma create_finish ns w o todo og p s s2 rc h x' fin : OMX_ErrorInvalidComponent <> OMX_ErrorNone -> jstate ns w o todo og ->
  session_of o p = Some s -> active s = false -> got w p rc h x' -> sess_shape s2 -> omx_handle s2 = h -> active s2 = true ->
  sess_shape (fin s2) /\ jpeg_obj (fin s2) = true /\ sessionId (fin s2) = sid p /\ omx_handle (fin s2) = h /\ active (fin s2) = true ->
  exists r w', (if negb (rc =? OMX_ErrorNone) then upd_sess p (put_active false);; mret (0, 0) else upd_sess p fin;; mret (0, sid p)) (mkw w o p x' s2) = Some (r, w') /\
    jinv ns w' /\ (r.2 = 0 \/ exists p, r.2 = sid p /\ act p w').
Proof.
  intros Herr H Hs Ha ((core' & Hcore) & Hal & Happ & Hh) Hsh Eh2 Ha2 (F1 & F2 & F3 & F4 & F5).
  assert (Hok : forall s', sess_ok (o_tr x') p s' -> jinv ns (mkw w o p x' s')).
  { intros s' Hs'. apply (new_component_ok ns w o todo og p s s' h x' core'); try done. intros h0 ->. by destruct Hh as (_ & _ & ?). }
  destruct h as [h|]; [destruct Hh as (-> & Hin & Hnew)|subst rc; rewrite (proj2 (Z.eqb_neq _ _) Herr); cbn [negb]].
  2:{ rewrite (bind_run _ _ _ _ _ (upd_mkw w o p _ s _ _ Hs)). do 2 eexists. split; [reflexivity|]. split; [|by left]. apply Hok. split; [|done].
      destruct Hsh. by split. }
  cbn [Z.eqb OMX_ErrorNone negb]. rewrite (bind_run _ _ _ _ _ (upd_mkw w o p _ s _ _ Hs)). do 2 eexists. split; [reflexivity|].
  split; [|right; exists p; split; [done|]].
  - apply Hok. split; [done|]. intros _. split; [done|]. split; [done|]. exists h. split; [done|]. split; [done|]. by rewrite Happ, bool_decide_true.
  - eexists _, _. split; [reflexivity|]. split; [rewrite (session_of_with _ _ _ _ _ Hs); by case_decide|done].
Qed.

(** ** Which sessions are in use *)

Definition flags (w : jworld) : option (list (list bool)) := (fun o => (fun c => active <$> session c) <$> clnt_mgr o) <$> j_obj w.

Lemma upd_obj_flags f : (forall o, clnt_mgr (f o) = clnt_mgr o) -> keeps flags (upd_obj f).
Proof.
  intros Hf w r w'. unfold upd_obj, the_obj. unM. destruct (j_obj w) as [o|] eqn:Ho; [|done]. intros [= _ <-]. unfold flags. simpl. by rewrite Ho, Hf.
Qed.

Lemma upd_sess_flags p f : (forall s, active (f s) = active s) -> keeps flags (upd_sess p f).
Proof.
  intros Hf w r w'. unfold upd_sess, sess, upd_obj, the_obj. unM. destruct (j_obj w) as [o|] eqn:Ho; [|done].
  destruct (session_of o p) as [s|] eqn:Hs; [|done]. rewrite Ho. intros [= _ <-]. unfold flags. simpl. rewrite Ho. simpl. f_equal.
  apply list_eq. intros i. rewrite !list_lookup_fmap. destruct (decide (i = p.1)) as [->|]; [|by rewrite list_lookup_alter_ne].
  rewrite list_lookup_alter_eq. unfold session_of in Hs. destruct (clnt_mgr o !! p.1) as [c|]; [|done]. simpl in *. f_equal.
  apply list_eq. intros j. rewrite !list_lookup_fmap. destruct (decide (j = p.2)) as [->|]; [|by rewrite list_lookup_insert_ne].
  rewrite list_lookup_insert_eq by (by eapply lookup_lt_Some). rewrite Hs. simpl. by rewrite Hf.
Qed.

Lemma sess_flags p : keeps flags (sess p).
Proof. unfold sess, the_obj. keeps_solve. Qed.

Lemma note_flags e : keeps flags (jnote e).
Proof. by intros w r w' [= _ <-]. Qed.

Local Ltac flags :=
  repeat first
    [ match goal with |- forall _, _ => intros ? end
    | lazymatch goal with
      | |- keeps _ (upd_sess _ _) => apply upd_sess_flags; done
      | |- keeps _ (upd_obj _) => apply upd_obj_flags; done
      | |- keeps _ (match ?x with _ => _ end) => destruct x
      | |- keeps _ (_ ≫= _) => apply keeps_bind
      | |- keeps _ (for_each _ _) => apply keeps_for_each
      | |- keeps _ (modify _) => apply keeps_modify; intros; reflexivity
      end
    | solve [auto with keeps nocore] ].

Hint Resolve sess_flags note_flags : keeps.

Lemma job_done_flags p : keeps flags (mm_jpeg_job_done p).
Proof. unfold mm_jpeg_job_done, ongoing_q, put_ongoing_q, sem_post, the_obj. flags. Qed.
Hint Resolve job_done_flags : keeps.

Lemma call_cb_flags data p cb st out : keeps flags (call_cb data p cb st out).
Proof. unfold call_cb. flags. Qed.
Hint Resolve call_cb_flags : keeps.

Lemma ebd_flags cbs p : keeps flags (ebd_of cbs p).
Proof. destruct cbs; apply upd_sess_flags; done. Qed.

Lemma fbd_flags cbs p len va : keeps flags (fbd_of cbs p len va).
Proof. destruct cbs; simpl; unfold mm_jpeg_fbd, mm_jpegdec_fbd, call_jpeg_cb, call_jpegdec_cb; flags. Qed.

Lemma event_flags cbs p e : keeps flags (event_handler_of cbs p e).
Proof. destruct cbs; simpl; unfold mm_jpeg_event_handler, mm_jpegdec_event_handler, call_jpeg_cb, call_jpegdec_cb; flags. Qed.
Hint Resolve ebd_flags fbd_flags event_flags : keeps.

Lemma run_cb_flags h cb : keeps flags (run_cb h cb).
Proof. unfold run_cb. flags. Qed.
Hint Resolve run_cb_flags : keeps.

Lemma wait_signal_flags p evs : keeps flags (wait_signal p evs).
Proof. induction evs as [|[h cb] evs IH]; simpl; flags. Qed.
Hint Resolve wait_signal_flags : keeps.

Lemma abort_flags p : keeps flags (mm_jpeg_session_abort p).
Proof. unfold mm_jpeg_session_abort, mm_jpeg_destroy_job, with_exif, cond_wait, ucomp, comp, comp_handle, deliver. flags. Qed.

Lemma remove_queues_flags id : keeps flags (remove_from_queues id).
Proof. unfold remove_from_queues, todo_q, put_todo_q, ongoing_q, put_ongoing_q, the_obj. flags. Qed.

(** Session [p] is not in use. *)
Definition idle (p : sptr) (w : jworld) : Prop := forall o s, j_obj w = Some o -> session_of o p = Some s -> active s = false.

Lemma idle_flags p w w' : flags w' = flags w -> idle p w -> idle p w'.
Proof.
  intros E Hi o' s' Ho' Hs'. unfold flags in E. rewrite Ho' in E. simpl in E. destruct (j_obj w) as [o|] eqn:Ho; [|done]. simpl in E. injection E as E.
  unfold session_of in Hs'. destruct (clnt_mgr o' !! p.1) as [c'|] eqn:Ec'; [|done]. simpl in Hs'.
  apply (f_equal (lookup p.1)) in E. rewrite !list_lookup_fmap, Ec' in E. simpl in E. destruct (clnt_mgr o !! p.1) as [c|] eqn:Ec; [|done]. simpl in E. injection E as E.
  apply (f_equal (lookup p.2)) in E. rewrite !list_lookup_fmap, Hs' in E. simpl in E. destruct (session c !! p.2) as [s|] eqn:Es; [|done]. simpl in E. injection E as ->.
  apply (Hi o s Ho). unfold session_of. by rewrite Ec.
Qed.

(** ** Zeroed clients *)

Lemma zero_session_shape : sess_shape zero_session.
Proof.
  assert (Hb : bufs_ok (replicate MM_JPEG_MAX_BUF {| buf_vaddr := 0; fd := 0; buf_size := 0; offset := zero_frame |}))
    by (split; [done|]; apply Forall_replicate; simpl; lia).
  split; try done; [by apply Forall_replicate|by right].
Qed.

(** A client whose sessions are not in use is zeroed. *)
Lemma zero_client_ok ns w c : jinv ns w -> (forall i, idle (c, i) w) -> exists w',
  upd_obj (fun o => put_clnt_mgr (<[c := zero_client]> (clnt_mgr o)) o) w = Some (tt, w') /\ jinv ns w'.
Proof.
  intros (o & todo & og & H) Hidle. pose proof (js_obj _ _ _ _ _ _ _ H) as Ho. rewrite (upd_obj_run w o _ Ho). eexists. split; [reflexivity|].
  set (o' := put_clnt_mgr _ o). exists o', todo, og.
  assert (Hse : forall q s, session_of o' q = Some s -> (q.1 = c /\ s = zero_session) \/ (q.1 <> c /\ session_of o q = Some s)).
  { intros q s. unfold session_of. simpl. destruct (decide (q.1 = c)) as [<-|Hne]; [|rewrite list_lookup_insert_ne by congruence; by right].
    destruct (decide (q.1 < length (clnt_mgr o))%nat) as [Hlt|Hge]; [|rewrite list_insert_ge by lia; rewrite (lookup_ge_None_2 (clnt_mgr o)) by lia; done].
    rewrite list_lookup_insert_eq by done. cbn [mbind option_bind zero_client session]. intros Hr. by apply lookup_replicate in Hr as [-> _]; left. }
  assert (Hse2 : forall q s, q.1 <> c -> session_of o q = Some s -> session_of o' q = Some s).
  { intros q s Hne. unfold session_of. simpl. by rewrite list_lookup_insert_ne by congruence. }
  destruct H. split; try done.
  - destruct js_table as [T1 T2]. split; simpl; [by rewrite length_insert|]. apply Forall_insert; [done|]. done.
  - eapply Forall_impl; [exact js_jobs|]. intros n (q & sq & Hq & Hs & Ha & Hrest). exists q, sq. split; [done|]. split; [|done].
    apply Hse2; [|done]. intros E. subst. destruct q as [qc qi]. simpl in *. specialize (Hidle qi o sq Ho Hs). congruence.
  - intros q sq Hq. destruct (Hse q sq Hq) as [[_ ->]|[_ Hq']]; [|by apply js_sess]. split; [apply zero_session_shape|done].
Qed.

(** ** What a quiet component leaves alone *)

(** The queues and the semaphore. *)
Definition queues (w : jworld) : option (mm_jpeg_job_cmd_thread_t * option (list mm_jpeg_job_q_node_t)) :=
  (fun o => (job_mgr o, ongoing_job_q o)) <$> j_obj w.

Lemma upd_sess_queues p f : keeps queues (upd_sess p f).
Proof.
  intros w r w'. unfold upd_sess, sess, upd_obj, the_obj. unM. destruct (j_obj w) as [o|] eqn:Ho; [|done].
  destruct (session_of o p) as [s|] eqn:Hs; [|done]. rewrite Ho. intros [= _ <-]. unfold queues. simpl. by rewrite Ho.
Qed.

Lemma sess_queues p : keeps queues (sess p).
Proof. unfold sess, the_obj. keeps_solve. Qed.

Lemma note_queues e : keeps queues (jnote e).
Proof. by intros w r w' [= _ <-]. Qed.
Hint Resolve upd_sess_queues sess_queues note_queues : keeps.

Lemma complete_event_queues cbs p e : e = OMX_EventCmdComplete \/ e = OMX_EventPortSettingsChanged -> keeps queues (event_handler_of cbs p e).
Proof. intros [-> | ->]; destruct cbs; simpl; unfold mm_jpeg_event_handler, mm_jpegdec_event_handler; keeps_solve. Qed.

Lemma complete_queues h e : e = OMX_EventCmdComplete \/ e = OMX_EventPortSettingsChanged -> keeps queues (run_cb h (EventHandler e)).
Proof. intros He. unfold run_cb. keeps_solve. by apply complete_event_queues. Qed.

(** A component raises an event only for someone who waits, and no error. *)
Definition quiet_components : Prop :=
  (forall tr, env_deliver tr = []) /\
  (forall tr h, exists e, (e = OMX_EventCmdComplete \/ e = OMX_EventPortSettingsChanged) /\ env_wait tr h = [(h, EventHandler e)]).

Lemma quiet_abort_queues p : quiet_components -> keeps queues (mm_jpeg_session_abort p).
Proof.
  intros [Hd Hw]. unfold mm_jpeg_session_abort, mm_jpeg_destroy_job, with_exif, cond_wait, ucomp, comp, comp_handle, deliver.
  assert (Hf : forall tr, keeps queues (for_each (env_deliver tr) (fun '(h, cb) => run_cb h cb;; mret tt))) by (intros tr; rewrite Hd; apply keeps_ret).
  assert (Hws : forall tr h, keeps queues (wait_signal p (env_wait tr h))).
  { intros tr h. destruct (Hw tr h) as (e & He & ->). simpl. apply keeps_bind; [by apply complete_queues|]. intros r. destruct (bool_decide _); [apply keeps_ret|apply keeps_stuck]. }
  repeat first [match goal with |- forall _, _ => intros ? end | apply Hf | apply Hws | progress keeps_solve].
Qed.

Lemma quiet_change_queues p st fx : quiet_components -> (forall f, fx = Some f -> keeps queues (f p)) -> keeps queues (mm_jpeg_session_change_state p st fx).
Proof.
  intros [Hd Hw] Hf. unfold mm_jpeg_session_change_state, OMX_GetState, cond_wait, comp, comp_handle.
  assert (Hws : forall tr h, keeps queues (wait_signal p (env_wait tr h))).
  { intros tr h. destruct (Hw tr h) as (e & He & ->). simpl. apply keeps_bind; [by apply complete_queues|]. intros r. destruct (bool_decide _); [apply keeps_ret|apply keeps_stuck]. }
  assert (Hfx : keeps queues (match fx with Some f => f p | None => mret OMX_ErrorNone end)) by (destruct fx; [by apply Hf|apply keeps_ret]).
  repeat first [match goal with |- forall _, _ => intros ? end | apply Hws | apply Hfx | progress keeps_solve].
Qed.

(** A job is with a component: the job manager takes no other, and does not
    end. *)
Definition busy (w : jworld) : Prop := exists o n l, j_obj w = Some o /\ ongoing_job_q o = Some (n :: l).

Lemma turn_busy w : busy w -> jobmgr_turn w = Some (true, w).
Proof. intros (o & n & l & Ho & Hq). unfold jobmgr_turn, ongoing_q, the_obj. unM. by rewrite Ho, Hq. Qed.

Lemma thread_busy : (forall tr, env_sem_wait tr = []) -> forall turns w, busy w -> mm_jpeg_jobmgr_thread turns w = None.
Proof.
  intros Hn turns. induction turns as [|turns IH]; intros w Hb; [done|]. cbn [mm_jpeg_jobmgr_thread].
  pose proof Hb as (o & n & l & Ho & Hq). destruct (decide (job_sem (job_mgr o) = 0)) as [Hz|Hz].
  - assert (E : sem_wait w = None) by (unfold sem_wait; unM; rewrite Hn; simpl; unfold the_obj; unM; by rewrite Ho, Hz). unfold mbind, M_bind. by rewrite E.
  - rewrite (bind_run _ _ _ _ _ (sem_wait_run w o Ho Hz)). set (w1 := put_j_obj _ w).
    assert (Hb1 : busy w1) by (by eexists _, n, l). rewrite (bind_run _ _ _ _ _ (turn_busy w1 Hb1)). by apply IH.
Qed.

(** ** A library that was just opened *)

(** Nothing was opened yet. *)
Record closed_world (w : jworld) : Prop := {
  cw_obj : j_obj w = None;
  cw_count : 0 <= g_handler_history_count w < 2 ^ 16;
  cw_core : g_omxcore (j_omx w) = None;
  cw_libs : forall n, lib_count (lib_of n) (o_tr (j_omx w)) = 0;
  cw_alive : alive (o_tr (j_omx w)) = [];
  cw_app : forall h, app_data h (o_tr (j_omx w)) = None
}.

Lemma core_opened w : closed_world w -> env_omalloc (o_tr (j_omx w)) = true -> exists core x', OMX_Init (j_omx w) = Some (OMX_ErrorNone, x') /\
  core_inv lib_of x' core /\ forall h, app_data h (o_tr x') = None.
Proof.
  intros [_ _ Hc Hl Ha Hp] Hm. destruct (core_init_inv lib_of (o_tr (j_omx w)) Hm Hl Ha) as (core & E & H & _). exists core. eexists. split; [|split; [exact H|apply Hp]].
  rewrite <- E. f_equal. destruct (j_omx w). simpl in *. by subst.
Qed.

(** The object after the initialisation. *)
Definition fresh_obj (b : buffer_t) : mm_jpeg_obj :=
  {| num_clients := 0; clnt_mgr := replicate MAX_JPEG_CLIENT_NUM zero_client; job_mgr := {| pid := true; job_sem := 0; job_queue := Some [] |};
     ongoing_job_q := Some []; ionBuffer := b |}.

(** The object with its first client. *)
Lemma fresh_inv w b hdl cnt tr x' core : core_inv lib_of x' core -> (forall h, app_data h (o_tr x') = None) ->
  let o := fresh_obj b in
  jinv true (put_j_obj (Some (put_num_clients 1 (put_clnt_mgr (<[0%nat := {| is_used := 1; clnt_handle := hdl;
    session := replicate MM_JPEG_MAX_SESSION zero_session |}]> (clnt_mgr o)) o))) (put_g_handler_history_count cnt (put_j_omx x' (put_j_tr tr w)))).
Proof.
  intros Hcore Happ o. set (o1 := put_num_clients _ _). exists o1, [], []. split; try done; [by split; [|repeat constructor]|simpl; lia| |by exists core|intros h z; simpl; by rewrite Happ|].
  - intros p s Hs. assert (s = zero_session) as ->; [|split; [apply zero_session_shape|done]].
    unfold session_of in Hs. destruct (clnt_mgr o1 !! p.1) as [c|] eqn:Ec; [|done]. simpl in Hs.
    assert (Hse : session c = replicate MM_JPEG_MAX_SESSION zero_session).
    { revert Ec. unfold o1. cbn [clnt_mgr put_num_clients put_clnt_mgr]. destruct (decide (p.1 = 0%nat)) as [->|Hne]; [by intros [= <-]|].
      rewrite list_lookup_insert_ne by congruence. intros Hr. by apply (lookup_replicate 8) in Hr as [-> _]. }
    rewrite Hse in Hs. by apply lookup_replicate in Hs as [-> _].
  - intros Hl. simpl. split; [lia|done].
Qed.

Lemma first_client_run w b tr x' core : 0 <= g_handler_history_count w < 2 ^ 16 -> core_inv lib_of x' core -> (forall h, app_data h (o_tr x') = None) ->
  exists hdl w', mm_jpeg_new_client (put_j_omx x' (put_j_tr tr (put_j_obj (Some (fresh_obj b)) w))) = Some (hdl, w') /\ 0 < hdl /\ jinv true w'.
Proof.
  intros Hcnt Hcore Happ.
  set (c := if u16 (g_handler_history_count w + 1) =? 0 then u16 (u16 (g_handler_history_count w + 1) + 1) else u16 (g_handler_history_count w + 1)).
  assert (Hc : 0 < c). { unfold c, u16. pose proof (Z.mod_pos_bound (g_handler_history_count w + 1) (2 ^ 16)).
    destruct (Z.eqb_spec ((g_handler_history_count w + 1) mod 2 ^ 16) 0) as [->|]; [by vm_compute|lia]. }
  assert (Hpos : 0 < Z.lor (Z.shiftl c 8) 0) by (rewrite Z.lor_0_r, Z.shiftl_mul_pow2 by lia; lia).
  do 2 eexists. split; [reflexivity|]. split; [exact Hpos|]. exact (fresh_inv w b (Z.lor (Z.shiftl c 8) 0) c tr x' core Hcore Happ).
Qed.

End Ops.

(** ** Sequences of operations *)

Section Runs.
Context `{FL : Floats} {A : Type} (run : A -> M jworld unit).

Fixpoint run_all (l : list A) : M jworld unit :=
  match l with [] => mret tt | a :: l => run a;; run_all l end.

(** Along the run of a sequence, [P] holds of each operation and the state it
    starts in. *)
Fixpoint along (P : A -> jworld -> Prop) (l : list A) (w : jworld) : Prop :=
  match l with
  | [] => True
  | a :: l => P a w /\ forall w', run a w = Some (tt, w') -> along P l w'
  end.

Lemma run_all_ok (I : jworld -> Prop) P : (forall a w, I w -> P a w -> exists w', run a w = Some (tt, w') /\ I w') ->
  forall l w, I w -> along P l w -> exists w', run_all l w = Some (tt, w') /\ I w'.
Proof.
  intros H l. induction l as [|a l IH]; intros w Hi; [by exists w|]. simpl. intros [Hp Hl]. destruct (H a w Hi Hp) as (w1 & E & Hi1).
  rewrite (bind_run _ _ _ _ _ E). auto.
Qed.

Lemma along_and P Q l : forall w, along P l w -> along Q l w -> along (fun a w => P a w /\ Q a w) l w.
Proof. induction l as [|a l IH]; intros w; [done|]. simpl. intros [H1 H2] [H3 H4]. auto. Qed.

Lemma along_mono P Q l : (forall a w, P a w -> Q a w) -> forall w, along P l w -> along Q l w.
Proof. intros H. induction l as [|a l IH]; intros w; [done|]. simpl. intros [H1 H2]. auto. Qed.

Lemma along_true P l : (forall a w, P a w) -> forall w, along P l w.
Proof. intros H. induction l as [|a l IH]; intros w; [done|]. simpl. auto. Qed.

(** The same as a check. *)
Fixpoint alongb (P : A -> jworld -> bool) (l : list A) (w : jworld) : bool :=
  match l with
  | [] => true
  | a :: l => P a w && match run a w with Some (_, w') => alongb P l w' | None => true end
  end.

Lemma alongb_ok P Q l : (forall a w, P a w = true -> Q a w) -> forall w, alongb P l w = true -> along Q l w.
Proof.
  intros HP. induction l as [|a l IH]; intros w; [done|]. simpl. rewrite andb_true_iff. intros [H1 H2]. split; [by apply HP|]. intros w' E. rewrite E in H2. auto.
Qed.

End Runs.
