(* ===== verification/JpegProps.v ===== *)
(** * Theorems about the JPEG encoder

    Sequences of client calls, callbacks and turns of the job manager. *)

From Stdlib Require Import ZArith Lia.
From stdpp Require Import numbers list gmap strings.
From S2P Require Import Prelude CamTypes JpegQueue QomxCore QomxProps JpegExif.
From S2P Require Import JpegData JpegBase Jpeg JpegDec JpegMgr JpegIds JpegInv JpegTotal JpegOps.

#[local] Instance encoder : Codec := EncoderCallbacks.

Section Ops.
Context `{FL : Floats} `{OE : OmxEnv} `{JE : JpegEnv} (lib_of : string -> Z) (Hlib : libraries_ok lib_of).
Context (Herr : OMX_ErrorInvalidComponent <> OMX_ErrorNone) (Hans : components_answer).

Abbreviation jstate := (jstate lib_of None).
Abbreviation jinv := (jinv lib_of None).

(** ** Starting a job *)

(** The client uses an identifier it was given, and the index of its
    thumbnail is in the table; the other indices are checked. *)
Definition good_job (job : mm_jpeg_encode_job_t) : Prop :=
  (exists p, in_table p /\ session_id job = sid p) /\ 0 <= src_index job /\ 0 <= dst_index job /\ 0 <= thumb_index job < 24.

Lemma start_ok ns w job : jinv ns w -> good_job job -> exists r w', mm_jpeg_start_job job w = Some (r, w') /\ jinv ns w'.
Proof.
  intros (o & todo & og & H) ((p & Hp & Hid) & Hsrc & Hdst & Hth). unfold mm_jpeg_start_job. rewrite Hid. pose proof (sid_session p Hp) as Hg.
  unfold mm_jpeg_get_session in Hg. destruct (_ || _); [done|]. injection Hg as Ep. cbv zeta. rewrite Ep. clear Ep.
  destruct (session_in_table o p (js_table _ _ _ _ _ _ _ H) Hp) as [s Hs]. rewrite (bind_run _ _ _ _ _ (sess_run w o p s (js_obj _ _ _ _ _ _ _ H) Hs)).
  destruct (js_sess _ _ _ _ _ _ _ H p s Hs) as [Hsh _]. assert (Hsame : exists r w', Some ((-1, 0), w) = Some (r, w') /\ jinv ns w')
    by (do 2 eexists; split; [done|]; by exists o, todo, og).
  destruct (active s) eqn:Ha; [|exact Hsame]. cbn [negb]. destruct (_ || _) eqn:Eidx; [exact Hsame|]. apply orb_false_iff in Eidx as [E1%Z.leb_gt E2%Z.leb_gt].
  apply (start_gen lib_of ns w o todo og p s); [done|done|done|by apply job_id_session|done|]. destruct (ss_params _ Hsh). split; [done|]. unfold job_fits. simpl. lia.
Qed.

(** ** Destroying a session *)

Lemma session_destroy_ok ns p : triple (J lib_of (Some p) ns p) (mm_jpeg_session_destroy p) (fun _ => gone lib_of ns p).
Proof.
  intros w HJ. unfold mm_jpeg_session_destroy. pose proof HJ as [(o & todo & og & H) (o' & s & Ho & Hs & Ha)].
  rewrite (bind_run _ _ _ _ _ (sess_run w o' p s Ho Hs)). rewrite (js_obj _ _ _ _ _ _ _ H) in Ho. injection Ho as <-.
  destruct (js_sess _ _ _ _ _ _ _ H p s Hs) as [_ Hl]. destruct (Hl Ha) as (_ & _ & h & -> & _).
  match goal with |- exists x w', ?m w = _ /\ _ => enough (T : triple (J lib_of (Some p) ns p) m (fun _ => gone lib_of ns p)) by exact (T w HJ) end.
  unfold OMX_GetState. apply triple_seq; [jt|]. intros [rc st]. apply triple_seq.
  { destruct (_ || _); [|jt]. apply triple_seq; [by apply (change_state_J lib_of (Some p) Hans)|jt]. }
  intros _. apply triple_seq; [jt|]. intros [rc2 st2]. apply triple_seq; [|intros _; by apply free_component_ok].
  case_bool_decide; [|jt]. apply triple_seq; [apply (change_state_J lib_of (Some p) Hans); intros f [= <-]; apply free_buffers_J|jt].
Qed.

Lemma destroy_ok ns w p : jinv ns w -> act p w -> exists w', mm_jpeg_destroy_session_by_id (sid p) w = Some (0, w') /\ jinv true w'.
Proof.
  intros Hi Ha. destruct (destroy_gen lib_of Hlib Hans ns w p _ (or_introl eq_refl) (session_destroy_ok false p) Hi Ha) as (s & w' & Es & Hid & Hg & E & H').
  exists w'. split; [|done]. unfold mm_jpeg_destroy_session_by_id, mm_jpeg_destroy_session. rewrite Hg, (bind_run _ _ _ _ _ Es). cbv zeta. by rewrite Hid.
Qed.

(** ** Creating a session *)

(** Tables of the right size, and a number of thumbnails that fits; the other
    numbers are checked. *)
Definition good_params (ps : mm_jpeg_encode_params_t) : Prop :=
  0 <= num_src_bufs ps /\ 0 <= num_tmb_bufs ps <= 24 /\ 0 <= num_dst_bufs ps /\
  bufs_ok (src_main_buf ps) /\ bufs_ok (src_thumb_buf ps) /\ bufs_ok (dest_buf ps).

Lemma handed_out_shape id hdl ps s : good_params ps -> num_src_bufs ps <= 24 -> num_dst_bufs ps <= 24 -> sess_shape s ->
  sess_shape (put_jpeg_obj true (put_sessionId id (put_client_hdl hdl (put_params ps s)))).
Proof. intros (? & ? & ? & ? & ? & ?) ? ? []. split; try done. by left. Qed.

Lemma create_ok ns w hdl ps : jinv ns w -> good_params ps -> exists r w', mm_jpeg_create_session hdl ps w = Some (r, w') /\ jinv ns w' /\
  (r.2 = 0 \/ exists p, r.2 = sid p /\ act p w').
Proof.
  intros (o & todo & og & H) Hps.
  assert (Hsame : exists r w', Some ((0, 0), w) = Some (r, w') /\ jinv ns w' /\ (r.2 = 0 \/ exists p, r.2 = sid p /\ act p w'))
    by (do 2 eexists; split; [done|]; split; [by exists o, todo, og|by left]).
  unfold mm_jpeg_create_session. destruct (_ || _) eqn:En; [exact Hsame|]. apply orb_false_iff in En as [N1%Z.ltb_ge N2%Z.ltb_ge]. unfold MM_JPEG_MAX_BUF in N1, N2.
  cbv zeta. set (ci := mm_jpeg_util_get_index_by_handler hdl). destruct (Z.leb_spec (Z.of_nat MAX_JPEG_CLIENT_NUM) ci) as [|Hci2]; [exact Hsame|].
  assert (Hci : 0 <= ci) by (apply Z.land_nonneg; lia). unfold MAX_JPEG_CLIENT_NUM in Hci2.
  destruct (new_idx_run lib_of ns w o todo og (Z.to_nat ci) H) as (r & w1 & E1 & Hr); [lia|]. rewrite (bind_run _ _ _ _ _ E1). destruct r as [p|]; [|subst; exact Hsame].
  destruct Hr as (s & Hs & Ha & Hp1 & ->). rewrite (bind_run _ _ _ (with_session p (put_active true s) o) (mkw w o p (j_omx w) (put_active true s))) by done.
  rewrite (bind_run _ _ _ _ _ (upd_mkw w o p _ s _ _ Hs)). change (ionBuffer (with_session p (put_active true s) o)) with (ionBuffer o).
  set (s1 := put_work_buffer (ionBuffer o) (put_active true s)). destruct (js_sess _ _ _ _ _ _ _ H p s Hs) as [Hsh _].
  set (prep := fun s => put_exif_count_local 0 (put_config false (put_fbd_count 0 (put_ebd_count 0
    (put_error_flag OMX_ErrorNone (put_abort_state MM_JPEG_ABORT_NONE (put_state_change_pending false s))))))).
  destruct (session_create_gen lib_of Hlib ns w o todo og p s s1 prep "OMX.qcom.image.jpeg.encoder" H Hs) as (rc & h & x' & E2 & Hgot).
  change (mm_jpeg_session_create p (mkw w o p (j_omx w) s1) = Some (rc, mkw w o p x' (put_omx_handle h (prep s1)))) in E2. rewrite (bind_run _ _ _ _ _ E2). assert (Hsh2 : sess_shape (put_omx_handle h (prep s1))) by (destruct Hsh; by split).
  assert (Eid : new_session_id (Z.of_nat p.2) ci = sid p) by (unfold sid; do 2 f_equal; lia). rewrite Eid.
  set (fin := fun s => put_jpeg_obj true (put_sessionId (sid p) (put_client_hdl hdl (put_params ps s)))).
  apply (create_finish lib_of ns w o todo og p s (put_omx_handle h (prep s1)) rc h x' fin Herr H Hs Ha Hgot Hsh2 eq_refl eq_refl).
  split; [|done]. by apply handed_out_shape.
Qed.

(** ** Closing a client *)

Lemma destroy_unlocked_ok w p : jinv false w -> act p w -> exists w', mm_jpeg_destroy_session_unlocked p w = Some (-1, w') /\ jinv false w' /\ idle p w' /\
  forall q, idle q w -> idle q w'.
Proof.
  intros Hi Ha. pose proof Hi as (o & todo & og & H). pose proof Ha as (o' & s & Ho & Hs & Hac). pose proof Ho as Ho2. rewrite (js_obj _ _ _ _ _ _ _ H) in Ho2. injection Ho2 as <-.
  destruct (js_sess _ _ _ _ _ _ _ H p s Hs) as [_ Hl]. destruct (Hl Hac) as (_ & Hid & _). pose proof (in_table_session o p s (js_table _ _ _ _ _ _ _ H) Hs) as Hp.
  unfold mm_jpeg_destroy_session_unlocked. rewrite (bind_run _ _ _ _ _ (sess_run w o p s Ho Hs)). cbv zeta. rewrite Hid.
  destruct (remove_queues_ok lib_of Hlib Hans false w p (or_introl eq_refl) Hi Ha) as (w1 & E1 & HJ1). rewrite (bind_run _ _ _ _ _ E1).
  destruct (session_abort_J lib_of (Some p) Hans false p w1 HJ1) as (r & w2 & E2 & HJ2). rewrite (bind_run _ _ _ _ _ E2).
  pose proof HJ2 as [(o2 & t2 & g2 & H2) (o2' & s2 & Ho2 & Hs2 & Ha2)]. rewrite (js_obj _ _ _ _ _ _ _ H2) in Ho2. injection Ho2 as <-.
  unfold mm_jpeg_remove_session_idx. rewrite (sid_indices p Hp), (bind_run _ _ _ _ _ (upd_sess_run w2 o2 p s2 _ (js_obj _ _ _ _ _ _ _ H2) Hs2)).
  eexists. split; [reflexivity|]. set (w3 := put_j_obj _ w2). assert (Hs3 : forall q, session_of (with_session p (put_active false s2) o2) q = if decide (p = q) then Some (put_active false s2) else session_of o2 q)
    by (intros q; apply (session_of_with _ _ _ _ _ Hs2)). split; [|split].
  - exists (with_session p (put_active false s2) o2), t2, g2. replace w3 with (put_j_omx (j_omx w2) w3) by (by destruct w2).
    apply (jstate_swap lib_of (Some p) false w2 o2 t2 g2 p s2); [done|done|by right| |apply H2| |apply H2].
    + split; [|done]. destruct (js_sess _ _ _ _ _ _ _ H2 p s2 Hs2) as [[] _]. by split.
    + done.
  - intros o3 s3 [= <-]. rewrite Hs3. case_decide; [by intros [= <-]|done].
  - intros q Hq o3 s3 [= <-]. rewrite Hs3. case_decide; [by intros [= <-]|]. intros Hq3.
    refine (idle_flags q w w2 _ Hq o2 s3 (js_obj _ _ _ _ _ _ _ H2) Hq3). rewrite (abort_flags p _ _ _ E2). apply (remove_queues_flags (sid p) _ _ _ E1).
Qed.
Lemma close_ok w hdl : jinv false w -> exists rc w', mm_jpeg_close hdl w = Some (rc, w') /\ jinv false w'.
Proof.
  intros Hi. unfold mm_jpeg_close. cbv zeta. set (ci := mm_jpeg_util_get_index_by_handler hdl).
  destruct (Z.leb_spec (Z.of_nat MAX_JPEG_CLIENT_NUM) ci) as [|Hci]; [by exists (-1), w|]. set (c := Z.to_nat ci).
  assert (Hc : (c < 8)%nat) by (unfold c, MAX_JPEG_CLIENT_NUM in *; pose proof (Z.land_nonneg hdl 255); unfold ci in *; lia).
  assert (Hloop : forall m k w, (k + m = 10)%nat -> jinv false w -> (forall i, (i < k)%nat -> idle (c, i) w) -> exists w',
    for_each (seq k m) (fun i => s ← sess (c, i); if active s then mm_jpeg_destroy_session_unlocked (c, i);; mret tt else mret tt) w = Some (tt, w') /\
    jinv false w' /\ forall i, (i < 10)%nat -> idle (c, i) w').
  { clear w Hi. induction m as [|m IH]; intros k w Hk Hi Hidle; [exists w; split; [done|]; split; [done|]; intros; apply Hidle; lia|].
    pose proof Hi as (o & todo & og & H). destruct (session_in_table o (c, k) (js_table _ _ _ _ _ _ _ H)) as [s Hs]; [split; simpl; lia|].
    pose proof (js_obj _ _ _ _ _ _ _ H) as Ho. cbn [seq for_each].
    assert (Hstep : exists w1, (s ← sess (c, k); if active s then mm_jpeg_destroy_session_unlocked (c, k);; mret tt else mret tt) w = Some (tt, w1) /\
      jinv false w1 /\ idle (c, k) w1 /\ forall q, idle q w -> idle q w1).
    { rewrite (bind_run _ _ _ _ _ (sess_run w o (c, k) s Ho Hs)). destruct (active s) eqn:Ha.
      - destruct (destroy_unlocked_ok w (c, k) Hi) as (w1 & E & H1 & H2 & H3); [by exists o, s|]. exists w1. by rewrite (bind_run _ _ _ _ _ E).
      - exists w. split; [done|]. split; [done|]. split; [|done]. intros o' s' Ho' Hs'. congruence. }
    destruct Hstep as (w1 & E1 & Hi1 & Hk1 & Hq1). rewrite (bind_run _ _ _ _ _ E1). apply IH; [lia|done|]. intros i Hlt.
    destruct (decide (i = k)) as [->|]; [done|]. apply Hq1, Hidle. lia. }
  destruct (Hloop 10%nat 0%nat w) as (w1 & E1 & Hi1 & Hidle); [done|done|lia|]. rewrite (bind_run _ _ _ _ _ E1).
  destruct (zero_client_ok lib_of false w1 c Hi1) as (w2 & E2 & Hi2).
  { intros i. destruct (decide (i < 10)%nat); [by apply Hidle|]. intros o s Ho Hs. destruct Hi1 as (o1 & t1 & g1 & H1).
    rewrite (js_obj _ _ _ _ _ _ _ H1) in Ho. injection Ho as <-. destruct (in_table_session o1 (c, i) s (js_table _ _ _ _ _ _ _ H1) Hs). simpl in *. lia. }
  exists 0, w2. by rewrite (bind_run _ _ _ _ _ E2).
Qed.

(** ** Sequences of calls, callbacks and turns *)

Inductive jact :=
| A_create (client_hdl : Z) (ps : mm_jpeg_encode_params_t)
| A_start (job : mm_jpeg_encode_job_t)
| A_abort (id : Z)
| A_destroy (id : Z)
| A_close (client_hdl : Z)
| A_turn
| A_callback (h : Z) (cb : omx_cb).

Definition run_jact (a : jact) : M jworld unit :=
  match a with
  | A_create hdl ps => mm_jpeg_create_session hdl ps;; mret tt
  | A_start job => mm_jpeg_start_job job;; mret tt
  | A_abort id => mm_jpeg_abort_job id;; mret tt
  | A_destroy id => mm_jpeg_destroy_session_by_id id;; mret tt
  | A_close hdl => mm_jpeg_close hdl;; mret tt
  | A_turn => jobmgr_step;; mret tt
  | A_callback h cb => run_cb h cb;; mret tt
  end.

Definition run_jacts : list jact -> M jworld unit := run_all run_jact.
Definition all_along : (jact -> jworld -> Prop) -> list jact -> jworld -> Prop := along run_jact.

(** What a client may do, and when the thread can make a turn. *)
Definition may (a : jact) (w : jworld) : Prop :=
  match a with
  | A_create _ ps => good_params ps
  | A_start job => good_job job
  | A_destroy id => exists p, id = sid p /\ act p w
  | A_turn => exists o, j_obj w = Some o /\ 0 < job_sem (job_mgr o) < 2 ^ 31
  | _ => True
  end.

(** A call that does not take a job away from the component. *)
Definition calm (a : jact) (w : jworld) : Prop :=
  match a with A_abort id => ~ running id w | A_close _ => False | _ => True end.

Lemma act_ok ns w a : jinv ns w -> may a w -> (ns = true -> calm a w) -> exists w', run_jact a w = Some (tt, w') /\ jinv ns w'.
Proof.
  intros Hi Hm Hc. assert (Hrun : forall A (m : M jworld A), (exists r w', m w = Some (r, w') /\ jinv ns w') -> exists w', (m;; mret tt) w = Some (tt, w') /\ jinv ns w').
  { intros A m (r & w' & E & H'). exists w'. by rewrite (bind_run _ _ _ _ _ E). }
  destruct a as [hdl ps|job|id|id|hdl| |h cb]; simpl in *; apply Hrun.
  - destruct (create_ok ns w hdl ps Hi Hm) as (r & w' & E & H' & _). by exists r, w'.
  - by apply start_ok.
  - destruct (abort_ok lib_of Hans ns w id Hi) as (w' & E & H1 & H2). exists (-1), w'. split; [done|]. destruct ns; auto.
  - destruct Hm as (p & -> & Hp). destruct (destroy_ok ns w p Hi Hp) as (w' & E & H'). exists 0, w'. split; [done|]. by apply (jinv_weaken lib_of None true).
  - destruct ns; [by destruct Hc|]. by apply close_ok.
  - destruct Hm as (o & Ho & Hs), Hi as (o1 & todo & og & H). rewrite (js_obj _ _ _ _ _ _ _ H) in Ho. injection Ho as <-.
    destruct (turn_ok lib_of Hans ns w o1 todo og H Hs) as (r & w' & E & _ & H'). by exists r, w'.
  - destruct (run_cb_run lib_of None ns w h cb Hi) as (r & w' & E & H' & _). by exists r, w'.
Qed.

Lemma acts_ok ns l : forall w, jinv ns w -> all_along may l w -> (ns = true -> all_along calm l w) -> exists w', run_jacts l w = Some (tt, w') /\ jinv ns w'.
Proof.
  intros w Hi Hm Hc. apply (run_all_ok run_jact (jinv ns) (fun a w => may a w /\ (ns = true -> calm a w))); [|done|].
  - intros a w0 H0 [Hm0 Hc0]. by apply act_ok.
  - apply along_and; [done|]. destruct ns; [eapply along_mono; [|by apply Hc]; auto|]. by apply along_true.
Qed.

(** ** Opening the library *)

(** There is memory for the object, the core and the work buffer. *)
Record resources (w : jworld) : Prop := {
  rs_obj : env_jmalloc (j_tr w) = true;
  rs_core : env_omalloc (o_tr (j_omx w)) = true;
  rs_open : forall tr, 0 <= env_ion_open tr;
  rs_alloc : forall tr n, 0 <= (env_ion_alloc tr n).1;
  rs_share : forall tr h, 0 <= (env_ion_share tr h).1;
  rs_map : forall tr d, is_Some (env_mmap tr d)
}.

Lemma buffer_allocate_run w o b : (forall tr, 0 <= env_ion_open tr) -> (forall tr n, 0 <= (env_ion_alloc tr n).1) -> (forall tr h, 0 <= (env_ion_share tr h).1) ->
  (forall tr d, is_Some (env_mmap tr d)) -> j_obj w = Some o ->
  exists a tr b', buffer_allocate b w = Some (Some a, put_j_tr tr (put_j_obj (Some (put_ionBuffer b' o)) w)).
Proof.
  intros R1 R2 R3 R4 Ho. unfold buffer_allocate. erewrite bind_run by reflexivity. cbv zeta. rewrite (proj2 (Z.ltb_ge _ _) (R1 _)).
  erewrite bind_run by reflexivity. set (w1 := put_j_tr _ w). set (tr1 := j_tr w1). set (len := Z.land _ _). pose proof (R2 tr1 len) as H2.
  destruct (env_ion_alloc tr1 len) as [l2 hdl]. cbn [fst snd] in *. rewrite (proj2 (Z.ltb_ge _ _) H2). erewrite bind_run by reflexivity.
  set (w2 := put_j_tr _ w1). set (tr2 := j_tr w2). pose proof (R3 tr2 hdl) as H3. destruct (env_ion_share tr2 hdl) as [l3 ifd]. cbn [fst snd] in *.
  rewrite (proj2 (Z.ltb_ge _ _) H3). unfold put_ion. erewrite bind_run; [|apply upd_obj_run; exact Ho]. erewrite bind_run by reflexivity.
  match goal with |- context [env_mmap ?t ?d] => destruct (R4 t d) as [a Ea] end. rewrite Ea. do 3 eexists. reflexivity.
Qed.

Lemma init_run turns w x' : j_obj w = Some zero_obj -> OMX_Init (j_omx w) = Some (OMX_ErrorNone, x') ->
  (forall tr, 0 <= env_ion_open tr) -> (forall tr n, 0 <= (env_ion_alloc tr n).1) -> (forall tr h, 0 <= (env_ion_share tr h).1) ->
  (forall tr d, is_Some (env_mmap tr d)) ->
  exists tr b, mm_jpeg_init turns w = Some (0, put_j_omx x' (put_j_tr tr (put_j_obj (Some (fresh_obj b)) w))).
Proof.
  intros Ho Ex R3 R4 R5 R6. unfold mm_jpeg_init. erewrite bind_run; [|apply upd_obj_run, Ho]. unfold mm_jpeg_jobmgr_thread_launch.
  erewrite bind_run; [|erewrite bind_run; [|apply upd_obj_run; reflexivity]; erewrite bind_run by reflexivity; reflexivity].
  erewrite bind_run by reflexivity. unfold put_ion. erewrite bind_run; [|apply upd_obj_run; reflexivity]. erewrite bind_run by reflexivity.
  match goal with |- context [(buffer_allocate ?b ≫= _) ?w1] => destruct (buffer_allocate_run w1 _ b R3 R4 R5 R6 eq_refl) as (a & tr & b' & Eb) end.
  rewrite (bind_run _ _ _ _ _ Eb). erewrite bind_run; [|apply upd_obj_run; reflexivity]. cbv beta iota.
  erewrite bind_run; [|apply (zoom_run j_omx put_j_omx); exact Ex]. do 2 eexists. reflexivity.
Qed.

Lemma open_ok turns ops w : closed_world lib_of w -> resources w -> exists hdl w', jpeg_open turns ops w = Some ((hdl, ops), w') /\ 0 < hdl /\ jinv true w'.
Proof.
  intros Hw [R1 R2 R3 R4 R5 R6]. destruct (core_opened lib_of w Hw R2) as (core & x' & Ex & Hcore & Happ). destruct Hw as [Ho Hcnt _ _ _ _].
  unfold jpeg_open. rewrite (bind_run _ _ w None w) by (unfold gets; by rewrite Ho).
  set (w0 := put_j_obj (Some zero_obj) (put_j_tr (JMalloc true :: j_tr w) w)).
  destruct (init_run turns w0 x' eq_refl Ex R3 R4 R5 R6) as (tr & b & Ei).
  erewrite bind_run; [|unfold jmalloc; rewrite (bind_run _ _ w true (put_j_tr (JMalloc true :: j_tr w) w)) by (unfold jext; by rewrite R1);
    rewrite (bind_run _ _ _ tt w0) by done; rewrite (bind_run _ _ _ _ _ Ei); reflexivity].
  cbv beta iota. destruct (first_client_run lib_of w0 b tr x' core Hcnt Hcore Happ) as (hdl & w2 & E2 & Hpos & H2). exists hdl, w2.
  by rewrite (bind_run _ _ _ _ _ E2), (proj2 (Z.ltb_lt _ _) Hpos).
Qed.

(** C8: the library opened once, then any sequence of session creations and
    destructions, job starts and aborts, client closings, turns of the job
    manager and callbacks of the components, in any order and with any
    callbacks arriving inside the calls: every call returns, and afterwards
    the tables have their shape, each session in use has a component of its
    own that knows it, every queued job belongs to a session in use and at
    most one is with a component.  This is under conditions.  At the open
    there are memory, buffers and a core ([resources]).  Clients give counts
    and indices inside the tables, start jobs with an identifier of the table
    and destroy only sessions in use, and the job manager makes a turn only
    when its semaphore is raised ([may]).  A library that loads has its
    functions and creates a new instance each time ([libraries_ok]), and a
    component answers whoever waits for it ([components_answer]). *)
Theorem jpeg_invariant turns w l (Hw : closed_world lib_of w) (Hr : resources w)
  (Hl : forall hdl w1, jpeg_open turns true w = Some ((hdl, true), w1) -> all_along may l w1) :
  exists hdl w1 w2, jpeg_open turns true w = Some ((hdl, true), w1) /\ 0 < hdl /\ run_jacts l w1 = Some (tt, w2) /\ jinv false w2.
Proof.
  destruct (open_ok turns true w Hw Hr) as (hdl & w1 & E & Hh & Hi). destruct (acts_ok false l w1) as (w2 & E2 & H2); [by apply (jinv_weaken lib_of None true)|by eapply Hl|done|].
  by exists hdl, w1, w2.
Qed.

(** The job manager has taken the semaphore once and left [q] waiting. *)
Definition taken (q : list mm_jpeg_job_q_node_t) (o : mm_jpeg_obj) : mm_jpeg_obj :=
  put_job_mgr (put_job_queue (Some q) (put_job_sem (job_sem (job_mgr o) - 1) (job_mgr o))) o.

(** A turn while nothing runs serves the job in front. *)
Lemma step_serves_first ns w o n q : jstate ns w o (n :: q) [] -> 0 < job_sem (job_mgr o) < 2 ^ 31 ->
  exists info, n = JobNode info /\ jobmgr_step w = (mm_jpeg_process_encoding_job info;; mret true) (put_j_obj (Some (taken q o)) w).
Proof.
  intros H Hs. pose proof (js_obj _ _ _ _ _ _ _ H) as Ho. pose proof (js_jobs _ _ _ _ _ _ _ H) as Hj. apply Forall_cons in Hj as [(_ & _ & _ & _ & _ & _ & Hn & _) _].
  destruct n as [info|info|]; [|by destruct Hn|done]. exists info. split; [done|].
  unfold jobmgr_step. rewrite (bind_run _ _ _ _ _ (sem_wait_run w o Ho ltac:(lia))).
  unfold jobmgr_turn, ongoing_q, todo_q, the_obj, put_todo_q, upd_obj. unM. rewrite (js_og _ _ _ _ _ _ _ H). simpl. rewrite (js_todo _ _ _ _ _ _ _ H). simpl.
  rewrite i32_id by (unfold i32_range; lia). unfold taken. by destruct o as [? ? [? ? ?] ? ?].
Qed.

(** C9: as long as no running job is aborted and no client closes, a job that
    waits while no job is running finds the semaphore of the job manager
    raised, and the next turn of the manager ends, takes the job that has
    waited longest, and only that one, off the queue and hands it to
    [mm_jpeg_process_encoding_job]; nothing waits for ever while the encoder is
    free.  The conditions are those of the invariant above, and that the
    history is shorter than the semaphore can count. *)
Theorem jpeg_no_stall turns w l (Hw : closed_world lib_of w) (Hr : resources w)
  (Hl : forall hdl w1, jpeg_open turns true w = Some ((hdl, true), w1) -> all_along may l w1 /\ all_along calm l w1) :
  exists hdl w1 w2 o, jpeg_open turns true w = Some ((hdl, true), w1) /\ run_jacts l w1 = Some (tt, w2) /\ j_obj w2 = Some o /\
    (Z.of_nat (length (j_tr w2)) < 2 ^ 31 -> ongoing_job_q o = Some [] -> forall n q, job_queue (job_mgr o) = Some (n :: q) ->
     0 < job_sem (job_mgr o) /\ exists info rc w3, n = JobNode info /\ jobmgr_step w2 = Some (true, w3) /\ jinv true w3 /\
       mm_jpeg_process_encoding_job info (put_j_obj (Some (taken q o)) w2) = Some (rc, w3)).
Proof.
  destruct (open_ok turns true w Hw Hr) as (hdl & w1 & E & Hh & Hi). destruct (acts_ok true l w1) as (w2 & E2 & (o & todo & og & H)); [done|by eapply Hl|intros _; by eapply Hl|].
  exists hdl, w1, w2, o. split; [done|]. split; [done|]. split; [apply H|]. intros Hlen Hog n q Htodo. rewrite (js_og _ _ _ _ _ _ _ H) in Hog. injection Hog as ->.
  rewrite (js_todo _ _ _ _ _ _ _ H) in Htodo. injection Htodo as ->. destruct (js_sem _ _ _ _ _ _ _ H Hlen) as [Hb Hn].
  assert (Hs : 0 < job_sem (job_mgr o)) by (by apply Hn).
  split; [done|]. destruct (turn_ok lib_of Hans true w2 o (n :: q) [] H) as (r & w3 & E3 & -> & H3); [lia|].
  destruct (step_serves_first true w2 o n q H) as (info & -> & Es); [lia|]. pose proof E3 as E4. rewrite Es in E4. unfold mbind, M_bind in E4.
  destruct (mm_jpeg_process_encoding_job info _) as [[rc w4]|] eqn:Ep; [|done]. injection E4 as ->. by exists info, rc, w3.
Qed.

(** ** An abort does not wake the job manager *)

(** C39: aborting the job that is with the component leaves the encoder free
    and does not raise the semaphore: when other jobs wait and the semaphore
    was used up while the encoder was busy, nobody wakes the job manager for
    them, and they stay in the queue until some later call does. *)
Theorem abort_stalls (Hq : quiet_components) ns w o todo info (Hi : jinv ns w) (Ho : j_obj w = Some o) (Ht : job_queue (job_mgr o) = Some todo)
  (Hog : ongoing_job_q o = Some [JobNode info]) (Hne : Forall (fun n => node_job_id n <> job_id info) todo) (Hsem : job_sem (job_mgr o) = 0) :
  exists w' o', mm_jpeg_abort_job (job_id info) w = Some (-1, w') /\ j_obj w' = Some o' /\ job_queue (job_mgr o') = Some todo /\
    ongoing_job_q o' = Some [] /\ job_sem (job_mgr o') = 0.
Proof.
  destruct (abort_ok lib_of Hans ns w (job_id info) Hi) as (w' & E & (o' & t' & g' & H') & _). exists w', o'. split; [done|]. split; [apply H'|].
  assert (Hqs : queues w' = Some (job_mgr o, Some [])).
  { destruct Hi as (o1 & todo1 & og1 & H). pose proof (js_obj _ _ _ _ _ _ _ H) as Ho1. rewrite Ho in Ho1. injection Ho1 as <-.
    pose proof (js_todo _ _ _ _ _ _ _ H) as Ht1. rewrite Ht in Ht1. injection Ht1 as <-. pose proof (js_og _ _ _ _ _ _ _ H) as Hg1. rewrite Hog in Hg1. injection Hg1 as <-.
    unfold mm_jpeg_abort_job in E. rewrite (bind_run _ _ _ _ _ (todo_run _ _ _ _ _ _ _ H)) in E. unfold mm_jpeg_queue_remove_job_by_job_id in E.
    destruct (remove_first _ todo) as [[n|] q] eqn:Er.
    { destruct (remove_first_some _ _ _ _ Er) as (Hx%Z.eqb_eq & Hin & _). rewrite Forall_forall in Hne. by destruct (Hne n Hin). }
    rewrite (bind_run _ _ _ _ _ (ongoing_run _ _ _ _ _ _ _ H)) in E. cbn [remove_first node_job_id] in E. rewrite Z.eqb_refl in E.
    unfold put_ongoing_q in E. rewrite (bind_run _ _ _ _ _ (upd_obj_run w o _ Ho)) in E. set (w1 := put_j_obj _ w) in E.
    assert (K : keeps queues (match mm_jpeg_get_session (node_job_id (JobNode info)) with Some p => mm_jpeg_session_abort p;; mret tt | None => mret tt end)).
    { destruct (mm_jpeg_get_session _) as [p|]; [|apply keeps_ret]. apply keeps_bind; [by apply quiet_abort_queues|]. intros r. apply keeps_ret. }
    revert E. unfold mbind at 1, M_bind at 1. destruct (match mm_jpeg_get_session (node_job_id (JobNode info)) with _ => _ end w1) as [[[] w2]|] eqn:E2; [|done].
    intros [= <-]. by rewrite (K _ _ _ E2). }
  unfold queues in Hqs. rewrite (js_obj _ _ _ _ _ _ _ H') in Hqs. injection Hqs as E1 E2. by rewrite E1, E2.
Qed.

End Ops.
