(* ===== verification/JpegDemo.v ===== *)
(** * The JPEG library at work

    A phone with an encoder that completes every command, on which the
    theorems are tried, and runs that end badly. *)

From Stdlib Require Import ZArith Lia.
From stdpp Require Import countable numbers list gmap strings.
From S2P Require Import Prelude CamTypes JpegQueue QomxCore QomxProps JpegExif.
From S2P Require Import JpegData JpegBase Jpeg JpegDec JpegMgr JpegIds JpegInv JpegTotal JpegOps JpegProps.

#[local] Existing Instance encoder.

(** ** Deciding what a client may do *)

Section Check.
Context `{FL : Floats} `{OE : OmxEnv} `{JE : JpegEnv} (lib_of : string -> Z).

Definition bufs_okb (l : list mm_jpeg_buf_t) : bool :=
  (length l =? MM_JPEG_MAX_BUF)%nat && forallb (fun b => (3 <=? length (mp (offset b)))%nat) l.

Lemma bufs_okb_ok l : bufs_okb l = true -> bufs_ok l.
Proof.
  unfold bufs_okb. intros [H1%Nat.eqb_eq H2]%andb_true_iff. split; [done|]. apply Forall_forall. intros b Hb. apply list_elem_of_In in Hb.
  apply Nat.leb_le. by apply (proj1 (forallb_forall _ _) H2).
Qed.

Definition good_paramsb (ps : mm_jpeg_encode_params_t) : bool :=
  (0 <=? num_src_bufs ps) && (0 <=? num_tmb_bufs ps) && (num_tmb_bufs ps <=? 24) && (0 <=? num_dst_bufs ps) &&
  bufs_okb (src_main_buf ps) && bufs_okb (src_thumb_buf ps) && bufs_okb (dest_buf ps).

Definition good_jobb (j : mm_jpeg_encode_job_t) : bool :=
  match mm_jpeg_get_session (session_id j) with Some p => sid p =? session_id j | None => false end &&
  (0 <=? src_index j) && (0 <=? dst_index j) && (0 <=? thumb_index j) && (thumb_index j <? 24).

Definition mayb (a : jact) (w : jworld) : bool :=
  match a with
  | A_create _ ps => good_paramsb ps
  | A_start job => good_jobb job
  | A_destroy id =>
      match mm_jpeg_get_session id, j_obj w with
      | Some p, Some o => (sid p =? id) && match session_of o p with Some s => active s | None => false end
      | _, _ => false
      end
  | A_turn => match j_obj w with Some o => (0 <? job_sem (job_mgr o)) && (job_sem (job_mgr o) <? 2 ^ 31) | None => false end
  | _ => true
  end.

Definition calmb (a : jact) (w : jworld) : bool :=
  match a with
  | A_abort id =>
      match j_obj w with
      | Some o => match ongoing_job_q o with Some og => forallb (fun n => negb (node_job_id n =? id)) og | None => false end
      | None => false
      end
  | A_close _ => false
  | _ => true
  end.

Lemma mayb_ok a w : mayb a w = true -> may a w.
Proof.
  destruct a as [hdl ps|job|id|id|hdl| |h cb]; simpl; try done.
  - unfold good_paramsb, good_params. rewrite !andb_true_iff, !Z.leb_le. intros [[[[[[H1 H2] H3] H4] B1] B2] B3]. auto 10 using bufs_okb_ok.
  - unfold good_jobb, good_job. rewrite !andb_true_iff, !Z.leb_le, Z.ltb_lt. intros [[[[H1 H2] H3] H4] H5]. split; [|lia].
    destruct (mm_jpeg_get_session (session_id job)) as [p|] eqn:Ep; [|done]. apply Z.eqb_eq in H1. exists p. split; [by eapply get_session_in_table|done].
  - destruct (mm_jpeg_get_session id) as [p|]; [|done]. destruct (j_obj w) as [o|] eqn:Ho; [|done]. rewrite andb_true_iff, Z.eqb_eq. intros [H1 H2].
    destruct (session_of o p) as [s|] eqn:Hs; [|done]. exists p. split; [done|]. by exists o, s.
  - destruct (j_obj w) as [o|]; [|done]. rewrite andb_true_iff, !Z.ltb_lt. intros H. by exists o.
Qed.

Lemma calmb_ok a w : calmb a w = true -> calm a w.
Proof.
  destruct a as [hdl ps|job|id|id|hdl| |h cb]; simpl; try done. intros H (o & og & n & Ho & Hog & Hn & Hid). rewrite Ho, Hog in H.
  apply list_elem_of_In in Hn. pose proof (proj1 (forallb_forall _ _) H n Hn) as E. cbv beta in E. rewrite Hid, Z.eqb_refl in E. done.
Qed.

(** The check of a whole run. *)
Definition run_check (P : jact -> jworld -> bool) (turns : nat) (l : list jact) (w : jworld) : bool :=
  match jpeg_open turns true w with Some (_, w1) => alongb run_jact P l w1 | None => true end.

Lemma run_check_ok P Q turns l w : (forall a w, P a w = true -> Q a w) -> run_check P turns l w = true ->
  forall hdl w1, jpeg_open turns true w = Some ((hdl, true), w1) -> all_along Q l w1.
Proof. unfold run_check. intros HP H hdl w1 E. rewrite E in H. by eapply (alongb_ok run_jact). Qed.

End Check.

(** ** The phone *)

Module DemoJpeg.

#[local] Instance demo_floats : Floats := {|
  flt := Z; f_of_Z := fun z => z; f_half := 0; f_eqb := Z.eqb; f_ltb := Z.ltb; f_leb := Z.leb; f_add := Z.add; f_sub := Z.sub; f_mul := Z.mul;
  f_div := Z.div; f_log10 := Z.log2; f_trunc := fun z => z |}.

(** The state a component was last sent to. *)
Fixpoint last_state (h : Z) (tr : jhistory) : OMX_STATETYPE :=
  match tr with
  | [] => OMX_StateLoaded
  | JCall h' (CSendCommand (OMX_CommandStateSet st)) _ :: tr => if h =? h' then st else last_state h tr
  | _ :: tr => last_state h tr
  end.

#[local] Instance demo_jpeg : JpegEnv := {|
  OMX_ErrorIncorrectStateTransition := 17; OMX_ErrorHardware := 9; env_comp := fun _ _ _ => 0; env_state := fun tr h => last_state h tr;
  env_port := fun _ _ q => q; env_index := fun _ _ => 7; env_header := fun tr _ _ => 1000 + Z.of_nat (length tr);
  env_deliver := fun _ => []; env_wait := fun _ h => [(h, EventHandler OMX_EventCmdComplete)]; env_sem_wait := fun _ => [];
  env_jmalloc := fun _ => true; env_xmalloc := fun _ => DemoExif.next_fit; env_ion_open := fun _ => 3; env_ion_alloc := fun _ _ => (0, 5);
  env_ion_share := fun _ _ => (0, 4); env_mmap := fun _ _ => Some 4096; env_munmap := fun _ => 0 |}.

#[local] Instance demo_omx1 : OmxEnv := DemoOmx.demo_omx true.

Definition world0 : jworld :=
  {| j_obj := None; g_handler_history_count := 0; j_omx := {| g_omxcore := None; o_tr := [] |}; j_heap := ∅; j_tr := [] |}.

Definition demo_params : mm_jpeg_encode_params_t :=
  {| num_src_bufs := 1; num_tmb_bufs := 1; num_dst_bufs := 1; encode_thumbnail := 1; src_main_buf := src_main_buf zero_params;
     src_thumb_buf := src_thumb_buf zero_params; dest_buf := dest_buf zero_params; color_format := MM_JPEG_COLOR_FORMAT_YCRCBLP_H2V2;
     thumb_color_format := MM_JPEG_COLOR_FORMAT_YCRCBLP_H2V2; quality := 85; jpeg_cb := Some 77; userdata := 0 |}.

Definition demo_dim : mm_jpeg_dim_t :=
  {| src_dim := {| width := 640; height := 480 |}; dst_dim := {| width := 320; height := 240 |};
     crop := {| left := 0; top := 0; r_width := 0; r_height := 0 |} |}.

Definition demo_job (id : Z) : mm_jpeg_encode_job_t :=
  {| src_index := 0; dst_index := 0; thumb_index := 0; thumb_dim := demo_dim; job_rotation := 90; main_dim := demo_dim; session_id := id;
     p_metadata := Some {| is_ae_params_valid := true; m_ae_params := {| exp_time := 2; iso_value := 100 |};
                           is_sensor_params_valid := false; m_sensor_params := {| s_flash_mode := CAM_FLASH_MODE_OFF; aperture_value := 2 |} |};
     exif_entries := 0; cam_exif_params := zero_exif_params |}.

(** The first client, its first session, and the component of that. *)
Definition session1 : Z := Eval vm_compute in sid (0%nat, 0%nat).
Definition job1 : Z := Eval vm_compute in new_job_id session1 0.
Definition job2 : Z := Eval vm_compute in new_job_id session1 1.
Definition client1 : Z := 256.

(** Two jobs, the second one started while the first is with the component. *)
Definition two_jobs : list jact :=
  [A_create client1 demo_params; A_start (demo_job session1); A_start (demo_job session1); A_turn; A_turn;
   A_callback 1 (FillBufferDone 1234 0); A_turn].

Definition state_of (l : list jact) : option (Z * nat * nat * Z * list (Z * jpeg_job_status_t)) :=
  '(_, w) ← (jpeg_open 5 true;; run_jacts l) world0;
  o ← j_obj w;
  todo ← job_queue (job_mgr o);
  og ← ongoing_job_q o;
  Some (num_clients o, length todo, length og, job_sem (job_mgr o),
        omap (fun e => match e with JCallback _ st _ id _ _ => Some (id, st) | _ => None end) (j_tr w)).

(** ** The theorems at work *)

Definition demo_lib (n : string) : Z := Zpos (encode n).

Lemma demo_closed : closed_world demo_lib world0.
Proof. by constructor. Qed.

Lemma demo_resources : resources world0.
Proof. constructor; try done; intros; by eexists. Qed.

Lemma demo_answers : components_answer.
Proof. intros tr h. exists OMX_EventCmdComplete. split; [done|constructor]. Qed.

Lemma demo_quiet : quiet_components.
Proof. split; [done|]. intros tr h. exists OMX_EventCmdComplete. auto. Qed.

Lemma demo_error : OMX_ErrorInvalidComponent <> OMX_ErrorNone.
Proof. done. Qed.

Lemma jpeg_invariant_witness : exists hdl w1 w2, jpeg_open 5 true world0 = Some ((hdl, true), w1) /\ 0 < hdl /\ run_jacts two_jobs w1 = Some (tt, w2) /\
  JpegInv.jinv demo_lib None false w2.
Proof.
  apply (jpeg_invariant demo_lib (DemoOmx.demo_libraries _) demo_error demo_answers 5 world0 two_jobs demo_closed demo_resources).
  apply (run_check_ok mayb); [exact mayb_ok|]. by vm_compute.
Defined.

(** A fact of the world a run ends in, by evaluation. *)
Definition final_check (P : jworld -> bool) (l : list jact) : bool :=
  match jpeg_open 5 true world0 with
  | Some (_, w1) => match run_jacts l w1 with Some (_, w2) => P w2 | None => false end
  | None => false
  end.

Lemma final_check_ok P l hdl w1 w2 : final_check P l = true -> jpeg_open 5 true world0 = Some (hdl, w1) -> run_jacts l w1 = Some (tt, w2) -> P w2 = true.
Proof. unfold final_check. intros H E1 E2. by rewrite E1, E2 in H. Qed.

(** The first job is done, the second one waits. *)
Definition one_done : list jact := take 6 two_jobs.

Definition second_waits (w : jworld) : bool :=
  (Z.of_nat (length (j_tr w)) <? 2 ^ 31) &&
  match j_obj w with
  | Some o => match ongoing_job_q o, job_queue (job_mgr o) with Some [], Some [n] => node_job_id n =? job2 | _, _ => false end
  | None => false
  end.

Lemma jpeg_no_stall_witness : exists hdl w1 w2 o w3 info rc, jpeg_open 5 true world0 = Some ((hdl, true), w1) /\ run_jacts one_done w1 = Some (tt, w2) /\
  j_obj w2 = Some o /\ 0 < job_sem (job_mgr o) /\ job_id info = job2 /\ jobmgr_step w2 = Some (true, w3) /\
  mm_jpeg_process_encoding_job info (put_j_obj (Some (taken [] o)) w2) = Some (rc, w3).
Proof.
  destruct (jpeg_no_stall demo_lib (DemoOmx.demo_libraries _) demo_error demo_answers 5 world0 one_done demo_closed demo_resources) as (hdl & w1 & w2 & o & E1 & E2 & Ho & H).
  { intros hdl w1 E. split; [apply (run_check_ok mayb may 5 _ world0 mayb_ok) with hdl|apply (run_check_ok calmb calm 5 _ world0 calmb_ok) with hdl]; try done; by vm_compute. }
  assert (Hf : second_waits w2 = true) by (apply (final_check_ok second_waits one_done (hdl, true) w1); [by vm_compute|done..]).
  unfold second_waits in Hf. rewrite Ho in Hf. apply andb_true_iff in Hf as [Hl%Z.ltb_lt Hf].
  destruct (ongoing_job_q o) as [[|]|]; [|done..]. destruct (job_queue (job_mgr o)) as [[|n [|]]|]; try done. destruct (H Hl eq_refl n [] eq_refl) as (Hs & info & rc & w3 & -> & E3 & _ & E4).
  exists hdl, w1, w2, o, w3, info, rc. repeat (split; [done|]). by split; [apply Z.eqb_eq|].
Defined.

(** One job with the component, the other one waiting, the semaphore down. *)
Definition one_running : list jact := take 5 two_jobs.

Definition first_runs (w : jworld) : bool :=
  match j_obj w with
  | Some o =>
      (job_sem (job_mgr o) =? 0) &&
      match ongoing_job_q o, job_queue (job_mgr o) with
      | Some [JobNode i], Some [n] => (job_id i =? job1) && (node_job_id n =? job2)
      | _, _ => false
      end
  | None => false
  end.

Lemma demo_running : exists w, JpegInv.jinv demo_lib None true w /\ first_runs w = true.
Proof.
  destruct (open_ok demo_lib 5 true world0 demo_closed demo_resources) as (hdl & w1 & E & _ & Hi).
  destruct (acts_ok demo_lib (DemoOmx.demo_libraries _) demo_error demo_answers true one_running w1 Hi) as (w2 & E2 & H2).
  { apply (run_check_ok mayb may 5 _ world0 mayb_ok) with hdl; [by vm_compute|done]. }
  { intros _. apply (run_check_ok calmb calm 5 _ world0 calmb_ok) with hdl; [by vm_compute|done]. }
  exists w2. split; [done|]. apply (final_check_ok first_runs one_running (hdl, true) w1); [by vm_compute|done..].
Qed.

Lemma abort_stalls_witness : exists w w' o' n, mm_jpeg_abort_job job1 w = Some (-1, w') /\ j_obj w' = Some o' /\ job_queue (job_mgr o') = Some [n] /\
  node_job_id n = job2 /\ ongoing_job_q o' = Some [] /\ job_sem (job_mgr o') = 0.
Proof.
  destruct demo_running as (w & Hi & Hf). unfold first_runs in Hf. destruct (j_obj w) as [o|] eqn:Ho; [|done]. apply andb_true_iff in Hf as [Hs%Z.eqb_eq Hf].
  destruct (ongoing_job_q o) as [[|[i| |] [|]]|] eqn:Hog; try done. destruct (job_queue (job_mgr o)) as [[|n [|]]|] eqn:Ht; try done.
  apply andb_true_iff in Hf as [H1%Z.eqb_eq H2%Z.eqb_eq].
  destruct (abort_stalls demo_lib demo_answers demo_quiet true w o [n] i Hi Ho Ht Hog) as (w' & o' & E & Ho' & Hq & Hg & Hs').
  { constructor; [rewrite H1, H2; by vm_compute|constructor]. }
  { done. }
  exists w, w', o', n. by rewrite <- H1.
Defined.

(** ** Runs that end badly *)

(** A handle closed twice is counted twice: the library is freed under the
    client that is still open. *)
Example second_close_frees :
  match ('(a, _) ← jpeg_open 5 true; '(b, _) ← jpeg_open 5 true; mm_jpeg_intf_close 5 a;; rc ← mm_jpeg_intf_close 5 a; mret (b, rc)) world0 with
  | Some ((b, rc), w) => b <> client1 /\ rc = 0 /\ j_obj w = None
  | None => False
  end.
Proof. by vm_compute. Qed.

(** Destroying a session identifier that was never given out: the slot of the
    second client holds a zeroed session, whose identifier 0 names the first
    session of the first client, which is marked as free while it still has
    its component. *)
Example unknown_session_destroys_first :
  match ('(a, _) ← jpeg_open 5 true; jpeg_open 5 true;; mm_jpeg_create_session a demo_params;; mm_jpeg_intf_destroy_session (sid (1%nat, 0%nat))) world0 with
  | Some (rc, w) => rc = 0 /\ exists s, (j_obj w ≫= fun o => session_of o (0%nat, 0%nat)) = Some s /\ active s = false /\ omx_handle s <> None
  | None => False
  end.
Proof. vm_compute. split; [done|]. eexists. split; [reflexivity|]. done. Qed.

(** No memory for the core. *)
Definition poor_omx : OmxEnv := {|
  OMX_ErrorUndefined := -1; OMX_ErrorInsufficientResources := -2; OMX_ErrorInvalidComponent := -3; OMX_ErrorBadParameter := -4;
  env_omalloc := fun _ => false; env_dlopen := fun _ _ => None; env_dlclose := fun _ _ => 0; env_dlsym := fun _ _ _ => true;
  env_get_instance := fun _ _ => None; env_create := fun tr _ _ => None; env_deinit := fun _ _ => 0 |}.

(** A core that cannot be allocated is cleaned up after and reported as
    success: the client gets a handle, and the first session it creates
    uses the missing core. *)
Example failed_core_reported_ok :
  match jpeg_open (OE := poor_omx) 5 true world0 with
  | Some ((hdl, _), w) => 0 < hdl /\ g_omxcore (j_omx w) = None /\ mm_jpeg_create_session (OE := poor_omx) hdl demo_params w = None
  | None => False
  end.
Proof. by vm_compute. Qed.

End DemoJpeg.
