(* ===== verification/JpegDecProps.v ===== *)
(** * Theorems about the JPEG decoder

    Sequences of client calls, callbacks and turns of the job manager, and what
    becomes of the jobs of a session that is destroyed. *)

From Stdlib Require Import ZArith Lia.
From stdpp Require Import numbers list gmap strings.
From S2P Require Import Prelude CamTypes JpegQueue QomxCore QomxProps JpegExif.
From S2P Require Import JpegData JpegBase Jpeg JpegDec JpegMgr JpegDecIntf JpegIds JpegInv JpegTotal JpegDecTotal JpegOps.

#[local] Instance decoder : Codec := DecoderCallbacks.

Section Ops.
Context `{FL : Floats} `{OE : OmxEnv} `{JE : JpegEnv} (lib_of : string -> Z) (Hlib : libraries_ok lib_of).
Context (Herr : OMX_ErrorInvalidComponent <> OMX_ErrorNone) (Hans : components_answer).

Abbreviation jstate := (jstate lib_of None).
Abbreviation jinv := (jinv lib_of None).

(** ** Starting a job *)

(** The client uses an identifier it was given; the indices are checked. *)
Definition good_dec_job (job : mm_jpeg_decode_job_t) : Prop :=
  (exists p, in_table p /\ d_session_id job = sid p) /\ 0 <= d_src_index job /\ 0 <= d_dst_index job.

Lemma dec_start_ok ns w job : jinv ns w -> good_dec_job job -> exists r w', mm_jpegdec_start_decode_job job w = Some (r, w') /\ jinv ns w'.
Proof.
  intros (o & todo & og & H) ((p & Hp & Hid) & Hsrc & Hdst). unfold mm_jpegdec_start_decode_job. rewrite Hid. pose proof (sid_session p Hp) as Hg.
  unfold mm_jpeg_get_session in Hg. destruct (_ || _); [done|]. injection Hg as Ep. cbv zeta. rewrite Ep. clear Ep.
  destruct (session_in_table o p (js_table _ _ _ _ _ _ _ H) Hp) as [s Hs]. rewrite (bind_run _ _ _ _ _ (sess_run w o p s (js_obj _ _ _ _ _ _ _ H) Hs)).
  destruct (js_sess _ _ _ _ _ _ _ H p s Hs) as [Hsh _]. assert (Hsame : exists r w', Some ((-1, 0), w) = Some (r, w') /\ jinv ns w')
    by (do 2 eexists; split; [done|]; by exists o, todo, og).
  destruct (active s) eqn:Ha; [|exact Hsame]. cbn [negb]. destruct (_ || _) eqn:Eidx; [exact Hsame|]. apply orb_false_iff in Eidx as [E1%Z.leb_gt E2%Z.leb_gt].
  apply (start_gen lib_of ns w o todo og p s); [done|done|done|by apply job_id_session|done|]. destruct (ss_dec _ Hsh). split; [done|].
  unfold dec_job_fits. simpl. lia.
Qed.

(** ** Destroying a session *)

Lemma dec_session_destroy_ok ns p : triple (J lib_of (Some p) ns p) (mm_jpegdec_session_destroy p) (fun _ => gone lib_of ns p).
Proof.
  intros w HJ. unfold mm_jpegdec_session_destroy. pose proof HJ as [(o & todo & og & H) (o' & s & Ho & Hs & Ha)].
  rewrite (bind_run _ _ _ _ _ (sess_run w o' p s Ho Hs)). rewrite (js_obj _ _ _ _ _ _ _ H) in Ho. injection Ho as <-.
  destruct (js_sess _ _ _ _ _ _ _ H p s Hs) as [_ Hl]. destruct (Hl Ha) as (_ & _ & h & -> & _).
  match goal with |- exists x w', ?m w = _ /\ _ => enough (T : triple (J lib_of (Some p) ns p) m (fun _ => gone lib_of ns p)) by exact (T w HJ) end.
  apply triple_seq; [by apply (change_state_J lib_of (Some p) Hans)|]. intros _.
  apply triple_seq; [apply (change_state_J lib_of (Some p) Hans); intros f [= <-]; apply dec_free_buffers_J|]. intros _. by apply free_component_ok.
Qed.

Lemma dec_destroy_ok ns w p : jinv ns w -> act p w -> no_jobs p w -> exists w', mm_jpegdec_destroy_session_by_id (sid p) w = Some (0, w') /\ jinv true w'.
Proof.
  intros Hi Ha Hno. destruct (destroy_gen lib_of Hlib Hans ns w p _ (or_intror Hno) (dec_session_destroy_ok false p) Hi Ha) as (s & w' & Es & Hid & Hg & E & H').
  exists w'. split; [|done]. unfold mm_jpegdec_destroy_session_by_id, mm_jpegdec_destroy_session. rewrite Hg. erewrite bind_run by reflexivity.
  rewrite (bind_run _ _ _ _ _ Es). cbv zeta. by rewrite Hid.
Qed.

(** ** Creating a session *)

(** Tables of the right size; the numbers are checked. *)
Definition good_dec_params (ps : mm_jpeg_decode_params_t) : Prop :=
  0 <= d_num_src_bufs ps /\ 0 <= d_num_dst_bufs ps /\ bufs_ok (d_src_main_buf ps) /\ bufs_ok (d_dest_buf ps).

Lemma dec_handed_out_shape id hdl ps s : good_dec_params ps -> d_num_src_bufs ps <= 24 -> d_num_dst_bufs ps <= 24 -> sess_shape s ->
  sess_shape (put_jpeg_obj true (put_sessionId id (put_client_hdl hdl (put_dec_params ps s)))).
Proof. intros (? & ? & ? & ?) ? ? []. split; try done. by left. Qed.

Lemma dec_create_ok ns w hdl ps : jinv ns w -> good_dec_params ps -> exists r w', mm_jpegdec_create_session hdl ps w = Some (r, w') /\ jinv ns w' /\
  (r.2 = 0 \/ exists p, r.2 = sid p /\ act p w').
Proof.
  intros (o & todo & og & H) Hps.
  assert (Hsame : exists r w', Some ((0, 0), w) = Some (r, w') /\ jinv ns w' /\ (r.2 = 0 \/ exists p, r.2 = sid p /\ act p w'))
    by (do 2 eexists; split; [done|]; split; [by exists o, todo, og|by left]).
  unfold mm_jpegdec_create_session. destruct (_ || _) eqn:En; [exact Hsame|]. apply orb_false_iff in En as [N1%Z.ltb_ge N2%Z.ltb_ge]. unfold MM_JPEG_MAX_BUF in N1, N2.
  cbv zeta. set (ci := mm_jpeg_util_get_index_by_handler hdl). destruct (Z.leb_spec (Z.of_nat MAX_JPEG_CLIENT_NUM) ci) as [|Hci2]; [exact Hsame|].
  assert (Hci : 0 <= ci) by (apply Z.land_nonneg; lia). unfold MAX_JPEG_CLIENT_NUM in Hci2.
  destruct (new_idx_run lib_of ns w o todo og (Z.to_nat ci) H) as (r & w1 & E1 & Hr); [lia|]. rewrite (bind_run _ _ _ _ _ E1). destruct r as [p|]; [|subst; exact Hsame].
  destruct Hr as (s & Hs & Ha & Hp1 & ->). set (s1 := put_active true s). destruct (js_sess _ _ _ _ _ _ _ H p s Hs) as [Hsh _].
  set (prep := fun s => put_config false (put_fbd_count 0 (put_ebd_count 0
    (put_error_flag OMX_ErrorNone (put_abort_state MM_JPEG_ABORT_NONE (put_state_change_pending false s)))))).
  destruct (session_create_gen lib_of Hlib ns w o todo og p s s1 prep "OMX.qcom.image.jpeg.decoder" H Hs) as (rc & h & x' & E2 & Hgot).
  change (mm_jpegdec_session_create p (mkw w o p (j_omx w) s1) = Some (rc, mkw w o p x' (put_omx_handle h (prep s1)))) in E2. rewrite (bind_run _ _ _ _ _ E2).
  assert (Hsh2 : sess_shape (put_omx_handle h (prep s1))) by (destruct Hsh; by split).
  assert (Eid : new_session_id (Z.of_nat p.2) ci = sid p) by (unfold sid; do 2 f_equal; lia). rewrite Eid.
  set (fin := fun s => put_jpeg_obj true (put_sessionId (sid p) (put_client_hdl hdl (put_dec_params ps s)))).
  apply (create_finish lib_of ns w o todo og p s (put_omx_handle h (prep s1)) rc h x' fin Herr H Hs Ha Hgot Hsh2 eq_refl eq_refl).
  split; [|done]. by apply dec_handed_out_shape.
Qed.

(** ** Closing a client *)

Lemma for_each_skip {A} (f : A -> M jworld unit) l w : (forall x, x ∈ l -> f x w = Some (tt, w)) -> for_each l f w = Some (tt, w).
Proof.
  induction l as [|x l IH]; intros Hf; [done|]. simpl. rewrite (bind_run _ _ _ _ _ (Hf x (list_elem_of_here _ _))). apply IH. intros; apply Hf; set_solver.
Qed.

(** Whose sessions were destroyed before. *)
Lemma close_idle_ok ns w hdl : jinv ns w -> (forall i, idle (Z.to_nat (mm_jpeg_util_get_index_by_handler hdl), i) w) ->
  exists rc w', mm_jpeg_close hdl w = Some (rc, w') /\ jinv ns w'.
Proof.
  intros Hi Hidle. unfold mm_jpeg_close. cbv zeta. set (ci := mm_jpeg_util_get_index_by_handler hdl) in *.
  destruct (Z.leb_spec (Z.of_nat MAX_JPEG_CLIENT_NUM) ci) as [|Hci]; [by exists (-1), w|]. set (c := Z.to_nat ci) in *.
  assert (Hc : (c < 8)%nat) by (unfold c, MAX_JPEG_CLIENT_NUM in *; pose proof (Z.land_nonneg hdl 255); unfold ci in *; lia).
  rewrite (bind_run _ _ w tt w).
  - destruct (zero_client_ok lib_of ns w c Hi Hidle) as (w' & E & H'). exists 0, w'. by rewrite (bind_run _ _ _ _ _ E).
  - apply for_each_skip. intros i Hin%elem_of_seq. destruct Hi as (o & todo & og & H).
    destruct (session_in_table o (c, i) (js_table _ _ _ _ _ _ _ H)) as [s Hs]; [split; simpl; unfold MM_JPEG_MAX_SESSION in *; lia|].
    rewrite (bind_run _ _ _ _ _ (sess_run w o (c, i) s (js_obj _ _ _ _ _ _ _ H) Hs)). by rewrite (Hidle i o s (js_obj _ _ _ _ _ _ _ H) Hs).
Qed.

(** ** Sequences of calls, callbacks and turns *)

Inductive dact :=
| D_create (client_hdl : Z) (ps : mm_jpeg_decode_params_t)
| D_start (job : mm_jpeg_decode_job_t)
| D_abort (id : Z)
| D_destroy (id : Z)
| D_close (client_hdl : Z)
| D_turn
| D_callback (h : Z) (cb : omx_cb).

Definition run_dact (a : dact) : M jworld unit :=
  match a with
  | D_create hdl ps => mm_jpegdec_create_session hdl ps;; mret tt
  | D_start job => mm_jpegdec_start_decode_job job;; mret tt
  | D_abort id => mm_jpegdec_abort_job id;; mret tt
  | D_destroy id => mm_jpegdec_destroy_session_by_id id;; mret tt
  | D_close hdl => mm_jpeg_close hdl;; mret tt
  | D_turn => jobmgr_step;; mret tt
  | D_callback h cb => run_cb h cb;; mret tt
  end.

(** What a client may do, and when the thread can make a turn.  A session is
    destroyed when its jobs are done or aborted, a client closed when its
    sessions are destroyed. *)
Definition dec_may (a : dact) (w : jworld) : Prop :=
  match a with
  | D_create _ ps => good_dec_params ps
  | D_start job => good_dec_job job
  | D_destroy id => exists p, id = sid p /\ act p w /\ no_jobs p w
  | D_close hdl => forall i, idle (Z.to_nat (mm_jpeg_util_get_index_by_handler hdl), i) w
  | D_turn => exists o, j_obj w = Some o /\ 0 < job_sem (job_mgr o) < 2 ^ 31
  | _ => True
  end.

(** No job is taken away from the component. *)
Definition dec_calm (a : dact) (w : jworld) : Prop := match a with D_abort id => ~ running id w | _ => True end.

(** The two abort functions are the same code. *)
Lemma abort_same id : mm_jpegdec_abort_job id = mm_jpeg_abort_job id.
Proof. reflexivity. Qed.

Lemma dec_act_ok ns w a : jinv ns w -> dec_may a w -> (ns = true -> dec_calm a w) -> exists w', run_dact a w = Some (tt, w') /\ jinv ns w'.
Proof.
  intros Hi Hm Hc. assert (Hrun : forall A (m : M jworld A), (exists r w', m w = Some (r, w') /\ jinv ns w') -> exists w', (m;; mret tt) w = Some (tt, w') /\ jinv ns w').
  { intros A m (r & w' & E & H'). exists w'. by rewrite (bind_run _ _ _ _ _ E). }
  destruct a as [hdl ps|job|id|id|hdl| |h cb]; simpl in *; apply Hrun.
  - destruct (dec_create_ok ns w hdl ps Hi Hm) as (r & w' & E & H' & _). by exists r, w'.
  - by apply dec_start_ok.
  - rewrite abort_same. destruct (abort_ok lib_of Hans ns w id Hi) as (w' & E & H1 & H2). exists (-1), w'. split; [done|]. destruct ns; auto.
  - destruct Hm as (p & -> & Hp & Hno). destruct (dec_destroy_ok ns w p Hi Hp Hno) as (w' & E & H'). exists 0, w'. split; [done|]. by apply (jinv_weaken lib_of None true).
  - by apply close_idle_ok.
  - destruct Hm as (o & Ho & Hs), Hi as (o1 & todo & og & H). rewrite (js_obj _ _ _ _ _ _ _ H) in Ho. injection Ho as <-.
    destruct (turn_ok lib_of Hans ns w o1 todo og H Hs) as (r & w' & E & _ & H'). by exists r, w'.
  - destruct (run_cb_run lib_of None ns w h cb Hi) as (r & w' & E & H' & _). by exists r, w'.
Qed.

Lemma dec_acts_ok ns l w : jinv ns w -> along run_dact dec_may l w -> (ns = true -> along run_dact dec_calm l w) -> exists w', run_all run_dact l w = Some (tt, w') /\ jinv ns w'.
Proof.
  intros Hi Hm Hc. apply (run_all_ok run_dact (jinv ns) (fun a w => dec_may a w /\ (ns = true -> dec_calm a w))); [|done|].
  - intros a w0 H0 [Hm0 Hc0]. by apply dec_act_ok.
  - apply along_and; [done|]. destruct ns; [eapply along_mono; [|by apply Hc]; auto|]. by apply along_true.
Qed.

(** ** Opening the library *)

(** There is memory for the object and the core. *)
Definition dec_resources (w : jworld) : Prop := env_jmalloc (j_tr w) = true /\ env_omalloc (o_tr (j_omx w)) = true.

Lemma dec_open_ok turns ops w : closed_world lib_of w -> dec_resources w -> exists hdl w', jpegdec_open turns ops w = Some ((hdl, ops), w') /\ 0 < hdl /\ jinv true w'.
Proof.
  intros Hw [R1 R2]. destruct (core_opened lib_of w Hw R2) as (core & x' & Ex & Hcore & Happ). destruct Hw as [Ho Hcnt _ _ _ _].
  unfold jpegdec_open. rewrite (bind_run _ _ w None w) by (unfold gets; by rewrite Ho).
  set (w0 := put_j_obj (Some zero_obj) (put_j_tr (JMalloc true :: j_tr w) w)).
  assert (Ei : mm_jpegdec_init turns w0 = Some (0, put_j_omx x' (put_j_tr (JThreadCreate :: j_tr w0) (put_j_obj (Some (fresh_obj zero_buffer)) w0)))).
  { unfold mm_jpegdec_init. erewrite bind_run; [|by apply upd_obj_run]. unfold mm_jpeg_jobmgr_thread_launch.
    erewrite bind_run; [|erewrite bind_run; [|apply upd_obj_run; reflexivity]; erewrite bind_run by reflexivity; reflexivity].
    erewrite bind_run; [|apply (zoom_run j_omx put_j_omx); exact Ex]. reflexivity. }
  erewrite bind_run; [|unfold jmalloc; rewrite (bind_run _ _ w true (put_j_tr (JMalloc true :: j_tr w) w)) by (unfold jext; by rewrite R1);
    rewrite (bind_run _ _ _ tt w0) by done; rewrite (bind_run _ _ _ _ _ Ei); reflexivity].
  cbv beta iota. destruct (first_client_run lib_of w0 zero_buffer (JThreadCreate :: j_tr w0) x' core Hcnt Hcore Happ) as (hdl & w2 & E2 & Hpos & H2). exists hdl, w2.
  by rewrite (bind_run _ _ _ _ _ E2), (proj2 (Z.ltb_lt _ _) Hpos).
Qed.

(** C10: the decoder opened once, then any sequence of session creations and
    destructions, job starts and aborts, client closings, turns of the job
    manager and callbacks of the components, in any order and with any
    callbacks arriving inside the calls: every call returns, and afterwards
    the tables have their shape, each session in use has a component of its
    own that knows it, every queued job belongs to a session in use and at
    most one is with a component.  If moreover no running job is aborted, a
    job that waits while none is running finds the semaphore raised.  This is
    under conditions.  At the open the resources are there ([dec_resources]).
    Clients give counts and indices inside the tables, start jobs with an
    identifier of the table, destroy a session only when it is in use and has
    no jobs and close only when their sessions are destroyed, and the job
    manager makes a turn only when its semaphore is raised ([dec_may]).  A
    library that loads has its functions and creates a new instance each time,
    and a component answers whoever waits for it: a report that comes before
    the wait is lost. *)
Theorem jpegdec_invariant turns w l (Hw : closed_world lib_of w) (Hr : dec_resources w)
  (Hl : forall hdl w1, jpegdec_open turns true w = Some ((hdl, true), w1) -> along run_dact dec_may l w1) :
  exists hdl w1 w2, jpegdec_open turns true w = Some ((hdl, true), w1) /\ 0 < hdl /\ run_all run_dact l w1 = Some (tt, w2) /\ jinv false w2 /\
    (along run_dact dec_calm l w1 -> jinv true w2).
Proof.
  destruct (dec_open_ok turns true w Hw Hr) as (hdl & w1 & E & Hh & Hi). specialize (Hl hdl w1 E).
  destruct (dec_acts_ok false l w1) as (w2 & E2 & H2); [by apply (jinv_weaken lib_of None true)|done|done|].
  exists hdl, w1, w2. split; [done|]. split; [done|]. split; [done|]. split; [done|]. intros Hc.
  destruct (dec_acts_ok true l w1 Hi Hl) as (w3 & E3 & H3); [done|]. congruence.
Qed.

(** ** A session destroyed with its jobs queued *)

(** The identifier of a session in use is not 0, which is what is read from a
    decoding job in its place. *)
Lemma sid_not_zero p : sid p <> 0.
Proof. intros [[E _]%Z.lor_eq_0_iff _]%Z.lor_eq_0_iff. done. Qed.

Lemma remove_none q id k : Forall (fun n => node_session_id n <> id) q -> remove_session_jobs (S k) q id = Some q.
Proof.
  intros Hf. simpl. unfold mm_jpeg_queue_remove_job_by_session_id. assert (E : forall l, Forall (fun n => node_session_id n <> id) l -> remove_first (fun n => node_session_id n =? id) l = (None, l)).
  { induction l as [|n l IH]; intros Hl; [done|]. apply Forall_cons in Hl as [Hn Hl]. simpl. by rewrite (proj2 (Z.eqb_neq _ _) Hn), (IH Hl). }
  by rewrite (E q Hf).
Qed.

Lemma dec_nodes ns w o todo og : jstate ns w o todo og -> Forall (fun n => node_session_id n = 0) (todo ++ og).
Proof.
  intros H. eapply Forall_impl; [apply (js_jobs _ _ _ _ _ _ _ H)|]. intros [i|i|] (_ & _ & _ & _ & _ & _ & Hfit & _); [by destruct Hfit|done|done].
Qed.

(** The removal of the jobs of a session finds none. *)
Lemma dec_remove_run ns w o todo og p : jstate ns w o todo og -> exists w' o', remove_from_queues (sid p) w = Some (tt, w') /\
  jstate ns w' o' todo og /\ clnt_mgr o' = clnt_mgr o.
Proof.
  intros H. assert (Hn : Forall (fun n => node_session_id n <> sid p) (todo ++ og)).
  { eapply Forall_impl; [by eapply dec_nodes|]. intros n ->. symmetry. apply sid_not_zero. }
  apply Forall_app in Hn as [Hn1 Hn2]. pose proof (js_jobs _ _ _ _ _ _ _ H) as Hj. apply Forall_app in Hj as [Hj1 Hj2]. unfold remove_from_queues.
  rewrite (bind_run _ _ _ _ _ (todo_run lib_of _ _ _ _ _ _ H)), (remove_none _ _ _ Hn1). erewrite bind_run by reflexivity.
  destruct (put_todo_run lib_of ns ns w o todo og todo H Hj1 id) as (w1 & o1 & E1 & H1 & C1 & _). rewrite (bind_run _ _ _ _ _ E1).
  rewrite (bind_run _ _ _ _ _ (ongoing_run lib_of _ _ _ _ _ _ H1)), (remove_none _ _ _ Hn2). erewrite bind_run by reflexivity.
  destruct (put_ongoing_run lib_of ns ns w1 o1 todo og og H1) as (w2 & o2 & E2 & H2 & C2 & _);
    [|apply (js_one _ _ _ _ _ _ _ H)|done|exists w2, o2; split; [done|]; split; [done|congruence]].
  eapply Forall_impl; [exact Hj2|]. intros n. by apply node_ok_same.
Qed.

(** The component of the session is given back, whatever is queued. *)
Lemma dec_session_destroy_run ns w p : quiet_components -> J lib_of None ns p w -> exists w' o' s',
  mm_jpegdec_session_destroy p w = Some (tt, w') /\ j_obj w' = Some o' /\ session_of o' p = Some s' /\ queues w' = queues w.
Proof.
  intros Hq HJ. unfold mm_jpegdec_session_destroy. destruct (J_open lib_of ns p w HJ) as (o & todo & og & s & H & Hs & _ & Ha).
  rewrite (bind_run _ _ _ _ _ (sess_run w o p s (js_obj _ _ _ _ _ _ _ H) Hs)).
  destruct (js_sess _ _ _ _ _ _ _ H p s Hs) as [_ Hl]. destruct (Hl Ha) as (_ & _ & h & -> & _).
  destruct (change_state_J lib_of None Hans ns p OMX_StateIdle None ltac:(done) w HJ) as (r1 & w1 & E1 & HJ1). rewrite (bind_run _ _ _ _ _ E1).
  destruct (change_state_J lib_of None Hans ns p OMX_StateLoaded (Some mm_jpegdec_session_free_buffers)
    ltac:(intros f [= <-]; apply dec_free_buffers_J) w1 HJ1) as (r2 & w2 & E2 & HJ2). rewrite (bind_run _ _ _ _ _ E2).
  assert (Hfree : keeps queues (mm_jpegdec_session_free_buffers p)).
  { unfold mm_jpegdec_session_free_buffers, each_buf, free_buffer, comp, comp_handle. keeps_solve; apply keeps_for_until; intros; keeps_solve. }
  assert (Q : queues w2 = queues w).
  { rewrite (quiet_change_queues p OMX_StateLoaded (Some mm_jpegdec_session_free_buffers) Hq ltac:(intros f [= <-]; exact Hfree) _ _ _ E2). exact (quiet_change_queues p OMX_StateIdle None Hq ltac:(done) _ _ _ E1). }
  destruct (J_open lib_of ns p w2 HJ2) as (o2 & t2 & g2 & s2 & H2 & Hs2 & _ & Ha2).
  rewrite (bind_run _ _ _ _ _ (sess_run w2 o2 p s2 (js_obj _ _ _ _ _ _ _ H2) Hs2)).
  destruct (js_sess _ _ _ _ _ _ _ H2 p s2 Hs2) as [_ Hl2]. destruct (Hl2 Ha2) as (_ & _ & h2 & -> & _). destruct (js_core _ _ _ _ _ _ _ H2) as [core Hcore].
  destruct (free_handle_ok lib_of Hlib (j_omx w2) core h2 Hcore) as (rc & x' & core' & Ef & _).
  assert (Ez : omx (OMX_FreeHandle (Some h2)) w2 = Some (rc, put_j_omx x' w2)) by (by apply zoom_run). rewrite (bind_run _ _ _ _ _ Ez).
  rewrite (upd_sess_run (put_j_omx x' w2) o2 p s2 _ (js_obj _ _ _ _ _ _ _ H2) Hs2). do 3 eexists. split; [reflexivity|]. split; [reflexivity|].
  split; [rewrite (session_of_with _ _ _ _ _ Hs2); by case_decide|]. rewrite <- Q. unfold queues. simpl. by rewrite (js_obj _ _ _ _ _ _ _ H2).
Qed.

(** While a job is with a component the library cannot be torn down. *)
Definition ongoing (w : jworld) : option (option (list mm_jpeg_job_q_node_t)) := ongoing_job_q <$> j_obj w.

Lemma upd_mgr_ongoing f : (forall o, ongoing_job_q (f o) = ongoing_job_q o) -> keeps ongoing (upd_obj f).
Proof. intros Hf w r w'. unfold upd_obj, the_obj. unM. destruct (j_obj w) as [o|] eqn:Ho; [|done]. intros [= _ <-]. unfold ongoing. simpl. by rewrite Ho, Hf. Qed.

Lemma note_ongoing e : keeps ongoing (jnote e).
Proof. by intros w r w' [= _ <-]. Qed.

Lemma malloc_ongoing : keeps ongoing jmalloc.
Proof. by intros w r w' [= _ <-]. Qed.

Lemma todo_ongoing : keeps ongoing todo_q.
Proof. unfold todo_q, the_obj. keeps_solve. Qed.

Lemma busy_ongoing w w' : ongoing w' = ongoing w -> busy w -> busy w'.
Proof.
  intros E (o & n & l & Ho & Hq). unfold ongoing in E. rewrite Ho in E. simpl in E. destruct (j_obj w') as [o'|] eqn:Ho'; [|done]. simpl in E. injection E as E.
  exists o', n, l. split; [done|congruence].
Qed.

Lemma release_busy turns w r w' : (forall tr, env_sem_wait tr = []) -> busy w -> mm_jpeg_jobmgr_thread_release turns w = Some (r, w') -> busy w'.
Proof.
  intros Hn Hb. unfold mm_jpeg_jobmgr_thread_release. unfold mbind at 1, M_bind at 1. destruct (jmalloc w) as [[ok w1]|] eqn:E1; [|done].
  apply (busy_ongoing _ _ (malloc_ongoing _ _ _ E1)) in Hb. destruct ok; [|by intros [= _ <-]].
  unfold mbind at 1, M_bind at 1. destruct (enq todo_q put_todo_q ExitNode w1) as [[rc w2]|] eqn:E2; [|done].
  assert (K2 : keeps ongoing (enq todo_q put_todo_q ExitNode)).
  { apply keeps_bind; [apply malloc_ongoing|]. intros []; [|apply keeps_ret]. apply keeps_bind; [apply todo_ongoing|]. intros l.
    apply keeps_bind; [by apply upd_mgr_ongoing|]. intros; apply keeps_ret. }
  apply (busy_ongoing _ _ (K2 _ _ _ E2)) in Hb. clear K2 E1 E2 w w1.
  unfold mbind at 1, M_bind at 1. destruct (sem_post w2) as [[[] w3]|] eqn:E3; [|done].
  assert (K3 : keeps ongoing sem_post) by (unfold sem_post; apply keeps_bind; [apply note_ongoing|intros; by apply upd_mgr_ongoing]).
  apply (busy_ongoing _ _ (K3 _ _ _ E3)) in Hb. clear K3 E3 w2. pose proof Hb as (o & n & l & Ho & Hq).
  rewrite (bind_run _ _ w3 o w3) by (unfold the_obj; unM; by rewrite Ho). destruct (pid (job_mgr o)).
  - unfold mbind at 1, M_bind at 1. by rewrite (thread_busy Hn turns w3 Hb).
  - erewrite bind_run by reflexivity. intros E. refine (busy_ongoing _ _ _ Hb). revert E.
    match goal with |- ?m w3 = _ -> _ => enough (K : keeps ongoing m) by exact (K w3 r w') end.
    apply keeps_bind; [apply note_ongoing|]. intros _. apply keeps_bind.
    + apply keeps_bind; [apply todo_ongoing|]. intros [|]; [by apply upd_mgr_ongoing|apply keeps_stuck].
    + intros _. apply keeps_bind; [by apply upd_mgr_ongoing|]. intros _. apply keeps_ret.
Qed.

Lemma deinit_busy turns w : (forall tr, env_sem_wait tr = []) -> busy w -> mm_jpegdec_deinit turns w = None.
Proof.
  intros Hn Hb. unfold mm_jpegdec_deinit. unfold mbind at 1, M_bind at 1. destruct (mm_jpeg_jobmgr_thread_release turns w) as [[r w1]|] eqn:E1; [|done].
  apply (release_busy turns w r w1 Hn Hb) in E1 as (o & n & l & Ho & Hq). erewrite bind_run; [|apply (zoom_run j_omx put_j_omx); reflexivity].
  unfold deinit_ongoing_q, ongoing_q, the_obj. unM. simpl. by rewrite Ho, Hq.
Qed.

(** Destroying a session of the decoder whose job is running succeeds,
    but the session identifier is looked for where an encoding job has it, so
    neither this job nor the waiting ones are taken out of the queues.  The
    component is given back, the session is free, and the job stays for ever:
    whatever raises the semaphore, a turn of the job manager changes nothing,
    so no job of any session runs again; and when the last client goes the
    library waits for its thread without end. *)
Theorem destroy_leaves_jobs (Hq : quiet_components) ns w p o todo info (Hi : jinv ns w) (Ha : act p w) (Ho : j_obj w = Some o)
  (Ht : job_queue (job_mgr o) = Some todo) (Hog : ongoing_job_q o = Some [DecodeNode info]) (Hs : d_session_id (decode_job info) = sid p) :
  exists w' o', mm_jpegdec_destroy_session_by_id (sid p) w = Some (0, w') /\ j_obj w' = Some o' /\ idle p w' /\
    job_queue (job_mgr o') = Some todo /\ ongoing_job_q o' = Some [DecodeNode info] /\ jobmgr_turn w' = Some (true, w') /\
    forall turns, (forall tr, env_sem_wait tr = []) -> mm_jpegdec_deinit turns w' = None.
Proof.
  destruct (J_open lib_of ns p w (conj Hi Ha)) as (o1 & todo1 & og1 & s & H & Hss & _ & Hac). pose proof (js_obj _ _ _ _ _ _ _ H) as Ho1. rewrite Ho in Ho1. injection Ho1 as <-.
  pose proof (js_todo _ _ _ _ _ _ _ H) as Ht1. rewrite Ht in Ht1. injection Ht1 as <-. pose proof (js_og _ _ _ _ _ _ _ H) as Hg1. rewrite Hog in Hg1. injection Hg1 as <-.
  pose proof (in_table_session o p s (js_table _ _ _ _ _ _ _ H) Hss) as Hp. destruct (js_sess _ _ _ _ _ _ _ H p s Hss) as [_ Hl]. destruct (Hl Hac) as (_ & Hid & _).
  unfold mm_jpegdec_destroy_session_by_id, mm_jpegdec_destroy_session. rewrite (sid_session p Hp). erewrite bind_run by reflexivity.
  rewrite (bind_run _ _ _ _ _ (sess_run w o p s Ho Hss)). cbv zeta. rewrite Hid.
  destruct (dec_remove_run ns w o todo [DecodeNode info] p H) as (w1 & o1 & E1 & H1 & C1). rewrite (bind_run _ _ _ _ _ E1).
  assert (HJ1 : J lib_of None ns p w1).
  { split; [by exists o1, todo, [DecodeNode info]|]. exists o1, s. split; [apply H1|]. by rewrite (session_of_same _ _ _ C1). }
  destruct (session_abort_J lib_of None Hans ns p w1 HJ1) as (r & w2 & E2 & HJ2). rewrite (bind_run _ _ _ _ _ E2).
  destruct (dec_session_destroy_run ns w2 p Hq HJ2) as (w3 & o3 & s3 & E3 & Ho3 & Hs3 & Q3). rewrite (bind_run _ _ _ _ _ E3).
  unfold mm_jpeg_remove_session_idx. rewrite (sid_indices p Hp), (bind_run _ _ _ _ _ (upd_sess_run w3 o3 p s3 _ Ho3 Hs3)).
  unfold sem_post. erewrite bind_run; [|erewrite bind_run by reflexivity; apply upd_obj_run; reflexivity].
  pose proof (quiet_abort_queues p Hq _ _ _ E2) as Q2. rewrite Q2 in Q3. unfold queues in Q3. rewrite Ho3, (js_obj _ _ _ _ _ _ _ H1) in Q3. simpl in Q3. injection Q3 as Q3a Q3b.
  rewrite (js_og _ _ _ _ _ _ _ H1) in Q3b. do 2 eexists. split; [reflexivity|]. split; [reflexivity|]. split.
  { intros o4 s4 [= <-]. unfold session_of at 1. simpl. change (session_of (with_session p (put_active false s3) o3) p = Some s4 -> active s4 = false).
    rewrite (session_of_with _ _ _ _ _ Hs3). case_decide; [by intros [= <-]|done]. }
  split; [simpl; by rewrite Q3a, (js_todo _ _ _ _ _ _ _ H1)|]. split; [done|].
  match goal with |- jobmgr_turn ?x = _ /\ _ => assert (Hb : busy x) by (by eexists _, (DecodeNode info), []) end.
  split; [by apply turn_busy|]. intros turns Hn. by apply deinit_busy.
Qed.

End Ops.
