(* ===== verification/JpegDecSeq.v ===== *)
(** * A job of the JPEG decoder from start to end

    What is said to a component that answers in time, in which order, until
    the client is called; and what happens when the component reports the
    settings of its port before it is waited for. *)

From Stdlib Require Import ZArith Lia.
From stdpp Require Import numbers list gmap strings.
From S2P Require Import Prelude CamTypes JpegQueue QomxCore QomxProps JpegExif.
From S2P Require Import JpegData JpegBase Jpeg JpegDec JpegMgr JpegDecIntf JpegIds JpegInv JpegTotal JpegOps.

(** The calls of component [h], the last one first. *)
Definition calls_of (h : Z) (tr : jhistory) : list jcall :=
  omap (fun e => match e with JCall h' c _ => if h =? h' then Some c else None | _ => None end) tr.

(** What clients were told, the last first. *)
Definition told (tr : jhistory) : list (Z * jpeg_job_status_t * Z * Z * option (Z * Z) * Z) :=
  omap (fun e => match e with JCallback cb st c id out ud => Some (cb, st, c, id, out, ud) | _ => None end) tr.

(** The event that a component answers with: new port settings after it got an
    input buffer, the completion of a command otherwise. *)
Definition answer (tr : jhistory) : OMX_EVENTTYPE :=
  match tr with JCall _ (CEmptyThisBuffer _) _ :: _ => OMX_EventPortSettingsChanged | _ => OMX_EventCmdComplete end.

Section Seq.
Context `{FL : Floats} `{OE : OmxEnv} `{JE : JpegEnv}.
Context (w : jworld) (p : sptr) (h : Z).

(** The component of session [p] exists and has the callbacks of the decoder. *)
Definition decoder_of : Prop :=
  h ∈ alive (o_tr (j_omx w)) /\ (p.2 < 10)%nat /\ app_data h (o_tr (j_omx w)) = Some {| appData := sptr_to_Z p; callBacks := DecoderCallbacks |}.
Context (Hdec : decoder_of).

(** The world with another object, session and history. *)
Definition at_ (o : mm_jpeg_obj) (s : mm_jpeg_job_session_t) (tr : jhistory) : jworld := put_j_tr tr (put_j_obj (Some (with_session p s o)) w).

Section Object.
Context (o : mm_jpeg_obj) (s0 : mm_jpeg_job_session_t) (Hs0 : session_of o p = Some s0).
Abbreviation at_ := (at_ o).

Lemma at_lookup s : session_of (with_session p s o) p = Some s.
Proof. rewrite (session_of_with _ _ _ _ _ Hs0). by case_decide. Qed.

Lemma at_sess s tr : sess p (at_ s tr) = Some (s, at_ s tr).
Proof. apply (sess_run _ (with_session p s o)); [done|apply at_lookup]. Qed.

Lemma at_upd s tr f : upd_sess p f (at_ s tr) = Some (tt, at_ (f s) tr).
Proof. rewrite (upd_sess_run (at_ s tr) (with_session p s o) p s f eq_refl (at_lookup s)), with_session_twice. done. Qed.

Lemma at_live : comp_live h (o_tr (j_omx w)) = true.
Proof. unfold comp_live. by apply bool_decide_true, Hdec. Qed.

Lemma at_comp s tr c : omx_handle s = Some h -> comp p c (at_ s tr) = Some ((env_comp tr h (c tr h), c tr h), at_ s (JCall h (c tr h) (env_comp tr h (c tr h)) :: tr)).
Proof.
  intros Hh. unfold comp, comp_handle. erewrite bind_run; [|rewrite (bind_run _ _ _ _ _ (at_sess s tr)), Hh; erewrite bind_run by reflexivity; erewrite bind_run by reflexivity].
  2:{ change (o_tr (j_omx (at_ s tr))) with (o_tr (j_omx w)). rewrite at_live. reflexivity. }
  reflexivity.
Qed.

(** A callback of the component. *)
Lemma at_run_cb s tr e : abort_state s <> MM_JPEG_ABORT_INIT -> e = OMX_EventCmdComplete \/ e = OMX_EventPortSettingsChanged ->
  run_cb h (EventHandler e) (at_ s tr) = Some (Some p, at_ (let s := put_omxEvent e s in
    if bool_decide (e = OMX_EventCmdComplete) then put_event_pending false (put_state_change_pending false s) else s) (JOmx h (EventHandler e) :: tr)).
Proof.
  intros Hab He. unfold run_cb. erewrite bind_run by reflexivity. change (o_tr (j_omx (at_ s tr))) with (o_tr (j_omx w)). rewrite at_live. destruct Hdec as (_ & Hp & ->).
  cbv iota zeta. rewrite Z_to_sptr_of by done. erewrite bind_run by reflexivity. change (put_j_tr (JOmx h (EventHandler e) :: j_tr (at_ s tr)) (at_ s tr)) with (at_ s (JOmx h (EventHandler e) :: tr)).
  set (tr' := _ :: tr). set (s1 := put_omxEvent e s). rewrite (bind_run _ _ _ true (at_ (if bool_decide (e = OMX_EventCmdComplete) then put_event_pending false (put_state_change_pending false s1) else s1) tr')); [done|].
  simpl. unfold mm_jpegdec_event_handler. rewrite (bind_run _ _ _ _ _ (at_upd s tr' _)), (bind_run _ _ _ _ _ (at_sess _ tr')).
  rewrite bool_decide_false by done. destruct He as [-> | ->]; [by rewrite (bind_run _ _ _ _ _ (at_upd _ tr' _))|done].
Qed.

(** ** A component that answers in time *)

(** Every call succeeds, and a wait, but nothing else, is answered. *)
Definition prompt : Prop :=
  (forall tr c, env_comp tr h c = 0) /\ (forall tr, env_deliver tr = []) /\ (forall tr, env_wait tr h = [(h, EventHandler (answer tr))]).
Context (Hpr : prompt).

Lemma at_comp_ok s tr c : omx_handle s = Some h -> comp p c (at_ s tr) = Some ((0, c tr h), at_ s (JCall h (c tr h) 0 :: tr)).
Proof. intros Hh. rewrite (at_comp s tr c Hh). by rewrite (proj1 Hpr). Qed.

Lemma at_ucomp s tr c : omx_handle s = Some h -> ucomp p c (at_ s tr) = Some ((0, c tr h), at_ s (JCall h (c tr h) 0 :: tr)).
Proof.
  intros Hh. unfold ucomp. rewrite (bind_run _ _ _ _ _ (at_comp_ok s tr c Hh)). erewrite bind_run; [reflexivity|]. unfold deliver. erewrite bind_run by reflexivity.
  by rewrite (proj1 (proj2 Hpr)).
Qed.

(** Waiting for an event that is pending. *)
Lemma at_wait s tr : omx_handle s = Some h -> abort_state s <> MM_JPEG_ABORT_INIT -> event_pending s = true ->
  wait_event p (at_ s tr) = Some (answer tr, at_ (let s := put_omxEvent (answer tr) s in
    if bool_decide (answer tr = OMX_EventCmdComplete) then put_event_pending false (put_state_change_pending false s) else s) (JOmx h (EventHandler (answer tr)) :: tr)).
Proof.
  intros Hh Hab He. unfold wait_event. rewrite (bind_run _ _ _ _ _ (at_sess s tr)), He.
  assert (Ha : answer tr = OMX_EventCmdComplete \/ answer tr = OMX_EventPortSettingsChanged) by (unfold answer; repeat case_match; auto).
  erewrite bind_run.
  2:{ unfold cond_wait. rewrite (bind_run _ _ _ _ _ (at_sess s tr)), Hh. erewrite bind_run by reflexivity. erewrite bind_run by reflexivity.
      change (j_tr (at_ s tr)) with tr. rewrite (proj2 (proj2 Hpr)). cbn [wait_signal]. rewrite (bind_run _ _ _ _ _ (at_run_cb s tr _ Hab Ha)), bool_decide_true by done. reflexivity. }
  rewrite (bind_run _ _ _ _ _ (at_sess _ _)). f_equal. f_equal. by case_bool_decide.
Qed.

(** ** The calls of a job *)

Definition use_call (b : mm_jpeg_buf_t) (hdr : Z) : jcall := CUseBuffer 1 (Some (fd b)) (buf_size b) (buf_vaddr b) hdr.

(** The buffers from the [k]th on are handed over, and their headers kept. *)
Lemma use_loop bufs : forall m k s tr, omx_handle s = Some h -> (k + m <= length bufs)%nat -> (k + m <= length (p_out_omx_buf s))%nat ->
  answer tr = OMX_EventCmdComplete ->
  exists l hdrs tr', (for_until (seq k m) (fun rc => negb (rc =? 0)) OMX_ErrorNone (fun i => b ← deref (bufs !! i);
      use_buffer (ucomp p) p 1 (Some (fd b)) b p_out_omx_buf put_p_out_omx_buf i)) (at_ s tr) =
    Some (0, at_ (put_p_out_omx_buf l s) tr') /\
    length hdrs = m /\ length l = length (p_out_omx_buf s) /\ (forall i, (i < k)%nat -> l !! i = p_out_omx_buf s !! i) /\
    (forall j hd, hdrs !! j = Some hd -> l !! (k + j)%nat = Some (Some hd)) /\
    calls_of h tr' = rev (zip_with use_call (drop k bufs) hdrs) ++ calls_of h tr /\ answer tr' = OMX_EventCmdComplete /\ told tr' = told tr.
Proof.
  induction m as [|m IH]; intros k s tr Hh Hb Ho Ha.
  { exists (p_out_omx_buf s), [], tr. split; [|rewrite zip_with_nil_r; by repeat split]. simpl. f_equal. f_equal. f_equal. by destruct s. }
  destruct (lookup_lt_is_Some_2 bufs k) as [b Eb]; [lia|]. destruct (lookup_lt_is_Some_2 (p_out_omx_buf s) k) as [x Ex]; [lia|].
  set (hd := env_header tr h 1). set (c := use_call b hd). set (s1 := put_p_out_omx_buf (<[k := Some hd]> (p_out_omx_buf s)) s).
  destruct (IH (S k) s1 (JCall h c 0 :: tr)) as (l & hdrs & tr' & E & H1 & H2 & H3 & H4 & H5 & H6 & H7); [done|lia|simpl; rewrite length_insert; lia|done|].
  exists l, (hd :: hdrs), tr'. split; [|split; [simpl; lia|]; split; [by rewrite H2; simpl; rewrite length_insert|]; split; [|split; [|split; [|done]]]].
  - cbn [seq for_until]. rewrite (bind_run _ _ _ 0 (at_ s1 (JCall h c 0 :: tr))).
    + exact E.
    + rewrite Eb. erewrite bind_run by reflexivity. unfold use_buffer. rewrite (bind_run _ _ _ _ _ (at_sess s tr)), Ex. erewrite bind_run by reflexivity.
      rewrite (bind_run _ _ _ _ _ (at_ucomp s tr _ Hh)). cbv beta iota. cbn [Z.eqb]. rewrite (bind_run _ _ _ _ _ (at_upd s _ _)). done.
  - intros i Hi. rewrite H3 by lia. simpl. by rewrite list_lookup_insert_ne by lia.
  - intros [|j] hd' Hj.
    + injection Hj as <-. rewrite Nat.add_0_r, H3 by lia. simpl. rewrite list_lookup_insert_eq by (by eapply lookup_lt_Some). done.
    + specialize (H4 j hd' Hj). by replace (k + S j)%nat with (S k + j)%nat by lia.
  - rewrite H5. rewrite (drop_S bufs b k Eb). simpl. rewrite Z.eqb_refl. simpl. by rewrite <- app_assoc.
Qed.

(** What a session needs to decode a job: a component, and tables that its
    job and parameters fit. *)
Record ready (s : mm_jpeg_job_session_t) : Prop := {
  rd_handle : omx_handle s = Some h;
  rd_shape : sess_shape s;
  rd_obj : jpeg_obj s = true;
  rd_config : config s = true;
  rd_index : d_dst_index (s_decode_job s) < d_num_dst_bufs (dec_params s)
}.

(** The calls that decode a job, and the headers of the output buffers. *)
Definition decode_calls (s : mm_jpeg_job_session_t) (q : omx_port) (hdrs : list Z) (dst : mm_jpeg_buf_t) : list jcall :=
  [CEmptyThisBuffer (default None (p_in_omx_buf s !! Z.to_nat (d_src_index (s_decode_job s))));
   CSendCommand (OMX_CommandPortDisable (nPortIndex (outputPort s)));
   CGetParameter q;
   CSetParameter (PPort (set_buffers (buf_size dst) (d_num_dst_bufs (dec_params s)) q));
   CSendCommand (OMX_CommandPortEnable (nPortIndex q))] ++
  zip_with use_call (d_dest_buf (dec_params s)) hdrs ++
  [CFillThisBuffer (hdrs !! Z.to_nat (d_dst_index (s_decode_job s)))].

Lemma port_command_wait s tr c : omx_handle s = Some h -> abort_state s <> MM_JPEG_ABORT_INIT ->
  port_command p c true (at_ s tr) = Some (OMX_ErrorNone, at_ (put_event_pending false (put_state_change_pending false (put_omxEvent OMX_EventCmdComplete (put_event_pending true s))))
    (JOmx h (EventHandler OMX_EventCmdComplete) :: JCall h (CSendCommand c) 0 :: tr)).
Proof.
  intros Hh Hab. unfold port_command. rewrite (bind_run _ _ _ _ _ (at_upd s tr _)), (bind_run _ _ _ _ _ (at_ucomp (put_event_pending true s) tr _ Hh)). cbn [fst Z.eqb negb].
  by rewrite (bind_run _ _ _ _ _ (at_wait (put_event_pending true s) _ Hh Hab eq_refl)).
Qed.

(** The output port is set up. *)
Lemma setup_output_run s tr dst : omx_handle s = Some h -> sess_shape s -> abort_state s <> MM_JPEG_ABORT_INIT ->
  d_dest_buf (dec_params s) !! Z.to_nat (d_dst_index (s_decode_job s)) = Some dst ->
  exists q hdrs l tr' s', setup_output p (at_ s tr) = Some (0, at_ s' tr') /\ length hdrs = Z.to_nat (d_num_dst_bufs (dec_params s)) /\
    (forall j hd, hdrs !! j = Some hd -> l !! j = Some (Some hd)) /\ answer tr' = OMX_EventCmdComplete /\ told tr' = told tr /\
    s' = put_p_out_omx_buf l (put_event_pending true (put_outputPort (set_buffers (buf_size dst) (d_num_dst_bufs (dec_params s)) q)
      (put_event_pending false (put_state_change_pending false (put_omxEvent OMX_EventCmdComplete (put_event_pending true s)))))) /\
    calls_of h tr' = rev ([CSendCommand (OMX_CommandPortDisable (nPortIndex (outputPort s))); CGetParameter q;
        CSetParameter (PPort (set_buffers (buf_size dst) (d_num_dst_bufs (dec_params s)) q)); CSendCommand (OMX_CommandPortEnable (nPortIndex q))] ++
      zip_with use_call (d_dest_buf (dec_params s)) hdrs) ++ calls_of h tr.
Proof.
  intros Hh Hsh Hab Hdst. unfold setup_output, mm_jpeg_session_port_disable. rewrite (bind_run _ _ _ _ _ (at_sess s tr)).
  rewrite (bind_run _ _ _ _ _ (port_command_wait s tr _ Hh Hab)). set (s1 := put_event_pending false _). set (tr1 := JOmx _ _ :: _).
  assert (Hh1 : omx_handle s1 = Some h) by exact Hh. unfold get_port. set (q := env_port tr1 h (outputPort s1)).
  rewrite (bind_run _ _ _ 0 (at_ (put_outputPort q s1) (JCall h (CGetParameter q) 0 :: tr1))).
  2:{ rewrite (bind_run _ _ _ _ _ (at_sess s1 tr1)). unfold OMX_GetPort. erewrite bind_run; [|by rewrite (bind_run _ _ _ _ _ (at_ucomp s1 tr1 _ Hh1))].
      cbv beta iota. by rewrite (bind_run _ _ _ _ _ (at_upd s1 _ _)). }
  cbn [Z.eqb negb]. rewrite (bind_run _ _ _ _ _ (at_sess _ _)). change (d_dest_buf (dec_params (put_outputPort q s1))) with (d_dest_buf (dec_params s)).
  change (s_decode_job (put_outputPort q s1)) with (s_decode_job s). rewrite Hdst. erewrite bind_run by reflexivity. cbv zeta.
  change (dec_params (put_outputPort q s1)) with (dec_params s). change (outputPort (put_outputPort q s1)) with q. set (q' := set_buffers _ _ q).
  rewrite (bind_run _ _ _ _ _ (at_upd _ _ _)). change (put_outputPort q' (put_outputPort q s1)) with (put_outputPort q' s1). set (s2 := put_outputPort q' s1). set (tr2 := _ :: tr1).
  assert (Hh2 : omx_handle s2 = Some h) by exact Hh. unfold OMX_SetParameter. erewrite bind_run; [|by rewrite (bind_run _ _ _ _ _ (at_ucomp s2 tr2 _ Hh2))].
  cbn [fst Z.eqb negb]. set (tr3 := _ :: tr2). rewrite (bind_run _ _ _ _ _ (at_sess s2 tr3)). unfold mm_jpeg_session_port_enable.
  set (s3 := put_event_pending true s2). set (tr4 := JCall h (CSendCommand (OMX_CommandPortEnable (nPortIndex q))) 0 :: tr3). assert (Hh3 : omx_handle s3 = Some h) by exact Hh.
  rewrite (bind_run _ _ _ OMX_ErrorNone (at_ s3 tr4)).
  2:{ unfold port_command. rewrite (bind_run _ _ _ _ _ (at_upd s2 tr3 _)). fold s3. by rewrite (bind_run _ _ _ _ _ (at_ucomp s3 tr3 _ Hh3)). }
  change (dec_params s2) with (dec_params s). destruct (ss_dec _ Hsh) as [_ Hn [_ [Hl _]]]. unfold each_buf.
  destruct (use_loop (d_dest_buf (dec_params s)) (Z.to_nat (d_num_dst_bufs (dec_params s))) 0 s3 tr4 Hh3) as (l & hdrs & tr' & E & H1 & _ & _ & H4 & H5 & H6 & H7).
  - unfold MM_JPEG_MAX_BUF in Hl. lia.
  - change (p_out_omx_buf s3) with (p_out_omx_buf s). rewrite (ss_out _ Hsh). unfold MM_JPEG_MAX_BUF. lia.
  - done.
  - exists q, hdrs, l, tr', (put_p_out_omx_buf l s3). split; [exact E|]. split; [done|]. split; [exact H4|]. split; [done|]. split; [done|]. split; [done|].
    rewrite H5. simpl. rewrite !Z.eqb_refl. rewrite <- !app_assoc. done.
Qed.

(** A job is decoded: the component has all it needs to fill the buffer. *)
Lemma decode_run s tr : ready s -> exists q hdrs dst tr' s', mm_jpegdec_session_decode p (at_ s tr) = Some (0, at_ s' tr') /\
  d_dest_buf (dec_params s) !! Z.to_nat (d_dst_index (s_decode_job s)) = Some dst /\ length hdrs = Z.to_nat (d_num_dst_bufs (dec_params s)) /\
  calls_of h tr' = rev (decode_calls s q hdrs dst) ++ calls_of h tr /\ told tr' = told tr /\
  abort_state s' = MM_JPEG_ABORT_NONE /\ jpeg_obj s' = jpeg_obj s /\ jobId s' = jobId s /\ dec_params s' = dec_params s /\ client_hdl s' = client_hdl s.
Proof.
  intros [Hh Hsh Hjo Hcf Hix]. destruct (ss_dec _ Hsh) as [_ Hn [_ [Hl _]]], (ss_dec_job _ Hsh) as (Hi1 & Hi2).
  destruct (lookup_lt_is_Some_2 (d_dest_buf (dec_params s)) (Z.to_nat (d_dst_index (s_decode_job s)))) as [dst Hdst]; [unfold MM_JPEG_MAX_BUF in Hl; lia|].
  destruct (lookup_lt_is_Some_2 (p_in_omx_buf s) (Z.to_nat (d_src_index (s_decode_job s)))) as [hin Hin]; [rewrite (ss_in _ Hsh); unfold MM_JPEG_MAX_BUF; lia|].
  unfold mm_jpegdec_session_decode. rewrite (bind_run _ _ _ _ _ (at_upd s tr _)), (bind_run _ _ _ _ _ (at_sess _ tr)).
  change (config (put_encoding false (put_abort_state MM_JPEG_ABORT_NONE s))) with (config s). rewrite Hcf. erewrite bind_run by reflexivity. cbn [Z.eqb negb OMX_ErrorNone].
  rewrite (bind_run _ _ _ _ _ (at_upd _ tr _)). unfold chk_abort at 1. rewrite (bind_run _ _ _ _ _ (at_sess _ tr)).
  rewrite bool_decide_false by done. rewrite (bind_run _ _ _ _ _ (at_upd _ tr _)), (bind_run _ _ _ _ _ (at_sess _ tr)). set (s1 := put_event_pending true _).
  change (p_in_omx_buf s1) with (p_in_omx_buf s). change (s_decode_job s1) with (s_decode_job s). rewrite Hin. erewrite bind_run by reflexivity.
  assert (Hh1 : omx_handle s1 = Some h) by exact Hh. rewrite (bind_run _ _ _ _ _ (at_ucomp s1 tr _ Hh1)). cbn [fst Z.eqb negb]. set (tr1 := JCall h _ 0 :: tr).
  unfold await_output. rewrite (bind_run _ _ _ _ _ (at_wait s1 tr1 Hh1 ltac:(done) eq_refl)). change (answer tr1) with OMX_EventPortSettingsChanged.
  rewrite (bool_decide_false (OMX_EventPortSettingsChanged = OMX_EventCmdComplete)) by done. rewrite bool_decide_true by done. cbn [negb]. cbv zeta.
  set (s2 := put_omxEvent _ s1). set (tr2 := _ :: tr1). assert (Hsh2 : sess_shape s2). by (unfold s2, s1; destruct Hsh; split; try done; by left).
  destruct (setup_output_run s2 tr2 dst Hh Hsh2 ltac:(done) Hdst) as (q & hdrs & l & tr3 & s3 & E3 & L3 & T3 & A3 & D3 & Es3 & C3). rewrite (bind_run _ _ _ _ _ E3). cbn [Z.eqb negb].
  assert (Hh3 : omx_handle s3 = Some h) by (by rewrite Es3). assert (Hab3 : abort_state s3 = MM_JPEG_ABORT_NONE) by (by rewrite Es3).
  assert (Hp3 : event_pending s3 = true) by (by rewrite Es3). assert (Hab3' : abort_state s3 <> MM_JPEG_ABORT_INIT) by congruence.
  rewrite (bind_run _ _ _ _ _ (at_wait s3 tr3 Hh3 Hab3' Hp3)), A3. rewrite (bool_decide_true (OMX_EventCmdComplete = _)) by done. cbn [negb]. cbv zeta.
  set (s4 := put_event_pending false _). set (tr4 := _ :: tr3). rewrite (bind_run _ _ _ _ _ (at_sess s4 tr4)).
  assert (Hout : p_out_omx_buf s4 !! Z.to_nat (d_dst_index (s_decode_job s4)) = Some (hdrs !! Z.to_nat (d_dst_index (s_decode_job s)))).
  { change (p_out_omx_buf s4) with (p_out_omx_buf s3). change (s_decode_job s4) with (s_decode_job s3). rewrite Es3. simpl.
    destruct (lookup_lt_is_Some_2 hdrs (Z.to_nat (d_dst_index (s_decode_job s)))) as [hd Hhd]; [rewrite L3; simpl; lia|]. rewrite Hhd. by apply T3. }
  rewrite Hout. erewrite bind_run by reflexivity. assert (Hh4 : omx_handle s4 = Some h) by exact Hh3. rewrite (bind_run _ _ _ _ _ (at_ucomp s4 tr4 _ Hh4)). cbn [fst Z.eqb negb].
  unfold chk_abort. rewrite (bind_run _ _ _ _ _ (at_sess s4 _)). change (abort_state s4) with (abort_state s3). rewrite bool_decide_false by done.
  do 5 eexists. split; [reflexivity|]. split; [done|]. split; [done|]. split.
  - unfold tr4. simpl. rewrite Z.eqb_refl, C3. simpl. rewrite Z.eqb_refl, Hin. unfold decode_calls. simpl. rewrite !rev_app_distr. simpl. rewrite <- !app_assoc. done.
  - split; [exact D3|]. split; [exact Hab3|]. subst s3. done.
Qed.

End Object.

(** A filled buffer: the client is called and the job is done. *)
Lemma at_filled o s0 info s tr cb len va : session_of o p = Some s0 -> ongoing_job_q o = Some [DecodeNode info] ->
  abort_state s = MM_JPEG_ABORT_NONE -> jpeg_obj s = true -> jobId s = d_job_id info -> d_jpeg_cb (dec_params s) = Some cb ->
  exists w' o', run_cb h (FillBufferDone len va) (at_ o s tr) = Some (None, w') /\
    told (j_tr w') = (cb, JPEG_JOB_STATUS_DONE, client_hdl s, jobId s, Some (len, va), d_userdata (dec_params s)) :: told tr /\
    j_obj w' = Some o' /\ ongoing_job_q o' = Some [] /\ job_queue (job_mgr o') = job_queue (job_mgr o) /\ job_sem (job_mgr o') = job_sem (job_mgr o) +i 1.
Proof.
  intros Hs0 Hog Hab Hjo Hid Hcb. unfold run_cb. erewrite bind_run by reflexivity. change (o_tr (j_omx (at_ o s tr))) with (o_tr (j_omx w)). rewrite at_live.
  destruct Hdec as (_ & Hp & ->). cbv iota zeta. rewrite Z_to_sptr_of by done. erewrite bind_run by reflexivity. set (tr1 := JOmx h (FillBufferDone len va) :: tr).
  change (put_j_tr (JOmx h (FillBufferDone len va) :: j_tr (at_ o s tr)) (at_ o s tr)) with (at_ o s tr1). set (s1 := put_fbd_count (fbd_count s +i 1) s).
  set (s2 := put_job_status JPEG_JOB_STATUS_DONE s1). set (tr2 := JCallback cb JPEG_JOB_STATUS_DONE (client_hdl s2) (jobId s2) (Some (len, va)) (dec_data s2) :: tr1).
  set (o3 := put_ongoing_job_q (Some []) (with_session p s2 o)). set (o4 := with_session p (put_encoding false s2) o3).
  set (w5 := put_j_tr (JSemPost :: tr2) (put_j_obj (Some (put_job_mgr (put_job_sem (job_sem (job_mgr o4) +i 1) (job_mgr o4)) o4)) w)).
  rewrite (bind_run _ _ _ tt w5).
  { do 2 eexists. split; [reflexivity|]. done. }
  simpl. unfold mm_jpegdec_fbd. rewrite (bind_run _ _ _ _ _ (at_sess o s0 Hs0 s tr1)), Hab, bool_decide_true by done. cbn [negb].
  rewrite (bind_run _ _ _ _ _ (at_upd o s0 Hs0 s tr1 _)), Hcb. fold s1. rewrite (bind_run _ _ _ tt (at_ o s2 tr2)).
  2:{ unfold call_jpegdec_cb, call_cb. by rewrite (bind_run _ _ _ _ _ (at_upd o s0 Hs0 s1 tr1 _)), (bind_run _ _ _ _ _ (at_sess o s0 Hs0 s2 tr1)). }
  unfold mm_jpeg_job_done. rewrite (bind_run _ _ _ _ _ (at_sess o s0 Hs0 s2 tr2)). change (jpeg_obj s2) with (jpeg_obj s). rewrite Hjo.
  rewrite (bind_run _ _ _ [DecodeNode info] (at_ o s2 tr2)) by (unfold ongoing_q, the_obj; unM; simpl; by rewrite Hog).
  change (jobId s2) with (jobId s). rewrite Hid. unfold mm_jpeg_queue_remove_job_by_job_id. cbn [remove_first node_job_id]. rewrite Z.eqb_refl. unfold put_ongoing_q.
  rewrite (bind_run _ _ _ _ _ (upd_obj_run (at_ o s2 tr2) (with_session p s2 o) _ eq_refl)). fold o3.
  rewrite (bind_run _ _ _ _ _ (upd_sess_run (put_j_obj (Some o3) (at_ o s2 tr2)) o3 p s2 _ eq_refl (at_lookup o s0 Hs0 s2))). reflexivity.
Qed.

End Seq.

Section Theorems.
Context `{FL : Floats} `{OE : OmxEnv} `{JE : JpegEnv}.

(** The session of a job, with the job. *)
Definition with_job (info : mm_jpeg_decode_job_info_t) (s : mm_jpeg_job_session_t) : mm_jpeg_job_session_t :=
  put_jobId (d_job_id info) (put_s_decode_job (decode_job info) s).

(** C11: a decoding job given to a configured session whose component answers
    in time: the component gets the input buffer; when it has reported the
    settings of its output port this is disabled, asked for, given the size
    and number of the buffers of the client, and enabled; then each of these
    buffers is handed over, and the one the job asks for is to be filled; in
    this order and nothing else.  The client is not called before the
    component has filled the buffer; then it is called once, with the job and
    the length, the job leaves the queue and the job manager is woken. *)
Theorem decode_job_served w p h o s info cb len va (Hdec : decoder_of w p h) (Hpr : prompt h) (Ho : j_obj w = Some o) (Hs : session_of o p = Some s)
  (Hid : mm_jpeg_get_session (d_job_id info) = Some p) (Hog : ongoing_job_q o = Some []) (Hm : env_jmalloc (j_tr w) = true)
  (Hr : ready h (with_job info s)) (Hcb : d_jpeg_cb (dec_params s) = Some cb) :
  exists q hdrs dst w1 w2 o2, mm_jpegdec_process_decoding_job info w = Some (0, w1) /\
    d_dest_buf (dec_params s) !! Z.to_nat (d_dst_index (decode_job info)) = Some dst /\ length hdrs = Z.to_nat (d_num_dst_bufs (dec_params s)) /\
    calls_of h (j_tr w1) = rev (decode_calls (with_job info s) q hdrs dst) ++ calls_of h (j_tr w) /\ told (j_tr w1) = told (j_tr w) /\
    run_cb h (FillBufferDone len va) w1 = Some (None, w2) /\
    told (j_tr w2) = (cb, JPEG_JOB_STATUS_DONE, client_hdl s, d_job_id info, Some (len, va), d_userdata (dec_params s)) :: told (j_tr w) /\
    j_obj w2 = Some o2 /\ ongoing_job_q o2 = Some [] /\ job_queue (job_mgr o2) = job_queue (job_mgr o) /\ job_sem (job_mgr o2) = job_sem (job_mgr o) +i 1.
Proof.
  unfold mm_jpegdec_process_decoding_job. rewrite Hid. set (o1 := put_ongoing_job_q (Some [DecodeNode info]) o). set (tr1 := JMalloc true :: j_tr w).
  rewrite (bind_run _ _ _ 0 (put_j_tr tr1 (put_j_obj (Some o1) w))).
  2:{ unfold enq. rewrite (bind_run _ _ w true (put_j_tr tr1 w)) by (unfold jmalloc, jext; by rewrite Hm).
      rewrite (bind_run _ _ _ [] (put_j_tr tr1 w)) by (unfold ongoing_q, the_obj; unM; simpl; by rewrite Ho, Hog).
      unfold put_ongoing_q. rewrite (bind_run _ _ _ _ _ (upd_obj_run (put_j_tr tr1 w) o _ Ho)). done. }
  cbn [Z.eqb negb]. assert (Hs1 : session_of o1 p = Some s) by exact Hs. erewrite bind_run; [|apply (upd_sess_run _ o1 p s); [done|exact Hs1]].
  change (put_j_obj (Some (with_session p _ o1)) (put_j_tr tr1 (put_j_obj (Some o1) w))) with (at_ w p o1 (with_job info s) tr1).
  destruct (decode_run w p h Hdec o1 s Hs1 Hpr (with_job info s) tr1 Hr) as (q & hdrs & dst & tr' & s' & E & Hd & Hl & Hc & Ht & Ha & Hj & Hi & Hp & Hh).
  rewrite (bind_run _ _ _ _ _ E). cbn [Z.eqb]. pose proof (rd_obj _ _ Hr) as Hjo.
  destruct (at_filled w p h Hdec o1 s info s' tr' cb len va Hs1 eq_refl Ha) as (w2 & o2 & E2 & Ht2 & Ho2 & Hog2 & Hq2 & Hs2); [congruence|by rewrite Hi|by rewrite Hp|].
  exists q, hdrs, dst, (at_ w p o1 s' tr'), w2, o2. split; [done|]. split; [done|]. split; [done|]. split; [exact Hc|]. split; [exact Ht|]. split; [done|].
  split; [|done]. rewrite Ht2, Hi, Hp, Hh. change (j_tr (at_ w p o1 s' tr')) with tr'. by rewrite Ht.
Qed.

(** C40: the report of the port settings leaves the flag that the decoder
    looks at before it waits.  When the component reports them before the
    decoder waits, and says nothing more until its port is set up, the decoder
    waits for ever, in the thread of the job manager and with its mutex. *)
Theorem decode_lost_wakeup w p h o s hdr (Hdec : decoder_of w p h) (Ho : j_obj w = Some o) (Hs : session_of o p = Some s) (Hr : ready h s)
  (Hin : p_in_omx_buf s !! Z.to_nat (d_src_index (s_decode_job s)) = Some hdr) (Hok : env_comp (j_tr w) h (CEmptyThisBuffer hdr) = 0)
  (Hearly : env_deliver (JCall h (CEmptyThisBuffer hdr) 0 :: j_tr w) = [(h, EventHandler OMX_EventPortSettingsChanged)])
  (Hsilent : env_wait (JOmx h (EventHandler OMX_EventPortSettingsChanged) :: JCall h (CEmptyThisBuffer hdr) 0 :: j_tr w) h = []) :
  mm_jpegdec_session_decode p w = None.
Proof.
  destruct Hr as [Hh Hsh Hjo Hcf Hix]. unfold mm_jpegdec_session_decode. rewrite (bind_run _ _ _ _ _ (upd_sess_run w o p s _ Ho Hs)). set (s0 := put_encoding false _).
  replace (put_j_obj (Some (with_session p s0 o)) w) with (at_ w p o s0 (j_tr w)) by (by destruct w). rewrite (bind_run _ _ _ _ _ (at_sess w p o s Hs s0 (j_tr w))).
  change (config s0) with (config s). rewrite Hcf. erewrite bind_run by reflexivity. cbn [Z.eqb negb OMX_ErrorNone].
  rewrite (bind_run _ _ _ _ _ (at_upd w p o s Hs _ _ _)). unfold chk_abort. rewrite (bind_run _ _ _ _ _ (at_sess w p o s Hs _ _)), bool_decide_false by done.
  rewrite (bind_run _ _ _ _ _ (at_upd w p o s Hs _ _ _)), (bind_run _ _ _ _ _ (at_sess w p o s Hs _ _)). set (s1 := put_event_pending true _).
  change (p_in_omx_buf s1) with (p_in_omx_buf s). change (s_decode_job s1) with (s_decode_job s). rewrite Hin. erewrite bind_run by reflexivity.
  set (tr1 := JCall h (CEmptyThisBuffer hdr) 0 :: j_tr w). set (s2 := put_omxEvent OMX_EventPortSettingsChanged s1). set (tr2 := JOmx h (EventHandler OMX_EventPortSettingsChanged) :: tr1).
  rewrite (bind_run _ _ _ (0, CEmptyThisBuffer hdr) (at_ w p o s2 tr2)).
  2:{ unfold ucomp. rewrite (bind_run _ _ _ _ _ (at_comp w p h Hdec o s Hs s1 (j_tr w) _ Hh)), Hok. fold tr1. erewrite bind_run; [reflexivity|]. unfold deliver.
      erewrite bind_run by reflexivity. change (j_tr (at_ w p o s1 tr1)) with tr1. unfold tr1 at 1. rewrite Hearly. cbn [for_each].
      erewrite bind_run; [reflexivity|]. by rewrite (bind_run _ _ _ _ _ (at_run_cb w p h Hdec o s Hs s1 tr1 _ ltac:(done) (or_intror eq_refl))). }
  cbn [fst Z.eqb negb]. unfold await_output, wait_event, mbind at 1, M_bind at 1. rewrite (bind_run _ _ _ _ _ (at_sess w p o s Hs s2 tr2)). change (event_pending s2) with true. cbv iota.
  unfold mbind at 1, M_bind at 1. unfold cond_wait. rewrite (bind_run _ _ _ _ _ (at_sess w p o s Hs s2 tr2)). change (omx_handle s2) with (omx_handle s). rewrite Hh.
  erewrite bind_run by reflexivity. erewrite bind_run by reflexivity. change (j_tr (at_ w p o s2 tr2)) with tr2. unfold tr2, tr1. by rewrite Hsilent.
Qed.

End Theorems.
