(* ===== verification/JpegDecDemo.v ===== *)
(** * The JPEG decoder at work

    A phone with a decoder on which the theorems are tried, and runs that end
    badly. *)

From Stdlib Require Import ZArith Lia.
From stdpp Require Import countable numbers list gmap strings.
From S2P Require Import Prelude CamTypes JpegQueue QomxCore QomxProps JpegExif.
From S2P Require Import JpegData JpegBase Jpeg JpegDec JpegMgr JpegDecIntf JpegIds JpegInv JpegTotal JpegOps JpegDemo JpegDecProps JpegDecSeq.

#[local] Existing Instance decoder.

(** ** Deciding what a client may do *)

Section Check.
Context `{FL : Floats} `{OE : OmxEnv} `{JE : JpegEnv}.

Definition no_jobsb (p : sptr) (w : jworld) : bool :=
  match j_obj w with
  | Some o => forallb (fun n => negb (node_sid n =? sid p)) (default [] (job_queue (job_mgr o)) ++ default [] (ongoing_job_q o))
  | None => true
  end.

Definition activeb (p : sptr) (w : jworld) : bool :=
  match j_obj w with Some o => match session_of o p with Some s => active s | None => false end | None => false end.

Definition dec_mayb (a : dact) (w : jworld) : bool :=
  match a with
  | D_create _ ps => (0 <=? d_num_src_bufs ps) && (0 <=? d_num_dst_bufs ps) && bufs_okb (d_src_main_buf ps) && bufs_okb (d_dest_buf ps)
  | D_start j => match mm_jpeg_get_session (d_session_id j) with Some p => sid p =? d_session_id j | None => false end && (0 <=? d_src_index j) && (0 <=? d_dst_index j)
  | D_destroy id => match mm_jpeg_get_session id with Some p => (sid p =? id) && activeb p w && no_jobsb p w | None => false end
  | D_close hdl =>
      match j_obj w with
      | Some o => match clnt_mgr o !! Z.to_nat (mm_jpeg_util_get_index_by_handler hdl) with
                  | Some c => forallb (fun s => negb (active s)) (session c) | None => true end
      | None => true
      end
  | D_turn => match j_obj w with Some o => (0 <? job_sem (job_mgr o)) && (job_sem (job_mgr o) <? 2 ^ 31) | None => false end
  | _ => true
  end.

Lemma no_jobsb_ok p w : no_jobsb p w = true -> no_jobs p w.
Proof.
  unfold no_jobsb. intros H o Ho. rewrite Ho in H. apply Forall_forall. intros n Hn%list_elem_of_In. pose proof (proj1 (forallb_forall _ _) H n Hn) as E.
  cbv beta in E. by apply negb_true_iff, Z.eqb_neq in E.
Qed.

Lemma activeb_ok p w : activeb p w = true -> act p w.
Proof.
  unfold activeb. intros H. destruct (j_obj w) as [o|] eqn:Ho; [|done]. destruct (session_of o p) as [s|] eqn:Hs; [|done]. by exists o, s.
Qed.

Lemma dec_mayb_ok a w : dec_mayb a w = true -> dec_may a w.
Proof.
  destruct a as [hdl ps|job|id|id|hdl| |h cb]; simpl; try done.
  - rewrite !andb_true_iff, !Z.leb_le. intros [[[H1 H2] H3] H4]. split; [done|]. split; [done|]. by split; apply bufs_okb_ok.
  - rewrite !andb_true_iff, !Z.leb_le. intros [[H1 H2] H3]. split; [|done]. destruct (mm_jpeg_get_session (d_session_id job)) as [p|] eqn:Ep; [|done].
    apply Z.eqb_eq in H1. exists p. split; [by eapply get_session_in_table|done].
  - destruct (mm_jpeg_get_session id) as [p|]; [|done]. rewrite !andb_true_iff, Z.eqb_eq. intros [[H1 H2] H3]. exists p. split; [done|].
    split; [by apply activeb_ok|by apply no_jobsb_ok].
  - intros H i o s Ho Hs. rewrite Ho in H. unfold session_of in Hs. simpl in Hs. destruct (clnt_mgr o !! _) as [c|]; [|done]. simpl in Hs.
    apply list_elem_of_lookup_2, list_elem_of_In in Hs. pose proof (proj1 (forallb_forall _ _) H s Hs) as E. cbv beta in E. by apply negb_true_iff in E.
  - destruct (j_obj w) as [o|]; [|done]. rewrite andb_true_iff, !Z.ltb_lt. intros H. by exists o.
Qed.

(** The check of a whole run. *)
Definition dec_run_check (l : list dact) (w : jworld) : bool :=
  match jpegdec_open 5 true w with Some (_, w1) => alongb run_dact dec_mayb l w1 | None => true end.

Lemma dec_run_check_ok l w : dec_run_check l w = true -> forall hdl w1, jpegdec_open 5 true w = Some ((hdl, true), w1) -> along run_dact dec_may l w1.
Proof. unfold dec_run_check. intros H hdl w1 E. rewrite E in H. eapply (alongb_ok run_dact); [exact dec_mayb_ok|exact H]. Qed.

(** Where a run ends. *)
Definition dec_after (l : list dact) (w : jworld) : option jworld :=
  '(_, w1) ← jpegdec_open 5 true w; '(_, w2) ← run_all run_dact l w1; Some w2.

(** The state and the session of a run, with what the invariant says of them. *)
Lemma dec_reached lib_of (Hlib : libraries_ok lib_of) (Herr : OMX_ErrorInvalidComponent <> OMX_ErrorNone) (Hans : components_answer) l w w2 :
  closed_world lib_of w -> dec_resources w -> dec_run_check l w = true -> dec_after l w = Some w2 -> JpegInv.jinv lib_of None false w2.
Proof.
  intros Hw Hr Hc E. destruct (dec_open_ok lib_of 5 true w Hw Hr) as (hdl & w1 & E1 & _ & Hi). pose proof (dec_run_check_ok l w Hc hdl w1 E1) as Hal.
  destruct (dec_acts_ok lib_of Hlib Herr Hans false l w1) as (w3 & E3 & H3); [by apply (jinv_weaken lib_of None true)|done|done|].
  unfold dec_after in E. rewrite E1 in E. simpl in E. rewrite E3 in E. simpl in E. by injection E as <-.
Qed.

End Check.

(** ** The phone *)

Module DemoJpegDec.

#[local] Existing Instance DemoJpeg.demo_floats.

Definition world0 : jworld := DemoJpeg.world0.

#[local] Instance dec_omx : OmxEnv := DemoOmx.omx_with (fun _ => true) true.

(** A decoder that answers in time. *)
#[local] Instance dec_jpeg : JpegEnv := {|
  OMX_ErrorIncorrectStateTransition := 17; OMX_ErrorHardware := 9; env_comp := fun _ _ _ => 0; env_state := fun tr h => DemoJpeg.last_state h tr;
  env_port := fun _ _ q => q; env_index := fun _ _ => 7; env_header := fun tr _ _ => 1000 + Z.of_nat (length tr);
  env_deliver := fun _ => []; env_wait := fun tr h => [(h, EventHandler (answer tr))]; env_sem_wait := fun _ => [];
  env_jmalloc := fun _ => true; env_xmalloc := fun _ => DemoExif.next_fit; env_ion_open := fun _ => 3; env_ion_alloc := fun _ _ => (0, 5);
  env_ion_share := fun _ _ => (0, 4); env_mmap := fun _ _ => Some 4096; env_munmap := fun _ => 0 |}.

Definition dec_params1 : mm_jpeg_decode_params_t :=
  {| d_num_src_bufs := 1; d_num_dst_bufs := 2; d_src_main_buf := d_src_main_buf zero_dec_params; d_dest_buf := d_dest_buf zero_dec_params;
     d_color_format := MM_JPEG_COLOR_FORMAT_YCRCBLP_H2V2; d_jpeg_cb := Some 77; d_userdata := 3 |}.

Definition dec_job1 : mm_jpeg_decode_job_t :=
  {| d_src_index := 0; d_dst_index := 1; d_main_dim := DemoJpeg.demo_dim; d_session_id := DemoJpeg.session1 |}.

Definition client1 : Z := DemoJpeg.client1.

(** Two jobs, one after the other; then the session and the client go. *)
Definition two_jobs : list dact :=
  [D_create client1 dec_params1; D_start dec_job1; D_start dec_job1; D_turn; D_turn; D_callback 1 (FillBufferDone 1234 0); D_turn;
   D_callback 1 (FillBufferDone 1234 0); D_destroy DemoJpeg.session1; D_close client1].

Lemma dec_closed : closed_world DemoJpeg.demo_lib world0.
Proof. by constructor. Qed.

Lemma dec_libraries : libraries_ok DemoJpeg.demo_lib.
Proof. apply (DemoOmx.demo_libraries (fun _ => true)). Qed.

Lemma dec_answers : components_answer.
Proof. intros tr h. exists (answer tr). split; [|constructor]. unfold answer. repeat case_match; done. Qed.

Lemma dec_error : OMX_ErrorInvalidComponent <> OMX_ErrorNone.
Proof. done. Qed.

Lemma jpegdec_invariant_witness : exists hdl w1 w2, jpegdec_open 5 true world0 = Some ((hdl, true), w1) /\ run_all run_dact two_jobs w1 = Some (tt, w2) /\
  JpegInv.jinv DemoJpeg.demo_lib None false w2.
Proof.
  destruct (jpegdec_invariant DemoJpeg.demo_lib dec_libraries dec_error dec_answers 5 world0 two_jobs dec_closed (conj eq_refl eq_refl)) as (hdl & w1 & w2 & E1 & _ & E2 & H & _).
  - apply dec_run_check_ok. by vm_compute.
  - by exists hdl, w1, w2.
Defined.

(** ** A job running, another waiting *)

Definition one_running : list dact := take 4 two_jobs.

Definition state_of (l : list dact) : jworld := default world0 (dec_after l world0).

Definition ends (l : list dact) : bool := match dec_after l world0 with Some _ => true | None => false end.

Lemma state_inv l : dec_run_check l world0 = true -> ends l = true -> JpegInv.jinv DemoJpeg.demo_lib None false (state_of l).
Proof.
  unfold state_of, ends. intros Hc He. destruct (dec_after l world0) as [w|] eqn:E; [|done].
  by apply (dec_reached DemoJpeg.demo_lib dec_libraries dec_error dec_answers l world0 w dec_closed (conj eq_refl eq_refl)).
Qed.

Lemma running_inv : JpegInv.jinv DemoJpeg.demo_lib None false (state_of one_running).
Proof. apply state_inv; by vm_compute. Qed.

Definition first_runs (w : jworld) : bool :=
  activeb (0%nat, 0%nat) w &&
  match j_obj w with
  | Some o =>
      match ongoing_job_q o, job_queue (job_mgr o) with
      | Some [DecodeNode i], Some [n] => (d_session_id (decode_job i) =? DemoJpeg.session1) && (node_job_id n =? DemoJpeg.job2)
      | _, _ => false
      end
  | None => false
  end.

Lemma dec_quiet : quiet_components.
Proof. split; [done|]. intros tr h. exists (answer tr). split; [|done]. unfold answer. repeat case_match; auto. Qed.

Lemma destroy_leaves_jobs_witness : exists w w' o' n i, mm_jpegdec_destroy_session_by_id DemoJpeg.session1 w = Some (0, w') /\ j_obj w' = Some o' /\
  job_queue (job_mgr o') = Some [n] /\ node_job_id n = DemoJpeg.job2 /\ ongoing_job_q o' = Some [DecodeNode i] /\ jobmgr_turn w' = Some (true, w') /\
  mm_jpegdec_deinit 100 w' = None.
Proof.
  assert (Hf : first_runs (state_of one_running) = true) by (by vm_compute). pose proof running_inv as Hi. generalize dependent (state_of one_running). intros w Hf Hi.
  apply andb_true_iff in Hf as [Ha%activeb_ok Hf]. destruct (j_obj w) as [o|] eqn:Ho; [|done].
  destruct (ongoing_job_q o) as [[|[|i|] [|]]|] eqn:Hog; try done. destruct (job_queue (job_mgr o)) as [[|n [|]]|] eqn:Ht; try done.
  apply andb_true_iff in Hf as [H1%Z.eqb_eq H2%Z.eqb_eq].
  destruct (destroy_leaves_jobs DemoJpeg.demo_lib dec_libraries dec_answers dec_quiet false w (0%nat, 0%nat) o [n] i Hi Ha Ho Ht Hog H1)
    as (w' & o' & E & Ho' & _ & Hq & Hg & Hturn & Hde).
  exists w, w', o', n, i. split; [exact E|]. split; [done|]. split; [done|]. split; [done|]. split; [done|]. split; [done|]. by apply Hde.
Defined.

(** ** The second job of a session *)

Definition one_done : list dact := [D_create client1 dec_params1; D_start dec_job1; D_turn; D_callback 1 (FillBufferDone 1234 0)].

Definition info2 : mm_jpeg_decode_job_info_t := {| decode_job := dec_job1; d_job_id := DemoJpeg.job2; d_client_handle := client1 |}.

Definition second_next (w : jworld) : bool :=
  comp_live 1 (o_tr (j_omx w)) &&
  match app_data 1 (o_tr (j_omx w)), j_obj w with
  | Some {| appData := 0; callBacks := DecoderCallbacks |}, Some o =>
      match session_of o (0%nat, 0%nat), ongoing_job_q o with
      | Some s, Some [] =>
          config s && jpeg_obj s && bool_decide (omx_handle s = Some 1) && bool_decide (d_jpeg_cb (dec_params s) = Some 77) && (d_num_dst_bufs (dec_params s) =? 2) &&
          (d_dst_index (s_decode_job s) =? 1) && (d_src_index (s_decode_job s) =? 0)
      | _, _ => false
      end
  | _, _ => false
  end.

Lemma dec_prompt : prompt 1.
Proof. done. Qed.

(** A session that has decoded a job, as the theorems need it. *)
Lemma next_ready w : JpegInv.jinv DemoJpeg.demo_lib None false w -> second_next w = true -> decoder_of w (0%nat, 0%nat) 1 /\ exists o s,
  j_obj w = Some o /\ session_of o (0%nat, 0%nat) = Some s /\ ongoing_job_q o = Some [] /\ ready 1 (with_job info2 s) /\ d_jpeg_cb (dec_params s) = Some 77 /\
  d_num_dst_bufs (dec_params s) = 2 /\ ready 1 s.
Proof.
  intros (o1 & todo & og & H) Hf. unfold second_next in Hf. apply andb_true_iff in Hf as [Hal%bool_decide_eq_true Hf].
  destruct (app_data 1 (o_tr (j_omx w))) as [[[| |] []]|] eqn:Hap; try done. destruct (j_obj w) as [o|] eqn:Ho; [|done].
  destruct (session_of o (0%nat, 0%nat)) as [s|] eqn:Hs; [|done]. destruct (ongoing_job_q o) as [[|]|] eqn:Hog; try done.
  rewrite !andb_true_iff, !bool_decide_eq_true, Z.eqb_eq in Hf. rewrite !Z.eqb_eq in Hf. destruct Hf as ((((((H1 & H2) & H3) & H4) & H5) & H6) & H7).
  split; [split; [done|]; split; [simpl; lia|done]|]. exists o, s. split; [done|]. split; [done|]. split; [done|]. rewrite (js_obj _ _ _ _ _ _ _ H) in Ho. injection Ho as <-.
  destruct (js_sess _ _ _ _ _ _ _ H _ s Hs) as [[] _].
  split; [by split; [|split| | |simpl; rewrite H5]|]. split; [done|]. split; [done|]. split; try done; by rewrite ?H5, ?H6.
Qed.

Lemma done_inv : JpegInv.jinv DemoJpeg.demo_lib None false (state_of one_done).
Proof. apply state_inv; by vm_compute. Qed.

Lemma decode_job_served_witness : exists w w1 w2 q hdrs dst s, mm_jpegdec_process_decoding_job info2 w = Some (0, w1) /\ length hdrs = 2%nat /\
  calls_of 1 (j_tr w1) = rev (decode_calls (with_job info2 s) q hdrs dst) ++ calls_of 1 (j_tr w) /\ run_cb 1 (FillBufferDone 99 0) w1 = Some (None, w2) /\
  told (j_tr w2) = (77, JPEG_JOB_STATUS_DONE, client_hdl s, DemoJpeg.job2, Some (99, 0), d_userdata (dec_params s)) :: told (j_tr w1).
Proof.
  assert (Hf : second_next (state_of one_done) = true) by (by vm_compute). pose proof done_inv as Hi. generalize dependent (state_of one_done). intros w Hf Hi.
  assert (Hid : mm_jpeg_get_session (d_job_id info2) = Some (0%nat, 0%nat)) by (by vm_compute).
  destruct (next_ready w Hi Hf) as (Hdec & o & s & Ho & Hs & Hog & Hr & Hcb & Hn & _).
  destruct (decode_job_served w (0%nat, 0%nat) 1 o s info2 77 99 0 Hdec dec_prompt Ho Hs Hid Hog eq_refl Hr Hcb)
    as (q & hdrs & dst & w1 & w2 & o2 & E1 & _ & Hl & Hc & Ht1 & E2 & Ht2 & _).
  exists w, w1, w2, q, hdrs, dst, s. split; [exact E1|]. split; [by rewrite Hl, Hn|]. split; [exact Hc|]. split; [exact E2|]. rewrite Ht2, Ht1. reflexivity.
Defined.

(** ** A component that reports the settings early *)

(** How often the component got an input buffer. *)
Definition inputs (tr : jhistory) : nat := length (omap (fun e => match e with JCall _ (CEmptyThisBuffer _) _ => Some tt | _ => None end) tr).

(** As above, but with the second input buffer the settings come before the
    call returns, and nothing after them. *)
Definition racy_jpeg : JpegEnv := {|
  OMX_ErrorIncorrectStateTransition := 17; OMX_ErrorHardware := 9; env_comp := fun _ _ _ => 0; env_state := fun tr h => DemoJpeg.last_state h tr;
  env_port := fun _ _ q => q; env_index := fun _ _ => 7; env_header := fun tr _ _ => 1000 + Z.of_nat (length tr);
  env_deliver := fun tr => match tr with
                           | JCall h (CEmptyThisBuffer _) _ :: _ => if (inputs tr =? 2)%nat then [(h, EventHandler OMX_EventPortSettingsChanged)] else []
                           | _ => []
                           end;
  env_wait := fun tr h => match tr with JOmx _ (EventHandler OMX_EventPortSettingsChanged) :: JCall _ (CEmptyThisBuffer _) _ :: _ =>
                          if (inputs tr =? 2)%nat then [] else [(h, EventHandler (answer tr))] | _ => [(h, EventHandler (answer tr))] end;
  env_sem_wait := fun _ => [];
  env_jmalloc := fun _ => true; env_xmalloc := fun _ => DemoExif.next_fit; env_ion_open := fun _ => 3; env_ion_alloc := fun _ _ => (0, 5);
  env_ion_share := fun _ _ => (0, 4); env_mmap := fun _ _ => Some 4096; env_munmap := fun _ => 0 |}.

(** Up to the second job it does what the other one does. *)
Example racy_first_job : j_tr <$> dec_after (JE := racy_jpeg) one_done world0 = j_tr <$> dec_after one_done world0.
Proof. by vm_compute. Qed.

Lemma decode_lost_wakeup_witness : exists w, inputs (j_tr w) = 1%nat /\ decoder_of w (0%nat, 0%nat) 1 /\ mm_jpegdec_session_decode (JE := racy_jpeg) (0%nat, 0%nat) w = None.
Proof.
  assert (Hf : second_next (state_of one_done) = true) by (by vm_compute). assert (Hn : inputs (j_tr (state_of one_done)) = 1%nat) by (by vm_compute).
  pose proof done_inv as Hi. generalize dependent (state_of one_done). intros w Hf Hn Hi. destruct (next_ready w Hi Hf) as (Hdec & o & s & Ho & Hs & _ & _ & _ & _ & Hr).
  destruct (lookup_lt_is_Some_2 (p_in_omx_buf s) (Z.to_nat (d_src_index (s_decode_job s)))) as [hdr Hin].
  { rewrite (ss_in _ (rd_shape _ _ Hr)). destruct (ss_dec_job _ (rd_shape _ _ Hr)) as [? ?]. unfold MM_JPEG_MAX_BUF. lia. }
  exists w. split; [exact Hn|]. split; [exact Hdec|]. apply (decode_lost_wakeup (JE := racy_jpeg) w (0%nat, 0%nat) 1 o s hdr Hdec Ho Hs Hr Hin).
  - reflexivity.
  - cbn [env_deliver racy_jpeg]. change (inputs (_ :: _)) with (S (inputs (j_tr w))). by rewrite Hn.
  - cbn [env_wait racy_jpeg]. change (inputs (_ :: _)) with (S (inputs (j_tr w))). by rewrite Hn.
Defined.

(** ** Runs that end badly *)

(** A session identifier out of range: the identifier of the session is read
    before the pointer is compared with null. *)
Example unknown_session_crashes : ('(_, _) ← jpegdec_open 5 true; mm_jpegdec_intf_destroy_session 42) world0 = None.
Proof. by vm_compute. Qed.

(** Destroying a session that has not decoded: its buffers, which the component
    never got, are freed. *)
Example unused_session_frees :
  match ('(a, _) ← jpegdec_open 5 true; mm_jpegdec_create_session a dec_params1;; mm_jpegdec_intf_destroy_session DemoJpeg.session1) world0 with
  | Some (rc, w) => rc = 0 /\ calls_of 1 (j_tr w) =
      [CFreeBuffer 1 None; CFreeBuffer 1 None; CFreeBuffer 0 None; CSendCommand (OMX_CommandStateSet OMX_StateLoaded);
       CGetState OMX_StateIdle; CSendCommand (OMX_CommandStateSet OMX_StateIdle); CGetState OMX_StateLoaded]
  | None => False
  end.
Proof. by vm_compute. Qed.

(** A component that reports the settings of its port a second time, when the
    completion of a command is awaited. *)
Definition chatty_jpeg : JpegEnv := {|
  OMX_ErrorIncorrectStateTransition := 17; OMX_ErrorHardware := 9; env_comp := fun _ _ _ => 0; env_state := fun tr h => DemoJpeg.last_state h tr;
  env_port := fun _ _ q => q; env_index := fun _ _ => 7; env_header := fun tr _ _ => 1000 + Z.of_nat (length tr);
  env_deliver := fun _ => [];
  env_wait := fun tr h => [(h, EventHandler (match tr with JCall _ (CUseBuffer 1 _ _ _ _) _ :: _ => OMX_EventPortSettingsChanged | _ => answer tr end))];
  env_sem_wait := fun _ => [];
  env_jmalloc := fun _ => true; env_xmalloc := fun _ => DemoExif.next_fit; env_ion_open := fun _ => 3; env_ion_alloc := fun _ _ => (0, 5);
  env_ion_share := fun _ _ => (0, 4); env_mmap := fun _ _ => Some 4096; env_munmap := fun _ => 0 |}.

(** The function is left with the success of the call before: the job stays in
    the queue, no buffer is to be filled and the client is not told. *)
Example unexpected_event_forgotten :
  match dec_after (JE := chatty_jpeg) [D_create client1 dec_params1; D_start dec_job1; D_turn] world0 with
  | Some w => told (j_tr w) = [] /\ Forall (fun c => match c with CFillThisBuffer _ => False | _ => True end) (calls_of 1 (j_tr w)) /\
      exists n, (j_obj w ≫= ongoing_job_q) = Some [n]
  | None => False
  end.
Proof. vm_compute. split; [done|]. split; [|by eexists]. repeat constructor. Qed.

(** As in the encoder, no memory for the core is reported as success. *)
Example dec_failed_core_reported_ok :
  match jpegdec_open (OE := DemoJpeg.poor_omx) 5 true world0 with
  | Some ((hdl, _), w) => 0 < hdl /\ g_omxcore (j_omx w) = None /\ mm_jpegdec_create_session (OE := DemoJpeg.poor_omx) hdl dec_params1 w = None
  | None => False
  end.
Proof. by vm_compute. Qed.

End DemoJpegDec.
