(* ===== verification/HalSm.v ===== *)
(** * The state machine of the camera HAL ([QCameraStateMachine.cpp])

    The thread of the state machine takes the requests of the framework (API)
    and the events of the libraries below, and depending on the state calls
    the hardware interface object, changes the state and hands the result to
    the thread that waits for it.  One definition per state function, with a
    branch for every event.

    The hardware interface object ([QCamera2HWI.cpp]) is reached through the
    class [HwiEnv]: what a method returns may depend on everything that
    happened before and is otherwise open, so that what is proved holds
    whatever it does.  The few methods that only set or read a field of the
    object are written out. *)

From Stdlib Require Import ZArith Lia.
From stdpp Require Import base numbers list.
From S2P Require Import Prelude.

(** ** Data ([QCameraStateMachine.h]) *)

Inductive qcamera_sm_evt_enum_t : Set :=
| QCAMERA_SM_EVT_SET_PREVIEW_WINDOW | QCAMERA_SM_EVT_SET_CALLBACKS | QCAMERA_SM_EVT_ENABLE_MSG_TYPE
| QCAMERA_SM_EVT_DISABLE_MSG_TYPE | QCAMERA_SM_EVT_MSG_TYPE_ENABLED
| QCAMERA_SM_EVT_SET_PARAMS | QCAMERA_SM_EVT_GET_PARAMS | QCAMERA_SM_EVT_PUT_PARAMS
| QCAMERA_SM_EVT_START_PREVIEW | QCAMERA_SM_EVT_START_NODISPLAY_PREVIEW | QCAMERA_SM_EVT_STOP_PREVIEW
| QCAMERA_SM_EVT_PREVIEW_ENABLED
| QCAMERA_SM_EVT_STORE_METADATA_IN_BUFS | QCAMERA_SM_EVT_START_RECORDING | QCAMERA_SM_EVT_STOP_RECORDING
| QCAMERA_SM_EVT_RECORDING_ENABLED | QCAMERA_SM_EVT_RELEASE_RECORIDNG_FRAME
| QCAMERA_SM_EVT_PREPARE_SNAPSHOT | QCAMERA_SM_EVT_TAKE_PICTURE | QCAMERA_SM_EVT_CANCEL_PICTURE
| QCAMERA_SM_EVT_START_AUTO_FOCUS | QCAMERA_SM_EVT_STOP_AUTO_FOCUS | QCAMERA_SM_EVT_SEND_COMMAND
| QCAMERA_SM_EVT_RELEASE | QCAMERA_SM_EVT_DUMP | QCAMERA_SM_EVT_REG_FACE_IMAGE
| QCAMERA_SM_EVT_EVT_INTERNAL | QCAMERA_SM_EVT_EVT_NOTIFY | QCAMERA_SM_EVT_JPEG_EVT_NOTIFY
| QCAMERA_SM_EVT_SNAPSHOT_DONE | QCAMERA_SM_EVT_THERMAL_NOTIFY | QCAMERA_SM_EVT_MAX.

#[export] Instance sm_evt_eq_dec : EqDecision qcamera_sm_evt_enum_t.
Proof. solve_decision. Defined.

Inductive qcamera_state_enum_t : Set :=
| QCAMERA_SM_STATE_PREVIEW_STOPPED | QCAMERA_SM_STATE_PREVIEW_READY | QCAMERA_SM_STATE_PREVIEWING
| QCAMERA_SM_STATE_PREPARE_SNAPSHOT | QCAMERA_SM_STATE_PIC_TAKING | QCAMERA_SM_STATE_RECORDING
| QCAMERA_SM_STATE_VIDEO_PIC_TAKING | QCAMERA_SM_STATE_PREVIEW_PIC_TAKING.

#[export] Instance sm_state_eq_dec : EqDecision qcamera_state_enum_t.
Proof. solve_decision. Defined.

(** [result_type] with the member of the union it selects. *)
Inductive api_result_value : Set :=
| QCAMERA_API_RESULT_TYPE_DEF
| QCAMERA_API_RESULT_TYPE_ENABLE_FLAG (enabled : Z)
| QCAMERA_API_RESULT_TYPE_PARAMS (params : Z)
| QCAMERA_API_RESULT_TYPE_HANDLE (handle : Z).

Record qcamera_api_result_t := { status : Z; request_api : qcamera_sm_evt_enum_t; value : api_result_value }.

Record qcamera_sm_evt_setcb_payload_t := { notify_cb : Z; data_cb : Z; data_cb_timestamp : Z; get_memory : Z; user : Z }.
Record qcamera_sm_evt_command_payload_t := { cmd : Z; arg1 : Z; arg2 : Z }.
Record qcamera_sm_evt_reg_face_payload_t := { img_ptr : Z; config : Z }.

(** The type of the event with the member of the union it selects; the data
    are passed on unread. *)
Inductive qcamera_sm_internal_evt_payload_t : Set :=
| QCAMERA_INTERNAL_EVT_FOCUS_UPDATE (focus_data : Z)
| QCAMERA_INTERNAL_EVT_PREP_SNAPSHOT_DONE (prep_snapshot_state : Z)
| QCAMERA_INTERNAL_EVT_FACE_DETECT_RESULT (faces_data : Z)
| QCAMERA_INTERNAL_EVT_HISTOGRAM_STATS (stats_data : Z)
| QCAMERA_INTERNAL_EVT_CROP_INFO (crop_data : Z)
| QCAMERA_INTERNAL_EVT_MAX.

(** What the pointer of an event is: a number, with 0 for the null pointer, or
    the address of a structure. *)
Inductive sm_payload : Set :=
| P_word (z : Z)
| P_setcb (p : qcamera_sm_evt_setcb_payload_t)
| P_command (p : qcamera_sm_evt_command_payload_t)
| P_reg_face (p : qcamera_sm_evt_reg_face_payload_t)
| P_internal (p : qcamera_sm_internal_evt_payload_t)
| P_server (server_event_type : Z)
| P_jpeg (job : Z).

Definition as_word (p : sm_payload) : option Z := match p with P_word z => Some z | _ => None end.
Definition as_setcb (p : sm_payload) : option qcamera_sm_evt_setcb_payload_t := match p with P_setcb p => Some p | _ => None end.
Definition as_command (p : sm_payload) : option qcamera_sm_evt_command_payload_t := match p with P_command p => Some p | _ => None end.
Definition as_reg_face (p : sm_payload) : option qcamera_sm_evt_reg_face_payload_t := match p with P_reg_face p => Some p | _ => None end.
Definition as_internal (p : sm_payload) : option qcamera_sm_internal_evt_payload_t := match p with P_internal p => Some p | _ => None end.
Definition as_server (p : sm_payload) : option Z := match p with P_server t => Some t | _ => None end.
Definition as_jpeg (p : sm_payload) : option Z := match p with P_jpeg j => Some j | _ => None end.

(** Error codes of [utils/Errors.h]. *)
Definition NO_ERROR : Z := 0.
Definition BAD_VALUE : Z := -22.
Definition INVALID_OPERATION : Z := -38.

Inductive qcamera_ch_type_enum_t : Set := QCAMERA_CH_TYPE_ZSL | QCAMERA_CH_TYPE_PREVIEW.

(** ** The hardware interface *)

Inductive hwi_call : Set :=
| HSetCallBacks (p : qcamera_sm_evt_setcb_payload_t)
| HUpdateParameters (p : Z) (needRestart : bool)
| HCommitParameterChanges
| HGetParameters
| HPutParameters (p : Z)
| HPreparePreview
| HUnpreparePreview
| HStartPreview
| HStopPreview
| HStartRecording
| HStopRecording
| HReleaseRecordingFrame (p : Z)
| HPrepareHardwareForSnapshot
| HTakePicture
| HCancelPicture
| HTakeLiveSnapshot
| HCancelLiveSnapshot
| HStopChannel (ty : qcamera_ch_type_enum_t)
| HAutoFocus
| HCancelAutoFocus
| HStoreMetaDataInBuffers (enable : Z)
| HSendCommand (p : qcamera_sm_evt_command_payload_t)
| HRegisterFaceImage (p : qcamera_sm_evt_reg_face_payload_t) (faceID : Z)
| HRelease
| HDump (fd : Z)
| HUpdateThermalLevel (level : Z)
| HServerDied
| HProcessAutoFocusEvent (d : Z)
| HProcessPrepSnapshotDoneEvent (d : Z)
| HProcessFaceDetectionResult (d : Z)
| HProcessHistogramStats (d : Z)
| HProcessZoomEvent (d : Z)
| HProcessJpegNotify (job : Z).

(** What happens outside of the state machine: a method was called and
    returned, or a result was handed over. *)
Inductive hev : Set :=
| HCall (c : hwi_call) (rc : Z)
| HSignalAPI (r : qcamera_api_result_t)
| HSignalEvt (r : qcamera_api_result_t).

Definition hhistory : Type := list hev.

(** The results of the methods, and the modes that the parameters say. *)
Class HwiEnv : Type := {
  env_rc : hhistory -> hwi_call -> Z;
  env_need_restart : hhistory -> bool;
  env_face : hhistory -> Z;
  env_zsl : hhistory -> bool;
  env_hint : hhistory -> bool
}.

Record smworld := {
  m_state : qcamera_state_enum_t;
  mPreviewWindow : Z;
  mMsgEnabled : Z;
  h_tr : hhistory
}.

Definition set_m_state (v : qcamera_state_enum_t) (x : smworld) : smworld :=
  {| m_state := v; mPreviewWindow := mPreviewWindow x; mMsgEnabled := mMsgEnabled x; h_tr :=
     h_tr x |}.

Definition set_mPreviewWindow (v : Z) (x : smworld) : smworld :=
  {| m_state := m_state x; mPreviewWindow := v; mMsgEnabled := mMsgEnabled x; h_tr := h_tr x
     |}.

Definition set_mMsgEnabled (v : Z) (x : smworld) : smworld :=
  {| m_state := m_state x; mPreviewWindow := mPreviewWindow x; mMsgEnabled := v; h_tr :=
     h_tr x |}.

Definition set_h_tr (v : hhistory) (x : smworld) : smworld :=
  {| m_state := m_state x; mPreviewWindow := mPreviewWindow x; mMsgEnabled := mMsgEnabled x;
     h_tr := v |}.

Section Code.
Context `{HE : HwiEnv}.

Definition hnote (e : hev) : M smworld unit := modify (fun w => set_h_tr (e :: h_tr w) w).
Definition goto (st : qcamera_state_enum_t) : M smworld unit := modify (set_m_state st).

(** A call of the object: [c] says what is passed, what is returned by
    reference included. *)
Definition hwi_with (c : hhistory -> hwi_call) : M smworld (hwi_call * Z) :=
  tr ← gets h_tr;
  let rc := env_rc tr (c tr) in
  hnote (HCall (c tr) rc);;
  mret (c tr, rc).
Definition hwi (c : hwi_call) : M smworld Z := r ← hwi_with (fun _ => c); mret r.2.
Definition isZSLMode : M smworld bool := gets (fun w => env_zsl (h_tr w)).
Definition getRecordingHintValue : M smworld bool := gets (fun w => env_hint (h_tr w)).

Definition setPreviewWindow (window : Z) : M smworld Z := modify (set_mPreviewWindow window);; mret NO_ERROR.
Definition enableMsgType (msg_type : Z) : M smworld Z := modify (fun w => set_mMsgEnabled (Z.lor (mMsgEnabled w) msg_type) w);; mret NO_ERROR.
Definition disableMsgType (msg_type : Z) : M smworld Z :=
  modify (fun w => set_mMsgEnabled (Z.land (mMsgEnabled w) (Z.lnot msg_type)) w);; mret NO_ERROR.
Definition msgTypeEnabled (msg_type : Z) : M smworld Z := gets (fun w => Z.land (mMsgEnabled w) msg_type).

(** The member of the union that [value] leaves out is zero. *)
Definition signalAPIResult (r : qcamera_api_result_t) : M smworld unit := hnote (HSignalAPI r).
Definition signalEvtResult (r : qcamera_api_result_t) : M smworld unit := hnote (HSignalEvt r).

(** ** What the branches of the state functions share *)

(** The end of most branches. *)
Definition reply (evt : qcamera_sm_evt_enum_t) (rc : Z) (v : api_result_value) : M smworld Z :=
  signalAPIResult {| status := rc; request_api := evt; value := v |};; mret rc.
Definition reply_call (evt : qcamera_sm_evt_enum_t) (m : M smworld Z) : M smworld Z :=
  rc ← m; reply evt rc QCAMERA_API_RESULT_TYPE_DEF.
Definition reply_enabled (evt : qcamera_sm_evt_enum_t) (enabled : Z) : M smworld Z :=
  reply evt NO_ERROR (QCAMERA_API_RESULT_TYPE_ENABLE_FLAG enabled).
Definition no_op (evt : qcamera_sm_evt_enum_t) : M smworld Z := reply evt NO_ERROR QCAMERA_API_RESULT_TYPE_DEF.
Definition cannot_handle (evt : qcamera_sm_evt_enum_t) : M smworld Z := reply evt INVALID_OPERATION QCAMERA_API_RESULT_TYPE_DEF.

Definition set_callbacks (evt : qcamera_sm_evt_enum_t) (payload : sm_payload) : M smworld Z :=
  p ← deref (as_setcb payload); reply_call evt (hwi (HSetCallBacks p)).
Definition enable_msg (evt : qcamera_sm_evt_enum_t) (payload : sm_payload) : M smworld Z :=
  t ← deref (as_word payload); reply_call evt (enableMsgType (i32 t)).
Definition disable_msg (evt : qcamera_sm_evt_enum_t) (payload : sm_payload) : M smworld Z :=
  t ← deref (as_word payload); reply_call evt (disableMsgType (i32 t)).
Definition msg_enabled (evt : qcamera_sm_evt_enum_t) (payload : sm_payload) : M smworld Z :=
  t ← deref (as_word payload); enabled ← msgTypeEnabled (i32 t); reply_enabled evt enabled.
Definition get_params (evt : qcamera_sm_evt_enum_t) : M smworld Z :=
  params ← hwi HGetParameters; reply evt NO_ERROR (QCAMERA_API_RESULT_TYPE_PARAMS params).
Definition put_params (evt : qcamera_sm_evt_enum_t) (payload : sm_payload) : M smworld Z :=
  p ← deref (as_word payload); reply_call evt (hwi (HPutParameters p)).
Definition store_metadata (evt : qcamera_sm_evt_enum_t) (payload : sm_payload) : M smworld Z :=
  p ← deref (as_word payload); reply_call evt (hwi (HStoreMetaDataInBuffers (i32 p))).
Definition do_dump (evt : qcamera_sm_evt_enum_t) (payload : sm_payload) : M smworld Z :=
  p ← deref (as_word payload); reply_call evt (hwi (HDump (i32 p))).
Definition do_command (evt : qcamera_sm_evt_enum_t) (payload : sm_payload) : M smworld Z :=
  p ← deref (as_command payload); reply_call evt (hwi (HSendCommand p)).
Definition release_frame (evt : qcamera_sm_evt_enum_t) (payload : sm_payload) : M smworld Z :=
  p ← deref (as_word payload); reply_call evt (hwi (HReleaseRecordingFrame p)).
Definition reg_face (evt : qcamera_sm_evt_enum_t) (payload : sm_payload) : M smworld Z :=
  p ← deref (as_reg_face payload);
  r ← hwi_with (fun tr => HRegisterFaceImage p (env_face tr));
  let faceID := match r.1 with HRegisterFaceImage _ id => id | _ => 0 end in
  reply evt r.2 (QCAMERA_API_RESULT_TYPE_HANDLE faceID).

(** The result, and whether the preview has to be restarted. *)
Definition updateParameters (payload : sm_payload) : M smworld (Z * bool) :=
  p ← deref (as_word payload);
  r ← hwi_with (fun tr => HUpdateParameters p (env_need_restart tr));
  mret (r.2, match r.1 with HUpdateParameters _ b => b | _ => false end).

(** Parameters while no preview depends on them, and during a recording. *)
Definition set_params_plain (evt : qcamera_sm_evt_enum_t) (payload : sm_payload) : M smworld Z :=
  reply_call evt (
    '(rc, _) ← updateParameters payload;
    if rc =? NO_ERROR then hwi HCommitParameterChanges else mret rc).
Definition set_params_recording (evt : qcamera_sm_evt_enum_t) (payload : sm_payload) : M smworld Z :=
  reply_call evt (
    '(rc, needRestart) ← updateParameters payload;
    if rc =? NO_ERROR then
      if needRestart : bool then mret BAD_VALUE else hwi HCommitParameterChanges
    else mret rc).

(** [preparePreview], then [startPreview], undone if it fails. *)
Definition prepare_and_start : M smworld Z :=
  rc ← hwi HPreparePreview;
  if rc =? NO_ERROR then
    rc ← hwi HStartPreview;
    if negb (rc =? NO_ERROR) then hwi HUnpreparePreview;; mret rc else mret rc
  else mret rc.

(** A running preview is restarted when the parameters need it; [off] is the
    state if this fails. *)
Definition set_params_restart (off : qcamera_state_enum_t) (evt : qcamera_sm_evt_enum_t) (payload : sm_payload) : M smworld Z :=
  reply_call evt (
    '(rc, needRestart) ← updateParameters payload;
    if rc =? NO_ERROR then
      if needRestart : bool then
        hwi HStopPreview;;
        hwi HCommitParameterChanges;;
        rc ← prepare_and_start;
        (if negb (rc =? NO_ERROR) then goto off else mret tt);;
        mret rc
      else hwi HCommitParameterChanges
    else mret rc).

Definition thermal_notify (payload : sm_payload) : M smworld Z :=
  level ← deref (as_word payload); hwi (HUpdateThermalLevel level).

Definition CAM_EVENT_TYPE_DAEMON_DIED : Z := Z.shiftl 1 3.

Definition evt_notify (payload : sm_payload) : M smworld Z :=
  ty ← deref (as_server payload);
  (if ty =? CAM_EVENT_TYPE_DAEMON_DIED then hwi HServerDied;; mret tt else mret tt);;
  mret NO_ERROR.

Definition jpeg_notify (payload : sm_payload) : M smworld Z :=
  job ← deref (as_jpeg payload); hwi (HProcessJpegNotify job).

(** An internal event while a preview runs; [done] handles the end of the
    preparation of a snapshot. *)
Definition evt_internal (done : Z -> M smworld Z) (payload : sm_payload) : M smworld Z :=
  p ← deref (as_internal payload);
  match p with
  | QCAMERA_INTERNAL_EVT_FOCUS_UPDATE d => hwi (HProcessAutoFocusEvent d)
  | QCAMERA_INTERNAL_EVT_PREP_SNAPSHOT_DONE d => done d
  | QCAMERA_INTERNAL_EVT_FACE_DETECT_RESULT d => hwi (HProcessFaceDetectionResult d)
  | QCAMERA_INTERNAL_EVT_HISTOGRAM_STATS d => hwi (HProcessHistogramStats d)
  | QCAMERA_INTERNAL_EVT_CROP_INFO d => hwi (HProcessZoomEvent d)
  | QCAMERA_INTERNAL_EVT_MAX => mret NO_ERROR
  end.
Definition ignore_done (d : Z) : M smworld Z := mret NO_ERROR.

(** The end of a snapshot that is not expected is only acknowledged. *)
Definition snapshot_done_ack (evt : qcamera_sm_evt_enum_t) : M smworld Z :=
  signalEvtResult {| status := NO_ERROR; request_api := evt; value := QCAMERA_API_RESULT_TYPE_DEF |};; mret NO_ERROR.

(** A snapshot ends: [cancel], then the state [back]. *)
Definition snapshot_done (evt : qcamera_sm_evt_enum_t) (cancel : M smworld Z) (back : qcamera_state_enum_t) : M smworld Z :=
  rc ← cancel;
  goto back;;
  signalEvtResult {| status := rc; request_api := evt; value := QCAMERA_API_RESULT_TYPE_DEF |};;
  mret rc.

(** An operation after which the state is [back] whatever it returns. *)
Definition leave (evt : qcamera_sm_evt_enum_t) (m : M smworld Z) (back : qcamera_state_enum_t) : M smworld Z :=
  reply_call evt (rc ← m; goto back;; mret rc).

(** ** The state functions *)

Definition procEvtPreviewStoppedState (evt : qcamera_sm_evt_enum_t) (payload : sm_payload) : M smworld Z :=
  match evt with
  | QCAMERA_SM_EVT_SET_PREVIEW_WINDOW => window ← deref (as_word payload); reply_call evt (setPreviewWindow window)
  | QCAMERA_SM_EVT_SET_CALLBACKS => set_callbacks evt payload
  | QCAMERA_SM_EVT_ENABLE_MSG_TYPE => enable_msg evt payload
  | QCAMERA_SM_EVT_DISABLE_MSG_TYPE => disable_msg evt payload
  | QCAMERA_SM_EVT_MSG_TYPE_ENABLED => msg_enabled evt payload
  | QCAMERA_SM_EVT_SET_PARAMS => set_params_plain evt payload
  | QCAMERA_SM_EVT_GET_PARAMS => get_params evt
  | QCAMERA_SM_EVT_PUT_PARAMS => put_params evt payload
  | QCAMERA_SM_EVT_START_PREVIEW =>
      reply_call evt (
        window ← gets mPreviewWindow;
        if window =? 0 then
          rc ← hwi HPreparePreview;
          (if rc =? NO_ERROR then goto QCAMERA_SM_STATE_PREVIEW_READY else mret tt);;
          mret rc
        else
          rc ← prepare_and_start;
          (if rc =? NO_ERROR then goto QCAMERA_SM_STATE_PREVIEWING else mret tt);;
          mret rc)
  | QCAMERA_SM_EVT_START_NODISPLAY_PREVIEW =>
      reply_call evt (
        rc ← prepare_and_start;
        (if rc =? NO_ERROR then goto QCAMERA_SM_STATE_PREVIEWING else mret tt);;
        mret rc)
  | QCAMERA_SM_EVT_STOP_PREVIEW => no_op evt
  | QCAMERA_SM_EVT_PREVIEW_ENABLED | QCAMERA_SM_EVT_RECORDING_ENABLED => reply_enabled evt 0
  | QCAMERA_SM_EVT_RELEASE => reply_call evt (hwi HRelease)
  | QCAMERA_SM_EVT_STORE_METADATA_IN_BUFS => store_metadata evt payload
  | QCAMERA_SM_EVT_DUMP => do_dump evt payload
  | QCAMERA_SM_EVT_SEND_COMMAND => do_command evt payload
  | QCAMERA_SM_EVT_START_RECORDING | QCAMERA_SM_EVT_STOP_RECORDING | QCAMERA_SM_EVT_RELEASE_RECORIDNG_FRAME | QCAMERA_SM_EVT_PREPARE_SNAPSHOT |
    QCAMERA_SM_EVT_TAKE_PICTURE | QCAMERA_SM_EVT_START_AUTO_FOCUS => cannot_handle evt
  | QCAMERA_SM_EVT_CANCEL_PICTURE => no_op evt
  | QCAMERA_SM_EVT_STOP_AUTO_FOCUS => reply_call evt (hwi HCancelAutoFocus)
  | QCAMERA_SM_EVT_REG_FACE_IMAGE => reg_face evt payload
  | QCAMERA_SM_EVT_THERMAL_NOTIFY => thermal_notify payload
  | QCAMERA_SM_EVT_EVT_NOTIFY => evt_notify payload
  | QCAMERA_SM_EVT_SNAPSHOT_DONE => snapshot_done_ack evt
  | QCAMERA_SM_EVT_EVT_INTERNAL | QCAMERA_SM_EVT_JPEG_EVT_NOTIFY | QCAMERA_SM_EVT_MAX => mret NO_ERROR
  end.

Definition procEvtPreviewReadyState (evt : qcamera_sm_evt_enum_t) (payload : sm_payload) : M smworld Z :=
  match evt with
  | QCAMERA_SM_EVT_SET_PREVIEW_WINDOW =>
      window ← deref (as_word payload);
      reply_call evt (
        setPreviewWindow window;;
        window ← gets mPreviewWindow;
        if negb (window =? 0) then
          rc ← hwi HStartPreview;
          (if negb (rc =? NO_ERROR) then hwi HUnpreparePreview;; goto QCAMERA_SM_STATE_PREVIEW_STOPPED
           else goto QCAMERA_SM_STATE_PREVIEWING);;
          mret rc
        else mret NO_ERROR)
  | QCAMERA_SM_EVT_SET_CALLBACKS => set_callbacks evt payload
  | QCAMERA_SM_EVT_ENABLE_MSG_TYPE => enable_msg evt payload
  | QCAMERA_SM_EVT_DISABLE_MSG_TYPE => disable_msg evt payload
  | QCAMERA_SM_EVT_MSG_TYPE_ENABLED => msg_enabled evt payload
  | QCAMERA_SM_EVT_SET_PARAMS =>
      reply_call evt (
        '(rc, needRestart) ← updateParameters payload;
        if rc =? NO_ERROR then
          if needRestart : bool then
            hwi HUnpreparePreview;;
            hwi HCommitParameterChanges;;
            rc ← hwi HPreparePreview;
            (if negb (rc =? NO_ERROR) then goto QCAMERA_SM_STATE_PREVIEW_STOPPED else mret tt);;
            mret rc
          else hwi HCommitParameterChanges
        else mret rc)
  | QCAMERA_SM_EVT_GET_PARAMS => get_params evt
  | QCAMERA_SM_EVT_PUT_PARAMS => put_params evt payload
  | QCAMERA_SM_EVT_START_PREVIEW => no_op evt
  | QCAMERA_SM_EVT_STOP_PREVIEW => leave evt (hwi HUnpreparePreview;; mret 0) QCAMERA_SM_STATE_PREVIEW_STOPPED
  | QCAMERA_SM_EVT_PREVIEW_ENABLED => reply_enabled evt 1
  | QCAMERA_SM_EVT_RECORDING_ENABLED => reply_enabled evt 0
  | QCAMERA_SM_EVT_STORE_METADATA_IN_BUFS => store_metadata evt payload
  | QCAMERA_SM_EVT_DUMP => do_dump evt payload
  | QCAMERA_SM_EVT_START_AUTO_FOCUS => reply_call evt (hwi HAutoFocus)
  | QCAMERA_SM_EVT_STOP_AUTO_FOCUS => reply_call evt (hwi HCancelAutoFocus)
  | QCAMERA_SM_EVT_SEND_COMMAND => do_command evt payload
  | QCAMERA_SM_EVT_REG_FACE_IMAGE => reg_face evt payload
  | QCAMERA_SM_EVT_START_NODISPLAY_PREVIEW | QCAMERA_SM_EVT_START_RECORDING | QCAMERA_SM_EVT_STOP_RECORDING | QCAMERA_SM_EVT_PREPARE_SNAPSHOT |
    QCAMERA_SM_EVT_TAKE_PICTURE | QCAMERA_SM_EVT_CANCEL_PICTURE | QCAMERA_SM_EVT_RELEASE_RECORIDNG_FRAME | QCAMERA_SM_EVT_RELEASE =>
    cannot_handle evt
  | QCAMERA_SM_EVT_EVT_NOTIFY => evt_notify payload
  | QCAMERA_SM_EVT_SNAPSHOT_DONE => snapshot_done_ack evt
  | QCAMERA_SM_EVT_EVT_INTERNAL | QCAMERA_SM_EVT_JPEG_EVT_NOTIFY | QCAMERA_SM_EVT_THERMAL_NOTIFY | QCAMERA_SM_EVT_MAX => mret NO_ERROR
  end.

Definition procEvtPreviewingState (evt : qcamera_sm_evt_enum_t) (payload : sm_payload) : M smworld Z :=
  match evt with
  | QCAMERA_SM_EVT_SET_PREVIEW_WINDOW => cannot_handle evt
  | QCAMERA_SM_EVT_SET_CALLBACKS => set_callbacks evt payload
  | QCAMERA_SM_EVT_ENABLE_MSG_TYPE => enable_msg evt payload
  | QCAMERA_SM_EVT_DISABLE_MSG_TYPE => disable_msg evt payload
  | QCAMERA_SM_EVT_MSG_TYPE_ENABLED => msg_enabled evt payload
  | QCAMERA_SM_EVT_SET_PARAMS => set_params_restart QCAMERA_SM_STATE_PREVIEW_STOPPED evt payload
  | QCAMERA_SM_EVT_GET_PARAMS => get_params evt
  | QCAMERA_SM_EVT_PUT_PARAMS => put_params evt payload
  | QCAMERA_SM_EVT_START_PREVIEW | QCAMERA_SM_EVT_START_NODISPLAY_PREVIEW => no_op evt
  | QCAMERA_SM_EVT_STOP_PREVIEW => leave evt (hwi HStopPreview) QCAMERA_SM_STATE_PREVIEW_STOPPED
  | QCAMERA_SM_EVT_PREVIEW_ENABLED => reply_enabled evt 1
  | QCAMERA_SM_EVT_RECORDING_ENABLED => reply_enabled evt 0
  | QCAMERA_SM_EVT_STORE_METADATA_IN_BUFS => store_metadata evt payload
  | QCAMERA_SM_EVT_DUMP => do_dump evt payload
  | QCAMERA_SM_EVT_START_AUTO_FOCUS => reply_call evt (hwi HAutoFocus)
  | QCAMERA_SM_EVT_STOP_AUTO_FOCUS => reply_call evt (hwi HCancelAutoFocus)
  | QCAMERA_SM_EVT_START_RECORDING =>
      reply_call evt (
        rc ← hwi HStartRecording;
        (if rc =? NO_ERROR then goto QCAMERA_SM_STATE_RECORDING else mret tt);;
        mret rc)
  | QCAMERA_SM_EVT_PREPARE_SNAPSHOT =>
      rc ← hwi HPrepareHardwareForSnapshot;
      if rc =? NO_ERROR then goto QCAMERA_SM_STATE_PREPARE_SNAPSHOT;; mret rc
      else reply evt rc QCAMERA_API_RESULT_TYPE_DEF
  | QCAMERA_SM_EVT_TAKE_PICTURE =>
      reply_call evt (
        hint ← getRecordingHintValue;
        if negb hint then
          zsl ← isZSLMode;
          if zsl : bool then
            goto QCAMERA_SM_STATE_PREVIEW_PIC_TAKING;;
            rc ← hwi HTakePicture;
            (if negb (rc =? NO_ERROR) then goto QCAMERA_SM_STATE_PREVIEWING else mret tt);;
            mret rc
          else
            goto QCAMERA_SM_STATE_PIC_TAKING;;
            rc ← hwi HTakePicture;
            (if negb (rc =? NO_ERROR) then goto QCAMERA_SM_STATE_PREVIEW_STOPPED else mret tt);;
            mret rc
        else
          goto QCAMERA_SM_STATE_PREVIEW_PIC_TAKING;;
          rc ← hwi HTakeLiveSnapshot;
          (if negb (rc =? NO_ERROR) then goto QCAMERA_SM_STATE_PREVIEWING else mret tt);;
          mret rc)
  | QCAMERA_SM_EVT_SEND_COMMAND => do_command evt payload
  | QCAMERA_SM_EVT_REG_FACE_IMAGE => reg_face evt payload
  | QCAMERA_SM_EVT_CANCEL_PICTURE | QCAMERA_SM_EVT_STOP_RECORDING | QCAMERA_SM_EVT_RELEASE_RECORIDNG_FRAME | QCAMERA_SM_EVT_RELEASE =>
    cannot_handle evt
  | QCAMERA_SM_EVT_EVT_INTERNAL => evt_internal ignore_done payload
  | QCAMERA_SM_EVT_EVT_NOTIFY => evt_notify payload
  | QCAMERA_SM_EVT_THERMAL_NOTIFY => thermal_notify payload
  | QCAMERA_SM_EVT_SNAPSHOT_DONE => snapshot_done_ack evt
  | QCAMERA_SM_EVT_JPEG_EVT_NOTIFY | QCAMERA_SM_EVT_MAX => mret NO_ERROR
  end.

Definition procEvtPrepareSnapshotState (evt : qcamera_sm_evt_enum_t) (payload : sm_payload) : M smworld Z :=
  match evt with
  | QCAMERA_SM_EVT_SET_PREVIEW_WINDOW | QCAMERA_SM_EVT_SET_CALLBACKS | QCAMERA_SM_EVT_ENABLE_MSG_TYPE | QCAMERA_SM_EVT_DISABLE_MSG_TYPE |
    QCAMERA_SM_EVT_MSG_TYPE_ENABLED | QCAMERA_SM_EVT_SET_PARAMS | QCAMERA_SM_EVT_GET_PARAMS | QCAMERA_SM_EVT_PUT_PARAMS |
    QCAMERA_SM_EVT_START_PREVIEW | QCAMERA_SM_EVT_START_NODISPLAY_PREVIEW | QCAMERA_SM_EVT_STOP_PREVIEW | QCAMERA_SM_EVT_PREVIEW_ENABLED |
    QCAMERA_SM_EVT_RECORDING_ENABLED | QCAMERA_SM_EVT_STORE_METADATA_IN_BUFS | QCAMERA_SM_EVT_DUMP | QCAMERA_SM_EVT_START_AUTO_FOCUS |
    QCAMERA_SM_EVT_STOP_AUTO_FOCUS | QCAMERA_SM_EVT_START_RECORDING | QCAMERA_SM_EVT_TAKE_PICTURE | QCAMERA_SM_EVT_PREPARE_SNAPSHOT |
    QCAMERA_SM_EVT_SEND_COMMAND | QCAMERA_SM_EVT_CANCEL_PICTURE | QCAMERA_SM_EVT_STOP_RECORDING | QCAMERA_SM_EVT_RELEASE_RECORIDNG_FRAME |
    QCAMERA_SM_EVT_RELEASE => cannot_handle evt
  | QCAMERA_SM_EVT_EVT_INTERNAL =>
      evt_internal (fun d =>
        hwi (HProcessPrepSnapshotDoneEvent d);;
        goto QCAMERA_SM_STATE_PREVIEWING;;
        signalAPIResult {| status := NO_ERROR; request_api := QCAMERA_SM_EVT_PREPARE_SNAPSHOT; value := QCAMERA_API_RESULT_TYPE_DEF |};;
        mret NO_ERROR) payload
  | QCAMERA_SM_EVT_EVT_NOTIFY => evt_notify payload
  | QCAMERA_SM_EVT_SNAPSHOT_DONE => snapshot_done_ack evt
  | QCAMERA_SM_EVT_THERMAL_NOTIFY | QCAMERA_SM_EVT_JPEG_EVT_NOTIFY | QCAMERA_SM_EVT_REG_FACE_IMAGE | QCAMERA_SM_EVT_MAX => mret NO_ERROR
  end.

Definition procEvtPicTakingState (evt : qcamera_sm_evt_enum_t) (payload : sm_payload) : M smworld Z :=
  match evt with
  | QCAMERA_SM_EVT_SET_PREVIEW_WINDOW => cannot_handle evt
  | QCAMERA_SM_EVT_SET_CALLBACKS => set_callbacks evt payload
  | QCAMERA_SM_EVT_ENABLE_MSG_TYPE => enable_msg evt payload
  | QCAMERA_SM_EVT_DISABLE_MSG_TYPE => disable_msg evt payload
  | QCAMERA_SM_EVT_MSG_TYPE_ENABLED => msg_enabled evt payload
  | QCAMERA_SM_EVT_SET_PARAMS => set_params_plain evt payload
  | QCAMERA_SM_EVT_GET_PARAMS => get_params evt
  | QCAMERA_SM_EVT_PUT_PARAMS => put_params evt payload
  | QCAMERA_SM_EVT_STOP_PREVIEW => leave evt (hwi HCancelPicture) QCAMERA_SM_STATE_PREVIEW_STOPPED
  | QCAMERA_SM_EVT_PREVIEW_ENABLED => reply_enabled evt 0
  | QCAMERA_SM_EVT_RECORDING_ENABLED => reply_enabled evt 0
  | QCAMERA_SM_EVT_STORE_METADATA_IN_BUFS => store_metadata evt payload
  | QCAMERA_SM_EVT_DUMP => do_dump evt payload
  | QCAMERA_SM_EVT_START_AUTO_FOCUS => reply_call evt (hwi HAutoFocus)
  | QCAMERA_SM_EVT_STOP_AUTO_FOCUS => reply_call evt (hwi HCancelAutoFocus)
  | QCAMERA_SM_EVT_SEND_COMMAND => do_command evt payload
  | QCAMERA_SM_EVT_CANCEL_PICTURE => leave evt (hwi HCancelPicture) QCAMERA_SM_STATE_PREVIEW_STOPPED
  | QCAMERA_SM_EVT_REG_FACE_IMAGE => reg_face evt payload
  | QCAMERA_SM_EVT_PREPARE_SNAPSHOT | QCAMERA_SM_EVT_TAKE_PICTURE | QCAMERA_SM_EVT_START_RECORDING | QCAMERA_SM_EVT_STOP_RECORDING |
    QCAMERA_SM_EVT_RELEASE_RECORIDNG_FRAME | QCAMERA_SM_EVT_START_PREVIEW | QCAMERA_SM_EVT_START_NODISPLAY_PREVIEW | QCAMERA_SM_EVT_RELEASE =>
    cannot_handle evt
  | QCAMERA_SM_EVT_EVT_INTERNAL =>
      p ← deref (as_internal payload);
      match p with
      | QCAMERA_INTERNAL_EVT_FOCUS_UPDATE d => hwi (HProcessAutoFocusEvent d)
      | QCAMERA_INTERNAL_EVT_CROP_INFO d => hwi (HProcessZoomEvent d)
      | _ => mret NO_ERROR
      end
  | QCAMERA_SM_EVT_EVT_NOTIFY => evt_notify payload
  | QCAMERA_SM_EVT_JPEG_EVT_NOTIFY => jpeg_notify payload
  | QCAMERA_SM_EVT_SNAPSHOT_DONE => snapshot_done evt (hwi HCancelPicture) QCAMERA_SM_STATE_PREVIEW_STOPPED
  | QCAMERA_SM_EVT_THERMAL_NOTIFY => thermal_notify payload
  | QCAMERA_SM_EVT_MAX => mret NO_ERROR
  end.

Definition procEvtRecordingState (evt : qcamera_sm_evt_enum_t) (payload : sm_payload) : M smworld Z :=
  match evt with
  | QCAMERA_SM_EVT_START_PREVIEW | QCAMERA_SM_EVT_SET_PREVIEW_WINDOW => no_op evt
  | QCAMERA_SM_EVT_SET_CALLBACKS => set_callbacks evt payload
  | QCAMERA_SM_EVT_ENABLE_MSG_TYPE => enable_msg evt payload
  | QCAMERA_SM_EVT_DISABLE_MSG_TYPE => disable_msg evt payload
  | QCAMERA_SM_EVT_MSG_TYPE_ENABLED => msg_enabled evt payload
  | QCAMERA_SM_EVT_SET_PARAMS => set_params_recording evt payload
  | QCAMERA_SM_EVT_GET_PARAMS => get_params evt
  | QCAMERA_SM_EVT_PUT_PARAMS => put_params evt payload
  | QCAMERA_SM_EVT_PREVIEW_ENABLED => reply_enabled evt 0
  | QCAMERA_SM_EVT_RECORDING_ENABLED => reply_enabled evt 1
  | QCAMERA_SM_EVT_STORE_METADATA_IN_BUFS => store_metadata evt payload
  | QCAMERA_SM_EVT_DUMP => do_dump evt payload
  | QCAMERA_SM_EVT_START_AUTO_FOCUS => reply_call evt (hwi HAutoFocus)
  | QCAMERA_SM_EVT_STOP_AUTO_FOCUS => reply_call evt (hwi HCancelAutoFocus)
  | QCAMERA_SM_EVT_SEND_COMMAND => do_command evt payload
  | QCAMERA_SM_EVT_TAKE_PICTURE =>
      reply_call evt (
        goto QCAMERA_SM_STATE_VIDEO_PIC_TAKING;;
        rc ← hwi HTakeLiveSnapshot;
        (if negb (rc =? NO_ERROR) then goto QCAMERA_SM_STATE_RECORDING else mret tt);;
        mret rc)
  | QCAMERA_SM_EVT_START_RECORDING => no_op evt
  | QCAMERA_SM_EVT_STOP_RECORDING => leave evt (hwi HStopRecording) QCAMERA_SM_STATE_PREVIEWING
  | QCAMERA_SM_EVT_STOP_PREVIEW =>
      leave evt (
        hwi HStopRecording;;
        goto QCAMERA_SM_STATE_PREVIEWING;;
        hwi HStopPreview) QCAMERA_SM_STATE_PREVIEW_STOPPED
  | QCAMERA_SM_EVT_RELEASE_RECORIDNG_FRAME => release_frame evt payload
  | QCAMERA_SM_EVT_REG_FACE_IMAGE => reg_face evt payload
  | QCAMERA_SM_EVT_PREPARE_SNAPSHOT => no_op evt
  | QCAMERA_SM_EVT_CANCEL_PICTURE | QCAMERA_SM_EVT_START_NODISPLAY_PREVIEW | QCAMERA_SM_EVT_RELEASE => cannot_handle evt
  | QCAMERA_SM_EVT_EVT_INTERNAL => evt_internal ignore_done payload
  | QCAMERA_SM_EVT_EVT_NOTIFY => evt_notify payload
  | QCAMERA_SM_EVT_THERMAL_NOTIFY => thermal_notify payload
  | QCAMERA_SM_EVT_SNAPSHOT_DONE => snapshot_done_ack evt
  | QCAMERA_SM_EVT_JPEG_EVT_NOTIFY | QCAMERA_SM_EVT_MAX => mret NO_ERROR
  end.

Definition procEvtVideoPicTakingState (evt : qcamera_sm_evt_enum_t) (payload : sm_payload) : M smworld Z :=
  match evt with
  | QCAMERA_SM_EVT_SET_PREVIEW_WINDOW => cannot_handle evt
  | QCAMERA_SM_EVT_SET_CALLBACKS => set_callbacks evt payload
  | QCAMERA_SM_EVT_ENABLE_MSG_TYPE => enable_msg evt payload
  | QCAMERA_SM_EVT_DISABLE_MSG_TYPE => disable_msg evt payload
  | QCAMERA_SM_EVT_MSG_TYPE_ENABLED => msg_enabled evt payload
  | QCAMERA_SM_EVT_SET_PARAMS => set_params_recording evt payload
  | QCAMERA_SM_EVT_GET_PARAMS => get_params evt
  | QCAMERA_SM_EVT_PUT_PARAMS => put_params evt payload
  | QCAMERA_SM_EVT_PREVIEW_ENABLED => reply_enabled evt 1
  | QCAMERA_SM_EVT_RECORDING_ENABLED => reply_enabled evt 1
  | QCAMERA_SM_EVT_STORE_METADATA_IN_BUFS => store_metadata evt payload
  | QCAMERA_SM_EVT_DUMP => do_dump evt payload
  | QCAMERA_SM_EVT_START_AUTO_FOCUS => reply_call evt (hwi HAutoFocus)
  | QCAMERA_SM_EVT_STOP_AUTO_FOCUS => reply_call evt (hwi HCancelAutoFocus)
  | QCAMERA_SM_EVT_SEND_COMMAND => do_command evt payload
  | QCAMERA_SM_EVT_STOP_RECORDING => leave evt (hwi HStopRecording) QCAMERA_SM_STATE_PREVIEW_PIC_TAKING
  | QCAMERA_SM_EVT_RELEASE_RECORIDNG_FRAME => release_frame evt payload
  | QCAMERA_SM_EVT_CANCEL_PICTURE => leave evt (hwi HCancelLiveSnapshot) QCAMERA_SM_STATE_RECORDING
  | QCAMERA_SM_EVT_REG_FACE_IMAGE => reg_face evt payload
  | QCAMERA_SM_EVT_STOP_PREVIEW =>
      leave evt (
        hwi HCancelLiveSnapshot;;
        goto QCAMERA_SM_STATE_RECORDING;;
        hwi HStopRecording;;
        goto QCAMERA_SM_STATE_PREVIEWING;;
        hwi HStopPreview) QCAMERA_SM_STATE_PREVIEW_STOPPED
  | QCAMERA_SM_EVT_START_RECORDING | QCAMERA_SM_EVT_START_PREVIEW | QCAMERA_SM_EVT_START_NODISPLAY_PREVIEW | QCAMERA_SM_EVT_PREPARE_SNAPSHOT |
    QCAMERA_SM_EVT_TAKE_PICTURE | QCAMERA_SM_EVT_RELEASE => cannot_handle evt
  | QCAMERA_SM_EVT_EVT_INTERNAL => evt_internal ignore_done payload
  | QCAMERA_SM_EVT_EVT_NOTIFY => evt_notify payload
  | QCAMERA_SM_EVT_JPEG_EVT_NOTIFY => jpeg_notify payload
  | QCAMERA_SM_EVT_SNAPSHOT_DONE => snapshot_done evt (hwi HCancelLiveSnapshot) QCAMERA_SM_STATE_RECORDING
  | QCAMERA_SM_EVT_THERMAL_NOTIFY => thermal_notify payload
  | QCAMERA_SM_EVT_MAX => mret NO_ERROR
  end.

(** The picture or the live snapshot, whichever the mode says, is given up. *)
Definition cancel_either : M smworld Z :=
  zsl ← isZSLMode;
  if zsl : bool then hwi HCancelPicture else hwi HCancelLiveSnapshot.

Definition procEvtPreviewPicTakingState (evt : qcamera_sm_evt_enum_t) (payload : sm_payload) : M smworld Z :=
  match evt with
  | QCAMERA_SM_EVT_SET_CALLBACKS => set_callbacks evt payload
  | QCAMERA_SM_EVT_ENABLE_MSG_TYPE => enable_msg evt payload
  | QCAMERA_SM_EVT_DISABLE_MSG_TYPE => disable_msg evt payload
  | QCAMERA_SM_EVT_MSG_TYPE_ENABLED => msg_enabled evt payload
  | QCAMERA_SM_EVT_SET_PARAMS => set_params_restart QCAMERA_SM_STATE_PIC_TAKING evt payload
  | QCAMERA_SM_EVT_GET_PARAMS => get_params evt
  | QCAMERA_SM_EVT_PUT_PARAMS => put_params evt payload
  | QCAMERA_SM_EVT_PREVIEW_ENABLED => reply_enabled evt 1
  | QCAMERA_SM_EVT_RECORDING_ENABLED => reply_enabled evt 0
  | QCAMERA_SM_EVT_STORE_METADATA_IN_BUFS => store_metadata evt payload
  | QCAMERA_SM_EVT_DUMP => do_dump evt payload
  | QCAMERA_SM_EVT_START_AUTO_FOCUS => reply_call evt (hwi HAutoFocus)
  | QCAMERA_SM_EVT_STOP_AUTO_FOCUS => reply_call evt (hwi HCancelAutoFocus)
  | QCAMERA_SM_EVT_SEND_COMMAND => do_command evt payload
  | QCAMERA_SM_EVT_RELEASE_RECORIDNG_FRAME => release_frame evt payload
  | QCAMERA_SM_EVT_CANCEL_PICTURE => leave evt cancel_either QCAMERA_SM_STATE_PREVIEWING
  | QCAMERA_SM_EVT_STOP_PREVIEW =>
      leave evt (
        zsl ← isZSLMode;
        rc ← (if zsl : bool then rc ← hwi HCancelPicture; hwi (HStopChannel QCAMERA_CH_TYPE_ZSL);; mret rc
              else rc ← hwi HCancelLiveSnapshot; hwi (HStopChannel QCAMERA_CH_TYPE_PREVIEW);; mret rc);
        hwi HUnpreparePreview;;
        mret rc) QCAMERA_SM_STATE_PREVIEW_STOPPED
  | QCAMERA_SM_EVT_START_RECORDING =>
      reply_call evt (
        zsl ← isZSLMode;
        if zsl : bool then mret INVALID_OPERATION
        else
          rc ← hwi HStartRecording;
          (if rc =? NO_ERROR then goto QCAMERA_SM_STATE_VIDEO_PIC_TAKING else mret tt);;
          mret rc)
  | QCAMERA_SM_EVT_REG_FACE_IMAGE => reg_face evt payload
  | QCAMERA_SM_EVT_STOP_RECORDING | QCAMERA_SM_EVT_START_PREVIEW | QCAMERA_SM_EVT_START_NODISPLAY_PREVIEW | QCAMERA_SM_EVT_PREPARE_SNAPSHOT |
    QCAMERA_SM_EVT_TAKE_PICTURE | QCAMERA_SM_EVT_SET_PREVIEW_WINDOW | QCAMERA_SM_EVT_RELEASE => cannot_handle evt
  | QCAMERA_SM_EVT_EVT_INTERNAL => evt_internal ignore_done payload
  | QCAMERA_SM_EVT_EVT_NOTIFY => evt_notify payload
  | QCAMERA_SM_EVT_JPEG_EVT_NOTIFY => jpeg_notify payload
  | QCAMERA_SM_EVT_SNAPSHOT_DONE => snapshot_done evt cancel_either QCAMERA_SM_STATE_PREVIEWING
  | QCAMERA_SM_EVT_THERMAL_NOTIFY => thermal_notify payload
  | QCAMERA_SM_EVT_MAX => mret NO_ERROR
  end.

Definition stateMachine (evt : qcamera_sm_evt_enum_t) (payload : sm_payload) : M smworld Z :=
  st ← gets m_state;
  match st with
  | QCAMERA_SM_STATE_PREVIEW_STOPPED => procEvtPreviewStoppedState evt payload
  | QCAMERA_SM_STATE_PREVIEW_READY => procEvtPreviewReadyState evt payload
  | QCAMERA_SM_STATE_PREVIEWING => procEvtPreviewingState evt payload
  | QCAMERA_SM_STATE_PREPARE_SNAPSHOT => procEvtPrepareSnapshotState evt payload
  | QCAMERA_SM_STATE_PIC_TAKING => procEvtPicTakingState evt payload
  | QCAMERA_SM_STATE_RECORDING => procEvtRecordingState evt payload
  | QCAMERA_SM_STATE_VIDEO_PIC_TAKING => procEvtVideoPicTakingState evt payload
  | QCAMERA_SM_STATE_PREVIEW_PIC_TAKING => procEvtPreviewPicTakingState evt payload
  end.

Definition isPreviewRunning (st : qcamera_state_enum_t) : bool :=
  match st with
  | QCAMERA_SM_STATE_PREVIEWING | QCAMERA_SM_STATE_RECORDING | QCAMERA_SM_STATE_VIDEO_PIC_TAKING
  | QCAMERA_SM_STATE_PREVIEW_PIC_TAKING | QCAMERA_SM_STATE_PREPARE_SNAPSHOT => true
  | _ => false
  end.

End Code.
