(* ===== verification/HalSmProps.v ===== *)
(** * The HAL state machine answers every request and keeps its state true

    Every request of the framework is answered once, and the state says what
    the hardware interface was told: a machine that follows the calls and
    their results is in step with it, and refuses none of the calls. *)

From Stdlib Require Import ZArith Lia.
From stdpp Require Import base numbers list.
From S2P Require Import Prelude HalSm.

(** ** Requests and their payloads *)

Definition is_api (evt : qcamera_sm_evt_enum_t) : bool :=
  match evt with
  | QCAMERA_SM_EVT_EVT_INTERNAL | QCAMERA_SM_EVT_EVT_NOTIFY | QCAMERA_SM_EVT_JPEG_EVT_NOTIFY
  | QCAMERA_SM_EVT_SNAPSHOT_DONE | QCAMERA_SM_EVT_THERMAL_NOTIFY | QCAMERA_SM_EVT_MAX => false
  | _ => true
  end.

(** The payload that the sender of an event gives it. *)
Definition payload_ok (evt : qcamera_sm_evt_enum_t) (p : sm_payload) : bool :=
  match evt, p with
  | QCAMERA_SM_EVT_SET_CALLBACKS, P_setcb _ | QCAMERA_SM_EVT_SEND_COMMAND, P_command _
  | QCAMERA_SM_EVT_REG_FACE_IMAGE, P_reg_face _ | QCAMERA_SM_EVT_EVT_INTERNAL, P_internal _
  | QCAMERA_SM_EVT_EVT_NOTIFY, P_server _ | QCAMERA_SM_EVT_JPEG_EVT_NOTIFY, P_jpeg _ => true
  | QCAMERA_SM_EVT_SET_CALLBACKS, _ | QCAMERA_SM_EVT_SEND_COMMAND, _ | QCAMERA_SM_EVT_REG_FACE_IMAGE, _
  | QCAMERA_SM_EVT_EVT_INTERNAL, _ | QCAMERA_SM_EVT_EVT_NOTIFY, _ | QCAMERA_SM_EVT_JPEG_EVT_NOTIFY, _ => false
  | _, P_word _ => true
  | _, _ => false
  end.

(** The results handed to the threads that wait for an API call, and for the
    end of a snapshot; the last one first. *)
Definition api_answers (tr : hhistory) : list qcamera_api_result_t := omap (fun e => match e with HSignalAPI r => Some r | _ => None end) tr.
Definition evt_answers (tr : hhistory) : list qcamera_api_result_t := omap (fun e => match e with HSignalEvt r => Some r | _ => None end) tr.

(** ** What the hardware interface was told *)

(** A preview is prepared, runs; a recording; a picture or live snapshot is
    being taken; the hardware is preparing for one. *)
Record hal_mode := { prepared : bool; started : bool; recording : bool; capturing : bool; arming : bool }.

Definition mode_of (st : qcamera_state_enum_t) : hal_mode :=
  match st with
  | QCAMERA_SM_STATE_PREVIEW_STOPPED => {| prepared := false; started := false; recording := false; capturing := false; arming := false |}
  | QCAMERA_SM_STATE_PREVIEW_READY => {| prepared := true; started := false; recording := false; capturing := false; arming := false |}
  | QCAMERA_SM_STATE_PREVIEWING => {| prepared := true; started := true; recording := false; capturing := false; arming := false |}
  | QCAMERA_SM_STATE_PREPARE_SNAPSHOT => {| prepared := true; started := true; recording := false; capturing := false; arming := true |}
  | QCAMERA_SM_STATE_PIC_TAKING => {| prepared := false; started := false; recording := false; capturing := true; arming := false |}
  | QCAMERA_SM_STATE_RECORDING => {| prepared := true; started := true; recording := true; capturing := false; arming := false |}
  | QCAMERA_SM_STATE_VIDEO_PIC_TAKING => {| prepared := true; started := true; recording := true; capturing := true; arming := false |}
  | QCAMERA_SM_STATE_PREVIEW_PIC_TAKING => {| prepared := true; started := true; recording := false; capturing := true; arming := false |}
  end.

Section Follow.
Context `{HE : HwiEnv}.

(** A call with its result, after the history [tr]; [None] for a call that is
    out of place.  A picture outside of ZSL mode takes the preview down,
    whether it succeeds or not. *)
Definition effect (tr : hhistory) (c : hwi_call) (rc : Z) (m : hal_mode) : option hal_mode :=
  let ok := rc =? NO_ERROR in
  match c with
  | HPreparePreview =>
      if prepared m then None
      else Some {| prepared := ok; started := started m; recording := recording m; capturing := capturing m; arming := arming m |}
  | HUnpreparePreview =>
      if prepared m && negb (started m) then
        Some {| prepared := false; started := false; recording := recording m; capturing := capturing m; arming := arming m |}
      else None
  | HStartPreview =>
      if prepared m && negb (started m) then
        Some {| prepared := true; started := ok; recording := recording m; capturing := capturing m; arming := arming m |}
      else None
  | HStopPreview =>
      if started m && negb (recording m) then
        Some {| prepared := false; started := false; recording := false; capturing := capturing m; arming := arming m |}
      else None
  | HStopChannel _ =>
      if started m && negb (recording m) then
        Some {| prepared := prepared m; started := false; recording := false; capturing := capturing m; arming := arming m |}
      else None
  | HStartRecording =>
      if started m && negb (recording m) && negb (arming m) then
        Some {| prepared := prepared m; started := started m; recording := ok; capturing := capturing m; arming := arming m |}
      else None
  | HStopRecording =>
      if recording m then
        Some {| prepared := prepared m; started := started m; recording := false; capturing := capturing m; arming := arming m |}
      else None
  | HTakePicture =>
      if started m && negb (recording m) && negb (capturing m) && negb (arming m) then
        let on := env_zsl tr in
        Some {| prepared := on; started := on; recording := false; capturing := ok; arming := false |}
      else None
  | HTakeLiveSnapshot =>
      if started m && negb (capturing m) && negb (arming m) then
        Some {| prepared := prepared m; started := started m; recording := recording m; capturing := ok; arming := arming m |}
      else None
  | HCancelPicture | HCancelLiveSnapshot =>
      if capturing m then
        Some {| prepared := prepared m; started := started m; recording := recording m; capturing := false; arming := arming m |}
      else None
  | HPrepareHardwareForSnapshot =>
      if started m && negb (recording m) && negb (capturing m) && negb (arming m) then
        Some {| prepared := prepared m; started := started m; recording := recording m; capturing := capturing m; arming := ok |}
      else None
  | HProcessPrepSnapshotDoneEvent _ =>
      if arming m then
        Some {| prepared := prepared m; started := started m; recording := recording m; capturing := capturing m; arming := false |}
      else None
  | HRelease => if prepared m || capturing m then None else Some m
  | _ => Some m
  end.

Fixpoint follow (tr : hhistory) : option hal_mode :=
  match tr with
  | [] => Some (mode_of QCAMERA_SM_STATE_PREVIEW_STOPPED)
  | HCall c rc :: tr => m ← follow tr; effect tr c rc m
  | _ :: tr => follow tr
  end.

(** ** One event *)

(** What a request may do besides being answered: nothing, but that the end of
    the preparation of a snapshot is waited for, or that the face is not
    registered. *)
Inductive answer_of (st : qcamera_state_enum_t) (evt : qcamera_sm_evt_enum_t) (rc : Z) (st' : qcamera_state_enum_t) :
  list qcamera_api_result_t -> Prop :=
| answer_now v : (st = QCAMERA_SM_STATE_PREPARE_SNAPSHOT <-> st' = QCAMERA_SM_STATE_PREPARE_SNAPSHOT) ->
    answer_of st evt rc st' [{| status := rc; request_api := evt; value := v |}]
| answer_later : st = QCAMERA_SM_STATE_PREVIEWING -> evt = QCAMERA_SM_EVT_PREPARE_SNAPSHOT -> rc = NO_ERROR ->
    st' = QCAMERA_SM_STATE_PREPARE_SNAPSHOT -> answer_of st evt rc st' []
| answer_never : st = QCAMERA_SM_STATE_PREPARE_SNAPSHOT -> evt = QCAMERA_SM_EVT_REG_FACE_IMAGE -> st' = st ->
    answer_of st evt rc st' [].

(** What an event that is no request answers: the end of the preparation of a
    snapshot to the request that waits for it, the end of a snapshot to the
    thread that reports it. *)
Inductive event_answer_of (st : qcamera_state_enum_t) (evt : qcamera_sm_evt_enum_t) (p : sm_payload) (rc : Z) (st' : qcamera_state_enum_t) :
  list qcamera_api_result_t -> list qcamera_api_result_t -> Prop :=
| event_prepared d : st = QCAMERA_SM_STATE_PREPARE_SNAPSHOT -> evt = QCAMERA_SM_EVT_EVT_INTERNAL ->
    p = P_internal (QCAMERA_INTERNAL_EVT_PREP_SNAPSHOT_DONE d) -> st' = QCAMERA_SM_STATE_PREVIEWING ->
    event_answer_of st evt p rc st' [{| status := NO_ERROR; request_api := QCAMERA_SM_EVT_PREPARE_SNAPSHOT; value := QCAMERA_API_RESULT_TYPE_DEF |}] []
| event_snapshot : evt = QCAMERA_SM_EVT_SNAPSHOT_DONE -> (st = QCAMERA_SM_STATE_PREPARE_SNAPSHOT <-> st' = QCAMERA_SM_STATE_PREPARE_SNAPSHOT) ->
    event_answer_of st evt p rc st' [] [{| status := rc; request_api := evt; value := QCAMERA_API_RESULT_TYPE_DEF |}]
| event_silent : evt <> QCAMERA_SM_EVT_SNAPSHOT_DONE -> st' = st ->
    (forall d, ~ (st = QCAMERA_SM_STATE_PREPARE_SNAPSHOT /\ evt = QCAMERA_SM_EVT_EVT_INTERNAL /\ p = P_internal (QCAMERA_INTERNAL_EVT_PREP_SNAPSHOT_DONE d))) ->
    event_answer_of st evt p rc st' [] [].

(** What [evt] adds to the answers. *)
Definition answered (st : qcamera_state_enum_t) (evt : qcamera_sm_evt_enum_t) (p : sm_payload) (rc : Z) (st' : qcamera_state_enum_t)
  (api ev : list qcamera_api_result_t) : Prop :=
  if is_api evt then answer_of st evt rc st' api /\ ev = [] else event_answer_of st evt p rc st' api ev.

(** An event is handled to its end, with the answers it asks for, and the
    state stays in step with the calls. *)
Definition handled (evt : qcamera_sm_evt_enum_t) (p : sm_payload) (w : smworld) : Prop :=
  exists rc w' api ev, stateMachine evt p w = Some (rc, w') /\ follow (h_tr w') = Some (mode_of (m_state w')) /\
    api_answers (h_tr w') = api ++ api_answers (h_tr w) /\ evt_answers (h_tr w') = ev ++ evt_answers (h_tr w) /\
    answered (m_state w) evt p rc (m_state w') api ev.

(** ** Running a state function *)

Definition wp {A} (m : M smworld A) (Q : A -> smworld -> Prop) (w : smworld) : Prop :=
  match m w with Some (r, w') => Q r w' | None => False end.

Lemma wp_ret {A} (x : A) (Q : A -> smworld -> Prop) w : Q x w -> wp (mret x) Q w.
Proof. done. Qed.

Lemma wp_bind {A B} (m : M smworld A) (f : A -> M smworld B) (Q : B -> smworld -> Prop) w : wp m (fun x => wp (f x) Q) w -> wp (m ≫= f) Q w.
Proof. unfold wp. unM. by destruct (m w) as [[x w']|]. Qed.

Lemma wp_gets {A} (f : smworld -> A) (Q : A -> smworld -> Prop) w : Q (f w) w -> wp (gets f) Q w.
Proof. done. Qed.

Lemma wp_modify f (Q : unit -> smworld -> Prop) w : Q tt (f w) -> wp (modify f) Q w.
Proof. done. Qed.

Lemma wp_deref {A} (x : option A) a (Q : A -> smworld -> Prop) w : x = Some a -> Q a w -> wp (deref x) Q w.
Proof. by intros ->. Qed.

(** The result of a call may be anything. *)
Lemma wp_hwi c (Q : Z -> smworld -> Prop) w : (forall rc, Q rc (set_h_tr (HCall c rc :: h_tr w) w)) -> wp (hwi c) Q w.
Proof. intros H. apply H. Qed.

Lemma wp_hwi_with c (Q : hwi_call * Z -> smworld -> Prop) w :
  (forall rc, Q (c (h_tr w), rc) (set_h_tr (HCall (c (h_tr w)) rc :: h_tr w) w)) -> wp (hwi_with c) Q w.
Proof. intros H. apply H. Qed.

Lemma wp_handled evt p w : wp (stateMachine evt p) (fun rc w' => follow (h_tr w') = Some (mode_of (m_state w')) /\ exists api ev,
    api_answers (h_tr w') = api ++ api_answers (h_tr w) /\ evt_answers (h_tr w') = ev ++ evt_answers (h_tr w) /\
    answered (m_state w) evt p rc (m_state w') api ev) w -> handled evt p w.
Proof. unfold wp, handled. destruct (stateMachine evt p w) as [[rc w']|]; [|done]. intros (Hf & api & ev & H). by exists rc, w', api, ev. Qed.

(** The first symbol of a term. *)
Ltac head_of t := lazymatch t with ?f _ => head_of f | _ => t end.

(** A condition that was met before is not split again. *)
Ltac decide_on b := first [match goal with H : b = _ |- _ => rewrite H end | destruct b eqn:?]; simpl negb; cbv iota.

Ltac wp_step :=
  lazymatch goal with
  | |- wp (mret _) _ _ => apply wp_ret
  | |- wp (_ ≫= _) _ _ => apply wp_bind
  | |- wp (gets _) _ _ => apply wp_gets
  | |- wp (modify _) _ _ => apply wp_modify
  | |- wp (deref _) _ _ => eapply wp_deref; [reflexivity|]
  | |- wp (hwi _) _ _ => apply wp_hwi; intros
  | |- wp (hwi_with _) _ _ => apply wp_hwi_with; intros
  | |- wp (if negb ?b then _ else _) _ _ => decide_on b
  | |- wp (if ?b then _ else _) _ _ => decide_on b
  | |- wp (match ?b with _ => _ end) _ _ => destruct b eqn:?
  | |- wp (let _ := _ in _) _ _ => cbv zeta
  | |- wp ?m _ _ => let h := head_of m in unfold h
  end; cbv beta.

Ltac answer_request := first [by apply answer_now | apply answer_later; [done|done|by apply Z.eqb_eq|done] | by apply answer_never].
Ltac in_step Hf :=
  simpl; rewrite ?Hf; simpl; repeat (match goal with H : _ = _ :> bool |- _ => simpl in H; rewrite H; clear H end; simpl); try done.
Ltac count_answers :=
  first [ eexists (_ :: []), []; split; [reflexivity|]; split; [reflexivity|]; unfold answered; simpl; first [split; [answer_request|done] | by eapply event_prepared]
        | eexists [], (_ :: []); split; [reflexivity|]; split; [reflexivity|]; by apply event_snapshot
        | exists [], []; split; [reflexivity|]; split; [reflexivity|]; unfold answered; simpl;
          first [split; [answer_request|done] | apply event_silent; [done|done|by intros ? (? & ? & ?)]]].

(** Every event in every state. *)
Lemma event_handled evt p w : follow (h_tr w) = Some (mode_of (m_state w)) -> payload_ok evt p = true -> handled evt p w.
Proof.
  intros Hf Hp. destruct w as [st win msg tr]; destruct st; simpl in *.
  all: apply wp_handled; unfold stateMachine; do 2 wp_step; simpl.
  all: destruct evt, p; try discriminate Hp; clear Hp; simpl.
  all: repeat wp_step; simpl; (split; [in_step Hf|count_answers]).
Qed.

(** ** Sequences of events *)

Definition run_events (l : list (qcamera_sm_evt_enum_t * sm_payload)) : M smworld unit := for_each l (fun '(evt, p) => stateMachine evt p;; mret tt).

Definition events_ok (l : list (qcamera_sm_evt_enum_t * sm_payload)) : bool := forallb (fun '(evt, p) => payload_ok evt p) l.

(** As the constructor leaves it, before anything was called. *)
Definition fresh_sm : smworld := {| m_state := QCAMERA_SM_STATE_PREVIEW_STOPPED; mPreviewWindow := 0; mMsgEnabled := 0; h_tr := [] |}.

Lemma run_events_ok l : forall w, follow (h_tr w) = Some (mode_of (m_state w)) -> events_ok l = true ->
  exists w', run_events l w = Some (tt, w') /\ follow (h_tr w') = Some (mode_of (m_state w')).
Proof.
  induction l as [|[evt p] l IH]; intros w Hf Hl; [by exists w|]. apply andb_true_iff in Hl as [Hp Hl].
  destruct (event_handled evt p w Hf Hp) as (rc & w1 & _ & _ & E & Hf1 & _). destruct (IH w1 Hf1 Hl) as (w' & E' & Hf'). exists w'. split; [|done].
  unfold run_events in *. simpl. by rewrite (bind_run _ _ w tt w1) by (by rewrite (bind_run _ _ _ _ _ E)).
Qed.

(** C12: whatever sequence of requests and events arrives and whatever the
    methods of the hardware interface return, every event is handled to its
    end; the calls are in place one by one (a preview is started when it is
    prepared and not running, a recording started in a running preview and
    stopped before it, pictures taken in a running preview and given up once);
    and the state of the machine says which of a preview, a recording and a
    picture the hardware interface has going. *)
Theorem hal_refines l (Hl : events_ok l = true) : exists w m, run_events l fresh_sm = Some (tt, w) /\ follow (h_tr w) = Some m /\
  m = mode_of (m_state w) /\ isPreviewRunning (m_state w) = started m.
Proof. destruct (run_events_ok l fresh_sm eq_refl Hl) as (w & E & Hf). exists w, (mode_of (m_state w)). repeat split; try done. by destruct (m_state w). Qed.

(** C26: in every state that can be reached, whatever the hardware interface
    returns, a request of the framework is answered before the state machine
    takes the next one: once, to this request and with the status that the
    state machine returns.  The exceptions: the preparation of a snapshot that
    the hardware accepts is not answered then; the machine stays in the state
    that waits for it, whatever else arrives, until the hardware reports the
    preparation done, and that report answers it, once; and the registration
    of a face in between is not answered at all.  The end of a snapshot is
    reported once to the thread that waits for it, and no other event answers
    anybody. *)
Theorem request_answered l evt p (Hl : events_ok l = true) (Hp : payload_ok evt p = true) :
  exists w rc w' api ev, run_events l fresh_sm = Some (tt, w) /\ stateMachine evt p w = Some (rc, w') /\
    api_answers (h_tr w') = api ++ api_answers (h_tr w) /\ evt_answers (h_tr w') = ev ++ evt_answers (h_tr w) /\
    if is_api evt then answer_of (m_state w) evt rc (m_state w') api /\ ev = []
    else event_answer_of (m_state w) evt p rc (m_state w') api ev.
Proof.
  destruct (run_events_ok l fresh_sm eq_refl Hl) as (w & E & Hf). destruct (event_handled evt p w Hf Hp) as (rc & w' & api & ev & E' & _ & Ha & He & H).
  by exists w, rc, w', api, ev.
Qed.

End Follow.

(** ** A camera *)

Module DemoHal.

(** Everything succeeds, outside of ZSL mode and without a recording hint. *)
#[local] Instance hwi_ok : HwiEnv := {|
  env_rc := fun _ _ => 0; env_need_restart := fun _ => false; env_face := fun _ => 5; env_zsl := fun _ => false; env_hint := fun _ => false |}.

(** A window, a preview, a recording with a live snapshot, and a picture. *)
Definition session : list (qcamera_sm_evt_enum_t * sm_payload) :=
  [(QCAMERA_SM_EVT_SET_PREVIEW_WINDOW, P_word 4096); (QCAMERA_SM_EVT_START_PREVIEW, P_word 0); (QCAMERA_SM_EVT_START_RECORDING, P_word 0);
   (QCAMERA_SM_EVT_TAKE_PICTURE, P_word 0); (QCAMERA_SM_EVT_SNAPSHOT_DONE, P_word 0); (QCAMERA_SM_EVT_STOP_RECORDING, P_word 0);
   (QCAMERA_SM_EVT_PREPARE_SNAPSHOT, P_word 0); (QCAMERA_SM_EVT_EVT_INTERNAL, P_internal (QCAMERA_INTERNAL_EVT_PREP_SNAPSHOT_DONE 0))].

Lemma hal_refines_witness : exists w m, run_events session fresh_sm = Some (tt, w) /\ follow (h_tr w) = Some m /\ started m = true /\
  m_state w = QCAMERA_SM_STATE_PREVIEWING.
Proof.
  destruct (hal_refines session eq_refl) as (w & m & E & Hf & Hm & Hp). exists w, m. split; [exact E|]. split; [exact Hf|].
  assert (m_state w = QCAMERA_SM_STATE_PREVIEWING) as Hs by (revert E; vm_compute; by intros [= <-]). split; [|done]. by rewrite <- Hp, Hs.
Defined.

(** A picture is answered at once; the report that a snapshot is prepared
    answers the request that asked for it. *)
Lemma request_answered_witness :
  (exists w rc w', run_events session fresh_sm = Some (tt, w) /\ stateMachine QCAMERA_SM_EVT_TAKE_PICTURE (P_word 0) w = Some (rc, w') /\
    length (api_answers (h_tr w')) = S (length (api_answers (h_tr w)))) /\
  (exists w rc w', run_events (take 7 session) fresh_sm = Some (tt, w) /\
    stateMachine QCAMERA_SM_EVT_EVT_INTERNAL (P_internal (QCAMERA_INTERNAL_EVT_PREP_SNAPSHOT_DONE 0)) w = Some (rc, w') /\
    request_api <$> head (api_answers (h_tr w')) = Some QCAMERA_SM_EVT_PREPARE_SNAPSHOT).
Proof.
  split.
  - destruct (request_answered session QCAMERA_SM_EVT_TAKE_PICTURE (P_word 0) eq_refl eq_refl) as (w & rc & w' & api & ev & E & E' & Ha & _ & H & _).
    exists w, rc, w'. split; [exact E|]. split; [exact E'|]. rewrite Ha. by destruct H.
  - destruct (request_answered (take 7 session) QCAMERA_SM_EVT_EVT_INTERNAL (P_internal (QCAMERA_INTERNAL_EVT_PREP_SNAPSHOT_DONE 0)) eq_refl eq_refl)
      as (w & rc & w' & api & ev & E & E' & Ha & _ & H). exists w, rc, w'. split; [exact E|]. split; [exact E'|]. rewrite Ha.
    assert (m_state w = QCAMERA_SM_STATE_PREPARE_SNAPSHOT) as Hs by (revert E; vm_compute; by intros [= <-]).
    destruct H as [| |Hs' _ Hn]; [done|done|]. by destruct (Hn 0).
Defined.

(** While the hardware prepares a snapshot, a face is not registered, and
    nobody is told. *)
Example face_forgotten :
  match (run_events (take 7 session);; stateMachine QCAMERA_SM_EVT_REG_FACE_IMAGE (P_reg_face {| img_ptr := 1; config := 2 |})) fresh_sm with
  | Some (_, w) => m_state w = QCAMERA_SM_STATE_PREPARE_SNAPSHOT /\ Forall (fun r => request_api r <> QCAMERA_SM_EVT_REG_FACE_IMAGE) (api_answers (h_tr w))
  | None => False
  end.
Proof. vm_compute. split; [done|]. repeat constructor; done. Qed.

(** During a recording the preview runs, and is said not to. *)
Example preview_denied :
  match (run_events (take 3 session);; stateMachine QCAMERA_SM_EVT_PREVIEW_ENABLED (P_word 0)) fresh_sm with
  | Some (_, w) => isPreviewRunning (m_state w) = true /\ value <$> head (api_answers (h_tr w)) = Some (QCAMERA_API_RESULT_TYPE_ENABLE_FLAG 0)
  | None => False
  end.
Proof. by vm_compute. Qed.

(** A live snapshot in a preview that cannot be restarted with new parameters:
    the state is that of a picture, which is given up in place of the snapshot. *)
#[local] Definition hwi_restart : HwiEnv := {|
  env_rc := fun tr c => match c with HPreparePreview => if (length tr <? 5)%nat then 0 else -1 | _ => 0 end;
  env_need_restart := fun _ => true; env_face := fun _ => 5; env_zsl := fun _ => false; env_hint := fun _ => true |}.

Example snapshot_given_up_as_picture :
  match run_events (HE := hwi_restart)
    [(QCAMERA_SM_EVT_SET_PREVIEW_WINDOW, P_word 4096); (QCAMERA_SM_EVT_START_PREVIEW, P_word 0); (QCAMERA_SM_EVT_TAKE_PICTURE, P_word 0);
     (QCAMERA_SM_EVT_SET_PARAMS, P_word 1); (QCAMERA_SM_EVT_SNAPSHOT_DONE, P_word 0)] fresh_sm with
  | Some (_, w) => In (HCall HTakeLiveSnapshot 0) (h_tr w) /\ In (HCall HCancelPicture 0) (h_tr w) /\ ~ In (HCall HCancelLiveSnapshot 0) (h_tr w)
  | None => False
  end.
Proof. vm_compute. intuition congruence. Qed.

End DemoHal.
