(* ===== verification/HalQueue.v ===== *)
(** * The queue of the camera HAL ([QCameraQueue.cpp])

    The queues of requests and events of the HAL state machine, and those of
    its other threads, on the heap of linked cells of [CamQueue].  Elements
    may enter and leave at both ends, and the ones that match a predicate can
    be thrown away.  Each operation acts on the sequence of data as the list
    operation it stands for.  The mutex of the queue makes each one atomic;
    [match] and the release function are called with it and do not come back
    to the queue. *)

From Stdlib Require Import ZArith Lia.
From stdpp Require Import list gmap.
From S2P Require Import Prelude CamQueue.

Section HalQueue.
Context {A : Type}.

(** [camera_q_node] has the fields of [cam_node_t]. *)
Abbreviation qheap := (gmap Z (cam_node_t A)).

(** [m_dataFn]: whether a release function was given. *)
Record QCameraQueue := { m_head : Z; m_size : Z; m_dataFn : bool }.

Definition with_size (n : Z) (q : QCameraQueue) : QCameraQueue := {| m_head := m_head q; m_size := n; m_dataFn := m_dataFn q |}.

(** What happens to the data of a node that is thrown away. *)
Inductive q_event := QRelease (d : A) | QFree (d : A).

Context (malloc : qheap -> option Z).

(** The constructor, for a dummy head at [addr]. *)
Definition queue_ctor (addr : Z) (fn : bool) (h : qheap) : option (QCameraQueue * qheap) :=
  h ← cam_list_init addr h; Some ({| m_head := addr; m_size := 0; m_dataFn := fn |}, h).

Definition isEmpty (q : QCameraQueue) : bool := if 0 <? m_size q then false else true.

Definition enqueue (d : option A) (q : QCameraQueue) (h : qheap) : option (bool * QCameraQueue * qheap) :=
  match malloc h with
  | None => Some (false, q, h)
  | Some node =>
      let h := <[node := {| next := 0; prev := 0; data := d |}]> h in
      h ← cam_list_add_tail_node node (m_head q) h;
      Some (true, with_size (m_size q +i 1) q, h)
  end.

Definition enqueueWithPriority (d : option A) (q : QCameraQueue) (h : qheap) : option (bool * QCameraQueue * qheap) :=
  match malloc h with
  | None => Some (false, q, h)
  | Some node =>
      let h := <[node := {| next := 0; prev := 0; data := d |}]> h in
      nh ← h !! m_head q;
      let p_next := next nh in
      h ← set_next (m_head q) node h;
      h ← set_prev p_next node h;
      h ← set_next node p_next h;
      h ← set_prev node (m_head q) h;
      Some (true, with_size (m_size q +i 1) q, h)
  end.

Definition dequeue (bFromHead : bool) (q : QCameraQueue) (h : qheap) : option (option A * QCameraQueue * qheap) :=
  nh ← h !! m_head q;
  let pos := if bFromHead then next nh else prev nh in
  if negb (pos =? m_head q) then
    h ← cam_list_del_node pos h;
    n ← h !! pos;
    Some (data n, with_size (m_size q -i 1) q, delete pos h)
  else Some (None, q, h).

Definition drop_data (q : QCameraQueue) (d : option A) : list q_event :=
  match d with
  | Some d => (if m_dataFn q then [QRelease d] else []) ++ [QFree d]
  | None => []
  end.

(** The loop of [flushNodes], and of [flush], where every node goes. *)
Fixpoint drop_loop (matches : option A -> bool) (fuel : nat) (q : QCameraQueue) (pos : Z) (h : qheap) : option (list q_event * QCameraQueue * qheap) :=
  if negb (pos =? m_head q) then
    match fuel with
    | O => None
    | S fuel =>
        n ← h !! pos;
        if matches (data n) then
          h ← cam_list_del_node pos h;
          '(l, q', h) ← drop_loop matches fuel (with_size (m_size q -i 1) q) (next n) (delete pos h);
          Some (drop_data q (data n) ++ l, q', h)
        else drop_loop matches fuel q (next n) h
    end
  else Some ([], q, h).

Definition flush (fuel : nat) (q : QCameraQueue) (h : qheap) : option (list q_event * QCameraQueue * qheap) :=
  nh ← h !! m_head q;
  '(l, q, h) ← drop_loop (fun _ => true) fuel q (next nh) h;
  Some (l, with_size 0 q, h).

Definition flushNodes (matches : option (option A -> bool)) (fuel : nat) (q : QCameraQueue) (h : qheap) : option (list q_event * QCameraQueue * qheap) :=
  match matches with
  | None => Some ([], q, h)
  | Some matches => nh ← h !! m_head q; drop_loop matches fuel q (next nh) h
  end.

(** The destructor up to the mutex. *)
Definition queue_dtor (fuel : nat) (q : QCameraQueue) (h : qheap) : option (list q_event * QCameraQueue * qheap) := flush fuel q h.

(** ** The cells of a queue *)

(** From the head [hd] the cells hold [xs]. *)
Definition cells (hd : Z) (xs : list (option A)) (h : qheap) : Prop := exists l, ring h hd l /\ Forall2 (fun p x => dt h p = Some x) l xs.

(** The size is counted in a signed integer. *)
Definition holds (q : QCameraQueue) (xs : list (option A)) (h : qheap) : Prop :=
  cells (m_head q) xs h /\ m_size q = Z.of_nat (length xs) /\ i32_range (m_size q).

Lemma push_front_ring (h : qheap) hd l item : ring h hd l -> item ∈ dom h -> item ∉ hd :: l ->
  exists h1 h2 h3 h4, nx h hd = Some (List.hd hd l) /\ set_next hd item h = Some h1 /\ set_prev (List.hd hd l) item h1 = Some h2 /\
    set_next item (List.hd hd l) h2 = Some h3 /\ set_prev item hd h3 = Some h4 /\ ring h4 hd (item :: l) /\ (forall x, dt h4 x = dt h x).
Proof.
  intros Hr Hi Hni. pose proof Hr as [_ Hs]. pose proof (seg_first _ _ _ _ Hs) as Hf. pose proof (hd_in hd l) as Hh.
  assert (Hhd : hd ∈ dom h) by (apply (ring_dom h hd l); [done|set_solver +]). assert (Hv : List.hd hd l ∈ dom h) by (apply (ring_dom h hd l); [done|set_solver +Hh]).
  destruct (set_next_spec hd item h Hhd) as (h1 & E1 & D1 & N1 & P1 & T1).
  destruct (set_prev_spec (List.hd hd l) item h1) as (h2 & E2 & D2 & N2 & P2 & T2); [by rewrite D1|].
  destruct (set_next_spec item (List.hd hd l) h2) as (h3 & E3 & D3 & N3 & P3 & T3); [by rewrite D2, D1|].
  destruct (set_prev_spec item hd h3) as (h4 & E4 & D4 & N4 & P4 & T4); [by rewrite D3, D2, D1|].
  exists h1, h2, h3, h4. do 5 (split; [done|]). split; [|intros x; by rewrite T4, T3, T2, T1].
  apply (ring_splice h h4 hd [] l item Hr Hni). split; [by rewrite D4, D3, D2, D1|].
  assert (item <> hd) by set_solver +Hni. assert (item <> List.hd hd l) by (intros ->; set_solver +Hni Hh).
  split; [|split; [|intros x; by rewrite T4, T3, T2, T1]]; intros x.
  - rewrite N4, N3, N2, N1. simpl List.last. repeat case_decide; congruence.
  - rewrite P4, P3, P2, P1. simpl List.last. repeat case_decide; congruence.
Qed.

(** A fresh cell with [d] in front of the others or behind them. *)
Lemma fresh_cell hd xs d h node : cells hd xs h -> node ∉ dom h ->
  exists l, ring (<[node := {| next := 0; prev := 0; data := d |}]> h) hd l /\ (node ∉ hd :: l) /\
    Forall2 (fun p x => dt (<[node := {| next := 0; prev := 0; data := d |}]> h) p = Some x) l xs.
Proof.
  intros (l & Hr & Hf) Hn. exists l. assert (Hni : node ∉ hd :: l) by (intros Hin; apply Hn; by eapply ring_dom). set (h1 := <[node := _]> h).
  assert (Hne : forall x, x ∈ hd :: l -> h1 !! x = h !! x) by (intros x Hx; apply lookup_insert_ne; set_solver).
  split; [by apply (ring_frame h)|]. split; [done|]. eapply payloads_frame; [|exact Hf]. intros x Hx. unfold dt. rewrite Hne; [done|set_solver].
Qed.

Lemma fresh_data d (h : qheap) node : dt (<[node := {| next := 0; prev := 0; data := d |}]> h) node = Some d.
Proof. unfold dt. by rewrite lookup_insert_eq. Qed.

Lemma enqueue_holds d q xs h : malloc_fresh malloc -> holds q xs h -> Z.of_nat (length xs) < 2 ^ 31 - 1 ->
  match malloc h with
  | None => enqueue d q h = Some (false, q, h)
  | Some _ => exists q' h', enqueue d q h = Some (true, q', h') /\ holds q' (xs ++ [d]) h' /\ m_dataFn q' = m_dataFn q
  end.
Proof.
  intros Hm (Hc & Hsz & _) Hlen. unfold enqueue. destruct (malloc h) as [node|] eqn:Em; [|done]. apply Hm in Em.
  destruct (fresh_cell (m_head q) xs d h node Hc Em) as (l & Hr & Hni & Hf). set (h1 := <[node := _]> h) in *.
  destruct (add_tail_ring h1 (m_head q) l node) as (h2 & -> & Hr2 & Hd2); [done|unfold h1; set_solver +|done|]. simpl. do 2 eexists. split; [reflexivity|]. split; [|done]. split.
  - exists (l ++ [node]). split; [done|]. apply Forall2_app; [|constructor; [by rewrite Hd2; apply fresh_data|constructor]].
    eapply payloads_frame; [|exact Hf]. intros x _. apply Hd2.
  - simpl. rewrite Hsz, length_app, i32_id; simpl; unfold i32_range; lia.
Qed.

Lemma push_holds d q xs h : malloc_fresh malloc -> holds q xs h -> Z.of_nat (length xs) < 2 ^ 31 - 1 ->
  match malloc h with
  | None => enqueueWithPriority d q h = Some (false, q, h)
  | Some _ => exists q' h', enqueueWithPriority d q h = Some (true, q', h') /\ holds q' (d :: xs) h' /\ m_dataFn q' = m_dataFn q
  end.
Proof.
  intros Hm (Hc & Hsz & _) Hlen. unfold enqueueWithPriority. destruct (malloc h) as [node|] eqn:Em; [|done]. apply Hm in Em.
  destruct (fresh_cell (m_head q) xs d h node Hc Em) as (l & Hr & Hni & Hf). set (h0 := <[node := _]> h) in *.
  destruct (push_front_ring h0 (m_head q) l node) as (h1 & h2 & h3 & h4 & (n & Hn & Hnx)%nx_lookup & E1 & E2 & E3 & E4 & Hr4 & Hd4); [done|unfold h0; set_solver +|done|].
  rewrite Hn. simpl. rewrite Hnx, E1. simpl. rewrite E2. simpl. rewrite E3. simpl. rewrite E4. simpl. do 2 eexists. split; [reflexivity|]. split; [|done]. split.
  - exists (node :: l). split; [done|]. constructor; [by rewrite Hd4; apply fresh_data|]. eapply payloads_frame; [|exact Hf]. intros x _. apply Hd4.
  - simpl. rewrite Hsz, i32_id; simpl; unfold i32_range; lia.
Qed.

(** Unlinking and freeing a cell. *)
Lemma del_cell h hd l1 p l2 x (xs1 xs2 : list (option A)) : length l1 = length xs1 ->
  ring h hd (l1 ++ p :: l2) -> Forall2 (fun p x => dt h p = Some x) (l1 ++ p :: l2) (xs1 ++ x :: xs2) ->
  exists h1 n, cam_list_del_node p h = Some h1 /\ h1 !! p = Some n /\ data n = x /\
    ring (delete p h1) hd (l1 ++ l2) /\ Forall2 (fun a y => dt (delete p h1) a = Some y) (l1 ++ l2) (xs1 ++ xs2).
Proof.
  intros Hlen Hr Hf. pose proof Hr as [Hnd _]. destruct (del_node_ring h hd l1 p l2 Hr) as (h1 & He & Hr1 & Hdom & Hd1).
  apply Forall2_app_inv in Hf as [Hf1 Hf2]; [|done]. apply Forall2_cons in Hf2 as [Hp Hf2]. rewrite <- Hd1 in Hp. unfold dt in Hp. destruct (h1 !! p) as [n|] eqn:En; [|done].
  injection Hp as Hp. exists h1, n. do 3 (split; [done|]). apply NoDup_cons in Hnd as [Hh Hnd]. rewrite <- Permutation_middle in Hnd. apply NoDup_cons in Hnd as [Hpl _].
  assert (Hne : forall y, y ∈ hd :: l1 ++ l2 -> delete p h1 !! y = h1 !! y) by (intros y Hy; apply lookup_delete_ne; set_solver).
  split; [by apply (ring_frame h1)|]. apply Forall2_app; (eapply payloads_frame; [|done]); intros y Hy; rewrite <- Hd1; unfold dt; rewrite Hne; set_solver.
Qed.

(** One element less. *)
Lemma size_pred q (xs ys : list (option A)) : m_size q = Z.of_nat (length xs) -> i32_range (m_size q) -> length xs = S (length ys) ->
  m_size q -i 1 = Z.of_nat (length ys) /\ i32_range (m_size q -i 1).
Proof. intros -> Hrg Hl. rewrite Hl in *. unfold i32_range in *. rewrite i32_id; unfold i32_range; lia. Qed.

Lemma ring_member_ne (h : qheap) hd l p : ring h hd l -> p ∈ l -> (p =? hd) = false.
Proof. intros [[Hh _]%NoDup_cons _] Hp. apply Z.eqb_neq. by intros ->. Qed.

(** What a queue gives at one of its ends, and what it keeps. *)
Definition take_end (bFromHead : bool) (xs : list (option A)) : option (option A * list (option A)) :=
  if bFromHead then match xs with [] => None | x :: xs => Some (x, xs) end
  else match rev xs with [] => None | x :: ys => Some (x, rev ys) end.

Lemma dequeue_holds b q xs h : holds q xs h ->
  exists q' h', dequeue b q h = Some (match take_end b xs with None => None | Some (x, _) => x end, q', h') /\
    holds q' (match take_end b xs with None => xs | Some (_, ys) => ys end) h' /\ m_dataFn q' = m_dataFn q.
Proof.
  intros ((l & Hr & Hf) & Hsz & Hrg). pose proof Hr as [_ Hs]. unfold dequeue. pose proof (seg_first _ _ _ _ Hs) as (n & Hn & Hnx)%nx_lookup.
  pose proof (seg_last _ _ _ _ Hs) as (n' & Hn' & Hpv)%pv_lookup. rewrite Hn in Hn'. injection Hn' as <-. rewrite Hn. simpl.
  destruct (take_end b xs) as [[x ys]|] eqn:Et.
  - assert (exists l1 p l2 xs1 xs2, (if b then next n else prev n) = p /\ l = l1 ++ p :: l2 /\ xs = xs1 ++ x :: xs2 /\ ys = xs1 ++ xs2 /\ length l1 = length xs1)
      as (l1 & p & l2 & xs1 & xs2 & Hp & -> & -> & -> & Hl).
    { destruct b; simpl in Et.
      - destruct xs as [|y xs]; [done|]. injection Et as -> ->. apply Forall2_cons_inv_r in Hf as (p & l' & _ & _ & ->). by exists [], p, l', [], ys.
      - destruct (rev xs) as [|y zs] eqn:Erev; [done|]. injection Et as -> <-. assert (xs = rev zs ++ [x]) as -> by (rewrite <- (rev_involutive xs), Erev; done).
        apply Forall2_app_inv_r in Hf as (l1 & l2 & Hf1 & Hf2 & ->). apply Forall2_cons_inv_r in Hf2 as (p & l3 & _ & Hf3 & ->). inversion Hf3; subst.
        exists l1, p, [], (rev zs), []. rewrite app_nil_r. split; [by rewrite Hpv, last_last|]. do 3 (split; [done|]). by eapply Forall2_length. }
    rewrite Hp, (ring_member_ne h (m_head q) (l1 ++ p :: l2) p Hr) by set_solver +. simpl.
    destruct (del_cell h (m_head q) l1 p l2 x xs1 xs2 Hl Hr Hf) as (h1 & n1 & -> & En & Hd & Hr1 & Hf1). simpl. rewrite En. simpl. rewrite Hd.
    do 2 eexists. split; [reflexivity|]. split; [|done]. split; [by exists (l1 ++ l2)|]. apply (size_pred q (xs1 ++ x :: xs2)); [done|done|rewrite !length_app; simpl; lia].
  - assert (xs = []) as -> by (destruct b, xs as [|y xs]; try done; simpl in Et; by destruct (rev xs)). inversion Hf; subst. simpl in *. exists q, h.
    split; [destruct b; rewrite ?Hnx, ?Hpv, Z.eqb_refl; done|]. split; [|done]. split; [by exists []|done].
Qed.

(** The nodes that match, in order, and what their data goes through. *)
Definition dropped (fn : bool) (matches : option A -> bool) (xs : list (option A)) : list q_event :=
  xs ≫= fun x => if matches x then drop_data {| m_head := 0; m_size := 0; m_dataFn := fn |} x else [].
Definition kept (matches : option A -> bool) (xs : list (option A)) : list (option A) := List.filter (fun x => negb (matches x)) xs.

Lemma drop_loop_holds matches xs2 : forall fuel q h l1 l2 xs1, length l1 = length xs1 ->
  ring h (m_head q) (l1 ++ l2) -> Forall2 (fun p x => dt h p = Some x) (l1 ++ l2) (xs1 ++ xs2) ->
  m_size q = Z.of_nat (length (xs1 ++ xs2)) -> i32_range (m_size q) -> (length xs2 <= fuel)%nat ->
  exists q' h', drop_loop matches fuel q (List.hd (m_head q) l2) h = Some (dropped (m_dataFn q) matches xs2, q', h') /\
    holds q' (xs1 ++ kept matches xs2) h' /\ m_head q' = m_head q /\ m_dataFn q' = m_dataFn q.
Proof.
  induction xs2 as [|x xs2 IH]; intros fuel q h l1 l2 xs1 Hlen Hr Hf Hsz Hrg Hfuel;
    (destruct l2 as [|p l2]; [|]; try (apply Forall2_length in Hf; rewrite !length_app in Hf; simpl in Hf; lia)).
  - exists q, h. split; [by destruct fuel; simpl; rewrite Z.eqb_refl|]. split; [|done]. split; [by exists (l1 ++ [])|done].
  - destruct fuel as [|fuel]; [simpl in Hfuel; lia|]. cbn [List.hd drop_loop]. rewrite (ring_member_ne h _ _ p Hr) by set_solver +. cbn [negb].
    pose proof Hr as [_ [_ Hs2]%seg_app]. pose proof (seg_first _ _ _ _ Hs2) as (n & Hn & Hnx)%nx_lookup. rewrite Hn. cbn [mbind option_bind].
    assert (data n = x) as ->. { apply Forall2_app_inv in Hf as [_ Hf2]; [|done]. apply Forall2_cons in Hf2 as [Hp _]. unfold dt in Hp. rewrite Hn in Hp. by injection Hp. }
    rewrite Hnx. unfold kept, dropped. simpl. destruct (matches x) eqn:Em; simpl.
    + destruct (del_cell h (m_head q) l1 p l2 x xs1 xs2 Hlen Hr Hf) as (h1 & n1 & -> & _ & _ & Hr1 & Hf1). simpl.
      destruct (size_pred q (xs1 ++ x :: xs2) (xs1 ++ xs2)) as [Hs1 Hg1]; [done|done|rewrite !length_app; simpl; lia|].
      destruct (IH fuel (with_size (m_size q -i 1) q) (delete p h1) l1 l2 xs1) as (q' & h' & E1 & H1); try done; [simpl in Hfuel; lia|].
      simpl in E1. rewrite E1. simpl. exists q', h'. split; [|done]. by destruct x.
    + destruct (IH fuel q h (l1 ++ [p]) l2 (xs1 ++ [x])) as (q' & h' & E1 & Hh & H1);
        [rewrite !length_app; simpl; lia|by rewrite <- app_assoc|by rewrite <- !app_assoc|by rewrite <- app_assoc|done|simpl in Hfuel; lia|].
      rewrite E1. exists q', h'. rewrite <- app_assoc in Hh. done.
Qed.

Lemma flush_nodes_holds matches fuel q xs h : holds q xs h -> (length xs <= fuel)%nat ->
  exists q' h', flushNodes (Some matches) fuel q h = Some (dropped (m_dataFn q) matches xs, q', h') /\
    holds q' (kept matches xs) h' /\ m_head q' = m_head q /\ m_dataFn q' = m_dataFn q.
Proof.
  intros ((l & Hr & Hf) & Hsz & Hrg) Hfuel. pose proof Hr as [_ Hs]. unfold flushNodes. pose proof (seg_first _ _ _ _ Hs) as (n & Hn & Hnx)%nx_lookup.
  rewrite Hn. simpl. rewrite Hnx. by apply (drop_loop_holds matches xs fuel q h [] l []).
Qed.

Lemma kept_none xs : kept (fun _ => true) xs = [].
Proof. by induction xs. Qed.

Lemma flush_holds fuel q xs h : holds q xs h -> (length xs <= fuel)%nat ->
  exists q' h', flush fuel q h = Some (dropped (m_dataFn q) (fun _ => true) xs, q', h') /\ holds q' [] h' /\ m_dataFn q' = m_dataFn q.
Proof.
  intros H Hfuel. destruct (flush_nodes_holds (fun _ => true) fuel q xs h H Hfuel) as (q' & h' & E & Hh & Hd & Hfn). unfold flush, flushNodes in *.
  destruct (h !! m_head q) as [n|]; [|done]. simpl in *. rewrite E. simpl. do 2 eexists. split; [reflexivity|]. split; [|done]. rewrite kept_none in Hh. split; [|done]. apply Hh.
Qed.

(** ** Sequences of operations *)

Inductive hq_op := OEnqueue (d : option A) | OPush (d : option A) | ODequeue (bFromHead : bool) | OFlush | OFlushNodes (matches : option A -> bool) | OIsEmpty.
Inductive hq_res := RBool (b : bool) | RData (d : option A) | RDropped (l : list q_event).

Definition run_hq_op (fuel : nat) (o : hq_op) (q : QCameraQueue) (h : qheap) : option (hq_res * QCameraQueue * qheap) :=
  match o with
  | OEnqueue d => '(b, q, h) ← enqueue d q h; Some (RBool b, q, h)
  | OPush d => '(b, q, h) ← enqueueWithPriority d q h; Some (RBool b, q, h)
  | ODequeue b => '(d, q, h) ← dequeue b q h; Some (RData d, q, h)
  | OFlush => '(l, q, h) ← flush fuel q h; Some (RDropped l, q, h)
  | OFlushNodes m => '(l, q, h) ← flushNodes (Some m) fuel q h; Some (RDropped l, q, h)
  | OIsEmpty => Some (RBool (isEmpty q), q, h)
  end.

Fixpoint run_hq (fuel : nat) (os : list hq_op) (q : QCameraQueue) (h : qheap) : option (list hq_res * QCameraQueue * qheap) :=
  match os with
  | [] => Some ([], q, h)
  | o :: os => '(r, q, h) ← run_hq_op fuel o q h; '(rs, q, h) ← run_hq fuel os q h; Some (r :: rs, q, h)
  end.

(** The same on a list, open at both ends; [fn]: whether data is released
    before it is freed. *)
Inductive deque_step (fn : bool) : hq_op -> list (option A) -> hq_res -> list (option A) -> Prop :=
| deque_enqueue d xs : deque_step fn (OEnqueue d) xs (RBool true) (xs ++ [d])
| deque_push d xs : deque_step fn (OPush d) xs (RBool true) (d :: xs)
| deque_no_memory o xs : (exists d, o = OEnqueue d \/ o = OPush d) -> deque_step fn o xs (RBool false) xs
| deque_first x xs : deque_step fn (ODequeue true) (x :: xs) (RData x) xs
| deque_last x xs : deque_step fn (ODequeue false) (xs ++ [x]) (RData x) xs
| deque_empty b : deque_step fn (ODequeue b) [] (RData None) []
| deque_flush xs : deque_step fn OFlush xs (RDropped (dropped fn (fun _ => true) xs)) []
| deque_flush_nodes m xs : deque_step fn (OFlushNodes m) xs (RDropped (dropped fn m xs)) (kept m xs)
| deque_is_empty xs : deque_step fn OIsEmpty xs (RBool (match xs with [] => true | _ => false end)) xs.

Inductive deque_run (fn : bool) : list hq_op -> list (option A) -> list hq_res -> list (option A) -> Prop :=
| deque_nil xs : deque_run fn [] xs [] xs
| deque_cons o os xs r ys rs zs : deque_step fn o xs r ys -> deque_run fn os ys rs zs -> deque_run fn (o :: os) xs (r :: rs) zs.

Lemma take_end_deque fn b xs : deque_step fn (ODequeue b) xs (RData (match take_end b xs with None => None | Some (x, _) => x end))
  (match take_end b xs with None => xs | Some (_, ys) => ys end) /\ (length (match take_end b xs with None => xs | Some (_, ys) => ys end) <= length xs)%nat.
Proof.
  destruct b; unfold take_end; [destruct xs; (split; [constructor|simpl; lia])|]. destruct xs as [|y xs _] using rev_ind; [split; [constructor|done]|].
  rewrite rev_app_distr. simpl. rewrite rev_involutive. split; [constructor|]. rewrite length_app. lia.
Qed.

Lemma kept_length m xs : (length (kept m xs) <= length xs)%nat.
Proof. induction xs as [|x xs IH]; [done|]. unfold kept in *. simpl. destruct (negb (m x)); simpl; lia. Qed.

Lemma is_empty_holds q xs h : holds q xs h -> isEmpty q = match xs with [] => true | _ => false end.
Proof. intros (_ & Hsz & _). unfold isEmpty. rewrite Hsz. by destruct xs. Qed.

Lemma run_hq_op_refines fuel o q xs h : malloc_fresh malloc -> holds q xs h -> Z.of_nat (length xs) < 2 ^ 31 - 1 -> (length xs <= fuel)%nat ->
  exists r q' h' ys, run_hq_op fuel o q h = Some (r, q', h') /\ deque_step (m_dataFn q) o xs r ys /\ holds q' ys h' /\ m_dataFn q' = m_dataFn q /\
    (length ys <= S (length xs))%nat.
Proof.
  intros Hm Hq Hlen Hfuel. destruct o as [d|d|b| |m| ]; simpl.
  - pose proof (enqueue_holds d q xs h Hm Hq Hlen) as He. destruct (malloc h).
    + destruct He as (q' & h' & -> & Hq' & Hfn). simpl. do 4 eexists. split; [done|]. split; [constructor|]. split; [done|]. split; [done|]. rewrite length_app. simpl. lia.
    + rewrite He. simpl. do 4 eexists. split; [done|]. split; [constructor; by eauto|]. split; [done|]. split; [done|lia].
  - pose proof (push_holds d q xs h Hm Hq Hlen) as He. destruct (malloc h).
    + destruct He as (q' & h' & -> & Hq' & Hfn). simpl. do 4 eexists. split; [done|]. split; [constructor|]. split; [done|]. split; [done|done].
    + rewrite He. simpl. do 4 eexists. split; [done|]. split; [constructor; by eauto|]. split; [done|]. split; [done|lia].
  - destruct (dequeue_holds b q xs h Hq) as (q' & h' & -> & Hq' & Hfn). destruct (take_end_deque (m_dataFn q) b xs). simpl. do 4 eexists. do 4 (split; [done|]). lia.
  - destruct (flush_holds fuel q xs h Hq Hfuel) as (q' & h' & -> & Hq' & Hfn). simpl. do 4 eexists. split; [done|]. split; [constructor|]. split; [done|]. split; [done|simpl; lia].
  - destruct (flush_nodes_holds m fuel q xs h Hq Hfuel) as (q' & h' & E & Hq' & _ & Hfn). unfold flushNodes in E. rewrite E. simpl. do 4 eexists. split; [done|].
    split; [constructor|]. split; [done|]. split; [done|]. pose proof (kept_length m xs). lia.
  - rewrite (is_empty_holds q xs h Hq). do 4 eexists. split; [done|]. split; [constructor|]. split; [done|]. split; [done|lia].
Qed.

(** C24: any sequence of operations of a [QCameraQueue] runs without
    following a bad pointer and returns what the same operations return on a
    list that is open at both ends: elements enter in front or behind and leave
    there; an insertion is refused only without memory; a flush takes
    everything, and [flushNodes] exactly the elements that match, in order and
    leaving the others in theirs, each of them released and then freed once;
    [isEmpty] tells whether the list is empty.  The cells left at the end
    represent the list left at the end. *)
Theorem hal_queue_refines (Hm : malloc_fresh malloc) fuel os q xs h (Hq : holds q xs h) (Hlen : Z.of_nat (length xs + length os) < 2 ^ 31)
  (Hfuel : (length xs + length os <= fuel)%nat) :
  exists rs q' h' ys, run_hq fuel os q h = Some (rs, q', h') /\ deque_run (m_dataFn q) os xs rs ys /\ holds q' ys h'.
Proof.
  revert q xs h Hq Hlen Hfuel. induction os as [|o os IH]; intros q xs h Hq Hlen Hfuel; cbn [run_hq length] in *.
  { do 4 eexists. split; [done|]. split; [constructor|done]. }
  destruct (run_hq_op_refines fuel o q xs h) as (r & q1 & h1 & ys & -> & Hst & Hq1 & Hfn & Hl1); [done|done|lia|lia|]. simpl.
  destruct (IH q1 ys h1) as (rs & q' & h' & zs & -> & Hrun & Hq'); [done|lia|lia|]. simpl. rewrite Hfn in Hrun.
  do 4 eexists. split; [done|]. split; [by econstructor|done].
Qed.

End HalQueue.

Arguments hq_op : clear implicits.

(** ** A queue of numbers *)

Module DemoHalQueue.

Definition hq_ops : list (hq_op Z) :=
  [OIsEmpty; OEnqueue (Some 11); OEnqueue (Some 12); OPush (Some 10); OPush None; OEnqueue (Some 13); ODequeue false; OIsEmpty;
   OFlushNodes (fun d => match d with Some d => Z.even d | None => false end); ODequeue true; OEnqueue (Some 14); OFlush].

Definition hq : QCameraQueue := {| m_head := 4; m_size := 0; m_dataFn := true |}.

Lemma hq_holds : holds hq [] demo_heap.
Proof. split; [|done]. exists []. split; [|constructor]. split; [apply NoDup_singleton|done]. Qed.

Lemma hal_queue_refines_witness :
  (exists rs q' h' ys, run_hq bump 12 hq_ops hq demo_heap = Some (rs, q', h') /\ deque_run true hq_ops [] rs ys /\ holds q' ys h') /\
  ('(rs, _, _) ← run_hq bump 12 hq_ops hq demo_heap; Some rs) =
  Some [RBool true; RBool true; RBool true; RBool true; RBool true; RBool true; RData (Some 13); RBool false;
        RDropped [QRelease 10; QFree 10; QRelease 12; QFree 12]; RData None; RBool true; RDropped [QRelease 11; QFree 11; QRelease 14; QFree 14]].
Proof.
  split; [|vm_compute; reflexivity]. apply (hal_queue_refines bump bump_fresh 12 hq_ops hq [] demo_heap hq_holds); simpl; lia.
Defined.

End DemoHalQueue.
