(* ===== verification/HalApi.v ===== *)
(** * Calls of the framework and the thread of the HAL state machine

    The entry points of [QCamera2HWI.cpp], the queues and the thread of
    [QCameraStateMachine.cpp], as statements of concurrent threads.

    A caller takes [m_lock], queues its request, and waits on [m_cond] until
    [m_apiResult] is the answer to it; the thread of the state machine takes
    requests before events, runs the state function, and leaves the answer in
    [m_apiResult].  Events of the libraries below arrive at any time.  The
    thread touches what it shares with the callers only in [signalAPIResult],
    under [m_lock], so that its four statements are one step; the queues have
    mutexes of their own and are the lists that HalQueue proves them to be.  The answers to synchronous events, under another
    mutex, are left out here. *)

From Stdlib Require Import ZArith Lia.
From stdpp Require Import base numbers list relations.
From S2P Require Import Prelude HalSm HalSmProps.

(** ** The entry points *)

Definition request : Type := qcamera_sm_evt_enum_t * sm_payload.

(** What an entry point returns: of the answer to its last request, and of the
    error with which that request could not be queued; [None] for a function
    without a result. *)
Record call_result := { of_answer : qcamera_api_result_t -> option Z; of_error : Z -> option Z }.

(** The requests of a call, one after the other, and what it returns. *)
Record api_call := { requests : list request; returns : call_result }.

Definition ret_status : call_result := {| of_answer r := Some (status r); of_error := Some |}.
Definition ret_enabled : call_result :=
  {| of_answer r := Some (match value r with QCAMERA_API_RESULT_TYPE_ENABLE_FLAG z => z | _ => 0 end); of_error := Some |}.
(** A pointer, which stays [NULL] without an answer. *)
Definition ret_params : call_result :=
  {| of_answer r := Some (match value r with QCAMERA_API_RESULT_TYPE_PARAMS z => z | _ => 0 end); of_error _ := Some 0 |}.
Definition ret_handle : call_result :=
  {| of_answer r := Some (match value r with QCAMERA_API_RESULT_TYPE_HANDLE z => z | _ => 0 end); of_error := Some |}.
Definition ret_void : call_result := {| of_answer _ := None; of_error _ := None |}.

Definition one_request (evt : qcamera_sm_evt_enum_t) (p : sm_payload) (f : call_result) : api_call :=
  {| requests := [(evt, p)]; returns := f |}.

Definition set_preview_window (window : Z) : api_call := one_request QCAMERA_SM_EVT_SET_PREVIEW_WINDOW (P_word window) ret_status.
Definition set_CallBacks (p : qcamera_sm_evt_setcb_payload_t) : api_call := one_request QCAMERA_SM_EVT_SET_CALLBACKS (P_setcb p) ret_void.
Definition enable_msg_type (msg_type : Z) : api_call := one_request QCAMERA_SM_EVT_ENABLE_MSG_TYPE (P_word msg_type) ret_void.
Definition disable_msg_type (msg_type : Z) : api_call := one_request QCAMERA_SM_EVT_DISABLE_MSG_TYPE (P_word msg_type) ret_void.
Definition msg_type_enabled (msg_type : Z) : api_call := one_request QCAMERA_SM_EVT_MSG_TYPE_ENABLED (P_word msg_type) ret_enabled.
Definition start_preview (isNoDisplayMode : bool) : api_call :=
  one_request (if isNoDisplayMode then QCAMERA_SM_EVT_START_NODISPLAY_PREVIEW else QCAMERA_SM_EVT_START_PREVIEW) (P_word 0) ret_status.
Definition stop_preview : api_call := one_request QCAMERA_SM_EVT_STOP_PREVIEW (P_word 0) ret_void.
Definition preview_enabled : api_call := one_request QCAMERA_SM_EVT_PREVIEW_ENABLED (P_word 0) ret_enabled.
Definition store_meta_data_in_buffers (enable : Z) : api_call := one_request QCAMERA_SM_EVT_STORE_METADATA_IN_BUFS (P_word enable) ret_status.
Definition start_recording : api_call := one_request QCAMERA_SM_EVT_START_RECORDING (P_word 0) ret_status.
Definition stop_recording : api_call := one_request QCAMERA_SM_EVT_STOP_RECORDING (P_word 0) ret_void.
Definition recording_enabled : api_call := one_request QCAMERA_SM_EVT_RECORDING_ENABLED (P_word 0) ret_enabled.
Definition release_recording_frame (opaque : Z) : api_call := one_request QCAMERA_SM_EVT_RELEASE_RECORIDNG_FRAME (P_word opaque) ret_void.
Definition auto_focus : api_call := one_request QCAMERA_SM_EVT_START_AUTO_FOCUS (P_word 0) ret_status.
Definition cancel_auto_focus : api_call := one_request QCAMERA_SM_EVT_STOP_AUTO_FOCUS (P_word 0) ret_status.
Definition take_picture : api_call :=
  {| requests := [(QCAMERA_SM_EVT_PREPARE_SNAPSHOT, P_word 0); (QCAMERA_SM_EVT_TAKE_PICTURE, P_word 0)]; returns := ret_status |}.
Definition cancel_picture : api_call := one_request QCAMERA_SM_EVT_CANCEL_PICTURE (P_word 0) ret_status.
Definition set_parameters (parms : Z) : api_call := one_request QCAMERA_SM_EVT_SET_PARAMS (P_word parms) ret_status.
Definition get_parameters : api_call := one_request QCAMERA_SM_EVT_GET_PARAMS (P_word 0) ret_params.
Definition put_parameters (parm : Z) : api_call := one_request QCAMERA_SM_EVT_PUT_PARAMS (P_word parm) ret_void.
Definition send_command (p : qcamera_sm_evt_command_payload_t) : api_call := one_request QCAMERA_SM_EVT_SEND_COMMAND (P_command p) ret_status.
Definition release : api_call := one_request QCAMERA_SM_EVT_RELEASE (P_word 0) ret_void.
Definition dump (fd : Z) : api_call := one_request QCAMERA_SM_EVT_DUMP (P_word fd) ret_status.
Definition register_face_image (p : qcamera_sm_evt_reg_face_payload_t) : api_call := one_request QCAMERA_SM_EVT_REG_FACE_IMAGE (P_reg_face p) ret_handle.

(** ** The threads *)

(** Where a caller is; it has still to make the requests [rest] and returns
    [f] of its last answer. *)
Inductive caller_pc : Type :=
| A_idle
| A_lock (c : api_call)
| A_send (r : request) (rest : list request) (f : call_result)
| A_reset (evt : qcamera_sm_evt_enum_t) (rest : list request) (f : call_result)
| A_test (evt : qcamera_sm_evt_enum_t) (rest : list request) (f : call_result)
| A_blocked (evt : qcamera_sm_evt_enum_t) (rest : list request) (f : call_result)
| A_woken (evt : qcamera_sm_evt_enum_t) (rest : list request) (f : call_result)
| A_unlock (ret : option Z).

(** [QCAMERA_SM_CMD_TYPE_API] or [_EVT] by its queue, or [_EXIT]. *)
Inductive sm_cmd : Type := Cmd (evt : qcamera_sm_evt_enum_t) (payload : sm_payload) | CmdExit.

(** [pending] are the answers the thread has still to hand over; [got] the
    answers that callers have read, and [returned] what they returned, the
    last first. *)
Record hstate := {
  callers : list caller_pc;
  sm : smworld;
  pending : list qcamera_api_result_t;
  running : bool;
  m_lock : option nat;
  m_apiResult : option qcamera_api_result_t;
  api_queue : list sm_cmd;
  evt_queue : list sm_cmd;
  cmd_sem : nat;
  got : list qcamera_api_result_t;
  returned : list (option Z)
}.

Definition set_callers (v : list caller_pc) (x : hstate) : hstate :=
  {| callers := v; sm := sm x; pending := pending x; running := running x; m_lock := m_lock
     x; m_apiResult := m_apiResult x; api_queue := api_queue x; evt_queue := evt_queue x;
     cmd_sem := cmd_sem x; got := got x; returned := returned x |}.

Definition set_sm (v : smworld) (x : hstate) : hstate :=
  {| callers := callers x; sm := v; pending := pending x; running := running x; m_lock :=
     m_lock x; m_apiResult := m_apiResult x; api_queue := api_queue x; evt_queue :=
     evt_queue x; cmd_sem := cmd_sem x; got := got x; returned := returned x |}.

Definition set_pending (v : list qcamera_api_result_t) (x : hstate) : hstate :=
  {| callers := callers x; sm := sm x; pending := v; running := running x; m_lock := m_lock
     x; m_apiResult := m_apiResult x; api_queue := api_queue x; evt_queue := evt_queue x;
     cmd_sem := cmd_sem x; got := got x; returned := returned x |}.

Definition set_running (v : bool) (x : hstate) : hstate :=
  {| callers := callers x; sm := sm x; pending := pending x; running := v; m_lock := m_lock
     x; m_apiResult := m_apiResult x; api_queue := api_queue x; evt_queue := evt_queue x;
     cmd_sem := cmd_sem x; got := got x; returned := returned x |}.

Definition set_m_lock (v : option nat) (x : hstate) : hstate :=
  {| callers := callers x; sm := sm x; pending := pending x; running := running x; m_lock :=
     v; m_apiResult := m_apiResult x; api_queue := api_queue x; evt_queue := evt_queue x;
     cmd_sem := cmd_sem x; got := got x; returned := returned x |}.

Definition set_m_apiResult (v : option qcamera_api_result_t) (x : hstate) : hstate :=
  {| callers := callers x; sm := sm x; pending := pending x; running := running x; m_lock :=
     m_lock x; m_apiResult := v; api_queue := api_queue x; evt_queue := evt_queue x; cmd_sem
     := cmd_sem x; got := got x; returned := returned x |}.

Definition set_api_queue (v : list sm_cmd) (x : hstate) : hstate :=
  {| callers := callers x; sm := sm x; pending := pending x; running := running x; m_lock :=
     m_lock x; m_apiResult := m_apiResult x; api_queue := v; evt_queue := evt_queue x;
     cmd_sem := cmd_sem x; got := got x; returned := returned x |}.

Definition set_evt_queue (v : list sm_cmd) (x : hstate) : hstate :=
  {| callers := callers x; sm := sm x; pending := pending x; running := running x; m_lock :=
     m_lock x; m_apiResult := m_apiResult x; api_queue := api_queue x; evt_queue := v;
     cmd_sem := cmd_sem x; got := got x; returned := returned x |}.

Definition set_cmd_sem (v : nat) (x : hstate) : hstate :=
  {| callers := callers x; sm := sm x; pending := pending x; running := running x; m_lock :=
     m_lock x; m_apiResult := m_apiResult x; api_queue := api_queue x; evt_queue :=
     evt_queue x; cmd_sem := v; got := got x; returned := returned x |}.

Definition set_got (v : list qcamera_api_result_t) (x : hstate) : hstate :=
  {| callers := callers x; sm := sm x; pending := pending x; running := running x; m_lock :=
     m_lock x; m_apiResult := m_apiResult x; api_queue := api_queue x; evt_queue :=
     evt_queue x; cmd_sem := cmd_sem x; got := v; returned := returned x |}.

Definition set_returned (v : list (option Z)) (x : hstate) : hstate :=
  {| callers := callers x; sm := sm x; pending := pending x; running := running x; m_lock :=
     m_lock x; m_apiResult := m_apiResult x; api_queue := api_queue x; evt_queue :=
     evt_queue x; cmd_sem := cmd_sem x; got := got x; returned := v |}.

(** Whether memory for the command and for the node of the queue is found. *)
Inductive send_result : Set := Sent | NoNode | NoQueueNode.

Definition NO_MEMORY : Z := -12.
Definition UNKNOWN_ERROR : Z := -2147483648.

(** [procAPI] and [procEvt]: the result, and the state. *)
Definition procAPI (r : request) (m : send_result) (s : hstate) : Z * hstate :=
  match m with
  | Sent => (NO_ERROR, set_cmd_sem (S (cmd_sem s)) (set_api_queue (api_queue s ++ [Cmd r.1 r.2]) s))
  | NoNode => (NO_MEMORY, s)
  | NoQueueNode => (UNKNOWN_ERROR, s)
  end.
Definition procEvt (r : request) (m : send_result) (s : hstate) : Z * hstate :=
  match m with
  | Sent => (NO_ERROR, set_cmd_sem (S (cmd_sem s)) (set_evt_queue (evt_queue s ++ [Cmd r.1 r.2]) s))
  | NoNode => (NO_MEMORY, s)
  | NoQueueNode => (UNKNOWN_ERROR, s)
  end.

(** The destructor up to the join; without memory the thread is left alone. *)
Definition stop_thread (m : send_result) (s : hstate) : hstate :=
  match m with
  | NoNode => s
  | NoQueueNode => set_cmd_sem (S (cmd_sem s)) s
  | Sent => set_cmd_sem (S (cmd_sem s)) (set_api_queue (api_queue s ++ [CmdExit]) s)
  end.

Definition set_pc (t : nat) (c : caller_pc) (s : hstate) : hstate := set_callers (<[t := c]> (callers s)) s.

(** After a request with the result [ret]: the next one, or the end. *)
Definition next (rest : list request) (f : call_result) (ret : option Z) : caller_pc :=
  match rest with [] => A_unlock ret | r :: rest => A_send r rest f end.

(** The next statement of caller [t]; a statement that waits has no step. *)
Definition caller_step (t : nat) (m : send_result) (s : hstate) : option hstate :=
  c ← callers s !! t;
  match c with
  | A_idle | A_blocked _ _ _ => None
  | A_lock c =>
      match m_lock s with
      | None => Some (set_pc t (next (requests c) (returns c) (Some NO_ERROR)) (set_m_lock (Some t) s))
      | Some _ => None
      end
  | A_send r rest f =>
      let (rc, s1) := procAPI r m s in
      Some (if rc =? NO_ERROR then set_pc t (A_reset r.1 rest f) s1 else set_pc t (next rest f (of_error f rc)) s1)
  | A_reset evt rest f => Some (set_pc t (A_test evt rest f) (set_m_apiResult None s))
  | A_test evt rest f =>
      match m_apiResult s with
      | Some r =>
          if decide (request_api r = evt) then Some (set_pc t (next rest f (of_answer f r)) (set_got (r :: got s) s))
          else Some (set_pc t (A_blocked evt rest f) (set_m_lock None s))
      | None => Some (set_pc t (A_blocked evt rest f) (set_m_lock None s))
      end
  | A_woken evt rest f =>
      match m_lock s with
      | None => Some (set_pc t (A_test evt rest f) (set_m_lock (Some t) s))
      | Some _ => None
      end
  | A_unlock ret => Some (set_pc t A_idle (set_m_lock None (set_returned (ret :: returned s) s)))
  end.

Definition is_blocked (c : caller_pc) : bool := match c with A_blocked _ _ _ => true | _ => false end.

(** [pthread_cond_signal]: some thread that waits, if there is one. *)
Definition cond_signal (t : nat) (s : hstate) : option hstate :=
  match callers s !! t with
  | Some (A_blocked evt rest f) => Some (set_pc t (A_woken evt rest f) s)
  | _ => if existsb is_blocked (callers s) then None else Some s
  end.

Section Threads.
Context `{HE : HwiEnv}.

(** The answers of a state function, the first one first. *)
Definition new_answers (w w' : smworld) : list qcamera_api_result_t :=
  rev (take (length (api_answers (h_tr w')) - length (api_answers (h_tr w))) (api_answers (h_tr w'))).

(** [stateMachine] is run for a command. *)
Definition run_cmd (c : sm_cmd) (s : hstate) : option hstate :=
  match c with
  | CmdExit => Some (set_running false s)
  | Cmd evt p => '(_, w') ← stateMachine evt p (sm s); Some (set_pending (new_answers (sm s) w') (set_sm w' s))
  end.

(** [smEvtProcRoutine]: the thread takes the next command, or hands over the
    next answer ([signalAPIResult], which wakes [t]). *)
Definition thread_step (t : nat) (s : hstate) : option hstate :=
  if running s then
    match pending s with
    | r :: l =>
        match m_lock s with
        | None => cond_signal t (set_m_apiResult (Some r) (set_pending l s))
        | Some _ => None
        end
    | [] =>
        match cmd_sem s with
        | O => None
        | S n =>
            let s := set_cmd_sem n s in
            match api_queue s, evt_queue s with
            | c :: q, _ => run_cmd c (set_api_queue q s)
            | [], c :: q => run_cmd c (set_evt_queue q s)
            | [], [] => Some s
            end
        end
    end
  else None.

(** ** Steps *)

Definition request_ok (r : request) : bool := is_api r.1 && payload_ok r.1 r.2.
Definition call_ok (c : api_call) : Prop := requests c <> [] /\ forallb request_ok (requests c) = true.

(** The steps that go on with what was begun. *)
Inductive work (s s' : hstate) : Prop :=
| work_caller t m : caller_step t m s = Some s' -> work s s'
| work_thread t : thread_step t s = Some s' -> work s s'.

(** All steps: a caller enters an entry point, an event arrives, the
    temperature is reported (through the queue of requests), or
    [pthread_cond_wait] returns unsignalled. *)
Inductive step (s s' : hstate) : Prop :=
| step_work : work s s' -> step s s'
| step_call t c : callers s !! t = Some A_idle -> call_ok c -> s' = set_pc t (A_lock c) s -> step s s'
| step_event evt p m : is_api evt = false -> payload_ok evt p = true -> s' = (procEvt (evt, p) m s).2 -> step s s'
| step_thermal level m : s' = (procAPI (QCAMERA_SM_EVT_THERMAL_NOTIFY, P_word level) m s).2 -> step s s'
| step_spurious t evt rest f : callers s !! t = Some (A_blocked evt rest f) -> s' = set_pc t (A_woken evt rest f) s -> step s s'.

(** [n] threads of the framework, before the first call. *)
Definition hal_init (n : nat) : hstate :=
  {| callers := replicate n A_idle; sm := fresh_sm; pending := []; running := true; m_lock := None; m_apiResult := None; api_queue := [];
     evt_queue := []; cmd_sem := 0; got := []; returned := [] |}.

Definition hal_reachable (n : nat) (s : hstate) : Prop := rtc step (hal_init n) s.

End Threads.
