(* ===== verification/HalApiProps.v ===== *)
(** * Calls of the framework return with their own answers

    One thread of the framework calls the HAL, whatever events arrive: every
    call returns, with the answers of the state machine to its requests.  With
    two threads an answer can be lost. *)

From Stdlib Require Import ZArith Lia.
From stdpp Require Import base numbers list relations.
From S2P Require Import Prelude HalSm HalSmProps HalApi.

Section Props.
Context `{HE : HwiEnv}.

(** ** The invariant *)

Definition holds_lock (c : caller_pc) : bool :=
  match c with A_send _ _ _ | A_reset _ _ _ | A_test _ _ _ | A_unlock _ => true | _ => false end.

(** The request a caller waits to be answered. *)
Definition waits_for (c : caller_pc) : option qcamera_sm_evt_enum_t :=
  match c with A_reset e _ _ | A_test e _ _ | A_blocked e _ _ | A_woken e _ _ => Some e | _ => None end.

(** The requests it has still to make. *)
Definition to_send (c : caller_pc) : list request :=
  match c with
  | A_lock c => requests c
  | A_send r rest _ => r :: rest
  | A_reset _ rest _ | A_test _ rest _ | A_blocked _ rest _ | A_woken _ rest _ => rest
  | _ => []
  end.

(** The requests in the queue. *)
Definition asks (q : list sm_cmd) : list qcamera_sm_evt_enum_t :=
  omap (fun c => match c with Cmd e _ => if is_api e then Some e else None | CmdExit => None end) q.

Definition cmd_ok (api : bool) (c : sm_cmd) : Prop :=
  match c with Cmd e p => payload_ok e p = true /\ (is_api e = true -> api = true) | CmdExit => False end.

Definition arming_state (s : hstate) : Prop := m_state (sm s) = QCAMERA_SM_STATE_PREPARE_SNAPSHOT.

Definition answers (s : hstate) : list qcamera_api_result_t := api_answers (h_tr (sm s)).

(** The box holds no answer to [e]. *)
Definition unanswered (s : hstate) (e : qcamera_sm_evt_enum_t) : Prop := forall r, m_apiResult s = Some r -> request_api r <> e.

Definition reset_due (c : caller_pc) : bool := match c with A_reset _ _ _ => true | _ => false end.

(** Where the request that a caller waits for is: in the queue, with the
    hardware, its answer with the thread, or in the box. *)
Inductive token (s : hstate) (c : caller_pc) : Prop :=
| tok_none : waits_for c = None -> asks (api_queue s) = [] -> pending s = [] -> ~ arming_state s -> answers s = got s -> token s c
| tok_queued e : waits_for c = Some e -> (reset_due c = false -> unanswered s e) -> asks (api_queue s) = [e] -> pending s = [] ->
    ~ arming_state s -> answers s = got s -> token s c
| tok_hardware : waits_for c = Some QCAMERA_SM_EVT_PREPARE_SNAPSHOT -> (reset_due c = false -> unanswered s QCAMERA_SM_EVT_PREPARE_SNAPSHOT) ->
    asks (api_queue s) = [] -> pending s = [] -> arming_state s -> answers s = got s -> token s c
| tok_pending r : waits_for c = Some (request_api r) -> (reset_due c = false -> unanswered s (request_api r)) -> asks (api_queue s) = [] ->
    pending s = [r] -> ~ arming_state s -> answers s = r :: got s -> token s c
| tok_box r : waits_for c = Some (request_api r) -> m_apiResult s = Some r -> is_blocked c = false -> reset_due c = false ->
    asks (api_queue s) = [] -> pending s = [] -> ~ arming_state s -> answers s = r :: got s -> token s c.

(** With one caller. *)
Record inv (c : caller_pc) (s : hstate) : Prop := {
  inv_callers : callers s = [c];
  inv_lock : m_lock s = if holds_lock c then Some 0%nat else None;
  inv_running : running s = true;
  inv_sem : cmd_sem s = (length (api_queue s) + length (evt_queue s))%nat;
  inv_api : Forall (cmd_ok true) (api_queue s);
  inv_evt : Forall (cmd_ok false) (evt_queue s);
  inv_send : forallb request_ok (to_send c) = true;
  inv_lockable : match c with A_lock a => requests a <> [] | _ => True end;
  inv_follow : follow (h_tr (sm s)) = Some (mode_of (m_state (sm s)));
  inv_token : token s c
}.

Lemma hal_init_inv : inv A_idle (hal_init 1).
Proof. by constructor; try done; apply tok_none. Qed.

(** ** Steps of the caller *)

(** The same request is waited for, and the box is as it was. *)
Lemma token_move s s' c c' : waits_for c' = waits_for c -> (reset_due c = true -> reset_due c' = true) -> m_apiResult s' = m_apiResult s -> api_queue s' = api_queue s ->
  pending s' = pending s -> sm s' = sm s -> got s' = got s -> is_blocked c' = false \/ (forall e, waits_for c = Some e -> unanswered s e) -> 
  (reset_due c' = true -> reset_due c = true) -> token s c -> token s' c'.
Proof.
  intros Hw Hr Hb Hq Hp Hs Hg Hbl Hr' H. assert (Hst : arming_state s' <-> arming_state s) by (unfold arming_state; by rewrite Hs).
  assert (Ha : answers s' = answers s) by (unfold answers; by rewrite Hs). unfold unanswered in *.
  assert (Hd : reset_due c' = reset_due c) by (destruct (reset_due c), (reset_due c'); auto; symmetry; auto).
  destruct H as [Hc|e Hc|Hc|r Hc|r Hc Hbox]; rewrite <- Hw in Hc; try rewrite <- Hd in *.
  - apply tok_none; rewrite ?Hq, ?Hp, ?Ha, ?Hg; tauto.
  - apply (tok_queued _ _ e); unfold unanswered; rewrite ?Hb, ?Hq, ?Hp, ?Ha, ?Hg; tauto.
  - apply tok_hardware; unfold unanswered; rewrite ?Hb, ?Hq, ?Hp, ?Ha, ?Hg; tauto.
  - apply (tok_pending _ _ r); unfold unanswered; rewrite ?Hb, ?Hq, ?Hp, ?Ha, ?Hg; tauto.
  - apply (tok_box _ _ r); rewrite ?Hb, ?Hq, ?Hp, ?Ha, ?Hg; try tauto. destruct Hbl as [|Hu]; [done|]. rewrite Hw in Hc. exfalso. by apply (Hu _ Hc r).
Qed.

Lemma next_facts rest f ret : waits_for (next rest f ret) = None /\ holds_lock (next rest f ret) = true /\ to_send (next rest f ret) = rest /\
  match next rest f ret with A_lock a => requests a <> [] | _ => True end.
Proof. by destruct rest. Qed.

Lemma caller_inv c s t m s' : inv c s -> caller_step t m s = Some s' -> exists c', inv c' s'.
Proof.
  intros H E. unfold caller_step in E. rewrite (inv_callers _ _ H) in E. destruct t as [|t]; [|by destruct t]. simpl in E.
  destruct H as [Hc Hl Hr Hs Ha He Hsd Hlk Hf Ht]. destruct c as [|a|r rest f|e rest f|e rest f|e rest f|e rest f|ret]; try done; simpl in Hl.
  - rewrite Hl in E. injection E as <-. destruct (next_facts (requests a) (returns a) (Some NO_ERROR)) as (N1 & N2 & N3 & N4).
    exists (next (requests a) (returns a) (Some NO_ERROR)). constructor; simpl; rewrite ?Hc, ?N2, ?N3; try done.
    destruct Ht; try done. by apply tok_none.
  - destruct m; injection E as <-; simpl.
    + exists (A_reset r.1 rest f). simpl in Hsd. apply andb_true_iff in Hsd as [Hr1 Hsd]. apply andb_true_iff in Hr1 as [Hr1 Hr2].
      constructor; simpl; rewrite ?Hc; try done; [rewrite length_app; simpl; lia|by apply Forall_app_2; [|repeat constructor]|].
      destruct Ht as [_ Hq Hp Hst Han| | | |]; try done. apply (tok_queued _ _ r.1); try done. simpl. unfold asks in *. rewrite omap_app, Hq. simpl. by rewrite Hr1.
    + destruct (next_facts rest f (of_error f NO_MEMORY)) as (N1 & N2 & N3 & N4). exists (next rest f (of_error f NO_MEMORY)). simpl in Hsd. apply andb_true_iff in Hsd as [_ Hsd].
      constructor; simpl; rewrite ?Hc, ?N2, ?N3; try done. destruct Ht; try done. by apply tok_none.
    + destruct (next_facts rest f (of_error f UNKNOWN_ERROR)) as (N1 & N2 & N3 & N4). exists (next rest f (of_error f UNKNOWN_ERROR)). simpl in Hsd. apply andb_true_iff in Hsd as [_ Hsd].
      constructor; simpl; rewrite ?Hc, ?N2, ?N3; try done. destruct Ht; try done. by apply tok_none.
  - injection E as <-. exists (A_test e rest f). constructor; simpl; rewrite ?Hc; try done.
    destruct Ht as [|e' H1 _|H1 _|r H1 _|]; try done; simplify_eq/=; [by eapply tok_queued|by apply tok_hardware|by eapply tok_pending].
  - assert (Hblock : s' = set_pc 0 (A_blocked e rest f) (set_m_lock None s) -> unanswered s e -> exists c', inv c' s').
    { intros -> Hu. exists (A_blocked e rest f). constructor; simpl; rewrite ?Hc; try done. apply (token_move s _ (A_test e rest f)); try done. right. by intros e' [= <-]. }
    destruct (m_apiResult s) as [r|] eqn:Hb; [|injection E as <-; apply Hblock; [done|]; unfold unanswered; by rewrite Hb].
    case_decide as Hre; injection E as <-; [|apply Hblock; [done|]; unfold unanswered; rewrite Hb; by intros ? [= <-]].
    destruct (next_facts rest f (of_answer f r)) as (N1 & N2 & N3 & N4). exists (next rest f (of_answer f r)). constructor; simpl; rewrite ?Hc, ?N2, ?N3; try done.
    destruct Ht as [|e' H1 H2|H1 H2|r' H1 H2|r' H1 H2]; try done; simplify_eq/=; try (exfalso; by apply (H2 eq_refl r)).
    apply tok_none; try done.
  - rewrite Hl in E. injection E as <-. exists (A_test e rest f). constructor; simpl; rewrite ?Hc; try done. apply (token_move s _ (A_woken e rest f)); try done. by left.
  - injection E as <-. exists A_idle. constructor; simpl; rewrite ?Hc; try done. apply (token_move s _ (A_unlock ret)); try done. by left.
Qed.

(** ** Steps of the thread *)

Lemma new_answers_app w w' api : api_answers (h_tr w') = api ++ api_answers (h_tr w) -> new_answers w w' = rev api.
Proof.
  intros E. unfold new_answers. rewrite E, length_app. replace (length api + _ - _)%nat with (length api) by lia. by rewrite take_app_length.
Qed.

(** An event that answers nobody, and neither arms nor disarms the hardware. *)
Lemma token_quiet s s' c : pending s' = pending s -> m_apiResult s' = m_apiResult s -> got s' = got s -> answers s' = answers s ->
  asks (api_queue s') = asks (api_queue s) -> (arming_state s' <-> arming_state s) -> token s c -> token s' c.
Proof.
  intros Hp Hb Hg Ha Hq Hst. destruct 1 as [Hc|e Hc|Hc|r Hc|r Hc].
  - apply tok_none; rewrite ?Hq, ?Hp, ?Ha, ?Hg; tauto.
  - apply (tok_queued _ _ e); unfold unanswered; rewrite ?Hb, ?Hq, ?Hp, ?Ha, ?Hg; tauto.
  - apply tok_hardware; unfold unanswered; rewrite ?Hb, ?Hq, ?Hp, ?Ha, ?Hg; tauto.
  - apply (tok_pending _ _ r); unfold unanswered; rewrite ?Hb, ?Hq, ?Hp, ?Ha, ?Hg; tauto.
  - apply (tok_box _ _ r); rewrite ?Hb, ?Hq, ?Hp, ?Ha, ?Hg; tauto.
Qed.

(** A command that was taken from the queues, of which [aq] and [eq] are left,
    is run. *)
Lemma hal_run_inv c s e p aq eq : inv c s -> pending s = [] -> payload_ok e p = true -> Forall (cmd_ok true) aq -> Forall (cmd_ok false) eq ->
  asks (api_queue s) = (if is_api e then [e] else []) ++ asks aq ->
  exists s', run_cmd (Cmd e p) (set_cmd_sem (length aq + length eq) (set_api_queue aq (set_evt_queue eq s))) = Some s' /\ inv c s' /\
    callers s' = callers s /\ api_queue s' = aq /\ evt_queue s' = eq /\ (length (pending s') <= 1)%nat.
Proof.
  intros [Hc Hl Hr Hs Ha He Hsd Hlk Hf Ht] Hpe Hp Haq Heq Hq. destruct (event_handled e p (sm s) Hf Hp) as (rc & w' & api & ev & E & Hf' & Hapi & _ & Hans).
  unfold run_cmd. simpl. rewrite E. simpl. eexists. split; [reflexivity|]. rewrite (new_answers_app _ _ _ Hapi).
  assert (Hlen : (length api <= 1)%nat) by (unfold answered in Hans; destruct (is_api e); [destruct Hans as [[] _]|destruct Hans]; simpl; lia).
  split; [|simpl; rewrite length_rev; auto]. constructor; simpl; try done. unfold answered in Hans. fold (answers s) in Hapi. unfold arming_state in Ht.
  set (s' := set_pending _ _). assert (Han : answers s' = api ++ answers s) by exact Hapi. assert (Hst : m_state (sm s') = m_state w') by done.
  assert (Hpen : pending s' = rev api) by done. assert (Hbox : m_apiResult s' = m_apiResult s) by done. assert (Hgot : got s' = got s) by done. assert (Hq' : api_queue s' = aq) by done.
  destruct (is_api e) eqn:Hapi_e.
  - simpl in Hq. destruct Hans as [Hans _]. destruct Ht as [_ Hq0|e' Hw Hu Hq0 _ Hst0 Hg|Hw Hu Hq0|r Hw Hu Hq0|r Hw _ _ _ Hq0]; rewrite Hq0 in Hq; try done.
    simplify_eq. assert (Hno : ~ m_state (sm s) = QCAMERA_SM_STATE_PREPARE_SNAPSHOT) by exact Hst0. destruct Hans as [v Hback|H1 -> _ H4|H1].
    + apply (tok_pending _ _ {| status := rc; request_api := e; value := v |}); try done; [unfold arming_state; rewrite Hst; tauto|by rewrite Han, Hg].
    + apply tok_hardware; try done. by rewrite Han, Hg.
    + done.
  - simpl in Hq. destruct Hans as [d H1 -> -> H4|H1 H2|H1 H2 H3].
    + destruct Ht as [_ _ _ Hst0|e' Hw Hu _ _ Hst0|Hw Hu Hq0 _ _ Hg|r _ _ _ _ Hst0|r _ _ _ _ _ _ Hst0]; try by destruct Hst0.
      apply (tok_pending _ _ {| status := NO_ERROR; request_api := QCAMERA_SM_EVT_PREPARE_SNAPSHOT; value := QCAMERA_API_RESULT_TYPE_DEF |}); try done.
      * rewrite Hq'. congruence.
      * unfold arming_state. by rewrite Hst, H4.
      * by rewrite Han, Hg.
    + by apply (token_quiet s).
    + apply (token_quiet s); try done. unfold arming_state. by rewrite Hst, H2.
Qed.

Lemma thread_inv c s t s' : inv c s -> thread_step t s = Some s' -> exists c', inv c' s'.
Proof.
  intros H E. unfold thread_step in E. rewrite (inv_running _ _ H) in E. destruct (pending s) as [|r l] eqn:Hpe.
  - rewrite (inv_sem _ _ H) in E. destruct (api_queue s) as [|[e p|] q] eqn:Hq.
    + destruct (evt_queue s) as [|[e p|] q'] eqn:Hq'; [done| |by pose proof (inv_evt _ _ H) as He; rewrite Hq' in He; apply Forall_cons in He as [? _]].
      pose proof (inv_evt _ _ H) as He. rewrite Hq' in He. apply Forall_cons in He as [[Hp Hapi] He].
      destruct (hal_run_inv c s e p [] q' H Hpe Hp) as (s1 & E1 & H1 & _); [done|done|rewrite Hq; destruct (is_api e); [by specialize (Hapi eq_refl)|done]|].
      exists c. assert (Some s1 = Some s') as [= <-]; [|done]. rewrite <- E1, <- E. clear - Hq Hq'. destruct s; simpl in *. by subst.
    + pose proof (inv_api _ _ H) as Ha. rewrite Hq in Ha. apply Forall_cons in Ha as [[Hp _] Ha].
      destruct (hal_run_inv c s e p q (evt_queue s) H Hpe Hp Ha (inv_evt _ _ H)) as (s1 & E1 & H1 & _); [rewrite Hq; unfold asks; simpl; by destruct (is_api e)|].
      exists c. assert (Some s1 = Some s') as [= <-]; [|done]. rewrite <- E1, <- E. clear - Hq. destruct s; simpl in *. by subst.
    + pose proof (inv_api _ _ H) as Ha. rewrite Hq in Ha. by apply Forall_cons in Ha as [? _].
  - destruct (m_lock s) eqn:Hl; [done|]. destruct H as [Hc Hlk Hr Hs Ha He Hsd Hlk' Hf Ht]. rewrite Hl in Hlk. destruct (holds_lock c) eqn:Hh; [done|].
    destruct Ht as [? ? Hp|? ? ? ? Hp|? ? ? Hp|r' Hw Hu Hq Hp Hst Han|? ? ? ? ? ? Hp]; rewrite Hpe in Hp; try done. simplify_eq.
    assert (Hsig : exists c', s' = set_callers [c'] (set_m_apiResult (Some r') (set_pending [] s)) /\ waits_for c' = waits_for c /\ holds_lock c' = false /\ is_blocked c' = false /\
      reset_due c' = false /\ to_send c' = to_send c /\ match c' with A_lock a => requests a <> [] | _ => True end).
    { unfold cond_signal in E. simpl in E. rewrite Hc in E. destruct t as [|t]; simpl in E.
      - destruct c as [| | | | |e rest f|e rest f|]; try done; injection E as <-.
        + exists (A_woken e rest f). split; [|done]. unfold set_pc. simpl. by rewrite Hc.
        + exists (A_woken e rest f). split; [|done]. clear - Hc. destruct s; simpl in *. by subst.
      - destruct t; destruct c as [| | | | |e rest f|e rest f|]; try done; injection E as <-; exists (A_woken e rest f); (split; [|done]);
          clear - Hc; destruct s; simpl in *; by subst. }
    destruct Hsig as (c' & -> & Hw' & Hh' & Hb' & Hd' & Hsd' & Hlk''). exists c'. constructor; simpl; rewrite ?Hh', ?Hsd'; try done.
    apply (tok_box _ _ r'); try done. by rewrite Hw'.
Qed.

(** ** Everything else *)

Lemma hal_step_inv c s s' : inv c s -> step s s' -> exists c', inv c' s'.
Proof.
  intros H [[t m E|t E]|t a Hc Ha ->|e p m Hapi Hp ->|level m ->|t e rest f Hc ->].
  - by eapply caller_inv.
  - by eapply thread_inv.
  - rewrite (inv_callers _ _ H) in Hc. destruct t as [|t]; [|by destruct t]. injection Hc as ->. exists (A_lock a). destruct H as [Hc Hl Hr Hs Haq He Hsd Hlk Hf Ht], Ha.
    constructor; simpl; rewrite ?Hc; try done. apply (token_move s _ A_idle); try done. by left.
  - exists c. destruct H as [Hc Hl Hr Hs Ha He Hsd Hlk Hf Ht]. destruct m; [|by constructor..]. constructor; simpl; try done.
    + rewrite length_app. simpl. lia.
    + apply Forall_app_2; [done|]. repeat constructor; [done|]. by rewrite Hapi.
    + by apply (token_quiet s).
  - exists c. destruct H as [Hc Hl Hr Hs Ha He Hsd Hlk Hf Ht]. destruct m; [|by constructor..]. constructor; simpl; try done.
    + rewrite length_app. simpl. lia.
    + apply Forall_app_2; [done|]. by repeat constructor.
    + apply (token_quiet s); try done. simpl. unfold asks. rewrite omap_app. simpl. by rewrite app_nil_r.
  - rewrite (inv_callers _ _ H) in Hc. destruct t as [|t]; [|by destruct t]. injection Hc as ->. exists (A_woken e rest f). destruct H as [Hc Hl Hr Hs Haq He Hsd Hlk Hf Ht].
    constructor; simpl; rewrite ?Hc; try done. apply (token_move s _ (A_blocked e rest f)); try done. by left.
Qed.

Lemma hal_reachable_inv s : hal_reachable 1 s -> exists c, inv c s.
Proof.
  intros Hr. assert (H : exists c, inv c (hal_init 1)) by (exists A_idle; apply hal_init_inv). revert H. unfold hal_reachable in Hr.
  induction Hr as [|x y z Hxy _ IH]; intros [c H]; [by exists c|]. apply IH. by eapply hal_step_inv.
Qed.

(** ** Nobody waits for ever *)

Definition caller_rank (c : caller_pc) : nat :=
  match c with
  | A_idle => 0 | A_unlock _ => 1
  | A_lock a => 20 * length (requests a) + 1
  | A_send _ rest _ => 20 * length rest + 20
  | A_blocked _ rest _ => 20 * length rest + 2
  | A_test _ rest _ => 20 * length rest + 3
  | A_reset _ rest _ | A_woken _ rest _ => 20 * length rest + 4
  end.

(** An upper bound of the steps that what was begun still takes. *)
Definition rank (s : hstate) : nat :=
  sum_list (caller_rank <$> callers s) + 6 * (length (api_queue s) + length (evt_queue s)) + 5 * length (pending s).

Lemma next_rank rest f ret : (caller_rank (next rest f ret) <= 20 * length rest + 1)%nat.
Proof. destruct rest; simpl; lia. Qed.

Lemma caller_rank_decr c s t m s' : inv c s -> caller_step t m s = Some s' -> (rank s' < rank s)%nat.
Proof.
  intros H E. unfold caller_step in E. rewrite (inv_callers _ _ H) in E. destruct t as [|t]; [|by destruct t]. simpl in E. unfold rank. rewrite (inv_callers _ _ H).
  destruct c as [|a|r rest f|e rest f|e rest f|e rest f|e rest f|ret]; try done.
  - destruct (m_lock s); [done|]. injection E as <-. simpl. rewrite (inv_callers _ _ H). pose proof (inv_lockable _ _ H) as Hne. simpl in *. destruct (requests a); [done|]. simpl. lia.
  - pose proof (next_rank rest f). destruct m; injection E as <-; simpl; rewrite (inv_callers _ _ H); simpl; rewrite ?length_app; simpl; [lia|specialize (H0 (of_error f NO_MEMORY)); lia|specialize (H0 (of_error f UNKNOWN_ERROR)); lia].
  - injection E as <-. simpl. rewrite (inv_callers _ _ H). simpl. lia.
  - destruct (m_apiResult s) as [r|]; [case_decide|]; injection E as <-; simpl; rewrite (inv_callers _ _ H); simpl; [pose proof (next_rank rest f (of_answer f r))| |]; lia.
  - destruct (m_lock s); [done|]. injection E as <-. simpl. rewrite (inv_callers _ _ H). simpl. lia.
  - injection E as <-. simpl. rewrite (inv_callers _ _ H). simpl. lia.
Qed.

(** The thread, when there is something in the queues. *)
Lemma take_run c s t : inv c s -> pending s = [] -> (0 < length (api_queue s) + length (evt_queue s))%nat -> exists s', thread_step t s = Some s' /\
  callers s' = callers s /\ (length (pending s') <= 1)%nat /\ (length (api_queue s') + length (evt_queue s') + 1 = length (api_queue s) + length (evt_queue s))%nat.
Proof.
  intros H Hpe Hlen. unfold thread_step. rewrite (inv_running _ _ H), Hpe, (inv_sem _ _ H). pose proof (inv_api _ _ H) as Ha. pose proof (inv_evt _ _ H) as He.
  destruct (api_queue s) as [|[e p|] q] eqn:Hq; [destruct (evt_queue s) as [|[e p|] q'] eqn:Hq'|..]; try (apply Forall_cons in He as [? _]; done); try (apply Forall_cons in Ha as [? _]; done).
  - simpl in Hlen. lia.
  - apply Forall_cons in He as [[Hp Hapi] He].
    destruct (hal_run_inv c s e p [] q' H Hpe Hp) as (s1 & E1 & _ & Hc1 & H1 & H2 & H3); [done|done|rewrite Hq; destruct (is_api e); [by specialize (Hapi eq_refl)|done]|].
    exists s1. rewrite H1, H2. split; [|split; [done|split; [done|simpl; lia]]]. rewrite <- E1. clear - Hq Hq'. destruct s; simpl in *. by subst.
  - apply Forall_cons in Ha as [[Hp _] Ha].
    destruct (hal_run_inv c s e p q (evt_queue s) H Hpe Hp Ha He) as (s1 & E1 & _ & Hc1 & H1 & H2 & H3); [rewrite Hq; unfold asks; simpl; by destruct (is_api e)|].
    exists s1. rewrite H1, H2. split; [|split; [done|split; [done|simpl; lia]]]. rewrite <- E1. clear - Hq. destruct s; simpl in *. by subst.
Qed.

Lemma thread_rank_decr c s t s' : inv c s -> thread_step t s = Some s' -> (rank s' < rank s)%nat.
Proof.
  intros H E. destruct (pending s) as [|r l] eqn:Hpe.
  - destruct (decide (0 < length (api_queue s) + length (evt_queue s))%nat) as [Hlen|Hlen].
    + destruct (take_run c s t H Hpe Hlen) as (s1 & E1 & Hc & Hp & Hq). rewrite E1 in E. injection E as <-. unfold rank. rewrite Hc, Hpe. simpl. lia.
    + unfold thread_step in E. rewrite (inv_running _ _ H), Hpe, (inv_sem _ _ H) in E. destruct (length (api_queue s) + length (evt_queue s))%nat; [done|lia].
  - unfold thread_step in E. rewrite (inv_running _ _ H), Hpe in E. destruct (m_lock s); [done|]. unfold rank. rewrite Hpe, (inv_callers _ _ H). unfold cond_signal in E. simpl in E.
    rewrite (inv_callers _ _ H) in E. destruct t as [|[|t]]; destruct c; simpl in E; try done; injection E as <-; simpl; rewrite (inv_callers _ _ H); simpl; lia.
Qed.

Lemma hal_work_inv c s s' : inv c s -> work s s' -> (exists c', inv c' s') /\ (rank s' < rank s)%nat.
Proof.
  intros H [t m E|t E]; (split; [|]); [by eapply caller_inv|by eapply caller_rank_decr|by eapply thread_inv|by eapply thread_rank_decr].
Qed.

(** When nothing is left to do, the caller is done or waits for the hardware. *)
Lemma work_done c s : inv c s -> (forall s', ~ work s s') -> pending s = [] /\ api_queue s = [] /\ evt_queue s = [] /\ got s = answers s /\
  (c = A_idle \/ exists rest f, c = A_blocked QCAMERA_SM_EVT_PREPARE_SNAPSHOT rest f /\ arming_state s).
Proof.
  intros H Hno. assert (Hcaller : caller_step 0 Sent s = None) by (destruct (caller_step 0 Sent s) eqn:E; [exfalso; by eapply Hno, work_caller|done]).
  assert (Hthread : thread_step 0 s = None) by (destruct (thread_step 0 s) eqn:E; [exfalso; by eapply Hno, work_thread|done]).
  assert (Hlock : holds_lock c = false /\ (c = A_idle \/ is_blocked c = true)).
  { unfold caller_step in Hcaller. rewrite (inv_callers _ _ H) in Hcaller. simpl in Hcaller. pose proof (inv_lock _ _ H) as Hl.
    destruct c; simpl in *; try done; rewrite ?Hl in Hcaller; auto; try done. destruct (m_apiResult s); [case_decide|]; done. }
  destruct Hlock as [Hh Hc]. pose proof (inv_lock _ _ H) as Hl. rewrite Hh in Hl. assert (Hpe : pending s = []).
  { destruct (pending s) as [|r l] eqn:Hpe; [done|]. unfold thread_step in Hthread. rewrite (inv_running _ _ H), Hpe, Hl in Hthread. unfold cond_signal in Hthread. simpl in Hthread.
    rewrite (inv_callers _ _ H) in Hthread. destruct Hc as [-> |Hb]; [done|]. by destruct c. }
  assert (Hq : ~ (0 < length (api_queue s) + length (evt_queue s))%nat).
  { intros Hlen. destruct (take_run c s 0 H Hpe Hlen) as (s1 & E1 & _). congruence. }
  assert (Ha : api_queue s = []) by (destruct (api_queue s); [done|simpl in Hq; lia]). assert (He : evt_queue s = []) by (destruct (evt_queue s); [done|simpl in Hq; lia]).
  split; [done|]. split; [done|]. split; [done|].
  destruct (inv_token _ _ H) as [Hw Hq0 _ _ Hg|e Hw _ Hq0|Hw _ _ _ Har Hg|r Hw _ _ Hp0|r Hw _ Hb]; rewrite ?Ha, ?Hpe in *; try done.
  - split; [done|]. destruct Hc as [|Hb]; [by left|]. by destruct c.
  - split; [done|]. destruct Hc as [-> |Hb]; [done|]. destruct c; try done. simplify_eq/=. right. by eexists _, _.
  - destruct Hc as [-> |]; [done|congruence].
Qed.

(** C13: one thread of the framework calls the entry points of the HAL, with
    any events of the camera and JPEG libraries arriving in between, and
    whatever the hardware interface does.  From every state that can be
    reached, the caller and the thread of the state machine make at most
    [rank s] steps with what was begun; and when there is none left, every
    request and event was handled, every answer of the state machine was read
    once and in order by the caller that asked, and the call has returned -
    unless the hardware has accepted to prepare a snapshot and not yet
    reported it done. *)
Theorem hal_calls_return s (Hr : hal_reachable 1 s) :
  (forall k s', nsteps work k s s' -> (k <= rank s)%nat) /\
  (forall s', rtc work s s' -> (forall s'', ~ work s' s'') -> pending s' = [] /\ api_queue s' = [] /\ evt_queue s' = [] /\ got s' = api_answers (h_tr (sm s')) /\
    (callers s' = [A_idle] \/ exists rest f, callers s' = [A_blocked QCAMERA_SM_EVT_PREPARE_SNAPSHOT rest f] /\ m_state (sm s') = QCAMERA_SM_STATE_PREPARE_SNAPSHOT)).
Proof.
  destruct (hal_reachable_inv s Hr) as [c H]. clear Hr. split.
  - intros k s' Hk. revert c H. induction Hk as [|k x y z Hxy _ IH]; intros c H; [lia|]. destruct (hal_work_inv c x y H Hxy) as [[c' H'] Hlt]. specialize (IH c' H'). lia.
  - intros s' Hs Hend. revert c H. induction Hs as [x|x y z Hxy _ IH]; intros c H.
    + destruct (work_done c x H Hend) as (H1 & H2 & H3 & H4 & H5). split; [done|]. split; [done|]. split; [done|]. split; [done|]. rewrite (inv_callers _ _ H).
      destruct H5 as [-> |(rest & f & -> & Har)]; [by left|right; by exists rest, f].
    + destruct (hal_work_inv c x y H Hxy) as [[c' H'] _]. by apply (IH Hend c').
Qed.

(** ** Two callers *)

Inductive act : Type := Go (t : nat) | Serve (t : nat) | Call (t : nat) (c : api_call).

Definition perform (a : act) (s : hstate) : option hstate :=
  match a with
  | Go t => caller_step t Sent s
  | Serve t => thread_step t s
  | Call t c => match callers s !! t with Some A_idle => Some (set_pc t (A_lock c) s) | _ => None end
  end.

Definition act_ok (a : act) : Prop := match a with Call _ c => call_ok c | _ => True end.

Fixpoint perform_all (l : list act) (s : hstate) : option hstate :=
  match l with [] => Some s | a :: l => s' ← perform a s; perform_all l s' end.

Lemma perform_reaches l : forall s s', Forall act_ok l -> perform_all l s = Some s' -> rtc step s s'.
Proof.
  induction l as [|a l IH]; intros s s' Hok E; simpl in E; [by injection E as <-|]. apply Forall_cons in Hok as [Ha Hok]. destruct (perform a s) as [s1|] eqn:E1; [|done]. simpl in E.
  apply rtc_l with s1; [|by apply IH]. destruct a as [t|t|t c]; simpl in E1; [by apply step_work, (work_caller _ _ t Sent)|by apply step_work, (work_thread _ _ t)|].
  destruct (callers s !! t) as [[]|] eqn:Hc; try done. injection E1 as <-. by apply (step_call _ _ t c).
Qed.

(** ** Any number of callers *)

(** What holds with any number of callers. *)
Record wf (s : hstate) : Prop := {
  wf_lock : forall t, m_lock s = Some t -> exists c, callers s !! t = Some c /\ holds_lock c = true;
  wf_running : running s = true;
  wf_sem : cmd_sem s = (length (api_queue s) + length (evt_queue s))%nat;
  wf_api : Forall (cmd_ok true) (api_queue s);
  wf_evt : Forall (cmd_ok false) (evt_queue s);
  wf_send : Forall (fun c => forallb request_ok (to_send c) = true) (callers s);
  wf_follow : follow (h_tr (sm s)) = Some (mode_of (m_state (sm s)))
}.

Lemma hal_init_wf n : wf (hal_init n).
Proof. constructor; try done. simpl. by apply Forall_replicate. Qed.

(** What a statement of a caller changes. *)
Lemma caller_frame t m s s' : caller_step t m s = Some s' -> exists c c', callers s !! t = Some c /\ callers s' = <[t := c']> (callers s) /\
  sm s' = sm s /\ pending s' = pending s /\ running s' = running s /\ evt_queue s' = evt_queue s /\ to_send c' ⊆ to_send c /\
  (m_lock s' = None \/ (m_lock s' = Some t /\ holds_lock c' = true) \/ (m_lock s' = m_lock s /\ holds_lock c' = true)) /\
  (m_apiResult s' = m_apiResult s \/ m_apiResult s' = None) /\
  ((api_queue s' = api_queue s /\ cmd_sem s' = cmd_sem s) \/
   exists r, r ∈ to_send c /\ api_queue s' = api_queue s ++ [Cmd r.1 r.2] /\ cmd_sem s' = S (cmd_sem s)).
Proof.
  unfold caller_step. destruct (callers s !! t) as [c|] eqn:Hc; [|done]. simpl. intros E. exists c.
  assert (Hn : forall rest f ret, to_send (next rest f ret) = rest /\ holds_lock (next rest f ret) = true) by (intros; by destruct (next_facts rest f ret) as (_ & ? & ? & _)).
  destruct c as [|a|r rest f|e rest f|e rest f|e rest f|e rest f|ret]; try done.
  - destruct (m_lock s); [done|]. injection E as <-. eexists. destruct (Hn (requests a) (returns a) (Some NO_ERROR)) as [H1 H2]. simpl. rewrite H1, H2. naive_solver.
  - destruct m; simpl in E; injection E as <-.
    + exists (A_reset r.1 rest f). simpl. repeat (split; [done|]). split; [set_solver|]. split; [by right; right|]. split; [by left|]. right. exists r. set_solver.
    + eexists. destruct (Hn rest f (of_error f NO_MEMORY)) as [H1 H2]. simpl. rewrite H1, H2. repeat (split; [done|]). split; [set_solver|]. naive_solver.
    + eexists. destruct (Hn rest f (of_error f UNKNOWN_ERROR)) as [H1 H2]. simpl. rewrite H1, H2. repeat (split; [done|]). split; [set_solver|]. naive_solver.
  - injection E as <-. eexists. simpl. naive_solver.
  - destruct (m_apiResult s) as [r|] eqn:Hb; [case_decide|]; injection E as <-; eexists; simpl; [|naive_solver..].
    destruct (Hn rest f (of_answer f r)) as [H1 H2]. rewrite H1, H2. naive_solver.
  - destruct (m_lock s); [done|]. injection E as <-. eexists. simpl. naive_solver.
  - injection E as <-. eexists. simpl. naive_solver.
Qed.

Lemma forallb_sub (P : request -> bool) l l' : l' ⊆ l -> forallb P l = true -> forallb P l' = true.
Proof. intros Hs. rewrite !forallb_forall. intros H x Hx. apply H. apply list_elem_of_In, Hs. by apply list_elem_of_In. Qed.

(** A command is run: the state stays in step, and every answer is to the
    command or, when the preparation of a snapshot is reported, to that. *)
Lemma run_cmd_frame e p s : follow (h_tr (sm s)) = Some (mode_of (m_state (sm s))) -> payload_ok e p = true ->
  exists w' api, run_cmd (Cmd e p) s = Some (set_pending (rev api) (set_sm w' s)) /\ follow (h_tr w') = Some (mode_of (m_state w')) /\
    api_answers (h_tr w') = api ++ api_answers (h_tr (sm s)) /\
    Forall (fun r => request_api r = e \/ request_api r = QCAMERA_SM_EVT_PREPARE_SNAPSHOT) api.
Proof.
  intros Hf Hp. destruct (event_handled e p (sm s) Hf Hp) as (rc & w' & api & ev & E & Hf' & Hapi & _ & Hans). exists w', api. unfold run_cmd. rewrite E. simpl.
  rewrite (new_answers_app _ _ _ Hapi). split; [done|]. split; [done|]. split; [done|]. unfold answered in Hans.
  destruct (is_api e); [destruct Hans as [[] _]|destruct Hans]; rewrite ?Forall_singleton; simpl; auto.
Qed.

Lemma signal_frame t s s' : cond_signal t s = Some s' -> exists l, s' = set_callers l s /\
  Forall2 (fun c c' => c' = c \/ exists e rest f, c = A_blocked e rest f /\ c' = A_woken e rest f) (callers s) l.
Proof.
  assert (Hrefl : Forall2 (fun c c' => c' = c \/ exists e rest f, c = A_blocked e rest f /\ c' = A_woken e rest f) (callers s) (callers s))
    by (apply Forall_Forall2_diag, Forall_forall; auto).
  assert (Hsame : s = set_callers (callers s) s) by (by destruct s).
  unfold cond_signal. destruct (callers s !! t) as [c|] eqn:Hc; [|by destruct (existsb _ _); [done|]; intros [= <-]; exists (callers s)].
  destruct c as [| | | | |e rest f| |]; try (by destruct (existsb _ _); [done|]; intros [= <-]; exists (callers s)).
  intros [= <-]. eexists. split; [reflexivity|]. rewrite <- (list_insert_id (callers s) t _ Hc) at 1. apply Forall2_insert; [done|]. right. eauto.
Qed.

(** What a step of the thread does: an answer goes into the box, or a command
    is run. *)
Lemma thread_frame t s s' : wf s -> thread_step t s = Some s' ->
  (exists r l cs, pending s = r :: l /\ s' = set_callers cs (set_m_apiResult (Some r) (set_pending l s)) /\
     Forall2 (fun c c' => c' = c \/ exists e rest f, c = A_blocked e rest f /\ c' = A_woken e rest f) (callers s) cs) \/
  (exists e p aq eq w' api, pending s = [] /\ Cmd e p ∈ api_queue s ++ evt_queue s /\ aq ⊆ api_queue s /\ eq ⊆ evt_queue s /\
     s' = set_pending (rev api) (set_sm w' (set_api_queue aq (set_evt_queue eq (set_cmd_sem (length aq + length eq) s)))) /\
     follow (h_tr w') = Some (mode_of (m_state w')) /\ Forall (fun r => request_api r = e \/ request_api r = QCAMERA_SM_EVT_PREPARE_SNAPSHOT) api).
Proof.
  intros [Hl Hr Hs Ha He Hsd Hf] E. unfold thread_step in E. rewrite Hr in E. destruct (pending s) as [|r l] eqn:Hp.
  - right. rewrite Hs in E. destruct (api_queue s) as [|[e p|] q] eqn:Hq.
    + destruct (evt_queue s) as [|[e p|] q'] eqn:Hq'; [done| |by apply Forall_cons in He as [? _]].
      apply Forall_cons in He as [[Hpe _] _]. simpl in E. rewrite Hq, Hq' in E.
      match type of E with run_cmd _ ?x = _ => destruct (run_cmd_frame e p x Hf Hpe) as (w' & api & E1 & H1 & _ & H2) end.
      rewrite E1 in E. injection E as <-. exists e, p, [], q', w', api. split; [done|]. split; [set_solver|]. split; [done|]. split; [set_solver|].
      split; [|done]. by destruct s; simpl in *; subst.
    + apply Forall_cons in Ha as [[Hpe _] _]. simpl in E. rewrite Hq in E.
      match type of E with run_cmd _ ?x = _ => destruct (run_cmd_frame e p x Hf Hpe) as (w' & api & E1 & H1 & _ & H2) end.
      rewrite E1 in E. injection E as <-. exists e, p, q, (evt_queue s), w', api. split; [done|]. split; [set_solver|]. split; [set_solver|]. split; [done|].
      split; [|done]. by destruct s; simpl in *; subst.
    + by apply Forall_cons in Ha as [? _].
  - left. destruct (m_lock s); [done|]. destruct (signal_frame _ _ _ E) as (cs & -> & Hcs). by exists r, l, cs.
Qed.

Lemma Forall_sub {A} (P : A -> Prop) (l l' : list A) : l' ⊆ l -> Forall P l -> Forall P l'.
Proof. intros Hs. rewrite !Forall_forall. auto. Qed.

Lemma woken_same c c' : c' = c \/ (exists e rest f, c = A_blocked e rest f /\ c' = A_woken e rest f) ->
  to_send c' = to_send c /\ holds_lock c' = holds_lock c /\ waits_for c' = waits_for c.
Proof. by intros [->|(? & ? & ? & -> & ->)]. Qed.

Lemma caller_wf t m s s' : wf s -> caller_step t m s = Some s' -> wf s'.
Proof.
  intros [Hl Hr Hs Ha He Hsd Hf] E. destruct (caller_frame t m s s' E) as (c & c' & Hc & Hcs & H1 & H2 & H3 & H4 & Hsub & Hlk & _ & Hq).
  pose proof (proj1 (Forall_forall _ _) Hsd c (list_elem_of_lookup_2 _ _ _ Hc)) as Hreq. constructor; rewrite ?H1, ?H3, ?H4; try done.
  - intros x Hx. rewrite Hcs. destruct (decide (t = x)) as [<-|Hne].
    + exists c'. rewrite list_lookup_insert_eq by (by eapply lookup_lt_Some). naive_solver.
    + rewrite list_lookup_insert_ne by done. destruct Hlk as [H|[[H _]|[H _]]]; [congruence|congruence|]. apply Hl. congruence.
  - destruct Hq as [[-> ->]|(r & _ & -> & ->)]; [done|]. rewrite length_app. simpl. lia.
  - destruct Hq as [[-> _]|(r & Hin & -> & _)]; [done|]. apply Forall_app_2; [done|]. apply Forall_singleton. simpl.
    rewrite forallb_forall in Hreq. pose proof (Hreq r (proj1 (list_elem_of_In _ _) Hin)) as Hok. apply andb_true_iff in Hok as [? ?]. done.
  - rewrite Hcs. apply Forall_insert; [done|]. by apply (forallb_sub _ (to_send c)).
Qed.

Lemma thread_wf t s s' : wf s -> thread_step t s = Some s' -> wf s'.
Proof.
  intros H E. destruct (thread_frame t s s' H E) as [(r & l & cs & Hp & -> & Hcs)|(e & p & aq & eq & w' & api & Hp & _ & Haq & Heq & -> & Hf' & _)].
  - destruct H as [Hl Hr Hs Ha He Hsd Hf]. constructor; try done; simpl.
    + intros x Hx. destruct (Hl x Hx) as (c & Hc & Hh). destruct (Forall2_lookup_l _ _ _ _ _ Hcs Hc) as (c' & Hc' & Hw). exists c'. split; [done|].
      by destruct (woken_same _ _ Hw) as (_ & -> & _).
    + apply Forall_forall. intros c' Hin. apply list_elem_of_lookup in Hin as [i Hi]. destruct (Forall2_lookup_r _ _ _ _ _ Hcs Hi) as (c & Hc & Hw).
      destruct (woken_same _ _ Hw) as (-> & _). by apply (proj1 (Forall_forall _ _) Hsd c), (list_elem_of_lookup_2 _ i).
  - destruct H as [Hl Hr Hs Ha He Hsd Hf]. constructor; try done; simpl; by eapply Forall_sub.
Qed.

Lemma spurious_wf t e rest f s : wf s -> callers s !! t = Some (A_blocked e rest f) -> wf (set_pc t (A_woken e rest f) s).
Proof.
  intros [Hl Hr Hs Ha He Hsd Hf] Hc. constructor; try done; simpl.
  - intros x Hx. destruct (Hl x Hx) as (c & Hc' & Hh). exists c. split; [|done]. rewrite list_lookup_insert_ne; [done|]. intros <-. by simplify_eq.
  - apply Forall_insert; [done|]. exact (proj1 (Forall_forall _ _) Hsd _ (list_elem_of_lookup_2 _ _ _ Hc)).
Qed.

Lemma call_wf t a s : wf s -> callers s !! t = Some A_idle -> call_ok a -> wf (set_pc t (A_lock a) s).
Proof.
  intros [Hl Hr Hs Ha He Hsd Hf] Hc [_ Hok]. constructor; try done; simpl.
  - intros x Hx. destruct (Hl x Hx) as (c & Hc' & Hh). exists c. split; [|done]. rewrite list_lookup_insert_ne; [done|]. intros <-. by simplify_eq.
  - by apply Forall_insert.
Qed.

Lemma hal_step_wf s s' : wf s -> step s s' -> wf s'.
Proof.
  intros H [[t m E|t E]|t a Hc Ha ->|e p m Hapi Hp ->|level m ->|t e rest f Hc ->].
  - by eapply caller_wf.
  - by eapply thread_wf.
  - by apply call_wf.
  - destruct H as [Hl Hr Hs Ha He Hsd Hf]. destruct m; [|done..]. constructor; try done; simpl; [rewrite length_app; simpl; lia|].
    apply Forall_app_2; [done|]. apply Forall_singleton. split; [done|]. by rewrite Hapi.
  - destruct H as [Hl Hr Hs Ha He Hsd Hf]. destruct m; [|done..]. constructor; try done; simpl; [rewrite length_app; simpl; lia|].
    apply Forall_app_2; [done|]. by apply Forall_singleton.
  - by apply spurious_wf.
Qed.

Lemma hal_reachable_wf n s : hal_reachable n s -> wf s.
Proof.
  intros Hr. pose proof (hal_init_wf n) as H. unfold hal_reachable in Hr. revert H. induction Hr as [|x y z Hxy _ IH]; intros H; [done|]. apply IH. by eapply hal_step_wf.
Qed.

(** ** An answer that was lost *)

(** Nobody is about to make the request [e]. *)
Definition asks_not (e : qcamera_sm_evt_enum_t) (s : hstate) : Prop := Forall (fun c => Forall (fun r => r.1 <> e) (to_send c)) (callers s).

(** A step after which nobody is about to make the request [e]: any statement
    of the callers and of the thread, any event, any call but one with [e]. *)
Definition step_not (e : qcamera_sm_evt_enum_t) (s s' : hstate) : Prop := step s s' /\ asks_not e s'.

(** Thread 0 waits for the answer to [e], which is nowhere. *)
Record lost (e : qcamera_sm_evt_enum_t) (s : hstate) : Prop := {
  lost_wf : wf s;
  lost_waits : exists f, callers s !! 0%nat ∈ [Some (A_test e [] f); Some (A_blocked e [] f); Some (A_woken e [] f)];
  lost_asks : asks_not e s;
  lost_box : unanswered s e;
  lost_pending : Forall (fun r => request_api r <> e) (pending s);
  lost_queues : Forall (fun c => match c with Cmd e' _ => e' <> e | CmdExit => True end) (api_queue s ++ evt_queue s)
}.

Section Lost.
Context (e : qcamera_sm_evt_enum_t) (Hapi : is_api e = true) (Hne : e <> QCAMERA_SM_EVT_PREPARE_SNAPSHOT).

(** Thread 0 tests and goes back to sleep. *)
Lemma lost_own m s s' : lost e s -> caller_step 0 m s = Some s' ->
  exists f, callers s' !! 0%nat ∈ [Some (A_test e [] f); Some (A_blocked e [] f); Some (A_woken e [] f)].
Proof.
  intros [Hwf [f Hw] _ Hb _ _] E. exists f. unfold caller_step in E. destruct (callers s !! 0%nat) as [c|] eqn:Hc; [|done]. simpl in E.
  assert (Hlen : (0 < length (callers s))%nat) by (by eapply lookup_lt_Some).
  rewrite !elem_of_cons in Hw. destruct Hw as [Hw|[Hw|[Hw|Hw]]]; [injection Hw as ->..|by apply elem_of_nil in Hw].
  - replace (match m_apiResult s with Some _ => _ | None => _ end) with (Some (set_pc 0 (A_blocked e [] f) (set_m_lock None s))) in E.
    2:{ destruct (m_apiResult s) as [r|] eqn:Hr; [|done]. rewrite decide_False; [done|]. by apply Hb. }
    injection E as <-. simpl. rewrite list_lookup_insert_eq by done. set_solver.
  - done.
  - destruct (m_lock s); [done|]. injection E as <-. simpl. rewrite list_lookup_insert_eq by done. set_solver.
Qed.

Lemma lost_caller t m s s' : lost e s -> caller_step t m s = Some s' -> asks_not e s' -> lost e s'.
Proof.
  intros H E Hask. pose proof (caller_wf t m s s' (lost_wf _ _ H) E) as Hwf'.
  assert (Hw : exists f, callers s' !! 0%nat ∈ [Some (A_test e [] f); Some (A_blocked e [] f); Some (A_woken e [] f)]).
  { destruct t as [|t]; [by eapply lost_own|]. destruct (caller_frame _ _ _ _ E) as (c & c' & _ & -> & _). rewrite list_lookup_insert_ne by done. apply H. }
  destruct (caller_frame t m s s' E) as (c & c' & Hc & Hcs & H1 & H2 & H3 & H4 & Hsub & Hlk & Hb & Hq). destruct H as [_ _ Ha Hbox Hp Hqs].
  constructor; try done.
  - unfold unanswered in *. destruct Hb as [->|Hb]; [done|congruence].
  - by rewrite H2.
  - rewrite H4. destruct Hq as [[-> _]|(r & Hin & -> & _)]; [done|]. apply Forall_app in Hqs as [Hq1 Hq2]. repeat apply Forall_app_2; try done. apply Forall_singleton.
    pose proof (proj1 (Forall_forall _ _) Ha c (list_elem_of_lookup_2 _ _ _ Hc)) as Hr. by apply (proj1 (Forall_forall _ _) Hr).
Qed.

Lemma lost_thread t s s' : lost e s -> thread_step t s = Some s' -> asks_not e s' -> lost e s'.
Proof.
  intros H E Hask. pose proof (thread_wf t s s' (lost_wf _ _ H) E) as Hwf'. destruct H as [Hwf [f Hw] Ha Hbox Hp Hqs].
  destruct (thread_frame t s s' Hwf E) as [(r & l & cs & Hpe & -> & Hcs)|(e' & p & aq & eq & w' & api & Hpe & Hin & Haq & Heq & -> & Hf' & Hapis)].
  - rewrite Hpe in Hp. apply Forall_cons in Hp as [Hr Hp]. constructor; try done.
    + exists f. simpl. destruct (callers s !! 0%nat) as [c|] eqn:Hc; [|set_solver]. destruct (Forall2_lookup_l _ _ _ _ _ Hcs Hc) as (c' & -> & [->|(x & rest & g & -> & ->)]); [done|]. set_solver.
    + unfold unanswered. simpl. by intros ? [= <-].
  - constructor; try done; simpl; [by exists f| |].
    + apply Forall_rev. pose proof (proj1 (Forall_forall _ _) Hqs _ Hin) as He'. simpl in He'. eapply Forall_impl; [exact Hapis|]. simpl. intros r [->| ->]; congruence.
    + eapply Forall_sub; [|exact Hqs]. set_solver.
Qed.

Lemma lost_step s s' : lost e s -> step_not e s s' -> lost e s'.
Proof.
  intros H [Hs Hask]. pose proof (hal_step_wf s s' (lost_wf _ _ H) Hs) as Hwf'. destruct Hs as [[t m E|t E]|t a Hc Ha ->|e' p m Hapi' Hp ->|level m ->|t e' rest f Hc ->].
  - by eapply lost_caller.
  - by eapply lost_thread.
  - destruct H as [_ [f Hw] _ Hbox Hp Hqs]. constructor; try done. exists f. simpl. destruct t as [|t]; [|by rewrite list_lookup_insert_ne by done]. rewrite Hc in Hw. set_solver.
  - destruct H as [_ Hw _ Hbox Hpe Hqs]. destruct m; [|by constructor..]. constructor; try done. simpl. rewrite app_assoc. apply Forall_app_2; [done|]. apply Forall_singleton. congruence.
  - destruct H as [_ Hw _ Hbox Hpe Hqs]. destruct m; [|by constructor..]. constructor; try done. simpl. apply Forall_app in Hqs as [Hq1 Hq2].
    repeat apply Forall_app_2; try done. apply Forall_singleton. intros <-. done.
  - destruct H as [_ [g Hw] _ Hbox Hp Hqs]. constructor; try done. exists g. simpl. destruct t as [|t]; [|by rewrite list_lookup_insert_ne by done].
    rewrite list_lookup_insert_eq by (by eapply lookup_lt_Some). rewrite Hc in Hw. set_solver.
Qed.

Lemma lost_for_ever s s' : lost e s -> rtc (step_not e) s s' -> exists c, callers s' !! 0%nat = Some c /\ waits_for c = Some e.
Proof.
  intros H Hs. assert (H' : lost e s') by (induction Hs as [|x y z Hxy _ IH]; [done|]; by apply IH, (lost_step x)).
  destruct (lost_waits _ _ H') as [f Hw]. rewrite !elem_of_cons in Hw. destruct Hw as [Hw|[Hw|[Hw|Hw]]]; [eexists; by split..|by apply elem_of_nil in Hw].
Qed.

End Lost.

(** A request that is neither the preparation of a snapshot nor made during
    one is answered at once. *)
Lemma run_answered e p s : follow (h_tr (sm s)) = Some (mode_of (m_state (sm s))) -> request_ok (e, p) = true -> e <> QCAMERA_SM_EVT_PREPARE_SNAPSHOT ->
  ~ arming_state s -> exists w' r, run_cmd (Cmd e p) s = Some (set_pending [r] (set_sm w' s)) /\ request_api r = e /\ m_state w' <> QCAMERA_SM_STATE_PREPARE_SNAPSHOT /\
    follow (h_tr w') = Some (mode_of (m_state w')) /\ api_answers (h_tr w') = r :: api_answers (h_tr (sm s)).
Proof.
  intros Hf Hok Hne Hst. apply andb_true_iff in Hok as [Hapi Hp]. simpl in Hapi, Hp. destruct (event_handled e p (sm s) Hf Hp) as (rc & w' & api & ev & E & Hf' & Ha & _ & Hans).
  unfold answered in Hans. rewrite Hapi in Hans. destruct Hans as [Hans _]. revert Ha. destruct Hans as [v Hs|_ He|Hs]; intros Ha; [|done..]. exists w'. eexists. unfold run_cmd. rewrite E. simpl.
  rewrite (new_answers_app _ _ _ Ha). split; [reflexivity|]. split; [done|]. split; [|done]. intros Hx. by apply Hst, Hs.
Qed.

(** Two callers, and nothing going on. *)
Record two_idle (s : hstate) : Prop := {
  ti_callers : callers s = [A_idle; A_idle];
  ti_pending : pending s = [];
  ti_api : api_queue s = [];
  ti_evt : evt_queue s = []
}.

(** Thread 0 makes its request and waits; it is answered and woken; before it
    runs again thread 1 makes its request and waits; thread 0 looks for its
    answer; thread 1 is answered and returns. *)
Definition overlap (a b : api_call) : list act :=
  [Call 0 a; Go 0; Go 0; Go 0; Go 0; Serve 0; Serve 0; Call 1 b; Go 1; Go 1; Go 1; Go 1; Go 0; Go 0; Serve 1; Serve 1; Go 1; Go 1; Go 1].

(** Runs a schedule up to the next command of the state machine. *)
Ltac run_to_cmd := lazy -[run_cmd decide request_api api_answers h_tr of_answer].

Lemma overlap_run s e0 p0 f0 e1 p1 f1 : wf s -> two_idle s -> ~ arming_state s -> request_ok (e0, p0) = true -> request_ok (e1, p1) = true ->
  e0 <> e1 -> e0 <> QCAMERA_SM_EVT_PREPARE_SNAPSHOT -> e1 <> QCAMERA_SM_EVT_PREPARE_SNAPSHOT ->
  exists s' r0 r1, perform_all (overlap (one_request e0 p0 f0) (one_request e1 p1 f1)) s = Some s' /\ request_api r0 = e0 /\ request_api r1 = e1 /\
    api_answers (h_tr (sm s')) = r1 :: r0 :: api_answers (h_tr (sm s)) /\ callers s' = [A_blocked e0 [] f0; A_idle] /\ m_apiResult s' = Some r1 /\
    pending s' = [] /\ api_queue s' = [] /\ evt_queue s' = [] /\ cmd_sem s' = 0%nat /\ got s' = r1 :: got s /\ returned s' = of_answer f1 r1 :: returned s.
Proof.
  intros [Hl Hr Hs _ _ _ Hf] [Hc Hp Ha He] Hst Hok0 Hok1 Hne Hn0 Hn1. destruct s as [cs w pe ru lk box aq eq sem gt rt].
  simpl in Hl, Hr, Hs, Hf, Hc, Hp, Ha, He. subst. simpl in Hl.
  assert (lk = None) as ->. { destruct lk as [x|]; [|done]. destruct (Hl x eq_refl) as (c & Hc & Hh). destruct x as [|[|x]]; simplify_eq/=. }
  set (st cs w := {| callers := cs; sm := w; pending := []; running := true; m_lock := None; m_apiResult := None; api_queue := []; evt_queue := [];
    cmd_sem := 0; got := gt; returned := rt |}).
  destruct (run_answered e0 p0 (st [A_blocked e0 [] f0; A_idle] w) Hf Hok0 Hn0 Hst) as (w0 & r0 & E0 & Hr0 & Hst0 & Hf0 & Ha0).
  destruct (run_answered e1 p1 (st [A_blocked e0 [] f0; A_blocked e1 [] f1] w0) Hf0 Hok1 Hn1 Hst0) as (w1 & r1 & E1 & Hr1 & Hst1 & Hf1 & Ha1).
  unfold st, request in E0, E1. eexists _, r0, r1. split.
  - run_to_cmd. rewrite E0. run_to_cmd. rewrite E1. run_to_cmd. destruct (decide _); [|done]. reflexivity.
  - simpl in *. rewrite Ha1, Ha0. by repeat split.
Qed.

(** C38: with two threads that call the HAL an answer can be lost.  In any
    state in which nothing is going on, whatever two different requests two
    threads make (other than the preparation of a snapshot, and not during
    one), there is a schedule in which the state machine answers both, the
    second call returns with its answer, nothing is left to be done, and the
    first caller, which was answered, waits.  It goes on waiting whatever
    happens next - events, reports, spurious wake-ups, other calls with their
    requests - until some thread makes a request of the same kind again. *)
Theorem hal_answer_lost s e0 p0 f0 e1 p1 f1 (Hr : hal_reachable 2 s) (Hi : two_idle s) (Hst : m_state (sm s) <> QCAMERA_SM_STATE_PREPARE_SNAPSHOT)
  (H0 : request_ok (e0, p0) = true) (H1 : request_ok (e1, p1) = true) (Hne : e0 <> e1)
  (Hn0 : e0 <> QCAMERA_SM_EVT_PREPARE_SNAPSHOT) (Hn1 : e1 <> QCAMERA_SM_EVT_PREPARE_SNAPSHOT) :
  exists s' r0 r1, perform_all (overlap (one_request e0 p0 f0) (one_request e1 p1 f1)) s = Some s' /\ hal_reachable 2 s' /\
    request_api r0 = e0 /\ request_api r1 = e1 /\ api_answers (h_tr (sm s')) = r1 :: r0 :: api_answers (h_tr (sm s)) /\
    callers s' = [A_blocked e0 [] f0; A_idle] /\ returned s' = of_answer f1 r1 :: returned s /\ (forall s'', ~ work s' s'') /\
    forall s'', rtc (step_not e0) s' s'' -> exists c, callers s'' !! 0%nat = Some c /\ waits_for c = Some e0.
Proof.
  pose proof (hal_reachable_wf 2 s Hr) as Hwf.
  destruct (overlap_run s e0 p0 f0 e1 p1 f1 Hwf Hi Hst H0 H1 Hne Hn0 Hn1) as (s' & r0 & r1 & E & Er0 & Er1 & Ha & Hc & Hb & Hp & Hq & Hv & Hsem & _ & Hret).
  assert (Hr' : hal_reachable 2 s').
  { unfold hal_reachable in *. etrans; [exact Hr|]. eapply perform_reaches; [|exact E]. repeat constructor; simpl; try done; by rewrite ?H0, ?H1. }
  pose proof (hal_reachable_wf 2 s' Hr') as Hwf'. exists s', r0, r1. split; [done|]. split; [done|]. split; [done|]. split; [done|]. split; [done|]. split; [done|]. split; [done|]. split.
  - intros s'' [t m Hs|t Hs].
    + unfold caller_step in Hs. rewrite Hc in Hs. by destruct t as [|[|[|t]]].
    + unfold thread_step in Hs. rewrite (wf_running _ Hwf'), Hp, Hsem in Hs. done.
  - intros s'' Hs. apply andb_true_iff in H0 as [Hapi _]. apply (lost_for_ever e0 Hapi Hn0 s'); [|done]. constructor; try done.
    + exists f0. rewrite Hc. set_solver.
    + unfold asks_not. rewrite Hc. by repeat constructor.
    + unfold unanswered. rewrite Hb. intros ? [= <-]. congruence.
    + by rewrite Hp.
    + by rewrite Hq, Hv.
Qed.

End Props.

(** ** A caller *)

Module DemoHalApi.

#[local] Existing Instance DemoHal.hwi_ok.

(** A preview is started and a picture asked for; the hardware is preparing. *)
Definition busy_run : list act :=
  [Call 0 (set_preview_window 4096); Go 0; Go 0; Go 0; Go 0; Serve 0; Serve 0; Go 0; Go 0; Go 0;
   Call 0 (start_preview false); Go 0; Go 0; Go 0; Go 0; Serve 0; Serve 0; Go 0; Go 0; Go 0; Call 0 take_picture; Go 0; Go 0].

Definition busy : hstate := default (hal_init 1) (perform_all busy_run (hal_init 1)).

Lemma hal_calls_return_witness : hal_reachable 1 busy /\ returned busy = [Some 0; Some 0] /\ forall k s', nsteps work k busy s' -> (k <= 40)%nat.
Proof.
  assert (Hr : hal_reachable 1 busy).
  { apply (perform_reaches busy_run); [repeat constructor; done|]. by vm_compute. }
  split; [exact Hr|]. split; [by vm_compute|]. intros k s' Hk. pose proof (proj1 (hal_calls_return busy Hr) k s' Hk) as H. revert H. vm_compute rank. lia.
Defined.

(** Before anything was called, a stop of the preview and a question about it. *)
Lemma hal_answer_lost_witness : exists s', perform_all (overlap stop_preview preview_enabled) (hal_init 2) = Some s' /\
  callers s' = [A_blocked QCAMERA_SM_EVT_STOP_PREVIEW [] ret_void; A_idle] /\ (forall s'', ~ work s' s'') /\
  forall s'', rtc (step_not QCAMERA_SM_EVT_STOP_PREVIEW) s' s'' -> exists c, callers s'' !! 0%nat = Some c /\ waits_for c = Some QCAMERA_SM_EVT_STOP_PREVIEW.
Proof.
  destruct (hal_answer_lost (hal_init 2) QCAMERA_SM_EVT_STOP_PREVIEW (P_word 0) ret_void QCAMERA_SM_EVT_PREVIEW_ENABLED (P_word 0) ret_enabled)
    as (s' & r0 & r1 & E & _ & _ & _ & _ & Hc & _ & Hw & Hl); try done; [apply rtc_refl|]. exists s'. by repeat split.
Defined.

(** A second stop of the preview is what wakes the first caller; then its own
    caller waits. *)
Example woken_by_the_next :
  callers <$> perform_all (overlap stop_preview preview_enabled ++
    [Call 1 stop_preview; Go 1; Go 1; Go 1; Go 1; Serve 0; Serve 0; Go 0; Go 0; Go 0]) (hal_init 2) =
  Some [A_idle; A_blocked QCAMERA_SM_EVT_STOP_PREVIEW [] ret_void].
Proof. by vm_compute. Qed.

(** Without memory for the request, the parameters are [NULL] and the others
    return the error. *)
Definition without_memory (c : api_call) : option (list (option Z)) :=
  s1 ← caller_step 0 Sent (set_pc 0 (A_lock c) (hal_init 1)); s2 ← caller_step 0 NoNode s1; s3 ← caller_step 0 Sent s2; Some (returned s3).

Example no_memory_results :
  map without_memory [get_parameters; start_recording; release] = [Some [Some 0]; Some [Some NO_MEMORY]; Some [None]].
Proof. by vm_compute. Qed.

End DemoHalApi.
