(* ===== verification/BtHci.v ===== *)
(** * The serial line of the bluetooth controller

    [do_write] of [hw_rome.c] and [read_hci_event] of [hci_uart.c]: bytes to and
    from the controller.  The line, the files, the clock and the allocator are
    a class of functions of the history, and every outside call is added to
    the history, which is the state of this layer. *)

From Stdlib Require Import ZArith Lia.
From stdpp Require Import list strings.
From S2P Require Import Prelude.

(** A pointer to an allocated buffer. *)
Inductive bptr : Set := BNull | BDangling | BBuf (l : list Z).

Inductive userial_op : Set := USERIAL_OP_FLOW_ON | USERIAL_OP_FLOW_OFF.

Inductive bev : Type :=
| BWrite (fd : Z) (bs : list Z) (ret : Z)
| BRead (fd : Z) (n : nat) (bs : list Z)
| BMalloc (ok : bool)
| BFopen (path : string) (content : option (list Z * nat))
| BFlush
| BIoctl (op : userial_op) (rc : Z)
| BSetBaud (baud : Z)
| BSleep (us : Z)
| BVersionFile (productid patchversion build soc_id : Z)
| BLabelFile (label : list Z)
| BPropertySet
| BCall (f : string) (args : list Z) (ret : Z).
Abbreviation bhistory := (list bev).

(** The descriptor that the functions of a controller are called with. *)
Class LineFd := line_fd : Z.

Class BtEnv := {
  (** what [write] to a descriptor returns for these bytes, and the bytes of a
      [read] of at most so many from one; none for an error or the end of the
      file *)
  env_bwrite : bhistory -> Z -> list Z -> Z;
  env_bread : bhistory -> Z -> nat -> list Z;
  (** the bytes of a file and its size *)
  env_fopen : bhistory -> string -> option (list Z * nat);
  env_bmalloc : bhistory -> bool;
  env_userial : bhistory -> userial_op -> Z;
  (** what an array on the stack holds before it is written *)
  env_stack : bhistory -> list Z;
  (** the property [persist.service.bdroid.soclog] is true *)
  env_soclog : bhistory -> bool;
  (** what any other call of the system returns *)
  env_call : bhistory -> string -> list Z -> Z;
  env_property : bhistory -> string -> list Z;
  enable_extldo : bool;
  vnd_local_bd_addr : list Z
}.

Section Uart.
Context `{BE : BtEnv}.

Definition bext {A} (f : bhistory -> A) (e : A -> bev) : M bhistory A := fun tr => Some (f tr, e (f tr) :: tr).
Definition bnote (e : bev) : M bhistory unit := fun tr => Some (tt, e :: tr).

(** A [read] returns no more than was asked for. *)
Definition bread (fd : Z) (n : nat) : M bhistory (list Z) := bext (fun tr => take n (env_bread tr fd n)) (BRead fd n).

(** ** Writing *)

(** The loop: every turn takes bytes off the rest, so that the length of the
    buffer bounds the turns. *)
Fixpoint write_loop (fd : Z) (fuel : nat) (buf : list Z) (write_offset write_len len : Z) : M bhistory Z :=
  match fuel with
  | O => stuck
  | S fuel =>
      let bs := take (Z.to_nat write_len) (drop (Z.to_nat write_offset) buf) in
      ret ← bext (fun tr => env_bwrite tr fd bs) (BWrite fd bs);
      if ret <? 0 then mret (-1)
      else if ret =? 0 then mret 0
      else if ret <? write_len then write_loop fd fuel buf ret (write_len -i ret) len
      else mret len
  end.

(** [len] bytes of [buf], which has as many. *)
Definition do_write (fd : Z) (buf : list Z) (len : Z) : M bhistory Z :=
  if Z.of_nat (length buf) <? len then stuck else write_loop fd (S (Z.to_nat len)) buf 0 len len.

(** ** Reading *)

(** Bytes stored into an array; none outside of it. *)
Definition store_bytes (i : nat) (bs buf : list Z) : option (list Z) :=
  if (i + length bs <=? length buf)%nat then Some (take i buf ++ bs ++ drop (i + length bs) buf) else None.

Definition byte (i : nat) (buf : list Z) : Z := nth i buf 0.

(** Bytes are skipped up to the packet indicator, at most [junk] of them. *)
Fixpoint find_indicator (fd : Z) (junk : nat) (buf : list Z) : M bhistory (bool * list Z) :=
  match junk with
  | O => stuck
  | S junk =>
      l ← bread fd 1;
      match l with
      | [] => mret (false, buf)
      | b :: _ =>
          buf ← deref (store_bytes 0 [b] buf);
          if b =? 0x04 then mret (true, buf) else find_indicator fd junk buf
      end
  end.

(** [while (count < target)]: each read brings a byte. *)
Fixpoint fill (fd : Z) (check : list Z -> bool) (fuel : nat) (buf : list Z) (count target : nat) : M bhistory (option nat * list Z) :=
  if (count <? target)%nat then
    match fuel with
    | O => stuck
    | S fuel =>
        l ← bread fd (target - count);
        match l with
        | [] => mret (None, buf)
        | _ =>
            buf ← deref (store_bytes count l buf);
            if check buf then fill fd check fuel buf (count + length l) target else mret (None, buf)
        end
    end
  else mret (Some count, buf).

(** A packet: the indicator, the event code and the length, the parameters.
    The number of bytes, or none for a failure, and the buffer. *)
Definition read_packet (fd : Z) (junk : nat) (check : list Z -> bool) (buf : list Z) (size : nat) : M bhistory (option nat * list Z) :=
  '(found, buf) ← find_indicator fd junk buf;
  if (found : bool) then
    '(c, buf) ← fill fd check 2 buf 1 3;
    match c with
    | None => mret (None, buf)
    | Some count =>
        let remain := if byte 2 buf <? Z.of_nat size - 3 then Z.to_nat (byte 2 buf) else (size - 3)%nat in
        fill fd (fun _ => true) remain buf count (3 + remain)
    end
  else mret (None, buf).

Definition read_hci_event (fd : Z) (junk : nat) (buf : list Z) (size : nat) : M bhistory (Z * list Z) :=
  if (size =? 0)%nat then mret (-1, buf)
  else
    '(c, buf) ← read_packet fd junk (fun _ => true) buf size;
    mret (match c with Some count => Z.of_nat count | None => -1 end, buf).

End Uart.
