(* ===== verification/Rome.v ===== *)
(** * The Rome bluetooth controller

    [hw_rome.c]: framing of vendor commands, the vendor events, the download of
    the patch and configuration files, and the initialisation sequence.  The
    global variables of the file are the state [rworld]. *)

From Stdlib Require Import ZArith Lia.
From stdpp Require Import list strings.
From S2P Require Import Prelude BtHci.

(** ** Constants ([hw_rome.h]) *)

Definition HCI_MAX_CMD_SIZE : nat := 260.
Definition HCI_MAX_EVENT_SIZE : nat := 260.
Definition HCI_COMMAND_PKT : Z := 0x01.
Definition HCI_VENDOR_CMD_OGF : Z := 0x3F.
Definition HCI_PATCH_CMD_OCF : Z := 0.
Definition EDL_SET_BAUDRATE_CMD_OCF : Z := 0x48.
Definition EDL_WIPOWER_VS_CMD_OCF : Z := 0x1f.
Definition HCI_VS_GET_ADDON_FEATURES_SUPPORT : Z := 0x1d.
Definition HCI_RESET : Z := 0x0C03.
Definition EDL_PATCH_CMD_LEN : Z := 1.
Definition EDL_PATCH_DLD_REQ_CMD : Z := 0x01.
Definition EDL_PATCH_RST_REQ_CMD : Z := 0x05.
Definition EDL_PATCH_SET_REQ_CMD : Z := 0x16.
Definition EDL_PATCH_ATCH_REQ_CMD : Z := 0x17.
Definition EDL_PATCH_VER_REQ_CMD : Z := 0x19.
Definition EDL_GET_BUILD_INFO : Z := 0x20.
Definition EDL_PATCH_TLV_REQ_CMD : Z := 0x1E.
Definition EDL_WIP_QUERY_CHARGING_STATUS_CMD : Z := 0x1D.
Definition EDL_WIP_START_HANDOFF_TO_HOST_CMD : Z := 0x1E.
Definition BAUDRATE_3000000 : Z := 0x0E.
Definition USERIAL_BAUD_3M : Z := 14.
Definition PATCH_HDR_LEN : Z := 28.
Definition MAX_DATA_PER_SEGMENT : Z := 239.
Definition MAX_SIZE_PER_TLV_SEGMENT : Z := 243.
Definition TLV_TYPE_PATCH : Z := 1.
Definition TLV_TYPE_NVM : Z := 2.
Definition TAG_NUM_2 : Z := 2.
Definition ROME_SKIP_EVT_NONE : Z := 0x00.
Definition ROME_SKIP_EVT_VSE_CC : Z := 0x03.
Definition NON_WIPOWER_MODE : Z := 0x02.
Definition WIPOWER_IN_EMBEDDED_MODE : Z := 0x01.
Definition ROME_VER_1_0 : Z := 0x01000000.
Definition ROME_VER_1_1 : Z := 0x01010000.
Definition ROME_VER_1_3 : Z := 0x02000000.
Definition ROME_VER_2_1 : Z := 0x02000011.
Definition ROME_VER_3_0 : Z := 0x03000022.
Definition ROME_VER_3_2 : Z := 0x03020044.
Definition EIO : Z := 5.
Definition ENFILE : Z := 23.
Definition ETIMEDOUT : Z := 110.

(** ** Data *)

Record patch_info := {
  patch_id : Z; rom_version : Z; build_version : Z; patch_base_addr : Z; patch_entry_addr : Z; patch_length : Z;
  patch_crc : Z; patch_ctrl : Z
}.

Record rworld := {
  rome_ver : Z;
  gTlv_type : Z;
  gTlv_dwndCfg : Z;
  wipower_flag : Z;
  wipower_handoff_ready : Z;
  wait_vsc_evt : bool;
  patch_dnld_pending : bool;
  dnld_fd : Z;
  phdr_buffer : bptr;
  pdata_buffer : bptr;
  rampatch_patch_info : patch_info;
  rampatch_file_path : string;
  nvm_file_path : string;
  fw_su_info : option string;
  fw_su_offset : Z;
  b_tr : bhistory
}.

Definition put_rome_ver (v : Z) (x : rworld) : rworld :=
  {| rome_ver := v; gTlv_type := gTlv_type x; gTlv_dwndCfg := gTlv_dwndCfg x; wipower_flag
     := wipower_flag x; wipower_handoff_ready := wipower_handoff_ready x; wait_vsc_evt :=
     wait_vsc_evt x; patch_dnld_pending := patch_dnld_pending x; dnld_fd := dnld_fd x;
     phdr_buffer := phdr_buffer x; pdata_buffer := pdata_buffer x; rampatch_patch_info :=
     rampatch_patch_info x; rampatch_file_path := rampatch_file_path x; nvm_file_path :=
     nvm_file_path x; fw_su_info := fw_su_info x; fw_su_offset := fw_su_offset x; b_tr :=
     b_tr x |}.

Definition put_gTlv_type (v : Z) (x : rworld) : rworld :=
  {| rome_ver := rome_ver x; gTlv_type := v; gTlv_dwndCfg := gTlv_dwndCfg x; wipower_flag :=
     wipower_flag x; wipower_handoff_ready := wipower_handoff_ready x; wait_vsc_evt :=
     wait_vsc_evt x; patch_dnld_pending := patch_dnld_pending x; dnld_fd := dnld_fd x;
     phdr_buffer := phdr_buffer x; pdata_buffer := pdata_buffer x; rampatch_patch_info :=
     rampatch_patch_info x; rampatch_file_path := rampatch_file_path x; nvm_file_path :=
     nvm_file_path x; fw_su_info := fw_su_info x; fw_su_offset := fw_su_offset x; b_tr :=
     b_tr x |}.

Definition put_gTlv_dwndCfg (v : Z) (x : rworld) : rworld :=
  {| rome_ver := rome_ver x; gTlv_type := gTlv_type x; gTlv_dwndCfg := v; wipower_flag :=
     wipower_flag x; wipower_handoff_ready := wipower_handoff_ready x; wait_vsc_evt :=
     wait_vsc_evt x; patch_dnld_pending := patch_dnld_pending x; dnld_fd := dnld_fd x;
     phdr_buffer := phdr_buffer x; pdata_buffer := pdata_buffer x; rampatch_patch_info :=
     rampatch_patch_info x; rampatch_file_path := rampatch_file_path x; nvm_file_path :=
     nvm_file_path x; fw_su_info := fw_su_info x; fw_su_offset := fw_su_offset x; b_tr :=
     b_tr x |}.

Definition put_wipower_flag (v : Z) (x : rworld) : rworld :=
  {| rome_ver := rome_ver x; gTlv_type := gTlv_type x; gTlv_dwndCfg := gTlv_dwndCfg x;
     wipower_flag := v; wipower_handoff_ready := wipower_handoff_ready x; wait_vsc_evt :=
     wait_vsc_evt x; patch_dnld_pending := patch_dnld_pending x; dnld_fd := dnld_fd x;
     phdr_buffer := phdr_buffer x; pdata_buffer := pdata_buffer x; rampatch_patch_info :=
     rampatch_patch_info x; rampatch_file_path := rampatch_file_path x; nvm_file_path :=
     nvm_file_path x; fw_su_info := fw_su_info x; fw_su_offset := fw_su_offset x; b_tr :=
     b_tr x |}.

Definition put_wipower_handoff_ready (v : Z) (x : rworld) : rworld :=
  {| rome_ver := rome_ver x; gTlv_type := gTlv_type x; gTlv_dwndCfg := gTlv_dwndCfg x;
     wipower_flag := wipower_flag x; wipower_handoff_ready := v; wait_vsc_evt :=
     wait_vsc_evt x; patch_dnld_pending := patch_dnld_pending x; dnld_fd := dnld_fd x;
     phdr_buffer := phdr_buffer x; pdata_buffer := pdata_buffer x; rampatch_patch_info :=
     rampatch_patch_info x; rampatch_file_path := rampatch_file_path x; nvm_file_path :=
     nvm_file_path x; fw_su_info := fw_su_info x; fw_su_offset := fw_su_offset x; b_tr :=
     b_tr x |}.

Definition put_wait_vsc_evt (v : bool) (x : rworld) : rworld :=
  {| rome_ver := rome_ver x; gTlv_type := gTlv_type x; gTlv_dwndCfg := gTlv_dwndCfg x;
     wipower_flag := wipower_flag x; wipower_handoff_ready := wipower_handoff_ready x;
     wait_vsc_evt := v; patch_dnld_pending := patch_dnld_pending x; dnld_fd := dnld_fd x;
     phdr_buffer := phdr_buffer x; pdata_buffer := pdata_buffer x; rampatch_patch_info :=
     rampatch_patch_info x; rampatch_file_path := rampatch_file_path x; nvm_file_path :=
     nvm_file_path x; fw_su_info := fw_su_info x; fw_su_offset := fw_su_offset x; b_tr :=
     b_tr x |}.

Definition put_patch_dnld_pending (v : bool) (x : rworld) : rworld :=
  {| rome_ver := rome_ver x; gTlv_type := gTlv_type x; gTlv_dwndCfg := gTlv_dwndCfg x;
     wipower_flag := wipower_flag x; wipower_handoff_ready := wipower_handoff_ready x;
     wait_vsc_evt := wait_vsc_evt x; patch_dnld_pending := v; dnld_fd := dnld_fd x;
     phdr_buffer := phdr_buffer x; pdata_buffer := pdata_buffer x; rampatch_patch_info :=
     rampatch_patch_info x; rampatch_file_path := rampatch_file_path x; nvm_file_path :=
     nvm_file_path x; fw_su_info := fw_su_info x; fw_su_offset := fw_su_offset x; b_tr :=
     b_tr x |}.

Definition put_dnld_fd (v : Z) (x : rworld) : rworld :=
  {| rome_ver := rome_ver x; gTlv_type := gTlv_type x; gTlv_dwndCfg := gTlv_dwndCfg x;
     wipower_flag := wipower_flag x; wipower_handoff_ready := wipower_handoff_ready x;
     wait_vsc_evt := wait_vsc_evt x; patch_dnld_pending := patch_dnld_pending x; dnld_fd :=
     v; phdr_buffer := phdr_buffer x; pdata_buffer := pdata_buffer x; rampatch_patch_info :=
     rampatch_patch_info x; rampatch_file_path := rampatch_file_path x; nvm_file_path :=
     nvm_file_path x; fw_su_info := fw_su_info x; fw_su_offset := fw_su_offset x; b_tr :=
     b_tr x |}.

Definition put_phdr_buffer (v : bptr) (x : rworld) : rworld :=
  {| rome_ver := rome_ver x; gTlv_type := gTlv_type x; gTlv_dwndCfg := gTlv_dwndCfg x;
     wipower_flag := wipower_flag x; wipower_handoff_ready := wipower_handoff_ready x;
     wait_vsc_evt := wait_vsc_evt x; patch_dnld_pending := patch_dnld_pending x; dnld_fd :=
     dnld_fd x; phdr_buffer := v; pdata_buffer := pdata_buffer x; rampatch_patch_info :=
     rampatch_patch_info x; rampatch_file_path := rampatch_file_path x; nvm_file_path :=
     nvm_file_path x; fw_su_info := fw_su_info x; fw_su_offset := fw_su_offset x; b_tr :=
     b_tr x |}.

Definition put_pdata_buffer (v : bptr) (x : rworld) : rworld :=
  {| rome_ver := rome_ver x; gTlv_type := gTlv_type x; gTlv_dwndCfg := gTlv_dwndCfg x;
     wipower_flag := wipower_flag x; wipower_handoff_ready := wipower_handoff_ready x;
     wait_vsc_evt := wait_vsc_evt x; patch_dnld_pending := patch_dnld_pending x; dnld_fd :=
     dnld_fd x; phdr_buffer := phdr_buffer x; pdata_buffer := v; rampatch_patch_info :=
     rampatch_patch_info x; rampatch_file_path := rampatch_file_path x; nvm_file_path :=
     nvm_file_path x; fw_su_info := fw_su_info x; fw_su_offset := fw_su_offset x; b_tr :=
     b_tr x |}.

Definition put_rampatch_patch_info (v : patch_info) (x : rworld) : rworld :=
  {| rome_ver := rome_ver x; gTlv_type := gTlv_type x; gTlv_dwndCfg := gTlv_dwndCfg x;
     wipower_flag := wipower_flag x; wipower_handoff_ready := wipower_handoff_ready x;
     wait_vsc_evt := wait_vsc_evt x; patch_dnld_pending := patch_dnld_pending x; dnld_fd :=
     dnld_fd x; phdr_buffer := phdr_buffer x; pdata_buffer := pdata_buffer x;
     rampatch_patch_info := v; rampatch_file_path := rampatch_file_path x; nvm_file_path :=
     nvm_file_path x; fw_su_info := fw_su_info x; fw_su_offset := fw_su_offset x; b_tr :=
     b_tr x |}.

Definition put_rampatch_file_path (v : string) (x : rworld) : rworld :=
  {| rome_ver := rome_ver x; gTlv_type := gTlv_type x; gTlv_dwndCfg := gTlv_dwndCfg x;
     wipower_flag := wipower_flag x; wipower_handoff_ready := wipower_handoff_ready x;
     wait_vsc_evt := wait_vsc_evt x; patch_dnld_pending := patch_dnld_pending x; dnld_fd :=
     dnld_fd x; phdr_buffer := phdr_buffer x; pdata_buffer := pdata_buffer x;
     rampatch_patch_info := rampatch_patch_info x; rampatch_file_path := v; nvm_file_path :=
     nvm_file_path x; fw_su_info := fw_su_info x; fw_su_offset := fw_su_offset x; b_tr :=
     b_tr x |}.

Definition put_nvm_file_path (v : string) (x : rworld) : rworld :=
  {| rome_ver := rome_ver x; gTlv_type := gTlv_type x; gTlv_dwndCfg := gTlv_dwndCfg x;
     wipower_flag := wipower_flag x; wipower_handoff_ready := wipower_handoff_ready x;
     wait_vsc_evt := wait_vsc_evt x; patch_dnld_pending := patch_dnld_pending x; dnld_fd :=
     dnld_fd x; phdr_buffer := phdr_buffer x; pdata_buffer := pdata_buffer x;
     rampatch_patch_info := rampatch_patch_info x; rampatch_file_path := rampatch_file_path
     x; nvm_file_path := v; fw_su_info := fw_su_info x; fw_su_offset := fw_su_offset x; b_tr
     := b_tr x |}.

Definition put_fw_su_info (v : option string) (x : rworld) : rworld :=
  {| rome_ver := rome_ver x; gTlv_type := gTlv_type x; gTlv_dwndCfg := gTlv_dwndCfg x;
     wipower_flag := wipower_flag x; wipower_handoff_ready := wipower_handoff_ready x;
     wait_vsc_evt := wait_vsc_evt x; patch_dnld_pending := patch_dnld_pending x; dnld_fd :=
     dnld_fd x; phdr_buffer := phdr_buffer x; pdata_buffer := pdata_buffer x;
     rampatch_patch_info := rampatch_patch_info x; rampatch_file_path := rampatch_file_path
     x; nvm_file_path := nvm_file_path x; fw_su_info := v; fw_su_offset := fw_su_offset x;
     b_tr := b_tr x |}.

Definition put_fw_su_offset (v : Z) (x : rworld) : rworld :=
  {| rome_ver := rome_ver x; gTlv_type := gTlv_type x; gTlv_dwndCfg := gTlv_dwndCfg x;
     wipower_flag := wipower_flag x; wipower_handoff_ready := wipower_handoff_ready x;
     wait_vsc_evt := wait_vsc_evt x; patch_dnld_pending := patch_dnld_pending x; dnld_fd :=
     dnld_fd x; phdr_buffer := phdr_buffer x; pdata_buffer := pdata_buffer x;
     rampatch_patch_info := rampatch_patch_info x; rampatch_file_path := rampatch_file_path
     x; nvm_file_path := nvm_file_path x; fw_su_info := fw_su_info x; fw_su_offset := v;
     b_tr := b_tr x |}.

Definition put_b_tr (v : bhistory) (x : rworld) : rworld :=
  {| rome_ver := rome_ver x; gTlv_type := gTlv_type x; gTlv_dwndCfg := gTlv_dwndCfg x;
     wipower_flag := wipower_flag x; wipower_handoff_ready := wipower_handoff_ready x;
     wait_vsc_evt := wait_vsc_evt x; patch_dnld_pending := patch_dnld_pending x; dnld_fd :=
     dnld_fd x; phdr_buffer := phdr_buffer x; pdata_buffer := pdata_buffer x;
     rampatch_patch_info := rampatch_patch_info x; rampatch_file_path := rampatch_file_path
     x; nvm_file_path := nvm_file_path x; fw_su_info := fw_su_info x; fw_su_offset :=
     fw_su_offset x; b_tr := v |}.

(** A little endian number. *)
Fixpoint le (bs : list Z) : Z := match bs with [] => 0 | b :: bs => Z.lor b (Z.shiftl (le bs) 8) end.

(** [n] bytes of a buffer; none outside of it. *)
Definition slice (off n : Z) (l : list Z) : option (list Z) :=
  if (0 <=? off) && (0 <=? n) && (off + n <=? Z.of_nat (length l)) then Some (take (Z.to_nat n) (drop (Z.to_nat off) l)) else None.

Definition cmd_opcode_pack (ogf ocf : Z) : Z := u16 (Z.lor (Z.land ocf 0x03ff) (Z.shiftl ogf 10)).

(** A zeroed command with its header ([hci_command_hdr] is packed). *)
Definition hci_command (opcode plen : Z) : list Z :=
  [HCI_COMMAND_PKT; Z.land opcode 0xFF; Z.shiftr opcode 8; u8 plen] ++ replicate (HCI_MAX_CMD_SIZE - 4) 0.

Definition put_byte (i : nat) (v : Z) (l : list Z) : list Z := <[i := u8 v]> l.

(** [EXTRACT_BYTE] *)
Definition extract_byte (v pos : Z) : Z := Z.land (Z.shiftr v (8 * pos)) 0xFF.

Section Rome.
Context `{BE : BtEnv} {LF : LineFd}.

(** The functions take the descriptor [fd] they work on: [line_fd] here.  The
    bytes that are skipped in front of a packet, and the stray events
    that are read inside another, are at most so many. *)
Context (junk : nat).

Definition uart {A} (m : M bhistory A) : M rworld A := zoom b_tr put_b_tr m.
Definition note (e : bev) : M rworld unit := uart (bnote e).
Definition rmalloc : M rworld bool := uart (bext env_bmalloc BMalloc).
Definition write_line (cmd : list Z) (size : Z) : M rworld Z := uart (do_write line_fd cmd size).
Definition read_event (rsp : list Z) : M rworld (Z * list Z) := uart (read_hci_event line_fd junk rsp HCI_MAX_EVENT_SIZE).

Definition buf_of (p : bptr) : M rworld (list Z) := match p with BBuf l => mret l | _ => stuck end.

(** [free]; the variable keeps its value. *)
Definition free_ptr (p : bptr) : M rworld bptr := match p with BNull => mret BNull | BBuf _ => mret BDangling | BDangling => stuck end.
Definition free_pdata : M rworld unit := p ← gets pdata_buffer; p ← free_ptr p; modify (put_pdata_buffer p).
Definition free_phdr : M rworld unit := p ← gets phdr_buffer; p ← free_ptr p; modify (put_phdr_buffer p).

(** [unsigned char rsp[HCI_MAX_EVENT_SIZE];] *)
Definition stack_array : M rworld (list Z) :=
  gets (fun w => take HCI_MAX_EVENT_SIZE (env_stack (b_tr w) ++ replicate HCI_MAX_EVENT_SIZE 0)).
Definition zero_array : list Z := replicate HCI_MAX_EVENT_SIZE 0.

(** ** Vendor events *)

(** The versions of the controller. *)
Definition version_event (rsp : list Z) : M rworld Z :=
  let paramlen := byte 2 rsp in
  let word i := le [byte i rsp; byte (i + 1) rsp; byte (i + 2) rsp; byte (i + 3) rsp] in
  let half i := le [byte i rsp; byte (i + 1) rsp] in
  let soc_id := if paramlen -i 10 =? 0 then 0 else word 13%nat in
  note (BVersionFile (word 5%nat) (half 9%nat) (half 11%nat) soc_id);;
  modify (put_rome_ver (i32 (Z.lor (Z.shiftl (half 11%nat) 16) (Z.land soc_id 0x0000ffff))));;
  mret 0.

(** The label is copied to an array of 255 bytes and ended there. *)
Definition build_event (rsp : list Z) : M rworld Z :=
  let len := byte 5 rsp in
  if 254 <? len then stuck
  else label ← deref (slice 6 len rsp); note (BLabelFile label);; mret 0.

(** [rsp] is one of the arrays of 260 bytes.  [again] reads the next event
    from a descriptor into an array of its own. *)
Definition get_vs_hci_event (again : Z -> M rworld unit) (rsp : list Z) : M rworld Z :=
  if negb ((byte 1 rsp =? 0xFF) || (byte 1 rsp =? 0x0E)) then mret (- EIO)
  else
    let code := byte 3 rsp in
    if code =? 0x00 then
      let type := byte 4 rsp in
      if (type =? 0x19) || (type =? 0x02) then version_event rsp
      else if (type =? 0x04) || (type =? 0x00) then mret (byte 5 rsp)
      else if type =? 0x05 then build_event rsp
      else mret 0
    else if code =? 0x0B then mret 0
    else if code =? 0x92 then mret (if byte 4 rsp =? 1 then 0 else -1)
    else if code =? 0x18 then
      (if byte 4 rsp <? 0x02 then modify (fun w => put_wipower_flag 1 (put_wipower_handoff_ready (byte 4 rsp) w)) else mret tt);;
      mret 0
    else if code =? 0x19 then mret 0
    else if code =? 0x1B then
      (if negb (Z.land (byte 4 rsp) 0x01 =? 0) then note BPropertySet else mret tt);;
      mret 0
    else if code =? 0x17 then
      w ← get;
      if patch_dnld_pending w && negb (dnld_fd w =? -1) then again (dnld_fd w);; mret 0 else mret (-1)
    else mret (-1).

Fixpoint read_vs_hci_event (depth : nat) (fd : Z) (buf : list Z) (size : nat) : M rworld (Z * list Z) :=
  match depth with
  | O => stuck
  | S depth =>
      if (size =? 0)%nat then mret (-1, buf)
      else
        '(c, buf) ← uart (read_packet fd junk (fun b => byte 1 b =? 0xFF) buf size);
        match c with
        | None => mret (-1, buf)
        | Some count =>
            err ← get_vs_hci_event (fun fd => read_vs_hci_event depth fd zero_array HCI_MAX_EVENT_SIZE;; mret tt) buf;
            mret (if err =? 0 then Z.of_nat count else -1, buf)
        end
  end.

Definition read_vs (rsp : list Z) : M rworld (Z * list Z) := read_vs_hci_event junk line_fd rsp HCI_MAX_EVENT_SIZE.

(** ** Commands *)

Definition hci_send_wipower_vs_cmd (cmd rsp : list Z) (size : Z) : M rworld (Z * list Z) :=
  ret ← write_line cmd size;
  if negb (ret =? size) then mret (ret, rsp)
  else '(_, rsp) ← read_event rsp; mret (ret, rsp).

Definition hci_send_vs_cmd (cmd rsp : list Z) (size : Z) : M rworld (Z * list Z) :=
  ret ← write_line cmd size;
  if negb (ret =? size) then mret (ret, rsp)
  else
    wait ← gets wait_vsc_evt;
    if wait : bool then
      '(r, rsp) ← read_vs rsp;
      mret (if r <? 0 then - ETIMEDOUT else ret, rsp)
    else mret (ret, rsp).

Definition frame_hci_cmd_pkt (edl_cmd p_base_addr segtNo size : Z) : M rworld (list Z) :=
  let cmd := put_byte 4 edl_cmd (hci_command (cmd_opcode_pack HCI_VENDOR_CMD_OGF HCI_PATCH_CMD_OCF) size) in
  if edl_cmd =? EDL_PATCH_SET_REQ_CMD then
    p ← gets phdr_buffer; hdr ← buf_of p;
    bs ← deref (slice 0 PATCH_HDR_LEN hdr);
    deref (store_bytes 5 bs cmd)
  else if edl_cmd =? EDL_PATCH_DLD_REQ_CMD then
    let offset := (segtNo -i 1) *i MAX_DATA_PER_SEGMENT in
    let a := p_base_addr +u offset in
    let cmd := put_byte 9 (extract_byte a 3) (put_byte 8 (extract_byte a 2) (put_byte 7 (extract_byte a 1) (put_byte 6 (extract_byte a 0)
      (put_byte 5 (size +i 4) (put_byte 3 (size +i 6) cmd))))) in
    p ← gets pdata_buffer; data ← buf_of p;
    bs ← deref (slice offset size data);
    deref (store_bytes 10 bs cmd)
  else if edl_cmd =? EDL_PATCH_TLV_REQ_CMD then
    let cmd := put_byte 5 size (put_byte 3 (size +i 2) cmd) in
    let offset := segtNo *i MAX_SIZE_PER_TLV_SEGMENT in
    p ← gets pdata_buffer; data ← buf_of p;
    bs ← deref (slice offset size data);
    deref (store_bytes 6 bs cmd)
  else mret cmd.

(** [HCI_CMD_IND + HCI_COMMAND_HDR_SIZE + cmd[PLEN]] *)
Definition packet_size (cmd : list Z) : Z := 1 + 3 + byte 3 cmd.

(** A command, its vendor event where one is awaited, and the event that
    completes it: the result, and whether it ended early. *)
Definition send_and_complete (cmd rsp : list Z) (size : Z) : M rworld (Z * bool) :=
  '(err, rsp) ← hci_send_vs_cmd cmd rsp size;
  if negb (err =? size) then mret (err, true)
  else '(err, _) ← read_event rsp; mret (err, err <? 0).

(** ** The patch of version 1.0 *)

Definition or_bytes (acc : Z) (off n : nat) (buf : list Z) : Z :=
  fold_left (fun acc i => Z.lor acc (u32 (Z.shiftl (byte (off + i) buf) (Z.of_nat i * 8)))) (seq 0 n) acc.

(** The fields are accumulated into what they were, in their width. *)
Definition rome_extract_patch_header_info (buf : list Z) (p : patch_info) : patch_info :=
  let base := u32 (or_bytes (patch_base_addr p) 8 4 buf) in
  {| patch_id := u32 (or_bytes (patch_id p) 0 4 buf); rom_version := u16 (or_bytes (rom_version p) 4 2 buf);
     build_version := u16 (or_bytes (build_version p) 6 2 buf); patch_base_addr := base; patch_entry_addr := base;
     patch_length := u16 (or_bytes (patch_length p) 16 4 buf); patch_crc := i32 (or_bytes (patch_crc p) 20 4 buf);
     patch_ctrl := u16 (or_bytes (patch_ctrl p) 24 4 buf) |}.

Definition rome_edl_set_patch_request : M rworld Z :=
  cmd ← frame_hci_cmd_pkt EDL_PATCH_SET_REQ_CMD 0 (-1) (PATCH_HDR_LEN + 1);
  rsp ← stack_array;
  r ← send_and_complete cmd rsp (packet_size cmd);
  mret r.1.

Definition patch_segment (p_base_addr : Z) (index size : Z) : M rworld (Z * bool) :=
  cmd ← frame_hci_cmd_pkt EDL_PATCH_DLD_REQ_CMD p_base_addr index size;
  send_and_complete cmd zero_array (packet_size cmd).

Definition rome_edl_patch_download_request : M rworld Z :=
  info ← gets rampatch_patch_info;
  let len := patch_length info in
  let no_of_patch_segment := Z.quot len MAX_DATA_PER_SEGMENT in
  let p_base_addr := patch_base_addr info in
  '(err, stop) ← for_until (seq 1 (Z.to_nat no_of_patch_segment)) snd (0, false)
    (fun index => patch_segment p_base_addr (Z.of_nat index) MAX_DATA_PER_SEGMENT);
  if stop : bool then mret err
  else
    let size := if len <? MAX_DATA_PER_SEGMENT then len else Z.rem len MAX_DATA_PER_SEGMENT in
    if size =? 0 then mret err
    else r ← patch_segment p_base_addr (no_of_patch_segment + 1) size; mret r.1.

Definition ROME_FW_PATH : string := "/system/etc/firmware/rampatch.img".

(** The rest of the file and the end of file go to the buffer. *)
Definition read_payload (rest : list Z) (size : Z) : M rworld unit :=
  bs ← deref (store_bytes 0 (rest ++ [0xFF]) (replicate (Z.to_nat (size + 1)) 0));
  modify (put_pdata_buffer (BBuf bs)).

Definition rome_download_rampatch : M rworld Z :=
  f ← uart (bext (fun tr => env_fopen tr ROME_FW_PATH) (BFopen ROME_FW_PATH));
  match f with
  | None => mret (- ENFILE)
  | Some (content, _) =>
      ok ← rmalloc;
      if negb ok then modify (put_phdr_buffer BNull);; mret (-1)
      else
        let hdr := take 28 (content ++ replicate 28 0xFF) in
        modify (put_phdr_buffer (BBuf (hdr ++ [0])));;
        modify (fun w => put_rampatch_patch_info (rome_extract_patch_header_info hdr (rampatch_patch_info w)) w);;
        ret ← rome_edl_set_patch_request;
        if ret <? 0 then free_phdr;; mret ret
        else
          size ← gets (fun w => patch_length (rampatch_patch_info w));
          ok ← rmalloc;
          if negb ok then modify (put_pdata_buffer BNull);; free_phdr;; mret ret
          else
            read_payload (drop 28 content) size;;
            ret ← rome_edl_patch_download_request;
            free_pdata;;
            free_phdr;;
            mret ret
  end.

Definition rome_attach_rampatch : M rworld Z :=
  cmd ← frame_hci_cmd_pkt EDL_PATCH_ATCH_REQ_CMD 0 (-1) EDL_PATCH_CMD_LEN;
  rsp ← stack_array;
  r ← send_and_complete cmd rsp (packet_size cmd);
  mret r.1.

Definition rome_rampatch_reset : M rworld Z :=
  cmd ← frame_hci_cmd_pkt EDL_PATCH_RST_REQ_CMD 0 (-1) EDL_PATCH_CMD_LEN;
  let size := 1 + 3 + EDL_PATCH_CMD_LEN in
  err ← write_line cmd size;
  if negb (err =? size) then mret err else note (BSleep 100000);; mret err.

(** ** TLV files *)

(** The tags of a configuration file: the address of this device is written
    into tag 2, and what of a tag is printed is read. *)
Fixpoint nvm_loop (fuel : nat) (buf : list Z) (off nvm_index nvm_length : Z) : M rworld (list Z) :=
  if nvm_index <? nvm_length then
    match fuel with
    | O => stuck
    | S fuel =>
        hdr ← deref (slice off 12 buf);
        let tag_id := le (take 2 hdr) in
        let tag_len := le (take 2 (drop 2 hdr)) in
        let off := off + 12 in
        buf ← (if tag_id =? TAG_NUM_2 then deref (store_bytes (Z.to_nat off) (take 6 vnd_local_bd_addr) buf) else mret buf);
        deref (slice off (Z.min tag_len 260) buf);;
        nvm_loop fuel buf (off + tag_len) (nvm_index +i 12 +i tag_len) nvm_length
    end
  else mret buf.

Definition rome_get_tlv_file (file_path : string) : M rworld Z :=
  f ← uart (bext (fun tr => env_fopen tr file_path) (BFopen file_path));
  match f with
  | None => mret (-1)
  | Some (content, fileSize) =>
      ok ← rmalloc;
      if negb ok then modify (put_pdata_buffer BNull);; mret (-1)
      else
        let data := take fileSize content in
        modify (put_pdata_buffer (BBuf (data ++ replicate (fileSize - length data) 0)));;
        if negb (length data =? fileSize)%nat then mret (-1)
        else
          let readSize := Z.of_nat (length data) in
          tlv_type ← deref (data !! 0%nat);
          dwnd_cfg ← deref (data !! 14%nat);
          modify (fun w => put_gTlv_dwndCfg dwnd_cfg (put_gTlv_type tlv_type w));;
          if tlv_type =? TLV_TYPE_PATCH then
            deref (slice 0 28 data);; mret readSize
          else if tlv_type =? TLV_TYPE_NVM then
            let nvm_length := le (take 3 (drop 1 data)) in
            if nvm_length <=? 0 then mret readSize
            else
              buf ← nvm_loop (S (Z.to_nat nvm_length)) data 4 0 nvm_length;
              modify (put_pdata_buffer (BBuf buf));;
              mret readSize
          else mret readSize
  end.

Definition rome_tlv_dnld_segment (index seg_size : Z) (wait_cc_evt : bool) : M rworld Z :=
  cmd ← frame_hci_cmd_pkt EDL_PATCH_TLV_REQ_CMD 0 index seg_size;
  let size := packet_size cmd in
  '(err, rsp) ← hci_send_vs_cmd cmd zero_array size;
  if negb (err =? size) then mret err
  else if wait_cc_evt then '(err, _) ← read_event rsp; mret err
  else mret err.

(** Whether the completion event is awaited, and [wait_vsc_evt], by the header
    of the file; the former is not set for the modes that are not handled. *)
Definition event_mode : M rworld bool :=
  w ← get;
  if gTlv_type w =? TLV_TYPE_PATCH then
    if gTlv_dwndCfg w =? ROME_SKIP_EVT_NONE then modify (put_wait_vsc_evt true);; mret true
    else if gTlv_dwndCfg w =? ROME_SKIP_EVT_VSE_CC then modify (put_wait_vsc_evt false);; mret false
    else mret (negb (byte 0 (env_stack (b_tr w)) =? 0))
  else modify (put_wait_vsc_evt true);; mret true.

(** The choice for the segment that is the last one if [last]. *)
Definition last_mode (last wait_cc_evt : bool) : M rworld bool :=
  w ← get;
  if (ROME_VER_1_1 <=? rome_ver w) && (rome_ver w <? ROME_VER_3_2) && (gTlv_type w =? TLV_TYPE_PATCH) then mret (negb last)
  else if (rome_ver w =? ROME_VER_3_2) && (gTlv_type w =? TLV_TYPE_PATCH) then
    if gTlv_dwndCfg w =? ROME_SKIP_EVT_NONE then mret (negb last)
    else if gTlv_dwndCfg w =? ROME_SKIP_EVT_VSE_CC then modify (put_wait_vsc_evt last);; mret wait_cc_evt
    else mret wait_cc_evt
  else mret wait_cc_evt.

(** The whole segments, from number [i] on: an error ends the loop. *)
Fixpoint tlv_loop (n : nat) (i : Z) (remain_size : Z) (wait_cc_evt : bool) (err : Z) : M rworld (Z * bool * bool) :=
  match n with
  | O => mret (err, wait_cc_evt, false)
  | S n =>
      wait_cc_evt ← (if (n =? 0)%nat then last_mode (remain_size =? 0) wait_cc_evt else mret wait_cc_evt);
      modify (put_patch_dnld_pending true);;
      err ← rome_tlv_dnld_segment i MAX_SIZE_PER_TLV_SEGMENT wait_cc_evt;
      if err <? 0 then mret (err, wait_cc_evt, true)
      else modify (put_patch_dnld_pending false);; tlv_loop n (i + 1) remain_size wait_cc_evt err
  end.

Definition rome_tlv_dnld_req (tlv_size : Z) : M rworld Z :=
  let total_segment := Z.quot tlv_size MAX_SIZE_PER_TLV_SEGMENT in
  let remain_size := if tlv_size <? MAX_SIZE_PER_TLV_SEGMENT then tlv_size else Z.rem tlv_size MAX_SIZE_PER_TLV_SEGMENT in
  wait_cc_evt ← event_mode;
  '(err, wait_cc_evt, failed) ← tlv_loop (Z.to_nat total_segment) 0 remain_size wait_cc_evt (-1);
  if failed : bool then modify (put_patch_dnld_pending false);; mret err
  else
    wait_cc_evt ← last_mode (negb (remain_size =? 0)) wait_cc_evt;
    modify (put_patch_dnld_pending true);;
    err ← (if negb (remain_size =? 0) then rome_tlv_dnld_segment total_segment remain_size wait_cc_evt else mret err);
    modify (put_patch_dnld_pending false);;
    mret err.

Definition rome_download_tlv_file : M rworld Z :=
  let cleanup (err : Z) : M rworld Z := free_pdata;; mret err in
  modify (put_pdata_buffer BNull);;
  path ← gets rampatch_file_path;
  tlv_size ← rome_get_tlv_file path;
  if tlv_size <? 0 then cleanup (-1)
  else
    err ← rome_tlv_dnld_req tlv_size;
    if err <? 0 then cleanup err
    else
      free_pdata;;
      modify (put_pdata_buffer BNull);;
      path ← gets nvm_file_path;
      tlv_size ← rome_get_tlv_file path;
      if tlv_size <? 0 then cleanup err
      else err ← rome_tlv_dnld_req tlv_size; cleanup err.

(** ** Other requests *)

(** The tags of version 1.0, up to [TAG_END]. *)
Definition nvm_tags : list (list Z) :=
  [[1; 11; 252; 9; 1; 2; 6; 119; 120; 35; 1; 86; 34];
   [1; 11; 252; 11; 1; 6; 8; 255; 254; 139; 254; 216; 63; 91; 139];
   [1; 11; 252; 11; 1; 17; 8; 130; 1; 14; 8; 4; 50; 10; 0];
   [1; 11; 252; 58; 1; 35; 55; 64; 65; 66; 67; 68; 69; 70; 71; 88; 89; 14; 14; 22; 22; 22; 30; 38; 95; 47; 95; 14; 14; 22; 22; 22;
    30; 38; 95; 47; 95; 12; 24; 20; 36; 64; 76; 112; 128; 128; 128; 12; 24; 20; 36; 64; 76; 112; 128; 128; 128; 27; 20; 1; 4;
    72];
   [1; 11; 252; 15; 1; 36; 12; 15; 0; 3; 3; 3; 3; 0; 0; 3; 3; 4; 0];
   [1; 11; 252; 7; 1; 39; 4; 18; 0; 0; 0];
   [1; 11; 252; 91; 1; 41; 88; 21; 0; 0; 0; 246; 2; 0; 0; 118; 0; 30; 0; 41; 2; 31; 0; 97; 0; 26; 0; 118; 0; 30; 0; 125; 0; 64; 0;
    145; 0; 6; 0; 146; 0; 3; 0; 166; 1; 80; 0; 170; 1; 21; 0; 171; 1; 10; 0; 172; 1; 0; 0; 176; 1; 197; 0; 179; 1; 3; 0; 180; 1;
    19; 0; 181; 1; 12; 0; 197; 1; 13; 0; 198; 1; 16; 0; 202; 1; 43; 0; 203; 1; 95; 0; 204; 1; 72; 0];
   [1; 11; 252; 63; 1; 42; 60; 215; 192; 0; 0; 143; 92; 2; 0; 128; 71; 96; 12; 112; 76; 0; 0; 0; 1; 31; 1; 66; 1; 105; 1; 149; 1;
    199; 1; 254; 1; 61; 2; 131; 2; 209; 2; 41; 3; 0; 10; 16; 0; 31; 0; 63; 0; 127; 0; 253; 0; 249; 1; 241; 3; 222; 7; 0; 0; 154;
    1];
   [1; 11; 252; 153; 1; 84; 150; 124; 106; 89; 71; 25; 54; 53; 37; 37; 40; 44; 43; 43; 40; 44; 40; 41; 40; 41; 40; 41; 41; 44; 41;
    44; 41; 44; 40; 41; 40; 41; 40; 41; 42; 0; 0; 44; 42; 44; 24; 152; 152; 152; 152; 30; 30; 30; 30; 30; 30; 30; 19; 30; 30;
    30; 30; 19; 19; 17; 19; 30; 30; 19; 18; 18; 18; 17; 18; 31; 18; 18; 18; 16; 12; 24; 13; 1; 1; 1; 1; 1; 1; 1; 12; 1; 1; 1; 1;
    13; 13; 14; 13; 1; 1; 13; 13; 13; 13; 15; 13; 16; 13; 13; 13; 13; 16; 5; 16; 3; 0; 126; 123; 123; 114; 113; 80; 80; 80; 0;
    64; 96; 96; 48; 8; 2; 15; 0; 1; 0; 0; 0; 0; 0; 0; 8; 22; 22; 8; 8; 0; 0; 0; 30; 52; 43; 27; 35; 43; 21; 13];
   [1; 11; 252; 119; 1; 85; 116; 3; 0; 56; 0; 69; 119; 0; 232; 0; 89; 1; 202; 1; 59; 2; 172; 2; 29; 3; 142; 3; 0; 137; 1; 14; 2;
    92; 2; 215; 2; 248; 8; 1; 0; 31; 0; 10; 2; 85; 2; 0; 53; 0; 0; 0; 0; 42; 215; 0; 0; 0; 30; 222; 0; 0; 0; 20; 15; 10; 15; 10;
    12; 12; 12; 12; 4; 4; 4; 12; 12; 12; 12; 6; 6; 0; 2; 2; 2; 2; 2; 1; 0; 2; 2; 2; 2; 1; 0; 0; 0; 6; 15; 20; 5; 71; 207; 119;
    0; 0; 0; 0; 0; 0; 172; 124; 255; 64; 0; 0; 0; 18; 4; 4; 1; 4; 3]].

Fixpoint nvm_tag_loop (cmds : list (list Z)) (rsp : list Z) (err : Z) : M rworld Z :=
  match cmds with
  | [] => mret err
  | c :: cmds =>
      let cmd := c ++ replicate (HCI_MAX_CMD_SIZE - length c) 0 in
      cmd ← (if byte 5 cmd =? TAG_NUM_2 then deref (store_bytes 7 (take 6 vnd_local_bd_addr) cmd) else mret cmd);
      let size := byte 3 cmd + 3 + 1 in
      '(err, rsp) ← hci_send_vs_cmd cmd rsp size;
      if negb (err =? size) then mret err
      else '(err, rsp) ← read_event rsp; if err <? 0 then mret err else nvm_tag_loop cmds rsp err
  end.

Definition rome_1_0_nvm_tag_dnld : M rworld Z := rsp ← stack_array; nvm_tag_loop nvm_tags rsp 0.

Definition rome_patch_ver_req : M rworld Z :=
  cmd ← frame_hci_cmd_pkt EDL_PATCH_VER_REQ_CMD 0 (-1) EDL_PATCH_CMD_LEN;
  rsp ← stack_array;
  r ← send_and_complete cmd rsp (1 + 3 + EDL_PATCH_CMD_LEN);
  mret r.1.

Definition rome_get_build_info_req : M rworld Z :=
  cmd ← frame_hci_cmd_pkt EDL_GET_BUILD_INFO 0 (-1) EDL_PATCH_CMD_LEN;
  rsp ← stack_array;
  r ← send_and_complete cmd rsp (1 + 3 + EDL_PATCH_CMD_LEN);
  mret r.1.

Definition userial_vendor_ioctl (op : userial_op) : M rworld Z := uart (bext (fun tr => env_userial tr op) (BIoctl op)).

(** A command written while the flow is off, and the change of the speed. *)
Definition change_speed (cmd : list Z) (size : Z) (k : M rworld Z) : M rworld Z :=
  err ← userial_vendor_ioctl USERIAL_OP_FLOW_OFF;
  if err <? 0 then mret err
  else
    err ← write_line cmd size;
    if negb (err =? size) then mret err
    else
      note (BSetBaud USERIAL_BAUD_3M);;
      err ← userial_vendor_ioctl USERIAL_OP_FLOW_ON;
      if err <? 0 then mret err else k.

Definition rome_set_baudrate_req : M rworld Z :=
  let cmd := put_byte 4 BAUDRATE_3000000 (hci_command (cmd_opcode_pack HCI_VENDOR_CMD_OGF EDL_SET_BAUDRATE_CMD_OCF) 1) in
  note BFlush;;
  change_speed cmd (1 + 3 + 1) (
    rsp ← stack_array;
    '(err, rsp) ← read_vs rsp;
    if err <? 0 then mret err else r ← read_event rsp; mret r.1).

Definition rome_hci_reset_req : M rworld Z :=
  change_speed (hci_command HCI_RESET 0) (1 + 3) (rsp ← stack_array; r ← read_event rsp; mret r.1).

Definition rome_hci_reset : M rworld Z :=
  let size := 1 + 3 in
  err ← write_line (hci_command HCI_RESET 0) size;
  if negb (err =? size) then mret (-1)
  else rsp ← stack_array; r ← read_event rsp; mret r.1.

Definition rome_wipower_current_charging_status_req : M rworld Z :=
  let cmd := put_byte 4 EDL_WIP_QUERY_CHARGING_STATUS_CMD (hci_command (cmd_opcode_pack HCI_VENDOR_CMD_OGF EDL_WIPOWER_VS_CMD_OCF) 1) in
  let size := 1 + 3 + 1 in
  rsp ← stack_array;
  '(err, rsp) ← hci_send_wipower_vs_cmd cmd rsp size;
  if negb (err =? size) then mret err
  else
    '(r, rsp) ← read_vs rsp;
    if r <? 0 then mret (- ETIMEDOUT)
    else if NON_WIPOWER_MODE <=? byte 4 rsp then r ← read_event rsp; mret r.1
    else mret err.

Definition addon_feature_req : M rworld Z :=
  let cmd := hci_command (cmd_opcode_pack HCI_VENDOR_CMD_OGF HCI_VS_GET_ADDON_FEATURES_SUPPORT) 0 in
  rsp ← stack_array;
  r ← send_and_complete cmd rsp (1 + 3);
  mret r.1.

Definition check_embedded_mode : M rworld Z :=
  modify (put_wipower_flag 0);;
  rome_wipower_current_charging_status_req;;
  note (BSleep 500);;
  gets wipower_flag.

Definition rome_get_addon_feature_list : M rworld Z := addon_feature_req.

Definition rome_wipower_forward_handoff_req : M rworld Z :=
  let cmd := put_byte 4 EDL_WIP_START_HANDOFF_TO_HOST_CMD (hci_command (cmd_opcode_pack HCI_VENDOR_CMD_OGF EDL_WIPOWER_VS_CMD_OCF) 1) in
  let size := 1 + 3 + 1 in
  rsp ← stack_array;
  '(err, rsp) ← hci_send_wipower_vs_cmd cmd rsp size;
  if negb (err =? size) then mret err
  else '(r, _) ← read_vs rsp; mret (if r <? 0 then - ETIMEDOUT else err).

Definition enable_controller_log (wait_for_evt : bool) : M rworld unit :=
  on ← gets (fun w => env_soclog (b_tr w));
  let cmd := [0x01; 0x17; 0xFC; 0x02; 0x00; if on : bool then 0x01 else 0x00] in
  (if wait_for_evt then modify (put_wait_vsc_evt false) else mret tt);;
  rsp ← stack_array;
  '(_, rsp) ← hci_send_vs_cmd cmd rsp 6;
  (if wait_for_evt then mret tt else read_event rsp;; mret tt);;
  modify (put_wait_vsc_evt true).

Definition disable_internal_ldo : M rworld Z :=
  if enable_extldo then
    ret ← write_line [0x01; 0x0C; 0xFC; 0x01; 0x32] 5;
    if negb (ret =? 5) then mret (-1)
    else rsp ← stack_array; r ← read_event rsp; mret r.1
  else mret 0.

(** ** Initialisation *)

(** The steps of version 1.0. *)
Definition init_1_0 : M rworld Z :=
  err ← rome_download_rampatch;
  if err <? 0 then mret err else
  err ← rome_attach_rampatch;
  if err <? 0 then mret err else
  err ← rome_rampatch_reset;
  if err <? 0 then mret err else
  err ← rome_1_0_nvm_tag_dnld;
  if err <? 0 then mret err else
  rome_hci_reset_req.

(** The label [download]. *)
Definition init_download (rampatch nvm : string) (su : option (string * Z)) : M rworld Z :=
  modify (fun w => put_nvm_file_path nvm (put_rampatch_file_path rampatch w));;
  match su with
  | Some (info, offset) => modify (fun w => put_fw_su_offset offset (put_fw_su_info (Some info) w))
  | None => mret tt
  end;;
  err ← rome_set_baudrate_req;
  if err <? 0 then mret err else
  err ← rome_download_tlv_file;
  if err <? 0 then mret err else
  rome_get_build_info_req;;
  disable_internal_ldo;;
  rome_hci_reset.

(** The [switch] on the version. *)
Definition init_version : M rworld Z :=
  ver ← gets rome_ver;
  if ver =? ROME_VER_1_0 then init_1_0
  else if ver =? ROME_VER_1_1 then
    init_download "/system/etc/firmware/rampatch_tlv.img" "/system/etc/firmware/nvm_tlv.bin" None
  else if ver =? ROME_VER_1_3 then
    init_download "/system/etc/firmware/rampatch_tlv_1.3.tlv" "/system/etc/firmware/nvm_tlv_1.3.bin" None
  else if ver =? ROME_VER_2_1 then
    init_download "/system/etc/firmware/rampatch_tlv_2.1.tlv" "/system/etc/firmware/nvm_tlv_2.1.bin" None
  else if ver =? ROME_VER_3_0 then
    init_download "/bt_firmware/image/btfw30.tlv" "/bt_firmware/image/btnv30.bin" (Some ("bprm.cnss.3.1", 0x01F2))
  else if ver =? ROME_VER_3_2 then
    init_download "/bt_firmware/image/btfw32.tlv" "/bt_firmware/image/btnv32.bin" (Some ("btfwp.cnss.3.2", 0x0112))
  else mret (-1).

Definition rome_soc_init : M rworld Z :=
  modify (put_dnld_fd line_fd);;
  w ← get;
  (if (wipower_flag w =? WIPOWER_IN_EMBEDDED_MODE) && negb (wipower_handoff_ready w =? NON_WIPOWER_MODE) then
     modify (fun w => put_wipower_handoff_ready 0 (put_wipower_flag 0 w));;
     rome_wipower_forward_handoff_req;; mret tt
   else mret tt);;
  err ← rome_patch_ver_req;
  err ← (if err <? 0 then mret err else init_version);
  modify (put_dnld_fd (-1));;
  mret err.

End Rome.
