(* ===== verification/RomeProps.v ===== *)
(** * Theorems about the Rome controller *)

From Stdlib Require Import ZArith Lia.
From stdpp Require Import list strings.
From S2P Require Import Prelude BtHci Rome.

(** ** The line *)

(** What a process does that can be seen outside of it: a byte to a
    descriptor, or a call of the system. *)
Inductive act : Type :=
| Out (fd b : Z)
| Did (f : string) (args : list Z) (ret : Z).

Definition outs (fd : Z) (bs : list Z) : list act := map (Out fd) bs.

(** Calls that only set up the line, which are left out. *)
Definition line_call (f : string) : bool :=
  bool_decide (f ∈ ["ioctl"; "tcflush"; "tcgetattr"; "tcsetattr"; "cfsetospeed"; "cfsetispeed"; "TIOCMGET"; "TIOCMSET"]%string).

(** What was done, in order, and the number of bytes that came in. *)
Fixpoint sent (tr : bhistory) : list act :=
  match tr with
  | [] => []
  | BWrite fd bs ret :: tr => sent tr ++ outs fd (take (Z.to_nat ret) bs)
  | BCall f args ret :: tr => sent tr ++ (if line_call f then [] else [Did f args ret])
  | _ :: tr => sent tr
  end.

Lemma outs_app fd a b : outs fd (a ++ b) = outs fd a ++ outs fd b.
Proof. apply map_app. Qed.

Fixpoint nread (tr : bhistory) : nat :=
  match tr with
  | [] => 0
  | BRead _ _ bs :: tr => nread tr + length bs
  | _ :: tr => nread tr
  end.

Lemma u8_small z : 0 <= z < 256 -> u8 z = z.
Proof. intros H. unfold u8. apply Z.mod_small. change (2 ^ 8) with 256. lia. Qed.

Section Line.
Context `{BE : BtEnv}.

(** The controller sends [stream] in all; a read gets the next bytes of it,
    however many are there at that time. *)
Definition feeds (stream : list Z) : Prop :=
  forall tr fd n, (0 < n)%nat -> exists k, (0 < k)%nat /\ env_bread tr fd n = take k (drop (nread tr) stream).

(** A write takes the whole buffer. *)
Definition writes_all : Prop := forall tr fd bs, env_bwrite tr fd bs = Z.of_nat (length bs).

Context (stream : list Z) (Hf : feeds stream).

Definition unread (tr : bhistory) : list Z := drop (nread tr) stream.

Lemma bread_run fd n tr b s : (0 < n)%nat -> unread tr = b :: s ->
  exists l rest, bread fd n tr = Some (l, BRead fd n l :: tr) /\ l <> [] /\ (length l <= n)%nat /\ b :: s = l ++ rest /\ unread (BRead fd n l :: tr) = rest.
Proof.
  intros Hn Hu. destruct (Hf tr fd n Hn) as (k & Hk & E). unfold bread, bext. rewrite E. fold (unread tr). rewrite Hu, take_take.
  set (m := Nat.min n k). exists (take m (b :: s)), (drop m (b :: s)). split; [done|]. split; [destruct m eqn:Em; [unfold m in Em; lia|done]|].
  split; [rewrite length_take; lia|]. split; [by rewrite take_drop|]. unfold unread in *. simpl. rewrite <- drop_drop, Hu, length_take.
  destruct (decide (m <= length (b :: s))%nat); [by rewrite Nat.min_l|]. rewrite Nat.min_r by lia. by rewrite drop_all, drop_ge by lia.
Qed.

Lemma store_bytes_run i bs buf : (i + length bs <= length buf)%nat ->
  store_bytes i bs buf = Some (take i buf ++ bs ++ drop (i + length bs) buf).
Proof. intros H. unfold store_bytes. by rewrite (proj2 (Nat.leb_le _ _) H). Qed.

Lemma store_length i bs buf buf' : store_bytes i bs buf = Some buf' -> length buf' = length buf.
Proof.
  unfold store_bytes. destruct (Nat.leb_spec (i + length bs) (length buf)); [|done]. intros [= <-].
  rewrite !length_app, length_take, length_drop. lia.
Qed.

(** The loop reads the bytes up to its target, however they come. *)
Lemma fill_run fd check : forall fuel buf count target bs rest tr, (target - count <= fuel)%nat -> (count <= target)%nat -> (target <= length buf)%nat ->
  length bs = (target - count)%nat -> unread tr = bs ++ rest ->
  (forall b, length b = length buf -> take (S count) b = take count buf ++ take 1 bs -> check b = true) ->
  exists tr', fill fd check fuel buf count target tr = Some ((Some target, take count buf ++ bs ++ drop target buf), tr') /\ unread tr' = rest /\ sent tr' = sent tr.
Proof.
  induction fuel as [|fuel IH]; intros buf count target bs rest tr Hfuel Hc Ht Hbs Hu Hcheck; simpl.
  - rewrite (proj2 (Nat.ltb_ge _ _)) by lia. exists tr. destruct bs; [|simpl in Hbs; lia]. simpl in *. assert (target = count) as -> by lia.
    by rewrite take_drop.
  - destruct (Nat.ltb_spec count target) as [Hlt|Hge].
    2: { exists tr. destruct bs; [|simpl in Hbs; lia]. assert (target = count) as -> by lia. simpl in *. by rewrite take_drop. }
    destruct bs as [|b bs]; [simpl in Hbs; lia|]. destruct (bread_run fd (target - count) tr b (bs ++ rest)) as (l & r1 & E & Hl & Hlen & Hsplit & Hu1); [lia|done|].
    rewrite (bind_run _ _ _ _ _ E). destruct l as [|x l]; [done|]. set (xl := x :: l) in *.
    assert (Hpre : exists bs', b :: bs = xl ++ bs' /\ r1 = bs' ++ rest).
    { exists (drop (length xl) (b :: bs)). rewrite app_comm_cons in Hsplit. pose proof (f_equal (take (length xl)) Hsplit) as H1.
      pose proof (f_equal (drop (length xl)) Hsplit) as H2. rewrite take_app_length in H1. rewrite drop_app_length in H2. rewrite take_app_le in H1 by (simpl in *; lia).
      rewrite drop_app_le in H2 by (simpl in *; lia). split; [|done]. rewrite <- H1 at 1. by rewrite take_drop. }
    destruct Hpre as (bs' & Hbs' & ->). rewrite Hbs' in Hbs, Hcheck. rewrite length_app in Hbs.
    rewrite (store_bytes_run count xl buf) by lia. rewrite (bind_run _ _ _ _ _ eq_refl). set (buf1 := take count buf ++ xl ++ drop (count + length xl) buf).
    assert (Hlb : length buf1 = length buf) by (eapply (store_length count xl); by rewrite store_bytes_run by lia).
    assert (Htk : forall k, (k <= length xl)%nat -> take (count + k) buf1 = take count buf ++ take k xl).
    { intros k Hk. unfold buf1. rewrite take_app_ge by (rewrite length_take; lia). rewrite length_take, Nat.min_l by lia. replace (count + k - count)%nat with k by lia.
      by rewrite take_app_le by lia. }
    assert (Hone : (1 <= length xl)%nat) by (unfold xl; simpl; lia).
    rewrite (Hcheck buf1) by (done || (rewrite <- Nat.add_1_r, Htk by done; f_equal; by rewrite take_app_le by lia)).
    destruct (IH buf1 (count + length xl)%nat target bs' rest (BRead fd (target - count) xl :: tr)) as (tr' & E' & Hu' & Hs'); [lia..|done| |].
    { intros b' Hb' Htb. apply Hcheck; [lia|]. pose proof (f_equal (take (S count)) Htb) as H3. rewrite take_take, Nat.min_l in H3 by lia. rewrite H3.
      rewrite Htk by lia. rewrite (take_ge xl) by lia. rewrite <- (app_assoc (take count buf)), take_app_ge by (rewrite length_take; lia). f_equal.
      rewrite length_take, Nat.min_l by lia. replace (S count - count)%nat with 1%nat by lia. rewrite !take_app_le by lia. done. }
    exists tr'. rewrite E'. split; [|done]. do 3 f_equal. rewrite Htk by lia. rewrite (take_ge xl) by lia. rewrite Hbs', <- !app_assoc. do 3 f_equal.
    unfold buf1. rewrite drop_app_ge by (rewrite length_take; lia). rewrite length_take, Nat.min_l by lia. rewrite drop_app_ge by lia. rewrite drop_drop. f_equal. lia.
Qed.

Lemma indicator_run fd : forall junk noise rest tr buf, (length noise < junk)%nat -> (1 <= length buf)%nat -> Forall (fun b => b <> 4) noise ->
  unread tr = noise ++ 4 :: rest ->
  exists tr', find_indicator fd junk buf tr = Some ((true, 4 :: tail buf), tr') /\ unread tr' = rest /\ sent tr' = sent tr.
Proof.
  intros junk noise. revert junk. induction noise as [|b noise IH]; intros [|junk] rest tr buf Hj Hb Hn Hu; simpl in *; [lia| |lia|];
    (destruct buf as [|y buf]; [simpl in *; lia|]);
    (edestruct (bread_run fd 1 tr) as (l & r1 & E & Hl & Hlen & Hsplit & Hu1); [lia|exact Hu|]); (destruct l as [|x [|]]; [done| |simpl in Hlen; lia]);
    injection Hsplit as <- <-; rewrite (bind_run _ _ _ _ _ E); rewrite (store_bytes_run 0) by (simpl; lia); rewrite (bind_run _ _ _ _ _ eq_refl); cbn [length Nat.add take drop app].
  - rewrite Z.eqb_refl. by eexists.
  - apply Forall_cons in Hn as [Hn1 Hn]. rewrite (proj2 (Z.eqb_neq _ _) Hn1). destruct (IH junk rest (BRead fd 1 [b] :: tr) (b :: drop 0 buf)) as (tr' & E' & H'); [lia|simpl; lia|done|done|].
    exists tr'. rewrite E'. by rewrite drop_0.
Qed.

(** An event packet as it comes over the line. *)
Definition packet (code : Z) (params : list Z) : list Z := 4 :: code :: Z.of_nat (length params) :: params.

Lemma packet_run fd junk check noise code params rest tr buf size : (length noise < junk)%nat -> Forall (fun b => b <> 4) noise ->
  (length params < 256)%nat -> length buf = size -> (3 + length params < size)%nat -> unread tr = noise ++ packet code params ++ rest ->
  (forall b, byte 1 b = code -> check b = true) ->
  exists tr', read_packet fd junk check buf size tr =
    Some ((Some (length (packet code params)), packet code params ++ drop (length (packet code params)) buf), tr') /\ unread tr' = rest /\ sent tr' = sent tr.
Proof.
  intros Hj Hn Hp Hb Hsz Hu Hcheck. unfold packet in *. set (len := length params) in *. destruct buf as [|y buf]; [simpl in Hb; lia|]. simpl in Hb.
  destruct (indicator_run fd junk noise (code :: Z.of_nat len :: params ++ rest) tr (y :: buf) Hj) as (tr1 & E1 & Hu1 & Hs1); [simpl; lia|done|by rewrite Hu|].
  unfold read_packet. rewrite (bind_run _ _ _ _ _ E1). cbn [tail].
  destruct (fill_run fd check 2 (4 :: buf) 1 3 [code; Z.of_nat len] (params ++ rest) tr1) as (tr2 & E2 & Hu2 & Hs2); [lia|lia|simpl; lia|done|done| |].
  { intros b _ Hb'. apply Hcheck. destruct b as [|b0 [|b1 b]]; [done..|]. simpl in Hb'. injection Hb' as _ ->. done. }
  rewrite (bind_run _ _ _ _ _ E2). cbv beta iota. cbn [take]. rewrite take_0. cbn [app drop].
  change (byte 2 (4 :: code :: Z.of_nat len :: drop 2 buf)) with (Z.of_nat len).
  rewrite (proj2 (Z.ltb_lt (Z.of_nat len) (Z.of_nat size - 3))) by lia. rewrite Nat2Z.id.
  destruct (fill_run fd (fun _ => true) len (4 :: code :: Z.of_nat len :: drop 2 buf) 3 (3 + len) params rest tr2) as (tr3 & E3 & Hu3 & Hs3); [lia|lia| |lia|done|done|].
  { simpl. rewrite length_drop. lia. }
  exists tr3. rewrite E3. split; [|split; [done|congruence]]. cbn [take app length]. fold len. do 5 f_equal.
  f_equal. cbn [drop Nat.add]. by rewrite drop_drop.
Qed.

(** C36: an event that fits the buffer is read from the line as one packet: the
    bytes in front of its indicator, none of which is an indicator, are
    skipped, then exactly the bytes of the packet are taken, in
    whatever pieces they arrive, and stand at the beginning of the buffer; the
    rest of the line is left for the next call. *)
Theorem hci_event_framing fd junk noise code params rest tr buf size (Hj : (length noise < junk)%nat) (Hn : Forall (fun b => b <> 4) noise)
  (Hp : (length params < 256)%nat) (Hb : length buf = size) (Hsz : (3 + length params < size)%nat) (Hu : unread tr = noise ++ packet code params ++ rest) :
  exists tr', read_hci_event fd junk buf size tr =
    Some ((Z.of_nat (length (packet code params)), packet code params ++ drop (length (packet code params)) buf), tr') /\ unread tr' = rest /\ sent tr' = sent tr.
Proof.
  destruct (packet_run fd junk (fun _ => true) noise code params rest tr buf size Hj Hn Hp Hb Hsz Hu) as (tr' & E & H); [done|].
  exists tr'. split; [|done]. unfold read_hci_event. rewrite (proj2 (Nat.eqb_neq _ _)) by lia. by rewrite (bind_run _ _ _ _ _ E).
Qed.

End Line.

(** ** Commands and their events *)

Section Vendor.
Context `{BE : BtEnv} {LF : LineFd} (Hw : writes_all) (stream : list Z) (Hf : feeds stream) (junk : nat) (Hj : (0 < junk)%nat) (nvm : string).
Abbreviation unread := (unread stream).

Lemma do_write_run fd buf len tr : 0 <= len <= Z.of_nat (length buf) ->
  do_write fd buf len tr = Some (len, BWrite fd (take (Z.to_nat len) buf) len :: tr).
Proof using Hw.
  clear Hj. intros Hl. unfold do_write. rewrite (proj2 (Z.ltb_ge _ _)) by lia. cbn [write_loop]. change (Z.to_nat 0) with 0%nat. rewrite drop_0.
  assert (E : env_bwrite tr fd (take (Z.to_nat len) buf) = len) by (rewrite Hw, length_take; lia). erewrite bind_run by reflexivity.
  rewrite !E. rewrite (proj2 (Z.ltb_ge _ _)) by lia. destruct (Z.eqb_spec len 0) as [->|]; [done|].
  by rewrite (proj2 (Z.ltb_ge _ _)) by lia.
Qed.

(** The event that reports a segment as received. *)
Definition accepts (params : list Z) : Prop :=
  exists t ps, params = 0 :: t :: 0 :: ps /\ (t = 4 \/ t = 0) /\ (length params < 256)%nat.

(** A vendor event is read and handled; [f] is what its handler does. *)
Lemma vs_run w params f rsp rest : unread (b_tr w) = packet 0xFF params ++ rest -> (length params < 256)%nat -> length rsp = HCI_MAX_EVENT_SIZE ->
  (forall again tr buf, get_vs_hci_event again (packet 0xFF params ++ buf) (put_b_tr tr w) = Some (0, f (put_b_tr tr w))) ->
  exists tr' buf', read_vs junk rsp w = Some ((Z.of_nat (length (packet 0xFF params)), buf'), f (put_b_tr tr' w)) /\ length buf' = HCI_MAX_EVENT_SIZE /\
    unread tr' = rest /\ sent tr' = sent (b_tr w).
Proof.
  intros Hu Hlen Hr Hg.
  destruct (packet_run stream Hf line_fd junk (fun b => byte 1 b =? 0xFF) [] 0xFF params rest (b_tr w) rsp HCI_MAX_EVENT_SIZE) as (tr' & E & Hu' & Hs');
    [simpl; lia|constructor|done|done|unfold HCI_MAX_EVENT_SIZE; lia|done|by intros b ->|].
  unfold read_vs. destruct junk as [|depth]; [lia|]. cbn [read_vs_hci_event]. change (HCI_MAX_EVENT_SIZE =? 0)%nat with false. cbv iota. unfold uart. rewrite (bind_run _ _ _ _ _ (zoom_run _ _ _ _ _ _ E)). cbv beta iota.
  exists tr', (packet 0xFF params ++ drop (length (packet 0xFF params)) rsp). rewrite (bind_run _ _ _ _ _ (Hg _ _ _)). split; [done|]. split; [|done].
  rewrite length_app, length_drop, Hr. unfold packet. simpl length. unfold HCI_MAX_EVENT_SIZE. lia.
Qed.

Lemma read_vs_run w params rest : unread (b_tr w) = packet 0xFF params ++ rest -> accepts params ->
  exists tr' buf', read_vs junk zero_array w = Some ((Z.of_nat (length (packet 0xFF params)), buf'), put_b_tr tr' w) /\ length buf' = HCI_MAX_EVENT_SIZE /\
    unread tr' = rest /\ sent tr' = sent (b_tr w).
Proof.
  intros Hu (t & ps & -> & Ht & Hlen). apply (vs_run w _ (fun w => w) zero_array rest Hu Hlen eq_refl). intros again tr buf. by destruct Ht as [-> | ->].
Qed.

Lemma read_event_run w code params rest rsp : unread (b_tr w) = packet code params ++ rest -> (length params < 256)%nat -> length rsp = HCI_MAX_EVENT_SIZE ->
  exists tr' buf', read_event junk rsp w = Some ((Z.of_nat (length (packet code params)), buf'), put_b_tr tr' w) /\ unread tr' = rest /\ sent tr' = sent (b_tr w).
Proof.
  intros Hu Hp Hr. destruct (packet_run stream Hf line_fd junk (fun _ => true) [] code params rest (b_tr w) rsp HCI_MAX_EVENT_SIZE) as (tr' & E & Hu' & Hs');
    [simpl; lia|constructor|done|done|unfold HCI_MAX_EVENT_SIZE; lia|done|done|].
  exists tr'. eexists. split; [|done]. unfold read_event. apply zoom_run. unfold read_hci_event. simpl (HCI_MAX_EVENT_SIZE =? 0)%nat. cbv iota. by rewrite (bind_run _ _ _ _ _ E).
Qed.

(** The events of a command: a vendor event and a completion, each where it
    is awaited. *)
Definition events (vse cce : bool) (ev : list Z * (Z * list Z)) : list Z :=
  (if vse then packet 0xFF ev.1 else []) ++ (if cce then packet ev.2.1 ev.2.2 else []).
Definition good_events (ev : list Z * (Z * list Z)) : Prop := accepts ev.1 /\ (length ev.2.2 < 256)%nat.

Lemma send_run w cmd size ev cce rest : 0 < size <= Z.of_nat (length cmd) -> good_events ev -> unread (b_tr w) = events (wait_vsc_evt w) cce ev ++ rest ->
  exists tr' rsp, hci_send_vs_cmd junk cmd zero_array size w = Some ((size, rsp), put_b_tr tr' w) /\ length rsp = HCI_MAX_EVENT_SIZE /\
    unread tr' = events false cce ev ++ rest /\ sent tr' = sent (b_tr w) ++ outs line_fd (take (Z.to_nat size) cmd).
Proof.
  intros Hs [Ha _] Hu. unfold hci_send_vs_cmd, write_line, uart. rewrite (bind_run _ _ _ _ _ (zoom_run _ _ _ _ _ _ (do_write_run line_fd cmd size (b_tr w) ltac:(lia)))).
  rewrite Z.eqb_refl. cbn [negb]. set (tr1 := BWrite _ _ _ :: _). erewrite bind_run by reflexivity. change (wait_vsc_evt (put_b_tr tr1 w)) with (wait_vsc_evt w).
  assert (Hs1 : sent tr1 = sent (b_tr w) ++ outs line_fd (take (Z.to_nat size) cmd)) by (simpl; by rewrite take_take, Nat.min_id).
  destruct (wait_vsc_evt w) eqn:Hv.
  - destruct (read_vs_run (put_b_tr tr1 w) ev.1 (events false cce ev ++ rest)) as (tr' & buf' & E & Hb & Hu' & Hs'); [|done|].
    { unfold events in *. by rewrite <- app_assoc in Hu. }
    rewrite (bind_run _ _ _ _ _ E). cbv beta iota. rewrite (proj2 (Z.ltb_ge _ _)) by lia. exists tr', buf'. split; [done|]. split; [done|]. split; [done|]. by rewrite Hs'.
  - exists tr1, zero_array. done.
Qed.

(** ** TLV segments *)

(** The command that carries a segment. *)
Definition tlv_command (seg : list Z) : list Z :=
  [1; 0; 0xFC; Z.of_nat (length seg) + 2; 0x1E; Z.of_nat (length seg)] ++ seg.

Lemma slice_run off n l : 0 <= off -> 0 <= n -> off + n <= Z.of_nat (length l) -> slice off n l = Some (take (Z.to_nat n) (drop (Z.to_nat off) l)).
Proof. intros H1 H2 H3. unfold slice. by rewrite (proj2 (Z.leb_le _ _) H1), (proj2 (Z.leb_le _ _) H2), (proj2 (Z.leb_le _ _) H3). Qed.

Lemma frame_tlv w data i seg : pdata_buffer w = BBuf data -> Z.of_nat (length data) < 2 ^ 31 -> 0 <= i ->
  0 < Z.of_nat (length seg) <= 243 -> take (length seg) (drop (Z.to_nat (i * 243)) data) = seg -> i * 243 + Z.of_nat (length seg) <= Z.of_nat (length data) ->
  exists cmd, frame_hci_cmd_pkt EDL_PATCH_TLV_REQ_CMD 0 i (Z.of_nat (length seg)) w = Some (cmd, w) /\ length cmd = HCI_MAX_CMD_SIZE /\
    packet_size cmd = Z.of_nat (length seg) + 6 /\ take (length seg + 6) cmd = tlv_command seg.
Proof.
  intros Hp Hd Hi Hs Hseg Hin. set (n := length seg) in *. unfold frame_hci_cmd_pkt.
  change (EDL_PATCH_TLV_REQ_CMD =? EDL_PATCH_SET_REQ_CMD) with false. change (EDL_PATCH_TLV_REQ_CMD =? EDL_PATCH_DLD_REQ_CMD) with false.
  change (EDL_PATCH_TLV_REQ_CMD =? EDL_PATCH_TLV_REQ_CMD) with true. cbv iota zeta.
  rewrite (i32_id (i * MAX_SIZE_PER_TLV_SEGMENT)), (i32_id (Z.of_nat n + 2)) by (unfold i32_range, MAX_SIZE_PER_TLV_SEGMENT; lia).
  erewrite bind_run by reflexivity. rewrite Hp. erewrite bind_run by reflexivity. unfold MAX_SIZE_PER_TLV_SEGMENT. rewrite slice_run by lia.
  erewrite bind_run by reflexivity. rewrite Nat2Z.id, Hseg.
  set (cmd := put_byte 5 _ _). assert (Ec : cmd = [1; 0; 0xFC; Z.of_nat n + 2; 0x1E; Z.of_nat n] ++ replicate 254 0).
  { unfold cmd, put_byte, hci_command, HCI_MAX_CMD_SIZE. change (replicate (260 - 4) 0) with (0 :: 0 :: replicate 254 0). cbn [app insert list_insert].
    rewrite (u8_small (Z.of_nat n + 2)), (u8_small (Z.of_nat n)) by lia. reflexivity. }
  assert (Hl : length cmd = 260%nat) by by rewrite Ec, length_app, length_replicate.
  rewrite store_bytes_run by lia. fold n. eexists. split; [reflexivity|]. rewrite Ec. rewrite take_app_length'; [|done]. unfold packet_size.
  rewrite drop_app_ge by (simpl; lia). split; [rewrite !length_app, length_drop, length_replicate; fold n; unfold HCI_MAX_CMD_SIZE; simpl; lia|]. split; [unfold byte; cbn [app nth]; lia|].
  unfold tlv_command. fold n. rewrite app_assoc, take_app_length'; [done|]. rewrite length_app. fold n. simpl. lia.
Qed.

Lemma segment_run w data i seg ev cce rest : pdata_buffer w = BBuf data -> Z.of_nat (length data) < 2 ^ 31 -> 0 <= i ->
  0 < Z.of_nat (length seg) <= 243 -> take (length seg) (drop (Z.to_nat (i * 243)) data) = seg -> i * 243 + Z.of_nat (length seg) <= Z.of_nat (length data) ->
  good_events ev -> unread (b_tr w) = events (wait_vsc_evt w) cce ev ++ rest ->
  exists err tr', rome_tlv_dnld_segment junk i (Z.of_nat (length seg)) cce w = Some (err, put_b_tr tr' w) /\ 0 <= err /\ unread tr' = rest /\
    sent tr' = sent (b_tr w) ++ outs line_fd (tlv_command seg).
Proof.
  intros Hp Hd Hi Hs Hseg Hin Hev Hu. destruct (frame_tlv w data i seg Hp Hd Hi Hs Hseg Hin) as (cmd & Ec & Hlc & Hps & Htk).
  unfold rome_tlv_dnld_segment. rewrite (bind_run _ _ _ _ _ Ec). cbv zeta. rewrite Hps.
  destruct (send_run w cmd (Z.of_nat (length seg) + 6) ev cce rest) as (tr1 & rsp & E1 & Hr & Hu1 & Hs1); [unfold HCI_MAX_CMD_SIZE in Hlc; lia|done|done|].
  rewrite (bind_run _ _ _ _ _ E1). cbv beta iota. rewrite Z.eqb_refl. cbn [negb]. replace (Z.to_nat (Z.of_nat (length seg) + 6)) with (length seg + 6)%nat in Hs1 by lia.
  rewrite Htk in Hs1. destruct cce.
  - destruct (read_event_run (put_b_tr tr1 w) ev.2.1 ev.2.2 rest rsp) as (tr2 & buf & E2 & Hu2 & Hs2); [exact Hu1|apply Hev|done|].
    rewrite (bind_run _ _ _ _ _ E2). cbv beta iota. eexists _, tr2. split; [reflexivity|]. split; [lia|]. split; [done|]. rewrite Hs2. exact Hs1.
  - exists (Z.of_nat (length seg) + 6), tr1. split; [done|]. split; [lia|]. done.
Qed.

(** The events that are awaited for a segment, a vendor event and a
    completion: with a patch file the completion of the last segment is left
    out, or, where the file asks for it, everything but the vendor event of
    the last one; with a configuration file nothing is. *)
Definition awaits (type cfg : Z) (last : bool) : bool * bool :=
  if type =? TLV_TYPE_PATCH then if cfg =? ROME_SKIP_EVT_NONE then (true, negb last) else (last, false) else (true, true).

Definition supported (ver type cfg : Z) : Prop :=
  type = TLV_TYPE_PATCH -> ROME_VER_1_1 <= ver <= ROME_VER_3_2 /\ (cfg = ROME_SKIP_EVT_NONE \/ ver = ROME_VER_3_2 /\ cfg = ROME_SKIP_EVT_VSE_CC).

Record downloading (data : list Z) (w : rworld) : Prop := {
  dl_data : pdata_buffer w = BBuf data;
  dl_len : Z.of_nat (length data) < 2 ^ 31;
  dl_mode : supported (rome_ver w) (gTlv_type w) (gTlv_dwndCfg w);
  dl_nvm : nvm_file_path w = nvm
}.

Abbreviation modes w := (awaits (gTlv_type w) (gTlv_dwndCfg w)).

Lemma event_mode_run data w : downloading data w -> event_mode w = Some ((modes w false).2, put_wait_vsc_evt (modes w false).1 w).
Proof.
  intros [_ _ Hm _]. unfold event_mode, awaits, supported in *. erewrite bind_run by reflexivity. destruct (Z.eqb_spec (gTlv_type w) TLV_TYPE_PATCH) as [E|E].
  - destruct (Hm E) as [_ [-> | [_ ->]]]; reflexivity.
  - reflexivity.
Qed.

Lemma last_mode_run data w last b cc : downloading data w -> (wait_vsc_evt w, cc) = modes w b ->
  last_mode last cc w = Some ((modes w last).2, put_wait_vsc_evt (modes w last).1 w).
Proof.
  intros [_ _ Hm _] Hb. unfold last_mode, awaits, supported in *. erewrite bind_run by reflexivity. destruct (Z.eqb_spec (gTlv_type w) TLV_TYPE_PATCH) as [E|E].
  - destruct (Hm E) as [Hv Hc]. rewrite !andb_true_r. destruct (Z.ltb_spec (rome_ver w) ROME_VER_3_2) as [Hlt|Hge].
    + destruct Hc as [Hc|[Hc _]]; [|lia]. rewrite Hc in *. simpl in *. rewrite (proj2 (Z.leb_le _ _)) by lia. injection Hb as Hw' ->. simpl. destruct w; simpl in *. by rewrite Hw'.
    + assert (E3 : rome_ver w = ROME_VER_3_2) by lia. rewrite E3, andb_false_r, Z.eqb_refl. destruct Hc as [Hc|[_ Hc]]; rewrite Hc in *; simpl in *; injection Hb as Hw' ->.
      * destruct w; simpl in *. by rewrite Hw'.
      * done.
  - injection Hb as Hw' ->. rewrite !andb_false_r. destruct w; simpl in *. by rewrite Hw'.
Qed.

(** A segment sent in a mode of its own. *)
Lemma mode_segment_run data w i seg ev last rest : downloading data w -> 0 <= i ->
  0 < Z.of_nat (length seg) <= 243 -> take (length seg) (drop (Z.to_nat (i * 243)) data) = seg -> i * 243 + Z.of_nat (length seg) <= Z.of_nat (length data) ->
  good_events ev -> wait_vsc_evt w = (modes w last).1 -> unread (b_tr w) = events (modes w last).1 (modes w last).2 ev ++ rest ->
  exists err w', rome_tlv_dnld_segment junk i (Z.of_nat (length seg)) (modes w last).2 w = Some (err, w') /\ 0 <= err /\ unread (b_tr w') = rest /\
    sent (b_tr w') = sent (b_tr w) ++ outs line_fd (tlv_command seg) /\ downloading data w' /\ wait_vsc_evt w' = wait_vsc_evt w /\ (forall l, modes w' l = modes w l).
Proof.
  intros [Hp Hd Hm Hn] Hi Hs Hseg Hin Hev Hv Hu. destruct (segment_run w data i seg ev (modes w last).2 rest) as (err & tr' & E & H0 & Hu' & Hs'); try done; [by rewrite Hv|].
  exists err, (put_b_tr tr' w). done.
Qed.

Lemma dl_pending data w b : downloading data w -> downloading data (put_patch_dnld_pending b w).
Proof. by intros []. Qed.

Lemma dl_wait data w b : downloading data w -> downloading data (put_wait_vsc_evt b w).
Proof. by intros []. Qed.

(** The segments before the last turn of the loop. *)
Lemma loop_run data remain : forall segs evs k i cc err w rest, downloading data w -> 0 <= i ->
  Forall (fun s => length s = 243%nat) segs -> length evs = length segs -> Forall good_events evs ->
  take (length (concat segs)) (drop (Z.to_nat (i * 243)) data) = concat segs -> i * 243 + Z.of_nat (length (concat segs)) <= Z.of_nat (length data) ->
  (wait_vsc_evt w, cc) = modes w false -> unread (b_tr w) = concat (map (events (modes w false).1 (modes w false).2) evs) ++ rest ->
  exists err' w', tlv_loop junk (length segs + S k) i remain cc err w = tlv_loop junk (S k) (i + Z.of_nat (length segs)) remain cc err' w' /\
    unread (b_tr w') = rest /\ sent (b_tr w') = sent (b_tr w) ++ outs line_fd (concat (map tlv_command segs)) /\ downloading data w' /\
    (wait_vsc_evt w', cc) = modes w' false /\ (forall l, modes w' l = modes w l).
Proof.
  induction segs as [|s segs IH]; intros evs k i cc err w rest Hd Hi Hs Hev Hge Htk Hin Hb Hu.
  - exists err, w. destruct evs; [|done]. simpl. by rewrite Z.add_0_r, app_nil_r.
  - destruct evs as [|ev evs]; [done|]. apply Forall_cons in Hs as [Hs1 Hs], Hge as [Hg1 Hge]. simpl in Htk, Hin, Hu, Hev. injection Hev as Hev. rewrite length_app in Htk, Hin.
    assert (Ht1 : take (length s) (drop (Z.to_nat (i * 243)) data) = s).
    { pose proof (f_equal (take (length s)) Htk) as E. by rewrite take_take, Nat.min_l, take_app_length in E by lia. }
    assert (Ht2 : take (length (concat segs)) (drop (Z.to_nat ((i + 1) * 243)) data) = concat segs).
    { pose proof (f_equal (drop (length s)) Htk) as E. rewrite drop_app_length, <- take_drop_commute, drop_drop in E. etrans; [|exact E]. do 2 f_equal. lia. }
    remember (S k) as m eqn:Hm0. cbn [length Nat.add tlv_loop]. rewrite (proj2 (Nat.eqb_neq (length segs + m) 0)) by lia.
    erewrite bind_run by reflexivity. erewrite bind_run by reflexivity. set (w1 := put_patch_dnld_pending true w). rewrite <- app_assoc in Hu. pose proof (f_equal fst Hb) as Hbv. pose proof (f_equal snd Hb) as Hbc. cbn [fst snd] in Hbv, Hbc. rewrite Hbc.
    destruct (mode_segment_run data w1 i s ev false (concat (map (events (modes w false).1 (modes w false).2) evs) ++ rest)) as (e1 & w2 & E & H0 & Hu2 & Hs2 & Hd2 & Hv2 & Hm2);
      [by apply dl_pending|done|lia|done|lia|done|exact Hbv|done|].
    rewrite Hs1 in E. change (Z.of_nat 243) with MAX_SIZE_PER_TLV_SEGMENT in E. change (gTlv_type w1) with (gTlv_type w) in *. change (gTlv_dwndCfg w1) with (gTlv_dwndCfg w) in *.
    rewrite (bind_run _ _ _ _ _ E). rewrite (proj2 (Z.ltb_ge _ _)) by lia. erewrite bind_run by reflexivity. set (w3 := put_patch_dnld_pending false w2).
    destruct (IH evs k (i + 1) cc e1 w3 rest) as (e' & w' & E' & Hu' & Hs' & Hd' & Hb' & Hm'); [by apply dl_pending|lia|done|done|done|done|lia| | |].
    { change (modes w3 false) with (modes w2 false). change (wait_vsc_evt w3) with (wait_vsc_evt w2). rewrite Hm2, Hv2. change (wait_vsc_evt w1) with (wait_vsc_evt w). rewrite Hbv, Hbc. by destruct (modes w false). }
    { change (modes w3 false) with (modes w2 false). by rewrite Hm2. }
    exists e', w'. rewrite Hbc, <- Hm0 in E'. split; [rewrite E'; f_equal; lia|]. split; [done|]. split.
    { rewrite Hs'. change (b_tr w3) with (b_tr w2). rewrite Hs2. change (b_tr w1) with (b_tr w). cbn [map concat]. by rewrite outs_app, <- app_assoc. }
    split; [done|]. split; [by rewrite <- Hbc|]. intros l. rewrite Hm'. apply Hm2.
Qed.

(** The last turn. *)
Lemma turn_run data w i seg ev remain cc err rest : downloading data w -> 0 <= i -> length seg = 243%nat ->
  take 243 (drop (Z.to_nat (i * 243)) data) = seg -> i * 243 + 243 <= Z.of_nat (length data) -> good_events ev -> (wait_vsc_evt w, cc) = modes w false ->
  let last := remain =? 0 in unread (b_tr w) = events (modes w last).1 (modes w last).2 ev ++ rest ->
  exists err' w', tlv_loop junk 1 i remain cc err w = Some ((err', (modes w last).2, false), w') /\ 0 <= err' /\ unread (b_tr w') = rest /\
    sent (b_tr w') = sent (b_tr w) ++ outs line_fd (tlv_command seg) /\ downloading data w' /\ (wait_vsc_evt w', (modes w last).2) = modes w' last /\ (forall l, modes w' l = modes w l).
Proof.
  intros Hd Hi Hs Hseg Hin Hg Hb last Hu. cbn [tlv_loop]. change (0 =? 0)%nat with true. cbv iota.
  rewrite (bind_run _ _ _ _ _ (last_mode_run data w last false cc Hd Hb)). erewrite bind_run by reflexivity. set (w1 := put_patch_dnld_pending true _).
  destruct (mode_segment_run data w1 i seg ev last rest) as (e1 & w2 & E & H0 & Hu2 & Hs2 & Hd2 & Hv2 & Hm2);
    [by apply dl_pending, dl_wait|done|lia|by rewrite Hs|lia|done|done|done|].
  rewrite Hs in E. change (Z.of_nat 243) with MAX_SIZE_PER_TLV_SEGMENT in E. change (modes w1 last) with (modes w last) in *. rewrite (bind_run _ _ _ _ _ E).
  rewrite (proj2 (Z.ltb_ge _ _)) by lia. erewrite bind_run by reflexivity. exists e1, (put_patch_dnld_pending false w2). split; [done|]. split; [done|]. split; [done|].
  split; [exact Hs2|]. split; [by apply dl_pending|]. split; [|exact Hm2]. change (modes (put_patch_dnld_pending false w2) last) with (modes w2 last). rewrite Hm2.
  change (wait_vsc_evt (put_patch_dnld_pending false w2)) with (wait_vsc_evt w2). rewrite Hv2. change (wait_vsc_evt w1) with (modes w last).1. change (modes w1 last) with (modes w last). by destruct (modes w last).
Qed.

Lemma concat_length segs : Forall (fun s : list Z => length s = 243%nat) segs -> length (concat segs) = (243 * length segs)%nat.
Proof. induction 1 as [|s segs Hs _ IH]; [done|]. simpl. rewrite length_app. lia. Qed.

(** The whole segments, all of them before the last byte of the file. *)
Lemma whole_run data remain segs evs w cc rest : downloading data w -> remain <> 0 -> Forall (fun s => length s = 243%nat) segs -> length evs = length segs ->
  Forall good_events evs -> take (length (concat segs)) data = concat segs -> Z.of_nat (length (concat segs)) <= Z.of_nat (length data) ->
  (wait_vsc_evt w, cc) = modes w false -> unread (b_tr w) = concat (map (events (modes w false).1 (modes w false).2) evs) ++ rest ->
  exists err w', tlv_loop junk (length segs) 0 remain cc (-1) w = Some ((err, cc, false), w') /\ unread (b_tr w') = rest /\
    sent (b_tr w') = sent (b_tr w) ++ outs line_fd (concat (map tlv_command segs)) /\ downloading data w' /\ (wait_vsc_evt w', cc) = modes w' false /\ (forall l, modes w' l = modes w l).
Proof.
  intros Hd Hr Hs Hev Hg Htk Hin Hb Hu. destruct (decide (segs = [])) as [->|Hne].
  { exists (-1), w. destruct evs; [|done]. simpl. by rewrite app_nil_r. }
  destruct (exists_last Hne) as (segs' & s & ->). destruct (@exists_last _ evs) as (evs' & ev & ->); [intros ->; rewrite length_app in Hev; simpl in Hev; lia|].
  rewrite !length_app in Hev. simpl in Hev. apply Forall_app in Hs as [Hs1 Hs2], Hg as [Hg1 Hg2]. apply Forall_cons in Hs2 as [Hs2 _], Hg2 as [Hg2 _]. pose proof (concat_length segs' Hs1) as Hl.
  rewrite concat_app in Htk, Hin. simpl in Htk, Hin. rewrite app_nil_r, length_app in Htk, Hin. rewrite map_app, concat_app in Hu. simpl in Hu. rewrite app_nil_r, <- app_assoc in Hu.
  destruct (loop_run data remain segs' evs' 0 0 cc (-1) w (events (modes w false).1 (modes w false).2 ev ++ rest)) as (e1 & w1 & E1 & Hu1 & Hsn1 & Hd1 & Hb1 & Hm1); try done; [lia| |lia|].
  { change (Z.to_nat (0 * 243)) with 0%nat. rewrite drop_0. pose proof (f_equal (take (length (concat segs'))) Htk) as E. by rewrite take_take, Nat.min_l, take_app_length in E by lia. }
  destruct (turn_run data w1 (0 + Z.of_nat (length segs')) s ev remain cc e1 rest) as (e2 & w2 & E2 & H0 & Hu2 & Hsn2 & Hd2 & Hb2 & Hm2); [done|lia|done| |lia|done|done| |].
  { pose proof (f_equal (drop (length (concat segs'))) Htk) as E. rewrite drop_app_length, <- take_drop_commute, Hs2 in E. etrans; [|exact E]. do 2 f_equal. lia. }
  { rewrite (proj2 (Z.eqb_neq _ _) Hr), Hm1. done. }
  rewrite (proj2 (Z.eqb_neq _ _) Hr) in *. rewrite Hm1 in E2, Hb2. exists e2, w2. pose proof (f_equal snd Hb) as Hbc. cbn [snd] in Hbc. rewrite <- Hbc in E2, Hb2.
  rewrite length_app. change (length [s]) with 1%nat. rewrite E1, E2. split; [done|]. split; [done|]. split; [|split; [done|split; [done|intros l; by rewrite Hm2]]].
  rewrite Hsn2, Hsn1, map_app, concat_app, outs_app. simpl. by rewrite app_nil_r, app_assoc.
Qed.

(** A file that was read is sent whole, and for each command exactly the events
    are awaited that the controller is said to answer with. *)
Lemma tlv_run init seg evs ev rest w (Hd : downloading (concat init ++ seg) w) (Hi : Forall (fun s => length s = 243%nat) init)
  (Hs : (0 < length seg <= 243)%nat) (He : length evs = length init) (Hg : Forall good_events evs) (Hge : good_events ev)
  (Hu : unread (b_tr w) = concat (map (events (modes w false).1 (modes w false).2) evs) ++ events (modes w true).1 (modes w true).2 ev ++ rest) :
  exists err w', rome_tlv_dnld_req junk (Z.of_nat (length (concat init ++ seg))) w = Some (err, w') /\ 0 <= err /\
    sent (b_tr w') = sent (b_tr w) ++ outs line_fd (concat (map tlv_command (init ++ [seg]))) /\ unread (b_tr w') = rest /\
    (exists b, wait_vsc_evt w' = (modes w b).1) /\ downloading (concat init ++ seg) w'.
Proof.
  set (data := concat init ++ seg) in *. pose proof (concat_length init Hi) as Hl. assert (Hdl : length data = (243 * length init + length seg)%nat) by (unfold data; rewrite length_app; lia).
  unfold rome_tlv_dnld_req. rewrite (bind_run _ _ _ _ _ (event_mode_run data w Hd)). set (w0 := put_wait_vsc_evt _ w). set (cc := (modes w false).2).
  assert (Hd0 : downloading data w0) by by apply dl_wait. assert (Hb0 : (wait_vsc_evt w0, cc) = modes w0 false) by (unfold w0, cc; change (modes (put_wait_vsc_evt (modes w false).1 w) false) with (modes w false); simpl; by destruct (awaits _ _ _)).
  assert (Hm0 : forall l, modes w0 l = modes w l) by done. assert (Htk : take (length (concat init)) data = concat init) by (unfold data; by rewrite take_app_length).
  assert (Hsn : forall tr, sent tr ++ outs line_fd (concat (map tlv_command init)) ++ outs line_fd (tlv_command seg) = sent tr ++ outs line_fd (concat (map tlv_command (init ++ [seg])))) by (intros tr; rewrite map_app, concat_app, outs_app; simpl; by rewrite app_nil_r).
  unfold MAX_SIZE_PER_TLV_SEGMENT. destruct (decide (length seg = 243%nat)) as [E243|N243].
  - assert (Eq : Z.quot (Z.of_nat (length data)) 243 = Z.of_nat (length init) + 1) by (rewrite Z.quot_div_nonneg by lia; Z.to_euclidean_division_equations; lia).
    assert (Er : (if Z.of_nat (length data) <? 243 then Z.of_nat (length data) else Z.rem (Z.of_nat (length data)) 243) = 0).
    { rewrite (proj2 (Z.ltb_ge _ _)) by lia. rewrite Z.rem_mod_nonneg by lia. Z.to_euclidean_division_equations; lia. }
    rewrite Eq, Er. replace (Z.to_nat (Z.of_nat (length init) + 1)) with (length init + 1)%nat by lia.
    destruct (loop_run data 0 init evs 0 0 cc (-1) w0 (events (modes w true).1 (modes w true).2 ev ++ rest)) as (e1 & w1 & E1 & Hu1 & Hs1 & Hd1 & Hb1 & Hm1);
      [done|lia|done|done|done|exact Htk|lia|done|done|].
    destruct (turn_run data w1 (0 + Z.of_nat (length init)) seg ev 0 cc e1 rest) as (e2 & w2 & E2 & H0 & Hu2 & Hs2 & Hd2 & Hb2 & Hm2);
      [done|lia|done| |lia|done|done|by rewrite Hm1|].
    { unfold data. rewrite drop_app_length'; [rewrite <- E243; by rewrite firstn_all|lia]. }
    rewrite E1, E2 || rewrite (bind_run _ _ w0 _ w2) by (by rewrite E1, E2). cbv beta iota.
    rewrite (bind_run _ _ _ _ _ (last_mode_run data w2 (negb (0 =? 0)) true _ Hd2 Hb2)). erewrite bind_run by reflexivity. cbn [negb Z.eqb]. erewrite bind_run by reflexivity. erewrite bind_run by reflexivity.
    eexists e2, _. split; [reflexivity|]. split; [done|]. split; [|split; [exact Hu2|split; [|by repeat first [apply dl_pending | apply dl_wait]]]]; [|exists false; simpl; by rewrite Hm2, Hm1]. simpl b_tr. rewrite Hs2, Hs1, <- app_assoc. apply Hsn.
  - assert (Eq : Z.quot (Z.of_nat (length data)) 243 = Z.of_nat (length init)) by (rewrite Z.quot_div_nonneg by lia; Z.to_euclidean_division_equations; lia).
    assert (Er : (if Z.of_nat (length data) <? 243 then Z.of_nat (length data) else Z.rem (Z.of_nat (length data)) 243) = Z.of_nat (length seg)).
    { destruct (Z.ltb_spec (Z.of_nat (length data)) 243); [lia|]. rewrite Z.rem_mod_nonneg by lia. Z.to_euclidean_division_equations; lia. }
    rewrite Eq, Er, Nat2Z.id.
    destruct (whole_run data (Z.of_nat (length seg)) init evs w0 cc (events (modes w true).1 (modes w true).2 ev ++ rest)) as (e1 & w1 & E1 & Hu1 & Hs1 & Hd1 & Hb1 & Hm1);
      [done|lia|done|done|done|done|lia|done|done|].
    rewrite (bind_run _ _ _ _ _ E1). cbv beta iota. rewrite (proj2 (Z.eqb_neq (Z.of_nat (length seg)) 0)) by lia. cbn [negb].
    rewrite (bind_run _ _ _ _ _ (last_mode_run data w1 true false cc Hd1 Hb1)). erewrite bind_run by reflexivity. set (w2 := put_patch_dnld_pending true _).
    destruct (mode_segment_run data w2 (Z.of_nat (length init)) seg ev true rest) as (e3 & w3 & E3 & H0 & Hu3 & Hs3 & Hd3 & Hv3 & _);
      [by apply dl_pending, dl_wait|lia|lia| |lia|done|done| |].
    { unfold data. rewrite drop_app_length'; [by rewrite firstn_all|lia]. }
    { change (modes w2 true) with (modes w1 true). by rewrite Hm1. }
    change (modes w2 true) with (modes w1 true) in E3. rewrite (bind_run _ _ _ _ _ E3). erewrite bind_run by reflexivity.
    eexists e3, _. split; [reflexivity|]. split; [done|]. split; [|split; [exact Hu3|split; [|by repeat first [apply dl_pending | apply dl_wait]]]]; [|exists true; change (wait_vsc_evt w3 = (modes w true).1); rewrite Hv3; change (wait_vsc_evt w2) with (modes w1 true).1; by rewrite Hm1]. simpl b_tr. rewrite Hs3. simpl b_tr. rewrite Hs1, <- app_assoc. apply Hsn.
Qed.

(** ** Patch segments of version 1.0 *)

Definition patch_command (addr : Z) (seg : list Z) : list Z :=
  [1; 0; 0xFC; Z.of_nat (length seg) + 6; 1; Z.of_nat (length seg) + 4; extract_byte addr 0; extract_byte addr 1; extract_byte addr 2; extract_byte addr 3] ++ seg.

Fixpoint patch_commands (addr : Z) (segs : list (list Z)) : list Z :=
  match segs with [] => [] | s :: segs => patch_command addr s ++ patch_commands (addr +u 239) segs end.

Lemma send_complete_run w cmd size ev rest : 0 < size <= Z.of_nat (length cmd) -> good_events ev -> wait_vsc_evt w = true ->
  unread (b_tr w) = events true true ev ++ rest ->
  exists err tr', send_and_complete junk cmd zero_array size w = Some ((err, false), put_b_tr tr' w) /\ 0 <= err /\ unread tr' = rest /\
    sent tr' = sent (b_tr w) ++ outs line_fd (take (Z.to_nat size) cmd).
Proof.
  intros Hs Hev Hv Hu. destruct (send_run w cmd size ev true rest Hs Hev) as (tr1 & rsp & E1 & Hr & Hu1 & Hs1); [by rewrite Hv|].
  unfold send_and_complete. rewrite (bind_run _ _ _ _ _ E1). cbv beta iota. rewrite Z.eqb_refl. cbn [negb].
  destruct (read_event_run (put_b_tr tr1 w) ev.2.1 ev.2.2 rest rsp) as (tr2 & buf & E2 & Hu2 & Hs2); [exact Hu1|apply Hev|done|].
  rewrite (bind_run _ _ _ _ _ E2). cbv beta iota. eexists _, tr2. rewrite (proj2 (Z.ltb_ge _ _)) by lia. split; [reflexivity|]. split; [lia|]. split; [done|]. rewrite Hs2. exact Hs1.
Qed.

Lemma extract_byte_range v pos : 0 <= extract_byte v pos < 256.
Proof. unfold extract_byte. change 0xFF with (Z.ones 8). rewrite Z.land_ones by lia. apply Z.mod_pos_bound. lia. Qed.

Lemma patch_segment_run w data base i seg ev rest : pdata_buffer w = BBuf data -> wait_vsc_evt w = true -> Z.of_nat (length data) < 2 ^ 31 -> 0 <= i ->
  0 < Z.of_nat (length seg) <= 239 -> take (length seg) (drop (Z.to_nat (i * 239)) data) = seg -> i * 239 + Z.of_nat (length seg) <= Z.of_nat (length data) ->
  good_events ev -> unread (b_tr w) = events true true ev ++ rest ->
  exists err tr', patch_segment junk base (i + 1) (Z.of_nat (length seg)) w = Some ((err, false), put_b_tr tr' w) /\ 0 <= err /\ unread tr' = rest /\
    sent tr' = sent (b_tr w) ++ outs line_fd (patch_command (base +u (i * 239)) seg).
Proof.
  intros Hp Hv Hd Hi Hs Hseg Hin Hev Hu. set (n := length seg) in *. set (a := base +u (i * 239)).
  set (cmd := [1; 0; 0xFC; Z.of_nat n + 6; 1; Z.of_nat n + 4; extract_byte a 0; extract_byte a 1; extract_byte a 2; extract_byte a 3] ++ seg ++ replicate (250 - n) 0).
  assert (Ef : frame_hci_cmd_pkt EDL_PATCH_DLD_REQ_CMD base (i + 1) (Z.of_nat n) w = Some (cmd, w)).
  { unfold frame_hci_cmd_pkt. change (EDL_PATCH_DLD_REQ_CMD =? EDL_PATCH_SET_REQ_CMD) with false. change (EDL_PATCH_DLD_REQ_CMD =? EDL_PATCH_DLD_REQ_CMD) with true.
    cbv iota zeta. unfold MAX_DATA_PER_SEGMENT. rewrite (i32_id (i + 1 - 1)) by (unfold i32_range; lia). replace (i + 1 - 1) with i by lia. rewrite (i32_id (i * 239)), (i32_id (Z.of_nat n + 4)), (i32_id (Z.of_nat n + 6)) by (unfold i32_range; lia).
    erewrite bind_run by reflexivity. rewrite Hp. erewrite bind_run by reflexivity. rewrite slice_run by lia. erewrite bind_run by reflexivity. rewrite Nat2Z.id, Hseg. fold a.
    set (c0 := put_byte 9 _ _). assert (Ec : c0 = [1; 0; 0xFC; Z.of_nat n + 6; 1; Z.of_nat n + 4; extract_byte a 0; extract_byte a 1; extract_byte a 2; extract_byte a 3] ++ replicate 250 0).
    { unfold c0, put_byte, hci_command, HCI_MAX_CMD_SIZE. change (replicate (260 - 4) 0) with (0 :: 0 :: 0 :: 0 :: 0 :: 0 :: replicate 250 0). cbn [app insert list_insert].
      rewrite (u8_small (Z.of_nat n + 6)), (u8_small (Z.of_nat n + 4)), !(u8_small (extract_byte _ _)) by (apply extract_byte_range || lia). reflexivity. }
    rewrite store_bytes_run by (rewrite Ec, length_app, length_replicate; fold n; simpl; lia). unfold deref, cmd. rewrite Ec, take_app_length' by done. rewrite drop_app_ge by (simpl; lia).
    rewrite drop_replicate. fold n. do 5 f_equal. simpl. lia. }
  unfold patch_segment. rewrite (bind_run _ _ _ _ _ Ef). assert (Hps : packet_size cmd = Z.of_nat n + 10) by (unfold packet_size, byte, cmd; cbn [app nth]; lia). rewrite Hps.
  destruct (send_complete_run w cmd (Z.of_nat n + 10) ev rest) as (err & tr' & E & H0 & Hu' & Hs'); [unfold cmd; rewrite !length_app, length_replicate; fold n; simpl; lia|done..|].
  exists err, tr'. split; [done|]. split; [done|]. split; [done|]. rewrite Hs'. do 2 f_equal. unfold cmd, patch_command. fold n. rewrite app_assoc. apply take_app_length'. rewrite length_app. fold n. simpl. lia.
Qed.

Lemma patch_commands_app addr a b : patch_commands addr (a ++ b) = patch_commands addr a ++ patch_commands (fold_left (fun x _ => x +u 239) a addr) b.
Proof. revert addr. induction a as [|s a IH]; intros addr; [done|]. simpl. by rewrite IH, app_assoc. Qed.

Lemma next_addr base i : (base +u (i * 239)) +u 239 = base +u ((i + 1) * 239).
Proof. unfold u32. rewrite Zplus_mod_idemp_l. f_equal. lia. Qed.

Lemma addr_after base i (a : list (list Z)) : fold_left (fun x _ => x +u 239) a (base +u (i * 239)) = base +u ((i + Z.of_nat (length a)) * 239).
Proof. revert i. induction a as [|s a IH]; intros i; simpl; [f_equal; f_equal; lia|]. rewrite next_addr, IH. f_equal. f_equal. lia. Qed.

Lemma patch_loop_run data base : forall segs evs i e0 w rest, pdata_buffer w = BBuf data -> wait_vsc_evt w = true -> Z.of_nat (length data) < 2 ^ 31 ->
  Forall (fun s => length s = 239%nat) segs -> length evs = length segs -> Forall good_events evs -> 0 <= e0 ->
  take (length (concat segs)) (drop (i * 239) data) = concat segs -> Z.of_nat i * 239 + Z.of_nat (length (concat segs)) <= Z.of_nat (length data) ->
  unread (b_tr w) = concat (map (events true true) evs) ++ rest ->
  exists err tr', for_until (seq (S i) (length segs)) snd (e0, false) (fun index => patch_segment junk base (Z.of_nat index) MAX_DATA_PER_SEGMENT) w =
      Some ((err, false), put_b_tr tr' w) /\ 0 <= err /\ unread tr' = rest /\ sent tr' = sent (b_tr w) ++ outs line_fd (patch_commands (base +u (Z.of_nat i * 239)) segs).
Proof.
  induction segs as [|s segs IH]; intros evs i e0 w rest Hp Hv Hd Hs Hev Hg H0 Htk Hin Hu.
  { exists e0, (b_tr w). destruct evs; [|done]. simpl. rewrite app_nil_r. by destruct w. }
  destruct evs as [|ev evs]; [done|]. apply Forall_cons in Hs as [Hs1 Hs], Hg as [Hg1 Hg]. simpl in Htk, Hin, Hu, Hev. injection Hev as Hev. rewrite length_app in Htk, Hin. rewrite <- app_assoc in Hu.
  destruct (patch_segment_run w data base (Z.of_nat i) s ev (concat (map (events true true) evs) ++ rest)) as (e1 & tr1 & E1 & H1 & Hu1 & Hsn1); [done|done|done|lia|lia| |lia|done|done|].
  { pose proof (f_equal (take (length s)) Htk) as E. rewrite take_take, Nat.min_l, take_app_length in E by lia. etrans; [|exact E]. do 2 f_equal. lia. }
  destruct (IH evs (S i) e1 (put_b_tr tr1 w) rest) as (e2 & tr2 & E2 & H2 & Hu2 & Hsn2); [done|done|done|done|done|done|done| |lia|done|].
  { pose proof (f_equal (drop (length s)) Htk) as E. rewrite drop_app_length, <- take_drop_commute, drop_drop in E. etrans; [|exact E]. do 2 f_equal. lia. }
  exists e2, tr2. cbn [length seq for_until]. rewrite Hs1 in E1. change (Z.of_nat 239) with MAX_DATA_PER_SEGMENT in E1. replace (Z.of_nat (S i)) with (Z.of_nat i + 1) by lia.
  rewrite (bind_run _ _ _ _ _ E1). cbn [snd]. rewrite E2. split; [by destruct w|]. split; [done|]. split; [done|]. rewrite Hsn2. simpl b_tr. rewrite Hsn1, <- app_assoc. cbn [patch_commands]. rewrite outs_app.
  rewrite next_addr. do 5 f_equal. lia.
Qed.

(** A patch is sent whole: its bytes go out in order, 239 at a time and
    then the rest, each command with the address its bytes belong to, and the
    two events of every command are read. *)
Theorem patch_download init seg extra evs ev rest w (Hp : pdata_buffer w = BBuf (concat init ++ seg ++ extra)) (Hx : Z.of_nat (length (concat init ++ seg ++ extra)) < 2 ^ 31)
  (Hl : patch_length (rampatch_patch_info w) = Z.of_nat (length (concat init ++ seg))) (Hi : Forall (fun s => length s = 239%nat) init)
  (Hs : (0 < length seg <= 239)%nat) (Hv : wait_vsc_evt w = true) (Hb : 0 <= patch_base_addr (rampatch_patch_info w) < 2 ^ 32)
  (He : length evs = length init) (Hg : Forall good_events evs) (Hge : good_events ev) (Hu : unread (b_tr w) = concat (map (events true true) (evs ++ [ev])) ++ rest) :
  exists err tr', rome_edl_patch_download_request junk w = Some (err, put_b_tr tr' w) /\ 0 <= err /\ unread tr' = rest /\
    sent tr' = sent (b_tr w) ++ outs line_fd (patch_commands (patch_base_addr (rampatch_patch_info w)) (init ++ [seg])).
Proof.
  set (data := concat init ++ seg ++ extra) in *. set (base := patch_base_addr _) in *. assert (Hci : length (concat init) = (239 * length init)%nat) by (clear - Hi; induction Hi; simpl; rewrite ?length_app; lia).
  assert (Hdl : (length (concat init ++ seg) <= length data)%nat) by (unfold data; rewrite !length_app; lia). rewrite length_app in Hl, Hdl. assert (Hb0 : base +u (0 * 239) = base) by (rewrite Z.mul_0_l, Z.add_0_r; by apply u32_id).
  unfold rome_edl_patch_download_request. erewrite bind_run by reflexivity. fold base. rewrite Hl. unfold MAX_DATA_PER_SEGMENT. cbv zeta. destruct (decide (length seg = 239%nat)) as [E239|N239].
  - assert (Eq : Z.quot (Z.of_nat (length (concat init) + length seg)) 239 = Z.of_nat (length init) + 1) by (rewrite Z.quot_div_nonneg by lia; Z.to_euclidean_division_equations; lia).
    rewrite Eq. replace (Z.to_nat (Z.of_nat (length init) + 1)) with (length (init ++ [seg])) by (rewrite length_app; simpl; lia). rewrite (proj2 (Z.ltb_ge _ _)) by lia.
    assert (Er : Z.rem (Z.of_nat (length (concat init) + length seg)) 239 = 0) by (rewrite Z.rem_mod_nonneg by lia; Z.to_euclidean_division_equations; lia). rewrite Er.
    assert (Hcc : concat (init ++ [seg]) = concat init ++ seg) by (rewrite concat_app; simpl; by rewrite app_nil_r).
    destruct (patch_loop_run data base (init ++ [seg]) (evs ++ [ev]) 0 0 w rest) as (err & tr' & E & H0 & Hu' & Hsn);
      [done|done|done|apply Forall_app; by split; [|constructor]|rewrite !length_app; simpl; lia|apply Forall_app; by split; [|constructor]|lia| | |done|].
    { rewrite Hcc. simpl. unfold data. rewrite app_assoc, drop_0. by rewrite take_app_length. }
    { rewrite Hcc, length_app. lia. }
    exists err, tr'. change MAX_DATA_PER_SEGMENT with 239 in E. rewrite (bind_run _ _ _ _ _ E). cbv beta iota. change (Z.of_nat 0) with 0 in Hsn. rewrite Hb0 in Hsn. done.
  - assert (Eq : Z.quot (Z.of_nat (length (concat init) + length seg)) 239 = Z.of_nat (length init)) by (rewrite Z.quot_div_nonneg by lia; Z.to_euclidean_division_equations; lia).
    assert (Er : (if Z.of_nat (length (concat init) + length seg) <? 239 then Z.of_nat (length (concat init) + length seg) else Z.rem (Z.of_nat (length (concat init) + length seg)) 239) = Z.of_nat (length seg)).
    { destruct (Z.ltb_spec (Z.of_nat (length (concat init) + length seg)) 239); [lia|]. rewrite Z.rem_mod_nonneg by lia. Z.to_euclidean_division_equations; lia. }
    rewrite Eq, Er, Nat2Z.id. rewrite map_app, concat_app, <- app_assoc in Hu. simpl in Hu. rewrite app_nil_r in Hu.
    destruct (patch_loop_run data base init evs 0 0 w (events true true ev ++ rest)) as (e1 & tr1 & E1 & H1 & Hu1 & Hsn1); [done|done|done|done|done|done|lia| |lia|done|].
    { simpl. unfold data. by rewrite drop_0, take_app_length. }
    change MAX_DATA_PER_SEGMENT with 239 in E1. rewrite (bind_run _ _ _ _ _ E1). cbv beta iota. rewrite (proj2 (Z.eqb_neq (Z.of_nat (length seg)) 0)) by lia.
    destruct (patch_segment_run (put_b_tr tr1 w) data base (Z.of_nat (length init)) seg ev rest) as (e2 & tr2 & E2 & H2 & Hu2 & Hsn2); [done|done|done|lia|lia| |lia|done|done|].
    { unfold data. rewrite drop_app_length' by lia. by rewrite take_app_length. }
    rewrite (bind_run _ _ _ _ _ E2). exists e2, tr2. split; [by destruct w|]. split; [done|]. split; [done|]. change (Z.of_nat 0) with 0 in Hsn1. rewrite Hb0 in Hsn1.
    rewrite Hsn2. simpl b_tr. rewrite Hsn1, patch_commands_app, outs_app, <- app_assoc. do 2 f_equal. rewrite <- Hb0 at 2. rewrite addr_after. cbn [patch_commands]. by rewrite app_nil_r.
Qed.

End Vendor.
