(* ===== verification/RomeNvm.v ===== *)
(** * The configuration of the Rome controller

    What becomes of a configuration file, and the download of the patch and
    the configuration one after the other. *)

From Stdlib Require Import ZArith Lia.
From stdpp Require Import list strings.
From S2P Require Import Prelude BtHci Rome RomeProps.

(** ** Little endian numbers *)

Lemma lor_shiftl a b n : 0 <= n -> 0 <= b < 2 ^ n -> Z.lor b (Z.shiftl a n) = b + a * 2 ^ n.
Proof.
  intros Hn Hb. rewrite <- Z.add_lor_land, <- Z.shiftl_mul_pow2 by lia. enough (Z.land b (Z.shiftl a n) = 0) by lia.
  apply Z.bits_inj'. intros k Hk. rewrite Z.land_spec, Z.bits_0. destruct (Z.lt_ge_cases k n).
  - rewrite Z.shiftl_spec_low by lia. apply andb_false_r.
  - replace b with (b mod 2 ^ n) by (apply Z.mod_small; lia). by rewrite Z.mod_pow2_bits_high by lia.
Qed.

Lemma le_cons b bs : 0 <= b < 256 -> le (b :: bs) = b + 256 * le bs.
Proof. intros Hb. cbn [le]. rewrite lor_shiftl by (simpl; lia). lia. Qed.

(** The number in [n] bytes. *)
Fixpoint to_le (n : nat) (v : Z) : list Z := match n with O => [] | S n => v mod 256 :: to_le n (v / 256) end.

Lemma to_le_length n v : length (to_le n v) = n.
Proof. revert v. induction n as [|n IH]; intros v; [done|]. simpl. by rewrite IH. Qed.

Lemma le_to_le n v : 0 <= v < 256 ^ Z.of_nat n -> le (to_le n v) = v.
Proof.
  revert v. induction n as [|n IH]; intros v Hv; [simpl in *; lia|]. rewrite Nat2Z.inj_succ, Z.pow_succ_r in Hv by lia.
  assert (Hq : 0 <= v / 256 < 256 ^ Z.of_nat n) by (split; [apply Z.div_pos; lia|apply Z.div_lt_upper_bound; lia]).
  cbn [to_le]. rewrite le_cons, IH; [|done|apply Z.mod_pos_bound; lia].
  pose proof (Z.div_mod v 256). lia.
Qed.

(** ** Configuration files *)

(** A tag: its number, the two words in front of its data, and the data. *)
Record nvm_tag := { t_id : Z; t_words : list Z; t_data : list Z }.

Definition encode_tag (t : nvm_tag) : list Z :=
  to_le 2 (t_id t) ++ to_le 2 (Z.of_nat (length (t_data t))) ++ t_words t ++ t_data t.

Definition encode_nvm (tags : list nvm_tag) (post : list Z) : list Z :=
  let body := concat (map encode_tag tags) in [2] ++ to_le 3 (Z.of_nat (length body)) ++ body ++ post.

(** The numbers fit their fields, and the tag of the address has room for it. *)
Record nvm_tag_ok (t : nvm_tag) : Prop := {
  tag_id_ok : 0 <= t_id t < 2 ^ 16;
  tag_words_ok : length (t_words t) = 8%nat;
  tag_len_ok : Z.of_nat (length (t_data t)) < 2 ^ 16;
  tag_addr_ok : t_id t = 2 -> (6 <= length (t_data t))%nat
}.

Section Nvm.
Context `{BE : BtEnv} (Hbd : length vnd_local_bd_addr = 6%nat).

(** The address of this device in its tag. *)
Definition with_addr (t : nvm_tag) : nvm_tag :=
  if t_id t =? 2 then {| t_id := t_id t; t_words := t_words t; t_data := vnd_local_bd_addr ++ drop 6 (t_data t) |} else t.

Lemma encode_length t : nvm_tag_ok t -> length (encode_tag t) = (12 + length (t_data t))%nat.
Proof. intros H. unfold encode_tag. rewrite !length_app, !to_le_length, (tag_words_ok _ H). lia. Qed.

Lemma with_addr_length t : nvm_tag_ok t -> length (t_data (with_addr t)) = length (t_data t).
Proof.
  intros H. unfold with_addr. destruct (Z.eqb_spec (t_id t) 2) as [E|E]; [|done]. pose proof (tag_addr_ok _ H E). simpl. rewrite length_app, length_drop, Hbd. lia.
Qed.

Lemma with_addr_encode t : nvm_tag_ok t ->
  encode_tag (with_addr t) = to_le 2 (t_id t) ++ to_le 2 (Z.of_nat (length (t_data t))) ++ t_words t ++ t_data (with_addr t).
Proof. intros H. unfold encode_tag. rewrite with_addr_length by done. unfold with_addr. by destruct (t_id t =? 2). Qed.

Lemma nvm_loop_run (w : rworld) post : forall tags fuel pre idx, Forall nvm_tag_ok tags -> (length tags < fuel)%nat -> 0 <= idx ->
  let body := concat (map encode_tag tags) in idx + Z.of_nat (length body) < 2 ^ 31 ->
  nvm_loop fuel (pre ++ body ++ post) (Z.of_nat (length pre)) idx (idx + Z.of_nat (length body)) w =
    Some (pre ++ concat (map (encode_tag ∘ with_addr) tags) ++ post, w).
Proof.
  induction tags as [|t tags IH]; intros fuel pre idx Hok Hf Hi body Hb.
  - destruct fuel as [|fuel]; [simpl in Hf; lia|]. simpl. by rewrite (proj2 (Z.ltb_ge _ _)) by lia.
  - destruct fuel as [|fuel]; [simpl in Hf; lia|]. apply Forall_cons in Hok as [Ht Hok]. simpl in Hf.
    unfold body in *. clear body. cbn [map concat] in *. rewrite length_app in Hb. set (body := concat (map encode_tag tags)) in *. pose proof (encode_length t Ht) as Hel.
    cbn [nvm_loop]. rewrite (proj2 (Z.ltb_lt _ _)) by (rewrite length_app; lia). set (hdr := to_le 2 (t_id t) ++ to_le 2 (Z.of_nat (length (t_data t))) ++ t_words t).
    assert (Hh : length hdr = 12%nat) by (unfold hdr; rewrite !length_app, !to_le_length, (tag_words_ok _ Ht); done).
    assert (Het : encode_tag t = hdr ++ t_data t) by (unfold encode_tag, hdr; by rewrite <- !app_assoc).
    rewrite slice_run by (rewrite ?length_app; lia). erewrite bind_run by reflexivity.
    rewrite Nat2Z.id, drop_app_length, <- app_assoc, Het, <- (app_assoc hdr), take_app_length' by (rewrite Hh; done).
    change (take 2 hdr) with (to_le 2 (t_id t)). change (take 2 (drop 2 hdr)) with (to_le 2 (Z.of_nat (length (t_data t)))).
    rewrite !le_to_le by (pose proof (tag_id_ok _ Ht); pose proof (tag_len_ok _ Ht); simpl; lia). cbv zeta.
    set (pre' := pre ++ hdr). assert (Hp' : length pre' = (length pre + 12)%nat) by (unfold pre'; rewrite length_app; lia).
    assert (Est : (if t_id t =? TAG_NUM_2 then deref (store_bytes (Z.to_nat (Z.of_nat (length pre) + 12)) (take 6 vnd_local_bd_addr) (pre ++ hdr ++ t_data t ++ body ++ post))
        else mret (pre ++ hdr ++ t_data t ++ body ++ post)) w = Some (pre' ++ t_data (with_addr t) ++ body ++ post, w)).
    { unfold with_addr, TAG_NUM_2. destruct (Z.eqb_spec (t_id t) 2) as [E|E]; [|by unfold pre'; rewrite <- app_assoc].
      pose proof (tag_addr_ok _ Ht E). rewrite app_assoc. fold pre'. replace (Z.to_nat (Z.of_nat (length pre) + 12)) with (length pre') by lia. rewrite take_ge by lia.
      rewrite store_bytes_run by (rewrite !length_app; lia). simpl. rewrite take_app_length, drop_app_ge by lia. rewrite Hbd.
      replace (length pre' + 6 - length pre')%nat with 6%nat by lia. rewrite drop_app_le by lia. by rewrite <- !app_assoc. }
    rewrite (bind_run _ _ _ _ _ Est). pose proof (with_addr_length t Ht) as Hwl.
    rewrite slice_run by (rewrite ?length_app; lia). erewrite bind_run by reflexivity.
    rewrite (i32_id (idx + 12)), (i32_id (idx + 12 + _)) by (unfold i32_range; lia).
    specialize (IH fuel (pre' ++ t_data (with_addr t)) (idx + 12 + Z.of_nat (length (t_data t))) Hok ltac:(lia) ltac:(lia)). cbv zeta in IH. fold body in IH.
    rewrite length_app, Hwl, Hp' in IH. rewrite <- !app_assoc in IH. rewrite length_app, <- Het, Hel.
    replace (Z.of_nat (length pre) + 12 + Z.of_nat (length (t_data t))) with (Z.of_nat (length pre + 12 + length (t_data t))) by lia.
    replace (idx + Z.of_nat (12 + length (t_data t) + length body)) with (idx + 12 + Z.of_nat (length (t_data t)) + Z.of_nat (length body)) by lia.
    rewrite IH by lia. do 2 f_equal. cbn [map concat]. unfold compose at 2. rewrite with_addr_encode by done. unfold pre', hdr. by rewrite <- !app_assoc.
Qed.

(** ** Reading the files *)

(** The file is there, and there is memory for it. *)
Definition has_file (path : string) (data : list Z) : Prop := forall tr, env_fopen tr path = Some (data, length data).
Definition has_memory : Prop := forall tr, env_bmalloc tr = true.

Definition opened (path : string) (data : list Z) (w : rworld) : rworld :=
  put_gTlv_dwndCfg (byte 14 data) (put_gTlv_type (byte 0 data) (put_pdata_buffer (BBuf data)
    (put_b_tr (BMalloc true :: BFopen path (Some (data, length data)) :: b_tr w) w))).

(** What is left to do once the header has been looked at. *)
Definition scan_file (data : list Z) : M rworld Z :=
  if byte 0 data =? TLV_TYPE_PATCH then deref (slice 0 28 data);; mret (Z.of_nat (length data))
  else if byte 0 data =? TLV_TYPE_NVM then
    if le (take 3 (drop 1 data)) <=? 0 then mret (Z.of_nat (length data))
    else
      buf ← nvm_loop (S (Z.to_nat (le (take 3 (drop 1 data))))) data 4 0 (le (take 3 (drop 1 data)));
      modify (put_pdata_buffer (BBuf buf));; mret (Z.of_nat (length data))
  else mret (Z.of_nat (length data)).

Lemma byte_lookup (i : nat) data : (i < length data)%nat -> data !! i = Some (byte i data).
Proof. intros H. unfold byte. rewrite nth_lookup. by destruct (lookup_lt_is_Some_2 _ _ H) as [x ->]. Qed.

Lemma get_file_run path data w : has_memory -> has_file path data -> (15 <= length data)%nat ->
  rome_get_tlv_file path w = scan_file data (opened path data w).
Proof.
  intros Hm Hf Hl. unfold rome_get_tlv_file, uart. rewrite (bind_run _ _ _ _ _ (zoom_run _ _ _ _ _ _ eq_refl)). rewrite !Hf.
  unfold rmalloc, uart. rewrite (bind_run _ _ _ _ _ (zoom_run _ _ _ _ _ _ eq_refl)). rewrite !Hm. cbn [negb]. cbv zeta. rewrite (take_ge data) by lia.
  rewrite Nat.sub_diag, app_nil_r, Nat.eqb_refl. cbn [negb]. erewrite bind_run by reflexivity.
  rewrite !byte_lookup by lia. do 3 erewrite bind_run by reflexivity. reflexivity.
Qed.

Lemma get_patch_run path data w : has_memory -> has_file path data -> (28 <= length data)%nat -> byte 0 data = TLV_TYPE_PATCH ->
  rome_get_tlv_file path w = Some (Z.of_nat (length data), opened path data w).
Proof.
  intros Hm Hf Hl Ht. rewrite (get_file_run path data) by (done || lia). unfold scan_file. rewrite Ht, Z.eqb_refl. rewrite slice_run by lia. by erewrite bind_run by reflexivity.
Qed.

Lemma tags_length tags : Forall nvm_tag_ok tags -> (12 * length tags <= length (concat (map encode_tag tags)))%nat.
Proof. induction 1 as [|t tags Ht _ IH]; [done|]. cbn [map concat length]. rewrite length_app, encode_length by done. lia. Qed.

Lemma with_addr_body tags : Forall nvm_tag_ok tags -> length (concat (map encode_tag (map with_addr tags))) = length (concat (map encode_tag tags)).
Proof.
  induction 1 as [|t tags Ht _ IH]; [done|]. cbn [map concat length]. rewrite !length_app, IH, with_addr_encode, encode_length by done.
  rewrite !length_app, !to_le_length, with_addr_length, (tag_words_ok _ Ht) by done. lia.
Qed.

(** A configuration that can be read: it has tags, each of them fits, and the
    length of all fits its field. *)
Definition nvm_ok (tags : list nvm_tag) : Prop :=
  tags <> [] /\ Forall nvm_tag_ok tags /\ Z.of_nat (length (concat (map encode_tag tags))) < 2 ^ 24.

Lemma get_nvm_run path tags post w : has_memory -> nvm_ok tags -> has_file path (encode_nvm tags post) ->
  rome_get_tlv_file path w = Some (Z.of_nat (length (encode_nvm (map with_addr tags) post)),
    put_pdata_buffer (BBuf (encode_nvm (map with_addr tags) post)) (opened path (encode_nvm tags post) w)).
Proof.
  intros Hm (Hne & Hok & Hlen) Hf. pose proof (tags_length tags Hok) as Htl. assert (0 < length tags)%nat by (destruct tags; [done|simpl; lia]).
  rewrite (get_file_run path (encode_nvm tags post)); [|done..|unfold encode_nvm; rewrite !length_app, to_le_length; simpl; lia]. unfold scan_file.
  change (byte 0 (encode_nvm tags post)) with 2. change (2 =? TLV_TYPE_PATCH) with false. change (2 =? TLV_TYPE_NVM) with true. cbv iota.
  change (take 3 (drop 1 (encode_nvm tags post))) with (to_le 3 (Z.of_nat (length (concat (map encode_tag tags))))).
  rewrite !le_to_le by (simpl; lia). rewrite (proj2 (Z.leb_gt _ _)) by lia.
  set (pre := [2] ++ to_le 3 (Z.of_nat (length (concat (map encode_tag tags))))).
  pose proof (nvm_loop_run (opened path (encode_nvm tags post) w) post tags (S (Z.to_nat (Z.of_nat (length (concat (map encode_tag tags)))))) pre 0 Hok ltac:(lia) ltac:(lia) ltac:(lia)) as E.
  assert (Ep : encode_nvm tags post = pre ++ concat (map encode_tag tags) ++ post) by done. rewrite <- Ep in E.
  change (Z.of_nat (length pre)) with 4 in E. rewrite Z.add_0_l in E. rewrite (bind_run _ _ _ _ _ E). erewrite bind_run by reflexivity.
  assert (Ea : encode_nvm (map with_addr tags) post = pre ++ concat (map (encode_tag ∘ with_addr) tags) ++ post).
  { unfold encode_nvm. rewrite with_addr_body, map_map by done. unfold pre. by rewrite <- app_assoc. }
  pose proof (with_addr_body tags Hok) as Hwb. rewrite map_map in Hwb.
  assert (El : length (encode_nvm tags post) = length (encode_nvm (map with_addr tags) post)) by (rewrite Ea, Ep, !length_app; do 2 f_equal; exact (eq_sym Hwb)).
  rewrite Ea in El |- *. by rewrite El.
Qed.

(** ** The download *)

(** The segments of a file: 243 bytes each, and the rest. *)
Fixpoint chunks (fuel : nat) (l : list Z) : list (list Z) :=
  match fuel, l with
  | S fuel, _ :: _ => take 243 l :: chunks fuel (drop 243 l)
  | _, _ => []
  end.

Definition segments (l : list Z) : list (list Z) := chunks (length l) l.

Lemma chunks_split : forall fuel l, (length l <= fuel)%nat -> l <> [] -> exists init seg, l = concat init ++ seg /\ chunks fuel l = init ++ [seg] /\
  Forall (fun s => length s = 243%nat) init /\ (0 < length seg <= 243)%nat.
Proof.
  induction fuel as [|fuel IH]; intros l Hl Hne; [destruct l; [done|simpl in Hl; lia]|]. destruct (decide (length l <= 243)%nat) as [Hs|Hs].
  - exists [], l. destruct l as [|x l]; [done|]. cbn [chunks]. rewrite take_ge, drop_ge by done. destruct fuel; (split; [done|split; [done|split; [constructor|simpl in *; lia]]]).
  - destruct (IH (drop 243 l)) as (init & seg & E & Ec & Hi & Hsg); [rewrite length_drop; lia|intros E; pose proof (f_equal length E) as E'; rewrite length_drop in E'; simpl in E'; lia|].
    exists (take 243 l :: init), seg. split; [simpl; rewrite <- app_assoc, <- E; by rewrite take_drop|]. split; [destruct l; [done|]; cbn [chunks]; by rewrite Ec|].
    split; [constructor; [rewrite length_take; lia|done]|done].
Qed.

Definition tlv_commands (data : list Z) : list Z := concat (map tlv_command (segments data)).

(** What the controller sends while a file goes out: the events of each
    command, those of the last one apart. *)
Definition answers (data : list Z) (evs : list (list Z * (Z * list Z))) (ev : list Z * (Z * list Z)) : list Z :=
  let m := awaits (byte 0 data) (byte 14 data) in
  concat (map (events (m false).1 (m false).2) evs) ++ events (m true).1 (m true).2 ev.

Definition answers_ok (data : list Z) (evs : list (list Z * (Z * list Z))) (ev : list Z * (Z * list Z)) : Prop :=
  length (segments data) = S (length evs) /\ Forall good_events evs /\ good_events ev.

Section Download.
Context {LF : LineFd} (Hw : writes_all) (stream : list Z) (Hf : feeds stream) (junk : nat) (Hj : (0 < junk)%nat) (Hmem : has_memory).
Abbreviation unread := (unread stream).

(** A file that has been opened, whatever was written into it since. *)
Lemma send_file nvm path data sent_data evs ev rest w0 : let w := put_pdata_buffer (BBuf sent_data) (opened path data w0) in
  length sent_data = length data -> data <> [] -> Z.of_nat (length data) < 2 ^ 31 ->
  supported (rome_ver w0) (byte 0 data) (byte 14 data) -> nvm_file_path w0 = nvm -> answers_ok sent_data evs ev ->
  (forall b, awaits (byte 0 sent_data) (byte 14 sent_data) b = awaits (byte 0 data) (byte 14 data) b) -> unread (b_tr w0) = answers sent_data evs ev ++ rest ->
  exists err w', rome_tlv_dnld_req junk (Z.of_nat (length sent_data)) w = Some (err, w') /\ 0 <= err /\
    sent (b_tr w') = sent (b_tr w0) ++ outs line_fd (tlv_commands sent_data) /\ unread (b_tr w') = rest /\
    (exists b, wait_vsc_evt w' = (awaits (byte 0 data) (byte 14 data) b).1) /\ downloading nvm sent_data w'.
Proof.
  intros w Hl Hne H31 Hsup Hn (Hlen & Hg & Hge) Haw Hu. destruct (chunks_split (length sent_data) sent_data) as (init & seg & E & Ec & Hi & Hs); [lia|by destruct sent_data, data|].
  unfold tlv_commands, segments in *. rewrite Ec in *. rewrite length_app in Hlen. simpl in Hlen. unfold answers in Hu. rewrite !Haw, <- app_assoc in Hu.
  destruct (tlv_run Hw stream Hf junk Hj nvm init seg evs ev rest w) as (err & w' & Er & H & Hsn & Hu' & Hv & Hd); [|done|done|lia|done|done|exact Hu|].
  { rewrite <- E. constructor; [done|lia|exact Hsup|exact Hn]. }
  rewrite <- E in *. exists err, w'. done.
Qed.

(** The two files are there and can be used. *)
Record files_ok (patch : list Z) (tags : list nvm_tag) (post : list Z) (w : rworld) : Prop := {
  fo_patch : has_file (rampatch_file_path w) patch;
  fo_nvm : has_file (nvm_file_path w) (encode_nvm tags post);
  fo_type : byte 0 patch = TLV_TYPE_PATCH;
  fo_len : (28 <= length patch)%nat /\ Z.of_nat (length patch) < 2 ^ 31;
  fo_mode : supported (rome_ver w) TLV_TYPE_PATCH (byte 14 patch);
  fo_tags : nvm_ok tags;
  fo_size : Z.of_nat (length (encode_nvm tags post)) < 2 ^ 31
}.

(** The download is done: both files went out and everything was answered. *)
Lemma files_run patch tags post evs1 ev1 evs2 ev2 rest w : files_ok patch tags post w ->
  let nvm := encode_nvm (map with_addr tags) post in answers_ok patch evs1 ev1 -> answers_ok nvm evs2 ev2 ->
  unread (b_tr w) = answers patch evs1 ev1 ++ answers nvm evs2 ev2 ++ rest ->
  exists err w', rome_download_tlv_file junk w = Some (err, w') /\ 0 <= err /\ sent (b_tr w') = sent (b_tr w) ++ outs line_fd (tlv_commands patch ++ tlv_commands nvm) /\
    unread (b_tr w') = rest /\ wait_vsc_evt w' = true /\ pdata_buffer w' = BDangling.
Proof.
  intros [Hfp Hfn Ht [Hl1 Hl2] Hmode Htags Hsz] nvm Ha1 Ha2 Hu. assert (Hok := Htags). destruct Hok as (Hne & Hok & Hb).
  assert (Hln : length nvm = length (encode_nvm tags post)).
  { unfold nvm, encode_nvm. rewrite !length_app, !to_le_length, with_addr_body by done. done. }
  unfold rome_download_tlv_file. do 2 erewrite bind_run by reflexivity. set (w0 := put_pdata_buffer BNull w).
  rewrite (bind_run _ _ _ _ _ (get_patch_run (rampatch_file_path w0) patch w0 Hmem Hfp Hl1 Ht)). rewrite (proj2 (Z.ltb_ge _ _)) by lia.
  destruct (send_file (nvm_file_path w) (rampatch_file_path w0) patch patch evs1 ev1 (answers nvm evs2 ev2 ++ rest) w0) as (e1 & w1 & E1 & H1 & Hs1 & Hu1 & _ & Hd1);
    [done|intros ->; simpl in Hl1; lia|done|by rewrite Ht|done|done|done|done|].
  change (put_pdata_buffer (BBuf patch) (opened (rampatch_file_path w0) patch w0)) with (opened (rampatch_file_path w0) patch w0) in E1.
  rewrite (bind_run _ _ _ _ _ E1). rewrite (proj2 (Z.ltb_ge _ _)) by lia.
  assert (Efree : free_pdata w1 = Some (tt, put_pdata_buffer BDangling w1)) by (unfold free_pdata; erewrite bind_run by reflexivity; by rewrite (dl_data _ _ _ Hd1)).
  rewrite (bind_run _ _ _ _ _ Efree). do 2 erewrite bind_run by reflexivity. set (w2 := put_pdata_buffer BNull (put_pdata_buffer BDangling w1)).
  assert (Hn : nvm_file_path w2 = nvm_file_path w) by apply (dl_nvm _ _ _ Hd1). rewrite Hn.
  rewrite (bind_run _ _ _ _ _ (get_nvm_run (nvm_file_path w) tags post w2 Hmem Htags Hfn)). rewrite (proj2 (Z.ltb_ge _ _)) by lia.
  destruct (send_file (nvm_file_path w) (nvm_file_path w) (encode_nvm tags post) nvm evs2 ev2 rest w2) as (e2 & w3 & E2 & H2 & Hs2 & Hu2 & [b Hv] & Hd2);
    [done|done|done|by intros|done|done|done|exact Hu1|].
  fold nvm. rewrite (bind_run _ _ _ _ _ E2).
  assert (Efree2 : free_pdata w3 = Some (tt, put_pdata_buffer BDangling w3)) by (unfold free_pdata; erewrite bind_run by reflexivity; by rewrite (dl_data _ _ _ Hd2)).
  rewrite (bind_run _ _ _ _ _ Efree2). exists e2, (put_pdata_buffer BDangling w3). split; [done|]. split; [done|]. split; [|done].
  simpl b_tr. rewrite Hs2. simpl b_tr. rewrite Hs1. by rewrite outs_app, <- app_assoc.
Qed.

End Download.

End Nvm.
