(* ===== verification/RomeInit.v ===== *)
(** * The initialisation of the Rome controller

    [rome_soc_init] from the first request to the reset, for the controllers
    that take their files over the line in TLV segments. *)

From Stdlib Require Import ZArith Lia.
From stdpp Require Import list strings.
From S2P Require Import Prelude BtHci Rome RomeProps RomeNvm.

(** ** The answers *)

(** The event with the versions. *)
Definition version_params (product patchver build soc : Z) : list Z :=
  [0; 0x19] ++ to_le 4 product ++ to_le 2 patchver ++ to_le 2 build ++ to_le 4 soc.

(** The event with the label of the build, and the one that takes the new
    speed. *)
Definition label_params (label : list Z) : list Z := [0; 5; Z.of_nat (length label)] ++ label.
Definition baud_params : list Z := [0x92; 1].

(** The files by version. *)
Definition firmware : list (Z * (string * string)) :=
  [(ROME_VER_1_1, ("/system/etc/firmware/rampatch_tlv.img", "/system/etc/firmware/nvm_tlv.bin"));
   (ROME_VER_1_3, ("/system/etc/firmware/rampatch_tlv_1.3.tlv", "/system/etc/firmware/nvm_tlv_1.3.bin"));
   (ROME_VER_2_1, ("/system/etc/firmware/rampatch_tlv_2.1.tlv", "/system/etc/firmware/nvm_tlv_2.1.bin"));
   (ROME_VER_3_0, ("/bt_firmware/image/btfw30.tlv", "/bt_firmware/image/btnv30.bin"));
   (ROME_VER_3_2, ("/bt_firmware/image/btfw32.tlv", "/bt_firmware/image/btnv32.bin"))]%string.

Section Init.
Context `{BE : BtEnv} (Hbd : length vnd_local_bd_addr = 6%nat).
Context {LF : LineFd} (Hw : writes_all) (stream : list Z) (Hf : feeds stream) (junk : nat) (Hj : (0 < junk)%nat) (Hmem : has_memory).
Abbreviation unread := (unread stream).

(** ** Exchanges *)

(** What the handler of an event does, the line apart. *)
Record quiet (f : rworld -> rworld) : Prop := {
  q_frame : forall tr tr' w, put_b_tr tr (f (put_b_tr tr' w)) = put_b_tr tr (f w);
  q_sent : forall w, sent (b_tr (f w)) = sent (b_tr w);
  q_unread : forall w, unread (b_tr (f w)) = unread (b_tr w);
  q_wait : forall w, wait_vsc_evt (f w) = wait_vsc_evt w
}.

(** After the run of a piece of code: what was sent and what is left, the
    state being [x] but for the line. *)
Definition after (out rest : list Z) (w x w' : rworld) : Prop :=
  w' = put_b_tr (b_tr w') x /\ sent (b_tr w') = sent (b_tr w) ++ outs line_fd out /\ unread (b_tr w') = rest.

Lemma stack_run w : exists rsp, stack_array w = Some (rsp, w) /\ length rsp = HCI_MAX_EVENT_SIZE.
Proof using. clear Hbd Hj. eexists. split; [reflexivity|]. rewrite length_take, length_app, length_replicate. unfold HCI_MAX_EVENT_SIZE. lia. Qed.

Lemma vs_send_run w cmd rsp size params f rest : 0 < size <= Z.of_nat (length cmd) -> length rsp = HCI_MAX_EVENT_SIZE ->
  wait_vsc_evt w = true -> (length params < 256)%nat ->
  (forall again tr buf, get_vs_hci_event again (packet 0xFF params ++ buf) (put_b_tr tr w) = Some (0, f (put_b_tr tr w))) ->
  unread (b_tr w) = packet 0xFF params ++ rest ->
  exists tr' rsp', hci_send_vs_cmd junk cmd rsp size w = Some ((size, rsp'), f (put_b_tr tr' w)) /\ length rsp' = HCI_MAX_EVENT_SIZE /\
    unread tr' = rest /\ sent tr' = sent (b_tr w) ++ outs line_fd (take (Z.to_nat size) cmd).
Proof.
  intros Hs Hr Hv Hp Hg Hu. unfold hci_send_vs_cmd, write_line, uart.
  rewrite (bind_run _ _ _ _ _ (zoom_run _ _ _ _ _ _ (do_write_run Hw line_fd cmd size (b_tr w) ltac:(lia)))).
  rewrite Z.eqb_refl. cbn [negb]. set (tr1 := BWrite _ _ _ :: _). erewrite bind_run by reflexivity. change (wait_vsc_evt (put_b_tr tr1 w)) with (wait_vsc_evt w). rewrite Hv.
  destruct (vs_run stream Hf junk Hj (put_b_tr tr1 w) params f rsp rest) as (tr2 & buf & E & Hb & Hu2 & Hs2); [exact Hu|done|done|intros again tr b; exact (Hg again tr b)|].
  rewrite (bind_run _ _ _ _ _ E). cbv beta iota. rewrite (proj2 (Z.ltb_ge _ _)) by lia. exists tr2, buf. split; [done|]. split; [done|]. split; [done|].
  rewrite Hs2. simpl. by rewrite take_take, Nat.min_id.
Qed.

Lemma request_run w cmd rsp size params f code ps rest : quiet f -> 0 < size <= Z.of_nat (length cmd) -> length rsp = HCI_MAX_EVENT_SIZE ->
  wait_vsc_evt w = true -> (length params < 256)%nat -> (length ps < 256)%nat ->
  (forall again tr buf, get_vs_hci_event again (packet 0xFF params ++ buf) (put_b_tr tr w) = Some (0, f (put_b_tr tr w))) ->
  unread (b_tr w) = packet 0xFF params ++ packet code ps ++ rest ->
  exists err w', send_and_complete junk cmd rsp size w = Some ((err, false), w') /\ 0 <= err /\ after (take (Z.to_nat size) cmd) rest w (f w) w'.
Proof.
  intros Hq Hs Hr Hv Hp Hps Hg Hu. destruct (vs_send_run w cmd rsp size params f (packet code ps ++ rest)) as (tr1 & rsp1 & E1 & Hr1 & Hu1 & Hs1); [done..|].
  unfold send_and_complete. rewrite (bind_run _ _ _ _ _ E1). cbv beta iota. rewrite Z.eqb_refl. cbn [negb].
  destruct (read_event_run stream Hf junk Hj (f (put_b_tr tr1 w)) code ps rest rsp1) as (tr2 & buf & E2 & Hu2 & Hs2); [by rewrite (q_unread _ Hq)|done|done|].
  rewrite (bind_run _ _ _ _ _ E2). eexists _, _. cbv beta iota. rewrite (proj2 (Z.ltb_ge _ _)) by lia. split; [reflexivity|]. split; [lia|].
  split; [simpl; apply (q_frame _ Hq)|]. split; [|done]. simpl b_tr. by rewrite Hs2, (q_sent _ Hq).
Qed.

(** ** The requests *)

Definition request (edl : Z) : list Z := [1; 0; 0xFC; 1; edl].

Lemma frame_request edl w : edl = EDL_PATCH_VER_REQ_CMD \/ edl = EDL_GET_BUILD_INFO ->
  frame_hci_cmd_pkt edl 0 (-1) EDL_PATCH_CMD_LEN w = Some (request edl ++ replicate 255 0, w).
Proof. by intros [-> | ->]. Qed.

Definition got_version (product patchver build soc : Z) (w : rworld) : rworld :=
  put_rome_ver (build * 2 ^ 16 + soc mod 2 ^ 16) (put_b_tr (BVersionFile product patchver build soc :: b_tr w) w).

Lemma quiet_version product patchver build soc : quiet (got_version product patchver build soc).
Proof. by constructor. Qed.

Lemma quiet_id : quiet (fun w => w).
Proof. by constructor. Qed.

(** The version is the build number and the low half of the chip's. *)
Lemma version_run product patchver build soc again tr buf w : 0 <= product < 2 ^ 32 -> 0 <= patchver < 2 ^ 16 -> 0 <= build < 2 ^ 15 -> 0 <= soc < 2 ^ 32 ->
  get_vs_hci_event again (packet 0xFF (version_params product patchver build soc) ++ buf) (put_b_tr tr w) = Some (0, got_version product patchver build soc (put_b_tr tr w)).
Proof.
  intros H1 H2 H3 H4. unfold get_vs_hci_event. change (version_event (packet 255 (version_params product patchver build soc) ++ buf) (put_b_tr tr w) = Some (0, got_version product patchver build soc (put_b_tr tr w))).
  unfold version_event. set (rsp := packet _ _ ++ buf).
  change [byte 5 rsp; byte (5 + 1) rsp; byte (5 + 2) rsp; byte (5 + 3) rsp] with (to_le 4 product). change [byte 9 rsp; byte (9 + 1) rsp] with (to_le 2 patchver).
  change [byte 11 rsp; byte (11 + 1) rsp] with (to_le 2 build). change [byte 13 rsp; byte (13 + 1) rsp; byte (13 + 2) rsp; byte (13 + 3) rsp] with (to_le 4 soc).
  change (byte 2 rsp -i 10 =? 0) with false. cbv iota zeta. rewrite !le_to_le by (simpl; lia). do 2 erewrite bind_run by reflexivity.
  unfold got_version. change 0x0000ffff with (Z.ones 16). rewrite Z.land_ones, Z.lor_comm, lor_shiftl by (try apply Z.mod_pos_bound; lia).
  pose proof (Z.mod_pos_bound soc (2 ^ 16)). rewrite i32_id by (unfold i32_range; lia). by rewrite Z.add_comm.
Qed.

Lemma ver_req_run product patchver build soc code ps rest w : 0 <= product < 2 ^ 32 -> 0 <= patchver < 2 ^ 16 -> 0 <= build < 2 ^ 15 -> 0 <= soc < 2 ^ 32 ->
  wait_vsc_evt w = true -> (length ps < 256)%nat -> unread (b_tr w) = packet 0xFF (version_params product patchver build soc) ++ packet code ps ++ rest ->
  exists err w', rome_patch_ver_req junk w = Some (err, w') /\ 0 <= err /\
    after (request EDL_PATCH_VER_REQ_CMD) rest w (got_version product patchver build soc w) w'.
Proof.
  intros H1 H2 H3 H4 Hv Hps Hu. unfold rome_patch_ver_req. rewrite (bind_run _ _ _ _ _ (frame_request EDL_PATCH_VER_REQ_CMD w (or_introl eq_refl))).
  destruct (stack_run w) as (rsp & Er & Hr). rewrite (bind_run _ _ _ _ _ Er).
  destruct (request_run w (request EDL_PATCH_VER_REQ_CMD ++ replicate 255 0) rsp 5 (version_params product patchver build soc) (got_version product patchver build soc) code ps rest)
    as (err & w' & E & H & Ha); [apply quiet_version|rewrite length_app; simpl; lia|done|done|simpl; lia|done|intros; by apply version_run|done|].
  change (1 + 3 + EDL_PATCH_CMD_LEN) with 5. rewrite (bind_run _ _ _ _ _ E). by exists err, w'.
Qed.

Definition got_label (label : list Z) (w : rworld) : rworld := put_b_tr (BLabelFile label :: b_tr w) w.

Lemma quiet_label label : quiet (got_label label).
Proof. by constructor. Qed.

Lemma label_run label again tr buf w : (length label < 250)%nat ->
  get_vs_hci_event again (packet 0xFF (label_params label) ++ buf) (put_b_tr tr w) = Some (0, got_label label (put_b_tr tr w)).
Proof.
  intros Hl. unfold get_vs_hci_event. change (build_event (packet 255 (label_params label) ++ buf) (put_b_tr tr w) = Some (0, got_label label (put_b_tr tr w))).
  unfold build_event. set (rsp := packet _ _ ++ buf). change (byte 5 rsp) with (Z.of_nat (length label)). cbv zeta. rewrite (proj2 (Z.ltb_ge _ _)) by lia.
  rewrite slice_run by (unfold rsp, packet, label_params; rewrite ?length_app; simpl; rewrite ?length_app; lia).
  change (drop (Z.to_nat 6) rsp) with (label ++ buf). rewrite Nat2Z.id, take_app_length. by do 2 erewrite bind_run by reflexivity.
Qed.

Lemma build_info_run label code ps rest w : (length label < 250)%nat -> wait_vsc_evt w = true -> (length ps < 256)%nat ->
  unread (b_tr w) = packet 0xFF (label_params label) ++ packet code ps ++ rest ->
  exists err w', rome_get_build_info_req junk w = Some (err, w') /\ after (request EDL_GET_BUILD_INFO) rest w (got_label label w) w'.
Proof.
  intros Hl Hv Hps Hu. unfold rome_get_build_info_req. rewrite (bind_run _ _ _ _ _ (frame_request EDL_GET_BUILD_INFO w (or_intror eq_refl))).
  destruct (stack_run w) as (rsp & Er & Hr). rewrite (bind_run _ _ _ _ _ Er).
  destruct (request_run w (request EDL_GET_BUILD_INFO ++ replicate 255 0) rsp 5 (label_params label) (got_label label) code ps rest)
    as (err & w' & E & H & Ha); [apply quiet_label|rewrite length_app; simpl; lia|done|done|simpl; lia|done|intros; by apply label_run|done|].
  change (1 + 3 + EDL_PATCH_CMD_LEN) with 5. rewrite (bind_run _ _ _ _ _ E). by exists err, w'.
Qed.

(** A command that is answered by one event. *)
Lemma plain_run (A : Type) cmd size code ps rest w (k : Z -> M rworld A) : 0 < size <= Z.of_nat (length cmd) -> (length ps < 256)%nat ->
  unread (b_tr w) = packet code ps ++ rest ->
  exists w', (r ← (err ← write_line cmd size; if negb (err =? size) then mret (-1) else rsp ← stack_array; r ← read_event junk rsp; mret r.1); k r) w =
    k (Z.of_nat (length (packet code ps))) w' /\ after (take (Z.to_nat size) cmd) rest w w w'.
Proof.
  intros Hs Hps Hu. unfold write_line, uart. set (tr1 := BWrite line_fd (take (Z.to_nat size) cmd) size :: b_tr w).
  destruct (stack_run (put_b_tr tr1 w)) as (rsp & Er & Hr).
  destruct (read_event_run stream Hf junk Hj (put_b_tr tr1 w) code ps rest rsp) as (tr2 & buf & E2 & Hu2 & Hs2); [exact Hu|done|done|].
  exists (put_b_tr tr2 w). split.
  - apply bind_run. rewrite (bind_run _ _ _ _ _ (zoom_run _ _ _ _ _ _ (do_write_run Hw line_fd cmd size (b_tr w) ltac:(lia)))). rewrite Z.eqb_refl. cbn [negb].
    fold tr1. rewrite (bind_run _ _ _ _ _ Er). by rewrite (bind_run _ _ _ _ _ E2).
  - split; [done|]. split; [|done]. simpl b_tr. rewrite Hs2. simpl. by rewrite take_take, Nat.min_id.
Qed.

Definition set_baud_command : list Z := [1; 0x48; 0xFC; 1; 0x0E].
Definition reset_command : list Z := [1; 3; 0x0C; 0].
Definition ldo_command : list Z := [0x01; 0x0C; 0xFC; 0x01; 0x32].

Lemma bind_ret {W A} (m : M W A) w : (x ← m; mret x) w = m w.
Proof. unfold mbind, M_bind. by destruct (m w) as [[]|]. Qed.

Lemma reset_run code ps rest w : (length ps < 256)%nat -> unread (b_tr w) = packet code ps ++ rest ->
  exists w', rome_hci_reset junk w = Some (Z.of_nat (length (packet code ps)), w') /\ after reset_command rest w w w'.
Proof.
  intros Hps Hu. destruct (plain_run Z (hci_command HCI_RESET 0) 4 code ps rest w mret) as (w' & E & Ha); [simpl; lia|done|done|].
  exists w'. rewrite bind_ret in E. done.
Qed.

(** The command for the regulator, where this device has an external one. *)
Definition ldo_out : list Z := if enable_extldo then ldo_command else [].
Definition ldo_in (code : Z) (ps : list Z) : list Z := if enable_extldo then packet code ps else [].

Lemma ldo_run code ps rest w : (length ps < 256)%nat -> unread (b_tr w) = ldo_in code ps ++ rest ->
  exists err w', disable_internal_ldo junk w = Some (err, w') /\ after ldo_out rest w w w'.
Proof.
  unfold ldo_in, ldo_out, disable_internal_ldo. intros Hps Hu. destruct enable_extldo.
  - destruct (plain_run Z ldo_command 5 code ps rest w mret) as (w' & E & Ha); [simpl; lia|done|done|]. rewrite bind_ret in E. by eexists _, w'.
  - exists 0, w. split; [done|]. split; [by destruct w|]. by rewrite app_nil_r.
Qed.

Context (Hio : forall tr op, 0 <= env_userial tr op).

Lemma baud_run code ps rest w : (length ps < 256)%nat -> unread (b_tr w) = packet 0xFF baud_params ++ packet code ps ++ rest ->
  exists err w', rome_set_baudrate_req junk w = Some (err, w') /\ 0 <= err /\ after set_baud_command rest w w w'.
Proof.
  intros Hps Hu. unfold rome_set_baudrate_req, change_speed, userial_vendor_ioctl, note, uart. erewrite bind_run by (by apply zoom_run).
  erewrite bind_run by (by apply zoom_run). rewrite (proj2 (Z.ltb_ge _ _)) by apply Hio. set (w1 := put_b_tr _ (put_b_tr _ w)). set (cmd := put_byte 4 _ _).
  unfold write_line, uart. rewrite (bind_run _ _ _ _ _ (zoom_run _ _ _ _ _ _ (do_write_run Hw line_fd cmd 5 (b_tr w1) ltac:(vm_compute; intuition congruence)))).
  change (negb (5 =? 1 + 3 + 1)) with false. cbv iota. erewrite bind_run by (by apply zoom_run). erewrite bind_run by (by apply zoom_run). rewrite (proj2 (Z.ltb_ge _ _)) by apply Hio.
  set (w2 := put_b_tr _ (put_b_tr _ _)). destruct (stack_run w2) as (rsp & Er & Hr). rewrite (bind_run _ _ _ _ _ Er).
  destruct (vs_run stream Hf junk Hj w2 baud_params (fun w => w) rsp (packet code ps ++ rest)) as (tr1 & buf & E1 & Hb1 & Hu1 & Hs1); [exact Hu|simpl; lia|done|done|].
  rewrite (bind_run _ _ _ _ _ E1). cbv beta iota. rewrite (proj2 (Z.ltb_ge _ _)) by lia.
  destruct (read_event_run stream Hf junk Hj (put_b_tr tr1 w2) code ps rest buf) as (tr2 & buf2 & E2 & Hu2 & Hs2); [done|done|done|].
  rewrite (bind_run _ _ _ _ _ E2). eexists _, _. split; [reflexivity|]. split; [cbn [fst]; lia|]. split; [done|]. split; [|done]. simpl b_tr. rewrite Hs2. simpl b_tr. rewrite Hs1. done.
Qed.

(** ** The sequence *)

Abbreviation event := (Z * list Z)%type.
Abbreviation pair := (list Z * event)%type.

(** What the controller answers: its versions and its label, the events that
    complete the requests, and those of the two downloads. *)
Record script := {
  s_product : Z; s_patchver : Z; s_build : Z; s_soc : Z; s_label : list Z;
  s_ver_done : event; s_baud_done : event; s_info_done : event; s_ldo_done : event; s_reset_done : event;
  s_patch_evs : list pair; s_patch_last : pair; s_nvm_evs : list pair; s_nvm_last : pair
}.

Definition version (s : script) : Z := s_build s * 2 ^ 16 + s_soc s mod 2 ^ 16.

Definition event_bytes (e : event) : list Z := packet e.1 e.2.

Definition replies (patch nvm : list Z) (s : script) : list Z :=
  packet 0xFF (version_params (s_product s) (s_patchver s) (s_build s) (s_soc s)) ++ event_bytes (s_ver_done s) ++
  packet 0xFF baud_params ++ event_bytes (s_baud_done s) ++
  answers patch (s_patch_evs s) (s_patch_last s) ++ answers nvm (s_nvm_evs s) (s_nvm_last s) ++
  packet 0xFF (label_params (s_label s)) ++ event_bytes (s_info_done s) ++
  ldo_in (s_ldo_done s).1 (s_ldo_done s).2 ++ event_bytes (s_reset_done s).

Record script_ok (patch nvm : list Z) (s : script) : Prop := {
  so_nums : 0 <= s_product s < 2 ^ 32 /\ 0 <= s_patchver s < 2 ^ 16 /\ 0 <= s_build s < 2 ^ 15 /\ 0 <= s_soc s < 2 ^ 32;
  so_label : (length (s_label s) < 250)%nat;
  so_events : Forall (fun e : event => (length e.2 < 256)%nat) [s_ver_done s; s_baud_done s; s_info_done s; s_ldo_done s; s_reset_done s];
  so_patch : answers_ok patch (s_patch_evs s) (s_patch_last s);
  so_nvm : answers_ok nvm (s_nvm_evs s) (s_nvm_last s)
}.

(** Everything that is sent, in order. *)
Definition bring_up_bytes (patch nvm : list Z) : list Z :=
  request EDL_PATCH_VER_REQ_CMD ++ set_baud_command ++ tlv_commands patch ++ tlv_commands nvm ++ request EDL_GET_BUILD_INFO ++ ldo_out ++ reset_command.

Lemma after_elim out rest w x w' : after out rest w x w' -> exists tr, w' = put_b_tr tr x /\ sent tr = sent (b_tr w) ++ outs line_fd out /\ unread tr = rest.
Proof. intros (E & Hs & Hu). by exists (b_tr w'). Qed.

Lemma firmware_branch v pp np w : In (v, (pp, np)) firmware -> rome_ver w = v -> exists su, init_version junk w = init_download junk pp np su w.
Proof.
  intros Hin Hv. unfold init_version. erewrite bind_run by reflexivity. rewrite Hv.
  repeat (destruct Hin as [[= <- <- <-]|Hin]; [eexists; reflexivity|]). destruct Hin.
Qed.

Lemma download_run pp np su patch tags post evs1 ev1 evs2 ev2 (baud info ldo reset : event) label rest w : let nvm := encode_nvm (map with_addr tags) post in
  has_file pp patch -> has_file np (encode_nvm tags post) -> byte 0 patch = TLV_TYPE_PATCH -> (28 <= length patch)%nat /\ Z.of_nat (length patch) < 2 ^ 31 ->
  supported (rome_ver w) TLV_TYPE_PATCH (byte 14 patch) -> nvm_ok tags -> Z.of_nat (length (encode_nvm tags post)) < 2 ^ 31 ->
  answers_ok patch evs1 ev1 -> answers_ok nvm evs2 ev2 -> Forall (fun e : event => (length e.2 < 256)%nat) [baud; info; ldo; reset] -> (length label < 250)%nat ->
  unread (b_tr w) = packet 0xFF baud_params ++ event_bytes baud ++ answers patch evs1 ev1 ++ answers nvm evs2 ev2 ++
    packet 0xFF (label_params label) ++ event_bytes info ++ ldo_in ldo.1 ldo.2 ++ event_bytes reset ++ rest ->
  exists err w', init_download junk pp np su w = Some (err, w') /\ 0 <= err /\ unread (b_tr w') = rest /\ wait_vsc_evt w' = true /\
    sent (b_tr w') = sent (b_tr w) ++ outs line_fd (set_baud_command ++ tlv_commands patch ++ tlv_commands nvm ++ request EDL_GET_BUILD_INFO ++ ldo_out ++ reset_command).
Proof.
  intros nvm Hfp Hfn Ht Hl Hsup Htags Hsz Ha1 Ha2 Hev Hlab Hu.
  apply Forall_cons in Hev as [Hev1 Hev]. apply Forall_cons in Hev as [Hev2 Hev]. apply Forall_cons in Hev as [Hev3 Hev]. apply Forall_cons in Hev as [Hev4 _].
  unfold init_download. erewrite bind_run by reflexivity. set (w0 := put_nvm_file_path np _).
  assert (E0 : exists w1, (match su with Some (info, offset) => modify (fun w => put_fw_su_offset offset (put_fw_su_info (Some info) w)) | None => mret tt end) w0 = Some (tt, w1) /\
    b_tr w1 = b_tr w /\ rampatch_file_path w1 = pp /\ nvm_file_path w1 = np /\ rome_ver w1 = rome_ver w) by (destruct su as [[]|]; by eexists).
  destruct E0 as (w1 & E0 & Htr & Hpp & Hnp & Hver). rewrite (bind_run _ _ _ _ _ E0).
  destruct (baud_run baud.1 baud.2 (answers patch evs1 ev1 ++ answers nvm evs2 ev2 ++ packet 0xFF (label_params label) ++ event_bytes info ++ ldo_in ldo.1 ldo.2 ++ event_bytes reset ++ rest) w1)
    as (e2 & w2 & E2 & H2 & Haf2); [done|by rewrite Htr|].
  rewrite (bind_run _ _ _ _ _ E2), (proj2 (Z.ltb_ge _ _)) by lia. apply after_elim in Haf2 as (tr2 & -> & Hs2 & Hu2).
  destruct (files_run Hbd Hw stream Hf junk Hj Hmem patch tags post evs1 ev1 evs2 ev2 (packet 0xFF (label_params label) ++ event_bytes info ++ ldo_in ldo.1 ldo.2 ++ event_bytes reset ++ rest)
    (put_b_tr tr2 w1)) as (e3 & w3 & E3 & H3 & Hs3 & Hu3 & Hv3 & _); [constructor; simpl; rewrite ?Hpp, ?Hnp, ?Hver; done|done|done|exact Hu2|].
  rewrite (bind_run _ _ _ _ _ E3), (proj2 (Z.ltb_ge _ _)) by lia.
  destruct (build_info_run label info.1 info.2 (ldo_in ldo.1 ldo.2 ++ event_bytes reset ++ rest) w3) as (e4 & w4 & E4 & Haf4); [done..|].
  rewrite (bind_run _ _ _ _ _ E4). apply after_elim in Haf4 as (tr4 & -> & Hs4 & Hu4).
  destruct (ldo_run ldo.1 ldo.2 (event_bytes reset ++ rest) (put_b_tr tr4 (got_label label w3))) as (e5 & w5 & E5 & Haf5); [done..|].
  rewrite (bind_run _ _ _ _ _ E5). apply after_elim in Haf5 as (tr5 & -> & Hs5 & Hu5).
  destruct (reset_run reset.1 reset.2 rest (put_b_tr tr5 (put_b_tr tr4 (got_label label w3)))) as (w6 & E6 & Haf6); [done..|]. apply after_elim in Haf6 as (tr6 & -> & Hs6 & Hu6).
  eexists _, _. split; [exact E6|]. split; [lia|]. split; [done|]. split; [exact Hv3|]. simpl b_tr in *. rewrite Hs6, Hs5, Hs4, Hs3, Hs2, Htr. by rewrite !outs_app, <- !app_assoc.
Qed.

(** The whole of it. *)
Lemma soc_init_run pp np patch tags post s rest w (Hwp : wipower_flag w <> WIPOWER_IN_EMBEDDED_MODE) (Hv : wait_vsc_evt w = true)
  (Hfw : In (version s, (pp, np)) firmware) (Hfp : has_file pp patch) (Hfn : has_file np (encode_nvm tags post)) (Ht : byte 0 patch = TLV_TYPE_PATCH)
  (Hl : (28 <= length patch)%nat /\ Z.of_nat (length patch) < 2 ^ 31) (Hsup : supported (version s) TLV_TYPE_PATCH (byte 14 patch)) (Htags : nvm_ok tags)
  (Hsz : Z.of_nat (length (encode_nvm tags post)) < 2 ^ 31) (Hs : script_ok patch (encode_nvm (map with_addr tags) post) s)
  (Hu : unread (b_tr w) = replies patch (encode_nvm (map with_addr tags) post) s ++ rest) :
  exists err w', rome_soc_init junk w = Some (err, w') /\ 0 <= err /\ dnld_fd w' = -1 /\ unread (b_tr w') = rest /\ wait_vsc_evt w' = true /\
    sent (b_tr w') = sent (b_tr w) ++ outs line_fd (bring_up_bytes patch (encode_nvm (map with_addr tags) post)).
Proof.
  destruct Hs as [(H1 & H2 & H3 & H4) Hlab Hev Ha1 Ha2]. apply Forall_cons in Hev as [Hev0 Hev]. unfold replies in Hu. rewrite <- !app_assoc in Hu.
  unfold rome_soc_init. erewrite bind_run by reflexivity. erewrite bind_run by reflexivity. set (w0 := put_dnld_fd line_fd w).
  change (wipower_flag w0) with (wipower_flag w). rewrite (proj2 (Z.eqb_neq _ _) Hwp). cbn [andb]. erewrite bind_run by reflexivity.
  edestruct (fun r => ver_req_run (s_product s) (s_patchver s) (s_build s) (s_soc s) (s_ver_done s).1 (s_ver_done s).2 r w0) as (e1 & w1 & E1 & He1 & Haf1); [done|done|done|done|exact Hv|exact Hev0|exact Hu|].
  rewrite (bind_run _ _ _ _ _ E1), (proj2 (Z.ltb_ge _ _)) by lia. apply after_elim in Haf1 as (tr1 & -> & Hs1 & Hu1). set (w1 := put_b_tr tr1 _) in *.
  destruct (firmware_branch (version s) pp np w1 Hfw eq_refl) as (su & Eb). apply Forall_cons in Hev as [? Hev].
  destruct (download_run pp np su patch tags post (s_patch_evs s) (s_patch_last s) (s_nvm_evs s) (s_nvm_last s) (s_baud_done s) (s_info_done s) (s_ldo_done s) (s_reset_done s)
    (s_label s) rest w1) as (e2 & w2 & E2 & He2 & Hu2 & Hv2 & Hs2); [done|done|done|done|done|done|done|done|done|by constructor|done|exact Hu1|].
  rewrite <- Eb in E2. rewrite (bind_run _ _ _ _ _ E2). erewrite bind_run by reflexivity. eexists e2, _. split; [reflexivity|]. split; [done|]. split; [done|]. split; [exact Hu2|]. split; [exact Hv2|].
  simpl b_tr. rewrite Hs2. simpl b_tr. rewrite Hs1. unfold bring_up_bytes. by rewrite !outs_app, <- !app_assoc.
Qed.

(** C17: the initialisation of a controller that takes its files in segments:
    whatever version of the table it reports, the request for the versions, the
    new speed, the patch file of that version, its configuration file with the
    address of this device, the request for the label, the regulator where it
    is asked for and the reset go out in this order, on the descriptor it was
    called with, and nothing else does; every event is read and none beyond, and the result is a success. *)
Theorem rome_bring_up pp np patch tags post s rest w (Hwp : wipower_flag w <> WIPOWER_IN_EMBEDDED_MODE) (Hv : wait_vsc_evt w = true)
  (Hfw : In (version s, (pp, np)) firmware) (Hfp : has_file pp patch) (Hfn : has_file np (encode_nvm tags post)) (Ht : byte 0 patch = TLV_TYPE_PATCH)
  (Hl : (28 <= length patch)%nat /\ Z.of_nat (length patch) < 2 ^ 31) (Hsup : supported (version s) TLV_TYPE_PATCH (byte 14 patch)) (Htags : nvm_ok tags)
  (Hsz : Z.of_nat (length (encode_nvm tags post)) < 2 ^ 31) (Hs : script_ok patch (encode_nvm (map with_addr tags) post) s)
  (Hu : unread (b_tr w) = replies patch (encode_nvm (map with_addr tags) post) s ++ rest) :
  exists err w', rome_soc_init junk w = Some (err, w') /\ 0 <= err /\ dnld_fd w' = -1 /\ unread (b_tr w') = rest /\
    sent (b_tr w') = sent (b_tr w) ++ outs line_fd (bring_up_bytes patch (encode_nvm (map with_addr tags) post)).
Proof.
  edestruct soc_init_run as (err & w' & E & H1 & H2 & H3 & _ & H5); [done|done|exact Hfw|exact Hfp|exact Hfn|exact Ht|exact Hl|exact Hsup|exact Htags|exact Hsz|exact Hs|exact Hu|].
  by exists err, w'.
Qed.

(** The command that switches the log of the controller. *)
Definition log_command (on : bool) : list Z := [0x01; 0x17; 0xFC; 0x02; 0x00; if on then 0x01 else 0x00].

Lemma log_run params code ps rest w : wait_vsc_evt w = true -> accepts params -> (length ps < 256)%nat -> unread (b_tr w) = packet 0xFF params ++ packet code ps ++ rest ->
  exists on w', enable_controller_log junk false w = Some (tt, w') /\ sent (b_tr w') = sent (b_tr w) ++ outs line_fd (log_command on) /\ unread (b_tr w') = rest.
Proof.
  intros Hv (t & qs & -> & Ht & Hlen) Hps Hu. unfold enable_controller_log. erewrite bind_run by reflexivity. set (on := env_soclog (b_tr w)). exists on.
  erewrite bind_run by reflexivity. destruct (stack_run w) as (rsp & Er & Hr). rewrite (bind_run _ _ _ _ _ Er).
  destruct (vs_send_run w (log_command on) rsp 6 (0 :: t :: 0 :: qs) (fun w => w) (packet code ps ++ rest)) as (tr1 & rsp1 & E1 & Hr1 & Hu1 & Hs1);
    [simpl; lia|done|done|done|intros again tr buf; by destruct Ht as [-> | ->]|done|].
  change (hci_send_vs_cmd junk [0x01; 0x17; 0xFC; 0x02; 0x00; if on then 0x01 else 0x00] rsp 6 w) with (hci_send_vs_cmd junk (log_command on) rsp 6 w).
  rewrite (bind_run _ _ _ _ _ E1). cbv beta iota.
  destruct (read_event_run stream Hf junk Hj (put_b_tr tr1 w) code ps rest rsp1) as (tr2 & buf & E2 & Hu2 & Hs2); [done|done|done|].
  assert (E3 : (read_event junk rsp1;; mret tt) (put_b_tr tr1 w) = Some (tt, put_b_tr tr2 (put_b_tr tr1 w))) by (by rewrite (bind_run _ _ _ _ _ E2)).
  rewrite (bind_run _ _ _ _ _ E3). eexists. split; [reflexivity|]. simpl. split; [|done]. rewrite Hs2. exact Hs1.
Qed.

End Init.

(** ** A controller that sends no event *)

Section Mute.
Context `{BE : BtEnv} {LF : LineFd} (junk : nat).

(** What comes from it has no packet indicator and is read to its end, and a
    write fails or takes bytes. *)
Record mute (noise : list Z) : Prop := {
  mu_noise : Forall (fun b => b <> 4) noise;
  mu_length : (length noise < junk)%nat;
  mu_read : forall tr fd, env_bread tr fd 1 = take 1 (drop (nread tr) noise);
  mu_write : forall tr fd bs, bs <> [] -> env_bwrite tr fd bs <> 0
}.

Context (noise : list Z) (Hm : mute noise).

Lemma mute_indicator fd : forall k tr buf, (length (drop (nread tr) noise) < k)%nat -> (1 <= length buf)%nat ->
  exists tr' buf', find_indicator fd k buf tr = Some ((false, buf'), tr') /\ length buf' = length buf.
Proof.
  induction k as [|k IH]; intros tr buf Hk Hb; [lia|]. cbn [find_indicator]. unfold bread at 1. erewrite bind_run by reflexivity. rewrite !(mu_read _ Hm), take_take.
  change (Nat.min 1 1) with 1%nat. destruct (drop (nread tr) noise) as [|b l] eqn:Hd; cbn [take].
  { by eexists _, buf. }
  rewrite firstn_O. assert (Hst : store_bytes 0 [b] buf = Some (b :: tail buf)) by (rewrite store_bytes_run by (simpl; lia); by destruct buf).
  rewrite Hst. erewrite bind_run by reflexivity. assert (b <> 4) as Hne.
  { pose proof (mu_noise _ Hm) as Hn. rewrite <- (take_drop (nread tr) noise), Hd in Hn. apply Forall_app in Hn as [_ Hn]. by apply Forall_cons in Hn as [? _]. }
  rewrite (proj2 (Z.eqb_neq _ _) Hne). destruct (IH (BRead fd 1 [b] :: tr) (b :: tail buf)) as (tr' & buf' & E & Hl).
  - simpl. rewrite <- drop_drop, Hd. simpl in *. rewrite drop_0. lia.
  - simpl. lia.
  - exists tr', buf'. rewrite E. split; [done|]. rewrite Hl. destruct buf; simpl in *; lia.
Qed.

Lemma mute_packet fd check buf size tr : (1 <= length buf)%nat -> exists tr' buf', read_packet fd junk check buf size tr = Some ((None, buf'), tr') /\ length buf' = length buf.
Proof.
  intros Hb. destruct (mute_indicator fd junk tr buf) as (tr' & buf' & E & Hl); [rewrite length_drop; pose proof (mu_length _ Hm); lia|done|].
  exists tr', buf'. unfold read_packet. by rewrite (bind_run _ _ _ _ _ E).
Qed.

Lemma mute_vs rsp w : (1 <= length rsp)%nat -> exists tr' rsp', read_vs junk rsp w = Some ((-1, rsp'), put_b_tr tr' w) /\ length rsp' = length rsp.
Proof.
  intros Hb. destruct (mute_packet line_fd (fun b => byte 1 b =? 0xFF) rsp HCI_MAX_EVENT_SIZE (b_tr w) Hb) as (tr' & rsp' & E & Hl). exists tr', rsp'. split; [|done].
  pose proof (mu_length _ Hm) as Hj. unfold read_vs. destruct junk as [|depth]; [lia|]. cbn [read_vs_hci_event]. change (HCI_MAX_EVENT_SIZE =? 0)%nat with false. cbv iota. unfold uart.
  by rewrite (bind_run _ _ _ _ _ (zoom_run _ _ _ _ _ _ E)).
Qed.

Lemma mute_event rsp w : (1 <= length rsp)%nat -> exists tr' rsp', read_event junk rsp w = Some ((-1, rsp'), put_b_tr tr' w).
Proof.
  intros Hb. destruct (mute_packet line_fd (fun _ => true) rsp HCI_MAX_EVENT_SIZE (b_tr w) Hb) as (tr' & rsp' & E & Hl). exists tr', rsp'.
  unfold read_event. apply zoom_run. unfold read_hci_event. change (HCI_MAX_EVENT_SIZE =? 0)%nat with false. cbv iota. by rewrite (bind_run _ _ _ _ _ E).
Qed.

(** A write ends: with an error, or with all of the bytes. *)
Lemma mute_write fd buf len tr : 0 < len < 2 ^ 31 -> len <= Z.of_nat (length buf) -> exists r tr', do_write fd buf len tr = Some (r, tr') /\ (r < 0 \/ r = len).
Proof.
  intros Hl Hb. unfold do_write. rewrite (proj2 (Z.ltb_ge _ _)) by lia.
  assert (H : forall fuel off wl tr, 0 <= off < Z.of_nat (length buf) -> 0 < wl <= len -> (Z.to_nat wl < fuel)%nat ->
    exists r tr', write_loop fd fuel buf off wl len tr = Some (r, tr') /\ (r < 0 \/ r = len)).
  { induction fuel as [|fuel IH]; intros off wl tr0 Ho Hw Hf; [lia|]. cbn [write_loop]. set (bs := take _ _). set (ret := env_bwrite tr0 fd bs).
    assert (Hr : ret <> 0).
    { apply (mu_write _ Hm). intros Hn. apply (f_equal length) in Hn. unfold bs in Hn. rewrite length_take, length_drop in Hn. simpl in Hn. lia. }
    erewrite bind_run by reflexivity. fold ret. destruct (Z.ltb_spec ret 0); [eexists _, _; split; [done|left; lia]|]. rewrite (proj2 (Z.eqb_neq _ _) Hr).
    destruct (Z.ltb_spec ret wl); [|eexists _, _; split; [done|by right]]. rewrite i32_id by (unfold i32_range; lia). apply IH; lia. }
  apply H; lia.
Qed.

Lemma mute_ver_req w : exists err w', rome_patch_ver_req junk w = Some (err, w') /\ err < 0.
Proof.
  unfold rome_patch_ver_req. rewrite (bind_run _ _ _ _ _ (frame_request EDL_PATCH_VER_REQ_CMD w (or_introl eq_refl))).
  destruct (stack_run w) as (rsp & Er & Hr). rewrite (bind_run _ _ _ _ _ Er). change (1 + 3 + EDL_PATCH_CMD_LEN) with 5. set (cmd := request _ ++ _).
  destruct (mute_write line_fd cmd 5 (b_tr w)) as (r & tr1 & Ew & Hw); [lia|unfold cmd; rewrite length_app; simpl; lia|]. set (w1 := put_b_tr tr1 w).
  assert (E : exists err rsp1 w2, hci_send_vs_cmd junk cmd rsp 5 w = Some ((err, rsp1), w2) /\ (err < 0 \/ err = 5 /\ length rsp1 = HCI_MAX_EVENT_SIZE)).
  { unfold hci_send_vs_cmd, write_line, uart. rewrite (bind_run _ _ _ _ _ (zoom_run _ _ _ _ _ _ Ew)). fold w1. destruct Hw as [Hw| ->].
    - rewrite (proj2 (Z.eqb_neq r 5)) by lia. eexists _, _, _. split; [done|by left].
    - rewrite Z.eqb_refl. cbn [negb]. erewrite bind_run by reflexivity. destruct (wait_vsc_evt w1).
      + destruct (mute_vs rsp w1) as (tr2 & rsp2 & E2 & Hl2); [rewrite Hr; unfold HCI_MAX_EVENT_SIZE; lia|]. rewrite (bind_run _ _ _ _ _ E2). eexists _, _, _. split; [done|]. left. done.
      + eexists _, _, _. split; [done|by right]. }
  destruct E as (err & rsp1 & w2 & E & He). unfold send_and_complete.
  assert (E3 : exists x w3, (if negb (err =? 5) then mret (err, true) else '(err0, _) ← read_event junk rsp1; mret (err0, err0 <? 0)) w2 = Some (x, w3) /\ x.1 < 0).
  { destruct He as [He|[-> He]].
    - rewrite (proj2 (Z.eqb_neq err 5)) by lia. by eexists _, _.
    - rewrite Z.eqb_refl. cbn [negb]. destruct (mute_event rsp1 w2) as (tr3 & rsp3 & E3); [rewrite He; unfold HCI_MAX_EVENT_SIZE; lia|]. rewrite (bind_run _ _ _ _ _ E3). by eexists _, _. }
  destruct E3 as (x & w3 & E3 & Hx). exists x.1, w3. split; [|done].
  assert (E4 : send_and_complete junk cmd rsp 5 w = Some (x, w3)) by (unfold send_and_complete; rewrite (bind_run _ _ _ _ _ E); exact E3).
  unfold send_and_complete in E4. by rewrite (bind_run _ _ _ _ _ E4).
Qed.

(** Its initialisation ends and fails. *)
Lemma mute_soc_init w : wipower_flag w <> WIPOWER_IN_EMBEDDED_MODE -> exists err w', rome_soc_init junk w = Some (err, w') /\ err < 0.
Proof.
  intros Hwp. unfold rome_soc_init. do 2 erewrite bind_run by reflexivity. change (wipower_flag (put_dnld_fd line_fd w)) with (wipower_flag w). rewrite (proj2 (Z.eqb_neq _ _) Hwp). cbn [andb].
  erewrite bind_run by reflexivity. destruct (mute_ver_req (put_dnld_fd line_fd w)) as (err & w1 & E1 & He). rewrite (bind_run _ _ _ _ _ E1), (proj2 (Z.ltb_lt _ _) He).
  do 2 erewrite bind_run by reflexivity. by eexists _, _.
Qed.

End Mute.
