(* ===== verification/RomeDemo.v ===== *)
(** * The Rome controller on concrete inputs

    A controller whose bytes arrive one at a time, for which the theorems are
    evaluated, and what the code does where something goes wrong. *)

From Stdlib Require Import ZArith Lia.
From stdpp Require Import list strings.
From S2P Require Import Prelude BtHci Rome RomeProps RomeNvm RomeInit.

(** ** Short writes *)

Section Short.
Context `{BE : BtEnv}.

(** The three writes of a buffer of which two are short. *)
Definition first_part (buf : list Z) (len : Z) : list Z := take (Z.to_nat len) buf.
Definition second_part (buf : list Z) (len r1 : Z) : list Z := take (Z.to_nat (len - r1)) (drop (Z.to_nat r1) buf).
Definition third_part (buf : list Z) (len r1 r2 : Z) : list Z := take (Z.to_nat (len - r1 - r2)) (drop (Z.to_nat r2) buf).

(** After two short writes [do_write] goes on at the wrong place: the
    offset of the third write is the length of the second one and not the sum,
    so that bytes are sent again, the last ones are not sent, and the whole
    length is reported as written. *)
Theorem do_write_short_twice fd buf len r1 r2 tr (Hl : 0 < len < 2 ^ 31) (Hb : len <= Z.of_nat (length buf)) (H1 : 0 < r1) (H2 : 0 < r2) (H12 : r1 + r2 < len)
  (E1 : env_bwrite tr fd (first_part buf len) = r1)
  (E2 : env_bwrite (BWrite fd (first_part buf len) r1 :: tr) fd (second_part buf len r1) = r2)
  (E3 : env_bwrite (BWrite fd (second_part buf len r1) r2 :: BWrite fd (first_part buf len) r1 :: tr) fd (third_part buf len r1 r2) = len - r1 - r2) :
  exists tr', do_write fd buf len tr = Some (len, tr') /\
    sent tr' = sent tr ++ outs fd (take (Z.to_nat r1) buf ++ take (Z.to_nat r2) (drop (Z.to_nat r1) buf) ++ take (Z.to_nat (len - r1 - r2)) (drop (Z.to_nat r2) buf)).
Proof.
  unfold do_write. rewrite (proj2 (Z.ltb_ge _ _)) by lia. remember (Z.to_nat len) as m eqn:Hm.
  cbn [write_loop]. rewrite drop_0. fold (first_part buf len). erewrite bind_run by reflexivity. rewrite !E1.
  rewrite (proj2 (Z.ltb_ge r1 0)), (proj2 (Z.eqb_neq r1 0)), (proj2 (Z.ltb_lt r1 len)), (i32_id (len - r1)) by (unfold i32_range; lia).
  destruct m as [|m]; [lia|]. remember m as m1 eqn:Hm1. cbn [write_loop]. fold (second_part buf len r1). erewrite bind_run by reflexivity. rewrite !E2.
  rewrite (proj2 (Z.ltb_ge r2 0)), (proj2 (Z.eqb_neq r2 0)), (proj2 (Z.ltb_lt r2 (len - r1))), (i32_id (len - r1 - r2)) by (unfold i32_range; lia).
  destruct m1 as [|k]; [lia|]. cbn [write_loop]. fold (third_part buf len r1 r2). erewrite bind_run by reflexivity. rewrite !E3.
  rewrite (proj2 (Z.ltb_ge (len - r1 - r2) 0)), (proj2 (Z.eqb_neq (len - r1 - r2) 0)), Z.ltb_irrefl by lia. eexists. split; [reflexivity|].
  cbn [sent]. unfold first_part, second_part, third_part. rewrite !outs_app, !take_take, !Nat.min_l, <- !app_assoc by lia. done.
Qed.

End Short.

(** ** A controller *)

Module Demo.

Definition addr : list Z := [0x11; 0x22; 0x33; 0x44; 0x55; 0x66].
Definition tag2 : nvm_tag := {| t_id := 2; t_words := replicate 8 0; t_data := replicate 6 0 |}.
Definition tag9 : nvm_tag := {| t_id := 9; t_words := replicate 8 1; t_data := [7; 8; 9] |}.
Definition nvm : list Z := encode_nvm [tag9; tag2] [].
Definition nvm_sent : list Z := encode_nvm [tag9; {| t_id := 2; t_words := replicate 8 0; t_data := addr |}] [].

(** A patch file of more than one segment. *)
Definition patch : list Z := [1; 0; 0; 0] ++ replicate 300 5 ++ [1; 2; 3].
Definition patch0 : list Z := <[14%nat := 0]> patch.

Definition btfw32 : string := "/bt_firmware/image/btfw32.tlv".
Definition btnv32 : string := "/bt_firmware/image/btnv32.bin".

Definition files (path : string) : option (list Z * nat) :=
  if String.eqb path btfw32 then Some (patch0, length patch0) else if String.eqb path btnv32 then Some (nvm, length nvm) else None.

Definition env (stream : list Z) : BtEnv := {|
  env_bwrite := fun _ _ bs => Z.of_nat (length bs);
  env_bread := fun tr _ _ => take 1 (drop (nread tr) stream);
  env_fopen := fun _ path => files path;
  env_bmalloc := fun _ => true;
  env_userial := fun _ _ => 0;
  env_stack := fun _ => [];
  env_soclog := fun _ => false; env_call := fun _ _ _ => 0; env_property := fun _ _ => [];
  enable_extldo := true;
  vnd_local_bd_addr := addr
|}.

Lemma env_writes stream : @writes_all (env stream).
Proof. by intros tr fd bs. Qed.

Lemma env_feeds stream : @feeds (env stream) stream.
Proof. intros tr fd n _. exists 1%nat. split; [lia|done]. Qed.

Definition no_info : patch_info :=
  {| patch_id := 0; rom_version := 0; build_version := 0; patch_base_addr := 0; patch_entry_addr := 0; patch_length := 0; patch_crc := 0; patch_ctrl := 0 |}.

Definition world0 : rworld :=
  {| rome_ver := 0; gTlv_type := 0; gTlv_dwndCfg := 0; wipower_flag := 0; wipower_handoff_ready := 0; wait_vsc_evt := true; patch_dnld_pending := false;
     dnld_fd := -1; phdr_buffer := BNull; pdata_buffer := BNull; rampatch_patch_info := no_info; rampatch_file_path := ""; nvm_file_path := "";
     fw_su_info := None; fw_su_offset := 0; b_tr := [] |}.

Definition accept : list Z * (Z * list Z) := ([0; 4; 0], (0x0E, [1; 0; 0xFC; 0])).
Definition done_event : Z * list Z := (0x0E, [1; 3; 0x0C; 0]).

Lemma accept_good : good_events accept.
Proof. split; [exists 4, []; split; [done|]; split; [by left|simpl; lia]|simpl; lia]. Qed.

Definition answer : script :=
  {| s_product := 8; s_patchver := 1; s_build := 0x0302; s_soc := 0x0044; s_label := [66; 84]; s_ver_done := done_event; s_baud_done := done_event;
     s_info_done := done_event; s_ldo_done := done_event; s_reset_done := done_event; s_patch_evs := [accept]; s_patch_last := accept;
     s_nvm_evs := []; s_nvm_last := accept |}.

Definition stream : list Z := @replies (env []) patch0 nvm_sent answer.

Lemma rome_bring_up_witness : exists err w', @rome_soc_init (env stream) 7 1 world0 = Some (err, w') /\ 0 <= err /\ dnld_fd w' = -1 /\
  @unread stream (b_tr w') = [] /\ sent (b_tr w') = outs 7 (@bring_up_bytes (env stream) patch0 nvm_sent).
Proof.
  apply (@rome_bring_up (env stream) eq_refl 7 (env_writes stream) stream (env_feeds stream) 1 ltac:(lia) ltac:(by intros) ltac:(intros; simpl; lia)
    btfw32 btnv32 patch0 [tag9; tag2] [] answer [] world0).
  - done.
  - done.
  - simpl. tauto.
  - by intros tr.
  - by intros tr.
  - done.
  - split; vm_compute; [lia|done].
  - intros _. split; [vm_compute; split; discriminate|by left].
  - split; [done|]. split; [|vm_compute; done]. constructor; [|constructor; [|constructor]]; constructor; try done; vm_compute; try lia; done.
  - vm_compute. done.
  - constructor; [repeat split; vm_compute; done|simpl; lia|repeat constructor; simpl; lia| |]; (split; [reflexivity|]); (split; [repeat constructor; apply accept_good|apply accept_good]).
  - rewrite app_nil_r. reflexivity.
Defined.

Lemma hci_event_framing_witness : let line := [9; 9] ++ packet 0x0E [1; 2; 3] ++ [4; 7] in
  exists tr', @read_hci_event (env line) 7 3 zero_array HCI_MAX_EVENT_SIZE [] = Some ((6, packet 0x0E [1; 2; 3] ++ drop 6 zero_array), tr') /\
    unread line tr' = [4; 7] /\ sent tr' = [].
Proof.
  intros line. apply (@hci_event_framing (env line) line (env_feeds line) 7 3 [9; 9] 0x0E [1; 2; 3] [4; 7] [] zero_array HCI_MAX_EVENT_SIZE).
  - simpl; lia.
  - repeat constructor; lia.
  - simpl; lia.
  - done.
  - unfold HCI_MAX_EVENT_SIZE. simpl. lia.
  - reflexivity.
Defined.

Definition patch_world : rworld :=
  put_pdata_buffer (BBuf (concat [replicate 239 6] ++ [1; 2] ++ [0xFF]))
    (put_rampatch_patch_info {| patch_id := 0; rom_version := 0; build_version := 0; patch_base_addr := 0x10000; patch_entry_addr := 0; patch_length := 241; patch_crc := 0; patch_ctrl := 0 |} world0).

Definition patch_line : list Z := concat (map (events true true) ([accept] ++ [accept])) ++ [].

Lemma patch_download_witness : exists err tr', @rome_edl_patch_download_request (env patch_line) 7 1 patch_world = Some (err, put_b_tr tr' patch_world) /\ 0 <= err /\
  unread patch_line tr' = [] /\ sent tr' = outs 7 (patch_commands 0x10000 ([replicate 239 6] ++ [[1; 2]])).
Proof.
  apply (@patch_download (env patch_line) 7 (env_writes patch_line) patch_line (env_feeds patch_line) 1 ltac:(lia) [replicate 239 6] [1; 2] [0xFF] [accept] accept [] patch_world).
  - done.
  - vm_compute. done.
  - done.
  - repeat constructor.
  - simpl; lia.
  - done.
  - simpl; lia.
  - done.
  - repeat constructor; apply accept_good.
  - apply accept_good.
  - reflexivity.
Defined.

(** A line that takes at most two bytes at a time. *)
Definition slow : BtEnv := {|
  env_bwrite := fun _ _ bs => Z.min 2 (Z.of_nat (length bs));
  env_bread := fun _ _ _ => []; env_fopen := fun _ _ => None; env_bmalloc := fun _ => true; env_userial := fun _ _ => 0; env_stack := fun _ => [];
  env_soclog := fun _ => false; env_call := fun _ _ _ => 0; env_property := fun _ _ => []; enable_extldo := false; vnd_local_bd_addr := addr |}.

Lemma do_write_short_twice_witness : exists tr', @do_write slow 7 [1; 3; 0x0C; 0; 9] 5 [] = Some (5, tr') /\ sent tr' = outs 7 ([1; 3] ++ [0x0C; 0] ++ [0x0C]).
Proof. apply (@do_write_short_twice slow 7 [1; 3; 0x0C; 0; 9] 5 2 2 []); done || (simpl; lia). Defined.

(** ** Where something goes wrong *)

(** A configuration file that is not there is not an error. *)
Definition no_nvm (stream : list Z) : BtEnv := {|
  env_bwrite := fun _ _ bs => Z.of_nat (length bs);
  env_bread := fun tr _ _ => take 1 (drop (nread tr) stream);
  env_fopen := fun _ path => if String.eqb path btfw32 then Some (patch0, length patch0) else None;
  env_bmalloc := fun _ => true; env_userial := fun _ _ => 0; env_stack := fun _ => []; env_soclog := fun _ => false; env_call := fun _ _ _ => 0; env_property := fun _ _ => [];
  enable_extldo := false; vnd_local_bd_addr := addr |}.

Definition run_result (o : option (Z * rworld)) : option Z := fst <$> o.

Lemma missing_nvm_reported_as_success :
  run_result (@rome_download_tlv_file (no_nvm (answers patch0 [accept] accept)) 7 1 (put_rome_ver ROME_VER_3_2 (put_nvm_file_path btnv32 (put_rampatch_file_path btfw32 world0)))) = Some 70.
Proof. vm_compute. reflexivity. Qed.

(** An event of the controller's log in the middle of a download: what follows
    it is read but its result is not looked at, here an event that reports the
    segment as refused. *)
Definition refused : list Z := packet 0xFF [0; 4; 1].
Definition log_event : list Z := packet 0xFF [0x17; 0].
Definition loading (w : rworld) : rworld := put_patch_dnld_pending true (put_dnld_fd 7 w).

Lemma refused_is_error : fst <$> (fst <$> @read_vs (env refused) 7 2 zero_array (loading world0)) = Some (-1).
Proof. vm_compute. reflexivity. Qed.

Lemma refused_after_log_is_success : fst <$> (fst <$> @read_vs (env (log_event ++ refused)) 7 2 zero_array (loading world0)) = Some 5.
Proof. vm_compute. reflexivity. Qed.

(** A label of 255 bytes is ended outside of its array. *)
Lemma long_label_overflows : get_vs_hci_event (fun _ => mret tt) (packet 0xFF ([0; 5; 255] ++ replicate 250 65) ++ [0; 0; 0; 0]) world0 = None.
Proof. vm_compute. reflexivity. Qed.

(** A payload longer than its header says is written past its buffer. *)
Lemma long_payload_overflows : read_payload [1; 2; 3; 4] 3 world0 = None.
Proof. vm_compute. reflexivity. Qed.

(** The tag of the address at the end of a file with less than six bytes. *)
Lemma short_address_tag_overflows : @rome_get_tlv_file
  {| env_bwrite := fun _ _ _ => 0; env_bread := fun _ _ _ => []; env_fopen := fun _ _ => Some ([2; 13; 0; 0; 2; 0; 1; 0; 0; 0; 0; 0; 0; 0; 0; 0; 7], 17%nat);
     env_bmalloc := fun _ => true; env_userial := fun _ _ => 0; env_stack := fun _ => []; env_soclog := fun _ => false; env_call := fun _ _ _ => 0; env_property := fun _ _ => []; enable_extldo := false; vnd_local_bd_addr := addr |}
  "" world0 = None.
Proof. vm_compute. reflexivity. Qed.

(** The fields of a patch header are joined to those of the one before. *)
Lemma second_header_joined : let hdr n := replicate 16 0 ++ [n; 0; 0; 0] ++ replicate 8 0 in
  patch_length (rome_extract_patch_header_info (hdr 5) (rome_extract_patch_header_info (hdr 10) no_info)) = 15.
Proof. vm_compute. reflexivity. Qed.

End Demo.
