(* ===== verification/CText.v ===== *)
(** * Text in C

    Strings are bytes in an array up to a zero byte.  What the vendor library
    uses of [string.h], [stdlib.h], [ctype.h] and [stdio.h]. *)

From Stdlib Require Import ZArith Lia.
From stdpp Require Import list strings.
From S2P Require Import Prelude.

Abbreviation text := (list Z).

(** The characters of a literal. *)
Fixpoint chars (s : string) : text :=
  match s with EmptyString => [] | String c s => Z.of_nat (Ascii.nat_of_ascii c) :: chars s end.

Definition newline : Z := 10.

(** ** [ctype.h] *)

Definition between (a b c : Z) : bool := (a <=? c) && (c <=? b).
Definition isspace (c : Z) : bool := (c =? 32) || between 9 13 c.
Definition isalpha (c : Z) : bool := between 65 90 c || between 97 122 c.
Definition toupper (c : Z) : Z := if between 97 122 c then c - 32 else c.

(** The value of a hexadecimal digit. *)
Definition xdigit (c : Z) : option Z :=
  if between 48 57 c then Some (c - 48)
  else if between 65 70 c then Some (c - 55)
  else if between 97 102 c then Some (c - 87)
  else None.
Definition isxdigit (c : Z) : bool := match xdigit c with Some _ => true | None => false end.

(** ** Strings in an array *)

(** Up to the first zero byte; none if there is none. *)
Fixpoint until_nul (l : list Z) : option text :=
  match l with [] => None | c :: l => if c =? 0 then Some [] else cons c <$> until_nul l end.

Definition cstr (off : nat) (buf : list Z) : option text := until_nul (drop off buf).

(** Bytes that are known to end with a zero byte after them. *)
Definition cut (l : list Z) : text := default l (until_nul l).

Definition starts_with (c : Z) (s : text) : bool := match s with x :: _ => x =? c | [] => false end.

(** [strstr(s, "c") - s] for one character. *)
Fixpoint index_of (c : Z) (s : text) : option nat :=
  match s with [] => None | x :: s => if x =? c then Some 0%nat else S <$> index_of c s end.

(** [strlcpy(dst, s, size)]: what is written to [dst]. *)
Definition strlcpy (s : text) (size : nat) : list Z := take (size - 1) s ++ [0].

(** ** Numbers *)

Fixpoint skip_while (p : Z -> bool) (s : text) : text :=
  match s with c :: s' => if p c then skip_while p s' else s | [] => [] end.

Definition LONG_MAX : Z := 2 ^ 31 - 1.
Definition LONG_MIN : Z := - 2 ^ 31.

Fixpoint hex_digits (acc : Z) (s : text) : Z :=
  match s with c :: s => match xdigit c with Some d => hex_digits (acc * 16 + d) s | None => acc end | [] => acc end.

(** [0x] in front of the digits is allowed. *)
Definition hex_prefix (s : text) : text :=
  match s with a :: b :: s' => if (a =? 48) && ((b =? 120) || (b =? 88)) then s' else s | _ => s end.

Definition strtol16 (s : text) : Z :=
  match skip_while isspace s with
  | c :: s =>
      if c =? 45 then Z.max LONG_MIN (- hex_digits 0 (hex_prefix s))
      else Z.min LONG_MAX (hex_digits 0 (hex_prefix (if c =? 43 then s else c :: s)))
  | [] => 0
  end.

(** [snprintf("%x")] *)
Definition hex_char (d : Z) : Z := if d <? 10 then d + 48 else d + 87.

(** [n] digits. *)
Fixpoint hex_text (n : nat) (v : Z) : text :=
  match n with O => [] | S n => hex_text n (v / 16) ++ [hex_char (v mod 16)] end.

(** As many as are needed. *)
Fixpoint hex_short (fuel : nat) (v : Z) : text :=
  match fuel with
  | O => []
  | S fuel => (if v <? 16 then [] else hex_short fuel (v / 16)) ++ [hex_char (v mod 16)]
  end.

Definition print_hex (v : Z) : text := hex_short 8 v.

Fixpoint to_string (s : text) : string :=
  match s with [] => EmptyString | c :: s => String (Ascii.ascii_of_nat (Z.to_nat c)) (to_string s) end.

(** ** [fgets] *)

(** At most [n] characters up to and with a newline, and the rest. *)
Fixpoint get_line (n : nat) (s : text) : text * text :=
  match n, s with
  | S n, c :: s => if c =? newline then ([c], s) else let '(l, r) := get_line n s in (c :: l, r)
  | _, _ => ([], s)
  end.

(** [fgets(buf, size, stream)]: the array and the rest of the file; none at the
    end of it. *)
Definition fgets (buf : list Z) (size : nat) (stream : text) : option (list Z * text) :=
  match stream with
  | [] => None
  | _ => let '(l, r) := get_line (size - 1) stream in Some (l ++ [0] ++ drop (S (length l)) buf, r)
  end.

(** ** Lemmas *)

Lemma until_nul_app l rest : Forall (fun c => c <> 0) l -> until_nul (l ++ 0 :: rest) = Some l.
Proof. induction 1 as [|c l Hc _ IH]; [done|]. simpl. rewrite (proj2 (Z.eqb_neq _ _) Hc). by rewrite IH. Qed.

Lemma get_line_run n l rest : Forall (fun c => c <> newline) l -> (length l < n)%nat -> get_line n (l ++ newline :: rest) = (l ++ [newline], rest).
Proof.
  revert n. induction l as [|c l IH]; intros [|n] Hl Hn; simpl in *; [lia|done|lia|]. apply Forall_cons in Hl as [Hc Hl].
  rewrite (proj2 (Z.eqb_neq _ _) Hc). rewrite IH by (done || lia). done.
Qed.

Lemma get_line_shorter n s : (length (get_line n s).2 <= length s)%nat.
Proof.
  revert s. induction n as [|n IH]; intros [|c s]; simpl; try lia. destruct (c =? newline); simpl; [lia|].
  specialize (IH s). destruct (get_line n s). simpl in *. lia.
Qed.

Lemma fgets_run buf size l rest : Forall (fun c => c <> newline) l -> (S (length l) < size)%nat -> fgets buf size (l ++ newline :: rest) =
  Some (l ++ [newline; 0] ++ drop (S (S (length l))) buf, rest).
Proof.
  intros Hl Hs. unfold fgets. destruct (l ++ newline :: rest) eqn:E; [by destruct l|]. rewrite <- E, get_line_run by (done || lia).
  rewrite length_app, Nat.add_comm. simpl. by rewrite <- app_assoc.
Qed.

Lemma hex_char_digit d : 0 <= d < 16 -> xdigit (hex_char d) = Some d.
Proof.
  intros Hd. unfold hex_char, xdigit, between. destruct (Z.ltb_spec d 10).
  - rewrite !(proj2 (Z.leb_le _ _)) by lia. simpl. f_equal. lia.
  - rewrite (proj2 (Z.leb_gt (d + 87) 57)), andb_false_r by lia. rewrite (proj2 (Z.leb_gt (d + 87) 70)), andb_false_r by lia.
    rewrite !(proj2 (Z.leb_le _ _)) by lia. simpl. f_equal. lia.
Qed.

Lemma hex_text_length n v : length (hex_text n v) = n.
Proof. revert v. induction n as [|n IH]; intros v; [done|]. simpl. rewrite length_app, IH. simpl. lia. Qed.

Lemma hex_text_digits n : forall v acc rest, 0 <= v < 16 ^ Z.of_nat n -> 
  hex_digits acc (hex_text n v ++ rest) = hex_digits (acc * 16 ^ Z.of_nat n + v) rest.
Proof.
  induction n as [|n IH]; intros v acc rest Hv; [simpl in *; f_equal; lia|]. rewrite Nat2Z.inj_succ, Z.pow_succ_r in * by lia.
  cbn [hex_text]. rewrite <- app_assoc, IH by (split; [apply Z.div_pos; lia|apply Z.div_lt_upper_bound; lia]). cbn [app hex_digits].
  rewrite hex_char_digit by (apply Z.mod_pos_bound; lia). f_equal. pose proof (Z.div_mod v 16). lia.
Qed.

(** No digit is a space, a sign, a zero byte or a newline, nor the letter of a
    prefix. *)
Lemma hex_char_range d : 0 <= d < 16 -> 48 <= hex_char d <= 57 \/ 97 <= hex_char d <= 102.
Proof. intros Hd. unfold hex_char. destruct (Z.ltb_spec d 10); lia. Qed.

Lemma hex_text_chars n v : 0 <= v -> Forall (fun c => 48 <= c <= 57 \/ 97 <= c <= 102) (hex_text n v).
Proof.
  revert v. induction n as [|n IH]; intros v Hv; [constructor|]. simpl. apply Forall_app. split; [apply IH, Z.div_pos; lia|].
  constructor; [|constructor]. apply hex_char_range, Z.mod_pos_bound. lia.
Qed.

(** The digits of a number are read back, whatever follows that is not one. *)
Lemma strtol_hex n v rest : (0 < n < 8)%nat -> 0 <= v < 16 ^ Z.of_nat n -> (forall c s, rest = c :: s -> xdigit c = None /\ c <> 120 /\ c <> 88) ->
  strtol16 (hex_text n v ++ rest) = v.
Proof.
  intros Hn Hv Hr. pose proof (hex_text_chars n v ltac:(lia)) as Hc. pose proof (hex_text_digits n v 0 rest Hv) as Hd. pose proof (hex_text_length n v) as Hl.
  rewrite Z.mul_0_l, Z.add_0_l in Hd. assert (Hrest : hex_digits v rest = v) by (destruct rest as [|c s]; [done|]; simpl; by destruct (Hr c s eq_refl) as [-> _]).
  rewrite Hrest in Hd. assert (H7 : v < 16 ^ 7) by (eapply Z.lt_le_trans; [apply Hv|]; apply Z.pow_le_mono_r; lia).
  unfold strtol16. destruct (hex_text n v) as [|c l]; [simpl in Hl; lia|]. apply Forall_cons in Hc as [Hc Hcl]. cbn [app skip_while].
  assert (Hns : isspace c = false) by (unfold isspace, between; rewrite (proj2 (Z.eqb_neq c 32)), (proj2 (Z.leb_gt c 13)), andb_false_r by lia; done).
  rewrite Hns, (proj2 (Z.eqb_neq c 45)), (proj2 (Z.eqb_neq c 43)) by lia.
  assert (Hp : hex_prefix (c :: l ++ rest) = c :: l ++ rest).
  { unfold hex_prefix. destruct l as [|b l]; simpl.
    - destruct rest as [|b s]; [done|]. destruct (Hr b s eq_refl) as (_ & H1 & H2). by rewrite (proj2 (Z.eqb_neq b 120) H1), (proj2 (Z.eqb_neq b 88) H2), andb_false_r.
    - apply Forall_cons in Hcl as [Hb _]. by rewrite (proj2 (Z.eqb_neq b 120)), (proj2 (Z.eqb_neq b 88)), andb_false_r by lia. }
  rewrite Hp. change (c :: l ++ rest) with ((c :: l) ++ rest). rewrite Hd. unfold LONG_MAX. simpl in H7. lia.
Qed.
