(* ===== verification/PsFile.v ===== *)
(** * Configuration files of the AR3K controller

    The parser of [hw_ar3k.c] for PS files: an entry is a line with [#], a line
    with its number, a line with its length and lines with its bytes.  Lines
    are read into an array that keeps what earlier lines left behind their
    ends; the entries go to the table [ps_list]. *)

From Stdlib Require Import ZArith Lia.
From stdpp Require Import list strings.
From S2P Require Import Prelude BtHci CText.

Definition i16 (z : Z) : Z := (z + 2 ^ 15) mod 2 ^ 16 - 2 ^ 15.

Definition EILSEQ : Z := 84.
Definition MAX_TAGS : Z := 50.
Definition PS_MAX_LEN : Z := 500.
Definition LINE_SIZE_MAX : nat := 1000.
Definition ENTRY_PER_LINE : Z := 16.
Definition MAX_PREAMBLE_LEN : nat := 4.
Definition UNDEFINED : Z := 0xFFFF.

(** ** Data *)

Record ps_cfg_entry := { ps_id : Z; ps_len : Z; ps_data : bptr }.

Inductive ps_number : Set := PS_HEX | PS_DEC.
Record ps_entry_type := { pe_type : ps_number; pe_array : bool }.

Inductive ps_section : Set := PS_UNDEF | PS_ID | PS_LEN | PS_DATA.
Record tag_info := { section : ps_section; line_count : Z; char_cnt : nat; byte_count : nat }.
Definition no_tag : tag_info := {| section := PS_UNDEF; line_count := 0; char_cnt := 0; byte_count := 0 |}.

Record aworld := { ps_list : list ps_cfg_entry; upio_state : list Z; a_tr : bhistory }.

Definition put_ps_list (v : list ps_cfg_entry) (x : aworld) : aworld := {| ps_list := v; upio_state := upio_state x; a_tr := a_tr x |}.
Definition put_upio (v : list Z) (x : aworld) : aworld := {| ps_list := ps_list x; upio_state := v; a_tr := a_tr x |}.
Definition put_a_tr (v : bhistory) (x : aworld) : aworld := {| ps_list := ps_list x; upio_state := upio_state x; a_tr := v |}.

(** ** Formats *)

(** The main type and the subtype of a preamble [[X:X]] that ends at
    [index]. *)
Definition get_ps_type (ptr : text) (index : nat) : option (Z * Z) :=
  if (MAX_PREAMBLE_LEN <? index)%nat then None
  else
    let '(_, type, sub_type) := fold_left (fun '(delim, type, sub_type) c =>
      if c =? 58 then (true, type, sub_type)
      else if isalpha c then if (delim : bool) then (delim, type, toupper c) else (delim, toupper c, sub_type)
      else (delim, type, sub_type)) (take (index - 1) (drop 1 ptr)) (false, 0, 0) in
    Some (type, sub_type).

(** [None] is the error. *)
Definition get_input_format (buf : text) : option ps_entry_type :=
  if negb (starts_with 91 buf) then Some {| pe_type := PS_HEX; pe_array := true |}
  else
    match index_of 93 buf with
    | None => None
    | Some index =>
        match get_ps_type buf index with
        | None => None
        | Some (type, sub_type) =>
            Some {| pe_type := if (type =? 68) || (type =? 66) then PS_DEC else PS_HEX;
                    pe_array := negb ((type =? 83) || (sub_type =? 83)) |}
        end
    end.

Definition is_hex (t : ps_entry_type) : bool := match pe_type t with PS_HEX => true | PS_DEC => false end.

Definition read_data_in_section (buf : text) (type : ps_entry_type) : Z :=
  let value ptr := if is_hex type && negb (pe_array type) then u32 (strtol16 ptr) else UNDEFINED in
  if starts_with 91 buf then
    match index_of 93 buf with None => UNDEFINED | Some i => value (drop (S i) buf) end
  else value buf.

Definition update_char_count (buf : text) : nat :=
  if starts_with 91 buf then match index_of 93 buf with None => 0 | Some i => S i end else 0.

(** ** Entries *)

Section Parse.
Context `{BE : BtEnv}.

Definition amalloc : M aworld bool := zoom a_tr put_a_tr (bext env_bmalloc BMalloc).

(** An array of [n] bytes before it is written. *)
Definition garbage (n : nat) : M aworld (list Z) := gets (fun w => take n (env_stack (a_tr w) ++ replicate n 0)).

(** [malloc(n)]; of a size beyond the address space there is none. *)
Definition malloc_bytes (n : Z) : M aworld bptr :=
  ok ← amalloc;
  if ok && (0 <=? n) then l ← garbage (Z.to_nat n); mret (BBuf l) else mret BNull.

(** [&ps_list[i]] *)
Definition get_tag (i : Z) : M aworld ps_cfg_entry := w ← get; deref (ps_list w !! Z.to_nat i).
Definition set_tag (i : Z) (t : ps_cfg_entry) : M aworld unit := get_tag i;; modify (fun w => put_ps_list (<[Z.to_nat i := t]> (ps_list w)) w).

(** One byte of the line that [ptr] points into. *)
Definition update_byte (tag : Z) (buf : list Z) (ptr : nat) (info : tag_info) : M aworld tag_info :=
  s ← deref (cstr (ptr + char_cnt info) buf);
  t ← get_tag tag;
  match ps_data t with
  | BBuf d =>
      d ← deref (store_bytes (byte_count info) [u8 (strtol16 (take 2 s))] d);
      set_tag tag {| ps_id := ps_id t; ps_len := ps_len t; ps_data := BBuf d |};;
      mret {| section := section info; line_count := line_count info; char_cnt := char_cnt info + 3; byte_count := byte_count info + 1 |}
  | _ => stuck
  end.

Definition update_tag_data (tag : Z) (buf : list Z) (ptr : nat) (info : tag_info) : M aworld tag_info :=
  info ← update_byte tag buf ptr info;
  update_byte tag buf ptr info.

(** [while (read_count > 0)], [n] being the number of turns. *)
Fixpoint read_pairs (n : nat) (tag : Z) (buf : list Z) (ptr : nat) (info : tag_info) : M aworld tag_info :=
  match n with O => mret info | S n => info ← update_tag_data tag buf ptr info; read_pairs n tag buf ptr info end.

(** ** Lines *)

(** The variables of the loop. *)
Record pstate := { p_tag_cnt : Z; p_byte_count : Z; p_format : ps_entry_type; p_status : tag_info }.

Definition spaces (s : text) : nat := length s - length (skip_while (fun c => c =? 32) s).

Definition in_section (sec : ps_section) (t : tag_info) : tag_info :=
  {| section := sec; line_count := line_count t; char_cnt := char_cnt t; byte_count := byte_count t |}.

Definition data_line (buf : list Z) (ptr : nat) (s : text) (st : pstate) (format : ps_entry_type) : M aworld (Z + pstate) :=
  let skip := spaces s in
  let ptr := (ptr + skip)%nat in
  let s := drop skip s in
  let status := p_status st in
  let status := {| section := section status; line_count := line_count status; char_cnt := update_char_count s; byte_count := byte_count status |} in
  let bc := p_byte_count st in
  let read_count := if ENTRY_PER_LINE <? bc then ENTRY_PER_LINE else bc in
  let hex := is_hex format && pe_array format in
  status ← (if hex then read_pairs (Z.to_nat ((read_count + 1) / 2)) (p_tag_cnt st) buf ptr status else mret status);
  let bc := if hex then if ENTRY_PER_LINE <? bc then bc - ENTRY_PER_LINE else 0 else bc in
  let status := {| section := section status; line_count := line_count status +u 1; char_cnt := char_cnt status; byte_count := byte_count status |} in
  let status := if bc =? 0 then no_tag else status in
  let tag_cnt := match section status with PS_UNDEF => u8 (p_tag_cnt st + 1) | _ => p_tag_cnt st end in
  if tag_cnt =? MAX_TAGS then mret (inl (- EILSEQ))
  else mret (inr {| p_tag_cnt := tag_cnt; p_byte_count := bc; p_format := format; p_status := status |}).

Definition parse_line (buf : list Z) (st : pstate) : M aworld (Z + pstate) :=
  s ← deref (cstr 0 buf);
  let ptr := spaces s in
  let s := drop ptr s in
  let status := p_status st in
  let next sec format bc := inr {| p_tag_cnt := p_tag_cnt st; p_byte_count := bc; p_format := format; p_status := in_section sec status |} in
  if starts_with 47 s && starts_with 47 (drop 1 s) then mret (inr st)
  else if starts_with 35 s then
    match section status with PS_UNDEF => mret (next PS_ID (p_format st) (p_byte_count st)) | _ => mret (inl (- EILSEQ)) end
  else
    match section status with
    | PS_UNDEF => mret (inr st)
    | PS_ID =>
        match get_input_format s with
        | None => mret (inl (- EILSEQ))
        | Some format =>
            tag ← get_tag (p_tag_cnt st);
            set_tag (p_tag_cnt st) {| ps_id := read_data_in_section s format; ps_len := ps_len tag; ps_data := ps_data tag |};;
            mret (next PS_LEN format (p_byte_count st))
        end
    | PS_LEN =>
        match get_input_format s with
        | None => mret (inl (- EILSEQ))
        | Some format =>
            let bc := i16 (read_data_in_section s format) in
            if PS_MAX_LEN <? bc then mret (inl (- EILSEQ))
            else
              tag ← get_tag (p_tag_cnt st);
              data ← malloc_bytes bc;
              set_tag (p_tag_cnt st) {| ps_id := ps_id tag; ps_len := u32 bc; ps_data := data |};;
              mret (inr {| p_tag_cnt := p_tag_cnt st; p_byte_count := bc; p_format := format;
                           p_status := {| section := PS_DATA; line_count := 0; char_cnt := char_cnt status; byte_count := byte_count status |} |})
        end
    | PS_DATA =>
        if line_count status =? 0 then
          match get_input_format s with None => mret (inl (- EILSEQ)) | Some format => data_line buf ptr s st format end
        else data_line buf ptr s st (p_format st)
    end.

(** Every line takes a character of the file. *)
Fixpoint parse_lines (fuel : nat) (buf : list Z) (stream : text) (st : pstate) : M aworld Z :=
  match fgets buf LINE_SIZE_MAX stream with
  | None => mret (p_tag_cnt st)
  | Some (buf, stream) =>
      match fuel with
      | O => stuck
      | S fuel => r ← parse_line buf st; match r with inl err => mret err | inr st => parse_lines fuel buf stream st end
      end
  end.

Definition parse_start : pstate :=
  {| p_tag_cnt := 0; p_byte_count := 0; p_format := {| pe_type := PS_HEX; pe_array := true |}; p_status := no_tag |}.

Definition ath_parse_ps (stream : text) : M aworld Z :=
  buf ← garbage (S LINE_SIZE_MAX);
  parse_lines (length stream) buf stream parse_start.

End Parse.
