(* ===== verification/PsProps.v ===== *)
(** * Theorems about the parser of PS files *)

From Stdlib Require Import ZArith Lia.
From stdpp Require Import list strings.
From S2P Require Import Prelude BtHci CText PsFile RomeProps.

(** ** Files as they are written *)

Record ps_entry := { e_id : Z; e_bytes : list Z }.

Definition cell (b : Z) : text := hex_text 2 b ++ [32].
Definition cells (bs : list Z) : text := concat (map cell bs).

(** Sixteen bytes to a line; an entry without any has an empty line. *)
Fixpoint rows (fuel : nat) (bs : list Z) : list (list Z) :=
  match fuel with
  | O => []
  | S fuel => take 16 bs :: match drop 16 bs with [] => [] | bs => rows fuel bs end
  end.

Definition line (s : text) : text := s ++ [newline].
Definition print_rows (pre : text) (rs : list (list Z)) : text :=
  match rs with [] => [] | r :: rs => line (pre ++ cells r) ++ concat (map (fun r => line (cells r)) rs) end.

Definition print_entry (e : ps_entry) : text :=
  line (chars "#") ++ line (chars "[S:H]" ++ hex_text 4 (e_id e)) ++ line (chars "[S:H]" ++ hex_text 4 (Z.of_nat (length (e_bytes e)))) ++
  print_rows (chars "[A:H]") (rows (S (length (e_bytes e))) (e_bytes e)).

Definition print_file (es : list ps_entry) : text := concat (map print_entry es).

(** An entry that fits: the bytes come in pairs. *)
Record ps_entry_ok (e : ps_entry) : Prop := {
  pe_id_ok : 0 <= e_id e < 2 ^ 16;
  pe_len_ok : Z.of_nat (length (e_bytes e)) <= PS_MAX_LEN;
  pe_even : Nat.Even (length (e_bytes e));
  pe_bytes_ok : Forall (fun b => 0 <= b < 256) (e_bytes e)
}.

Section Parse.
Context `{BE : BtEnv} (Hmem : forall tr, env_bmalloc tr = true).

(** ** The table *)

(** Entry [i] with these bytes in its buffer. *)
Definition with_data (i : nat) (t : ps_cfg_entry) (d : list Z) (w : aworld) : aworld :=
  put_ps_list (<[i := {| ps_id := ps_id t; ps_len := ps_len t; ps_data := BBuf d |}]> (ps_list w)) w.

Lemma get_tag_run i t w : ps_list w !! i = Some t -> get_tag (Z.of_nat i) w = Some (t, w).
Proof. intros H. unfold get_tag. erewrite bind_run by reflexivity. by rewrite Nat2Z.id, H. Qed.

Lemma set_tag_run i t t' w : ps_list w !! i = Some t -> set_tag (Z.of_nat i) t' w = Some (tt, put_ps_list (<[i := t']> (ps_list w)) w).
Proof. intros H. unfold set_tag. rewrite (bind_run _ _ _ _ _ (get_tag_run i t w H)). by rewrite Nat2Z.id. Qed.

(** ** Bytes *)

Lemma cell_length b : length (cell b) = 3%nat.
Proof. unfold cell. by rewrite length_app, hex_text_length. Qed.

Lemma cells_length bs : length (cells bs) = (3 * length bs)%nat.
Proof. unfold cells. induction bs as [|b bs IH]; [done|]. cbn [map concat length]. rewrite length_app, cell_length, IH. lia. Qed.

Lemma cells_app a b : cells (a ++ b) = cells a ++ cells b.
Proof. unfold cells. by rewrite map_app, concat_app. Qed.

Lemma cells_nonul bs : Forall (fun b => 0 <= b < 256) bs -> Forall (fun c => c <> 0 /\ c <> newline) (cells bs).
Proof.
  intros Hb. unfold cells. apply Forall_concat, Forall_map. eapply Forall_impl; [exact Hb|]. intros b Hr. cbv beta in Hr. unfold compose, cell. apply Forall_app. split; [|repeat constructor; done].
  eapply Forall_impl; [apply hex_text_chars; lia|]. unfold newline. intros c Hc. simpl in Hc. lia.
Qed.

Lemma cell_value b rest : 0 <= b < 256 -> u8 (strtol16 (take 2 (cell b ++ rest))) = b.
Proof.
  intros Hb. unfold cell. rewrite <- app_assoc, take_app_length' by (by rewrite hex_text_length). rewrite <- (app_nil_r (hex_text 2 b)).
  rewrite strtol_hex; [apply u8_small; lia|lia|simpl; lia|done].
Qed.

(** A cell of the line is stored behind the bytes that are already there. *)
Lemma update_byte_run i t w buf ptr info pre b g rest bs tail : ps_list w !! i = Some t -> ps_data t = BBuf (pre ++ g :: rest) -> byte_count info = length pre ->
  0 <= b < 256 -> Forall (fun b => 0 <= b < 256) bs -> drop (ptr + char_cnt info) buf = cells (b :: bs) ++ newline :: 0 :: tail ->
  update_byte (Z.of_nat i) buf ptr info w =
    Some ({| section := section info; line_count := line_count info; char_cnt := char_cnt info + 3; byte_count := byte_count info + 1 |}, with_data i t (pre ++ b :: rest) w).
Proof.
  intros Ht Hd Hc Hb Hbs Hbuf. unfold update_byte, cstr. rewrite Hbuf. replace (cells (b :: bs) ++ newline :: 0 :: tail) with ((cells (b :: bs) ++ [newline]) ++ 0 :: tail) by by rewrite <- app_assoc.
  rewrite until_nul_app. 2: { apply Forall_app. split; [|by constructor]. eapply Forall_impl; [apply (cells_nonul (b :: bs)); by constructor|]. by intros c []. }
  erewrite bind_run by reflexivity. rewrite (bind_run _ _ _ _ _ (get_tag_run i t w Ht)), Hd, Hc.
  rewrite store_bytes_run by (rewrite length_app; simpl; lia). erewrite bind_run by reflexivity.
  unfold cells. cbn [map concat]. rewrite <- app_assoc, cell_value by done. rewrite take_app_length, drop_app_ge by (simpl; lia).
  replace (length pre + length [b] - length pre)%nat with 1%nat by (simpl; lia). cbn [drop]. rewrite (bind_run _ _ _ _ _ (set_tag_run i t _ w Ht)). done.
Qed.

Lemma insert_again (i : nat) (x y : ps_cfg_entry) (l : list ps_cfg_entry) : <[i := x]> (<[i := y]> l) = <[i := x]> l.
Proof. rewrite list_insert_insert. by rewrite decide_True. Qed.

Lemma with_data_again i t d d' w : with_data i {| ps_id := ps_id t; ps_len := ps_len t; ps_data := BBuf d |} d' (with_data i t d w) = with_data i t d' w.
Proof. unfold with_data. simpl. by rewrite insert_again. Qed.

Lemma with_data_lookup i t d w x : ps_list w !! i = Some x -> ps_list (with_data i t d w) !! i = Some {| ps_id := ps_id t; ps_len := ps_len t; ps_data := BBuf d |}.
Proof. intros H. unfold with_data. simpl. apply list_lookup_insert_eq. by eapply lookup_lt_Some. Qed.

Lemma pairs_run : forall n i t w buf ptr info pre bs stale tail, length bs = (2 * n)%nat -> (0 < n)%nat -> ps_list w !! i = Some t -> ps_data t = BBuf (pre ++ stale) -> (length bs <= length stale)%nat ->
  byte_count info = length pre -> Forall (fun b => 0 <= b < 256) bs -> drop (ptr + char_cnt info) buf = cells bs ++ newline :: 0 :: tail ->
  exists cc, read_pairs n (Z.of_nat i) buf ptr info w =
    Some ({| section := section info; line_count := line_count info; char_cnt := cc; byte_count := byte_count info + length bs |}, with_data i t (pre ++ bs ++ drop (length bs) stale) w).
Proof.
  induction n as [|n IH]; intros i t w buf ptr info pre bs stale tail Hn Hpos Ht Hd Hs Hc Hb Hbuf; [lia|].
  destruct bs as [|a [|b bs]]; [simpl in Hn; lia..|]. destruct stale as [|g [|h stale]]; [simpl in Hs; lia..|].
  apply Forall_cons in Hb as [Ha Hb]. pose proof Hb as Hb'. apply Forall_cons in Hb' as [Hb1 Hb2]. cbn [read_pairs]. unfold update_tag_data.
  pose proof (update_byte_run i t w buf ptr info pre a g (h :: stale) (b :: bs) tail Ht Hd Hc Ha Hb Hbuf) as E1.
  set (info1 := {| section := section info; line_count := line_count info; char_cnt := char_cnt info + 3; byte_count := byte_count info + 1 |}) in *.
  set (t1 := {| ps_id := ps_id t; ps_len := ps_len t; ps_data := BBuf (pre ++ a :: h :: stale) |}).
  assert (Hdrop : forall k, (k <= length (a :: b :: bs))%nat -> drop (ptr + (char_cnt info + 3 * k)) buf = cells (drop k (a :: b :: bs)) ++ newline :: 0 :: tail).
  { intros k Hk. rewrite Nat.add_assoc, <- drop_drop, Hbuf. rewrite <- (take_drop k (a :: b :: bs)) at 1. rewrite cells_app, <- app_assoc.
    apply drop_app_length'. rewrite cells_length, length_take. lia. }
  assert (E2 : update_byte (Z.of_nat i) buf ptr info1 (with_data i t (pre ++ a :: h :: stale) w) = Some ({| section := section info; line_count := line_count info;
      char_cnt := char_cnt info + 3 + 3; byte_count := byte_count info + 1 + 1 |}, with_data i t1 ((pre ++ [a]) ++ b :: stale) (with_data i t (pre ++ a :: h :: stale) w))).
  { apply (update_byte_run i t1 _ buf ptr info1 (pre ++ [a]) b h stale bs tail); [by eapply with_data_lookup|unfold t1; simpl; by rewrite <- app_assoc|simpl; rewrite length_app; simpl; lia|done|done|].
    specialize (Hdrop 1%nat ltac:(simpl; lia)). cbn [drop] in Hdrop. simpl char_cnt. rewrite <- Hdrop. f_equal; lia. }
  rewrite (bind_run _ _ _ _ _ (eq_trans (bind_run _ _ _ _ _ E1) E2)). unfold t1. rewrite with_data_again.
  set (info2 := {| section := section info; line_count := line_count info; char_cnt := char_cnt info + 3 + 3; byte_count := byte_count info + 1 + 1 |}).
  destruct (decide (n = 0%nat)) as [->|Hn0].
  - exists (char_cnt info + 3 + 3)%nat. destruct bs; [|simpl in Hn; lia]. cbn [read_pairs]. unfold mret, M_ret. rewrite <- app_assoc. simpl. do 3 f_equal. lia.
  - set (t2 := {| ps_id := ps_id t; ps_len := ps_len t; ps_data := BBuf ((pre ++ [a]) ++ b :: stale) |}).
    destruct (IH i t2 (with_data i t ((pre ++ [a]) ++ b :: stale) w) buf ptr info2 (pre ++ [a; b]) bs stale tail) as (cc & E); [simpl in Hn; lia|lia|by eapply with_data_lookup|unfold t2; simpl; by rewrite <- !app_assoc|simpl in Hs; lia|simpl; rewrite length_app; simpl; lia|done| |].
    { specialize (Hdrop 2%nat ltac:(simpl; lia)). cbn [drop] in Hdrop. rewrite drop_0 in Hdrop. simpl char_cnt. rewrite <- Hdrop. f_equal; lia. }
    exists cc. rewrite E. unfold t2. rewrite with_data_again. rewrite <- app_assoc. simpl. do 3 f_equal. lia.
Qed.

(** ** Lines *)

Definition hex_array : ps_entry_type := {| pe_type := PS_HEX; pe_array := true |}.

(** A line of bytes, with its preamble or without. *)
Definition preamble (p : text) : Prop := p = [] \/ p = chars "[A:H]".

Lemma cells_head bs c s : Forall (fun b => 0 <= b < 256) bs -> cells bs ++ [newline] = c :: s -> c <> 32 /\ c <> 47 /\ c <> 35 /\ c <> 91.
Proof.
  intros Hb E. destruct bs as [|b bs].
  - injection E as <- <-. done.
  - apply Forall_cons in Hb as [Hb _]. unfold cells in E. cbn [map concat] in E. unfold cell in E. pose proof (hex_text_chars 2 b ltac:(lia)) as Hc.
    destruct (hex_text 2 b) as [|x l] eqn:El; [by pose proof (hex_text_length 2 b) as Hl; rewrite El in Hl|]. injection E as <- _. apply Forall_cons in Hc as [Hc _]. lia.
Qed.

Lemma row_shape p bs : preamble p -> Forall (fun b => 0 <= b < 256) bs -> exists c s, p ++ cells bs ++ [newline] = c :: s /\ c <> 32 /\ c <> 47 /\ c <> 35 /\
  get_input_format (c :: s) = Some hex_array /\ update_char_count (c :: s) = length p.
Proof.
  intros [-> | ->] Hb.
  - destruct (cells bs ++ [newline]) as [|c s] eqn:E; [by destruct (cells bs)|]. destruct (cells_head bs c s Hb E) as (H1 & H2 & H3 & H4). exists c, s.
    unfold get_input_format, update_char_count, starts_with. rewrite (proj2 (Z.eqb_neq c 91)) by done. done.
  - eexists _, _. split; [reflexivity|]. done.
Qed.

Lemma spaces_none c s : c <> 32 -> spaces (c :: s) = 0%nat.
Proof. intros H. unfold spaces. cbn [skip_while]. rewrite (proj2 (Z.eqb_neq _ _) H). lia. Qed.

Lemma with_data_same i t d w : ps_list w !! i = Some t -> ps_data t = BBuf d -> with_data i t d w = w.
Proof. intros Ht Hd. unfold with_data. rewrite <- Hd. assert (E : {| ps_id := ps_id t; ps_len := ps_len t; ps_data := ps_data t |} = t) by by destruct t. rewrite E, list_insert_id by done. by destruct w. Qed.

(** The state after a line: the next tag, or the same one. *)
Definition after_row (i : nat) (rem : nat) (lc : Z) (cc n : nat) : pstate :=
  if (rem =? 0)%nat then {| p_tag_cnt := Z.of_nat (S i); p_byte_count := 0; p_format := hex_array; p_status := no_tag |}
  else {| p_tag_cnt := Z.of_nat i; p_byte_count := Z.of_nat rem; p_format := hex_array; p_status := {| section := PS_DATA; line_count := lc; char_cnt := cc; byte_count := n |} |}.

Lemma row_run p i t w pre bs stale tail st : preamble p -> (S i < 50)%nat -> ps_list w !! i = Some t -> ps_data t = BBuf (pre ++ stale) ->
  Forall (fun b => 0 <= b < 256) bs -> length bs = Nat.min 16 (length stale) -> Nat.Even (length bs) -> p_tag_cnt st = Z.of_nat i -> p_byte_count st = Z.of_nat (length stale) ->
  section (p_status st) = PS_DATA -> byte_count (p_status st) = length pre -> line_count (p_status st) = 0 \/ p_format st = hex_array ->
  exists cc, parse_line ((p ++ cells bs) ++ [newline; 0] ++ tail) st w =
    Some (inr (after_row i (length stale - length bs) (line_count (p_status st) +u 1) cc (length pre + length bs)), with_data i t (pre ++ bs ++ drop (length bs) stale) w).
Proof.
  intros Hp Hi Ht Hd Hb Hl He Htc Hbc Hsec Hbyte Hf. destruct (row_shape p bs Hp Hb) as (c & s & Es & H32 & H47 & H35 & Hfmt & Hcc).
  unfold parse_line, cstr. rewrite drop_0. replace ((p ++ cells bs) ++ [newline; 0] ++ tail) with ((p ++ cells bs ++ [newline]) ++ 0 :: tail) by by rewrite <- !app_assoc.
  rewrite until_nul_app. 2: { rewrite app_assoc. apply Forall_app. split; [|by constructor]. apply Forall_app. split; [destruct Hp as [-> | ->]; repeat constructor; done|].
    eapply Forall_impl; [by apply cells_nonul|]. by intros x []. }
  erewrite bind_run by reflexivity. rewrite Es, spaces_none by done. cbv zeta. rewrite drop_0. unfold starts_with at 1 3. rewrite (proj2 (Z.eqb_neq _ _) H47), (proj2 (Z.eqb_neq _ _) H35). cbn [andb].
  rewrite Hsec, Hfmt. set (dl := data_line _ _ _ _ _).
  assert (Ed : (if line_count (p_status st) =? 0 then dl else data_line (((c :: s)) ++ 0 :: tail) 0 (c :: s) st (p_format st)) = dl) by (destruct (Z.eqb_spec (line_count (p_status st)) 0); [done|]; destruct Hf as [|Hf]; [lia|]; unfold dl; by rewrite Hf).
  rewrite Ed. unfold dl, data_line. rewrite spaces_none by done. rewrite Nat.add_0_r, drop_0, Hcc, Hsec, Hbyte, Hbc. cbv zeta. change (is_hex hex_array && pe_array hex_array) with true. cbv iota.
  unfold ENTRY_PER_LINE. set (rc := if 16 <? Z.of_nat (length stale) then 16 else Z.of_nat (length stale)). assert (Hrc : rc = Z.of_nat (length bs)) by (unfold rc; destruct (Z.ltb_spec 16 (Z.of_nat (length stale))); lia).
  rewrite Hrc. destruct He as [k Hk]. replace (Z.to_nat ((Z.of_nat (length bs) + 1) / 2)) with k by (rewrite Hk; Z.to_euclidean_division_equations; lia).
  assert (E : exists cc, read_pairs k (p_tag_cnt st) ((c :: s) ++ 0 :: tail) 0 {| section := PS_DATA; line_count := line_count (p_status st); char_cnt := length p; byte_count := length pre |} w =
    Some ({| section := PS_DATA; line_count := line_count (p_status st); char_cnt := cc; byte_count := length pre + length bs |}, with_data i t (pre ++ bs ++ drop (length bs) stale) w)).
  { rewrite Htc. destruct (decide (k = 0%nat)) as [->|Hk0].
    - exists (length p). destruct bs; [|simpl in Hk; lia]. cbn [read_pairs length app]. rewrite drop_0, with_data_same by done. by rewrite Nat.add_0_r.
    - apply (pairs_run k i t w _ 0 {| section := PS_DATA; line_count := line_count (p_status st); char_cnt := length p; byte_count := length pre |} pre bs stale tail); [done|lia|done|done|lia|done|done|].
      simpl char_cnt. rewrite <- Es, <- !app_assoc. change (0 + length p)%nat with (length p). by rewrite drop_app_length. }
  destruct E as (cc & E). exists cc. rewrite (bind_run _ _ _ _ _ E). cbn [section line_count char_cnt byte_count]. rewrite Htc. unfold after_row, MAX_TAGS.
  set (bc := if 16 <? Z.of_nat (length stale) then _ else 0). assert (Hbc' : bc = Z.of_nat (length stale - length bs)) by (unfold bc; destruct (Z.ltb_spec 16 (Z.of_nat (length stale))); lia).
  rewrite Hbc'. destruct (Nat.eqb_spec (length stale - length bs) 0) as [E0|E0].
  - rewrite E0. change (Z.of_nat 0 =? 0) with true. cbv iota. cbn [section no_tag]. rewrite u8_small by lia. rewrite (proj2 (Z.eqb_neq (Z.of_nat i + 1) 50)) by lia. replace (Z.of_nat i + 1) with (Z.of_nat (S i)) by lia. done.
  - rewrite (proj2 (Z.eqb_neq _ 0)) by lia. cbn [section]. by rewrite (proj2 (Z.eqb_neq (Z.of_nat i) 50)) by lia.
Qed.

(** ** Files *)

Lemma line_step l rest buf fuel st w : Forall (fun c => c <> newline) l -> (length l < 998)%nat -> (length (line l ++ rest) <= fuel)%nat ->
  exists fuel' tail, (length rest <= fuel')%nat /\
    parse_lines fuel buf (line l ++ rest) st w =
      (r ← parse_line (l ++ [newline; 0] ++ tail) st; match r with inl err => mret err | inr st => parse_lines fuel' (l ++ [newline; 0] ++ tail) rest st end) w.
Proof.
  intros Hl Hlen Hf. unfold line in *. rewrite <- app_assoc in *. rewrite !length_app in Hf. simpl in Hf. destruct fuel as [|fuel]; [lia|].
  exists fuel, (drop (S (S (length l))) buf). split; [lia|]. cbn [parse_lines app]. by rewrite fgets_run by (done || unfold LINE_SIZE_MAX; lia).
Qed.

Lemma cells_line bs : Forall (fun b => 0 <= b < 256) bs -> Forall (fun c => c <> newline) (cells bs).
Proof. intros H. eapply Forall_impl; [by apply cells_nonul|]. by intros c []. Qed.

Lemma print_rows_cons p r rs : print_rows p (r :: rs) = line (p ++ cells r) ++ print_rows [] rs.
Proof. unfold print_rows. by destruct rs. Qed.

(** The state in which the bytes of entry [i] are done. *)
Definition between (i : nat) : pstate := {| p_tag_cnt := Z.of_nat i; p_byte_count := 0; p_format := hex_array; p_status := no_tag |}.

Lemma rows_run : forall k p i t w pre stale bs buf st rest fuel, (length bs < k)%nat -> preamble p -> (S i < 50)%nat -> ps_list w !! i = Some t -> ps_data t = BBuf (pre ++ stale) ->
  Forall (fun b => 0 <= b < 256) bs -> length bs = length stale -> Nat.Even (length bs) -> p_tag_cnt st = Z.of_nat i -> p_byte_count st = Z.of_nat (length stale) ->
  section (p_status st) = PS_DATA -> byte_count (p_status st) = length pre -> line_count (p_status st) = 0 \/ p_format st = hex_array ->
  (length (print_rows p (rows k bs) ++ rest) <= fuel)%nat ->
  exists buf' fuel', (length rest <= fuel')%nat /\ parse_lines fuel buf (print_rows p (rows k bs) ++ rest) st w = parse_lines fuel' buf' rest (between (S i)) (with_data i t (pre ++ bs) w).
Proof.
  induction k as [|k IH]; intros p i t w pre stale bs buf st rest fuel Hk Hp Hi Ht Hd Hb Hl He Htc Hbc Hsec Hbyte Hf Hfuel; [lia|].
  cbn [rows] in *. assert (Ebs : bs = take 16 bs ++ drop 16 bs) by by rewrite take_drop.
  assert (Hr : length (take 16 bs) = Nat.min 16 (length stale)) by (rewrite length_take; lia). pose proof (length_drop bs 16) as Hl'. set (r := take 16 bs) in *. set (bs' := drop 16 bs) in *. clearbody r bs'.
  rewrite Ebs in Hb. apply Forall_app in Hb as [Hbr Hb'].
  assert (Her : Nat.Even (length r) /\ Nat.Even (length bs')) by (destruct He as [q Hq]; split; [destruct (decide (16 <= length bs)%nat); [exists 8%nat; lia|exists q; lia]|exists (q - 8)%nat; lia]). destruct Her as [Her Heb].
  rewrite print_rows_cons, <- app_assoc in *. destruct (line_step (p ++ cells r) (print_rows [] (match bs' with [] => [] | z :: l => rows k (z :: l) end) ++ rest) buf fuel st w) as (fuel1 & tail & Hf1 & E1).
  { apply Forall_app. split; [destruct Hp as [-> | ->]; repeat constructor; done|by apply cells_line]. }
  { rewrite length_app, cells_length. destruct Hp as [-> | ->]; simpl; lia. }
  { exact Hfuel. }
  destruct (row_run p i t w pre r stale tail st) as (cc & E2); [done..|]. rewrite (bind_run _ _ _ _ _ E2) in E1. unfold after_row in E1. destruct (decide (length bs' = 0%nat)) as [E0|E0].
  - apply nil_length_inv in E0. rewrite E0 in E1, Hf1, Hl' |- *. simpl in Hl'. rewrite (proj2 (Nat.eqb_eq (length stale - length r) 0)) in E1 by lia. eexists _, fuel1. split; [exact Hf1|].
    rewrite E1. rewrite (drop_ge stale) by lia. by rewrite app_nil_r, Ebs, E0, app_nil_r.
  - assert (Er : match bs' with [] => [] | z :: l => rows k (z :: l) end = rows k bs') by (destruct bs'; [simpl in E0; lia|done]). rewrite Er in E1, Hf1 |- *.
    rewrite (proj2 (Nat.eqb_neq (length stale - length r) 0)) in E1 by lia. set (w1 := with_data i t (pre ++ r ++ drop (length r) stale) w) in *.
    set (t1 := {| ps_id := ps_id t; ps_len := ps_len t; ps_data := BBuf ((pre ++ r) ++ drop (length r) stale) |}).
    match type of E1 with _ = parse_lines _ _ _ ?s _ => destruct (IH [] i t1 w1 (pre ++ r) (drop (length r) stale) bs' ((p ++ cells r) ++ [newline; 0] ++ tail) s rest fuel1) as (buf' & fuel' & Hf' & E3) end;
      [lia|by left|done|unfold w1, t1; rewrite (app_assoc pre); by eapply with_data_lookup|done|done|rewrite length_drop; lia|done|done|simpl; rewrite length_drop; lia|done|simpl; rewrite length_app; lia|by right|done|].
    exists buf', fuel'. split; [done|]. rewrite E1, E3. unfold t1, w1. rewrite (app_assoc pre). rewrite with_data_again. by rewrite Ebs, <- app_assoc.
Qed.

(** A line with a number. *)
Definition number (v : Z) : text := chars "[S:H]" ++ hex_text 4 v.

Lemma number_chars v : 0 <= v < 2 ^ 16 -> Forall (fun c => c <> 0 /\ c <> newline) (number v).
Proof.
  intros Hv. apply Forall_app. split; [repeat constructor; done|]. eapply Forall_impl; [apply hex_text_chars; lia|]. unfold newline. intros c Hc. cbv beta in Hc. lia.
Qed.

Lemma number_run v : 0 <= v < 2 ^ 16 -> exists f, get_input_format (number v ++ [newline]) = Some f /\ read_data_in_section (number v ++ [newline]) f = v.
Proof.
  intros Hv. exists {| pe_type := PS_HEX; pe_array := false |}. split; [reflexivity|].
  change (u32 (strtol16 (hex_text 4 v ++ [newline])) = v). rewrite strtol_hex; [apply u32_id; unfold u32_range; lia|lia|simpl; lia|]. by intros c s [= <- <-].
Qed.

Lemma line_text l tail : Forall (fun c => c <> 0 /\ c <> newline) l -> cstr 0 (l ++ [newline; 0] ++ tail) = Some (l ++ [newline]).
Proof.
  intros Hl. unfold cstr. rewrite drop_0. replace (l ++ [newline; 0] ++ tail) with ((l ++ [newline]) ++ 0 :: tail) by by rewrite <- app_assoc.
  apply until_nul_app, Forall_app. split; [|by constructor]. eapply Forall_impl; [exact Hl|]. by intros c [].
Qed.

Definition entry_of (e : ps_entry) : ps_cfg_entry := {| ps_id := e_id e; ps_len := Z.of_nat (length (e_bytes e)); ps_data := BBuf (e_bytes e) |}.

Lemma id_line_run v tail st w i t : 0 <= v < 2 ^ 16 -> section (p_status st) = PS_ID -> p_tag_cnt st = Z.of_nat i -> ps_list w !! i = Some t ->
  exists f, parse_line (number v ++ [newline; 0] ++ tail) st w =
    Some (inr {| p_tag_cnt := Z.of_nat i; p_byte_count := p_byte_count st; p_format := f; p_status := in_section PS_LEN (p_status st) |},
      put_ps_list (<[i := {| ps_id := v; ps_len := ps_len t; ps_data := ps_data t |}]> (ps_list w)) w).
Proof.
  intros Hv Hsec Htc Ht. destruct (number_run v Hv) as (f & Ef & Ev). exists f. unfold parse_line. rewrite line_text by by apply number_chars. erewrite bind_run by reflexivity.
  change (spaces (number v ++ [newline])) with 0%nat. cbv zeta. rewrite drop_0. change (starts_with 47 (number v ++ [newline])) with false. change (starts_with 35 (number v ++ [newline])) with false. cbn [andb].
  rewrite Hsec, Ef, Htc, Ev. rewrite (bind_run _ _ _ _ _ (get_tag_run i t w Ht)), (bind_run _ _ _ _ _ (set_tag_run i t _ w Ht)). done.
Qed.

Lemma len_line_run n tail st w i t : Z.of_nat n <= PS_MAX_LEN -> section (p_status st) = PS_LEN -> p_tag_cnt st = Z.of_nat i -> ps_list w !! i = Some t ->
  exists f d, length d = n /\ parse_line (number (Z.of_nat n) ++ [newline; 0] ++ tail) st w =
    Some (inr {| p_tag_cnt := Z.of_nat i; p_byte_count := Z.of_nat n; p_format := f;
                 p_status := {| section := PS_DATA; line_count := 0; char_cnt := char_cnt (p_status st); byte_count := byte_count (p_status st) |} |},
      put_ps_list (<[i := {| ps_id := ps_id t; ps_len := Z.of_nat n; ps_data := BBuf d |}]> (ps_list w)) (put_a_tr (BMalloc true :: a_tr w) w)).
Proof.
  unfold PS_MAX_LEN. intros Hn Hsec Htc Ht. destruct (number_run (Z.of_nat n) ltac:(lia)) as (f & Ef & Ev). exists f. unfold parse_line. rewrite line_text by (apply number_chars; lia). set (tr := BMalloc true :: a_tr w).
  exists (take n (env_stack tr ++ replicate n 0)). split; [rewrite length_take, length_app, length_replicate; lia|]. erewrite bind_run by reflexivity.
  change (spaces (number (Z.of_nat n) ++ [newline])) with 0%nat. cbv zeta. rewrite drop_0. change (starts_with 47 (number (Z.of_nat n) ++ [newline])) with false. change (starts_with 35 (number (Z.of_nat n) ++ [newline])) with false. cbn [andb].
  rewrite Hsec, Ef, Htc, Ev. assert (Hi : i16 (Z.of_nat n) = Z.of_nat n) by (unfold i16; rewrite Z.mod_small by lia; lia). rewrite Hi. unfold PS_MAX_LEN. rewrite (proj2 (Z.ltb_ge _ _)) by lia.
  rewrite (bind_run _ _ _ _ _ (get_tag_run i t w Ht)). unfold malloc_bytes, amalloc.
  assert (Em : zoom a_tr put_a_tr (bext env_bmalloc BMalloc) w = Some (true, put_a_tr tr w)) by (unfold zoom, bext; by rewrite !Hmem).
  erewrite bind_run; [|rewrite (bind_run _ _ _ _ _ Em); cbn [andb]; rewrite (proj2 (Z.leb_le _ _)) by lia; erewrite bind_run by reflexivity; reflexivity].
  rewrite (bind_run _ _ _ _ _ (set_tag_run i t _ (put_a_tr tr w) Ht)). unfold mret, M_ret. rewrite u32_id by (unfold u32_range; lia). by rewrite Nat2Z.id.
Qed.

Definition parsed (i : nat) (e : ps_entry) (w : aworld) : aworld := put_ps_list (<[i := entry_of e]> (ps_list w)) (put_a_tr (BMalloc true :: a_tr w) w).

Lemma entry_run i e w buf rest fuel : ps_entry_ok e -> (S i < 50)%nat -> (i < length (ps_list w))%nat -> (length (print_entry e ++ rest) <= fuel)%nat ->
  exists buf' fuel', (length rest <= fuel')%nat /\ parse_lines fuel buf (print_entry e ++ rest) (between i) w = parse_lines fuel' buf' rest (between (S i)) (parsed i e w).
Proof.
  intros [Hid Hlen He Hb] Hi Hw Hfuel. destruct (lookup_lt_is_Some_2 _ _ Hw) as [t Ht]. set (bs := e_bytes e) in *. set (n := length bs) in *. unfold PS_MAX_LEN in Hlen.
  unfold print_entry in *. rewrite <- !app_assoc in *. fold bs n in Hfuel |- *. set (rs := print_rows (chars "[A:H]") (rows (S n) bs)) in *.
  destruct (line_step (chars "#") (line (number (e_id e)) ++ line (number (Z.of_nat n)) ++ rs ++ rest) buf fuel (between i) w) as (f1 & tl1 & Hf1 & E1); [repeat constructor; done|simpl; lia|exact Hfuel|].
  set (b1 := chars "#" ++ [newline; 0] ++ tl1) in *. set (st1 := {| p_tag_cnt := Z.of_nat i; p_byte_count := 0; p_format := hex_array; p_status := in_section PS_ID no_tag |}).
  change (parse_line b1 (between i)) with (mret (M := M aworld) (inr st1 : Z + pstate)) in E1. erewrite bind_run in E1 by reflexivity.
  destruct (line_step (number (e_id e)) (line (number (Z.of_nat n)) ++ rs ++ rest) b1 f1 st1 w) as (f2 & tl2 & Hf2 & E2); [eapply Forall_impl; [by apply number_chars|]; by intros c []|unfold number; rewrite length_app, hex_text_length; simpl; lia|exact Hf1|].
  destruct (id_line_run (e_id e) tl2 st1 w i t Hid eq_refl eq_refl Ht) as (fm2 & P2). rewrite (bind_run _ _ _ _ _ P2) in E2. set (st2 := {| p_tag_cnt := Z.of_nat i; p_byte_count := _; p_format := fm2; p_status := _ |}) in *. set (w2 := put_ps_list _ w) in *.
  set (b2 := number (e_id e) ++ [newline; 0] ++ tl2) in *. set (t2 := {| ps_id := e_id e; ps_len := ps_len t; ps_data := ps_data t |}) in *.
  destruct (line_step (number (Z.of_nat n)) (rs ++ rest) b2 f2 st2 w2) as (f3 & tl3 & Hf3 & E3); [eapply Forall_impl; [apply number_chars; lia|]; by intros c []|unfold number; rewrite length_app, hex_text_length; simpl; lia|exact Hf2|].
  assert (Ht2 : ps_list w2 !! i = Some t2) by (unfold w2; simpl; by apply list_lookup_insert_eq).
  destruct (len_line_run n tl3 st2 w2 i t2 ltac:(unfold PS_MAX_LEN; lia) eq_refl eq_refl Ht2) as (fm3 & d & Hd & P3). rewrite (bind_run _ _ _ _ _ P3) in E3.
  set (st3 := {| p_tag_cnt := Z.of_nat i; p_byte_count := _; p_format := fm3; p_status := _ |}) in *. set (w3 := put_ps_list _ (put_a_tr _ w2)) in *. set (b3 := number (Z.of_nat n) ++ [newline; 0] ++ tl3) in *.
  set (t3 := {| ps_id := ps_id t2; ps_len := Z.of_nat n; ps_data := BBuf d |}) in *.
  destruct (rows_run (S n) (chars "[A:H]") i t3 w3 [] d bs b3 st3 rest f3) as (buf' & fuel' & Hf' & E4);
    [unfold n; lia|by right|done|unfold w3; simpl; apply list_lookup_insert_eq; by rewrite length_insert|done|done|done|done|done|by rewrite Hd|done|done|by left|exact Hf3|].
  exists buf', fuel'. split; [done|]. etrans; [exact E1|]. etrans; [exact E2|]. etrans; [exact E3|]. etrans; [exact E4|]. f_equal. unfold parsed, with_data, w3, w2, t3, t2, entry_of. simpl. fold bs n.
  by rewrite !insert_again.
Qed.

Lemma entries_run : forall es i w buf fuel, Forall ps_entry_ok es -> (i + length es < 50)%nat -> (i + length es <= length (ps_list w))%nat -> (length (print_file es) <= fuel)%nat ->
  exists w', parse_lines fuel buf (print_file es) (between i) w = Some (Z.of_nat (i + length es), w') /\
    ps_list w' = take i (ps_list w) ++ map entry_of es ++ drop (i + length es) (ps_list w) /\ upio_state w' = upio_state w /\
    a_tr w' = replicate (length es) (BMalloc true) ++ a_tr w.
Proof.
  induction es as [|e es IH]; intros i w buf fuel Hes Hi Hw Hf.
  - exists w. split; [destruct fuel; simpl; by rewrite Nat.add_0_r|]. split; [|done]. simpl. by rewrite Nat.add_0_r, take_drop.
  - apply Forall_cons in Hes as [He Hes]. simpl in Hi, Hw. unfold print_file in *. cbn [map concat] in *.
    destruct (entry_run i e w buf (concat (map print_entry es)) fuel He ltac:(lia) ltac:(lia) Hf) as (buf' & fuel' & Hf' & E).
    destruct (IH (S i) (parsed i e w) buf' fuel' Hes ltac:(lia)) as (w' & E' & Hl & Hu & Htr); [unfold parsed; simpl; rewrite length_insert; lia|done|].
    exists w'. rewrite E, E'. split; [do 3 f_equal; simpl; lia|]. split; [|split; [done|]].
    + rewrite Hl. unfold parsed. simpl ps_list. rewrite (take_S_r _ i (entry_of e)) by (apply list_lookup_insert_eq; lia). rewrite take_insert_ge by lia. rewrite drop_insert_lt by lia.
      rewrite <- app_assoc. cbn [map length app]. do 4 f_equal. lia.
    + rewrite Htr. cbn [length]. rewrite replicate_S_end, <- app_assoc. done.
Qed.

(** C22: the parser of PS files gives back what was printed: for any list of
    up to 49 entries whose bytes come in pairs it returns their number and puts
    their numbers, lengths and bytes into the table in order, whatever the line
    buffer and the fresh memory held before; the rest of the table is left. *)
Theorem ps_file_roundtrip es w (Hes : Forall ps_entry_ok es) (Hn : (length es < 50)%nat) (Hw : length (ps_list w) = 50%nat) :
  exists w', ath_parse_ps (print_file es) w = Some (Z.of_nat (length es), w') /\ ps_list w' = map entry_of es ++ drop (length es) (ps_list w) /\
    upio_state w' = upio_state w /\ a_tr w' = replicate (length es) (BMalloc true) ++ a_tr w.
Proof.
  unfold ath_parse_ps. erewrite bind_run by reflexivity.
  destruct (entries_run es 0 w (take (S LINE_SIZE_MAX) (env_stack (a_tr w) ++ replicate (S LINE_SIZE_MAX) 0)) (length (print_file es)) Hes) as (w' & E & H); [lia|lia|lia|].
  exists w'. split; [exact E|]. exact H.
Qed.

End Parse.
