(* ===== verification/Ar3k.v ===== *)
(** * The AR3K bluetooth controller

    [hw_ar3k.c]: PS commands and their events, the download of the patch and
    of the parsed configuration, addresses, the initialisation and the power
    modes.  System calls that move no data are recorded as [BCall]. *)

From Stdlib Require Import ZArith Lia.
From stdpp Require Import list strings.
From S2P Require Import Prelude BtHci CText PsFile Rome.

Definition PS_EVENT_LEN : nat := 100.
Definition ENOMEM : Z := 12.
Definition EAGAIN : Z := 11.
Definition EINTR : Z := 4.
Definition EALREADY : Z := 114.
Definition EVT_CMD_COMPLETE : Z := 0x0E.
Definition HCI_PS_CMD_OCF : Z := 0x0B.
Definition HCI_CHG_BAUD_CMD_OCF : Z := 0x0C.
Definition GET_DEV_TYPE_OCF : Z := 0x05.
Definition GET_VERSION_OCF : Z := 0x1E.
Definition HCI_SLEEP_CMD_OCF : Z := 0x04.
Definition DEV_REGISTER : Z := 0x4FFC.
Definition PS_WRITE : Z := 1.
Definition PS_RESET : Z := 2.
Definition WRITE_PATCH : Z := 8.
Definition VERIFY_CRC : Z := 9.
Definition ENABLE_PATCH : Z := 11.
Definition SET_PATCH_RAM_ID : Z := 0x0D.
Definition PS_HDR_LEN : Z := 4.
Definition HCI_PS_CMD_HDR_LEN : Z := 7.
Definition PS_RESET_PARAM_LEN : Z := 6.
Definition PS_RESET_CMD_LEN : Z := 13.
Definition PS_RAM_SIZE : Z := 2048.
Definition MAX_PATCH_CMD : nat := 244.
Definition PATH_MAX : nat := 4096.
Definition PATCH_LOC_STRING_LEN : nat := 8.
Definition FW_PATH : string := "/system/etc/firmware/ar3k/".

(** ** Addresses *)

(** [bdaddr[j] = strtol(bdbyte)] for six pairs of characters, the last one
    first. *)
Definition convert_bdaddr (str : list Z) : option (list Z) :=
  s ← cstr 0 str;
  let step := match index_of 58 s with Some _ => 3%nat | None => 2%nat end in
  bs ← mapM (fun i => a ← str !! (i * step)%nat; b ← str !! (i * step + 1)%nat; Some (u8 (strtol16 (cut [a; b; 0])))) (seq 0 6);
  Some (reverse bs).

Definition baswap (src : list Z) : list Z := map (fun i => byte (5 - i) src) (seq 0 6).

(** The bytes from [ptr] on; where a colon is missing the rest is zero. *)
Fixpoint str2ba_bytes (n : nat) (ptr : text) : list Z :=
  match n with
  | O => []
  | S n =>
      u8 (strtol16 ptr) ::
      str2ba_bytes n (match index_of 58 ptr with Some i => drop (S i) ptr | None => chars "00:00:00:00:00" end)
  end.

Definition str2ba (str : text) : list Z := baswap (str2ba_bytes 6 str).

(** ** Speeds *)

(** The constants of [termios.h]. *)
Definition uart_speed (s : Z) : Z :=
  if s =? 9600 then 13 else if s =? 19200 then 14 else if s =? 38400 then 15 else if s =? 57600 then 4097 else if s =? 115200 then 4098
  else if s =? 230400 then 4099 else if s =? 460800 then 4100 else if s =? 500000 then 4101 else if s =? 576000 then 4102
  else if s =? 921600 then 4103 else if s =? 1000000 then 4104 else if s =? 1152000 then 4105 else if s =? 1500000 then 4106
  else if s =? 2000000 then 4107 else if s =? 2500000 then 4108 else if s =? 3000000 then 4109 else if s =? 3500000 then 4110
  else if s =? 4000000 then 4111 else 4097.

(** ** File names *)

Definition fw_file (rom_version : Z) (name : string) : string :=
  FW_PATH +:+ to_string (print_hex rom_version) +:+ "/" +:+ name.

Definition get_ps_file_name (devtype rom_version : Z) : string :=
  fw_file rom_version (if devtype =? 0xdeadc0de then "PS_ASIC.pst" else "PS_FPGA.pst").

Definition get_patch_file_name (dev_type rom_version build_version : Z) : string :=
  if (rom_version =? 0x99999999) && negb (dev_type =? 0xdeadc0de) && negb (dev_type =? 0) && (build_version =? 1) then ""
  else fw_file rom_version "RamPatch.txt".

(** ** PS commands *)

(** The header over the first seven bytes. *)
Definition load_hci_ps_hdr (cmd : list Z) (ps_op len index : Z) : list Z :=
  let opcode := cmd_opcode_pack HCI_VENDOR_CMD_OGF HCI_PS_CMD_OCF in
  [Z.land opcode 0xFF; Z.shiftr opcode 8; u8 (len + PS_HDR_LEN); u8 ps_op; u8 index; u8 (Z.shiftr index 8); u8 len] ++ drop 7 cmd.

Definition read_ps_event (event : list Z) (ocf : Z) : Z :=
  if byte 1 event =? EVT_CMD_COMPLETE then
    if (le [byte 4 event; byte 5 event] =? cmd_opcode_pack HCI_VENDOR_CMD_OGF ocf) && (byte 6 event =? 0) then 0 else - EILSEQ
  else - EILSEQ.

Definition word_at (i : nat) (event : list Z) : Z := le [byte i event; byte (i + 1) event; byte (i + 2) event; byte (i + 3) event].

Section Ar3k.
(** The functions take the descriptor [fd] of the port: [line_fd] here. *)
Context `{BE : BtEnv} {LF : LineFd} (junk : nat).

Definition aline {A} (m : M bhistory A) : M aworld A := zoom a_tr put_a_tr m.
Definition scall (f : string) (args : list Z) : M aworld Z := aline (bext (fun tr => env_call tr f args) (BCall f args)).
Definition errno : M aworld Z := gets (fun w => env_call (a_tr w) "errno" []).
Definition anote (e : bev) : M aworld unit := aline (bnote e).
Definition raw_write (bs : list Z) : M aworld Z := aline (bext (fun tr => env_bwrite tr line_fd bs) (BWrite line_fd bs)).
Definition aread (buf : list Z) (size : nat) : M aworld (Z * list Z) := aline (read_hci_event line_fd junk buf size).
Definition afopen (path : string) : M aworld (option text) :=
  f ← aline (bext (fun tr => env_fopen tr path) (BFopen path)); mret (fst <$> f).

Definition is_bt_soc_ath : M aworld Z :=
  v ← gets (fun w => env_property (a_tr w) "qcom.bluetooth.soc");
  mret (if bool_decide (map toupper v = chars "ATH3K") then 1 else 0).

Definition set_speed (speed : Z) : M aworld Z :=
  r ← scall "cfsetospeed" [uart_speed speed];
  if r <? 0 then e ← errno; mret (- e) else
  r ← scall "cfsetispeed" [uart_speed speed];
  if r <? 0 then e ← errno; mret (- e) else
  r ← scall "tcsetattr" [uart_speed speed];
  if r <? 0 then e ← errno; mret (- e) else mret 0.

(** The event is a buffer of its own that the caller frees. *)
Definition send_hci_cmd_sync (cmd : list Z) (len : Z) : M aworld (Z * option (list Z)) :=
  if len =? 0 then mret (len, None)
  else
    r ← raw_write [HCI_COMMAND_PKT];
    if negb (r =? 1) then mret (- EILSEQ, None)
    else
      bs ← deref (slice 0 len cmd);
      r ← raw_write bs;
      if negb (r =? len) then mret (- EILSEQ, None)
      else
        ok ← amalloc;
        if negb ok then mret (- ENOMEM, None)
        else
          buf ← garbage PS_EVENT_LEN;
          '(err, buf) ← aread buf PS_EVENT_LEN;
          if 0 <? err then mret (len, Some buf) else mret (- EILSEQ, None).

(** A command whose event is looked at by [k]. *)
Definition with_event (cmd : list Z) (len : Z) (k : list Z -> Z -> M aworld Z) : M aworld Z :=
  '(err, event) ← send_hci_cmd_sync cmd len;
  if err <? 0 then mret err else ev ← deref event; k ev err.

Definition write_cmd (buffer : list Z) (len : Z) : M aworld Z :=
  with_event buffer len (fun event _ => mret (read_ps_event event HCI_PS_CMD_OCF)).

(** The entries from [i] on, [n] of them. *)
Fixpoint write_tags (n : nat) (i : Z) (cmd : list Z) : M aworld Z :=
  match n with
  | O => mret 0
  | S n =>
      t ← get_tag i;
      let cmd := load_hci_ps_hdr cmd PS_WRITE (ps_len t) (ps_id t) in
      data ← match ps_data t with BBuf d => mret d | _ => if ps_len t =? 0 then mret [] else stuck end;
      bs ← deref (slice 0 (ps_len t) data);
      cmd ← deref (store_bytes 7 bs cmd);
      err ← write_cmd cmd (ps_len t +u HCI_PS_CMD_HDR_LEN);
      if err <? 0 then mret (- EILSEQ) else write_tags n (i + 1) cmd
  end.

Definition write_ps_cmd (opcode ps_param : Z) : M aworld Z :=
  cmd ← garbage HCI_MAX_CMD_SIZE;
  if opcode =? ENABLE_PATCH then
    err ← write_cmd (load_hci_ps_hdr cmd opcode 0 0) HCI_PS_CMD_HDR_LEN;
    mret (if err <? 0 then - EILSEQ else 0)
  else if opcode =? PS_RESET then
    let cmd := load_hci_ps_hdr cmd opcode PS_RESET_PARAM_LEN 0 in
    let cmd := put_byte 12 (Z.land (Z.shiftr ps_param 8) 0xFF) (put_byte 11 (Z.land ps_param 0xFF) (put_byte 7 0 cmd)) in
    err ← write_cmd cmd PS_RESET_CMD_LEN;
    mret (if err <? 0 then - EILSEQ else 0)
  else if opcode =? PS_WRITE then write_tags (Z.to_nat ps_param) 0 cmd
  else mret 0.

Definition set_cntrlr_baud (speed : Z) : M aworld Z :=
  let opcode := cmd_opcode_pack HCI_VENDOR_CMD_OGF HCI_CHG_BAUD_CMD_OCF in
  let baud := Z.quot speed 100 in
  r ← raw_write [HCI_COMMAND_PKT; Z.land opcode 0xFF; Z.shiftr opcode 8; 2; u8 baud; u8 (Z.shiftr baud 8)];
  if negb (r =? 6) then mret (- ETIMEDOUT)
  else
    anote (BSleep 500);;
    rsp ← garbage HCI_MAX_EVENT_SIZE;
    '(err, _) ← aread rsp HCI_MAX_EVENT_SIZE;
    mret (if err <? 0 then - ETIMEDOUT else 0).

(** ** The configuration *)

Definition ps_config_download (tag_count : Z) : M aworld Z :=
  r ← write_ps_cmd PS_RESET PS_RAM_SIZE;
  if r <? 0 then mret (-1)
  else if 0 <? tag_count then r ← write_ps_cmd PS_WRITE tag_count; mret (if r <? 0 then -1 else 0)
  else mret 0.

(** [bdaddr] is an array. *)
Definition write_bdaddr (bdaddr : list Z) : M aworld Z :=
  let opcode := cmd_opcode_pack HCI_VENDOR_CMD_OGF HCI_PS_CMD_OCF in
  addr ← deref (convert_bdaddr bdaddr);
  let cmd := [Z.land opcode 0xFF; Z.shiftr opcode 8; 10; 0x01; 0x01; 0x00; 0x06] ++ addr in
  with_event cmd 13 (fun event _ => mret (read_ps_event event HCI_PS_CMD_OCF)).

Definition write_bdaddr_from_file (rom_version : Z) : M aworld unit :=
  f ← afopen (fw_file rom_version "ar3kbdaddr.pst");
  match f with
  | None => mret tt
  | Some content =>
      bdaddr ← garbage PATH_MAX;
      match fgets bdaddr (PATH_MAX - 1) content with
      | None => mret tt
      | Some (bdaddr, _) => write_bdaddr bdaddr;; mret tt
      end
  end.

(** ** Versions *)

(** The type of the device, if it was told. *)
Definition get_device_type : M aworld (Z * Z) :=
  let opcode := cmd_opcode_pack HCI_VENDOR_CMD_OGF GET_DEV_TYPE_OCF in
  let reg := u8 DEV_REGISTER in
  let cmd := [Z.land opcode 0xFF; Z.shiftr opcode 8; 5; reg; Z.shiftr reg 8; Z.shiftr reg 16; Z.shiftr reg 24; 0x04] in
  '(err, event) ← send_hci_cmd_sync cmd 8;
  if err <? 0 then mret (err, 0)
  else
    event ← deref event;
    let err := read_ps_event event GET_DEV_TYPE_OCF in
    mret (err, if err <? 0 then 0 else word_at 7 event).

(** The result, the version of the ROM and that of the build. *)
Definition read_ath3k_version : M aworld (Z * Z * Z) :=
  let opcode := cmd_opcode_pack HCI_VENDOR_CMD_OGF GET_VERSION_OCF in
  '(err, event) ← send_hci_cmd_sync [Z.land opcode 0xFF; Z.shiftr opcode 8; 0] 3;
  if err <? 0 then mret (err, 0, 0)
  else
    event ← deref event;
    let err := read_ps_event event GET_VERSION_OCF in
    mret (if err <? 0 then (err, 0, 0) else (err, word_at 7 event, word_at 11 event)).

Definition get_ath3k_crc : M aworld Z :=
  with_event (load_hci_ps_hdr (replicate 7 0) VERIFY_CRC 0 3) 7
    (fun event err => mret (if 0 <=? read_ps_event event HCI_PS_CMD_OCF then - EILSEQ else err)).

(** ** The patch *)

(** The address in the characters of [patch_loc], the last byte first. *)
Definition set_patch_ram (patch_loc : list Z) : M aworld Z :=
  bs ← deref (mapM (fun i => a ← patch_loc !! (2 * i)%nat; b ← patch_loc !! (2 * i + 1)%nat; Some (u8 (strtol16 (cut [a; b; 0])))) (seq 0 4));
  let cmd := take 7 (load_hci_ps_hdr (replicate 20 0) SET_PATCH_RAM_ID 4 0) ++ reverse bs ++ replicate 9 0 in
  with_event cmd 11 (fun event _ => mret (read_ps_event event HCI_PS_CMD_OCF)).

(** The lines before the data: the array with the line that ended the loop, or
    the result in case of an error, and the rest of the file. *)
Fixpoint patch_header (fuel : nat) (ptr patch_loc : list Z) (stream : text) : M aworld (option (list Z * text)) :=
  match fgets ptr MAX_PATCH_CMD stream with
  | None => mret (Some (ptr, []))
  | Some (ptr, stream) =>
      match fuel with
      | O => stuck
      | S fuel =>
          s ← deref (cstr 0 ptr);
          if (length s <=? 1)%nat then patch_header fuel ptr patch_loc stream
          else if bool_decide (take 3 s = chars "DA:") then
            patch_loc ← deref (store_bytes 0 (strlcpy (drop 3 s) PATCH_LOC_STRING_LEN) patch_loc);
            err ← set_patch_ram patch_loc;
            if err <? 0 then mret None else patch_header fuel ptr patch_loc stream
          else if isxdigit (byte 0 ptr) then mret (Some (ptr, stream))
          else mret None
      end
  end.

(** [n] bytes, two characters each. *)
Fixpoint patch_bytes (n : nat) (stream : text) : option (list Z * text) :=
  match n with
  | O => Some ([], stream)
  | S n =>
      match stream with
      | [] => None
      | _ =>
          let '(two, stream) := get_line 2 stream in
          '(bs, stream) ← patch_bytes n stream;
          Some (u8 (strtol16 (cut (two ++ [0]))) :: bs, stream)
      end
  end.

(** The segments of the patch from number [patch_count] on. *)
Fixpoint patch_loop (fuel : nat) (byte_cnt : Z) (patch_count : Z) (stream : text) : M aworld (Z * bool) :=
  if 0 <? byte_cnt then
    match fuel with
    | O => stuck
    | S fuel =>
        let len := Z.min byte_cnt (Z.of_nat MAX_PATCH_CMD) in
        match patch_bytes (Z.to_nat len) stream with
        | None => mret (-1, true)
        | Some (bs, stream) =>
            cmd ← deref (store_bytes 7 bs (load_hci_ps_hdr (replicate HCI_MAX_CMD_SIZE 0) WRITE_PATCH len patch_count));
            err ← write_cmd cmd (len + HCI_PS_CMD_HDR_LEN);
            if err <? 0 then mret (-1, true)
            else patch_loop fuel (byte_cnt - Z.of_nat MAX_PATCH_CMD) (patch_count +i 1) stream
        end
    end
  else mret (patch_count, false).

Definition ps_patch_download (stream : text) : M aworld Z :=
  ptr ← garbage (MAX_PATCH_CMD + 1);
  patch_loc ← garbage (PATCH_LOC_STRING_LEN + 1);
  h ← patch_header (length stream) ptr patch_loc stream;
  match h with
  | None => mret (-1)
  | Some (ptr, stream) =>
      s ← deref (cstr 0 ptr);
      '(patch_count, failed) ← patch_loop (S (length stream)) (strtol16 s) 0 stream;
      if failed : bool then mret (-1)
      else
        err ← write_ps_cmd ENABLE_PATCH 0;
        mret (if err <? 0 then -1 else patch_count)
  end.

(** ** The download *)

(** The patch file may be missing. *)
Definition patch_step (patch_file : string) : M aworld Z :=
  f ← afopen patch_file;
  match f with None => mret 0 | Some stream => ps_patch_download stream end.

Definition ath_ps_download : M aworld Z :=
  let complete (rom_version err : Z) : M aworld Z :=
    (if err =? 0 then write_bdaddr_from_file rom_version else mret tt);; mret err in
  '(r, dev_type) ← get_device_type;
  if r <? 0 then complete 0 (- EILSEQ)
  else
    '(r, rom_version, build_version) ← read_ath3k_version;
    if r <? 0 then complete 0 (- EILSEQ)
    else
      r ← get_ath3k_crc;
      if r <? 0 then complete rom_version 0
      else
        f ← afopen (get_ps_file_name dev_type rom_version);
        match f with
        | None => complete rom_version (if rom_version =? 0x1020201 then 0 else - EILSEQ)
        | Some stream =>
            tag_count ← ath_parse_ps stream;
            if tag_count <? 0 then complete rom_version (- EILSEQ)
            else
              r ← patch_step (get_patch_file_name dev_type rom_version build_version);
              if r <? 0 then complete rom_version (- EILSEQ)
              else err ← ps_config_download tag_count; complete rom_version err
        end.

(** ** Initialisation *)

(** A command that is written in one piece and answered by one event. *)
Definition plain_cmd (cmd : list Z) (k : M aworld Z) : M aworld Z :=
  r ← raw_write cmd;
  if negb (r =? Z.of_nat (length cmd)) then mret (- ETIMEDOUT)
  else
    k;;
    rsp ← garbage HCI_MAX_EVENT_SIZE;
    '(err, _) ← aread rsp HCI_MAX_EVENT_SIZE;
    mret (if err <? 0 then - ETIMEDOUT else 0).

Definition init_steps (speed : Z) (bdaddr : option text) : M aworld Z :=
  let opcode := cmd_opcode_pack HCI_VENDOR_CMD_OGF HCI_PS_CMD_OCF in
  r ← ath_ps_download;
  if r <? 0 then mret (- ETIMEDOUT)
  else
    err ← match bdaddr with
          | Some str => plain_cmd ([HCI_COMMAND_PKT; Z.land opcode 0xFF; Z.shiftr opcode 8; 10; 0x01; 0x01; 0x00; 0x06] ++ str2ba str) (mret 0)
          | None => mret 0
          end;
    if err <? 0 then mret err
    else
      err ← plain_cmd [HCI_COMMAND_PKT; 0x03; 0x0C; 0x00] (anote (BSleep 500);; mret 0);
      if err <? 0 then mret err else set_cntrlr_baud speed.

Definition ath3k_init (speed init_speed : Z) (bdaddr : option text) : M aworld Z :=
  r ← scall "TIOCMGET" [];
  if r <? 0 then mret (-1)
  else
    r ← scall "TIOCMSET" [];
    if r <? 0 then mret (-1)
    else
      err ← set_cntrlr_baud speed;
      if err <? 0 then mret err
      else
        err ← set_speed speed;
        if err <? 0 then mret err
        else
          err ← init_steps speed bdaddr;
          (if err <? 0 then set_cntrlr_baud init_speed;; set_speed init_speed;; mret tt else mret tt);;
          mret err.

(** ** The HCI socket *)

Definition hci_open_dev (dev_id : Z) : M aworld Z :=
  dd ← scall "socket" [];
  if dd <? 0 then mret dd
  else
    r ← scall "bind" [dd; dev_id];
    if r <? 0 then scall "close" [dd];; mret (-1) else mret dd.

Definition hci_close_dev (dd : Z) : M aworld Z := scall "close" [dd].

(** [junk] turns of the loop at most. *)
Fixpoint writev_loop (fuel : nat) (dd : Z) (bs : list Z) : M aworld Z :=
  match fuel with
  | O => stuck
  | S fuel =>
      r ← scall "writev" (dd :: bs);
      if r <? 0 then
        e ← errno;
        if (e =? EAGAIN) || (e =? EINTR) then writev_loop fuel dd bs else mret (-1)
      else mret 0
  end.

Definition hci_send_cmd (dd ogf ocf : Z) (param : list Z) : M aworld Z :=
  let opcode := cmd_opcode_pack ogf ocf in
  writev_loop junk dd ([HCI_COMMAND_PKT; Z.land opcode 0xFF; Z.shiftr opcode 8; Z.of_nat (length param)] ++ param).

Definition ath3k_post (fd pm : Z) : M aworld Z :=
  anote (BSleep 1000000);;
  dev_id ← scall "HCIUARTGETDEVICE" [fd];
  if dev_id <? 0 then mret dev_id
  else
    dd ← hci_open_dev dev_id;
    if dd <? 0 then mret dd
    else
      r ← scall "HCIDEVUP" [dd; dev_id];
      e ← errno;
      if (r <? 0) && negb (e =? EALREADY) then hci_close_dev dd;; mret (-1)
      else
        hci_send_cmd dd HCI_VENDOR_CMD_OGF HCI_SLEEP_CMD_OCF [u8 pm];;
        anote (BSleep 50);;
        hci_close_dev dd;;
        mret 0.

End Ar3k.

(** ** The port *)

Section Port.
Context `{BE : BtEnv} (junk : nat).

Definition init_uart (dev : string) (speed init_speed flags : Z) (bdaddr : option text) (send_break : bool) : M aworld Z :=
  fd ← scall ("open " +:+ dev) [];
  if fd <? 0 then mret (-1)
  else
    anote BFlush;;
    r ← scall "tcgetattr" [fd];
    if r <? 0 then mret (-1)
    else
      r ← scall "tcsetattr" [Z.land flags 1];
      if r <? 0 then mret (-1)
      else
        r ← set_speed init_speed;
        if r <? 0 then mret (-1)
        else
          anote BFlush;;
          (if send_break then scall "tcsendbreak" [fd];; anote (BSleep 500000) else mret tt);;
          ath3k_init (LF := fd) junk speed init_speed bdaddr;;
          anote BFlush;;
          mret fd.

Definition hw_config_ath3k (port_name : string) : M aworld Z := init_uart port_name 3000000 115200 1 None false.

(** ** Power modes *)

Definition UPIO_BT_WAKE : nat := 0.
Definition UPIO_HOST_WAKE : nat := 1.
Definition UPIO_LPM_MODE : nat := 2.
Definition UPIO_DEASSERT : Z := 1.
Definition UPIO_ASSERT : Z := 2.

(** The names of three states are printed. *)
Definition state_name (action : Z) : M aworld unit := if action <? 3 then mret tt else stuck.

(** A character written to a file of the driver; the new state. *)
Definition write_node (node : string) (pio : nat) (action buffer : Z) : M aworld unit :=
  fd ← scall ("open " +:+ node) [];
  if fd <? 0 then mret tt
  else
    r ← scall "write" [fd; buffer];
    (if r <? 0 then mret tt else modify (fun w => put_upio (<[pio := action]> (upio_state w)) w);; state_name action);;
    scall "close" [fd];; mret tt.

Definition lpm_set_ar3k (pio : nat) (action : Z) : M aworld unit :=
  w ← get;
  if (pio =? UPIO_LPM_MODE)%nat then
    cur ← deref (upio_state w !! UPIO_LPM_MODE);
    if cur =? action then state_name action
    else write_node "/sys/module/hci_uart/parameters/ath_lpm" UPIO_LPM_MODE action (if action =? UPIO_ASSERT then 49 else 48)
  else if (pio =? UPIO_BT_WAKE)%nat then
    cur ← deref (upio_state w !! UPIO_BT_WAKE);
    if (action =? UPIO_ASSERT) && (cur =? action) then state_name action
    else write_node "/sys/module/hci_uart/parameters/ath_btwrite" UPIO_BT_WAKE action (if action =? UPIO_DEASSERT then 48 else 49)
  else mret tt.

End Port.
