(* ===== verification/Ar3kProps.v ===== *)
(** * Theorems about the AR3K controller *)

From Stdlib Require Import ZArith Lia.
From stdpp Require Import list strings.
From S2P Require Import Prelude BtHci Rome RomeProps RomeNvm CText PsFile PsProps Ar3k.

(** ** Answers *)

Definition vendor_opcode (ocf : Z) : Z := cmd_opcode_pack HCI_VENDOR_CMD_OGF ocf.

(** The event that completes a command with success, and with more
    parameters. *)
Definition complete (ocf : Z) (ncmd status : Z) (extra : list Z) : list Z :=
  packet 0x0E ([ncmd; Z.land (vendor_opcode ocf) 0xFF; Z.shiftr (vendor_opcode ocf) 8; status] ++ extra).

Definition ps_done : list Z := complete HCI_PS_CMD_OCF 1 0 [].

(** The commands that are sent. *)
Definition command (ocf : Z) (params : list Z) : list Z :=
  [1; Z.land (vendor_opcode ocf) 0xFF; Z.shiftr (vendor_opcode ocf) 8; Z.of_nat (length params)] ++ params.
Definition ps_command (op index : Z) (data : list Z) : list Z :=
  command HCI_PS_CMD_OCF ([op; u8 index; u8 (Z.shiftr index 8); Z.of_nat (length data)] ++ data).

Section Ar3k.
Context `{BE : BtEnv} (Hmem : forall tr, env_bmalloc tr = true).
Context {LF : LineFd} (Hw : writes_all) (stream : list Z) (Hf : feeds stream) (junk : nat) (Hj : (0 < junk)%nat).
Abbreviation unread := (unread stream).

(** After a piece of code that only talks to the controller. *)
Definition talked (out rest : list Z) (w w' : aworld) : Prop :=
  w' = put_a_tr (a_tr w') w /\ sent (a_tr w') = sent (a_tr w) ++ outs line_fd out /\ unread (a_tr w') = rest.

Lemma talked_trans o1 o2 r1 r2 w w1 w2 : talked o1 r1 w w1 -> talked o2 r2 w1 w2 -> talked (o1 ++ o2) r2 w w2.
Proof.
  intros (E1 & S1 & U1) (E2 & S2 & U2). split; [|split; [|done]].
  - rewrite E2 at 1. rewrite E1. done.
  - by rewrite S2, S1, outs_app, app_assoc.
Qed.

Lemma garbage_run n w : exists l, garbage n w = Some (l, w) /\ length l = n.
Proof. eexists. split; [reflexivity|]. rewrite length_take, length_app, length_replicate. lia. Qed.

Lemma raw_write_run bs w : raw_write bs w = Some (Z.of_nat (length bs), put_a_tr (BWrite line_fd bs (Z.of_nat (length bs)) :: a_tr w) w).
Proof using Hw. unfold raw_write, aline, zoom, bext. by rewrite !Hw. Qed.

Lemma aread_run w buf size code params rest : unread (a_tr w) = packet code params ++ rest -> (length params < 256)%nat -> length buf = size -> (3 + length params < size)%nat ->
  exists tr', aread junk buf size w = Some ((Z.of_nat (length (packet code params)), packet code params ++ drop (length (packet code params)) buf), put_a_tr tr' w) /\
    unread tr' = rest /\ sent tr' = sent (a_tr w).
Proof.
  intros Hu Hp Hb Hs. destruct (packet_run stream Hf line_fd junk (fun _ => true) [] code params rest (a_tr w) buf size) as (tr' & E & H); [simpl; lia|constructor|done|done|done|done|done|].
  exists tr'. split; [|done]. unfold aread, aline. apply zoom_run. unfold read_hci_event. rewrite (proj2 (Nat.eqb_neq _ _)) by lia. by rewrite (bind_run _ _ _ _ _ E).
Qed.

(** ** Commands *)

Lemma sync_run w cmd len code params rest : 0 < len <= Z.of_nat (length cmd) -> (length params < 97)%nat -> unread (a_tr w) = packet code params ++ rest ->
  exists w' tail, send_hci_cmd_sync junk cmd len w = Some ((len, Some (packet code params ++ tail)), w') /\ talked (1 :: take (Z.to_nat len) cmd) rest w w'.
Proof.
  intros Hl Hp Hu. unfold send_hci_cmd_sync. rewrite (proj2 (Z.eqb_neq len 0)) by lia. rewrite (bind_run _ _ _ _ _ (raw_write_run _ _)). change (negb (Z.of_nat (length [HCI_COMMAND_PKT]) =? 1)) with false. cbv iota.
  rewrite slice_run by lia. erewrite bind_run by reflexivity. change (drop (Z.to_nat 0) cmd) with cmd. rewrite (bind_run _ _ _ _ _ (raw_write_run _ _)). rewrite length_take.
  replace (Z.of_nat (Nat.min (Z.to_nat len) (length cmd))) with len by lia. rewrite Z.eqb_refl. cbn [negb]. set (w1 := put_a_tr _ (put_a_tr _ w)).
  assert (Em : amalloc w1 = Some (true, put_a_tr (BMalloc true :: a_tr w1) w1)) by (unfold amalloc, zoom, bext; by rewrite !Hmem). rewrite (bind_run _ _ _ _ _ Em). cbn [negb].
  set (w2 := put_a_tr _ w1). destruct (garbage_run PS_EVENT_LEN w2) as (buf & Eg & Hb). rewrite (bind_run _ _ _ _ _ Eg).
  destruct (aread_run w2 buf PS_EVENT_LEN code params rest) as (tr' & Er & Hu' & Hs'); [exact Hu|lia|done|unfold PS_EVENT_LEN; lia|].
  rewrite (bind_run _ _ _ _ _ Er). cbv beta iota. rewrite (proj2 (Z.ltb_lt _ _)) by (unfold packet; simpl; lia). eexists _, _. split; [reflexivity|]. split; [done|]. split; [|done].
  simpl a_tr. rewrite Hs'. simpl. rewrite take_take, Nat.min_id, <- app_assoc. done.
Qed.

Lemma complete_run ocf status extra w cmd len rest : 0 < len <= Z.of_nat (length cmd) -> (length extra < 90)%nat -> unread (a_tr w) = complete ocf 1 status extra ++ rest ->
  exists w' tail, send_hci_cmd_sync junk cmd len w = Some ((len, Some (complete ocf 1 status extra ++ tail)), w') /\ talked (1 :: take (Z.to_nat len) cmd) rest w w'.
Proof. intros Hl Hx Hu. unfold complete in *. by apply sync_run; [|simpl; lia|]. Qed.

Lemma complete_event ocf ncmd status extra tail : 0 <= ocf < 2 ^ 10 -> 
  read_ps_event (complete ocf ncmd status extra ++ tail) ocf = if status =? 0 then 0 else - EILSEQ.
Proof.
  intros Ho. unfold read_ps_event, complete, packet. cbn [app byte nth]. change (0x0E =? EVT_CMD_COMPLETE) with true. cbv iota.
  assert (E : le [Z.land (vendor_opcode ocf) 255; Z.shiftr (vendor_opcode ocf) 8] = vendor_opcode ocf).
  { change 255 with (Z.ones 8). rewrite Z.land_ones by lia. rewrite le_cons by (apply Z.mod_pos_bound; lia). rewrite le_cons.
    - simpl le. rewrite Z.shiftr_div_pow2 by lia. pose proof (Z.div_mod (vendor_opcode ocf) (2 ^ 8)). change (2 ^ 8) with 256 in *. lia.
    - rewrite Z.shiftr_div_pow2 by lia. unfold vendor_opcode, cmd_opcode_pack, u16. pose proof (Z.mod_pos_bound (Z.lor (Z.land ocf 1023) (Z.shiftl HCI_VENDOR_CMD_OGF 10)) (2 ^ 16)). change (2 ^ 8) with 256. split; [apply Z.div_pos; lia|apply Z.div_lt_upper_bound; lia]. }
  rewrite E, Z.eqb_refl. done.
Qed.

Lemma write_cmd_run w cmd len rest : 0 < len <= Z.of_nat (length cmd) -> unread (a_tr w) = ps_done ++ rest ->
  exists w', write_cmd junk cmd len w = Some (0, w') /\ talked (1 :: take (Z.to_nat len) cmd) rest w w'.
Proof.
  intros Hl Hu. destruct (complete_run HCI_PS_CMD_OCF 0 [] w cmd len rest Hl) as (w' & tail & E & Ht); [simpl; lia|exact Hu|].
  exists w'. split; [|done]. unfold write_cmd, with_event. rewrite (bind_run _ _ _ _ _ E). cbv beta iota. rewrite (proj2 (Z.ltb_ge _ _)) by lia. erewrite bind_run by reflexivity.
  unfold mret, M_ret. by rewrite complete_event by (unfold HCI_PS_CMD_OCF; lia).
Qed.

(** ** The configuration *)

Definition tag_command (e : ps_entry) : list Z := ps_command PS_WRITE (e_id e) (e_bytes e).

Lemma header_run cmd op len index : length cmd = HCI_MAX_CMD_SIZE -> 0 <= op < 256 -> 0 <= len <= 251 ->
  load_hci_ps_hdr cmd op len index = [0x0B; 0xFC; len + 4; op; u8 index; u8 (Z.shiftr index 8); len] ++ drop 7 cmd /\ length (load_hci_ps_hdr cmd op len index) = HCI_MAX_CMD_SIZE.
Proof.
  intros Hc Ho Hl. unfold load_hci_ps_hdr, PS_HDR_LEN. cbv zeta. rewrite (u8_small (len + 4)), (u8_small op), (u8_small len) by lia. split; [done|].
  rewrite length_app, length_drop, Hc. done.
Qed.

(** A header and data in one buffer are a command. *)
Lemma framed_run cmd op index bs : length cmd = HCI_MAX_CMD_SIZE -> 0 <= op < 256 -> Z.of_nat (length bs) <= 251 ->
  exists cmd', store_bytes 7 bs (load_hci_ps_hdr cmd op (Z.of_nat (length bs)) index) = Some cmd' /\ length cmd' = HCI_MAX_CMD_SIZE /\
    1 :: take (Z.to_nat (Z.of_nat (length bs) + 7)) cmd' = ps_command op index bs.
Proof.
  intros Hc Ho Hl. destruct (header_run cmd op (Z.of_nat (length bs)) index Hc Ho ltac:(lia)) as [E Hlen]. rewrite store_bytes_run by (rewrite Hlen; unfold HCI_MAX_CMD_SIZE; lia).
  eexists. split; [reflexivity|]. split; [rewrite !length_app, length_take, length_drop, Hlen; unfold HCI_MAX_CMD_SIZE; lia|].
  assert (E7 : take 7 (load_hci_ps_hdr cmd op (Z.of_nat (length bs)) index) = [0x0B; 0xFC; Z.of_nat (length bs) + 4; op; u8 index; u8 (Z.shiftr index 8); Z.of_nat (length bs)]) by by rewrite E.
  rewrite E7, app_assoc, take_app_length' by (rewrite length_app; simpl; lia).
  unfold ps_command, command. rewrite length_app. simpl. do 4 f_equal. lia.
Qed.

Lemma tags_run : forall es i cmd w rest, Forall (fun e => Z.of_nat (length (e_bytes e)) <= 251) es -> (forall k e, es !! k = Some e -> ps_list w !! (i + k)%nat = Some (entry_of e)) ->
  length cmd = HCI_MAX_CMD_SIZE -> unread (a_tr w) = concat (replicate (length es) ps_done) ++ rest ->
  exists w', write_tags junk (length es) (Z.of_nat i) cmd w = Some (0, w') /\ talked (concat (map tag_command es)) rest w w'.
Proof.
  induction es as [|e es IH]; intros i cmd w rest Hes Htab Hc Hu.
  - exists w. split; [done|]. split; [by destruct w|]. by rewrite app_nil_r.
  - apply Forall_cons in Hes as [He Hes]. cbn [length replicate concat] in Hu. rewrite <- app_assoc in Hu. cbn [length write_tags].
    pose proof (Htab 0%nat e eq_refl) as H0. rewrite Nat.add_0_r in H0. rewrite (bind_run _ _ _ _ _ (get_tag_run i _ w H0)). cbn [entry_of ps_len ps_id ps_data]. erewrite bind_run by reflexivity.
    rewrite slice_run by lia. erewrite bind_run by reflexivity. change (drop (Z.to_nat 0) (e_bytes e)) with (e_bytes e). rewrite Nat2Z.id, firstn_all.
    destruct (framed_run cmd PS_WRITE (e_id e) (e_bytes e) Hc ltac:(unfold PS_WRITE; lia) He) as (cmd' & Es & Hc' & Ec). rewrite Es. erewrite bind_run by reflexivity.
    unfold HCI_PS_CMD_HDR_LEN. rewrite u32_id by (unfold u32_range; lia).
    destruct (write_cmd_run w cmd' (Z.of_nat (length (e_bytes e)) + 7) (concat (replicate (length es) ps_done) ++ rest)) as (w1 & E1 & T1); [unfold HCI_MAX_CMD_SIZE in Hc'; lia|done|].
    rewrite (bind_run _ _ _ _ _ E1). rewrite Ec in T1. cbn [Z.ltb Z.compare]. replace (Z.of_nat i + 1) with (Z.of_nat (S i)) by lia.
    destruct (IH (S i) cmd' w1 rest Hes) as (w2 & E2 & T2); [|done|apply T1|].
    { intros k e' Hk. destruct T1 as (-> & _). simpl. replace (S (i + k))%nat with (i + S k)%nat by lia. by apply Htab. }
    exists w2. split; [exact E2|]. cbn [map concat]. by eapply talked_trans.
Qed.

(** The command that clears the memory has three bytes that were never
    written. *)
Definition reset_command (g : list Z) : list Z := ps_command PS_RESET 0 ([0] ++ g ++ [0; 8]).

Lemma reset_cmd_run w rest : unread (a_tr w) = ps_done ++ rest ->
  exists g w', write_ps_cmd junk PS_RESET PS_RAM_SIZE w = Some (0, w') /\ length g = 3%nat /\ talked (reset_command g) rest w w'.
Proof.
  intros Hu. unfold write_ps_cmd. destruct (garbage_run HCI_MAX_CMD_SIZE w) as (cmd & Eg & Hc). rewrite (bind_run _ _ _ _ _ Eg).
  destruct (header_run cmd PS_RESET 6 0 Hc ltac:(unfold PS_RESET; lia) ltac:(lia)) as [Eh Hh].
  assert (Ex : exists a b c d e f t, drop 7 cmd = a :: b :: c :: d :: e :: f :: t).
  { do 7 (destruct cmd as [|? cmd]; [done|]). do 6 (destruct cmd as [|? cmd]; [done|]). by repeat eexists. }
  destruct Ex as (a & b & c & d & e & f & t & Ed). rewrite Ed in Eh.
  change (PS_RESET =? ENABLE_PATCH) with false. change (PS_RESET =? PS_RESET) with true. cbv iota zeta. change PS_RESET_PARAM_LEN with 6.
  set (cmd2 := put_byte 12 _ _). assert (E2 : 1 :: take 13 cmd2 = reset_command [b; c; d]) by (unfold cmd2; rewrite Eh; reflexivity).
  assert (Hc2 : length cmd2 = HCI_MAX_CMD_SIZE) by (unfold cmd2, put_byte; by rewrite !length_insert).
  destruct (write_cmd_run w cmd2 PS_RESET_CMD_LEN rest) as (w1 & E1 & T1); [unfold HCI_MAX_CMD_SIZE in Hc2; unfold PS_RESET_CMD_LEN; lia|done|].
  exists [b; c; d], w1. rewrite (bind_run _ _ _ _ _ E1). split; [done|]. split; [done|]. by rewrite <- E2.
Qed.

Lemma ps_config_run es w rest : Forall (fun e => Z.of_nat (length (e_bytes e)) <= 251) es -> (forall k e, es !! k = Some e -> ps_list w !! k = Some (entry_of e)) ->
  unread (a_tr w) = ps_done ++ concat (replicate (length es) ps_done) ++ rest ->
  exists g w', ps_config_download junk (Z.of_nat (length es)) w = Some (0, w') /\ length g = 3%nat /\ talked (reset_command g ++ concat (map tag_command es)) rest w w'.
Proof.
  intros Hes Htab Hu. destruct (reset_cmd_run w _ Hu) as (g & w1 & E1 & Hg & T1). exists g. unfold ps_config_download. rewrite (bind_run _ _ _ _ _ E1). cbn [Z.ltb Z.compare].
  destruct es as [|e0 es0] eqn:Ees; [exists w1; by rewrite app_nil_r|]. rewrite <- Ees in *. rewrite (proj2 (Z.ltb_lt _ _)) by (rewrite Ees; simpl; lia).
  destruct (garbage_run HCI_MAX_CMD_SIZE w1) as (cmd & Eg & Hc). destruct (tags_run es 0 cmd w1 rest Hes) as (w2 & E2 & T2); [|done|apply T1|].
  { intros k e Hk. destruct T1 as (-> & _). by apply Htab. }
  assert (E3 : write_ps_cmd junk PS_WRITE (Z.of_nat (length es)) w1 = Some (0, w2)).
  { unfold write_ps_cmd. rewrite (bind_run _ _ _ _ _ Eg). change (PS_WRITE =? ENABLE_PATCH) with false. change (PS_WRITE =? PS_RESET) with false. change (PS_WRITE =? PS_WRITE) with true. cbv iota. by rewrite Nat2Z.id. }
  exists w2. rewrite (bind_run _ _ _ _ _ E3). split; [done|]. split; [done|]. by eapply talked_trans.
Qed.

(** ** The patch *)

Definition print_bytes (bs : list Z) : text := concat (map (hex_text 2) bs).

(** A patch file: where it goes, how long it is, its bytes. *)
Definition print_patch (loc : Z) (data : list Z) : text :=
  line (chars "DA:" ++ hex_text 8 loc) ++ line (hex_text 4 (Z.of_nat (length data))) ++ print_bytes data.

(** The address that is sent: of the last byte only the upper digit is left,
    as the value of the byte. *)
Definition loc_bytes (loc : Z) : list Z := [loc / 16 mod 16; loc / 2 ^ 8 mod 256; loc / 2 ^ 16 mod 256; loc / 2 ^ 24 mod 256].
Definition loc_command (loc : Z) : list Z := ps_command SET_PATCH_RAM_ID 0 (loc_bytes loc).

Lemma digit_value a : 0 <= a < 16 -> u8 (strtol16 (cut [hex_char a; 0; 0])) = a.
Proof.
  intros Ha. pose proof (hex_char_range a Ha). unfold cut, until_nul. rewrite (proj2 (Z.eqb_neq _ _)) by lia. 
  assert (E : [hex_char a] ++ [] = hex_text 1 a ++ []) by (simpl; by rewrite Z.mod_small). change (u8 (strtol16 ([hex_char a] ++ [])) = a). rewrite E, strtol_hex; [apply u8_small; lia|lia|simpl; lia|done].
Qed.

Lemma pair_value a b : 0 <= a < 16 -> 0 <= b < 16 -> u8 (strtol16 (cut [hex_char a; hex_char b; 0])) = 16 * a + b.
Proof.
  intros Ha Hb. pose proof (hex_char_range a Ha). pose proof (hex_char_range b Hb). unfold cut, until_nul. rewrite !(proj2 (Z.eqb_neq _ _)) by lia.
  assert (E : [hex_char a; hex_char b] ++ [] = hex_text 2 (16 * a + b) ++ []).
  { simpl. replace ((16 * a + b) / 16) with a by (Z.to_euclidean_division_equations; lia). replace ((16 * a + b) mod 16) with b by (Z.to_euclidean_division_equations; lia). by rewrite Z.mod_small. }
  change (u8 (strtol16 ([hex_char a; hex_char b] ++ [])) = 16 * a + b). rewrite E, strtol_hex; [apply u8_small; lia|lia|simpl; lia|done].
Qed.

Lemma hex_byte v : 0 <= v -> u8 (strtol16 (cut [hex_char (v / 16 mod 16); hex_char (v mod 16); 0])) = v mod 256.
Proof. intros Hv. rewrite pair_value by (apply Z.mod_pos_bound; lia). Z.to_euclidean_division_equations; lia. Qed.

Lemma set_patch_ram_run loc g w rest : 0 <= loc < 2 ^ 32 -> unread (a_tr w) = ps_done ++ rest ->
  exists w', set_patch_ram junk (take 7 (hex_text 8 loc) ++ [0; g]) w = Some (0, w') /\ talked (loc_command loc) rest w w'.
Proof.
  intros Hl Hu. set (d k := hex_char (loc / 16 ^ k mod 16)).
  assert (E8 : hex_text 8 loc = [d 7; d 6; d 5; d 4; d 3; d 2; d 1; d 0]).
  { unfold d. cbn [hex_text app]. rewrite !Z.div_div by lia. simpl Z.mul. by rewrite Z.div_1_r. }
  unfold set_patch_ram. rewrite E8. cbn [take app seq mapM]. cbn [lookup list_lookup Nat.mul Nat.add mbind option_bind mret option_ret].
  assert (H16 : forall k, 0 <= k -> 0 <= loc / 16 ^ k) by (intros; apply Z.div_pos; lia).
  assert (Ep : forall k, 0 <= k -> u8 (strtol16 (cut [d (k + 1); d k; 0])) = loc / 16 ^ k mod 256).
  { intros k Hk. unfold d. rewrite Z.pow_add_r, <- Z.div_div, Z.pow_1_r by lia. apply hex_byte, H16. lia. }
  pose proof (Ep 6 ltac:(lia)) as E6. pose proof (Ep 4 ltac:(lia)) as E4. pose proof (Ep 2 ltac:(lia)) as E2. change (6 + 1) with 7 in E6. change (4 + 1) with 5 in E4. change (2 + 1) with 3 in E2. rewrite E6, E4, E2.
  assert (E0 : u8 (strtol16 (cut [d 1; 0; 0])) = loc / 16 mod 16) by (unfold d; rewrite digit_value by (apply Z.mod_pos_bound; lia); by rewrite Z.pow_1_r). rewrite E0.
  erewrite bind_run by reflexivity. set (cmd := take 7 _ ++ _ ++ _).
  assert (Ec : 1 :: take 11 cmd = loc_command loc) by reflexivity.
  destruct (complete_run HCI_PS_CMD_OCF 0 [] w cmd 11 rest) as (w' & tail & E & Ht); [simpl; lia|simpl; lia|exact Hu|].
  exists w'. split; [|by rewrite <- Ec]. unfold with_event. rewrite (bind_run _ _ _ _ _ E). cbv beta iota. cbn [Z.ltb Z.compare]. erewrite bind_run by reflexivity.
  unfold mret, M_ret. by rewrite complete_event by (unfold HCI_PS_CMD_OCF; lia).
Qed.

Lemma hex_nonul n v : 0 <= v -> Forall (fun c => c <> 0 /\ c <> newline) (hex_text n v).
Proof. intros Hv. eapply Forall_impl; [by apply hex_text_chars|]. unfold newline. intros c Hc. cbv beta in Hc. lia. Qed.

Lemma patch_bytes_run bs rest : Forall (fun b => 0 <= b < 256) bs -> patch_bytes (length bs) (print_bytes bs ++ rest) = Some (bs, rest).
Proof.
  induction 1 as [|b bs Hb _ IH]; [done|]. unfold print_bytes in *. cbn [map concat length patch_bytes]. rewrite <- app_assoc.
  assert (E : hex_text 2 b = [hex_char (b / 16 mod 16); hex_char (b mod 16)]) by done. rewrite E. cbn [app].
  assert (Hn : forall a, 0 <= a < 16 -> (hex_char a =? newline) = false) by (intros a Ha; apply Z.eqb_neq; pose proof (hex_char_range a Ha); unfold newline; lia).
  cbn [get_line]. rewrite !Hn by (apply Z.mod_pos_bound; lia). rewrite IH. cbn [mbind option_bind app]. rewrite hex_byte by lia. by rewrite Z.mod_small.
Qed.

(** The commands of the segments from number [k] on. *)
Fixpoint patch_out (fuel : nat) (k : Z) (data : list Z) : list Z :=
  match fuel, data with
  | S fuel, _ :: _ => ps_command WRITE_PATCH k (take 244 data) ++ patch_out fuel (k + 1) (drop 244 data)
  | _, _ => []
  end.

Definition patch_segments (data : list Z) : nat := Z.to_nat ((Z.of_nat (length data) + 243) / 244).

Lemma ps_patch_loop_run : forall fuel data k w rest, (length data <= fuel)%nat -> Forall (fun b => 0 <= b < 256) data -> 0 <= k -> k + Z.of_nat (length data) < 2 ^ 31 ->
  unread (a_tr w) = concat (replicate (patch_segments data) ps_done) ++ rest ->
  exists w', patch_loop junk (S fuel) (Z.of_nat (length data)) k (print_bytes data) w = Some ((k + Z.of_nat (patch_segments data), false), w') /\
    talked (patch_out fuel k data) rest w w'.
Proof.
  induction fuel as [|fuel IH]; intros data k w rest Hl Hb Hk Hmax Hu.
  - destruct data; [|simpl in Hl; lia]. exists w. split; [simpl; by rewrite Z.add_0_r|]. split; [by destruct w|]. by rewrite app_nil_r.
  - destruct (decide (length data = 0%nat)) as [E0|E0].
    { apply nil_length_inv in E0. rewrite E0 in *. exists w. split; [simpl; by rewrite Z.add_0_r|]. split; [by destruct w|]. by rewrite app_nil_r. }
    assert (Hout : patch_out (S fuel) k data = ps_command WRITE_PATCH k (take 244 data) ++ patch_out fuel (k + 1) (drop 244 data)) by (destruct data; [simpl in E0; lia|done]).
    assert (Hseg : patch_segments data = S (patch_segments (drop 244 data))) by (unfold patch_segments; rewrite length_drop; destruct (decide (244 <= length data)%nat); [|replace (length data - 244)%nat with 0%nat by lia]; Z.to_euclidean_division_equations; lia).
    assert (Hsplit : print_bytes data = print_bytes (take 244 data) ++ print_bytes (drop 244 data)) by (unfold print_bytes; rewrite <- concat_app, <- map_app; by rewrite take_drop).
    rewrite <- (take_drop 244 data) in Hb. apply Forall_app in Hb as [Hb1 Hb2]. pose proof (length_take data 244) as Ht. pose proof (length_drop data 244) as Hd.
    rewrite Hseg in Hu. cbn [replicate concat] in Hu. rewrite <- app_assoc in Hu. remember (S fuel) as m eqn:Hm. cbn [patch_loop]. rewrite (proj2 (Z.ltb_lt _ _)) by lia. cbv zeta.
    assert (Hlen : Z.min (Z.of_nat (length data)) (Z.of_nat MAX_PATCH_CMD) = Z.of_nat (length (take 244 data))) by (unfold MAX_PATCH_CMD; lia). rewrite Hlen, Nat2Z.id, Hsplit, patch_bytes_run by done.
    destruct (framed_run (replicate HCI_MAX_CMD_SIZE 0) WRITE_PATCH k (take 244 data)) as (cmd & Es & Hc & Ec); [done|unfold WRITE_PATCH; lia|lia|]. rewrite Es. erewrite bind_run by reflexivity.
    destruct (write_cmd_run w cmd (Z.of_nat (length (take 244 data)) + 7) (concat (replicate (patch_segments (drop 244 data)) ps_done) ++ rest)) as (w1 & E1 & T1); [unfold HCI_MAX_CMD_SIZE in Hc; lia|done|].
    unfold HCI_PS_CMD_HDR_LEN. rewrite (bind_run _ _ _ _ _ E1). rewrite Ec in T1. cbn [Z.ltb Z.compare]. rewrite i32_id by (unfold i32_range; lia).
    destruct (IH (drop 244 data) (k + 1) w1 rest) as (w2 & E2 & T2); [lia|done|lia|lia|apply T1|].
    assert (Ez : patch_loop junk m (Z.of_nat (length data) - Z.of_nat MAX_PATCH_CMD) (k + 1) (print_bytes (drop 244 data)) w1 = Some ((k + Z.of_nat (patch_segments data), false), w2)).
    { rewrite Hseg. replace (k + Z.of_nat (S (patch_segments (drop 244 data)))) with (k + 1 + Z.of_nat (patch_segments (drop 244 data))) by lia. rewrite <- E2, Hm, Hd. unfold MAX_PATCH_CMD.
      destruct (decide (244 <= length data)%nat); [f_equal; lia|]. replace (Z.of_nat (length data - 244)) with 0 by lia. cbn [patch_loop]. rewrite (proj2 (Z.ltb_ge _ _)) by lia. done. }
    exists w2. split; [exact Ez|]. rewrite Hout. by eapply talked_trans.
Qed.

Lemma fgets_line buf size l rest : Forall (fun c => c <> 0 /\ c <> newline) l -> (S (length l) < size)%nat ->
  exists buf', fgets buf size (line l ++ rest) = Some (buf', rest) /\ cstr 0 buf' = Some (l ++ [newline]) /\ (forall c s, l = c :: s -> byte 0 buf' = c).
Proof.
  intros Hl Hs. eexists. unfold line. rewrite <- app_assoc. cbn [app]. rewrite fgets_run by (done || (eapply Forall_impl; [exact Hl|]; by intros c [])). split; [done|]. split; [by apply line_text|]. by intros c s ->.
Qed.

Lemma da_line loc : 0 <= loc -> Forall (fun c => c <> 0 /\ c <> newline) (chars "DA:" ++ hex_text 8 loc).
Proof. intros H. apply Forall_app. split; [repeat constructor; done|by apply hex_nonul]. Qed.

Lemma header_lines_run loc n body ptr patch_loc fuel w rest : 0 <= loc < 2 ^ 32 -> 0 <= n < 2 ^ 16 -> length patch_loc = 9%nat -> (2 <= fuel)%nat ->
  unread (a_tr w) = ps_done ++ rest ->
  exists ptr' w', patch_header junk fuel ptr patch_loc (line (chars "DA:" ++ hex_text 8 loc) ++ line (hex_text 4 n) ++ body) w = Some (Some (ptr', body), w') /\
    cstr 0 ptr' = Some (hex_text 4 n ++ [newline]) /\ talked (loc_command loc) rest w w'.
Proof.
  intros Hl Hn Hp Hfuel Hu. destruct fuel as [|[|fuel]]; [lia|lia|].
  destruct (fgets_line ptr MAX_PATCH_CMD (chars "DA:" ++ hex_text 8 loc) (line (hex_text 4 n) ++ body) (da_line loc ltac:(lia))) as (p1 & E1 & C1 & _); [rewrite length_app, hex_text_length; unfold MAX_PATCH_CMD; simpl; lia|].
  destruct (fgets_line p1 MAX_PATCH_CMD (hex_text 4 n) body (hex_nonul 4 n ltac:(lia))) as (p2 & E2 & C2 & B2); [rewrite hex_text_length; unfold MAX_PATCH_CMD; simpl; lia|].
  remember (S fuel) as m eqn:Hm. cbn [patch_header]. rewrite E1, C1. erewrite bind_run by reflexivity. rewrite (proj2 (Nat.leb_gt _ _)) by (rewrite !length_app, hex_text_length; simpl; lia).
  rewrite bool_decide_true by done. change (drop 3 ((chars "DA:" ++ hex_text 8 loc) ++ [newline])) with (hex_text 8 loc ++ [newline]).
  assert (Es : exists g, store_bytes 0 (strlcpy (hex_text 8 loc ++ [newline]) PATCH_LOC_STRING_LEN) patch_loc = Some (take 7 (hex_text 8 loc) ++ [0; g])).
  { unfold strlcpy, PATCH_LOC_STRING_LEN. rewrite take_app_le by (rewrite hex_text_length; lia). change (8 - 1)%nat with 7%nat. set (l7 := take 7 (hex_text 8 loc)).
    assert (H7 : length (l7 ++ [0]) = 8%nat) by (unfold l7; rewrite length_app, length_take, hex_text_length; done). rewrite store_bytes_run by lia. rewrite H7. cbn [take app Nat.add].
    do 9 (destruct patch_loc as [|? patch_loc]; [done|]). destruct patch_loc; [|done]. cbn [drop]. eexists. rewrite take_0. cbn [app]. by rewrite <- app_assoc. }
  destruct Es as (g & Es). rewrite Es. erewrite bind_run by reflexivity. destruct (set_patch_ram_run loc g w rest Hl Hu) as (w1 & Es1 & T1). rewrite (bind_run _ _ _ _ _ Es1). cbn [Z.ltb Z.compare].
  rewrite Hm. cbn [patch_header]. rewrite E2, C2. erewrite bind_run by reflexivity. rewrite (proj2 (Nat.leb_gt _ _)) by (rewrite !length_app, hex_text_length; simpl; lia).
  pose proof (hex_text_chars 4 n ltac:(lia)) as Hch. destruct (hex_text 4 n) as [|c0 [|c1 [|c2 l]]] eqn:E4; [by pose proof (hex_text_length 4 n) as H; rewrite E4 in H..|].
  rewrite bool_decide_false. 2: { intros [= _ _ ->]. apply Forall_cons in Hch as [_ Hch]. apply Forall_cons in Hch as [_ Hch]. apply Forall_cons in Hch as [Hch _]. vm_compute in Hch. intuition congruence. }
  assert (Hx : isxdigit (byte 0 p2) = true).
  { rewrite (B2 _ _ eq_refl). unfold isxdigit. assert (E0 : c0 = hex_char (n / 16 / 16 / 16 mod 16)) by (cbn [hex_text app] in E4; congruence). rewrite E0, hex_char_digit by (apply Z.mod_pos_bound; lia). done. }
  rewrite Hx. exists p2, w1. done.
Qed.

Lemma enable_run w rest : unread (a_tr w) = ps_done ++ rest -> exists w', write_ps_cmd junk ENABLE_PATCH 0 w = Some (0, w') /\ talked (ps_command ENABLE_PATCH 0 []) rest w w'.
Proof.
  intros Hu. unfold write_ps_cmd. destruct (garbage_run HCI_MAX_CMD_SIZE w) as (cmd & Eg & Hc). rewrite (bind_run _ _ _ _ _ Eg).
  destruct (header_run cmd ENABLE_PATCH 0 0 Hc ltac:(unfold ENABLE_PATCH; lia) ltac:(lia)) as [Eh Hh]. change (ENABLE_PATCH =? ENABLE_PATCH) with true. cbv iota.
  destruct (write_cmd_run w (load_hci_ps_hdr cmd ENABLE_PATCH 0 0) HCI_PS_CMD_HDR_LEN rest) as (w1 & E1 & T1); [rewrite Hh; unfold HCI_MAX_CMD_SIZE, HCI_PS_CMD_HDR_LEN; lia|done|].
  exists w1. rewrite (bind_run _ _ _ _ _ E1). split; [done|]. rewrite Eh in T1. exact T1.
Qed.

Lemma patch_out_fuel : forall f g k data, (length data <= f)%nat -> (length data <= g)%nat -> patch_out f k data = patch_out g k data.
Proof.
  induction f as [|f IH]; intros [|g] k [|b data] Hx Hg; try done; [simpl in Hx; lia|simpl in Hg; lia|]. cbn [patch_out]. f_equal.
  apply IH; rewrite length_drop; simpl in *; lia.
Qed.

(** Everything that a patch file makes go out. *)
Definition patch_file_out (loc : Z) (data : list Z) : list Z := loc_command loc ++ patch_out (length data) 0 data ++ ps_command ENABLE_PATCH 0 [].

Lemma patch_run loc data w rest : 0 <= loc < 2 ^ 32 -> Z.of_nat (length data) < 2 ^ 16 -> Forall (fun b => 0 <= b < 256) data ->
  unread (a_tr w) = ps_done ++ concat (replicate (patch_segments data) ps_done) ++ ps_done ++ rest ->
  exists w', ps_patch_download junk (print_patch loc data) w = Some (Z.of_nat (patch_segments data), w') /\ talked (patch_file_out loc data) rest w w'.
Proof.
  intros Hl Hn Hb Hu. unfold ps_patch_download, print_patch. destruct (garbage_run (MAX_PATCH_CMD + 1) w) as (ptr & Eg & _). rewrite (bind_run _ _ _ _ _ Eg).
  destruct (garbage_run (PATCH_LOC_STRING_LEN + 1) w) as (pl & Eg2 & Hpl). rewrite (bind_run _ _ _ _ _ Eg2).
  destruct (header_lines_run loc (Z.of_nat (length data)) (print_bytes data) ptr pl (length (line (chars "DA:" ++ hex_text 8 loc) ++ line (hex_text 4 (Z.of_nat (length data))) ++ print_bytes data)) w
    (concat (replicate (patch_segments data) ps_done) ++ ps_done ++ rest)) as (p1 & w1 & E1 & C1 & T1); [done|lia|done|unfold line; rewrite !length_app; simpl; lia|done|].
  rewrite (bind_run _ _ _ _ _ E1), C1. erewrite bind_run by reflexivity. rewrite strtol_hex; [|lia|simpl; lia|by intros c s [= <- <-]].
  assert (Hlen : (length data <= length (print_bytes data))%nat) by (unfold print_bytes; clear; induction data as [|b l IH]; [done|]; cbn [map concat length]; rewrite length_app, hex_text_length; lia).
  destruct (ps_patch_loop_run (length (print_bytes data)) data 0 w1 (ps_done ++ rest)) as (w2 & E2 & T2); [done|done|lia|lia|apply T1|]. rewrite (bind_run _ _ _ _ _ E2). cbv beta iota.
  destruct (enable_run w2 rest) as (w3 & E3 & T3); [apply T2|]. rewrite (bind_run _ _ _ _ _ E3). cbn [Z.ltb Z.compare]. exists w3. split; [done|].
  eapply talked_trans; [exact T1|]. eapply talked_trans; [|exact T3]. by rewrite (patch_out_fuel (length data) (length (print_bytes data))).
Qed.

(** ** Versions *)

(** The register that is asked for: the lowest byte of its address. *)
Definition dev_command : list Z := command GET_DEV_TYPE_OCF [0xFC; 0; 0; 0; 4].
Definition ver_command : list Z := command GET_VERSION_OCF [].
Definition crc_command : list Z := ps_command VERIFY_CRC 3 [].

Lemma word_run l v tail i : length l = i -> 0 <= v < 2 ^ 32 -> word_at i (l ++ to_le 4 v ++ tail) = v.
Proof.
  intros <- Hv. unfold word_at, byte. assert (En : forall k x, nth (length l + k) (l ++ x) 0 = nth k x 0) by (intros k x; rewrite app_nth2 by lia; f_equal; lia).
  rewrite <- (Nat.add_0_r (length l)) at 1. rewrite !En. exact (le_to_le 4 v ltac:(simpl; lia)).
Qed.

Lemma dev_type_run dt w rest : 0 <= dt < 2 ^ 32 -> unread (a_tr w) = complete GET_DEV_TYPE_OCF 1 0 (to_le 4 dt) ++ rest ->
  exists w', get_device_type junk w = Some ((0, dt), w') /\ talked dev_command rest w w'.
Proof.
  intros Hd Hu. destruct (complete_run GET_DEV_TYPE_OCF 0 (to_le 4 dt) w [5; 0xFC; 5; 0xFC; 0; 0; 0; 4] 8 rest) as (w' & tail & E & T); [simpl; lia|simpl; lia|exact Hu|].
  exists w'. split; [|exact T]. unfold get_device_type. change (Z.land (cmd_opcode_pack HCI_VENDOR_CMD_OGF GET_DEV_TYPE_OCF) 255) with 5. change (Z.shiftr (cmd_opcode_pack HCI_VENDOR_CMD_OGF GET_DEV_TYPE_OCF) 8) with 0xFC.
  change (u8 DEV_REGISTER) with 0xFC. rewrite (bind_run _ _ _ _ _ E). cbv beta iota. cbn [Z.ltb Z.compare]. erewrite bind_run by reflexivity.
  rewrite complete_event by (unfold GET_DEV_TYPE_OCF; lia). unfold mret, M_ret. cbn [Z.eqb Z.ltb Z.compare]. do 3 f_equal.
  exact (word_run [4; 14; 8; 1; 5; 0xFC; 0] dt tail 7 eq_refl Hd).
Qed.

Lemma version_req_run rom build w rest : 0 <= rom < 2 ^ 32 -> 0 <= build < 2 ^ 32 -> unread (a_tr w) = complete GET_VERSION_OCF 1 0 (to_le 4 rom ++ to_le 4 build) ++ rest ->
  exists w', read_ath3k_version junk w = Some ((0, rom, build), w') /\ talked ver_command rest w w'.
Proof.
  intros Hr Hb Hu. destruct (complete_run GET_VERSION_OCF 0 (to_le 4 rom ++ to_le 4 build) w [30; 0xFC; 0] 3 rest) as (w' & tail & E & T); [simpl; lia|simpl; lia|exact Hu|].
  exists w'. split; [|exact T]. unfold read_ath3k_version. change (Z.land (cmd_opcode_pack HCI_VENDOR_CMD_OGF GET_VERSION_OCF) 255) with 30. change (Z.shiftr (cmd_opcode_pack HCI_VENDOR_CMD_OGF GET_VERSION_OCF) 8) with 0xFC.
  rewrite (bind_run _ _ _ _ _ E). cbv beta iota. cbn [Z.ltb Z.compare]. erewrite bind_run by reflexivity.
  rewrite complete_event by (unfold GET_VERSION_OCF; lia). unfold mret, M_ret. cbn [Z.eqb Z.ltb Z.compare]. do 3 f_equal.
  - f_equal. exact (word_run [4; 14; 12; 1; 30; 0xFC; 0] rom (to_le 4 build ++ tail) 7 eq_refl Hr).
  - exact (word_run ([4; 14; 12; 1; 30; 0xFC; 0] ++ to_le 4 rom) build tail 11 eq_refl Hb).
Qed.

(** The checksum does not match, so that the files are wanted. *)
Lemma crc_run status w rest : status <> 0 -> unread (a_tr w) = complete HCI_PS_CMD_OCF 1 status [] ++ rest ->
  exists w', get_ath3k_crc junk w = Some (7, w') /\ talked crc_command rest w w'.
Proof.
  intros Hs Hu. destruct (complete_run HCI_PS_CMD_OCF status [] w (load_hci_ps_hdr (replicate 7 0) VERIFY_CRC 0 3) 7 rest) as (w' & tail & E & T); [simpl; lia|simpl; lia|exact Hu|].
  exists w'. split; [|exact T]. unfold get_ath3k_crc, with_event. rewrite (bind_run _ _ _ _ _ E). cbv beta iota. cbn [Z.ltb Z.compare]. erewrite bind_run by reflexivity.
  rewrite complete_event by (unfold HCI_PS_CMD_OCF; lia). by rewrite (proj2 (Z.eqb_neq _ _) Hs).
Qed.

(** ** The address *)

Definition print_addr (a : list Z) : text :=
  match a with [] => [] | b :: a => hex_text 2 b ++ concat (map (fun b => 58 :: hex_text 2 b) a) end.

Definition addr_command (a : list Z) : list Z := ps_command 1 1 (reverse a).

Lemma convert_run a tail : length a = 6%nat -> Forall (fun b => 0 <= b < 256) a -> convert_bdaddr (print_addr a ++ [newline; 0] ++ tail) = Some (reverse a).
Proof.
  intros Hl Hb. assert (Hch : Forall (fun c => c <> 0 /\ c <> newline) (print_addr a)).
  { destruct a as [|b a]; [constructor|]. apply Forall_cons in Hb as [Hb0 Hb]. apply Forall_app. split; [apply hex_nonul; lia|]. apply Forall_concat, Forall_map. eapply Forall_impl; [exact Hb|].
    intros x Hx. cbv beta in Hx. constructor; [done|]. apply hex_nonul. lia. }
  unfold convert_bdaddr. rewrite line_text by done. do 6 (destruct a as [|? a]; [done|]). destruct a; [|done]. repeat match goal with H : Forall _ (_ :: _) |- _ => apply Forall_cons in H as [? H] end.
  cbn [mbind option_bind]. assert (E2 : forall b, hex_text 2 b = [hex_char (b / 16 mod 16); hex_char (b mod 16)]) by done. cbn [print_addr map concat]. rewrite !E2. cbn [app].
  assert (Hn : forall x, (hex_char (x mod 16) =? 58) = false) by (intros x; apply Z.eqb_neq; pose proof (hex_char_range (x mod 16) (Z.mod_pos_bound x 16 eq_refl)); lia).
  cbn [index_of]. rewrite !Hn. change (58 =? 58) with true. cbn [fmap option_fmap option_map]. cbn [seq mapM lookup list_lookup Nat.mul Nat.add mbind option_bind mret option_ret]. rewrite !hex_byte by lia. by rewrite !Z.mod_small.
Qed.

(** ** The whole download *)

(** A file with this text, and a file that is not there. *)
Definition has_text (path : string) (content : text) : Prop := forall tr, exists size, env_fopen tr path = Some (content, size).
Definition no_file (path : string) : Prop := forall tr, env_fopen tr path = None.
Definition maybe_text (path : string) (content : option text) : Prop := match content with Some c => has_text path c | None => no_file path end.

Lemma afopen_run path content w : maybe_text path content -> exists w', afopen path w = Some (content, w') /\ talked [] (unread (a_tr w)) w w'.
Proof.
  intros H. unfold afopen, aline. assert (E : exists f, env_fopen (a_tr w) path = f /\ fst <$> f = content) by (destruct content; [destruct (H (a_tr w)) as [n ->]|rewrite H]; by eexists).
  destruct E as (f & E & Ef). exists (put_a_tr (BFopen path f :: a_tr w) w). split; [|split; [done|split; [simpl; by rewrite app_nil_r|done]]].
  erewrite bind_run; [|apply zoom_run; unfold bext; rewrite !E; reflexivity]. by rewrite Ef.
Qed.

Lemma write_addr_run a tail w rest : length a = 6%nat -> Forall (fun b => 0 <= b < 256) a -> unread (a_tr w) = ps_done ++ rest ->
  exists w', write_bdaddr junk (print_addr a ++ [newline; 0] ++ tail) w = Some (0, w') /\ talked (addr_command a) rest w w'.
Proof.
  intros Hl Hb Hu. unfold write_bdaddr. rewrite convert_run by done. erewrite bind_run by reflexivity. set (cmd := _ ++ reverse a).
  assert (Hc : length cmd = 13%nat) by (unfold cmd; rewrite length_app, length_reverse, Hl; done).
  destruct (complete_run HCI_PS_CMD_OCF 0 [] w cmd 13 rest) as (w' & tail' & E & T); [lia|simpl; lia|exact Hu|].
  exists w'. unfold with_event. rewrite (bind_run _ _ _ _ _ E). cbv beta iota. cbn [Z.ltb Z.compare]. erewrite bind_run by reflexivity. unfold mret, M_ret. rewrite complete_event by (unfold HCI_PS_CMD_OCF; lia). split; [done|].
  rewrite take_ge in T by (rewrite Hc; done). unfold addr_command, ps_command, command. rewrite length_app, length_reverse, Hl. exact T.
Qed.

(** The file with the address, and what comes of it. *)
Definition addr_out (a : option (list Z)) : list Z := match a with Some a => addr_command a | None => [] end.
Definition addr_in (a : option (list Z)) : list Z := match a with Some _ => ps_done | None => [] end.
Definition addr_ok (a : option (list Z)) : Prop := match a with Some a => length a = 6%nat /\ Forall (fun b => 0 <= b < 256) a | None => True end.

Lemma addr_file_run rom a w rest : maybe_text (fw_file rom "ar3kbdaddr.pst") ((fun a => line (print_addr a)) <$> a) -> addr_ok a -> unread (a_tr w) = addr_in a ++ rest ->
  exists w', write_bdaddr_from_file junk rom w = Some (tt, w') /\ talked (addr_out a) rest w w'.
Proof.
  intros Hf' Ha Hu. unfold write_bdaddr_from_file. destruct (afopen_run _ _ w Hf') as (w1 & E1 & T1). rewrite (bind_run _ _ _ _ _ E1). destruct a as [a|]; cbn [fmap option_fmap option_map] in *.
  2: { exists w1. split; [done|]. by rewrite Hu in T1. }
  destruct Ha as [Hl Hb]. destruct (garbage_run PATH_MAX w1) as (buf & Eg & _). rewrite (bind_run _ _ _ _ _ Eg). rewrite <- (app_nil_r (line (print_addr a))). unfold line. rewrite <- app_assoc. cbn [app].
  assert (Hch : Forall (fun c => c <> newline) (print_addr a)).
  { destruct a as [|b a]; [constructor|]. apply Forall_cons in Hb as [Hb0 Hb]. apply Forall_app. assert (Hx : forall x, 0 <= x < 256 -> Forall (fun c => c <> newline) (hex_text 2 x)) by (intros x ?; eapply Forall_impl; [apply hex_nonul; lia|]; by intros c []).
    split; [by apply Hx|]. apply Forall_concat, Forall_map. eapply Forall_impl; [exact Hb|]. intros x Hr. constructor; [done|by apply Hx]. }
  assert (Hlen : length (print_addr a) = 17%nat) by (do 6 (destruct a as [|? a]; [done|]); by destruct a).
  rewrite fgets_run by (done || (rewrite Hlen; unfold PATH_MAX; lia)). destruct (write_addr_run a (drop (S (S (length (print_addr a)))) buf) w1 rest) as (w2 & E2 & T2); [done|done|by rewrite (proj2 (proj2 T1))|].
  rewrite (bind_run _ _ _ _ _ E2). exists w2. split; [done|]. exact (talked_trans _ _ _ _ _ _ _ T1 T2).
Qed.

(** A patch file, and what comes of it. *)
Definition patch_text (p : option (Z * list Z)) : option text := (fun '(loc, data) => print_patch loc data) <$> p.
Definition patch_bytes_out (p : option (Z * list Z)) : list Z := match p with Some (loc, data) => patch_file_out loc data | None => [] end.
Definition patch_in (p : option (Z * list Z)) : list Z :=
  match p with Some (_, data) => ps_done ++ concat (replicate (patch_segments data) ps_done) ++ ps_done | None => [] end.
Definition patch_ok (p : option (Z * list Z)) : Prop :=
  match p with Some (loc, data) => 0 <= loc < 2 ^ 32 /\ Z.of_nat (length data) < 2 ^ 16 /\ Forall (fun b => 0 <= b < 256) data | None => True end.

Lemma patch_step_run path p w rest : maybe_text path (patch_text p) -> patch_ok p -> unread (a_tr w) = patch_in p ++ rest ->
  exists n w', patch_step junk path w = Some (n, w') /\ 0 <= n /\ talked (patch_bytes_out p) rest w w'.
Proof.
  intros Hf' Hp Hu. unfold patch_step. destruct (afopen_run _ _ w Hf') as (w1 & E1 & T1). rewrite (bind_run _ _ _ _ _ E1). destruct p as [[loc data]|]; cbn [patch_text fmap option_fmap option_map] in *.
  - destruct Hp as (Hl & Hn & Hb). cbn [patch_in] in Hu. rewrite <- !app_assoc in Hu. destruct (patch_run loc data w1 rest Hl Hn Hb) as (w2 & E2 & T2); [by rewrite (proj2 (proj2 T1))|].
    exists (Z.of_nat (patch_segments data)), w2. split; [exact E2|]. split; [lia|]. exact (talked_trans _ _ _ _ _ _ _ T1 T2).
  - exists 0, w1. split; [done|]. split; [lia|]. by rewrite Hu in T1.
Qed.

(** What the controller answers to the download. *)
Definition download_replies (dt rom build status : Z) (es : list ps_entry) (p : option (Z * list Z)) (a : option (list Z)) : list Z :=
  complete GET_DEV_TYPE_OCF 1 0 (to_le 4 dt) ++ complete GET_VERSION_OCF 1 0 (to_le 4 rom ++ to_le 4 build) ++ complete HCI_PS_CMD_OCF 1 status [] ++
  patch_in p ++ ps_done ++ concat (replicate (length es) ps_done) ++ addr_in a.

(** What is sent, [g] being the bytes of the reset command that are not set. *)
Definition download_bytes (g : list Z) (es : list ps_entry) (p : option (Z * list Z)) (a : option (list Z)) : list Z :=
  dev_command ++ ver_command ++ crc_command ++ patch_bytes_out p ++ reset_command g ++ concat (map tag_command es) ++ addr_out a.

(** The controller, and the files of its version. *)
Record download_ok (dt rom build status : Z) (es : list ps_entry) (p : option (Z * list Z)) (a : option (list Z)) : Prop := {
  do_dt : 0 <= dt < 2 ^ 32;
  do_rom : 0 <= rom < 2 ^ 32;
  do_build : 0 <= build < 2 ^ 32;
  do_crc : status <> 0;
  do_entries : Forall ps_entry_ok es /\ (length es < 50)%nat /\ Forall (fun e => Z.of_nat (length (e_bytes e)) <= 251) es;
  do_patch : patch_ok p;
  do_addr : addr_ok a;
  do_ps_file : has_text (get_ps_file_name dt rom) (print_file es);
  do_patch_file : maybe_text (get_patch_file_name dt rom build) (patch_text p);
  do_addr_file : maybe_text (fw_file rom "ar3kbdaddr.pst") ((fun a => line (print_addr a)) <$> a)
}.

Lemma mallocs_quiet n tr : sent (replicate n (BMalloc true) ++ tr) = sent tr /\ unread (replicate n (BMalloc true) ++ tr) = unread tr.
Proof. induction n as [|n IH]; [done|]. exact IH. Qed.

Lemma ps_download_run dt rom build status es p a w rest : download_ok dt rom build status es p a -> length (ps_list w) = 50%nat ->
  unread (a_tr w) = download_replies dt rom build status es p a ++ rest ->
  exists g w', ath_ps_download junk w = Some (0, w') /\ length g = 3%nat /\ unread (a_tr w') = rest /\
    sent (a_tr w') = sent (a_tr w) ++ outs line_fd (download_bytes g es p a) /\ ps_list w' = map entry_of es ++ drop (length es) (ps_list w).
Proof.
  intros [H1 H2 H3 H4 (H5 & H6 & H7) H8 H9 H10 H11 H12] Hlen Hu. unfold download_replies in Hu. rewrite <- !app_assoc in Hu.
  unfold ath_ps_download. destruct (dev_type_run dt w _ H1 Hu) as (w1 & E1 & T1). rewrite (bind_run _ _ _ _ _ E1). cbv beta iota. cbn [Z.ltb Z.compare].
  destruct (version_req_run rom build w1 _ H2 H3 (proj2 (proj2 T1))) as (w2 & E2 & T2). rewrite (bind_run _ _ _ _ _ E2). cbv beta iota. cbn [Z.ltb Z.compare].
  destruct (crc_run status w2 _ H4 (proj2 (proj2 T2))) as (w3 & E3 & T3). rewrite (bind_run _ _ _ _ _ E3). cbn [Z.ltb Z.compare].
  destruct (afopen_run _ (Some (print_file es)) w3 H10) as (w4 & E4 & T4). rewrite (bind_run _ _ _ _ _ E4).
  pose proof (talked_trans _ _ _ _ _ _ _ (talked_trans _ _ _ _ _ _ _ (talked_trans _ _ _ _ _ _ _ T1 T2) T3) T4) as (Ew4 & Hs4 & Hu4). rewrite (proj2 (proj2 T3)) in Hu4.
  assert (Hl4 : length (ps_list w4) = 50%nat) by (by rewrite Ew4). destruct (ps_file_roundtrip Hmem es w4 H5 H6 Hl4) as (w5 & E5 & Hp5 & _ & Htr5).
  rewrite (bind_run _ _ _ _ _ E5). rewrite (proj2 (Z.ltb_ge _ _)) by lia. destruct (mallocs_quiet (length es) (a_tr w4)) as [Hs5 Hu5]. rewrite <- Htr5 in Hs5, Hu5. rewrite Hu4 in Hu5.
  destruct (patch_step_run _ p w5 _ H11 H8 Hu5) as (n & w6 & E6 & Hn & T6). rewrite (bind_run _ _ _ _ _ E6). rewrite (proj2 (Z.ltb_ge _ _)) by lia.
  assert (Hp6 : ps_list w6 = ps_list w5) by (by rewrite (proj1 T6)).
  destruct (ps_config_run es w6 (addr_in a ++ rest) H7) as (g & w7 & E7 & Hg & T7); [|apply T6|].
  { intros k e Hk. rewrite Hp6, Hp5. rewrite lookup_app_l by (rewrite length_map; by eapply lookup_lt_Some). by rewrite list_lookup_fmap, Hk. }
  rewrite (bind_run _ _ _ _ _ E7). cbn [Z.eqb]. destruct (addr_file_run rom a w7 rest H12 H9 (proj2 (proj2 T7))) as (w8 & E8 & T8). rewrite (bind_run _ _ _ _ _ E8).
  exists g, w8. split; [done|]. split; [done|]. split; [apply T8|]. split.
  - rewrite (proj1 (proj2 T8)), (proj1 (proj2 T7)), (proj1 (proj2 T6)), Hs5, Hs4. unfold download_bytes. rewrite !app_nil_r, !outs_app, <- !app_assoc. done.
  - rewrite (proj1 T8). simpl. rewrite (proj1 T7). simpl. rewrite Hp6, Hp5. do 2 f_equal. by rewrite Ew4.
Qed.

(** ** The initialisation *)

Context (Hio : forall tr f args, 0 <= env_call tr f args).

Lemma scall_run f args w : line_call f = true -> exists r w', scall f args w = Some (r, w') /\ 0 <= r /\ talked [] (unread (a_tr w)) w w'.
Proof.
  intros Hl. eexists _, _. split; [by apply zoom_run|]. split; [apply Hio|]. split; [done|]. split; [simpl; by rewrite Hl|done].
Qed.

Lemma set_speed_run speed w : exists w', set_speed speed w = Some (0, w') /\ talked [] (unread (a_tr w)) w w'.
Proof.
  unfold set_speed. destruct (scall_run "cfsetospeed" [uart_speed speed] w eq_refl) as (r1 & w1 & E1 & H1 & T1). rewrite (bind_run _ _ _ _ _ E1), (proj2 (Z.ltb_ge _ _)) by lia.
  destruct (scall_run "cfsetispeed" [uart_speed speed] w1 eq_refl) as (r2 & w2 & E2 & H2 & T2). rewrite (bind_run _ _ _ _ _ E2), (proj2 (Z.ltb_ge _ _)) by lia.
  destruct (scall_run "tcsetattr" [uart_speed speed] w2 eq_refl) as (r3 & w3 & E3 & H3 & T3). rewrite (bind_run _ _ _ _ _ E3), (proj2 (Z.ltb_ge _ _)) by lia.
  exists w3. split; [done|]. rewrite <- (proj2 (proj2 T1)), <- (proj2 (proj2 T2)). exact (talked_trans _ _ _ _ _ _ _ (talked_trans _ _ _ _ _ _ _ T1 T2) T3).
Qed.

(** An event of the line as a packet. *)
Abbreviation event := (Z * list Z)%type.
Definition event_ok (e : event) : Prop := (length e.2 < 256)%nat.
Definition event_packet (e : event) : list Z := packet e.1 e.2.

(** A command that is written in one piece, [k] being done before its event
    is read. *)
Lemma plain_cmd_run cmd (k : M aworld Z) (e : event) w rest : event_ok e -> (forall w, exists r w', k w = Some (r, w') /\ talked [] (unread (a_tr w)) w w') ->
  unread (a_tr w) = event_packet e ++ rest -> exists w', plain_cmd junk cmd k w = Some (0, w') /\ talked cmd rest w w'.
Proof.
  intros He Hk Hu. unfold plain_cmd. rewrite (bind_run _ _ _ _ _ (raw_write_run cmd w)). rewrite Z.eqb_refl. cbn [negb]. set (w1 := put_a_tr _ w).
  assert (T1 : talked cmd (event_packet e ++ rest) w w1) by (split; [done|]; split; [simpl; by rewrite Nat2Z.id, firstn_all|exact Hu]).
  destruct (Hk w1) as (r & w2 & E2 & T2). rewrite (bind_run _ _ _ _ _ E2). destruct (garbage_run HCI_MAX_EVENT_SIZE w2) as (buf & Eg & Hb). rewrite (bind_run _ _ _ _ _ Eg).
  destruct (aread_run w2 buf HCI_MAX_EVENT_SIZE e.1 e.2 rest) as (tr & E3 & Hu3 & Hs3); [by rewrite (proj2 (proj2 T2)), (proj2 (proj2 T1))|done|done|unfold event_ok in He; unfold HCI_MAX_EVENT_SIZE; lia|].
  rewrite (bind_run _ _ _ _ _ E3). cbv beta iota. rewrite (proj2 (Z.ltb_ge _ _)) by lia. exists (put_a_tr tr w2). split; [done|].
  rewrite <- (app_nil_r cmd), <- (app_nil_r (cmd ++ [])). eapply talked_trans; [eapply talked_trans; [exact T1|exact T2]|]. split; [done|]. by rewrite app_nil_r.
Qed.

Definition baud_command (speed : Z) : list Z := command HCI_CHG_BAUD_CMD_OCF [u8 (Z.quot speed 100); u8 (Z.shiftr (Z.quot speed 100) 8)].
Definition hci_reset_command : list Z := [1; 3; 0x0C; 0].

Lemma sleep_run us w : exists r w', (anote (BSleep us);; mret 0) w = Some (r : Z, w') /\ talked [] (unread (a_tr w)) w w'.
Proof. eexists _, _. split; [by erewrite bind_run by (by apply zoom_run)|]. split; [done|]. split; [simpl; by rewrite app_nil_r|done]. Qed.

Lemma cntrlr_baud_run speed (e : event) w rest : event_ok e -> unread (a_tr w) = event_packet e ++ rest ->
  exists w', set_cntrlr_baud junk speed w = Some (0, w') /\ talked (baud_command speed) rest w w'.
Proof.
  intros He Hu. destruct (plain_cmd_run (baud_command speed) (anote (BSleep 500);; mret 0) e w rest He (sleep_run 500) Hu) as (w' & E & T).
  exists w'. split; [|done]. rewrite <- E. unfold set_cntrlr_baud, plain_cmd. reflexivity.
Qed.

(** The address that the caller gives. *)
Lemma str2ba_print a : length a = 6%nat -> Forall (fun b => 0 <= b < 256) a -> str2ba (print_addr a) = reverse a.
Proof.
  intros Hl Hb. unfold str2ba. assert (E : str2ba_bytes 6 (print_addr a) = a); [|rewrite E; do 6 (destruct a as [|? a]; [done|]); by destruct a].
  assert (Hn : forall x, (hex_char (x mod 16) =? 58) = false) by (intros x; apply Z.eqb_neq; pose proof (hex_char_range (x mod 16) (Z.mod_pos_bound x 16 eq_refl)); lia).
  assert (E2 : forall b, hex_text 2 b = [hex_char (b / 16 mod 16); hex_char (b mod 16)]) by done.
  assert (Hi : forall b rest, index_of 58 (hex_text 2 b ++ 58 :: rest) = Some 2%nat) by (intros b rest; rewrite E2; cbn [app index_of]; rewrite !Hn; done).
  assert (Hv : forall b rest, 0 <= b < 256 -> (forall c s, rest = c :: s -> xdigit c = None /\ c <> 120 /\ c <> 88) -> u8 (strtol16 (hex_text 2 b ++ rest)) = b) by (intros b rest ? ?; rewrite strtol_hex; [apply u8_small; lia|lia|simpl; lia|done]).
  assert (Hs : forall n b rest, 0 <= b < 256 -> str2ba_bytes (S n) (hex_text 2 b ++ 58 :: rest) = b :: str2ba_bytes n rest)
    by (intros n b rest ?; cbn [str2ba_bytes]; rewrite Hv by (done || by intros c s [= <- <-]); by rewrite Hi).
  do 6 (destruct a as [|? a]; [done|]). destruct a; [|done]. repeat match goal with H : Forall _ (_ :: _) |- _ => apply Forall_cons in H as [? H] end.
  cbn [print_addr map concat]. cbn [app]. rewrite !Hs by done. cbn [str2ba_bytes]. by rewrite Hv.
Qed.

Definition given_out (bd : option (list Z)) : list Z := match bd with Some a => command HCI_PS_CMD_OCF ([1; 1; 0; 6] ++ reverse a) | None => [] end.
Definition given_in (bd : option (list Z)) (e : event) : list Z := match bd with Some _ => event_packet e | None => [] end.

(** The bytes of an initialisation and the answers to it: the speed, the
    download, the address, the reset and the speed again. *)
Definition init_bytes (speed : Z) (download : list Z) (bd : option (list Z)) : list Z :=
  baud_command speed ++ download ++ given_out bd ++ hci_reset_command ++ baud_command speed.
Definition init_replies (e1 e2 e3 e4 : event) (download : list Z) (bd : option (list Z)) : list Z :=
  event_packet e1 ++ download ++ given_in bd e2 ++ event_packet e3 ++ event_packet e4.

(** C21: the initialisation of an AR3K controller whose checksum does not match,
    when its entries have at most 251 bytes, allocations and calls succeed and
    every command is answered with success: the speed is set, the versions and
    the checksum are asked for, the patch file, the PS file and the address file
    of this version are read as the text they are, and every segment of the
    patch, every entry and the address in them goes out in its command (the
    load address of the patch as the code cuts it, without its last digit), then
    the address of the caller, the reset and the speed; all of it goes to the
    one descriptor, each command is answered before the next, every answer is
    read and none beyond, and the result is 0. *)
Theorem ath3k_bring_up speed init_speed dt rom build status es p a bd e1 e2 e3 e4 rest w (Hd : download_ok dt rom build status es p a) (Hl : length (ps_list w) = 50%nat)
  (Hbd : addr_ok bd) (He : Forall event_ok [e1; e2; e3; e4])
  (Hu : unread (a_tr w) = init_replies e1 e2 e3 e4 (download_replies dt rom build status es p a) bd ++ rest) :
  exists g w', ath3k_init junk speed init_speed (print_addr <$> bd) w = Some (0, w') /\ length g = 3%nat /\ unread (a_tr w') = rest /\
    sent (a_tr w') = sent (a_tr w) ++ outs line_fd (init_bytes speed (download_bytes g es p a) bd) /\ ps_list w' = map entry_of es ++ drop (length es) (ps_list w).
Proof.
  unfold init_replies in Hu. rewrite <- !app_assoc in Hu. apply Forall_cons in He as [He1 He]. apply Forall_cons in He as [He2 He]. apply Forall_cons in He as [He3 He]. apply Forall_cons in He as [He4 _].
  unfold ath3k_init. destruct (scall_run "TIOCMGET" [] w eq_refl) as (r1 & w1 & E1 & H1 & T1). rewrite (bind_run _ _ _ _ _ E1), (proj2 (Z.ltb_ge _ _)) by lia.
  destruct (scall_run "TIOCMSET" [] w1 eq_refl) as (r2 & w2 & E2 & H2 & T2). rewrite (bind_run _ _ _ _ _ E2), (proj2 (Z.ltb_ge _ _)) by lia. rewrite (proj2 (proj2 T1)), Hu in T2.
  destruct (cntrlr_baud_run speed e1 w2 _ He1 (proj2 (proj2 T2))) as (w3 & E3 & T3). rewrite (bind_run _ _ _ _ _ E3). cbn [Z.ltb Z.compare].
  destruct (set_speed_run speed w3) as (w4 & E4 & T4). rewrite (bind_run _ _ _ _ _ E4). cbn [Z.ltb Z.compare]. rewrite (proj2 (proj2 T3)) in T4.
  pose proof (talked_trans _ _ _ _ _ _ _ (talked_trans _ _ _ _ _ _ _ (talked_trans _ _ _ _ _ _ _ T1 T2) T3) T4) as (Ew4 & Hs4 & Hu4).
  destruct (ps_download_run dt rom build status es p a w4 _ Hd ltac:(by rewrite Ew4) Hu4) as (g & w5 & E5 & Hg & Hu5 & Hs5 & Hp5).
  assert (E6 : exists w6, init_steps junk speed (print_addr <$> bd) w4 = Some (0, w6) /\ talked (given_out bd ++ hci_reset_command ++ baud_command speed) rest w5 w6).
  { unfold init_steps. rewrite (bind_run _ _ _ _ _ E5). cbn [Z.ltb Z.compare].
    assert (E6 : exists w6, (match print_addr <$> bd with Some str => plain_cmd junk ([1; 11; 252; 10; 1; 1; 0; 6] ++ str2ba str) (mret 0) | None => mret 0 end) w5 = Some (0, w6) /\
      talked (given_out bd) (event_packet e3 ++ event_packet e4 ++ rest) w5 w6).
    { destruct bd as [bd|]; cbn [fmap option_fmap option_map given_in given_out] in *.
      - destruct Hbd as [Hbl Hbb]. rewrite str2ba_print by done. assert (Ec : command HCI_PS_CMD_OCF ([1; 1; 0; 6] ++ reverse bd) = [1; 11; 252; 10; 1; 1; 0; 6] ++ reverse bd) by (unfold command; rewrite length_app, length_reverse, Hbl; done).
        rewrite Ec. apply (plain_cmd_run _ (mret 0) e2); [done| |exact Hu5]. intros w'. exists 0, w'. split; [done|]. split; [by destruct w'|]. by rewrite app_nil_r.
      - exists w5. split; [done|]. split; [by destruct w5|]. by rewrite app_nil_r. }
    destruct E6 as (w6 & E6 & T6). rewrite (bind_run _ _ _ _ _ E6). cbn [Z.ltb Z.compare].
    destruct (plain_cmd_run hci_reset_command (anote (BSleep 500);; mret 0) e3 w6 _ He3 (sleep_run 500) (proj2 (proj2 T6))) as (w7 & E7 & T7).
    change hci_reset_command with [HCI_COMMAND_PKT; 3; 12; 0] in E7. rewrite (bind_run _ _ _ _ _ E7). cbn [Z.ltb Z.compare].
    destruct (cntrlr_baud_run speed e4 w7 rest He4 (proj2 (proj2 T7))) as (w8 & E8 & T8). exists w8. split; [exact E8|]. eapply talked_trans; [exact T6|]. by eapply talked_trans. }
  destruct E6 as (w6 & E6 & T6). rewrite (bind_run _ _ _ _ _ E6). cbn [Z.ltb Z.compare]. erewrite bind_run by reflexivity. exists g, w6. split; [done|]. split; [done|]. split; [apply T6|]. split.
  - rewrite (proj1 (proj2 T6)), Hs5, Hs4. unfold init_bytes. cbn [app]. rewrite app_nil_r, !outs_app, <- !app_assoc. done.
  - rewrite (proj1 T6). simpl. rewrite Hp5. do 2 f_equal. by rewrite Ew4.
Qed.

End Ar3k.
