(* ===== verification/Ar3kDemo.v ===== *)
(** * The AR3K controller on concrete inputs *)

From Stdlib Require Import ZArith Lia.
From stdpp Require Import list strings.
From S2P Require Import Prelude BtHci Rome RomeProps RomeNvm CText PsFile PsProps Ar3k Ar3kProps.

Module Ar3kDemo.

Definition rom : Z := 0x1020200.
Definition entries : list ps_entry :=
  [{| e_id := 1; e_bytes := [1; 2; 3; 4; 5; 6] |}; {| e_id := 0x1234; e_bytes := map Z.of_nat (seq 100 20) |}; {| e_id := 7; e_bytes := [] |}].
Definition patch : option (Z * list Z) := Some (0x12345678, replicate 300 0xAB).
Definition addr : list Z := [0x11; 0x22; 0x33; 0x44; 0x55; 0x66].

Definition files (path : string) : option (list Z * nat) :=
  if String.eqb path (get_ps_file_name 0xdeadc0de rom) then Some (print_file entries, 0%nat)
  else if String.eqb path (get_patch_file_name 0xdeadc0de rom 1) then (fun t => (t, 0%nat)) <$> patch_text patch
  else if String.eqb path (fw_file rom "ar3kbdaddr.pst") then Some (line (print_addr addr), 0%nat)
  else None.

Definition env (stream : list Z) : BtEnv := {|
  env_bwrite := fun _ _ bs => Z.of_nat (length bs);
  env_bread := fun tr _ _ => take 1 (drop (nread tr) stream);
  env_fopen := fun _ path => files path;
  env_bmalloc := fun _ => true;
  env_userial := fun _ _ => 0;
  env_stack := fun _ => [0xEE; 0xEE; 0xEE];
  env_soclog := fun _ => false;
  env_call := fun _ _ _ => 0;
  env_property := fun _ _ => chars "ath3k";
  enable_extldo := false;
  vnd_local_bd_addr := addr
|}.

Lemma ar_writes stream : @writes_all (env stream).
Proof. by intros tr fd bs. Qed.

Lemma ar_feeds stream : @feeds (env stream) stream.
Proof. intros tr fd n _. exists 1%nat. split; [lia|done]. Qed.

Definition no_entry : ps_cfg_entry := {| ps_id := 0; ps_len := 0; ps_data := BNull |}.
Definition world0 : aworld := {| ps_list := replicate 50 no_entry; upio_state := [0; 0; 0]; a_tr := [] |}.

Definition done_event : Z * list Z := (0x0E, [1; 3; 0x0C; 0]).
Definition stream : list Z := init_replies done_event done_event done_event done_event (download_replies 0xdeadc0de rom 1 1 entries patch (Some addr)) (Some addr).

Lemma entries_ok : Forall ps_entry_ok entries.
Proof.
  repeat constructor; unfold PS_MAX_LEN; simpl; try lia.
  - by exists 3%nat.
  - by exists 10%nat.
  - by exists 0%nat.
Qed.

Lemma ps_file_roundtrip_witness : exists w', @ath_parse_ps (env []) (print_file entries) world0 = Some (3, w') /\ ps_list w' = map entry_of entries ++ replicate 47 no_entry /\
  upio_state w' = [0; 0; 0] /\ a_tr w' = replicate 3 (BMalloc true) ++ [].
Proof.
  apply (@ps_file_roundtrip (env []) (fun _ => eq_refl) entries world0).
  - apply entries_ok.
  - simpl; lia.
  - reflexivity.
Defined.

Lemma ath3k_bring_up_witness : exists g w', @ath3k_init (env stream) 7 1 3000000 115200 (print_addr <$> Some addr) world0 = Some (0, w') /\ length g = 3%nat /\ unread stream (a_tr w') = [] /\
  sent (a_tr w') = [] ++ outs 7 (init_bytes 3000000 (download_bytes g entries patch (Some addr)) (Some addr)) /\ ps_list w' = map entry_of entries ++ drop (length entries) (ps_list world0).
Proof.
  apply (@ath3k_bring_up (env stream) (fun _ => eq_refl) 7 (ar_writes stream) stream (ar_feeds stream) 1 ltac:(lia) (fun _ _ _ => Z.le_refl 0)
    3000000 115200 0xdeadc0de rom 1 1 entries patch (Some addr) (Some addr) done_event done_event done_event done_event [] world0).
  - constructor; unfold rom; try lia.
    + split; [apply entries_ok|]. split; [simpl; lia|]. repeat constructor; simpl; lia.
    + split; [lia|]. split; [rewrite length_replicate; lia|]. by apply Forall_replicate.
    + split; [done|repeat constructor; lia].
    + intros tr. by exists 0%nat.
    + intros tr. by exists 0%nat.
    + intros tr. by exists 0%nat.
  - reflexivity.
  - split; [done|repeat constructor; lia].
  - repeat constructor; unfold event_ok; simpl; lia.
  - rewrite app_nil_r. reflexivity.
Defined.

(** ** Where something goes wrong *)

(** An odd number of bytes: the second byte of the last pair is stored behind
    the buffer. *)
Lemma odd_entry_overflows : @ath_parse_ps (env []) (print_file [{| e_id := 1; e_bytes := [1; 2; 3] |}]) world0 = None.
Proof. vm_compute. reflexivity. Qed.

(** Entries of more than 253 bytes are accepted by the parser and overflow the
    command buffer of 260 bytes. *)
Definition long_entry : ps_entry := {| e_id := 1; e_bytes := replicate 254 9 |}.
Lemma long_entry_accepted : fst <$> @ath_parse_ps (env []) (print_file [long_entry]) world0 = Some 1.
Proof. vm_compute. reflexivity. Qed.
Lemma long_entry_overflows : @write_ps_cmd (env ps_done) 7 1 PS_WRITE 1 (put_ps_list (<[0%nat := entry_of long_entry]> (ps_list world0)) world0) = None.
Proof. vm_compute. reflexivity. Qed.

(** Without a preamble the length is read as 0xFFFF, which is not more than 500
    in sixteen bits: the entry has four gigabytes and no buffer. *)
Lemma bare_length_accepted :
  (fun '(r, w) => (r, ps_list w !! 0%nat)) <$> @ath_parse_ps (env []) (line (chars "#") ++ line (number 1) ++ line (chars "06") ++ line (chars "01 02 03 04 05 06")) world0 =
  Some (1, Some {| ps_id := 1; ps_len := 0xFFFFFFFF; ps_data := BNull |}).
Proof. vm_compute. reflexivity. Qed.

(** The table has room for fifty entries; the file that has them is refused. *)
Lemma fifty_entries_refused : fst <$> @ath_parse_ps (env []) (print_file (replicate 50 {| e_id := 1; e_bytes := [1; 2] |})) world0 = Some (- EILSEQ).
Proof. vm_compute. reflexivity. Qed.

(** A file that ends inside an entry is accepted without it. *)
Lemma cut_file_accepted : fst <$> @ath_parse_ps (env []) (line (chars "#") ++ line (number 1) ++ line (number 6)) world0 = Some 0.
Proof. vm_compute. reflexivity. Qed.

(** The last byte of the address of a patch. *)
Lemma patch_address_cut : loc_bytes 0x12345678 = [0x07; 0x56; 0x34; 0x12].
Proof. vm_compute. reflexivity. Qed.

End Ar3kDemo.
