(* ===== verification/BtSys.v ===== *)
(** * System calls of the bluetooth vendor interface

    Open descriptors and the system properties, which [bt_vendor_qcom.c],
    [hardware.c], [hci_smd.c] and [hci_uart.c] work on.  The table of open
    descriptors is a list: a descriptor is in it once for each time it was
    handed out and not closed.  The properties are shared with other
    processes, which may have changed them whenever they are looked at. *)

From Stdlib Require Import ZArith Lia.
From stdpp Require Import list strings gmap.
From S2P Require Import Prelude BtHci CText.

Abbreviation props := (gmap string text).

(** The terminal attributes of a descriptor. *)
Record termios := { c_iflag : Z; c_oflag : Z; c_cflag : Z; c_lflag : Z }.

Class SysEnv := {
  sys_bt :: BtEnv;
  (** what other processes made of the properties since they were looked at *)
  env_props : bhistory -> props -> props;
  (** the bytes a [read] of a descriptor brings; none for an error *)
  env_read : bhistory -> Z -> nat -> option (list Z);
  env_termios : bhistory -> Z -> option termios;
  (** [bt_nv_cmd]: the address of the item with this number *)
  env_nv : bhistory -> option (list Z);
  NV_BD_ADDR_I : Z
}.

(** What the build selects ([Android.mk] and the headers). *)
Class BuildCfg := {
  BT_SOC_TYPE_ROME : bool;
  ENABLE_ANT : bool;
  WIFI_BT_STATUS_SYNC : bool;
  USE_EXTERNAL_RFKILL_LDO : bool;
  BT_NV_SUPPORT : bool;
  READ_BT_ADDR_FROM_PROP : bool;
  BT_WAKE_VIA_USERIAL_IOCTL : bool;
  QCOM_BT_SIBS_ENABLE : bool;
  PANIC_ON_SOC_CRASH : bool;
  HW_NEED_END_WITH_HCI_RESET : bool
}.

(** ** Decimal numbers *)

Fixpoint dec_digits (acc : Z) (s : text) : Z :=
  match s with c :: s => if between 48 57 c then dec_digits (acc * 10 + (c - 48)) s else acc | [] => acc end.

(** [atoi]: the value of [strtol] in base ten. *)
Definition atoi (s : text) : Z :=
  match skip_while isspace s with
  | c :: s =>
      if c =? 45 then Z.max LONG_MIN (- dec_digits 0 s)
      else Z.min LONG_MAX (dec_digits 0 (if c =? 43 then s else c :: s))
  | [] => 0
  end.

Fixpoint dec_short (fuel : nat) (v : Z) : text :=
  match fuel with
  | O => []
  | S fuel => (if v <? 10 then [] else dec_short fuel (v / 10)) ++ [v mod 10 + 48]
  end.

(** [snprintf("%d")] of an [int], which has ten digits at most. *)
Definition print_int (v : Z) : text := if v <? 0 then 45 :: dec_short 10 (- v) else dec_short 10 v.

(** ** The state *)

Record sysw := { s_fds : list Z; s_props : props; s_tr : bhistory }.

Definition put_s_fds (v : list Z) (x : sysw) : sysw := {| s_fds := v; s_props := s_props x; s_tr := s_tr x |}.
Definition put_s_props (v : props) (x : sysw) : sysw := {| s_fds := s_fds x; s_props := v; s_tr := s_tr x |}.
Definition put_s_tr (v : bhistory) (x : sysw) : sysw := {| s_fds := s_fds x; s_props := s_props x; s_tr := v |}.

(** One descriptor less. *)
Fixpoint remove_fd (fd : Z) (l : list Z) : list Z :=
  match l with [] => [] | x :: l => if x =? fd then l else x :: remove_fd fd l end.

Definition fd_open (fd : Z) (l : list Z) : bool := existsb (Z.eqb fd) l.

Section Sys.
Context `{SE : SysEnv}.

Definition slog (e : bev) : M sysw unit := modify (fun w => put_s_tr (e :: s_tr w) w).

(** A call that moves no data. *)
Definition syscall (f : string) (args : list Z) : M sysw Z :=
  w ← get;
  let r := env_call (s_tr w) f args in
  slog (BCall f args r);; mret r.

(** A call that hands out a descriptor, or -1. *)
Definition new_fd (f : string) (args : list Z) : M sysw Z :=
  w ← get;
  let fd := Z.max (-1) (env_call (s_tr w) f args) in
  slog (BCall f args fd);;
  if fd <? 0 then mret fd else modify (fun w => put_s_fds (fd :: s_fds w) w);; mret fd.

Definition sopen (path : string) : M sysw Z := new_fd ("open " +:+ path) [].

(** Closing a descriptor that is not open is an error. *)
Definition sclose (fd : Z) : M sysw Z :=
  w ← get;
  if fd_open fd (s_fds w) then
    modify (fun w => put_s_fds (remove_fd fd (s_fds w)) w);; slog (BCall "close" [fd] 0);; mret 0
  else slog (BCall "close" [fd] (-1));; mret (-1).

Definition sread (fd : Z) (n : nat) : M sysw (option (list Z)) :=
  w ← get;
  let r := take n <$> env_read (s_tr w) fd n in
  slog (BCall "read" (fd :: default [] r) (match r with Some bs => Z.of_nat (length bs) | None => -1 end));; mret r.

Definition tcgetattr (fd : Z) : M sysw (option termios) :=
  w ← get;
  slog (BCall "tcgetattr" [fd] 0);; mret (env_termios (s_tr w) fd).

Definition usleep (us : Z) : M sysw unit := slog (BSleep us).

(** [property_get]: the value of a property that is set and not empty, or
    else the default; the call returns its length. *)
Definition prop_value (ps : props) (name : string) (dflt : text) : text :=
  match ps !! name with Some (c :: v) => c :: v | _ => dflt end.

Definition property_get (name : string) (dflt : text) : M sysw text :=
  modify (fun w => put_s_props (env_props (s_tr w) (s_props w)) w);;
  w ← get;
  let v := prop_value (s_props w) name dflt in
  slog (BCall ("property_get " +:+ name) v (Z.of_nat (length v)));; mret v.

Definition property_set (name : string) (v : text) : M sysw Z :=
  r ← syscall ("property_set " +:+ name) v;
  (if r <? 0 then mret tt else modify (fun w => put_s_props (<[name := v]> (s_props w)) w));;
  mret r.

End Sys.
