(* ===== verification/Userial.v ===== *)
(** * The serial port of the bluetooth controller

    The port functions of [hci_uart.c]: baud rates, [termios] settings, opening
    and closing.  The control block [vnd_userial] is the state of this
    component, over the state of the system calls. *)

From Stdlib Require Import ZArith Lia.
From stdpp Require Import list strings gmap.
From S2P Require Import Prelude BtHci CText BtSys.

(** ** [termios.h] *)

Definition CBAUD : Z := 0x100f.
Definition CSIZE : Z := 0x30.
Definition CS5 : Z := 0x00.
Definition CS6 : Z := 0x10.
Definition CS7 : Z := 0x20.
Definition CS8 : Z := 0x30.
Definition CSTOPB : Z := 0x40.
Definition PARENB : Z := 0x100.
Definition PARODD : Z := 0x200.
Definition CLOCAL : Z := 0x800.
Definition CRTSCTS : Z := 0x80000000.
Definition TIOCM_RTS : Z := 0x004.

Definition B600 : Z := 8.
Definition B1200 : Z := 9.
Definition B9600 : Z := 13.
Definition B19200 : Z := 14.
Definition B57600 : Z := 4097.
Definition B115200 : Z := 4098.
Definition B230400 : Z := 4099.
Definition B460800 : Z := 4100.
Definition B921600 : Z := 4103.
Definition B1000000 : Z := 4104.
Definition B2000000 : Z := 4107.
Definition B3000000 : Z := 4109.
Definition B4000000 : Z := 4111.

(** [cfmakeraw]: no processing of input and output, eight bits, no parity. *)
Definition cfmakeraw (t : termios) : termios :=
  {| c_iflag := Z.ldiff (c_iflag t) 0x5eb; c_oflag := Z.ldiff (c_oflag t) 0x1;
     c_cflag := Z.lor (Z.ldiff (c_cflag t) (Z.lor CSIZE PARENB)) CS8; c_lflag := Z.ldiff (c_lflag t) 0x804b |}.

Definition put_cflag (v : Z) (t : termios) : termios :=
  {| c_iflag := c_iflag t; c_oflag := c_oflag t; c_cflag := v; c_lflag := c_lflag t |}.

(** [cfsetospeed] and [cfsetispeed] set the one field of both speeds. *)
Definition cfsetspeed (baud : Z) (t : termios) : termios :=
  if Z.ldiff baud CBAUD =? 0 then put_cflag (Z.lor (Z.ldiff (c_cflag t) CBAUD) baud) t else t.

Definition cfgetispeed (t : termios) : Z := Z.land (c_cflag t) CBAUD.

(** ** Configuration *)

Definition USERIAL_BAUD_600 : Z := 1.
Definition USERIAL_BAUD_1200 : Z := 2.
Definition USERIAL_BAUD_9600 : Z := 4.
Definition USERIAL_BAUD_19200 : Z := 5.
Definition USERIAL_BAUD_57600 : Z := 6.
Definition USERIAL_BAUD_115200 : Z := 7.
Definition USERIAL_BAUD_230400 : Z := 8.
Definition USERIAL_BAUD_460800 : Z := 9.
Definition USERIAL_BAUD_921600 : Z := 10.
Definition USERIAL_BAUD_1M : Z := 11.
Definition USERIAL_BAUD_2M : Z := 13.
Definition USERIAL_BAUD_3M : Z := 14.
Definition USERIAL_BAUD_4M : Z := 15.

Definition USERIAL_STOPBITS_1 : Z := 1.
Definition USERIAL_STOPBITS_2 : Z := 4.
Definition USERIAL_PARITY_NONE : Z := 8.
Definition USERIAL_PARITY_EVEN : Z := 16.
Definition USERIAL_PARITY_ODD : Z := 32.
Definition USERIAL_DATABITS_5 : Z := 64.
Definition USERIAL_DATABITS_6 : Z := 128.
Definition USERIAL_DATABITS_7 : Z := 256.
Definition USERIAL_DATABITS_8 : Z := 512.

Definition USERIAL_OP_CLK_ON : Z := 0x5441.
Definition USERIAL_OP_CLK_OFF : Z := 0x5442.
Definition USERIAL_OP_CLK_STATE : Z := 0x5443.
Definition USERIAL_IOCTL_BT_WAKE_ASSERT : Z := 0x8003.
Definition USERIAL_IOCTL_BT_WAKE_DEASSERT : Z := 0x8004.
Definition USERIAL_IOCTL_BT_WAKE_GET_ST : Z := 0x8005.
Definition TIOCMGET : Z := 0x5415.
Definition TIOCMSET : Z := 0x5418.

Record tUSERIAL_CFG := { cfg_fmt : Z; cfg_baud : Z }.

Inductive userial_vendor_ioctl_op_t : Set :=
| OP_ASSERT_BT_WAKE | OP_DEASSERT_BT_WAKE | OP_GET_BT_WAKE_STATE | OP_FLOW_ON | OP_FLOW_OFF | OP_NOP.

Definition VND_PORT_NAME_MAXLEN : nat := 256.

Record vnd_userial_cb_t := { u_fd : Z; u_termios : termios; port_name : text }.
Record uworld := { u_cb : vnd_userial_cb_t; u_sys : sysw }.

Definition put_u_sys (v : sysw) (x : uworld) : uworld := {| u_cb := u_cb x; u_sys := v |}.
Definition put_u_fd (v : Z) (x : uworld) : uworld :=
  {| u_cb := {| u_fd := v; u_termios := u_termios (u_cb x); port_name := port_name (u_cb x) |}; u_sys := u_sys x |}.
Definition put_u_termios (v : termios) (x : uworld) : uworld :=
  {| u_cb := {| u_fd := u_fd (u_cb x); u_termios := v; port_name := port_name (u_cb x) |}; u_sys := u_sys x |}.
Definition put_port_name (v : text) (x : uworld) : uworld :=
  {| u_cb := {| u_fd := u_fd (u_cb x); u_termios := u_termios (u_cb x); port_name := v |}; u_sys := u_sys x |}.

(** ** Rates *)

(** Whether the rate is supported, and the rate. *)
Definition userial_to_tcio_baud (cfg_baud : Z) : bool * Z :=
  if cfg_baud =? USERIAL_BAUD_115200 then (true, B115200)
  else if cfg_baud =? USERIAL_BAUD_4M then (true, B4000000)
  else if cfg_baud =? USERIAL_BAUD_3M then (true, B3000000)
  else if cfg_baud =? USERIAL_BAUD_2M then (true, B2000000)
  else if cfg_baud =? USERIAL_BAUD_1M then (true, B1000000)
  else if cfg_baud =? USERIAL_BAUD_921600 then (true, B921600)
  else if cfg_baud =? USERIAL_BAUD_460800 then (true, B460800)
  else if cfg_baud =? USERIAL_BAUD_230400 then (true, B230400)
  else if cfg_baud =? USERIAL_BAUD_57600 then (true, B57600)
  else if cfg_baud =? USERIAL_BAUD_19200 then (true, B19200)
  else if cfg_baud =? USERIAL_BAUD_9600 then (true, B9600)
  else if cfg_baud =? USERIAL_BAUD_1200 then (true, B1200)
  else if cfg_baud =? USERIAL_BAUD_600 then (true, B600)
  else (false, B115200).

Definition userial_tcio_baud_to_int (baud : Z) : Z :=
  if baud =? B600 then 600
  else if baud =? B1200 then 1200
  else if baud =? B9600 then 9600
  else if baud =? B19200 then 19200
  else if baud =? B57600 then 57600
  else if baud =? B115200 then 115200
  else if baud =? B230400 then 230400
  else if baud =? B460800 then 460800
  else if baud =? B921600 then 921600
  else if baud =? B1000000 then 1000000
  else if baud =? B2000000 then 2000000
  else if baud =? B3000000 then 3000000
  else if baud =? B4000000 then 4000000
  else 0.

(** ** Formats *)

Definition has (fmt bit : Z) : bool := negb (Z.land fmt bit =? 0).

Definition data_bits (fmt : Z) : option Z :=
  if has fmt USERIAL_DATABITS_8 then Some CS8
  else if has fmt USERIAL_DATABITS_7 then Some CS7
  else if has fmt USERIAL_DATABITS_6 then Some CS6
  else if has fmt USERIAL_DATABITS_5 then Some CS5
  else None.

Definition parity (fmt : Z) : option Z :=
  if has fmt USERIAL_PARITY_NONE then Some 0
  else if has fmt USERIAL_PARITY_EVEN then Some PARENB
  else if has fmt USERIAL_PARITY_ODD then Some (Z.lor PARENB PARODD)
  else None.

Definition stop_bits (fmt : Z) : option Z :=
  if has fmt USERIAL_STOPBITS_1 then Some 0
  else if has fmt USERIAL_STOPBITS_2 then Some CSTOPB
  else None.

Section Userial.
Context `{SE : SysEnv} `{BC : BuildCfg}.

Definition usys {A} (m : M sysw A) : M uworld A := zoom u_sys put_u_sys m.
Definition ucall (f : string) (args : list Z) : M uworld unit := usys (syscall f args);; mret tt.

Definition userial_ioctl_init_bt_wake (fd : Z) : M uworld unit :=
  ucall "ioctl" [fd; USERIAL_IOCTL_BT_WAKE_ASSERT];; ucall "ioctl" [fd; USERIAL_IOCTL_BT_WAKE_GET_ST].

Definition userial_vendor_init : M uworld unit :=
  modify (fun w => put_port_name (chars "/dev/ttyHS0") (put_u_fd (-1) w)).

(** The attributes of the open port. *)
Definition line_settings (stop baud : Z) : M uworld unit :=
  fd ← gets (fun w => u_fd (u_cb w));
  ucall "tcflush" [fd];;
  t ← usys (tcgetattr fd);
  (match t with Some t => modify (put_u_termios t) | None => mret tt end);;
  modify (fun w => put_u_termios (cfmakeraw (u_termios (u_cb w))) w);;
  modify (fun w => let t := u_termios (u_cb w) in
    put_u_termios (put_cflag (Z.lor (Z.lor (c_cflag t) CLOCAL) (Z.lor CRTSCTS stop)) t) w);;
  ucall "tcsetattr" [fd];;
  modify (fun w => put_u_termios (cfsetspeed baud (cfsetspeed baud (u_termios (u_cb w)))) w);;
  ucall "tcsetattr" [fd];;
  ucall "tcflush" [fd].

Definition userial_vendor_open (p_cfg : tUSERIAL_CFG) : M uworld Z :=
  modify (put_u_fd (-1));;
  let '(ok, baud) := userial_to_tcio_baud (cfg_baud p_cfg) in
  if negb ok then mret (-1)
  else
    match data_bits (cfg_fmt p_cfg), parity (cfg_fmt p_cfg), stop_bits (cfg_fmt p_cfg) with
    | Some _, Some _, Some stop =>
        name ← gets (fun w => port_name (u_cb w));
        fd ← usys (sopen (to_string name));
        modify (put_u_fd fd);;
        if fd =? -1 then mret (-1)
        else
          line_settings stop baud;;
          (if BT_WAKE_VIA_USERIAL_IOCTL then userial_ioctl_init_bt_wake fd else mret tt);;
          mret fd
    | _, _, _ => mret (-1)
    end.

Definition userial_vendor_close : M uworld unit :=
  fd ← gets (fun w => u_fd (u_cb w));
  if fd =? -1 then mret tt
  else
    (if BT_WAKE_VIA_USERIAL_IOCTL then ucall "ioctl" [fd; USERIAL_IOCTL_BT_WAKE_DEASSERT] else mret tt);;
    usys (sclose fd);;
    modify (put_u_fd (-1)).

Definition userial_vendor_set_baud (userial_baud : Z) : M uworld unit :=
  let tcio_baud := snd (userial_to_tcio_baud userial_baud) in
  modify (fun w => put_u_termios (cfsetspeed tcio_baud (cfsetspeed tcio_baud (u_termios (u_cb w)))) w);;
  fd ← gets (fun w => u_fd (u_cb w));
  ucall "tcsetattr" [fd].

Definition userial_vendor_get_baud : M uworld Z :=
  w ← get;
  mret (if u_fd (u_cb w) =? -1 then -1 else userial_tcio_baud_to_int (cfgetispeed (u_termios (u_cb w)))).

(** The result and what [*p_data] holds after it; the modem lines are what
    the call "modem lines" gives. *)
Definition userial_vendor_ioctl (op : userial_vendor_ioctl_op_t) (data : Z) : M uworld (Z * Z) :=
  fd ← gets (fun w => u_fd (u_cb w));
  let wake op := err ← usys (syscall "ioctl" [fd; op]); mret (err, data) in
  let nop := err ← usys (syscall "uninitialised" []); mret (err, data) in
  match op with
  | OP_ASSERT_BT_WAKE => if BT_WAKE_VIA_USERIAL_IOCTL then wake USERIAL_IOCTL_BT_WAKE_ASSERT else nop
  | OP_DEASSERT_BT_WAKE => if BT_WAKE_VIA_USERIAL_IOCTL then wake USERIAL_IOCTL_BT_WAKE_DEASSERT else nop
  | OP_GET_BT_WAKE_STATE =>
      if BT_WAKE_VIA_USERIAL_IOCTL then
        err ← usys (syscall "ioctl" [fd; USERIAL_IOCTL_BT_WAKE_GET_ST]);
        st ← usys (syscall "wake state" [fd]);
        mret (err, if err <? 0 then data else st)
      else nop
  | OP_FLOW_ON =>
      let data := Z.lor data TIOCM_RTS in
      err ← usys (syscall "ioctl" [fd; TIOCMSET; data]);
      mret (err, data)
  | OP_FLOW_OFF =>
      r ← usys (syscall "ioctl" [fd; TIOCMGET]);
      lines ← usys (syscall "modem lines" [fd]);
      let data := Z.ldiff (if r <? 0 then data else lines) TIOCM_RTS in
      err ← usys (syscall "ioctl" [fd; TIOCMSET; data]);
      mret (err, data)
  | OP_NOP => nop
  end.

Definition userial_set_port (p_conf_value : text) : M uworld Z :=
  modify (put_port_name (cut (strlcpy p_conf_value VND_PORT_NAME_MAXLEN)));; mret 0.

Definition userial_clock_operation (fd cmd : Z) : M uworld Z :=
  if (cmd =? USERIAL_OP_CLK_ON) || (cmd =? USERIAL_OP_CLK_OFF) then usys (syscall "ioctl" [fd; cmd]);; mret 0
  else if cmd =? USERIAL_OP_CLK_STATE then usys (syscall "ioctl" [fd; cmd])
  else mret 0.

End Userial.
