(* ===== verification/Vendor.v ===== *)
(** * The bluetooth vendor interface: power and transports

    [hardware.c], [hci_smd.c] and the part of [bt_vendor_qcom.c] that switches
    the controller: the globals of the library, the type of the controller,
    the count of its clients in a property, the radio switch. *)

From Stdlib Require Import ZArith Lia.
From stdpp Require Import list strings gmap.
From S2P Require Import Prelude BtHci CText PsFile Rome BtSys Userial.

(** ** Constants *)

Definition BT_SOC_DEFAULT : Z := 0.
Definition BT_SOC_ROME : Z := 1.
Definition BT_SOC_AR3K : Z := 2.

(** The values of [bt_vendor_lib.h]. *)
Definition BT_VND_PWR_OFF : Z := 0.
Definition BT_VND_PWR_ON : Z := 1.
Definition BT_VND_OP_RESULT_SUCCESS : Z := 0.
Definition BT_VND_OP_RESULT_FAIL : Z := 1.
Definition CH_MAX : nat := 4.

Definition LOCK_EX : Z := 2.
Definition LOCK_UN : Z := 8.
Definition WAIT_TIMEOUT : Z := 200000.
Definition MAX_CNT_RETRY : nat := 100.
Definition NUM_OF_DEVS : nat := 2.

(** ** The globals *)

(** The callbacks and the strings are there or not; [ant_fd] is used by the
    builds that have it. *)
Record vworld := {
  v_u : uworld;
  v_rome : rworld;
  v_ar3k : aworld;
  btSocType : Z;
  rfkill_id : Z;
  rfkill_state : option string;
  v_extldo : bool;
  bt_vendor_cbacks : bool;
  v_bd_addr : list Z;
  pFd : list Z;
  ant_fd : Z;
  isInit : bool
}.

Definition put_v_u (v : uworld) (x : vworld) : vworld :=
  {| v_u := v; v_rome := v_rome x; v_ar3k := v_ar3k x; btSocType := btSocType x; rfkill_id
     := rfkill_id x; rfkill_state := rfkill_state x; v_extldo := v_extldo x;
     bt_vendor_cbacks := bt_vendor_cbacks x; v_bd_addr := v_bd_addr x; pFd := pFd x; ant_fd
     := ant_fd x; isInit := isInit x |}.

Definition put_v_rome (v : rworld) (x : vworld) : vworld :=
  {| v_u := v_u x; v_rome := v; v_ar3k := v_ar3k x; btSocType := btSocType x; rfkill_id :=
     rfkill_id x; rfkill_state := rfkill_state x; v_extldo := v_extldo x; bt_vendor_cbacks
     := bt_vendor_cbacks x; v_bd_addr := v_bd_addr x; pFd := pFd x; ant_fd := ant_fd x;
     isInit := isInit x |}.

Definition put_v_ar3k (v : aworld) (x : vworld) : vworld :=
  {| v_u := v_u x; v_rome := v_rome x; v_ar3k := v; btSocType := btSocType x; rfkill_id :=
     rfkill_id x; rfkill_state := rfkill_state x; v_extldo := v_extldo x; bt_vendor_cbacks
     := bt_vendor_cbacks x; v_bd_addr := v_bd_addr x; pFd := pFd x; ant_fd := ant_fd x;
     isInit := isInit x |}.

Definition put_btSocType (v : Z) (x : vworld) : vworld :=
  {| v_u := v_u x; v_rome := v_rome x; v_ar3k := v_ar3k x; btSocType := v; rfkill_id :=
     rfkill_id x; rfkill_state := rfkill_state x; v_extldo := v_extldo x; bt_vendor_cbacks
     := bt_vendor_cbacks x; v_bd_addr := v_bd_addr x; pFd := pFd x; ant_fd := ant_fd x;
     isInit := isInit x |}.

Definition put_rfkill_id (v : Z) (x : vworld) : vworld :=
  {| v_u := v_u x; v_rome := v_rome x; v_ar3k := v_ar3k x; btSocType := btSocType x;
     rfkill_id := v; rfkill_state := rfkill_state x; v_extldo := v_extldo x;
     bt_vendor_cbacks := bt_vendor_cbacks x; v_bd_addr := v_bd_addr x; pFd := pFd x; ant_fd
     := ant_fd x; isInit := isInit x |}.

Definition put_rfkill_state (v : option string) (x : vworld) : vworld :=
  {| v_u := v_u x; v_rome := v_rome x; v_ar3k := v_ar3k x; btSocType := btSocType x;
     rfkill_id := rfkill_id x; rfkill_state := v; v_extldo := v_extldo x; bt_vendor_cbacks
     := bt_vendor_cbacks x; v_bd_addr := v_bd_addr x; pFd := pFd x; ant_fd := ant_fd x;
     isInit := isInit x |}.

Definition put_v_extldo (v : bool) (x : vworld) : vworld :=
  {| v_u := v_u x; v_rome := v_rome x; v_ar3k := v_ar3k x; btSocType := btSocType x;
     rfkill_id := rfkill_id x; rfkill_state := rfkill_state x; v_extldo := v;
     bt_vendor_cbacks := bt_vendor_cbacks x; v_bd_addr := v_bd_addr x; pFd := pFd x; ant_fd
     := ant_fd x; isInit := isInit x |}.

Definition put_bt_vendor_cbacks (v : bool) (x : vworld) : vworld :=
  {| v_u := v_u x; v_rome := v_rome x; v_ar3k := v_ar3k x; btSocType := btSocType x;
     rfkill_id := rfkill_id x; rfkill_state := rfkill_state x; v_extldo := v_extldo x;
     bt_vendor_cbacks := v; v_bd_addr := v_bd_addr x; pFd := pFd x; ant_fd := ant_fd x;
     isInit := isInit x |}.

Definition put_v_bd_addr (v : list Z) (x : vworld) : vworld :=
  {| v_u := v_u x; v_rome := v_rome x; v_ar3k := v_ar3k x; btSocType := btSocType x;
     rfkill_id := rfkill_id x; rfkill_state := rfkill_state x; v_extldo := v_extldo x;
     bt_vendor_cbacks := bt_vendor_cbacks x; v_bd_addr := v; pFd := pFd x; ant_fd := ant_fd
     x; isInit := isInit x |}.

Definition put_pFd (v : list Z) (x : vworld) : vworld :=
  {| v_u := v_u x; v_rome := v_rome x; v_ar3k := v_ar3k x; btSocType := btSocType x;
     rfkill_id := rfkill_id x; rfkill_state := rfkill_state x; v_extldo := v_extldo x;
     bt_vendor_cbacks := bt_vendor_cbacks x; v_bd_addr := v_bd_addr x; pFd := v; ant_fd :=
     ant_fd x; isInit := isInit x |}.

Definition put_ant_fd (v : Z) (x : vworld) : vworld :=
  {| v_u := v_u x; v_rome := v_rome x; v_ar3k := v_ar3k x; btSocType := btSocType x;
     rfkill_id := rfkill_id x; rfkill_state := rfkill_state x; v_extldo := v_extldo x;
     bt_vendor_cbacks := bt_vendor_cbacks x; v_bd_addr := v_bd_addr x; pFd := pFd x; ant_fd
     := v; isInit := isInit x |}.

Definition put_isInit (v : bool) (x : vworld) : vworld :=
  {| v_u := v_u x; v_rome := v_rome x; v_ar3k := v_ar3k x; btSocType := btSocType x;
     rfkill_id := rfkill_id x; rfkill_state := rfkill_state x; v_extldo := v_extldo x;
     bt_vendor_cbacks := bt_vendor_cbacks x; v_bd_addr := v_bd_addr x; pFd := pFd x; ant_fd
     := ant_fd x; isInit := v |}.

Definition v_sys (w : vworld) : sysw := u_sys (v_u w).
Definition put_v_sys (v : sysw) (w : vworld) : vworld := put_v_u (put_u_sys v (v_u w)) w.
Definition v_tr (w : vworld) : bhistory := s_tr (v_sys w).

Section Vendor.
Context `{SE : SysEnv} `{BC : BuildCfg}.

(** A bound of the waits that have none of their own. *)
Context (turns : nat).

Definition port {A} (m : M uworld A) : M vworld A := zoom v_u put_v_u m.
Definition sys {A} (m : M sysw A) : M vworld A := zoom v_sys put_v_sys m.
Definition get_prop (name : string) (dflt : string) : M vworld text := sys (property_get name (chars dflt)).
Definition set_prop (name : string) (v : string) : M vworld Z := sys (property_set name (chars v)).
Definition is_text (v : text) (s : string) : bool := bool_decide (v = chars s).

(** [strncmp(v, s, strlen(s)) == 0] *)
Definition has_prefix (v : text) (s : string) : bool := is_text (take (length (chars s)) v) s.

(** ** [hardware.c] *)

Definition hw_config (nState : Z) : M vworld Z :=
  let szReqSt := if nState =? BT_VND_PWR_OFF then "false" else "true" in
  let request := r ← set_prop "bluetooth.hciattach" szReqSt; mret (if r <? 0 then -1 else 0) in
  status ← get_prop "bluetooth.status" "";
  if (length status =? 0)%nat then
    if nState =? BT_VND_PWR_ON then request else mret 0
  else if has_prefix status "on" then mret 0
  else request.

(** The length is never negative. *)
Definition readTrpState : M vworld bool :=
  status ← get_prop "bluetooth.status" "";
  mret (has_prefix status "on").

(** [n] looks at the state. *)
Fixpoint hw_poll (n : nat) : M vworld bool :=
  match n with
  | O => mret false
  | S n =>
      on ← readTrpState;
      if (on : bool) then mret true else sys (usleep 50000);; hw_poll n
  end.

Definition is_hw_ready : M vworld bool := hw_poll MAX_CNT_RETRY.

(** The command with the header of its buffer, as it goes to the stack. *)
Definition MSG_STACK_TO_HC_HCI_CMD : Z := 0x2000.
Definition HCI_CMD_PREAMBLE_SIZE : Z := 3.
Definition BT_HC_HDR_SIZE : Z := 8.
Definition reset_buffer : list Z :=
  [MSG_STACK_TO_HC_HCI_CMD; HCI_CMD_PREAMBLE_SIZE; 0; 0] ++ [u8 HCI_RESET; u8 (Z.shiftr HCI_RESET 8); 0].

Definition vcall (f : string) (args : list Z) : M vworld Z := sys (syscall f args).

(** A callback of the stack, if it is registered. *)
Definition callback (f : string) (args : list Z) : M vworld unit :=
  cb ← gets bt_vendor_cbacks;
  if (cb : bool) then vcall f args;; mret tt else mret tt.

Definition valloc : M vworld bool :=
  w ← get;
  let ok := env_bmalloc (v_tr w) in
  sys (slog (BMalloc ok));; mret ok.

Definition hw_epilog_process : M vworld unit :=
  cb ← gets bt_vendor_cbacks;
  ok ← (if (cb : bool) then valloc else mret false);
  if (ok : bool) then callback "xmit_cb" (HCI_RESET :: reset_buffer)
  else callback "epilog_cb" [BT_VND_OP_RESULT_FAIL].

(** The event after the header of its buffer: its status and opcode are read
    for the log. *)
Definition hw_epilog_cback (evt : list Z) : M vworld unit :=
  deref (slice 5 1 evt);;
  deref (slice 3 2 evt);;
  callback "dealloc" [];;
  callback "epilog_cb" [BT_VND_OP_RESULT_SUCCESS].

(** ** [hci_smd.c] *)

Definition s_pszDevSmd (chId : Z) : string := if chId =? 0 then "/dev/smd3" else "/dev/smd2".

Fixpoint open_retry (retry : nat) (path : string) (fd : Z) : M vworld Z :=
  match retry with
  | O => mret fd
  | S retry => if fd =? -1 then sys (usleep 2000000);; fd ← sys (sopen path); open_retry retry path fd else mret fd
  end.

(** The attributes of the channel, which is closed when they cannot be set. *)
Definition smd_settings (fd : Z) : M vworld Z :=
  let fail := sys (sclose fd);; mret (-1) in
  r ← vcall "tcflush" [fd];
  if r <? 0 then fail
  else
    t ← sys (tcgetattr fd);
    match t with
    | None => fail
    | Some t =>
        let t := cfmakeraw t in
        let t := put_cflag (Z.lor (c_cflag t) (Z.lor CRTSCTS CLOCAL)) t in
        r ← vcall "tcsetattr" [fd; c_cflag t];
        if r <? 0 then fail else mret fd
    end.

Definition bt_hci_init_transport_id (chId : Z) : M vworld Z :=
  if (2 <=? chId) || (chId <? 0) then mret (-1)
  else
    let path := s_pszDevSmd chId in
    fd ← sys (sopen path);
    fd ← open_retry 7 path fd;
    if fd =? -1 then mret (-1)
    else
      ssrvalue ← get_prop "bluetooth.isSSR" "";
      (if starts_with 49 ssrvalue then
         (if chId =? 1 then set_prop "bluetooth.isSSR" "0";; mret tt else mret tt);;
         sys (usleep 500000)
       else mret tt);;
      smd_settings fd.

(** The channels from [i] on, [n] of them. *)
Fixpoint init_channels (n i : nat) : M vworld Z :=
  match n with
  | O => mret 0
  | S n =>
      fd ← bt_hci_init_transport_id (Z.of_nat i);
      if fd <? 0 then mret (-1)
      else modify (fun w => put_pFd (<[i := fd]> (pFd w)) w);; init_channels n (S i)
  end.

Definition bt_hci_init_transport : M vworld Z := init_channels NUM_OF_DEVS 0.

Definition bt_hci_deinit_transport : M vworld bool :=
  w ← get;
  fd0 ← deref (pFd w !! 0%nat);
  fd1 ← deref (pFd w !! 1%nat);
  sys (sclose fd0);; sys (sclose fd1);; mret true.

(** ** The lock shared with the WLAN driver *)

Definition bt_semaphore_create : M vworld Z := sys (sopen "/data/connectivity/wifi_bt_lock").

Definition bt_semaphore_get (fd : Z) : M vworld Z :=
  if fd <? 0 then mret (-1) else r ← vcall "flock" [fd; LOCK_EX]; mret (if r =? 0 then r else -1).

Definition bt_semaphore_release (fd : Z) : M vworld Z :=
  if fd <? 0 then mret (-1) else r ← vcall "flock" [fd; LOCK_UN]; mret (if r =? 0 then r else -1).

Definition bt_semaphore_destroy (fd : Z) : M vworld Z := if fd <? 0 then mret (-1) else sys (sclose fd).

Fixpoint service_poll (count : nat) : M vworld unit :=
  match count with
  | O => mret tt
  | S count =>
      status ← get_prop "wlan.hsic_ctrl" "";
      if (length status =? 0)%nat then mret tt else sys (usleep 200000);; service_poll count
  end.

Definition bt_wait_for_service_done : M vworld Z := service_poll 30;; mret 0.

(** Both are done at every way out that knows of the lock. *)
Definition unlock (lock_fd : Z) : M vworld unit :=
  if WIFI_BT_STATUS_SYNC then bt_semaphore_release lock_fd;; bt_semaphore_destroy lock_fd;; mret tt else mret tt.

(** ** The controller *)

Definition get_bt_soc_type : M vworld Z :=
  v ← get_prop "qcom.bluetooth.soc" "";
  mret (if bool_decide (map toupper v = chars "ROME") then BT_SOC_ROME
        else if bool_decide (map toupper v = chars "ATH3K") then BT_SOC_AR3K
        else BT_SOC_DEFAULT).

Definition is_soc_initialized : M vworld bool :=
  v ← get_prop "wc_transport.soc_initialized" "";
  mret (is_text v "1").

(** The number of clients after the action, and whether the controller is to
    be switched; none when the action is refused. *)
Definition next_count (on : bool) (value : Z) (busy : bool) : option (Z * bool) :=
  if on then
    let value := if value =? 1 then (if busy then value +i 1 else value) else value +i 1 in
    if value =? 1 then Some (value, true) else if 2 <? value then None else Some (value, false)
  else
    let value := value -i 1 in
    if value =? 0 then Some (value, true) else if value <? 0 then None else Some (value, false).

Definition can_perform_action (on : bool) : M vworld bool :=
  ref_count ← get_prop "wc_transport.ref_count" "0";
  let value := atoi ref_count in
  busy ← (if on && (value =? 1) then
            inProgress ← get_prop "wc_transport.patch_dnld_inprog" "null";
            init ← is_soc_initialized;
            mret (init || negb (is_text inProgress "null"))
          else mret false);
  match next_count on value busy with
  | None => mret false
  | Some (value, can_perform) =>
      r ← sys (property_set "wc_transport.ref_count" (take 2 (print_int value)));
      mret (if r <? 0 then false else can_perform)
  end.

Definition BT_VND_FILTER_START : string := if PANIC_ON_SOC_CRASH then "wc_transport.start_root" else "wc_transport.start_hci".

Definition stop_hci_filter : M vworld unit :=
  get_prop BT_VND_FILTER_START "false";;
  set_prop BT_VND_FILTER_START "false";;
  set_prop "wc_transport.hci_filter_status" "0";;
  mret tt.

Fixpoint filter_poll (n : nat) : M vworld unit :=
  match n with
  | O => mret tt
  | S n =>
      v ← get_prop "wc_transport.hci_filter_status" "0";
      if is_text v "1" then mret tt else sys (usleep WAIT_TIMEOUT);; filter_poll n
  end.

Definition start_hci_filter : M vworld unit :=
  v ← get_prop BT_VND_FILTER_START "";
  if is_text v "true" then mret tt
  else
    set_prop "wc_transport.hci_filter_status" "0";;
    set_prop BT_VND_FILTER_START "true";;
    filter_poll 45.

(** ** Power *)

Definition rfkill_path (i : Z) (file : string) : string := "/sys/class/rfkill/rfkill" +:+ to_string (print_int i) +:+ "/" +:+ file.

(** The search of the radio switch of bluetooth from number [i] on.  The
    result is the last descriptor, and none of it when the switch is not
    found. *)
Fixpoint find_rfkill (fuel : nat) (i : Z) (fd : option Z) : M vworld (option (option Z)) :=
  w ← get;
  if negb ((rfkill_id w =? -1) && (match rfkill_state w with None => true | Some _ => false end)) then mret (Some fd)
  else
    match fuel with
    | O => stuck
    | S fuel =>
        fd ← sys (sopen (rfkill_path i "type"));
        if fd <? 0 then mret None
        else
          type ← sys (sread fd 16);
          sys (sclose fd);;
          if has_prefix (default [] type) "bluetooth" then
            ok ← valloc;
            modify (fun w => put_rfkill_state (if (ok : bool) then Some (rfkill_path i "state") else None) (put_rfkill_id i w));;
            mret (Some (Some fd))
          else find_rfkill fuel (i + 1) (Some fd)
    end.

(** The external regulator; whether the caller goes on. *)
Definition read_extldo : M vworld bool :=
  ok ← valloc;
  if negb ok then mret false
  else
    id ← gets rfkill_id;
    fd_ldo ← sys (sopen (rfkill_path id "device/extldo"));
    if fd_ldo <? 0 then mret false
    else
      r ← sys (sread fd_ldo 6);
      sys (sclose fd_ldo);;
      match r with
      | None | Some [] => mret false
      | Some bs =>
          w ← get;
          (if is_text (take 4 (bs ++ env_stack (v_tr w))) "true" then modify (put_v_extldo true) else mret tt);;
          mret true
      end.

(** What the WLAN driver is told; whether the properties could be set. *)
Definition sync_wifi (on : bool) : M vworld bool :=
  wifi_status ← get_prop "wlan.driver.status" "";
  init ← gets isInit;
  ok ← (if has_prefix wifi_status "unloaded" || (length wifi_status =? 0)%nat then
          if on then r ← set_prop "bluetooth.hsic_ctrl" "load_wlan"; mret (negb (r <? 0))
          else if negb init then r ← set_prop "bluetooth.hsic_ctrl" "unbind_hsic"; mret (negb (r <? 0))
          else mret true
        else mret true);
  if negb ok then mret false
  else
    (if negb init && negb on then set_prop "bluetooth.enabled" "false";; mret tt
     else if on then set_prop "bluetooth.enabled" "true";; mret tt
     else mret tt);;
    mret true.

(** The label [done]. *)
Definition powerup_done (fd : option Z) : M vworld Z :=
  fd ← deref fd;
  (if 0 <=? fd then sys (sclose fd);; mret tt else mret tt);;
  mret 0.

(** From the write on. *)
Definition switch_radio (on : bool) (fd : option Z) (lock_fd : Z) : M vworld Z :=
  state ← gets rfkill_state;
  fd ← deref fd;
  size ← vcall ("write " +:+ default "" state) [fd; if on then 49 else 48];
  if size <? 0 then unlock lock_fd;; mret (-1)
  else
    (if BT_SOC_TYPE_ROME && negb on then
       stop_hci_filter;; set_prop "wc_transport.soc_initialized" "0";; mret tt
     else mret tt);;
    ok ← (if WIFI_BT_STATUS_SYNC then sync_wifi on else mret true);
    if negb ok then sys (sclose fd);; unlock lock_fd;; mret (-1)
    else unlock lock_fd;; powerup_done (Some fd).

Definition bt_powerup (en : Z) : M vworld Z :=
  let on := negb (en =? 0) in
  disable ← get_prop "ro.rfkilldisabled" "0";
  if is_text disable "1" then mret (-1)
  else
    lock_fd ← (if WIFI_BT_STATUS_SYNC then
                 l ← bt_semaphore_create; bt_semaphore_get l;; bt_wait_for_service_done;; mret l
               else mret (-1));
    found ← find_rfkill turns 0 None;
    match found with
    | None => unlock lock_fd;; mret (-1)
    | Some fd =>
        state ← gets rfkill_state;
        fd ← match state with Some path => fd ← sys (sopen path); mret (Some fd) | None => mret fd end;
        if match state, fd with Some _, Some fd => fd <? 0 | _, _ => false end then unlock lock_fd;; mret (-1)
        else
          can ← (if BT_SOC_TYPE_ROME then can_perform_action on else mret true);
          if negb can then unlock lock_fd;; powerup_done fd
          else
            ok ← (if USE_EXTERNAL_RFKILL_LDO then read_extldo else mret true);
            if negb ok then mret (-1) else switch_radio on fd lock_fd
    end.

End Vendor.
