(* ===== verification/VendorOp.v ===== *)
(** * The bluetooth vendor interface: the entry points

    The operations of [BLUETOOTH_VENDOR_LIB_INTERFACE] in [bt_vendor_qcom.c]:
    [init], [op], [cleanup], [ssr_cleanup].  Opening the transport runs the
    initialisation of the controller, [rome_soc_init] or [ath3k_init], on the
    globals of those files and on the one history of outside calls. *)

From Stdlib Require Import ZArith Lia.
From stdpp Require Import list strings gmap.
From S2P Require Import Prelude BtHci CText PsFile Rome Ar3k BtSys Userial Vendor.

Definition userial_init_cfg : tUSERIAL_CFG :=
  {| cfg_fmt := Z.lor (Z.lor USERIAL_DATABITS_8 USERIAL_PARITY_NONE) USERIAL_STOPBITS_1; cfg_baud := USERIAL_BAUD_115200 |}.

Definition BT_VND_LPM_WAKE_ASSERT : Z := 0.
Definition BT_VND_LPM_WAKE_DEASSERT : Z := 1.
Definition CMD_TIMEOUT : Z := 0x22.

(** The opcodes, with what [param] points to. *)
Inductive vnd_op : Type :=
| BT_VND_OP_POWER_CTRL (nState : Z)
| BT_VND_OP_FW_CFG
| BT_VND_OP_SCO_CFG
| BT_VND_OP_USERIAL_OPEN (fd_array : list Z)
| BT_VND_OP_USERIAL_CLOSE
| BT_VND_OP_GET_LPM_IDLE_TIMEOUT (timeout_ms : Z)
| BT_VND_OP_LPM_SET_MODE (mode : Z)
| BT_VND_OP_LPM_WAKE_SET_STATE (state : Z)
| BT_VND_OP_EPILOG
| BT_VND_OP_GET_LINESPEED
| BT_VND_OP_ANT_USERIAL_OPEN (fd_array : list Z)
| BT_VND_OP_ANT_USERIAL_CLOSE.

(** ** The address as text *)

Definition colon : Z := 58.

(** The tokens of [strtok(s, ":")], none of them empty; [t] is the one being
    read. *)
Fixpoint strtok (t : text) (s : text) : list text :=
  let word := match t with [] => [] | _ => [t] end in
  match s with
  | [] => word
  | c :: s => if c =? colon then word ++ strtok [] s else strtok (t ++ [c]) s
  end.

Definition validate_tok (tok : text) : bool := (length tok =? 2)%nat && forallb isxdigit tok.

(** The tokens from number [i] on, stored from the end of the address. *)
Fixpoint bd_tokens (toks : list text) (i : nat) (addr : list Z) : option (list Z) :=
  match toks with
  | [] => if (i =? 6)%nat then Some addr else None
  | t :: toks =>
      if (6 <=? i)%nat then None
      else if validate_tok t then bd_tokens toks (S i) (<[(5 - i)%nat := u8 (strtol16 t)]> addr)
      else None
  end.

(** The termios calls of the controller code set the speed of the port. *)
Definition line_event (e : bev) (t : termios) : termios :=
  match e with
  | BSetBaud b => cfsetspeed (snd (userial_to_tcio_baud b)) t
  | BCall f [s] r =>
      if bool_decide (f = "cfsetospeed" \/ f = "cfsetispeed") then (if r <? 0 then t else cfsetspeed s t) else t
  | _ => t
  end.

Definition new_events (old new : bhistory) : bhistory := take (length new - length old) new.

Section VendorOp.
Context `{SE : SysEnv} `{BC : BuildCfg} (turns : nat).

(** ** The controllers *)

(** The environment of the controller code: the address and the regulator are
    globals of the library, and the properties are the shared ones. *)
Definition bt_of (w : vworld) : BtEnv := {|
  env_bwrite := env_bwrite; env_bread := env_bread; env_fopen := env_fopen; env_bmalloc := env_bmalloc;
  env_userial := env_userial; env_stack := env_stack; env_call := env_call;
  env_soclog := fun tr => is_text (prop_value (env_props tr (s_props (v_sys w))) "persist.service.bdroid.soclog" (chars "false")) "true";
  env_property := fun tr name => prop_value (env_props tr (s_props (v_sys w))) name [];
  enable_extldo := v_extldo w; vnd_local_bd_addr := v_bd_addr w |}.

(** The history after a run of the controller code, and the speed it left. *)
Definition put_line (tr : bhistory) (w : vworld) : vworld :=
  let t := foldr line_event (u_termios (u_cb (v_u w))) (new_events (v_tr w) tr) in
  let w := put_v_sys (put_s_tr tr (v_sys w)) w in
  put_v_u (put_u_termios t (v_u w)) w.

Definition on_rome {A} (m : BtEnv -> M rworld A) : M vworld A := fun w =>
  zoom (fun w => put_b_tr (v_tr w) (v_rome w)) (fun r w => put_v_rome r (put_line (b_tr r) w)) (m (bt_of w)) w.

Definition on_ar3k {A} (m : BtEnv -> M aworld A) : M vworld A := fun w =>
  zoom (fun w => put_a_tr (v_tr w) (v_ar3k w)) (fun r w => put_v_ar3k r (put_line (a_tr r) w)) (m (bt_of w)) w.

(** ** Initialisation *)

Definition init (p_cb : bool) (local_bdaddr : option (list Z)) : M vworld Z :=
  if negb p_cb then mret (-1)
  else
    soc ← get_bt_soc_type;
    modify (put_btSocType soc);;
    if soc <? 0 then mret (-1)
    else
      (if (soc =? BT_SOC_ROME) || (soc =? BT_SOC_AR3K) then port userial_vendor_init else mret tt);;
      modify (put_bt_vendor_cbacks true);;
      (match local_bdaddr with
       | Some a => addr ← deref (mapM (fun i => a !! (5 - i)%nat) (seq 0 6)); modify (put_v_bd_addr addr)
       | None => mret tt
       end);;
      (if WIFI_BT_STATUS_SYNC then modify (put_isInit true) else mret tt);;
      mret 0.

Definition cleanup : M vworld unit :=
  modify (put_bt_vendor_cbacks false);;
  if WIFI_BT_STATUS_SYNC then modify (put_isInit false) else mret tt.

(** ** Opening the transport *)

Definition connect_to_local_socket (name : string) : M vworld Z :=
  sk ← sys (new_fd "socket" []);
  if sk <? 0 then mret (-1)
  else
    r ← vcall ("connect " +:+ name) [sk];
    if r <? 0 then sys (sclose sk);; mret (-1) else mret sk.

(** Waits while the other of the two clients downloads. *)
Fixpoint patch_poll (fuel : nat) (is_ant_req : bool) : M vworld unit :=
  match fuel with
  | O => stuck
  | S fuel =>
      inProgress ← get_prop "wc_transport.patch_dnld_inprog" "null";
      if is_text inProgress (if is_ant_req then "bt" else "ant") then sys (usleep 50000);; patch_poll fuel is_ant_req
      else mret tt
  end.

Definition wait_for_patch_download (is_ant_req : bool) : M vworld unit := patch_poll turns is_ant_req.

Definition bt_vendor_nv_read (nv_item : Z) : M vworld bool :=
  if nv_item =? NV_BD_ADDR_I then
    w ← get;
    let r := env_nv (v_tr w) in
    sys (slog (BCall "bt_nv_cmd" [nv_item] (match r with Some _ => 0 | None => -1 end)));;
    match r with
    | None => mret false
    | Some a =>
        addr ← deref (slice 0 6 a);
        modify (put_v_bd_addr addr);; mret true
    end
  else mret false.

(** The address for the controller: of the boot property, or of the file, or
    the one given to [init]. *)
Definition read_bd_addr : M vworld unit :=
  ignore_boot_prop ←
    (if READ_BT_ADDR_FROM_PROP then
       v ← get_prop "ro.boot.btmacaddr" "";
       w ← get;
       match (match v with [] => None | _ => bd_tokens (strtok [] v) 0 (take 6 (env_stack (v_tr w) ++ replicate 6 0)) end) with
       | Some addr => modify (put_v_bd_addr addr);; mret false
       | None => mret true
       end
     else mret true);
  if BT_NV_SUPPORT && ignore_boot_prop then bt_vendor_nv_read 1;; mret tt else mret tt.

(** The download on the serial port, when the controller has had none: the
    result, whether the log has still to be set up, and the port. *)
Definition rome_download (is_ant_req : bool) (emb_wp_mode : text) : M vworld (Z * bool * Z) :=
  set_prop "wc_transport.patch_dnld_inprog" (if is_ant_req then "ant" else "bt");;
  fd ← port (userial_vendor_open userial_init_cfg);
  if fd <? 0 then mret (-1, true, fd)
  else
    port (userial_clock_operation fd USERIAL_OP_CLK_ON);;
    (if is_text emb_wp_mode "true" then
       wipower_status ← get_prop "ro.bluetooth.wipower" "";
       if is_text wipower_status "true" then on_rome (fun BE => @check_embedded_mode BE fd turns);; mret tt else mret tt
     else mret tt);;
    set_prop "wc_transport.soc_initialized" "0";;
    read_bd_addr;;
    r ← on_rome (fun BE => @rome_soc_init BE fd turns);
    if r <? 0 then
      port (userial_clock_operation fd USERIAL_OP_CLK_OFF);; mret (-1, true, fd)
    else
      set_prop "wc_transport.soc_initialized" "1";;
      port (userial_clock_operation fd USERIAL_OP_CLK_OFF);;
      sys (sclose fd);;
      mret (0, false, fd).

(** The channel to the filter, as the line of all the channels. *)
Definition rome_channel (is_ant_req skip_init : bool) (emb_wp_mode : text) (fd_array : list Z) : M vworld (Z * list Z) :=
  (if BT_SOC_TYPE_ROME then start_hci_filter else mret tt);;
  fd ← (if BT_SOC_TYPE_ROME && is_ant_req then
          fd ← connect_to_local_socket "ant_sock"; modify (put_ant_fd fd);; mret fd
        else
          fd ← connect_to_local_socket "bt_sock"; port (modify (put_u_fd fd));; mret fd);
  if fd =? -1 then mret (-1, fd_array)
  else
    (if is_text emb_wp_mode "true" && negb is_ant_req then
       ver ← gets (fun w => rome_ver (v_rome w));
       if ROME_VER_3_0 <=? ver then on_rome (fun BE => @rome_get_addon_feature_list BE fd turns);; mret tt else mret tt
     else mret tt);;
    (if negb skip_init then on_rome (fun BE => @enable_controller_log BE fd turns is_ant_req) else mret tt);;
    mret (1, replicate CH_MAX fd ++ drop CH_MAX fd_array).

Definition rome_open (is_ant_req : bool) (fd_array : list Z) : M vworld (Z * list Z) :=
  wait_for_patch_download is_ant_req;;
  emb_wp_mode ← get_prop "ro.bluetooth.emb_wp_mode" "";
  up ← is_soc_initialized;
  '(retval, skip_init, fd) ← (if (up : bool) then mret (0, true, -1) else rome_download is_ant_req emb_wp_mode);
  set_prop "wc_transport.patch_dnld_inprog" "null";;
  set_prop "wc_transport.clean_up" "0";;
  if negb (retval =? -1) then rome_channel is_ant_req skip_init emb_wp_mode fd_array
  else (if 0 <=? fd then sys (sclose fd);; mret tt else mret tt);; mret (retval, fd_array).

Definition ar3k_open (fd_array : list Z) : M vworld (Z * list Z) :=
  fd ← port (userial_vendor_open userial_init_cfg);
  if fd =? -1 then mret (-1, fd_array)
  else
    r ← on_ar3k (fun BE => @ath3k_init BE fd turns 3000000 115200 None);
    mret (if r <? 0 then -1 else 1, replicate CH_MAX fd ++ drop CH_MAX fd_array).

Definition smd_open (fd_array : list Z) : M vworld (Z * list Z) :=
  r ← bt_hci_init_transport;
  if r =? -1 then mret (-1, fd_array)
  else
    w ← get;
    cmd ← deref (pFd w !! 0%nat);
    acl ← deref (pFd w !! 1%nat);
    mret (2, [cmd; cmd; acl; acl] ++ drop CH_MAX fd_array).

Definition userial_open (is_ant_req : bool) (fd_array : list Z) : M vworld (Z * list Z) :=
  if negb (CH_MAX <=? length fd_array)%nat then stuck
  else
    soc ← gets btSocType;
    if soc =? BT_SOC_DEFAULT then smd_open fd_array
    else if soc =? BT_SOC_AR3K then ar3k_open fd_array
    else if soc =? BT_SOC_ROME then rome_open is_ant_req fd_array
    else mret (0, fd_array).

(** ** The other operations *)

Definition power_ctrl (nState : Z) : M vworld Z :=
  soc ← gets btSocType;
  if soc =? BT_SOC_DEFAULT then
    on ← readTrpState;
    (if (on : bool) then hw_config BT_VND_PWR_OFF;; mret tt else mret tt);;
    r ← hw_config nState;
    if (nState =? BT_VND_PWR_ON) && (r =? 0) then
      ready ← is_hw_ready;
      mret (if (ready : bool) then 0 else -1)
    else mret (-1)
  else if (soc =? BT_SOC_ROME) || (soc =? BT_SOC_AR3K) then bt_powerup turns nState
  else mret 0.

Definition fw_cfg : M vworld Z :=
  w ← get;
  if negb (bt_vendor_cbacks w) then mret (-1)
  else
    ok ← (if btSocType w =? BT_SOC_ROME then is_soc_initialized else mret true);
    if (ok : bool) then callback "fwcfg_cb" [BT_VND_OP_RESULT_SUCCESS];; mret 0 else mret (-1).

Definition userial_close : M vworld unit :=
  soc ← gets btSocType;
  if soc =? BT_SOC_DEFAULT then bt_hci_deinit_transport;; mret tt
  else if (soc =? BT_SOC_ROME) || (soc =? BT_SOC_AR3K) then
    set_prop "wc_transport.clean_up" "1";; port userial_vendor_close
  else mret tt.

Definition ant_userial_close : M vworld unit :=
  set_prop "wc_transport.clean_up" "1";;
  fd ← gets ant_fd;
  if fd =? -1 then mret tt else sys (sclose fd);; modify (put_ant_fd (-1)).

Definition lpm_set_mode (mode : Z) : M vworld unit :=
  soc ← gets btSocType;
  if soc =? BT_SOC_AR3K then
    on_ar3k (fun BE => @lpm_set_ar3k BE UPIO_LPM_MODE (if mode =? 0 then UPIO_DEASSERT else UPIO_ASSERT));;
    callback "lpm_cb" [BT_VND_OP_RESULT_SUCCESS]
  else callback "lpm_cb" [BT_VND_OP_RESULT_FAIL].

Definition lpm_wake (state : Z) : M vworld unit :=
  soc ← gets btSocType;
  let asserted := state =? BT_VND_LPM_WAKE_ASSERT in
  if soc =? BT_SOC_ROME then
    if QCOM_BT_SIBS_ENABLE then
      callback "lpm_set_state_cb" [if asserted then BT_VND_LPM_WAKE_ASSERT else BT_VND_LPM_WAKE_DEASSERT]
    else mret tt
  else if soc =? BT_SOC_AR3K then
    on_ar3k (fun BE => @lpm_set_ar3k BE UPIO_BT_WAKE (if asserted then UPIO_ASSERT else UPIO_DEASSERT))
  else mret tt.

Definition epilog : M vworld unit :=
  if negb HW_NEED_END_WITH_HCI_RESET then callback "epilog_cb" [BT_VND_OP_RESULT_SUCCESS]
  else
    soc ← gets btSocType;
    if soc =? BT_SOC_ROME then
      value ← get_prop "wc_transport.hci_filter_status" "0";
      up ← is_soc_initialized;
      if up && is_text value "1" then hw_epilog_process
      else callback "epilog_cb" [BT_VND_OP_RESULT_SUCCESS]
    else hw_epilog_process.

Definition get_linespeed : M vworld Z :=
  soc ← gets btSocType;
  if soc =? BT_SOC_ROME then
    up ← is_soc_initialized; mret (if (up : bool) then 3000000 else -1)
  else port userial_vendor_get_baud.

(** The result, and what [param] points to after it. *)
Definition op (o : vnd_op) : M vworld (Z * list Z) :=
  let only m := r ← m; mret (r, []) in
  let zero (m : M vworld unit) := m;; mret (0, []) in
  let ant := BT_SOC_TYPE_ROME && ENABLE_ANT in
  match o with
  | BT_VND_OP_POWER_CTRL nState => only (power_ctrl nState)
  | BT_VND_OP_FW_CFG => only fw_cfg
  | BT_VND_OP_SCO_CFG => zero (callback "scocfg_cb" [BT_VND_OP_RESULT_SUCCESS])
  | BT_VND_OP_USERIAL_OPEN fd_array => userial_open false fd_array
  | BT_VND_OP_USERIAL_CLOSE => zero userial_close
  | BT_VND_OP_GET_LPM_IDLE_TIMEOUT t =>
      soc ← gets btSocType; mret (0, [if soc =? BT_SOC_AR3K then 1000 else t])
  | BT_VND_OP_LPM_SET_MODE mode => zero (lpm_set_mode mode)
  | BT_VND_OP_LPM_WAKE_SET_STATE state => zero (lpm_wake state)
  | BT_VND_OP_EPILOG => zero epilog
  | BT_VND_OP_GET_LINESPEED => only get_linespeed
  | BT_VND_OP_ANT_USERIAL_OPEN fd_array => if ant then userial_open true fd_array else mret (0, fd_array)
  | BT_VND_OP_ANT_USERIAL_CLOSE => if ant then zero ant_userial_close else mret (0, [])
  end.

(** ** Recovery *)

Definition is_debug_force_special_bytes : M vworld bool :=
  v ← get_prop "wc_transport.force_special_byte" "";
  mret (match v with [] => false | _ => negb (is_text v "false") end).

Definition ssr_cleanup (reason : Z) : M vworld unit :=
  set_prop "wc_transport.patch_dnld_inprog" "null";;
  soc ← get_bt_soc_type;
  modify (put_btSocType soc);;
  special ←
    (if (soc =? BT_SOC_ROME) && BT_SOC_TYPE_ROME && ENABLE_ANT && (reason =? CMD_TIMEOUT) then
       fd ← gets (fun w => u_fd (u_cb (v_u w)));
       vcall "write" [fd; 0xEE];;
       is_debug_force_special_bytes
     else mret false);
  if (special : bool) then mret tt
  else
    (if soc =? BT_SOC_ROME then
       (if BT_SOC_TYPE_ROME && ENABLE_ANT then op BT_VND_OP_ANT_USERIAL_CLOSE;; mret tt else mret tt);;
       op BT_VND_OP_USERIAL_CLOSE;;
       (if ENABLE_ANT then op (BT_VND_OP_POWER_CTRL BT_VND_PWR_OFF);; mret tt else mret tt)
     else mret tt);;
    if BT_SOC_TYPE_ROME then op (BT_VND_OP_POWER_CTRL BT_VND_PWR_OFF);; mret tt else mret tt.

End VendorOp.
