(* ===== verification/VendorProps.v ===== *)
(** * Theorems about the vendor interface: the port, the power, the clients *)

From Stdlib Require Import ZArith Lia.
From stdpp Require Import list strings gmap.
From S2P Require Import Prelude BtHci CText PsFile Rome BtSys Userial Vendor VendorOp.

#[local] Arguments fd_open : simpl never.
#[local] Arguments remove_fd : simpl never.

(** ** Words *)

Lemma masked_field c b m : 0 <= m -> Z.ldiff b m = 0 -> Z.land (Z.lor (Z.ldiff c m) b) m = b.
Proof.
  intros Hm Hb. apply Z.bits_inj'. intros n Hn. apply (f_equal (fun z => Z.testbit z n)) in Hb.
  rewrite Z.ldiff_spec, Z.bits_0 in Hb by done. rewrite Z.land_spec, Z.lor_spec, Z.ldiff_spec by done.
  by destruct (Z.testbit c n), (Z.testbit b n), (Z.testbit m n).
Qed.

(** The rates of the thirteen numbers that are supported. *)
Definition rates : list (Z * Z) :=
  [(1, 600); (2, 1200); (4, 9600); (5, 19200); (6, 57600); (7, 115200); (8, 230400); (9, 460800); (10, 921600); (11, 1000000);
   (13, 2000000); (14, 3000000); (15, 4000000)].

Lemma rates_supported idx rate : In (idx, rate) rates -> exists b, userial_to_tcio_baud idx = (true, b) /\ Z.ldiff b CBAUD = 0 /\ userial_tcio_baud_to_int b = rate.
Proof. intros H. simpl in H. repeat (destruct H as [[= <- <-]|H]; [eexists; split; [reflexivity|by split]|]). destruct H. Qed.

(** ** The port *)

Section Port.
Context `{SE : SysEnv} `{BC : BuildCfg}.

Lemma speed_field baud t : Z.ldiff baud CBAUD = 0 -> cfgetispeed (cfsetspeed baud (cfsetspeed baud t)) = baud.
Proof. intros H. unfold cfgetispeed, cfsetspeed. rewrite H. simpl. by rewrite masked_field. Qed.

Lemma speed_twice baud t : Z.ldiff baud CBAUD = 0 -> cfsetspeed baud (cfsetspeed baud t) = cfsetspeed baud t.
Proof.
  intros H. unfold cfsetspeed. rewrite H. simpl. unfold put_cflag. simpl. f_equal. apply Z.bits_inj'. intros n Hn.
  rewrite !Z.lor_spec, !Z.ldiff_spec, !Z.lor_spec, !Z.ldiff_spec by done. apply (f_equal (fun z => Z.testbit z n)) in H. rewrite Z.ldiff_spec, Z.bits_0 in H by done.
  by destruct (Z.testbit baud n), (Z.testbit CBAUD n), (Z.testbit (c_cflag t) n).
Qed.

(** The bits of the mode that say how long a character is, whether it has a
    parity bit and that modem lines are used for the flow only. *)
Definition mode_bits : Z := Z.lor (Z.lor CSIZE PARENB) (Z.lor CLOCAL CRTSCTS).

Lemma raw_mode baud c stop : Z.ldiff baud CBAUD = 0 -> Z.land stop mode_bits = 0 ->
  let c1 := Z.lor (Z.lor (Z.lor (Z.ldiff c (Z.lor CSIZE PARENB)) CS8) CLOCAL) (Z.lor CRTSCTS stop) in
  Z.land (Z.lor (Z.ldiff c1 CBAUD) baud) mode_bits = Z.lor CS8 (Z.lor CLOCAL CRTSCTS).
Proof.
  intros Hb Hs c1. assert (Hb' : Z.land baud mode_bits = 0).
  { apply Z.bits_inj'. intros n Hn. apply (f_equal (fun z => Z.testbit z n)) in Hb. rewrite Z.ldiff_spec, Z.bits_0 in Hb by done.
    rewrite Z.land_spec, Z.bits_0 by done. destruct (Z.testbit baud n) eqn:E; [|done]. simpl in *. apply negb_false_iff in Hb.
    assert (D : Z.land CBAUD mode_bits = 0) by done. apply (f_equal (fun z => Z.testbit z n)) in D. by rewrite Z.land_spec, Hb, Z.bits_0 in D. }
  subst c1. apply Z.bits_inj'. intros n Hn. apply (f_equal (fun z => Z.testbit z n)) in Hs, Hb'. rewrite Z.land_spec, Z.bits_0 in Hs, Hb' by done.
  assert (D : Z.land CBAUD mode_bits = 0) by done. apply (f_equal (fun z => Z.testbit z n)) in D. rewrite Z.land_spec, Z.bits_0 in D.
  unfold mode_bits in *. change CS8 with CSIZE.
  rewrite !Z.lor_spec in *. rewrite !Z.land_spec, !Z.lor_spec, !Z.ldiff_spec, !Z.lor_spec, !Z.ldiff_spec, !Z.lor_spec by done.
  assert (D2 : Z.land CSIZE PARENB = 0) by done. apply (f_equal (fun z => Z.testbit z n)) in D2. rewrite Z.land_spec, Z.bits_0 in D2.
  assert (D3 : Z.land (Z.lor CLOCAL CRTSCTS) PARENB = 0) by done. apply (f_equal (fun z => Z.testbit z n)) in D3. rewrite Z.land_spec, Z.lor_spec, Z.bits_0 in D3.
  destruct (Z.testbit CSIZE n), (Z.testbit PARENB n), (Z.testbit CLOCAL n), (Z.testbit CRTSCTS n), (Z.testbit stop n), (Z.testbit baud n), (Z.testbit CBAUD n), (Z.testbit c n);
    simpl in *; congruence.
Qed.

Lemma line_settings_run stop baud w : exists c w', line_settings stop baud w = Some (tt, w') /\ u_fd (u_cb w') = u_fd (u_cb w) /\
  s_fds (u_sys w') = s_fds (u_sys w) /\ s_props (u_sys w') = s_props (u_sys w) /\
  u_termios (u_cb w') = cfsetspeed baud (cfsetspeed baud (put_cflag (Z.lor (Z.lor (Z.lor (Z.ldiff (c_cflag c) (Z.lor CSIZE PARENB)) CS8) CLOCAL) (Z.lor CRTSCTS stop)) (cfmakeraw c))).
Proof.
  destruct w as [[fd t name] [fds ps tr]]. unfold line_settings.
  destruct (env_termios (BCall "tcflush" [fd] (env_call tr "tcflush" [fd]) :: tr) fd) as [t'|] eqn:E;
    eexists _, _; (split; [unfold mbind, M_bind; simpl; unfold mbind, M_bind; simpl; rewrite E; reflexivity|]); done.
Qed.

Lemma stop_bits_mode fmt stop : stop_bits fmt = Some stop -> Z.land stop mode_bits = 0.
Proof. unfold stop_bits. repeat case_match; by intros [= <-]. Qed.

(** The port is opened, however its attributes were. *)
Lemma port_open_run cfg rate w : In (cfg_baud cfg, rate) rates -> data_bits (cfg_fmt cfg) <> None -> parity (cfg_fmt cfg) <> None -> stop_bits (cfg_fmt cfg) <> None ->
  0 <= env_call (s_tr (u_sys w)) ("open " +:+ to_string (port_name (u_cb w))) [] ->
  exists fd w', userial_vendor_open cfg w = Some (fd, w') /\ 0 <= fd /\ u_fd (u_cb w') = fd /\ s_fds (u_sys w') = fd :: s_fds (u_sys w) /\
    s_props (u_sys w') = s_props (u_sys w) /\ userial_tcio_baud_to_int (cfgetispeed (u_termios (u_cb w'))) = rate /\
    Z.land (c_cflag (u_termios (u_cb w'))) mode_bits = Z.lor CS8 (Z.lor CLOCAL CRTSCTS).
Proof.
  intros Hr Hd Hp Hs Ho. destruct (rates_supported _ _ Hr) as (b & Eb & Hb & Hi). unfold userial_vendor_open. erewrite bind_run by reflexivity. rewrite Eb. cbn [negb].
  destruct (data_bits _); [|done]. destruct (parity _); [|done]. destruct (stop_bits _) as [stop|] eqn:Es; [|done].
  erewrite bind_run by reflexivity. set (fd := env_call _ _ _) in Ho.
  assert (Eo : usys (sopen (to_string (port_name (u_cb w)))) (put_u_fd (-1) w) = Some (fd, put_u_sys {| s_fds := fd :: s_fds (u_sys w); s_props := s_props (u_sys w);
    s_tr := BCall ("open " +:+ to_string (port_name (u_cb w))) [] fd :: s_tr (u_sys w) |} (put_u_fd (-1) w))).
  { unfold usys, zoom, sopen, new_fd, mbind, M_bind, get. cbn [u_sys put_u_fd]. cbn [slog modify]. fold fd. rewrite Z.max_r by lia. by rewrite (proj2 (Z.ltb_ge _ _)) by lia. }
  cbn [port_name u_cb put_u_fd]. rewrite (bind_run _ _ _ _ _ Eo). erewrite bind_run by reflexivity. rewrite (proj2 (Z.eqb_neq fd (-1))) by lia.
  set (w1 := put_u_fd fd _). destruct (line_settings_run stop b w1) as (c & w2 & E2 & Hfd & Hfds & Hps & Ht). rewrite (bind_run _ _ _ _ _ E2).
  assert (E3 : exists w3, (if BT_WAKE_VIA_USERIAL_IOCTL then userial_ioctl_init_bt_wake fd else mret tt) w2 = Some (tt, w3) /\ u_cb w3 = u_cb w2 /\
    s_fds (u_sys w3) = s_fds (u_sys w2) /\ s_props (u_sys w3) = s_props (u_sys w2)) by (destruct BT_WAKE_VIA_USERIAL_IOCTL; by eexists).
  destruct E3 as (w3 & E3 & Hcb & Hfds3 & Hps3). rewrite (bind_run _ _ _ _ _ E3). exists fd, w3. split; [done|]. rewrite Hcb, Hfds3, Hps3, Hfds, Hps, Hfd, Ht.
  do 4 (split; [done|]). rewrite speed_field by done. split; [done|]. rewrite speed_twice by done. unfold cfsetspeed. rewrite Hb.
  exact (raw_mode b (c_cflag c) stop Hb (stop_bits_mode _ _ Es)).
Qed.

Lemma set_baud_run idx rate w : In (idx, rate) rates -> u_fd (u_cb w) <> -1 ->
  exists w', userial_vendor_set_baud idx w = Some (tt, w') /\ u_fd (u_cb w') = u_fd (u_cb w) /\ s_fds (u_sys w') = s_fds (u_sys w) /\
    userial_tcio_baud_to_int (cfgetispeed (u_termios (u_cb w'))) = rate.
Proof.
  intros Hr Hfd. destruct (rates_supported _ _ Hr) as (b & Eb & Hb & Hi). unfold userial_vendor_set_baud. rewrite Eb.
  eexists. split; [reflexivity|]. split; [done|]. split; [done|]. simpl. by rewrite speed_field.
Qed.

Lemma get_baud_run w : u_fd (u_cb w) <> -1 -> userial_vendor_get_baud w = Some (userial_tcio_baud_to_int (cfgetispeed (u_termios (u_cb w))), w).
Proof. intros H. unfold userial_vendor_get_baud. erewrite bind_run by reflexivity. by rewrite (proj2 (Z.eqb_neq _ _) H). Qed.

Lemma remove_head fd l : remove_fd fd (fd :: l) = l.
Proof. unfold remove_fd. by rewrite Z.eqb_refl. Qed.

Lemma open_head fd l : fd_open fd (fd :: l) = true.
Proof. unfold fd_open. simpl. by rewrite Z.eqb_refl. Qed.

Lemma usys_run {A} w (m : M sysw A) x s : m (u_sys w) = Some (x, s) -> usys m w = Some (x, put_u_sys s w).
Proof. apply zoom_run. Qed.

Lemma sclose_run fd s : fd_open fd (s_fds s) = true ->
  sclose fd s = Some (0, {| s_fds := remove_fd fd (s_fds s); s_props := s_props s; s_tr := BCall "close" [fd] 0 :: s_tr s |}).
Proof. intros H. unfold sclose. erewrite bind_run by reflexivity. by rewrite H. Qed.

(** Closing the port closes the descriptor it names. *)
Lemma port_close_open w : u_fd (u_cb w) <> -1 -> fd_open (u_fd (u_cb w)) (s_fds (u_sys w)) = true ->
  exists w', userial_vendor_close w = Some (tt, w') /\ u_fd (u_cb w') = -1 /\ s_fds (u_sys w') = remove_fd (u_fd (u_cb w)) (s_fds (u_sys w)) /\ s_props (u_sys w') = s_props (u_sys w).
Proof.
  destruct w as [[fd t n] [fds ps tr]]. simpl. intros Hfd Ho. unfold userial_vendor_close. erewrite bind_run by reflexivity.
  cbn [u_fd u_cb]. rewrite (proj2 (Z.eqb_neq fd (-1)) Hfd).
  assert (E : exists tr', (if BT_WAKE_VIA_USERIAL_IOCTL then ucall "ioctl" [fd; USERIAL_IOCTL_BT_WAKE_DEASSERT] else mret tt)
    {| u_cb := {| u_fd := fd; u_termios := t; port_name := n |}; u_sys := {| s_fds := fds; s_props := ps; s_tr := tr |} |} =
    Some (tt, {| u_cb := {| u_fd := fd; u_termios := t; port_name := n |}; u_sys := {| s_fds := fds; s_props := ps; s_tr := tr' |} |}))
    by (destruct BT_WAKE_VIA_USERIAL_IOCTL; by eexists).
  destruct E as (tr' & E). rewrite (bind_run _ _ _ _ _ E). set (w1 := {| u_cb := _; u_sys := _ |}).
  rewrite (bind_run _ _ _ _ _ (usys_run w1 (sclose fd) _ _ (sclose_run fd (u_sys w1) Ho))). by eexists.
Qed.

Lemma port_close_run w l : u_fd (u_cb w) <> -1 -> s_fds (u_sys w) = u_fd (u_cb w) :: l ->
  exists w', userial_vendor_close w = Some (tt, w') /\ u_fd (u_cb w') = -1 /\ s_fds (u_sys w') = l /\ s_props (u_sys w') = s_props (u_sys w).
Proof.
  intros Hfd Hl. destruct (port_close_open w Hfd) as (w' & E & H1 & H2 & H3); [by rewrite Hl, open_head|]. rewrite Hl, remove_head in H2. by exists w'.
Qed.

(** Opening the port in a supported format, changing its rate, asking for the
    rate and closing the port. *)
Definition rate_session (cfg : tUSERIAL_CFG) (idx : Z) : M uworld (Z * Z) :=
  userial_vendor_open cfg;;
  before ← userial_vendor_get_baud;
  userial_vendor_set_baud idx;;
  after ← userial_vendor_get_baud;
  userial_vendor_close;;
  mret (before, after).

(** Rates are kept: the port opened in a supported format reports the rate
    of its configuration and, after a change, the new rate, whatever the
    attributes of the device were; closing it leaves the descriptors as they
    were. *)
Theorem rate_roundtrip cfg idx rate0 rate w (H0 : In (cfg_baud cfg, rate0) rates) (H1 : In (idx, rate) rates) (Hd : data_bits (cfg_fmt cfg) <> None)
  (Hp : parity (cfg_fmt cfg) <> None) (Hs : stop_bits (cfg_fmt cfg) <> None)
  (Ho : 0 <= env_call (s_tr (u_sys w)) ("open " +:+ to_string (port_name (u_cb w))) []) :
  exists w', rate_session cfg idx w = Some ((rate0, rate), w') /\ u_fd (u_cb w') = -1 /\ s_fds (u_sys w') = s_fds (u_sys w).
Proof.
  destruct (port_open_run cfg rate0 w H0 Hd Hp Hs Ho) as (fd & w1 & E1 & Hfd & F1 & Hl1 & _ & R1 & _). unfold rate_session. rewrite (bind_run _ _ _ _ _ E1).
  rewrite (bind_run _ _ _ _ _ (get_baud_run w1 ltac:(lia))). destruct (set_baud_run idx rate w1 H1 ltac:(lia)) as (w2 & E2 & F2 & Hl2 & R2).
  rewrite (bind_run _ _ _ _ _ E2), (bind_run _ _ _ _ _ (get_baud_run w2 ltac:(lia))), R1, R2. rewrite F1 in F2. rewrite Hl1 in Hl2.
  destruct (port_close_run w2 (s_fds (u_sys w)) ltac:(lia) ltac:(by rewrite Hl2, F2)) as (w3 & E3 & F3 & Hl3 & _). rewrite (bind_run _ _ _ _ _ E3). by exists w3.
Qed.

End Port.

(** ** The clients of the radio switch *)

(** The machine that is implemented: how many clients there are, and whether
    the radio is switched.  A client that asks again while the first has not
    begun its download is taken for the first. *)
Inductive request : bool -> Z -> Z -> bool -> Prop :=
| on_first : request true 0 1 true
| on_unused : request true 1 1 true
| on_second : request true 1 2 false
| on_third : request true 2 2 false
| off_last : request false 1 0 true
| off_first : request false 2 1 false
| off_none : request false 0 0 false.

Inductive requests : list bool -> Z -> Z -> Prop :=
| no_request n : requests [] n n
| more_requests on ons n n' n'' sw : request on n n' sw -> requests ons n' n'' -> requests (on :: ons) n n''.

Lemma request_range on n n' sw : request on n n' sw -> 0 <= n' <= 2.
Proof. intros H. destruct H; lia. Qed.

(** A switched radio is on when there are clients, and an unswitched one is
    as it was. *)
Lemma request_radio on n n' sw : request on n n' sw -> (if sw then on else negb (n =? 0)) = negb (n' =? 0).
Proof. by intros []. Qed.

Lemma next_count_request on n busy : 0 <= n <= 2 ->
  match next_count on n busy with Some (n', sw) => request on n n' sw | None => request on n n false end.
Proof.
  intros H. assert (n = 0 \/ n = 1 \/ n = 2) as [-> | [-> | ->]] by lia; destruct on, busy; constructor.
Qed.

(** The state the radio was last switched to. *)
Fixpoint radio (path : string) (tr : bhistory) : bool :=
  match tr with
  | [] => false
  | BCall f [_; c] r :: tr => if bool_decide (f = "write " +:+ path) && negb (r <? 0) then c =? 49 else radio path tr
  | _ :: tr => radio path tr
  end.

Lemma radio_other path f args r tr : f <> "write " +:+ path -> radio path (BCall f args r :: tr) = radio path tr.
Proof. intros H. simpl. destruct args as [|? [|? []]]; try done. by rewrite bool_decide_false. Qed.

Lemma read_back k : 0 <= k <= 2 -> atoi (prop_value (<["wc_transport.ref_count" := take 2 (print_int k)]> ∅) "wc_transport.ref_count" (chars "0")) = k.
Proof. intros H. assert (k = 0 \/ k = 1 \/ k = 2) as [-> | [-> | ->]] by lia; reflexivity. Qed.

Section Power.
Context `{SE : SysEnv} `{BC : BuildCfg} (turns : nat) (path : string).

Definition clients (s : sysw) : Z := atoi (prop_value (s_props s) "wc_transport.ref_count" (chars "0")).

(** Other processes leave the count alone, properties can be set, and the
    switch is there. *)
Context (Hset : forall tr name v, 0 <= env_call tr ("property_set " +:+ name) v).
Context (Hothers : forall tr ps, env_props tr ps !! "wc_transport.ref_count" = ps !! "wc_transport.ref_count").

(** What is left alone by all but the switch and the count. *)
Record calm (s s' : sysw) : Prop := {
  calm_fds : s_fds s' = s_fds s;
  calm_clients : clients s' = clients s;
  calm_radio : radio path (s_tr s') = radio path (s_tr s)
}.

#[local] Instance calm_preorder : PreOrder calm.
Proof. split; [by constructor|]. intros s1 s2 s3 [] []. constructor; congruence. Qed.

Lemma sys_run {A} (m : M sysw A) w s x s' : m s = Some (x, s') -> sys m (put_v_sys s w) = Some (x, put_v_sys s' w).
Proof. intros H. unfold sys, zoom. change (v_sys (put_v_sys s w)) with s. by rewrite H. Qed.

Lemma sys_id w : put_v_sys (v_sys w) w = w.
Proof. by destruct w as [[]]. Qed.

Lemma syscall_run f args s :
  syscall f args s = Some (env_call (s_tr s) f args, put_s_tr (BCall f args (env_call (s_tr s) f args) :: s_tr s) s).
Proof. reflexivity. Qed.

(** Code that ends calmly with a result in [Q]. *)
Definition calmly {A} (m : M vworld A) (w : vworld) (Q : A -> Prop) : Prop :=
  forall s, exists x s', m (put_v_sys s w) = Some (x, put_v_sys s' w) /\ calm s s' /\ Q x.

Lemma calmly_ret {A} (x : A) w (Q : A -> Prop) : Q x -> calmly (mret x) w Q.
Proof. intros H s. by exists x, s. Qed.

Lemma calmly_bind {A B} (m : M vworld A) (f : A -> M vworld B) w Q R : calmly m w Q -> (forall x, Q x -> calmly (f x) w R) -> calmly (m ≫= f) w R.
Proof.
  intros Hm Hf s. destruct (Hm s) as (x & s1 & E1 & C1 & Hx). destruct (Hf x Hx s1) as (y & s2 & E2 & C2 & Hy).
  exists y, s2. rewrite (bind_run _ _ _ _ _ E1). split; [done|]. split; [by transitivity s1|done].
Qed.

Lemma calmly_gets {A} (f : vworld -> A) w (Q : A -> Prop) : (forall s, f (put_v_sys s w) = f w) -> Q (f w) -> calmly (gets f) w Q.
Proof. intros Hf HQ s. exists (f w), s. unfold gets. by rewrite Hf. Qed.

(** After a look at a property. *)
Definition looked (name : string) (d : text) (s : sysw) : sysw :=
  let ps := env_props (s_tr s) (s_props s) in
  let v := prop_value ps name d in
  {| s_fds := s_fds s; s_props := ps; s_tr := BCall ("property_get " +:+ name) v (Z.of_nat (length v)) :: s_tr s |}.

Lemma calmly_get_prop name d w : calmly (get_prop name d) w (fun _ => True).
Proof.
  intros s. exists (prop_value (env_props (s_tr s) (s_props s)) name (chars d)), (looked name (chars d) s). split; [apply sys_run; reflexivity|]. split; [|done].
  constructor; [done| |by apply radio_other]. unfold clients, prop_value. simpl. by rewrite Hothers.
Qed.

Lemma calmly_set_prop name v w : name <> "wc_transport.ref_count" -> calmly (set_prop name v) w (fun r => 0 <= r).
Proof.
  intros Hn s. unfold set_prop. set (s1 := put_s_props (<[name := chars v]> (s_props s))
    (put_s_tr (BCall ("property_set " +:+ name) (chars v) (env_call (s_tr s) ("property_set " +:+ name) (chars v)) :: s_tr s) s)).
  exists (env_call (s_tr s) ("property_set " +:+ name) (chars v)), s1. split.
  - apply sys_run. unfold property_set. rewrite (bind_run _ _ _ _ _ (syscall_run _ _ s)). by rewrite (proj2 (Z.ltb_ge _ _)).
  - split; [|done]. constructor; [done| |by apply radio_other]. unfold clients, prop_value. simpl. by rewrite lookup_insert_ne.
Qed.

Lemma calmly_sleep us w : calmly (sys (usleep us)) w (fun _ => True).
Proof. intros s. exists tt, (put_s_tr (BSleep us :: s_tr s) s). split; [by apply sys_run|]. by split. Qed.

Lemma calmly_call f args w : f <> "write " +:+ path -> calmly (vcall f args) w (fun _ => True).
Proof.
  intros Hf s. exists (env_call (s_tr s) f args), (put_s_tr (BCall f args (env_call (s_tr s) f args) :: s_tr s) s). split; [by apply sys_run|]. split; [|done].
  constructor; [done|done|by apply radio_other].
Qed.

Lemma calmly_weaken {A} (m : M vworld A) w (Q R : A -> Prop) : (forall x, Q x -> R x) -> calmly m w Q -> calmly m w R.
Proof. intros H Hm s. destruct (Hm s) as (x & s' & ? & ? & ?). exists x, s'. auto. Qed.

Ltac calm_step := match goal with
  | |- calmly (@mbind _ _ unit _ _ _) _ _ => apply (calmly_bind _ _ _ (fun _ => True)); [|intros ? ?]
  | |- calmly (_ ≫= _) _ _ => eapply calmly_bind; [|intros ? ?]
  | |- calmly (mret _) _ _ => apply calmly_ret
  | |- calmly (get_prop _ _) _ _ => apply calmly_get_prop
  | |- calmly (set_prop _ _) _ _ => apply calmly_set_prop
  | |- calmly (sys (usleep _)) _ _ => apply calmly_sleep
  | |- calmly (vcall _ _) _ _ => apply calmly_call
  | |- calmly (if ?b then _ else _) _ _ => destruct b
  end.

Lemma filter_start_other : BT_VND_FILTER_START <> "wc_transport.ref_count".
Proof. unfold BT_VND_FILTER_START. by destruct PANIC_ON_SOC_CRASH. Qed.

Lemma calmly_soc w : calmly is_soc_initialized w (fun _ => True).
Proof. unfold is_soc_initialized. by repeat calm_step. Qed.

Lemma calmly_stop w : calmly stop_hci_filter w (fun _ => True).
Proof. unfold stop_hci_filter. repeat calm_step; try done. apply filter_start_other. Qed.

Lemma calmly_service n w : calmly (service_poll n) w (fun _ => True).
Proof. induction n as [|n IH]; [by apply calmly_ret|]. simpl. repeat calm_step; done. Qed.

Lemma calmly_sync on w : calmly (sync_wifi on) w (fun b => b = true).
Proof.
  unfold sync_wifi. calm_step; [calm_step|]. simpl in *. calm_step; [by apply (calmly_gets _ _ (fun _ => True))|].
  eapply (calmly_bind _ _ _ (fun b => b = true)).
  - repeat calm_step; try done; simpl in *; by rewrite (proj2 (Z.ltb_ge _ _)).
  - intros ? ->. cbn [negb]. repeat calm_step; done.
Qed.

(** ** The switch *)

Context (Hrome : BT_SOC_TYPE_ROME = true) (Hldo : USE_EXTERNAL_RFKILL_LDO = false).
Context (Hopen : forall tr, 0 <= env_call tr ("open " +:+ path) []) (Hwrite : forall tr args, 0 <= env_call tr ("write " +:+ path) args).
Context (Henabled : forall tr ps, prop_value (env_props tr ps) "ro.rfkilldisabled" (chars "0") <> chars "1").

(** The count after a request, and whether the radio is to be switched. *)
Lemma can_perform_run on w s : 0 <= clients s <= 2 ->
  exists sw s', can_perform_action on (put_v_sys s w) = Some (sw, put_v_sys s' w) /\ s_fds s' = s_fds s /\ radio path (s_tr s') = radio path (s_tr s) /\
    request on (clients s) (clients s') sw.
Proof.
  intros Hn. unfold can_perform_action. destruct (calmly_get_prop "wc_transport.ref_count" "0" w s) as (v0 & s0 & E0 & C0 & _).
  assert (Hv : atoi v0 = clients s).
  { unfold get_prop in E0. rewrite (sys_run _ w s (prop_value (env_props (s_tr s) (s_props s)) "wc_transport.ref_count" (chars "0")) (looked "wc_transport.ref_count" (chars "0") s) eq_refl) in E0.
    injection E0 as <- _. unfold clients, prop_value. by rewrite Hothers. }
  rewrite (bind_run _ _ _ _ _ E0), Hv.
  assert (Hb : calmly (if on && (clients s =? 1) then
      inProgress ← get_prop "wc_transport.patch_dnld_inprog" "null"; init ← is_soc_initialized; mret (init || negb (is_text inProgress "null"))
    else mret false) w (fun _ => True)) by (repeat calm_step; try done; apply calmly_soc).
  destruct (Hb s0) as (busy & s1 & E1 & C1 & _). rewrite (bind_run _ _ _ _ _ E1).
  pose proof (next_count_request on (clients s) busy Hn) as Hr.
  assert (C : calm s s1) by (by transitivity s0). destruct C as [Cf Cc Cr].
  destruct (next_count on (clients s) busy) as [[n' sw]|]; [|exists false, s1; rewrite Cc; done].
  set (s2 := put_s_props (<["wc_transport.ref_count" := take 2 (print_int n')]> (s_props s1))
    (put_s_tr (BCall ("property_set " +:+ "wc_transport.ref_count") (take 2 (print_int n')) (env_call (s_tr s1) ("property_set " +:+ "wc_transport.ref_count") (take 2 (print_int n'))) :: s_tr s1) s1)).
  assert (E2 : sys (property_set "wc_transport.ref_count" (take 2 (print_int n'))) (put_v_sys s1 w) =
    Some (env_call (s_tr s1) ("property_set " +:+ "wc_transport.ref_count") (take 2 (print_int n')), put_v_sys s2 w)).
  { apply sys_run. unfold property_set. rewrite (bind_run _ _ _ _ _ (syscall_run _ _ s1)). by rewrite (proj2 (Z.ltb_ge _ _)). }
  rewrite (bind_run _ _ _ _ _ E2), (proj2 (Z.ltb_ge _ _)) by done. exists sw, s2. split; [done|]. split; [done|].
  split; [by rewrite <- Cr; apply radio_other|]. replace (clients s2) with n'; [done|].
  rewrite <- (read_back n') by (by eapply request_range). unfold clients, prop_value. simpl s_props. by rewrite !lookup_insert_eq.
Qed.

(** The same count and radio. *)
Record still (s s' : sysw) : Prop := {
  still_clients : clients s' = clients s;
  still_radio : radio path (s_tr s') = radio path (s_tr s)
}.

#[local] Instance still_preorder : PreOrder still.
Proof. split; [by constructor|]. intros s1 s2 s3 [] []. constructor; congruence. Qed.

Lemma calm_still s s' : calm s s' -> still s s'.
Proof. by intros []. Qed.

Lemma open_run name w s : 0 <= env_call (s_tr s) ("open " +:+ name) [] ->
  exists fd s', sys (sopen name) (put_v_sys s w) = Some (fd, put_v_sys s' w) /\ 0 <= fd /\ s_fds s' = fd :: s_fds s /\ still s s'.
Proof.
  intros Ho. set (fd := env_call (s_tr s) ("open " +:+ name) []) in *.
  exists fd, {| s_fds := fd :: s_fds s; s_props := s_props s; s_tr := BCall ("open " +:+ name) [] fd :: s_tr s |}. split.
  - apply sys_run. unfold sopen, new_fd. erewrite bind_run by reflexivity. fold fd. rewrite Z.max_r by lia. by rewrite (proj2 (Z.ltb_ge _ _)) by lia.
  - split; [done|]. split; [done|]. constructor; [done|]. by apply radio_other.
Qed.

Lemma close_run fd w s fds : fd_open fd (s_fds s) = true -> remove_fd fd (s_fds s) = fds ->
  exists s', sys (sclose fd) (put_v_sys s w) = Some (0, put_v_sys s' w) /\ s_fds s' = fds /\ still s s'.
Proof.
  intros Ho <-. eexists. split; [apply sys_run, sclose_run, Ho|]. split; [done|]. constructor; [done|]. by apply radio_other.
Qed.

(** The lock among the descriptors. *)
Definition lock_fds (l : Z) (fds : list Z) : list Z := if WIFI_BT_STATUS_SYNC && (0 <=? l) then l :: fds else fds.

Lemma wlan_lock_run w s : exists l s', (if WIFI_BT_STATUS_SYNC then l ← bt_semaphore_create; bt_semaphore_get l;; bt_wait_for_service_done;; mret l else mret (-1))
  (put_v_sys s w) = Some (l, put_v_sys s' w) /\ s_fds s' = lock_fds l (s_fds s) /\ still s s'.
Proof.
  unfold lock_fds. destruct WIFI_BT_STATUS_SYNC; [|by exists (-1), s]. unfold bt_semaphore_create.
  assert (E : exists l s1, sys (sopen "/data/connectivity/wifi_bt_lock") (put_v_sys s w) = Some (l, put_v_sys s1 w) /\
    s_fds s1 = (if 0 <=? l then l :: s_fds s else s_fds s) /\ still s s1).
  { destruct (decide (0 <= env_call (s_tr s) ("open " +:+ "/data/connectivity/wifi_bt_lock") [])) as [Ho|Ho].
    - destruct (open_run _ w s Ho) as (l & s1 & E & Hl & Hf & Hs). exists l, s1. by rewrite (proj2 (Z.leb_le 0 l)).
    - exists (-1), (put_s_tr (BCall ("open " +:+ "/data/connectivity/wifi_bt_lock") [] (-1) :: s_tr s) s). split; [|by split; [|by constructor; [|apply radio_other]]].
      apply sys_run. unfold sopen, new_fd. erewrite bind_run by reflexivity. by rewrite Z.max_l by lia. }
  destruct E as (l & s1 & E1 & Hf & Hs). rewrite (bind_run _ _ _ _ _ E1).
  assert (C : calmly (bt_semaphore_get l;; bt_wait_for_service_done;; mret l) w (fun x => x = l)).
  { unfold bt_semaphore_get, bt_wait_for_service_done. apply (calmly_bind _ _ _ (fun _ => True)); [repeat calm_step; done|]. intros _ _.
    apply (calmly_bind _ _ _ (fun _ => True)); [|intros; by apply calmly_ret]. apply (calmly_bind _ _ _ (fun _ => True)); [apply calmly_service|intros; by apply calmly_ret]. }
  destruct (C s1) as (? & s2 & E2 & C2 & ->). exists l, s2. split; [done|]. rewrite (calm_fds _ _ C2). split; [done|]. transitivity s1; [done|by apply calm_still].
Qed.

Lemma remove_second fd l fds : fd_open l (fd :: l :: fds) = true /\ remove_fd l (fd :: l :: fds) = fd :: fds.
Proof.
  split; [unfold fd_open; simpl; rewrite Z.eqb_refl; apply orb_true_r|]. unfold remove_fd. rewrite Z.eqb_refl. destruct (Z.eqb_spec fd l); congruence.
Qed.

Lemma wlan_unlock_run l fd fds w s : s_fds s = fd :: lock_fds l fds ->
  exists s', unlock l (put_v_sys s w) = Some (tt, put_v_sys s' w) /\ s_fds s' = fd :: fds /\ still s s'.
Proof.
  unfold lock_fds, unlock. destruct WIFI_BT_STATUS_SYNC; [|intros H; by exists s]. unfold bt_semaphore_release, bt_semaphore_destroy. simpl. rewrite Z.ltb_antisym.
  destruct (0 <=? l); simpl; intros H; [|by exists s].
  assert (C : calmly (r ← vcall "flock" [l; LOCK_UN]; mret (if r =? 0 then r else -1)) w (fun _ => True)) by (repeat calm_step; done).
  destruct (C s) as (? & s1 & E1 & C1 & _). rewrite (bind_run _ _ _ _ _ E1). destruct (remove_second fd l fds) as [H1 H2]. rewrite <- H, <- (calm_fds _ _ C1) in H1, H2.
  destruct (close_run l w s1 (fd :: fds) H1 H2) as (s2 & E2 & Hf & Hs). rewrite (bind_run _ _ _ _ _ E2). exists s2. split; [done|]. split; [done|].
  transitivity s1; [by apply calm_still|done].
Qed.

Lemma done_run fd fds w s : 0 <= fd -> s_fds s = fd :: fds ->
  exists s', powerup_done (Some fd) (put_v_sys s w) = Some (0, put_v_sys s' w) /\ s_fds s' = fds /\ still s s'.
Proof.
  intros Hfd Hf. unfold powerup_done. erewrite bind_run by reflexivity. rewrite (proj2 (Z.leb_le 0 fd) Hfd).
  destruct (close_run fd w s fds) as (s1 & E & ? & ?); [by rewrite Hf, open_head|by rewrite Hf, remove_head|]. unfold mbind, M_bind at 1 2. rewrite E. by exists s1.
Qed.

Lemma switch_run on fd l fds w s : rfkill_state w = Some path -> 0 <= fd -> s_fds s = fd :: lock_fds l fds ->
  exists s', switch_radio on (Some fd) l (put_v_sys s w) = Some (0, put_v_sys s' w) /\ s_fds s' = fds /\ clients s' = clients s /\ radio path (s_tr s') = on.
Proof.
  intros Hst Hfd Hf. unfold switch_radio. erewrite bind_run by reflexivity. erewrite bind_run by reflexivity. change (rfkill_state (put_v_sys s w)) with (rfkill_state w).
  rewrite Hst. simpl default. set (c := if on then 49 else 48).
  set (s1 := put_s_tr (BCall ("write " +:+ path) [fd; c] (env_call (s_tr s) ("write " +:+ path) [fd; c]) :: s_tr s) s).
  assert (E1 : vcall ("write " +:+ path) [fd; c] (put_v_sys s w) = Some (env_call (s_tr s) ("write " +:+ path) [fd; c], put_v_sys s1 w)) by (by apply sys_run).
  rewrite (bind_run _ _ _ _ _ E1), (proj2 (Z.ltb_ge _ _)) by done.
  assert (Hr1 : radio path (s_tr s1) = on).
  { simpl. rewrite bool_decide_true by done. rewrite (proj2 (Z.ltb_ge _ _)) by done. by destruct on. }
  assert (C2 : calmly (if BT_SOC_TYPE_ROME && negb on then stop_hci_filter;; set_prop "wc_transport.soc_initialized" "0";; mret tt else mret tt) w (fun _ => True))
    by (repeat calm_step; try done; apply calmly_stop).
  destruct (C2 s1) as ([] & s2 & E2 & K2 & _). rewrite (bind_run _ _ _ _ _ E2).
  assert (C3 : calmly (if WIFI_BT_STATUS_SYNC then sync_wifi on else mret true) w (fun b => b = true)) by (calm_step; [apply calmly_sync|by calm_step]).
  destruct (C3 s2) as (? & s3 & E3 & K3 & ->). rewrite (bind_run _ _ _ _ _ E3). cbn [negb].
  assert (K : calm s1 s3) by (by transitivity s2).
  destruct (wlan_unlock_run l fd fds w s3) as (s4 & E4 & Hf4 & K4); [by rewrite (calm_fds _ _ K)|]. rewrite (bind_run _ _ _ _ _ E4).
  destruct (done_run fd fds w s4 Hfd Hf4) as (s5 & E5 & Hf5 & K5). exists s5. split; [done|]. split; [done|].
  assert (still s1 s5) as [-> ->] by (transitivity s3; [by apply calm_still|by transitivity s4]). done.
Qed.

Lemma find_known w s : rfkill_state w = Some path -> find_rfkill turns 0 None (put_v_sys s w) = Some (Some None, put_v_sys s w).
Proof.
  intros Hst. destruct turns; simpl; erewrite bind_run by reflexivity; change (rfkill_state (put_v_sys s w)) with (rfkill_state w); rewrite Hst, andb_false_r; done.
Qed.

Lemma powerup_run en w s : rfkill_state w = Some path -> 0 <= clients s <= 2 ->
  exists sw s', bt_powerup turns en (put_v_sys s w) = Some (0, put_v_sys s' w) /\ s_fds s' = s_fds s /\ request (negb (en =? 0)) (clients s) (clients s') sw /\
    radio path (s_tr s') = if sw then negb (en =? 0) else radio path (s_tr s).
Proof.
  intros Hst Hn. unfold bt_powerup. set (on := negb (en =? 0)).
  assert (E0 : exists v s0, get_prop "ro.rfkilldisabled" "0" (put_v_sys s w) = Some (v, put_v_sys s0 w) /\ v <> chars "1" /\ calm s s0).
  { destruct (calmly_get_prop "ro.rfkilldisabled" "0" w s) as (v & s0 & E & C & _). exists v, s0. split; [done|]. split; [|done]. unfold get_prop in E.
    rewrite (sys_run _ w s (prop_value (env_props (s_tr s) (s_props s)) "ro.rfkilldisabled" (chars "0")) (looked "ro.rfkilldisabled" (chars "0") s) eq_refl) in E.
    injection E as <- _. apply Henabled. }
  destruct E0 as (v & s0 & E0 & Hv & C0). rewrite (bind_run _ _ _ _ _ E0). unfold is_text at 1. rewrite bool_decide_false by done.
  destruct (wlan_lock_run w s0) as (l & s1 & E1 & Hf1 & K1). rewrite (bind_run _ _ _ _ _ E1), (bind_run _ _ _ _ _ (find_known w s1 Hst)).
  erewrite bind_run by reflexivity. change (rfkill_state (put_v_sys s1 w)) with (rfkill_state w). rewrite Hst.
  destruct (open_run path w s1) as (fd & s2 & E2 & Hfd & Hf2 & K2); [done|]. rewrite Hf1, (calm_fds _ _ C0) in Hf2.
  assert (E2' : (fd ← sys (sopen path); mret (Some fd)) (put_v_sys s1 w) = Some (Some fd, put_v_sys s2 w)) by (by rewrite (bind_run _ _ _ _ _ E2)).
  rewrite (bind_run _ _ _ _ _ E2'), (proj2 (Z.ltb_ge fd 0)) by done. rewrite Hrome.
  assert (K : still s s2) by (transitivity s0; [by apply calm_still|by transitivity s1]). destruct K as [Kc Kr].
  destruct (can_perform_run on w s2) as (sw & s3 & E3 & Hf3 & Hr3 & Hq); [by rewrite Kc|]. rewrite (bind_run _ _ _ _ _ E3). rewrite Hf2 in Hf3. rewrite Kc in Hq. exists sw.
  destruct sw; cbn [negb].
  - rewrite Hldo. erewrite bind_run by reflexivity. cbn [negb]. destruct (switch_run on fd l (s_fds s) w s3 Hst Hfd Hf3) as (s4 & E4 & Hf4 & Hc4 & Hr4).
    exists s4. rewrite Hc4. done.
  - destruct (wlan_unlock_run l fd (s_fds s) w s3 Hf3) as (s4 & E4 & Hf4 & K4). rewrite (bind_run _ _ _ _ _ E4).
    destruct (done_run fd (s_fds s) w s4 Hfd Hf4) as (s5 & E5 & Hf5 & K5). exists s5. split; [done|]. split; [done|].
    assert (still s3 s5) as [-> ->] by (by transitivity s4). rewrite Hr3, Kr. done.
Qed.

(** The requests of the clients, one after the other, and their results. *)
Fixpoint power_all (ons : list bool) : M vworld (list Z) :=
  match ons with
  | [] => mret []
  | on :: ons =>
      r ← op turns (BT_VND_OP_POWER_CTRL (if on then BT_VND_PWR_ON else BT_VND_PWR_OFF));
      rs ← power_all ons; mret (r.1 :: rs)
  end.

(** C19: the controller is shared.  On a Rome build without an external
    regulator, with the switch not disabled, its file known, and with
    [property_set] and the open and the write of that file succeeding: any
    sequence of requests to switch it on and off runs to its end with results
    0, the count in the property follows the machine [request] (which takes a
    client that asks before the first has begun its download for the first),
    the radio is on exactly while the count is not 0, and no descriptor is left
    open. *)
Theorem power_ref_count ons w (Hsoc : btSocType w = BT_SOC_ROME) (Hst : rfkill_state w = Some path) (Hc : clients (v_sys w) = 0) (Hr : radio path (v_tr w) = false) :
  exists w' n, power_all ons w = Some (replicate (length ons) 0, w') /\ requests ons 0 n /\ clients (v_sys w') = n /\
    radio path (v_tr w') = negb (n =? 0) /\ s_fds (v_sys w') = s_fds (v_sys w).
Proof.
  assert (H : forall s n, clients s = n -> 0 <= n <= 2 -> radio path (s_tr s) = negb (n =? 0) -> exists s' n', power_all ons (put_v_sys s w) = Some (replicate (length ons) 0, put_v_sys s' w) /\
    requests ons n n' /\ clients s' = n' /\ radio path (s_tr s') = negb (n' =? 0) /\ s_fds s' = s_fds s).
  { clear Hc Hr. induction ons as [|on ons IH]; intros s n Hc Hn Hr; [exists s, n; repeat split; [constructor|done..]|]. cbn [power_all].
    destruct (powerup_run (if on then BT_VND_PWR_ON else BT_VND_PWR_OFF) w s Hst ltac:(lia)) as (sw & s1 & E1 & Hf1 & Hq & Hr1).
    replace (negb ((if on then BT_VND_PWR_ON else BT_VND_PWR_OFF) =? 0)) with on in * by (by destruct on).
    assert (Eo : op turns (BT_VND_OP_POWER_CTRL (if on then BT_VND_PWR_ON else BT_VND_PWR_OFF)) (put_v_sys s w) = Some ((0, []), put_v_sys s1 w)).
    { cbn [op]. unfold power_ctrl. unfold mbind at 1, M_bind at 1. erewrite bind_run by reflexivity. change (btSocType (put_v_sys s w)) with (btSocType w). rewrite Hsoc. simpl. by rewrite E1. }
    rewrite (bind_run _ _ _ _ _ Eo). rewrite Hc in Hq. destruct (IH s1 (clients s1)) as (s2 & n2 & E2 & Hq2 & Hc2 & Hr2 & Hf2); [done|by eapply request_range| |].
    { rewrite Hr1, Hr. by eapply request_radio. }
    rewrite (bind_run _ _ _ _ _ E2). exists s2, n2. split; [done|]. split; [by econstructor|]. split; [done|]. split; [done|]. by rewrite Hf2. }
  destruct (H (v_sys w) 0 Hc ltac:(lia) Hr) as (s' & n & E & ? & ? & ? & ?). rewrite sys_id in E. by exists (put_v_sys s' w), n.
Qed.

End Power.

(** ** The controller behind the shared memory channels *)

(** The waits for the daemon, and the changes of properties. *)
Fixpoint naps (tr : bhistory) : nat :=
  match tr with [] => 0 | BSleep us :: tr => (if us =? 50000 then 1 else 0) + naps tr | _ :: tr => naps tr end.

Fixpoint changes (tr : bhistory) : list bev :=
  match tr with
  | [] => []
  | BCall f args r :: tr => if String.prefix "property_set " f then BCall f args r :: changes tr else changes tr
  | _ :: tr => changes tr
  end.

Section Smd.
Context `{SE : SysEnv} `{BC : BuildCfg} (turns : nat).

Definition status_on (ps : props) : bool := has_prefix (prop_value ps "bluetooth.status" []) "on".

Lemma get_prop_run name d w :
  get_prop name d w = Some (prop_value (env_props (v_tr w) (s_props (v_sys w))) name (chars d), put_v_sys (looked name (chars d) (v_sys w)) w).
Proof. reflexivity. Qed.

Lemma trp_run w : readTrpState w = Some (status_on (env_props (v_tr w) (s_props (v_sys w))), put_v_sys (looked "bluetooth.status" [] (v_sys w)) w).
Proof. reflexivity. Qed.

Lemma config_on nState w : status_on (env_props (v_tr w) (s_props (v_sys w))) = true ->
  hw_config nState w = Some (0, put_v_sys (looked "bluetooth.status" [] (v_sys w)) w).
Proof.
  intros H. unfold hw_config. rewrite (bind_run _ _ _ _ _ (get_prop_run _ _ w)). unfold status_on in H. change (chars "") with (@nil Z) in *.
  destruct (prop_value (env_props (v_tr w) (s_props (v_sys w))) "bluetooth.status" []) as [|c v] eqn:E; [done|]. cbn [length Nat.eqb]. by rewrite H.
Qed.

(** The controller behind the shared memory channels cannot be switched
    off: while it is on, the request is answered -1 and no property that would
    stop it is set. *)
Theorem smd_power_off_ignored w (Hsoc : btSocType w = BT_SOC_DEFAULT) (Hon : forall tr ps, status_on (env_props tr ps) = true) :
  exists w', op turns (BT_VND_OP_POWER_CTRL BT_VND_PWR_OFF) w = Some ((-1, []), w') /\ changes (v_tr w') = changes (v_tr w) /\ s_fds (v_sys w') = s_fds (v_sys w).
Proof.
  cbn [op]. unfold power_ctrl. unfold mbind at 1, M_bind at 1. erewrite bind_run by reflexivity. rewrite Hsoc. simpl (_ =? _). cbv iota.
  rewrite (bind_run _ _ _ _ _ (trp_run w)), Hon. set (w1 := put_v_sys _ w). assert (E1 : (hw_config BT_VND_PWR_OFF;; mret tt) w1 = Some (tt, put_v_sys (looked "bluetooth.status" [] (v_sys w1)) w1))
    by (by rewrite (bind_run _ _ _ _ _ (config_on BT_VND_PWR_OFF w1 (Hon _ _)))).
  rewrite (bind_run _ _ _ _ _ E1). set (w2 := put_v_sys _ w1). rewrite (bind_run _ _ _ _ _ (config_on BT_VND_PWR_OFF w2 (Hon _ _))).
  by eexists.
Qed.

Context (Hset : forall tr name v, 0 <= env_call tr ("property_set " +:+ name) v).

Lemma hciattach_run name v w : exists w', (r ← set_prop name v; mret (if r <? 0 then -1 else 0)) w = Some (0, w') /\ naps (v_tr w') = naps (v_tr w).
Proof.
  destruct (v_sys w) as [fds ps tr] eqn:Es. set (r := env_call tr ("property_set " +:+ name) (chars v)).
  assert (E : set_prop name v w = Some (r, put_v_sys {| s_fds := fds; s_props := <[name := chars v]> ps; s_tr := BCall ("property_set " +:+ name) (chars v) r :: tr |} w)).
  { unfold set_prop, sys, zoom. rewrite Es. unfold property_set. rewrite (bind_run _ _ _ _ _ (syscall_run _ _ _)). simpl s_tr. by rewrite (proj2 (Z.ltb_ge _ _)). }
  rewrite (bind_run _ _ _ _ _ E), (proj2 (Z.ltb_ge _ _)) by apply Hset. eexists. split; [reflexivity|]. trans (naps tr); [done|]. unfold v_tr. by rewrite Es.
Qed.

Lemma hw_config_run nState w : exists w', hw_config nState w = Some (0, w') /\ naps (v_tr w') = naps (v_tr w).
Proof.
  unfold hw_config. rewrite (bind_run _ _ _ _ _ (get_prop_run _ _ w)). set (w1 := put_v_sys _ w). assert (H : naps (v_tr w1) = naps (v_tr w)) by done. rewrite <- H.
  repeat match goal with |- context [if ?b then _ else _] => lazymatch b with context [if _ then _ else _] => fail | _ => destruct b end end; try apply hciattach_run; by exists w1.
Qed.

(** From the [k]-th wait on the controller is on. *)
Context (k : nat) (Hup : forall tr ps, (k <= naps tr)%nat -> status_on (env_props tr ps) = true).

Lemma poll_run n w : (k <= naps (v_tr w) + n)%nat -> exists w', hw_poll (S n) w = Some (true, w') /\ (naps (v_tr w') <= Nat.max k (naps (v_tr w)))%nat.
Proof.
  revert w. induction n as [|n IH]; intros w Hk; cbn [hw_poll]; rewrite (bind_run _ _ _ _ _ (trp_run w)); destruct (status_on _) eqn:E.
  1, 3: eexists; split; [done|]; change (naps (v_tr _)) with (naps (v_tr w)); lia.
  - rewrite Hup in E; [done|]. lia.
  - assert (Hk' : (naps (v_tr w) < k)%nat) by (destruct (decide (k <= naps (v_tr w))%nat) as [Hd|Hd]; [by rewrite Hup in E|lia]).
    set (w1 := put_v_sys _ w). set (w2 := put_v_sys (put_s_tr (BSleep 50000 :: s_tr (v_sys w1)) (v_sys w1)) w1).
    assert (E2 : sys (usleep 50000) w1 = Some (tt, w2)) by done. rewrite (bind_run _ _ _ _ _ E2). assert (H2 : naps (v_tr w2) = S (naps (v_tr w))) by done.
    destruct (IH w2 ltac:(lia)) as (w' & E' & Hn). exists w'. split; [exact E'|]. lia.
Qed.

(** Switching on the controller behind the shared memory channels: when
    the daemon has it up after at most 99 of the waits, the request is answered
    0, after no more waits than it takes. *)
Theorem smd_power_on w (Hsoc : btSocType w = BT_SOC_DEFAULT) (Hk : (k <= naps (v_tr w) + 99)%nat) :
  exists w', op turns (BT_VND_OP_POWER_CTRL BT_VND_PWR_ON) w = Some ((0, []), w') /\ (naps (v_tr w') <= Nat.max k (naps (v_tr w)))%nat.
Proof.
  cbn [op]. unfold power_ctrl. unfold mbind at 1, M_bind at 1. erewrite bind_run by reflexivity. rewrite Hsoc. simpl (_ =? _). cbv iota.
  rewrite (bind_run _ _ _ _ _ (trp_run w)). set (w1 := put_v_sys _ w).
  assert (E1 : exists w2, (if status_on (env_props (v_tr w) (s_props (v_sys w))) then hw_config BT_VND_PWR_OFF;; mret tt else mret tt) w1 = Some (tt, w2) /\ naps (v_tr w2) = naps (v_tr w1)).
  { destruct (status_on _); [|by exists w1]. destruct (hw_config_run BT_VND_PWR_OFF w1) as (w2 & E & ?). rewrite (bind_run _ _ _ _ _ E). by exists w2. }
  destruct E1 as (w2 & E1 & H2). rewrite (bind_run _ _ _ _ _ E1). destruct (hw_config_run BT_VND_PWR_ON w2) as (w3 & E3 & H3). rewrite (bind_run _ _ _ _ _ E3). cbn [Z.eqb andb].
  change (naps (v_tr w1)) with (naps (v_tr w)) in H2. destruct (poll_run 99 w3 ltac:(lia)) as (w4 & E4 & H4).
  change (BT_VND_PWR_ON =? BT_VND_PWR_ON) with true. cbv iota. cbn [andb]. unfold is_hw_ready, MAX_CNT_RETRY. rewrite (bind_run _ _ _ _ _ E4). exists w4. split; [done|]. lia.
Qed.

End Smd.
