(* ===== verification/VendorOpen.v ===== *)
(** * Theorems about the vendor interface: opening the transport *)

From Stdlib Require Import ZArith Lia.
From stdpp Require Import list strings gmap.
From S2P Require Import Prelude BtHci CText PsFile Rome RomeProps RomeNvm RomeInit Ar3k PsProps Ar3kProps BtSys Userial Vendor VendorOp VendorProps.

Lemma run_inv {W A B} (m : M W A) (f : A -> M W B) w y w2 : (m ≫= f) w = Some (y, w2) -> exists x w1, m w = Some (x, w1) /\ f x w1 = Some (y, w2).
Proof. unfold mbind, M_bind. destruct (m w) as [[x w1]|]; [|done]. intros H. by exists x, w1. Qed.

(** ** Descriptors *)

Section Descriptors.
Context `{SE : SysEnv} `{BC : BuildCfg} (turns : nat).

Definition fds (w : vworld) : list Z := s_fds (v_sys w).
Definition port_fd (w : vworld) : Z := u_fd (u_cb (v_u w)).

(** Both of them. *)
Definition line_of (w : vworld) : list Z * Z := (fds w, port_fd w).

Lemma keeps_sys {A} (m : M sysw A) : keeps s_fds m -> keeps line_of (sys m).
Proof.
  intros H w x w'. unfold sys, zoom. destruct (m (v_sys w)) as [[y s]|] eqn:E; [|done]. intros [= <- <-]. unfold line_of, fds. by rewrite <- (H _ _ _ E).
Qed.

Lemma keeps_syscall f args : keeps s_fds (syscall f args).
Proof. unfold syscall, slog. keeps_solve. Qed.

Lemma keeps_property_get name d : keeps s_fds (property_get name d).
Proof. unfold property_get, slog. keeps_solve. Qed.

Lemma keeps_property_set name v : keeps s_fds (property_set name v).
Proof. unfold property_set. keeps_solve. Qed.

Lemma keeps_get_prop name d : keeps line_of (get_prop name d).
Proof. apply keeps_sys, keeps_property_get. Qed.

Lemma keeps_set_prop name v : keeps line_of (set_prop name v).
Proof. apply keeps_sys, keeps_property_set. Qed.

Lemma keeps_usleep us : keeps line_of (sys (usleep us)).
Proof. apply keeps_sys. unfold usleep, slog. keeps_solve. Qed.

Lemma keeps_vcall f args : keeps line_of (vcall f args).
Proof. apply keeps_sys, keeps_syscall. Qed.

Lemma keeps_on_rome {A} (m : BtEnv -> M rworld A) : keeps line_of (on_rome m).
Proof. intros w x w'. unfold on_rome, zoom. destruct (m (bt_of w) _) as [[y r]|]; [|done]. by intros [= <- <-]. Qed.

#[local] Hint Resolve keeps_get_prop keeps_set_prop keeps_usleep keeps_vcall keeps_on_rome : keeps.

Lemma keeps_soc : keeps line_of is_soc_initialized.
Proof. unfold is_soc_initialized. keeps_solve. Qed.

Lemma keeps_filter : keeps line_of start_hci_filter.
Proof.
  assert (H : forall n, keeps line_of (filter_poll n)) by (induction n; simpl; keeps_solve).
  unfold start_hci_filter. keeps_solve.
Qed.

Lemma keeps_wait b : keeps line_of (wait_for_patch_download turns b).
Proof. unfold wait_for_patch_download. induction turns; simpl; keeps_solve. Qed.

Lemma keeps_bd_addr : keeps line_of read_bd_addr.
Proof. unfold read_bd_addr, bt_vendor_nv_read. keeps_solve; apply keeps_sys; unfold slog; keeps_solve. Qed.

Lemma keeps_clock fd cmd : keeps line_of (port (userial_clock_operation fd cmd)).
Proof.
  intros w x w'. unfold port, zoom. destruct (userial_clock_operation fd cmd (v_u w)) as [[y u]|] eqn:E; [|done]. intros [= <- <-].
  assert (K : keeps (fun u => (s_fds (u_sys u), u_fd (u_cb u))) (userial_clock_operation fd cmd)).
  { unfold userial_clock_operation, usys. assert (forall a b, keeps (fun u => (s_fds (u_sys u), u_fd (u_cb u))) (zoom u_sys put_u_sys (syscall a b))).
    { intros a b v z v'. unfold zoom. destruct (syscall a b (u_sys v)) as [[? s]|] eqn:Es; [|done]. intros [= <- <-]. simpl. by rewrite (keeps_syscall _ _ _ _ _ Es). }
    keeps_solve; auto. }
  exact (K _ _ _ E).
Qed.

Lemma keeps_of {A} (m : M vworld A) w x w' : keeps line_of m -> m w = Some (x, w') -> fds w' = fds w /\ port_fd w' = port_fd w.
Proof. intros H E. apply H in E. by injection E. Qed.

(** An open that failed, or one descriptor more. *)
Definition opened (w : vworld) (fd : Z) (w' : vworld) : Prop := fd = -1 /\ fds w' = fds w \/ 0 <= fd /\ fds w' = fd :: fds w.

Lemma new_fd_inv f args s fd s' : new_fd f args s = Some (fd, s') -> fd = -1 /\ s_fds s' = s_fds s \/ 0 <= fd /\ s_fds s' = fd :: s_fds s.
Proof.
  unfold new_fd. erewrite bind_run by reflexivity. set (x := Z.max (-1) _). assert (-1 <= x) by (unfold x; lia). erewrite bind_run by reflexivity.
  destruct (Z.ltb_spec x 0); intros [= <- <-]; [left; split; [lia|done]|by right].
Qed.

Lemma keeps_line_settings stop baud : keeps (fun u => (s_fds (u_sys u), u_fd (u_cb u))) (line_settings stop baud).
Proof. intros u x u'. destruct (line_settings_run stop baud u) as (c & v & E & H1 & H2 & _). rewrite E. intros [= <- <-]. by rewrite H1, H2. Qed.

Lemma port_open_inv cfg w fd w' : port (userial_vendor_open cfg) w = Some (fd, w') -> opened w fd w' /\ port_fd w' = fd.
Proof.
  unfold port, zoom. destruct (userial_vendor_open cfg (v_u w)) as [[y u]|] eqn:E; [|done]. intros [= <- <-]. unfold opened, fds, port_fd, v_sys. simpl.
  unfold userial_vendor_open in E. erewrite bind_run in E by reflexivity. destruct (userial_to_tcio_baud _) as [[] baud]; cbn [negb] in E; [|injection E as <- <-; by split; [left|]].
  destruct (data_bits _); [|injection E as <- <-; by split; [left|]]. destruct (parity _); [|injection E as <- <-; by split; [left|]].
  destruct (stop_bits _); [|injection E as <- <-; by split; [left|]].
  erewrite bind_run in E by reflexivity. apply run_inv in E as (fd & u1 & E1 & E). unfold usys, zoom in E1. destruct (sopen _ _) as [[fd1 s1]|] eqn:Eo; [|done].
  injection E1 as <- <-. apply new_fd_inv in Eo. erewrite bind_run in E by reflexivity. destruct (Z.eqb_spec fd1 (-1)) as [->|Hne].
  - injection E as <- <-. simpl. destruct Eo as [[_ Eo]|[]]; [|lia]. by split; [left|].
  - destruct Eo as [[]|[Hp Eo]]; [lia|]. apply run_inv in E as ([] & u2 & E2 & E). apply keeps_line_settings in E2. injection E2 as H2 H2'.
    apply run_inv in E as ([] & u3 & E3 & E). injection E as <- <-.
    assert (K : s_fds (u_sys u3) = s_fds (u_sys u2) /\ u_fd (u_cb u3) = u_fd (u_cb u2)) by (destruct BT_WAKE_VIA_USERIAL_IOCTL; by injection E3 as <-).
    destruct K as [-> ->]. rewrite H2, H2'. simpl. rewrite Eo. by split; [right|].
Qed.

Lemma socket_inv name w fd w' : connect_to_local_socket name w = Some (fd, w') -> opened w fd w'.
Proof.
  unfold connect_to_local_socket. intros E. apply run_inv in E as (sk & w1 & E1 & E). unfold sys, zoom in E1. destruct (new_fd _ _ _) as [[fd1 s1]|] eqn:En; [|done].
  injection E1 as <- <-. apply new_fd_inv in En. fold (fds w) in En. destruct (Z.ltb_spec fd1 0) as [Hn|Hn].
  - injection E as <- <-. left. split; [done|]. destruct En as [[_ En]|[]]; [done|lia].
  - destruct En as [[]|[_ En]]; [lia|]. apply run_inv in E as (r & w2 & E2 & E). apply (keeps_of _ _ _ _ (keeps_vcall _ _)) in E2 as [F2 _].
    assert (F : fds w2 = fd1 :: fds w) by (by rewrite F2). destruct (r <? 0).
    + apply run_inv in E as (y & w3 & E3 & E). injection E as <- <-. left. split; [done|]. unfold sys, zoom in E3.
      rewrite (sclose_run fd1 (v_sys w2)) in E3 by (fold (fds w2); rewrite F; apply open_head). injection E3 as <- <-. unfold fds. simpl. fold (fds w2).
      rewrite F. apply remove_head.
    + injection E as <- <-. by right.
Qed.

Lemma sclose_inv fd l w r w' : fds w = fd :: l -> sys (sclose fd) w = Some (r, w') -> fds w' = l /\ port_fd w' = port_fd w.
Proof.
  intros Hf. unfold sys, zoom. rewrite (sclose_run fd (v_sys w)) by (fold (fds w); rewrite Hf; apply open_head). intros [= <- <-].
  unfold fds. simpl. fold (fds w). rewrite Hf. split; [apply remove_head|done].
Qed.

(** The download keeps the port for its caller only when it fails. *)
Lemma download_inv is_ant emb w r skip fd w' : rome_download turns is_ant emb w = Some ((r, skip, fd), w') ->
  r = -1 /\ opened w fd w' \/ r = 0 /\ fds w' = fds w.
Proof.
  unfold rome_download. intros E. apply run_inv in E as (? & w0 & E0 & E). apply (keeps_of _ _ _ _ (keeps_set_prop _ _)) in E0 as [F0 _].
  apply run_inv in E as (fd1 & w1 & E1 & E). apply port_open_inv in E1 as [O1 _]. unfold opened in O1. rewrite F0 in O1. destruct (Z.ltb_spec fd1 0) as [Hn|Hn].
  { injection E as <- <- <- <-. by left. }
  destruct O1 as [[]|[_ F1]]; [lia|]. apply run_inv in E as (? & w2 & E2 & E). apply (keeps_of _ _ _ _ (keeps_clock _ _)) in E2 as [F2 _].
  apply run_inv in E as ([] & w3 & E3 & E). eapply keeps_of in E3 as [F3 _]; [|keeps_solve]. apply run_inv in E as (? & w4 & E4 & E).
  apply (keeps_of _ _ _ _ (keeps_set_prop _ _)) in E4 as [F4 _]. apply run_inv in E as ([] & w5 & E5 & E). apply (keeps_of _ _ _ _ keeps_bd_addr) in E5 as [F5 _].
  apply run_inv in E as (err & w6 & E6 & E). apply (keeps_of _ _ _ _ (keeps_on_rome _)) in E6 as [F6 _].
  assert (F : fds w6 = fd1 :: fds w) by congruence. clear F2 F3 F4 F5 F6. destruct (err <? 0).
  - apply run_inv in E as (? & w7 & E7 & E). apply (keeps_of _ _ _ _ (keeps_clock _ _)) in E7 as [F7 _]. injection E as <- <- <- <-. left. split; [done|]. right. split; [done|congruence].
  - apply run_inv in E as (? & w7 & E7 & E). apply (keeps_of _ _ _ _ (keeps_set_prop _ _)) in E7 as [F7 _].
    apply run_inv in E as (? & w8 & E8 & E). apply (keeps_of _ _ _ _ (keeps_clock _ _)) in E8 as [F8 _].
    apply run_inv in E as (? & w9 & E9 & E). apply (sclose_inv _ (fds w)) in E9 as [F9 _]; [|congruence]. injection E as <- <- <- <-. by right.
Qed.

Lemma channel_inv skip emb arr w r arr' w' : rome_channel turns false skip emb arr w = Some ((r, arr'), w') ->
  r = 1 /\ (exists fd, 0 <= fd /\ fds w' = fd :: fds w /\ port_fd w' = fd /\ arr' = replicate CH_MAX fd ++ drop CH_MAX arr) \/
  r = -1 /\ fds w' = fds w /\ arr' = arr.
Proof.
  unfold rome_channel. rewrite andb_false_r. intros E. apply run_inv in E as ([] & w0 & E0 & E). eapply keeps_of in E0 as [F0 _]; [|keeps_solve; apply keeps_filter].
  apply run_inv in E as (fd & w1 & E1 & E). apply run_inv in E1 as (fd1 & w2 & E2 & E1). apply socket_inv in E2. unfold opened in E2. rewrite F0 in E2.
  erewrite bind_run in E1 by reflexivity. injection E1 as <- <-. destruct (Z.eqb_spec fd1 (-1)) as [->|Hne].
  - injection E as <- <- <-. right. split; [done|]. split; [|done]. by destruct E2 as [[_ E2]|[]].
  - destruct E2 as [[]|[Hp F2]]; [lia|]. apply run_inv in E as ([] & w3 & E3 & E). eapply keeps_of in E3 as [F3 P3]; [|keeps_solve].
    apply run_inv in E as ([] & w4 & E4 & E). eapply keeps_of in E4 as [F4 P4]; [|keeps_solve]. injection E as <- <- <-.
    left. split; [done|]. exists fd1. rewrite P4, P3, F4, F3. done.
Qed.

Lemma set_prop_total name v w : exists r w', set_prop name v w = Some (r, w').
Proof.
  unfold set_prop, sys, zoom, property_set. rewrite (bind_run _ _ _ _ _ (syscall_run _ _ _)). destruct (_ <? 0); by eexists _, _.
Qed.

(** Closing the transport closes the descriptor the port names. *)
Lemma close_any w : btSocType w = BT_SOC_ROME -> port_fd w <> -1 -> fd_open (port_fd w) (fds w) = true ->
  exists w', op turns BT_VND_OP_USERIAL_CLOSE w = Some ((0, []), w') /\ fds w' = remove_fd (port_fd w) (fds w) /\ port_fd w' = -1.
Proof.
  intros Hs Hp Ho. cbn [op]. unfold userial_close. unfold mbind at 1, M_bind at 1. erewrite bind_run by reflexivity. rewrite Hs. cbn.
  destruct (set_prop_total "wc_transport.clean_up" "1" w) as (y & w1 & E1). rewrite (bind_run _ _ _ _ _ E1). apply (keeps_of _ _ _ _ (keeps_set_prop _ _)) in E1 as [F1 P1].
  destruct (port_close_open (v_u w1)) as (u & Ec & Pc & Fc & _); [fold (port_fd w1); lia|change (fd_open (port_fd w1) (fds w1) = true); by rewrite P1, F1|].
  unfold port. rewrite (zoom_run _ _ _ _ _ _ Ec). eexists. split; [done|]. split; [|done]. change (s_fds (u_sys u) = remove_fd (port_fd w) (fds w)). rewrite Fc.
  change (remove_fd (port_fd w1) (fds w1) = remove_fd (port_fd w) (fds w)). by rewrite P1, F1.
Qed.

Lemma open_inv arr w r arr' w' : btSocType w = BT_SOC_ROME -> op turns (BT_VND_OP_USERIAL_OPEN arr) w = Some ((r, arr'), w') ->
  r = 1 /\ (exists fd, 0 <= fd /\ fds w' = fd :: fds w /\ port_fd w' = fd /\ arr' = replicate CH_MAX fd ++ drop CH_MAX arr) \/
  r = -1 /\ fds w' = fds w /\ arr' = arr.
Proof.
  intros Hsoc E.
  cbn [op] in E. unfold userial_open in E. destruct (negb _); [done|]. erewrite bind_run in E by reflexivity. rewrite Hsoc in E. cbn in E. unfold rome_open in E.
  apply run_inv in E as ([] & w0 & E0 & E). apply (keeps_of _ _ _ _ (keeps_wait _)) in E0 as [F0 _].
  apply run_inv in E as (emb & w1 & E1 & E). apply (keeps_of _ _ _ _ (keeps_get_prop _ _)) in E1 as [F1 _].
  apply run_inv in E as (up & w2 & E2 & E). apply (keeps_of _ _ _ _ keeps_soc) in E2 as [F2 _].
  apply run_inv in E as ([[r3 skip] fd] & w3 & E3 & E).
  assert (O3 : r3 = -1 /\ opened w2 fd w3 \/ r3 = 0 /\ fds w3 = fds w2) by (destruct up; [injection E3 as <- <- <- <-; by right|by eapply download_inv]). clear E3.
  apply run_inv in E as (? & w4 & E4 & E). apply (keeps_of _ _ _ _ (keeps_set_prop _ _)) in E4 as [F4 _].
  apply run_inv in E as (? & w5 & E5 & E). apply (keeps_of _ _ _ _ (keeps_set_prop _ _)) in E5 as [F5 _].
  destruct O3 as [[-> O3]|[-> F3]]; cbn [Z.eqb negb] in E.
  - right. apply run_inv in E as ([] & w6 & E6 & E). injection E as <- <- <-. split; [done|]. split; [|done]. destruct O3 as [[-> O3]|[Hp O3]].
    + injection E6 as <-. congruence.
    + rewrite (proj2 (Z.leb_le 0 fd) Hp) in E6. apply run_inv in E6 as (? & w7 & E7 & E6). injection E6 as <-. apply (sclose_inv _ (fds w2)) in E7 as [F7 _]; congruence.
  - apply channel_inv in E. assert (F : fds w5 = fds w) by congruence. by rewrite F in E.
Qed.

(** A failed download leaves the number of the closed port behind: when the
    transport could not be opened and the port still names a descriptor, nothing
    of it is open, and if that number has been handed out again by the time the
    transport is closed, the descriptor of its new owner is closed. *)
Theorem failed_open_dangles arr w arr' w' (Hsoc : btSocType w = BT_SOC_ROME) (E : op turns (BT_VND_OP_USERIAL_OPEN arr) w = Some ((-1, arr'), w'))
  (Hstale : port_fd w' <> -1) : fds w' = fds w /\
  forall w2, btSocType w2 = BT_SOC_ROME -> port_fd w2 = port_fd w' -> fd_open (port_fd w') (fds w2) = true ->
    exists w3, op turns BT_VND_OP_USERIAL_CLOSE w2 = Some ((0, []), w3) /\ fds w3 = remove_fd (port_fd w') (fds w2).
Proof.
  destruct (open_inv arr w (-1) arr' w' Hsoc E) as [[? _]|(_ & F & _)]; [done|]. split; [done|]. intros w2 Hs Hp Ho.
  destruct (close_any w2 Hs) as (w3 & E3 & F3 & _); [by rewrite Hp|by rewrite Hp|]. exists w3. split; [done|]. by rewrite F3, Hp.
Qed.

End Descriptors.

(** ** The address *)

Lemma token_byte b : 0 <= b < 256 -> validate_tok (hex_text 2 b) = true /\ u8 (strtol16 (hex_text 2 b)) = b.
Proof.
  intros Hb. split.
  - unfold validate_tok, isxdigit. cbn [hex_text app length forallb Nat.eqb]. by rewrite !hex_char_digit by (apply Z.mod_pos_bound; lia).
  - rewrite <- (app_nil_r (hex_text 2 b)), strtol_hex; [apply u8_small; lia|lia|simpl; lia|done].
Qed.

Lemma strtok_print a : a <> [] -> strtok [] (print_addr a) = map (hex_text 2) a.
Proof.
  assert (Hn : forall x, (hex_char (x mod 16) =? colon) = false).
  { intros x. apply Z.eqb_neq. pose proof (hex_char_range (x mod 16) (Z.mod_pos_bound x 16 eq_refl)). unfold colon. lia. }
  assert (H : forall t b s, strtok t (hex_text 2 b ++ s) = strtok (t ++ hex_text 2 b) s).
  { intros t b s. cbn [hex_text app strtok]. rewrite !Hn. by rewrite <- app_assoc. }
  assert (H2 : forall a t, t <> [] -> strtok t (concat (map (fun b => 58 :: hex_text 2 b) a)) = t :: map (hex_text 2) a).
  { clear a. induction a as [|b a IH]; intros t Ht; [by destruct t|]. cbn [map concat app strtok]. change (58 =? colon) with true. cbv iota.
    rewrite H. simpl ([] ++ _). rewrite IH by done. by destruct t. }
  intros Ha. destruct a as [|b a]; [done|]. unfold print_addr. rewrite H. by rewrite H2.
Qed.

Lemma bd_tokens_print a g : length a = 6%nat -> length g = 6%nat -> Forall (fun b => 0 <= b < 256) a -> bd_tokens (map (hex_text 2) a) 0 g = Some (reverse a).
Proof.
  intros Hl Hg Hb. do 6 (destruct a as [|? a]; [done|]). destruct a; [|done]. do 6 (destruct g as [|? g]; [done|]). destruct g; [|done].
  repeat match goal with H : Forall _ (_ :: _) |- _ => apply Forall_cons in H as [? H] end.
  cbn [map bd_tokens Nat.leb Nat.eqb]. repeat match goal with H : 0 <= ?b < 256 |- _ => destruct (token_byte b H) as [-> ->]; clear H end. reflexivity.
Qed.

Section Address.
Context `{SE : SysEnv} `{BC : BuildCfg}.

(** The address is the same by either way: given as bytes to [init], or
    printed in the boot property, it is stored last byte first. *)
Theorem bd_addr_sources a w (Hl : length a = 6%nat) (Hb : Forall (fun b => 0 <= b < 256) a) :
  (exists w1, init true (Some a) w = Some (0, w1) /\ v_bd_addr w1 = reverse a /\ bt_vendor_cbacks w1 = true) /\
  (READ_BT_ADDR_FROM_PROP = true -> (forall tr ps, env_props tr ps !! "ro.boot.btmacaddr" = Some (print_addr a)) ->
   exists w2, read_bd_addr w = Some (tt, w2) /\ v_bd_addr w2 = reverse a).
Proof.
  assert (Ha : mapM (fun i => a !! (5 - i)%nat) (seq 0 6) = Some (reverse a)) by (do 6 (destruct a as [|? a]; [done|]); by destruct a).
  split.
  - unfold init. cbn [negb]. assert (E0 : exists soc w0, get_bt_soc_type w = Some (soc, w0) /\ 0 <= soc).
    { eexists _, _. split; [unfold get_bt_soc_type; rewrite (bind_run _ _ _ _ _ (get_prop_run _ _ w)); reflexivity|]. repeat case_bool_decide; done. }
    destruct E0 as (soc & w0 & E0 & Hs). rewrite (bind_run _ _ _ _ _ E0). erewrite bind_run by reflexivity. rewrite (proj2 (Z.ltb_ge soc 0) Hs).
    assert (E1 : exists w1, (if (soc =? BT_SOC_ROME) || (soc =? BT_SOC_AR3K) then port userial_vendor_init else mret tt) (put_btSocType soc w0) = Some (tt, w1))
      by (destruct (_ || _); by eexists).
    destruct E1 as (w1 & E1). rewrite (bind_run _ _ _ _ _ E1). erewrite bind_run by reflexivity. rewrite Ha. erewrite bind_run by reflexivity.
    destruct WIFI_BT_STATUS_SYNC; by eexists.
  - intros Hp Hv. unfold read_bd_addr. rewrite Hp. set (v := prop_value (env_props (v_tr w) (s_props (v_sys w))) "ro.boot.btmacaddr" (chars "")).
    assert (Ev : v = print_addr a) by (unfold v, prop_value; rewrite Hv; by destruct a as [|? [|? a]]).
    assert (E0 : exists w1, (v ← get_prop "ro.boot.btmacaddr" ""; w ← get;
      match (match v with [] => None | _ => bd_tokens (strtok [] v) 0 (take 6 (env_stack (v_tr w) ++ replicate 6 0)) end) with
      | Some addr => modify (put_v_bd_addr addr);; mret false | None => mret true end) w = Some (false, w1) /\ v_bd_addr w1 = reverse a).
    { rewrite (bind_run _ _ _ _ _ (get_prop_run _ _ w)). fold v. rewrite Ev. erewrite bind_run by reflexivity. set (g := take 6 _).
      assert (Hg : length g = 6%nat) by (unfold g; rewrite length_take, length_app, length_replicate; lia).
      assert (Et : (match print_addr a with [] => None | _ => bd_tokens (strtok [] (print_addr a)) 0 g end) = Some (reverse a)).
      { rewrite strtok_print by (by destruct a). rewrite bd_tokens_print by done. by destruct a. }
      rewrite Et. by eexists. }
    destruct E0 as (w1 & E0 & H1). rewrite (bind_run _ _ _ _ _ E0), andb_false_r. by exists w1.
Qed.

End Address.
