(* ===== verification/VendorRome.v ===== *)
(** * Opening the transport of a Rome controller

    The composition: the properties of the system, the serial port, the
    initialisation of the controller and the channel of the filter. *)

From Stdlib Require Import ZArith Lia.
From stdpp Require Import list strings gmap.
From S2P Require Import Prelude BtHci CText PsFile Rome RomeProps RomeNvm RomeInit BtSys Userial Vendor VendorOp VendorProps VendorOpen.

(** What the parts have to do with each other of the state. *)
Record view := {
  w_rome : rworld; w_sent : list act; w_nread : nat; w_fds : list Z; w_port : Z; w_name : text; w_addr : list Z; w_ldo : bool;
  w_prog : option text; w_soc : option text; w_emb : option text
}.

Definition prog : string := "wc_transport.patch_dnld_inprog".
Definition soc : string := "wc_transport.soc_initialized".
Definition emb : string := "ro.bluetooth.emb_wp_mode".
Definition status : string := "wc_transport.hci_filter_status".
Definition watched : list string := [prog; soc; emb].

Definition view_of (w : vworld) : view := {|
  w_rome := v_rome w; w_sent := sent (v_tr w); w_nread := nread (v_tr w); w_fds := fds w; w_port := port_fd w; w_name := port_name (u_cb (v_u w));
  w_addr := v_bd_addr w; w_ldo := v_extldo w;
  w_prog := s_props (v_sys w) !! prog; w_soc := s_props (v_sys w) !! soc; w_emb := s_props (v_sys w) !! emb |}.

Definition with_fds (l : list Z) (v : view) : view :=
  {| w_rome := w_rome v; w_sent := w_sent v; w_nread := w_nread v; w_fds := l; w_port := w_port v; w_name := w_name v; w_addr := w_addr v; w_ldo := w_ldo v;
     w_prog := w_prog v; w_soc := w_soc v; w_emb := w_emb v |}.
Definition with_port (p : Z) (v : view) : view :=
  {| w_rome := w_rome v; w_sent := w_sent v; w_nread := w_nread v; w_fds := w_fds v; w_port := p; w_name := w_name v; w_addr := w_addr v; w_ldo := w_ldo v;
     w_prog := w_prog v; w_soc := w_soc v; w_emb := w_emb v |}.
Definition ran (r : rworld) (v : view) : view :=
  {| w_rome := r; w_sent := sent (b_tr r); w_nread := nread (b_tr r); w_fds := w_fds v; w_port := w_port v; w_name := w_name v; w_addr := w_addr v; w_ldo := w_ldo v;
     w_prog := w_prog v; w_soc := w_soc v; w_emb := w_emb v |}.
Definition did (l : list act) (v : view) : view :=
  {| w_rome := w_rome v; w_sent := w_sent v ++ l; w_nread := w_nread v; w_fds := w_fds v; w_port := w_port v; w_name := w_name v; w_addr := w_addr v; w_ldo := w_ldo v;
     w_prog := w_prog v; w_soc := w_soc v; w_emb := w_emb v |}.
Definition stored (name : string) (x : text) (v : view) : view :=
  let at_ (n : string) (old : option text) := if String.eqb name n then Some x else old in
  {| w_rome := w_rome v; w_sent := w_sent v; w_nread := w_nread v; w_fds := w_fds v; w_port := w_port v; w_name := w_name v; w_addr := w_addr v; w_ldo := w_ldo v;
     w_prog := at_ prog (w_prog v); w_soc := at_ soc (w_soc v); w_emb := at_ emb (w_emb v) |}.

(** ** What is done *)

(** A property is looked at, or set; a file is opened; a descriptor is
    closed. *)
Definition looked (name : string) (v : text) : act := Did ("property_get " +:+ name) v (Z.of_nat (length v)).
Definition set_to (name v : string) : act := Did ("property_set " +:+ name) (chars v) 0.
Definition opened_file (path : string) (fd : Z) : act := Did ("open " +:+ path) [] fd.
Definition closed (fd : Z) : act := Did "close" [fd] 0.

(** A socket that is connected. *)
Definition connected (name : string) (fd : Z) : list act := [Did "socket" [] fd; Did ("connect " +:+ name) [fd] 0].

(** The status of the filter is looked at until it is up, 45 times at most. *)
Definition waited (polls : list text) : Prop :=
  (exists l, polls = l ++ [chars "1"] /\ (length l < 45)%nat /\ Forall (fun v => v <> chars "1") l) \/
  length polls = 45%nat /\ Forall (fun v => v <> chars "1") polls.

(** The filter is started unless it was, and waited for. *)
Definition filter_started `{BC : BuildCfg} (l : list act) : Prop :=
  exists v, if is_text v "true" then l = [looked BT_VND_FILTER_START v]
  else exists polls, l = [looked BT_VND_FILTER_START v; set_to status "0"; set_to BT_VND_FILTER_START "true"] ++ map (looked status) polls /\ waited polls.

Lemma not_line_call f : ~ In f ["ioctl"; "tcflush"; "tcgetattr"; "tcsetattr"; "cfsetospeed"; "cfsetispeed"; "TIOCMGET"; "TIOCMSET"]%string -> line_call f = false.
Proof. intros H. apply bool_decide_false. by rewrite list_elem_of_In. Qed.

#[local] Arguments line_call : simpl never.

(** The calls of a goal that are not of the line. *)
Ltac seen_calls := repeat match goal with |- context [line_call ?f] => rewrite (not_line_call f) by (simpl; intuition discriminate) end.

Section Steps.
Context `{SE : SysEnv} `{BC : BuildCfg} (turns : nat).
Context (Hset : forall tr name v, env_call tr ("property_set " +:+ name) v = 0).
Context (Hquiet : forall tr ps name, In name watched -> env_props tr ps !! name = ps !! name).

Lemma look_run name d w : exists w', let v := prop_value (env_props (v_tr w) (s_props (v_sys w))) name (chars d) in
  get_prop name d w = Some (v, w') /\ view_of w' = did [looked name v] (view_of w).
Proof.
  eexists. split; [apply get_prop_run|]. unfold view_of, did, fds, port_fd. simpl. seen_calls.
  by rewrite !Hquiet by (simpl; tauto).
Qed.

(** A property that is watched has the value that is known. *)
Lemma watched_run name d w : In name watched ->
  exists w', let v := prop_value (s_props (v_sys w)) name (chars d) in get_prop name d w = Some (v, w') /\ view_of w' = did [looked name v] (view_of w).
Proof. intros Hn. destruct (look_run name d w) as (w' & E & V). exists w'. rewrite E, V. unfold prop_value. by rewrite Hquiet. Qed.

Lemma set_run name v w : exists w', set_prop name v w = Some (0, w') /\ view_of w' = did [set_to name v] (stored name (chars v) (view_of w)).
Proof.
  exists (put_v_sys (put_s_props (<[name := chars v]> (s_props (v_sys w))) (put_s_tr (BCall ("property_set " +:+ name) (chars v) 0 :: v_tr w) (v_sys w))) w).
  split; [unfold set_prop, sys, zoom, property_set; rewrite (bind_run _ _ _ _ _ (syscall_run _ _ _)); by rewrite Hset|].
  assert (H : forall n, <[name := chars v]> (s_props (v_sys w)) !! n = if String.eqb name n then Some (chars v) else s_props (v_sys w) !! n).
  { intros n. destruct (String.eqb_spec name n) as [->|Hne]; [apply lookup_insert_eq|by apply lookup_insert_ne]. }
  unfold view_of, did, stored, fds, port_fd. simpl. seen_calls. by rewrite !H.
Qed.

Lemma set_other_run name v w : ~ In name watched -> exists w', set_prop name v w = Some (0, w') /\ view_of w' = did [set_to name v] (view_of w).
Proof.
  intros Hn. destruct (set_run name v w) as (w' & E & V). exists w'. split; [done|]. rewrite V. unfold stored.
  assert (H : forall n, In n watched -> String.eqb name n = false) by (intros n Hin; apply String.eqb_neq; by intros ->). by rewrite !H by (simpl; tauto).
Qed.

Lemma did_did a b v : did b (did a v) = did (a ++ b) v.
Proof. unfold did. simpl. by rewrite app_assoc. Qed.

Lemma with_fds_did l a v : with_fds l (did a v) = did a (with_fds l v).
Proof. done. Qed.

Lemma did_nil v : did [] v = v.
Proof. destruct v. unfold did. simpl. by rewrite app_nil_r. Qed.

(** So many looks, or fewer when the filter is up. *)
Definition waited_for (n : nat) (polls : list text) : Prop :=
  (exists l, polls = l ++ [chars "1"] /\ (length l < n)%nat /\ Forall (fun v => v <> chars "1") l) \/
  length polls = n /\ Forall (fun v => v <> chars "1") polls.

Lemma filter_poll_run n : forall w, exists polls w', filter_poll n w = Some (tt, w') /\ waited_for n polls /\ view_of w' = did (map (looked status) polls) (view_of w).
Proof.
  induction n as [|n IH]; intros w; cbn [filter_poll].
  { exists [], w. split; [done|]. split; [by right|by rewrite did_nil]. }
  destruct (look_run status "0" w) as (w1 & E1 & V1). set (v := prop_value _ _ _) in *. fold status. rewrite (bind_run _ _ _ _ _ E1). unfold is_text. case_bool_decide as Hv.
  { exists [v], w1. split; [done|]. split; [|done]. left. exists []. rewrite Hv. split; [done|]. split; [simpl; lia|constructor]. }
  assert (E2 : exists w2, sys (usleep WAIT_TIMEOUT) w1 = Some (tt, w2) /\ view_of w2 = view_of w1) by by eexists.
  destruct E2 as (w2 & E2 & V2). rewrite (bind_run _ _ _ _ _ E2). destruct (IH w2) as (polls & w3 & E3 & Hp & V3). exists (v :: polls), w3. split; [done|]. split.
  - destruct Hp as [(l & -> & Hl & Hf)|[Hl Hf]]; [left; exists (v :: l)|right]; repeat split; simpl; try lia; by constructor.
  - rewrite V3, V2, V1, did_did. done.
Qed.

Lemma filter_run w : exists l w', start_hci_filter w = Some (tt, w') /\ filter_started l /\ view_of w' = did l (view_of w).
Proof.
  assert (Hf : ~ In BT_VND_FILTER_START watched) by (unfold BT_VND_FILTER_START; destruct PANIC_ON_SOC_CRASH; simpl; intuition discriminate).
  unfold start_hci_filter, filter_started. destruct (look_run BT_VND_FILTER_START "" w) as (w1 & E1 & V1). set (v := prop_value _ _ _) in *. rewrite (bind_run _ _ _ _ _ E1).
  destruct (is_text v "true") eqn:Ht.
  { eexists _, w1. split; [done|]. split; [|exact V1]. exists v. by rewrite Ht. }
  destruct (set_other_run status "0" w1) as (w2 & E2 & V2); [simpl; intuition discriminate|]. fold status. rewrite (bind_run _ _ _ _ _ E2).
  destruct (set_other_run BT_VND_FILTER_START "true" w2 Hf) as (w3 & E3 & V3). rewrite (bind_run _ _ _ _ _ E3). destruct (filter_poll_run 45 w3) as (polls & w4 & E4 & Hp & V4).
  eexists _, w4. split; [done|]. split; [exists v; rewrite Ht; exists polls; by split|]. by rewrite V4, V3, V2, V1, !did_did.
Qed.

Lemma clock_run fd cmd w : exists x w', port (userial_clock_operation fd cmd) w = Some (x, w') /\ view_of w' = view_of w.
Proof.
  unfold port, zoom, userial_clock_operation. destruct (_ || _); [|destruct (_ =? _)]; eexists _, _; (split; [reflexivity|]); unfold view_of; simpl; by rewrite ?app_nil_r.
Qed.

(** ** Steps that change descriptors *)

Lemma keeps_usys {A B} (g : sysw -> B) (m : M sysw A) : keeps g m -> keeps (fun u => g (u_sys u)) (usys m).
Proof. intros H u x u'. unfold usys, zoom. destruct (m (u_sys u)) as [[y s]|] eqn:E; [|done]. intros [= <- <-]. exact (H _ _ _ E). Qed.

Definition line_state (u : uworld) : list act * nat * text := (sent (s_tr (u_sys u)), nread (s_tr (u_sys u)), port_name (u_cb u)).

Lemma keeps_ucall f args : line_call f = true -> keeps line_state (usys (syscall f args)).
Proof. intros Hl u x u' E. injection E as _ <-. unfold line_state. simpl. by rewrite Hl, app_nil_r. Qed.

Lemma keeps_settings stop baud : keeps line_state (line_settings stop baud).
Proof.
  assert (Ht : forall fd, keeps line_state (usys (tcgetattr fd))) by (intros fd u x u' E; injection E as _ <-; unfold line_state; cbn; by rewrite app_nil_r).
  unfold line_settings, ucall. keeps_solve; by apply keeps_ucall.
Qed.

Lemma keeps_wake fd : keeps line_state (if BT_WAKE_VIA_USERIAL_IOCTL then userial_ioctl_init_bt_wake fd else mret tt).
Proof. unfold userial_ioctl_init_bt_wake, ucall. keeps_solve; by apply keeps_ucall. Qed.

(** Opening the port opens the file of its name, and does nothing else that
    can be seen. *)
Lemma port_open_acts u fd u' : userial_vendor_open userial_init_cfg u = Some (fd, u') ->
  line_state u' = (sent (s_tr (u_sys u)) ++ [opened_file (to_string (port_name (u_cb u))) fd], nread (s_tr (u_sys u)), port_name (u_cb u)).
Proof.
  unfold userial_vendor_open. erewrite bind_run by reflexivity. change (userial_to_tcio_baud _) with (true, snd (userial_to_tcio_baud (cfg_baud userial_init_cfg))).
  cbn [negb]. change (data_bits _) with (Some CS8). change (parity _) with (Some 0). change (stop_bits _) with (Some 0). cbv iota. erewrite bind_run by reflexivity. intros E.
  apply run_inv in E as (fd1 & u1 & E1 & E). assert (L1 : line_state u1 = (sent (s_tr (u_sys u)) ++ [opened_file (to_string (port_name (u_cb u))) fd1], nread (s_tr (u_sys u)), port_name (u_cb u))).
  { clear E. unfold usys, zoom, sopen, new_fd in E1. erewrite bind_run in E1 by reflexivity. erewrite bind_run in E1 by reflexivity. cbv zeta in E1.
    destruct (_ <? 0); injection E1 as <- <-; unfold line_state; simpl; seen_calls; done. }
  apply run_inv in E as ([] & u2 & E2 & E). injection E2 as <-. destruct (fd1 =? -1) eqn:Ef; [apply Z.eqb_eq in Ef as ->; by injection E as <- <-|].
  apply run_inv in E as ([] & u3 & E3 & E). apply run_inv in E as ([] & u4 & E4 & E). injection E as <- <-.
  rewrite (keeps_wake _ _ _ _ E4), (keeps_settings _ _ _ _ _ E3). exact L1.
Qed.

Context (Hopen : forall tr path, 0 <= env_call tr ("open " +:+ path) []).

Lemma port_step w : exists fd w', port (userial_vendor_open userial_init_cfg) w = Some (fd, w') /\ 0 <= fd /\
  view_of w' = did [opened_file (to_string (w_name (view_of w))) fd] (with_port fd (with_fds (fd :: fds w) (view_of w))).
Proof.
  destruct (port_open_run userial_init_cfg 115200 (v_u w)) as (fd & u & E & Hfd & Hp & Hf & Hps & _); [simpl; tauto|done|done|done|apply Hopen|].
  exists fd, (put_v_u u w). split; [by apply zoom_run|]. split; [done|]. pose proof (port_open_acts _ _ _ E) as K. injection K as Ks Kn Kp.
  unfold view_of, did, with_port, with_fds, fds, port_fd, v_tr, v_sys in *. simpl. by rewrite Ks, Kn, Kp, Hf, Hp, Hps.
Qed.

Context (Hsock : forall tr, 0 <= env_call tr "socket" []) (Hconn : forall tr name args, env_call tr ("connect " +:+ name) args = 0).

Lemma socket_step name w : exists fd w', connect_to_local_socket name w = Some (fd, w') /\ 0 <= fd /\ view_of w' = did (connected name fd) (with_fds (fd :: fds w) (view_of w)).
Proof.
  set (fd := env_call (v_tr w) "socket" []). assert (Hfd : 0 <= fd) by apply Hsock.
  set (w1 := put_v_sys {| s_fds := fd :: fds w; s_props := s_props (v_sys w); s_tr := BCall "socket" [] fd :: v_tr w |} w).
  assert (E1 : sys (new_fd "socket" []) w = Some (fd, w1)).
  { unfold sys, zoom, new_fd. erewrite bind_run by reflexivity. fold (v_tr w) fd. rewrite Z.max_r by lia. by rewrite (proj2 (Z.ltb_ge _ _)) by lia. }
  assert (E2 : vcall ("connect " +:+ name) [fd] w1 = Some (0, put_v_sys (put_s_tr (BCall ("connect " +:+ name) [fd] 0 :: v_tr w1) (v_sys w1)) w1)).
  { unfold vcall, sys, zoom, syscall. erewrite bind_run by reflexivity. cbv zeta. by rewrite Hconn. }
  exists fd. eexists. split; [|split; [done|]].
  - unfold connect_to_local_socket. rewrite (bind_run _ _ _ _ _ E1), (proj2 (Z.ltb_ge fd 0)) by done. rewrite (bind_run _ _ _ _ _ E2). reflexivity.
  - unfold view_of, did, with_fds, fds, port_fd. simpl. seen_calls. by rewrite <- app_assoc.
Qed.

Lemma sclose_step fd l w : fds w = fd :: l -> exists r w', sys (sclose fd) w = Some (r, w') /\ view_of w' = did [closed fd] (with_fds l (view_of w)).
Proof.
  intros Hf. eexists _, _. split; [unfold sys, zoom; rewrite (sclose_run fd (v_sys w)) by (fold (fds w); rewrite Hf; apply open_head); reflexivity|].
  unfold view_of, did, with_fds, fds, port_fd. simpl. fold (fds w). by rewrite Hf, remove_head.
Qed.

Lemma rome_step {A} (m : BtEnv -> M rworld A) w x r : m (bt_of w) (put_b_tr (v_tr w) (v_rome w)) = Some (x, r) ->
  exists w', on_rome m w = Some (x, w') /\ view_of w' = ran r (view_of w).
Proof. intros E. eexists. split; [unfold on_rome, zoom; rewrite E; reflexivity|done]. Qed.

(** What comes first: the other client is not downloading; whether the
    controller has been initialised is known from the property. *)
Lemma checks_step w (Hturns : (0 < turns)%nat) : prop_value (s_props (v_sys w)) prog (chars "null") <> chars "ant" ->
  exists w', (wait_for_patch_download turns false;; e ← get_prop "ro.bluetooth.emb_wp_mode" ""; up ← is_soc_initialized; mret (e, up)) w =
      Some ((prop_value (s_props (v_sys w)) emb [], is_text (prop_value (s_props (v_sys w)) soc []) "1"), w') /\
    view_of w' = did [looked prog (prop_value (s_props (v_sys w)) prog (chars "null")); looked emb (prop_value (s_props (v_sys w)) emb []);
                      looked soc (prop_value (s_props (v_sys w)) soc [])] (view_of w).
Proof.
  intros Hprog.
  assert (Hpv : forall l name d u u', In name watched -> view_of u' = did l (view_of u) -> prop_value (s_props (v_sys u')) name d = prop_value (s_props (v_sys u)) name d).
  { intros l name d u u' Hin V. unfold prop_value. destruct Hin as [<-|[<-|[<-|[]]]]; [apply (f_equal w_prog) in V|apply (f_equal w_soc) in V|apply (f_equal w_emb) in V]; simpl in V; by rewrite V. }
  destruct (watched_run prog "null" w) as (w0 & E0 & V0); [simpl; tauto|].
  assert (E0' : wait_for_patch_download turns false w = Some (tt, w0)).
  { unfold wait_for_patch_download. destruct turns; [lia|]. cbn [patch_poll]. fold prog. rewrite (bind_run _ _ _ _ _ E0). unfold is_text. by rewrite bool_decide_false. }
  rewrite (bind_run _ _ _ _ _ E0'). destruct (watched_run emb "" w0) as (w1 & E1 & V1); [simpl; tauto|]. fold emb. rewrite (bind_run _ _ _ _ _ E1).
  destruct (watched_run soc "" w1) as (w2 & E2 & V2); [simpl; tauto|]. rewrite V0, did_did in V1. cbv zeta in V0, V1, V2.
  rewrite (Hpv _ emb _ w w0 ltac:(simpl; tauto) V0) in V1 |- *. rewrite (Hpv _ soc _ w w1 ltac:(simpl; tauto) V1) in E2, V2.
  assert (E2' : is_soc_initialized w1 = Some (is_text (prop_value (s_props (v_sys w)) soc []) "1", w2)) by (unfold is_soc_initialized; fold soc; by rewrite (bind_run _ _ _ _ _ E2)).
  rewrite (bind_run _ _ _ _ _ E2'). exists w2. split; [done|]. by rewrite V2, V1, did_did.
Qed.

End Steps.

(** ** The bring-up *)

Section BringUp.
Context `{SE : SysEnv} `{BC : BuildCfg} (turns : nat) (Hturns : (0 < turns)%nat).
Context (Hset : forall tr name v, env_call tr ("property_set " +:+ name) v = 0).
Context (Hquiet : forall tr ps name, In name watched -> env_props tr ps !! name = ps !! name).
Context (Hopen : forall tr path, 0 <= env_call tr ("open " +:+ path) []).
Context (Hsock : forall tr, 0 <= env_call tr "socket" []) (Hconn : forall tr name args, env_call tr ("connect " +:+ name) args = 0).
Context (Hw : writes_all) (stream : list Z) (Hf : feeds stream) (Hmem : has_memory) (Hio : forall tr op, 0 <= env_userial tr op).
Context (HP : READ_BT_ADDR_FROM_PROP = false) (HN : BT_NV_SUPPORT = false).

(** The device the controller code sees. *)
Definition env_at (addr : list Z) (ldo : bool) : BtEnv := {|
  env_bwrite := env_bwrite; env_bread := env_bread; env_fopen := env_fopen; env_bmalloc := env_bmalloc; env_userial := env_userial; env_stack := env_stack;
  env_soclog := env_soclog; env_call := env_call; env_property := env_property; enable_extldo := ldo; vnd_local_bd_addr := addr |}.

(** The files of the version the controller reports, and its answers. *)
Record firmware_ready (addr : list Z) (ldo : bool) (pp np : string) (patch : list Z) (tags : list nvm_tag) (post : list Z) (s : script) : Prop := {
  fr_version : In (version s, (pp, np)) firmware;
  fr_patch : has_file pp patch;
  fr_nvm : has_file np (encode_nvm tags post);
  fr_type : byte 0 patch = TLV_TYPE_PATCH;
  fr_len : (28 <= length patch)%nat /\ Z.of_nat (length patch) < 2 ^ 31;
  fr_mode : supported (version s) TLV_TYPE_PATCH (byte 14 patch);
  fr_tags : nvm_ok tags;
  fr_size : Z.of_nat (length (encode_nvm tags post)) < 2 ^ 31;
  fr_script : script_ok patch (encode_nvm (map (@with_addr (env_at addr ldo)) tags) post) s
}.

Lemma soc_init_step fd pp np patch tags post s rest w : length (v_bd_addr w) = 6%nat -> wipower_flag (v_rome w) <> WIPOWER_IN_EMBEDDED_MODE ->
  wait_vsc_evt (v_rome w) = true -> firmware_ready (v_bd_addr w) (v_extldo w) pp np patch tags post s ->
  let nvm := encode_nvm (map (@with_addr (env_at (v_bd_addr w) (v_extldo w))) tags) post in
  unread stream (v_tr w) = @replies (env_at (v_bd_addr w) (v_extldo w)) patch nvm s ++ rest ->
  exists err r, @rome_soc_init (bt_of w) fd turns (put_b_tr (v_tr w) (v_rome w)) = Some (err, r) /\ 0 <= err /\ unread stream (b_tr r) = rest /\ wait_vsc_evt r = true /\
    sent (b_tr r) = sent (v_tr w) ++ outs fd (@bring_up_bytes (env_at (v_bd_addr w) (v_extldo w)) patch nvm).
Proof.
  intros Ha Hwp Hv [H1 H2 H3 H4 H5 H6 H7 H8 H9] nvm Hu.
  destruct (@soc_init_run (bt_of w) Ha fd Hw stream Hf turns Hturns Hmem Hio pp np patch tags post s rest (put_b_tr (v_tr w) (v_rome w)) Hwp Hv H1 H2 H3 H4 H5 H6 H7 H8 H9 Hu)
    as (err & r & E & He & _ & Hr & Hv' & Hs). by exists err, r.
Qed.

(** Facts about a state from its view. *)
Lemma view_facts w v : view_of w = v -> v_rome w = w_rome v /\ sent (v_tr w) = w_sent v /\ nread (v_tr w) = w_nread v /\ fds w = w_fds v /\ port_fd w = w_port v /\
  port_name (u_cb (v_u w)) = w_name v /\ v_bd_addr w = w_addr v /\ v_extldo w = w_ldo v.
Proof. by intros <-. Qed.

(** The download over the serial port. *)
Lemma download_step embv pp np patch tags post s rest w : is_text embv "true" = false -> length (v_bd_addr w) = 6%nat ->
  wipower_flag (v_rome w) <> WIPOWER_IN_EMBEDDED_MODE -> wait_vsc_evt (v_rome w) = true -> firmware_ready (v_bd_addr w) (v_extldo w) pp np patch tags post s ->
  let nvm := encode_nvm (map (@with_addr (env_at (v_bd_addr w) (v_extldo w))) tags) post in
  unread stream (v_tr w) = @replies (env_at (v_bd_addr w) (v_extldo w)) patch nvm s ++ rest ->
  exists fd r w', rome_download turns false embv w = Some ((0, false, fd), w') /\ unread stream (b_tr r) = rest /\ wait_vsc_evt r = true /\
    sent (b_tr r) = sent (v_tr w) ++ [set_to prog "bt"; opened_file (to_string (port_name (u_cb (v_u w)))) fd; set_to soc "0"] ++
      outs fd (@bring_up_bytes (env_at (v_bd_addr w) (v_extldo w)) patch nvm) /\
    view_of w' = did [set_to soc "1"; closed fd] (stored soc (chars "1") (stored prog (chars "bt") (with_port fd (ran r (view_of w))))).
Proof.
  intros Hemb Ha Hwp Hv Hfr nvm Hu. unfold rome_download.
  destruct (set_run Hset prog "bt" w) as (w1 & E1 & V1). rewrite (bind_run _ _ _ _ _ E1).
  destruct (port_step Hopen w1) as (fd & w2 & E2 & Hfd & V2). rewrite (bind_run _ _ _ _ _ E2), (proj2 (Z.ltb_ge fd 0)) by done.
  destruct (clock_run fd USERIAL_OP_CLK_ON w2) as (? & w3 & E3 & V3). rewrite (bind_run _ _ _ _ _ E3). rewrite Hemb. erewrite bind_run by reflexivity.
  destruct (set_run Hset soc "0" w3) as (w4 & E4 & V4). rewrite (bind_run _ _ _ _ _ E4).
  assert (E5 : read_bd_addr w4 = Some (tt, w4)) by (unfold read_bd_addr; rewrite HP, HN; done). rewrite (bind_run _ _ _ _ _ E5).
  change (fds w1) with (w_fds (view_of w1)) in V2. rewrite V3, V2, V1 in V4. destruct (view_facts _ _ V4) as (Rr & Rs & Rn & Rf & Rp & _ & Ra & Rl). cbn -[sent] in Rr, Rs, Rn, Rf, Rp, Ra, Rl.
  destruct (soc_init_step fd pp np patch tags post s rest w4) as (err & r & E6 & He & Hur & Hvr & Hsr); [by rewrite Ra|by rewrite Rr|by rewrite Rr|by rewrite Ra, Rl| |].
  { rewrite Ra, Rl. unfold unread in *. by rewrite Rn. }
  rewrite Ra, Rl, Rs in Hsr. destruct (rome_step (fun BE => @rome_soc_init BE fd turns) w4 err r E6) as (w5 & E7 & V5). rewrite (bind_run _ _ _ _ _ E7), (proj2 (Z.ltb_ge err 0)) by done.
  destruct (set_run Hset soc "1" w5) as (w6 & E8 & V6). rewrite (bind_run _ _ _ _ _ E8).
  destruct (clock_run fd USERIAL_OP_CLK_OFF w6) as (? & w7 & E9 & V7). rewrite (bind_run _ _ _ _ _ E9). rewrite V6, V5, V4 in V7.
  destruct (sclose_step fd (fds w) w7) as (? & w8 & E10 & V8); [by apply (f_equal w_fds) in V7|]. rewrite (bind_run _ _ _ _ _ E10). rewrite V7 in V8.
  exists fd, r, w8. split; [done|]. split; [done|]. split; [done|]. split; [by rewrite Hsr, <- !app_assoc|]. rewrite V8, with_fds_did, did_did. reflexivity.
Qed.

(** The channel of the filter, on which the log is set up. *)
Lemma channel_step embv arr params code ps rest w : is_text embv "true" = false -> length (v_bd_addr w) = 6%nat -> wait_vsc_evt (v_rome w) = true -> accepts params -> (length ps < 256)%nat ->
  unread stream (v_tr w) = packet 0xFF params ++ packet code ps ++ rest ->
  exists fd on l r w', rome_channel turns false false embv arr w = Some ((1, replicate CH_MAX fd ++ drop CH_MAX arr), w') /\ 0 <= fd /\ unread stream (b_tr r) = rest /\
    (if BT_SOC_TYPE_ROME then filter_started l else l = []) /\
    sent (b_tr r) = sent (v_tr w) ++ l ++ connected "bt_sock" fd ++ outs fd (log_command on) /\ view_of w' = with_port fd (with_fds (fd :: fds w) (ran r (view_of w))).
Proof.
  intros Hemb Ha Hv Hp Hps Hu. unfold rome_channel. rewrite andb_false_r.
  assert (E1 : exists l w1, (if BT_SOC_TYPE_ROME then start_hci_filter else mret tt) w = Some (tt, w1) /\ (if BT_SOC_TYPE_ROME then filter_started l else l = []) /\ view_of w1 = did l (view_of w)).
  { destruct BT_SOC_TYPE_ROME; [by apply filter_run|]. exists [], w. by rewrite did_nil. }
  destruct E1 as (l & w1 & E1 & Hl & V1). rewrite (bind_run _ _ _ _ _ E1). destruct (socket_step Hsock Hconn "bt_sock" w1) as (fd & w2 & E2 & Hfd & V2).
  assert (E3 : (fd ← connect_to_local_socket "bt_sock"; port (modify (put_u_fd fd));; mret fd) w1 = Some (fd, put_v_u (put_u_fd fd (v_u w2)) w2)) by (by rewrite (bind_run _ _ _ _ _ E2)).
  rewrite (bind_run _ _ _ _ _ E3), (proj2 (Z.eqb_neq fd (-1))) by lia. set (w3 := put_v_u _ w2). assert (V3 : view_of w3 = with_port fd (view_of w2)) by done.
  change (fds w1) with (w_fds (view_of w1)) in V2. rewrite V2, V1 in V3. rewrite Hemb. cbn [andb]. erewrite bind_run by reflexivity. cbn [negb].
  destruct (view_facts _ _ V3) as (Rr & Rs & Rn & _ & _ & _ & Ra & _). cbn -[sent connected] in Rr, Rs, Rn, Ra.
  destruct (@log_run (bt_of w3) (eq_trans (f_equal length Ra) Ha) fd Hw stream Hf turns Hturns params code ps rest (put_b_tr (v_tr w3) (v_rome w3))) as (on & r & E4 & Hs & Hur); [change (wait_vsc_evt (v_rome w2) = true); by rewrite Rr|done|done| |].
  { unfold unread in *. simpl b_tr. by rewrite Rn. }
  destruct (rome_step (fun BE => @enable_controller_log BE fd turns false) w3 tt r E4) as (w4 & E5 & V4). rewrite (bind_run _ _ _ _ _ E5). rewrite V3 in V4.
  exists fd, on, l, r, w4. split; [done|]. split; [done|]. split; [done|]. split; [done|]. split; [simpl b_tr in Hs; by rewrite Hs, Rs, <- !app_assoc|]. by rewrite V4.
Qed.

(** C18: opening the transport of a Rome controller that has not been
    initialised, when every call of it succeeds: everything that is done is
    this, in this order.  The properties are looked at; the download is
    announced; the serial port is opened, and the requests, the patch and the
    configuration with the address of the device go out over it and nothing
    else does; the controller is marked as initialised, the port is closed and
    the download is marked as ended; the filter is started, unless it was, and
    waited for (where the build has it); then the socket of bluetooth is
    connected and the command for the log goes out over it.  Every answer is
    read and none beyond, and the array holds the socket. *)
Theorem rome_open_brings_up arr w pp np patch tags post s log_ev log_done rest (Hsoc : btSocType w = BT_SOC_ROME) (Harr : (CH_MAX <= length arr)%nat)
  (Haddr : length (v_bd_addr w) = 6%nat) (Hwp : wipower_flag (v_rome w) <> WIPOWER_IN_EMBEDDED_MODE) (Hv : wait_vsc_evt (v_rome w) = true)
  (Hprog : prop_value (s_props (v_sys w)) prog (chars "null") <> chars "ant") (Hnew : prop_value (s_props (v_sys w)) soc [] <> chars "1")
  (Hemb : prop_value (s_props (v_sys w)) emb [] <> chars "true") (Hfw : firmware_ready (v_bd_addr w) (v_extldo w) pp np patch tags post s)
  (Hlog : accepts log_ev) (Hdone : (length log_done.2 < 256)%nat) :
  let E := env_at (v_bd_addr w) (v_extldo w) in let nvm := encode_nvm (map (@with_addr E) tags) post in
  unread stream (v_tr w) = @replies E patch nvm s ++ packet 0xFF log_ev ++ packet log_done.1 log_done.2 ++ rest ->
  exists serial fd on started w', op turns (BT_VND_OP_USERIAL_OPEN arr) w = Some ((1, replicate CH_MAX fd ++ drop CH_MAX arr), w') /\
    fds w' = fd :: fds w /\ port_fd w' = fd /\ (if BT_SOC_TYPE_ROME then filter_started started else started = []) /\
    sent (v_tr w') = sent (v_tr w) ++
      [looked prog (prop_value (s_props (v_sys w)) prog (chars "null")); looked emb (prop_value (s_props (v_sys w)) emb []); looked soc (prop_value (s_props (v_sys w)) soc []);
       set_to prog "bt"; opened_file (to_string (port_name (u_cb (v_u w)))) serial; set_to soc "0"] ++
      outs serial (@bring_up_bytes E patch nvm) ++
      [set_to soc "1"; closed serial; set_to prog "null"; set_to "wc_transport.clean_up" "0"] ++
      started ++ connected "bt_sock" fd ++ outs fd (log_command on) /\
    unread stream (v_tr w') = rest /\ s_props (v_sys w') !! soc = Some (chars "1") /\ s_props (v_sys w') !! prog = Some (chars "null").
Proof.
  intros E nvm Hu. cbn [op]. unfold userial_open. rewrite (proj2 (Nat.leb_le _ _) Harr). cbn [negb]. erewrite bind_run by reflexivity. rewrite Hsoc.
  change (BT_SOC_ROME =? BT_SOC_DEFAULT) with false. change (BT_SOC_ROME =? BT_SOC_AR3K) with false. change (BT_SOC_ROME =? BT_SOC_ROME) with true. cbv iota.
  destruct (checks_step turns Hquiet w Hturns Hprog) as (w2 & E2 & V2). set (looks := [looked prog _; _; _]) in *.
  apply run_inv in E2 as ([] & u0 & E0 & E2). apply run_inv in E2 as (ev & u1 & E1 & E2). apply run_inv in E2 as (up & u2 & E2' & E2). injection E2 as -> -> ->. replace (is_text _ "1") with false in E2' by (symmetry; by apply bool_decide_false).
  unfold rome_open. rewrite (bind_run _ _ _ _ _ E0), (bind_run _ _ _ _ _ E1), (bind_run _ _ _ _ _ E2'). clear E0 E1 E2'. cbv iota.
  set (embv := prop_value (s_props (v_sys w)) emb []) in *. assert (He : is_text embv "true" = false) by by apply bool_decide_false.
  destruct (view_facts _ _ V2) as (Rr & Rs & Rn & Rf & Rp & Rm & Ra & Rl). cbn -[sent looks] in Rr, Rs, Rn, Rf, Rp, Rm, Ra, Rl.
  destruct (download_step embv pp np patch tags post s (packet 0xFF log_ev ++ packet log_done.1 log_done.2 ++ rest) w2) as (serial & r & w3 & E3 & Hur & Hvr & Hsr & V3);
    [done|by rewrite Ra|by rewrite Rr|by rewrite Rr|by rewrite Ra, Rl|rewrite Ra, Rl; unfold unread in *; rewrite Rn; exact Hu|].
  rewrite (bind_run _ _ _ _ _ E3). cbv beta iota. rewrite Ra, Rl, Rs, Rm in Hsr. fold E nvm in Hsr.
  destruct (set_run Hset prog "null" w3) as (w4 & E4 & V4). fold prog. rewrite (bind_run _ _ _ _ _ E4).
  destruct (set_other_run Hset "wc_transport.clean_up" "0" w4 ltac:(simpl; intuition discriminate)) as (w5 & E5 & V5). rewrite (bind_run _ _ _ _ _ E5).
  change (negb (0 =? -1)) with true. cbv iota. rewrite V4, V3, V2 in V5. destruct (view_facts _ _ V5) as (Qr & Qs & Qn & Qf & _ & _ & Qa & _). cbn -[sent looks] in Qr, Qs, Qn, Qf, Qa.
  destruct (channel_step embv arr log_ev log_done.1 log_done.2 rest w5) as (fd2 & on & l & r2 & w6 & E6 & Hfd & Hur2 & Hl & Hs2 & V6);
    [done|by rewrite Qa|by rewrite Qr|done|done|unfold unread in *; by rewrite Qn|].
  exists serial, fd2, on, l, w6. split; [exact E6|]. rewrite V5 in V6. destruct (view_facts _ _ V6) as (_ & Ts & Tn & Tf & Tp & _). cbn -[sent looks] in Ts, Tn, Tf, Tp.
  split; [by rewrite Tf, Qf|]. split; [done|]. split; [done|]. split; [rewrite Ts, Hs2, Qs, Hsr; unfold looks; by rewrite <- !app_assoc|]. split; [unfold unread in *; by rewrite Tn|].
  split; [by apply (f_equal w_soc) in V6|by apply (f_equal w_prog) in V6].
Qed.

End BringUp.

(** ** What is left open *)

Section Total.
Context `{SE : SysEnv} `{BC : BuildCfg} (turns : nat) (Hturns : (0 < turns)%nat).
Context (Hquiet : forall tr ps name, In name watched -> env_props tr ps !! name = ps !! name).
Context (Hnv : forall tr a, env_nv tr = Some a -> (6 <= length a)%nat).

(** Code that ends, from every state. *)
Definition returns {W A} (m : M W A) : Prop := forall w, exists x w', m w = Some (x, w').

Lemma returns_bind {W A B} (m : M W A) (f : A -> M W B) : returns m -> (forall x, returns (f x)) -> returns (m ≫= f).
Proof. intros Hm Hf w. destruct (Hm w) as (x & w1 & E). destruct (Hf x w1) as (y & w2 & E2). exists y, w2. by rewrite (bind_run _ _ _ _ _ E). Qed.

Lemma returns_zoom {W V A} (g : W -> V) s (m : M V A) : returns m -> returns (zoom g s m).
Proof. intros Hm w. destruct (Hm (g w)) as (x & v & E). eexists _, _. by apply zoom_run. Qed.

Lemma returns_get_prop name d : returns (get_prop name d).
Proof. intros w. eexists _, _. apply get_prop_run. Qed.

Lemma returns_set_prop name v : returns (set_prop name v).
Proof. intros w. apply set_prop_total. Qed.

Lemma returns_new_fd f args : returns (new_fd f args).
Proof. intros w. unfold new_fd. do 2 erewrite bind_run by reflexivity. destruct (_ <? 0); by eexists _, _. Qed.

Lemma returns_sclose fd : returns (sclose fd).
Proof. intros w. unfold sclose. erewrite bind_run by reflexivity. destruct (fd_open _ _); by eexists _, _. Qed.

Lemma returns_port_open : returns (port (userial_vendor_open userial_init_cfg)).
Proof.
  apply returns_zoom. intros u. unfold userial_vendor_open. erewrite bind_run by reflexivity.
  change (userial_to_tcio_baud _) with (true, snd (userial_to_tcio_baud (cfg_baud userial_init_cfg))). cbn [negb].
  change (data_bits _) with (Some CS8). change (parity _) with (Some 0). change (stop_bits _) with (Some 0). cbv iota. erewrite bind_run by reflexivity.
  destruct (returns_zoom u_sys put_u_sys _ (returns_new_fd ("open " +:+ to_string (port_name (u_cb (put_u_fd (-1) u)))) []) (put_u_fd (-1) u)) as (fd & u1 & E1).
  unfold usys, sopen. rewrite (bind_run _ _ _ _ _ E1). erewrite bind_run by reflexivity. destruct (fd =? -1); [by eexists _, _|].
  destruct (line_settings_run 0 (snd (userial_to_tcio_baud (cfg_baud userial_init_cfg))) (put_u_fd fd u1)) as (c & u2 & E2 & _). rewrite (bind_run _ _ _ _ _ E2).
  destruct BT_WAKE_VIA_USERIAL_IOCTL; by eexists _, _.
Qed.

Lemma returns_filter : returns start_hci_filter.
Proof.
  assert (H : forall n, returns (filter_poll n)).
  { induction n as [|n IH]; cbn [filter_poll]; [by eexists _, _|]. apply returns_bind; [apply returns_get_prop|]. intros v. destruct (is_text v "1"); [by eexists _, _|].
    apply returns_bind; [by eexists _, _|done]. }
  unfold start_hci_filter. apply returns_bind; [apply returns_get_prop|]. intros v. destruct (is_text v "true"); [by eexists _, _|].
  do 2 (apply returns_bind; [apply returns_set_prop|intros _]). apply H.
Qed.

Lemma returns_bd_addr : returns read_bd_addr.
Proof.
  assert (Hr : returns (bt_vendor_nv_read 1)).
  { intros w. unfold bt_vendor_nv_read. destruct (1 =? NV_BD_ADDR_I); [|by eexists _, _]. do 2 erewrite bind_run by reflexivity. destruct (env_nv (v_tr w)) as [a|] eqn:Ea; [|by eexists _, _].
    rewrite slice_run by (pose proof (Hnv _ _ Ea); lia). do 2 erewrite bind_run by reflexivity. by eexists _, _. }
  unfold read_bd_addr. apply returns_bind.
  - destruct READ_BT_ADDR_FROM_PROP; [|by eexists _, _]. apply returns_bind; [apply returns_get_prop|]. intros v w. erewrite bind_run by reflexivity.
    destruct (match v with [] => None | _ => _ end); by eexists _, _.
  - intros b. destruct (BT_NV_SUPPORT && b); [|by eexists _, _]. apply returns_bind; [exact Hr|]. by eexists _, _.
Qed.

(** Nothing but the code of the controller changes its state. *)
Lemma keeps_rome_bd_addr : keeps v_rome read_bd_addr.
Proof. unfold read_bd_addr, bt_vendor_nv_read, get_prop, sys. keeps_solve. Qed.

(** The download to a controller that sends no event fails. *)
Lemma mute_download noise embv w : mute turns noise -> wipower_flag (v_rome w) <> WIPOWER_IN_EMBEDDED_MODE -> is_text embv "true" = false ->
  exists fd w', rome_download turns false embv w = Some ((-1, true, fd), w').
Proof.
  intros [M1 M2 M3 M4] Hwp He. unfold rome_download. destruct (returns_set_prop "wc_transport.patch_dnld_inprog" "bt" w) as (? & w1 & E1). rewrite (bind_run _ _ _ _ _ E1).
  destruct (returns_port_open w1) as (fd & w2 & E2). rewrite (bind_run _ _ _ _ _ E2). destruct (fd <? 0); [by eexists _, _|].
  destruct (clock_run fd USERIAL_OP_CLK_ON w2) as (? & w3 & E3 & _). rewrite (bind_run _ _ _ _ _ E3), He. erewrite bind_run by reflexivity.
  destruct (returns_set_prop "wc_transport.soc_initialized" "0" w3) as (? & w4 & E4). rewrite (bind_run _ _ _ _ _ E4).
  destruct (returns_bd_addr w4) as ([] & w5 & E5). rewrite (bind_run _ _ _ _ _ E5).
  assert (Hr : v_rome w5 = v_rome w).
  { rewrite (keeps_rome_bd_addr _ _ _ E5). unfold set_prop, port, sys in *. assert (H1 : forall A (m : M sysw A), keeps v_rome (zoom v_sys put_v_sys m)) by (intros; keeps_solve).
    assert (H2 : forall A (m : M uworld A), keeps v_rome (zoom v_u put_v_u m)) by (intros; keeps_solve). by rewrite (H1 _ _ _ _ _ E4), (H2 _ _ _ _ _ E3), (H2 _ _ _ _ _ E2), (H1 _ _ _ _ _ E1). }
  destruct (@mute_soc_init (bt_of w5) fd turns noise (@Build_mute (bt_of w5) turns noise M1 M2 M3 M4) (put_b_tr (v_tr w5) (v_rome w5))) as (err & r & E6 & Hn); [simpl; by rewrite Hr|].
  destruct (rome_step (fun BE => @rome_soc_init BE fd turns) w5 err r E6) as (w6 & E7 & _). rewrite (bind_run _ _ _ _ _ E7), (proj2 (Z.ltb_lt _ _) Hn).
  destruct (clock_run fd USERIAL_OP_CLK_OFF w6) as (? & w7 & E8 & _). rewrite (bind_run _ _ _ _ _ E8). by eexists _, _.
Qed.

(** The channel where nothing is left to be set up. *)
Lemma channel_up embv arr w : is_text embv "true" = false -> exists r arr' w', rome_channel turns false true embv arr w = Some ((r, arr'), w') /\
  ((forall tr, 0 <= env_call tr "socket" []) -> (forall tr name args, 0 <= env_call tr ("connect " +:+ name) args) -> r = 1).
Proof.
  intros He. unfold rome_channel. rewrite andb_false_r.
  assert (E1 : exists w1, (if BT_SOC_TYPE_ROME then start_hci_filter else mret tt) w = Some (tt, w1)) by (destruct BT_SOC_TYPE_ROME; [destruct (returns_filter w) as ([] & w1 & E1)|]; by eexists).
  destruct E1 as (w1 & E1). rewrite (bind_run _ _ _ _ _ E1).
  assert (E2 : exists fd w2, connect_to_local_socket "bt_sock" w1 = Some (fd, w2) /\
    ((forall tr, 0 <= env_call tr "socket" []) -> (forall tr name args, 0 <= env_call tr ("connect " +:+ name) args) -> fd <> -1)).
  { unfold connect_to_local_socket. destruct (returns_zoom v_sys put_v_sys _ (returns_new_fd "socket" []) w1) as (fd & w2 & E2). unfold sys at 1. rewrite (bind_run _ _ _ _ _ E2).
    assert (Hfd : (forall tr, 0 <= env_call tr "socket" []) -> 0 <= fd).
    { intros Hs. unfold zoom, new_fd in E2. do 2 erewrite bind_run in E2 by reflexivity. pose proof (Hs (s_tr (v_sys w1))). cbv zeta in E2. destruct (_ <? 0) eqn:El; [apply Z.ltb_lt in El; lia|].
      injection E2 as <- _. lia. }
    destruct (Z.ltb_spec fd 0); [eexists _, _; split; [done|]; intros Hs _; pose proof (Hfd Hs); lia|].
    set (r := env_call (v_tr w2) ("connect " +:+ "bt_sock") [fd]).
    assert (E3 : exists w3, vcall ("connect " +:+ "bt_sock") [fd] w2 = Some (r, w3)) by by eexists. destruct E3 as (w3 & E3). rewrite (bind_run _ _ _ _ _ E3).
    destruct (Z.ltb_spec r 0).
    - destruct (returns_zoom v_sys put_v_sys _ (returns_sclose fd) w3) as (? & w4 & E4). unfold sys. rewrite (bind_run _ _ _ _ _ E4). eexists _, _. split; [done|]. intros _ Hc.
      pose proof (Hc (v_tr w2) "bt_sock" [fd]). unfold r in *. lia.
    - eexists _, _. split; [done|]. lia. }
  destruct E2 as (fd & w2 & E2 & Hfd).
  assert (E3 : (fd ← connect_to_local_socket "bt_sock"; port (modify (put_u_fd fd));; mret fd) w1 = Some (fd, put_v_u (put_u_fd fd (v_u w2)) w2)) by (by rewrite (bind_run _ _ _ _ _ E2)).
  rewrite (bind_run _ _ _ _ _ E3). destruct (Z.eqb_spec fd (-1)) as [->|Hne].
  - eexists _, _, _. split; [done|]. intros Hs Hc. by destruct (Hfd Hs Hc).
  - rewrite He. cbn [andb negb]. do 2 erewrite bind_run by reflexivity. by eexists _, _, _.
Qed.

(** C20: opening the transport of a Rome controller ends and hands out one
    descriptor or none, whatever the calls of the system return, when the
    controller is marked as initialised or sends no event: a success leaves
    open, of all the descriptors it used, the one in every slot of the array,
    and closing the transport gives it back; a failure leaves none.  With an
    initialised controller it succeeds when the socket can be connected, with
    one that sends no event it fails. *)
Theorem rome_open_close arr w noise (Hsoc : btSocType w = BT_SOC_ROME) (Harr : (CH_MAX <= length arr)%nat)
  (Hprog : prop_value (s_props (v_sys w)) prog (chars "null") <> chars "ant") (Hemb : prop_value (s_props (v_sys w)) emb [] <> chars "true")
  (Hctl : prop_value (s_props (v_sys w)) soc [] = chars "1" \/ mute turns noise /\ wipower_flag (v_rome w) <> WIPOWER_IN_EMBEDDED_MODE) :
  exists r arr' w', op turns (BT_VND_OP_USERIAL_OPEN arr) w = Some ((r, arr'), w') /\
    (r = 1 /\ (exists fd, 0 <= fd /\ fds w' = fd :: fds w /\ arr' = replicate CH_MAX fd ++ drop CH_MAX arr) /\
       (forall w2, line_of w2 = line_of w' -> btSocType w2 = BT_SOC_ROME ->
          exists w3, op turns BT_VND_OP_USERIAL_CLOSE w2 = Some ((0, []), w3) /\ fds w3 = fds w /\ port_fd w3 = -1) \/
     r = -1 /\ fds w' = fds w /\ arr' = arr) /\
    (prop_value (s_props (v_sys w)) soc [] = chars "1" -> (forall tr, 0 <= env_call tr "socket" []) -> (forall tr name args, 0 <= env_call tr ("connect " +:+ name) args) -> r = 1) /\
    (prop_value (s_props (v_sys w)) soc [] <> chars "1" -> r = -1).
Proof.
  set (up := is_text (prop_value (s_props (v_sys w)) soc []) "1").
  assert (E : exists r arr' w', op turns (BT_VND_OP_USERIAL_OPEN arr) w = Some ((r, arr'), w') /\
    (up = true -> (forall tr, 0 <= env_call tr "socket" []) -> (forall tr name args, 0 <= env_call tr ("connect " +:+ name) args) -> r = 1) /\ (up = false -> r = -1)).
  { cbn [op]. unfold userial_open. rewrite (proj2 (Nat.leb_le _ _) Harr). cbn [negb]. erewrite bind_run by reflexivity. rewrite Hsoc. cbn [Z.eqb]. change (BT_SOC_ROME =? BT_SOC_DEFAULT) with false.
    change (BT_SOC_ROME =? BT_SOC_AR3K) with false. change (BT_SOC_ROME =? BT_SOC_ROME) with true. cbv iota. destruct (checks_step turns Hquiet w Hturns Hprog) as (w2 & E2 & V2).
    apply run_inv in E2 as ([] & u0 & E0 & E2). apply run_inv in E2 as (ev & u1 & E1 & E2). apply run_inv in E2 as (up' & u2 & E2' & E2). injection E2 as -> -> ->. fold up in E2'.
    unfold rome_open. rewrite (bind_run _ _ _ _ _ E0), (bind_run _ _ _ _ _ E1), (bind_run _ _ _ _ _ E2'). clear E0 E1 E2'.
    set (embv := prop_value (s_props (v_sys w)) emb []) in *. assert (He : is_text embv "true" = false) by by apply bool_decide_false. destruct up eqn:Hup.
    - erewrite bind_run by reflexivity. cbv beta iota. destruct (returns_set_prop "wc_transport.patch_dnld_inprog" "null" w2) as (? & w3 & E3). rewrite (bind_run _ _ _ _ _ E3).
      destruct (returns_set_prop "wc_transport.clean_up" "0" w3) as (? & w4 & E4). rewrite (bind_run _ _ _ _ _ E4). change (negb (0 =? -1)) with true. cbv iota.
      destruct (channel_up embv arr w4 He) as (r & arr' & w5 & E5 & Hr). by exists r, arr', w5.
    - destruct Hctl as [Hc|[Hm Hwp]]; [by apply bool_decide_eq_false in Hup|].
      assert (Hr : v_rome w2 = v_rome w) by (by apply (f_equal w_rome) in V2). destruct (mute_download noise embv w2 Hm ltac:(by rewrite Hr) He) as (fd & w3 & E3). rewrite (bind_run _ _ _ _ _ E3). cbv beta iota.
      destruct (returns_set_prop "wc_transport.patch_dnld_inprog" "null" w3) as (? & w4 & E4). rewrite (bind_run _ _ _ _ _ E4).
      destruct (returns_set_prop "wc_transport.clean_up" "0" w4) as (? & w5 & E5). rewrite (bind_run _ _ _ _ _ E5). change (negb (-1 =? -1)) with false. cbv iota.
      assert (E6 : exists w6, (if 0 <=? fd then sys (sclose fd);; mret tt else mret tt) w5 = Some (tt, w6)).
      { destruct (0 <=? fd); [|by eexists]. destruct (returns_zoom v_sys put_v_sys _ (returns_sclose fd) w5) as (? & w6 & E6). exists w6. unfold sys. by rewrite (bind_run _ _ _ _ _ E6). }
      destruct E6 as (w6 & E6). rewrite (bind_run _ _ _ _ _ E6). by eexists _, _, _. }
  destruct E as (r & arr' & w' & E & Hr1 & Hr2). exists r, arr', w'. split; [done|]. split; [|split; intros; [apply Hr1|apply Hr2]; try done; unfold up; by (apply bool_decide_true || apply bool_decide_false)].
  destruct (open_inv turns arr w r arr' w' Hsoc E) as [(-> & fd & Hp & Ff & Pf & ->)|H]; [left|by right]. split; [done|]. split; [by exists fd|].
  intros w2 [= Hf2 Hp2] Hs. destruct (close_any turns w2 Hs) as (w3 & E3 & F3 & P3); [lia|by rewrite Hp2, Hf2, Pf, Ff, open_head|].
  exists w3. split; [done|]. split; [|done]. by rewrite F3, Hp2, Hf2, Pf, Ff, remove_head.
Qed.

End Total.
