(* ===== verification/VendorDemo.v ===== *)
(** * The vendor interface: concrete runs

    A device on which the theorems apply, and runs that show what happens when
    something fails. *)

From Stdlib Require Import ZArith Lia.
From stdpp Require Import list strings gmap.
From S2P Require Import Prelude BtHci CText PsFile Rome RomeProps RomeNvm RomeInit RomeDemo BtSys Userial Vendor VendorOp VendorProps VendorOpen VendorRome Ar3kProps.

Module VendorDemo.

(** ** A device *)

(** The calls of [ok] succeed; sockets are descriptor 9, files 7. *)
Definition bt (stream : list Z) (ok : string -> bool) : BtEnv := {|
  env_bwrite := fun _ _ bs => Z.of_nat (length bs);
  env_bread := fun tr _ _ => take 1 (drop (nread tr) stream);
  env_fopen := fun _ path => Demo.files path;
  env_bmalloc := fun _ => true;
  env_userial := fun _ _ => 0;
  env_stack := fun _ => [];
  env_soclog := fun _ => false;
  env_call := fun _ f _ => if negb (ok f) then -1 else if String.eqb f "socket" then 9 else if String.prefix "open " f then 7 else 0;
  env_property := fun _ _ => [];
  enable_extldo := false;
  vnd_local_bd_addr := []
|}.

Definition sysenv (stream : list Z) (ok : string -> bool) (others : bhistory -> props -> props) : SysEnv := {|
  sys_bt := bt stream ok;
  env_props := others;
  env_read := fun _ _ _ => Some (chars "bluetooth");
  env_termios := fun _ _ => Some {| c_iflag := 0x500; c_oflag := 5; c_cflag := 0xFD; c_lflag := 0x8A3B |};
  env_nv := fun _ => None;
  NV_BD_ADDR_I := 1
|}.

Definition cfg (rome sync ldo from_prop : bool) : BuildCfg := {|
  BT_SOC_TYPE_ROME := rome; ENABLE_ANT := rome; WIFI_BT_STATUS_SYNC := sync; USE_EXTERNAL_RFKILL_LDO := ldo; BT_NV_SUPPORT := false;
  READ_BT_ADDR_FROM_PROP := from_prop; BT_WAKE_VIA_USERIAL_IOCTL := false; QCOM_BT_SIBS_ENABLE := false; PANIC_ON_SOC_CRASH := false;
  HW_NEED_END_WITH_HCI_RESET := true
|}.

Definition fine (f : string) : bool := true.
Definition alone (tr : bhistory) (ps : props) : props := ps.
Definition with_prop (name v : string) (tr : bhistory) (ps : props) : props := <[name := chars v]> ps.

Definition device (stream : list Z) : SysEnv := sysenv stream fine alone.

Definition port0 : uworld :=
  {| u_cb := {| u_fd := -1; u_termios := {| c_iflag := 0; c_oflag := 0; c_cflag := 0; c_lflag := 0 |}; port_name := chars "/dev/ttyHS0" |};
     u_sys := {| s_fds := []; s_props := ∅; s_tr := [] |} |}.

Definition switch : string := "/sys/class/rfkill/rfkill0/state".

Definition world (soc : Z) : vworld :=
  {| v_u := port0; v_rome := Demo.world0; v_ar3k := {| ps_list := []; upio_state := [0; 0; 0]; a_tr := [] |}; btSocType := soc; rfkill_id := 0;
     rfkill_state := Some switch; v_extldo := true; bt_vendor_cbacks := true; v_bd_addr := Demo.addr; pFd := [0; 0]; ant_fd := -1; isInit := false |}.

Lemma calls_fine stream others tr f args : 0 <= @env_call (@sys_bt (sysenv stream fine others)) tr f args.
Proof. simpl. repeat case_match; lia. Qed.

(** ** The port *)

Lemma rate_roundtrip_witness : exists w', @rate_session (device []) (cfg true false false false) userial_init_cfg 14 port0 = Some ((115200, 3000000), w') /\
  u_fd (u_cb w') = -1 /\ s_fds (u_sys w') = [].
Proof.
  apply (@rate_roundtrip (device []) (cfg true false false false) userial_init_cfg 14 115200 3000000 port0).
  - simpl. tauto.
  - simpl. tauto.
  - done.
  - done.
  - done.
  - apply calls_fine.
Defined.

(** Seven data bits and even parity are accepted and not set: the port has
    eight and none. *)
Lemma format_ignored : exists w', @userial_vendor_open (device []) (cfg true false false false)
  {| cfg_fmt := Z.lor (Z.lor USERIAL_DATABITS_7 USERIAL_PARITY_EVEN) USERIAL_STOPBITS_1; cfg_baud := USERIAL_BAUD_115200 |} port0 = Some (7, w') /\
  Z.land (c_cflag (u_termios (u_cb w'))) (Z.lor CSIZE PARENB) = CS8 /\
  (* the device had two stop bits, and keeps them *)
  Z.land (c_cflag (u_termios (u_cb w'))) CSTOPB = CSTOPB.
Proof. eexists. split; [vm_compute; reflexivity|]. split; reflexivity. Qed.

(** ** The clients *)

Definition enabled : bhistory -> props -> props := with_prop "ro.rfkilldisabled" "0".

Lemma power_ref_count_witness : exists w' n, @power_all (sysenv [] fine enabled) (cfg true true false false) 1 [true; true; false; false] (world BT_SOC_ROME) =
    Some ([0; 0; 0; 0], w') /\ requests [true; true; false; false] 0 n /\ clients (v_sys w') = n /\ radio switch (v_tr w') = negb (n =? 0) /\ s_fds (v_sys w') = [].
Proof.
  apply (@power_ref_count (sysenv [] fine enabled) (cfg true true false false) 1 switch) with (ons := [true; true; false; false]).
  - intros. apply calls_fine.
  - intros tr ps. by apply lookup_insert_ne.
  - done.
  - done.
  - intros. apply calls_fine.
  - intros. apply calls_fine.
  - intros tr ps. unfold prop_value, env_props, sysenv, enabled, with_prop. by rewrite lookup_insert_eq.
  - done.
  - done.
  - done.
  - done.
Defined.

(** The second client is taken for the first one while the first has not begun
    its download: the first to leave switches the controller off for both. *)
Lemma second_client_lost : exists w', @power_all (sysenv [] fine enabled) (cfg true false false false) 1 [true; true; false] (world BT_SOC_ROME) = Some ([0; 0; 0], w') /\
  clients (v_sys w') = 0 /\ radio switch (v_tr w') = false.
Proof. eexists. split; [vm_compute; reflexivity|]. split; vm_compute; reflexivity. Qed.

(** A switch that cannot be written is left open, and the clients are counted. *)
Lemma failed_write_leaks : exists w', @bt_powerup (sysenv [] (fun f => negb (String.prefix "write" f)) enabled) (cfg true true false false) 1 1 (world BT_SOC_ROME) = Some (-1, w') /\
  s_fds (v_sys w') = [7] /\ clients (v_sys w') = 1.
Proof. eexists. split; [vm_compute; reflexivity|]. split; vm_compute; reflexivity. Qed.

(** The lock of the WLAN driver is kept when the regulator cannot be read. *)
Lemma failed_regulator_keeps_lock : exists w', @bt_powerup (sysenv [] (fun f => negb (String.eqb f "open /sys/class/rfkill/rfkill0/device/extldo")) enabled)
  (cfg true true true false) 1 1 (world BT_SOC_ROME) = Some (-1, w') /\ s_fds (v_sys w') = [7; 7].
Proof. eexists. split; vm_compute; reflexivity. Qed.

(** ** The shared memory channels *)

Definition always_on : bhistory -> props -> props := with_prop "bluetooth.status" "on".

Lemma smd_power_off_ignored_witness : exists w', @op (sysenv [] fine always_on) (cfg false false false false) 1 (BT_VND_OP_POWER_CTRL BT_VND_PWR_OFF) (world BT_SOC_DEFAULT) = Some ((-1, []), w') /\
  changes (v_tr w') = [] /\ s_fds (v_sys w') = [].
Proof.
  apply (@smd_power_off_ignored (sysenv [] fine always_on) (cfg false false false false) 1 (world BT_SOC_DEFAULT)).
  - done.
  - intros tr ps. unfold status_on, prop_value, env_props, sysenv, always_on, with_prop. by rewrite lookup_insert_eq.
Defined.

(** The daemon needs three waits. *)
Definition daemon (tr : bhistory) (ps : props) : props := if (3 <=? naps tr)%nat then <["bluetooth.status" := chars "on"]> ps else ps.

Lemma smd_power_on_witness : exists w', @op (sysenv [] fine daemon) (cfg false false false false) 1 (BT_VND_OP_POWER_CTRL BT_VND_PWR_ON) (world BT_SOC_DEFAULT) = Some ((0, []), w') /\
  (naps (v_tr w') <= 3)%nat.
Proof.
  apply (@smd_power_on (sysenv [] fine daemon) (cfg false false false false) 1) with (k := 3%nat) (w := world BT_SOC_DEFAULT).
  - intros. apply calls_fine.
  - intros tr ps H. unfold status_on, prop_value, env_props, sysenv, daemon. rewrite (proj2 (Nat.leb_le _ _) H). by rewrite lookup_insert_eq.
  - done.
  - simpl. lia.
Defined.

(** When the second channel cannot be opened the first one stays open. *)
Lemma half_open_channels : exists w', @op (sysenv [] (fun f => negb (String.eqb f "open /dev/smd2")) alone) (cfg false false false false) 1 (BT_VND_OP_USERIAL_OPEN [0; 0; 0; 0])
  (world BT_SOC_DEFAULT) = Some ((-1, [0; 0; 0; 0]), w') /\ s_fds (v_sys w') = [7].
Proof. eexists. split; vm_compute; reflexivity. Qed.

(** ** The Rome controller *)

Definition log_event : list Z := [0; 4; 0].
Definition stream : list Z := Demo.stream ++ packet 0xFF log_event ++ packet 0x0E [1; 0x17; 0xFC; 0].
Definition dev : SysEnv := sysenv stream fine alone.
Definition rome_cfg : BuildCfg := cfg true false false false.

Lemma rome_open_brings_up_witness : exists serial fd on started w', @op dev rome_cfg 1 (BT_VND_OP_USERIAL_OPEN [0; 0; 0; 0]) (world BT_SOC_ROME) = Some ((1, replicate CH_MAX fd ++ []), w') /\
  fds w' = [fd] /\ port_fd w' = fd /\ @filter_started rome_cfg started /\
  sent (v_tr w') = [] ++ [looked prog (chars "null"); looked emb []; looked VendorRome.soc []; set_to prog "bt"; opened_file "/dev/ttyHS0" serial; set_to VendorRome.soc "0"] ++
    outs serial (@bring_up_bytes (@env_at dev Demo.addr true) Demo.patch0 Demo.nvm_sent) ++
    [set_to VendorRome.soc "1"; closed serial; set_to prog "null"; set_to "wc_transport.clean_up" "0"] ++ started ++ connected "bt_sock" fd ++ outs fd (log_command on) /\
  RomeProps.unread stream (v_tr w') = [] /\ s_props (v_sys w') !! VendorRome.soc = Some (chars "1") /\ s_props (v_sys w') !! prog = Some (chars "null").
Proof.
  apply (@rome_open_brings_up dev rome_cfg 1 ltac:(lia)) with (pp := Demo.btfw32) (np := Demo.btnv32) (tags := [Demo.tag9; Demo.tag2]) (post := []) (s := Demo.answer) (log_ev := log_event)
    (log_done := (0x0E, [1; 0x17; 0xFC; 0])) (arr := [0; 0; 0; 0]) (w := world BT_SOC_ROME).
  - by intros.
  - done.
  - intros. apply calls_fine.
  - intros. apply calls_fine.
  - by intros.
  - by intros tr fd bs.
  - intros tr fd n _. exists 1%nat. split; [lia|done].
  - by intros tr.
  - intros. simpl. lia.
  - done.
  - done.
  - done.
  - unfold CH_MAX. simpl. lia.
  - done.
  - done.
  - done.
  - done.
  - done.
  - done.
  - constructor.
    + simpl. tauto.
    + by intros tr.
    + by intros tr.
    + done.
    + split; vm_compute; [lia|done].
    + intros _. split; [vm_compute; split; discriminate|by left].
    + split; [done|]. split; [|vm_compute; done]. constructor; [|constructor; [|constructor]]; constructor; try done; vm_compute; try lia; done.
    + vm_compute. done.
    + constructor; [repeat split; vm_compute; done|simpl; lia|repeat constructor; simpl; lia| |]; (split; [reflexivity|]); (split; [repeat constructor; apply Demo.accept_good|apply Demo.accept_good]).
  - exists 4, []. split; [done|]. split; [by left|simpl; lia].
  - simpl. lia.
  - vm_compute. reflexivity.
Defined.

(** A controller that was initialised before, and one that sends two bytes which
    are no event, on a device that sets no properties. *)
Definition marked : vworld := put_v_sys {| s_fds := []; s_props := <[VendorRome.soc := chars "1"]> ∅; s_tr := [] |} (world BT_SOC_ROME).
Definition noisy : SysEnv := sysenv [9; 9] (fun f => negb (String.prefix "property_set" f)) alone.

Lemma noisy_mute : @mute (@sys_bt noisy) 3 [9; 9].
Proof. constructor; [repeat constructor; lia|simpl; lia|done|]. intros tr fd [|b bs] Hb; [done|]. simpl. lia. Qed.

Lemma rome_open_close_witness :
  (exists fd w' w3, @op dev rome_cfg 1 (BT_VND_OP_USERIAL_OPEN [0; 0; 0; 0]) marked = Some ((1, replicate CH_MAX fd ++ []), w') /\ fds w' = [fd] /\
     @op dev rome_cfg 1 BT_VND_OP_USERIAL_CLOSE (put_btSocType BT_SOC_ROME w') = Some ((0, []), w3) /\ fds w3 = []) /\
  (exists w', @op noisy rome_cfg 3 (BT_VND_OP_USERIAL_OPEN [0; 0; 0; 0]) (world BT_SOC_ROME) = Some ((-1, [0; 0; 0; 0]), w') /\ fds w' = []).
Proof.
  assert (Hl : (CH_MAX <= length [0; 0; 0; 0])%nat) by (unfold CH_MAX; simpl; lia).
  assert (Hwp : wipower_flag (v_rome (world BT_SOC_ROME)) <> WIPOWER_IN_EMBEDDED_MODE) by by vm_compute. split.
  - destruct (@rome_open_close dev rome_cfg 1 ltac:(lia) ltac:(done) ltac:(done) [0; 0; 0; 0] marked [] eq_refl Hl ltac:(by vm_compute) ltac:(by vm_compute) (or_introl eq_refl))
      as (r & arr & w' & E & Hacc & Hup & _).
    assert (r = 1) as -> by (apply Hup; [done|intros; apply calls_fine|intros; apply calls_fine]).
    destruct Hacc as [(_ & (fd & _ & Hf & ->) & Hc)|[Hne _]]; [|discriminate Hne]. destruct (Hc (put_btSocType BT_SOC_ROME w') eq_refl eq_refl) as (w3 & E3 & F3 & _).
    exists fd, w', w3. split; [exact E|]. split; [exact Hf|]. split; [exact E3|exact F3].
  - destruct (@rome_open_close noisy rome_cfg 3 ltac:(lia) ltac:(done) ltac:(done) [0; 0; 0; 0] (world BT_SOC_ROME) [9; 9] eq_refl Hl ltac:(by vm_compute) ltac:(by vm_compute)
      (or_intror (conj noisy_mute Hwp))) as (r & arr & w' & E & Hacc & _ & Hno).
    assert (r = -1) as -> by (apply Hno; by vm_compute). destruct Hacc as [[Hne _]|(_ & Hf & ->)]; [discriminate Hne|]. exists w'. split; [exact E|exact Hf].
Defined.

(** A controller that does not answer. *)
Definition silent : SysEnv := sysenv [] fine alone.

Lemma silent_result : exists w', @op silent rome_cfg 1 (BT_VND_OP_USERIAL_OPEN [0; 0; 0; 0]) (world BT_SOC_ROME) = Some ((-1, [0; 0; 0; 0]), w') /\ port_fd w' = 7.
Proof. eexists. split; vm_compute; reflexivity. Qed.

(** Another thread has been given the number 7 in the meantime. *)
Lemma failed_open_dangles_witness : exists w' w3, @op silent rome_cfg 1 (BT_VND_OP_USERIAL_OPEN [0; 0; 0; 0]) (world BT_SOC_ROME) = Some ((-1, [0; 0; 0; 0]), w') /\ fds w' = [] /\
  @op silent rome_cfg 1 BT_VND_OP_USERIAL_CLOSE (put_btSocType BT_SOC_ROME (put_v_sys (put_s_fds [7] (v_sys w')) w')) = Some ((0, []), w3) /\ fds w3 = [].
Proof.
  destruct silent_result as (w' & E & Hp).
  destruct (@failed_open_dangles silent rome_cfg 1 [0; 0; 0; 0] (world BT_SOC_ROME) [0; 0; 0; 0] w' eq_refl E ltac:(rewrite Hp; lia)) as [Hf Hc].
  destruct (Hc (put_btSocType BT_SOC_ROME (put_v_sys (put_s_fds [7] (v_sys w')) w')) eq_refl eq_refl ltac:(rewrite Hp; reflexivity)) as (w3 & E3 & F3).
  exists w', w3. rewrite Hp in F3. split; [exact E|]. split; [exact Hf|]. split; [exact E3|exact F3].
Defined.

(** ** The AR3K controller *)

(** When it cannot be initialised the port stays open. *)
Lemma ar3k_open_leaks : exists w', @op silent rome_cfg 1 (BT_VND_OP_USERIAL_OPEN [0; 0; 0; 0]) (world BT_SOC_AR3K) = Some ((-1, [7; 7; 7; 7]), w') /\ fds w' = [7].
Proof. eexists. split; vm_compute; reflexivity. Qed.

(** ** The address *)

Definition boot : SysEnv := sysenv [] fine (fun _ ps => <["ro.boot.btmacaddr" := print_addr Demo.addr]> ps).

Lemma bd_addr_sources_witness :
  (exists w1, @init boot (cfg true false false true) true (Some Demo.addr) (world BT_SOC_ROME) = Some (0, w1) /\ v_bd_addr w1 = reverse Demo.addr) /\
  (exists w2, @read_bd_addr boot (cfg true false false true) (world BT_SOC_ROME) = Some (tt, w2) /\ v_bd_addr w2 = reverse Demo.addr).
Proof.
  destruct (@bd_addr_sources boot (cfg true false false true) Demo.addr (world BT_SOC_ROME) eq_refl ltac:(repeat constructor; vm_compute; intuition discriminate)) as [(w1 & E1 & H1 & _) H2].
  split; [by exists w1|]. apply H2; [done|]. intros tr ps. apply lookup_insert_eq.
Defined.

End VendorDemo.
